(* ===== verification/_CoqProject ===== *)
-Q . S2P
Prelude.v
Mem.v
KString.v
Boot.v
Pmm.v
Vmm.v
Pages.v
Heap.v
HeapBlocks.v
HeapProofs.v
HeapGrow.v
HeapSpec.v
HeapTheorems.v
KernelHeap.v
HeapClient.v
Scheduler.v
SchedQueue.v
SchedTable.v
SchedOps.v
SchedSweep.v
SchedRun.v
SchedSafety.v
SchedTheorems.v
Vfs.v
Initramfs.v
VfsProofs.v
Process.v
ProcessProofs.v
KState.v
FdTable.v
Ring3.v
Loader.v
Syscall.v
Run.v
UserMem.v
Ring3Proofs.v
KernelInv.v
FdProofs.v
UserCopy.v
SyscallProofs.v
ExecProofs.v
SyscallTheorems.v
ElfProofs.v
LoaderProofs.v
RunProofs.v
ProcessRun.v
StartProofs.v
KernelSample.v
ProcessTheorems.v
KernelTheorems.v
RunTheorems.v
Word64.v
Pmm64.v
Pmm64Proofs.v
Vfs64.v
Vfs64Paths.v
Vfs64Proofs.v
Vfs64Theorems.v
Heap64.v
Heap64Proofs.v
Input64.v
Input64Proofs.v
Input64Theorems.v
Text64.v
Process64.v
Process64Queue.v
Process64Tables.v
Process64Alloc.v
Process64Create.v
Process64Reap.v
Process64Run.v
Process64Theorems.v
Elf64.v
Elf64Proofs.v
Syscall64.v
Syscall64Proofs.v
Paging64.v
Paging64Proofs.v
Paging64Tables.v
Paging64Theorems.v
