(* ===== verification/Prelude.v ===== *)
(** * A verification of the Liam OS kernels

    The repository holds two kernels in C (src/core/kernel). The 32-bit kernel reads
    the Multiboot tables (core/boot.c), hands the usable memory to a page frame
    allocator (memory/pmm.c), builds page tables and turns paging on
    (arch/i386/paging.c), maps and unmaps pages (memory/vmm.c), keeps a heap in mapped
    pages (memory/heap.c), runs tasks (core/scheduler.c), has a file system compiled
    in (fs/), loads programs (loader/, core/user_image.c), and runs processes in user
    mode that call it back (core/process.c, exec.c, fd_table.c, syscall.c,
    arch/i386/ring3.c). The 64-bit kernel (arch/x86_64) is a separate program with its
    own frame allocator, heap, file system, input driver, page tables and processes.
    Every layer calls the one below it; upward calls are the bodies of tasks and the
    user programs, which are parameters. This development translates these parts and
    proves what each promises to the next.

    ** How C is modelled

    - [uint32_t] is [Z] with the wrap-around written out: [[+]], [[-]] and [[*]]
      reduce modulo 2^32, [[++]], [[--]] and [[**]] modulo 2^64 ([Word64]); [incr]
      and [decr] are [++] and [--] on 32 bits. Structures are records, updated with
      [r <| f := v |>]; flags that are only 0 or 1 are [bool]. A pointer is an address
      in [Z] with [NULL] = 0 where it is computed with, an index where it points into
      a table, an [option] where it is only tested and dereferenced.
    - Memory that the code reaches through computed addresses (Multiboot tables, page
      tables, heap headers, user pages) is a map from addresses to bytes ([Mem]).
    - A routine is a state-passing function [M S A := S -> option (A * S)]. [None] is
      a routine that never returns: [kernel_panic], a failed assertion, an access
      outside an array, a page fault, or a loop that never ends. [wp m Q s] says that
      [m] returns from [s], and in a state and with a result that satisfy [Q]. What a
      routine leaves alone in the runs that return ([keeps], [stable]) is only used
      next to a [wp], or for a step that is taken because it returns.
    - A recursive call keeps a frame on the stack: [kmalloc], which calls itself, has a
      bound on its activations ([kmalloc_nested]) and is [None] beyond it.
    - A loop is a fold over its index range, or [mloop body]: it runs its body up to
      [loop_fuel] = 2^34 times and is [None] beyond that. [wp_loop] asks for an
      invariant and a measure below that bound. The fuel is more than any loop of the
      code can use: their counters are 32-bit words or bounded by the number of
      blocks, pages, slots or bytes. It is a binary number traversed by halves, so a
      definition evaluates at the cost of the iterations it makes.

    ** Files: the 32-bit kernel

    - [Prelude] (this file): record updates, 32-bit arithmetic and [u32_lia] (hint
      databases [u32], [u32_simpl]), lists, the state monad, [wp] and its rules, and
      [keeps] (hint database [keeps]) and [stable]: what a routine leaves alone and what
      it preserves.
    - [Mem], [KString]: loads and stores; core/string.c, core/status.c, and the number
      output of drivers/vga.c as the characters it prints.
    - [Boot], [Pmm], [Vmm]: core/boot.c; memory/pmm.c; memory/vmm.c, arch/i386/paging.c
      and the translation look-aside buffer. [vmm_entry] is the translation of a page
      as the processor walks the tables.
    - [Pages]: the interface [PageProvider]/[PageProviderLaws] between the memory
      managers and the heap. [Heap], [HeapBlocks], [HeapProofs], [HeapGrow],
      [HeapSpec], [HeapTheorems]: memory/heap.c over a page provider.
    - [KernelHeap]: the interface [KernelHeap]/[KernelHeapLaws] between the heap and
      its clients, implemented in [HeapClient], which also has the abstract allocator and
      the refinement of it. [Scheduler], [SchedQueue],
      [SchedTable], [SchedOps], [SchedSweep], [SchedRun], [SchedSafety],
      [SchedTheorems]: core/scheduler.c over a kernel heap.
    - [Vfs], [Initramfs], [VfsProofs]: fs/vfs.c and the tree of fs/initramfs.c.
    - [Process], [FdTable], [KState]: core/process.c, core/fd_table.c and the state
      behind the system calls. [Ring3]: arch/i386/ring3.c and tss.c. [Loader]:
      loader/flat_binary.c, loader/elf32.c, core/user_image.c. [Syscall]:
      core/exec.c, core/syscall.c. [Run]: process_run and a user program as the
      sequence of what it does between entry and exit.
      [KernelTheorems] adds the machine that runs a user program: the kernel, the
      scheduler that the handler of drivers/timer.c runs, and the exception handler of
      arch/i386/idt.c.
    - [UserMem], [Ring3Proofs], [KernelInv], [FdProofs], [UserCopy], [SyscallProofs],
      [ExecProofs], [ElfProofs], [LoaderProofs], [RunProofs], [ProcessRun],
      [StartProofs]: the invariant [kernel_inv] and the contracts; [KernelSample] a
      concrete kernel; [ProcessProofs], [SyscallTheorems], [ProcessTheorems],
      [KernelTheorems], [RunTheorems] the theorems.

    ** Files: the 64-bit kernel

    - [Word64]: 64-bit arithmetic, words in memory, ring buffers.
    - [Pmm64], [Pmm64Proofs]: pmm.c.
    - [Vfs64], [Vfs64Paths], [Vfs64Proofs], [Vfs64Theorems]: vfs.c.
    - [Heap64], [Heap64Proofs]: heap.c.
    - [Input64], [Input64Proofs], [Input64Theorems]: the interrupt handler, timer,
      keyboard and event queue of idt.c.
    - [Text64]: the text buffers of process.c. [Process64]: process.c and the
      processor's walk of the tables ([walk64]). [Process64Queue] (exit codes, process
      list), [Process64Tables] (memory and tables), [Process64Alloc] (address spaces),
      [Process64Create], [Process64Reap], [Process64Run] (the invariant
      [process64_inv] and runs), [Process64Theorems].
    - [Elf64], [Elf64Proofs]: the ELF loader of syscall_dispatch.h, its reference and
      the equivalence. [Syscall64], [Syscall64Proofs]: the rest of syscall_dispatch.h,
      every service over the components above, with the pointers of the caller going
      through its page tables; and user_mode.c with the end of the stub in
      idt_stubs.asm (switch of CR3), from a call to the return of a child.
    - [Paging64]: memory_layout.c, pmm_plan.c, paging_plan.c, paging_builder.c, the
      start of user_mode.c and the order of the calls of kernel.c ([kernel64_start]), the
      load of CR3 among them.
      [Paging64Proofs] (frames, the first program), [Paging64Tables] (the tables and
      their walk), [Paging64Theorems].

    ** What the theorems show

    - Frames: a frame has one owner, in both allocators, in every run of a client;
      the 64-bit allocator starts with exactly the frames above the kernel; process
      creation, exit and reaping lose no frame and share none.
    - Page tables: the 32-bit kernel maps exactly the first 128 MiB to themselves; map
      and unmap change one translation or none; no interleaving uses a stale
      translation. The first tables of the 64-bit kernel translate every address as a
      reference says. A 64-bit process sees exactly its image, zeros, its stack and the
      kernel's half, and user code can reach nothing else.
    - Start: each kernel's start leaves the invariant that the theorems about its later
      calls assume, the 64-bit one from the memory map on; under the tables it has then
      loaded it reaches every frame that it took at its physical address.
    - Heap: [kmalloc] returns for requests of up to 0xFFFFEFF0 bytes on heaps of up to
      4080 blocks, and calls itself at most once; the calls of a client, with their
      arguments and results, are a trace of an abstract allocator of disjoint blocks
      with contents; growth that fails is undone. The 64-bit heap takes all its frames
      or none.
    - Scheduling: no sequence of the calls of scheduler.h that change its state and of
      timer interrupts fails an assertion of the 32-bit scheduler, provided that unlocks
      are matched and task bodies keep [bodies_ok]; the lock nests, and its last unlock
      restores the flags; both schedulers are round robin with a bounded wait.
    - Files: path lookup and normalization equal references on the components of a
      path; what is written is read back; no sequence of calls leaves a table.
    - Programs: the ELF loaders accept exactly the files of their references and load
      exactly their bytes; 32-bit system calls return for all arguments and change only
      the user's pages, the caller's descriptors and new processes; a user program
      cannot change anything else, whatever it stores, calls or is interrupted by (a
      store outside its pages halts the machine); at most one process runs; exec runs the
      program with the arguments it was given; a run leaves the kernel ready for the
      next. The 64-bit
      [spawn] and [exec] go from a path in the caller's memory to a process in which
      user code finds exactly the program of the file; a bad pointer changes nothing;
      a program that exits leaves nothing behind but its exit code, if it made no exec
      and no spawn of its own and its calls wrote to its own memory.
    - Input: the keyboard and event buffers refine bounded queues in every
      interleaving of interrupts and readers; waiting for ticks ends.
    - Where the code does not do what it means to, a theorem exhibits it on a concrete
      state ([kmalloc_huge_request], [kmalloc_wrapped_growth],
      [scheduler_audit_false_alarm], [vfs64_dotdot_loses_node],
      [heap64_large_block_overlaps], [timer_wait_wraps],
      [syscall64_writes_kernel_page] and others).

    ** Parameters and hypotheses

    - [call_entry]: the body of a task or kernel process for each entry address, with
      what it must respect ([bodies_ok]). [user_script] is what a user program does;
      only its entry is constrained ([well_behaved]). [cpu_registers] are the register
      values at a context switch, [text_at_null] the bytes at address 0, and
      [addr_tss_entry], [addr_syscall_stack] addresses that the linker chooses.
    - [images], [user_image], and the [image] of the first 64-bit program: the
      programs that are assembled and linked into the kernels; lists of bytes.
    - [port_value], [interrupts_enabled], [arrivals] ([Input64]): what the ports read
      as and when interrupts arrive. [typed], [sy_polls] ([Syscall64]): the scancodes
      and serial characters that arrive while a read waits;
      [desktop_services_snapshot], [desktop_services_present_demo_window]: the framebuffer
      code, which in [user64_exec_cycle] leaves processes, files and the current process
      alone ([snapshot_quiet], [present_quiet]).
    - [region_clears_kernel]: no usable region ends inside the 32-bit kernel image.
      Physical memory ends below 2^45.
    - Page tables and frames are accessed at their physical addresses. In the 32-bit
      kernel ([read32], [write32]) this is the identity map of the first 128 MiB, which
      holds as long as nobody remaps the page of a table itself. In the 64-bit kernel
      ([clear_page64] and the accesses of [Process64] and [Paging64]) it holds for the
      frames below 1 GiB outside 0x400000 to 0x5FFFFF, where the first tables map the
      program; [kernel64_start_establishes] assumes it of the frames the start takes, and
      proves the mapping.
    - A read past the end of a string or path argument gives 0, its terminator
      ([char_at]); writes are checked against the array.
    - The scheduler of [KernelTheorems.machine] has its own heap state, and the bodies of
      its tasks act on the scheduler only.
    - [console] is the list of characters given to the screen driver. [UTick] steps of
      a user script move the tick counter; in [machine_step] they run the scheduler.
      [x86_64_process_prepare_next_user] is called with a pointer that is not null.

    ** Not modelled

    Screen, serial and log output beyond the characters given to it, the framebuffer
    and the desktop, port I/O of the 32-bit drivers, descriptor tables, CR0 and
    the 32-bit CR3 loads, boot and interrupt entry in assembly, and the userland
    programs, which are assembly. The self tests, the shell and the statistics printers call what is
    modelled and print. *)
From stdpp Require Export base tactics list list_numbers numbers gmap.
From Stdlib Require Export ZArith Lia.

#[global] Open Scope Z_scope.
(** * Record updates

    C structures become records; an assignment [p->f = v] is written
    [p <| f := v |>] and an update of the old value [p <| f ::= g |>]. A record
    type declares its eta-expansion as a [Settable] instance, from which the
    setter of every field is computed. *)

Class Settable (R : Type) : Type := eta : R -> R.

Class Setter {R E : Type} (proj : R -> E) : Type :=
  set_field : (E -> E) -> R -> R.
Arguments set_field {R E} proj {Setter} _ _.

Ltac solve_setter :=
  lazymatch goal with
  | |- @Setter ?R ?E ?p =>
      let inst := constr:(_ : Settable R) in
      let inst' := (eval red in inst) in
      lazymatch eval pattern p in inst' with
      | ?g _ =>
          let t := eval cbv beta in (fun f : E -> E => g (fun r : R => f (p r))) in
          exact t
      end
  end.

#[export] Hint Extern 1 (Setter _) => solve_setter : typeclass_instances.

Declare Scope c_scope.
Delimit Scope c_scope with c.
#[global] Open Scope c_scope.

Notation "x <| p := v |>" := (set_field p (fun _ => v) x)
  (at level 1, p at level 99, v at level 99, left associativity) : c_scope.
Notation "x <| p ::= f |>" := (set_field p f x)
  (at level 1, p at level 99, f at level 99, left associativity) : c_scope.

(** * 32-bit unsigned arithmetic

    [uint32_t] values are integers in [0, 2^32); every C operator that can
    leave that range is followed by the reduction [u32]. *)

Definition u32 (z : Z) : Z := z mod 4294967296.
Definition u8 (z : Z) : Z := z mod 256.

Definition is_u32 (z : Z) : Prop := 0 <= z < 4294967296.

Notation "x [+] y" := (u32 (x + y)) (at level 50, left associativity) : c_scope.
Notation "x [-] y" := (u32 (x - y)) (at level 50, left associativity) : c_scope.
Notation "x [*] y" := (u32 (x * y)) (at level 40, left associativity) : c_scope.

(** [x++] on a [uint32_t]. *)
Definition incr (x : Z) : Z := x [+] 1.
(** [x--] on a [uint32_t]. *)
Definition decr (x : Z) : Z := x [-] 1.
#[global] Arguments u32 : simpl never.
#[global] Arguments u8 : simpl never.
#[global] Arguments incr : simpl never.
#[global] Arguments decr : simpl never.
(** [~x] on a [uint32_t]. *)
Definition not32 (x : Z) : Z := 4294967295 - x.

Ltac u32_lia :=
  unfold incr, decr, not32, is_u32, u32, u8 in *;
  Z.div_mod_to_equations; lia.

Lemma u32_range z : is_u32 (u32 z).
Proof. unfold is_u32, u32. apply Z.mod_pos_bound. lia. Qed.

Lemma u32_small z : is_u32 z -> u32 z = z.
Proof. unfold is_u32, u32. apply Z.mod_small. Qed.

Lemma u32_idem z : u32 (u32 z) = u32 z.
Proof. apply u32_small, u32_range. Qed.

Lemma u32_add_l x y : u32 (u32 x + y) = u32 (x + y).
Proof. unfold u32. apply Zplus_mod_idemp_l. Qed.

Lemma u32_add_r x y : u32 (x + u32 y) = u32 (x + y).
Proof. unfold u32. apply Zplus_mod_idemp_r. Qed.

Lemma u32_sub_l x y : u32 (u32 x - y) = u32 (x - y).
Proof. unfold u32. apply Zminus_mod_idemp_l. Qed.

Lemma u32_sub_r x y : u32 (x - u32 y) = u32 (x - y).
Proof. unfold u32. apply Zminus_mod_idemp_r. Qed.

Lemma incr_small x : 0 <= x < 4294967295 -> incr x = x + 1.
Proof. intros. apply u32_small. unfold is_u32. lia. Qed.

Lemma decr_small x : 0 < x <= 4294967295 -> decr x = x - 1.
Proof. intros. apply u32_small. unfold is_u32. lia. Qed.

Create HintDb u32.
#[export] Hint Resolve u32_range : u32.
Create Rewrite HintDb u32_simpl.
#[export] Hint Rewrite u32_idem u32_add_l u32_add_r u32_sub_l u32_sub_r : u32_simpl.

(** ** Bit masks *)

(** Clearing the low [k] bits of a word of [w] bits. *)
Lemma land_mask_width w x k :
  0 <= x < 2 ^ w -> 0 <= k <= w -> Z.land x (2 ^ w - 2 ^ k) = 2 ^ k * (x / 2 ^ k).
Proof.
  intros Hx Hk.
  replace (2 ^ w - 2 ^ k) with (Z.ldiff (Z.ones w) (Z.ones k)).
  2:{ rewrite <- Z.sub_nocarry_ldiff.
      - rewrite !Z.ones_equiv. lia.
      - apply Z.bits_inj'. intros n Hn. rewrite Z.bits_0, Z.ldiff_spec.
        rewrite !Z.testbit_ones_nonneg by lia.
        destruct (Z.ltb_spec n k), (Z.ltb_spec n w); simpl; lia. }
  rewrite Z.mul_comm, <- Z.shiftr_div_pow2, <- Z.shiftl_mul_pow2 by lia.
  apply Z.bits_inj'. intros n Hn.
  rewrite Z.land_spec, Z.ldiff_spec, !Z.testbit_ones_nonneg by lia.
  destruct (Z.ltb_spec n k) as [Hnk|Hnk].
  - rewrite Z.shiftl_spec_low by lia. now rewrite !andb_false_r.
  - rewrite Z.shiftl_spec, Z.shiftr_spec by lia.
    replace (n - k + k) with n by lia. rewrite andb_true_r.
    destruct (Z.ltb_spec n w) as [Hnw|Hnw]; [now rewrite andb_true_r|].
    rewrite andb_false_r. symmetry.
    destruct (decide (x = 0)) as [->|]; [apply Z.bits_0|].
    apply Z.bits_above_log2; [lia|]. apply Z.lt_le_trans with w; [|lia].
    apply Z.log2_lt_pow2; lia.
Qed.

Lemma land_high_mask x k :
  is_u32 x -> 0 <= k <= 32 ->
  Z.land x (4294967296 - 2 ^ k) = 2 ^ k * (x / 2 ^ k).
Proof. apply (land_mask_width 32). Qed.

(** Keeping the low [k] bits. *)
Lemma land_low_mask x k : 0 <= k -> Z.land x (2 ^ k - 1) = x mod 2 ^ k.
Proof.
  intros. rewrite <- Z.land_ones by done. f_equal. rewrite Z.ones_equiv. lia.
Qed.

(** Setting bits that are clear is an addition. *)
Lemma lor_disjoint_add a b : Z.land a b = 0 -> Z.lor a b = a + b.
Proof.
  intros H. rewrite <- (Z.lxor_lor _ _ H), Z.add_nocarry_lxor by exact H.
  reflexivity.
Qed.

(** A page-aligned word and a 12-bit field do not overlap. *)
Lemma land_aligned_low a k b :
  0 <= k -> 0 <= b < 2 ^ k -> a mod 2 ^ k = 0 -> Z.land a b = 0.
Proof.
  intros Hk Hb Ha. destruct (decide (b = 0)) as [->|Hb0]; [apply Z.land_0_r|].
  apply Z.bits_inj'. intros n Hn. rewrite Z.land_spec, Z.bits_0.
  destruct (Z.ltb_spec n k).
  - replace (Z.testbit a n) with false; [done|].
    rewrite <- (Z.mod_pow2_bits_low a k n) by lia. now rewrite Ha, Z.bits_0.
  - rewrite (Z.bits_above_log2 b n); [apply andb_false_r|lia|].
    apply Z.lt_le_trans with k; [apply Z.log2_lt_pow2; lia|lia].
Qed.

(** ** Counting *)

Fixpoint count_if {A} (p : A -> bool) (l : list A) : Z :=
  match l with [] => 0 | x :: l' => (if p x then 1 else 0) + count_if p l' end.

Lemma count_if_app {A} (p : A -> bool) l l' : count_if p (l ++ l') = count_if p l + count_if p l'.
Proof. induction l as [|x l IH]; cbn [count_if app]; lia. Qed.

Lemma count_if_bound {A} (p : A -> bool) l : 0 <= count_if p l <= Z.of_nat (length l).
Proof. induction l as [|x l IH]; cbn [count_if length]; [lia|]. destruct (p x); lia. Qed.

Lemma count_if_fmap {A B} (p : B -> bool) (f : A -> B) l :
  count_if p (f <$> l) = count_if (fun x => p (f x)) l.
Proof. induction l as [|x l IH]; cbn; [done|]. by rewrite IH. Qed.

Lemma count_if_ext {A} (p q : A -> bool) l :
  (forall x, x ∈ l -> p x = q x) -> count_if p l = count_if q l.
Proof.
  induction l as [|x l IH]; intros H; [done|]. cbn. rewrite H, IH; [done| |].
  - intros y Hy. apply H. by right.
  - by left.
Qed.

Lemma count_if_none {A} (p : A -> bool) l :
  (forall x, x ∈ l -> p x = false) -> count_if p l = 0.
Proof.
  intros H. rewrite (count_if_ext p (fun _ => false)) by done.
  induction l as [|x l IH]; [done|]. cbn. rewrite IH; [done|]. intros y Hy. apply H. by right.
Qed.

(** ** Lists *)

(** Removing the only occurrence of an element. *)
Lemma nodup_split_unique {A} (l l' r r' : list A) (c : A) :
  NoDup (l ++ c :: r) -> l ++ c :: r = l' ++ c :: r' -> l' ++ r' = l ++ r.
Proof.
  revert l'. induction l as [|x l IH]; intros [|y l'] Hnd E; cbn in *.
  - by injection E as ->.
  - injection E as -> E. apply NoDup_cons in Hnd as [Hn _]. exfalso. apply Hn. rewrite E.
    apply elem_of_app. right. by left.
  - injection E as -> E. apply NoDup_cons in Hnd as [Hn _]. exfalso. apply Hn.
    apply elem_of_app. right. by left.
  - injection E as -> E. apply NoDup_cons in Hnd as [_ Hnd]. f_equal. by apply IH.
Qed.

(** ** Reachability *)

(** What every step preserves holds in every reachable state. *)
Lemma rtc_invariant {A} (R : relation A) (I : A -> Prop) :
  (forall x y, R x y -> I x -> I y) -> forall x y, rtc R x y -> I x -> I y.
Proof. intros Hstep x y Hxy. induction Hxy; eauto. Qed.

(** * Status codes (core/status.h) *)

Definition KERNEL_OK := 0.
Definition KERNEL_ERROR_UNKNOWN := -1.
Definition KERNEL_ERROR_INVALID_ARGUMENT := -2.
Definition KERNEL_ERROR_NOT_FOUND := -3.
Definition KERNEL_ERROR_OUT_OF_MEMORY := -4.
Definition KERNEL_ERROR_ALREADY_EXISTS := -5.
Definition KERNEL_ERROR_NOT_INITIALIZED := -6.
Definition KERNEL_ERROR_BUSY := -7.
Definition KERNEL_ERROR_PERMISSION_DENIED := -8.
Definition KERNEL_ERROR_UNSUPPORTED := -9.
Definition KERNEL_ERROR_INVALID_STATE := -10.
Definition KERNEL_ERROR_CORRUPTION_DETECTED := -11.
Definition KERNEL_ERROR_TIMEOUT := -12.

(** * The kernel monad

    A kernel routine that works on a state [S] and returns an [A]. [None] is
    a routine that never returns to its caller: [kernel_panic] was called or a
    loop ran out of the fuel below. *)

Definition M (S A : Type) : Type := S -> option (A * S).

Definition mret_ {S A} (a : A) : M S A := fun s => Some (a, s).
Definition mbind_ {S A B} (m : M S A) (k : A -> M S B) : M S B :=
  fun s => match m s with Some (a, s') => k a s' | None => None end.
Definition mget {S A} (f : S -> A) : M S A := fun s => Some (f s, s).
Definition mmod {S} (f : S -> S) : M S unit := fun s => Some (tt, f s).
Definition mhalt {S A} : M S A := fun _ => None.

Notation "x <- m ;; k" := (mbind_ m (fun x => k))
  (at level 100, m at next level, right associativity) : c_scope.
Notation "m ;;; k" := (mbind_ m (fun _ => k))
  (at level 100, right associativity) : c_scope.

(** [if (c) m] without an else branch. *)
Definition mwhen {S} (b : bool) (m : M S unit) : M S unit :=
  if b then m else mret_ tt.

(** Running a component's routine on its part of a larger state. *)
Definition mzoom {S T A} (get : S -> T) (put : T -> S -> S) (m : M T A) : M S A :=
  fun s => match m (get s) with
           | Some (a, t) => Some (a, put t s)
           | None => None
           end.

(** [array[i]]; reading outside an array is undefined and never returns. *)
Definition array_at {S A} (l : list A) (i : Z) : M S A := fun s =>
  match l !! Z.to_nat i with Some x => Some (x, s) | None => None end.

(** [for (i ...)] over a fixed list of indices. *)
Fixpoint mfor {S X} (xs : list X) (body : X -> M S unit) : M S unit :=
  match xs with
  | [] => mret_ tt
  | x :: xs' => body x ;;; mfor xs' body
  end.

(** The same with [return] inside the loop: [Some r] leaves it with [r]. *)
Fixpoint mfor_ret {S X R} (xs : list X) (body : X -> M S (option R)) : M S (option R) :=
  match xs with
  | [] => mret_ None
  | x :: xs' =>
      r <- body x ;;
      match r with Some v => mret_ (Some v) | None => mfor_ret xs' body end
  end.

(** The same with an accumulator. *)
Fixpoint mfold {S X A} (xs : list X) (body : A -> X -> M S A) (a : A) : M S A :=
  match xs with
  | [] => mret_ a
  | x :: xs' => a' <- body a x ;; mfold xs' body a'
  end.

(** [while] loops. The body maps the loop's local variables to new ones
    ([inl]) or leaves the loop with a result ([inr]). The fuel is a binary
    number, so that running out of [2^34] iterations costs nothing to write;
    every loop of the kernel is shown to need fewer. *)
Definition mstep {S L R} (k : L -> M S (L + R)) (r : L + R) : M S (L + R) :=
  match r with inl l => k l | inr v => mret_ (inr v) end.

Fixpoint miter {S L R} (p : positive) (body : L -> M S (L + R)) (l : L) : M S (L + R) :=
  match p with
  | xH => body l
  | xO q => r <- miter q body l ;; mstep (miter q body) r
  | xI q => r <- body l ;; r' <- mstep (miter q body) r ;; mstep (miter q body) r'
  end.

Definition loop_fuel : positive := 17179869184.

Definition mloop {S L R} (body : L -> M S (L + R)) (l : L) : M S R :=
  r <- miter loop_fuel body l ;;
  match r with inr v => mret_ v | inl _ => mhalt end.

(** ** Weakest preconditions

    [wp m Q s]: the routine [m] started in [s] returns, and its result and
    final state satisfy [Q]. *)

Definition wp {S A} (m : M S A) (Q : A -> S -> Prop) (s : S) : Prop :=
  exists a s', m s = Some (a, s') /\ Q a s'.

Section WP.
Context {S : Type}.

Lemma wp_ret {A} (a : A) Q (s : S) : Q a s -> wp (mret_ a) Q s.
Proof. intros. exists a, s. split; [reflexivity|done]. Qed.

Lemma wp_bind {A B} (m : M S A) (k : A -> M S B) Q s :
    wp m (fun a s' => wp (k a) Q s') s -> wp (mbind_ m k) Q s.
Proof.
    intros (a & s' & Hm & b & s'' & Hk & HQ). exists b, s''. split; [|done].
    unfold mbind_. now rewrite Hm.
Qed.

Lemma wp_get {A} (f : S -> A) Q (s : S) : Q (f s) s -> wp (mget f) Q s.
Proof. intros. exists (f s), s. split; [reflexivity|done]. Qed.

Lemma wp_mod (f : S -> S) Q s : Q tt (f s) -> wp (mmod f) Q s.
Proof. intros. exists tt, (f s). split; [reflexivity|done]. Qed.

Lemma wp_array_at {A} (l : list A) i x (Q : A -> S -> Prop) (s : S) :
  l !! Z.to_nat i = Some x -> Q x s -> wp (array_at l i) Q s.
Proof. intros E HQ. exists x, s. split; [unfold array_at; by rewrite E|done]. Qed.

Lemma wp_mono {A} (m : M S A) (P Q : A -> S -> Prop) s :
    wp m P s -> (forall a s', P a s' -> Q a s') -> wp m Q s.
Proof. intros (a & s' & Hm & HP) HPQ. exists a, s'. auto. Qed.

Lemma wp_conj {A} (m : M S A) (P Q : A -> S -> Prop) s :
    wp m P s -> wp m Q s -> wp m (fun a s' => P a s' /\ Q a s') s.
Proof.
    intros (a & s' & Hm & HP) (a2 & s2 & Hm2 & HQ).
    rewrite Hm in Hm2. injection Hm2 as <- <-. exists a, s'. auto.
Qed.

  (** The value of a routine that is known to return. *)
Lemma wp_run {A} (m : M S A) Q s a s' : wp m Q s -> m s = Some (a, s') -> Q a s'.
Proof. intros (b & t & Hm & HQ) E. rewrite E in Hm. injection Hm as <- <-. done. Qed.

Lemma wp_when (b : bool) (m : M S unit) Q s :
    (b = true -> wp m Q s) -> (b = false -> Q tt s) -> wp (mwhen b m) Q s.
Proof. intros Ht Hf. destruct b; simpl; [by apply Ht|by apply wp_ret, Hf]. Qed.

Lemma wp_zoom {T A} (get : S -> T) put (m : M T A) Q (s : S) :
    wp m (fun a t => Q a (put t s)) (get s) -> wp (mzoom get put m) Q s.
Proof.
    intros (a & t & Hm & HQ). exists a, (put t s). split; [|done].
    unfold mzoom. now rewrite Hm.
Qed.

  (** [for] loops: an invariant on the indices already treated. *)
Lemma wp_for {X} (xs : list X) (body : X -> M S unit) (I : list X -> S -> Prop) Q s :
    I [] s ->
    (forall l x r s', xs = l ++ x :: r -> I l s' -> wp (body x) (fun _ => I (l ++ [x])) s') ->
    (forall s', I xs s' -> Q tt s') ->
    wp (mfor xs body) Q s.
Proof.
    intros H0 Hstep HQ.
    enough (forall r l s', xs = l ++ r -> I l s' -> wp (mfor r body) Q s') as H
      by exact (H xs [] s eq_refl H0).
    induction r as [|x r IH]; intros l s' E Hl.
    - apply wp_ret, HQ. rewrite app_nil_r in E. by subst.
    - simpl. apply wp_bind. eapply wp_mono; [by eapply Hstep|].
      intros u s'' HI. apply (IH (l ++ [x])); [|done].
      now rewrite <- app_assoc.
Qed.

  (** The same when one invariant holds throughout. *)
Lemma wp_for_inv {X} (xs : list X) (body : X -> M S unit) (I : S -> Prop) s :
    I s -> (forall x s', x ∈ xs -> I s' -> wp (body x) (fun _ => I) s') ->
    wp (mfor xs body) (fun _ => I) s.
Proof.
    intros H0 Hstep. apply (wp_for xs body (fun _ => I)); [done| |done].
    intros l x r s' -> HI. apply Hstep; [set_solver|done].
Qed.

  (** ... over [for (i = 0; i < n; i++)]. *)
Lemma wp_for_seqZ n (body : Z -> M S unit) (I : Z -> S -> Prop) Q s :
    0 <= n -> I 0 s ->
    (forall i s', 0 <= i < n -> I i s' -> wp (body i) (fun _ => I (i + 1)) s') ->
    (forall s', I n s' -> Q tt s') ->
    wp (mfor (seqZ 0 n) body) Q s.
Proof.
    intros Hn H0 Hstep HQ. apply (wp_for _ _ (fun l => I (Z.of_nat (length l)))); [done| |].
    - intros l x r s' E HI.
      assert (seqZ 0 n !! length l = Some x) as Hx by (by rewrite E, list_lookup_middle).
      apply lookup_seqZ in Hx as [Hx Hlt].
      replace (Z.of_nat (length (l ++ [x]))) with (x + 1) by (rewrite length_app; cbn; lia).
      apply Hstep; [lia|]. by replace x with (Z.of_nat (length l)) by lia.
    - intros s' HI. rewrite length_seqZ, Z2Nat.id in HI by done. auto.
Qed.

Lemma wp_fold {X A} (xs : list X) (body : A -> X -> M S A) (I : list X -> A -> S -> Prop) a
      (Q : A -> S -> Prop) s :
    I [] a s ->
    (forall l x r a' s', xs = l ++ x :: r -> I l a' s' ->
       wp (body a' x) (fun a'' => I (l ++ [x]) a'') s') ->
    (forall a' s', I xs a' s' -> Q a' s') ->
    wp (mfold xs body a) Q s.
Proof.
    intros H0 Hstep HQ.
    enough (forall r l a' s', xs = l ++ r -> I l a' s' -> wp (mfold r body a') Q s') as H
      by exact (H xs [] a s eq_refl H0).
    induction r as [|x r IH]; intros l a' s' E Hl.
    - apply wp_ret, HQ. rewrite app_nil_r in E. by subst.
    - simpl. apply wp_bind. eapply wp_mono; [by eapply Hstep|].
      intros a'' s'' HI. apply (IH (l ++ [x])); [|done].
      now rewrite <- app_assoc.
Qed.

  (** An accumulator that the body no longer changes. *)
Lemma wp_fold_stop {X A} (xs : list X) (body : A -> X -> M S A) a (Q : A -> S -> Prop) s :
    (forall x, body a x = mret_ a) -> Q a s -> wp (mfold xs body a) Q s.
Proof.
    intros Hb HQ. induction xs as [|x xs IH]; [by apply wp_ret|]. cbn [mfold]. rewrite Hb.
    by apply wp_bind, wp_ret.
Qed.

  (** [while] loops: an invariant and a measure that every iteration lowers. *)
Section Loop.
Context {L R : Type} (body : L -> M S (L + R)).
Context (I : L -> S -> Prop) (mu : L -> S -> Z) (Q : R -> S -> Prop).
Hypothesis body_ok : forall l s, I l s ->
      wp (body l) (fun r s' => match r with
                               | inl l' => I l' s' /\ 0 <= mu l' s' < mu l s
                               | inr v => Q v s'
                               end) s.

Lemma wp_iter p : forall l s, I l s ->
      wp (miter p body l)
         (fun r s' => match r with
                      | inl l' => I l' s' /\ 0 <= mu l' s' <= mu l s - Zpos p
                      | inr v => Q v s'
                      end) s.
Proof using body_ok.
      assert (Hseq : forall p q m,
        (forall l s, I l s -> wp (miter p body l)
           (fun r s' => match r with
                        | inl l' => I l' s' /\ 0 <= mu l' s' <= mu l s - Zpos p
                        | inr v => Q v s' end) s) ->
        forall (r : L + R) s,
          match r with inl l' => I l' s /\ 0 <= mu l' s <= m - Zpos q | inr v => Q v s end ->
          wp (mstep (miter p body) r)
             (fun r s' => match r with
                          | inl l' => I l' s' /\ 0 <= mu l' s' <= m - Zpos p - Zpos q
                          | inr v => Q v s' end) s).
      { intros p' q m IH [l|v] s H; simpl; [|by apply wp_ret].
        destruct H as [HI Hm]. eapply wp_mono; [by apply IH|].
        intros [l'|v'] s' H; [|done]. split; [apply H|]. lia. }
      induction p as [p IH|p IH|]; intros l s HI; simpl.
      - apply wp_bind. eapply wp_mono; [by apply body_ok|]. intros r s1 H1.
        apply wp_bind. eapply wp_mono.
        + apply (Hseq p 1%positive (mu l s) IH).
          destruct r; [split; [apply H1|lia]|done].
        + intros r' s2 H2. eapply wp_mono.
          * apply (Hseq p (p + 1)%positive (mu l s) IH).
            destruct r'; [split; [apply H2|lia]|done].
          * intros [l3|v] s3 H3; [|done]. split; [apply H3|lia].
      - apply wp_bind. eapply wp_mono; [by apply IH|]. intros r s1 H1.
        eapply wp_mono; [by apply (Hseq p p (mu l s) IH)|].
        intros [l3|v] s3 H3; [|done]. split; [apply H3|lia].
      - eapply wp_mono; [by apply body_ok|]. intros [l'|v] s1 H1; [|done].
        split; [apply H1|lia].
Qed.

Lemma wp_loop l s :
      I l s -> mu l s < 17179869184 -> wp (mloop body l) Q s.
Proof using body_ok.
      intros HI Hmu. apply wp_bind.
      eapply wp_mono; [by apply (wp_iter loop_fuel)|].
      intros [l'|v] s' H; [unfold loop_fuel in H; lia|]. by apply wp_ret.
Qed.
End Loop.

(** A loop whose first iteration leaves it. *)
Lemma wp_loop_first {L R} (body : L -> M S (L + R)) (Q : R -> S -> Prop) l s :
  wp (body l) (fun r s' => match r with inl _ => False | inr v => Q v s' end) s ->
  wp (mloop body l) Q s.
Proof.
  intros Hb. apply (wp_loop body (fun l' s' => l' = l /\ s' = s) (fun _ _ => 0)); [|done|lia].
  intros l' s' [-> ->]. eapply wp_mono; [exact Hb|]. intros [l'|v] s' Hr; [done|exact Hr].
Qed.
End WP.

(** The state after a run. *)
Definition final {S A} (m : M S A) (s : S) : S :=
  match m s with Some (_, s') => s' | None => s end.

Lemma final_run {S A} (m : M S A) s a : fst <$> m s = Some a -> m s = Some (a, final m s).
Proof. unfold final. destruct (m s) as [[b s']|]; cbn; [|done]. by intros [= ->]. Qed.

(** Symbolic execution of straight-line code. *)
Ltac wp_step :=
  lazymatch goal with
  | |- wp (mbind_ _ _) _ _ => apply wp_bind
  | |- wp (mret_ _) _ _ => apply wp_ret
  | |- wp (mget _) _ _ => apply wp_get
  | |- wp (mmod _) _ _ => apply wp_mod
  | |- wp (mwhen _ _) _ _ => apply wp_when; intro
  | |- wp (if ?b then _ else _) _ _ => destruct b eqn:?
  end; cbv beta.
Ltac wp_steps := repeat wp_step.

(** ** Parts of the state that a routine leaves alone *)

(** [m] leaves [f] of the state as it is. *)
Definition keeps {S A B} (f : S -> B) (m : M S A) : Prop := forall s a s', m s = Some (a, s') -> f s' = f s.

Section Keeps.
Context {S B : Type} (f : S -> B).

Lemma keeps_ret {A} (a : A) : keeps f (mret_ a).
Proof using. by intros s ? ? [= <- <-]. Qed.
Lemma keeps_halt {A} : keeps f (@mhalt S A).
Proof using. done. Qed.
Lemma keeps_get {A} (g : S -> A) : keeps f (mget g).
Proof using. by intros s ? ? [= <- <-]. Qed.
Lemma keeps_mod g : (forall s, f (g s) = f s) -> keeps f (mmod g).
Proof using. by intros H s ? ? [= <- <-]. Qed.
Lemma keeps_array_at {A} (l : list A) i : keeps f (array_at l i).
Proof using. intros s a s'. unfold array_at. case_match; [|done]. by intros [= <- <-]. Qed.
Lemma keeps_bind {A C} (m : M S A) (k : A -> M S C) : keeps f m -> (forall a, keeps f (k a)) -> keeps f (mbind_ m k).
Proof using. intros Hm Hk s c s'. unfold mbind_. destruct (m s) as [[a s1]|] eqn:E; [|done]. intros H. by rewrite (Hk _ _ _ _ H), (Hm _ _ _ E). Qed.
Lemma keeps_when b m : keeps f m -> keeps f (mwhen b m).
Proof using. destruct b; [done|]. intros _. apply keeps_ret. Qed.
Lemma keeps_zoom {T A} (get : S -> T) put (m : M T A) : (forall t s, f (put t s) = f s) -> keeps f (mzoom get put m).
Proof using. intros H s a s'. unfold mzoom. destruct (m (get s)) as [[? t]|]; [|done]. by intros [= <- <-]. Qed.
Lemma keeps_zoom_in {T A} (g : T -> B) (get : S -> T) put (m : M T A) :
  (forall s, f s = g (get s)) -> (forall t s, get (put t s) = t) -> keeps g m -> keeps f (mzoom get put m).
Proof using.
  intros Hf Hp Hm s a s'. unfold mzoom. destruct (m (get s)) as [[? t]|] eqn:E; [|done]. intros [= <- <-]. rewrite !Hf, Hp. by apply Hm in E.
Qed.
Lemma keeps_for {X} (xs : list X) body : (forall x, keeps f (body x)) -> keeps f (mfor xs body).
Proof using. intros H. induction xs as [|x xs IH]; [apply keeps_ret|]. by apply keeps_bind. Qed.
Lemma keeps_for_ret {X R} (xs : list X) (body : X -> M S (option R)) : (forall x, keeps f (body x)) -> keeps f (mfor_ret xs body).
Proof using. intros H. induction xs as [|x xs IH]; [apply keeps_ret|]. apply keeps_bind; [done|]. intros []; [apply keeps_ret|done]. Qed.
Lemma keeps_fold {X A} (xs : list X) (body : A -> X -> M S A) a : (forall a x, keeps f (body a x)) -> keeps f (mfold xs body a).
Proof using. intros H. revert a. induction xs as [|x xs IH]; intros a; [apply keeps_ret|]. by apply keeps_bind. Qed.
Lemma keeps_iter {L R} (body : L -> M S (L + R)) : (forall l, keeps f (body l)) -> forall p l, keeps f (miter p body l).
Proof using.
  intros H p. assert (Hs : forall (k : L -> M S (L + R)) r, (forall l, keeps f (k l)) -> keeps f (mstep k r)) by (intros k [] Hk; [apply Hk|apply keeps_ret]).
  induction p as [q IH|q IH|]; intros l; cbn [miter]; [|apply keeps_bind; [done|intros r; by apply Hs]|done].
  apply keeps_bind; [done|]. intros r. apply keeps_bind; [by apply Hs|]. intros r'. by apply Hs.
Qed.
Lemma keeps_loop {L R} (body : L -> M S (L + R)) l : (forall l, keeps f (body l)) -> keeps f (mloop body l).
Proof using. intros H. apply keeps_bind; [by apply keeps_iter|]. intros []; [apply keeps_halt|apply keeps_ret]. Qed.

Lemma wp_keeps {A} (m : M S A) Q s : keeps f m -> wp m Q s -> wp m (fun a s' => Q a s' /\ f s' = f s) s.
Proof using. intros Hk (a & s' & E & HQ). exists a, s'. split; [done|]. split; [done|]. by apply Hk in E. Qed.
End Keeps.

Lemma keeps_weaken {S A B C} (f : S -> B) (g : S -> C) (m : M S A) : (forall s s', f s' = f s -> g s' = g s) -> keeps f m -> keeps g m.
Proof. intros H Hk s a s' E. apply H. by eapply Hk. Qed.

(** [m] preserves [P]. *)
Definition stable {S A} (P : S -> Prop) (m : M S A) : Prop := forall s a s', P s -> m s = Some (a, s') -> P s'.

Lemma stable_bind {S A C} (P : S -> Prop) (m : M S A) (k : A -> M S C) : stable P m -> (forall a, stable P (k a)) -> stable P (mbind_ m k).
Proof. intros Hm Hk s c s' HP. unfold mbind_. destruct (m s) as [[a s1]|] eqn:E; [|done]. apply Hk. by eapply Hm. Qed.

Lemma stable_when {S} (P : S -> Prop) b m : stable P m -> stable P (mwhen b m).
Proof. destruct b; [done|]. intros _ s a s' HP [= <- <-]. done. Qed.

Lemma stable_keeps {S A B} (P : B -> Prop) (f : S -> B) (m : M S A) : keeps f m -> stable (fun s => P (f s)) m.
Proof. intros Hk s a s' HP E. by rewrite (Hk _ _ _ E). Qed.

Lemma stable_wp {S A} (P : S -> Prop) (m : M S A) : (forall s, P s -> wp m (fun _ => P) s) -> stable P m.
Proof. intros H s a s' HP E. destruct (H s HP) as (a' & s2 & E' & HP'). rewrite E in E'. by injection E' as _ <-. Qed.

Lemma stable_zoom {S T A} (P : T -> Prop) (get : S -> T) put (m : M T A) :
  (forall t s, get (put t s) = t) -> stable P m -> stable (fun s => P (get s)) (mzoom get put m).
Proof. intros Hg Hm s a s' HP. unfold mzoom. destruct (m (get s)) as [[b t]|] eqn:E; [|done]. intros [= <- <-]. rewrite Hg. by eapply Hm. Qed.

(** [keeps_solve] follows the code of a routine; what it cannot open is a hint. *)
Create HintDb keeps discriminated.
#[export] Hint Constants Opaque : keeps.
#[export] Hint Resolve keeps_ret keeps_halt keeps_get keeps_array_at : keeps.

Ltac head_of m := lazymatch m with ?g _ => head_of g | _ => m end.
Ltac keeps_step :=
  lazymatch goal with
  | |- forall _, _ => intros ?
  | |- keeps _ (mbind_ _ _) => apply keeps_bind
  | |- keeps _ (mmod _) => apply keeps_mod; intros ?; reflexivity
  | |- keeps _ (mwhen _ _) => apply keeps_when
  | |- keeps _ (mfor _ _) => apply keeps_for
  | |- keeps _ (mfor_ret _ _) => apply keeps_for_ret
  | |- keeps _ (mfold _ _ _) => apply keeps_fold
  | |- keeps _ (mloop _ _) => apply keeps_loop
  | |- keeps _ (mzoom _ _ _) =>
      first [apply keeps_zoom; intros ? ?; reflexivity | eapply keeps_zoom_in; [intros ?; reflexivity | intros ? ?; reflexivity |]]
  | |- keeps _ (match ?x with _ => _ end) => destruct x
  | |- keeps _ (match ?x with _ => _ end _) => destruct x
  | |- keeps _ ((fun _ => _) _) => cbv beta
  | |- keeps _ (let _ := _ in _) => cbv zeta
  | |- keeps _ ?m => first [solve [auto 1 with keeps nocore] | let h := head_of m in unfold h]
  end.
Ltac keeps_solve := repeat keeps_step.

(** Reading a field of an updated record, without unfolding the record. *)
Ltac get_set_one g f u x :=
  first [ constr_eq g f; change (g (set_field f u x)) with (u (g x)); cbv beta
        | change (g (set_field f u x)) with (g x) ].
Ltac get_set :=
  repeat match goal with
  | |- context [?g (set_field ?f ?u ?x)] => is_const g; get_set_one g f u x
  end.

Ltac get_set_in H :=
  repeat match type of H with
  | context [?g (set_field ?f ?u ?x)] =>
      is_const g;
      first [ constr_eq g f; change (g (set_field f u x)) with (u (g x)) in H; cbv beta in H
            | change (g (set_field f u x)) with (g x) in H ]
  end.

(** Boolean comparisons of the code as propositions. *)
Ltac bool_simpl :=
  repeat match goal with
  | H : negb _ = true |- _ => apply negb_true_iff in H
  | H : negb _ = false |- _ => apply negb_false_iff in H
  | H : (_ && _)%bool = true |- _ => apply andb_true_iff in H; destruct H
  | H : (_ || _)%bool = false |- _ => apply orb_false_iff in H; destruct H
  | H : (_ =? _) = true |- _ => apply Z.eqb_eq in H
  | H : (_ =? _) = false |- _ => apply Z.eqb_neq in H
  | H : (_ <? _) = true |- _ => apply Z.ltb_lt in H
  | H : (_ <? _) = false |- _ => apply Z.ltb_ge in H
  | H : (_ <=? _) = true |- _ => apply Z.leb_le in H
  | H : (_ <=? _) = false |- _ => apply Z.leb_gt in H
  | H : (_ && _)%bool = false |- _ => apply andb_false_iff in H
  | H : (_ || _)%bool = true |- _ => apply orb_true_iff in H
  end.

(** Evaluating the comparisons of a goal whose outcome [lia] can see. *)
Ltac zbool :=
  repeat match goal with
  | |- context [?x <? ?y] =>
      first [ rewrite (proj2 (Z.ltb_lt x y)) by lia | rewrite (proj2 (Z.ltb_ge x y)) by lia ]
  | |- context [?x <=? ?y] =>
      first [ rewrite (proj2 (Z.leb_le x y)) by lia | rewrite (proj2 (Z.leb_gt x y)) by lia ]
  | |- context [?x =? ?y] =>
      first [ rewrite (proj2 (Z.eqb_eq x y)) by lia | rewrite (proj2 (Z.eqb_neq x y)) by lia ]
  end.
