(* ===== verification/Mem.v ===== *)
(** * Byte-addressed memory

    The kernel reads and writes raw memory: page tables, heap block headers
    and the boot loader's tables are all reached through integer addresses.
    Memory is a finite map from addresses to bytes; an address that was never
    written reads as zero, which loses no generality because the initial
    contents are an arbitrary map. Words are little-endian, as on i386. *)
From S2P Require Import Prelude.

Abbreviation mem := (gmap Z Z).

Definition load8 (m : mem) (a : Z) : Z := u8 (default 0 (m !! a)).
Definition store8 (a v : Z) (m : mem) : mem := <[a := u8 v]> m.

Definition load16 (m : mem) (a : Z) : Z :=
  load8 m a + 256 * load8 m (a + 1).

Definition load32 (m : mem) (a : Z) : Z :=
  load16 m a + 65536 * load16 m (a + 2).

Definition load64 (m : mem) (a : Z) : Z :=
  load32 m a + 4294967296 * load32 m (a + 4).

Definition store32 (a v : Z) (m : mem) : mem :=
  store8 (a + 3) (v / 16777216)
    (store8 (a + 2) (v / 65536)
       (store8 (a + 1) (v / 256)
          (store8 a v m))).

(** Two memories hold the same bytes at every address of a set. *)
Definition agree (P : Z -> Prop) (m m' : mem) : Prop :=
  forall a, P a -> load8 m a = load8 m' a.

Lemma load8_range m a : 0 <= load8 m a < 256.
Proof. unfold load8, u8. apply Z.mod_pos_bound. lia. Qed.

Lemma load16_range m a : 0 <= load16 m a < 65536.
Proof.
  unfold load16. pose proof (load8_range m a). pose proof (load8_range m (a + 1)). lia.
Qed.

Lemma load32_range m a : is_u32 (load32 m a).
Proof.
  unfold load32, is_u32. pose proof (load16_range m a).
  pose proof (load16_range m (a + 2)). lia.
Qed.

Lemma load8_store8_eq m a v : load8 (store8 a v m) a = u8 v.
Proof. unfold load8, store8. rewrite lookup_insert_eq. simpl. u32_lia. Qed.

Lemma load8_store8_ne m a b v : a <> b -> load8 (store8 b v m) a = load8 m a.
Proof. intros. unfold load8, store8. by rewrite lookup_insert_ne. Qed.

Lemma load8_store32_ne m a b v :
  a < b \/ b + 4 <= a -> load8 (store32 b v m) a = load8 m a.
Proof. intros. unfold store32. by rewrite !load8_store8_ne by lia. Qed.

Lemma load32_store32_eq m a v : load32 (store32 a v m) a = u32 v.
Proof.
  unfold load32, load16, store32.
  rewrite load8_store8_ne, load8_store8_ne, load8_store8_ne, load8_store8_eq by lia.
  rewrite (load8_store8_ne _ (a + 1)), (load8_store8_ne _ (a + 1)), load8_store8_eq by lia.
  rewrite load8_store8_ne, load8_store8_eq by lia.
  replace (a + 2 + 1) with (a + 3) by lia. rewrite load8_store8_eq.
  unfold u8, u32. Z.div_mod_to_equations. lia.
Qed.

Lemma load16_agree m m' a :
  load8 m a = load8 m' a -> load8 m (a + 1) = load8 m' (a + 1) ->
  load16 m a = load16 m' a.
Proof. unfold load16. intros -> ->. done. Qed.

Lemma load32_agree P m m' a :
  agree P m m' -> (forall i, 0 <= i < 4 -> P (a + i)) -> load32 m a = load32 m' a.
Proof.
  intros Hag HP. unfold load32.
  rewrite (load16_agree m m' a), (load16_agree m m' (a + 2)); [done|..];
    apply Hag;
    [ replace (a + 2) with (a + 2) by lia; apply HP; lia
    | replace (a + 2 + 1) with (a + 3) by lia; apply HP; lia
    | replace a with (a + 0) by lia; apply HP; lia
    | apply HP; lia ].
Qed.

Lemma store8_agree (P : Z -> Prop) m a v : ~ P a -> agree P m (store8 a v m).
Proof.
  intros HP b Hb. symmetry. apply load8_store8_ne. intros ->. done.
Qed.

Lemma store32_agree (P : Z -> Prop) m a v :
  (forall b, P b -> b < a \/ a + 4 <= b) -> agree P m (store32 a v m).
Proof. intros HP b Hb. symmetry. by apply load8_store32_ne, HP. Qed.

Lemma agree_refl P m : agree P m m.
Proof. done. Qed.

Lemma agree_trans P m1 m2 m3 : agree P m1 m2 -> agree P m2 m3 -> agree P m1 m3.
Proof. intros H1 H2 a Ha. by rewrite H1, H2. Qed.

Lemma agree_sym P m m' : agree P m m' -> agree P m' m.
Proof. intros H a Ha. by rewrite H. Qed.

Lemma agree_weaken (P P' : Z -> Prop) m m' :
  (forall a, P' a -> P a) -> agree P m m' -> agree P' m m'.
Proof. intros HP H a Ha. apply H, HP, Ha. Qed.

#[export] Instance agree_equivalence P : Equivalence (agree P).
Proof. split; [intro; apply agree_refl|intros ? ?; apply agree_sym|
               intros ? ? ?; apply agree_trans]. Qed.

Lemma load32_store32_ne m a b v :
  a + 4 <= b \/ b + 4 <= a -> load32 (store32 b v m) a = load32 m a.
Proof.
  intros. symmetry.
  apply (load32_agree (fun x => a <= x < a + 4)); [|intros; lia].
  apply store32_agree. intros. lia.
Qed.

Lemma load8_store8_word_ne m a b v :
  b < a \/ a + 4 <= b -> load32 (store8 b v m) a = load32 m a.
Proof.
  intros. symmetry.
  apply (load32_agree (fun x => a <= x < a + 4)); [|intros; lia].
  apply store8_agree. lia.
Qed.

(** Consecutive words, for concrete memories. *)
Fixpoint store_words (a : Z) (ws : list Z) (m : mem) : mem :=
  match ws with
  | [] => m
  | w :: ws' => store32 a w (store_words (a + 4) ws' m)
  end.
