(* ===== verification/KString.v ===== *)
(** * Strings and number text (core/string.c, core/status.c, drivers/vga.c)

    A [const char*] is the list of bytes it points to; reading at or past the
    end of the list gives the terminating NUL, and a list with a NUL inside is
    the string that ends there. A pointer that is advanced ([cursor++]) is the
    corresponding suffix. A [char] array that is written is a list of its
    declared length, updated in place. [string_copy] and the parsers are the
    only string primitives the process table, the VFS and the shell use. *)
From Stdlib Require String Ascii.
From S2P Require Import Prelude.
Export String.StringSyntax.
#[global] Bind Scope string_scope with String.string.

(** The bytes of a string literal, without the terminating NUL. *)
Definition str (s : String.string) : list Z :=
  (fun a => Z.of_nat (Ascii.nat_of_ascii a)) <$> String.list_ascii_of_string s.
#[global] Arguments str s%_string_scope.

Definition chr_space := 32.
Definition chr_tab := 9.
Definition chr_0 := 48.
Definition chr_9 := 57.
Definition chr_a := 97.
Definition chr_f := 102.
Definition chr_A := 65.
Definition chr_F := 70.
Definition chr_x := 120.
Definition chr_X := 88.

(** [value[i]] *)
Definition char_at (value : list Z) (i : nat) : Z := default 0 (value !! i).

Definition is_blank (c : Z) : bool := (c =? chr_space) || (c =? chr_tab).

(** The text of a C string: the bytes before the first NUL. *)
Fixpoint cstr (value : list Z) : list Z :=
  match value with
  | [] => []
  | c :: r => if c =? 0 then [] else c :: cstr r
  end.

Fixpoint string_length (value : list Z) : Z :=
  match value with
  | [] => 0
  | c :: r => if c =? 0 then 0 else incr (string_length r)
  end.

Fixpoint string_equals (left right : list Z) : bool :=
  match left, right with
  | l :: left', r :: right' =>
      if (l =? 0) || (r =? 0) then (l =? 0) && (r =? 0)
      else if l =? r then string_equals left' right' else false
  | _, _ => (char_at left 0 =? 0) && (char_at right 0 =? 0)
  end.

Fixpoint string_starts_with (value prefix : list Z) : bool :=
  match prefix with
  | [] => true
  | p :: prefix' =>
      if p =? 0 then true
      else if char_at value 0 =? p then string_starts_with (tail value) prefix'
      else false
  end.

(** The copying loop of [string_copy], [room] being [max_length - 1 - index]. *)
Fixpoint string_copy_from (stop : Z -> bool) (destination source : list Z)
    (index room : nat) : list Z * nat :=
  match room, source with
  | S room', c :: source' =>
      if stop c then (destination, index)
      else string_copy_from stop (<[index := c]> destination) source' (S index) room'
  | _, _ => (destination, index)
  end.

Definition string_copy (destination source : list Z) (max_length : nat) : list Z :=
  if (max_length =? 0)%nat then destination
  else
    let '(d, index) :=
      string_copy_from (fun c => c =? 0) destination source 0 (max_length - 1) in
    <[index := 0]> d.

Definition string_clear (buffer : list Z) (length : nat) : list Z :=
  replicate (min length (base.length buffer)) 0 ++ drop length buffer.

Fixpoint string_trim_left (value : list Z) : list Z :=
  match value with
  | c :: r => if is_blank c then string_trim_left r else value
  | [] => []
  end.

Definition string_copy_until_space (destination source : list Z) (max_length : nat)
    : list Z * nat :=
  if (max_length =? 0)%nat then (destination, 0%nat)
  else
    let '(d, index) :=
      string_copy_from (fun c => (c =? 0) || is_blank c) destination source 0
        (max_length - 1) in
    (<[index := 0]> d, index).

Fixpoint skip_blank_count (value : list Z) : Z :=
  match value with
  | c :: r => if is_blank c then incr (skip_blank_count r) else 0
  | [] => 0
  end.

Definition string_skip_spaces (value : list Z) (start_index : Z) : Z :=
  start_index [+] skip_blank_count (drop (Z.to_nat start_index) value).

Definition string_hex_digit_value (character : Z) : option Z :=
  if (chr_0 <=? character) && (character <=? chr_9) then Some (character - chr_0)
  else if (chr_a <=? character) && (character <=? chr_f) then Some (character - chr_a + 10)
  else if (chr_A <=? character) && (character <=? chr_F) then Some (character - chr_A + 10)
  else None.

(** The digit loops: the value so far, whether a digit was seen, the rest. *)
Fixpoint scan_decimal (value : list Z) (parsed : Z) (found : bool) : Z * bool * list Z :=
  match value with
  | c :: r =>
      if (chr_0 <=? c) && (c <=? chr_9)
      then scan_decimal r ((parsed [*] 10) [+] (c - chr_0)) true
      else (parsed, found, value)
  | [] => (parsed, found, [])
  end.

Definition string_to_uint32 (value : list Z) : option Z :=
  let '(parsed, found, rest) := scan_decimal (string_trim_left value) 0 false in
  if negb found then None
  else if negb (char_at (string_trim_left rest) 0 =? 0) then None
  else Some parsed.

Fixpoint scan_hex (value : list Z) (parsed : Z) (found : bool) : Z * bool * list Z :=
  match value with
  | c :: r =>
      if c =? 0 then (parsed, found, value)
      else match string_hex_digit_value c with
           | None => (parsed, found, value)
           | Some digit => scan_hex r (Z.lor (u32 (Z.shiftl parsed 4)) digit) true
           end
  | [] => (parsed, found, [])
  end.

Definition string_to_uint32_auto (value : list Z) : option Z :=
  let v := string_trim_left value in
  if (char_at v 0 =? chr_0) && ((char_at v 1 =? chr_x) || (char_at v 1 =? chr_X))
  then
    let '(parsed, found, rest) := scan_hex (drop 2 v) 0 false in
    if negb found || negb (char_at (string_trim_left rest) 0 =? 0) then None
    else Some parsed
  else string_to_uint32 value.

(** ** Number output: the characters [vga_write_u32] and
    [vga_write_hex_u32] hand to [put_char], in order. *)

Fixpoint vga_u32_buffer (index_left : nat) (value : Z) : list Z :=
  match index_left with
  | O => []
  | S n => if 0 <? value then (chr_0 + value mod 10) :: vga_u32_buffer n (value / 10) else []
  end.

Definition vga_write_u32 (value : Z) : list Z :=
  if value =? 0 then [chr_0] else rev (vga_u32_buffer 10 value).

Definition hex_digit (nibble : Z) : Z :=
  if nibble <? 10 then chr_0 + nibble else chr_A + (nibble - 10).

Definition vga_write_hex_u32 (value : Z) : list Z :=
  chr_0 :: chr_x ::
  map (fun shift => hex_digit (Z.land (Z.shiftr value shift) 15))
      [28; 24; 20; 16; 12; 8; 4; 0].

(** ** [kernel_status_t] predicates *)

Definition kernel_status_is_success (status : Z) : bool := status =? KERNEL_OK.
Definition kernel_status_is_error (status : Z) : bool := status <? KERNEL_OK.

(** * Lemmas *)

Lemma cstr_nonzero value : Forall (fun c => c <> 0) (cstr value).
Proof.
  induction value as [|c r IH]; simpl; [constructor|].
  destruct (Z.eqb_spec c 0); [constructor|by constructor].
Qed.

Lemma cstr_id value : Forall (fun c => c <> 0) value -> cstr value = value.
Proof.
  induction 1 as [|c r Hc _ IH]; simpl; [done|].
  apply Z.eqb_neq in Hc. by rewrite Hc, IH.
Qed.

Lemma cstr_app_nul pre post :
  Forall (fun c => c <> 0) pre -> cstr (pre ++ 0 :: post) = pre.
Proof.
  induction 1 as [|c r Hc _ IH]; simpl; [done|].
  apply Z.eqb_neq in Hc. by rewrite Hc, IH.
Qed.

Lemma string_length_cstr value : string_length value = u32 (Z.of_nat (length (cstr value))).
Proof.
  induction value as [|c r IH]; simpl; [done|].
  destruct (c =? 0); simpl; [done|].
  rewrite IH. unfold incr. autorewrite with u32_simpl. f_equal. lia.
Qed.

Lemma string_equals_spec left right :
  string_equals left right = bool_decide (cstr left = cstr right).
Proof.
  revert right. induction left as [|l left' IH]; intros [|r right']; [done|..];
    cbn [string_equals cstr]; unfold char_at; cbn.
  - destruct (r =? 0); cbn; case_bool_decide; congruence.
  - destruct (l =? 0); cbn; case_bool_decide; congruence.
  - destruct (Z.eqb_spec l 0) as [->|Hl], (Z.eqb_spec r 0) as [->|Hr]; cbn;
      [case_bool_decide; congruence..|].
    destruct (Z.eqb_spec l r) as [->|Hne]; [rewrite IH|]; repeat case_bool_decide; congruence.
Qed.

(** The longest prefix without a character at which a copy stops. *)
Fixpoint until (stop : Z -> bool) (value : list Z) : list Z :=
  match value with
  | [] => []
  | c :: r => if stop c then [] else c :: until stop r
  end.

Lemma until_cstr value : until (fun c => c =? 0) value = cstr value.
Proof. induction value as [|c r IH]; simpl; [done|by rewrite IH]. Qed.

Lemma until_nostop stop value : Forall (fun c => stop c = false) (until stop value).
Proof.
  induction value as [|c r IH]; simpl; [constructor|].
  destruct (stop c) eqn:E; by constructor.
Qed.

(** What the copying loop has written when it stops. *)
Lemma string_copy_from_spec stop src : forall dest index room,
  (index + room < length dest)%nat ->
  let text := take room (until stop src) in
  string_copy_from stop dest src index room =
    (take index dest ++ text ++ drop (index + length text) dest,
     (index + length text)%nat).
Proof.
  induction src as [|c src IH]; intros dest index room Hlen; cbv zeta.
  - destruct room; simpl; by rewrite Nat.add_0_r, take_drop.
  - destruct room as [|room]; simpl; [by rewrite Nat.add_0_r, take_drop|].
    destruct (stop c); simpl; [by rewrite Nat.add_0_r, take_drop|].
    rewrite IH by (rewrite length_insert; lia). f_equal; [|lia].
    rewrite (take_S_r _ _ c) by (apply list_lookup_insert_eq; lia).
    rewrite take_insert_ge by lia. rewrite <- app_assoc. simpl. do 3 f_equal.
    rewrite drop_insert_lt by lia. f_equal. lia.
Qed.

Lemma string_copy_eq dest src max_length :
  (0 < max_length)%nat -> length dest = max_length ->
  string_copy dest src max_length =
    take (max_length - 1) (cstr src) ++
      0 :: drop (S (length (take (max_length - 1) (cstr src)))) dest.
Proof.
  intros Hmax Hlen. unfold string_copy.
  rewrite (proj2 (Nat.eqb_neq _ _)) by lia.
  rewrite string_copy_from_spec by lia. rewrite until_cstr. simpl.
  set (t := take _ _). assert (length t < length dest)%nat.
  { subst t. rewrite length_take. lia. }
  rewrite insert_app_r_alt by lia. rewrite Nat.sub_diag. f_equal.
  destruct (drop (length t) dest) as [|d l] eqn:E.
  { apply (f_equal length) in E. rewrite length_drop in E. simpl in E. lia. }
  simpl. f_equal. apply (f_equal (drop 1)) in E. rewrite drop_drop in E.
  rewrite Nat.add_1_r in E. by rewrite E.
Qed.

(** Parsing digits computes their decimal value modulo 2^32. *)
Definition is_digit (c : Z) : Prop := chr_0 <= c <= chr_9.

Definition dec_value (digits : list Z) : Z :=
  fold_left (fun v c => v * 10 + (c - chr_0)) digits 0.

Lemma dec_value_snoc l c : dec_value (l ++ [c]) = dec_value l * 10 + (c - chr_0).
Proof. unfold dec_value. by rewrite fold_left_app. Qed.

Lemma scan_decimal_digits digits rest p found :
  Forall is_digit digits -> (forall c r, rest = c :: r -> ~ is_digit c) ->
  scan_decimal (digits ++ rest) (u32 p) found =
    (u32 (fold_left (fun v c => v * 10 + (c - chr_0)) digits p),
     found || negb (length digits =? 0)%nat, rest).
Proof.
  intros Hd Hrest. revert p found. induction Hd as [|c ds Hc _ IH]; intros p found; simpl.
  - rewrite orb_false_r. destruct rest as [|c r]; simpl; [done|].
    specialize (Hrest c r eq_refl). unfold is_digit in Hrest.
    destruct (Z.leb_spec chr_0 c), (Z.leb_spec c chr_9); simpl; [lia|done..].
  - unfold is_digit in Hc. rewrite (proj2 (Z.leb_le chr_0 c)), (proj2 (Z.leb_le c chr_9)) by lia.
    simpl. rewrite orb_true_r.
    replace ((u32 p [*] 10) [+] (c - chr_0)) with (u32 (p * 10 + (c - chr_0))).
    2:{ autorewrite with u32_simpl. unfold u32. rewrite Zplus_mod, (Zplus_mod _ (c - chr_0)).
        by rewrite Zmult_mod_idemp_l. }
    rewrite IH. by simpl.
Qed.

Lemma vga_u32_buffer_digits n v : 0 <= v -> Forall is_digit (vga_u32_buffer n v).
Proof.
  revert v. induction n as [|n IH]; intros v Hv; simpl; [constructor|].
  destruct (0 <? v); constructor.
  - unfold is_digit, chr_0, chr_9. pose proof (Z.mod_pos_bound v 10). lia.
  - apply IH, Z.div_pos; lia.
Qed.

Lemma vga_u32_buffer_value n v :
  0 <= v < 10 ^ Z.of_nat n -> dec_value (rev (vga_u32_buffer n v)) = v.
Proof.
  revert v. induction n as [|n IH]; intros v Hv; simpl; [simpl in Hv; unfold dec_value; simpl; lia|].
  destruct (Z.ltb_spec 0 v); [|unfold dec_value; simpl; lia].
  simpl. rewrite dec_value_snoc, IH.
  - unfold chr_0. pose proof (Z.div_mod v 10). lia.
  - rewrite Nat2Z.inj_succ, Z.pow_succ_r in Hv by lia.
    split; [apply Z.div_pos; lia|apply Z.div_lt_upper_bound; lia].
Qed.

Lemma string_trim_left_digit c r : is_digit c -> string_trim_left (c :: r) = c :: r.
Proof.
  unfold is_digit, chr_0, chr_9. intros. simpl. unfold is_blank, chr_space, chr_tab.
  rewrite !(proj2 (Z.eqb_neq _ _)) by lia. done.
Qed.

(** The parser on a run of digits: a 32-bit result whatever the length. *)
Lemma string_to_uint32_digits digits :
  Forall is_digit digits -> digits <> [] ->
  string_to_uint32 digits = Some (u32 (dec_value digits)).
Proof.
  intros Hd Hne. unfold string_to_uint32.
  destruct Hd as [|c ds Hc Hds]; [done|].
  rewrite string_trim_left_digit by done.
  rewrite <- (app_nil_r (c :: ds)) at 1.
  change 0 with (u32 0) at 1.
  rewrite (scan_decimal_digits (c :: ds) [] 0 false); [|by constructor|by intros].
  done.
Qed.

(** [string_to_uint32] reads back every number that [vga_write_u32]
    prints, for all 32-bit values. *)
Theorem string_to_uint32_print v :
  is_u32 v -> string_to_uint32 (vga_write_u32 v) = Some v.
Proof.
  intros Hv. unfold vga_write_u32. destruct (Z.eqb_spec v 0) as [->|Hne]; [done|].
  rewrite string_to_uint32_digits.
  - rewrite vga_u32_buffer_value by (unfold is_u32 in Hv; simpl; lia). by rewrite u32_small.
  - apply Forall_rev, vga_u32_buffer_digits. unfold is_u32 in Hv; lia.
  - cbn [vga_u32_buffer]. rewrite (proj2 (Z.ltb_lt 0 v)) by (unfold is_u32 in Hv; lia).
    simpl rev. intros E. apply (f_equal length) in E. rewrite length_app in E. simpl in E. lia.
Qed.

Lemma string_to_uint32_print_witness :
  string_to_uint32 (vga_write_u32 4294967295) = Some 4294967295.
Proof. apply string_to_uint32_print. unfold is_u32. lia. Defined.

(** A decimal number of any length is accepted and reduced modulo 2^32:
    the parser detects no overflow. *)
Theorem string_to_uint32_wraps digits :
  Forall is_digit digits -> digits <> [] ->
  string_to_uint32 digits = Some (dec_value digits mod 4294967296).
Proof. apply string_to_uint32_digits. Qed.

Lemma string_to_uint32_wraps_witness :
  string_to_uint32 [52; 50; 57; 52; 57; 54; 55; 50; 57; 55] = Some 1.
Proof.
  rewrite (string_to_uint32_wraps [52; 50; 57; 52; 57; 54; 55; 50; 57; 55]);
    [reflexivity| |discriminate].
  repeat constructor; unfold chr_0, chr_9; lia.
Defined.

Lemma hex_digit_value n : 0 <= n < 16 -> string_hex_digit_value (hex_digit n) = Some n.
Proof.
  intros. unfold hex_digit, string_hex_digit_value, chr_0, chr_9, chr_a, chr_f, chr_A, chr_F.
  destruct (Z.ltb_spec n 10);
    repeat match goal with |- context [?x <=? ?y] => destruct (Z.leb_spec x y); simpl end;
    try lia; f_equal; lia.
Qed.

Lemma hex_digit_nonzero n : 0 <= n -> hex_digit n <> 0.
Proof. intros. unfold hex_digit, chr_0, chr_A. destruct (Z.ltb_spec n 10); lia. Qed.

Lemma hex_accumulate v s :
  is_u32 v -> 0 <= s ->
  Z.lor (u32 (Z.shiftl (v / 2 ^ (s + 4)) 4)) (Z.land (Z.shiftr v s) 15) = v / 2 ^ s.
Proof.
  intros Hv Hs. change 15 with (2 ^ 4 - 1). rewrite land_low_mask by lia.
  rewrite Z.shiftr_div_pow2, Z.shiftl_mul_pow2 by lia.
  rewrite Z.pow_add_r, <- Z.div_div by (try apply Z.pow_pos_nonneg; lia).
  set (q := v / 2 ^ s). change (2 ^ 4) with 16.
  assert (0 <= q <= v).
  { split; [apply Z.div_pos; [apply Hv|lia]|]. apply Z.div_le_upper_bound; [lia|].
    unfold is_u32 in Hv. nia. }
  assert (q / 16 * 16 = q - q mod 16) by (pose proof (Z.div_mod q 16); lia).
  pose proof (Z.mod_pos_bound q 16).
  rewrite u32_small by (unfold is_u32 in *; lia).
  rewrite lor_disjoint_add; [lia|].
  apply (land_aligned_low _ 4); [lia|lia|]. change (2 ^ 4) with 16.
  apply Z.mod_mul. lia.
Qed.

Lemma scan_hex_nibbles v shifts s0 found :
  is_u32 v -> (forall i s, shifts !! i = Some s -> s = s0 - 4 * Z.of_nat (S i) /\ 0 <= s) ->
  0 <= s0 ->
  scan_hex (map (fun s => hex_digit (Z.land (Z.shiftr v s) 15)) shifts) (v / 2 ^ s0) found =
    (v / 2 ^ (s0 - 4 * Z.of_nat (length shifts)), found || negb (length shifts =? 0)%nat, []).
Proof.
  intros Hv. revert s0 found. induction shifts as [|s shifts IH]; intros s0 found Hs H0.
  - simpl. rewrite orb_false_r. by rewrite Z.sub_0_r.
  - cbn [map scan_hex]. destruct (Hs 0%nat s eq_refl) as [Es Hpos].
    assert (0 <= Z.land (Z.shiftr v s) 15 < 16) as Hr.
    { change 15 with (2 ^ 4 - 1). rewrite land_low_mask by lia. apply Z.mod_pos_bound. lia. }
    rewrite (proj2 (Z.eqb_neq _ _)) by (apply hex_digit_nonzero; lia).
    rewrite hex_digit_value by done.
    replace s0 with (s + 4) at 1 by lia. rewrite hex_accumulate by done.
    rewrite (IH s true); [|intros i t Ht|done].
    + cbn [length Nat.eqb negb orb]. rewrite orb_true_r.
      by replace (s0 - 4 * Z.of_nat (S (length shifts)))
        with (s - 4 * Z.of_nat (length shifts)) by lia.
    + destruct (Hs (S i) t Ht). split; [|done]. lia.
Qed.

(** [string_to_uint32_auto] reads back every hexadecimal number that
    [vga_write_hex_u32] prints. *)
Theorem string_to_uint32_auto_hex v :
  is_u32 v -> string_to_uint32_auto (vga_write_hex_u32 v) = Some v.
Proof.
  intros Hv. unfold string_to_uint32_auto, vga_write_hex_u32.
  rewrite string_trim_left_digit by (unfold is_digit, chr_0, chr_9; lia).
  pose proof (scan_hex_nibbles v [28; 24; 20; 16; 12; 8; 4; 0] 32 false Hv) as H.
  rewrite (Z.div_small v (2 ^ 32)) in H by apply Hv.
  set (l := map _ _) in *. unfold char_at at 1 2 3. cbn -[l scan_hex].
  change (drop 0 l) with l. rewrite H; [|intros i s Hi|lia].
  - cbn -[Z.div]. by rewrite Z.div_1_r.
  - do 8 (destruct i as [|i]; [injection Hi as <-; lia|]). discriminate.
Qed.

Lemma string_to_uint32_auto_hex_witness :
  string_to_uint32_auto (vga_write_hex_u32 3735928559) = Some 3735928559.
Proof. apply string_to_uint32_auto_hex. unfold is_u32. lia. Defined.

(** Copying into a [max_length]-byte array keeps the array's length and
    leaves the source text truncated to [max_length - 1] characters, always
    terminated. *)
Theorem string_copy_text dest src max_length :
  (0 < max_length)%nat -> length dest = max_length ->
  length (string_copy dest src max_length) = max_length /\
  cstr (string_copy dest src max_length) = take (max_length - 1) (cstr src) /\
  char_at (string_copy dest src max_length) (length (take (max_length - 1) (cstr src))) = 0.
Proof.
  intros Hmax Hlen. rewrite string_copy_eq by done.
  set (t := take _ _). assert (length t <= max_length - 1)%nat by (subst t; rewrite length_take; lia).
  split_and!.
  - rewrite length_app. simpl. rewrite length_drop. lia.
  - apply cstr_app_nul. subst t. apply Forall_take, cstr_nonzero.
  - unfold char_at. by rewrite lookup_app_r, Nat.sub_diag by lia.
Qed.

Lemma string_copy_text_witness :
  cstr (string_copy (replicate 4 7) [104; 101; 108; 108; 111] 4) = [104; 101; 108].
Proof.
  destruct (string_copy_text (replicate 4 7) [104; 101; 108; 108; 111] 4) as (_ & H & _);
    [lia|reflexivity|exact H].
Defined.

(** ** Splitting text at separators

    The reference for the routines that cut a C string into pieces: path lookup
    (separator '/') and the argument line of a process (separators blank and
    tab). *)

Section Words.
Context (sep : Z -> bool).
Hypothesis sep_nul : sep 0 = false.

Fixpoint split_on (acc l : list Z) : list (list Z) :=
  match l with
  | [] => [acc]
  | c :: r => if sep c then acc :: split_on [] r else split_on (acc ++ [c]) r
  end.

(** The nonempty pieces of the text of a C string. *)
Definition fields (text : list Z) : list (list Z) :=
  filter (fun w => w <> []) (split_on [] (cstr text)).

Fixpoint skip (l : list Z) : list Z :=
  match l with
  | c :: r => if sep c then skip r else l
  | [] => []
  end.

(** The bytes up to a separator or the end of the string. *)
Definition field (l : list Z) : list Z := until (fun c => (c =? 0) || sep c) l.

Lemma split_until acc l :
  split_on acc (cstr l) = (acc ++ field l) ::
    match drop (length (field l)) l with
    | c :: r => if c =? 0 then [] else split_on [] (cstr r)
    | [] => []
    end.
Proof using.
  unfold field. revert acc. induction l as [|c r IH]; intros acc; [cbn; by rewrite app_nil_r|].
  cbn [cstr until]. destruct (c =? 0) eqn:E0; cbn; [by rewrite app_nil_r, E0|].
  destruct (sep c) eqn:E1; cbn.
  - by rewrite app_nil_r, E0.
  - rewrite IH, <- app_assoc. done.
Qed.

Lemma drop_field l c r : drop (length (field l)) l = c :: r -> c = 0 \/ sep c = true.
Proof using.
  unfold field. induction l as [|a l IH]; [done|]. cbn.
  destruct ((a =? 0) || sep a) eqn:Ea; cbn; [|done]. intros [= -> _]. bool_simpl.
  destruct Ea; bool_simpl; auto.
Qed.

Lemma field_nonempty l : char_at l 0 <> 0 -> sep (char_at l 0) = false -> field l <> [].
Proof using.
  destruct l as [|c r]; [done|]. intros H0 H1. change (c <> 0) in H0. change (sep c = false) in H1.
  unfold field. cbn. apply Z.eqb_neq in H0. by rewrite H0, H1.
Qed.

(** One field, then the fields of what follows it. *)
Lemma fields_step l :
  char_at l 0 <> 0 -> sep (char_at l 0) = false ->
  fields l = field l :: fields (drop (length (field l)) l).
Proof using.
  intros H0 H1. pose proof (field_nonempty l H0 H1) as Hne. unfold fields.
  rewrite (split_until [] l). cbn [app]. rewrite filter_cons_True by exact Hne. f_equal.
  destruct (drop (length (field l)) l) as [|x y] eqn:E; [done|]. cbn [cstr].
  destruct (Z.eqb_spec x 0) as [|Ex]; [done|]. destruct (drop_field _ _ _ E) as [|Hs]; [done|].
  cbn [split_on]. rewrite Hs. cbn. done.
Qed.

Lemma fields_sep c r : c <> 0 -> sep c = true -> fields (c :: r) = fields r.
Proof using. intros H0 H1. unfold fields. cbn. apply Z.eqb_neq in H0. rewrite H0. cbn. by rewrite H1. Qed.

Lemma fields_skip l : fields (skip l) = fields l.
Proof using sep_nul.
  induction l as [|c r IH]; [done|]. cbn [skip]. destruct (sep c) eqn:E; [|done].
  rewrite IH, fields_sep; [done| |done]. intros ->. congruence.
Qed.

Lemma fields_nul l : char_at l 0 = 0 -> fields l = [].
Proof using. destruct l as [|c r]; [done|]. unfold char_at, fields. cbn. by intros ->. Qed.

Lemma skip_head l : sep (char_at (skip l) 0) = false.
Proof using sep_nul. induction l as [|c r IH]; [done|]. cbn. by destruct (sep c) eqn:E. Qed.

Lemma skip_length l : (length (skip l) <= length l)%nat.
Proof using. induction l as [|c r IH]; [done|]. cbn. destruct (sep c); cbn; lia. Qed.

Lemma field_nonzero l : Forall (fun c => c <> 0) (field l).
Proof using.
  eapply Forall_impl; [apply until_nostop|]. intros c Hc. cbn in Hc. bool_simpl. done.
Qed.

(** A word followed by a separator or the end of the string. *)
Lemma field_word w rest :
  Forall (fun c => c <> 0 /\ sep c = false) w -> char_at rest 0 = 0 \/ sep (char_at rest 0) = true ->
  field (w ++ rest) = w.
Proof using.
  intros Hw Hr. unfold field. induction Hw as [|c w [H0 H1] _ IH]; cbn.
  - destruct rest as [|c r]; [done|]. change (c = 0 \/ sep c = true) in Hr. cbn.
    destruct Hr as [->| ->]; [done|by rewrite orb_true_r].
  - apply Z.eqb_neq in H0. rewrite H0, H1. cbn. by rewrite IH.
Qed.
End Words.

Lemma until_prefix stop l : take (length (until stop l)) l = until stop l.
Proof. induction l as [|c r IH]; [done|]. cbn. destruct (stop c); [done|]. cbn. by rewrite IH. Qed.

Lemma until_length stop l : (length (until stop l) <= length l)%nat.
Proof. induction l as [|c r IH]; cbn; [lia|]. destruct (stop c); cbn; lia. Qed.

Lemma until_drop stop k l :
  (k <= length (until stop l))%nat -> until stop (drop k l) = drop k (until stop l).
Proof.
  revert l. induction k as [|k IH]; intros l Hk; [done|]. destruct l as [|c r]; [done|].
  cbn in *. destruct (stop c); cbn in *; [lia|]. apply IH. lia.
Qed.

Lemma char_at_take l k j : (j < k)%nat -> char_at (take k l) j = char_at l j.
Proof. intros. unfold char_at. by rewrite lookup_take_lt. Qed.

Lemma char_at_lookup l j : (j < length l)%nat -> l !! j = Some (char_at l j).
Proof. intros H. apply lookup_lt_is_Some in H as [x E]. unfold char_at. by rewrite E. Qed.
