(* ===== verification/Boot.v ===== *)
(** * Boot information (core/boot.h, core/boot.c)

    The boot loader leaves a Multiboot structure in memory; [boot_initialize]
    copies what the kernel needs into [boot_info] and counts the entries of the
    memory map by walking it. *)
From S2P Require Import Prelude Mem.

Definition MULTIBOOT_BOOTLOADER_MAGIC := 0x2BADB002.
Definition MULTIBOOT_INFO_MEMORY_FLAG := 0x1.
Definition MULTIBOOT_INFO_MEM_MAP_FLAG := 0x40.
Definition MULTIBOOT_MEMORY_AVAILABLE := 1.

Record boot_info_t := {
  magic : Z;
  info_address : Z;
  is_valid_multiboot : bool;
  has_memory_info : bool;
  memory_lower_kb : Z;
  memory_upper_kb : Z;
  has_memory_map : bool;
  memory_map_length : Z;
  memory_map_address : Z;
  memory_map_region_count : Z
}.

#[export] Instance eta_boot_info : Settable boot_info_t := fun b =>
  Build_boot_info_t (magic b) (info_address b) (is_valid_multiboot b) (has_memory_info b)
    (memory_lower_kb b) (memory_upper_kb b) (has_memory_map b) (memory_map_length b)
    (memory_map_address b) (memory_map_region_count b).

(** A packed memory-map entry and its fields' offsets. *)
Record multiboot_memory_map_entry_t := {
  entry_size : Z;
  base_addr : Z;
  entry_length : Z;
  entry_type : Z
}.

Definition read_memory_map_entry (m : mem) (a : Z) : multiboot_memory_map_entry_t :=
  {| entry_size := load32 m a;
     base_addr := load64 m (a + 4);
     entry_length := load64 m (a + 12);
     entry_type := load32 m (a + 20) |}.

(** [multiboot_info_t], at the offsets of its fields. *)
Record multiboot_info_t := {
  flags : Z; mem_lower : Z; mem_upper : Z; mmap_length : Z; mmap_addr : Z
}.

Definition read_multiboot_info (m : mem) (a : Z) : multiboot_info_t :=
  {| flags := load32 m a;
     mem_lower := load32 m (a + 4);
     mem_upper := load32 m (a + 8);
     mmap_length := load32 m (a + 44);
     mmap_addr := load32 m (a + 48) |}.
Arguments read_multiboot_info : simpl never.

(** [while (current < end)] over the memory map; [visit] is the loop body, and
    [current] advances by the entry's size and its size field. *)
Definition walk_memory_map {S} (m : mem) (visit : multiboot_memory_map_entry_t -> M S unit)
    (start end_ : Z) : M S unit :=
  mloop (fun current =>
    if current <? end_ then
      let entry := read_memory_map_entry m current in
      visit entry ;;;
      mret_ (inl (current [+] (entry_size entry [+] 4)))
    else mret_ (inr tt)) start.

Definition boot_initialize (m : mem) (magic_ info_address_ : Z) : M boot_info_t unit :=
  mmod (fun _ =>
    {| magic := magic_;
       info_address := info_address_;
       is_valid_multiboot := magic_ =? MULTIBOOT_BOOTLOADER_MAGIC;
       has_memory_info := false;
       memory_lower_kb := 0;
       memory_upper_kb := 0;
       has_memory_map := false;
       memory_map_length := 0;
       memory_map_address := 0;
       memory_map_region_count := 0 |}) ;;;
  valid <- mget is_valid_multiboot ;;
  if negb valid || (info_address_ =? 0) then mret_ tt
  else
    let multiboot_info := read_multiboot_info m info_address_ in
    mwhen (negb (Z.land (flags multiboot_info) MULTIBOOT_INFO_MEMORY_FLAG =? 0))
      (mmod (fun b => b <| has_memory_info := true |>
                        <| memory_lower_kb := mem_lower multiboot_info |>
                        <| memory_upper_kb := mem_upper multiboot_info |>)) ;;;
    mwhen (negb (Z.land (flags multiboot_info) MULTIBOOT_INFO_MEM_MAP_FLAG =? 0))
      (mmod (fun b => b <| has_memory_map := true |>
                        <| memory_map_length := mmap_length multiboot_info |>
                        <| memory_map_address := mmap_addr multiboot_info |>) ;;;
       current <- mget memory_map_address ;;
       length <- mget memory_map_length ;;
       walk_memory_map m
         (fun _ => mmod (fun b => b <| memory_map_region_count ::= incr |>))
         current (current [+] length)).

(** ** Well-formed memory maps

    [mmap_layout m a entries e]: the bytes from [a] to [e] are exactly these
    entries, each followed by the next, none crossing the end of the address
    space. *)
Inductive mmap_layout (m : mem) : Z -> list multiboot_memory_map_entry_t -> Z -> Prop :=
| mmap_done a : mmap_layout m a [] a
| mmap_entry a e es z :
    0 <= a -> read_memory_map_entry m a = e ->
    a + entry_size e + 4 < 4294967296 ->
    mmap_layout m (a + entry_size e + 4) es z ->
    mmap_layout m a (e :: es) z.

Lemma mmap_layout_le m a es z : mmap_layout m a es z -> a <= z.
Proof.
  induction 1 as [|a e es z Ha He _ _ IH]; [lia|].
  subst e. cbn in *. pose proof (load32_range m a). unfold is_u32 in *. lia.
Qed.

(** Walking a well-formed map visits its entries in order, and stops. *)
Lemma walk_memory_map_ok {S} m (visit : multiboot_memory_map_entry_t -> M S unit) a es z Q s :
  mmap_layout m a es z -> z < 4294967296 ->
  wp (mfor es visit) (fun _ s' => Q tt s') s ->
  wp (walk_memory_map m visit a z) Q s.
Proof.
  intros Hl Hz Hwp. unfold walk_memory_map.
  apply (wp_loop _ (fun cur s' => exists rest, mmap_layout m cur rest z /\
                      wp (mfor rest visit) (fun _ t => Q tt t) s')
                   (fun cur _ => z - cur) Q); cycle 1.
  { exists es. done. }
  { destruct Hl; [rewrite Z.sub_diag; done|]. lia. }
  clear. intros cur s (rest & Hl & Hwp).
  destruct Hl as [cur|cur e rest z Ha He Hsz Hl].
  - rewrite Z.ltb_irrefl. apply wp_ret.
    destruct Hwp as (u & s' & E & HQ). destruct u. injection E as <-. done.
  - pose proof (mmap_layout_le _ _ _ _ Hl).
    assert (0 <= entry_size e) by (subst e; apply load32_range).
    rewrite (proj2 (Z.ltb_lt cur z)) by lia. rewrite He.
    destruct Hwp as (u & s' & E & HQ). simpl in E. unfold mbind_ in E.
    destruct (visit e s) as [[u1 s1]|] eqn:Ev; [|done].
    apply wp_bind. exists u1, s1. split; [done|]. apply wp_ret.
    unfold u32. rewrite Zplus_mod_idemp_r, Z.mod_small by lia.
    rewrite Z.add_assoc. split; [|lia].
    exists rest. split; [done|]. exists u, s'. done.
Qed.

(** [boot_initialize] terminates on a well-formed memory map and counts
    exactly its entries. *)
Theorem boot_initialize_counts m magic_ info s es :
  magic_ = MULTIBOOT_BOOTLOADER_MAGIC -> info <> 0 ->
  Z.land (flags (read_multiboot_info m info)) MULTIBOOT_INFO_MEM_MAP_FLAG <> 0 ->
  let a := mmap_addr (read_multiboot_info m info) in
  let len := mmap_length (read_multiboot_info m info) in
  a + len < 4294967296 -> mmap_layout m a es (a + len) ->
  wp (boot_initialize m magic_ info)
     (fun _ b => has_memory_map b = true /\ memory_map_address b = a /\
                 memory_map_length b = len /\
                 memory_map_region_count b = u32 (Z.of_nat (length es))) s.
Proof.
  intros -> Hinfo Hflag a len Hend Hl. unfold boot_initialize.
  apply Z.eqb_neq in Hinfo, Hflag.
  apply wp_bind, wp_mod, wp_bind, wp_get. cbn. rewrite Hinfo. cbn.
  apply wp_bind. apply wp_when; intros _; [apply wp_mod|];
    (apply wp_when; [intros _|rewrite Hflag; done]);
    apply wp_bind, wp_mod, wp_bind, wp_get, wp_bind, wp_get; cbn;
    fold a len; rewrite u32_small by (pose proof (load32_range m (info + 48));
      pose proof (load32_range m (info + 44)); unfold is_u32 in *; subst a len; unfold read_multiboot_info in *; cbn in *; lia);
    (eapply walk_memory_map_ok; [done|done|]);
    (eapply (wp_for _ _ (fun l b => has_memory_map b = true /\ memory_map_address b = a /\
       memory_map_length b = len /\ memory_map_region_count b = u32 (Z.of_nat (length l))));
      [done| |done]);
    intros l x r s' _ (H1 & H2 & H3 & H4); apply wp_mod; cbn;
    split_and!; try done; rewrite H4, length_app; unfold incr; rewrite u32_add_l; f_equal; cbn; lia.
Qed.

(** A two-entry map as QEMU's boot loader leaves it: conventional memory and
    the memory above 1 MiB, preceded by the information structure. *)
Definition sample_mem : mem :=
  store_words 0x9000 [0x40; 0; 0; 0; 0; 0; 0; 0; 0; 0; 0; 48; 0xA000]
    (store_words 0xA000 [20; 0; 0; 0x9FC00; 0; 1; 20; 0x100000; 0; 0x7EE0000; 0; 1] ∅).

Definition sample_entries : list multiboot_memory_map_entry_t :=
  [ {| entry_size := 20; base_addr := 0; entry_length := 0x9FC00; entry_type := 1 |};
    {| entry_size := 20; base_addr := 0x100000; entry_length := 0x7EE0000; entry_type := 1 |} ].

Lemma sample_layout : mmap_layout sample_mem 0xA000 sample_entries (0xA000 + 48).
Proof.
  unfold sample_entries.
  eapply mmap_entry; [lia|vm_compute; reflexivity|cbn; lia|].
  eapply mmap_entry; [cbn; lia|vm_compute; reflexivity|cbn; lia|].
  apply mmap_done.
Qed.

Lemma boot_initialize_counts_witness :
  wp (boot_initialize sample_mem MULTIBOOT_BOOTLOADER_MAGIC 0x9000)
     (fun _ b => has_memory_map b = true /\ memory_map_address b = 0xA000 /\
                 memory_map_length b = 48 /\ memory_map_region_count b = 2)
     (Build_boot_info_t 0 0 false false 0 0 false 0 0 0).
Proof.
  apply (boot_initialize_counts sample_mem _ 0x9000 _ sample_entries);
    [reflexivity|lia|vm_compute; discriminate|vm_compute; reflexivity|].
  exact sample_layout.
Defined.
