(* ===== verification/Pmm.v ===== *)
(** * Physical memory manager (memory/pmm.h, memory/pmm.c)

    Page frames are handed out from a bump pointer inside the first usable
    region above 1 MiB and the kernel image; freed frames go to a bounded stack
    that is consulted first. The invariant [pmm_inv] is what makes a frame have
    one owner at a time: [outstanding] says which frames are handed out. *)
From S2P Require Import Prelude Mem Boot.

Definition PMM_PAGE_SIZE := 4096.
Definition PMM_MAX_FREE_PAGES := 1024.
Definition ONE_MIB := 0x100000.

Record pmm_stats_t := {
  total_regions : Z;
  usable_regions : Z;
  reserved_regions : Z;
  usable_memory_bytes : Z;
  allocation_start : Z;
  allocation_end : Z;
  next_free_page : Z;
  allocated_pages : Z;
  free_stack_count : Z
}.

#[export] Instance eta_pmm_stats : Settable pmm_stats_t := fun s =>
  Build_pmm_stats_t (total_regions s) (usable_regions s) (reserved_regions s)
    (usable_memory_bytes s) (allocation_start s) (allocation_end s) (next_free_page s)
    (allocated_pages s) (free_stack_count s).

Record pmm_state := { pmm_stats : pmm_stats_t; free_stack : list Z }.

#[export] Instance eta_pmm_state : Settable pmm_state := fun s =>
  Build_pmm_state (pmm_stats s) (free_stack s).

Definition align_up (value alignment : Z) : Z :=
  Z.land ((value [+] alignment) [-] 1) (not32 (alignment [-] 1)).

Definition pmm_free_stack_contains (page_address : Z) (s : pmm_state) : bool :=
  existsb (fun p => p =? page_address)
          (take (Z.to_nat (free_stack_count (pmm_stats s))) (free_stack s)).

(** The body of the loop of [pmm_initialize]. *)
Definition pmm_account_region (kernel_end : Z) (entry : multiboot_memory_map_entry_t)
    (st : pmm_stats_t) : pmm_stats_t :=
  let st := st <| total_regions ::= incr |> in
  if entry_type entry =? MULTIBOOT_MEMORY_AVAILABLE then
    let st := st <| usable_regions ::= incr |>
                 <| usable_memory_bytes ::= fun b => (b + entry_length entry) mod 2 ^ 64 |> in
    let base := u32 (base_addr entry) in
    let length := u32 (entry_length entry) in
    let region_end := base [+] length in
    let base := if (base <? ONE_MIB) && (ONE_MIB <? region_end) then ONE_MIB else base in
    let base := if (base <? kernel_end) && (kernel_end <? region_end) then kernel_end else base in
    let base := align_up base PMM_PAGE_SIZE in
    if (allocation_start st =? 0) && (ONE_MIB <=? base) && (base <? region_end)
    then st <| allocation_start := base |> <| allocation_end := region_end |>
            <| next_free_page := base |>
    else st
  else st <| reserved_regions ::= incr |>.

(** [kernel_end_address] is the linker's [__kernel_end]. *)
Definition pmm_initialize (m : mem) (kernel_end_address : Z) (boot_info : option boot_info_t)
    : M pmm_state unit :=
  mmod (fun s => s <| pmm_stats := Build_pmm_stats_t 0 0 0 0 0 0 0 0 0 |>) ;;;
  let kernel_end := align_up kernel_end_address PMM_PAGE_SIZE in
  match boot_info with
  | None => mret_ tt
  | Some bi =>
      if negb (has_memory_map bi) then mret_ tt
      else
        walk_memory_map m
          (fun entry => mmod (fun s => s <| pmm_stats ::= pmm_account_region kernel_end entry |>))
          (memory_map_address bi) (memory_map_address bi [+] memory_map_length bi)
  end.

Definition pmm_alloc_page : M pmm_state Z := fun s =>
  let st := pmm_stats s in
  if 0 <? free_stack_count st then
    let count := decr (free_stack_count st) in
    let page := default 0 (free_stack s !! Z.to_nat count) in
    Some (page, s <| pmm_stats := st <| free_stack_count := count |>
                                     <| allocated_pages ::= incr |> |>)
  else if next_free_page st =? 0 then Some (0, s)
  else if allocation_end st <? next_free_page st [+] PMM_PAGE_SIZE then Some (0, s)
  else
    Some (next_free_page st,
          s <| pmm_stats := st <| next_free_page ::= fun p => p [+] PMM_PAGE_SIZE |>
                               <| allocated_pages ::= incr |> |>).

Definition pmm_free_page (page : Z) : M pmm_state unit := fun s =>
  let st := pmm_stats s in
  if page =? 0 then Some (tt, s)
  else if negb (page mod PMM_PAGE_SIZE =? 0) then Some (tt, s)
  else if (page <? allocation_start st) || (allocation_end st <=? page) then Some (tt, s)
  else if next_free_page st <=? page then Some (tt, s)
  else if pmm_free_stack_contains page s then Some (tt, s)
  else if PMM_MAX_FREE_PAGES <=? free_stack_count st then Some (tt, s)
  else
    let st' := st <| free_stack_count ::= incr |> in
    let st' := if 0 <? allocated_pages st then st' <| allocated_pages ::= decr |> else st' in
    Some (tt, s <| free_stack ::= <[Z.to_nat (free_stack_count st) := page]> |>
                <| pmm_stats := st' |>).

(** ** The invariant *)

(** The frames on the free stack. *)
Definition free_list (s : pmm_state) : list Z :=
  take (Z.to_nat (free_stack_count (pmm_stats s))) (free_stack s).

Definition page_in (lo hi p : Z) : Prop := lo <= p /\ p + 4096 <= hi /\ p mod 4096 = 0.

Record pmm_inv (s : pmm_state) : Prop := {
  inv_start_aligned : allocation_start (pmm_stats s) mod 4096 = 0;
  inv_next_aligned : next_free_page (pmm_stats s) mod 4096 = 0;
  inv_start_next : 0 <= allocation_start (pmm_stats s) <= next_free_page (pmm_stats s);
  inv_next_end : next_free_page (pmm_stats s) <= allocation_end (pmm_stats s);
  inv_end_top : allocation_end (pmm_stats s) < 4294963200;
  inv_start_zero : allocation_start (pmm_stats s) = 0 -> allocation_end (pmm_stats s) = 0;
  inv_stack_length : length (free_stack s) = 1024%nat;
  inv_stack_count : 0 <= free_stack_count (pmm_stats s) <= 1024;
  inv_stack_nodup : NoDup (free_list s);
  inv_stack_pages : Forall (page_in (allocation_start (pmm_stats s))
                                    (next_free_page (pmm_stats s))) (free_list s);
  inv_accounting : allocated_pages (pmm_stats s) =
    (next_free_page (pmm_stats s) - allocation_start (pmm_stats s)) / 4096
    - free_stack_count (pmm_stats s)
}.

(** A frame that some caller holds. *)
Definition outstanding (s : pmm_state) (p : Z) : Prop :=
  page_in (allocation_start (pmm_stats s)) (next_free_page (pmm_stats s)) p /\
  p ∉ free_list s.

#[export] Instance outstanding_dec s p : Decision (outstanding s p).
Proof. unfold outstanding, page_in. apply _. Defined.

(** ** Lemmas *)

(** Aligning to a power of two that divides the address space. *)
Lemma align_up_spec v k :
  is_u32 v -> 0 <= k < 32 ->
  align_up v (2 ^ k) = 2 ^ k * (u32 (v + 2 ^ k - 1) / 2 ^ k).
Proof.
  intros Hv Hk. unfold align_up.
  assert (0 < 2 ^ k <= 2 ^ 31) by (split; [lia|apply Z.pow_le_mono_r; lia]).
  assert (not32 (2 ^ k [-] 1) = 4294967296 - 2 ^ k) as ->.
  { rewrite u32_small by (unfold is_u32; lia). unfold not32. lia. }
  rewrite u32_sub_l. by rewrite land_high_mask by (auto with u32; lia).
Qed.

Lemma align_up_page v :
  0 <= v <= 4294963200 ->
  align_up v 4096 mod 4096 = 0 /\ v <= align_up v 4096 < v + 4096.
Proof.
  intros Hv. change 4096 with (2 ^ 12). rewrite align_up_spec by (unfold is_u32; lia).
  rewrite u32_small by (unfold is_u32; lia). change (2 ^ 12) with 4096.
  split; Z.div_mod_to_equations; lia.
Qed.

(** Distinct frames of a range are no more than the range holds. *)
Lemma pages_pigeonhole lo hi l :
  lo mod 4096 = 0 -> lo <= hi -> NoDup l -> Forall (page_in lo hi) l ->
  Z.of_nat (length l) <= (hi - lo) / 4096.
Proof.
  intros Hlo Hle Hnd Hl.
  set (n := (hi - lo) / 4096). assert (0 <= n) by (apply Z.div_pos; lia).
  assert (l ⊆+ ((fun i => lo + 4096 * i) <$> seqZ 0 n)) as Hsub.
  { apply NoDup_submseteq; [done|]. intros p Hp.
    rewrite Forall_forall in Hl. destruct (Hl p Hp) as (H1 & H2 & H3).
    apply list_elem_of_fmap. exists ((p - lo) / 4096).
    rewrite elem_of_seqZ. subst n. Z.div_mod_to_equations. lia. }
  apply submseteq_length in Hsub. rewrite length_fmap, length_seqZ in Hsub. lia.
Qed.

Lemma pmm_free_stack_contains_spec p s :
  pmm_free_stack_contains p s = bool_decide (p ∈ free_list s).
Proof.
  unfold pmm_free_stack_contains. fold (free_list s).
  apply eq_true_iff_eq. rewrite existsb_exists, bool_decide_eq_true, list_elem_of_In.
  split; [intros (x & Hx & E)|intros; exists p].
  - apply Z.eqb_eq in E. by subst.
  - split; [done|apply Z.eqb_refl].
Qed.

Lemma free_list_length s :
  pmm_inv s -> length (free_list s) = Z.to_nat (free_stack_count (pmm_stats s)).
Proof.
  intros Hi. unfold free_list. rewrite length_take, (inv_stack_length _ Hi).
  pose proof (inv_stack_count _ Hi). lia.
Qed.

Lemma free_list_pop s :
  pmm_inv s -> 0 < free_stack_count (pmm_stats s) ->
  exists p, free_stack s !! Z.to_nat (free_stack_count (pmm_stats s) - 1) = Some p /\
    free_list s =
      take (Z.to_nat (free_stack_count (pmm_stats s) - 1)) (free_stack s) ++ [p].
Proof.
  intros Hi Hpos. pose proof (inv_stack_count _ Hi) as Hc.
  destruct (lookup_lt_is_Some_2 (free_stack s)
              (Z.to_nat (free_stack_count (pmm_stats s) - 1))) as [p Hp].
  { rewrite (inv_stack_length _ Hi). lia. }
  exists p. split; [done|]. unfold free_list.
  replace (Z.to_nat (free_stack_count (pmm_stats s)))
    with (S (Z.to_nat (free_stack_count (pmm_stats s) - 1))) by lia.
  by apply take_S_r.
Qed.

(** The frames handed out are counted by [allocated_pages]. *)
Lemma outstanding_in_range s p :
  pmm_inv s -> outstanding s p ->
  p <> 0 /\ 0 < allocated_pages (pmm_stats s) /\
  allocation_start (pmm_stats s) <= p < allocation_end (pmm_stats s) /\
  p < next_free_page (pmm_stats s).
Proof.
  intros Hi [Hp Hnin]. pose proof Hp as (H1 & H2 & H3).
  pose proof (inv_start_next _ Hi). pose proof (inv_next_end _ Hi).
  assert (allocation_start (pmm_stats s) <> 0).
  { intros E. pose proof (inv_start_zero _ Hi E). lia. }
  assert (NoDup (p :: free_list s)) as Hnd by (constructor; [done|apply Hi]).
  assert (Forall (page_in (allocation_start (pmm_stats s)) (next_free_page (pmm_stats s)))
            (p :: free_list s)) as Hall by (constructor; [done|apply Hi]).
  pose proof (pages_pigeonhole _ _ _ (inv_start_aligned _ Hi) (proj2 (inv_start_next _ Hi))
                Hnd Hall) as Hpig.
  simpl in Hpig. rewrite free_list_length in Hpig by done.
  pose proof (inv_stack_count _ Hi). rewrite (inv_accounting _ Hi).
  split_and!; lia.
Qed.

(** The two sources of [pmm_alloc_page]. *)
Lemma pmm_alloc_stack s :
  pmm_inv s -> 0 < free_stack_count (pmm_stats s) ->
  exists p s', pmm_alloc_page s = Some (p, s') /\ pmm_inv s' /\
    next_free_page (pmm_stats s') = next_free_page (pmm_stats s) /\
    allocation_start (pmm_stats s') = allocation_start (pmm_stats s) /\
    allocation_end (pmm_stats s') = allocation_end (pmm_stats s) /\
    free_list s = free_list s' ++ [p].
Proof.
  intros Hi Hpos. destruct (free_list_pop s Hi Hpos) as (p & Hp & Hfl).
  pose proof (inv_stack_count _ Hi). unfold pmm_alloc_page.
  rewrite (proj2 (Z.ltb_lt _ _) Hpos), decr_small, Hp by lia. cbn.
  eexists p, _. split; [done|]. cbn. split; [|split_and!; done].
  assert (free_stack_count (pmm_stats s) <= (next_free_page (pmm_stats s) -
            allocation_start (pmm_stats s)) / 4096) as Hle.
  { pose proof (pages_pigeonhole _ _ (free_list s) (inv_start_aligned _ Hi)
      (proj2 (inv_start_next _ Hi)) (inv_stack_nodup _ Hi) (inv_stack_pages _ Hi)) as Hpig.
    rewrite free_list_length in Hpig by done. lia. }
  pose proof (inv_start_next _ Hi). pose proof (inv_next_end _ Hi). pose proof (inv_end_top _ Hi).
  pose proof (inv_accounting _ Hi).
  constructor; cbn; unfold free_list; cbn; try apply Hi; try lia.
  - pose proof (inv_stack_nodup _ Hi) as Hnd. rewrite Hfl in Hnd.
    apply NoDup_app in Hnd as [Hnd _]. exact Hnd.
  - pose proof (inv_stack_pages _ Hi) as Hall. rewrite Hfl in Hall.
    apply Forall_app in Hall as [Hall _]. exact Hall.
  - rewrite incr_small; [lia|]. Z.div_mod_to_equations. lia.
Qed.

Lemma pmm_alloc_bump s :
  pmm_inv s -> free_stack_count (pmm_stats s) = 0 ->
  next_free_page (pmm_stats s) <> 0 ->
  next_free_page (pmm_stats s) + 4096 <= allocation_end (pmm_stats s) ->
  exists s', pmm_alloc_page s = Some (next_free_page (pmm_stats s), s') /\ pmm_inv s' /\
    next_free_page (pmm_stats s') = next_free_page (pmm_stats s) + 4096 /\
    allocation_start (pmm_stats s') = allocation_start (pmm_stats s) /\
    allocation_end (pmm_stats s') = allocation_end (pmm_stats s) /\
    free_list s' = free_list s /\ free_list s = [].
Proof.
  intros Hi Hz Hne Hend.
  pose proof (inv_start_next _ Hi). pose proof (inv_end_top _ Hi).
  pose proof (inv_accounting _ Hi). pose proof (inv_next_aligned _ Hi) as Hal.
  unfold pmm_alloc_page, PMM_PAGE_SIZE. rewrite Hz, u32_small by (unfold is_u32; lia).
  zbool. cbn.
  assert (free_list s = []) as Hfl by (unfold free_list; by rewrite Hz).
  eexists. split; [done|]. cbn. rewrite u32_small by (unfold is_u32; lia).
  split; [|split_and!; done].
  constructor; cbn; unfold free_list; cbn; rewrite ?u32_small by (unfold is_u32; lia);
    rewrite ?Hz; try apply Hi; try lia; try constructor.
  - rewrite Zplus_mod, Hal. done.
  - rewrite incr_small; [|Z.div_mod_to_equations; lia].
    rewrite H1, Hz. replace (next_free_page (pmm_stats s) + 4096 - allocation_start (pmm_stats s))
      with (next_free_page (pmm_stats s) - allocation_start (pmm_stats s) + 1 * 4096) by lia.
    rewrite Z.div_add by lia. lia.
Qed.

(** A returned frame, seen from the callers. *)
Definition fresh_page (s s' : pmm_state) (p : Z) : Prop :=
  p <> 0 /\ page_in (allocation_start (pmm_stats s)) (allocation_end (pmm_stats s)) p /\
  ~ outstanding s p /\ (forall q, outstanding s' q <-> q = p \/ outstanding s q).

Definition pmm_exhausted (s : pmm_state) : Prop :=
  free_stack_count (pmm_stats s) = 0 /\
  allocation_end (pmm_stats s) < next_free_page (pmm_stats s) + 4096.

(** The bounds of the managed region never change after initialization. *)
Definition same_region (s s' : pmm_state) : Prop :=
  allocation_start (pmm_stats s') = allocation_start (pmm_stats s) /\
  allocation_end (pmm_stats s') = allocation_end (pmm_stats s).

Lemma pmm_alloc_page_ok s :
  pmm_inv s ->
  wp pmm_alloc_page (fun p s' => pmm_inv s' /\ same_region s s' /\
    ((p = 0 /\ s' = s /\ pmm_exhausted s) \/ fresh_page s s' p)) s.
Proof.
  intros Hi. pose proof (inv_start_next _ Hi). pose proof (inv_next_end _ Hi).
  pose proof (inv_end_top _ Hi). pose proof (inv_stack_count _ Hi).
  destruct (decide (0 < free_stack_count (pmm_stats s))) as [Hpos|Hz].
  - destruct (pmm_alloc_stack s Hi Hpos) as (p & s' & E & Hi' & En & Es & Ee & Hfl).
    exists p, s'. split; [done|]. split; [done|]. split; [by split|]. right.
    pose proof (inv_stack_nodup _ Hi) as Hnd. rewrite Hfl in Hnd.
    apply NoDup_app in Hnd as (_ & Hnin & _).
    pose proof (inv_stack_pages _ Hi) as Hall. rewrite Hfl in Hall.
    apply Forall_app in Hall as [_ Hp]. rewrite Forall_singleton in Hp.
    assert (p ∉ free_list s') as Hnew.
    { intros Hin. apply (Hnin p Hin), list_elem_of_singleton. done. }
    unfold fresh_page, outstanding. rewrite En, Es, Hfl.
    pose proof Hp as (H5 & H6 & H7). split_and!.
    + intros ->. assert (allocation_start (pmm_stats s) = 0) as Hz by lia.
      pose proof (inv_start_zero _ Hi Hz). lia.
    + unfold page_in. lia.
    + intros [_ Hn]. apply Hn, elem_of_app. right. by apply list_elem_of_singleton.
    + intros q. rewrite not_elem_of_app, list_elem_of_singleton.
      destruct (decide (q = p)) as [->|]; [|tauto].
      split; [by left|]. intros _. by split.
  - assert (free_stack_count (pmm_stats s) = 0) as Hz' by lia.
    destruct (decide (next_free_page (pmm_stats s) = 0 \/
        allocation_end (pmm_stats s) < next_free_page (pmm_stats s) + 4096)) as [Hex|Hne].
    + exists 0, s. split.
      { unfold pmm_alloc_page, PMM_PAGE_SIZE. rewrite Hz', u32_small by (unfold is_u32; lia).
        cbn. destruct (Z.eqb_spec (next_free_page (pmm_stats s)) 0); [done|].
        zbool. done. }
      split; [done|]. split; [by split|]. left. split; [done|]. split; [done|]. split; [done|].
      destruct Hex; [|done]. assert (allocation_start (pmm_stats s) = 0) as Hs0 by lia.
      pose proof (inv_start_zero _ Hi Hs0). lia.
    + destruct (pmm_alloc_bump s Hi Hz') as (s' & E & Hi' & En & Es & Ee & Hfl & Hnil); [lia..|].
      exists (next_free_page (pmm_stats s)), s'. split; [done|]. split; [done|].
      split; [by split|]. right. unfold fresh_page, outstanding, page_in.
      rewrite En, Es, Hfl, Hnil. pose proof (inv_next_aligned _ Hi).
      split_and!; try lia. intros q. split; intros Hq.
      * destruct (decide (q = next_free_page (pmm_stats s))); [by left|right].
        destruct Hq as [Hq ?]. split; [|done]. Z.div_mod_to_equations. lia.
      * destruct Hq as [->|[Hq ?]]; (split; [lia|apply not_elem_of_nil]).
Qed.

(** [pmm_free_page] changes the state only for a frame that is handed out. *)
Lemma pmm_free_page_ignored s p :
  pmm_inv s -> ~ outstanding s p -> pmm_free_page p s = Some (tt, s).
Proof.
  intros Hi Hno. unfold pmm_free_page, PMM_PAGE_SIZE.
  destruct (Z.eqb_spec p 0); [done|].
  destruct (Z.eqb_spec (p mod 4096) 0) as [Hal|]; [cbn|done].
  destruct (Z.ltb_spec p (allocation_start (pmm_stats s))); [done|].
  destruct (Z.leb_spec (allocation_end (pmm_stats s)) p); [done|]. cbn.
  destruct (Z.leb_spec (next_free_page (pmm_stats s)) p); [done|].
  rewrite pmm_free_stack_contains_spec. case_bool_decide as Hin; [done|].
  exfalso. apply Hno. split; [|done]. pose proof (inv_next_aligned _ Hi).
  unfold page_in. Z.div_mod_to_equations. lia.
Qed.

Lemma pmm_free_page_push s p :
  pmm_inv s -> outstanding s p -> free_stack_count (pmm_stats s) < 1024 ->
  exists s', pmm_free_page p s = Some (tt, s') /\ pmm_inv s' /\ same_region s s' /\
    next_free_page (pmm_stats s') = next_free_page (pmm_stats s) /\
    free_list s' = free_list s ++ [p].
Proof.
  intros Hi Hout Hroom. destruct (outstanding_in_range s p Hi Hout) as (Hp0 & Hap & Hr & Hn).
  destruct Hout as [Hp Hnin]. pose proof (inv_stack_count _ Hi) as Hc.
  unfold pmm_free_page, PMM_PAGE_SIZE, PMM_MAX_FREE_PAGES.
  pose proof Hp as (Hp1 & Hp2 & Hp3).
  zbool. cbn. zbool. rewrite pmm_free_stack_contains_spec, bool_decide_eq_false_2 by done. cbn.
  eexists. split; [done|].
  assert (Hfl : take (Z.to_nat (free_stack_count (pmm_stats s) + 1))
            (<[Z.to_nat (free_stack_count (pmm_stats s)) := p]> (free_stack s))
          = free_list s ++ [p]).
  { replace (Z.to_nat (free_stack_count (pmm_stats s) + 1))
      with (S (Z.to_nat (free_stack_count (pmm_stats s)))) by lia.
    rewrite (take_S_r _ _ p).
    - by rewrite take_insert_ge.
    - apply list_lookup_insert_eq. rewrite (inv_stack_length _ Hi). lia. }
  pose proof (inv_accounting _ Hi). pose proof (inv_next_end _ Hi).
  pose proof (inv_start_next _ Hi). pose proof (inv_end_top _ Hi).
  split; [|split; [by split|split; [done|]]].
  2:{ unfold free_list at 1. cbn. rewrite incr_small by lia. exact Hfl. }
  constructor; cbn; unfold free_list; cbn; rewrite ?incr_small by lia; rewrite ?Hfl;
    try apply Hi; try lia.
  - rewrite length_insert. apply Hi.
  - apply NoDup_app. split_and!; [apply Hi| |apply NoDup_singleton].
    intros x Hx Hx'. apply list_elem_of_singleton in Hx'. by subst.
  - apply Forall_app. split; [apply Hi|]. rewrite Forall_singleton. unfold page_in. lia.
  - rewrite decr_small; [lia|]. rewrite H. Z.div_mod_to_equations. lia.
Qed.

Lemma pmm_free_page_ok s p :
  pmm_inv s ->
  wp (pmm_free_page p) (fun _ s' => pmm_inv s' /\ same_region s s' /\
    ((s' = s /\ (~ outstanding s p \/ free_stack_count (pmm_stats s) = 1024)) \/
     (outstanding s p /\ forall q, outstanding s' q <-> outstanding s q /\ q <> p))) s.
Proof.
  intros Hi. destruct (decide (outstanding s p)) as [Hout|Hno].
  - destruct (decide (free_stack_count (pmm_stats s) < 1024)) as [Hroom|Hfull].
    + destruct (pmm_free_page_push s p Hi Hout Hroom) as (s' & E & Hi' & [Es Ee] & En & Hfl).
      exists tt, s'. split; [done|]. split; [done|]. split; [by split|]. right.
      split; [done|]. intros q. unfold outstanding. rewrite En, Es, Hfl, not_elem_of_app,
        list_elem_of_singleton. tauto.
    + exists tt, s. pose proof (inv_stack_count _ Hi).
      assert (free_stack_count (pmm_stats s) = 1024) as E1024 by lia.
      split; [|split; [done|split; [by split|left; auto]]].
      unfold pmm_free_page, PMM_MAX_FREE_PAGES. rewrite E1024. repeat case_match; done.
  - exists tt, s. rewrite pmm_free_page_ignored by done.
    split; [done|]. split; [done|]. split; [by split|]. left. auto.
Qed.

(** ** Initialization *)

(** An available region that ends below the last page of the address space,
    so that neither its end nor the bump pointer wraps around. *)
Definition region_below_top (e : multiboot_memory_map_entry_t) : Prop :=
  entry_type e = MULTIBOOT_MEMORY_AVAILABLE ->
  0 <= base_addr e /\ 0 <= entry_length e /\ base_addr e + entry_length e < 4294963200.

(** ... and that does not end inside the kernel image. *)
Definition region_clears_kernel (kernel_end : Z) (e : multiboot_memory_map_entry_t) : Prop :=
  entry_type e = MULTIBOOT_MEMORY_AVAILABLE ->
  base_addr e + entry_length e <= ONE_MIB \/ kernel_end < base_addr e + entry_length e.

Definition stats_ok (kernel_end : Z) (st : pmm_stats_t) : Prop :=
  next_free_page st = allocation_start st /\ allocation_start st mod 4096 = 0 /\
  allocated_pages st = 0 /\ free_stack_count st = 0 /\
  ((allocation_start st = 0 /\ allocation_end st = 0) \/
   (ONE_MIB <= allocation_start st < allocation_end st /\ kernel_end <= allocation_start st /\
    allocation_end st < 4294963200)).

Lemma pmm_account_region_ok kernel_end e st :
  0 <= kernel_end < 4294963200 ->
  region_below_top e -> region_clears_kernel kernel_end e ->
  stats_ok kernel_end st -> stats_ok kernel_end (pmm_account_region kernel_end e st).
Proof.
  intros Hk Htop Hclr Hst. unfold pmm_account_region.
  destruct (Z.eqb_spec (entry_type e) MULTIBOOT_MEMORY_AVAILABLE) as [E|]; [|done].
  specialize (Htop E). specialize (Hclr E).
  rewrite !(u32_small (base_addr e)), !(u32_small (entry_length e)),
    !(u32_small (base_addr e + entry_length e)) by (unfold is_u32; lia).
  cbv zeta. set (b1 := if _ && _ then ONE_MIB else _). set (b2 := if _ && _ then kernel_end else _).
  assert (0 <= b2 <= 4294963200 /\ base_addr e <= b2 /\
          (b2 < base_addr e + entry_length e -> ONE_MIB <= b2 -> kernel_end <= b2) /\
          (b2 < ONE_MIB -> base_addr e + entry_length e <= ONE_MIB)) as (Hb2 & Hge & Hb3 & Hb4).
  { unfold ONE_MIB in *.
    assert (b1 = base_addr e /\ ~ (base_addr e < 0x100000 < base_addr e + entry_length e) \/
            b1 = 0x100000 /\ base_addr e < 0x100000 < base_addr e + entry_length e) as Hb1.
    { subst b1. destruct (Z.ltb_spec (base_addr e) 0x100000),
        (Z.ltb_spec 0x100000 (base_addr e + entry_length e)); cbn; lia. }
    clearbody b1. subst b2. destruct (Z.ltb_spec b1 kernel_end),
      (Z.ltb_spec kernel_end (base_addr e + entry_length e)); cbn; lia. }
  unfold PMM_PAGE_SIZE. destruct (align_up_page b2 Hb2) as [Hmod Hbase].
  set (base := align_up b2 4096) in *. cbn.
  destruct (Z.eqb_spec (allocation_start st) 0) as [Es|]; cbn; [|done].
  destruct (Z.leb_spec ONE_MIB base), (Z.ltb_spec base (base_addr e + entry_length e)); cbn; try done.
  unfold stats_ok in *. cbn. split_and!; try tauto. right. split; [lia|]. split; [|lia].
  apply Z.le_trans with b2; lia.
Qed.

(** Initialization from a well-formed memory map terminates and
    establishes the invariant with no frame handed out; the managed region, if
    there is one, starts above 1 MiB and above the kernel image. *)
Theorem pmm_initialize_ok m kernel_end_address bi es s :
  has_memory_map bi = true ->
  memory_map_address bi + memory_map_length bi < 4294967296 ->
  mmap_layout m (memory_map_address bi) es (memory_map_address bi + memory_map_length bi) ->
  0 <= memory_map_address bi -> 0 <= kernel_end_address < 4294959104 ->
  length (free_stack s) = 1024%nat ->
  Forall region_below_top es ->
  Forall (region_clears_kernel (align_up kernel_end_address PMM_PAGE_SIZE)) es ->
  wp (pmm_initialize m kernel_end_address (Some bi))
     (fun _ s' => pmm_inv s' /\ (forall p, ~ outstanding s' p) /\
        (allocation_end (pmm_stats s') = 0 \/
         (kernel_end_address <= allocation_start (pmm_stats s') /\
          ONE_MIB <= allocation_start (pmm_stats s')))) s.
Proof.
  intros Hm Hend Hl Ha Hk Hstk Htop Hclr. unfold pmm_initialize. rewrite Hm. cbn.
  destruct (align_up_page kernel_end_address) as [_ Hke]; [lia|].
  apply wp_bind, wp_mod. cbn.
  pose proof (mmap_layout_le _ _ _ _ Hl).
  rewrite u32_small by (unfold is_u32; lia).
  eapply walk_memory_map_ok; [done|lia|].
  eapply wp_mono.
  { apply (wp_for_inv _ _ (fun s' => length (free_stack s') = 1024%nat /\
             stats_ok (align_up kernel_end_address PMM_PAGE_SIZE) (pmm_stats s'))).
    - split; [done|]. unfold stats_ok. cbn. split_and!; try done. by left.
    - intros e s' He [Hlen Hst]. apply wp_mod. cbn. split; [done|].
      rewrite Forall_forall in Htop, Hclr. apply pmm_account_region_ok; auto.
      unfold PMM_PAGE_SIZE. lia. }
  intros _ s' [Hlen (Hn & Hal & Hap & Hfc & Hreg)]. unfold PMM_PAGE_SIZE, ONE_MIB in *.
  assert (free_list s' = []) as Hfl by (unfold free_list; by rewrite Hfc).
  split_and!.
  - constructor; rewrite ?Hfl, ?Hn, ?Hap, ?Hfc, ?Z.sub_diag; try done; try lia; constructor.
  - intros p [Hp _]. unfold page_in in Hp. lia.
  - lia.
Qed.

Definition sample_boot_info : boot_info_t :=
  Build_boot_info_t MULTIBOOT_BOOTLOADER_MAGIC 0x9000 true false 0 0 true 48 0xA000 2.
Definition pmm_zero : pmm_state :=
  {| pmm_stats := Build_pmm_stats_t 0 0 0 0 0 0 0 0 0; free_stack := replicate 1024 0 |}.

Lemma pmm_initialize_ok_witness :
  wp (pmm_initialize sample_mem 0x150123 (Some sample_boot_info))
     (fun _ s' => pmm_inv s' /\ (forall p, ~ outstanding s' p) /\
        (allocation_end (pmm_stats s') = 0 \/
         (0x150123 <= allocation_start (pmm_stats s') /\
          ONE_MIB <= allocation_start (pmm_stats s')))) pmm_zero.
Proof.
  apply (pmm_initialize_ok sample_mem 0x150123 sample_boot_info sample_entries);
    [reflexivity|reflexivity|exact sample_layout|cbn; lia|lia|reflexivity|..];
    repeat constructor; unfold region_below_top, region_clears_kernel; cbn;
    intros; (split_and!; lia) || (vm_compute; intuition discriminate).
Defined.

(** Two frames handed out, none freed. *)
Definition pmm_sample : pmm_state :=
  {| pmm_stats := Build_pmm_stats_t 2 1 1 0x1000000 0x151000 0x200000 0x153000 2 0;
     free_stack := replicate 1024 0 |}.

Lemma pmm_sample_inv : pmm_inv pmm_sample.
Proof. constructor; cbn; try done; constructor. Qed.

Lemma pmm_sample_outstanding : outstanding pmm_sample 0x151000.
Proof. split; [by split_and!|apply not_elem_of_nil]. Qed.

(** ** Ownership of frames *)

(** A run of the kernel's callers: the second component is the set of frames
    that were handed out and not given back. Frees are unconstrained. *)
Inductive pmm_step : pmm_state * gset Z -> pmm_state * gset Z -> Prop :=
| pmm_step_alloc s s' p live :
    pmm_alloc_page s = Some (p, s') ->
    pmm_step (s, live) (s', if decide (p = 0) then live else {[p]} ∪ live)
| pmm_step_free s s' p live :
    pmm_free_page p s = Some (tt, s') ->
    pmm_step (s, live) (s', live ∖ {[p]}).

Definition owned_ok (c : pmm_state * gset Z) : Prop :=
  pmm_inv c.1 /\ forall p, p ∈ c.2 -> outstanding c.1 p.

Lemma pmm_step_owned c c' : pmm_step c c' -> owned_ok c -> owned_ok c'.
Proof.
  intros Hstep [Hi Hlive]. destruct Hstep as [s s' p live E|s s' p live E]; cbn in *.
  - destruct (wp_run _ _ _ _ _ (pmm_alloc_page_ok s Hi) E) as (Hi' & _ & Hcase).
    split; [done|]. cbn. destruct Hcase as [(-> & -> & _)|(Hp & _ & _ & Hout)].
    + rewrite decide_True by done. done.
    + rewrite decide_False by done. intros q Hq. apply Hout.
      apply elem_of_union in Hq as [Hq|Hq]; [rewrite elem_of_singleton in Hq; by left|right; auto].
  - destruct (wp_run _ _ _ _ _ (pmm_free_page_ok s p Hi) E) as (Hi' & _ & Hcase).
    split; [done|]. cbn. intros q Hq. apply elem_of_difference in Hq as [Hq Hne].
    rewrite elem_of_singleton in Hne.
    destruct Hcase as [[-> _]|[_ Hout]]; [auto|]. apply Hout. auto.
Qed.

(** C17: in every run of allocations and (arbitrary, even bogus) frees, a page
    frame returned by [pmm_alloc_page] is not owned by any earlier caller, is
    page-aligned and lies inside the managed region. *)
Theorem pmm_exclusive_ownership s0 s live p s' :
  pmm_inv s0 -> rtc pmm_step (s0, ∅) (s, live) ->
  pmm_alloc_page s = Some (p, s') -> p <> 0 ->
  (p ∉ live) /\ page_in (allocation_start (pmm_stats s)) (allocation_end (pmm_stats s)) p.
Proof.
  intros Hi Hrun E Hp.
  assert (owned_ok (s, live)) as [Hi' Hlive].
  { apply (rtc_invariant _ _ pmm_step_owned _ _ Hrun). split; [done|]. cbn. set_solver. }
  destruct (wp_run _ _ _ _ _ (pmm_alloc_page_ok s Hi') E) as (_ & _ & [(-> & _)|Hf]); [done|].
  destruct Hf as (_ & Hin & Hno & _). split; [|done]. intros Hl. by apply Hno, Hlive.
Qed.

(** A frame freed while the free stack has room is the next one returned. *)
Theorem pmm_free_alloc_roundtrip s p s1 s2 q :
  pmm_inv s -> outstanding s p -> free_stack_count (pmm_stats s) < 1024 ->
  pmm_free_page p s = Some (tt, s1) -> pmm_alloc_page s1 = Some (q, s2) ->
  q = p /\ forall r, outstanding s2 r <-> outstanding s r.
Proof.
  intros Hi Hout Hroom E1 E2.
  destruct (pmm_free_page_push s p Hi Hout Hroom) as (t & E & Hi1 & [Es Ee] & En & Hfl).
  rewrite E in E1. injection E1 as ->.
  assert (0 < free_stack_count (pmm_stats s1)) as Hpos.
  { pose proof (f_equal length Hfl) as Hlen. rewrite length_app, free_list_length in Hlen by done.
    cbn in Hlen. lia. }
  destruct (pmm_alloc_stack s1 Hi1 Hpos) as (p' & t & E' & _ & En' & Es' & _ & Hfl').
  rewrite E' in E2. injection E2 as -> ->. rewrite Hfl in Hfl'.
  apply app_inj_tail in Hfl' as [Hfl2 ->]. split; [done|].
  intros r. unfold outstanding. by rewrite En', Es', En, Es, Hfl2.
Qed.

(** [pmm_free_page] of anything that is not a handed-out frame changes
    nothing: unaligned, out of range, never allocated or already free. *)
Theorem pmm_free_rejects s p :
  pmm_inv s -> ~ outstanding s p -> pmm_free_page p s = Some (tt, s).
Proof. apply pmm_free_page_ignored. Qed.

Lemma pmm_exclusive_ownership_witness :
  exists p s', pmm_alloc_page pmm_sample = Some (p, s') /\
    (p ∉ (∅ : gset Z)) /\
    page_in (allocation_start (pmm_stats pmm_sample)) (allocation_end (pmm_stats pmm_sample)) p.
Proof.
  eexists _, _. split; [reflexivity|].
  eapply (pmm_exclusive_ownership pmm_sample pmm_sample ∅);
    [apply pmm_sample_inv|apply rtc_refl|reflexivity|discriminate].
Defined.

Lemma pmm_free_alloc_roundtrip_witness :
  exists q s1 s2, pmm_free_page 0x151000 pmm_sample = Some (tt, s1) /\
    pmm_alloc_page s1 = Some (q, s2) /\
    q = 0x151000 /\ forall r, outstanding s2 r <-> outstanding pmm_sample r.
Proof.
  eexists _, _, _. split; [reflexivity|]. split; [reflexivity|].
  eapply (pmm_free_alloc_roundtrip pmm_sample 0x151000);
    [apply pmm_sample_inv|apply pmm_sample_outstanding|reflexivity|reflexivity|reflexivity].
Defined.

Lemma pmm_free_rejects_witness : pmm_free_page 0x151004 pmm_sample = Some (tt, pmm_sample).
Proof.
  apply (pmm_free_rejects pmm_sample 0x151004); [apply pmm_sample_inv|].
  intros [(_ & _ & H) _]. vm_compute in H. discriminate.
Defined.
