(* ===== verification/Vmm.v ===== *)
(** * Virtual memory manager (memory/vmm.h, memory/vmm.c, arch/i386/paging.c)

    Two-level i386 page tables kept in memory. The kernel reaches the page
    directory and the page tables through the identity mapping of the first
    128 MiB, so [vmm_mem] is indexed by those addresses; the invariant keeps
    every table inside that window. The translation look-aside buffer is part of
    the state, because [paging_invalidate_page] (arch/i386/paging_asm.asm) exists
    only to keep it coherent. *)
From S2P Require Import Prelude Mem Boot Pmm.

Definition VMM_PAGE_PRESENT := 0x001.
Definition VMM_PAGE_WRITABLE := 0x002.
Definition VMM_PAGE_USER := 0x004.
Definition PAGE_DIRECTORY_ENTRIES := 1024.
Definition PAGE_TABLE_ENTRIES := 1024.
Definition PAGE_SIZE := 4096.
Definition IDENTITY_PAGE_TABLE_COUNT := 32.
Definition PAGE_PRESENT := 0x001.
Definition PAGE_WRITABLE := 0x002.

Definition PAGE_DIRECTORY_INDEX (address : Z) : Z := Z.land (Z.shiftr address 22) 0x3FF.
Definition PAGE_TABLE_INDEX (address : Z) : Z := Z.land (Z.shiftr address 12) 0x3FF.
Definition PAGE_ALIGN_DOWN (address : Z) : Z := Z.land address 0xFFFFF000.
Definition PAGE_OFFSET (address : Z) : Z := Z.land address 0xFFF.
Definition VMM_ALLOWED_FLAGS : Z := Z.lor VMM_PAGE_WRITABLE VMM_PAGE_USER.

Record vmm_stats_t := {
  vmm_initialized : bool;
  mapped_pages : Z;
  created_page_tables : Z;
  last_mapped_virtual_address : Z;
  last_mapped_physical_address : Z;
  failed_map_count : Z;
  failed_unmap_count : Z;
  remap_count : Z;
  invalid_map_count : Z;
  missing_unmap_count : Z
}.

#[export] Instance eta_vmm_stats : Settable vmm_stats_t := fun s =>
  Build_vmm_stats_t (vmm_initialized s) (mapped_pages s) (created_page_tables s)
    (last_mapped_virtual_address s) (last_mapped_physical_address s) (failed_map_count s)
    (failed_unmap_count s) (remap_count s) (invalid_map_count s) (missing_unmap_count s).

Record vmm_audit_info_t := {
  vmm_audits_run : Z;
  vmm_issues_found : Z;
  present_directory_entries : Z;
  present_page_entries : Z;
  writable_page_entries : Z;
  user_page_entries : Z;
  invalid_directory_entries : Z;
  invalid_page_table_addresses : Z;
  last_mapping_missing : Z
}.

#[export] Instance eta_vmm_audit_info : Settable vmm_audit_info_t := fun s =>
  Build_vmm_audit_info_t (vmm_audits_run s) (vmm_issues_found s) (present_directory_entries s)
    (present_page_entries s) (writable_page_entries s) (user_page_entries s)
    (invalid_directory_entries s) (invalid_page_table_addresses s) (last_mapping_missing s).

Record paging_info_t := {
  paging_enabled : bool;
  mapped_start : Z;
  mapped_end : Z;
  mapped_bytes : Z;
  page_directory_address : Z;
  page_table_count : Z
}.

#[export] Instance eta_paging_info : Settable paging_info_t := fun s =>
  Build_paging_info_t (paging_enabled s) (mapped_start s) (mapped_end s) (mapped_bytes s)
    (page_directory_address s) (page_table_count s).

Record vmm_state := {
  vmm_pmm : pmm_state;
  vmm_mem : mem;
  vmm_tlb : gmap Z Z;       (* virtual page -> cached page table entry *)
  paging_info : paging_info_t;
  vmm_stats : vmm_stats_t;
  vmm_audit_info : vmm_audit_info_t
}.

#[export] Instance eta_vmm_state : Settable vmm_state := fun s =>
  Build_vmm_state (vmm_pmm s) (vmm_mem s) (vmm_tlb s) (paging_info s) (vmm_stats s)
    (vmm_audit_info s).

(** Reading and writing a 32-bit word through a kernel pointer. *)
Definition read32 (a : Z) : M vmm_state Z := mget (fun s => load32 (vmm_mem s) a).
Definition write32 (a v : Z) : M vmm_state unit := mmod (fun s => s <| vmm_mem ::= store32 a v |>).
Definition vmm_stat (f : vmm_stats_t -> vmm_stats_t) : M vmm_state unit :=
  mmod (fun s => s <| vmm_stats ::= f |>).

Definition on_pmm {A} (m : M pmm_state A) : M vmm_state A :=
  mzoom vmm_pmm (fun p s => s <| vmm_pmm := p |>) m.

(** arch/i386/paging_asm.asm: [invlpg]. *)
Definition paging_invalidate_page (virtual_address : Z) : M vmm_state unit :=
  mmod (fun s => s <| vmm_tlb ::= delete (virtual_address / 4096) |>).

(** ** arch/i386/paging.c *)

(** The linker's addresses of the arrays [page_directory] and
    [identity_page_tables]. *)
Section Paging.
Context (page_directory identity_page_tables : Z).

Definition identity_entry_address (table entry : Z) : Z :=
  identity_page_tables + 4096 * table + 4 * entry.

Definition paging_clear_structures : M vmm_state unit :=
  mfor (seqZ 0 PAGE_DIRECTORY_ENTRIES) (fun i => write32 (page_directory + 4 * i) 0) ;;;
  mfor (seqZ 0 IDENTITY_PAGE_TABLE_COUNT) (fun table =>
    mfor (seqZ 0 PAGE_TABLE_ENTRIES) (fun entry =>
      write32 (identity_entry_address table entry) 0)).

Definition paging_build_identity_map : M vmm_state unit :=
  mfor (seqZ 0 IDENTITY_PAGE_TABLE_COUNT) (fun table =>
    mfor (seqZ 0 PAGE_TABLE_ENTRIES) (fun entry =>
      let physical_address :=
        ((table [*] PAGE_TABLE_ENTRIES) [*] PAGE_SIZE) [+] (entry [*] PAGE_SIZE) in
      write32 (identity_entry_address table entry)
              (Z.lor (Z.lor physical_address PAGE_PRESENT) PAGE_WRITABLE)) ;;;
    write32 (page_directory + 4 * table)
            (Z.lor (Z.lor (identity_entry_address table 0) PAGE_PRESENT) PAGE_WRITABLE)).

(** [paging_load_directory] and [paging_enable] load CR3 and set CR0.PG; loading
    CR3 empties the look-aside buffer. *)
Definition paging_initialize : M vmm_state unit :=
  paging_clear_structures ;;;
  paging_build_identity_map ;;;
  mmod (fun s => s <| paging_info := {|
    paging_enabled := false;
    mapped_start := 0;
    mapped_bytes := IDENTITY_PAGE_TABLE_COUNT [*] PAGE_TABLE_ENTRIES [*] PAGE_SIZE;
    mapped_end := (0 [+] (IDENTITY_PAGE_TABLE_COUNT [*] PAGE_TABLE_ENTRIES [*] PAGE_SIZE)) [-] 1;
    page_directory_address := page_directory;
    page_table_count := IDENTITY_PAGE_TABLE_COUNT |} |>) ;;;
  mmod (fun s => s <| vmm_tlb := ∅ |>) ;;;
  mmod (fun s => s <| paging_info ::= fun i => i <| paging_enabled := true |> |>).
End Paging.

Definition paging_get_directory_address : M vmm_state Z :=
  mget (fun s => page_directory_address (paging_info s)).

(** ** memory/vmm.c *)

Definition vmm_get_page_directory : M vmm_state Z := paging_get_directory_address.

Definition vmm_address_is_page_aligned (address : Z) : bool := PAGE_OFFSET address =? 0.

Definition vmm_flags_are_valid (flags : Z) : bool :=
  Z.land flags (not32 VMM_ALLOWED_FLAGS) =? 0.

Definition vmm_clear_audit_snapshot : M vmm_state unit :=
  mmod (fun s => s <| vmm_audit_info ::= fun i =>
    i <| vmm_issues_found := 0 |>
      <| present_directory_entries := 0 |> <| present_page_entries := 0 |>
      <| writable_page_entries := 0 |> <| user_page_entries := 0 |>
      <| invalid_directory_entries := 0 |> <| invalid_page_table_addresses := 0 |>
      <| last_mapping_missing := 0 |> |>).

Definition vmm_audit_mod (f : vmm_audit_info_t -> vmm_audit_info_t) : M vmm_state unit :=
  mmod (fun s => s <| vmm_audit_info ::= f |>).

(** [counter] increments the field the C code passes a pointer to. *)
Definition vmm_audit_record_issue (counter : vmm_audit_info_t -> vmm_audit_info_t)
    : M vmm_state unit :=
  vmm_audit_mod (fun i => i <| vmm_issues_found ::= incr |>) ;;;
  vmm_audit_mod counter.

Definition vmm_clear_page_table (page_table : Z) : M vmm_state unit :=
  mfor (seqZ 0 PAGE_TABLE_ENTRIES) (fun i => write32 (page_table + 4 * i) 0).

Definition is_present (entry : Z) : bool := negb (Z.land entry VMM_PAGE_PRESENT =? 0).

(** Returns 0 when no page table could be allocated. *)
Definition vmm_get_or_create_page_table (virtual_address flags : Z) : M vmm_state Z :=
  page_directory <- vmm_get_page_directory ;;
  let directory_slot := page_directory + 4 * PAGE_DIRECTORY_INDEX virtual_address in
  entry <- read32 directory_slot ;;
  if is_present entry then
    mwhen (negb (Z.land flags VMM_PAGE_USER =? 0))
      (write32 directory_slot (Z.lor entry VMM_PAGE_USER)) ;;;
    entry' <- read32 directory_slot ;;
    mret_ (Z.land entry' 0xFFFFF000)
  else
    page_table_page <- on_pmm pmm_alloc_page ;;
    if page_table_page =? 0 then mret_ 0
    else
      vmm_clear_page_table page_table_page ;;;
      write32 directory_slot
        (Z.lor (Z.lor (Z.lor (Z.land page_table_page 0xFFFFF000) VMM_PAGE_PRESENT)
                      VMM_PAGE_WRITABLE)
               (Z.land flags VMM_PAGE_USER)) ;;;
      vmm_stat (fun st => st <| created_page_tables ::= incr |>) ;;;
      mret_ page_table_page.

Definition vmm_initialize : M vmm_state unit :=
  vmm_stat (fun _ => Build_vmm_stats_t true 0 0 0 0 0 0 0 0 0) ;;;
  vmm_audit_mod (fun i => i <| vmm_audits_run := 0 |>) ;;;
  vmm_clear_audit_snapshot.

Definition vmm_is_initialized : M vmm_state bool :=
  mget (fun s => vmm_initialized (vmm_stats s)).

Definition vmm_map_page (virtual_address physical_address flags : Z) : M vmm_state bool :=
  ini <- vmm_is_initialized ;;
  if negb ini then
    vmm_stat (fun st => st <| failed_map_count ::= incr |>) ;;; mret_ false
  else if negb (vmm_flags_are_valid flags) then
    vmm_stat (fun st => st <| invalid_map_count ::= incr |> <| failed_map_count ::= incr |>) ;;;
    mret_ false
  else
    let aligned_virtual := PAGE_ALIGN_DOWN virtual_address in
    let aligned_physical := PAGE_ALIGN_DOWN physical_address in
    mwhen (negb (vmm_address_is_page_aligned virtual_address) ||
           negb (vmm_address_is_page_aligned physical_address))
      (vmm_stat (fun st => st <| invalid_map_count ::= incr |>)) ;;;
    page_table <- vmm_get_or_create_page_table aligned_virtual flags ;;
    if page_table =? 0 then
      vmm_stat (fun st => st <| failed_map_count ::= incr |>) ;;; mret_ false
    else
      let slot := page_table + 4 * PAGE_TABLE_INDEX aligned_virtual in
      old <- read32 slot ;;
      let was_mapped := is_present old in
      write32 slot (Z.lor (Z.lor aligned_physical VMM_PAGE_PRESENT) flags) ;;;
      paging_invalidate_page aligned_virtual ;;;
      (if negb was_mapped
       then vmm_stat (fun st => st <| mapped_pages ::= incr |>)
       else vmm_stat (fun st => st <| remap_count ::= incr |>)) ;;;
      vmm_stat (fun st => st <| last_mapped_virtual_address := aligned_virtual |>
                             <| last_mapped_physical_address := aligned_physical |>) ;;;
      mret_ true.

Definition vmm_unmap_page (virtual_address : Z) : M vmm_state bool :=
  ini <- vmm_is_initialized ;;
  if negb ini then
    vmm_stat (fun st => st <| failed_unmap_count ::= incr |>) ;;; mret_ false
  else
    let aligned_virtual := PAGE_ALIGN_DOWN virtual_address in
    page_directory <- vmm_get_page_directory ;;
    entry <- read32 (page_directory + 4 * PAGE_DIRECTORY_INDEX aligned_virtual) ;;
    if negb (is_present entry) then
      vmm_stat (fun st => st <| failed_unmap_count ::= incr |>
                             <| missing_unmap_count ::= incr |>) ;;; mret_ false
    else
      let slot := Z.land entry 0xFFFFF000 + 4 * PAGE_TABLE_INDEX aligned_virtual in
      old <- read32 slot ;;
      if negb (is_present old) then
        vmm_stat (fun st => st <| failed_unmap_count ::= incr |>
                               <| missing_unmap_count ::= incr |>) ;;; mret_ false
      else
        write32 slot 0 ;;;
        paging_invalidate_page aligned_virtual ;;;
        vmm_stat (fun st => if 0 <? mapped_pages st then st <| mapped_pages ::= decr |> else st) ;;;
        mret_ true.

Definition vmm_is_mapped (virtual_address : Z) : M vmm_state bool :=
  ini <- vmm_is_initialized ;;
  if negb ini then mret_ false
  else
    let aligned_virtual := PAGE_ALIGN_DOWN virtual_address in
    page_directory <- vmm_get_page_directory ;;
    entry <- read32 (page_directory + 4 * PAGE_DIRECTORY_INDEX aligned_virtual) ;;
    if negb (is_present entry) then mret_ false
    else
      e <- read32 (Z.land entry 0xFFFFF000 + 4 * PAGE_TABLE_INDEX aligned_virtual) ;;
      mret_ (is_present e).

Definition vmm_get_physical_address (virtual_address : Z) : M vmm_state Z :=
  ini <- vmm_is_initialized ;;
  if negb ini then mret_ 0
  else
    let aligned_virtual := PAGE_ALIGN_DOWN virtual_address in
    let offset := Z.land virtual_address 0xFFF in
    page_directory <- vmm_get_page_directory ;;
    entry <- read32 (page_directory + 4 * PAGE_DIRECTORY_INDEX aligned_virtual) ;;
    if negb (is_present entry) then mret_ 0
    else
      e <- read32 (Z.land entry 0xFFFFF000 + 4 * PAGE_TABLE_INDEX aligned_virtual) ;;
      if negb (is_present e) then mret_ 0
      else mret_ (Z.land e 0xFFFFF000 [+] offset).

Definition vmm_validate_mapping (virtual_address expected_flags : Z) : M vmm_state bool :=
  ini <- vmm_is_initialized ;;
  if negb ini then mret_ false
  else if negb (vmm_flags_are_valid expected_flags) then mret_ false
  else
    let aligned_virtual := PAGE_ALIGN_DOWN virtual_address in
    page_directory <- vmm_get_page_directory ;;
    entry <- read32 (page_directory + 4 * PAGE_DIRECTORY_INDEX aligned_virtual) ;;
    if negb (is_present entry) then mret_ false
    else
      e <- read32 (Z.land entry 0xFFFFF000 + 4 * PAGE_TABLE_INDEX aligned_virtual) ;;
      if negb (is_present e) then mret_ false
      else mret_ (Z.land e expected_flags =? expected_flags).

Definition vmm_validate_mapping_status (virtual_address : Z) : M vmm_state Z :=
  ini <- vmm_is_initialized ;;
  if negb ini then mret_ KERNEL_ERROR_NOT_INITIALIZED
  else if negb (Z.land virtual_address 0xFFF =? 0) then mret_ KERNEL_ERROR_INVALID_ARGUMENT
  else
    mapped <- vmm_is_mapped virtual_address ;;
    if negb mapped then mret_ KERNEL_ERROR_NOT_FOUND
    else
      valid <- vmm_validate_mapping virtual_address 0 ;;
      if negb valid then mret_ KERNEL_ERROR_CORRUPTION_DETECTED
      else mret_ KERNEL_OK.

(** The body of the inner loop of [vmm_audit]. *)
Definition vmm_audit_page_entry (page_entry : Z) : M vmm_state unit :=
  if negb (is_present page_entry) then mret_ tt
  else
    vmm_audit_mod (fun i => i <| present_page_entries ::= incr |>) ;;;
    mwhen (negb (Z.land page_entry VMM_PAGE_WRITABLE =? 0))
      (vmm_audit_mod (fun i => i <| writable_page_entries ::= incr |>)) ;;;
    mwhen (negb (Z.land page_entry VMM_PAGE_USER =? 0))
      (vmm_audit_mod (fun i => i <| user_page_entries ::= incr |>)).

(** The body of its outer loop. *)
Definition vmm_audit_directory_entry (directory_entry : Z) : M vmm_state unit :=
  if negb (is_present directory_entry) then mret_ tt
  else
    vmm_audit_mod (fun i => i <| present_directory_entries ::= incr |>) ;;;
    if Z.land directory_entry 0xFFFFF000 =? 0 then
      vmm_audit_record_issue (fun i => i <| invalid_page_table_addresses ::= incr |>)
    else
      mfor (seqZ 0 PAGE_TABLE_ENTRIES) (fun table_index =>
        e <- read32 (Z.land directory_entry 0xFFFFF000 + 4 * table_index) ;;
        vmm_audit_page_entry e).

Definition vmm_audit_issues : M vmm_state Z := mget (fun s => vmm_issues_found (vmm_audit_info s)).

Definition vmm_audit : M vmm_state Z :=
  vmm_audit_mod (fun i => i <| vmm_audits_run ::= incr |>) ;;;
  vmm_clear_audit_snapshot ;;;
  ini <- vmm_is_initialized ;;
  if negb ini then
    vmm_audit_record_issue (fun i => i <| invalid_directory_entries ::= incr |>) ;;;
    vmm_audit_issues
  else
    page_directory <- vmm_get_page_directory ;;
    if page_directory =? 0 then
      vmm_audit_record_issue (fun i => i <| invalid_directory_entries ::= incr |>) ;;;
      vmm_audit_issues
    else
      mfor (seqZ 0 PAGE_DIRECTORY_ENTRIES) (fun directory_index =>
        e <- read32 (page_directory + 4 * directory_index) ;;
        vmm_audit_directory_entry e) ;;;
      st <- mget vmm_stats ;;
      (if 0 <? mapped_pages st then
         mapped <- vmm_is_mapped (last_mapped_virtual_address st) ;;
         mwhen (negb mapped)
           (vmm_audit_record_issue (fun i => i <| last_mapping_missing ::= incr |>))
       else mret_ tt) ;;;
      vmm_audit_issues.

(** ** What the tables in memory mean

    [d] is the address of the page directory and [m] the memory. *)

Definition pd_entry (d : Z) (m : mem) (i : Z) : Z := load32 m (d + 4 * i).
Definition pt_base (d : Z) (m : mem) (i : Z) : Z := Z.land (pd_entry d m i) 0xFFFFF000.

(** The page table entry of a virtual address, 0 when it has no table. *)
Definition pt_entry (d : Z) (m : mem) (v : Z) : Z :=
  if is_present (pd_entry d m (v / 4194304))
  then load32 m (pt_base d m (v / 4194304) + 4 * ((v / 4096) mod 1024))
  else 0.

Definition is_table (d : Z) (m : mem) (p : Z) : Prop :=
  exists i, 0 <= i < 1024 /\ is_present (pd_entry d m i) = true /\ pt_base d m i = p.

(** Pages the physical memory manager does not hand out. *)
Definition outside_region (pm : pmm_state) (p : Z) : Prop :=
  p + 4096 <= allocation_start (pmm_stats pm) \/ allocation_end (pmm_stats pm) <= p.

Record table_page (pm : pmm_state) (d p : Z) : Prop := {
  table_nonzero : 0 < p;
  table_low : p + 4096 <= 0x8000000;
  table_not_dir : p <> d;
  table_owned : outside_region pm p \/ outstanding pm p
}.

Record pt_wf (d : Z) (m : mem) (pm : pmm_state) : Prop := {
  wf_pmm : pmm_inv pm;
  wf_window : allocation_end (pmm_stats pm) <= 0x8000000;
  wf_dir : 0 < d /\ d mod 4096 = 0;
  wf_dir_static : outside_region pm d;
  wf_tables : forall i, 0 <= i < 1024 -> is_present (pd_entry d m i) = true ->
    table_page pm d (pt_base d m i);
  wf_distinct : forall i j, 0 <= i < 1024 -> 0 <= j < 1024 ->
    is_present (pd_entry d m i) = true -> is_present (pd_entry d m j) = true ->
    pt_base d m i = pt_base d m j -> i = j
}.

(** Frames handed out for something else than a page table. *)
Definition data_frame (d : Z) (m : mem) (pm : pmm_state) (p : Z) : Prop :=
  outstanding pm p /\ ~ is_table d m p.

Definition tlb_coherent (d : Z) (m : mem) (tlb : gmap Z Z) : Prop :=
  forall n e, tlb !! n = Some e -> 0 <= n < 1048576 /\ is_present e = true /\
    pt_entry d m (4096 * n) = e.

Definition dir (s : vmm_state) : Z := page_directory_address (paging_info s).

Definition vmm_inv (s : vmm_state) : Prop :=
  pt_wf (dir s) (vmm_mem s) (vmm_pmm s) /\ tlb_coherent (dir s) (vmm_mem s) (vmm_tlb s).

(** ** Bit fields *)

Lemma page_mask e : is_u32 e -> Z.land e 0xFFFFF000 = 4096 * (e / 4096).
Proof. intros. apply (land_high_mask e 12); [done|lia]. Qed.

Lemma page_offset_mod a : PAGE_OFFSET a = a mod 4096.
Proof. apply (land_low_mask a 12). lia. Qed.

Lemma land_bit0 e : Z.land e 1 = e mod 2.
Proof. apply (land_low_mask e 1). lia. Qed.

Lemma land_index e : Z.land e 0x3FF = e mod 1024.
Proof. apply (land_low_mask e 10). lia. Qed.

Lemma is_present_mod e : is_present e = negb (e mod 2 =? 0).
Proof. unfold is_present, VMM_PAGE_PRESENT. by rewrite land_bit0. Qed.

Lemma pd_index_spec a : is_u32 a -> PAGE_DIRECTORY_INDEX a = a / 4194304.
Proof.
  intros Ha. unfold PAGE_DIRECTORY_INDEX.
  rewrite land_index, Z.shiftr_div_pow2 by lia.
  apply Z.mod_small. unfold is_u32 in Ha. Z.div_mod_to_equations. lia.
Qed.

Lemma pt_index_spec a : is_u32 a -> PAGE_TABLE_INDEX a = (a / 4096) mod 1024.
Proof.
  intros Ha. unfold PAGE_TABLE_INDEX.
  by rewrite land_index, Z.shiftr_div_pow2 by lia.
Qed.

Lemma align_down_spec a :
  is_u32 a -> PAGE_ALIGN_DOWN a = 4096 * (a / 4096) /\ is_u32 (PAGE_ALIGN_DOWN a).
Proof.
  intros Ha. unfold PAGE_ALIGN_DOWN. rewrite page_mask by done. split; [done|].
  unfold is_u32 in *. Z.div_mod_to_equations. lia.
Qed.

Lemma align_down_indices a :
  is_u32 a ->
  PAGE_DIRECTORY_INDEX (PAGE_ALIGN_DOWN a) = a / 4194304 /\
  PAGE_TABLE_INDEX (PAGE_ALIGN_DOWN a) = (a / 4096) mod 1024.
Proof.
  intros Ha. destruct (align_down_spec a Ha) as [E Hu].
  rewrite pd_index_spec, pt_index_spec by done. rewrite E. unfold is_u32 in Ha.
  split; Z.div_mod_to_equations; lia.
Qed.

Lemma index_bounds a : is_u32 a -> 0 <= a / 4194304 < 1024 /\ 0 <= (a / 4096) mod 1024 < 1024.
Proof. unfold is_u32. intros. Z.div_mod_to_equations. lia. Qed.

Lemma flags_valid_cases f :
  is_u32 f -> vmm_flags_are_valid f = true -> f = 0 \/ f = 2 \/ f = 4 \/ f = 6.
Proof.
  intros Hf Hv. unfold vmm_flags_are_valid in Hv. apply Z.eqb_eq in Hv.
  change (not32 VMM_ALLOWED_FLAGS) with 0xFFFFFFF9 in Hv.
  assert (Z.land f 0xFFFFFFF8 = 0) as H8.
  { change 0xFFFFFFF8 with (Z.land 0xFFFFFFF9 0xFFFFFFF8). rewrite Z.land_assoc, Hv. done. }
  pose proof (land_high_mask f 3 Hf ltac:(lia)) as H3.
  change (4294967296 - 2 ^ 3) with 0xFFFFFFF8 in H3. rewrite H8 in H3. change (2 ^ 3) with 8 in H3.
  unfold is_u32 in Hf. assert (0 <= f < 8) as Hlt by (Z.div_mod_to_equations; lia).
  assert (f = 0 \/ f = 1 \/ f = 2 \/ f = 3 \/ f = 4 \/ f = 5 \/ f = 6 \/ f = 7) as Hc by lia.
  destruct Hc as [->|[->|[->|[->|[->|[->|[->| ->]]]]]]]; try discriminate Hv; auto.
Qed.

(** An aligned page address with flag bits below 8. *)
Lemma lor_page_flags p f : p mod 4096 = 0 -> 0 <= f < 4096 -> Z.lor p f = p + f.
Proof. intros. apply lor_disjoint_add, (land_aligned_low p 12 f); [lia|done..]. Qed.

Lemma entry_value p f :
  p mod 4096 = 0 -> f = 0 \/ f = 2 \/ f = 4 \/ f = 6 ->
  Z.lor (Z.lor p VMM_PAGE_PRESENT) f = p + (1 + f).
Proof.
  intros Hp Hf. unfold VMM_PAGE_PRESENT. rewrite <- Z.lor_assoc.
  rewrite lor_page_flags; [|done|]; destruct Hf as [->|[->|[->| ->]]]; vm_compute; auto; 
    split; congruence.
Qed.

Lemma directory_entry_value t flags :
  t mod 4096 = 0 -> flags = 0 \/ flags = 2 \/ flags = 4 \/ flags = 6 ->
  exists f, 0 <= f < 4095 /\ f mod 2 = 0 /\
    Z.lor (Z.lor (Z.lor t VMM_PAGE_PRESENT) VMM_PAGE_WRITABLE) (Z.land flags VMM_PAGE_USER)
    = t + (1 + f).
Proof.
  intros Ht Hf. exists (2 + Z.land flags VMM_PAGE_USER). rewrite <- !Z.lor_assoc.
  rewrite lor_page_flags; [|done|];
    destruct Hf as [->|[->|[->| ->]]]; split_and?; reflexivity || discriminate.
Qed.

Lemma entry_fields p f e :
  p mod 4096 = 0 -> is_u32 p -> 0 <= f < 4095 -> f mod 2 = 0 -> e = p + (1 + f) ->
  is_u32 e /\ is_present e = true /\ Z.land e 0xFFFFF000 = p.
Proof.
  intros Hp Hu Hf Hf2 ->. unfold is_u32 in Hu.
  assert (is_u32 (p + (1 + f))) as Hu' by (unfold is_u32; Z.div_mod_to_equations; lia).
  split; [done|]. rewrite is_present_mod, page_mask by done. split.
  - apply negb_true_iff, Z.eqb_neq. Z.div_mod_to_equations. lia.
  - Z.div_mod_to_equations. lia.
Qed.

Lemma set_user_fields e :
  is_u32 e -> is_present e = true ->
  is_u32 (Z.lor e VMM_PAGE_USER) /\ is_present (Z.lor e VMM_PAGE_USER) = true /\
  Z.land (Z.lor e VMM_PAGE_USER) 0xFFFFF000 = Z.land e 0xFFFFF000.
Proof.
  intros Hu Hp. split_and!.
  - split; [apply Z.lor_nonneg; unfold is_u32 in Hu; split; [lia|done]|].
    destruct (decide (Z.lor e VMM_PAGE_USER = 0)) as [->|]; [lia|].
    change 4294967296 with (2 ^ 32). unfold is_u32 in Hu. apply Z.log2_lt_pow2.
    { enough (0 <= Z.lor e VMM_PAGE_USER) by lia. apply Z.lor_nonneg. split; [lia|done]. }
    rewrite Z.log2_lor by (unfold VMM_PAGE_USER; lia).
    apply Z.max_lub_lt; [|done]. destruct (decide (e = 0)) as [->|]; [done|].
    apply Z.log2_lt_pow2; lia.
  - unfold is_present in *. rewrite Z.land_lor_distr_l. change (Z.land VMM_PAGE_USER _) with 0.
    by rewrite Z.lor_0_r.
  - rewrite Z.land_lor_distr_l. change (Z.land VMM_PAGE_USER _) with 0. apply Z.lor_0_r.
Qed.

(** ** The tables under writes *)

Lemma pages_disjoint p q :
  p mod 4096 = 0 -> q mod 4096 = 0 -> p <> q -> p + 4096 <= q \/ q + 4096 <= p.
Proof. intros. Z.div_mod_to_equations. lia. Qed.

Lemma pt_base_aligned d m i : pt_base d m i mod 4096 = 0.
Proof.
  unfold pt_base, pd_entry. rewrite page_mask by apply load32_range.
  rewrite Z.mul_comm. apply Z.mod_mul. lia.
Qed.

(** Well-formedness sees only the present bits and the table addresses. *)
Definition same_tables (d : Z) (m m' : mem) : Prop :=
  forall i, 0 <= i < 1024 ->
    is_present (pd_entry d m' i) = is_present (pd_entry d m i) /\ pt_base d m' i = pt_base d m i.

Lemma pt_wf_congr d m m' pm : same_tables d m m' -> pt_wf d m pm -> pt_wf d m' pm.
Proof.
  intros Hs [H1 H2 H3 H4 H5 H6]. constructor; try done.
  - intros i Hi. destruct (Hs i Hi) as [-> ->]. auto.
  - intros i j Hi Hj. destruct (Hs i Hi) as [-> ->], (Hs j Hj) as [-> ->]. auto.
Qed.

Lemma is_table_congr d m m' p : same_tables d m m' -> is_table d m' p <-> is_table d m p.
Proof.
  intros Hs. unfold is_table. split; intros (i & Hi & Hp & Hb); exists i;
    destruct (Hs i Hi) as [E1 E2]; split_and!; congruence || lia.
Qed.

(** ... and of the frame allocator only its region and the tables it owns. *)
Lemma pt_wf_pmm d m pm pm' :
  pt_wf d m pm -> pmm_inv pm' -> same_region pm pm' ->
  (forall p, is_table d m p -> outstanding pm p -> outstanding pm' p) -> pt_wf d m pm'.
Proof.
  intros [H1 H2 H3 H4 H5 H6] Hi [Es Ee] Hout. constructor; try done.
  - by rewrite Ee.
  - unfold outside_region. by rewrite Es, Ee.
  - intros i Hi' Hp. destruct (H5 i Hi' Hp) as [T1 T2 T3 T4]. constructor; try done.
    destruct T4 as [T4|T4]; [left; unfold outside_region; by rewrite Es, Ee|right].
    apply Hout; [by exists i|done].
Qed.

Lemma write_entry d m pm va val :
  pt_wf d m pm -> is_u32 va -> is_present (pd_entry d m (va / 4194304)) = true ->
  let m' := store32 (pt_base d m (va / 4194304) + 4 * ((va / 4096) mod 1024)) val m in
  same_tables d m m' /\
  forall v, is_u32 v ->
    pt_entry d m' v = if decide (v / 4096 = va / 4096) then u32 val else pt_entry d m v.
Proof.
  intros Hwf Hva Hp m'. destruct (index_bounds va Hva) as [Hi Hj].
  pose proof (wf_tables _ _ _ Hwf _ Hi Hp) as Ht.
  pose proof (pages_disjoint _ d (pt_base_aligned d m (va / 4194304))
    (proj2 (wf_dir _ _ _ Hwf)) (table_not_dir _ _ _ Ht)) as Hdd.
  assert (Hpd : forall i, 0 <= i < 1024 -> pd_entry d m' i = pd_entry d m i).
  { intros i Hi'. apply load32_store32_ne. lia. }
  split.
  - intros i Hi'. unfold pt_base. by rewrite Hpd.
  - intros v Hv. destruct (index_bounds v Hv) as [Hiv Hjv].
    unfold pt_entry, pt_base. rewrite Hpd by done.
    destruct (decide (v / 4096 = va / 4096)) as [E|Hne].
    { replace (v / 4194304) with (va / 4194304) by (Z.div_mod_to_equations; lia).
      rewrite Hp, E. apply load32_store32_eq. }
    destruct (is_present (pd_entry d m (v / 4194304))) eqn:Hpv; [|done].
    apply load32_store32_ne. fold (pt_base d m (v / 4194304)).
    destruct (decide (v / 4194304 = va / 4194304)) as [Ei|Hni].
    + rewrite Ei. assert ((v / 4096) mod 1024 <> (va / 4096) mod 1024)
        by (Z.div_mod_to_equations; lia). lia.
    + assert (pt_base d m (v / 4194304) <> pt_base d m (va / 4194304)) as Hb.
      { intros Hb. apply Hni. by apply (wf_distinct _ _ _ Hwf). }
      pose proof (pages_disjoint _ _ (pt_base_aligned d m (v / 4194304))
        (pt_base_aligned d m (va / 4194304)) Hb). lia.
Qed.

(** Setting the user bit of a present directory entry. *)
Lemma write_user_bit d m pm i :
  pt_wf d m pm -> 0 <= i < 1024 -> is_present (pd_entry d m i) = true ->
  let m' := store32 (d + 4 * i) (Z.lor (pd_entry d m i) VMM_PAGE_USER) m in
  same_tables d m m' /\ forall v, is_u32 v -> pt_entry d m' v = pt_entry d m v.
Proof.
  intros Hwf Hi Hp m'.
  destruct (set_user_fields (pd_entry d m i) (load32_range _ _) Hp) as (Hu & Hp' & Hb').
  assert (Hs : same_tables d m m').
  { intros j Hj. unfold pt_base, pd_entry, m'. destruct (decide (j = i)) as [->|Hne].
    - rewrite load32_store32_eq, u32_small by done. fold (pd_entry d m i). by rewrite Hp', Hb', Hp.
    - rewrite load32_store32_ne by lia. done. }
  split; [done|]. intros v Hv. destruct (index_bounds v Hv) as [Hiv Hjv].
  unfold pt_entry. destruct (Hs _ Hiv) as [-> ->].
  destruct (is_present (pd_entry d m (v / 4194304))) eqn:Hpv; [|done].
  pose proof (wf_tables _ _ _ Hwf _ Hiv Hpv) as Ht.
  pose proof (pages_disjoint _ d (pt_base_aligned d m (v / 4194304))
    (proj2 (wf_dir _ _ _ Hwf)) (table_not_dir _ _ _ Ht)).
  apply load32_store32_ne. lia.
Qed.

(** Hooking an empty page table at [t] into a free directory slot [i]. *)
Section NewTable.
Context (d : Z) (m m1 : mem) (pm pm' : pmm_state) (i t e : Z).
Hypothesis Hwf : pt_wf d m pm.
Hypothesis Hi : 0 <= i < 1024.
Hypothesis Hp : is_present (pd_entry d m i) = false.
Hypothesis Hpm' : pmm_inv pm'.
Hypothesis Hreg : same_region pm pm'.
Hypothesis Hal : t mod 4096 = 0.
Hypothesis Hfresh : fresh_page pm pm' t.
Hypothesis Hag : agree (fun a => a < t \/ t + 4096 <= a) m m1.
Hypothesis Hz : forall j, 0 <= j < 1024 -> load32 m1 (t + 4 * j) = 0.
Hypothesis Hu : is_u32 e.
Hypothesis He : is_present e = true.
Hypothesis Hbase : Z.land e 0xFFFFF000 = t.
Let m' := store32 (d + 4 * i) e m1.

Lemma new_table_not_dir : t <> d.
Proof using Hfresh Hwf.
  intros E. destruct Hfresh as (_ & Hin & _). pose proof (wf_dir_static _ _ _ Hwf).
  unfold page_in, outside_region in *. lia.
Qed.

Lemma new_table_disjoint p :
  table_page pm d p -> p mod 4096 = 0 -> p + 4096 <= t \/ t + 4096 <= p.
Proof using Hal Hfresh.
  intros [_ _ _ Ho] Hap. destruct Hfresh as (_ & Hin & Hno & _).
  apply pages_disjoint; try done. intros ->.
  destruct Ho as [Ho|Ho]; [unfold page_in, outside_region in *; lia|done].
Qed.

Lemma new_table_slot : pd_entry d m' i = e.
Proof using Hu. unfold pd_entry, m'. rewrite load32_store32_eq. by apply u32_small. Qed.

Lemma old_table_slot j : 0 <= j < 1024 -> j <> i -> pd_entry d m' j = pd_entry d m j.
Proof using Hal Hag Hfresh Hi Hwf.
  intros Hj Hne. pose proof (pages_disjoint t d Hal (proj2 (wf_dir _ _ _ Hwf)) new_table_not_dir).
  unfold pd_entry, m'. rewrite load32_store32_ne by lia.
  symmetry. eapply load32_agree; [exact Hag|]. cbn. lia.
Qed.

Lemma new_table_cases j :
  0 <= j < 1024 -> is_present (pd_entry d m' j) = true ->
  j = i /\ pt_base d m' j = t \/
  j <> i /\ is_present (pd_entry d m j) = true /\ pt_base d m' j = pt_base d m j.
Proof using Hal Hag Hfresh Hi Hwf Hu Hbase.
  intros Hj. unfold pt_base. destruct (decide (j = i)) as [->|Hne].
  - rewrite new_table_slot. auto.
  - rewrite old_table_slot by done. auto.
Qed.

Lemma new_table_page p : table_page pm d p \/ p = t -> table_page pm' d p.
Proof using Hfresh Hreg Hwf.
  destruct Hfresh as (H0 & Hin & _ & Hout). destruct Hreg as [Es Ee].
  intros [[T1 T2 T3 T4]| ->].
  - constructor; try done.
    destruct T4 as [T4|T4]; [left; unfold outside_region; by rewrite Es, Ee|right].
    apply Hout. auto.
  - pose proof (inv_start_next _ (wf_pmm _ _ _ Hwf)). pose proof (wf_window _ _ _ Hwf).
    unfold page_in in Hin. constructor; [lia|lia|apply new_table_not_dir|]. right. apply Hout. auto.
Qed.

Lemma new_table_wf : pt_wf d m' pm'.
Proof using Hal Hag Hfresh Hi Hwf Hu Hbase Hpm' Hreg.
  pose proof Hwf as [W1 W2 W3 W4 W5 W6]. constructor; try done.
  - destruct Hreg as [_ ->]. done.
  - destruct Hreg as [Es Ee]. unfold outside_region. by rewrite Es, Ee.
  - intros j Hj Hpj. apply new_table_page.
    destruct (new_table_cases j Hj Hpj) as [[-> ->]|(Hne & Hpj' & ->)]; auto.
  - intros j k Hj Hk Hpj Hpk Ejk.
    destruct (new_table_cases j Hj Hpj) as [[-> E1]|(Hnj & Hpj' & E1)],
             (new_table_cases k Hk Hpk) as [[-> E2]|(Hnk & Hpk' & E2)]; try done.
    + pose proof (new_table_disjoint _ (W5 k Hk Hpk') (pt_base_aligned _ _ _)). lia.
    + pose proof (new_table_disjoint _ (W5 j Hj Hpj') (pt_base_aligned _ _ _)). lia.
    + apply W6; try done. congruence.
Qed.

Lemma new_table_entry v : is_u32 v -> pt_entry d m' v = pt_entry d m v.
Proof using Hal Hag Hfresh Hi Hwf Hu Hbase He Hp Hz.
  intros Hv. destruct (index_bounds v Hv) as [Hiv Hjv]. unfold pt_entry.
  pose proof (pages_disjoint t d Hal (proj2 (wf_dir _ _ _ Hwf)) new_table_not_dir).
  destruct (decide (v / 4194304 = i)) as [->|Hne].
  - rewrite Hp, new_table_slot, He. unfold pt_base. rewrite new_table_slot, Hbase. unfold m'.
    rewrite load32_store32_ne by lia. by apply Hz.
  - unfold pt_base. rewrite old_table_slot by done.
    destruct (is_present (pd_entry d m (v / 4194304))) eqn:Hpv; [|done].
    fold (pt_base d m (v / 4194304)).
    pose proof (wf_tables _ _ _ Hwf _ Hiv Hpv) as Ht.
    pose proof (new_table_disjoint _ Ht (pt_base_aligned _ _ _)).
    pose proof (pages_disjoint _ d (pt_base_aligned d m (v / 4194304))
      (proj2 (wf_dir _ _ _ Hwf)) (table_not_dir _ _ _ Ht)).
    unfold m'. rewrite load32_store32_ne by lia.
    symmetry. eapply load32_agree; [exact Hag|]. cbn. lia.
Qed.

Lemma new_table_tables p : is_table d m' p <-> is_table d m p \/ p = t.
Proof using Hal Hag Hfresh Hi Hwf Hu Hbase He Hp.
  split.
  - intros (j & Hj & Hpj & <-).
    destruct (new_table_cases j Hj Hpj) as [[-> ->]|(Hne & Hpj' & ->)]; [by right|].
    left. by exists j.
  - intros [(j & Hj & Hpj & <-)| ->].
    + assert (j <> i) by congruence. exists j. unfold pt_base. by rewrite old_table_slot.
    + exists i. unfold pt_base. by rewrite new_table_slot.
Qed.
End NewTable.

(** Filling consecutive words. *)
Lemma wp_fill (addr val : Z -> Z) base n (Q : unit -> vmm_state -> Prop) s :
  (forall i, 0 <= i < n -> addr i = base + 4 * i) ->
  (forall m', (forall i, 0 <= i < n -> load32 m' (base + 4 * i) = u32 (val i)) ->
     agree (fun a => a < base \/ base + 4 * n <= a) (vmm_mem s) m' ->
     Q tt (s <| vmm_mem := m' |>)) ->
  wp (mfor (seqZ 0 n) (fun i => write32 (addr i) (val i))) Q s.
Proof.
  intros Haddr HQ.
  apply (wp_for _ _ (fun l s' => exists m', s' = s <| vmm_mem := m' |> /\
    (forall i, 0 <= i < Z.of_nat (length l) -> load32 m' (base + 4 * i) = u32 (val i)) /\
    agree (fun a => a < base \/ base + 4 * Z.of_nat (length l) <= a) (vmm_mem s) m')).
  - exists (vmm_mem s). split; [by destruct s|]. split; [cbn; lia|done].
  - intros l x r s' E (m' & -> & Hl & Ha). apply wp_mod.
    assert (x = Z.of_nat (length l)) as Ex.
    { assert (seqZ 0 n !! length l = Some x) as Hx by (by rewrite E, list_lookup_middle).
      apply lookup_seqZ in Hx. lia. }
    assert (length l < Z.to_nat n)%nat as Hlen.
    { rewrite <- (length_seqZ 0 n), E, length_app. cbn. lia. }
    eexists. split; [reflexivity|]. cbn. rewrite length_app. cbn.
    rewrite Haddr by lia. split.
    + intros i Hi. destruct (decide (i = x)) as [->|].
      * apply load32_store32_eq.
      * rewrite load32_store32_ne by lia. apply Hl. lia.
    + eapply agree_trans; [eapply agree_weaken; [|exact Ha]; cbn; lia|].
      apply store32_agree. lia.
  - intros s' (m' & -> & Hl & Ha). rewrite length_seqZ in *.
    destruct (decide (0 <= n)).
    + apply HQ; [intros; apply Hl; lia|]. eapply agree_weaken; [|exact Ha]. cbn. lia.
    + apply HQ; [lia|]. eapply agree_weaken; [|exact Ha]. cbn. intros a _. 
      destruct (decide (a < base)); lia.
Qed.

Lemma wp_clear_table t (Q : unit -> vmm_state -> Prop) s :
  (forall m', (forall i, 0 <= i < 1024 -> load32 m' (t + 4 * i) = 0) ->
     agree (fun a => a < t \/ t + 4096 <= a) (vmm_mem s) m' -> Q tt (s <| vmm_mem := m' |>)) ->
  wp (vmm_clear_page_table t) Q s.
Proof.
  intros HQ. unfold vmm_clear_page_table, PAGE_TABLE_ENTRIES.
  apply (wp_fill (fun i => t + 4 * i) (fun _ => 0) t 1024); [done|exact HQ].
Qed.

(** ** The operations *)

Definition vmm_entry (s : vmm_state) (v : Z) : Z := pt_entry (dir s) (vmm_mem s) v.
Definition vmm_data_frame (s : vmm_state) (p : Z) : Prop :=
  data_frame (dir s) (vmm_mem s) (vmm_pmm s) p.

(** What no operation on mappings changes. *)
Record vmm_ext (s s' : vmm_state) : Prop := {
  ext_info : paging_info s' = paging_info s;
  ext_initialized : vmm_initialized (vmm_stats s') = vmm_initialized (vmm_stats s);
  ext_region : same_region (vmm_pmm s) (vmm_pmm s');
  ext_frames : forall p, vmm_data_frame s' p <-> vmm_data_frame s p
}.

Lemma vmm_ext_trans s1 s2 s3 : vmm_ext s1 s2 -> vmm_ext s2 s3 -> vmm_ext s1 s3.
Proof.
  intros [A1 A2 [A3 A3'] A4] [B1 B2 [B3 B3'] B4]. constructor; try congruence.
  - split; congruence.
  - intros p. by rewrite B4.
Qed.

(** Changing only the statistics, the audit record or the look-aside buffer. *)
Lemma vmm_ext_same s s' :
  vmm_pmm s' = vmm_pmm s -> vmm_mem s' = vmm_mem s -> paging_info s' = paging_info s ->
  vmm_initialized (vmm_stats s') = vmm_initialized (vmm_stats s) -> vmm_ext s s'.
Proof.
  intros E1 E2 E3 E4. constructor; try done; rewrite ?E1; [by split|].
  intros p. unfold vmm_data_frame, dir. by rewrite E1, E2, E3.
Qed.

Lemma page_start_u32 n : 0 <= n < 1048576 -> is_u32 (4096 * n).
Proof. unfold is_u32. lia. Qed.

(** The look-aside buffer stays coherent when no cached translation changed. *)
Lemma tlb_coherent_mono d m m' tlb tlb' :
  tlb_coherent d m tlb ->
  (forall n e, tlb' !! n = Some e -> tlb !! n = Some e /\
     (0 <= n < 1048576 -> pt_entry d m' (4096 * n) = pt_entry d m (4096 * n))) ->
  tlb_coherent d m' tlb'.
Proof.
  intros Hc Hsub n e Hn. destruct (Hsub n e Hn) as [Hn' Hent].
  destruct (Hc n e Hn') as (Hb & Hp & He). rewrite Hent by done. done.
Qed.

Ltac vmm_step :=
  lazymatch goal with
  | |- wp (read32 _) _ _ => apply wp_get
  | |- wp (write32 _ _) _ _ => apply wp_mod
  | |- wp (vmm_stat _) _ _ => apply wp_mod
  | |- wp vmm_get_page_directory _ _ => apply wp_get
  | |- wp vmm_is_initialized _ _ => apply wp_get
  | |- wp (paging_invalidate_page _) _ _ => apply wp_mod
  | |- _ => wp_step
  end; cbv beta.
Ltac vmm_steps := repeat vmm_step.

Section Operations.
Context (s : vmm_state).
Hypothesis Hinv : vmm_inv s.

Lemma vmm_get_or_create_ok va flags :
  is_u32 va -> flags = 0 \/ flags = 2 \/ flags = 4 \/ flags = 6 ->
  wp (vmm_get_or_create_page_table va flags)
     (fun t s' => vmm_inv s' /\ vmm_ext s s' /\
        (forall v, is_u32 v -> vmm_entry s' v = vmm_entry s v) /\
        (t = 0 /\ s' = s /\ pmm_exhausted (vmm_pmm s) /\
           is_present (pd_entry (dir s) (vmm_mem s) (va / 4194304)) = false \/
         0 < t /\ t = pt_base (dir s') (vmm_mem s') (va / 4194304) /\
           is_present (pd_entry (dir s') (vmm_mem s') (va / 4194304)) = true)) s.
Proof using Hinv.
  intros Hva Hflags. destruct Hinv as [Hwf Htlb]. destruct (index_bounds va Hva) as [Hi _].
  unfold vmm_get_or_create_page_table. rewrite pd_index_spec by done.
  do 4 vmm_step. fold (dir s) (pd_entry (dir s) (vmm_mem s) (va / 4194304)).
  destruct (is_present _) eqn:Hp.
  - pose proof (wf_tables _ _ _ Hwf _ Hi Hp) as Ht. vmm_steps.
    + destruct (write_user_bit _ _ _ _ Hwf Hi Hp) as [Hs He].
      destruct (Hs _ Hi) as [Hp' Hb']. split_and!.
      * split; [by eapply pt_wf_congr|]. eapply tlb_coherent_mono; [exact Htlb|].
        intros n e Hn. split; [done|]. intros Hb. by apply He, page_start_u32.
      * constructor; try done. intros p. unfold vmm_data_frame, data_frame.
        cbn. rewrite is_table_congr by exact Hs. done.
      * exact He.
      * right. split_and!; [|done|].
        -- unfold dir in *. cbn in *. fold (pt_base (page_directory_address (paging_info s))
             (store32 (page_directory_address (paging_info s) + 4 * (va / 4194304))
               (Z.lor (pd_entry (page_directory_address (paging_info s)) (vmm_mem s)
                        (va / 4194304)) VMM_PAGE_USER) (vmm_mem s)) (va / 4194304)).
           unfold pt_base, pd_entry in *. rewrite Hb'. apply Ht.
        -- rewrite <- Hp. exact Hp'.
    + split; [by split|]. split; [by apply vmm_ext_same|]. split; [done|].
      right. split; [apply Ht|done].
  - wp_step. apply wp_zoom. eapply wp_mono; [apply pmm_alloc_page_ok, Hwf|].
    intros t pm' (Hpm' & Hreg & [(-> & -> & Hex)|Hfresh]); cbn.
    + vmm_steps. split_and!; [by split; destruct s|by destruct s|by destruct s|].
      left. by destruct s.
    + pose proof Hfresh as (Ht0 & (H1 & H2 & Hal) & _ & Hout).
      pose proof (inv_end_top _ Hpm'). pose proof (inv_start_next _ Hpm').
      destruct Hreg as [Es Ee]. rewrite (proj2 (Z.eqb_neq t 0)) by done.
      wp_step. apply (wp_clear_table t). intros m1 Hz Hag. cbn in Hag.
      vmm_steps. cbn. fold (dir s).
      assert (is_u32 t) as Hut by (unfold is_u32; lia).
      assert (Z.land t 0xFFFFF000 = t) as Hmask.
      { rewrite page_mask by done. Z.div_mod_to_equations. lia. }
      rewrite Hmask.
      set (e := Z.lor _ (Z.land flags VMM_PAGE_USER)).
      assert (exists f, 0 <= f < 4095 /\ f mod 2 = 0 /\ e = t + (1 + f)) as (f & Hf1 & Hf2 & Hf3).
      { by apply directory_entry_value. }
      destruct (entry_fields t f e Hal Hut Hf1 Hf2 Hf3) as (Hue & Hpe & Hbe).
      assert (same_region (vmm_pmm s) pm') as Hreg by by split.
      pose proof (new_table_slot (dir s) m1 (va / 4194304) e Hue) as Hslot.
      split_and!.
      * split; [by eapply new_table_wf|]. eapply tlb_coherent_mono; [exact Htlb|].
        intros n e' Hn. split; [done|]. intros Hb. eapply new_table_entry; try done.
        by apply page_start_u32.
      * constructor; try done. intros p. unfold vmm_data_frame, data_frame. cbn. fold (dir s).
        rewrite (Hout p), (new_table_tables _ _ _ _ _ _ t e Hwf Hi Hp Hal Hfresh Hag Hue Hpe Hbe p).
        destruct Hfresh as (_ & _ & Hno & _). split; [|intros [? ?]; split; [by right|]].
        -- intros [[->|Ho] Hnt]; [tauto|]. split; [done|tauto].
        -- intros [?| ->]; tauto.
      * intros v Hv. by eapply new_table_entry.
      * right. split; [lia|]. unfold dir in *. cbn. unfold pt_base. rewrite Hslot. by rewrite Hbe.
Qed.
End Operations.

(** The entry [vmm_map_page] writes. *)
Definition map_entry (pa flags : Z) : Z := 4096 * (pa / 4096) + (1 + flags).

Lemma map_entry_fields pa flags :
  is_u32 pa -> flags = 0 \/ flags = 2 \/ flags = 4 \/ flags = 6 ->
  Z.lor (Z.lor (PAGE_ALIGN_DOWN pa) VMM_PAGE_PRESENT) flags = map_entry pa flags /\
  is_u32 (map_entry pa flags) /\ is_present (map_entry pa flags) = true /\
  Z.land (map_entry pa flags) 0xFFFFF000 = 4096 * (pa / 4096).
Proof.
  intros Hpa Hf. destruct (align_down_spec pa Hpa) as [-> _].
  assert ((4096 * (pa / 4096)) mod 4096 = 0) as Hal by (rewrite Z.mul_comm; apply Z.mod_mul; lia).
  split; [by apply entry_value|]. apply (entry_fields _ flags); try done.
  - unfold is_u32 in *. Z.div_mod_to_equations. lia.
  - lia.
  - by destruct Hf as [->|[->|[->| ->]]].
Qed.

(** The effect of the store into the page table of [va], with [invlpg]. *)
Lemma vmm_store_entry s s' va val :
  vmm_inv s -> is_u32 va -> is_present (pd_entry (dir s) (vmm_mem s) (va / 4194304)) = true ->
  vmm_mem s' = store32 (pt_base (dir s) (vmm_mem s) (va / 4194304) + 4 * ((va / 4096) mod 1024))
                 val (vmm_mem s) ->
  vmm_pmm s' = vmm_pmm s -> paging_info s' = paging_info s ->
  vmm_initialized (vmm_stats s') = vmm_initialized (vmm_stats s) ->
  vmm_tlb s' = delete (va / 4096) (vmm_tlb s) ->
  vmm_inv s' /\ vmm_ext s s' /\
  forall v, is_u32 v ->
    vmm_entry s' v = if decide (v / 4096 = va / 4096) then u32 val else vmm_entry s v.
Proof.
  intros [Hwf Htlb] Hva Hp Em Ep Ei Est Et.
  destruct (write_entry _ _ _ va val Hwf Hva Hp) as [Hs He].
  assert (dir s' = dir s) as Ed by (unfold dir; by rewrite Ei).
  unfold vmm_inv, vmm_entry. rewrite Ed, Em, Ep, Et. split_and!.
  - by eapply pt_wf_congr.
  - eapply tlb_coherent_mono; [exact Htlb|]. intros n e Hn.
    apply lookup_delete_Some in Hn as [Hne Hn]. split; [done|]. intros Hb.
    rewrite He by by apply page_start_u32. rewrite decide_False; [done|].
    rewrite Z.mul_comm, Z.div_mul by lia. done.
  - constructor; try done; [by rewrite Ep|].
    intros p. unfold vmm_data_frame, data_frame. rewrite Ed, Em, Ep, is_table_congr; done.
  - exact He.
Qed.

Lemma vmm_map_page_ok s va pa flags :
  vmm_inv s -> is_u32 va -> is_u32 pa -> is_u32 flags ->
  vmm_initialized (vmm_stats s) = true -> vmm_flags_are_valid flags = true ->
  wp (vmm_map_page va pa flags)
     (fun ok s' => vmm_inv s' /\ vmm_ext s s' /\
        (forall v, is_u32 v -> vmm_entry s' v =
           if ok && bool_decide (v / 4096 = va / 4096) then map_entry pa flags
           else vmm_entry s v) /\
        (ok = false -> pmm_exhausted (vmm_pmm s) /\
           is_present (pd_entry (dir s) (vmm_mem s) (va / 4194304)) = false)) s.
Proof.
  intros Hinv Hva Hpa Hfu Hini Hfl. pose proof (flags_valid_cases flags Hfu Hfl) as Hf.
  destruct (align_down_indices va Hva) as [Hid Hit]. destruct (align_down_spec va Hva) as [Eva Hua].
  unfold vmm_map_page. do 2 vmm_step. rewrite Hini, Hfl. cbn [negb]. wp_step.
  apply (wp_mono _ (fun _ s1 => vmm_inv s1 /\ vmm_ext s s1 /\ vmm_pmm s1 = vmm_pmm s /\
           dir s1 = dir s /\ vmm_mem s1 = vmm_mem s)).
  { vmm_steps; (split; [exact Hinv|split; [by apply vmm_ext_same|done]]). }
  intros _ s1 (Hinv1 & Hext1 & Epm & Ed & Em). wp_step.
  eapply wp_mono; [by apply (vmm_get_or_create_ok s1 Hinv1)|].
  intros t s2 (Hinv2 & Hext2 & Hent2 & Hcase).
  assert (forall v, is_u32 v -> vmm_entry s2 v = vmm_entry s v) as Hent.
  { intros v Hv. rewrite Hent2 by done. unfold vmm_entry. by rewrite Ed, Em. }
  assert (PAGE_ALIGN_DOWN va / 4194304 = va / 4194304) as Ea.
  { rewrite Eva. Z.div_mod_to_equations. lia. }
  rewrite Ea in Hcase. destruct Hcase as [(-> & -> & Hex & Hnp)|(Ht0 & Ht & Hp)].
  - cbn. vmm_steps. split; [exact Hinv2|]. split; [|split; [exact Hent|]].
    + eapply vmm_ext_trans; [exact Hext1|]. by apply vmm_ext_same.
    + intros _. by rewrite <- Epm, <- Ed, <- Em.
  - rewrite (proj2 (Z.eqb_neq t 0)) by lia.
    destruct (map_entry_fields pa flags Hpa Hf) as (Eme & Hmu & _). rewrite Eme, Hit.
    assert (forall s3, vmm_mem s3 = store32 (t + 4 * ((va / 4096) mod 1024))
              (map_entry pa flags) (vmm_mem s2) ->
            vmm_pmm s3 = vmm_pmm s2 -> paging_info s3 = paging_info s2 ->
            vmm_initialized (vmm_stats s3) = vmm_initialized (vmm_stats s2) ->
            vmm_tlb s3 = delete (va / 4096) (vmm_tlb s2) ->
            vmm_inv s3 /\ vmm_ext s s3 /\ (forall v, is_u32 v -> vmm_entry s3 v =
              if true && bool_decide (v / 4096 = va / 4096) then map_entry pa flags
              else vmm_entry s v) /\ (true = false -> pmm_exhausted (vmm_pmm s) /\
           is_present (pd_entry (dir s) (vmm_mem s) (va / 4194304)) = false)) as Hfin.
    { intros s3 E1 E2 E3 E4 E5. rewrite Ht in E1.
      destruct (vmm_store_entry s2 s3 va (map_entry pa flags)) as (H1 & H2 & H3); try done.
      split; [done|]. split; [eapply vmm_ext_trans; [exact Hext1|]; by eapply vmm_ext_trans|].
      split; [|done]. intros v Hv. cbn. rewrite H3, u32_small, Hent by done.
      by case_decide; case_bool_decide. }
    assert (PAGE_ALIGN_DOWN va / 4096 = va / 4096) as Ep.
    { rewrite Eva, Z.mul_comm, Z.div_mul by lia. done. }
    vmm_steps; apply Hfin; cbn; rewrite ?Ep; done.
Qed.

(** The page walk of the reading operations. *)
Lemma vmm_walk {A} s va (none : A) (k : Z -> M vmm_state A) :
  is_u32 va -> vmm_initialized (vmm_stats s) = true ->
  (page_directory <- vmm_get_page_directory ;;
   entry <- read32 (page_directory + 4 * PAGE_DIRECTORY_INDEX (PAGE_ALIGN_DOWN va)) ;;
   if negb (is_present entry) then mret_ none
   else e <- read32 (Z.land entry 0xFFFFF000 + 4 * PAGE_TABLE_INDEX (PAGE_ALIGN_DOWN va)) ;;
        k e) s =
  if is_present (pd_entry (dir s) (vmm_mem s) (va / 4194304))
  then k (vmm_entry s va) s else Some (none, s).
Proof.
  intros Hva Hini. destruct (align_down_indices va Hva) as [Hid Hit]. rewrite Hid, Hit.
  unfold vmm_entry, pt_entry, mbind_, read32, mget, vmm_get_page_directory,
    paging_get_directory_address, mget. cbn. fold (dir s) (pd_entry (dir s) (vmm_mem s) (va / 4194304)).
  by destruct (is_present (pd_entry (dir s) (vmm_mem s) (va / 4194304))).
Qed.

Lemma vmm_entry_absent s va :
  is_present (pd_entry (dir s) (vmm_mem s) (va / 4194304)) = false -> vmm_entry s va = 0.
Proof. unfold vmm_entry, pt_entry. by intros ->. Qed.

Lemma vmm_is_mapped_spec s va :
  is_u32 va -> vmm_initialized (vmm_stats s) = true ->
  vmm_is_mapped va s = Some (is_present (vmm_entry s va), s).
Proof.
  intros Hva Hini. unfold vmm_is_mapped, vmm_is_initialized. unfold mbind_ at 1, mget at 1.
  rewrite Hini. cbn [negb]. rewrite vmm_walk by done.
  destruct (is_present (pd_entry _ _ _)) eqn:E; [done|]. by rewrite vmm_entry_absent.
Qed.

Lemma vmm_get_physical_address_spec s va :
  is_u32 va -> vmm_initialized (vmm_stats s) = true ->
  vmm_get_physical_address va s =
    Some (if is_present (vmm_entry s va)
          then 4096 * (vmm_entry s va / 4096) + va mod 4096 else 0, s).
Proof.
  intros Hva Hini. unfold vmm_get_physical_address, vmm_is_initialized.
  unfold mbind_ at 1, mget at 1. rewrite Hini. cbn [negb]. rewrite vmm_walk by done.
  destruct (is_present (pd_entry _ _ _)) eqn:E; [|by rewrite vmm_entry_absent].
  destruct (is_present (vmm_entry s va)); [|done]. cbn.
  assert (is_u32 (vmm_entry s va)) as Hu.
  { unfold vmm_entry, pt_entry. rewrite E. apply load32_range. }
  change (Z.land va 4095) with (PAGE_OFFSET va). rewrite page_mask, page_offset_mod by done.
  unfold mret_. rewrite u32_small; [done|]. unfold is_u32 in *. Z.div_mod_to_equations. lia.
Qed.

Lemma vmm_validate_mapping_spec s va flags :
  is_u32 va -> vmm_initialized (vmm_stats s) = true ->
  vmm_validate_mapping va flags s =
    Some (vmm_flags_are_valid flags && is_present (vmm_entry s va) &&
          (Z.land (vmm_entry s va) flags =? flags), s).
Proof.
  intros Hva Hini. unfold vmm_validate_mapping, vmm_is_initialized.
  unfold mbind_ at 1, mget at 1. rewrite Hini. cbn [negb].
  destruct (vmm_flags_are_valid flags); [cbn [negb]|done]. rewrite vmm_walk by done.
  destruct (is_present (pd_entry _ _ _)) eqn:E; [|by rewrite vmm_entry_absent].
  by destruct (is_present (vmm_entry s va)).
Qed.

Lemma vmm_unmap_page_ok s va :
  vmm_inv s -> is_u32 va -> vmm_initialized (vmm_stats s) = true ->
  wp (vmm_unmap_page va)
     (fun ok s' => vmm_inv s' /\ vmm_ext s s' /\ ok = is_present (vmm_entry s va) /\
        forall v, is_u32 v -> vmm_entry s' v =
          if ok && bool_decide (v / 4096 = va / 4096) then 0 else vmm_entry s v) s.
Proof.
  intros Hinv Hva Hini. destruct (align_down_indices va Hva) as [Hid Hit].
  destruct (align_down_spec va Hva) as [Eva Hua].
  assert (PAGE_ALIGN_DOWN va / 4096 = va / 4096) as Ep.
  { rewrite Eva, Z.mul_comm, Z.div_mul by lia. done. }
  unfold vmm_unmap_page. do 2 vmm_step. rewrite Hini. cbn [negb]. rewrite Hid, Hit.
  do 4 vmm_step. fold (dir s) (pd_entry (dir s) (vmm_mem s) (va / 4194304)).
  assert (forall s', vmm_mem s' = vmm_mem s -> vmm_pmm s' = vmm_pmm s ->
    paging_info s' = paging_info s -> vmm_tlb s' = vmm_tlb s ->
    vmm_initialized (vmm_stats s') = vmm_initialized (vmm_stats s) ->
    vmm_inv s' /\ vmm_ext s s' /\ forall v, is_u32 v -> vmm_entry s' v = vmm_entry s v) as Hsame.
  { intros s' E1 E2 E3 E4 E5. split; [|split; [by apply vmm_ext_same|]].
    - unfold vmm_inv, dir. by rewrite E1, E2, E3, E4.
    - intros. unfold vmm_entry, dir. by rewrite E1, E3. }
  destruct (is_present (pd_entry (dir s) (vmm_mem s) (va / 4194304))) eqn:Hp; cbn [negb].
  2:{ vmm_steps. rewrite vmm_entry_absent by done.
      destruct (Hsame (s <| vmm_stats ::= fun st => st <| failed_unmap_count ::= incr |>
        <| missing_unmap_count ::= incr |> |>)) as (? & ? & ?); done. }
  fold (pt_base (dir s) (vmm_mem s) (va / 4194304)). do 2 vmm_step.
  replace (load32 (vmm_mem s) _) with (vmm_entry s va) by (unfold vmm_entry, pt_entry; by rewrite Hp).
  destruct (is_present (vmm_entry s va)) eqn:Hpe; cbn [negb]; vmm_steps.
  - destruct (vmm_store_entry s
      (s <| vmm_mem ::= store32 (pt_base (dir s) (vmm_mem s) (va / 4194304)
              + 4 * ((va / 4096) mod 1024)) 0 |>
         <| vmm_tlb ::= delete (PAGE_ALIGN_DOWN va / 4096) |>
         <| vmm_stats ::= fun st => if 0 <? mapped_pages st then st <| mapped_pages ::= decr |>
                                    else st |>) va 0) as (H1 & H2 & H3); try done.
    + cbn. by destruct (0 <? _).
    + cbn. by rewrite Ep.
    + split; [exact H1|]. split; [exact H2|]. split; [done|]. intros v Hv. rewrite H3 by done. cbn.
      by case_decide; case_bool_decide.
  - destruct (Hsame (s <| vmm_stats ::= fun st => st <| failed_unmap_count ::= incr |>
        <| missing_unmap_count ::= incr |> |>)) as (? & ? & ?); done.
Qed.

(** Requests that are refused before the tables are touched. *)
Lemma vmm_map_page_refused s va pa flags :
  vmm_initialized (vmm_stats s) && vmm_flags_are_valid flags = false ->
  exists s', vmm_map_page va pa flags s = Some (false, s') /\
    vmm_mem s' = vmm_mem s /\ vmm_pmm s' = vmm_pmm s /\ vmm_tlb s' = vmm_tlb s /\
    paging_info s' = paging_info s /\
    failed_map_count (vmm_stats s') = incr (failed_map_count (vmm_stats s)).
Proof.
  intros H. unfold vmm_map_page, vmm_is_initialized, mbind_ at 1, mget.
  destruct (vmm_initialized (vmm_stats s)); cbn in *; [rewrite H; cbn|]; eexists; split; done.
Qed.

Lemma land_lor_absorb a f : Z.land (Z.lor a f) f = f.
Proof.
  apply Z.bits_inj'. intros n Hn. rewrite Z.land_spec, Z.lor_spec.
  by destruct (Z.testbit a n), (Z.testbit f n).
Qed.

Lemma map_entry_flags pa flags :
  is_u32 pa -> flags = 0 \/ flags = 2 \/ flags = 4 \/ flags = 6 ->
  Z.land (map_entry pa flags) flags = flags.
Proof.
  intros Hpa Hf. destruct (map_entry_fields pa flags Hpa Hf) as (<- & _). apply land_lor_absorb.
Qed.

(** ** Properties *)

(** C13: a successful [vmm_map_page] makes every address of the virtual page
    translate to the same offset of the physical page, with the requested flags,
    and leaves the translation of every other page as it was. *)
Theorem vmm_map_translate s va pa flags s' :
  vmm_inv s -> is_u32 va -> is_u32 pa -> is_u32 flags ->
  vmm_map_page va pa flags s = Some (true, s') ->
  vmm_inv s' /\
  (forall v, is_u32 v -> v / 4096 = va / 4096 ->
     vmm_get_physical_address v s' = Some (4096 * (pa / 4096) + v mod 4096, s') /\
     vmm_is_mapped v s' = Some (true, s') /\
     vmm_validate_mapping v flags s' = Some (true, s')) /\
  (forall v, is_u32 v -> v / 4096 <> va / 4096 ->
     fst <$> vmm_get_physical_address v s' = fst <$> vmm_get_physical_address v s).
Proof.
  intros Hinv Hva Hpa Hfu E.
  destruct (vmm_initialized (vmm_stats s) && vmm_flags_are_valid flags) eqn:Hok.
  2:{ destruct (vmm_map_page_refused s va pa flags Hok) as (s1 & E1 & _). congruence. }
  apply andb_true_iff in Hok as [Hini Hfl]. pose proof (flags_valid_cases flags Hfu Hfl) as Hf.
  destruct (wp_run _ _ _ _ _ (vmm_map_page_ok s va pa flags Hinv Hva Hpa Hfu Hini Hfl) E)
    as (Hinv' & [_ Hini' _ _] & Hent & _). rewrite Hini in Hini'.
  destruct (map_entry_fields pa flags Hpa Hf) as (_ & Hmu & Hmp & Hmb).
  split; [done|]. split; intros v Hv Hp.
  - rewrite vmm_get_physical_address_spec, vmm_is_mapped_spec, vmm_validate_mapping_spec by done.
    rewrite Hent, bool_decide_eq_true_2 by done. cbn [andb].
    rewrite Hmp, Hfl, map_entry_flags, Z.eqb_refl by done.
    rewrite page_mask in Hmb by done. by rewrite Hmb.
  - rewrite !vmm_get_physical_address_spec by done. cbn.
    rewrite Hent, bool_decide_eq_false_2 by done. done.
Qed.

(** [vmm_unmap_page] succeeds exactly on mapped addresses; afterwards the
    page is unmapped, and no other translation changed. *)
Theorem vmm_unmap_translate s va :
  vmm_inv s -> is_u32 va -> vmm_initialized (vmm_stats s) = true ->
  wp (vmm_unmap_page va) (fun ok s' => vmm_inv s' /\
    (ok = true <-> fst <$> vmm_is_mapped va s = Some true) /\
    (forall v, is_u32 v -> v / 4096 = va / 4096 -> vmm_is_mapped v s' = Some (false, s')) /\
    (forall v, is_u32 v -> v / 4096 <> va / 4096 ->
       fst <$> vmm_get_physical_address v s' = fst <$> vmm_get_physical_address v s)) s.
Proof.
  intros Hinv Hva Hini. eapply wp_mono; [by apply vmm_unmap_page_ok|].
  intros ok s' (Hinv' & [_ Hini' _ _] & Hok & Hent). rewrite Hini in Hini'.
  split; [done|]. split; [|split; intros v Hv Hp].
  - rewrite vmm_is_mapped_spec, Hok by done. cbn. split; congruence.
  - rewrite vmm_is_mapped_spec, Hent, bool_decide_eq_true_2 by done.
    assert (vmm_entry s v = vmm_entry s va) as E.
    { unfold vmm_entry, pt_entry. rewrite Hp.
      replace (v / 4194304) with (va / 4194304) by (Z.div_mod_to_equations; lia). done. }
    destruct ok; cbn; [done|]. by rewrite E, <- Hok.
  - rewrite !vmm_get_physical_address_spec by done. cbn.
    by rewrite Hent, bool_decide_eq_false_2, andb_false_r by done.
Qed.

(** The processor: a memory access uses the cached entry of its page, or walks
    the tables and caches what it finds. *)
Definition mmu_lookup (v : Z) : M vmm_state (option Z) := fun s =>
  match vmm_tlb s !! (v / 4096) with
  | Some e => Some (Some (4096 * (e / 4096) + v mod 4096), s)
  | None =>
      let e := vmm_entry s v in
      if is_present e
      then Some (Some (4096 * (e / 4096) + v mod 4096), s <| vmm_tlb ::= <[v / 4096 := e]> |>)
      else Some (None, s)
  end.

Inductive mmu_step : vmm_state -> vmm_state -> Prop :=
| mmu_access s v r s' : is_u32 v -> mmu_lookup v s = Some (r, s') -> mmu_step s s'
| mmu_map s va pa flags ok s' : is_u32 va -> is_u32 pa -> is_u32 flags ->
    vmm_map_page va pa flags s = Some (ok, s') -> mmu_step s s'
| mmu_unmap s va ok s' : is_u32 va -> vmm_unmap_page va s = Some (ok, s') -> mmu_step s s'.

Definition mmu_ok (s : vmm_state) : Prop :=
  vmm_inv s /\ vmm_initialized (vmm_stats s) = true.

Lemma pt_entry_same_page d m v w : v / 4096 = w / 4096 -> pt_entry d m v = pt_entry d m w.
Proof.
  intros E. unfold pt_entry. rewrite E.
  replace (v / 4194304) with (w / 4194304) by (Z.div_mod_to_equations; lia). done.
Qed.

Lemma mmu_step_ok s s' : mmu_step s s' -> mmu_ok s -> mmu_ok s'.
Proof.
  intros Hst [Hinv Hini]. destruct Hst as [s v r s' Hv E|s va pa flags ok s' Hva Hpa Hf E|s va ok s' Hva E].
  - unfold mmu_lookup in E. destruct (vmm_tlb s !! (v / 4096)); [by injection E as _ <-|].
    destruct (is_present (vmm_entry s v)) eqn:Hp; injection E as _ <-; [|done].
    split; [|done]. destruct Hinv as [Hwf Htlb]. split; [done|].
    intros n e Hn. cbn in Hn. apply lookup_insert_Some in Hn as [[<- <-]|[Hne Hn]]; [|by apply Htlb].
    unfold is_u32 in Hv. split; [Z.div_mod_to_equations; lia|]. split; [done|].
    apply pt_entry_same_page. rewrite Z.mul_comm, Z.div_mul by lia. done.
  - destruct (vmm_initialized (vmm_stats s) && vmm_flags_are_valid flags) eqn:Hok.
    + apply andb_true_iff in Hok as [_ Hfl].
      destruct (wp_run _ _ _ _ _ (vmm_map_page_ok s va pa flags Hinv Hva Hpa Hf Hini Hfl) E)
        as (Hinv' & [_ Hi _ _] & _). split; [done|]. by rewrite Hi.
    + rewrite Hini in Hok. cbn in Hok. revert E.
      unfold vmm_map_page, vmm_is_initialized, mbind_ at 1, mget. rewrite Hini. cbn [negb].
      rewrite Hok. cbn. intros E. injection E as _ <-. done.
  - destruct (wp_run _ _ _ _ _ (vmm_unmap_page_ok s va Hinv Hva Hini) E) as (Hinv' & [_ Hi _ _] & _).
    split; [done|]. by rewrite Hi.
Qed.

(** C14: however accesses, mappings and unmappings are interleaved, the
    processor never uses a stale translation: an access resolves exactly as the
    tables in memory say, and faults exactly when the page is not mapped. *)
Theorem mmu_never_stale s0 s v :
  mmu_ok s0 -> rtc mmu_step s0 s -> is_u32 v ->
  wp (mmu_lookup v) (fun r _ =>
    match r with
    | Some pa => vmm_get_physical_address v s = Some (pa, s) /\ vmm_is_mapped v s = Some (true, s)
    | None => vmm_is_mapped v s = Some (false, s)
    end) s.
Proof.
  intros Hok0 Hrun Hv.
  destruct (rtc_invariant _ _ mmu_step_ok _ _ Hrun Hok0) as [[_ Htlb] Hini].
  unfold wp, mmu_lookup. rewrite vmm_get_physical_address_spec, vmm_is_mapped_spec by done.
  destruct (vmm_tlb s !! (v / 4096)) as [e|] eqn:Hn.
  - destruct (Htlb _ _ Hn) as (_ & Hp & He).
    assert (vmm_entry s v = e) as ->.
    { rewrite <- He. apply pt_entry_same_page. rewrite Z.mul_comm, Z.div_mul by lia. done. }
    rewrite Hp. eexists _, _. split; [reflexivity|]. done.
  - destruct (is_present (vmm_entry s v)); eexists _, _; (split; [reflexivity|done]).
Qed.

(** ** The identity mapping *)

Section IdentityMap.
Context (page_directory identity_page_tables : Z).

(** What the linker guarantees of the two static arrays: page alignment, no
    overlap, and a place inside the kernel image. *)
Record paging_layout (pm : pmm_state) : Prop := {
  pl_dir : 0 < page_directory /\ page_directory mod 4096 = 0 /\ page_directory + 4096 <= 0x8000000;
  pl_tables : 0 < identity_page_tables /\ identity_page_tables mod 4096 = 0 /\
    identity_page_tables + 131072 <= 0x8000000;
  pl_disjoint : page_directory + 4096 <= identity_page_tables \/
    identity_page_tables + 131072 <= page_directory;
  pl_dir_outside : outside_region pm page_directory;
  pl_tables_outside : identity_page_tables + 131072 <= allocation_start (pmm_stats pm) \/
    allocation_end (pmm_stats pm) <= identity_page_tables
}.

(** Both arrays after [k] iterations of [paging_build_identity_map]. *)
Definition identity_upto (k : Z) (m : mem) : Prop :=
  (forall t e, 0 <= t < k -> 0 <= e < 1024 ->
     load32 m (identity_page_tables + 4096 * t + 4 * e) = 4194304 * t + 4096 * e + 3) /\
  (forall i, 0 <= i < 1024 -> pd_entry page_directory m i =
     if i <? k then identity_page_tables + 4096 * i + 3 else 0).

Context (pm : pmm_state) (Hl : paging_layout pm).

Lemma identity_table_written k m m1 :
  0 <= k < 32 -> identity_upto k m ->
  (forall e, 0 <= e < 1024 -> load32 m1 (identity_page_tables + 4096 * k + 4 * e) =
     4194304 * k + 4096 * e + 3) ->
  agree (fun a => a < identity_page_tables + 4096 * k \/ identity_page_tables + 4096 * k + 4096 <= a)
    m m1 ->
  identity_upto (k + 1)
    (store32 (page_directory + 4 * k) (identity_page_tables + 4096 * k + 3) m1).
Proof using Hl.
  intros Hk [Ht Hd] Hnew Hag. pose proof (pl_dir _ Hl). pose proof (pl_tables _ Hl).
  pose proof (pl_disjoint _ Hl). split.
  - intros t e Ht' He. rewrite load32_store32_ne by lia.
    destruct (decide (t = k)) as [->|Hne]; [by apply Hnew|].
    rewrite <- (load32_agree _ m m1 _ Hag); [apply Ht; lia|]. cbn. lia.
  - intros i Hi. unfold pd_entry. destruct (decide (i = k)) as [->|Hne].
    + rewrite load32_store32_eq. zbool. apply u32_small. unfold is_u32. lia.
    + rewrite load32_store32_ne by lia.
      rewrite <- (load32_agree _ m m1 _ Hag); [|cbn; lia].
      fold (pd_entry page_directory m i). rewrite Hd by done.
      destruct (Z.ltb_spec i k), (Z.ltb_spec i (k + 1)); lia.
Qed.

Lemma build_identity_map_ok s :
  identity_upto 0 (vmm_mem s) ->
  wp (paging_build_identity_map page_directory identity_page_tables)
     (fun _ s' => exists m', identity_upto 32 m' /\ s' = s <| vmm_mem := m' |>) s.
Proof using Hl.
  intros H0. pose proof (pl_dir _ Hl). pose proof (pl_tables _ Hl).
  apply (wp_for_seqZ 32 _ (fun k s' => exists m', identity_upto k m' /\ s' = s <| vmm_mem := m' |>));
    [lia|exists (vmm_mem s); split; [done|by destruct s]| |done].
  intros k s' Hk (m & Hm & ->). wp_step.
  apply (wp_fill _ _ (identity_page_tables + 4096 * k) 1024);
    [intros; unfold identity_entry_address; lia|].
  intros m1 Hnew Hag. apply wp_mod. cbn in *.
  assert (Z.lor (Z.lor (identity_entry_address identity_page_tables k 0) PAGE_PRESENT) PAGE_WRITABLE
          = identity_page_tables + 4096 * k + 3) as ->.
  { unfold identity_entry_address. rewrite Z.add_0_r.
    rewrite (entry_value _ 2); [lia| |by auto]. Z.div_mod_to_equations. lia. }
  eexists. split; [|done]. apply (identity_table_written k m m1); try done.
  intros e He. rewrite Hnew by done. unfold PAGE_TABLE_ENTRIES, PAGE_SIZE.
  rewrite !(u32_small (k * 1024)), !(u32_small (k * 1024 * 4096)), !(u32_small (e * 4096))
    by (unfold is_u32; lia).
  rewrite !(u32_small (_ + _)) by (unfold is_u32; lia).
  rewrite (entry_value _ 2); [| |by auto].
  - rewrite u32_small by (unfold is_u32; lia). lia.
  - Z.div_mod_to_equations. lia.
Qed.

Lemma clear_structures_ok s :
  wp (paging_clear_structures page_directory identity_page_tables)
     (fun _ s' => exists m', identity_upto 0 m' /\ s' = s <| vmm_mem := m' |>) s.
Proof using Hl.
  pose proof (pl_tables _ Hl). pose proof (pl_disjoint _ Hl). pose proof (pl_dir _ Hl).
  unfold paging_clear_structures. wp_step. apply (wp_fill _ _ page_directory 1024); [done|]. intros m1 Hz Hag.
  apply (wp_for_seqZ 32 _ (fun k s' => exists m', identity_upto 0 m' /\ s' = s <| vmm_mem := m' |>));
    [lia| | |done].
  - exists m1. split; [|done]. split; [lia|]. intros i Hi. unfold pd_entry. rewrite (Hz i Hi). zbool. done.
  - intros k s' Hk (m & [_ Hm] & ->).
    apply (wp_fill _ _ (identity_page_tables + 4096 * k) 1024);
      [intros; unfold identity_entry_address; lia|].
    intros m2 _ Hag2. cbn in *. exists m2. split; [|done]. split; [lia|]. intros i Hi.
    rewrite <- (Hm i Hi). symmetry. eapply load32_agree; [exact Hag2|]. cbn. lia.
Qed.

Lemma identity_entries m v :
  identity_upto 32 m -> is_u32 v ->
  pt_entry page_directory m v = if v <? 0x8000000 then 4096 * (v / 4096) + 3 else 0.
Proof using Hl.
  intros [Ht Hd] Hv. pose proof (pl_tables _ Hl) as (Hp0 & Hpal & Hpl).
  destruct (index_bounds v Hv) as [Hi Hj]. unfold pt_entry, pt_base.
  rewrite Hd by done. unfold is_u32 in Hv.
  destruct (Z.ltb_spec v 0x8000000).
  - assert (v / 4194304 < 32) by (Z.div_mod_to_equations; lia). zbool.
    destruct (entry_fields (identity_page_tables + 4096 * (v / 4194304)) 2
      (identity_page_tables + 4096 * (v / 4194304) + 3)) as (_ & -> & ->); try lia.
    + Z.div_mod_to_equations. lia.
    + unfold is_u32. lia.
    + done.
    + rewrite Ht by lia. Z.div_mod_to_equations. lia.
  - assert (32 <= v / 4194304) by (Z.div_mod_to_equations; lia). zbool. done.
Qed.

Lemma identity_wf m :
  pmm_inv pm -> allocation_end (pmm_stats pm) <= 0x8000000 ->
  identity_upto 32 m -> pt_wf page_directory m pm.
Proof using Hl.
  intros Hpm Hw [_ Hd]. pose proof (pl_tables _ Hl) as (Hp0 & Hpal & Hpl).
  pose proof (pl_dir _ Hl) as (Hd0 & Hdal & Hdl). pose proof (pl_disjoint _ Hl).
  assert (Hbase : forall i, 0 <= i < 1024 -> is_present (pd_entry page_directory m i) = true ->
    i < 32 /\ pt_base page_directory m i = identity_page_tables + 4096 * i).
  { intros i Hi. unfold pt_base. rewrite Hd by done.
    destruct (Z.ltb_spec i 32); [intros _|done]. split; [done|].
    eapply (entry_fields _ 2); [|unfold is_u32; lia|lia|done|lia].
    Z.div_mod_to_equations. lia. }
  constructor; try done.
  - apply Hl.
  - intros i Hi Hp. destruct (Hbase i Hi Hp) as [Hlt ->]. constructor; [lia..|].
    left. destruct (pl_tables_outside _ Hl); [left|right]; lia.
  - intros i j Hi Hj Hpi Hpj. destruct (Hbase i Hi Hpi) as [_ ->], (Hbase j Hj Hpj) as [_ ->]. lia.
Qed.
End IdentityMap.

(** After [paging_initialize] and [vmm_initialize] the invariant holds,
    every address of the first 128 MiB translates to itself and nothing else is
    mapped. *)
Theorem paging_identity page_directory identity_page_tables s :
  paging_layout page_directory identity_page_tables (vmm_pmm s) ->
  pmm_inv (vmm_pmm s) -> allocation_end (pmm_stats (vmm_pmm s)) <= 0x8000000 ->
  wp (paging_initialize page_directory identity_page_tables ;;; vmm_initialize)
     (fun _ s' => vmm_inv s' /\ dir s' = page_directory /\ vmm_pmm s' = vmm_pmm s /\
        forall v, is_u32 v ->
          vmm_get_physical_address v s' = Some (if v <? 0x8000000 then v else 0, s') /\
          vmm_is_mapped v s' = Some (v <? 0x8000000, s')) s.
Proof.
  intros Hl Hpm Hw. apply wp_bind. unfold paging_initialize.
  apply wp_bind. eapply wp_mono; [by apply (clear_structures_ok _ _ _ Hl)|]. intros _ s1 (m1 & Hm1 & ->).
  apply wp_bind. eapply wp_mono; [by apply (build_identity_map_ok _ _ _ Hl)|].
  intros _ s2 (m2 & Hm2 & ->). vmm_steps. unfold vmm_initialize, vmm_audit_mod, vmm_clear_audit_snapshot.
  vmm_steps. split; [|split; [done|split; [done|]]].
  - split; [by apply (identity_wf _ _ _ Hl)|]. intros n e Hn. cbn in Hn.
    by rewrite lookup_empty in Hn.
  - intros v Hv. rewrite vmm_get_physical_address_spec, vmm_is_mapped_spec by done.
    unfold vmm_entry, dir. cbn.
    rewrite (identity_entries _ _ _ Hl) by done. destruct (Z.ltb_spec v 0x8000000); [|done].
    rewrite is_present_mod. unfold is_u32 in Hv.
    rewrite (proj2 (Z.eqb_neq _ _)) by (Z.div_mod_to_equations; lia). cbn.
    split; [|done]. do 2 f_equal. Z.div_mod_to_equations. lia.
Qed.

(** ** Auditing *)

Definition is_writable (e : Z) : bool := negb (Z.land e VMM_PAGE_WRITABLE =? 0).
Definition is_user (e : Z) : bool := negb (Z.land e VMM_PAGE_USER =? 0).

(** The audit record after reading directory entries [ds] and page table
    entries [es], none of them faulty. *)
Record audit_adds (ds es : list Z) (a a' : vmm_audit_info_t) : Prop := {
  aa_issues : vmm_issues_found a' = vmm_issues_found a;
  aa_dirs : present_directory_entries a' =
    u32 (present_directory_entries a + count_if is_present ds);
  aa_present : present_page_entries a' = u32 (present_page_entries a + count_if is_present es);
  aa_writable : writable_page_entries a' =
    u32 (writable_page_entries a + count_if (fun e => is_present e && is_writable e) es);
  aa_user : user_page_entries a' =
    u32 (user_page_entries a + count_if (fun e => is_present e && is_user e) es)
}.

Definition audit_u32 (a : vmm_audit_info_t) : Prop :=
  is_u32 (present_directory_entries a) /\ is_u32 (present_page_entries a) /\
  is_u32 (writable_page_entries a) /\ is_u32 (user_page_entries a).

Lemma audit_adds_nil a : audit_u32 a -> audit_adds [] [] a a.
Proof.
  intros (H1 & H2 & H3 & H4). constructor; try done; cbn; by rewrite Z.add_0_r, u32_small.
Qed.

Lemma audit_adds_u32 ds es a a' : audit_adds ds es a a' -> audit_u32 a'.
Proof. intros [_ H1 H2 H3 H4]. unfold audit_u32. rewrite H1, H2, H3, H4. auto with u32. Qed.

Lemma audit_adds_app ds ds' es es' a a1 a2 :
  audit_adds ds es a a1 -> audit_adds ds' es' a1 a2 -> audit_adds (ds ++ ds') (es ++ es') a a2.
Proof.
  intros [A0 A1 A2 A3 A4] [B0 B1 B2 B3 B4].
  constructor; rewrite ?count_if_app, ?B0, ?B1, ?B2, ?B3, ?B4, ?A0, ?A1, ?A2, ?A3, ?A4;
    try done; rewrite u32_add_l; f_equal; lia.
Qed.

(** An audit step changes only the audit record. *)
Definition audits (ds es : list Z) (s s' : vmm_state) : Prop :=
  exists a', s' = s <| vmm_audit_info := a' |> /\ audit_adds ds es (vmm_audit_info s) a'.

Lemma audits_app ds ds' es es' s s1 s2 :
  audits ds es s s1 -> audits ds' es' s1 s2 -> audits (ds ++ ds') (es ++ es') s s2.
Proof.
  intros (a1 & -> & A1) (a2 & -> & A2). exists a2. split; [done|]. by eapply audit_adds_app.
Qed.

Lemma audit_page_entry_ok e s :
  audit_u32 (vmm_audit_info s) ->
  wp (vmm_audit_page_entry e) (fun _ s' => audits [] [e] s s') s.
Proof.
  intros (H1 & H2 & H3 & H4). unfold vmm_audit_page_entry, audits, vmm_audit_mod.
  fold (is_writable e) (is_user e).
  destruct (is_present e) eqn:Hp; cbn [negb]; wp_steps; cbn;
    (first [ eexists; split; [reflexivity|]
           | exists (vmm_audit_info s); split; [by destruct s|] ]); constructor; cbn; rewrite ?Hp;
    repeat match goal with H : _ = true |- _ => rewrite H | H : _ = false |- _ => rewrite H end;
    cbn; rewrite ?Z.add_0_r; first [done|by rewrite u32_small].
Qed.

Lemma audit_table_ok table s :
  audit_u32 (vmm_audit_info s) ->
  wp (mfor (seqZ 0 PAGE_TABLE_ENTRIES) (fun table_index =>
        e <- read32 (table + 4 * table_index) ;; vmm_audit_page_entry e))
     (fun _ s' => audits [] ((fun j => load32 (vmm_mem s) (table + 4 * j)) <$> seqZ 0 1024) s s') s.
Proof.
  intros Ha. unfold PAGE_TABLE_ENTRIES.
  apply (wp_for _ _ (fun l s' =>
    audits [] ((fun j => load32 (vmm_mem s) (table + 4 * j)) <$> l) s s')); [| |done].
  - exists (vmm_audit_info s). split; [by destruct s|]. by apply audit_adds_nil.
  - intros l x r s' _ Hs'. wp_step. apply wp_get.
    destruct Hs' as (a' & -> & Ha'). cbn.
    eapply wp_mono; [by apply audit_page_entry_ok; eapply audit_adds_u32|].
    intros u s2 Hs2. rewrite fmap_app. apply (audits_app [] [] _ _ _ _ _ (ex_intro _ _ (conj eq_refl Ha')) Hs2).
Qed.

(** The page table entries the audit reads behind directory slot [i]. *)
Definition table_entries (s : vmm_state) (i : Z) : list Z :=
  if is_present (pd_entry (dir s) (vmm_mem s) i)
  then (fun j => vmm_entry s (4194304 * i + 4096 * j)) <$> seqZ 0 1024 else [].

Lemma audit_directory_entry_ok s i :
  vmm_inv s -> audit_u32 (vmm_audit_info s) -> 0 <= i < 1024 ->
  wp (vmm_audit_directory_entry (pd_entry (dir s) (vmm_mem s) i))
     (fun _ s' => audits [pd_entry (dir s) (vmm_mem s) i] (table_entries s i) s s') s.
Proof.
  intros [Hwf _] Ha Hi. unfold vmm_audit_directory_entry, table_entries, vmm_audit_mod.
  pose proof (wf_tables _ _ _ Hwf i Hi) as Ht.
  destruct (is_present (pd_entry (dir s) (vmm_mem s) i)) eqn:Hp; cbn [negb].
  - specialize (Ht eq_refl). fold (pt_base (dir s) (vmm_mem s) i). wp_steps.
    { pose proof (table_nonzero _ _ _ Ht). bool_simpl. lia. }
    set (s1 := s <| vmm_audit_info ::= _ |>).
    assert (audits [pd_entry (dir s) (vmm_mem s) i] [] s s1) as H1.
    { eexists. split; [done|]. destruct Ha as (H1 & H2 & H3 & H4).
      constructor; cbn; rewrite ?Hp, ?Z.add_0_r; first [done|by rewrite u32_small]. }
    eapply wp_mono; [apply audit_table_ok|].
    { destruct H1 as (a1 & E1 & H1). apply audit_adds_u32 in H1. by rewrite E1. }
    intros u s2 H2. pose proof (audits_app _ _ _ _ _ _ _ H1 H2) as H12.
    rewrite app_nil_r in H12. cbn [app] in H12. erewrite list_fmap_ext; [exact H12|].
    intros k j Hj. apply lookup_seqZ in Hj. unfold vmm_entry, pt_entry. cbn.
    replace ((4194304 * i + 4096 * j) / 4194304) with i by (Z.div_mod_to_equations; lia).
    replace (((4194304 * i + 4096 * j) / 4096) mod 1024) with j by (Z.div_mod_to_equations; lia).
    by rewrite Hp.
  - wp_steps. exists (vmm_audit_info s). split; [by destruct s|].
    destruct Ha as (H1 & H2 & H3 & H4). constructor; cbn; rewrite ?Hp; cbn;
      rewrite ?Z.add_0_r; first [done|by rewrite u32_small].
Qed.

(** The start addresses of all virtual pages, in the order of the audit. *)
Definition all_pages : list Z :=
  seqZ 0 1024 ≫= fun i => (fun j => 4194304 * i + 4096 * j) <$> seqZ 0 1024.

Lemma count_if_bind {A B} (p : B -> bool) (f g : A -> list B) l :
  (forall x, x ∈ l -> count_if p (f x) = count_if p (g x)) ->
  count_if p (l ≫= f) = count_if p (l ≫= g).
Proof.
  induction l as [|x l IH]; intros H; [done|]. cbn. rewrite !count_if_app, H by by left.
  rewrite IH; [done|]. intros y Hy. apply H. by right.
Qed.

Lemma all_pages_length : Z.of_nat (length all_pages) = 1048576.
Proof.
  assert (forall l : list Z, Z.of_nat (length (l ≫= fun i => (fun j => 4194304 * i + 4096 * j) <$> seqZ 0 1024))
    = 1024 * Z.of_nat (length l)) as H.
  { induction l as [|x l IH]; [done|].
    rewrite bind_cons, length_app, length_fmap, length_seqZ, Nat2Z.inj_add, IH. cbn [length]. lia. }
  unfold all_pages. rewrite H, length_seqZ. done.
Qed.

(** Counting over the tables that exist is counting over all pages. *)
Lemma count_table_entries s (p : Z -> bool) :
  p 0 = false ->
  count_if p (seqZ 0 1024 ≫= table_entries s) = count_if (fun v => p (vmm_entry s v)) all_pages.
Proof.
  intros Hp0. rewrite <- (count_if_fmap p (vmm_entry s)). unfold all_pages.
  assert (forall (f : Z -> list Z) l, vmm_entry s <$> (l ≫= f) = l ≫= (fun i => vmm_entry s <$> f i)) as ->.
  { intros f l. induction l as [|x l IH]; [done|]. cbn. by rewrite fmap_app, IH. }
  apply count_if_bind. intros i Hi. apply elem_of_seqZ in Hi. unfold table_entries.
  destruct (is_present (pd_entry (dir s) (vmm_mem s) i)) eqn:E.
  - by rewrite <- list_fmap_compose.
  - cbn. rewrite count_if_none; [done|]. intros e He.
    apply list_elem_of_fmap in He as (v & -> & Hv). apply list_elem_of_fmap in Hv as (j & -> & Hj).
    apply elem_of_seqZ in Hj. rewrite vmm_entry_absent; [done|].
    by replace ((4194304 * i + 4096 * j) / 4194304) with i by (Z.div_mod_to_equations; lia).
Qed.

Lemma audit_directory_ok s :
  vmm_inv s -> audit_u32 (vmm_audit_info s) ->
  wp (mfor (seqZ 0 PAGE_DIRECTORY_ENTRIES) (fun directory_index =>
        e <- read32 (dir s + 4 * directory_index) ;; vmm_audit_directory_entry e))
     (fun _ s' => audits (pd_entry (dir s) (vmm_mem s) <$> seqZ 0 1024)
                         (seqZ 0 1024 ≫= table_entries s) s s') s.
Proof.
  intros Hinv Ha. unfold PAGE_DIRECTORY_ENTRIES.
  apply (wp_for _ _ (fun l s' =>
    audits (pd_entry (dir s) (vmm_mem s) <$> l) (l ≫= table_entries s) s s')); [| |done].
  - exists (vmm_audit_info s). split; [by destruct s|]. by apply audit_adds_nil.
  - intros l x r s' E Hs'. wp_step. apply wp_get. destruct Hs' as (a' & -> & Ha').
    assert (0 <= x < 1024) as Hx.
    { apply (proj1 (elem_of_seqZ 0 1024 x)). rewrite E. apply elem_of_app. right. by left. }
    set (s1 := s <| vmm_audit_info := a' |>).
    eapply wp_mono; [apply (audit_directory_entry_ok s1 x Hinv (audit_adds_u32 _ _ _ _ Ha') Hx)|].
    intros u s2 Hs2. rewrite fmap_app, bind_app. cbn. rewrite app_nil_r.
    apply (audits_app _ _ _ _ _ _ _ (ex_intro _ _ (conj eq_refl Ha')) Hs2).
Qed.

(** Under the invariant, the audit reports an issue exactly when the last
    mapped page has meanwhile been unmapped, and its counters are the numbers of
    mapped, writable and user pages of the whole address space. *)
Theorem vmm_audit_exact s :
  vmm_inv s -> vmm_initialized (vmm_stats s) = true -> is_u32 (last_mapped_virtual_address (vmm_stats s)) ->
  wp vmm_audit (fun issues s' =>
    vmm_inv s' /\
    (issues = if (0 <? mapped_pages (vmm_stats s)) &&
                 negb (is_present (vmm_entry s (last_mapped_virtual_address (vmm_stats s))))
              then 1 else 0) /\
    present_page_entries (vmm_audit_info s') =
      count_if (fun v => is_present (vmm_entry s v)) all_pages /\
    writable_page_entries (vmm_audit_info s') =
      count_if (fun v => is_present (vmm_entry s v) && is_writable (vmm_entry s v)) all_pages /\
    user_page_entries (vmm_audit_info s') =
      count_if (fun v => is_present (vmm_entry s v) && is_user (vmm_entry s v)) all_pages) s.
Proof.
  intros Hinv Hini Hlast. unfold vmm_audit, vmm_audit_mod, vmm_clear_audit_snapshot.
  do 4 vmm_step. set (s1 := s <| vmm_audit_info ::= _ |> <| vmm_audit_info ::= _ |>).
  do 2 vmm_step. change (vmm_initialized (vmm_stats s1)) with (vmm_initialized (vmm_stats s)).
  rewrite Hini. cbn [negb]. do 2 vmm_step. fold (dir s1).
  pose proof (wf_dir _ _ _ (proj1 Hinv)) as [Hd0 _]. change (dir s) with (dir s1) in Hd0.
  wp_step; [bool_simpl; lia|].
  apply wp_bind. eapply wp_mono; [apply (audit_directory_ok s1 Hinv)|].
  { repeat split; cbn; lia. }
  intros _ s2 (a2 & -> & [A0 A1 A2 A3 A4]). change (vmm_issues_found a2 = 0) in A0.
  change (present_page_entries (vmm_audit_info s1)) with 0 in A2.
  change (writable_page_entries (vmm_audit_info s1)) with 0 in A3.
  change (user_page_entries (vmm_audit_info s1)) with 0 in A4.
  rewrite Z.add_0_l in A2, A3, A4.
  assert (Hsmall : forall (p : Z -> bool), p 0 = false ->
    u32 (count_if p (seqZ 0 1024 ≫= table_entries s1)) = count_if (fun v => p (vmm_entry s v)) all_pages).
  { intros p Hp. rewrite count_table_entries by done. apply u32_small.
    pose proof (count_if_bound (fun v => p (vmm_entry s v)) all_pages) as Hb.
    rewrite all_pages_length in Hb. change (vmm_entry s1) with (vmm_entry s). unfold is_u32. lia. }
  rewrite (Hsmall is_present) in A2 by done.
  rewrite (Hsmall (fun e => is_present e && is_writable e)) in A3 by done.
  rewrite (Hsmall (fun e => is_present e && is_user e)) in A4 by done.
  set (s2 := s1 <| vmm_audit_info := a2 |>). apply wp_bind, wp_get. apply wp_bind.
  change (vmm_stats s2) with (vmm_stats s).
  destruct (0 <? mapped_pages (vmm_stats s)); cbn [andb].
  - apply wp_bind. eexists _, _. split; [apply vmm_is_mapped_spec; done|].
    change (vmm_entry s2) with (vmm_entry s).
    destruct (is_present (vmm_entry s _)); cbn [negb mwhen].
    + wp_step. apply wp_get. cbn. split; [exact Hinv|]. done.
    + unfold vmm_audit_record_issue, vmm_audit_mod. wp_steps. apply wp_get. cbn.
      rewrite A0. split; [exact Hinv|]. done.
  - wp_step. apply wp_get. cbn. split; [exact Hinv|]. done.
Qed.

(** When [vmm_map_page] fails (not initialized, bad flags, no frame for a
    page table), every translation and every owned frame is as before. *)
Theorem vmm_map_failure_atomic s va pa flags s' :
  vmm_inv s -> is_u32 va -> is_u32 pa -> is_u32 flags ->
  vmm_map_page va pa flags s = Some (false, s') ->
  vmm_inv s' /\ (forall v, is_u32 v -> vmm_entry s' v = vmm_entry s v) /\
  (forall p, vmm_data_frame s' p <-> vmm_data_frame s p) /\
  (vmm_initialized (vmm_stats s) = true -> vmm_flags_are_valid flags = true ->
     pmm_exhausted (vmm_pmm s)).
Proof.
  intros Hinv Hva Hpa Hfu E.
  destruct (vmm_initialized (vmm_stats s) && vmm_flags_are_valid flags) eqn:Hok.
  - apply andb_true_iff in Hok as [Hini Hfl].
    destruct (wp_run _ _ _ _ _ (vmm_map_page_ok s va pa flags Hinv Hva Hpa Hfu Hini Hfl) E)
      as (Hinv' & [_ _ _ Hfr] & Hent & Hex). split; [done|]. split; [exact Hent|].
    split; [exact Hfr|]. intros _ _. by apply Hex.
  - destruct (vmm_map_page_refused s va pa flags Hok) as (s1 & E1 & Em & Ep & Et & Ei & _).
    rewrite E in E1. injection E1 as ->.
    split; [|split; [|split]].
    + unfold vmm_inv, dir. by rewrite Em, Ep, Et, Ei.
    + intros. unfold vmm_entry, dir. by rewrite Em, Ei.
    + intros. unfold vmm_data_frame, dir. by rewrite Em, Ep, Ei.
    + intros H1 H2. rewrite H1, H2 in Hok. done.
Qed.

(** *** A concrete machine *)

(** An empty page directory at 0x10000. *)
Definition vmm_sample : vmm_state := {|
  vmm_pmm := pmm_sample; vmm_mem := ∅; vmm_tlb := ∅;
  paging_info := Build_paging_info_t true 0 0 0 0x10000 0;
  vmm_stats := Build_vmm_stats_t true 0 0 0 0 0 0 0 0 0;
  vmm_audit_info := Build_vmm_audit_info_t 0 0 0 0 0 0 0 0 0 |}.

Lemma pd_entry_empty d i : pd_entry d ∅ i = 0.
Proof. unfold pd_entry, load32, load16, load8. by rewrite !lookup_empty. Qed.

Lemma vmm_sample_inv : vmm_inv vmm_sample.
Proof.
  split; [|intros n e Hn; cbn in Hn; by rewrite lookup_empty in Hn].
  assert (forall i, is_present (pd_entry (dir vmm_sample) (vmm_mem vmm_sample) i) = true -> False) as H.
  { intros i Hp. cbn in Hp. by rewrite pd_entry_empty in Hp. }
  constructor; try (intros; exfalso; by eapply H).
  - apply pmm_sample_inv.
  - by vm_compute.
  - by vm_compute.
  - left. by vm_compute.
Qed.

(** Evaluating an operation at a concrete state. *)
Lemma run_some {S A} (m : M S A) s a : fst <$> m s = Some a -> exists s', m s = Some (a, s').
Proof. destruct (m s) as [[b s']|]; [|done]. intros [= ->]. by exists s'. Qed.

Lemma vmm_map_translate_witness :
  exists s', vmm_map_page 0xC1000000 0x152000 2 vmm_sample = Some (true, s') /\ vmm_inv s' /\
    vmm_get_physical_address 0xC1000123 s' = Some (0x152123, s').
Proof.
  destruct (run_some (vmm_map_page 0xC1000000 0x152000 2) vmm_sample true) as [s' E];
    [vm_compute; reflexivity|].
  exists s'. split; [exact E|].
  destruct (vmm_map_translate vmm_sample 0xC1000000 0x152000 2 s') as (Hi & Ht & _);
    [apply vmm_sample_inv|unfold is_u32; lia..|exact E|].
  split; [exact Hi|].
  destruct (Ht 0xC1000123) as (H & _); [unfold is_u32; lia|reflexivity|exact H].
Defined.

Lemma vmm_unmap_translate_witness :
  wp (vmm_unmap_page 0xC1000000) (fun ok s' => vmm_inv s' /\
    (ok = true <-> fst <$> vmm_is_mapped 0xC1000000 vmm_sample = Some true) /\
    (forall v, is_u32 v -> v / 4096 = 0xC1000000 / 4096 -> vmm_is_mapped v s' = Some (false, s')) /\
    (forall v, is_u32 v -> v / 4096 <> 0xC1000000 / 4096 ->
       fst <$> vmm_get_physical_address v s' = fst <$> vmm_get_physical_address v vmm_sample))
    vmm_sample.
Proof.
  apply (vmm_unmap_translate vmm_sample 0xC1000000);
    [apply vmm_sample_inv|unfold is_u32; lia|reflexivity].
Defined.

Lemma mmu_never_stale_witness :
  wp (mmu_lookup 0xC1000123) (fun r _ =>
    match r with
    | Some pa => vmm_get_physical_address 0xC1000123 vmm_sample = Some (pa, vmm_sample) /\
                 vmm_is_mapped 0xC1000123 vmm_sample = Some (true, vmm_sample)
    | None => vmm_is_mapped 0xC1000123 vmm_sample = Some (false, vmm_sample)
    end) vmm_sample.
Proof.
  apply (mmu_never_stale vmm_sample);
    [split; [apply vmm_sample_inv|reflexivity]|apply rtc_refl|unfold is_u32; lia].
Defined.

Lemma paging_identity_witness :
  wp (paging_initialize 0x110000 0x111000 ;;; vmm_initialize)
     (fun _ s' => vmm_inv s' /\ dir s' = 0x110000 /\ vmm_pmm s' = pmm_sample /\
        forall v, is_u32 v ->
          vmm_get_physical_address v s' = Some (if v <? 0x8000000 then v else 0, s') /\
          vmm_is_mapped v s' = Some (v <? 0x8000000, s')) vmm_sample.
Proof.
  apply (paging_identity 0x110000 0x111000 vmm_sample).
  - constructor; vm_compute; split_and?; try discriminate; try reflexivity; left; discriminate.
  - apply pmm_sample_inv.
  - vm_compute. discriminate.
Defined.

Lemma vmm_audit_exact_witness :
  wp vmm_audit (fun issues _ => issues = 0) vmm_sample.
Proof.
  eapply wp_mono; [apply (vmm_audit_exact vmm_sample);
    [apply vmm_sample_inv|reflexivity|unfold is_u32; cbn; lia]|].
  intros issues s' (_ & E & _). exact E.
Defined.

Lemma vmm_map_failure_atomic_witness :
  exists s', vmm_map_page 0xC1000000 0x152000 8 vmm_sample = Some (false, s') /\ vmm_inv s'.
Proof.
  destruct (run_some (vmm_map_page 0xC1000000 0x152000 8) vmm_sample false) as [s' E];
    [vm_compute; reflexivity|].
  exists s'. split; [exact E|].
  apply (vmm_map_failure_atomic vmm_sample 0xC1000000 0x152000 8 s');
    [apply vmm_sample_inv|unfold is_u32; lia..|exact E].
Defined.
