(* ===== verification/Pages.v ===== *)
(** * The interface between the memory managers and their clients

    The kernel heap takes page frames from memory/pmm.c and maps them with
    memory/vmm.c. [PageProvider] lists the calls it makes, [PageProviderLaws]
    what it may rely on; the heap is verified against the laws alone, and the
    instance at the end discharges them with the theorems of [Pmm] and [Vmm]. *)
From S2P Require Import Prelude Mem Boot Pmm Vmm.

Class PageProvider (E : Type) := {
  page_alloc : M E Z;                       (* pmm_alloc_page *)
  page_free : Z -> M E unit;                (* pmm_free_page *)
  page_map : Z -> Z -> Z -> M E bool;       (* vmm_map_page *)
  page_unmap : Z -> M E bool;               (* vmm_unmap_page *)
  page_is_mapped : Z -> M E bool;           (* vmm_is_mapped *)
  (** The frame an access to an address reaches; [None] is a page fault. *)
  page_frame : E -> Z -> option Z
}.

Definition frames_same {E} `{PageProvider E} (e e' : E) : Prop :=
  forall v, is_u32 v -> page_frame e' v = page_frame e v.

Class PageProviderLaws (E : Type) `{PageProvider E} := {
  pp_inv : E -> Prop;
  (** Frames handed out to clients. *)
  pp_owned : E -> Z -> Prop;
  pp_frame_page e v w : v / 4096 = w / 4096 -> page_frame e v = page_frame e w;
  pp_alloc_ok e : pp_inv e ->
    wp page_alloc (fun p e' => pp_inv e' /\ frames_same e e' /\
      ((p = 0 /\ forall q, pp_owned e' q <-> pp_owned e q) \/
       (p <> 0 /\ is_u32 p /\ p mod 4096 = 0 /\ ~ pp_owned e p /\
        forall q, pp_owned e' q <-> q = p \/ pp_owned e q))) e;
  pp_free_ok e p : pp_inv e -> pp_owned e p ->
    wp (page_free p) (fun _ e' => pp_inv e' /\ frames_same e e' /\
      forall q, q <> p -> pp_owned e' q <-> pp_owned e q) e;
  pp_map_ok e va pa : pp_inv e -> is_u32 va -> is_u32 pa -> pa mod 4096 = 0 ->
    wp (page_map va pa VMM_PAGE_WRITABLE) (fun ok e' => pp_inv e' /\
      (forall q, pp_owned e' q <-> pp_owned e q) /\
      forall v, is_u32 v -> page_frame e' v =
        if ok && bool_decide (v / 4096 = va / 4096) then Some pa else page_frame e v) e;
  pp_unmap_ok e va : pp_inv e -> is_u32 va ->
    wp (page_unmap va) (fun _ e' => pp_inv e' /\
      (forall q, pp_owned e' q <-> pp_owned e q) /\
      forall v, is_u32 v -> page_frame e' v =
        if bool_decide (v / 4096 = va / 4096) then None else page_frame e v) e;
  pp_is_mapped_ok e va : pp_inv e -> is_u32 va ->
    page_is_mapped va e = Some (bool_decide (is_Some (page_frame e va)), e)
}.

(** ** The memory managers implement the interface *)

Definition vmm_frame (s : vmm_state) (v : Z) : option Z :=
  let e := vmm_entry s v in
  if is_present e then Some (4096 * (e / 4096)) else None.

#[export] Instance vmm_provider : PageProvider vmm_state := {
  page_alloc := on_pmm pmm_alloc_page;
  page_free := fun p => on_pmm (pmm_free_page p);
  page_map := vmm_map_page;
  page_unmap := vmm_unmap_page;
  page_is_mapped := vmm_is_mapped;
  page_frame := vmm_frame
}.

Definition vmm_ready (s : vmm_state) : Prop :=
  vmm_inv s /\ vmm_initialized (vmm_stats s) = true.

(** A frame of the managed region that is a table is outstanding. *)
Lemma table_outstanding s p :
  vmm_inv s -> is_table (dir s) (vmm_mem s) p ->
  page_in (allocation_start (pmm_stats (vmm_pmm s))) (allocation_end (pmm_stats (vmm_pmm s))) p ->
  outstanding (vmm_pmm s) p.
Proof.
  intros [Hwf _] (i & Hi & Hp & <-) Hin.
  destruct (table_owned _ _ _ (wf_tables _ _ _ Hwf i Hi Hp)) as [Ho|Ho]; [|done].
  unfold outside_region, page_in in *. lia.
Qed.

Lemma vmm_alloc_law s :
  vmm_ready s ->
  wp (on_pmm pmm_alloc_page) (fun p s' => vmm_ready s' /\ (forall v, vmm_frame s' v = vmm_frame s v) /\
    ((p = 0 /\ forall q, vmm_data_frame s' q <-> vmm_data_frame s q) \/
     (p <> 0 /\ is_u32 p /\ p mod 4096 = 0 /\ ~ vmm_data_frame s p /\
      forall q, vmm_data_frame s' q <-> q = p \/ vmm_data_frame s q))) s.
Proof.
  intros [Hinv Hini]. pose proof Hinv as [Hwf Htlb]. apply wp_zoom.
  eapply wp_mono; [apply pmm_alloc_page_ok, Hwf|]. intros p pm' (Hpm & Hreg & Hcase).
  assert (forall q, outstanding (vmm_pmm s) q -> outstanding pm' q) as Hmono.
  { intros q Hq. destruct Hcase as [(_ & -> & _)|(_ & _ & _ & Hout)]; [done|]. apply Hout. auto. }
  split; [|split; [done|]].
  - split; [|done]. split; [|exact Htlb]. eapply pt_wf_pmm; eauto.
  - destruct Hcase as [(-> & -> & _)|(Hp0 & Hin & Hno & Hout)].
    + left. split; [done|]. done.
    + right. pose proof (inv_end_top _ Hpm). pose proof (inv_start_next _ Hpm).
      destruct Hreg as [Es Ee]. pose proof Hin as (H1 & H2 & H3).
      split; [done|]. split; [unfold is_u32; lia|]. split; [done|]. split; [intros [? _]; done|].
      intros q. unfold vmm_data_frame, data_frame, dir. cbn. rewrite Hout. fold (dir s).
      split; [tauto|]. intros [->|[? ?]]; [|by split; [right|]].
      split; [by left|]. intros Ht. by apply Hno, (table_outstanding s).
Qed.

Lemma vmm_free_law s p :
  vmm_ready s -> vmm_data_frame s p ->
  wp (on_pmm (pmm_free_page p)) (fun _ s' => vmm_ready s' /\
    (forall v, vmm_frame s' v = vmm_frame s v) /\
    forall q, q <> p -> vmm_data_frame s' q <-> vmm_data_frame s q) s.
Proof.
  intros [Hinv Hini] [Hout Hnt]. pose proof Hinv as [Hwf Htlb]. apply wp_zoom.
  eapply wp_mono; [apply pmm_free_page_ok, Hwf|]. intros _ pm' (Hpm & Hreg & Hcase).
  assert (forall q, q <> p -> outstanding pm' q <-> outstanding (vmm_pmm s) q) as Hiff.
  { intros q Hq. destruct Hcase as [[-> _]|[_ Ho]]; [done|]. rewrite Ho. tauto. }
  split; [|split; [done|]].
  - split; [|done]. split; [|exact Htlb]. eapply pt_wf_pmm; [done..|].
    intros q Hq. apply Hiff. intros ->. done.
  - intros q Hq. unfold vmm_data_frame, data_frame, dir. cbn. by rewrite Hiff.
Qed.

#[export] Instance vmm_provider_laws : PageProviderLaws vmm_state.
Proof.
  refine {| pp_inv := vmm_ready; pp_owned := vmm_data_frame |}.
  - intros s v w E. cbn. unfold vmm_frame, vmm_entry. by rewrite (pt_entry_same_page _ _ v w E).
  - intros s Hs. eapply wp_mono; [by apply vmm_alloc_law|]. intros p s' (H1 & H2 & H3).
    split; [done|]. split; [intros v _; apply H2|done].
  - intros s p Hs Hp. eapply wp_mono; [by apply vmm_free_law|]. intros u s' (H1 & H2 & H3).
    split; [done|]. split; [intros v _; apply H2|done].
  - intros s va pa [Hinv Hini] Hva Hpa Hal.
    eapply wp_mono; [apply (vmm_map_page_ok s va pa VMM_PAGE_WRITABLE); try done; unfold is_u32, VMM_PAGE_WRITABLE; lia|].
    intros ok s' (Hinv' & [_ Hi _ Hfr] & Hent & _). split; [split; [done|by rewrite Hi]|].
    split; [done|]. intros v Hv. cbn. unfold vmm_frame. rewrite Hent by done.
    destruct (ok && bool_decide (v / 4096 = va / 4096)); [|done].
    destruct (map_entry_fields pa VMM_PAGE_WRITABLE Hpa) as (_ & Hu & -> & Hb); [auto|].
    rewrite page_mask in Hb by done. rewrite Hb. f_equal. Z.div_mod_to_equations. lia.
  - intros s va [Hinv Hini] Hva. eapply wp_mono; [by apply vmm_unmap_page_ok|].
    intros ok s' (Hinv' & [_ Hi _ Hfr] & Hok & Hent). split; [split; [done|by rewrite Hi]|].
    split; [done|]. intros v Hv. cbn. unfold vmm_frame. rewrite Hent by done.
    case_bool_decide as E; [|by rewrite andb_false_r].
    destruct ok; [done|]. cbn. assert (vmm_entry s v = vmm_entry s va) as ->
      by by apply pt_entry_same_page. by rewrite <- Hok.
  - intros s va [Hinv Hini] Hva.
    change (vmm_is_mapped va s = Some (bool_decide (is_Some (vmm_frame s va)), s)).
    rewrite vmm_is_mapped_spec by done. unfold vmm_frame.
    do 2 f_equal. destruct (is_present (vmm_entry s va)); [by rewrite bool_decide_eq_true_2 by eauto|].
    rewrite bool_decide_eq_false_2; [done|]. intros [? ?]. done.
Defined.
