(* ===== verification/Heap.v ===== *)
(** * Kernel heap (memory/heap.h, memory/heap.c)

    A first-fit allocator over a singly linked list of blocks whose 16-byte
    headers live in the heap's own memory, which grows page by page. Every access
    to a header goes through the page mapping: an unmapped address is a page
    fault, which stops the kernel. The heap is a client of [PageProvider]. *)
From S2P Require Import Prelude Mem Boot Pmm Vmm Pages.

Definition HEAP_INITIAL_PAGES := 1.
Definition HEAP_MAX_GROW_PAGES := 16.
Definition HEAP_ALIGNMENT := 8.
Definition HEAP_MIN_SPLIT_SIZE := 16.
Definition HEAP_BLOCK_MAGIC := 0x48454150.
Definition HEAP_MAX_AUDIT_BLOCKS := 4096.
Definition MEMORY_LAYOUT_KERNEL_HEAP_START := 0xC1000000.
Definition MEMORY_LAYOUT_KERNEL_HEAP_END := 0xC1FFFFFF.

(** [struct heap_block]: the offsets of its fields and its size on i386. *)
Definition off_size := 4.
Definition off_used := 8.
Definition off_next := 12.
Definition sizeof_heap_block := 16.

Record heap_stats_t := {
  heap_initialized : bool;
  virtual_start : Z;
  virtual_end : Z;
  next_virtual_page : Z;
  total_pages : Z;
  total_bytes : Z;
  used_bytes : Z;
  free_bytes : Z;
  allocation_count : Z;
  free_block_count : Z;
  grow_count : Z;
  failed_grow_count : Z;
  failed_allocation_count : Z;
  successful_free_count : Z;
  invalid_free_count : Z;
  double_free_count : Z
}.

#[export] Instance eta_heap_stats : Settable heap_stats_t := fun s =>
  Build_heap_stats_t (heap_initialized s) (virtual_start s) (virtual_end s) (next_virtual_page s)
    (total_pages s) (total_bytes s) (used_bytes s) (free_bytes s) (allocation_count s)
    (free_block_count s) (grow_count s) (failed_grow_count s) (failed_allocation_count s)
    (successful_free_count s) (invalid_free_count s) (double_free_count s).

Record heap_audit_info_t := {
  heap_audits_run : Z;
  heap_issues_found : Z;
  blocks_seen : Z;
  used_blocks : Z;
  free_blocks : Z;
  invalid_magic_blocks : Z;
  out_of_range_blocks : Z;
  misaligned_blocks : Z;
  invalid_size_blocks : Z;
  invalid_next_links : Z;
  unmapped_heap_pages : Z;
  calculated_used_bytes : Z;
  calculated_free_bytes : Z;
  calculated_total_payload_bytes : Z
}.

#[export] Instance eta_heap_audit_info : Settable heap_audit_info_t := fun s =>
  Build_heap_audit_info_t (heap_audits_run s) (heap_issues_found s) (blocks_seen s) (used_blocks s)
    (free_blocks s) (invalid_magic_blocks s) (out_of_range_blocks s) (misaligned_blocks s)
    (invalid_size_blocks s) (invalid_next_links s) (unmapped_heap_pages s)
    (calculated_used_bytes s) (calculated_free_bytes s) (calculated_total_payload_bytes s).

(** [heap_mem] is indexed by virtual addresses. *)
Record heap_state (E : Type) := {
  heap_env : E;
  heap_mem : mem;
  heap_head : Z;
  heap_stats : heap_stats_t;
  heap_audit_info : heap_audit_info_t
}.
Arguments Build_heap_state {E}.
Arguments heap_env {E}.
Arguments heap_mem {E}.
Arguments heap_head {E}.
Arguments heap_stats {E}.
Arguments heap_audit_info {E}.

#[export] Instance eta_heap_state {E} : Settable (heap_state E) := fun s =>
  Build_heap_state (heap_env s) (heap_mem s) (heap_head s) (heap_stats s) (heap_audit_info s).

Definition heap_header_size : Z := align_up sizeof_heap_block HEAP_ALIGNMENT.

Definition heap_address_in_range (st : heap_stats_t) (address : Z) : bool :=
  (virtual_start st <=? address) && (address <=? virtual_end st).

Definition heap_payload_address_in_range (st : heap_stats_t) (address : Z) : bool :=
  (virtual_start st [+] heap_header_size <=? address) && (address <=? virtual_end st).

Definition heap_address_is_aligned (address : Z) : bool :=
  Z.land address (HEAP_ALIGNMENT - 1) =? 0.

Section Heap.
Context {E : Type} `{PageProvider E}.

Abbreviation HM := (M (heap_state E)).

(** ** Memory accesses *)

Definition mapped_at (s : heap_state E) (a : Z) : bool :=
  bool_decide (is_Some (page_frame (heap_env s) a)).

Definition hread32 (a : Z) : HM Z := fun s =>
  if mapped_at s a then Some (load32 (heap_mem s) a, s) else None.
Definition hread8 (a : Z) : HM Z := fun s =>
  if mapped_at s a then Some (load8 (heap_mem s) a, s) else None.
Definition hwrite32 (a v : Z) : HM unit := fun s =>
  if mapped_at s a then Some (tt, s <| heap_mem ::= store32 a v |>) else None.
Definition hwrite8 (a v : Z) : HM unit := fun s =>
  if mapped_at s a then Some (tt, s <| heap_mem ::= store8 a v |>) else None.

Definition block_magic (b : Z) : HM Z := hread32 b.
Definition block_size (b : Z) : HM Z := hread32 (b + off_size).
Definition block_used (b : Z) : HM bool :=
  v <- hread8 (b + off_used) ;; mret_ (negb (v =? 0)).
Definition block_next (b : Z) : HM Z := hread32 (b + off_next).
Definition set_size (b v : Z) : HM unit := hwrite32 (b + off_size) v.
Definition set_used (b v : Z) : HM unit := hwrite8 (b + off_used) v.
Definition set_next (b v : Z) : HM unit := hwrite32 (b + off_next) v.

Definition on_env {A} (m : M E A) : HM A :=
  mzoom heap_env (fun e s => s <| heap_env := e |>) m.
Definition stats : HM heap_stats_t := mget heap_stats.
Definition stat_mod (f : heap_stats_t -> heap_stats_t) : HM unit :=
  mmod (fun s => s <| heap_stats ::= f |>).
Definition audit_mod (f : heap_audit_info_t -> heap_audit_info_t) : HM unit :=
  mmod (fun s => s <| heap_audit_info ::= f |>).

(** ** Blocks *)

Definition heap_initialize_block (block size : Z) : HM unit :=
  hwrite32 block HEAP_BLOCK_MAGIC ;;;
  set_size block size ;;;
  set_used block 0 ;;;
  set_next block 0.

Definition heap_clear_audit_snapshot : HM unit :=
  audit_mod (fun i => Build_heap_audit_info_t (heap_audits_run i) 0 0 0 0 0 0 0 0 0 0 0 0 0).

Definition heap_audit_record_issue (counter : heap_audit_info_t -> heap_audit_info_t) : HM unit :=
  audit_mod (fun i => i <| heap_issues_found ::= incr |>) ;;;
  audit_mod counter.

Definition heap_block_header_is_sane (block : Z) : HM bool :=
  if block =? 0 then mret_ false
  else
    st <- stats ;;
    if negb (heap_address_in_range st block) then mret_ false
    else if negb (heap_address_is_aligned block) then mret_ false
    else
      magic <- block_magic block ;;
      if negb (magic =? HEAP_BLOCK_MAGIC) then mret_ false
      else
        size <- block_size block ;;
        if size =? 0 then mret_ false
        else if virtual_end st <? (block [+] heap_header_size [+] size) [-] 1 then mret_ false
        else mret_ true.

(** Local variables of the loop of [heap_recalculate_stats]. *)
Record recalc := { rc_used : Z; rc_free : Z; rc_allocs : Z; rc_frees : Z }.

Definition recalc_store (r : recalc) : HM unit :=
  stat_mod (fun st => st <| used_bytes := rc_used r |> <| free_bytes := rc_free r |>
                         <| allocation_count := rc_allocs r |>
                         <| free_block_count := rc_frees r |>).

Definition heap_recalculate_stats : HM unit :=
  head <- mget heap_head ;;
  r <- mloop (fun '(block, visited, r) =>
    if negb (negb (block =? 0) && (visited <? HEAP_MAX_AUDIT_BLOCKS)) then mret_ (inr r)
    else
      sane <- heap_block_header_is_sane block ;;
      if negb sane then mret_ (inr r)
      else
        used <- block_used block ;;
        size <- block_size block ;;
        let r' := if (used : bool)
          then {| rc_used := rc_used r [+] size; rc_free := rc_free r;
                  rc_allocs := incr (rc_allocs r); rc_frees := rc_frees r |}
          else {| rc_used := rc_used r; rc_free := rc_free r [+] size;
                  rc_allocs := rc_allocs r; rc_frees := incr (rc_frees r) |} in
        next <- block_next block ;;
        mret_ (inl (next, incr visited, r')))
    (head, 0, {| rc_used := 0; rc_free := 0; rc_allocs := 0; rc_frees := 0 |}) ;;
  recalc_store r.

Definition heap_find_last_block : HM Z :=
  head <- mget heap_head ;;
  if head =? 0 then mret_ 0
  else
    mloop (fun block =>
      next <- block_next block ;;
      if negb (next =? 0) then mret_ (inl next) else mret_ (inr block)) head.

Definition heap_find_block_for_pointer (pointer : Z) : HM Z :=
  st <- stats ;;
  if (pointer =? 0) || negb (heap_initialized st) then mret_ 0
  else if negb (heap_payload_address_in_range st pointer) then mret_ 0
  else
    head <- mget heap_head ;;
    mloop (fun '(block, visited) =>
      if negb (negb (block =? 0) && (visited <? HEAP_MAX_AUDIT_BLOCKS)) then mret_ (inr 0)
      else
        sane <- heap_block_header_is_sane block ;;
        if negb sane then mret_ (inr 0)
        else if block [+] heap_header_size =? pointer then mret_ (inr block)
        else
          next <- block_next block ;;
          mret_ (inl (next, incr visited))) (head, 0).

Definition heap_split_block (block requested_size : Z) : HM unit :=
  sane <- heap_block_header_is_sane block ;;
  if negb sane then mret_ tt
  else
    size <- block_size block ;;
    if size <=? requested_size [+] heap_header_size [+] HEAP_MIN_SPLIT_SIZE then mret_ tt
    else
      let remaining_size := size [-] requested_size [-] heap_header_size in
      let new_block := block [+] heap_header_size [+] requested_size in
      heap_initialize_block new_block remaining_size ;;;
      next <- block_next block ;;
      set_next new_block next ;;;
      set_size block requested_size ;;;
      set_next block new_block.

Definition heap_merge_free_blocks : HM unit :=
  head <- mget heap_head ;;
  mloop (fun '(block, visited) =>
    if block =? 0 then mret_ (inr tt)
    else
      next <- block_next block ;;
      if (next =? 0) || negb (visited <? HEAP_MAX_AUDIT_BLOCKS) then mret_ (inr tt)
      else
        sane <- heap_block_header_is_sane block ;;
        if negb sane then mret_ (inr tt)
        else
        sane_next <- heap_block_header_is_sane next ;;
        if negb sane_next then mret_ (inr tt)
        else
          size <- block_size block ;;
          let block_end := block [+] heap_header_size [+] size in
          used <- block_used block ;;
          mergeable <- (if (used : bool) then mret_ false
                        else used_next <- block_used next ;;
                             mret_ (negb used_next && (block_end =? next))) ;;
          if (mergeable : bool) then
            next_size <- block_size next ;;
            set_size block (size [+] (heap_header_size [+] next_size)) ;;;
            next_next <- block_next next ;;
            set_next block next_next ;;;
            mret_ (inl (block, visited))
          else mret_ (inl (next, incr visited))) (head, 0).

Definition heap_virtual_range_has_space (st : heap_stats_t) (pages : Z) : bool :=
  let bytes := pages [*] PMM_PAGE_SIZE in
  if next_virtual_page st <? virtual_start st then false
  else if virtual_end st <? (next_virtual_page st [+] bytes) [-] 1 then false
  else true.

(** The two arrays of [heap_grow] hold, at equal indices, the virtual and the
    physical page of each mapping made so far. *)
Definition heap_rollback_growth (pages : list (Z * Z))
    (original_next_virtual_page original_total_pages original_total_bytes : Z) : HM unit :=
  mfor pages (fun '(virtual_page, physical_page) =>
    on_env (page_unmap virtual_page) ;;;
    on_env (page_free physical_page)) ;;;
  stat_mod (fun st => st <| next_virtual_page := original_next_virtual_page |>
                         <| total_pages := original_total_pages |>
                         <| total_bytes := original_total_bytes |>).

Definition grow_failed : HM bool :=
  stat_mod (fun st => st <| failed_grow_count ::= incr |>) ;;; mret_ false.

(** The failure exit of [heap_grow] after some pages were mapped; [st] are the
    statistics at its entry. *)
Definition grow_rollback (st : heap_stats_t) (pages : list (Z * Z)) : HM bool :=
  heap_rollback_growth pages (next_virtual_page st) (total_pages st) (total_bytes st) ;;;
  grow_failed.

(** The loop of [heap_grow]. Its variables are [i], the two page arrays,
    [first_new_block] and [previous_new_block]; it leaves with the pages mapped
    and the first new block, or with [None] when it has rolled back. *)
Definition heap_grow_page (st : heap_stats_t) (required_pages : Z)
    (l : Z * list (Z * Z) * Z * Z) : HM (Z * list (Z * Z) * Z * Z + option (list (Z * Z) * Z)) :=
  let '(i, pages, first_new_block, previous_new_block) := l in
  if negb (i <? required_pages) then mret_ (inr (Some (pages, first_new_block)))
  else
    now <- stats ;;
    let virtual_address := next_virtual_page now in
    physical_page <- on_env page_alloc ;;
    if physical_page =? 0 then grow_rollback st pages ;;; mret_ (inr None)
    else
      mapped <- on_env (page_map virtual_address physical_page VMM_PAGE_WRITABLE) ;;
      if negb mapped then
        on_env (page_free physical_page) ;;; grow_rollback st pages ;;; mret_ (inr None)
      else
        let new_block := virtual_address in
        heap_initialize_block new_block (PMM_PAGE_SIZE [-] heap_header_size) ;;;
        let first := if first_new_block =? 0 then new_block else first_new_block in
        mwhen (negb (previous_new_block =? 0)) (set_next previous_new_block new_block) ;;;
        stat_mod (fun st => st <| next_virtual_page ::= fun p => p [+] PMM_PAGE_SIZE |>
                               <| total_pages ::= incr |>
                               <| total_bytes ::= fun b => b [+] PMM_PAGE_SIZE |>) ;;;
        mret_ (inl (incr i, pages ++ [(virtual_address, physical_page)], first, new_block)).

(** Appending the new blocks to the list; [false] when there is no last block. *)
Definition heap_grow_link (first_new_block : Z) : HM bool :=
  head <- mget heap_head ;;
  if head =? 0 then mmod (fun s => s <| heap_head := first_new_block |>) ;;; mret_ true
  else
    last <- heap_find_last_block ;;
    if last =? 0 then mret_ false
    else set_next last first_new_block ;;; mret_ true.

Definition heap_grow (minimum_size : Z) : HM bool :=
  let required_bytes := minimum_size [+] heap_header_size in
  let required_pages := align_up required_bytes PMM_PAGE_SIZE / PMM_PAGE_SIZE in
  let required_pages := if required_pages =? 0 then 1 else required_pages in
  if HEAP_MAX_GROW_PAGES <? required_pages then grow_failed
  else
    st <- stats ;;
    if negb (heap_virtual_range_has_space st required_pages) then grow_failed
    else
      r <- mloop (heap_grow_page st required_pages) (0, [], 0, 0) ;;
      match r with
      | None => mret_ false
      | Some (pages, first_new_block) =>
          linked <- heap_grow_link first_new_block ;;
          if negb linked then grow_rollback st pages
          else
            stat_mod (fun st => st <| grow_count ::= incr |>) ;;;
            heap_merge_free_blocks ;;;
            heap_recalculate_stats ;;;
            mret_ true
      end.

Definition heap_initialize : HM unit :=
  mmod (fun s => s <| heap_head := 0 |>) ;;;
  stat_mod (fun _ => Build_heap_stats_t false MEMORY_LAYOUT_KERNEL_HEAP_START
    MEMORY_LAYOUT_KERNEL_HEAP_END MEMORY_LAYOUT_KERNEL_HEAP_START 0 0 0 0 0 0 0 0 0 0 0 0) ;;;
  audit_mod (fun i => i <| heap_audits_run := 0 |>) ;;;
  heap_clear_audit_snapshot ;;;
  grown <- heap_grow (HEAP_INITIAL_PAGES [*] PMM_PAGE_SIZE [-] heap_header_size) ;;
  if negb grown then mret_ tt
  else
    stat_mod (fun st => st <| heap_initialized := true |>) ;;;
    heap_recalculate_stats.

(** One activation of [kmalloc]: [inr] is a return, [inl] the recursive call. *)
Definition kmalloc_body (size : Z) : HM (Z + Z) :=
  let alloc_failed := stat_mod (fun st => st <| failed_allocation_count ::= incr |>) ;;;
                      mret_ (inr 0) in
  st <- stats ;;
  if negb (heap_initialized st) || (size =? 0) then alloc_failed
  else
    let requested_size := align_up size HEAP_ALIGNMENT in
    head <- mget heap_head ;;
    found <- mloop (fun '(block, visited) =>
      if negb (negb (block =? 0) && (visited <? HEAP_MAX_AUDIT_BLOCKS)) then mret_ (inr None)
      else
        sane <- heap_block_header_is_sane block ;;
        if negb sane then r <- alloc_failed ;; mret_ (inr (Some 0))
        else
          used <- block_used block ;;
          bsize <- block_size block ;;
          if negb used && (requested_size <=? bsize) then
            heap_split_block block requested_size ;;;
            set_used block 1 ;;;
            heap_recalculate_stats ;;;
            mret_ (inr (Some (block [+] heap_header_size)))
          else
            next <- block_next block ;;
            mret_ (inl (next, incr visited))) (head, 0) ;;
    match found with
    | Some p => mret_ (inr p)
    | None =>
        grown <- heap_grow requested_size ;;
        if negb grown then alloc_failed else mret_ (inl requested_size)
    end.

(** [kmalloc] calls itself after growing the heap (heap.c:519). The kernel is
    compiled without optimization and runs on a stack of 16 KiB, so every nested
    call keeps its frame: [kmalloc_nested depth] has no result when more than
    [depth] activations would be open at once. *)
Fixpoint kmalloc_nested (depth : nat) (size : Z) : HM Z :=
  match depth with
  | O => mhalt
  | S depth' =>
      r <- kmalloc_body size ;;
      match r with
      | inr p => mret_ p
      | inl requested_size => kmalloc_nested depth' requested_size
      end
  end.

(** The call and one nested call: that [kmalloc] returns includes that it never
    nests deeper. *)
Definition kmalloc (size : Z) : HM Z := kmalloc_nested 2 size.

Definition kfree (pointer : Z) : HM unit :=
  if pointer =? 0 then mret_ tt
  else
    block <- heap_find_block_for_pointer pointer ;;
    if block =? 0 then stat_mod (fun st => st <| invalid_free_count ::= incr |>)
    else
      used <- block_used block ;;
      if negb used then stat_mod (fun st => st <| double_free_count ::= incr |>)
      else
        set_used block 0 ;;;
        stat_mod (fun st => st <| successful_free_count ::= incr |>) ;;;
        heap_merge_free_blocks ;;;
        heap_recalculate_stats.

Definition heap_validate_pointer (pointer : Z) : HM bool :=
  block <- heap_find_block_for_pointer pointer ;;
  if block =? 0 then mret_ false else block_used block.

Definition heap_is_pointer_allocated (pointer : Z) : HM bool := heap_validate_pointer pointer.

Definition heap_validate_pointer_status (pointer : Z) : HM Z :=
  st <- stats ;;
  if pointer =? 0 then mret_ KERNEL_ERROR_INVALID_ARGUMENT
  else if negb (heap_initialized st) then mret_ KERNEL_ERROR_NOT_INITIALIZED
  else if (pointer <? virtual_start st) || (virtual_end st <=? pointer)
  then mret_ KERNEL_ERROR_INVALID_ARGUMENT
  else
    valid <- heap_validate_pointer pointer ;;
    if negb valid then mret_ KERNEL_ERROR_CORRUPTION_DETECTED
    else
      allocated <- heap_is_pointer_allocated pointer ;;
      if negb allocated then mret_ KERNEL_ERROR_INVALID_STATE else mret_ KERNEL_OK.

(** The body of the block loop of [heap_audit]; [inr] leaves the loop. *)
Definition heap_audit_block (l : Z * Z * Z) : HM (Z * Z * Z + unit) :=
  let '(block, previous_address, visited) := l in
  let stop counter := heap_audit_record_issue counter ;;; mret_ (inr tt) in
  if block =? 0 then mret_ (inr tt)
  else if HEAP_MAX_AUDIT_BLOCKS <=? visited then
    stop (fun i => i <| invalid_next_links ::= incr |>)
  else
    audit_mod (fun i => i <| blocks_seen ::= incr |>) ;;;
    st <- stats ;;
    if negb (heap_address_in_range st block) then stop (fun i => i <| out_of_range_blocks ::= incr |>)
    else
      mwhen (negb (heap_address_is_aligned block))
        (heap_audit_record_issue (fun i => i <| misaligned_blocks ::= incr |>)) ;;;
      magic <- block_magic block ;;
      if negb (magic =? HEAP_BLOCK_MAGIC) then stop (fun i => i <| invalid_magic_blocks ::= incr |>)
      else
        size <- block_size block ;;
        if (size =? 0) || (virtual_end st <? (block [+] heap_header_size [+] size) [-] 1)
        then stop (fun i => i <| invalid_size_blocks ::= incr |>)
        else if negb (previous_address =? 0) && (block <=? previous_address)
        then stop (fun i => i <| invalid_next_links ::= incr |>)
        else
          used <- block_used block ;;
          (if (used : bool)
           then audit_mod (fun i => i <| used_blocks ::= incr |>
                                      <| calculated_used_bytes ::= fun b => b [+] size |>)
           else audit_mod (fun i => i <| free_blocks ::= incr |>
                                      <| calculated_free_bytes ::= fun b => b [+] size |>)) ;;;
          audit_mod (fun i => i <| calculated_total_payload_bytes ::= fun b => b [+] size |>) ;;;
          next <- block_next block ;;
          mret_ (inl (next, block, incr visited)).

Definition heap_audit : HM Z :=
  audit_mod (fun i => i <| heap_audits_run ::= incr |>) ;;;
  heap_clear_audit_snapshot ;;;
  st <- stats ;;
  if negb (heap_initialized st) then
    heap_audit_record_issue (fun i => i <| out_of_range_blocks ::= incr |>) ;;;
    mget (fun s => heap_issues_found (heap_audit_info s))
  else
    head <- mget heap_head ;;
    mloop heap_audit_block (head, 0, 0) ;;;
    mloop (fun address =>
      if negb (address <? next_virtual_page st) then mret_ (inr tt)
      else
        mapped <- on_env (page_is_mapped address) ;;
        mwhen (negb mapped)
          (heap_audit_record_issue (fun i => i <| unmapped_heap_pages ::= incr |>)) ;;;
        mret_ (inl (address [+] PMM_PAGE_SIZE))) (virtual_start st) ;;;
    info <- mget heap_audit_info ;;
    mwhen (negb (calculated_used_bytes info =? used_bytes st))
      (heap_audit_record_issue (fun i => i)) ;;;
    mwhen (negb (calculated_free_bytes info =? free_bytes st))
      (heap_audit_record_issue (fun i => i)) ;;;
    mget (fun s => heap_issues_found (heap_audit_info s)).
End Heap.
