(* ===== verification/HeapBlocks.v ===== *)
(** * The block list of the kernel heap

    The list of blocks that the headers in memory represent, the invariant that
    ties it to the heap's state, and the lemmas by which the operations of
    [Heap] read and update headers. *)
From S2P Require Import Prelude Mem Boot Pmm Vmm Pages Heap.

Definition HS : Z := 0xC1000000.
Definition HE : Z := 0xC2000000.

Record blk := Blk { b_addr : Z; b_size : Z; b_used : bool }.

#[export] Instance blk_eq_dec : EqDecision blk.
Proof. solve_decision. Defined.

Definition b_end (b : blk) : Z := b_addr b + 16 + b_size b.

(** ** Representation in memory *)

Definition header (m : mem) (b : blk) : Prop :=
  load32 m (b_addr b) = HEAP_BLOCK_MAGIC /\ load32 m (b_addr b + 4) = b_size b /\
  negb (load8 m (b_addr b + 8) =? 0) = b_used b.

(** The linked list from [a] that reaches [e] after the blocks [bs]. *)
Fixpoint seg (m : mem) (a : Z) (bs : list blk) (e : Z) : Prop :=
  match bs with
  | [] => a = e
  | b :: bs' => a = b_addr b /\ header m b /\ seg m (load32 m (b_addr b + 12)) bs' e
  end.

(** The blocks cover an address range without gaps. *)
Fixpoint tiles (lo hi : Z) (bs : list blk) : Prop :=
  match bs with
  | [] => lo = hi
  | b :: bs' => b_addr b = lo /\ 0 < b_size b /\ b_size b mod 8 = 0 /\ tiles (b_end b) hi bs'
  end.

Definition start_of (bs : list blk) : Z := match bs with [] => 0 | b :: _ => b_addr b end.

Definition live (bs : list blk) : list blk := filter (fun b => b_used b = true) bs.

(** Client data is untouched. *)
Definition payload_same (bs : list blk) (m m' : mem) : Prop :=
  forall b, b ∈ bs -> agree (fun a => b_addr b + 16 <= a < b_end b) m m'.

Lemma tiles_app lo hi l r :
  tiles lo hi (l ++ r) <-> exists mid, tiles lo mid l /\ tiles mid hi r.
Proof.
  revert lo. induction l as [|b l IH]; intros lo; cbn.
  - split; [intros H; by exists lo|intros (mid & -> & H); done].
  - rewrite IH. split.
    + intros (H1 & H2 & H3 & mid & H4 & H5). exists mid. auto.
    + intros (mid & (H1 & H2 & H3 & H4) & H5). eauto 10.
Qed.

Lemma tiles_le lo hi bs : tiles lo hi bs -> lo <= hi.
Proof.
  revert lo. induction bs as [|b bs IH]; intros lo; cbn; [lia|].
  intros (H1 & H2 & _ & H4). apply IH in H4. unfold b_end in *. lia.
Qed.

Lemma tiles_elem lo hi bs b :
  tiles lo hi bs -> b ∈ bs -> lo <= b_addr b /\ 0 < b_size b /\ b_size b mod 8 = 0 /\ b_end b <= hi.
Proof.
  intros Ht Hb. apply list_elem_of_split in Hb as (l & r & ->).
  apply tiles_app in Ht as (mid & Hl & H1 & H2 & H3 & Hr).
  apply tiles_le in Hl, Hr. unfold b_end in *. lia.
Qed.

Lemma tiles_aligned lo hi bs b :
  lo mod 8 = 0 -> tiles lo hi bs -> b ∈ bs -> b_addr b mod 8 = 0.
Proof.
  revert lo. induction bs as [|c bs IH]; intros lo Hlo Ht Hb; [by apply elem_of_nil in Hb|].
  destruct Ht as (H1 & H2 & H3 & H4). apply elem_of_cons in Hb as [->|Hb]; [by subst|].
  eapply IH; [|exact H4|done]. unfold b_end. rewrite H1. Z.div_mod_to_equations. lia.
Qed.

(** Two blocks of a tiling do not overlap. *)
Lemma tiles_disjoint lo hi l b r c :
  tiles lo hi (l ++ b :: r) -> c ∈ l ++ r -> b_end c <= b_addr b \/ b_end b <= b_addr c.
Proof.
  intros Ht Hc. apply tiles_app in Ht as (mid & Hl & H1 & H2 & H3 & Hr).
  apply elem_of_app in Hc as [Hc|Hc].
  - left. pose proof (tiles_elem _ _ _ _ Hl Hc). lia.
  - right. pose proof (tiles_elem _ _ _ _ Hr Hc). lia.
Qed.

Lemma tiles_nodup lo hi bs : tiles lo hi bs -> NoDup bs.
Proof.
  revert lo. induction bs as [|b bs IH]; intros lo Ht; [constructor|].
  destruct Ht as (H1 & H2 & H3 & Ht). constructor; [|by eapply IH].
  intros Hb. pose proof (tiles_elem _ _ _ _ Ht Hb). unfold b_end in *. lia.
Qed.

Lemma tiles_addr_inj lo hi bs b c :
  tiles lo hi bs -> b ∈ bs -> c ∈ bs -> b_addr b = b_addr c -> b = c.
Proof.
  intros Ht Hb Hc E. destruct (decide (c = b)) as [->|Hne]; [done|].
  pose proof (tiles_elem _ _ _ _ Ht Hb). pose proof (tiles_elem _ _ _ _ Ht Hc).
  apply list_elem_of_split in Hb as (l & r & ->).
  assert (c ∈ l ++ r) as Hc'.
  { apply elem_of_app in Hc as [Hc|Hc]; [apply elem_of_app; by left|].
    apply elem_of_cons in Hc as [->|Hc]; [done|apply elem_of_app; by right]. }
  pose proof (tiles_disjoint _ _ _ _ _ _ Ht Hc'). unfold b_end in *. lia.
Qed.

Lemma seg_app m a l r e : seg m a (l ++ r) e <-> exists mid, seg m a l mid /\ seg m mid r e.
Proof.
  revert a. induction l as [|b l IH]; intros a; cbn.
  - split; [intros H; by exists a|intros (mid & -> & H); done].
  - rewrite IH. split.
    + intros (H1 & H2 & mid & H3 & H4). exists mid. auto.
    + intros (mid & (H1 & H2 & H3) & H4). eauto 10.
Qed.

Lemma seg_start m a bs : seg m a bs 0 -> a = start_of bs.
Proof. destruct bs; cbn; [done|tauto]. Qed.

Lemma header_agree m m' b :
  agree (fun a => b_addr b <= a < b_addr b + 16) m m' -> header m b -> header m' b.
Proof.
  intros Ha (H1 & H2 & H3). unfold header.
  rewrite <- (load32_agree _ m m' (b_addr b) Ha), <- (load32_agree _ m m' (b_addr b + 4) Ha)
    by (cbn; lia).
  rewrite <- (Ha (b_addr b + 8)) by lia. done.
Qed.

Lemma seg_agree m m' a bs e :
  (forall b, b ∈ bs -> agree (fun x => b_addr b <= x < b_addr b + 16) m m') ->
  seg m a bs e -> seg m' a bs e.
Proof.
  revert a. induction bs as [|b bs IH]; intros a Hag; [done|]. cbn.
  intros (H1 & H2 & H3). assert (agree (fun x => b_addr b <= x < b_addr b + 16) m m') as Hb
    by (apply Hag; by left).
  split; [done|]. split; [by eapply header_agree|].
  rewrite <- (load32_agree _ m m' (b_addr b + 12) Hb) by (cbn; lia).
  apply IH; [|done]. intros c Hc. apply Hag. by right.
Qed.

(** Replacing one block, when memory changed only inside its range. *)
Lemma seg_replace m m' lo hi a l b r bs' :
  tiles lo hi (l ++ b :: r) -> seg m a (l ++ b :: r) 0 ->
  agree (fun x => x < b_addr b \/ b_end b <= x) m m' ->
  (seg m' (start_of r) r 0 -> seg m' (b_addr b) bs' 0) ->
  seg m' a (l ++ bs') 0.
Proof.
  intros Ht Hs Hag Hnew. apply seg_app in Hs as (mid & Hl & -> & Hh & Hr).
  assert (forall c, c ∈ l ++ r -> agree (fun x => b_addr c <= x < b_addr c + 16) m m') as Hc.
  { intros c Hc. eapply agree_weaken; [|exact Hag]. cbn. intros x Hx.
    pose proof (tiles_disjoint _ _ _ _ _ _ Ht Hc) as Hd.
    assert (0 < b_size c).
    { eapply (tiles_elem _ _ _ c Ht). apply elem_of_app in Hc as [Hc|Hc];
        apply elem_of_app; [by left|right; by right]. }
    unfold b_end in *. lia. }
  apply seg_app. exists (b_addr b). split.
  - eapply seg_agree; [|exact Hl]. intros c Hin. apply Hc, elem_of_app. by left.
  - apply Hnew. rewrite (seg_start _ _ _ Hr) in Hr. eapply seg_agree; [|exact Hr].
    intros c Hin. apply Hc, elem_of_app. by right.
Qed.

(** Clients keep their data when memory changed only inside a free block or in
    headers. *)
Lemma payload_same_outside lo hi l b r m m' :
  tiles lo hi (l ++ b :: r) -> b_used b = false ->
  agree (fun x => x < b_addr b \/ b_end b <= x) m m' -> payload_same (live (l ++ b :: r)) m m'.
Proof.
  intros Ht Hf Hag c Hc. apply list_elem_of_filter in Hc as [Hu Hc].
  eapply agree_weaken; [|exact Hag]. cbn. intros x Hx.
  assert (c ∈ l ++ r) as Hc'.
  { apply elem_of_app in Hc as [Hc|Hc]; [apply elem_of_app; by left|].
    apply elem_of_cons in Hc as [->|Hc]; [congruence|apply elem_of_app; by right]. }
  pose proof (tiles_disjoint _ _ _ _ _ _ Ht Hc'). unfold b_end in *. lia.
Qed.

Lemma payload_same_header lo hi l b r m m' :
  tiles lo hi (l ++ b :: r) ->
  agree (fun x => x < b_addr b \/ b_addr b + 16 <= x) m m' -> payload_same (l ++ b :: r) m m'.
Proof.
  intros Ht Hag c Hc. eapply agree_weaken; [|exact Hag]. cbn. intros x Hx.
  destruct (decide (c = b)) as [->|Hne]; [lia|].
  assert (c ∈ l ++ r) as Hc'.
  { apply elem_of_app in Hc as [Hc|Hc]; [apply elem_of_app; by left|].
    apply elem_of_cons in Hc as [->|Hc]; [done|apply elem_of_app; by right]. }
  pose proof (tiles_disjoint _ _ _ _ _ _ Ht Hc').
  assert (b ∈ l ++ b :: r) as Hb by (apply elem_of_app; right; by left).
  pose proof (tiles_elem _ _ _ _ Ht Hb). unfold b_end in *. lia.
Qed.

Lemma payload_same_trans bs m1 m2 m3 :
  payload_same bs m1 m2 -> payload_same bs m2 m3 -> payload_same bs m1 m3.
Proof. intros H1 H2 b Hb. etrans; [by apply H1|by apply H2]. Qed.

Lemma payload_same_sub bs bs' m m' :
  (forall b, b ∈ bs' -> b ∈ bs) -> payload_same bs m m' -> payload_same bs' m m'.
Proof. intros Hsub H b Hb. apply H, Hsub, Hb. Qed.

Lemma live_app l r : live (l ++ r) = live l ++ live r.
Proof. apply filter_app. Qed.

Lemma live_elem b bs : b ∈ live bs <-> b_used b = true /\ b ∈ bs.
Proof. unfold live. by rewrite list_elem_of_filter. Qed.

(** ** Sums over the blocks *)

Fixpoint sum_sizes (p : blk -> bool) (bs : list blk) : Z :=
  match bs with [] => 0 | b :: bs' => (if p b then b_size b else 0) + sum_sizes p bs' end.

Lemma sum_sizes_app p l r : sum_sizes p (l ++ r) = sum_sizes p l + sum_sizes p r.
Proof. induction l as [|b l IH]; cbn [sum_sizes app]; lia. Qed.

Lemma sum_sizes_bound p lo hi bs :
  tiles lo hi bs -> 0 <= sum_sizes p bs /\ sum_sizes p bs + 16 * Z.of_nat (length bs) <= hi - lo.
Proof.
  revert lo. induction bs as [|b bs IH]; intros lo; cbn [tiles sum_sizes length].
  - lia.
  - intros (H1 & H2 & _ & H4). apply IH in H4. unfold b_end in H4. destruct (p b); lia.
Qed.

Lemma tiles_length lo hi bs : tiles lo hi bs -> 16 * Z.of_nat (length bs) <= hi - lo.
Proof. intros Ht. pose proof (sum_sizes_bound (fun _ => false) _ _ _ Ht). lia. Qed.

(** All bytes are accounted for: payload, and one header per block. *)
Lemma tiles_total lo hi bs :
  tiles lo hi bs ->
  sum_sizes b_used bs + sum_sizes (fun b => negb (b_used b)) bs + 16 * Z.of_nat (length bs) = hi - lo.
Proof.
  revert lo. induction bs as [|b bs IH]; intros lo; cbn [tiles sum_sizes length]; [lia|].
  intros (H1 & H2 & _ & H4). apply IH in H4. unfold b_end in H4. destruct (b_used b); cbn [negb]; lia.
Qed.

(** ** The invariant *)

Section Invariant.
Context {E : Type} `{PageProviderLaws E}.

(** The heap's pages are mapped to distinct frames that the heap owns. *)
Record env_ok (e : E) (next : Z) : Prop := {
  eo_inv : pp_inv e;
  eo_frames : exists fs, NoDup fs /\ next = HS + 4096 * Z.of_nat (length fs) /\
    forall i f, fs !! i = Some f ->
      pp_owned e f /\ page_frame e (HS + 4096 * Z.of_nat i) = Some f
}.

Record heap_ok (bs : list blk) (s : heap_state E) : Prop := {
  ho_start : virtual_start (heap_stats s) = HS;
  ho_end : virtual_end (heap_stats s) = HE - 1;
  ho_next : next_virtual_page (heap_stats s) <= HE;
  ho_env : env_ok (heap_env s) (next_virtual_page (heap_stats s));
  ho_tiles : tiles HS (next_virtual_page (heap_stats s)) bs;
  ho_seg : seg (heap_mem s) (heap_head s) bs 0;
  ho_total : total_bytes (heap_stats s) = next_virtual_page (heap_stats s) - HS /\
    total_pages (heap_stats s) = (next_virtual_page (heap_stats s) - HS) / 4096
}.

(** What the heap reports: sums over the blocks it visits. *)
Definition recalc_of (bs : list blk) : recalc := {|
  rc_used := sum_sizes b_used bs;
  rc_free := sum_sizes (fun b => negb (b_used b)) bs;
  rc_allocs := count_if b_used bs;
  rc_frees := count_if (fun b => negb (b_used b)) bs |}.

Definition visited_blocks (bs : list blk) : list blk := take 4096 bs.

Definition heap_stats_ok (bs : list blk) (s : heap_state E) : Prop :=
  let r := recalc_of (visited_blocks bs) in
  used_bytes (heap_stats s) = rc_used r /\ free_bytes (heap_stats s) = rc_free r /\
  allocation_count (heap_stats s) = rc_allocs r /\ free_block_count (heap_stats s) = rc_frees r.

(** The part of the state a block operation may rely on. *)
Record arena (s : heap_state E) : Prop := {
  ar_start : virtual_start (heap_stats s) = HS;
  ar_end : virtual_end (heap_stats s) = HE - 1;
  ar_next : next_virtual_page (heap_stats s) <= HE;
  ar_mapped : forall a, HS <= a < next_virtual_page (heap_stats s) -> mapped_at s a = true
}.

Lemma env_mapped (e : E) next a :
  env_ok e next -> HS <= a < next -> is_Some (page_frame e a).
Proof.
  intros [_ (fs & _ & -> & Hfs)] Ha.
  destruct (lookup_lt_is_Some_2 fs (Z.to_nat ((a - HS) / 4096))) as [f Hf].
  { unfold HS in *. Z.div_mod_to_equations. lia. }
  destruct (Hfs _ _ Hf) as [_ Hfr]. exists f. rewrite <- Hfr. apply pp_frame_page.
  unfold HS in *. rewrite Z2Nat.id; Z.div_mod_to_equations; lia.
Qed.

Lemma heap_ok_arena bs s : heap_ok bs s -> arena s.
Proof.
  intros Hok. constructor; try apply Hok. intros a Ha. unfold mapped_at.
  apply bool_decide_eq_true_2. eapply env_mapped; [apply Hok|done].
Qed.

Lemma next_page_bounds bs s :
  heap_ok bs s -> HS <= next_virtual_page (heap_stats s) <= HE /\
  next_virtual_page (heap_stats s) mod 4096 = 0.
Proof.
  intros Hok. destruct (eo_frames _ _ (ho_env _ _ Hok)) as (fs & _ & Efs & _).
  pose proof (ho_next _ _ Hok). unfold HS, HE in *. Z.div_mod_to_equations. lia.
Qed.

(** ** Reading a header *)

(** A block of the arena whose header is intact. *)
Record good (s : heap_state E) (b : blk) : Prop := {
  gd_arena : arena s;
  gd_header : header (heap_mem s) b;
  gd_bounds : HS <= b_addr b /\ b_end b <= next_virtual_page (heap_stats s);
  gd_size : 0 < b_size b /\ b_size b mod 8 = 0;
  gd_aligned : b_addr b mod 8 = 0
}.

Lemma wp_hread32 a (Q : Z -> heap_state E -> Prop) s :
  mapped_at s a = true -> Q (load32 (heap_mem s) a) s -> wp (hread32 a) Q s.
Proof. intros Hm HQ. eexists _, _. split; [|exact HQ]. unfold hread32. by rewrite Hm. Qed.

Lemma wp_hwrite32 a v (Q : unit -> heap_state E -> Prop) s :
  mapped_at s a = true -> Q tt (s <| heap_mem ::= store32 a v |>) -> wp (hwrite32 a v) Q s.
Proof. intros Hm HQ. eexists _, _. split; [|exact HQ]. unfold hwrite32. by rewrite Hm. Qed.

Lemma wp_hwrite8 a v (Q : unit -> heap_state E -> Prop) s :
  mapped_at s a = true -> Q tt (s <| heap_mem ::= store8 a v |>) -> wp (hwrite8 a v) Q s.
Proof. intros Hm HQ. eexists _, _. split; [|exact HQ]. unfold hwrite8. by rewrite Hm. Qed.

Section Reads.
Context (s : heap_state E) (b : blk).
Hypothesis Hg : good s b.

Lemma good_mapped a : b_addr b <= a < b_end b -> mapped_at s a = true.
Proof using Hg.
  intros Ha. pose proof (gd_bounds _ _ Hg). apply (ar_mapped _ (gd_arena _ _ Hg)). lia.
Qed.

Lemma good_range : HS <= b_addr b /\ b_end b <= HE.
Proof using Hg. pose proof (gd_bounds _ _ Hg). pose proof (ar_next _ (gd_arena _ _ Hg)). lia. Qed.

Ltac mapped := apply good_mapped; pose proof (gd_size _ _ Hg);
  unfold b_end, off_size, off_used, off_next; lia.

Lemma wp_block_size Q : Q (b_size b) s -> wp (block_size (b_addr b)) Q s.
Proof using Hg.
  intros HQ. apply wp_hread32; [mapped|]. destruct (gd_header _ _ Hg) as (_ & E2 & _).
  unfold off_size. by rewrite E2.
Qed.

Lemma wp_block_used Q : Q (b_used b) s -> wp (block_used (b_addr b)) Q s.
Proof using Hg.
  intros HQ. apply wp_bind. eexists _, _. split.
  { unfold hread8. assert (mapped_at s (b_addr b + off_used) = true) as -> by mapped. reflexivity. }
  apply wp_ret. destruct (gd_header _ _ Hg) as (_ & _ & E3). unfold off_used. by rewrite E3.
Qed.

Lemma wp_block_next Q :
  Q (load32 (heap_mem s) (b_addr b + 12)) s -> wp (block_next (b_addr b)) Q s.
Proof using Hg. intros HQ. apply wp_hread32; [mapped|done]. Qed.

Lemma wp_sane Q : Q true s -> wp (heap_block_header_is_sane (b_addr b)) Q s.
Proof using Hg.
  intros HQ. pose proof good_range as Hr. pose proof (gd_size _ _ Hg) as [Hsz _].
  destruct (gd_header _ _ Hg) as (E1 & E2 & _).
  unfold heap_block_header_is_sane. unfold b_end in Hr.
  rewrite (proj2 (Z.eqb_neq _ _)) by (unfold HS in *; lia).
  apply wp_bind, wp_get. unfold heap_address_in_range, heap_address_is_aligned.
  rewrite (ar_start _ (gd_arena _ _ Hg)), (ar_end _ (gd_arena _ _ Hg)). unfold HS, HE in *.
  zbool. cbn [andb negb].
  assert (Z.land (b_addr b) (HEAP_ALIGNMENT - 1) = b_addr b mod 8) as ->
    by (apply (land_low_mask _ 3); lia).
  rewrite (gd_aligned _ _ Hg). cbn [negb Z.eqb].
  apply wp_bind, wp_hread32; [mapped|]. rewrite E1. cbn [negb Z.eqb Pos.eqb HEAP_BLOCK_MAGIC].
  apply wp_bind, wp_block_size. rewrite (proj2 (Z.eqb_neq _ _)) by lia.
  change heap_header_size with 16.
  rewrite !(u32_small (b_addr b + 16)), !(u32_small (b_addr b + 16 + b_size b)),
    !(u32_small (b_addr b + 16 + b_size b - 1)) by (unfold is_u32; lia).
  zbool. by apply wp_ret.
Qed.
End Reads.

Lemma heap_ok_good bs s b : heap_ok bs s -> b ∈ bs -> good s b.
Proof.
  intros Hok Hb. pose proof (tiles_elem _ _ _ _ (ho_tiles _ _ Hok) Hb) as (H1 & H2 & H3 & H4).
  constructor.
  - by eapply heap_ok_arena.
  - apply list_elem_of_split in Hb as (l & r & ->).
    pose proof (ho_seg _ _ Hok) as Hs. apply seg_app in Hs as (mid & _ & -> & Hh & _). done.
  - done.
  - done.
  - eapply tiles_aligned; [|apply Hok|done]. done.
Qed.

(** The link field of a block inside the list. *)
Lemma heap_ok_next l b r s :
  heap_ok (l ++ b :: r) s -> load32 (heap_mem s) (b_addr b + 12) = start_of r.
Proof.
  intros Hok. pose proof (ho_seg _ _ Hok) as Hs.
  apply seg_app in Hs as (mid & _ & -> & _ & Hr). by apply seg_start in Hr.
Qed.

Lemma heap_ok_addr bs s b : heap_ok bs s -> b ∈ bs -> b_addr b <> 0.
Proof.
  intros Hok Hb. pose proof (tiles_elem _ _ _ _ (ho_tiles _ _ Hok) Hb). unfold HS in *. lia.
Qed.

Lemma heap_ok_head bs s : heap_ok bs s -> heap_head s = start_of bs.
Proof. intros Hok. eapply seg_start. apply Hok. Qed.

Lemma heap_ok_length bs s : heap_ok bs s -> Z.of_nat (length bs) <= 1048576.
Proof.
  intros Hok. pose proof (tiles_length _ _ _ (ho_tiles _ _ Hok)).
  pose proof (ho_next _ _ Hok). unfold HS, HE in *. lia.
Qed.

(** Statistics and audit records do not matter to the invariant. *)
Lemma heap_ok_stats bs s s' :
  heap_ok bs s -> heap_env s' = heap_env s -> heap_mem s' = heap_mem s -> heap_head s' = heap_head s ->
  virtual_start (heap_stats s') = virtual_start (heap_stats s) ->
  virtual_end (heap_stats s') = virtual_end (heap_stats s) ->
  next_virtual_page (heap_stats s') = next_virtual_page (heap_stats s) ->
  total_bytes (heap_stats s') = total_bytes (heap_stats s) ->
  total_pages (heap_stats s') = total_pages (heap_stats s) -> heap_ok bs s'.
Proof.
  intros [H1 H2 H3 H4 H5 H6 H7] E1 E2 E3 E4 E5 E6 E7 E8.
  constructor; rewrite ?E1, ?E2, ?E3, ?E4, ?E5, ?E6, ?E7, ?E8; done.
Qed.

(** A change of memory and of the blocks. *)
Lemma heap_ok_mem bs bs' s m' :
  heap_ok bs s -> tiles HS (next_virtual_page (heap_stats s)) bs' ->
  seg m' (heap_head s) bs' 0 -> heap_ok bs' (s <| heap_mem := m' |>).
Proof. intros [H1 H2 H3 H4 H5 H6 H7] Ht Hs. constructor; done. Qed.
End Invariant.
