(* ===== verification/HeapProofs.v ===== *)
(** * Correctness of the kernel heap

    The functional behaviour of every routine of [Heap] on a heap that satisfies
    [heap_ok]: what it returns, which blocks it leaves, and that client data is
    untouched. *)
From S2P Require Import Prelude Mem Boot Pmm Vmm Pages Heap HeapBlocks.

Section Operations.
Context {E : Type} `{PageProviderLaws E}.
Implicit Types (s : heap_state E) (bs l r : list blk) (b : blk).

(** ** Traversals *)

(** The position of a traversal: [l] is behind the pointer. *)
Definition at_block bs (l r : list blk) (block visited : Z) : Prop :=
  bs = l ++ r /\ block = start_of r /\ visited = Z.of_nat (length l) /\ visited <= 4096.

Lemma at_block_step bs l b r block visited :
  at_block bs l (b :: r) block visited -> visited < 4096 ->
  at_block bs (l ++ [b]) r (start_of r) (incr visited).
Proof.
  intros (-> & _ & -> & Hv) Hlt. unfold at_block.
  rewrite <- app_assoc, length_app. cbn. rewrite incr_small by lia. lia || split_and!; try done; lia.
Qed.

Lemma at_block_done bs l r block visited :
  at_block bs l r block visited -> r = [] \/ visited = 4096 -> l = visited_blocks bs.
Proof.
  intros (-> & _ & -> & Hv) [->|Hfull]; unfold visited_blocks.
  - rewrite app_nil_r. symmetry. apply take_ge. lia.
  - rewrite take_app_le by lia. symmetry. apply take_ge. lia.
Qed.

(** The loop condition [block != 0 && visited < HEAP_MAX_AUDIT_BLOCKS]. *)
Lemma loop_cond bs s l r block visited :
  heap_ok bs s -> at_block bs l r block visited ->
  negb (negb (block =? 0) && (visited <? HEAP_MAX_AUDIT_BLOCKS)) = false ->
  exists b r', r = b :: r' /\ block = b_addr b /\ visited < 4096.
Proof.
  intros Hok (-> & -> & Hv & _) Hc. unfold HEAP_MAX_AUDIT_BLOCKS in Hc. bool_simpl.
  destruct r as [|b r']; [done|]. eexists _, _. split; [done|]. split; [done|lia].
Qed.

Lemma loop_cond_exit bs s l r block visited :
  heap_ok bs s -> at_block bs l r block visited ->
  negb (negb (block =? 0) && (visited <? HEAP_MAX_AUDIT_BLOCKS)) = true ->
  l = visited_blocks bs.
Proof.
  intros Hok Hat Hc. eapply at_block_done; [exact Hat|].
  destruct Hat as (-> & -> & -> & Hle). unfold HEAP_MAX_AUDIT_BLOCKS in Hc.
  destruct r as [|b r']; [by left|]. right. cbn in Hc.
  rewrite (proj2 (Z.eqb_neq (b_addr b) 0)) in Hc.
  - cbn in Hc. bool_simpl. lia.
  - eapply heap_ok_addr; [exact Hok|]. apply elem_of_app. right. by left.
Qed.

Lemma elem_middle l b r : b ∈ l ++ b :: r.
Proof. apply elem_of_app. right. by left. Qed.

Lemma recalc_step bs s l b r :
  heap_ok bs s -> bs = l ++ b :: r ->
  (if b_used b
   then {| rc_used := rc_used (recalc_of l) [+] b_size b; rc_free := rc_free (recalc_of l);
           rc_allocs := incr (rc_allocs (recalc_of l)); rc_frees := rc_frees (recalc_of l) |}
   else {| rc_used := rc_used (recalc_of l); rc_free := rc_free (recalc_of l) [+] b_size b;
           rc_allocs := rc_allocs (recalc_of l); rc_frees := incr (rc_frees (recalc_of l)) |})
  = recalc_of (l ++ [b]).
Proof.
  intros Hok ->. pose proof (ho_tiles _ _ Hok) as Ht. pose proof (ho_next _ _ Hok) as Hn.
  rewrite cons_middle, app_assoc in Ht. apply tiles_app in Ht as (mid & Ht & Htr).
  apply tiles_le in Htr.
  pose proof (sum_sizes_bound b_used _ _ _ Ht) as Hu.
  pose proof (sum_sizes_bound (fun b => negb (b_used b)) _ _ _ Ht) as Hf.
  pose proof (count_if_bound b_used l). pose proof (count_if_bound (fun b => negb (b_used b)) l).
  apply tiles_app in Ht as (mid' & Htl & _).
  pose proof (sum_sizes_bound b_used _ _ _ Htl). 
  pose proof (sum_sizes_bound (fun b => negb (b_used b)) _ _ _ Htl).
  rewrite !sum_sizes_app, length_app in Hu, Hf. unfold recalc_of, HS, HE in *.
  rewrite !sum_sizes_app, !count_if_app. cbn [sum_sizes count_if length] in *.
  destruct (b_used b); cbn [negb rc_used rc_free rc_allocs rc_frees] in *;
    rewrite incr_small, u32_small by (unfold is_u32; lia); f_equal; lia.
Qed.

Definition with_stats s bs : heap_state E :=
  s <| heap_stats ::= fun st =>
    st <| used_bytes := rc_used (recalc_of (visited_blocks bs)) |>
       <| free_bytes := rc_free (recalc_of (visited_blocks bs)) |>
       <| allocation_count := rc_allocs (recalc_of (visited_blocks bs)) |>
       <| free_block_count := rc_frees (recalc_of (visited_blocks bs)) |> |>.

Lemma recalculate_ok bs s (Q : unit -> heap_state E -> Prop) :
  heap_ok bs s -> Q tt (with_stats s bs) -> wp heap_recalculate_stats Q s.
Proof.
  intros Hok HQ. unfold heap_recalculate_stats. apply wp_bind, wp_get, wp_bind.
  apply (wp_loop _
    (fun '(block, visited, rc) s' => s' = s /\
       exists l r, at_block bs l r block visited /\ rc = recalc_of l)
    (fun '(_, visited, _) _ => 4096 - visited)).
  - intros [[block visited] rc] s' (-> & l & r & Hat & ->).
    destruct (negb _) eqn:Hc.
    + apply wp_ret, wp_mod. rewrite (loop_cond_exit _ _ _ _ _ _ Hok Hat Hc). exact HQ.
    + destruct (loop_cond _ _ _ _ _ _ Hok Hat Hc) as (b & r' & -> & -> & Hlt).
      pose proof Hat as (Ebs & _ & Ev & _). subst bs.
      pose proof (heap_ok_good _ _ b Hok (elem_middle l b r')) as Hg.
      apply wp_bind, (wp_sane _ b Hg). cbn [negb].
      apply wp_bind, (wp_block_used _ b Hg), wp_bind, (wp_block_size _ b Hg), wp_bind,
        (wp_block_next _ b Hg), wp_ret.
      rewrite (heap_ok_next _ _ _ _ Hok), (recalc_step _ _ _ _ _ Hok eq_refl).
      pose proof (at_block_step _ _ _ _ _ _ Hat Hlt) as Hat'.
      split; [split; [done|by eexists _, _]|]. destruct Hat' as (_ & _ & _ & Hle).
      rewrite incr_small in * by lia. lia.
  - split; [done|]. exists [], bs. split; [|done]. split; [done|].
    split; [by eapply heap_ok_head|]. done.
  - lia.
Qed.

Lemma with_stats_ok bs s :
  heap_ok bs s -> heap_ok bs (with_stats s bs) /\ heap_stats_ok bs (with_stats s bs).
Proof. intros Hok. split; [by eapply heap_ok_stats|]. done. Qed.

(** [heap_find_last_block] only needs the list to be mapped. *)
Lemma find_last_ok l b hi s (Q : Z -> heap_state E -> Prop) :
  tiles HS hi (l ++ [b]) -> hi <= HE -> seg (heap_mem s) (heap_head s) (l ++ [b]) 0 ->
  (forall a, HS <= a < hi -> mapped_at s a = true) ->
  Q (b_addr b) s -> wp heap_find_last_block Q s.
Proof.
  intros Ht Hhi Hseg Hmap HQ. unfold heap_find_last_block. apply wp_bind, wp_get.
  assert (Helem : forall c, c ∈ l ++ [b] -> HS <= b_addr c /\ 0 < b_size c /\ b_end c <= hi).
  { intros c Hc. pose proof (tiles_elem _ _ _ _ Ht Hc). tauto. }
  assert (exists c r, l ++ [b] = c :: r) as (c0 & r0 & E0) by (destruct l; eauto).
  assert (heap_head s = b_addr c0) as Hhead by (apply seg_start in Hseg; by rewrite E0 in Hseg).
  assert (HS <= b_addr c0) as Hc0 by (apply Helem; rewrite E0; by left).
  unfold HS, HE in *. rewrite (proj2 (Z.eqb_neq _ _)) by lia.
  apply (wp_loop _
    (fun block s' => s' = s /\ exists l' c r, l ++ [b] = l' ++ c :: r /\ block = b_addr c)
    (fun block _ => 0xC2000000 - block)).
  - intros block s' (-> & l' & c & r & Ebs & ->).
    assert (c ∈ l ++ [b]) as Hc by (rewrite Ebs; apply elem_middle).
    destruct (Helem c Hc) as (H1 & H2 & H3). unfold b_end in H3.
    apply wp_bind, wp_hread32; [apply Hmap; unfold off_next; lia|]. unfold off_next.
    rewrite Ebs in Hseg, Ht. apply seg_app in Hseg as (mid & _ & -> & _ & Hr).
    rewrite (seg_start _ _ _ Hr). apply tiles_app in Ht as (mid & _ & _ & _ & _ & Ht).
    destruct r as [|c' r].
    + cbn. apply wp_ret. apply app_inj_tail in Ebs as [-> <-]. done.
    + assert (c' ∈ l ++ [b]) as Hc' by (rewrite Ebs; apply elem_of_app; right; right; by left).
      destruct (Helem c' Hc') as (H1' & H2' & H3'). cbn [start_of]. unfold b_end in H3'.
      rewrite (proj2 (Z.eqb_neq _ _)) by lia. cbn [negb]. apply wp_ret. split.
      * split; [done|]. exists (l' ++ [c]), c', r. by rewrite Ebs, <- app_assoc.
      * destruct Ht as (Et & _). unfold b_end in *. lia.
  - split; [done|]. rewrite Hhead, E0. by exists [], c0, r0.
  - lia.
Qed.

(** The block whose payload starts at a pointer, among those visited. *)
Definition find_ptr (p : Z) (bs : list blk) : option blk :=
  list_find (fun b => b_addr b + 16 = p) (visited_blocks bs) ≫= fun ib => Some ib.2.

Lemma find_block_ok bs s p (Q : Z -> heap_state E -> Prop) :
  heap_ok bs s -> heap_initialized (heap_stats s) = true -> is_u32 p ->
  match find_ptr p bs with Some b => Q (b_addr b) s | None => Q 0 s end ->
  wp (heap_find_block_for_pointer p) Q s.
Proof.
  intros Hok Hini Hp HQ. unfold heap_find_block_for_pointer. apply wp_bind, wp_get.
  rewrite Hini, orb_false_r.
  assert (Hnone : (p = 0 \/ heap_payload_address_in_range (heap_stats s) p = false) -> find_ptr p bs = None).
  { intros Hbad. unfold find_ptr. destruct (list_find _ _) as [[i b]|] eqn:Ef; [|done].
    apply list_find_Some in Ef as (Hi & Hb & _).
    apply lookup_take_Some in Hi as [Hi _]. apply list_elem_of_lookup_2 in Hi.
    pose proof (good_range _ _ (heap_ok_good _ _ _ Hok Hi)) as Hr.
    pose proof (gd_size _ _ (heap_ok_good _ _ _ Hok Hi)).
    unfold heap_payload_address_in_range in Hbad. change heap_header_size with 16 in Hbad.
    rewrite (ho_start _ _ Hok), (ho_end _ _ Hok) in Hbad. unfold b_end, HS, HE in *. 
    destruct Hbad as [->|Hbad]; [lia|]. rewrite u32_small in Hbad by (unfold is_u32; lia).
    bool_simpl. destruct Hbad; bool_simpl; lia. }
  destruct (Z.eqb_spec p 0) as [->|Hp0]; [rewrite Hnone in HQ by auto; by apply wp_ret|].
  destruct (heap_payload_address_in_range _ _) eqn:Hin; cbn [negb];
    [|rewrite Hnone in HQ by auto; by apply wp_ret].
  apply wp_bind, wp_get. clear Hnone.
  apply (wp_loop _
    (fun '(block, visited) s' => s' = s /\
       exists l r, at_block bs l r block visited /\ Forall (fun b => b_addr b + 16 <> p) l)
    (fun '(_, visited) _ => 4096 - visited)).
  - intros [block visited] s' (-> & l & r & Hat & Hno).
    destruct (negb _) eqn:Hc.
    + apply wp_ret. unfold find_ptr in HQ. rewrite <- (loop_cond_exit _ _ _ _ _ _ Hok Hat Hc) in HQ.
      assert (list_find (fun b => b_addr b + 16 = p) l = None) as Ef.
      { apply list_find_None. eapply Forall_impl; [exact Hno|]. done. }
      by rewrite Ef in HQ.
    + destruct (loop_cond _ _ _ _ _ _ Hok Hat Hc) as (b & r' & -> & -> & Hlt).
      pose proof Hat as (Ebs & _ & Ev & _). rewrite Ebs in Hok.
      pose proof (heap_ok_good _ _ b Hok (elem_middle l b r')) as Hg.
      apply wp_bind, (wp_sane _ b Hg). cbn [negb]. change heap_header_size with 16.
      pose proof (good_range _ _ Hg). pose proof (gd_size _ _ Hg). unfold b_end, HS, HE in *.
      rewrite u32_small by (unfold is_u32; lia).
      destruct (Z.eqb_spec (b_addr b + 16) p) as [Eb|Nb].
      * apply wp_ret. unfold find_ptr, visited_blocks in HQ. rewrite Ebs in HQ.
        assert (list_find (fun b => b_addr b + 16 = p) (take 4096 (l ++ b :: r')) = Some (length l, b)) as Ef.
        { apply list_find_Some. split_and!; [|done|].
          - rewrite lookup_take_lt by lia. by rewrite list_lookup_middle.
          - intros j c Hj Hlt'. rewrite lookup_take_lt, lookup_app_l in Hj by lia.
            by eapply Forall_lookup_1 in Hno. }
        by rewrite Ef in HQ.
      * apply wp_bind, (wp_block_next _ b Hg), wp_ret. rewrite (heap_ok_next _ _ _ _ Hok).
        pose proof (at_block_step _ _ _ _ _ _ Hat Hlt) as Hat'.
        split; [split; [done|]|].
        -- eexists _, _. split; [exact Hat'|]. apply Forall_app. split; [done|by constructor].
        -- destruct Hat' as (_ & _ & _ & Hle). rewrite incr_small in * by lia. lia.
  - split; [done|]. exists [], bs. split; [|constructor]. split; [done|].
    split; [by eapply heap_ok_head|]. done.
  - lia.
Qed.

(** ** Splitting *)

(** Building a header from scratch. *)
Lemma initialize_block_ok s a size (Q : unit -> heap_state E -> Prop) :
  (forall x, a <= x < a + 16 -> mapped_at s x = true) -> is_u32 size ->
  (forall m', header m' (Blk a size false) -> load32 m' (a + 12) = 0 ->
     agree (fun x => x < a \/ a + 16 <= x) (heap_mem s) m' -> Q tt (s <| heap_mem := m' |>)) ->
  wp (heap_initialize_block a size) Q s.
Proof.
  intros Hm Hsz HQ. unfold heap_initialize_block, set_size, set_used, set_next, off_size, off_used, off_next.
  apply wp_bind, wp_hwrite32; [apply Hm; lia|].
  apply wp_bind, wp_hwrite32; [apply (Hm (a + 4)); lia|].
  apply wp_bind, wp_hwrite8; [apply (Hm (a + 8)); lia|].
  apply wp_hwrite32; [apply (Hm (a + 12)); lia|].
  set (m' := store32 (a + 12) 0 (store8 (a + 8) 0 (store32 (a + 4) size
               (store32 a HEAP_BLOCK_MAGIC (heap_mem s))))).
  apply (HQ m').
  - subst m'. unfold header; cbn. split_and!.
    + rewrite load32_store32_ne, load8_store8_word_ne, load32_store32_ne, load32_store32_eq by lia.
      done.
    + rewrite load32_store32_ne, load8_store8_word_ne, load32_store32_eq by lia. by apply u32_small.
    + rewrite load8_store32_ne, load8_store8_eq by lia. done.
  - subst m'. apply load32_store32_eq.
  - subst m'. intros x Hx. rewrite load8_store32_ne, load8_store8_ne, !load8_store32_ne by lia. done.
Qed.

(** The blocks [heap_split_block] leaves in place of [b]. *)
Definition split_blk b (n : Z) : list blk :=
  if b_size b <=? n + 32 then [b]
  else [Blk (b_addr b) n (b_used b); Blk (b_addr b + 16 + n) (b_size b - n - 16) false].

Lemma split_tiles b n hi r :
  0 < n -> n mod 8 = 0 -> 0 < b_size b -> b_size b mod 8 = 0 -> tiles (b_end b) hi r ->
  tiles (b_addr b) hi (split_blk b n ++ r).
Proof.
  intros Hn Hn8 Hb Hb8 Hr. unfold split_blk. destruct (Z.leb_spec (b_size b) (n + 32)); cbn.
  - done.
  - unfold b_end in *. cbn. split_and!; try done; try lia.
    + Z.div_mod_to_equations. lia.
    + by replace (b_addr b + 16 + n + 16 + (b_size b - n - 16)) with (b_addr b + 16 + b_size b) by lia.
Qed.

Lemma split_ok l b r s n (Q : unit -> heap_state E -> Prop) :
  heap_ok (l ++ b :: r) s -> b_used b = false -> 0 < n <= b_size b -> n mod 8 = 0 ->
  (forall m', heap_ok (l ++ split_blk b n ++ r) (s <| heap_mem := m' |>) ->
     agree (fun x => x < b_addr b \/ b_end b <= x) (heap_mem s) m' -> Q tt (s <| heap_mem := m' |>)) ->
  wp (heap_split_block (b_addr b) n) Q s.
Proof.
  intros Hok Hfree Hn Hn8 HQ. pose proof (heap_ok_good _ _ b Hok (elem_middle l b r)) as Hg.
  pose proof (good_range _ _ Hg) as Hr. pose proof (gd_size _ _ Hg) as [Hsz Hsz8].
  unfold heap_split_block. apply wp_bind, (wp_sane _ b Hg). cbn [negb].
  apply wp_bind, (wp_block_size _ b Hg). change heap_header_size with 16. unfold HEAP_MIN_SPLIT_SIZE.
  unfold b_end, HS, HE in Hr. rewrite !(u32_small (n + 16)), !(u32_small (n + 16 + 16)) by (unfold is_u32; lia).
  replace (n + 16 + 16) with (n + 32) by lia.
  pose proof (ho_tiles _ _ Hok) as Ht. pose proof Ht as Ht'.
  apply tiles_app in Ht' as (mid & Htl & Ea & _ & _ & Htr).
  assert (tiles HS (next_virtual_page (heap_stats s)) (l ++ split_blk b n ++ r)) as Htn.
  { apply tiles_app. exists mid. split; [done|]. rewrite <- Ea. apply split_tiles; lia || done. }
  unfold split_blk in *. destruct (Z.leb_spec (b_size b) (n + 32)) as [Hsmall|Hbig].
  { apply wp_ret. specialize (HQ (heap_mem s)). destruct s. apply HQ; [exact Hok|apply agree_refl]. }
  rewrite !(u32_small (b_size b - n)), !(u32_small (b_size b - n - 16)), !(u32_small (b_addr b + 16)),
    !(u32_small (b_addr b + 16 + n)) by (unfold is_u32; lia).
  assert (Hm : forall m2 x, b_addr b <= x < b_end b -> mapped_at (s <| heap_mem := m2 |>) x = true).
  { intros m2 x Hx. apply (good_mapped _ _ Hg x Hx). }
  unfold b_end in Hm.
  apply wp_bind, initialize_block_ok; [intros x Hx; apply (good_mapped _ _ Hg); unfold b_end; lia|unfold is_u32; lia|].
  intros m1 Hh1 Hn1 Hag1. apply wp_bind, wp_hread32; [apply Hm; unfold off_next; lia|].
  apply wp_bind, wp_hwrite32; [apply Hm; unfold off_next; lia|].
  apply wp_bind, wp_hwrite32; [apply Hm; unfold off_size; lia|].
  apply wp_hwrite32; [apply Hm; unfold off_next; lia|].
  cbn. unfold off_next, off_size.
  rewrite <- (load32_agree _ _ _ (b_addr b + 12) Hag1) by (cbn; lia).
  rewrite (heap_ok_next _ _ _ _ Hok).
  set (nb := b_addr b + 16 + n) in *.
  set (m' := store32 (b_addr b + 12) nb (store32 (b_addr b + 4) n (store32 (nb + 12) (start_of r) m1))).
  assert (agree (fun x => x < b_addr b \/ b_end b <= x) (heap_mem s) m') as Hag.
  { intros x Hx. unfold b_end in Hx. subst m' nb. rewrite !load8_store32_ne by lia. apply Hag1. lia. }
  apply (HQ m'); [|done]. apply (heap_ok_mem (l ++ b :: r)); [done|exact Htn|].
  eapply seg_replace; [exact Ht|apply Hok|exact Hag|]. intros Hsr. cbn.
  destruct (gd_header _ _ Hg) as (E1 & E2 & E3). destruct Hh1 as (F1 & F2 & F3). cbn in F1, F2, F3.
  assert (is_u32 (start_of r)) as Hur.
  { rewrite <- (heap_ok_next _ _ _ _ Hok). apply load32_range. }
  split; [done|]. split; [|split; [|split]].
  - subst m' nb. unfold header. cbn. split_and!.
    + rewrite !load32_store32_ne by lia. rewrite <- E1. symmetry. apply (load32_agree _ _ _ _ Hag1). cbn; lia.
    + rewrite load32_store32_ne, load32_store32_eq by lia. apply u32_small. unfold is_u32. lia.
    + rewrite !load8_store32_ne by lia. rewrite <- E3, Hag1 by lia. done.
  - subst m' nb. rewrite load32_store32_eq. apply u32_small. unfold is_u32. lia.
  - subst m' nb. unfold header. cbn. rewrite !load32_store32_ne, !load8_store32_ne by lia. done.
  - subst m'. rewrite load32_store32_ne, load32_store32_ne, load32_store32_eq, u32_small by (done || lia).
    exact Hsr.
Qed.

(** ** Merging *)

Definition join b c : blk := Blk (b_addr b) (b_size b + 16 + b_size c) false.

(** [heap_merge_free_blocks] from block [b] on, with [n] visits left. *)
Fixpoint merge_into (n : nat) b (r : list blk) : list blk :=
  match r, n with
  | [], _ => [b]
  | _ :: _, O => b :: r
  | c :: r', S n' =>
      if negb (b_used b) && negb (b_used c) then merge_into n (join b c) r'
      else b :: merge_into n' c r'
  end.

Definition merge_from (n : nat) (r : list blk) : list blk :=
  match r with [] => [] | b :: r' => merge_into n b r' end.

Definition merge_list (bs : list blk) : list blk := merge_from 4096 bs.

Lemma merge_into_live n b r : live (merge_into n b r) = live (b :: r).
Proof.
  revert n b. induction r as [|c r IH]; intros n b; [done|].
  destruct n as [|n]; [done|]. cbn [merge_into].
  destruct (b_used b) eqn:Eb, (b_used c) eqn:Ec; cbn [andb negb];
    rewrite ?IH; unfold live; rewrite ?filter_cons, ?IH; cbn; rewrite ?Eb, ?Ec; try done;
    fold (live (merge_into n c r)); rewrite IH; unfold live; rewrite filter_cons, Ec; done.
Qed.

Lemma merge_into_tiles n lo hi b r : tiles lo hi (b :: r) -> tiles lo hi (merge_into n b r).
Proof.
  revert n lo b. induction r as [|c r IH]; intros n lo b Ht; [done|].
  destruct n as [|n]; [done|]. cbn [merge_into].
  destruct Ht as (H1 & H2 & H3 & Ht). destruct (negb (b_used b) && negb (b_used c)).
  - apply IH. destruct Ht as (H4 & H5 & H6 & Ht). unfold join, b_end in *; cbn in *.
    split_and!; [done|lia|Z.div_mod_to_equations; lia|].
    unfold b_end. cbn. by replace (b_addr b + 16 + (b_size b + 16 + b_size c))
      with (b_addr c + 16 + b_size c) by lia.
  - cbn. auto.
Qed.

(** The two stores that absorb the block [c] behind the free block [b]. *)
Lemma join_ok l b c r s :
  heap_ok (l ++ b :: c :: r) s -> b_used b = false -> b_used c = false ->
  let m' := store32 (b_addr b + 12) (start_of r)
              (store32 (b_addr b + 4) (b_size b + 16 + b_size c) (heap_mem s)) in
  heap_ok (l ++ join b c :: r) (s <| heap_mem := m' |>) /\
  payload_same (live (l ++ b :: c :: r)) (heap_mem s) m'.
Proof.
  intros Hok Hb Hc m'. pose proof (heap_ok_good _ _ b Hok (elem_middle l b _)) as Hg.
  assert (c ∈ l ++ b :: c :: r) as Hcin by (apply elem_of_app; right; right; by left).
  pose proof (heap_ok_good _ _ c Hok Hcin) as Hgc.
  pose proof (good_range _ _ Hg) as Hr. pose proof (gd_size _ _ Hg) as [Hsz _].
  pose proof (good_range _ _ Hgc) as Hrc. pose proof (gd_size _ _ Hgc) as [Hszc _].
  pose proof (ho_tiles _ _ Hok) as Ht. pose proof Ht as Ht'.
  apply tiles_app in Ht' as (mid & Htl & Ea & H2 & H3 & Ec & H5 & H6 & Htr).
  unfold b_end, HS, HE in *.
  assert (agree (fun x => x < b_addr b \/ b_addr b + 16 <= x) (heap_mem s) m') as Hag.
  { intros x Hx. subst m'. by rewrite !load8_store32_ne by lia. }
  assert (is_u32 (start_of r)) as Hur.
  { replace (start_of r) with (load32 (heap_mem s) (b_addr c + 12)); [apply load32_range|].
    apply (heap_ok_next (l ++ [b]) c r). by rewrite <- app_assoc. }
  split.
  - apply (heap_ok_mem (l ++ b :: c :: r)); [done|..].
    + apply tiles_app. exists mid. split; [done|]. cbn. split_and!; [done|lia|Z.div_mod_to_equations; lia|].
      unfold b_end. cbn. by replace (b_addr b + 16 + (b_size b + 16 + b_size c))
        with (b_addr c + 16 + b_size c) by lia.
    + eapply seg_replace; [exact Ht|apply Hok|eapply agree_weaken; [|exact Hag]; cbn; unfold b_end; lia|].
      cbn. intros (_ & _ & Hsr). destruct (gd_header _ _ Hg) as (E1 & E2 & E3).
      split; [done|]. split; [|].
      * subst m'. unfold header. cbn. rewrite (load32_store32_ne _ (b_addr b)), (load32_store32_ne _ (b_addr b)) by lia.
        rewrite (load32_store32_ne _ (b_addr b + 4)), load32_store32_eq, !load8_store32_ne by lia.
        rewrite Hb in E3. rewrite u32_small by (unfold is_u32; lia). done.
      * replace (load32 m' (b_addr b + 12)) with (start_of r).
        2:{ subst m'. rewrite load32_store32_eq. symmetry. by apply u32_small. }
        replace (load32 m' (b_addr c + 12)) with (start_of r) in Hsr; [done|].
        rewrite <- (load32_agree _ _ _ (b_addr c + 12) Hag) by (cbn; lia).
        symmetry. apply (heap_ok_next (l ++ [b]) c r). by rewrite <- app_assoc.
  - eapply payload_same_sub; [|eapply payload_same_header; [exact Ht|exact Hag]].
    intros d Hd. by apply live_elem in Hd as [_ Hd].
Qed.

(** The state of the merge loop: the blocks [l] are final. *)
Definition merging bs s (l r : list blk) s' : Prop :=
  exists m', s' = s <| heap_mem := m' |> /\ heap_ok (l ++ r) s' /\ (length l <= 4096)%nat /\
    merge_list bs = l ++ merge_from (4096 - length l) r /\ live (l ++ r) = live bs /\
    payload_same (live bs) (heap_mem s) m'.

Lemma merging_advance bs s l b c r s' :
  merging bs s l (b :: c :: r) s' -> (length l < 4096)%nat ->
  negb (b_used b) && negb (b_used c) = false -> merging bs s (l ++ [b]) (c :: r) s'.
Proof.
  intros (m' & -> & Hok & Hl & Hm & Hlive & Hp) Hlt Hno. exists m'.
  rewrite <- app_assoc. cbn [app]. split_and!; try done.
  - rewrite length_app. cbn. lia.
  - rewrite Hm. cbn [merge_from]. destruct (4096 - length l)%nat as [|k] eqn:Ek; [lia|].
    cbn [merge_into]. rewrite Hno, length_app, <- app_assoc. cbn.
    by replace (4096 - (length l + 1))%nat with k by lia.
Qed.

Lemma merging_join bs s l b c r s' :
  merging bs s l (b :: c :: r) s' -> (length l < 4096)%nat ->
  b_used b = false -> b_used c = false ->
  merging bs s l (join b c :: r)
    (s' <| heap_mem ::= fun m => store32 (b_addr b + 12) (start_of r)
              (store32 (b_addr b + 4) (b_size b + 16 + b_size c) m) |>).
Proof.
  intros (m' & -> & Hok & Hl & Hm & Hlive & Hp) Hlt Hb Hc.
  destruct (join_ok _ _ _ _ _ Hok Hb Hc) as [Hok' Hp'].
  eexists. split; [reflexivity|]. split; [exact Hok'|]. split_and!; try done.
  - rewrite Hm. cbn [merge_from]. destruct (4096 - length l)%nat as [|k] eqn:Ek; [lia|].
    cbn [merge_into]. by rewrite Hb, Hc.
  - rewrite <- Hlive, !live_app. f_equal. unfold live. rewrite !filter_cons. cbn. by rewrite Hb, Hc.
  - eapply payload_same_trans; [exact Hp|]. by rewrite <- Hlive.
Qed.

Lemma merge_ok bs s (Q : unit -> heap_state E -> Prop) :
  heap_ok bs s ->
  (forall m', heap_ok (merge_list bs) (s <| heap_mem := m' |>) ->
     payload_same (live bs) (heap_mem s) m' -> Q tt (s <| heap_mem := m' |>)) ->
  wp heap_merge_free_blocks Q s.
Proof.
  intros Hok HQ. unfold heap_merge_free_blocks. apply wp_bind, wp_get.
  assert (Hend : forall l r s', merging bs s l r s' -> merge_from (4096 - length l) r = r -> Q tt s').
  { intros l r s' (m' & -> & Hok' & _ & Hm & _ & Hp) Er. rewrite Er in Hm. rewrite <- Hm in Hok'. auto. }
  apply (wp_loop _
    (fun '(block, visited) s' => exists l r, merging bs s l r s' /\ block = start_of r /\
       visited = Z.of_nat (length l))
    (fun '(block, _) s' => if block =? 0 then 0 else HE - (block + load32 (heap_mem s') (block + 4)))).
  - intros [block visited] s' (l & r & Hmg & -> & ->).
    pose proof Hmg as (m' & Es' & Hok' & Hl & _).
    destruct r as [|b r]; [cbn; apply wp_ret; by eapply Hend|]. cbn [start_of].
    rewrite (proj2 (Z.eqb_neq _ _)) by (eapply heap_ok_addr; [exact Hok'|apply elem_middle]).
    pose proof (heap_ok_good _ _ b Hok' (elem_middle l b r)) as Hg.
    apply wp_bind, (wp_block_next _ b Hg). rewrite (heap_ok_next _ _ _ _ Hok').
    destruct r as [|c r]; [cbn; apply wp_ret; by eapply Hend|]. cbn [start_of].
    assert (c ∈ l ++ b :: c :: r) as Hc by (apply elem_of_app; right; right; by left).
    rewrite (proj2 (Z.eqb_neq (b_addr c) 0)) by by eapply heap_ok_addr. cbn [orb].
    unfold HEAP_MAX_AUDIT_BLOCKS. destruct (Z.ltb_spec (Z.of_nat (length l)) 4096) as [Hlt|Hge]; cbn [negb].
    2:{ apply wp_ret. eapply Hend; [exact Hmg|]. by replace (4096 - length l)%nat with O by lia. }
    pose proof (heap_ok_good _ _ c Hok' Hc) as Hgc.
    apply wp_bind, (wp_sane _ b Hg). cbn [negb]. apply wp_bind, (wp_sane _ c Hgc). cbn [negb].
    apply wp_bind, (wp_block_size _ b Hg), wp_bind, (wp_block_used _ b Hg), wp_bind.
    change heap_header_size with 16.
    pose proof (good_range _ _ Hg) as Hr. pose proof (gd_size _ _ Hg) as [Hsz _].
    pose proof (good_range _ _ Hgc) as Hrc. pose proof (gd_size _ _ Hgc) as [Hszc _].
    pose proof (ho_tiles _ _ Hok') as Ht.
    apply tiles_app in Ht as (mid & _ & _ & _ & _ & Ec & _).
    destruct (gd_header _ _ Hg) as (_ & E2 & _). destruct (gd_header _ _ Hgc) as (_ & F2 & _).
    rewrite E2. unfold b_end, HS, HE in *.
    rewrite !(u32_small (b_addr b + 16)), !(u32_small (b_addr b + 16 + b_size b)) by (unfold is_u32; lia).
    assert (Hadv : negb (b_used b) && negb (b_used c) = false ->
      (exists l0 r0, merging bs s l0 r0 s' /\ b_addr c = start_of r0 /\
         incr (Z.of_nat (length l)) = Z.of_nat (length l0)) /\
      0 <= (if b_addr c =? 0 then 0 else 3254779904 - (b_addr c + load32 (heap_mem s') (b_addr c + 4)))
        < 3254779904 - (b_addr b + b_size b)).
    { intros Hno. split.
      - exists (l ++ [b]), (c :: r). split; [apply merging_advance; [done|lia|done]|].
        split; [done|]. rewrite length_app, incr_small by lia. cbn. lia.
      - rewrite (proj2 (Z.eqb_neq _ _)) by lia. rewrite F2. lia. }
    destruct (b_used b) eqn:Hub.
    + apply wp_ret, wp_ret. by apply Hadv.
    + apply wp_bind, (wp_block_used _ c Hgc), wp_ret.
      rewrite (proj2 (Z.eqb_eq (b_addr b + 16 + b_size b) (b_addr c))) by lia. rewrite andb_true_r.
      destruct (b_used c) eqn:Huc; cbn [negb]; [apply wp_ret; by apply Hadv|].
      apply wp_bind, (wp_block_size _ c Hgc). rewrite !(u32_small (16 + b_size c)) by (unfold is_u32; lia).
      rewrite u32_small by (unfold is_u32; lia).
      assert (Hm : forall m2 x, b_addr b <= x < b_end c -> mapped_at (s' <| heap_mem := m2 |>) x = true).
      { intros m2 x Hx. unfold b_end in Hx.
        destruct (decide (x < b_end b)); unfold b_end in *;
          [apply (good_mapped _ _ Hg)|apply (good_mapped _ _ Hgc)]; unfold b_end; lia. }
      unfold b_end in Hm.
      apply wp_bind, wp_hwrite32; [apply (good_mapped _ _ Hg); unfold b_end, off_size; lia|].
      apply wp_bind, wp_hread32; [apply Hm; unfold off_next; lia|].
      apply wp_bind, wp_hwrite32; [apply Hm; unfold off_next; lia|]. apply wp_ret.
      unfold off_next, off_size. cbn [heap_mem].
      replace (b_size b + (16 + b_size c)) with (b_size b + 16 + b_size c) by lia.
      assert (load32 (store32 (b_addr b + 4) (b_size b + 16 + b_size c) (heap_mem s')) (b_addr c + 12)
              = start_of r) as En.
      { rewrite load32_store32_ne by lia. apply (heap_ok_next (l ++ [b]) c r).
        by rewrite <- app_assoc. }
      cbn. rewrite En. split.
      * exists l, (join b c :: r). split; [|done].
        pose proof (merging_join _ _ _ _ _ _ _ Hmg ltac:(lia) Hub Huc) as Hj. exact Hj.
      * rewrite (proj2 (Z.eqb_neq _ _)) by lia.
        rewrite load32_store32_ne, load32_store32_eq, u32_small by (unfold is_u32; lia). lia.
  - exists [], bs. split; [|split; [by eapply heap_ok_head|done]].
    exists (heap_mem s). split; [by destruct s|]. split; [done|]. cbn. split_and!; try done. lia.
  - rewrite (heap_ok_head _ _ Hok). destruct bs as [|b bs]; [done|]. cbn [start_of].
    destruct (b_addr b =? 0); [lia|].
    assert (b ∈ b :: bs) as Hb by by left.
    pose proof (good_range _ _ (heap_ok_good _ _ b Hok Hb)).
    pose proof (load32_range (heap_mem s) (b_addr b + 4)). unfold is_u32, HS, HE in *. lia.
Qed.
End Operations.
