(* ===== verification/HeapGrow.v ===== *)
(** * Growing the kernel heap

    [heap_grow] maps fresh frames behind the heap, formats each page as a free
    block, links the pages and appends them; when a frame or a mapping is missing
    it undoes every step. *)
From S2P Require Import Prelude Mem Boot Pmm Vmm Pages Heap HeapBlocks HeapProofs.

Section Grow.
Context {E : Type} `{PageProviderLaws E}.
Implicit Types (s : heap_state E) (bs : list blk) (b : blk) (e : E) (vs : list (Z * Z)).

(** ** Mappings owned by the heap: pairs of a virtual page and its frame *)

Record env_map e vs : Prop := {
  em_inv : pp_inv e;
  em_pages : NoDup vs.*1;
  em_frames : NoDup vs.*2;
  em_mapped : forall v f, (v, f) ∈ vs ->
    is_u32 v /\ v mod 4096 = 0 /\ pp_owned e f /\ page_frame e v = Some f
}.

Lemma env_map_weaken e e' vs :
  env_map e vs -> pp_inv e' -> frames_same e e' ->
  (forall v f, (v, f) ∈ vs -> pp_owned e f -> pp_owned e' f) -> env_map e' vs.
Proof.
  intros [H1 H2 H3 H4] Hi Hfr Ho. constructor; try done.
  intros v f Hvf. destruct (H4 v f Hvf) as (Hu & Hal & Hof & Hpf).
  split_and!; [done..|by eauto|by rewrite Hfr].
Qed.

Lemma pages_ne v w : v mod 4096 = 0 -> w mod 4096 = 0 -> v <> w -> v / 4096 <> w / 4096.
Proof. intros. Z.div_mod_to_equations. lia. Qed.

(** One step of [heap_rollback_growth]. *)
Lemma env_map_drop e vs1 v f vs2 :
  env_map e (vs1 ++ (v, f) :: vs2) ->
  wp (page_unmap v ;;; page_free f) (fun _ e' => env_map e' (vs1 ++ vs2)) e.
Proof.
  intros [H1 H2 H3 H4].
  assert ((v, f) ∈ vs1 ++ (v, f) :: vs2) as Hin by (apply elem_of_app; right; by left).
  destruct (H4 v f Hin) as (Hu & Hal & Hof & Hpf).
  apply wp_bind. eapply wp_mono; [by apply pp_unmap_ok|]. intros _ e1 (Hi1 & Ho1 & Hf1).
  eapply wp_mono; [apply pp_free_ok; [done|by apply Ho1]|]. intros _ e2 (Hi2 & Hf2 & Ho2).
  rewrite !fmap_app, !fmap_cons in H2, H3. cbn in H2, H3.
  rewrite Permutation_app_comm in H2, H3. cbn in H2, H3.
  apply NoDup_cons in H2 as [N2 H2], H3 as [N3 H3].
  constructor; [done| | |].
  - rewrite fmap_app, Permutation_app_comm. done.
  - rewrite fmap_app, Permutation_app_comm. done.
  - intros w g Hwg. assert ((w, g) ∈ vs1 ++ (v, f) :: vs2) as Hwg'.
    { apply elem_of_app in Hwg as [?|?]; apply elem_of_app; [by left|right; by right]. }
    destruct (H4 w g Hwg') as (Hu' & Hal' & Hog & Hpg).
    assert (w ∈ vs2.*1 ++ vs1.*1) as Hw1.
    { rewrite <- fmap_app. apply list_elem_of_fmap. exists (w, g). split; [done|].
      rewrite Permutation_app_comm. done. }
    assert (g ∈ vs2.*2 ++ vs1.*2) as Hg2.
    { rewrite <- fmap_app. apply list_elem_of_fmap. exists (w, g). split; [done|].
      rewrite Permutation_app_comm. done. }
    assert (w <> v) by congruence. assert (g <> f) by congruence.
    split_and!; [done..| |].
    + apply Ho2; [done|]. by apply Ho1.
    + rewrite Hf2, Hf1, bool_decide_eq_false_2 by (done || by apply pages_ne). done.
Qed.

(** A frame just taken from the allocator. *)
Record fresh_frame e vs (p : Z) : Prop := {
  ff_nonzero : p <> 0;
  ff_u32 : is_u32 p;
  ff_aligned : p mod 4096 = 0;
  ff_owned : pp_owned e p;
  ff_new : forall w f, (w, f) ∈ vs -> f <> p
}.

Lemma env_map_alloc e vs :
  env_map e vs ->
  wp page_alloc (fun p e' => env_map e' vs /\ (p = 0 \/ fresh_frame e' vs p)) e.
Proof.
  intros Hm. eapply wp_mono; [apply pp_alloc_ok, Hm|].
  intros p e1 (Hi1 & Hf1 & [(-> & Ho1)|(Hp0 & Hpu & Hpal & Hno & Ho1)]).
  - split; [|by left]. eapply env_map_weaken; [done..|]. intros w f _. apply Ho1.
  - split.
    + eapply env_map_weaken; [done..|]. intros w f _ Hof. apply Ho1. by right.
    + right. constructor; try done; [apply Ho1; by left|].
      intros w f Hwf ->. destruct (em_mapped _ _ Hm w p Hwf) as (_ & _ & Ho & _). done.
Qed.

Lemma env_map_map e vs v p :
  env_map e vs -> fresh_frame e vs p -> is_u32 v -> v mod 4096 = 0 -> v ∉ vs.*1 ->
  wp (page_map v p VMM_PAGE_WRITABLE)
     (fun ok e' => if (ok : bool) then env_map e' (vs ++ [(v, p)])
                   else env_map e' vs /\ fresh_frame e' vs p) e.
Proof.
  intros Hm [Hp0 Hpu Hpal Hpo Hfp] Hu Hal Hv.
  eapply wp_mono; [apply pp_map_ok; [apply Hm|done..]|].
  intros ok e2 (Hi2 & Ho2 & Hf2). destruct ok; cbn [andb] in Hf2.
  - constructor; [done|..].
    + rewrite fmap_app, Permutation_app_comm. cbn. constructor; [done|apply Hm].
    + rewrite fmap_app, Permutation_app_comm. cbn. constructor; [|apply Hm].
      intros Hin. apply list_elem_of_fmap in Hin as ([w f] & E1 & Hwf). by apply (Hfp w f Hwf).
    + intros w f Hwf. apply elem_of_app in Hwf as [Hwf|Hwf].
      * destruct (em_mapped _ _ Hm w f Hwf) as (Hwu & Hwal & Hof & Hpf).
        split_and!; [done..|by apply Ho2|]. rewrite Hf2 by done.
        rewrite bool_decide_eq_false_2; [done|].
        apply pages_ne; [done..|]. intros ->. apply Hv, list_elem_of_fmap. by exists (v, f).
      * apply list_elem_of_singleton in Hwf as [= -> ->].
        split_and!; [done..|by apply Ho2|]. by rewrite Hf2, bool_decide_eq_true_2.
  - split.
    + eapply env_map_weaken; [done..|]. intros w f _ Hof. by apply Ho2.
    + constructor; try done. by apply Ho2.
Qed.

Lemma env_map_free e vs p :
  env_map e vs -> fresh_frame e vs p -> wp (page_free p) (fun _ e' => env_map e' vs) e.
Proof.
  intros Hm [_ _ _ Hpo Hfp]. eapply wp_mono; [apply pp_free_ok; [apply Hm|done]|].
  intros _ e3 (Hi3 & Hf3 & Ho3). eapply env_map_weaken; [exact Hm|done|done|].
  intros w f Hwf Hof. apply Ho3; [by eapply Hfp|done].
Qed.

Lemma wp_on_env {A} (m : M E A) (Q : A -> heap_state E -> Prop) s :
  wp m (fun a e' => Q a (s <| heap_env := e' |>)) (heap_env s) -> wp (on_env m) Q s.
Proof. intros Hw. unfold on_env. apply wp_zoom. exact Hw. Qed.

Lemma rollback_pages_ok vs2 : forall s vs1 (Q : unit -> heap_state E -> Prop),
  env_map (heap_env s) (vs1 ++ vs2) ->
  (forall e', env_map e' vs1 -> Q tt (s <| heap_env := e' |>)) ->
  wp (mfor vs2 (fun '(v, f) => on_env (page_unmap v) ;;; on_env (page_free f))) Q s.
Proof.
  induction vs2 as [|[v f] vs2 IH]; intros s vs1 Q He HQ.
  - apply wp_ret. rewrite app_nil_r in He. specialize (HQ _ He). by destruct s.
  - cbn [mfor]. apply wp_bind, wp_bind, wp_on_env.
    destruct (env_map_drop _ _ _ _ _ He) as ([] & e1 & E1 & H1).
    unfold mbind_ in E1. destruct (page_unmap v (heap_env s)) as [[u0 e0]|] eqn:E0; [|done].
    exists u0, e0. split; [done|]. apply wp_on_env. exists tt, e1. split; [done|].
    apply (IH _ vs1); [exact H1|]. intros e' He'. apply (HQ e' He').
Qed.

(** ** The heap's pages *)

Definition pages_from (base : Z) (fs : list Z) : list (Z * Z) :=
  imap (fun i f => (base + 4096 * Z.of_nat i, f)) fs.

Lemma pages_from_snoc base fs f :
  pages_from base (fs ++ [f]) = pages_from base fs ++ [(base + 4096 * Z.of_nat (length fs), f)].
Proof. unfold pages_from. rewrite imap_app. cbn. by rewrite Nat.add_0_r. Qed.

Lemma pages_from_app base fs gs :
  pages_from base (fs ++ gs) =
  pages_from base fs ++ pages_from (base + 4096 * Z.of_nat (length fs)) gs.
Proof.
  unfold pages_from. rewrite imap_app. f_equal. apply imap_ext. intros i x _. cbn. f_equal. lia.
Qed.

Lemma pages_from_elem base fs v f :
  (v, f) ∈ pages_from base fs <-> exists i, fs !! i = Some f /\ v = base + 4096 * Z.of_nat i.
Proof.
  unfold pages_from. rewrite elem_of_lookup_imap. split.
  - intros (i & g & [= -> ->] & Hi). eauto.
  - intros (i & Hi & ->). eauto.
Qed.

Lemma pages_from_fst base fs v :
  v ∈ (pages_from base fs).*1 <-> exists i, (i < length fs)%nat /\ v = base + 4096 * Z.of_nat i.
Proof.
  rewrite list_elem_of_fmap. split.
  - intros ([w f] & -> & Hwf). apply pages_from_elem in Hwf as (i & Hi & ->).
    exists i. split; [by eapply lookup_lt_Some|done].
  - intros (i & Hi & ->). destruct (lookup_lt_is_Some_2 _ _ Hi) as [f Hf].
    exists (base + 4096 * Z.of_nat i, f). split; [done|]. apply pages_from_elem. eauto.
Qed.

Lemma pages_from_snd base fs : (pages_from base fs).*2 = fs.
Proof.
  revert base. induction fs as [|f fs IH] using rev_ind; intros base; [done|].
  rewrite pages_from_snoc, fmap_app, IH. done.
Qed.

Lemma pages_from_nodup base fs : NoDup (pages_from base fs).*1.
Proof.
  induction fs as [|f fs IH] using rev_ind; [constructor|].
  rewrite pages_from_snoc, fmap_app. cbn. apply NoDup_app. split_and!; [done| |apply NoDup_singleton].
  intros v Hv Hv'. apply list_elem_of_singleton in Hv' as ->.
  apply pages_from_fst in Hv as (i & Hi & Ei). lia.
Qed.

Lemma env_ok_map e next :
  next <= HE -> env_ok e next <-> exists fs, env_map e (pages_from HS fs) /\
    next = HS + 4096 * Z.of_nat (length fs).
Proof.
  intros Hn. split.
  - intros [Hi (fs & Hnd & -> & Hfs)]. exists fs. split; [|done]. constructor; [done|..].
    + apply pages_from_nodup.
    + by rewrite pages_from_snd.
    + intros v f Hvf. apply pages_from_elem in Hvf as (i & Hf & ->).
      destruct (Hfs i f Hf) as [Ho Hp]. pose proof (lookup_lt_Some _ _ _ Hf).
      unfold HS, HE, is_u32 in *. split_and!; [lia|lia| |done|done]. Z.div_mod_to_equations. lia.
  - intros (fs & [H1 H2 H3 H4] & ->). constructor; [done|]. exists fs.
    rewrite pages_from_snd in H3. split_and!; try done.
    intros i f Hf. destruct (H4 (HS + 4096 * Z.of_nat i) f) as (_ & _ & Ho & Hp);
      [apply pages_from_elem; eauto|done].
Qed.

(** ** The loop of [heap_grow] *)

(** One free block per page. *)
Definition new_blocks (base n : Z) : list blk :=
  (fun j => Blk (base + 4096 * j) 4080 false) <$> seqZ 0 n.

Lemma new_blocks_snoc base n :
  0 <= n -> new_blocks base (n + 1) = new_blocks base n ++ [Blk (base + 4096 * n) 4080 false].
Proof.
  intros Hn. unfold new_blocks. rewrite seqZ_app by lia. rewrite fmap_app. cbn. done.
Qed.

Lemma new_blocks_tiles base n : 0 <= n -> tiles base (base + 4096 * n) (new_blocks base n).
Proof.
  intros Hn. pattern n. apply natlike_ind; [change (base = base + 4096 * 0); lia| |done].
  intros k Hk IH. rewrite <- Z.add_1_r, new_blocks_snoc by done.
  apply tiles_app. exists (base + 4096 * k). split; [done|]. cbn. unfold b_end. cbn.
  split_and!; try done. lia.
Qed.

Lemma new_blocks_start base n : 1 <= n -> start_of (new_blocks base n) = base.
Proof.
  intros Hn. pose proof (new_blocks_tiles base n ltac:(lia)) as Ht.
  destruct (new_blocks base n) as [|b bs]; cbn in *; [lia|apply Ht].
Qed.

Lemma new_blocks_live base n : live (new_blocks base n) = [].
Proof.
  unfold live, new_blocks. generalize (seqZ 0 n). induction l as [|x l IH]; [done|].
  rewrite fmap_cons, filter_cons. cbn. exact IH.
Qed.

(** The heap after [k] pages were mapped. *)
Definition grown s (k : Z) e (m : mem) : heap_state E :=
  s <| heap_env := e |> <| heap_mem := m |>
    <| heap_stats ::= fun st =>
         st <| next_virtual_page := next_virtual_page st + 4096 * k |>
            <| total_pages := total_pages st + k |>
            <| total_bytes := total_bytes st + 4096 * k |> |>.

(** ... and after a failed growth. *)
Definition grow_undone s e (m : mem) : heap_state E :=
  s <| heap_env := e |> <| heap_mem := m |>
    <| heap_stats ::= fun st => st <| failed_grow_count ::= incr |> |>.

Lemma grown_step s k e m :
  u32 (next_virtual_page (heap_stats s) + 4096 * k + 4096) =
    next_virtual_page (heap_stats s) + 4096 * (k + 1) ->
  incr (total_pages (heap_stats s) + k) = total_pages (heap_stats s) + (k + 1) ->
  u32 (total_bytes (heap_stats s) + 4096 * k + 4096) = total_bytes (heap_stats s) + 4096 * (k + 1) ->
  (grown s k e m) <| heap_stats ::= fun st =>
     st <| next_virtual_page ::= fun p => p [+] PMM_PAGE_SIZE |> <| total_pages ::= incr |>
        <| total_bytes ::= fun n => n [+] PMM_PAGE_SIZE |> |> = grown s (k + 1) e m.
Proof.
  destruct s as [? ? ? st ?]. destruct st. intros E1 E2 E3.
  cbv -[u32 incr Z.add Z.mul] in E1, E2, E3 |- *. rewrite E1, E2, E3. reflexivity.
Qed.

Section Loop.
Context (bs : list blk) (s : heap_state E) (fs0 : list Z) (required_pages : Z).
Let base := next_virtual_page (heap_stats s).
Hypothesis Hok : heap_ok bs s.
Hypothesis Hfs0 : base = HS + 4096 * Z.of_nat (length fs0).
Hypothesis Hspace : base + 4096 * required_pages <= HE.

Definition growing (l : Z * list (Z * Z) * Z * Z) s' : Prop :=
  let '(i, pages, first, prev) := l in
  exists fs1 e' m', i = Z.of_nat (length fs1) /\ pages = pages_from base fs1 /\ s' = grown s i e' m' /\
    i <= required_pages /\ env_map e' (pages_from HS (fs0 ++ fs1)) /\
    agree (fun a => a < base) (heap_mem s) m' /\
    seg m' first (new_blocks base i) 0 /\ prev = (if i =? 0 then 0 else base + 4096 * (i - 1)).

Definition grow_result (r : option (list (Z * Z) * Z)) s' : Prop :=
  match r with
  | Some (pages, first) => exists prev, growing (required_pages, pages, first, prev) s'
  | None => exists e' m', s' = grow_undone s e' m' /\ env_map e' (pages_from HS fs0) /\
      agree (fun a => a < base) (heap_mem s) m'
  end.

Lemma grow_base : HS <= base <= HE /\ base mod 4096 = 0.
Proof using Hok. apply (next_page_bounds bs s Hok). Qed.

(** Undoing [k] pages. *)
Lemma grow_rollback_ok fs1 k e m (Q : Z * list (Z * Z) * Z * Z + option (list (Z * Z) * Z) -> heap_state E -> Prop) :
  env_map e (pages_from HS (fs0 ++ fs1)) -> agree (fun a => a < base) (heap_mem s) m ->
  (forall s', grow_result None s' -> Q (inr None) s') ->
  wp (grow_rollback (heap_stats s) (pages_from base fs1) ;;; mret_ (inr None)) Q (grown s k e m).
Proof using Hfs0.
  intros He Hag HQ. rewrite pages_from_app, <- Hfs0 in He. apply wp_bind.
  unfold grow_rollback, heap_rollback_growth. apply wp_bind, wp_bind.
  eapply rollback_pages_ok; [exact He|]. intros e' He'. apply wp_mod, wp_bind, wp_mod, wp_ret, wp_ret.
  apply HQ. exists e', m. split; [|done]. reflexivity.
Qed.

(** The first and the previous block are those of the pages mapped so far. *)
Lemma grow_link k m m2 first :
  0 <= k < required_pages ->
  seg m first (new_blocks base k) 0 ->
  header m2 (Blk (base + 4096 * k) 4080 false) -> load32 m2 (base + 4096 * k + 12) = 0 ->
  agree (fun a => a < base + 4096 * k) m m2 ->
  let m3 := if k =? 0 then m2 else store32 (base + 4096 * (k - 1) + 12) (base + 4096 * k) m2 in
  seg m3 (if first =? 0 then base + 4096 * k else first) (new_blocks base (k + 1)) 0.
Proof using Hok Hspace Hfs0.
  intros Hk Hseg Hh Hz Hag m3. pose proof grow_base as [Hb _]. unfold HS, HE in *.
  rewrite new_blocks_snoc by lia.
  destruct (Z.eqb_spec k 0) as [E0|Hk0]; subst m3.
  - rewrite E0 in Hseg, Hh, Hz |- *. change (first = 0) in Hseg. rewrite Hseg.
    exact (conj eq_refl (conj Hh Hz)).
  - assert (exists k', k = k' + 1 /\ 0 <= k') as (k' & E' & Hk') by (exists (k - 1); lia).
    rewrite E' in Hseg |- *. rewrite new_blocks_snoc in Hseg |- * by done.
    replace (k' + 1 - 1) with k' by lia.
    assert (first <> 0) as Hf0.
    { destruct (new_blocks base k') eqn:En; cbn in Hseg; destruct Hseg as [-> _]; [lia|].
      cbn. assert (b ∈ new_blocks base k') as Hin by (rewrite En; by left).
      pose proof (tiles_elem _ _ _ _ (new_blocks_tiles base k' Hk') Hin). lia. }
    rewrite (proj2 (Z.eqb_neq _ _)) by done. rewrite <- app_assoc. cbn [app].
    set (m3 := store32 _ _ m2).
    assert (Hag3 : agree (fun a => a < base + 4096 * k' + 12) m m3).
    { eapply agree_trans; [eapply agree_weaken; [|exact Hag]; cbn; lia|].
      apply store32_agree. lia. }
    apply seg_app in Hseg as (mid & Hl & -> & Hhk & _).
    apply seg_app. exists (base + 4096 * k'). split.
    + eapply seg_agree; [|exact Hl]. intros c Hc.
      pose proof (tiles_elem _ _ _ _ (new_blocks_tiles base k' Hk') Hc) as (_ & Hcs & _ & Hce).
      eapply agree_weaken; [|exact Hag3]. unfold b_end in Hce. cbn. lia.
    + cbn in Hhk |- *. subst m3. rewrite load32_store32_eq, u32_small by (unfold is_u32; lia).
      split; [done|]. split; [|split; [lia|]].
      * unfold header in *. cbn in *. rewrite !load32_store32_ne, load8_store32_ne by lia.
        rewrite <- (load32_agree _ m m2 (base + 4096 * k') Hag), <- (load32_agree _ m m2 _ Hag),
          <- Hag by (cbn; lia). done.
      * unfold header in *. cbn in *. rewrite E' in *. rewrite !load32_store32_ne, load8_store32_ne by lia.
        done.
Qed.

(** The page that follows the heap is not in use yet. *)
Lemma grow_page_fresh fs1 :
  base + 4096 * Z.of_nat (length fs1) ∉ (pages_from HS (fs0 ++ fs1)).*1.
Proof using Hfs0.
  intros Hin. apply pages_from_fst in Hin as (i & Hi & Ei). rewrite length_app in Hi. lia.
Qed.

Lemma grown_mapped k e m vs v f a :
  env_map e vs -> (v, f) ∈ vs -> v <= a < v + 4096 -> mapped_at (grown s k e m) a = true.
Proof.
  intros He Hvf Ha. destruct (em_mapped _ _ He v f Hvf) as (_ & Hal & _ & Hpf).
  apply bool_decide_eq_true_2. exists f. cbn. rewrite <- Hpf. apply pp_frame_page.
  Z.div_mod_to_equations. lia.
Qed.

Lemma grow_page_ok (v : Z * list (Z * Z) * Z * Z) s' :
  growing v s' ->
  wp (heap_grow_page (heap_stats s) required_pages v)
     (fun r s'' => match r with
                   | inl v' => growing v' s'' /\
                       0 <= required_pages - v'.1.1.1 < required_pages - v.1.1.1
                   | inr o => grow_result o s''
                   end) s'.
Proof using Hok Hfs0 Hspace.
  destruct v as [[[i pages] first] prev].
  intros (fs1 & e & m & Ei & -> & -> & Hle & He & Hag & Hseg & Hprev).
  pose proof grow_base as [Hb Hbal]. pose proof (ho_total _ _ Hok) as [Htb Htp]. fold base in Htb, Htp.
  pose proof (eq_refl : HS = 0xC1000000) as EHS. pose proof (eq_refl : HE = 0xC2000000) as EHE.
  unfold heap_grow_page.
  destruct (Z.ltb_spec i required_pages) as [Hlt|Hge]; cbn [negb].
  2:{ apply wp_ret. assert (i = required_pages) as Er by lia. unfold grow_result, growing.
      rewrite <- Er. exists prev, fs1, e, m. split_and!; done || lia. }
  apply wp_bind, wp_get. cbn [next_virtual_page heap_stats grown].
  change (next_virtual_page (heap_stats (grown s i e m))) with (base + 4096 * i).
  assert (is_u32 (base + 4096 * i)) as Hu by (unfold is_u32; lia).
  assert ((base + 4096 * i) mod 4096 = 0) as Hal by (Z.div_mod_to_equations; lia).
  apply wp_bind, wp_on_env. eapply wp_mono; [by apply env_map_alloc|].
  intros p e1 [He1 Hp]. destruct (Z.eqb_spec p 0) as [->|Hp0].
  { apply (grow_rollback_ok fs1 i e1 m); auto. }
  destruct Hp as [->|Hfr]; [done|]. apply wp_bind, wp_on_env.
  eapply wp_mono; [apply (env_map_map e1 _ (base + 4096 * i) p He1 Hfr Hu Hal)|].
  { rewrite Ei. apply grow_page_fresh. }
  intros ok e2 He2. destruct ok; cbn [negb].
  2:{ destruct He2 as [He2 Hfr2]. apply wp_bind, wp_on_env.
      eapply wp_mono; [by apply env_map_free|]. intros u e3 He3.
      apply (grow_rollback_ok fs1 i e3 m); auto. }
  assert (pages_from HS (fs0 ++ fs1) ++ [(base + 4096 * i, p)] = pages_from HS (fs0 ++ fs1 ++ [p])) as Epg.
  { rewrite app_assoc, pages_from_snoc, length_app. do 3 f_equal. lia. }
  rewrite Epg in He2.
  assert ((base + 4096 * i, p) ∈ pages_from HS (fs0 ++ fs1 ++ [p])) as Hnew.
  { rewrite <- Epg. apply elem_of_app. right. by left. }
  apply wp_bind. apply initialize_block_ok; [|done|].
  { intros x Hx. apply (grown_mapped i e2 m _ _ _ x He2 Hnew). lia. }
  intros m2 Hh2 Hz2 Hag2. cbn in Hag2.
  set (m3 := if i =? 0 then m2 else store32 (base + 4096 * (i - 1) + 12) (base + 4096 * i) m2).
  apply wp_bind. apply (wp_mono _ (fun _ t => t = grown s i e2 m3)).
  { subst m3. rewrite Hprev. destruct (Z.eqb_spec i 0) as [E0|Hi0].
    - cbn. by apply wp_ret.
    - rewrite (proj2 (Z.eqb_neq _ _)) by lia. cbn [negb mwhen].
      assert (exists f, fs1 !! Z.to_nat (i - 1) = Some f) as [f Hf].
      { apply lookup_lt_is_Some_2. lia. }
      unfold set_next, off_next. apply wp_hwrite32; [|done].
      apply (grown_mapped i e2 m2 _ (base + 4096 * (i - 1)) f _ He2); [|lia].
      apply pages_from_elem. exists (length fs0 + Z.to_nat (i - 1))%nat.
      rewrite lookup_app_r, lookup_app_l by lia.
      replace (length fs0 + Z.to_nat (i - 1) - length fs0)%nat with (Z.to_nat (i - 1)) by lia.
      split; [done|]. lia. }
  intros _ t ->. apply wp_bind, wp_mod, wp_ret. cbn [fst]. rewrite incr_small by lia. split; [|lia].
  exists (fs1 ++ [p]), e2, m3. rewrite length_app, pages_from_snoc. cbn [length].
  split_and!; try done; try lia.
  - by rewrite <- Ei.
  - fold base in Htb. rewrite grown_step; [done|..]; fold base; rewrite ?Htb, ?Htp.
    + rewrite u32_small by (unfold is_u32; lia). lia.
    + rewrite incr_small by (Z.div_mod_to_equations; lia). lia.
    + rewrite u32_small by (unfold is_u32; lia). lia.
  - subst m3. eapply agree_trans; [exact Hag|].
    eapply agree_trans; [eapply agree_weaken; [|exact Hag2]; cbn; lia|].
    destruct (i =? 0) eqn:E0; [done|]. bool_simpl. apply store32_agree. lia.
  - apply (grow_link i m m2 first); try done; [lia|]. eapply agree_weaken; [|exact Hag2]. cbn. lia.
  - rewrite (proj2 (Z.eqb_neq _ _)) by lia. lia.
Qed.
End Loop.

(** ** [heap_grow] *)

(** The number of pages [heap_grow] asks for. *)
Definition pages_needed (minimum_size : Z) : Z :=
  let q := align_up (minimum_size [+] 16) 4096 / 4096 in if q =? 0 then 1 else q.

Lemma pages_needed_pos n : 1 <= pages_needed n.
Proof.
  unfold pages_needed. assert (0 <= align_up (n [+] 16) 4096 / 4096).
  { apply Z.div_pos; [|lia]. apply Z.land_nonneg. left. apply u32_range. }
  destruct (Z.eqb_spec (align_up (n [+] 16) 4096 / 4096) 0); lia.
Qed.

(** Enough room for the request and its header, unless the size wraps. *)
Lemma pages_needed_enough n :
  0 <= n <= 4294963184 -> n + 16 <= 4096 * pages_needed n /\ 4096 * pages_needed n < n + 16 + 4096.
Proof.
  intros Hn. unfold pages_needed. rewrite u32_small by (unfold is_u32; lia).
  destruct (align_up_page (n + 16)) as [Hal Hle]; [lia|].
  destruct (Z.eqb_spec (align_up (n + 16) 4096 / 4096) 0); Z.div_mod_to_equations; lia.
Qed.

Record grew bs s (k : Z) s' : Prop := {
  gr_ok : heap_ok (merge_list (bs ++ new_blocks (next_virtual_page (heap_stats s)) k)) s';
  gr_stats : heap_stats_ok (merge_list (bs ++ new_blocks (next_virtual_page (heap_stats s)) k)) s';
  gr_init : heap_initialized (heap_stats s') = heap_initialized (heap_stats s);
  gr_next : next_virtual_page (heap_stats s') = next_virtual_page (heap_stats s) + 4096 * k;
  gr_data : payload_same (live bs) (heap_mem s) (heap_mem s')
}.

(** A heap left as it was. *)
Record kept bs s s' : Prop := {
  kp_ok : heap_ok bs s';
  kp_stats : heap_stats_ok bs s -> heap_stats_ok bs s';
  kp_init : heap_initialized (heap_stats s') = heap_initialized (heap_stats s);
  kp_next : next_virtual_page (heap_stats s') = next_virtual_page (heap_stats s);
  kp_data : payload_same (live bs) (heap_mem s) (heap_mem s')
}.

Lemma live_tiles_agree bs lo hi m m' :
  tiles lo hi bs -> agree (fun a => a < hi) m m' -> payload_same (live bs) m m'.
Proof.
  intros Ht Hag b Hb. apply live_elem in Hb as [_ Hb].
  pose proof (tiles_elem _ _ _ _ Ht Hb). eapply agree_weaken; [|exact Hag]. cbn. lia.
Qed.

Lemma seg_below bs lo hi m m' a :
  tiles lo hi bs -> agree (fun a => a < hi) m m' -> seg m a bs 0 -> seg m' a bs 0.
Proof.
  intros Ht Hag. apply seg_agree. intros b Hb. pose proof (tiles_elem _ _ _ _ Ht Hb) as (_ & H1 & _ & H2).
  unfold b_end in H2. eapply agree_weaken; [|exact Hag]. cbn. lia.
Qed.

Lemma has_space_spec bs s k :
  heap_ok bs s -> 1 <= k <= 16 ->
  heap_virtual_range_has_space (heap_stats s) k =
    bool_decide (next_virtual_page (heap_stats s) + 4096 * k <= HE).
Proof.
  intros Hok Hk. destruct (next_page_bounds _ _ Hok) as [Hb _].
  unfold heap_virtual_range_has_space, PMM_PAGE_SIZE. rewrite (ho_start _ _ Hok), (ho_end _ _ Hok).
  unfold HS, HE in *. rewrite (u32_small (k * 4096)), (u32_small (_ + k * 4096)), u32_small by (unfold is_u32; lia).
  rewrite (proj2 (Z.ltb_ge _ _)) by lia.
  destruct (Z.ltb_spec (3254779904 - 1) (next_virtual_page (heap_stats s) + k * 4096 - 1));
    case_bool_decide; lia || done.
Qed.

Lemma grow_undone_kept bs s fs0 e m :
  heap_ok bs s -> next_virtual_page (heap_stats s) = HS + 4096 * Z.of_nat (length fs0) ->
  env_map e (pages_from HS fs0) ->
  agree (fun a => a < next_virtual_page (heap_stats s)) (heap_mem s) m ->
  kept bs s (grow_undone s e m).
Proof.
  intros Hok Hfs He Hag. constructor; try done.
  - pose proof Hok as [H1 H2 H3 H4 H5 H6 H7]. constructor; try done.
    + cbn. apply env_ok_map; [done|]. eauto.
    + cbn. by eapply seg_below.
  - cbn. eapply live_tiles_agree; [apply Hok|done].
Qed.

(** Appending the new pages to the list. *)
Lemma grown_linked bs s fs0 fs1 k e m m' head :
  heap_ok bs s -> next_virtual_page (heap_stats s) = HS + 4096 * Z.of_nat (length fs0) ->
  k = Z.of_nat (length fs1) -> next_virtual_page (heap_stats s) + 4096 * k <= HE ->
  env_map e (pages_from HS (fs0 ++ fs1)) ->
  seg m' head (bs ++ new_blocks (next_virtual_page (heap_stats s)) k) 0 ->
  heap_ok (bs ++ new_blocks (next_virtual_page (heap_stats s)) k)
    ((grown s k e m) <| heap_mem := m' |> <| heap_head := head |>
       <| heap_stats ::= fun st => st <| grow_count ::= incr |> |>).
Proof.
  intros Hok Hfs Hk Hsp He Hseg. pose proof Hok as [H1 H2 H3 H4 H5 H6 [H7 H8]].
  constructor; try done.
  - apply env_ok_map; [done|]. exists (fs0 ++ fs1). split; [done|].
    cbn. rewrite length_app. lia.
  - apply tiles_app. exists (next_virtual_page (heap_stats s)). split; [done|].
    apply new_blocks_tiles. lia.
  - change (total_bytes (heap_stats s) + 4096 * k = next_virtual_page (heap_stats s) + 4096 * k - HS /\
            total_pages (heap_stats s) + k = (next_virtual_page (heap_stats s) + 4096 * k - HS) / 4096).
    rewrite H7, H8. unfold HS in *. Z.div_mod_to_equations. lia.
Qed.

(** The store that links the last block to the new pages. *)
Lemma link_last l b base news m first :
  tiles HS base (l ++ [b]) -> base <= HE -> seg m (start_of (l ++ [b])) (l ++ [b]) 0 ->
  is_u32 first -> seg m first news 0 -> (forall c, c ∈ news -> base <= b_addr c) ->
  let m' := store32 (b_addr b + 12) first m in
  seg m' (start_of (l ++ [b])) ((l ++ [b]) ++ news) 0 /\ payload_same (live (l ++ [b])) m m'.
Proof.
  intros Ht Hhi Hseg Hu Hnews Hge m'.
  assert (b ∈ l ++ [b]) as Hb by apply elem_middle.
  pose proof (tiles_elem _ _ _ _ Ht Hb) as (H1 & H2 & _ & H3). unfold b_end in H3.
  assert (agree (fun x => x < b_addr b \/ b_addr b + 16 <= x) m m') as Hag.
  { subst m'. apply store32_agree. lia. }
  split.
  - rewrite <- app_assoc. eapply seg_replace; [exact Ht|exact Hseg| |].
    + eapply agree_weaken; [|exact Hag]. unfold b_end. cbn. lia.
    + intros _. apply seg_app in Hseg as (mid & _ & _ & (E1 & E2 & E3) & _). cbn.
      split; [done|]. split.
      * subst m'. unfold header. by rewrite !load32_store32_ne, load8_store32_ne by lia.
      * subst m'. rewrite load32_store32_eq, u32_small by done.
        eapply seg_agree; [|exact Hnews]. intros c Hc. pose proof (Hge c Hc).
        eapply agree_weaken; [|exact Hag]. cbn. lia.
  - eapply payload_same_sub; [|eapply payload_same_header; [exact Ht|exact Hag]].
    intros c Hc. by apply live_elem in Hc as [_ Hc].
Qed.

(** Linking leaves the list [bs ++ news]. *)
Lemma grow_link_ok bs s fs0 fs1 k e m first :
  heap_ok bs s -> next_virtual_page (heap_stats s) = HS + 4096 * Z.of_nat (length fs0) ->
  k = Z.of_nat (length fs1) -> next_virtual_page (heap_stats s) + 4096 * k <= HE ->
  env_map e (pages_from HS (fs0 ++ fs1)) ->
  agree (fun a => a < next_virtual_page (heap_stats s)) (heap_mem s) m ->
  seg m first (new_blocks (next_virtual_page (heap_stats s)) k) 0 -> 1 <= k ->
  wp (heap_grow_link first)
     (fun ok t => ok = true /\ exists m' head, t = (grown s k e m) <| heap_mem := m' |> <| heap_head := head |> /\
        seg m' head (bs ++ new_blocks (next_virtual_page (heap_stats s)) k) 0 /\
        payload_same (live bs) (heap_mem s) m') (grown s k e m).
Proof.
  intros Hok Hfs Hk Hsp He Hag Hnews Hk1. set (base := next_virtual_page (heap_stats s)) in *.
  unfold heap_grow_link. apply wp_bind, wp_get.
  change (heap_head (grown s k e m)) with (heap_head s).
  pose proof (ho_tiles _ _ Hok) as Ht. fold base in Ht.
  pose proof (seg_below _ _ _ _ _ _ Ht Hag (ho_seg _ _ Hok)) as Hseg.
  pose proof (live_tiles_agree _ _ _ _ _ Ht Hag) as Hdata.
  destruct bs as [|b l _] using rev_ind.
  - rewrite (heap_ok_head _ _ Hok). cbn. apply wp_bind, wp_mod, wp_ret. split; [done|].
    exists m, first. split; [done|]. split; [exact Hnews|done].
  - assert (b ∈ l ++ [b]) as Hb by apply elem_middle.
    rewrite (heap_ok_head _ _ Hok) in *.
    assert (start_of (l ++ [b]) <> 0) as Hst0.
    { destruct l as [|c l]; cbn; (eapply heap_ok_addr; [exact Hok|by left]). }
    rewrite (proj2 (Z.eqb_neq _ _)) by done.
    assert (forall a, HS <= a < base -> mapped_at (grown s k e m) a = true) as Hmap.
    { intros a Ha. assert (env_ok e (HS + 4096 * Z.of_nat (length (fs0 ++ fs1)))) as Heo.
      { apply env_ok_map; [rewrite length_app; lia|]. eauto. }
      apply bool_decide_eq_true_2. eapply (env_mapped e); [exact Heo|]. rewrite length_app. lia. }
    apply wp_bind. eapply (find_last_ok l b base); [done|lia| |done|].
    { change (seg m (heap_head s) (l ++ [b]) 0). by rewrite (heap_ok_head _ _ Hok). }
    pose proof (heap_ok_addr _ _ _ Hok Hb). rewrite (proj2 (Z.eqb_neq _ _)) by done.
    pose proof (good_range _ _ (heap_ok_good _ _ _ Hok Hb)) as Hr.
    pose proof (tiles_elem _ _ _ _ Ht Hb) as (_ & Hbs & _ & Hbe). unfold b_end in *.
    apply wp_bind, wp_hwrite32; [apply Hmap; unfold off_next; lia|]. apply wp_ret. split; [done|].
    assert (is_u32 first) as Hu.
    { apply seg_start in Hnews as ->. rewrite new_blocks_start by done.
      destruct (next_page_bounds _ _ Hok) as [Hnb _]. fold base in Hnb. unfold is_u32, HS, HE in *. lia. }
    destruct (link_last l b base (new_blocks base k) m first) as [Hs2 Hp2]; try done.
    { lia. }
    { intros c Hc. apply (tiles_elem _ _ _ _ (new_blocks_tiles base k ltac:(lia)) Hc). }
    exists (store32 (b_addr b + 12) first m), (heap_head s). split; [reflexivity|]. rewrite (heap_ok_head _ _ Hok).
    split; [exact Hs2|]. eapply payload_same_trans; [exact Hdata|exact Hp2].
Qed.

Lemma heap_grow_ok bs s n (Q : bool -> heap_state E -> Prop) :
  heap_ok bs s ->
  (forall s', pages_needed n <= 16 ->
     next_virtual_page (heap_stats s) + 4096 * pages_needed n <= HE ->
     grew bs s (pages_needed n) s' -> Q true s') ->
  (forall s', kept bs s s' -> Q false s') ->
  wp (heap_grow n) Q s.
Proof.
  intros Hok HQt HQf. unfold heap_grow.
  change (if align_up (n [+] heap_header_size) PMM_PAGE_SIZE / PMM_PAGE_SIZE =? 0 then 1
          else align_up (n [+] heap_header_size) PMM_PAGE_SIZE / PMM_PAGE_SIZE) with (pages_needed n).
  pose proof (pages_needed_pos n) as Hk1. set (k := pages_needed n) in *. unfold HEAP_MAX_GROW_PAGES.
  assert (Hfail : wp grow_failed Q s).
  { apply wp_bind, wp_mod, wp_ret, HQf. constructor; try done. by eapply heap_ok_stats. }
  destruct (Z.ltb_spec 16 k) as [Hbig|Hk16]; [exact Hfail|].
  apply wp_bind, wp_get. rewrite (has_space_spec bs) by (done || lia).
  case_bool_decide as Hsp; [cbn [negb]|exact Hfail].
  destruct (proj1 (env_ok_map _ _ (ho_next _ _ Hok)) (ho_env _ _ Hok)) as (fs0 & He0 & Hfs0).
  apply wp_bind.
  apply (wp_mono _ (grow_result s fs0 k)); [apply (wp_loop _ (growing s fs0 k) (fun l _ => k - l.1.1.1))|].
  { intros l s' Hl. by apply (grow_page_ok bs). }
  { exists [], (heap_env s), (heap_mem s). rewrite app_nil_r. cbn.
      split_and!; try done; [|lia]. destruct s as [? ? ? st ?]. destruct st.
      cbv -[Z.add Z.mul]. by rewrite !Z.add_0_r. }
  { cbn. lia. }
  intros [[pages first]|] s1.
  - intros (prev & fs1 & e & m & Hlen & -> & -> & _ & He & Hag & Hseg & _).
    apply wp_bind. eapply wp_mono; [by apply (grow_link_ok bs s fs0 fs1 k e m first)|].
    intros ok t (-> & m' & head & -> & Hseg' & Hdata). cbn [negb].
    pose proof (grown_linked bs s fs0 fs1 k e m m' head Hok Hfs0 Hlen Hsp He Hseg') as Hok1.
    apply wp_bind, wp_mod, wp_bind. eapply merge_ok; [exact Hok1|].
    intros m2 Hok2 Hdata2. apply wp_bind. eapply recalculate_ok; [exact Hok2|]. apply wp_ret.
    destruct (with_stats_ok _ _ Hok2) as [Hok3 Hst3].
    apply HQt; [done|done|]. constructor; try done.
    eapply payload_same_trans; [exact Hdata|]. eapply payload_same_sub; [|exact Hdata2].
    intros c Hc. rewrite live_app. apply elem_of_app. by left.
  - intros (e & m & -> & He & Hag). apply wp_ret, HQf. by eapply grow_undone_kept.
Qed.
End Grow.
