(* ===== verification/HeapSpec.v ===== *)
(** * The contract of the kernel heap

    [kmalloc], [kfree], pointer validation, initialization and the audit, stated
    over the list of blocks. *)
From S2P Require Import Prelude Mem Boot Pmm Vmm Pages Heap HeapBlocks HeapProofs HeapGrow.

Section Contract.
Context {E : Type} `{PageProviderLaws E}.
Implicit Types (s : heap_state E) (bs : list blk) (b : blk).

Record heap_inv bs s : Prop := {
  hi_ok : heap_ok bs s;
  hi_stats : heap_stats_ok bs s;
  hi_init : heap_initialized (heap_stats s) = true
}.

(** The request as [kmalloc] rounds it. *)
Lemma align_request n :
  0 < n <= 0xFFFFFFF8 ->
  n <= align_up n HEAP_ALIGNMENT < n + 8 /\ align_up n HEAP_ALIGNMENT mod 8 = 0 /\
  align_up n HEAP_ALIGNMENT <= 0xFFFFFFF8.
Proof.
  intros Hn. unfold HEAP_ALIGNMENT.
  pose proof (align_up_spec n 3 ltac:(unfold is_u32; lia) ltac:(lia)) as Ea.
  change (2 ^ 3) with 8 in Ea. rewrite Ea. rewrite u32_small by (unfold is_u32; lia). Z.div_mod_to_equations. lia.
Qed.

(** Setting the [used] byte of a block. *)
Lemma set_used_ok l b r s v (Q : unit -> heap_state E -> Prop) :
  heap_ok (l ++ b :: r) s ->
  (forall m', heap_ok (l ++ Blk (b_addr b) (b_size b) (negb (u8 v =? 0)) :: r) (s <| heap_mem := m' |>) ->
     payload_same (l ++ b :: r) (heap_mem s) m' -> Q tt (s <| heap_mem := m' |>)) ->
  wp (set_used (b_addr b) v) Q s.
Proof.
  intros Hok HQ. pose proof (heap_ok_good _ _ b Hok (elem_middle l b r)) as Hg.
  pose proof (gd_size _ _ Hg) as [Hsz _]. pose proof (ho_tiles _ _ Hok) as Ht.
  apply wp_hwrite8; [apply (good_mapped _ _ Hg); unfold b_end, off_used; lia|]. unfold off_used.
  set (m' := store8 (b_addr b + 8) v (heap_mem s)).
  assert (agree (fun x => x < b_addr b \/ b_addr b + 16 <= x) (heap_mem s) m') as Hag.
  { apply store8_agree. lia. }
  apply (HQ m').
  - apply (heap_ok_mem (l ++ b :: r)); [done|..].
    + apply tiles_app in Ht as (mid & Hl & H1 & H2 & H3 & Hr). apply tiles_app. exists mid.
      split; [done|]. split_and!; done.
    + eapply seg_replace; [exact Ht|apply Hok| |].
      { eapply agree_weaken; [|exact Hag]. unfold b_end. cbn. lia. }
      intros Hsr. destruct (gd_header _ _ Hg) as (E1 & E2 & _). cbn.
      split; [done|]. split.
      * unfold header. cbn. subst m'. rewrite !load8_store8_word_ne, load8_store8_eq by lia. done.
      * subst m'. rewrite load8_store8_word_ne by lia. by rewrite (heap_ok_next _ _ _ _ Hok).
  - by eapply payload_same_header.
Qed.

(** ** Allocation *)

(** What [kmalloc] leaves of the free block [b] for a request of [n] bytes. *)
Definition take_blk b (n : Z) : list blk :=
  if b_size b <=? n + 32 then [Blk (b_addr b) (b_size b) true]
  else [Blk (b_addr b) n true; Blk (b_addr b + 16 + n) (b_size b - n - 16) false].

Definition fits (n : Z) b : Prop := b_used b = false /\ n <= b_size b.
#[export] Instance fits_dec n b : Decision (fits n b).
Proof. unfold fits. apply _. Defined.

(** The first block that fits, among the blocks visited. *)
Definition first_fit (n : Z) bs : option (nat * blk) := list_find (fits n) (visited_blocks bs).

Lemma take_blk_live l b r n :
  fits n b -> exists c, live (l ++ take_blk b n ++ r) = live l ++ c :: live r /\
    live (l ++ b :: r) = live l ++ live r /\
    b_addr c = b_addr b /\ n <= b_size c /\ b_end c <= b_end b /\ b_used c = true.
Proof.
  intros [Hf Hn]. unfold take_blk, b_end. rewrite !live_app.
  destruct (Z.leb_spec (b_size b) (n + 32)).
  - exists (Blk (b_addr b) (b_size b) true). cbn [app]. unfold live. rewrite !filter_cons. cbn. rewrite Hf.
    split_and!; try done; lia.
  - exists (Blk (b_addr b) n true). cbn [app]. unfold live. rewrite !filter_cons. cbn. rewrite Hf.
    split_and!; try done; lia.
Qed.

(** The block taken is among those later traversals visit. *)
Lemma take_blk_visited l b r n :
  first_fit n (l ++ b :: r) = Some (length l, b) ->
  exists c, c ∈ visited_blocks (l ++ take_blk b n ++ r) /\ b_used c = true /\ b_addr b + 16 = b_addr c + 16.
Proof.
  intros Hff. apply list_find_Some in Hff as (Hi & _ & _). apply lookup_take_Some in Hi as [_ Hlt].
  assert (exists c r', take_blk b n ++ r = c :: r' /\ b_used c = true /\ b_addr c = b_addr b)
    as (c & r' & E1 & Hu & Ha).
  { unfold take_blk. destruct (b_size b <=? n + 32); eexists _, _; cbn; done. }
  exists c. rewrite E1, Ha. split; [|done]. apply (list_elem_of_lookup_2 _ (length l)).
  apply lookup_take_Some. split; [by apply list_lookup_middle|done].
Qed.

(** The allocating branch of [kmalloc]. *)
Lemma take_ok {A} l b r s n (k : M (heap_state E) A) (Q : A -> heap_state E -> Prop) :
  heap_ok (l ++ b :: r) s -> fits n b -> 0 < n -> n mod 8 = 0 ->
  (forall s', heap_ok (l ++ take_blk b n ++ r) s' -> heap_stats_ok (l ++ take_blk b n ++ r) s' ->
     heap_initialized (heap_stats s') = heap_initialized (heap_stats s) ->
     payload_same (live (l ++ b :: r)) (heap_mem s) (heap_mem s') -> wp k Q s') ->
  wp (heap_split_block (b_addr b) n ;;; set_used (b_addr b) 1 ;;; heap_recalculate_stats ;;; k) Q s.
Proof.
  intros Hok [Hf Hn] Hn0 Hn8 HQ. apply wp_bind. eapply split_ok; [exact Hok|done|lia|done|].
  intros m1 Hok1 Hag1.
  pose proof (payload_same_outside _ _ _ _ _ _ _ (ho_tiles _ _ Hok) Hf Hag1) as Hp1.
  assert (exists b' r', split_blk b n ++ r = b' :: r' /\ b_addr b' = b_addr b /\
            take_blk b n ++ r = Blk (b_addr b') (b_size b') true :: r' /\
            (forall c, c ∈ live (l ++ b :: r) -> c ∈ l ++ b' :: r')) as (b' & r' & E1 & E2 & E3 & Hsub).
  { assert (forall x y, b_used x = false -> (forall c, c ∈ r -> c ∈ y) ->
      forall c, c ∈ live (l ++ x :: r) -> c ∈ l ++ y) as Haux.
    { intros x y Hx Hy c Hc. apply live_elem in Hc as [Hu Hc]. apply elem_of_app.
      apply elem_of_app in Hc as [Hc|Hc]; [by left|].
      apply elem_of_cons in Hc as [->|Hc]; [congruence|right; auto]. }
    unfold split_blk, take_blk. destruct (b_size b <=? n + 32); eexists _, _; cbn;
      (split; [reflexivity|split; [done|split; [done|]]]); apply Haux; try done;
      intros c Hc; repeat right; done. }
  rewrite E1 in Hok1. apply wp_bind. rewrite <- E2. eapply set_used_ok; [exact Hok1|].
  change (negb (u8 1 =? 0)) with true. rewrite <- E3. intros m2 Hok2 Hp2.
  apply wp_bind. eapply recalculate_ok; [exact Hok2|].
  destruct (with_stats_ok _ _ Hok2) as [Hok3 Hst3]. apply HQ; try done.
  eapply payload_same_trans; [exact Hp1|]. eapply payload_same_sub; [exact Hsub|exact Hp2].
Qed.

(** One activation of [kmalloc]: an allocation, a failure, or growth. *)
Lemma kmalloc_body_ok bs s size (Q : Z + Z -> heap_state E -> Prop) :
  heap_inv bs s -> 0 < size <= 0xFFFFFFF8 ->
  let n := align_up size HEAP_ALIGNMENT in
  (forall l b r s', bs = l ++ b :: r -> fits n b -> first_fit n bs = Some (length l, b) ->
     heap_inv (l ++ take_blk b n ++ r) s' ->
     payload_same (live bs) (heap_mem s) (heap_mem s') -> Q (inr (b_addr b + 16)) s') ->
  (forall s', first_fit n bs = None -> heap_inv bs s' ->
     payload_same (live bs) (heap_mem s) (heap_mem s') -> Q (inr 0) s') ->
  (forall s', first_fit n bs = None ->
     next_virtual_page (heap_stats s) + 4096 * pages_needed n <= HE -> pages_needed n <= 16 ->
     grew bs s (pages_needed n) s' -> Q (inl n) s') ->
  wp (kmalloc_body size) Q s.
Proof.
  intros [Hok Hst Hini] Hsize n HQa HQf HQg. destruct (align_request size Hsize) as (Hn1 & Hn8 & Hn2).
  fold n in Hn1, Hn8, Hn2. unfold kmalloc_body. fold n. apply wp_bind, wp_get. rewrite Hini.
  rewrite (proj2 (Z.eqb_neq _ _)) by lia. cbn [negb orb]. apply wp_bind, wp_get.
  apply wp_bind.
  apply (wp_loop _
    (fun '(block, visited) s' => s' = s /\
       exists l r, at_block bs l r block visited /\ Forall (fun b => ~ fits n b) l)
    (fun '(_, visited) _ => 4096 - visited)).
  - intros [block visited] s' (-> & l & r & Hat & Hno).
    destruct (negb _) eqn:Hc.
    + apply wp_ret. apply wp_bind.
      assert (first_fit n bs = None) as Hnone.
      { unfold first_fit. rewrite <- (loop_cond_exit _ _ _ _ _ _ Hok Hat Hc). by apply list_find_None. }
      eapply (heap_grow_ok bs); [done| |].
      * intros s' Hk Hsp Hg. cbn [negb]. apply wp_ret. by apply HQg.
      * intros s' [K1 K2 K3 K4 K5]. cbn [negb]. apply wp_bind, wp_mod, wp_ret, HQf; [done| |done].
        constructor; [by eapply heap_ok_stats|by apply K2|]. cbn. by rewrite K3.
    + destruct (loop_cond _ _ _ _ _ _ Hok Hat Hc) as (b & r' & -> & -> & Hlt).
      pose proof Hat as (Ebs & _ & Ev & _). rewrite Ebs in Hok.
      pose proof (heap_ok_good _ _ b Hok (elem_middle l b r')) as Hg.
      apply wp_bind, (wp_sane _ b Hg). cbn [negb].
      apply wp_bind, (wp_block_used _ b Hg), wp_bind, (wp_block_size _ b Hg).
      destruct (decide (fits n b)) as [Hfit|Hnf].
      * pose proof Hfit as [Hf Hnb]. rewrite Hf, (proj2 (Z.leb_le _ _)) by done. cbn [negb andb].
        pose proof (good_range _ _ Hg) as Hr. pose proof (gd_size _ _ Hg).
        assert (first_fit n bs = Some (length l, b)) as Hff.
        { apply list_find_Some. unfold visited_blocks. rewrite Ebs. split_and!; [|done|].
          - rewrite lookup_take_lt by lia. by rewrite list_lookup_middle.
          - intros j c Hj Hlt'. rewrite lookup_take_lt, lookup_app_l in Hj by lia.
            by eapply Forall_lookup_1 in Hno. }
        eapply take_ok; [exact Hok|done|lia|done|]. intros s' H1' H2' H3' H4'.
        apply wp_ret, wp_ret. change heap_header_size with 16.
        unfold b_end, HS, HE in *. rewrite u32_small by (unfold is_u32; lia).
        apply (HQa l b r'); try done; [|by rewrite Ebs]. constructor; try done. by rewrite H3'.
      * assert (negb (b_used b) && (n <=? b_size b) = false) as ->.
        { unfold fits in Hnf. destruct (b_used b); [done|]. cbn. apply Z.leb_gt. 
          destruct (decide (n <= b_size b)); [tauto|lia]. }
        apply wp_bind, (wp_block_next _ b Hg), wp_ret. rewrite (heap_ok_next _ _ _ _ Hok).
        pose proof (at_block_step _ _ _ _ _ _ Hat Hlt) as Hat'.
        split; [split; [done|]|].
        -- eexists _, _. split; [exact Hat'|]. apply Forall_app. split; [done|by constructor].
        -- destruct Hat' as (_ & _ & _ & Hle). rewrite incr_small in * by lia. lia.
  - split; [done|]. exists [], bs. split; [|constructor]. split; [done|].
    split; [by eapply heap_ok_head|]. done.
  - lia.
Qed.

Lemma merge_list_live bs : live (merge_list bs) = live bs.
Proof. destruct bs as [|b bs]; [done|]. apply merge_into_live. Qed.

(** What a caller learns from [kmalloc]: nothing was allocated, or one block
    that fits the request was added to the live blocks. *)
Definition allocated (size p : Z) (before after : list blk) : Prop :=
  (p = 0 /\ after = before) \/
  exists l r c, before = l ++ r /\ after = l ++ c :: r /\ p = b_addr c + 16 /\ size <= b_size c.

(** The bytes that free blocks add to a block they are joined to. *)
Fixpoint joined_size (r : list blk) : Z :=
  match r with [] => 0 | c :: r' => 16 + b_size c + joined_size r' end.

Lemma merge_into_free n b r :
  b_used b = false -> Forall (fun c => b_used c = false) r -> (length r <= n)%nat ->
  merge_into n b r = [Blk (b_addr b) (b_size b + joined_size r) false].
Proof.
  revert b. induction r as [|c r IH]; intros b Hb Hr Hn.
  { destruct b; cbn in *; subst. destruct n; by rewrite Z.add_0_r. }
  apply Forall_cons in Hr as [Hc Hr]. cbn in Hn. destruct n as [|n]; [lia|]. cbn [merge_into].
  rewrite Hb, Hc. cbn [negb andb]. rewrite IH by (done || (cbn; lia)). cbn. do 2 f_equal. lia.
Qed.

(** Free blocks at the end of the list become part of one free block, when the
    merging traversal reaches the end. *)
Lemma merge_into_suffix n b l c r :
  0 <= b_size b -> Forall (fun d => 0 <= b_size d) l ->
  Forall (fun d => b_used d = false) (c :: r) -> (length (l ++ c :: r) <= n)%nat ->
  exists y, y ∈ merge_into n b (l ++ c :: r) /\ b_used y = false /\ b_size c + joined_size r <= b_size y.
Proof.
  revert n b. induction l as [|d l IH]; intros n b Hb Hl Hf Hn; cbn in Hn;
    (destruct n as [|n]; [lia|]); cbn [app merge_into].
  - apply Forall_cons in Hf as [Hc Hf]. rewrite Hc. destruct (b_used b); cbn [negb andb];
      rewrite merge_into_free by (done || cbn; lia); eexists; [split; [right; by left|]|split; [by left|]];
      cbn; (split; [done|lia]).
  - apply Forall_cons in Hl as [Hd Hl]. destruct (negb (b_used b) && negb (b_used d)).
    + apply IH; cbn; try done; lia.
    + destruct (IH n d Hd Hl Hf ltac:(lia)) as (y & Hy & ?). exists y. split; [by right|done].
Qed.

Lemma merge_into_length n b r : (length (merge_into n b r) <= S (length r))%nat.
Proof.
  revert n b. induction r as [|c r IH]; intros n b; (destruct n as [|n]; [done|]); cbn [merge_into]; [done|].
  case_match; [specialize (IH (S n) (join b c))|specialize (IH n c)]; cbn in *; lia.
Qed.

Lemma joined_size_new base k j :
  joined_size ((fun j => Blk (base + 4096 * j) 4080 false) <$> seqZ j k) = 4096 * Z.max 0 k.
Proof.
  unfold seqZ. rewrite <- list_fmap_compose. replace (Z.max 0 k) with (Z.of_nat (Z.to_nat k)) by lia.
  generalize 0%nat as i. induction (Z.to_nat k) as [|n IH]; intros i; [done|]. cbn -[Z.mul Z.of_nat].
  rewrite IH. lia.
Qed.

(** The request that made the heap grow by [k] pages fits afterwards. *)
Lemma grown_fits bs base k n lo hi :
  tiles lo hi bs -> (length bs <= 4080)%nat -> 1 <= k <= 16 -> n <= 4096 * k - 16 ->
  exists i b, first_fit n (merge_list (bs ++ new_blocks base k)) = Some (i, b).
Proof.
  intros Ht Hlen Hk Hn.
  assert (exists r, new_blocks base k = Blk base 4080 false :: r /\ joined_size r = 4096 * (k - 1) /\
    Forall (fun d => b_used d = false) r /\ length r = Z.to_nat (k - 1)) as (r & En & Er & Hf & Hl).
  { eexists. unfold new_blocks. rewrite seqZ_cons, fmap_cons by lia. rewrite Z.mul_0_r, Z.add_0_r.
    split; [reflexivity|]. rewrite joined_size_new, length_fmap, length_seqZ. split; [lia|].
    split; [by apply Forall_fmap, Forall_forall|done]. }
  assert (exists y, y ∈ merge_list (bs ++ new_blocks base k) /\ b_used y = false /\ 4096 * k - 16 <= b_size y)
    as (y & Hy & Hu & Hs).
  { rewrite En. destruct bs as [|b bs]; cbn [app merge_list merge_from].
    - unfold merge_list, merge_from. rewrite merge_into_free by (done || lia). eexists. split; [by left|].
      cbn [b_used b_size]. split; [done|lia].
    - destruct (merge_into_suffix 4096 b bs (Blk base 4080 false) r) as (y & ? & ? & ?).
      + pose proof (tiles_elem _ _ _ b Ht ltac:(by left)). lia.
      + apply Forall_forall. intros d Hd. pose proof (tiles_elem _ _ _ d Ht ltac:(by right)). lia.
      + by constructor.
      + rewrite length_app. cbn in *. lia.
      + exists y. cbn [b_size] in *. split; [done|]. split; [done|lia]. }
  unfold first_fit. destruct (list_find_elem_of (fits n) (visited_blocks (merge_list (bs ++ new_blocks base k))) y)
    as [[i b] ?]; [|split; [done|lia]|eauto].
  unfold visited_blocks. rewrite take_ge; [done|]. rewrite En.
  destruct bs as [|b bs]; cbn [app merge_list merge_from]; unfold merge_list, merge_from;
    (etrans; [apply merge_into_length|]); rewrite ?length_app; cbn [length] in *; lia.
Qed.

(** [kmalloc] keeps every property [P] of the block list that growing the heap
    keeps, and then takes the first block that fits. With at most 4080 blocks, and
    for a request whose page count does not wrap, the nested call finds the block
    the heap grew by. *)
Lemma kmalloc_gen (P : list blk -> Prop) bs s size :
  heap_inv bs s -> 0 < size <= 0xFFFFEFF0 -> (length bs <= 4080)%nat -> P bs ->
  (forall base k, 0 <= k <= 16 -> P (merge_list (bs ++ new_blocks base k))) ->
  wp (kmalloc size) (fun p s' => exists bs', heap_inv bs' s' /\
    payload_same (live bs) (heap_mem s) (heap_mem s') /\
    ((p = 0 /\ live bs' = live bs /\ first_fit (align_up size HEAP_ALIGNMENT) bs = None /\ P bs') \/
     exists l b r n, bs' = l ++ take_blk b n ++ r /\ P (l ++ b :: r) /\ live (l ++ b :: r) = live bs /\
       first_fit n (l ++ b :: r) = Some (length l, b) /\ fits n b /\ size <= n /\ p = b_addr b + 16)) s.
Proof.
  intros Hinv Hsize Hlen HP Hgrow. destruct (align_request size ltac:(lia)) as (Ha1 & Ha8 & Ha2).
  assert (align_up size HEAP_ALIGNMENT <= 0xFFFFEFF0) as Ha3 by (Z.div_mod_to_equations; lia).
  set (n := align_up size HEAP_ALIGNMENT) in *. destruct (align_request n ltac:(lia)) as (Hb1 & Hb8 & _).
  assert (align_up n HEAP_ALIGNMENT = n) as En by (Z.div_mod_to_equations; lia).
  unfold kmalloc. cbn [kmalloc_nested]. apply wp_bind, (kmalloc_body_ok bs); [done|lia|..]; fold n.
  - intros l b r s1 -> Hfit Hff Hinv1 Hdata1. apply wp_ret. eexists. split; [exact Hinv1|].
    split; [done|]. right. eexists l, b, r, n. split_and!; try done; lia.
  - intros s1 Hno Hinv1 Hdata1. apply wp_ret. exists bs. split; [done|]. split; [done|]. by left.
  - intros s1 Hno Hsp Hk [G1 G2 G3 G4 G5]. pose proof (pages_needed_pos n) as Hk1.
    destruct (pages_needed_enough n ltac:(lia)) as [Hen _].
    set (bs1 := merge_list _) in *.
    assert (heap_inv bs1 s1) as Hinv1 by (constructor; [done|done|rewrite G3; apply Hinv]).
    assert (live bs1 = live bs) as Hlive
      by (unfold bs1; by rewrite merge_list_live, live_app, new_blocks_live, app_nil_r).
    destruct (grown_fits bs (next_virtual_page (heap_stats s)) (pages_needed n) n _ _
      (ho_tiles _ _ (hi_ok _ _ Hinv)) Hlen ltac:(lia) ltac:(lia)) as (i & b & Hff). fold bs1 in Hff.
    apply wp_bind, (kmalloc_body_ok bs1); [done|lia|..]; rewrite En, Hff; try done.
    intros l b' r s2 Ebs Hfit [= -> ->] Hinv2 Hdata2. apply wp_ret. eexists. split; [exact Hinv2|].
    rewrite Hlive in Hdata2. split; [by eapply payload_same_trans|]. right. eexists l, b', r, n.
    split; [done|]. rewrite <- Ebs. unfold bs1 at 1. split; [apply Hgrow; lia|]. split_and!; try done; lia.
Qed.

Lemma kmalloc_ok bs s size :
  heap_inv bs s -> 0 < size <= 0xFFFFEFF0 -> (length bs <= 4080)%nat ->
  wp (kmalloc size) (fun p s' => exists bs', heap_inv bs' s' /\
    payload_same (live bs) (heap_mem s) (heap_mem s') /\ allocated size p (live bs) (live bs') /\
    (p = 0 -> first_fit (align_up size HEAP_ALIGNMENT) bs = None) /\
    (p <> 0 -> exists c, c ∈ visited_blocks bs' /\ b_used c = true /\ p = b_addr c + 16)) s.
Proof.
  intros Hinv Hsize Hlen. eapply wp_mono; [by apply (kmalloc_gen (fun _ => True))|].
  intros p s' (bs' & Hinv' & Hdata & Hcase). exists bs'. split; [done|]. split; [done|].
  destruct Hcase as [(-> & El & Hno & _)|(l & b & r & n & -> & _ & El & Hff & Hfit & Hn & ->)].
  - split; [by left|done].
  - destruct (take_blk_live l b r _ Hfit) as (c & E1 & E2 & E3 & E4 & _).
    assert (c ∈ l ++ take_blk b n ++ r) as Hc by (eapply live_elem; rewrite E1; apply elem_middle).
    pose proof (heap_ok_addr _ _ c (hi_ok _ _ Hinv') Hc) as Hc0.
    pose proof (good_range _ _ (heap_ok_good _ _ c (hi_ok _ _ Hinv') Hc)) as Hr.
    split; [right|split; [intros; exfalso; unfold HS in *; lia|intros _; by apply take_blk_visited]].
    exists (live l), (live r), c. rewrite E1, <- El, E2. split_and!; try done; lia.
Qed.

(** ** Release *)

Lemma find_ptr_Some p bs b :
  find_ptr p bs = Some b -> exists l r, bs = l ++ b :: r /\ b_addr b + 16 = p.
Proof.
  unfold find_ptr. destruct (list_find _ _) as [[i c]|] eqn:Ef; [|done]. intros [= ->].
  apply list_find_Some in Ef as (Hi & Hb & _). apply lookup_take_Some in Hi as [Hi _].
  apply list_elem_of_lookup_2, list_elem_of_split in Hi as (l & r & ->). eauto.
Qed.

(** Distinct blocks have distinct payload addresses, so the pointer of any
    visited block is found. *)
Lemma find_ptr_elem bs s b :
  heap_ok bs s -> b ∈ visited_blocks bs -> find_ptr (b_addr b + 16) bs = Some b.
Proof.
  intros Hok Hb. unfold find_ptr. destruct (list_find _ _) as [[i c]|] eqn:Ef.
  - apply list_find_Some in Ef as (Hi & Hc & _). cbn. f_equal.
    apply lookup_take_Some in Hi as [Hi _]. apply list_elem_of_lookup_2 in Hi.
    apply list_elem_of_lookup in Hb as [j Hj]. apply lookup_take_Some in Hj as [Hj _].
    apply list_elem_of_lookup_2 in Hj. apply list_elem_of_split in Hj as (l & r & ->).
    destruct (decide (c = b)) as [->|Hne]; [done|].
    assert (c ∈ l ++ r) as Hc'.
    { apply elem_of_app in Hi as [Hi|Hi]; [apply elem_of_app; by left|].
      apply elem_of_cons in Hi as [->|Hi]; [done|apply elem_of_app; by right]. }
    pose proof (tiles_disjoint _ _ _ _ _ _ (ho_tiles _ _ Hok) Hc').
    assert (c ∈ l ++ b :: r) as Hcin by (apply elem_of_app in Hc' as [?|?]; apply elem_of_app; [by left|right; by right]).
    pose proof (gd_size _ _ (heap_ok_good _ _ _ Hok Hcin)).
    pose proof (gd_size _ _ (heap_ok_good _ _ _ Hok (elem_middle l b r))). unfold b_end in *. lia.
  - apply list_find_None in Ef. rewrite Forall_forall in Ef. exfalso. by apply (Ef b Hb).
Qed.

Lemma kfree_ok bs s p :
  heap_inv bs s -> is_u32 p ->
  wp (kfree p) (fun _ s' => exists bs', heap_inv bs' s' /\
    payload_same (live bs') (heap_mem s) (heap_mem s') /\
    match find_ptr p bs with
    | Some b => if b_used b
                then exists l r, bs = l ++ b :: r /\ live bs' = live l ++ live r /\
                     bs' = merge_list (l ++ Blk (b_addr b) (b_size b) false :: r)
                else bs' = bs /\ double_free_count (heap_stats s') = incr (double_free_count (heap_stats s))
    | None => bs' = bs /\ (p <> 0 ->
                invalid_free_count (heap_stats s') = incr (invalid_free_count (heap_stats s)))
    end) s.
Proof.
  intros [Hok Hst Hini] Hp. unfold kfree.
  assert (Hz : p = 0 -> find_ptr p bs = None).
  { intros ->. destruct (find_ptr 0 bs) as [b|] eqn:Ef; [|done].
    apply find_ptr_Some in Ef as (l & r & -> & Hb).
    pose proof (good_range _ _ (heap_ok_good _ _ _ Hok (elem_middle l b r))). unfold HS in *. lia. }
  destruct (Z.eqb_spec p 0) as [E0|Hp0].
  { rewrite (Hz E0). apply wp_ret. exists bs. split; [done|]. split; [by intros ? ?|]. done. }
  apply wp_bind. eapply (find_block_ok bs); [done..|].
  destruct (find_ptr p bs) as [b|] eqn:Ef.
  - apply find_ptr_Some in Ef as (l & r & -> & Hb).
    pose proof (heap_ok_good _ _ b Hok (elem_middle l b r)) as Hg.
    pose proof (good_range _ _ Hg). rewrite (proj2 (Z.eqb_neq _ _)) by (unfold HS in *; lia).
    apply wp_bind, (wp_block_used _ b Hg). destruct (b_used b) eqn:Hu; cbn [negb].
    + apply wp_bind. eapply set_used_ok; [exact Hok|]. change (negb (u8 0 =? 0)) with false.
      intros m1 Hok1 Hp1. apply wp_bind, wp_mod, wp_bind.
      eapply merge_ok; [by eapply heap_ok_stats|]. intros m2 Hok2 Hp2.
      eapply recalculate_ok; [exact Hok2|]. destruct (with_stats_ok _ _ Hok2) as [Hok3 Hst3].
      assert (live (l ++ Blk (b_addr b) (b_size b) false :: r) = live l ++ live r) as El.
      { by rewrite live_app. }
      eexists. split; [constructor; [exact Hok3|exact Hst3|done]|].
      rewrite merge_list_live, El. rewrite El in Hp2. split; [|eauto].
      eapply payload_same_trans; [|exact Hp2]. eapply payload_same_sub; [|exact Hp1].
      intros c Hc. rewrite <- live_app in Hc. apply live_elem in Hc as [_ Hc].
      apply elem_of_app in Hc as [?|?]; apply elem_of_app; [by left|right; by right].
    + apply wp_mod. eexists. split; [constructor; [by eapply heap_ok_stats|exact Hst|exact Hini]|].
      split; [by intros ? ?|]. done.
  - cbn. apply wp_mod. eexists. split; [constructor; [by eapply heap_ok_stats|exact Hst|exact Hini]|].
    split; [by intros ? ?|]. done.
Qed.

Lemma validate_ok bs s p (Q : bool -> heap_state E -> Prop) :
  heap_inv bs s -> is_u32 p ->
  Q (match find_ptr p bs with Some b => b_used b | None => false end) s ->
  wp (heap_validate_pointer p) Q s.
Proof.
  intros [Hok Hst Hini] Hp HQ. apply wp_bind. eapply (find_block_ok bs); [done..|].
  destruct (find_ptr p bs) as [b|] eqn:Ef; [|by apply wp_ret].
  apply find_ptr_Some in Ef as (l & r & -> & Hb).
  pose proof (heap_ok_good _ _ b Hok (elem_middle l b r)) as Hg.
  pose proof (good_range _ _ Hg). rewrite (proj2 (Z.eqb_neq _ _)) by (unfold HS in *; lia).
  by apply (wp_block_used _ b Hg).
Qed.

(** ** Initialization *)

Lemma initialize_ok s :
  pp_inv (heap_env s) ->
  wp heap_initialize (fun _ s' =>
    if heap_initialized (heap_stats s') then heap_inv [Blk HS 4080 false] s' else heap_ok [] s') s.
Proof.
  intros Hpp. unfold heap_initialize.
  apply wp_bind, wp_mod, wp_bind, wp_mod, wp_bind, wp_mod, wp_bind, wp_mod, wp_bind.
  set (s1 := _ <| heap_audit_info ::= _ |>).
  assert (heap_ok [] s1) as Hok1.
  { constructor; try done. constructor; [exact Hpp|]. exists []. split; [constructor|]. done. }
  eapply (heap_grow_ok []); [exact Hok1| |].
  - intros s2 _ _ [G1 G2 G3 G4 G5].
    replace (merge_list _) with [Blk HS 4080 false] in G1, G2 by (vm_compute; reflexivity).
    cbn [negb]. apply wp_bind, wp_mod. eapply recalculate_ok; [by eapply heap_ok_stats|].
    cbn [heap_stats]. constructor; [by eapply heap_ok_stats|done|done].
  - intros s2 [K1 K2 K3 K4 K5]. cbn [negb]. apply wp_ret. rewrite K3. exact K1.
Qed.

(** ** Audit *)

(** The audit record after the blocks [l], with [n] issues. *)
Record audited (n : Z) (l : list blk) (a : heap_audit_info_t) : Prop := {
  au_issues : heap_issues_found a = n;
  au_used : calculated_used_bytes a = sum_sizes b_used l;
  au_free : calculated_free_bytes a = sum_sizes (fun b => negb (b_used b)) l;
  au_seen : blocks_seen a = Z.of_nat (length l)
}.

Definition last_addr (l : list blk) : Z := match last l with Some b => b_addr b | None => 0 end.

Lemma audit_block_ok bs s l b r a :
  heap_ok bs s -> bs = l ++ b :: r -> Z.of_nat (length l) < 4096 -> audited 0 l a ->
  wp (heap_audit_block (b_addr b, last_addr l, Z.of_nat (length l)))
     (fun res s' => res = inl (start_of r, b_addr b, Z.of_nat (length l) + 1) /\
        exists a', s' = s <| heap_audit_info := a' |> /\ audited 0 (l ++ [b]) a')
     (s <| heap_audit_info := a |>).
Proof.
  intros Hok Ebs Hlt [A1 A2 A3 A4]. set (s1 := s <| heap_audit_info := a |>).
  pose proof (recalc_step _ _ _ _ _ Hok Ebs) as Hrc. rewrite Ebs in Hok.
  assert (forall a', heap_ok (l ++ b :: r) (s <| heap_audit_info := a' |>)) as Hok' by (intros; by eapply heap_ok_stats).
  pose proof (fun a' => heap_ok_good _ _ b (Hok' a') (elem_middle l b r)) as Hg.
  pose proof (good_range _ _ (Hg a)) as Hr. pose proof (gd_size _ _ (Hg a)) as [Hsz _].
  unfold heap_audit_block.
  rewrite (proj2 (Z.eqb_neq _ _)) by (unfold HS in *; lia).
  unfold HEAP_MAX_AUDIT_BLOCKS. rewrite (proj2 (Z.leb_gt _ _)) by done.
  apply wp_bind, wp_mod. set (a1 := a <| blocks_seen ::= incr |>).
  change (s1 <| heap_audit_info ::= _ |>) with (s <| heap_audit_info := a1 |>).
  apply wp_bind, wp_get.
  change (heap_stats (s <| heap_audit_info := a1 |>)) with (heap_stats s). unfold heap_address_in_range, heap_address_is_aligned.
  rewrite (ho_start _ _ Hok), (ho_end _ _ Hok). unfold b_end in Hr.
  rewrite (proj2 (Z.leb_le HS _)), (proj2 (Z.leb_le _ (HE - 1))) by lia. cbn [andb negb].
  assert (Z.land (b_addr b) (HEAP_ALIGNMENT - 1) = 0) as ->.
  { transitivity (b_addr b mod 8); [apply (land_low_mask _ 3); lia|apply (gd_aligned _ _ (Hg a))]. }
  cbn [negb Z.eqb mwhen]. apply wp_bind, wp_ret.
  destruct (gd_header _ _ (Hg a1)) as (E1 & E2 & _).
  apply wp_bind, wp_hread32; [apply (good_mapped _ _ (Hg a1)); unfold b_end; lia|].
  rewrite E1. cbn [negb Z.eqb Pos.eqb HEAP_BLOCK_MAGIC].
  apply wp_bind, (wp_block_size _ b (Hg a1)). change heap_header_size with 16.
  unfold HS, HE in *.
  rewrite !(u32_small (b_addr b + 16)), !(u32_small (b_addr b + 16 + b_size b)),
    !(u32_small (b_addr b + 16 + b_size b - 1)) by (unfold is_u32; lia).
  rewrite (proj2 (Z.eqb_neq _ _)), (proj2 (Z.ltb_ge _ _)) by lia. cbn [orb].
  assert (negb (last_addr l =? 0) && (b_addr b <=? last_addr l) = false) as ->.
  { unfold last_addr. destruct (last l) as [c|] eqn:El; [|done].
    apply last_Some in El as (l' & ->).
    pose proof (ho_tiles _ _ Hok) as Ht. apply tiles_app in Ht as (mid & Hl & Em & _).
    assert (c ∈ l' ++ [c]) as Hc by apply elem_middle.
    pose proof (tiles_elem _ _ _ _ Hl Hc) as (_ & Hcs & _ & Hce). unfold b_end in Hce.
    rewrite andb_false_iff. right. apply Z.leb_gt. lia. }
  apply wp_bind, (wp_block_used _ b (Hg a1)). apply wp_bind.
  assert (Hcalc : forall a2, calculated_used_bytes a2 = rc_used (recalc_of (l ++ [b])) ->
    calculated_free_bytes a2 = rc_free (recalc_of (l ++ [b])) ->
    heap_issues_found a2 = 0 -> blocks_seen a2 = incr (Z.of_nat (length l)) ->
    wp (audit_mod (fun i => i <| calculated_total_payload_bytes ::= fun n => n [+] b_size b |>) ;;;
        next <- block_next (b_addr b) ;; mret_ (inl (next, b_addr b, incr (Z.of_nat (length l)))))
      (fun (res : Z * Z * Z + unit) s' => res = inl (start_of r, b_addr b, Z.of_nat (length l) + 1) /\
        exists a', s' = s <| heap_audit_info := a' |> /\ audited 0 (l ++ [b]) a')
      (s <| heap_audit_info := a2 |>)).
  { intros a2 H1 H2 H3 H4. apply wp_bind, wp_mod.
    set (a3 := a2 <| calculated_total_payload_bytes ::= fun n => n [+] b_size b |>).
    change (s <| heap_audit_info := a2 |> <| heap_audit_info ::= _ |>)
      with (s <| heap_audit_info := a3 |>).
    apply wp_bind, (wp_block_next _ b (Hg a3)), wp_ret. rewrite (heap_ok_next _ _ _ _ (Hok' a3)).
    rewrite incr_small in * by lia. split; [done|]. exists a3. split; [done|].
    constructor; cbn; rewrite ?length_app; try done. cbn. lia. }
  rewrite <- Hrc in Hcalc. destruct (b_used b); apply wp_mod.
  - set (a2 := a1 <| used_blocks ::= incr |> <| calculated_used_bytes ::= fun n => n [+] b_size b |>).
    apply (Hcalc a2); cbn; rewrite ?A1, ?A2, ?A3, ?A4; done.
  - set (a2 := a1 <| free_blocks ::= incr |> <| calculated_free_bytes ::= fun n => n [+] b_size b |>).
    apply (Hcalc a2); cbn; rewrite ?A1, ?A2, ?A3, ?A4; done.
Qed.

(** A list of more than 4096 blocks counts as one issue. *)
Definition too_long bs : Z := if decide (Z.of_nat (length bs) <= 4096) then 0 else 1.

Lemma audit_blocks_ok bs s a (Q : unit -> heap_state E -> Prop) :
  heap_ok bs s -> audited 0 [] a ->
  (forall a', audited (too_long bs) (visited_blocks bs) a' -> Q tt (s <| heap_audit_info := a' |>)) ->
  wp (mloop heap_audit_block (heap_head s, 0, 0)) Q (s <| heap_audit_info := a |>).
Proof.
  intros Hok Ha HQ.
  apply (wp_loop _
    (fun '(block, previous, visited) s' => exists l r a', at_block bs l r block visited /\
       previous = last_addr l /\ s' = s <| heap_audit_info := a' |> /\ audited 0 l a')
    (fun '(_, _, visited) _ => 4096 - visited)).
  - intros [[block previous] visited] s' (l & r & a' & Hat & -> & -> & Ha').
    pose proof Hat as (Ebs & -> & -> & Hle). destruct r as [|b r].
    + cbn. apply wp_ret, HQ. rewrite <- (at_block_done _ _ _ _ _ Hat) by by left.
      rewrite app_nil_r in Ebs. unfold too_long. rewrite Ebs, decide_True by lia. done.
    + assert (b ∈ bs) as Hb by (rewrite Ebs; apply elem_middle).
      destruct (decide (Z.of_nat (length l) = 4096)) as [Hfull|Hlt].
      * unfold heap_audit_block. cbn [start_of].
        rewrite (proj2 (Z.eqb_neq _ _)) by by eapply heap_ok_addr.
        unfold HEAP_MAX_AUDIT_BLOCKS. rewrite (proj2 (Z.leb_le _ _)) by lia.
        apply wp_bind, wp_bind, wp_mod, wp_mod, wp_ret.
        set (a2 := a' <| heap_issues_found ::= incr |> <| invalid_next_links ::= incr |>).
        apply (HQ a2). rewrite <- (at_block_done _ _ _ _ _ Hat) by by right.
        destruct Ha' as [A1 A2 A3 A4]. unfold too_long. rewrite Ebs, length_app, decide_False by (cbn; lia).
        constructor; cbn; rewrite ?A1; done.
      * eapply wp_mono; [apply (audit_block_ok bs s l b r a' Hok Ebs); [lia|done]|].
        intros res s' (-> & a'' & -> & Ha''). split; [|lia].
        pose proof (at_block_step _ _ _ _ _ _ Hat ltac:(lia)) as Hat'.
        rewrite incr_small in Hat' by lia. exists (l ++ [b]), r, a''. unfold last_addr.
        rewrite last_snoc. done.
  - exists [], bs, a. split_and!; try done. split; [done|]. split; [by eapply heap_ok_head|]. done.
  - lia.
Qed.

Lemma audit_pages_ok bs s (Q : unit -> heap_state E -> Prop) :
  heap_ok bs s -> Q tt s ->
  wp (mloop (fun address =>
        if negb (address <? next_virtual_page (heap_stats s)) then mret_ (inr tt)
        else
          mapped <- on_env (page_is_mapped address) ;;
          mwhen (negb mapped)
            (heap_audit_record_issue (fun i => i <| unmapped_heap_pages ::= incr |>)) ;;;
          mret_ (inl (address [+] PMM_PAGE_SIZE))) HS) Q s.
Proof.
  intros Hok HQ. destruct (next_page_bounds _ _ Hok) as [Hb Hal].
  apply (wp_loop _ (fun address s' => s' = s /\ HS <= address <= next_virtual_page (heap_stats s) /\
      address mod 4096 = 0)
    (fun address _ => next_virtual_page (heap_stats s) - address)).
  - intros address s' (-> & Ha & Haal).
    destruct (Z.ltb_spec address (next_virtual_page (heap_stats s))); cbn [negb]; [|by apply wp_ret].
    apply wp_bind, wp_on_env.
    assert (is_u32 address) as Hu by (unfold is_u32, HS, HE in *; lia).
    eexists _, _. split; [apply pp_is_mapped_ok; [apply (ho_env _ _ Hok)|done]|].
    rewrite bool_decide_eq_true_2 by (eapply env_mapped; [apply Hok|lia]). cbn [negb mwhen].
    replace (s <| heap_env := heap_env s |>) with s by by destruct s.
    apply wp_bind, wp_ret, wp_ret. unfold PMM_PAGE_SIZE, HS, HE in *.
    rewrite u32_small by (unfold is_u32; Z.div_mod_to_equations; lia).
    split; [split; [done|]|]; Z.div_mod_to_equations; lia.
  - split; [done|]. split; [lia|done].
  - unfold HS, HE in *. lia.
Qed.

Lemma audit_ok bs s :
  heap_inv bs s ->
  wp heap_audit (fun issues s' => issues = too_long bs /\ heap_inv bs s' /\
    audited (too_long bs) (visited_blocks bs) (heap_audit_info s') /\ heap_mem s' = heap_mem s) s.
Proof.
  intros [Hok Hst Hini]. unfold heap_audit.
  apply wp_bind, wp_mod, wp_bind, wp_mod, wp_bind, wp_get.
  set (s1 := s <| heap_audit_info ::= _ |> <| heap_audit_info ::= _ |>).
  change (heap_stats s1) with (heap_stats s). rewrite Hini. cbn [negb].
  apply wp_bind, wp_get, wp_bind. change (heap_head s1) with (heap_head s).
  change s1 with (s <| heap_audit_info := heap_audit_info s1 |>).
  eapply (audit_blocks_ok bs); [done|by constructor|]. intros a Ha.
  rewrite (ho_start _ _ Hok). apply wp_bind.
  set (s2 := s <| heap_audit_info := a |>).
  change (next_virtual_page (heap_stats s)) with (next_virtual_page (heap_stats s2)).
  eapply (audit_pages_ok bs); [by eapply heap_ok_stats|].
  apply wp_bind, wp_get. change (heap_audit_info s2) with a. pose proof Ha as [A1 A2 A3 A4].
  pose proof Hst as (S1 & S2 & _).
  rewrite A2, A3, S1, S2. cbn [rc_used rc_free recalc_of]. rewrite !Z.eqb_refl. cbn [negb mwhen].
  apply wp_bind, wp_ret, wp_bind, wp_ret, wp_get. split; [done|]. split; [|done].
  constructor; [by eapply heap_ok_stats|exact Hst|done].
Qed.
End Contract.
