(* ===== verification/HeapTheorems.v ===== *)
(** * Theorems about the kernel heap

    The contract of [HeapSpec] as the properties a user of memory/heap.c relies
    on, and evaluations of the whole stack: the heap over the virtual and the physical memory manager. *)
From S2P Require Import Prelude Mem Boot Pmm Vmm Pages Heap HeapBlocks HeapProofs HeapGrow HeapSpec.

(** ** The heap on the real memory managers *)

Definition heap_zero : heap_state vmm_state := {|
  heap_env := vmm_sample; heap_mem := ∅; heap_head := 0;
  heap_stats := Build_heap_stats_t false 0 0 0 0 0 0 0 0 0 0 0 0 0 0 0;
  heap_audit_info := Build_heap_audit_info_t 0 0 0 0 0 0 0 0 0 0 0 0 0 0 |}.

(** The heap after [heap_initialize] on the machine of [vmm_sample]. *)
Definition heap_boot : heap_state vmm_state := final heap_initialize heap_zero.

Lemma vmm_sample_ready : vmm_ready vmm_sample.
Proof. split; [apply vmm_sample_inv|reflexivity]. Qed.

Lemma heap_boot_inv : heap_inv [Blk HS 4080 false] heap_boot.
Proof.
  assert (pp_inv (heap_env heap_zero)) as Hpp by exact vmm_sample_ready.
  destruct (initialize_ok heap_zero Hpp) as ([] & s' & Erun & HQ).
  assert ((fun r => heap_initialized (heap_stats (snd r))) <$> heap_initialize heap_zero = Some true) as Ei
    by (vm_compute; reflexivity).
  unfold heap_boot, final. rewrite Erun in *. cbn in Ei. injection Ei as Ei. by rewrite Ei in HQ.
Qed.

Section Theorems.
Context {E : Type} `{PageProviderLaws E}.
Implicit Types (s : heap_state E) (bs : list blk).

(** A live block overlaps no other live block. *)
Lemma tiles_live_disjoint lo hi bs l c r d :
  tiles lo hi bs -> live bs = l ++ c :: r -> d ∈ l ++ r -> b_end d <= b_addr c \/ b_end c <= b_addr d.
Proof.
  intros Ht El Hd. assert (NoDup (l ++ c :: r)) as Hnd.
  { rewrite <- El. apply NoDup_filter. by eapply tiles_nodup. }
  assert (d <> c) as Hne.
  { intros ->. apply NoDup_app in Hnd as (_ & Hn1 & Hn2). apply NoDup_cons in Hn2 as [Hn2 _].
    apply elem_of_app in Hd as [Hl|Hl]; [|done]. apply (Hn1 c Hl). by left. }
  assert (d ∈ bs) as Hdin.
  { eapply live_elem. rewrite El. apply elem_of_app in Hd as [?|?]; apply elem_of_app;
      [by left|right; by right]. }
  assert (c ∈ bs) as Hc by (eapply live_elem; rewrite El; apply elem_middle).
  apply list_elem_of_split in Hc as (l1 & r1 & ->).
  apply (tiles_disjoint _ _ _ _ _ _ Ht).
  apply elem_of_app in Hdin as [?|Hin]; [apply elem_of_app; by left|].
  apply elem_of_cons in Hin as [->|?]; [done|apply elem_of_app; by right].
Qed.

(** C4: on a well-formed heap of at most 4080 blocks, [kmalloc] returns for every
    request of 1 to 0xFFFFEFF0 bytes, with at most one nested call of itself.
    Either no free block fits the request, [kmalloc] returns NULL and the live
    blocks are the same, or it returns an 8-byte aligned address inside the heap at
    which at least [size] bytes are usable and overlap no live block. In both cases
    the heap stays well formed and the contents of every live block are unchanged. *)
Theorem kmalloc_contract bs s size :
  heap_inv bs s -> 0 < size <= 0xFFFFEFF0 -> (length bs <= 4080)%nat ->
  wp (kmalloc size) (fun p s' => exists bs', heap_inv bs' s' /\
    payload_same (live bs) (heap_mem s) (heap_mem s') /\
    ((p = 0 /\ live bs' = live bs /\ first_fit (align_up size HEAP_ALIGNMENT) bs = None) \/
     exists l r c, live bs = l ++ r /\ live bs' = l ++ c :: r /\ p = b_addr c + 16 /\
       size <= b_size c /\ p mod 8 = 0 /\ HS <= p /\ p + size <= HE /\
       forall d, d ∈ live bs -> b_end d <= b_addr c \/ b_end c <= b_addr d)) s.
Proof.
  intros Hinv Hsize Hlen. eapply wp_mono; [by apply kmalloc_ok|].
  intros p s' (bs' & Hinv' & Hdata & Halloc & Hnull & _). exists bs'. split; [done|]. split; [done|].
  destruct Halloc as [[E0 El]|(l & r & c & E1 & E2 & -> & Hsz)]; [by left; auto|right].
  exists l, r, c. assert (c ∈ live bs') as Hc by (rewrite E2; apply elem_middle).
  apply live_elem in Hc as [_ Hc].
  pose proof (heap_ok_good _ _ _ (hi_ok _ _ Hinv') Hc) as Hg. pose proof (good_range _ _ Hg) as Hr.
  pose proof (gd_aligned _ _ Hg). unfold b_end in Hr. split_and!; try done; try lia.
  - Z.div_mod_to_equations. lia.
  - intros d Hd. rewrite E1 in Hd.
    eapply tiles_live_disjoint; [apply (ho_tiles _ _ (hi_ok _ _ Hinv'))|done|done].
Qed.

(** First fit. When one of the first 4096 blocks is free and large enough,
    [kmalloc] does not grow the heap and returns the payload of the first such
    block. *)
Theorem kmalloc_first_fit bs s size i b :
  heap_inv bs s -> 0 < size <= 0xFFFFFFF8 ->
  first_fit (align_up size HEAP_ALIGNMENT) bs = Some (i, b) ->
  wp (kmalloc size) (fun p s' => p = b_addr b + 16) s.
Proof.
  intros Hinv Hsize Hff. unfold kmalloc. cbn [kmalloc_nested].
  apply wp_bind, (kmalloc_body_ok bs); [done|done|..]; rewrite Hff; try done.
  intros l b' r s' -> _ [= -> ->] _ _. by apply wp_ret.
Qed.

(** Freeing a live block removes exactly that block and leaves the contents
    of every other live block alone. *)
Theorem kfree_contract bs s b :
  heap_inv bs s -> b ∈ visited_blocks bs -> b_used b = true ->
  wp (kfree (b_addr b + 16)) (fun _ s' => exists bs' l r, heap_inv bs' s' /\
    live bs = l ++ b :: r /\ live bs' = l ++ r /\
    payload_same (live bs') (heap_mem s) (heap_mem s')) s.
Proof.
  intros Hinv Hb Hu. pose proof (find_ptr_elem _ _ _ (hi_ok _ _ Hinv) Hb) as Hf.
  destruct (find_ptr_Some _ _ _ Hf) as (l0 & r0 & Ebs & _).
  pose proof (good_range _ _ (heap_ok_good _ _ b (hi_ok _ _ Hinv) ltac:(rewrite Ebs; apply elem_middle))).
  pose proof (gd_size _ _ (heap_ok_good _ _ b (hi_ok _ _ Hinv) ltac:(rewrite Ebs; apply elem_middle))).
  eapply wp_mono; [apply (kfree_ok bs); [done|unfold is_u32, b_end, HS, HE in *; lia]|].
  intros _ s' (bs' & Hinv' & Hdata & Hcase). rewrite Hf, Hu in Hcase.
  destruct Hcase as (l & r & -> & El & _). exists bs', (live l), (live r).
  rewrite live_app. unfold live at 2. rewrite filter_cons, Hu. cbn. done.
Qed.

(** An address that is not the payload of a live block is rejected: the
    blocks are unchanged and the matching error counter is incremented. *)
Theorem kfree_rejects bs s p :
  heap_inv bs s -> is_u32 p -> p <> 0 ->
  (forall b, b ∈ visited_blocks bs -> b_addr b + 16 = p -> b_used b = false) ->
  wp (kfree p) (fun _ s' => heap_inv bs s' /\
    (double_free_count (heap_stats s') = incr (double_free_count (heap_stats s)) \/
     invalid_free_count (heap_stats s') = incr (invalid_free_count (heap_stats s)))) s.
Proof.
  intros Hinv Hp Hp0 Hno. eapply wp_mono; [by apply (kfree_ok bs)|].
  intros _ s' (bs' & Hinv' & _ & Hcase). destruct (find_ptr p bs) as [b|] eqn:Ef.
  - assert (b_used b = false) as Hu.
    { unfold find_ptr in Ef. destruct (list_find _ _) as [[i c]|] eqn:El; [|done].
      injection Ef as ->. apply list_find_Some in El as (Hi & Hb & _).
      apply (Hno b); [by eapply list_elem_of_lookup_2|done]. }
    rewrite Hu in Hcase. destruct Hcase as [-> ?]. split; [done|by left].
  - destruct Hcase as [-> Hc]. split; [done|right; auto].
Qed.

(** A block returned by [kmalloc] can be given back: [kfree] restores the
    live blocks that existed before the allocation, contents included. *)
Theorem kmalloc_kfree_roundtrip bs s size p s1 :
  heap_inv bs s -> 0 < size <= 0xFFFFEFF0 -> (length bs <= 4080)%nat -> kmalloc size s = Some (p, s1) ->
  wp (kfree p) (fun _ s2 => exists bs2, heap_inv bs2 s2 /\ live bs2 = live bs /\
    payload_same (live bs) (heap_mem s) (heap_mem s2)) s1.
Proof.
  intros Hinv Hsize Hlen E1.
  destruct (wp_run _ _ _ _ _ (kmalloc_ok bs s size Hinv Hsize Hlen) E1)
    as (bs1 & Hinv1 & Hdata1 & Halloc & _ & Hvis).
  destruct Halloc as [(-> & Hl)|(l & r & c & El & El1 & Hp & _)].
  { eapply wp_mono; [apply (kfree_ok bs1); [done|by vm_compute]|].
    intros _ s2 (bs2 & Hinv2 & Hdata2 & Hcase).
    destruct (find_ptr 0 bs1) as [b|] eqn:Ef.
    - apply find_ptr_Some in Ef as (l1 & r1 & -> & Hb).
      pose proof (good_range _ _ (heap_ok_good _ _ _ (hi_ok _ _ Hinv1) (elem_middle l1 b r1))).
      unfold HS in *. lia.
    - destruct Hcase as [-> _]. exists bs1. rewrite Hl in *. split; [done|]. split; [done|].
      by eapply payload_same_trans. }
  assert (p <> 0) as Hp0.
  { assert (c ∈ bs1) as Hc by (eapply live_elem; rewrite El1; apply elem_middle).
    pose proof (good_range _ _ (heap_ok_good _ _ _ (hi_ok _ _ Hinv1) Hc)). unfold HS in *. lia. }
  destruct (Hvis Hp0) as (d & Hd & Hdu & Hdp).
  pose proof (find_ptr_elem _ _ _ (hi_ok _ _ Hinv1) Hd) as Hf. rewrite <- Hdp in Hf.
  assert (d = c) as ->.
  { eapply (tiles_addr_inj _ _ bs1); [apply Hinv1| | |lia].
    - apply list_elem_of_lookup in Hd as [j Hj]. apply lookup_take_Some in Hj as [Hj _].
      by eapply list_elem_of_lookup_2.
    - eapply live_elem. rewrite El1. apply elem_middle. }
  assert (c ∈ bs1) as Hc by (eapply live_elem; rewrite El1; apply elem_middle).
  pose proof (good_range _ _ (heap_ok_good _ _ _ (hi_ok _ _ Hinv1) Hc)) as Hr.
  pose proof (gd_size _ _ (heap_ok_good _ _ _ (hi_ok _ _ Hinv1) Hc)).
  eapply wp_mono; [apply (kfree_ok bs1); [done|unfold is_u32, b_end, HS, HE in *; lia]|].
  intros _ s2 (bs2 & Hinv2 & Hdata2 & Hcase). rewrite Hf, Hdu in Hcase.
  destruct Hcase as (l1 & r1 & Ebs1 & El2 & _). exists bs2.
  assert (live bs2 = live bs) as Heq.
  { rewrite El2, El. assert (live l1 ++ c :: live r1 = l ++ c :: r) as Em.
    { rewrite <- El1, Ebs1, live_app. f_equal. unfold live at 2. rewrite filter_cons, Hdu. done. }
    assert (NoDup (l ++ c :: r)) as Hnd.
    { rewrite <- El1. apply NoDup_filter. eapply tiles_nodup, Hinv1. }
    symmetry in Em. by eapply nodup_split_unique. }
  rewrite Heq in Hdata2. split; [done|]. split; [done|]. by eapply payload_same_trans.
Qed.

(** A client stores a byte inside its block. *)
Lemma client_write_ok bs s b a v :
  heap_inv bs s -> b ∈ bs -> b_addr b + 16 <= a < b_end b ->
  heap_inv bs (s <| heap_mem ::= store8 a v |>).
Proof.
  intros [Hok Hst Hini] Hb Ha. constructor; [|done|done].
  apply (heap_ok_mem bs); [done|apply Hok|]. eapply seg_agree; [|apply Hok].
  intros c Hc. apply store8_agree. intros Hac.
  destruct (decide (c = b)) as [->|Hne]; [lia|]. apply list_elem_of_split in Hb as (l & r & ->).
  assert (c ∈ l ++ r) as Hc'.
  { apply elem_of_app in Hc as [Hc|Hc]; [apply elem_of_app; by left|].
    apply elem_of_cons in Hc as [->|Hc]; [done|apply elem_of_app; by right]. }
  pose proof (gd_size _ _ (heap_ok_good _ _ c Hok Hc)).
  pose proof (tiles_disjoint _ _ _ _ _ _ (ho_tiles _ _ Hok) Hc'). unfold b_end in *. lia.
Qed.

(** [heap_validate_pointer] accepts exactly the payload addresses of the
    live blocks it visits, and no write of a client inside its own block can
    damage the heap or make the audit complain. *)
Theorem heap_client_safety bs s b a v :
  heap_inv bs s -> b ∈ live bs -> b_addr b + 16 <= a < b_end b -> Z.of_nat (length bs) <= 4096 ->
  let s' := s <| heap_mem ::= store8 a v |> in
  wp (heap_validate_pointer (b_addr b + 16)) (fun ok _ => ok = true) s' /\
  wp heap_audit (fun issues _ => issues = 0) s'.
Proof.
  intros Hinv Hb Ha Hlen s'. apply live_elem in Hb as [Hu Hb].
  pose proof (client_write_ok _ _ _ _ v Hinv Hb Ha) as Hinv'.
  pose proof (good_range _ _ (heap_ok_good _ _ _ (hi_ok _ _ Hinv') Hb)).
  split.
  - eapply (validate_ok bs); [done|unfold is_u32, b_end, HS, HE in *; lia|].
    rewrite (find_ptr_elem bs s' b (hi_ok _ _ Hinv')); [done|].
    unfold visited_blocks. by rewrite take_ge by lia.
  - eapply wp_mono; [by apply (audit_ok bs)|]. intros n t (-> & _).
    unfold too_long. by rewrite decide_True.
Qed.

(** The audit of a well-formed heap of at most 4096 blocks finds nothing,
    and its totals account for every byte the heap has mapped. *)
Theorem heap_audit_clean bs s :
  heap_inv bs s -> Z.of_nat (length bs) <= 4096 ->
  wp heap_audit (fun issues s' => issues = 0 /\ heap_inv bs s' /\
    blocks_seen (heap_audit_info s') = Z.of_nat (length bs) /\
    calculated_used_bytes (heap_audit_info s') + calculated_free_bytes (heap_audit_info s') +
      16 * Z.of_nat (length bs) = total_bytes (heap_stats s')) s.
Proof.
  intros Hinv Hlen. eapply wp_mono; [by apply (audit_ok bs)|].
  unfold too_long, visited_blocks. rewrite decide_True, take_ge by lia.
  intros issues s' (-> & Hinv' & [A1 A2 A3 A4] & _). split; [done|]. split; [done|]. split; [done|].
  rewrite A2, A3. destruct (ho_total _ _ (hi_ok _ _ Hinv')) as [-> _].
  apply tiles_total, Hinv'.
Qed.

(** A well-formed heap of more than 4096 blocks is reported as damaged: the
    audit (heap.c:620) counts the limit of its own traversal as a broken link. *)
Lemma heap_audit_false_alarm bs s :
  heap_inv bs s -> 4096 < Z.of_nat (length bs) ->
  wp heap_audit (fun issues s' => issues = 1 /\ heap_inv bs s') s.
Proof.
  intros Hinv Hlen. eapply wp_mono; [by apply (audit_ok bs)|].
  unfold too_long. rewrite decide_False by lia. tauto.
Qed.

(** [heap_initialize] returns on every machine; when it reports success the
    heap is one free page, otherwise nothing is mapped. *)
Theorem heap_initialize_contract s :
  pp_inv (heap_env s) ->
  wp heap_initialize (fun _ s' =>
    if heap_initialized (heap_stats s') then heap_inv [Blk HS 4080 false] s'
    else heap_ok [] s' /\ next_virtual_page (heap_stats s') = HS) s.
Proof.
  intros Hpp. eapply wp_mono; [by apply initialize_ok|]. intros u s' HQ. cbv beta in HQ.
  destruct (heap_initialized (heap_stats s')); [done|]. split; [done|].
  symmetry. apply (ho_tiles _ _ HQ).
Qed.

(** The blocks a heap represents are determined by its memory. *)
Lemma seg_unique m a bs bs' :
  (forall b, b ∈ bs -> b_addr b <> 0) -> (forall b, b ∈ bs' -> b_addr b <> 0) ->
  seg m a bs 0 -> seg m a bs' 0 -> bs = bs'.
Proof.
  revert a bs'. induction bs as [|b bs IH]; intros a [|b' bs'] Hb Hb'; cbn.
  - done.
  - intros -> [Ea _]. exfalso. apply (Hb' b'); [by left|done].
  - intros [-> _] Ea. exfalso. apply (Hb b); [by left|done].
  - intros (-> & (_ & S1 & U1) & R1) (Ea & (_ & S2 & U2) & R2).
    destruct b as [a1 s1 u1], b' as [a2 s2 u2]; cbn in *. subst a2. f_equal.
    + f_equal; congruence.
    + eapply (IH _ bs'); [| |exact R1|exact R2]; intros c Hc; [apply Hb|apply Hb']; by right.
Qed.

End Theorems.

(** ** The whole stack, evaluated *)

(** A heap with one live block of 104 bytes. *)
Definition heap_used : heap_state vmm_state := final (kmalloc 100) heap_boot.

Lemma kmalloc_contract_witness :
  wp (kmalloc 100) (fun p s' => exists bs', heap_inv bs' s' /\
    payload_same (live [Blk HS 4080 false]) (heap_mem heap_boot) (heap_mem s') /\
    ((p = 0 /\ live bs' = live [Blk HS 4080 false] /\
      first_fit (align_up 100 HEAP_ALIGNMENT) [Blk HS 4080 false] = None) \/
     exists l r c, live [Blk HS 4080 false] = l ++ r /\ live bs' = l ++ c :: r /\ p = b_addr c + 16 /\
       100 <= b_size c /\ p mod 8 = 0 /\ HS <= p /\ p + 100 <= HE /\
       forall d, d ∈ live [Blk HS 4080 false] -> b_end d <= b_addr c \/ b_end c <= b_addr d)) heap_boot.
Proof. apply (kmalloc_contract [Blk HS 4080 false] heap_boot 100 heap_boot_inv); cbn; lia. Defined.

Lemma kmalloc_first_fit_witness : wp (kmalloc 100) (fun p s' => p = HS + 16) heap_boot.
Proof.
  apply (kmalloc_first_fit [Blk HS 4080 false] heap_boot 100 0%nat (Blk HS 4080 false) heap_boot_inv);
    [lia|vm_compute; reflexivity].
Defined.

Lemma heap_used_inv :
  heap_inv [Blk HS 104 true; Blk (HS + 120) 3960 false] heap_used.
Proof.
  destruct (kmalloc_ok [Blk HS 4080 false] heap_boot 100 heap_boot_inv ltac:(lia) ltac:(cbn; lia))
    as (p & s' & Erun & bs' & Hinv' & _).
  unfold heap_used, final. rewrite Erun.
  enough (bs' = [Blk HS 104 true; Blk (HS + 120) 3960 false]) as <- by exact Hinv'.
  assert ((fun r : Z * heap_state vmm_state => (heap_head (snd r),
    (load32 (heap_mem (snd r)) HS, load32 (heap_mem (snd r)) (HS + 4), load8 (heap_mem (snd r)) (HS + 8),
     load32 (heap_mem (snd r)) (HS + 12)),
    (load32 (heap_mem (snd r)) (HS + 120), load32 (heap_mem (snd r)) (HS + 124),
     load8 (heap_mem (snd r)) (HS + 128), load32 (heap_mem (snd r)) (HS + 132))))
     <$> kmalloc 100 heap_boot =
    Some (HS, (HEAP_BLOCK_MAGIC, 104, 1, HS + 120), (HEAP_BLOCK_MAGIC, 3960, 0, 0))) as Eh
    by (vm_compute; reflexivity).
  rewrite Erun in Eh. cbn [fmap option_fmap option_map snd] in Eh.
  injection Eh as E0 E1 E2 E3 E4 E5 E6 E7 E8. clear Erun.
  eapply seg_unique; [| |apply Hinv'|].
  - intros b Hb. by eapply heap_ok_addr; [apply Hinv'|].
  - intros b Hb. apply elem_of_cons in Hb as [->|Hb]; [done|].
    apply list_elem_of_singleton in Hb as ->. done.
  - rewrite E0. cbn [seg b_addr]. unfold header. cbn [b_addr b_size b_used].
    replace (HS + 120 + 4) with (HS + 124) by done. replace (HS + 120 + 8) with (HS + 128) by done.
    replace (HS + 120 + 12) with (HS + 132) by done.
    rewrite E1, E2, E3, E4, E5, E6, E7, E8. split_and!; reflexivity.
Qed.

Lemma kfree_contract_witness :
  wp (kfree (HS + 16)) (fun _ s' => exists bs' l r, heap_inv bs' s' /\
    live [Blk HS 104 true; Blk (HS + 120) 3960 false] = l ++ Blk HS 104 true :: r /\ live bs' = l ++ r /\
    payload_same (live bs') (heap_mem heap_used) (heap_mem s')) heap_used.
Proof.
  apply (kfree_contract [Blk HS 104 true; Blk (HS + 120) 3960 false] heap_used (Blk HS 104 true)
    heap_used_inv); [by left|reflexivity].
Defined.

Lemma kfree_rejects_witness :
  wp (kfree (HS + 20)) (fun _ s' => heap_inv [Blk HS 104 true; Blk (HS + 120) 3960 false] s' /\
    (double_free_count (heap_stats s') = incr (double_free_count (heap_stats heap_used)) \/
     invalid_free_count (heap_stats s') = incr (invalid_free_count (heap_stats heap_used)))) heap_used.
Proof.
  apply (kfree_rejects [Blk HS 104 true; Blk (HS + 120) 3960 false] heap_used (HS + 20) heap_used_inv);
    [unfold is_u32, HS; lia|unfold HS; lia|].
  intros b Hb. apply elem_of_cons in Hb as [->|Hb]; [cbn; unfold HS; lia|].
  apply list_elem_of_singleton in Hb as ->. cbn. unfold HS. lia.
Defined.

Lemma kmalloc_kfree_roundtrip_witness :
  exists p s1, kmalloc 100 heap_boot = Some (p, s1) /\
  wp (kfree p) (fun _ s2 => exists bs2, heap_inv bs2 s2 /\ live bs2 = live [Blk HS 4080 false] /\
    payload_same (live [Blk HS 4080 false]) (heap_mem heap_boot) (heap_mem s2)) s1.
Proof.
  destruct (run_some (kmalloc 100) heap_boot (HS + 16)) as [s1 E1]; [vm_compute; reflexivity|].
  exists (HS + 16), s1. split; [exact E1|].
  apply (kmalloc_kfree_roundtrip [Blk HS 4080 false] heap_boot 100 (HS + 16) s1 heap_boot_inv);
    [lia|cbn; lia|exact E1].
Defined.

Lemma heap_client_safety_witness :
  wp (heap_validate_pointer (HS + 16)) (fun ok _ => ok = true)
     (heap_used <| heap_mem ::= store8 (HS + 50) 7 |>) /\
  wp heap_audit (fun issues _ => issues = 0) (heap_used <| heap_mem ::= store8 (HS + 50) 7 |>).
Proof.
  apply (heap_client_safety [Blk HS 104 true; Blk (HS + 120) 3960 false] heap_used (Blk HS 104 true)
    (HS + 50) 7 heap_used_inv); [by left|unfold b_end; cbn; lia|cbn; lia].
Defined.

Lemma heap_audit_clean_witness :
  wp heap_audit (fun issues s' => issues = 0 /\
    heap_inv [Blk HS 104 true; Blk (HS + 120) 3960 false] s' /\
    blocks_seen (heap_audit_info s') = 2 /\
    calculated_used_bytes (heap_audit_info s') + calculated_free_bytes (heap_audit_info s') +
      16 * 2 = total_bytes (heap_stats s')) heap_used.
Proof.
  apply (heap_audit_clean [Blk HS 104 true; Blk (HS + 120) 3960 false] heap_used heap_used_inv).
  cbn. lia.
Defined.

Lemma heap_initialize_contract_witness :
  wp heap_initialize (fun _ s' =>
    if heap_initialized (heap_stats s') then heap_inv [Blk HS 4080 false] s'
    else heap_ok [] s' /\ next_virtual_page (heap_stats s') = HS) heap_zero.
Proof. apply (heap_initialize_contract heap_zero). exact vmm_sample_ready. Defined.

(** A request above 2^32 - 8 rounds up to zero (heap.c:488). [kmalloc] then
    succeeds, returning a block of no bytes, and the zero-sized header makes every
    later request fail and the audit report the heap as damaged. *)
Theorem kmalloc_huge_request :
  fst <$> kmalloc 0xFFFFFFFF heap_boot = Some (HS + 16) /\
  fst <$> kmalloc 16 (final (kmalloc 0xFFFFFFFF) heap_boot) = Some 0 /\
  fst <$> heap_audit (final (kmalloc 0xFFFFFFFF) heap_boot) = Some 1.
Proof. vm_compute. auto. Qed.

(** A request just below 2^32 makes the page count of [heap_grow] wrap to
    one page (heap.c:313): each activation of [kmalloc] grows the heap by one page
    and calls itself (heap.c:519), until the machine has no frame left. On this
    machine 171 frames are left, and 172 activations are open at once. *)
Theorem kmalloc_wrapped_growth :
  kmalloc 0xFFFFFFE8 heap_boot = None /\
  kmalloc_nested 171 0xFFFFFFE8 heap_boot = None /\
  (fun '(p, s) => (p, fst <$> pmm_alloc_page (vmm_pmm (heap_env s)))) <$>
    kmalloc_nested 172 0xFFFFFFE8 heap_boot = Some (0, Some 0) /\
  fst <$> pmm_alloc_page (vmm_pmm (heap_env heap_boot)) = Some 0x155000.
Proof. vm_compute. auto. Qed.
