(* ===== verification/KernelHeap.v ===== *)
(** * The interface between the kernel heap and its clients

    [KernelHeap] lists the calls of memory/heap.c that other parts of the kernel
    make, [KernelHeapLaws] what they may rely on. The clients are verified against
    the laws alone; [HeapClient] discharges them with the heap's theorems. *)
From S2P Require Import Prelude.

Class KernelHeap (H : Type) := {
  heap_kmalloc : Z -> M H Z;           (* kmalloc *)
  heap_kfree : Z -> M H unit;          (* kfree *)
  heap_validate : Z -> M H bool        (* heap_validate_pointer *)
}.

(** [kh_live h L]: the heap is well formed and its live payload addresses are
    exactly [L]. [kh_room] is the number of live blocks up to which validation is
    guaranteed to find every one of them. *)
Class KernelHeapLaws (H : Type) `{KernelHeap H} := {
  kh_live : H -> gset Z -> Prop;
  kh_room : nat;
  kh_malloc_ok h L n : kh_live h L -> (size L < kh_room)%nat -> 0 < n <= 0xFFFFEFF0 ->
    wp (heap_kmalloc n) (fun p h' =>
      (p = 0 /\ kh_live h' L) \/
      (0 < p /\ p + n < 4294967296 /\ (p ∉ L) /\ kh_live h' ({[p]} ∪ L))) h;
  kh_free_ok h L p : kh_live h L -> (size L <= kh_room)%nat -> p ∈ L ->
    wp (heap_kfree p) (fun _ h' => kh_live h' (L ∖ {[p]})) h;
  kh_validate_ok h L p : kh_live h L -> (size L <= kh_room)%nat -> p ∈ L ->
    heap_validate p h = Some (true, h)
}.
