(* ===== verification/HeapClient.v ===== *)
(** * The kernel heap implements its interface

    The heap over any page provider is an instance of [KernelHeapLaws]. Beyond the
    contract of [HeapSpec] this needs that free blocks are never adjacent, so that
    the number of blocks, which bounds every traversal at 4096 visits, is at most
    twice the number of live blocks plus one. The same bound gives the refinement of
    an abstract allocator, a map from payload addresses to contents. *)
From S2P Require Import Prelude Mem Boot Pmm Vmm Pages Heap HeapBlocks HeapProofs HeapGrow HeapSpec HeapTheorems KernelHeap.

(** ** Lists without adjacent free blocks *)

Definition head_used (bs : list blk) : bool :=
  match bs with [] => true | b :: _ => b_used b end.

Fixpoint normal (bs : list blk) : Prop :=
  match bs with [] => True | b :: r => (b_used b || head_used r = true) /\ normal r end.

Lemma normal_app l r : normal (l ++ r) -> normal r.
Proof. induction l as [|b l IH]; [done|]. intros [_ ?]. auto. Qed.

(** A segment may be replaced by one that is normal and separated from its
    neighbours. *)
Lemma normal_replace l m r :
  normal l -> (head_used m = true \/ m = []) -> normal (m ++ r) ->
  (m = [] -> l = [] \/ head_used r = true) -> normal (l ++ m ++ r).
Proof.
  induction l as [|b l IH]; intros Hl Hm Hr Hs; [done|]. cbn in *. destruct Hl as [Hb Hl].
  split; [|apply IH; try done; intros E; right; destruct (Hs E); [done|auto]].
  destruct l as [|c l]; [|done]. cbn. destruct m as [|d m]; cbn in *.
  - destruct (Hs eq_refl) as [?|Hh]; [done|]. rewrite Hh. apply orb_true_r.
  - destruct Hm as [->|?]; [apply orb_true_r|done].
Qed.

Lemma normal_prefix l r : normal (l ++ r) -> normal l.
Proof.
  induction l as [|b l IH]; [done|]. intros [Hb Hl]. split; [|auto]. destruct l; [apply orb_true_r|done].
Qed.

Lemma normal_length bs :
  normal bs -> (length bs <= 2 * length (live bs) + (if head_used bs then 0 else 1))%nat.
Proof.
  induction bs as [|b r IH]; [done|]. intros [Hb Hr]. specialize (IH Hr).
  cbn [head_used length]. unfold live in *. destruct (b_used b) eqn:Hu.
  - rewrite filter_cons_True by done. cbn [length]. destruct (head_used r); lia.
  - rewrite filter_cons_False by (by rewrite Hu). cbn [orb] in Hb. rewrite Hb in IH. lia.
Qed.

(** Merging makes a list normal when the traversal reaches its end. *)
Lemma merge_into_head n b r : head_used (merge_into n b r) = b_used b.
Proof.
  revert n b. induction r as [|c r IH]; intros n b; [done|]. destruct n as [|n]; [done|]. cbn [merge_into].
  destruct (b_used b) eqn:Hb; [done|]. destruct (b_used c) eqn:Hc; [done|]. cbn. by rewrite IH.
Qed.

Lemma merge_into_normal n b r : (length r <= n)%nat -> normal (merge_into n b r).
Proof.
  revert n b. induction r as [|c r IH]; intros n b Hn; cbn in Hn.
  - destruct n; (split; [apply orb_true_r|done]).
  - destruct n as [|n]; [lia|]. cbn [merge_into].
    destruct (negb (b_used b) && negb (b_used c)) eqn:Hj; [apply IH; lia|].
    split; [|apply IH; lia]. rewrite merge_into_head.
    destruct (b_used b), (b_used c); done.
Qed.

Lemma merge_list_normal bs : (length bs <= 4096)%nat -> normal (merge_list bs).
Proof. intros Hn. destruct bs as [|b r]; [done|]. apply merge_into_normal. cbn in Hn. lia. Qed.

Lemma take_blk_normal l b r n : normal (l ++ b :: r) -> b_used b = false -> normal (l ++ take_blk b n ++ r).
Proof.
  intros Hn Hb. pose proof (normal_app l (b :: r) Hn) as [Hh Hr]. rewrite Hb in Hh. cbn in Hh.
  apply normal_replace; [by eapply normal_prefix|left; unfold take_blk; by case_match| |].
  - unfold take_blk. case_match; cbn; rewrite ?Hh; done.
  - unfold take_blk. by case_match.
Qed.

Lemma new_blocks_length base k : 0 <= k -> length (new_blocks base k) = Z.to_nat k.
Proof. intros Hk. unfold new_blocks. by rewrite length_fmap, length_seqZ. Qed.

(** ** The instance *)

Section Client.
Context {E : Type} `{PageProviderLaws E}.
Implicit Types (h : heap_state E) (bs : list blk) (L : gset Z).

#[export] Instance heap_client : KernelHeap (heap_state E) := {
  heap_kmalloc := kmalloc;
  heap_kfree := kfree;
  heap_validate := heap_validate_pointer
}.

Definition payload (b : blk) : Z := b_addr b + 16.
Definition payloads bs : gset Z := list_to_set (payload <$> live bs).

Definition heap_live h L : Prop :=
  exists bs, heap_inv bs h /\ normal bs /\ L = payloads bs.

Lemma payloads_nodup bs h : heap_inv bs h -> NoDup (payload <$> live bs).
Proof.
  intros Hinv. apply NoDup_fmap_2_strong.
  - intros a b Ha Hb Eab. apply live_elem in Ha as [_ Ha]. apply live_elem in Hb as [_ Hb].
    eapply (tiles_addr_inj _ _ bs); [apply Hinv|done|done|]. unfold payload in Eab. lia.
  - apply NoDup_filter. eapply tiles_nodup, Hinv.
Qed.

Lemma payloads_size bs h : heap_inv bs h -> size (payloads bs) = length (live bs).
Proof. intros Hinv. unfold payloads. rewrite size_list_to_set by by eapply payloads_nodup. apply length_fmap. Qed.

(** With up to 2000 live blocks every block is visited. *)
Lemma small_visited bs : normal bs -> (length (live bs) <= 2000)%nat -> visited_blocks bs = bs.
Proof.
  intros Hn Hl. pose proof (normal_length bs Hn). unfold visited_blocks. apply take_ge.
  destruct (head_used bs); lia.
Qed.

Lemma normal_short bs : normal bs -> (length (live bs) <= 2000)%nat -> (length bs <= 4080)%nat.
Proof. intros Hn Hl. pose proof (normal_length bs Hn). destruct (head_used bs); lia. Qed.

Lemma grow_normal bs k base :
  normal bs -> (length (live bs) <= 2000)%nat -> 0 <= k <= 16 ->
  normal (merge_list (bs ++ new_blocks base k)).
Proof.
  intros Hn Hl Hk. pose proof (normal_length bs Hn). apply merge_list_normal.
  rewrite length_app, new_blocks_length by lia. destruct (head_used bs); lia.
Qed.

Lemma client_malloc h L n :
  heap_live h L -> (size L < 2000)%nat -> 0 < n <= 0xFFFFEFF0 ->
  wp (kmalloc n) (fun p h' => (p = 0 /\ heap_live h' L) \/
    (0 < p /\ p + n < 4294967296 /\ (p ∉ L) /\ heap_live h' ({[p]} ∪ L))) h.
Proof.
  intros (bs & Hinv & Hnorm & ->) Hsz Hn. rewrite (payloads_size _ _ Hinv) in Hsz.
  eapply wp_mono; [apply (kmalloc_gen (fun bs1 => normal bs1) bs); [done|done| |done|]|].
  { by eapply normal_short, Nat.lt_le_incl. }
  { intros base k Hk. apply grow_normal; [done|lia|done]. }
  intros p h' (bs' & Hinv' & _ & [(-> & El & _ & Hn')|(l & b & r & m & -> & Hn' & El & Hff & Hfit & Hm & ->)]).
  { left. split; [done|]. exists bs'. split; [done|]. split; [done|]. unfold payloads. by rewrite El. }
  right. destruct (take_blk_live l b r m Hfit) as (c & E1 & E2 & E3 & E4 & _).
  assert (c ∈ l ++ take_blk b m ++ r) as Hc by (eapply live_elem; rewrite E1; apply elem_middle).
  pose proof (good_range _ _ (heap_ok_good _ _ c (hi_ok _ _ Hinv') Hc)) as Hr.
  pose proof (payloads_nodup _ _ Hinv') as Hnd. rewrite E1, fmap_app, fmap_cons in Hnd.
  apply NoDup_app in Hnd as (_ & N2 & N3). apply NoDup_cons in N3 as [N3 _].
  unfold b_end, HS, HE in Hr. rewrite <- E3. fold (payload c). split; [unfold payload; lia|].
  split; [unfold payload; lia|].
  assert (payloads bs = list_to_set (payload <$> live l) ∪ list_to_set (payload <$> live r)) as EL.
  { unfold payloads. rewrite <- El, E2, fmap_app. by rewrite list_to_set_app_L. }
  split.
  - rewrite EL. rewrite elem_of_union, !elem_of_list_to_set. intros [Hin|Hin]; [|done].
    apply (N2 _ Hin). by left.
  - eexists. split; [exact Hinv'|]. split; [by apply take_blk_normal; [|apply Hfit]|].
    unfold payloads at 2. rewrite E1, fmap_app, fmap_cons, list_to_set_app_L, list_to_set_cons, EL.
    apply set_eq. intros x. rewrite !elem_of_union. tauto.
Qed.

(** The block of a live payload is found. *)
Lemma client_find h bs p :
  heap_inv bs h -> normal bs -> (size (payloads bs) <= 2000)%nat -> p ∈ payloads bs ->
  exists b, find_ptr p bs = Some b /\ b_used b = true /\ b ∈ bs /\ p = payload b /\ is_u32 p.
Proof.
  intros Hinv Hnorm Hsz Hp. rewrite (payloads_size _ _ Hinv) in Hsz.
  apply elem_of_list_to_set, list_elem_of_fmap in Hp as (b & -> & Hb).
  apply live_elem in Hb as [Hu Hb]. exists b.
  pose proof (good_range _ _ (heap_ok_good _ _ b (hi_ok _ _ Hinv) Hb)) as Hr.
  pose proof (gd_size _ _ (heap_ok_good _ _ b (hi_ok _ _ Hinv) Hb)).
  split_and!; try done.
  - apply (find_ptr_elem _ h); [apply Hinv|]. by rewrite small_visited.
  - unfold is_u32, payload, b_end, HS, HE in *. lia.
Qed.

Lemma client_free h L p :
  heap_live h L -> (size L <= 2000)%nat -> p ∈ L ->
  wp (kfree p) (fun _ h' => heap_live h' (L ∖ {[p]})) h.
Proof.
  intros (bs & Hinv & Hnorm & ->) Hsz Hp.
  destruct (client_find h bs p) as (b & Hf & Hu & Hb & Ep & Hp32); [done..|].
  eapply wp_mono; [by apply (kfree_ok bs)|]. intros u h' (bs' & Hinv' & _ & Hcase).
  rewrite Hf, Hu in Hcase. destruct Hcase as (l & r & -> & El & Ebs').
  exists bs'. split; [done|].
  assert (live (l ++ b :: r) = live l ++ b :: live r) as E1.
  { rewrite live_app. f_equal. unfold live. by rewrite filter_cons, Hu. }
  split.
  - rewrite Ebs'. apply merge_list_normal. rewrite (payloads_size _ _ Hinv) in Hsz.
    pose proof (normal_length _ Hnorm) as Hlen. rewrite length_app in *. cbn in *.
    destruct (head_used _); lia.
  - pose proof (payloads_nodup _ _ Hinv) as Hnd. unfold payloads. rewrite E1, El, !fmap_app, fmap_cons in *.
    apply NoDup_app in Hnd as (_ & N2 & N3). apply NoDup_cons in N3 as [N3 _].
    rewrite !list_to_set_app_L, list_to_set_cons, Ep. apply set_eq. intros x.
    rewrite elem_of_difference, !elem_of_union, elem_of_singleton, !elem_of_list_to_set. split; [tauto|].
    intros [Hx|Hx]; (split; [tauto|]); intros ->; [apply (N2 _ Hx); by left|done].
Qed.

Lemma client_validate h L p :
  heap_live h L -> (size L <= 2000)%nat -> p ∈ L -> heap_validate_pointer p h = Some (true, h).
Proof.
  intros (bs & Hinv & Hnorm & ->) Hsz Hp.
  destruct (client_find h bs p) as (b & Hf & Hu & Hb & Ep & Hp32); [done..|].
  destruct (validate_ok bs h p (fun v h' => v = true /\ h' = h) Hinv Hp32) as (v & h' & Er & -> & ->); [|done].
  by rewrite Hf, Hu.
Qed.

#[export] Instance heap_client_laws : KernelHeapLaws (heap_state E) := {
  kh_live := heap_live;
  kh_room := 2000;
  kh_malloc_ok := client_malloc;
  kh_free_ok := client_free;
  kh_validate_ok := client_validate
}.
End Client.

(** ** The abstract allocator *)

(** What the kernel does with its heap. [HWrite p i v] and [HRead p i] access
    byte [i] of the block at [p]. *)
Inductive heap_call :=
| HMalloc (n : Z) | HFree (p : Z) | HWrite (p : Z) (i : nat) (v : Z) | HRead (p : Z) (i : nat)
| HValidate (p : Z) | HAudit.

(** An allocator is the contents of its live blocks, by payload address. *)
Notation allocator := (gmap Z (list Z)).

(** What a client may ask for: frees and validations may name any address. *)
Definition heap_call_ok (A : allocator) (c : heap_call) : Prop :=
  match c with
  | HMalloc n => 0 < n <= 0xFFFFEFF0
  | HFree p | HValidate p => is_u32 p
  | HWrite p i _ | HRead p i => exists d, A !! p = Some d /\ (i < length d)%nat
  | HAudit => True
  end.

(** The result and the allocator after a call. *)
Definition heap_call_spec (A : allocator) (c : heap_call) (r : Z) (A' : allocator) : Prop :=
  match c with
  | HMalloc n =>
      (r = 0 /\ A' = A) \/
      exists d, n <= Z.of_nat (length d) /\ r mod 8 = 0 /\ HS < r /\ r + Z.of_nat (length d) <= HE /\
        A !! r = None /\ A' = <[r := d]> A /\
        forall q d', A !! q = Some d' -> q + Z.of_nat (length d') <= r \/ r + Z.of_nat (length d) <= q
  | HFree p => r = 0 /\ A' = delete p A
  | HWrite p i v => r = 0 /\ A' = alter (fun d => <[i := u8 v]> d) p A
  | HRead p i => A' = A /\ exists d, A !! p = Some d /\ d !! i = Some r
  | HValidate p => r = bool_to_Z (bool_decide (is_Some (A !! p))) /\ A' = A
  | HAudit => r = 0 /\ A' = A
  end.

(** A client of the heap: each call may depend on the results so far. *)
Inductive client :=
| Finish
| Call (c : heap_call) (k : Z -> client).

(** A client that respects the allocator, whatever the allocator answers, and
    keeps at most 2000 blocks. *)
Fixpoint client_ok (A : allocator) (cl : client) : Prop :=
  match cl with
  | Finish => True
  | Call c k => heap_call_ok A c /\ (size A < 2000)%nat /\
      forall r A', heap_call_spec A c r A' -> client_ok A' (k r)
  end.

Inductive alloc_trace : allocator -> list (heap_call * Z) -> allocator -> Prop :=
| at_done A : alloc_trace A [] A
| at_call A c r A1 tr A2 : heap_call_spec A c r A1 -> alloc_trace A1 tr A2 -> alloc_trace A ((c, r) :: tr) A2.

(** The bytes of a block, and the allocator that live blocks represent. *)
Definition bytes_at (m : mem) (a n : Z) : list Z := (fun i => load8 m (a + i)) <$> seqZ 0 n.
Definition alloc_map (m : mem) (l : list blk) : allocator :=
  list_to_map ((fun b => (payload b, bytes_at m (payload b) (b_size b))) <$> l).

Lemma alloc_map_keys m l : ((fun b => (payload b, bytes_at m (payload b) (b_size b))) <$> l).*1 = payload <$> l.
Proof. by rewrite <- list_fmap_compose. Qed.

Lemma alloc_map_middle m l b r :
  NoDup (payload <$> l ++ b :: r) ->
  alloc_map m (l ++ b :: r) = <[payload b := bytes_at m (payload b) (b_size b)]> (alloc_map m (l ++ r)) /\
  alloc_map m (l ++ r) !! payload b = None.
Proof.
  intros Hnd. pose proof (Permutation_middle l r b) as Hp. split.
  - unfold alloc_map. rewrite <- list_to_map_cons, <- (fmap_cons (fun b => (payload b, bytes_at m (payload b) (b_size b)))).
    symmetry. apply list_to_map_proper; [|by apply fmap_Permutation].
    rewrite alloc_map_keys. by rewrite Hp.
  - apply not_elem_of_list_to_map_1. rewrite alloc_map_keys. rewrite <- Hp in Hnd.
    by apply NoDup_cons in Hnd as [? _].
Qed.

Lemma alloc_map_same m m' l : payload_same l m m' -> alloc_map m' l = alloc_map m l.
Proof.
  intros Hs. unfold alloc_map. f_equal. apply list_fmap_ext. intros i b Hb. f_equal.
  apply list_fmap_ext. intros j x Hx. apply lookup_seqZ in Hx as [-> Hj]. symmetry.
  apply (Hs b); [by eapply list_elem_of_lookup_2|]. unfold payload, b_end. lia.
Qed.

Lemma alloc_map_lookup m l p d :
  NoDup (payload <$> l) ->
  alloc_map m l !! p = Some d <-> exists b, b ∈ l /\ p = payload b /\ d = bytes_at m p (b_size b).
Proof.
  intros Hnd. unfold alloc_map. rewrite <- elem_of_list_to_map by by rewrite alloc_map_keys.
  rewrite list_elem_of_fmap. split.
  - intros (b & [= -> ->] & Hb). eauto.
  - intros (b & Hb & -> & ->). eauto.
Qed.

Lemma bytes_at_length m a n : 0 <= n -> Z.of_nat (length (bytes_at m a n)) = n.
Proof. intros. unfold bytes_at. rewrite length_fmap, length_seqZ. lia. Qed.

Lemma bytes_at_lookup m a n (i : nat) : Z.of_nat i < n -> bytes_at m a n !! i = Some (load8 m (a + Z.of_nat i)).
Proof.
  intros Hi. unfold bytes_at. rewrite list_lookup_fmap.
  by rewrite (proj2 (lookup_seqZ 0 n i (0 + Z.of_nat i))).
Qed.

Lemma bytes_at_store m a n (i : nat) v :
  Z.of_nat i < n -> bytes_at (store8 (a + Z.of_nat i) v m) a n = <[i := u8 v]> (bytes_at m a n).
Proof.
  intros Hi. apply list_eq. intros j. rewrite list_lookup_insert.
  destruct (decide (Z.of_nat j < n)) as [Hj|Hj].
  - rewrite !bytes_at_lookup by done. case_decide as Hd.
    + destruct Hd as [-> _]. by rewrite load8_store8_eq.
    + rewrite load8_store8_ne; [done|]. intros Ha. apply Hd. split; [lia|].
      unfold bytes_at. rewrite length_fmap, length_seqZ. lia.
  - rewrite !lookup_ge_None_2 by (unfold bytes_at; rewrite length_fmap, length_seqZ; lia).
    rewrite decide_False; [done|]. lia.
Qed.

Section Refinement.
Context {E : Type} `{PageProviderLaws E}.
Implicit Types (s : heap_state E) (bs : list blk) (A : allocator).

Definition heap_call_run (c : heap_call) : M (heap_state E) Z :=
  match c with
  | HMalloc n => kmalloc n
  | HFree p => kfree p ;;; mret_ 0
  | HWrite p i v => hwrite8 (p + Z.of_nat i) v ;;; mret_ 0
  | HRead p i => hread8 (p + Z.of_nat i)
  | HValidate p => ok <- heap_validate_pointer p ;; mret_ (bool_to_Z ok)
  | HAudit => heap_audit
  end.

Fixpoint client_run (cl : client) : M (heap_state E) (list (heap_call * Z)) :=
  match cl with
  | Finish => mret_ []
  | Call c k => r <- heap_call_run c ;; tr <- client_run (k r) ;; mret_ ((c, r) :: tr)
  end.

(** The heap represents the allocator [A]. *)
Definition heap_abs s A : Prop :=
  exists bs, heap_inv bs s /\ normal bs /\ A = alloc_map (heap_mem s) (live bs).

Lemma alloc_map_size bs s : heap_inv bs s -> size (alloc_map (heap_mem s) (live bs)) = length (live bs).
Proof.
  intros Hinv. unfold alloc_map. rewrite map_size_list_to_map.
  - apply length_fmap.
  - rewrite alloc_map_keys. by eapply payloads_nodup.
Qed.

(** The block behind an entry. *)
Lemma alloc_entry bs s p d :
  heap_inv bs s -> alloc_map (heap_mem s) (live bs) !! p = Some d ->
  exists b, b ∈ live bs /\ p = payload b /\ good s b /\ 0 < b_size b /\ d = bytes_at (heap_mem s) p (b_size b).
Proof.
  intros Hinv Hp. apply alloc_map_lookup in Hp as (b & Hb & -> & ->); [|by eapply payloads_nodup].
  exists b. pose proof (proj2 (proj1 (live_elem _ _) Hb)) as Hb'.
  pose proof (heap_ok_good _ _ b (hi_ok _ _ Hinv) Hb') as Hg.
  pose proof (gd_size _ _ Hg). split_and!; try done. lia.
Qed.

(** A pointer is found exactly when it is an entry. *)
Lemma find_entry bs s p :
  heap_inv bs s -> normal bs -> (length (live bs) <= 2000)%nat ->
  match find_ptr p bs with Some b => b_used b | None => false end =
  bool_decide (is_Some (alloc_map (heap_mem s) (live bs) !! p)).
Proof.
  intros Hinv Hnorm Hlen. symmetry. destruct (find_ptr p bs) as [b|] eqn:Ef.
  - destruct (b_used b) eqn:Hu.
    + apply bool_decide_eq_true_2. apply find_ptr_Some in Ef as (l & r & -> & <-).
      eexists. apply alloc_map_lookup; [by eapply payloads_nodup|]. exists b. split_and!; try done.
      apply live_elem. split; [done|apply elem_middle].
    + apply bool_decide_eq_false_2. intros [d Hd].
      destruct (alloc_entry _ _ _ _ Hinv Hd) as (c & Hc & -> & _). apply live_elem in Hc as [Hcu Hc].
      unfold payload in Ef. rewrite (find_ptr_elem bs s c) in Ef; [congruence|apply Hinv|by rewrite small_visited].
  - apply bool_decide_eq_false_2. intros [d Hd].
    destruct (alloc_entry _ _ _ _ Hinv Hd) as (c & Hc & -> & _). apply live_elem in Hc as [_ Hc].
    unfold payload in Ef. rewrite (find_ptr_elem bs s c) in Ef; [done|apply Hinv|by rewrite small_visited].
Qed.

Lemma malloc_refines s A n :
  heap_abs s A -> heap_call_ok A (HMalloc n) -> (size A < 2000)%nat ->
  wp (kmalloc n) (fun r s' => exists A', heap_call_spec A (HMalloc n) r A' /\ heap_abs s' A') s.
Proof.
  intros (bs & Hinv & Hnorm & ->) Hn Hsz. rewrite (alloc_map_size _ _ Hinv) in Hsz.
  eapply wp_mono; [apply (kmalloc_gen (fun bs1 => normal bs1) bs); [done|done| |done|]|].
  { by eapply normal_short, Nat.lt_le_incl. }
  { intros base k Hk. apply grow_normal; [done|lia|done]. }
  intros p s' (bs' & Hinv' & Hdata & [(-> & El & _ & Hn')|(l & b & r & m & -> & Hn' & El & Hff & Hfit & Hm & ->)]).
  { eexists. split; [by left|]. exists bs'. split_and!; try done. rewrite El. symmetry. by apply alloc_map_same. }
  destruct (take_blk_live l b r m Hfit) as (c & E1 & E2 & E3 & E4 & _).
  assert (c ∈ l ++ take_blk b m ++ r) as Hc by (eapply live_elem; rewrite E1; apply elem_middle).
  pose proof (heap_ok_good _ _ c (hi_ok _ _ Hinv') Hc) as Hg. pose proof (good_range _ _ Hg) as Hr.
  pose proof (gd_aligned _ _ Hg) as Hal. pose proof (gd_size _ _ Hg) as [Hcs _].
  pose proof (payloads_nodup _ _ Hinv') as Hnd. rewrite E1 in Hnd.
  destruct (alloc_map_middle (heap_mem s') _ _ _ Hnd) as [Em Eno].
  assert (live bs = live l ++ live r) as El' by by rewrite <- El, E2.
  rewrite El' in *. rewrite (alloc_map_same _ _ _ Hdata) in Em, Eno.
  rewrite <- E3. fold (payload c). unfold b_end in Hr.
  exists (alloc_map (heap_mem s') (live l ++ c :: live r)). split.
  - right. exists (bytes_at (heap_mem s') (payload c) (b_size c)). rewrite bytes_at_length by lia.
    split_and!; try done; try (unfold payload; lia).
    + unfold payload. Z.div_mod_to_equations. lia.
    + intros q d' Hq. rewrite <- El' in Hq. destruct (alloc_entry _ _ _ _ Hinv Hq) as (e & He & -> & _ & He0 & ->).
      rewrite bytes_at_length by lia. rewrite El' in He.
      destruct (tiles_live_disjoint _ _ _ _ _ _ e (ho_tiles _ _ (hi_ok _ _ Hinv')) E1 He);
        unfold b_end, payload in *; lia.
  - eexists. split; [exact Hinv'|]. split; [by apply take_blk_normal; [|apply Hfit]|]. by rewrite E1.
Qed.

Lemma free_refines s A p :
  heap_abs s A -> is_u32 p -> (size A <= 2000)%nat ->
  wp (kfree p) (fun _ s' => heap_abs s' (delete p A)) s.
Proof.
  intros (bs & Hinv & Hnorm & ->) Hp Hsz. rewrite (alloc_map_size _ _ Hinv) in Hsz.
  pose proof (find_entry _ _ p Hinv Hnorm Hsz) as Hfe.
  eapply wp_mono; [by apply (kfree_ok bs)|]. intros u s' (bs' & Hinv' & Hdata & Hcase).
  assert (bs' = bs -> false = bool_decide (is_Some (alloc_map (heap_mem s) (live bs) !! p)) ->
    heap_abs s' (delete p (alloc_map (heap_mem s) (live bs)))) as Hbogus.
  { intros -> Hno. symmetry in Hno. apply bool_decide_eq_false_1 in Hno. apply eq_None_not_Some in Hno.
    rewrite delete_id by done. exists bs. split_and!; try done. symmetry. by apply alloc_map_same. }
  destruct (find_ptr p bs) as [b|] eqn:Ef; [destruct (b_used b) eqn:Hu|];
    [|by destruct Hcase; auto|by destruct Hcase; auto].
  destruct Hcase as (l & r & -> & El & Ebs'). apply find_ptr_Some in Ef as (_ & _ & _ & <-).
  assert (live (l ++ b :: r) = live l ++ b :: live r) as E1.
  { rewrite live_app. f_equal. unfold live. by rewrite filter_cons, Hu. }
  pose proof (payloads_nodup _ _ Hinv) as Hnd. rewrite E1 in Hnd.
  destruct (alloc_map_middle (heap_mem s) _ _ _ Hnd) as [Em Eno].
  exists bs'. split; [done|]. split.
  - rewrite Ebs'. apply merge_list_normal. pose proof (normal_short _ Hnorm Hsz) as Hlen.
    rewrite length_app in *. cbn in *. lia.
  - rewrite E1, Em. fold (payload b). rewrite delete_insert_id by done. rewrite El in Hdata |- *.
    symmetry. by apply alloc_map_same.
Qed.

Lemma write_refines s A p i v :
  heap_abs s A -> heap_call_ok A (HWrite p i v) ->
  wp (hwrite8 (p + Z.of_nat i) v) (fun _ s' => heap_abs s' (alter (fun d => <[i := u8 v]> d) p A)) s.
Proof.
  intros (bs & Hinv & Hnorm & ->) (d & Hd & Hi).
  destruct (alloc_entry _ _ _ _ Hinv Hd) as (b & Hb & -> & Hg & Hb0 & ->).
  assert (Z.of_nat i < b_size b) as Hi' by (rewrite <- (bytes_at_length (heap_mem s) (payload b)); lia).
  apply wp_hwrite8; [apply (good_mapped _ _ Hg); unfold payload, b_end; lia|].
  pose proof (payloads_nodup _ _ Hinv) as Hnd. pose proof (proj2 (proj1 (live_elem _ _) Hb)) as Hb'.
  exists bs. split; [apply (client_write_ok bs s b); [done|done|unfold payload, b_end; lia]|]. split; [done|].
  cbn [heap_mem]. change (heap_mem (s <| heap_mem ::= store8 (payload b + Z.of_nat i) v |>))
    with (store8 (payload b + Z.of_nat i) v (heap_mem s)).
  pose proof Hb as Hsplit. apply list_elem_of_split in Hsplit as (l & r & E1). rewrite E1 in Hnd, Hd |- *.
  destruct (alloc_map_middle (heap_mem s) _ _ _ Hnd) as [-> _].
  destruct (alloc_map_middle (store8 (payload b + Z.of_nat i) v (heap_mem s)) _ _ _ Hnd) as [-> _].
  rewrite alter_insert_eq, bytes_at_store by done. f_equal. symmetry. apply alloc_map_same.
  intros c Hc. apply store8_agree. intros Ha.
  destruct (tiles_live_disjoint _ _ _ _ _ _ c (ho_tiles _ _ (hi_ok _ _ Hinv)) E1 Hc);
    unfold b_end, payload in *; lia.
Qed.

Lemma heap_call_refines s A c :
  heap_abs s A -> heap_call_ok A c -> (size A < 2000)%nat ->
  wp (heap_call_run c) (fun r s' => exists A', heap_call_spec A c r A' /\ heap_abs s' A') s.
Proof.
  intros Habs Hok Hsz. destruct c as [n|p|p i v|p i|p|]; cbn [heap_call_run].
  - by apply malloc_refines.
  - apply wp_bind. eapply wp_mono; [apply (free_refines s A p); [done|done|lia]|].
    intros u s' Habs'. apply wp_ret. eexists. split; [|exact Habs']. by split.
  - apply wp_bind. eapply wp_mono; [by apply (write_refines s A p i v)|].
    intros u s' Habs'. apply wp_ret. eexists. split; [|exact Habs']. by split.
  - pose proof Habs as (bs & Hinv & _ & EA). destruct Hok as (d & Hd & Hi). rewrite EA in Hd.
    destruct (alloc_entry _ _ _ _ Hinv Hd) as (b & Hb & -> & Hg & Hb0 & ->).
    assert (Z.of_nat i < b_size b) as Hi' by (rewrite <- (bytes_at_length (heap_mem s) (payload b)); lia).
    eexists _, s. split; [|exists A; split; [|exact Habs]].
    + unfold hread8. by rewrite (good_mapped _ _ Hg) by (unfold payload, b_end; lia).
    + split; [done|]. eexists. rewrite EA. split; [exact Hd|]. by apply bytes_at_lookup.
  - pose proof Habs as (bs & Hinv & Hnorm & EA). rewrite EA, (alloc_map_size _ _ Hinv) in Hsz.
    apply wp_bind, (validate_ok bs); [done|done|]. apply wp_ret. exists A. split; [|done].
    split; [|done]. rewrite (find_entry bs s p), EA by (done || lia). done.
  - destruct Habs as (bs & Hinv & Hnorm & ->). rewrite (alloc_map_size _ _ Hinv) in Hsz.
    pose proof (normal_short _ Hnorm ltac:(lia)). eapply wp_mono; [by apply (audit_ok bs)|].
    intros issues s' (-> & Hinv' & _ & Em). eexists. split; [split; [|reflexivity]|].
    + unfold too_long. by rewrite decide_True by lia.
    + exists bs. by rewrite Em.
Qed.

(** C6: the heap refines the abstract allocator. A client that respects the
    allocator and never keeps more than 2000 blocks runs to its end on the real
    heap; what [kmalloc], [kfree], [heap_validate_pointer], [heap_audit] and the
    accesses to blocks return is a trace of the allocator, call by call: an
    allocation returns NULL or a fresh aligned block disjoint from every live one,
    a free removes the block at its argument and nothing else (nothing when there
    is none), every byte read is the one last written there, validation accepts the
    live addresses and no other, the audit finds nothing. The heap represents the
    allocator at the end of the trace. *)
Theorem heap_refines_allocator s A cl :
  heap_abs s A -> client_ok A cl ->
  wp (client_run cl) (fun tr s' => exists A', alloc_trace A tr A' /\ heap_abs s' A') s.
Proof.
  revert s A. induction cl as [|c k IH]; intros s A Habs Hcl; cbn [client_run].
  - apply wp_ret. exists A. split; [constructor|done].
  - destruct Hcl as (Hok & Hsz & Hk). apply wp_bind.
    eapply wp_mono; [by apply (heap_call_refines s A c)|]. intros r s1 (A1 & Hspec & Habs1).
    apply wp_bind. eapply wp_mono; [apply (IH r s1 A1 Habs1); auto|].
    intros tr s2 (A2 & Htr & Habs2). apply wp_ret. exists A2. split; [by econstructor|done].
Qed.
End Refinement.

(** A client that keeps its block across a bogus free and reads back what it
    wrote. *)
Definition sample_client : client :=
  Call (HMalloc 100) (fun p => if p =? 0 then Finish else
  Call (HWrite p 7 42) (fun _ => Call (HFree (p + 1)) (fun _ => Call (HRead p 7) (fun _ =>
  Call (HFree p) (fun _ => Call (HValidate p) (fun _ => Call HAudit (fun _ => Finish))))))).

Lemma heap_boot_abs : heap_abs heap_boot ∅.
Proof. exists [Blk HS 4080 false]. split; [apply heap_boot_inv|]. by split. Qed.

Lemma sample_client_ok : client_ok ∅ sample_client.
Proof.
  cbn [client_ok sample_client heap_call_ok]. split; [lia|]. split; [rewrite map_size_empty; lia|].
  intros p A [[-> ->]|(d & Hn & H8 & Hlo & Hhi & _ & -> & _)]; [done|].
  rewrite (proj2 (Z.eqb_neq _ _)) by (unfold HS in *; lia).
  assert (forall d : list Z, (size (<[p := d]> (∅ : allocator)) < 2000)%nat) as Hsz.
  { intros d'. rewrite map_size_insert_None by done. rewrite map_size_empty. lia. }
  assert (is_u32 p /\ is_u32 (p + 1)) as [Hp Hp1] by (unfold is_u32, HS, HE in *; lia).
  cbn [client_ok heap_call_ok]. split; [exists d; split; [apply lookup_insert_eq|lia]|]. split; [done|].
  intros _ ? [_ ->]. rewrite alter_insert_eq. cbn [client_ok heap_call_ok]. split; [done|]. split; [done|].
  intros _ ? [_ ->]. rewrite delete_id by (rewrite lookup_insert_ne by lia; done).
  cbn [client_ok heap_call_ok]. split; [eexists; split; [apply lookup_insert_eq|rewrite length_insert; lia]|].
  split; [done|]. intros r ? [-> _]. cbn [client_ok heap_call_ok]. split; [done|]. split; [done|].
  intros _ ? [_ ->]. rewrite delete_insert_id by done. cbn [client_ok heap_call_ok].
  split; [done|]. split; [rewrite map_size_empty; lia|]. intros _ ? [_ ->].
  cbn. split; [done|]. split; [rewrite map_size_empty; lia|done].
Qed.

Lemma heap_refines_allocator_witness :
  wp (client_run sample_client) (fun tr s' => exists A', alloc_trace ∅ tr A' /\ heap_abs s' A') heap_boot.
Proof. apply (heap_refines_allocator heap_boot ∅ sample_client); [apply heap_boot_abs|apply sample_client_ok]. Defined.

Example sample_client_run :
  (fun r => map snd (fst r)) <$> client_run sample_client heap_boot = Some [HS + 16; 0; 0; 42; 0; 0; 0].
Proof. vm_compute. reflexivity. Qed.
