(* ===== verification/Scheduler.v ===== *)
(** * Task scheduler (core/scheduler.h, core/scheduler.c, arch/i386/irq.asm)

    A table of 16 tasks, a ready queue rebuilt at every selection, kernel stacks
    taken from the heap, and a nestable lock that disables interrupts. Three
    things are parameters: the heap (class [KernelHeap]), the bodies of the tasks
    ([call_entry], one routine per entry address) and the registers the processor
    holds at a context switch ([cpu_registers]). A failed [kernel_assert_message]
    ends in [kernel_panic] and is [mhalt]. *)
From S2P Require Import Prelude KString KernelHeap.

Definition SCHEDULER_MAX_TASKS := 16.
Definition SCHEDULER_TASK_NAME_MAX := 32.
Definition SCHEDULER_KERNEL_STACK_SIZE := 4096.
Definition SCHEDULER_NO_TASK_SELECTED := 0xFFFFFFFF.

(** An enumeration value outside the declared ones is possible in C; the audit
    tests for it. *)
Inductive scheduler_task_state_t :=
| SCHEDULER_TASK_UNUSED | SCHEDULER_TASK_ACTIVE | SCHEDULER_TASK_RUNNING
| SCHEDULER_TASK_DISABLED | SCHEDULER_TASK_COMPLETED | SCHEDULER_TASK_SLEEPING
| SCHEDULER_TASK_INVALID (value : Z).

#[export] Instance task_state_eq_dec : EqDecision scheduler_task_state_t.
Proof. solve_decision. Defined.

Inductive scheduler_task_mode_t := SCHEDULER_TASK_RECURRING | SCHEDULER_TASK_ONESHOT.

#[export] Instance task_mode_eq_dec : EqDecision scheduler_task_mode_t.
Proof. solve_decision. Defined.

Definition state_is (a b : scheduler_task_state_t) : bool := bool_decide (a = b).
Definition mode_is (a b : scheduler_task_mode_t) : bool := bool_decide (a = b).

Record scheduler_context_t := {
  ctx_eip : Z; ctx_esp : Z; ctx_ebp : Z; ctx_eflags : Z;
  ctx_eax : Z; ctx_ebx : Z; ctx_ecx : Z; ctx_edx : Z; ctx_esi : Z; ctx_edi : Z
}.

#[export] Instance eta_context : Settable scheduler_context_t := fun c =>
  Build_scheduler_context_t (ctx_eip c) (ctx_esp c) (ctx_ebp c) (ctx_eflags c) (ctx_eax c)
    (ctx_ebx c) (ctx_ecx c) (ctx_edx c) (ctx_esi c) (ctx_edi c).

Record scheduler_task_t := {
  used : bool;
  id : Z;
  name : list Z;
  state : scheduler_task_state_t;
  mode : scheduler_task_mode_t;
  interval_ticks : Z;
  last_run_tick : Z;
  run_count : Z;
  wake_tick : Z;
  sleep_count : Z;
  kernel_stack_base : Z;
  kernel_stack_size : Z;
  kernel_stack_top : Z;
  context : scheduler_context_t;
  entry : Z
}.

#[export] Instance eta_task : Settable scheduler_task_t := fun t =>
  Build_scheduler_task_t (used t) (id t) (name t) (state t) (mode t) (interval_ticks t)
    (last_run_tick t) (run_count t) (wake_tick t) (sleep_count t) (kernel_stack_base t)
    (kernel_stack_size t) (kernel_stack_top t) (context t) (entry t).

(** A [scheduler_task_t*]: null, a slot of the table, or anything else. *)
Inductive task_ptr := TaskNull | TaskSlot (i : nat) | TaskWild (address : Z).

#[export] Instance task_ptr_eq_dec : EqDecision task_ptr.
Proof. solve_decision. Defined.

Record scheduler_switch_test_info_t := {
  stack_allocated : bool; started : bool; entered : bool; completed : bool;
  returned_unexpectedly : bool;
  st_run_count : Z; test_stack_base : Z; test_stack_top : Z; test_entry_address : Z;
  return_eip : Z; test_saved_eip : Z
}.

#[export] Instance eta_switch_test_info : Settable scheduler_switch_test_info_t := fun i =>
  Build_scheduler_switch_test_info_t (stack_allocated i) (started i) (entered i) (completed i)
    (returned_unexpectedly i) (st_run_count i) (test_stack_base i) (test_stack_top i)
    (test_entry_address i) (return_eip i) (test_saved_eip i).

Record scheduler_preempt_test_info_t := {
  pt_enabled : bool; in_timer_dispatch : bool;
  tick_interval : Z; last_dispatch_tick : Z; timer_ticks_seen : Z; timer_dispatches : Z;
  skipped_reentrant_dispatches : Z
}.

#[export] Instance eta_preempt_info : Settable scheduler_preempt_test_info_t := fun i =>
  Build_scheduler_preempt_test_info_t (pt_enabled i) (in_timer_dispatch i) (tick_interval i)
    (last_dispatch_tick i) (timer_ticks_seen i) (timer_dispatches i)
    (skipped_reentrant_dispatches i).

Record scheduler_ready_queue_info_t := {
  rebuilds : Z; count : Z; head : Z; tail : Z; overflows : Z; selected_slot : Z;
  task_ids : list Z
}.

#[export] Instance eta_ready_queue : Settable scheduler_ready_queue_info_t := fun q =>
  Build_scheduler_ready_queue_info_t (rebuilds q) (count q) (head q) (tail q) (overflows q)
    (selected_slot q) (task_ids q).

Record scheduler_audit_info_t := {
  audits_run : Z; repairs_run : Z; issues_found : Z; issues_repaired : Z;
  invalid_used_state : Z; unused_task_with_stack : Z; active_task_without_stack : Z;
  active_task_without_entry : Z; sleeping_task_without_wake_tick : Z;
  inactive_task_with_stack : Z; ready_queue_invalid_slot : Z;
  ready_queue_task_id_mismatch : Z; ready_queue_over_capacity : Z;
  current_task_invalid : Z; switched_task_invalid : Z
}.

#[export] Instance eta_sched_audit : Settable scheduler_audit_info_t := fun a =>
  Build_scheduler_audit_info_t (audits_run a) (repairs_run a) (issues_found a) (issues_repaired a)
    (invalid_used_state a) (unused_task_with_stack a) (active_task_without_stack a)
    (active_task_without_entry a) (sleeping_task_without_wake_tick a)
    (inactive_task_with_stack a) (ready_queue_invalid_slot a) (ready_queue_task_id_mismatch a)
    (ready_queue_over_capacity a) (current_task_invalid a) (switched_task_invalid a).

Record scheduler_lock_info_t := {
  locked : bool; interrupts_enabled_now : bool;
  depth : Z; saved_flags : Z; lock_count : Z; unlock_count : Z; max_depth : Z;
  failed_unlocks : Z; test_runs : Z
}.

#[export] Instance eta_lock_info : Settable scheduler_lock_info_t := fun l =>
  Build_scheduler_lock_info_t (locked l) (interrupts_enabled_now l) (depth l) (saved_flags l)
    (lock_count l) (unlock_count l) (max_depth l) (failed_unlocks l) (test_runs l).

Record scheduler_stats_t := {
  sched_initialized : bool;
  next_task_id : Z;
  active_tasks : Z; running_tasks : Z; completed_tasks : Z; disabled_tasks : Z; sleeping_tasks : Z;
  total_created_tasks : Z; scheduler_runs : Z; task_dispatches : Z; manual_dispatches : Z;
  switched_dispatches : Z; switched_returns : Z;
  current_task_index : Z; last_selected_task_id : Z; round_robin_passes : Z;
  tasks_considered : Z; tasks_selected : Z; no_task_selected : Z;
  allocated_kernel_stacks : Z; freed_kernel_stacks : Z; failed_stack_allocations : Z;
  trampoline_entries : Z; task_completions : Z; task_sleeps : Z; task_wakes : Z; task_yields : Z;
  failed_task_yields : Z; last_yielded_task_id : Z;
  context_self_tests : Z; switch_tests : Z; switch_test_failures : Z
}.

#[export] Instance eta_sched_stats : Settable scheduler_stats_t := fun s =>
  Build_scheduler_stats_t (sched_initialized s) (next_task_id s) (active_tasks s) (running_tasks s)
    (completed_tasks s) (disabled_tasks s) (sleeping_tasks s) (total_created_tasks s)
    (scheduler_runs s) (task_dispatches s) (manual_dispatches s) (switched_dispatches s)
    (switched_returns s) (current_task_index s) (last_selected_task_id s) (round_robin_passes s)
    (tasks_considered s) (tasks_selected s) (no_task_selected s) (allocated_kernel_stacks s)
    (freed_kernel_stacks s) (failed_stack_allocations s) (trampoline_entries s)
    (task_completions s) (task_sleeps s) (task_wakes s) (task_yields s) (failed_task_yields s)
    (last_yielded_task_id s) (context_self_tests s) (switch_tests s) (switch_test_failures s).

Record sched_state (H : Type) := {
  scheduler_tasks : list scheduler_task_t;
  scheduler_stats : scheduler_stats_t;
  test_workload_counter : Z;
  test_workload_task_id : Z;
  switch_test_return_context : scheduler_context_t;
  switch_test_context : scheduler_context_t;
  switch_test_info : scheduler_switch_test_info_t;
  scheduler_main_context : scheduler_context_t;
  scheduler_current_switched_task : task_ptr;
  scheduler_current_running_task : task_ptr;
  scheduler_running_on_task_stack : bool;
  scheduler_preempt_test_info : scheduler_preempt_test_info_t;
  scheduler_ready_queue_info : scheduler_ready_queue_info_t;
  scheduler_ready_queue_slots : list Z;
  scheduler_audit_info : scheduler_audit_info_t;
  scheduler_lock_info : scheduler_lock_info_t;
  eflags : Z;               (* the processor's EFLAGS *)
  timer_ticks : Z;          (* drivers/timer.c *)
  sched_heap : H
}.
Arguments Build_sched_state {H}.
Arguments scheduler_tasks {H}.
Arguments scheduler_stats {H}.
Arguments test_workload_counter {H}.
Arguments test_workload_task_id {H}.
Arguments switch_test_return_context {H}.
Arguments switch_test_context {H}.
Arguments switch_test_info {H}.
Arguments scheduler_main_context {H}.
Arguments scheduler_current_switched_task {H}.
Arguments scheduler_current_running_task {H}.
Arguments scheduler_running_on_task_stack {H}.
Arguments scheduler_preempt_test_info {H}.
Arguments scheduler_ready_queue_info {H}.
Arguments scheduler_ready_queue_slots {H}.
Arguments scheduler_audit_info {H}.
Arguments scheduler_lock_info {H}.
Arguments eflags {H}.
Arguments timer_ticks {H}.
Arguments sched_heap {H}.

#[export] Instance eta_sched_state {H} : Settable (sched_state H) := fun s =>
  Build_sched_state (scheduler_tasks s) (scheduler_stats s) (test_workload_counter s)
    (test_workload_task_id s) (switch_test_return_context s) (switch_test_context s)
    (switch_test_info s) (scheduler_main_context s) (scheduler_current_switched_task s)
    (scheduler_current_running_task s) (scheduler_running_on_task_stack s)
    (scheduler_preempt_test_info s) (scheduler_ready_queue_info s) (scheduler_ready_queue_slots s)
    (scheduler_audit_info s) (scheduler_lock_info s) (eflags s) (timer_ticks s) (sched_heap s).

(** ** Pure pieces *)

Definition scheduler_clear_context : scheduler_context_t :=
  Build_scheduler_context_t 0 0 0 0x202 0 0 0 0 0 0.

(** [string_clear] writes NUL to the whole name buffer. *)
Definition cleared_name : list Z := replicate 32 0.

Definition scheduler_clear_task : scheduler_task_t :=
  Build_scheduler_task_t false 0 cleared_name SCHEDULER_TASK_UNUSED SCHEDULER_TASK_RECURRING
    0 0 0 0 0 0 0 0 scheduler_clear_context 0.

Definition scheduler_clear_switch_test_info : scheduler_switch_test_info_t :=
  Build_scheduler_switch_test_info_t false false false false false 0 0 0 0 0 0.

Definition scheduler_clear_preempt_test_info : scheduler_preempt_test_info_t :=
  Build_scheduler_preempt_test_info_t false false 0 0 0 0 0.

Definition scheduler_clear_ready_queue_info : scheduler_ready_queue_info_t :=
  Build_scheduler_ready_queue_info_t 0 0 0 0 0 SCHEDULER_NO_TASK_SELECTED (replicate 16 0).

Definition cleared_slots : list Z := replicate 16 SCHEDULER_NO_TASK_SELECTED.

Definition scheduler_clear_audit_info : scheduler_audit_info_t :=
  Build_scheduler_audit_info_t 0 0 0 0 0 0 0 0 0 0 0 0 0 0 0.

Definition scheduler_task_state_is_valid (st : scheduler_task_state_t) : bool :=
  match st with SCHEDULER_TASK_INVALID _ => false | _ => true end.

Definition scheduler_task_is_ready_to_run (task : scheduler_task_t) (current_tick : Z) : bool :=
  if negb (used task) || negb (state_is (state task) SCHEDULER_TASK_ACTIVE) then false
  else if mode_is (mode task) SCHEDULER_TASK_ONESHOT then true
  else if current_tick [-] last_run_tick task <? interval_ticks task then false
  else true.

(** The indices of the task table. *)
Definition slots : list nat := seq 0 16.

Section Scheduler.
Context {H : Type} `{KernelHeap H}.
(** The task bodies, by entry address; the bytes at address 0, which
    [string_copy] would read for a NULL name; the registers at a switch; the
    addresses of the three entry functions the code takes. *)
Context (call_entry : Z -> M (sched_state H) unit).
Context (text_at_null : list Z).
Context (cpu_registers : sched_state H -> scheduler_context_t).
Context (addr_switched_task_entry addr_switch_test_entry addr_test_workload_task : Z).

Abbreviation SM := (M (sched_state H)).

Definition on_heap {A} (m : M H A) : SM A :=
  mzoom sched_heap (fun h s => s <| sched_heap := h |>) m.
Definition sstat (f : scheduler_stats_t -> scheduler_stats_t) : SM unit :=
  mmod (fun s => s <| scheduler_stats ::= f |>).
Definition get_task (s : sched_state H) (i : nat) : scheduler_task_t :=
  default scheduler_clear_task (scheduler_tasks s !! i).
Definition task_at (i : nat) : SM scheduler_task_t := mget (fun s => get_task s i).
Definition upd_task (i : nat) (f : scheduler_task_t -> scheduler_task_t) : SM unit :=
  mmod (fun s => s <| scheduler_tasks ::= alter f i |>).
Definition timer_get_ticks : SM Z := mget timer_ticks.

Definition kernel_assert_message (expression : bool) : SM unit :=
  if expression then mret_ tt else mhalt.

(** arch/i386/irq.asm *)
Definition FLAG_IF := 0x200.
Definition irq_save : SM Z :=
  flags <- mget eflags ;;
  mmod (fun s => s <| eflags ::= fun f => Z.ldiff f FLAG_IF |>) ;;;
  mret_ flags.
Definition irq_restore (flags : Z) : SM unit := mmod (fun s => s <| eflags := flags |>).
Definition irq_are_enabled (s : sched_state H) : bool := negb (Z.land (eflags s) FLAG_IF =? 0).

Definition lock_mod (f : scheduler_lock_info_t -> scheduler_lock_info_t) : SM unit :=
  mmod (fun s => s <| scheduler_lock_info ::= f |>).
Definition note_interrupts : SM unit :=
  mmod (fun s => s <| scheduler_lock_info ::= fun l =>
    l <| interrupts_enabled_now := irq_are_enabled s |> |>).

Definition scheduler_clear_lock_info : SM unit :=
  mmod (fun s => s <| scheduler_lock_info :=
    Build_scheduler_lock_info_t false (irq_are_enabled s) 0 0 0 0 0 0 0 |>).

(** ** The lock *)

Definition scheduler_lock : SM unit :=
  flags <- irq_save ;;
  lock_mod (fun l => if depth l =? 0 then l <| saved_flags := flags |> else l) ;;;
  lock_mod (fun l => l <| depth ::= incr |> <| locked := true |> <| lock_count ::= incr |>) ;;;
  lock_mod (fun l => if max_depth l <? depth l then l <| max_depth := depth l |> else l) ;;;
  note_interrupts.

Definition scheduler_unlock : SM unit :=
  l <- mget scheduler_lock_info ;;
  if depth l =? 0 then
    lock_mod (fun l => l <| failed_unlocks ::= incr |>) ;;;
    note_interrupts ;;;
    kernel_assert_message false
  else
    lock_mod (fun l => l <| depth ::= decr |> <| unlock_count ::= incr |>) ;;;
    l <- mget scheduler_lock_info ;;
    (if depth l =? 0 then
       lock_mod (fun l => l <| saved_flags := 0 |> <| locked := false |>) ;;;
       irq_restore (saved_flags l)
     else mret_ tt) ;;;
    note_interrupts.

(** The pattern of the public functions. *)
Definition with_lock {A} (m : SM A) : SM A :=
  scheduler_lock ;;; result <- m ;; scheduler_unlock ;;; mret_ result.

(** ** The task table *)

Fixpoint find_first (p : nat -> bool) (l : list nat) : option nat :=
  match l with [] => None | i :: l' => if p i then Some i else find_first p l' end.

Definition slot_is_available (t : scheduler_task_t) : bool :=
  negb (used t) || state_is (state t) SCHEDULER_TASK_UNUSED ||
  state_is (state t) SCHEDULER_TASK_DISABLED || state_is (state t) SCHEDULER_TASK_COMPLETED.

Definition scheduler_find_available_slot : SM (option nat) :=
  mget (fun s => find_first (fun i => slot_is_available (get_task s i)) slots).

Definition scheduler_find_task_by_id_mutable (task_id : Z) : SM (option nat) :=
  mget (fun s => find_first (fun i => used (get_task s i) && (id (get_task s i) =? task_id)) slots).

Definition scheduler_assign_task_state (i : nat) (st : scheduler_task_state_t) : SM unit :=
  upd_task i (fun t => t <| state := st |>).

Definition count_tasks (s : sched_state H) (st : scheduler_task_state_t) : Z :=
  count_if (fun i => used (get_task s i) && state_is (state (get_task s i)) st) slots.

(** The five local counters of the loop are the numbers of used tasks in each
    state. *)
Definition scheduler_recalculate_task_counts : SM unit :=
  mmod (fun s => s <| scheduler_stats ::= fun st =>
    st <| active_tasks := count_tasks s SCHEDULER_TASK_ACTIVE |>
       <| running_tasks := count_tasks s SCHEDULER_TASK_RUNNING |>
       <| completed_tasks := count_tasks s SCHEDULER_TASK_COMPLETED |>
       <| disabled_tasks := count_tasks s SCHEDULER_TASK_DISABLED |>
       <| sleeping_tasks := count_tasks s SCHEDULER_TASK_SLEEPING |> |>).

(** ** Sleeping tasks *)

(** The body of the loop of [scheduler_wake_sleeping_tasks]; the local variable
    [changed] is threaded through. *)
Definition scheduler_wake_step (current_tick : Z) (i : nat) (changed : bool) : SM bool :=
  task <- task_at i ;;
  if negb (used task) || negb (state_is (state task) SCHEDULER_TASK_SLEEPING) then mret_ changed
  else if current_tick [-] wake_tick task <? 0x80000000 then
    scheduler_assign_task_state i SCHEDULER_TASK_ACTIVE ;;;
    upd_task i (fun t => t <| wake_tick := 0 |>) ;;;
    sstat (fun st => st <| task_wakes ::= incr |>) ;;;
    mret_ true
  else mret_ changed.

Definition scheduler_wake_sleeping_tasks (current_tick : Z) : SM unit :=
  changed <- mfold slots (fun changed i => scheduler_wake_step current_tick i changed) false ;;
  mwhen changed scheduler_recalculate_task_counts.

(** ** The ready queue *)

Definition rq_mod (f : scheduler_ready_queue_info_t -> scheduler_ready_queue_info_t) : SM unit :=
  mmod (fun s => s <| scheduler_ready_queue_info ::= f |>).

Definition scheduler_reset_ready_queue_snapshot : SM unit :=
  rq_mod (fun q => q <| count := 0 |> <| head := 0 |> <| tail := 0 |>
                     <| selected_slot := SCHEDULER_NO_TASK_SELECTED |>
                     <| task_ids := replicate 16 0 |>) ;;;
  mmod (fun s => s <| scheduler_ready_queue_slots := cleared_slots |>).

(** The body of the loop of [scheduler_rebuild_ready_queue]. *)
Definition scheduler_enqueue_step (current_tick start_index attempts : Z) : SM unit :=
  let index := (start_index [+] attempts) mod SCHEDULER_MAX_TASKS in
  task <- task_at (Z.to_nat index) ;;
  sstat (fun st => st <| tasks_considered ::= incr |>) ;;;
  mwhen ((0 <? attempts) && (index =? 0))
    (sstat (fun st => st <| round_robin_passes ::= incr |>)) ;;;
  if negb (scheduler_task_is_ready_to_run task current_tick) then mret_ tt
  else
    q <- mget scheduler_ready_queue_info ;;
    if SCHEDULER_MAX_TASKS <=? count q then rq_mod (fun q => q <| overflows ::= incr |>)
    else
      let queue_index := Z.to_nat (count q) in
      mmod (fun s => s <| scheduler_ready_queue_slots ::= <[queue_index := index]> |>) ;;;
      rq_mod (fun q => q <| task_ids ::= <[queue_index := id task]> |> <| count ::= incr |>).

Definition scheduler_rebuild_ready_queue (current_tick : Z) : SM unit :=
  rq_mod (fun q => q <| rebuilds ::= incr |>) ;;;
  scheduler_reset_ready_queue_snapshot ;;;
  st <- mget scheduler_stats ;;
  let start_index := current_task_index st mod SCHEDULER_MAX_TASKS in
  mfor (seqZ 0 SCHEDULER_MAX_TASKS) (scheduler_enqueue_step current_tick start_index) ;;;
  rq_mod (fun q => q <| tail := count q |>).

Definition scheduler_select_next_ready_task (current_tick : Z) : SM (option nat) :=
  scheduler_rebuild_ready_queue current_tick ;;;
  q <- mget scheduler_ready_queue_info ;;
  let nothing :=
    sstat (fun st => st <| last_selected_task_id := SCHEDULER_NO_TASK_SELECTED |>
                        <| no_task_selected ::= incr |>) ;;;
    mret_ None in
  if count q =? 0 then nothing
  else
    selected <- mget (fun s => default SCHEDULER_NO_TASK_SELECTED (scheduler_ready_queue_slots s !! 0%nat)) ;;
    if SCHEDULER_MAX_TASKS <=? selected then nothing
    else
      kernel_assert_message (selected <? SCHEDULER_MAX_TASKS) ;;;
      task <- task_at (Z.to_nat selected) ;;
      kernel_assert_message (used task) ;;;
      rq_mod (fun q => q <| selected_slot := selected |> <| head := 1 |>) ;;;
      sstat (fun st => st <| current_task_index := (selected [+] 1) mod SCHEDULER_MAX_TASKS |>
                          <| last_selected_task_id := id task |>
                          <| tasks_selected ::= incr |>) ;;;
      mret_ (Some (Z.to_nat selected)).

(** ** Auditing *)

Definition scheduler_pointer_points_to_task_table (p : task_ptr) : bool :=
  match p with
  | TaskNull => true
  | TaskSlot i => (i <? 16)%nat
  | TaskWild _ => false
  end.

Definition sched_audit_mod (f : scheduler_audit_info_t -> scheduler_audit_info_t) : SM unit :=
  mmod (fun s => s <| scheduler_audit_info ::= f |>).

Definition scheduler_audit_record_issue (counter : scheduler_audit_info_t -> scheduler_audit_info_t)
    : SM unit :=
  sched_audit_mod (fun a => a <| issues_found ::= incr |>) ;;;
  sched_audit_mod counter.

(** Reading [scheduler_ready_queue_slots[i]] past the end of the array is
    undefined: the loop bound [count] may exceed 16 in a damaged queue. *)
Definition scheduler_audit_ready_queue : SM unit :=
  q <- mget scheduler_ready_queue_info ;;
  mwhen (SCHEDULER_MAX_TASKS <? count q)
    (scheduler_audit_record_issue (fun a => a <| ready_queue_over_capacity ::= incr |>)) ;;;
  mfor (seqZ 0 (count q)) (fun i =>
    sl <- mget scheduler_ready_queue_slots ;;
    match sl !! Z.to_nat i, task_ids q !! Z.to_nat i with
    | Some slot, Some tid =>
        if SCHEDULER_MAX_TASKS <=? slot then
          scheduler_audit_record_issue (fun a => a <| ready_queue_invalid_slot ::= incr |>)
        else
          task <- task_at (Z.to_nat slot) ;;
          mwhen (negb (used task) || negb (tid =? id task))
            (scheduler_audit_record_issue (fun a => a <| ready_queue_task_id_mismatch ::= incr |>))
    | _, _ => mhalt
    end).

Definition state_needs_stack (st : scheduler_task_state_t) : bool :=
  state_is st SCHEDULER_TASK_ACTIVE || state_is st SCHEDULER_TASK_RUNNING ||
  state_is st SCHEDULER_TASK_SLEEPING.

Definition state_is_inactive (st : scheduler_task_state_t) : bool :=
  state_is st SCHEDULER_TASK_DISABLED || state_is st SCHEDULER_TASK_COMPLETED.

(** The body of the task loop of [scheduler_audit_unlocked]. *)
Definition scheduler_audit_task (task : scheduler_task_t) : SM unit :=
  if negb (used task) then
    mwhen (negb (kernel_stack_base task =? 0) || negb (kernel_stack_top task =? 0))
      (scheduler_audit_record_issue (fun a => a <| unused_task_with_stack ::= incr |>))
  else if negb (scheduler_task_state_is_valid (state task)) then
    scheduler_audit_record_issue (fun a => a <| invalid_used_state ::= incr |>)
  else
    (if state_needs_stack (state task) then
       mwhen ((kernel_stack_base task =? 0) || (kernel_stack_top task =? 0))
         (scheduler_audit_record_issue (fun a => a <| active_task_without_stack ::= incr |>)) ;;;
       mwhen (entry task =? 0)
         (scheduler_audit_record_issue (fun a => a <| active_task_without_entry ::= incr |>))
     else mret_ tt) ;;;
    mwhen (state_is (state task) SCHEDULER_TASK_SLEEPING && (wake_tick task =? 0))
      (scheduler_audit_record_issue (fun a => a <| sleeping_task_without_wake_tick ::= incr |>)) ;;;
    mwhen (state_is_inactive (state task) &&
           (negb (kernel_stack_base task =? 0) || negb (kernel_stack_top task =? 0)))
      (scheduler_audit_record_issue (fun a => a <| inactive_task_with_stack ::= incr |>)).

Definition scheduler_audit_unlocked : SM Z :=
  sched_audit_mod (fun _ => scheduler_clear_audit_info <| audits_run := 1 |>) ;;;
  mfor slots (fun i => task <- task_at i ;; scheduler_audit_task task) ;;;
  scheduler_audit_ready_queue ;;;
  running <- mget scheduler_current_running_task ;;
  mwhen (negb (scheduler_pointer_points_to_task_table running))
    (scheduler_audit_record_issue (fun a => a <| current_task_invalid ::= incr |>)) ;;;
  switched <- mget scheduler_current_switched_task ;;
  mwhen (negb (scheduler_pointer_points_to_task_table switched))
    (scheduler_audit_record_issue (fun a => a <| switched_task_invalid ::= incr |>)) ;;;
  mget (fun s => issues_found (scheduler_audit_info s)).

Definition scheduler_audit : SM Z := with_lock scheduler_audit_unlocked.

(** ** Kernel stacks *)

Definition scheduler_allocate_kernel_stack (i : nat) : SM bool :=
  stack <- on_heap (heap_kmalloc SCHEDULER_KERNEL_STACK_SIZE) ;;
  if stack =? 0 then
    sstat (fun st => st <| failed_stack_allocations ::= incr |>) ;;; mret_ false
  else
    valid <- on_heap (heap_validate stack) ;;
    kernel_assert_message valid ;;;
    upd_task i (fun t =>
      let top := stack [+] SCHEDULER_KERNEL_STACK_SIZE in
      t <| kernel_stack_base := stack |>
        <| kernel_stack_size := SCHEDULER_KERNEL_STACK_SIZE |>
        <| kernel_stack_top := top |>
        <| context ::= fun c =>
             Build_scheduler_context_t (ctx_eip c) top top 0x202 0 0 0 0 0 0 |>) ;;;
    sstat (fun st => st <| allocated_kernel_stacks ::= incr |>) ;;;
    mret_ true.

Definition scheduler_free_kernel_stack (i : nat) : SM unit :=
  task <- task_at i ;;
  if kernel_stack_base task =? 0 then mret_ tt
  else
    valid <- on_heap (heap_validate (kernel_stack_base task)) ;;
    kernel_assert_message valid ;;;
    on_heap (heap_kfree (kernel_stack_base task)) ;;;
    upd_task i (fun t =>
      t <| kernel_stack_base := 0 |> <| kernel_stack_size := 0 |> <| kernel_stack_top := 0 |>
        <| context ::= fun c => c <| ctx_esp := 0 |> <| ctx_ebp := 0 |> |>) ;;;
    sstat (fun st => st <| freed_kernel_stacks ::= incr |>).

(** The body of the task loop of [scheduler_repair_unlocked]; the local variable
    [repaired] is threaded through. *)
Definition scheduler_repair_task (i : nat) (repaired : Z) : SM Z :=
  task <- task_at i ;;
  if negb (used task) then
    repaired' <- (if negb (kernel_stack_base task =? 0)
                  then scheduler_free_kernel_stack i ;;; mret_ (incr repaired)
                  else mret_ repaired) ;;
    upd_task i (fun t => t <| kernel_stack_top := 0 |> <| kernel_stack_size := 0 |>) ;;;
    mret_ repaired'
  else if negb (scheduler_task_state_is_valid (state task)) then
    scheduler_assign_task_state i SCHEDULER_TASK_DISABLED ;;;
    scheduler_free_kernel_stack i ;;;
    mret_ (incr repaired)
  else if state_needs_stack (state task) &&
          ((entry task =? 0) || (kernel_stack_base task =? 0) || (kernel_stack_top task =? 0)) then
    scheduler_assign_task_state i SCHEDULER_TASK_DISABLED ;;;
    scheduler_free_kernel_stack i ;;;
    mret_ (incr repaired)
  else
    repaired' <- (if state_is (state task) SCHEDULER_TASK_SLEEPING && (wake_tick task =? 0)
                  then scheduler_assign_task_state i SCHEDULER_TASK_ACTIVE ;;; mret_ (incr repaired)
                  else mret_ repaired) ;;
    task' <- task_at i ;;
    if state_is_inactive (state task') && negb (kernel_stack_base task' =? 0)
    then scheduler_free_kernel_stack i ;;; mret_ (incr repaired')
    else mret_ repaired'.

Definition scheduler_repair_unlocked : SM Z :=
  sched_audit_mod (fun a => a <| repairs_run ::= incr |>) ;;;
  repaired <- mfold slots (fun repaired i => scheduler_repair_task i repaired) 0 ;;
  running <- mget scheduler_current_running_task ;;
  repaired <- (if negb (scheduler_pointer_points_to_task_table running)
               then mmod (fun s => s <| scheduler_current_running_task := TaskNull |>) ;;;
                    mret_ (incr repaired)
               else mret_ repaired) ;;
  switched <- mget scheduler_current_switched_task ;;
  repaired <- (if negb (scheduler_pointer_points_to_task_table switched)
               then mmod (fun s => s <| scheduler_current_switched_task := TaskNull |>) ;;;
                    mret_ (incr repaired)
               else mret_ repaired) ;;
  scheduler_reset_ready_queue_snapshot ;;;
  scheduler_recalculate_task_counts ;;;
  sched_audit_mod (fun a => a <| issues_repaired ::= fun n => n [+] repaired |>) ;;;
  scheduler_audit_unlocked ;;;
  mret_ repaired.

Definition scheduler_repair : SM Z := with_lock scheduler_repair_unlocked.

(** ** Running tasks *)

Definition scheduler_task_trampoline (i : nat) : SM unit :=
  task <- task_at i ;;
  if entry task =? 0 then mret_ tt
  else
    sstat (fun st => st <| trampoline_entries ::= incr |>) ;;;
    scheduler_assign_task_state i SCHEDULER_TASK_RUNNING ;;;
    mmod (fun s => s <| scheduler_current_running_task := TaskSlot i |>) ;;;
    scheduler_recalculate_task_counts ;;;
    call_entry (entry task) ;;;
    mmod (fun s => s <| scheduler_current_running_task := TaskNull |>) ;;;
    upd_task i (fun t => t <| run_count ::= incr |>) ;;;
    task' <- task_at i ;;
    (if mode_is (mode task') SCHEDULER_TASK_ONESHOT then
       scheduler_assign_task_state i SCHEDULER_TASK_COMPLETED ;;;
       on_stack <- mget scheduler_running_on_task_stack ;;
       mwhen (negb on_stack) (scheduler_free_kernel_stack i) ;;;
       sstat (fun st => st <| task_completions ::= incr |>)
     else scheduler_assign_task_state i SCHEDULER_TASK_ACTIVE) ;;;
    scheduler_recalculate_task_counts.

Definition scheduler_prepare_switched_context (i : nat) : SM unit :=
  upd_task i (fun t => t <| context :=
    let esp := Z.land (kernel_stack_top t) 0xFFFFFFF0 in
    Build_scheduler_context_t addr_switched_task_entry esp esp 0x202 0 0 0 0 0 0 |>).

(** What [scheduler_context_switch] stores into the context it leaves. *)
Definition saved_context (s : sched_state H) : scheduler_context_t :=
  (cpu_registers s) <| ctx_eflags := eflags s |>.

(** [scheduler_context_switch(&scheduler_main_context, &task->context)], up to
    the moment the task switches back. The task's context starts
    [scheduler_switched_task_entry] with the flags stored in it. The task
    returns through [scheduler_main_context]; when a nested switch has
    overwritten that context (and cleared [scheduler_running_on_task_stack]), the
    caller is never resumed. *)
Definition scheduler_switch_to_task (i : nat) : SM unit :=
  task <- task_at i ;;
  mmod (fun s => s <| scheduler_main_context := saved_context s |>) ;;;
  mmod (fun s => s <| eflags := ctx_eflags (context task) |>) ;;;
  switched <- mget scheduler_current_switched_task ;;
  match switched with
  | TaskSlot j =>
      scheduler_task_trampoline j ;;;
      on_stack <- mget scheduler_running_on_task_stack ;;
      if negb on_stack then mhalt
      else
        mmod (fun s => s <| scheduler_tasks ::= alter (fun t => t <| context := saved_context s |>) j |>) ;;;
        mmod (fun s => s <| eflags := ctx_eflags (scheduler_main_context s) |>)
  | _ => mhalt
  end.

(** ** Public operations *)

Definition scheduler_initialize : SM unit :=
  mmod (fun s => s <| scheduler_tasks := replicate 16 scheduler_clear_task |>
    <| switch_test_return_context := scheduler_clear_context |>
    <| switch_test_context := scheduler_clear_context |>
    <| switch_test_info := scheduler_clear_switch_test_info |>) ;;;
  mmod (fun s => s <| scheduler_main_context := scheduler_clear_context |>
    <| scheduler_current_switched_task := TaskNull |>
    <| scheduler_current_running_task := TaskNull |>
    <| scheduler_running_on_task_stack := false |>) ;;;
  mmod (fun s => s <| scheduler_preempt_test_info := scheduler_clear_preempt_test_info |>
    <| scheduler_ready_queue_info := scheduler_clear_ready_queue_info |>
    <| scheduler_ready_queue_slots := cleared_slots |>
    <| scheduler_audit_info := scheduler_clear_audit_info |>) ;;;
  scheduler_clear_lock_info ;;;
  sstat (fun _ => Build_scheduler_stats_t true 1 0 0 0 0 0 0 0 0 0 0 0 0 0 0 0 0 0 0 0 0 0 0 0 0 0 0 0 0 0 0) ;;;
  mmod (fun s => s <| test_workload_counter := 0 |> <| test_workload_task_id := 0 |>).

(** Returns the task's id, or [None] for the C result -1. *)
Definition scheduler_create_task_internal_unlocked (nm : option (list Z)) (interval : Z)
    (ent : Z) (md : scheduler_task_mode_t) : SM (option Z) :=
  st <- mget scheduler_stats ;;
  if negb (sched_initialized st) || (ent =? 0) then mret_ None
  else if mode_is md SCHEDULER_TASK_RECURRING && (interval =? 0) then mret_ None
  else
    slot <- scheduler_find_available_slot ;;
    match slot with
    | None => mret_ None
    | Some i =>
        task <- task_at i ;;
        mwhen (negb (kernel_stack_base task =? 0)) (scheduler_free_kernel_stack i) ;;;
        upd_task i (fun _ => scheduler_clear_task) ;;;
        st <- mget scheduler_stats ;;
        now <- timer_get_ticks ;;
        upd_task i (fun t => t <| used := true |> <| id := next_task_id st |>
                               <| state := SCHEDULER_TASK_ACTIVE |> <| mode := md |>
                               <| interval_ticks := interval |> <| last_run_tick := now |>
                               <| run_count := 0 |> <| entry := ent |>) ;;;
        upd_task i (fun t => t <| name ::= fun old =>
                      string_copy old (default text_at_null nm) 32 |>) ;;;
        upd_task i (fun t => t <| context ::= fun c => c <| ctx_eip := ent |> |>) ;;;
        allocated <- scheduler_allocate_kernel_stack i ;;
        if negb allocated then
          upd_task i (fun _ => scheduler_clear_task) ;;;
          scheduler_recalculate_task_counts ;;;
          mret_ None
        else
          sstat (fun st => st <| next_task_id ::= incr |> <| total_created_tasks ::= incr |>) ;;;
          scheduler_recalculate_task_counts ;;;
          task <- task_at i ;;
          mret_ (Some (id task))
    end.

Definition scheduler_create_kernel_task (nm : option (list Z)) (interval ent : Z) : SM (option Z) :=
  with_lock (scheduler_create_task_internal_unlocked nm interval ent SCHEDULER_TASK_RECURRING).

Definition scheduler_create_oneshot_kernel_task (nm : option (list Z)) (ent : Z) : SM (option Z) :=
  with_lock (scheduler_create_task_internal_unlocked nm 0 ent SCHEDULER_TASK_ONESHOT).

(** [result < 0] on the C side: -1, or an id of 2^31 and more read as [int]. *)
Definition result_is_negative (result : option Z) : bool :=
  match result with None => true | Some v => 0x80000000 <=? v end.

(** The status and the value stored through [task_id]; [None] stands for a NULL
    [task_id] pointer. *)
Definition create_status (has_task_id : bool) (bad_argument : bool) (create : SM (option Z))
    : SM (Z * option Z) :=
  if negb has_task_id then mret_ (KERNEL_ERROR_INVALID_ARGUMENT, None)
  else
    st <- mget scheduler_stats ;;
    if negb (sched_initialized st) then mret_ (KERNEL_ERROR_NOT_INITIALIZED, Some 0)
    else if bad_argument then mret_ (KERNEL_ERROR_INVALID_ARGUMENT, Some 0)
    else
      result <- create ;;
      if result_is_negative result then mret_ (KERNEL_ERROR_OUT_OF_MEMORY, Some 0)
      else mret_ (KERNEL_OK, result).

Definition scheduler_create_kernel_task_status (nm : option (list Z)) (interval ent : Z)
    (has_task_id : bool) : SM (Z * option Z) :=
  create_status has_task_id
    (bool_decide (nm = None) || (ent =? 0) || (interval =? 0))
    (with_lock (scheduler_create_task_internal_unlocked nm interval ent SCHEDULER_TASK_RECURRING)).

Definition scheduler_create_oneshot_kernel_task_status (nm : option (list Z)) (ent : Z)
    (has_task_id : bool) : SM (Z * option Z) :=
  create_status has_task_id
    (bool_decide (nm = None) || (ent =? 0))
    (with_lock (scheduler_create_task_internal_unlocked nm 0 ent SCHEDULER_TASK_ONESHOT)).

Definition state_is_runnable (st : scheduler_task_state_t) : bool :=
  state_is st SCHEDULER_TASK_ACTIVE || state_is st SCHEDULER_TASK_RUNNING.

Definition scheduler_disable_task_unlocked (task_id : Z) : SM bool :=
  found <- scheduler_find_task_by_id_mutable task_id ;;
  match found with
  | None => mret_ false
  | Some i =>
      task <- task_at i ;;
      if negb (state_is_runnable (state task)) then mret_ false
      else
        scheduler_assign_task_state i SCHEDULER_TASK_DISABLED ;;;
        scheduler_free_kernel_stack i ;;;
        scheduler_recalculate_task_counts ;;;
        mret_ true
  end.

Definition scheduler_disable_task (task_id : Z) : SM bool :=
  with_lock (scheduler_disable_task_unlocked task_id).

(** The common shape of the [_status] functions: argument check, lookup under
    the lock, state check, the operation. *)
Definition task_op_status (bad_argument : bool) (task_id : Z)
    (state_ok : scheduler_task_state_t -> bool) (op : SM bool) : SM Z :=
  if bad_argument then mret_ KERNEL_ERROR_INVALID_ARGUMENT
  else
    st <- mget scheduler_stats ;;
    if negb (sched_initialized st) then mret_ KERNEL_ERROR_NOT_INITIALIZED
    else
      scheduler_lock ;;;
      found <- scheduler_find_task_by_id_mutable task_id ;;
      match found with
      | None => scheduler_unlock ;;; mret_ KERNEL_ERROR_NOT_FOUND
      | Some i =>
          task <- task_at i ;;
          if negb (state_ok (state task)) then scheduler_unlock ;;; mret_ KERNEL_ERROR_INVALID_STATE
          else
            result <- op ;;
            scheduler_unlock ;;;
            mret_ (if (result : bool) then KERNEL_OK else KERNEL_ERROR_UNKNOWN)
      end.

Definition scheduler_disable_task_status (task_id : Z) : SM Z :=
  task_op_status (task_id =? 0) task_id state_is_runnable (scheduler_disable_task_unlocked task_id).

Definition scheduler_sleep_task_unlocked (task_id sleep_ticks : Z) : SM bool :=
  found <- scheduler_find_task_by_id_mutable task_id ;;
  match found with
  | None => mret_ false
  | Some i =>
      if sleep_ticks =? 0 then mret_ false
      else
        task <- task_at i ;;
        if negb (state_is (state task) SCHEDULER_TASK_ACTIVE) then mret_ false
        else
          scheduler_assign_task_state i SCHEDULER_TASK_SLEEPING ;;;
          now <- timer_get_ticks ;;
          upd_task i (fun t => t <| wake_tick := now [+] sleep_ticks |> <| sleep_count ::= incr |>) ;;;
          sstat (fun st => st <| task_sleeps ::= incr |>) ;;;
          scheduler_recalculate_task_counts ;;;
          mret_ true
  end.

Definition scheduler_sleep_task (task_id sleep_ticks : Z) : SM bool :=
  with_lock (scheduler_sleep_task_unlocked task_id sleep_ticks).

Definition scheduler_sleep_task_status (task_id sleep_ticks : Z) : SM Z :=
  task_op_status ((task_id =? 0) || (sleep_ticks =? 0)) task_id
    (fun st => state_is st SCHEDULER_TASK_ACTIVE)
    (scheduler_sleep_task_unlocked task_id sleep_ticks).

Definition scheduler_wake_task_unlocked (task_id : Z) : SM bool :=
  found <- scheduler_find_task_by_id_mutable task_id ;;
  match found with
  | None => mret_ false
  | Some i =>
      task <- task_at i ;;
      if negb (state_is (state task) SCHEDULER_TASK_SLEEPING) then mret_ false
      else
        scheduler_assign_task_state i SCHEDULER_TASK_ACTIVE ;;;
        upd_task i (fun t => t <| wake_tick := 0 |>) ;;;
        sstat (fun st => st <| task_wakes ::= incr |>) ;;;
        scheduler_recalculate_task_counts ;;;
        mret_ true
  end.

Definition scheduler_wake_task (task_id : Z) : SM bool :=
  with_lock (scheduler_wake_task_unlocked task_id).

Definition scheduler_wake_task_status (task_id : Z) : SM Z :=
  task_op_status (task_id =? 0) task_id (fun st => state_is st SCHEDULER_TASK_SLEEPING)
    (scheduler_wake_task_unlocked task_id).

Definition scheduler_yield_task_unlocked (task_id : Z) : SM bool :=
  found <- scheduler_find_task_by_id_mutable task_id ;;
  let failed := sstat (fun st => st <| failed_task_yields ::= incr |>) ;;; mret_ false in
  match found with
  | None => failed
  | Some i =>
      task <- task_at i ;;
      if negb (state_is_runnable (state task)) then failed
      else
        now <- timer_get_ticks ;;
        upd_task i (fun t => t <| last_run_tick := now |>) ;;;
        sstat (fun st => st <| task_yields ::= incr |> <| last_yielded_task_id := id task |>) ;;;
        mret_ true
  end.

Definition scheduler_yield_task (task_id : Z) : SM bool :=
  with_lock (scheduler_yield_task_unlocked task_id).

Definition scheduler_yield_task_status (task_id : Z) : SM Z :=
  task_op_status (task_id =? 0) task_id state_is_runnable (scheduler_yield_task_unlocked task_id).

Definition scheduler_yield_current_task : SM bool :=
  running <- mget scheduler_current_running_task ;;
  match running with
  | TaskNull => sstat (fun st => st <| failed_task_yields ::= incr |>) ;;; mret_ false
  | TaskSlot i => task <- task_at i ;; scheduler_yield_task_unlocked (id task)
  | TaskWild _ => mhalt
  end.

Definition scheduler_run_task_now_unlocked (task_id : Z) : SM bool :=
  found <- scheduler_find_task_by_id_mutable task_id ;;
  match found with
  | None => mret_ false
  | Some i =>
      task <- task_at i ;;
      if negb (state_is (state task) SCHEDULER_TASK_ACTIVE) then mret_ false
      else
        sstat (fun st => st <| manual_dispatches ::= incr |> <| task_dispatches ::= incr |>) ;;;
        now <- timer_get_ticks ;;
        upd_task i (fun t => t <| last_run_tick := now |>) ;;;
        scheduler_task_trampoline i ;;;
        mret_ true
  end.

Definition scheduler_run_task_now (task_id : Z) : SM bool :=
  with_lock (scheduler_run_task_now_unlocked task_id).

Definition scheduler_run_task_with_context_switch_unlocked (task_id : Z) : SM bool :=
  found <- scheduler_find_task_by_id_mutable task_id ;;
  match found with
  | None => mret_ false
  | Some i =>
      task <- task_at i ;;
      if negb (state_is (state task) SCHEDULER_TASK_ACTIVE) then mret_ false
      else if (kernel_stack_base task =? 0) || (kernel_stack_top task =? 0) then mret_ false
      else
        mmod (fun s => s <| scheduler_current_switched_task := TaskSlot i |>) ;;;
        scheduler_prepare_switched_context i ;;;
        sstat (fun st => st <| switched_dispatches ::= incr |> <| task_dispatches ::= incr |>) ;;;
        now <- timer_get_ticks ;;
        upd_task i (fun t => t <| last_run_tick := now |>) ;;;
        mmod (fun s => s <| scheduler_running_on_task_stack := true |>) ;;;
        scheduler_switch_to_task i ;;;
        mmod (fun s => s <| scheduler_running_on_task_stack := false |>) ;;;
        sstat (fun st => st <| switched_returns ::= incr |>) ;;;
        mmod (fun s => s <| scheduler_current_switched_task := TaskNull |>) ;;;
        task' <- task_at i ;;
        mwhen (state_is (state task') SCHEDULER_TASK_COMPLETED) (scheduler_free_kernel_stack i) ;;;
        scheduler_recalculate_task_counts ;;;
        mret_ true
  end.

Definition scheduler_run_task_with_context_switch (task_id : Z) : SM bool :=
  with_lock (scheduler_run_task_with_context_switch_unlocked task_id).

Definition scheduler_clear_inactive_step (i : nat) (cleared : Z) : SM Z :=
  task <- task_at i ;;
  if negb (used task) then mret_ cleared
  else if state_is_inactive (state task) then
    scheduler_free_kernel_stack i ;;;
    upd_task i (fun _ => scheduler_clear_task) ;;;
    mret_ (incr cleared)
  else mret_ cleared.

Definition scheduler_clear_inactive_tasks_unlocked : SM Z :=
  cleared <- mfold slots (fun cleared i => scheduler_clear_inactive_step i cleared) 0 ;;
  sstat (fun st => if SCHEDULER_MAX_TASKS <=? current_task_index st
                   then st <| current_task_index := 0 |> else st) ;;;
  scheduler_reset_ready_queue_snapshot ;;;
  scheduler_recalculate_task_counts ;;;
  mret_ cleared.

Definition scheduler_clear_inactive_tasks : SM Z :=
  with_lock scheduler_clear_inactive_tasks_unlocked.

Definition scheduler_run_pending_unlocked : SM unit :=
  st <- mget scheduler_stats ;;
  if negb (sched_initialized st) then mret_ tt
  else
    now <- timer_get_ticks ;;
    scheduler_wake_sleeping_tasks now ;;;
    sstat (fun st => st <| scheduler_runs ::= incr |>) ;;;
    selected <- scheduler_select_next_ready_task now ;;
    match selected with
    | None => mret_ tt
    | Some i =>
        upd_task i (fun t => t <| last_run_tick := now |>) ;;;
        sstat (fun st => st <| task_dispatches ::= incr |>) ;;;
        scheduler_task_trampoline i
    end.

Definition scheduler_run_pending : SM unit := with_lock scheduler_run_pending_unlocked.

Definition preempt_mod (f : scheduler_preempt_test_info_t -> scheduler_preempt_test_info_t)
    : SM unit :=
  mmod (fun s => s <| scheduler_preempt_test_info ::= f |>).

Definition scheduler_on_timer_tick (current_tick : Z) : SM unit :=
  st <- mget scheduler_stats ;;
  if negb (sched_initialized st) then mret_ tt
  else
    preempt_mod (fun p => p <| timer_ticks_seen ::= incr |>) ;;;
    scheduler_lock ;;;
    scheduler_wake_sleeping_tasks current_tick ;;;
    p <- mget scheduler_preempt_test_info ;;
    if negb (pt_enabled p) then scheduler_unlock
    else if in_timer_dispatch p then
      preempt_mod (fun p => p <| skipped_reentrant_dispatches ::= incr |>) ;;;
      scheduler_unlock
    else if current_tick [-] last_dispatch_tick p <? tick_interval p then scheduler_unlock
    else
      preempt_mod (fun p => p <| in_timer_dispatch := true |> <| last_dispatch_tick := current_tick |>
                              <| timer_dispatches ::= incr |>) ;;;
      scheduler_run_pending_unlocked ;;;
      preempt_mod (fun p => p <| in_timer_dispatch := false |>) ;;;
      scheduler_unlock.

Definition scheduler_enable_preempt_test (interval : Z) : SM unit :=
  let interval := if interval =? 0 then 10 else interval in
  with_lock (
    now <- timer_get_ticks ;;
    preempt_mod (fun p => p <| pt_enabled := true |> <| tick_interval := interval |>
                            <| last_dispatch_tick := now |>)).

Definition scheduler_disable_preempt_test : SM unit :=
  with_lock (preempt_mod (fun p => p <| pt_enabled := false |> <| in_timer_dispatch := false |>)).

Definition scheduler_reset_preempt_test : SM unit :=
  with_lock (
    p <- mget scheduler_preempt_test_info ;;
    preempt_mod (fun _ => scheduler_clear_preempt_test_info) ;;;
    if pt_enabled p then
      now <- timer_get_ticks ;;
      preempt_mod (fun q => q <| pt_enabled := true |>
                              <| tick_interval := if tick_interval p =? 0 then 10 else tick_interval p |>
                              <| last_dispatch_tick := now |>)
    else mret_ tt).

Definition scheduler_run_lock_test : SM bool :=
  before <- mget irq_are_enabled ;;
  lock_mod (fun l => l <| test_runs ::= incr |>) ;;;
  scheduler_lock ;;;
  l1 <- mget scheduler_lock_info ;;
  interrupts_after_lock <- mget irq_are_enabled ;;
  scheduler_lock ;;;
  l2 <- mget scheduler_lock_info ;;
  scheduler_unlock ;;;
  l3 <- mget scheduler_lock_info ;;
  scheduler_unlock ;;;
  after <- mget irq_are_enabled ;;
  lock_mod (fun l => l <| interrupts_enabled_now := after |>) ;;;
  mret_ (locked l1 && (depth l1 =? 1) && (depth l2 =? 2) && (depth l3 =? 1) &&
         negb interrupts_after_lock && Bool.eqb before after).

Definition scheduler_run_context_self_test : SM bool :=
  st <- mget scheduler_stats ;;
  if negb (sched_initialized st) then mret_ false
  else sstat (fun st => st <| context_self_tests ::= incr |>) ;;; mret_ true.

(** ** The context-switch test *)

Definition switch_mod (f : scheduler_switch_test_info_t -> scheduler_switch_test_info_t) : SM unit :=
  mmod (fun s => s <| switch_test_info ::= f |>).

(** [scheduler_context_switch(&switch_test_context, &switch_test_return_context)]
    resumes the caller of the test; the code after it is not reached. *)
Definition scheduler_switch_test_entry : SM unit :=
  switch_mod (fun i => i <| entered := true |> <| st_run_count ::= incr |>) ;;;
  mmod (fun s => s <| switch_test_context := saved_context s |>) ;;;
  mmod (fun s => s <| eflags := ctx_eflags (switch_test_return_context s) |>).

Definition scheduler_ensure_switch_test_stack : SM bool :=
  info <- mget switch_test_info ;;
  if negb (test_stack_base info =? 0) then
    switch_mod (fun i => i <| stack_allocated := true |>) ;;; mret_ true
  else
    stack <- on_heap (heap_kmalloc SCHEDULER_KERNEL_STACK_SIZE) ;;
    if stack =? 0 then
      sstat (fun st => st <| switch_test_failures ::= incr |>) ;;; mret_ false
    else
      switch_mod (fun i =>
        i <| test_stack_base := stack |>
          <| test_stack_top := Z.land (stack [+] SCHEDULER_KERNEL_STACK_SIZE) 0xFFFFFFF0 |>
          <| stack_allocated := true |>) ;;;
      mret_ true.

Definition scheduler_run_switch_test : SM bool :=
  st <- mget scheduler_stats ;;
  if negb (sched_initialized st) then mret_ false
  else
    ok <- scheduler_ensure_switch_test_stack ;;
    if negb ok then mret_ false
    else
      mmod (fun s => s <| switch_test_return_context := scheduler_clear_context |>) ;;;
      switch_mod (fun i => i <| started := true |> <| entered := false |> <| completed := false |>
                             <| returned_unexpectedly := false |>
                             <| test_entry_address := addr_switch_test_entry |>) ;;;
      mmod (fun s => s <| switch_test_context :=
        let top := test_stack_top (switch_test_info s) in
        Build_scheduler_context_t addr_switch_test_entry top top 0x202 0x11111111 0x22222222
          0x33333333 0x44444444 0x55555555 0x66666666 |>) ;;;
      sstat (fun st => st <| switch_tests ::= incr |>) ;;;
      mmod (fun s => s <| switch_test_return_context := saved_context s |>) ;;;
      mmod (fun s => s <| eflags := ctx_eflags (switch_test_context s) |>) ;;;
      scheduler_switch_test_entry ;;;
      mmod (fun s => s <| switch_test_info ::= fun i =>
        i <| return_eip := ctx_eip (switch_test_return_context s) |>
          <| test_saved_eip := ctx_eip (switch_test_context s) |> |>) ;;;
      info <- mget switch_test_info ;;
      if negb (entered info) then
        sstat (fun st => st <| switch_test_failures ::= incr |>) ;;; mret_ false
      else switch_mod (fun i => i <| completed := true |>) ;;; mret_ true.

Definition scheduler_reset_switch_test : SM unit :=
  info <- mget switch_test_info ;;
  mwhen (negb (test_stack_base info =? 0)) (on_heap (heap_kfree (test_stack_base info))) ;;;
  mmod (fun s => s <| switch_test_return_context := scheduler_clear_context |>
    <| switch_test_context := scheduler_clear_context |>
    <| switch_test_info := scheduler_clear_switch_test_info |>).

(** The one getter that changes the state. *)
Definition scheduler_get_lock_info : SM scheduler_lock_info_t :=
  note_interrupts ;;; mget scheduler_lock_info.

(** ** The test workload *)

Definition scheduler_test_workload_task : SM unit :=
  mmod (fun s => s <| test_workload_counter ::= incr |>).

(** "sched-workload" *)
Definition workload_name : list Z :=
  [115; 99; 104; 101; 100; 45; 119; 111; 114; 107; 108; 111; 97; 100; 0].

Definition scheduler_create_test_workload : SM unit :=
  wid <- mget test_workload_task_id ;;
  existing <- (if negb (wid =? 0) then
                 found <- scheduler_find_task_by_id_mutable wid ;;
                 match found with
                 | None => mret_ false
                 | Some i => task <- task_at i ;; mret_ (state_is (state task) SCHEDULER_TASK_ACTIVE)
                 end
               else mret_ false) ;;
  if (existing : bool) then mret_ tt
  else
    task_id <- scheduler_create_kernel_task (Some workload_name) 100 addr_test_workload_task ;;
    match task_id with
    | Some v => mwhen ((0 <? v) && (v <? 0x80000000))
                  (mmod (fun s => s <| test_workload_task_id := v |>))
    | None => mret_ tt
    end.

Definition scheduler_disable_test_workload : SM unit :=
  wid <- mget test_workload_task_id ;;
  if wid =? 0 then mret_ tt
  else
    scheduler_disable_task wid ;;;
    mmod (fun s => s <| test_workload_task_id := 0 |>).

Definition scheduler_reset_test_workload_counter : SM unit :=
  mmod (fun s => s <| test_workload_counter := 0 |>).

Definition scheduler_is_test_workload_active : SM bool :=
  wid <- mget test_workload_task_id ;;
  if wid =? 0 then mret_ false
  else
    found <- scheduler_find_task_by_id_mutable wid ;;
    match found with
    | None => mret_ false
    | Some i => task <- task_at i ;; mret_ (state_is (state task) SCHEDULER_TASK_ACTIVE)
    end.
End Scheduler.
