(* ===== verification/SchedQueue.v ===== *)
(** * The scheduler's ready queue

    [scheduler_rebuild_ready_queue] fills the queue with exactly the tasks that
    are ready, in rotation order from the current index; selection takes the
    head, so the policy is round robin and no ready task waits for more than 15
    other selections. *)
From S2P Require Import Prelude KString KernelHeap Scheduler.

(** The slots in the order the loop visits them. *)
Definition rotation (start : Z) : list Z :=
  (fun k => (start + k) mod 16) <$> seqZ 0 16.

(** ** Lists *)

Lemma insert_at_end {A} (l : list A) x y n :
  <[length l := x]> (l ++ replicate (S n) y) = (l ++ [x]) ++ replicate n y.
Proof. rewrite insert_app_r_alt, Nat.sub_diag by done. by rewrite <- app_assoc. Qed.

Lemma fmap_seqZ_snoc {A} (f : Z -> A) k :
  0 <= k -> f <$> seqZ 0 (k + 1) = (f <$> seqZ 0 k) ++ [f k].
Proof.
  intros. rewrite seqZ_app by lia. rewrite fmap_app. by rewrite Z.add_0_l.
Qed.

Lemma length_rotation start : length (rotation start) = 16%nat.
Proof. unfold rotation. by rewrite length_fmap, length_seqZ. Qed.

Lemma elem_of_rotation start i : 0 <= i < 16 -> i ∈ rotation start.
Proof.
  intros Hi. apply list_elem_of_fmap. exists ((i - start) mod 16). split.
  - rewrite Zplus_mod_idemp_r. replace (start + (i - start)) with i by lia.
    by rewrite Z.mod_small.
  - apply elem_of_seqZ. pose proof (Z.mod_pos_bound (i - start) 16). lia.
Qed.

Lemma rotation_range start x : x ∈ rotation start -> 0 <= x < 16.
Proof. intros (k & -> & _)%list_elem_of_fmap. apply Z.mod_pos_bound. lia. Qed.

Section Queue.
Context {H : Type}.
Implicit Types (s : sched_state H).

Definition slot_ready (tick : Z) s (x : Z) : bool :=
  scheduler_task_is_ready_to_run (get_task s (Z.to_nat x)) tick.

(** The ready slots in rotation order. *)
Definition ready_slots (tick : Z) s : list Z :=
  filter (fun x => slot_ready tick s x = true)
         (rotation (current_task_index (scheduler_stats s) mod 16)).

Definition slot_id s (x : Z) : Z := id (get_task s (Z.to_nat x)).

(** The queue arrays hold the slots [r] and nothing else. *)
Record queue_is s (r : list Z) (q : scheduler_ready_queue_info_t) (sl : list Z) : Prop := {
  qi_room : (length r <= 16)%nat;
  qi_count : count q = Z.of_nat (length r);
  qi_slots : sl = r ++ replicate (16 - length r) SCHEDULER_NO_TASK_SELECTED;
  qi_ids : task_ids q = (slot_id s <$> r) ++ replicate (16 - length r) 0
}.

(** What the queue functions leave of the statistics. *)
Record stats_kept (st st' : scheduler_stats_t) : Prop := {
  sk_init : sched_initialized st' = sched_initialized st;
  sk_next : next_task_id st' = next_task_id st;
  sk_active : active_tasks st' = active_tasks st;
  sk_running : running_tasks st' = running_tasks st;
  sk_completed : completed_tasks st' = completed_tasks st;
  sk_disabled : disabled_tasks st' = disabled_tasks st;
  sk_sleeping : sleeping_tasks st' = sleeping_tasks st
}.

Lemma stats_kept_refl st : stats_kept st st.
Proof. by constructor. Qed.

Lemma stats_kept_trans st1 st2 st3 : stats_kept st1 st2 -> stats_kept st2 st3 -> stats_kept st1 st3.
Proof. intros [] []. constructor; congruence. Qed.

(** The part of the state the queue functions write. *)
Definition with_queue s q sl st : sched_state H :=
  s <| scheduler_ready_queue_info := q |> <| scheduler_ready_queue_slots := sl |>
    <| scheduler_stats := st |>.

(** The statistics while the queue is rebuilt. *)
Definition rebuilding (st st' : scheduler_stats_t) : Prop :=
  stats_kept st st' /\ current_task_index st' = current_task_index st /\
  tasks_selected st' = tasks_selected st.

(** A state that differs from [s] in these parts only. *)
Ltac queue_view :=
  hnf;
  lazymatch goal with
  | |- exists q sl st, ?s1 = _ /\ _ =>
      exists (scheduler_ready_queue_info s1), (scheduler_ready_queue_slots s1), (scheduler_stats s1);
      split; [reflexivity|]
  end.

(** One visit of the loop. *)
Lemma enqueue_step_ok tick start k s q sl st r :
  is_u32 start -> 0 <= k < 16 -> start < 16 -> (length r <= Z.to_nat k)%nat ->
  queue_is s r q sl ->
  rebuilding (scheduler_stats s) st ->
  wp (scheduler_enqueue_step tick start k) (fun _ s' => exists q' sl' st',
    s' = with_queue s q' sl' st' /\ rebuilding (scheduler_stats s) st' /\
    head q' = head q /\ tail q' = tail q /\ overflows q' = overflows q /\
    selected_slot q' = selected_slot q /\
    queue_is s (if slot_ready tick s ((start + k) mod 16) then r ++ [(start + k) mod 16] else r) q' sl')
    (with_queue s q sl st).
Proof.
  intros Hst Hk Hs16 Hr [Q1 Q2 Q3 Q4] Hkeep. unfold scheduler_enqueue_step.
  rewrite u32_small by (unfold is_u32 in *; lia). change SCHEDULER_MAX_TASKS with 16.
  set (x := (start + k) mod 16). apply wp_bind, wp_get, wp_bind, wp_mod, wp_bind.
  change (get_task (with_queue s q sl st) (Z.to_nat x)) with (get_task s (Z.to_nat x)).
  fold (slot_ready tick s x).
  assert (forall st1, rebuilding (scheduler_stats s) st1 -> wp
     (if negb (slot_ready tick s x) then mret_ tt
      else
       q0 <- mget scheduler_ready_queue_info;;
       if 16 <=? count q0 then rq_mod (fun q1 => q1 <| overflows ::= incr |>)
       else
        (mmod (fun s0 => s0 <| scheduler_ready_queue_slots ::= <[Z.to_nat (count q0):=x]> |>);;;
         rq_mod (fun q1 => q1 <| task_ids ::= <[Z.to_nat (count q0):=id (get_task s (Z.to_nat x))]> |>
            <| count ::= incr |>)))
     (fun _ s' => exists q' sl' st', s' = with_queue s q' sl' st' /\ rebuilding (scheduler_stats s) st' /\
        head q' = head q /\ tail q' = tail q /\ overflows q' = overflows q /\
        selected_slot q' = selected_slot q /\
        queue_is s (if slot_ready tick s x then r ++ [x] else r) q' sl')
     (with_queue s q sl st1)) as Hrest.
  { intros st1 Hst1. destruct (slot_ready tick s x) eqn:Hready; cbn [negb].
    2:{ apply wp_ret. exists q, sl, st1. done. }
    apply wp_bind, wp_get. cbn. rewrite Q2, (proj2 (Z.leb_gt _ _)) by lia.
    apply wp_bind, wp_mod, wp_mod. rewrite Nat2Z.id.
    queue_view.
    split_and!; try done. constructor.
    - rewrite length_app. cbn. lia.
    - cbn. rewrite Q2, length_app, incr_small by lia. cbn. lia.
    - rewrite Q3, length_app. cbn [length].
      replace (16 - length r)%nat with (S (16 - (length r + 1))) by lia. apply insert_at_end.
    - cbn. rewrite Q4, length_app. cbn [length].
      replace (16 - length r)%nat with (S (16 - (length r + 1))) by lia.
      rewrite <- (length_fmap (slot_id s) r) at 1. rewrite insert_at_end. by rewrite fmap_app. }
  apply wp_when; intros _; [apply wp_mod, (Hrest (st <| tasks_considered ::= incr |> <| round_robin_passes ::= incr |>))
    |apply (Hrest (st <| tasks_considered ::= incr |>))]; destruct Hkeep as ([] & ? & ?);
    (split; [by constructor|done]).
Qed.

Lemma filter_fmap_seqZ_snoc (f : Z -> Z) (b : Z -> bool) k :
  0 <= k ->
  filter (fun x => b x = true) (f <$> seqZ 0 (k + 1)) =
  (if b (f k) then filter (fun x => b x = true) (f <$> seqZ 0 k) ++ [f k]
   else filter (fun x => b x = true) (f <$> seqZ 0 k)).
Proof.
  intros. rewrite fmap_seqZ_snoc by done. rewrite filter_app, filter_cons, filter_nil.
  destruct (b (f k)); [done|]. by rewrite app_nil_r.
Qed.

(** The rebuilt queue: exactly the ready slots. *)
Record rebuilt (tick : Z) s (q : scheduler_ready_queue_info_t) (sl : list Z) : Prop := {
  rb_queue : queue_is s (ready_slots tick s) q sl;
  rb_head : head q = 0;
  rb_tail : tail q = count q;
  rb_overflows : overflows q = overflows (scheduler_ready_queue_info s);
  rb_selected : selected_slot q = SCHEDULER_NO_TASK_SELECTED
}.

Lemma rebuild_ok tick s :
  wp (scheduler_rebuild_ready_queue tick) (fun _ s' => exists q sl st,
    s' = with_queue s q sl st /\ rebuilding (scheduler_stats s) st /\ rebuilt tick s q sl) s.
Proof.
  unfold scheduler_rebuild_ready_queue. apply wp_bind, wp_mod, wp_bind, wp_bind, wp_mod, wp_mod.
  apply wp_bind, wp_get, wp_bind. change SCHEDULER_MAX_TASKS with 16.
  change (scheduler_stats (set_field _ _ _)) with (scheduler_stats s).
  set (start := current_task_index (scheduler_stats s) mod 16).
  pose proof (Z.mod_pos_bound (current_task_index (scheduler_stats s)) 16 ltac:(lia)) as Hst.
  fold start in Hst.
  apply (wp_for_seqZ _ _ (fun k s' => exists q sl st, s' = with_queue s q sl st /\
    rebuilding (scheduler_stats s) st /\ head q = 0 /\ overflows q = overflows (scheduler_ready_queue_info s) /\
    selected_slot q = SCHEDULER_NO_TASK_SELECTED /\
    queue_is s (filter (fun x => slot_ready tick s x = true)
                  ((fun k => (start + k) mod 16) <$> seqZ 0 k)) q sl)); [lia| | |].
  - queue_view. split_and!; try done.
    change (seqZ 0 0) with (@nil Z). constructor; cbn; try done; lia.
  - intros k s' Hk (q & sl & st & -> & Hkeep & Q1 & Q2 & Q3 & Q4).
    eapply wp_mono; [eapply enqueue_step_ok; [..|exact Q4|exact Hkeep]; try done; try (unfold is_u32; lia)|].
    + etrans; [apply length_filter|]. rewrite length_fmap, length_seqZ. lia.
    + intros u s' (q' & sl' & st' & -> & Hkeep' & R1 & R2 & R3 & R4 & R5).
      exists q', sl', st'. rewrite R1, R3, R4. split_and!; try done.
      rewrite (filter_fmap_seqZ_snoc (fun k => (start + k) mod 16) (slot_ready tick s)) by lia. done.
  - intros s' (q & sl & st & -> & Hkeep & Q1 & Q2 & Q3 & [R1 R2 R3 R4]). apply wp_mod.
    queue_view. split; [done|].
    by constructor.
Qed.

(** ** Selection *)

(** The state after slot [x] was selected from the rebuilt queue. *)
Definition after_selection s (x : Z) (q : scheduler_ready_queue_info_t) (s' : sched_state H) : Prop :=
  scheduler_ready_queue_info s' = q <| selected_slot := x |> <| head := 1 |> /\
  current_task_index (scheduler_stats s') = (x + 1) mod 16 /\
  last_selected_task_id (scheduler_stats s') = slot_id s x /\
  tasks_selected (scheduler_stats s') = incr (tasks_selected (scheduler_stats s)).

(** What selection leaves alone, whatever it selects. *)
Definition selection_frame s s' : Prop := exists q sl st,
  s' = with_queue s q sl st /\ stats_kept (scheduler_stats s) st.

Lemma ready_is_used tick s x : slot_ready tick s x = true -> used (get_task s (Z.to_nat x)) = true.
Proof. unfold slot_ready, scheduler_task_is_ready_to_run. by destruct (used _). Qed.

Lemma select_ok tick s :
  wp (scheduler_select_next_ready_task tick) (fun r s' =>
    exists q, queue_is s (ready_slots tick s) q (scheduler_ready_queue_slots s') /\
    selection_frame s s' /\
    match ready_slots tick s with
    | [] => r = None /\ scheduler_ready_queue_info s' = q /\
            current_task_index (scheduler_stats s') = current_task_index (scheduler_stats s) /\
            last_selected_task_id (scheduler_stats s') = SCHEDULER_NO_TASK_SELECTED
    | x :: _ => r = Some (Z.to_nat x) /\ after_selection s x q s'
    end) s.
Proof.
  unfold scheduler_select_next_ready_task. apply wp_bind. eapply wp_mono; [apply rebuild_ok|].
  intros u s' (q & sl & st & -> & (Hkeep & Hidx & Hsel) & [Hq _ _ _ _]). pose proof Hq as [Q1 Q2 Q3 Q4].
  apply wp_bind, wp_get. change (scheduler_ready_queue_info (with_queue s q sl st)) with q. rewrite Q2.
  destruct (ready_slots tick s) as [|x r] eqn:Er.
  - cbn [length]. change (0 =? 0) with true. cbn iota. apply wp_bind, wp_mod, wp_ret.
    exists q. split; [done|]. split; [|done]. queue_view. by destruct Hkeep.
  - assert (x ∈ ready_slots tick s) as Hx by (rewrite Er; by left).
    apply list_elem_of_filter in Hx as [Hx Hin]. apply rotation_range in Hin.
    rewrite (proj2 (Z.eqb_neq _ _)) by (cbn [length]; lia). apply wp_bind, wp_get.
    change (scheduler_ready_queue_slots (with_queue s q sl st)) with sl.
    replace (default SCHEDULER_NO_TASK_SELECTED (sl !! 0%nat)) with x by (by rewrite Q3).
    change SCHEDULER_MAX_TASKS with 16.
    rewrite (proj2 (Z.leb_gt _ _)), (proj2 (Z.ltb_lt _ _)) by lia.
    apply wp_bind, wp_ret, wp_bind, wp_get.
    change (get_task (with_queue s q sl st) (Z.to_nat x)) with (get_task s (Z.to_nat x)).
    rewrite (ready_is_used _ _ _ Hx). apply wp_bind, wp_ret, wp_bind, wp_mod, wp_bind, wp_mod, wp_ret.
    exists q. split; [done|]. split; [queue_view; by destruct Hkeep|].
    split; [done|]. split; [done|]. split; [|split; [done|cbn; by rewrite Hsel]].
    cbn. rewrite u32_small by (unfold is_u32; lia). done.
Qed.

(** ** Bounded waiting *)

(** How many slots the rotation visits before [i]. *)
Definition distance (i : Z) s : Z := (i - current_task_index (scheduler_stats s)) mod 16.

(** A filtered prefix: the head comes before every other member. *)
Lemma ready_head_first (f : Z -> Z) (P : Z -> Prop) `{!forall x, Decision (P x)} n x r k :
  0 <= k < n -> P (f k) -> filter P (f <$> seqZ 0 n) = x :: r ->
  exists j, 0 <= j <= k /\ x = f j.
Proof.
  intros Hk HP Hf. replace n with (k + (1 + (n - k - 1))) in Hf by lia.
  rewrite seqZ_app, fmap_app, filter_app in Hf by lia.
  destruct (filter P (f <$> seqZ 0 k)) as [|y l] eqn:E.
  - rewrite Z.add_0_l, seqZ_cons, fmap_cons, app_nil_l in Hf by lia. rewrite filter_cons_True in Hf by done.
    injection Hf as <- _. exists k. split; [lia|done].
  - injection Hf as -> _. assert (x ∈ filter P (f <$> seqZ 0 k)) as Hx by (rewrite E; by left).
    apply list_elem_of_filter in Hx as [_ (j & -> & Hj)%list_elem_of_fmap].
    apply elem_of_seqZ in Hj. exists j. split; [lia|done].
Qed.

Lemma rotation_closer c d k :
  0 <= c < 16 -> 0 <= k < d -> d < 16 ->
  ((c + d) mod 16 - ((c + k) mod 16 + 1) mod 16) mod 16 = d - k - 1.
Proof. intros. Z.div_mod_to_equations. lia. Qed.

(** Being passed over brings a ready slot closer to the head. *)
Lemma select_distance tick s i j s' :
  0 <= i < 16 -> slot_ready tick s i = true ->
  scheduler_select_next_ready_task tick s = Some (j, s') -> j <> Some (Z.to_nat i) ->
  0 <= distance i s' < distance i s.
Proof.
  intros Hi Hr Hrun Hj.
  destruct (wp_run _ _ _ _ _ (select_ok tick s) Hrun) as (q & _ & _ & Hsel).
  set (c := current_task_index (scheduler_stats s)) in *.
  assert ((c mod 16 + distance i s) mod 16 = i) as Hd.
  { unfold distance. fold c. Z.div_mod_to_equations. lia. }
  assert (0 <= distance i s < 16) as Hb by (apply Z.mod_pos_bound; lia).
  destruct (ready_slots tick s) as [|x r] eqn:Er.
  - exfalso. assert (i ∈ ready_slots tick s) as Hin; [|rewrite Er in Hin; by apply not_elem_of_nil in Hin].
    apply list_elem_of_filter. split; [done|by apply elem_of_rotation].
  - destruct Hsel as (-> & _ & Hc & _).
    destruct (ready_head_first (fun k => (c mod 16 + k) mod 16) (fun x => slot_ready tick s x = true)
      16 x r (distance i s)) as (k & Hk & ->); [lia|by rewrite Hd|exact Er|].
    assert (k <> distance i s). { intros ->. by rewrite Hd in Hj. }
    unfold distance at 1 2. rewrite Hc. rewrite <- Hd at 1 2.
    pose proof (Z.mod_pos_bound c 16). rewrite rotation_closer; lia.
Qed.

(** [n] times a task other than the one in slot [i] was selected although slot
    [i] was ready; between two selections the state changes in any way that keeps
    the current index, which selection alone writes. *)
Inductive passed_over (i : Z) : nat -> sched_state H -> sched_state H -> Prop :=
| po_start s : passed_over i 0 s s
| po_other n s s1 s2 :
    passed_over i n s s1 ->
    current_task_index (scheduler_stats s2) = current_task_index (scheduler_stats s1) ->
    passed_over i n s s2
| po_select n s s1 s2 tick j :
    passed_over i n s s1 -> slot_ready tick s1 i = true ->
    scheduler_select_next_ready_task tick s1 = Some (j, s2) -> j <> Some (Z.to_nat i) ->
    passed_over i (S n) s s2.

Lemma passed_over_distance i n s s' :
  0 <= i < 16 -> passed_over i n s s' -> distance i s' + Z.of_nat n <= distance i s.
Proof.
  intros Hi. induction 1 as [s|n s s1 s2 _ IH Hc|n s s1 s2 tick j _ IH Hr Hrun Hj].
  - lia.
  - unfold distance in *. by rewrite Hc.
  - pose proof (select_distance _ _ _ _ _ Hi Hr Hrun Hj). lia.
Qed.
End Queue.
