(* ===== verification/SchedTable.v ===== *)
(** * The scheduler's task table

    The invariant of the task table and its kernel stacks, proved against the
    heap interface [KernelHeapLaws]: every stack is a live heap block owned by one
    task, and the blocks of other heap clients are left alone. *)
From S2P Require Import Prelude KString KernelHeap Scheduler SchedQueue.

(** ** The invariant of the task table *)

Definition stacks (ts : list scheduler_task_t) : list Z :=
  filter (fun p => p <> 0) (kernel_stack_base <$> ts).

Definition ids (ts : list scheduler_task_t) : list Z :=
  id <$> filter (fun t => used t = true) ts.

(** A task in a running state owns a stack and has an entry point, a task in a
    final state and an unused slot own nothing. *)
Definition task_ok (t : scheduler_task_t) : Prop :=
  if used t then
    match state t with
    | SCHEDULER_TASK_ACTIVE | SCHEDULER_TASK_RUNNING | SCHEDULER_TASK_SLEEPING =>
        0 < kernel_stack_base t /\ kernel_stack_top t = kernel_stack_base t + 4096 /\
        kernel_stack_top t < 4294967296 /\ entry t <> 0
    | SCHEDULER_TASK_DISABLED | SCHEDULER_TASK_COMPLETED =>
        kernel_stack_base t = 0 /\ kernel_stack_top t = 0
    | _ => False
    end
  else kernel_stack_base t = 0 /\ kernel_stack_top t = 0.

(** [K] task ids were issued so far; until the counter wraps they are unique. *)
Definition ids_ok (K : Z) (ts : list scheduler_task_t) (next : Z) : Prop :=
  0 <= K /\ next = K [+] 1 /\
  (K < 4294967295 -> NoDup (ids ts) /\ Forall (fun x => 0 < x <= K) (ids ts)).

(** The counters of [scheduler_recalculate_task_counts]. *)
Definition task_of (ts : list scheduler_task_t) (i : nat) : scheduler_task_t :=
  default scheduler_clear_task (ts !! i).

Definition count_state (ts : list scheduler_task_t) (st : scheduler_task_state_t) : Z :=
  count_if (fun i => used (task_of ts i) && state_is (state (task_of ts i)) st) slots.

Definition recount (ts : list scheduler_task_t) (st : scheduler_stats_t) : scheduler_stats_t :=
  st <| active_tasks := count_state ts SCHEDULER_TASK_ACTIVE |>
     <| running_tasks := count_state ts SCHEDULER_TASK_RUNNING |>
     <| completed_tasks := count_state ts SCHEDULER_TASK_COMPLETED |>
     <| disabled_tasks := count_state ts SCHEDULER_TASK_DISABLED |>
     <| sleeping_tasks := count_state ts SCHEDULER_TASK_SLEEPING |>.

Record counted (ts : list scheduler_task_t) (st : scheduler_stats_t) : Prop := {
  ct_active : active_tasks st = count_state ts SCHEDULER_TASK_ACTIVE;
  ct_running : running_tasks st = count_state ts SCHEDULER_TASK_RUNNING;
  ct_completed : completed_tasks st = count_state ts SCHEDULER_TASK_COMPLETED;
  ct_disabled : disabled_tasks st = count_state ts SCHEDULER_TASK_DISABLED;
  ct_sleeping : sleeping_tasks st = count_state ts SCHEDULER_TASK_SLEEPING
}.

(** ** Lists of tasks *)

Section Lists.
Implicit Types (ts l r : list scheduler_task_t) (t : scheduler_task_t).

Lemma stacks_app l r : stacks (l ++ r) = stacks l ++ stacks r.
Proof. unfold stacks. by rewrite fmap_app, filter_app. Qed.

Lemma stacks_cons t r :
  stacks (t :: r) = if decide (kernel_stack_base t <> 0) then kernel_stack_base t :: stacks r else stacks r.
Proof. unfold stacks. rewrite fmap_cons, filter_cons. by repeat case_decide. Qed.

Lemma ids_app l r : ids (l ++ r) = ids l ++ ids r.
Proof. unfold ids. by rewrite filter_app, fmap_app. Qed.

Lemma ids_cons t r : ids (t :: r) = if used t then id t :: ids r else ids r.
Proof. unfold ids. rewrite filter_cons. case_decide as Hu; by destruct (used t). Qed.

(** The slots before and after a given one. *)
Lemma split_at ts i t :
  ts !! i = Some t -> exists l r, ts = l ++ t :: r /\ i = length l.
Proof. intros Ht. apply list_elem_of_split_length in Ht as (l & r & -> & ->). eauto. Qed.

Lemma alter_at l t r (f : scheduler_task_t -> scheduler_task_t) :
  alter f (length l) (l ++ t :: r) = l ++ f t :: r.
Proof. by rewrite alter_app_r_alt, Nat.sub_diag. Qed.

(** Changes that keep what the owner of the stacks and the ids depend on. *)
Lemma alter_outside ts i (f : scheduler_task_t -> scheduler_task_t) : ts !! i = None -> alter f i ts = ts.
Proof.
  intros Hi. rewrite (list_alter_ext f (fun t => t) ts ts i); [by apply list_alter_id| |done].
  intros t Ht. by rewrite Hi in Ht.
Qed.

Lemma stacks_alter ts i f :
  (forall t, ts !! i = Some t -> kernel_stack_base (f t) = kernel_stack_base t) ->
  stacks (alter f i ts) = stacks ts.
Proof.
  intros Hf. destruct (ts !! i) as [t|] eqn:Hi; [|by rewrite alter_outside].
  specialize (Hf t eq_refl).
  apply split_at in Hi as (l & r & -> & ->). rewrite alter_at, !stacks_app, !stacks_cons. by rewrite Hf.
Qed.

Lemma ids_alter ts i f :
  (forall t, used (f t) = used t /\ id (f t) = id t) -> ids (alter f i ts) = ids ts.
Proof.
  intros Hf. destruct (ts !! i) as [t|] eqn:Hi; [|by rewrite alter_outside].
  apply split_at in Hi as (l & r & -> & ->). rewrite alter_at, !ids_app, !ids_cons.
  by destruct (Hf t) as [-> ->].
Qed.

Lemma tasks_ok_alter ts i f :
  Forall task_ok ts -> (forall t, ts !! i = Some t -> task_ok t -> task_ok (f t)) ->
  Forall task_ok (alter f i ts).
Proof.
  intros Hts Hf. apply Forall_alter; [done|]. intros t Hi Ht. by apply Hf.
Qed.

Lemma length_stacks ts : (length (stacks ts) <= length ts)%nat.
Proof. unfold stacks. etrans; [apply length_filter|]. by rewrite length_fmap. Qed.

Lemma stacks_elem ts i t : ts !! i = Some t -> kernel_stack_base t <> 0 -> kernel_stack_base t ∈ stacks ts.
Proof.
  intros Hi Hb. apply list_elem_of_filter. split; [done|]. apply list_elem_of_fmap.
  exists t. split; [done|]. by eapply list_elem_of_lookup_2.
Qed.

Lemma task_of_lookup ts i : length ts = 16%nat -> (i < 16)%nat -> ts !! i = Some (task_of ts i).
Proof.
  intros Hl Hi. unfold task_of. destruct (ts !! i) eqn:E; [done|]. apply lookup_ge_None in E. lia.
Qed.

Lemma task_of_alter ts i f :
  length ts = 16%nat -> (i < 16)%nat -> task_of (alter f i ts) i = f (task_of ts i).
Proof.
  intros Hl Hi. unfold task_of at 1. rewrite list_lookup_alter_eq.
  by rewrite (task_of_lookup ts i) by done.
Qed.

Lemma task_of_alter_ne ts i j f : i <> j -> task_of (alter f i ts) j = task_of ts j.
Proof. intros. unfold task_of. by rewrite list_lookup_alter_ne. Qed.
End Lists.

Section Table.
Context {H : Type} `{KernelHeapLaws H}.
Implicit Types (s : sched_state H) (ts : list scheduler_task_t) (st : scheduler_stats_t) (h : H).
Implicit Types (F : gset Z).

(** The part of the state that table operations write. *)
Definition upd s ts st h : sched_state H :=
  s <| scheduler_tasks := ts |> <| scheduler_stats := st |> <| sched_heap := h |>.

(** The heap's live blocks are the stacks of the table, each owned by one task,
    and the blocks [F] of everybody else. *)
Record owned F ts h : Prop := {
  ow_nodup : NoDup (stacks ts);
  ow_frame : forall p, p ∈ stacks ts -> p ∉ F;
  ow_live : kh_live h (list_to_set (stacks ts) ∪ F);
  ow_room : (size F + 16 <= kh_room)%nat
}.

Record table_ok F K ts st h : Prop := {
  tb_length : length ts = 16%nat;
  tb_tasks : Forall task_ok ts;
  tb_owned : owned F ts h;
  tb_ids : ids_ok K ts (next_task_id st)
}.

Lemma live_size F ts h : owned F ts h ->
  (size (list_to_set (stacks ts) ∪ F) <= length (stacks ts) + size F)%nat.
Proof.
  intros [Hn Hf _ _]. rewrite size_union; [|set_solver]. by rewrite size_list_to_set.
Qed.

(** ** Symbolic execution over [upd] states *)

Lemma wp_sstat f Q s ts st h : Q tt (upd s ts (f st) h) -> wp (sstat f) Q (upd s ts st h).
Proof. intros. by apply wp_mod. Qed.

Lemma wp_upd_task i f Q s ts st h :
  Q tt (upd s (alter f i ts) st h) -> wp (upd_task i f) Q (upd s ts st h).
Proof. intros. by apply wp_mod. Qed.

Lemma wp_task_at i Q s ts st h : Q (task_of ts i) (upd s ts st h) -> wp (task_at i) Q (upd s ts st h).
Proof. intros. by apply wp_get. Qed.

Lemma wp_recalculate Q s ts st h :
  Q tt (upd s ts (recount ts st) h) -> wp scheduler_recalculate_task_counts Q (upd s ts st h).
Proof. intros. by apply wp_mod. Qed.

Lemma wp_on_heap {A} (m : M H A) Q s ts st h :
  wp m (fun a h' => Q a (upd s ts st h')) h -> wp (on_heap m) Q (upd s ts st h).
Proof. intros. by apply wp_zoom. Qed.

Lemma recount_counted ts st : counted ts (recount ts st).
Proof. by constructor. Qed.

(** ** Kernel stacks *)

(** The fields [scheduler_free_kernel_stack] resets. *)
Definition without_stack (t : scheduler_task_t) : scheduler_task_t :=
  t <| kernel_stack_base := 0 |> <| kernel_stack_size := 0 |> <| kernel_stack_top := 0 |>
    <| context ::= fun c => c <| ctx_esp := 0 |> <| ctx_ebp := 0 |> |>.

(** The fields [scheduler_allocate_kernel_stack] sets. *)
Definition with_stack (stack : Z) (t : scheduler_task_t) : scheduler_task_t :=
  let top := stack [+] SCHEDULER_KERNEL_STACK_SIZE in
  t <| kernel_stack_base := stack |>
    <| kernel_stack_size := SCHEDULER_KERNEL_STACK_SIZE |>
    <| kernel_stack_top := top |>
    <| context ::= fun c =>
         Build_scheduler_context_t (ctx_eip c) top top 0x202 0 0 0 0 0 0 |>.

Lemma free_stack_ok F s ts st h i (Q : unit -> sched_state H -> Prop) :
  length ts = 16%nat -> owned F ts h -> (i < 16)%nat ->
  (kernel_stack_base (task_of ts i) = 0 -> Q tt (upd s ts st h)) ->
  (forall h', kernel_stack_base (task_of ts i) <> 0 -> owned F (alter without_stack i ts) h' ->
     Q tt (upd s (alter without_stack i ts) (st <| freed_kernel_stacks ::= incr |>) h')) ->
  wp (scheduler_free_kernel_stack i) Q (upd s ts st h).
Proof.
  intros Hlen Hown Hi HQ0 HQ1. pose proof Hown as [Hnd Hfr Hlive Hroom].
  apply wp_bind, wp_task_at. destruct (Z.eqb_spec (kernel_stack_base (task_of ts i)) 0) as [Hb|Hb].
  { by apply wp_ret, HQ0. }
  pose proof (task_of_lookup ts i Hlen Hi) as Ht. pose proof (stacks_elem _ _ _ Ht Hb) as Hin.
  set (b := kernel_stack_base (task_of ts i)) in *.
  pose proof (live_size _ _ _ Hown) as Hsz. pose proof (length_stacks ts) as Hls.
  apply wp_bind, wp_on_heap. exists true, h. split; [eapply kh_validate_ok; [exact Hlive|lia|set_solver]|].
  apply wp_bind, wp_ret, wp_bind, wp_on_heap.
  eapply wp_mono; [eapply kh_free_ok; [exact Hlive|lia|set_solver]|]. intros u h' Hlive'.
  apply wp_bind, wp_upd_task, wp_sstat, HQ1; [done|].
  assert (exists l r, stacks ts = l ++ b :: r /\ stacks (alter without_stack i ts) = l ++ r) as (l & r & E1 & E2).
  { destruct (split_at _ _ _ Ht) as (l & r & Ets & ->). rewrite Ets, alter_at.
    exists (stacks l), (stacks r). rewrite !stacks_app, !stacks_cons.
    rewrite decide_True by done. split; [done|]. by rewrite decide_False by (cbn; lia). }
  rewrite E1 in Hnd, Hfr, Hlive'. apply NoDup_app in Hnd as (N1 & N2 & N3).
  apply NoDup_cons in N3 as [N3 N4]. constructor; rewrite ?E2.
  - apply NoDup_app. set_solver.
  - intros p Hp. apply Hfr. set_solver.
  - assert (b ∉ F) by (apply Hfr; set_solver).
    replace (list_to_set (l ++ r) ∪ F) with ((list_to_set (l ++ b :: r) ∪ F) ∖ {[b]}); [done|].
    apply set_eq. intros x. split; [set_solver|].
    intros Hx. destruct (decide (x = b)) as [->|]; [|set_solver]. exfalso. set_solver.
  - done.
Qed.

Lemma allocate_stack_ok F s ts st h i (Q : bool -> sched_state H -> Prop) :
  length ts = 16%nat -> owned F ts h -> (i < 16)%nat -> kernel_stack_base (task_of ts i) = 0 ->
  (forall h', owned F ts h' -> Q false (upd s ts (st <| failed_stack_allocations ::= incr |>) h')) ->
  (forall h' p, 0 < p -> p + 4096 < 4294967296 -> owned F (alter (with_stack p) i ts) h' ->
     Q true (upd s (alter (with_stack p) i ts) (st <| allocated_kernel_stacks ::= incr |>) h')) ->
  wp (scheduler_allocate_kernel_stack i) Q (upd s ts st h).
Proof.
  intros Hlen Hown Hi Hb HQ0 HQ1. pose proof Hown as [Hnd Hfr Hlive Hroom].
  pose proof (task_of_lookup ts i Hlen Hi) as Ht. pose proof (live_size _ _ _ Hown) as Hsz.
  destruct (split_at _ _ _ Ht) as (l & r & Ets & Ei).
  assert (stacks ts = stacks l ++ stacks r) as Es.
  { rewrite Ets, stacks_app, stacks_cons. by rewrite decide_False by lia. }
  assert (length (stacks ts) <= 15)%nat as Hls.
  { rewrite Es, length_app. pose proof (length_stacks l). pose proof (length_stacks r).
    rewrite Ets, length_app in Hlen. cbn in Hlen. lia. }
  apply wp_bind, wp_on_heap. eapply wp_mono; [eapply kh_malloc_ok; [exact Hlive|lia|done]|].
  change SCHEDULER_KERNEL_STACK_SIZE with 4096.
  intros p h' [[-> Hl]|(Hp & Hp' & Hnew & Hl)].
  { cbn. apply wp_bind, wp_sstat, wp_ret, HQ0. by constructor. }
  rewrite (proj2 (Z.eqb_neq _ _)) by lia. apply wp_bind, wp_on_heap. exists true, h'.
  split.
  { eapply kh_validate_ok; [exact Hl| |set_solver].
    rewrite size_union by set_solver. rewrite size_singleton. lia. }
  apply wp_bind, wp_ret, wp_bind, wp_upd_task, wp_bind, wp_sstat, wp_ret, HQ1; [done|done|].
  assert (stacks (alter (with_stack p) i ts) = stacks l ++ p :: stacks r) as Es'.
  { rewrite Ets, Ei, alter_at, stacks_app, stacks_cons. by rewrite decide_True by (cbn; lia). }
  assert ((p ∉ stacks l) /\ (p ∉ stacks r) /\ (p ∉ F)) as (Hn1 & Hn2 & Hn3) by (rewrite Es in Hnew; set_solver).
  rewrite Es in Hnd, Hfr, Hl. apply NoDup_app in Hnd as (N1 & N2 & N3).
  constructor; rewrite ?Es'; [| | |done].
  - apply NoDup_app. split; [done|]. split; [|by apply NoDup_cons].
    intros x Hx [->|Hx']%elem_of_cons; [done|]. by apply (N2 x).
  - intros x [Hx|[->|Hx]%elem_of_cons]%elem_of_app; [apply Hfr; set_solver|done|apply Hfr; set_solver].
  - replace (list_to_set (stacks l ++ p :: stacks r) ∪ F)
      with ({[p]} ∪ (list_to_set (stacks l ++ stacks r) ∪ F)); [done|].
    apply set_eq. set_solver.
Qed.

(** ** Changing one task *)

Lemma table_stats F K ts st st' h :
  next_task_id st' = next_task_id st -> table_ok F K ts st h -> table_ok F K ts st' h.
Proof. intros E [T1 T2 T3 T4]. constructor; try done. by rewrite E. Qed.

Lemma owned_alter F ts h i f :
  (forall t, ts !! i = Some t -> kernel_stack_base (f t) = kernel_stack_base t) ->
  owned F ts h -> owned F (alter f i ts) h.
Proof. intros Hf [O1 O2 O3 O4]. constructor; rewrite ?stacks_alter; done. Qed.

Lemma ids_ok_alter K ts i f next :
  (forall t, used (f t) = used t /\ id (f t) = id t) -> ids_ok K ts next -> ids_ok K (alter f i ts) next.
Proof. intros Hf. unfold ids_ok. by rewrite ids_alter. Qed.

Lemma table_alter F K ts st h i f :
  table_ok F K ts st h ->
  (forall t, kernel_stack_base (f t) = kernel_stack_base t) ->
  (forall t, used (f t) = used t /\ id (f t) = id t) ->
  (forall t, ts !! i = Some t -> task_ok t -> task_ok (f t)) ->
  table_ok F K (alter f i ts) st h.
Proof.
  intros [T1 T2 T3 T4] Hb Hu Hok. constructor.
  - by rewrite length_alter.
  - by apply tasks_ok_alter.
  - apply owned_alter; [|done]. intros t _. apply Hb.
  - by apply ids_ok_alter.
Qed.

Lemma table_task_ok F K ts st h i : table_ok F K ts st h -> (i < 16)%nat -> task_ok (task_of ts i).
Proof.
  intros Ht Hi. eapply Forall_lookup_1; [apply Ht|]. apply task_of_lookup; [apply Ht|done].
Qed.

(** Counting depends on the states only. *)
Lemma count_state_alter ts i f x :
  (forall t, used (f t) = used t /\ state (f t) = state t) ->
  count_state (alter f i ts) x = count_state ts x.
Proof.
  intros Hf. apply count_if_ext. intros j _. destruct (decide (i = j)) as [->|Hne].
  - unfold task_of. rewrite list_lookup_alter_eq. destruct (ts !! j) as [t|]; [|done]. cbn.
    by destruct (Hf t) as [-> ->].
  - by rewrite task_of_alter_ne.
Qed.

(** ** Searching the table *)

Lemma find_first_Some p l i : find_first p l = Some i -> i ∈ l /\ p i = true.
Proof.
  induction l as [|j l IH]; cbn; [done|]. destruct (p j) eqn:E.
  - intros [= <-]. split; [by left|done].
  - intros Hf. destruct (IH Hf). split; [by right|done].
Qed.

Lemma find_first_None p l : find_first p l = None <-> forall i, i ∈ l -> p i = false.
Proof.
  induction l as [|j l IH]; cbn.
  - split; [|done]. intros _ i Hi. by apply not_elem_of_nil in Hi.
  - destruct (p j) eqn:E.
    + split; [done|]. intros Hall. rewrite (Hall j) in E; [done|by left].
    + rewrite IH. split.
      * intros Hall i [->|Hi]%elem_of_cons; [done|auto].
      * intros Hall i Hi. apply Hall. by right.
Qed.

Lemma elem_of_slots i : i ∈ slots <-> (i < 16)%nat.
Proof. unfold slots. rewrite elem_of_seq. lia. Qed.

Definition lookup_id ts (tid : Z) : option nat :=
  find_first (fun i => used (task_of ts i) && (id (task_of ts i) =? tid)) slots.

Lemma lookup_id_Some ts tid i :
  lookup_id ts tid = Some i -> (i < 16)%nat /\ used (task_of ts i) = true /\ id (task_of ts i) = tid.
Proof.
  intros [Hi Hp]%find_first_Some. apply elem_of_slots in Hi. bool_simpl. done.
Qed.

Lemma wp_find_task tid Q s ts st h :
  Q (lookup_id ts tid) (upd s ts st h) -> wp (scheduler_find_task_by_id_mutable tid) Q (upd s ts st h).
Proof. intros. by apply wp_get. Qed.

(** With unique ids the lookup is exact. *)
Lemma lookup_id_unique F K ts st h i :
  table_ok F K ts st h -> K < 4294967295 -> (i < 16)%nat -> used (task_of ts i) = true ->
  lookup_id ts (id (task_of ts i)) = Some i.
Proof.
  intros [Hlen _ _ (_ & _ & Hu)] HK Hi Hused. destruct (Hu HK) as [Hnd _].
  destruct (lookup_id ts (id (task_of ts i))) as [j|] eqn:Ej.
  2:{ pose proof (proj1 (find_first_None _ _) Ej i ltac:(by apply elem_of_slots)) as Hn.
      cbn in Hn. by rewrite Hused, Z.eqb_refl in Hn. }
  apply lookup_id_Some in Ej as (Hj & Huj & Eid). f_equal.
  pose proof (task_of_lookup ts i Hlen Hi) as Li. pose proof (task_of_lookup ts j Hlen Hj) as Lj.
  destruct (decide (j = i)) as [|Hne]; [done|exfalso].
  assert (forall a b, (a < b)%nat -> ts !! a = Some (task_of ts a) -> ts !! b = Some (task_of ts b) ->
    used (task_of ts a) = true -> used (task_of ts b) = true -> id (task_of ts a) = id (task_of ts b) -> False) as Hlt.
  { intros a b Hab La Lb Ua Ub Eab. destruct (split_at _ _ _ La) as (l & r & Ets & ->).
    rewrite Ets in Lb at 1. rewrite lookup_app_r in Lb by lia.
    destruct (b - length l)%nat as [|k] eqn:Ek; [lia|]. cbn in Lb.
    rewrite Ets, ids_app, ids_cons, Ua in Hnd. apply NoDup_app in Hnd as (_ & _ & Hnd).
    apply NoDup_cons in Hnd as [Hn _]. apply Hn. rewrite Eab. apply list_elem_of_fmap.
    exists (task_of ts b). split; [done|]. apply list_elem_of_filter. split; [done|].
    by eapply list_elem_of_lookup_2. }
  destruct (decide (i < j)%nat); [by apply (Hlt i j)|]. apply (Hlt j i); try done; lia.
Qed.
End Table.
