(* ===== verification/SchedOps.v ===== *)
(** * Operations on single tasks

    The contracts of the functions of core/scheduler.c that create, disable, put
    to sleep, wake and yield a task, wake the sleepers that are due, and clear
    the inactive slots: what each does to the task table and that it keeps the
    table's invariant. *)
From S2P Require Import Prelude KString KernelHeap Scheduler SchedQueue SchedTable.

Section Ops.
Context {H : Type} `{KernelHeapLaws H}.
Implicit Types (s : sched_state H) (ts : list scheduler_task_t) (st : scheduler_stats_t) (h : H).
Implicit Types (F : gset Z).

(** The invariant of an initialized scheduler: the table, the counters, the
    round-robin index. *)
Record core F K ts st h : Prop := {
  co_table : table_ok F K ts st h;
  co_counted : counted ts st;
  co_init : sched_initialized st = true;
  co_index : 0 <= current_task_index st < 16
}.

(** The same without the counters, between a change and the recount. *)
Record uncounted F K ts st h : Prop := {
  un_table : table_ok F K ts st h;
  un_init : sched_initialized st = true;
  un_index : 0 <= current_task_index st < 16
}.

Lemma core_uncounted F K ts st h : core F K ts st h -> uncounted F K ts st h.
Proof. intros [C1 C2 C3 C4]. by constructor. Qed.

Lemma recount_core F K ts st h : uncounted F K ts st h -> core F K ts (recount ts st) h.
Proof.
  intros [C1 C2 C3]. constructor; [|apply recount_counted|done|done]. by eapply table_stats; [|exact C1].
Qed.

(** Statistics that no invariant mentions. *)
Lemma uncounted_stats F K ts st st' h :
  next_task_id st' = next_task_id st -> sched_initialized st' = sched_initialized st ->
  current_task_index st' = current_task_index st -> uncounted F K ts st h -> uncounted F K ts st' h.
Proof.
  intros E1 E2 E3 [C1 C2 C3]. constructor; [by eapply table_stats|by rewrite E2|by rewrite E3].
Qed.

Lemma core_stats F K ts st st' h :
  stats_kept st st' -> current_task_index st' = current_task_index st ->
  core F K ts st h -> core F K ts st' h.
Proof.
  intros [S1 S2 S3 S4 S5 S6 S7] E3 [C1 [] C3 C4].
  constructor; [by eapply table_stats|constructor; congruence|by rewrite S1|by rewrite E3].
Qed.

Lemma uncounted_alter F K ts st h i f :
  uncounted F K ts st h ->
  (forall t, kernel_stack_base (f t) = kernel_stack_base t) ->
  (forall t, used (f t) = used t /\ id (f t) = id t) ->
  (forall t, ts !! i = Some t -> task_ok t -> task_ok (f t)) ->
  uncounted F K (alter f i ts) st h.
Proof. intros [C1 C2 C3] Hb Hu Hok. constructor; [by apply table_alter|done|done]. Qed.

(** ** Operations addressed by task id *)

(** The task with id [tid] is changed by [f] when its state satisfies [p]. *)
Definition task_effect (p : scheduler_task_state_t -> bool) (f : scheduler_task_t -> scheduler_task_t)
    ts (tid : Z) : bool * list scheduler_task_t :=
  match lookup_id ts tid with
  | Some i => if p (state (task_of ts i)) then (true, alter f i ts) else (false, ts)
  | None => (false, ts)
  end.

Definition disabled_task (t : scheduler_task_t) : scheduler_task_t :=
  without_stack (t <| state := SCHEDULER_TASK_DISABLED |>).
Definition sleeping_task (now ticks : Z) (t : scheduler_task_t) : scheduler_task_t :=
  t <| state := SCHEDULER_TASK_SLEEPING |> <| wake_tick := now [+] ticks |> <| sleep_count ::= incr |>.
Definition woken_task (t : scheduler_task_t) : scheduler_task_t :=
  t <| state := SCHEDULER_TASK_ACTIVE |> <| wake_tick := 0 |>.
Definition yielded_task (now : Z) (t : scheduler_task_t) : scheduler_task_t :=
  t <| last_run_tick := now |>.

(** [op] has exactly the effect [p], [f] on the task with id [tid] and keeps the
    invariant. *)
Definition has_effect (op : M (sched_state H) bool) (p : scheduler_task_state_t -> bool)
    (f : Z -> scheduler_task_t -> scheduler_task_t) (tid : Z) : Prop :=
  forall F K s ts st h (Q : bool -> sched_state H -> Prop),
    core F K ts st h ->
    (let '(result, ts') := task_effect p (f (timer_ticks s)) ts tid in
     forall st' h', core F K ts' st' h' -> Q result (upd s ts' st' h')) ->
    wp op Q (upd s ts st h).

(** The common prologue: lookup and state check. *)
Lemma has_effect_intro (op : M (sched_state H) bool) p f tid :
  (forall F K s ts st h Q i,
     core F K ts st h -> lookup_id ts tid = Some i -> p (state (task_of ts i)) = true ->
     (forall st' h', core F K (alter (f (timer_ticks s)) i ts) st' h' ->
        Q true (upd s (alter (f (timer_ticks s)) i ts) st' h')) -> wp op Q (upd s ts st h)) ->
  (forall F K s ts st h Q,
     core F K ts st h ->
     match lookup_id ts tid with Some i => p (state (task_of ts i)) = false | None => True end ->
     (forall st', core F K ts st' h -> Q false (upd s ts st' h)) -> wp op Q (upd s ts st h)) ->
  has_effect op p f tid.
Proof.
  intros Hyes Hno F K s ts st h Q Hc HQ. unfold task_effect in HQ.
  destruct (lookup_id ts tid) as [i|] eqn:El.
  - destruct (p (state (task_of ts i))) eqn:Ep; [by eapply Hyes|].
    eapply Hno; [done|by rewrite El|intros st' Hc'; by apply HQ].
  - eapply Hno; [done|by rewrite El|intros st' Hc'; by apply HQ].
Qed.

Lemma task_states t :
  task_ok t -> used t = true -> state_needs_stack (state t) = true ->
  0 < kernel_stack_base t /\ kernel_stack_top t = kernel_stack_base t + 4096 /\
  kernel_stack_top t < 4294967296 /\ entry t <> 0.
Proof.
  unfold task_ok, state_needs_stack, state_is. intros Ht Hu Hs. rewrite Hu in Ht.
  by destruct (state t); cbn in Hs.
Qed.

(** A change between two states that need a stack. *)
Lemma task_ok_state t x :
  task_ok t -> used t = true -> state_needs_stack (state t) = true -> state_needs_stack x = true ->
  forall t', used t' = used t -> state t' = x -> kernel_stack_base t' = kernel_stack_base t ->
  kernel_stack_top t' = kernel_stack_top t -> entry t' = entry t -> task_ok t'.
Proof.
  intros Ht Hu Hs Hx t' E1 E2 E3 E4 E5. pose proof (task_states t Ht Hu Hs) as Hst.
  unfold task_ok. rewrite E1, Hu, E2, E3, E4, E5. by destruct x.
Qed.

Lemma alter_uncounted F K ts st h i f x :
  uncounted F K ts st h -> (i < 16)%nat -> used (task_of ts i) = true ->
  state_needs_stack (state (task_of ts i)) = true -> state_needs_stack x = true ->
  (forall t, used (f t) = used t /\ id (f t) = id t) -> (forall t, state (f t) = x) ->
  (forall t, kernel_stack_base (f t) = kernel_stack_base t /\
             kernel_stack_top (f t) = kernel_stack_top t /\ entry (f t) = entry t) ->
  uncounted F K (alter f i ts) st h.
Proof.
  intros Hu Hi Hused Hs Hx Hf1 Hf2 Hf3. apply uncounted_alter; [done|apply Hf3|done|].
  intros t Ht Hok. rewrite (task_of_lookup ts i) in Ht; [|apply Hu|done]. injection Ht as <-.
  destruct (Hf1 (task_of ts i)) as [E1 _]. destruct (Hf3 (task_of ts i)) as (E3 & E4 & E5).
  by apply (task_ok_state (task_of ts i) x).
Qed.

Lemma wp_get_ticks Q s ts st h : Q (timer_ticks s) (upd s ts st h) -> wp timer_get_ticks Q (upd s ts st h).
Proof. intros. by apply wp_get. Qed.

Lemma sleep_effect tid ticks :
  ticks <> 0 ->
  has_effect (scheduler_sleep_task_unlocked tid ticks) (fun x => state_is x SCHEDULER_TASK_ACTIVE)
    (fun now => sleeping_task now ticks) tid.
Proof.
  intros Ht. apply has_effect_intro; intros F K s ts st h Q.
  - intros i Hc El Hp HQ. destruct (lookup_id_Some _ _ _ El) as (Hi & Hused & _).
    apply wp_bind, wp_find_task. rewrite El, (proj2 (Z.eqb_neq _ _)) by done.
    apply wp_bind, wp_task_at. rewrite Hp. cbn [negb].
    apply wp_bind, wp_upd_task, wp_bind, wp_get_ticks, wp_bind, wp_upd_task, wp_bind, wp_sstat.
    apply wp_bind, wp_recalculate, wp_ret. rewrite list_alter_alter_eq. apply HQ.
    apply recount_core. apply (uncounted_stats _ _ _ st); [done..|].
    apply (alter_uncounted _ _ _ _ _ _ _ SCHEDULER_TASK_SLEEPING); try done; [by apply core_uncounted|].
    unfold state_is in Hp. apply bool_decide_eq_true in Hp. by rewrite Hp.
  - intros Hc Hno HQ. apply wp_bind, wp_find_task. destruct (lookup_id ts tid) as [i|]; [|by apply wp_ret, HQ].
    rewrite (proj2 (Z.eqb_neq _ _)) by done. apply wp_bind, wp_task_at. rewrite Hno. by apply wp_ret, HQ.
Qed.

Lemma wake_effect tid :
  has_effect (scheduler_wake_task_unlocked tid) (fun x => state_is x SCHEDULER_TASK_SLEEPING)
    (fun _ => woken_task) tid.
Proof.
  apply has_effect_intro; intros F K s ts st h Q.
  - intros i Hc El Hp HQ. destruct (lookup_id_Some _ _ _ El) as (Hi & Hused & _).
    apply wp_bind, wp_find_task. rewrite El. apply wp_bind, wp_task_at. rewrite Hp. cbn [negb].
    apply wp_bind, wp_upd_task, wp_bind, wp_upd_task, wp_bind, wp_sstat.
    apply wp_bind, wp_recalculate, wp_ret. rewrite list_alter_alter_eq. apply HQ.
    apply recount_core. apply (uncounted_stats _ _ _ st); [done..|].
    apply (alter_uncounted _ _ _ _ _ _ _ SCHEDULER_TASK_ACTIVE); try done; [by apply core_uncounted|].
    unfold state_is in Hp. apply bool_decide_eq_true in Hp. by rewrite Hp.
  - intros Hc Hno HQ. apply wp_bind, wp_find_task. destruct (lookup_id ts tid) as [i|]; [|by apply wp_ret, HQ].
    apply wp_bind, wp_task_at. rewrite Hno. by apply wp_ret, HQ.
Qed.

Lemma runnable_needs_stack x : state_is_runnable x = true -> state_needs_stack x = true.
Proof. by destruct x. Qed.

(** A change of fields the invariant does not mention. *)
Lemma core_alter F K ts st h i f :
  core F K ts st h ->
  (forall t, used (f t) = used t /\ id (f t) = id t /\ state (f t) = state t /\
     kernel_stack_base (f t) = kernel_stack_base t /\ kernel_stack_top (f t) = kernel_stack_top t /\
     entry (f t) = entry t) ->
  core F K (alter f i ts) st h.
Proof.
  intros [C1 [] C3 C4] Hf. constructor; [|constructor|done|done].
  1: { apply table_alter; [done|..].
       - intros t. apply Hf.
       - intros t. split; apply Hf.
       - intros t _ Hok. unfold task_ok in *. destruct (Hf t) as (-> & _ & -> & -> & -> & ->). done. }
  all: rewrite count_state_alter; [done|]; intros t; split; apply Hf.
Qed.

Lemma yield_effect tid :
  has_effect (scheduler_yield_task_unlocked tid) state_is_runnable yielded_task tid.
Proof.
  apply has_effect_intro; intros F K s ts st h Q.
  - intros i Hc El Hp HQ. apply wp_bind, wp_find_task. rewrite El.
    apply wp_bind, wp_task_at. rewrite Hp. cbn [negb].
    apply wp_bind, wp_get_ticks, wp_bind, wp_upd_task, wp_bind, wp_sstat, wp_ret, HQ.
    eapply core_stats; [| |apply core_alter; [exact Hc|done]]; done.
  - intros Hc Hno HQ. apply wp_bind, wp_find_task.
    assert (wp (sstat (fun st => st <| failed_task_yields ::= incr |>) ;;; mret_ false) Q (upd s ts st h)) as Hf.
    { apply wp_bind, wp_sstat, wp_ret, HQ. eapply core_stats; [| |exact Hc]; done. }
    destruct (lookup_id ts tid) as [i|]; [|exact Hf]. apply wp_bind, wp_task_at. by rewrite Hno.
Qed.

(** Giving the stack back once the state is a final one. *)
Lemma release_free_ok F K s ts st h i x (Q : unit -> sched_state H -> Prop) :
  uncounted F K ts st h -> (i < 16)%nat -> used (task_of ts i) = true ->
  state_needs_stack (state (task_of ts i)) = true -> state_is_inactive x = true ->
  (forall st' h', stats_kept st st' -> current_task_index st' = current_task_index st ->
     uncounted F K (alter (fun t => without_stack (t <| state := x |>)) i ts) st' h' ->
     Q tt (upd s (alter (fun t => without_stack (t <| state := x |>)) i ts) st' h')) ->
  wp (scheduler_free_kernel_stack i) Q (upd s (alter (fun t => t <| state := x |>) i ts) st h).
Proof.
  intros [T I1 I2] Hi Hused Hs Hx HQ. pose proof T as [Hlen Htok Hown Hids].
  destruct (task_states _ (table_task_ok _ _ _ _ _ _ T Hi) Hused Hs) as (Hb & _).
  set (g := fun t : scheduler_task_t => t <| state := x |>).
  assert (kernel_stack_base (task_of (alter g i ts) i) = kernel_stack_base (task_of ts i)) as Eb
    by (by rewrite task_of_alter).
  apply (free_stack_ok F); [by rewrite length_alter|by apply owned_alter|done|rewrite Eb; lia|].
  intros h' _ Hown'. rewrite list_alter_alter_eq in *. apply HQ; [done|done|].
  constructor; [|done|done]. constructor; [by rewrite length_alter| |done|by apply ids_ok_alter].
  apply tasks_ok_alter; [done|]. intros t Ht _. rewrite (task_of_lookup ts i) in Ht by done.
  injection Ht as <-. unfold task_ok. cbn. rewrite Hused. by destruct x.
Qed.

Lemma disable_effect tid :
  has_effect (scheduler_disable_task_unlocked tid) state_is_runnable (fun _ => disabled_task) tid.
Proof.
  apply has_effect_intro; intros F K s ts st h Q.
  - intros i Hc El Hp HQ. destruct (lookup_id_Some _ _ _ El) as (Hi & Hused & _).
    apply wp_bind, wp_find_task. rewrite El. apply wp_bind, wp_task_at. rewrite Hp. cbn [negb].
    apply wp_bind, wp_upd_task, wp_bind.
    apply (release_free_ok F K); [by apply core_uncounted|done|done|by apply runnable_needs_stack|done|].
    intros st' h' _ _ Hu. apply wp_bind, wp_recalculate, wp_ret, HQ. by apply recount_core.
  - intros Hc Hno HQ. apply wp_bind, wp_find_task. destruct (lookup_id ts tid) as [i|]; [|by apply wp_ret, HQ].
    apply wp_bind, wp_task_at. rewrite Hno. by apply wp_ret, HQ.
Qed.

(** ** Creation *)

(** The task [scheduler_create_task_internal_unlocked] writes into its slot. *)
Definition new_task (text : list Z) (md : scheduler_task_mode_t) (interval ent tid now stack : Z)
    : scheduler_task_t :=
  with_stack stack
    (Build_scheduler_task_t true tid (string_copy cleared_name text 32) SCHEDULER_TASK_ACTIVE md
       interval now 0 0 0 0 0 0 (scheduler_clear_context <| ctx_eip := ent |>) ent).

Definition available_slot ts : option nat :=
  find_first (fun i => slot_is_available (task_of ts i)) slots.

Lemma available_base F K ts st h i :
  table_ok F K ts st h -> available_slot ts = Some i ->
  (i < 16)%nat /\ kernel_stack_base (task_of ts i) = 0.
Proof.
  intros T [Hi Hp]%find_first_Some. apply elem_of_slots in Hi. split; [done|].
  pose proof (table_task_ok _ _ _ _ _ _ T Hi) as Hok. unfold task_ok, slot_is_available, state_is in *.
  destruct (used (task_of ts i)); [|apply Hok]. by destruct (state (task_of ts i)); cbn in *; try apply Hok.
Qed.

(** Replacing the task of a slot: the other ids are still unique. *)
Lemma ids_ok_replace K ts next i t0 :
  ts !! i = Some t0 -> ids_ok K ts next ->
  (forall t, used t = false -> ids_ok K (alter (fun _ => t) i ts) next) /\
  (forall t, used t = true -> id t = next -> ids_ok (K + 1) (alter (fun _ => t) i ts) (incr next)).
Proof.
  intros (l & r & -> & ->)%split_at (HK & En & Hu). unfold ids_ok.
  assert (forall t, alter (fun _ => t) (length l) (l ++ t0 :: r) = l ++ t :: r) as Ea
    by (intros t; apply alter_at).
  assert (K < 4294967295 -> NoDup (ids l ++ ids r) /\ Forall (fun x => 0 < x <= K) (ids l ++ ids r)) as Hsub.
  { intros HK'. destruct (Hu HK') as [N1 N2]. rewrite ids_app, ids_cons in N1, N2.
    destruct (used t0); [|done]. apply NoDup_app in N1 as (M1 & M2 & M3). apply NoDup_cons in M3 as [M3 M4].
    apply Forall_app in N2 as [L1 L2]. apply Forall_cons in L2 as [_ L2].
    split; [|by apply Forall_app]. apply NoDup_app. split_and!; try done.
    intros x Hx Hx'. apply (M2 x Hx). by right. }
  split; intros t Ht; [|intros Hid]; rewrite Ea, ids_app, ids_cons, Ht.
  - done.
  - split; [lia|]. split; [rewrite En; unfold incr; by rewrite u32_add_l|]. intros HK'.
    destruct (Hsub ltac:(lia)) as [N1 N2]. rewrite Hid, En, u32_small by (unfold is_u32; lia).
    apply NoDup_app in N1 as (M1 & M2 & M3). apply Forall_app in N2 as [L1 L2].
    rewrite Forall_forall in L1, L2.
    assert ((K + 1 ∉ ids l) /\ (K + 1 ∉ ids r)) as [Hl Hr].
    { split; intros Hin; [specialize (L1 _ Hin)|specialize (L2 _ Hin)]; lia. }
    split.
    + apply NoDup_app. split; [done|]. split; [|by apply NoDup_cons].
      intros x Hx [->|Hx']%elem_of_cons; [done|]. by apply (M2 x).
    + apply Forall_forall. intros x [Hx|[->|Hx]%elem_of_cons]%elem_of_app;
        [specialize (L1 _ Hx)| |specialize (L2 _ Hx)]; lia.
Qed.

Section Create.
Context (text_at_null : list Z).

Lemma create_ok F K s ts st h nm interval ent md (Q : option Z -> sched_state H -> Prop) :
  core F K ts st h ->
  (forall st', (ent = 0 \/ (md = SCHEDULER_TASK_RECURRING /\ interval = 0) \/ available_slot ts = None) ->
     core F K ts st' h -> Q None (upd s ts st' h)) ->
  (forall i st' h', available_slot ts = Some i ->
     core F K (alter (fun _ => scheduler_clear_task) i ts) st' h' ->
     Q None (upd s (alter (fun _ => scheduler_clear_task) i ts) st' h')) ->
  (forall i st' h' p, available_slot ts = Some i -> ent <> 0 ->
     (md = SCHEDULER_TASK_RECURRING -> interval <> 0) ->
     let t := new_task (default text_at_null nm) md interval ent (next_task_id st) (timer_ticks s) p in
     core F (K + 1) (alter (fun _ => t) i ts) st' h' ->
     Q (Some (next_task_id st)) (upd s (alter (fun _ => t) i ts) st' h')) ->
  wp (scheduler_create_task_internal_unlocked text_at_null nm interval ent md) Q (upd s ts st h).
Proof.
  intros Hc HQ0 HQ1 HQ2. pose proof Hc as [T Hct Hini Hidx]. pose proof T as [Hlen Htok Hown Hids].
  apply wp_bind, wp_get. change (scheduler_stats (upd s ts st h)) with st. rewrite Hini. cbn [negb orb].
  destruct (Z.eqb_spec ent 0) as [He|He]; [apply wp_ret, HQ0; [by left|done]|].
  destruct (mode_is md SCHEDULER_TASK_RECURRING && (interval =? 0)) eqn:Em.
  { apply andb_true_iff in Em as [Em Ei]. apply bool_decide_eq_true in Em. apply Z.eqb_eq in Ei.
    apply wp_ret, HQ0; [|done]. right. by left. }
  assert (md = SCHEDULER_TASK_RECURRING -> interval <> 0) as Hint.
  { intros ->. cbn in Em. by apply Z.eqb_neq in Em. }
  apply wp_bind, wp_get. change (find_first _ slots) with (available_slot ts).
  destruct (available_slot ts) as [i|] eqn:Ea; [|apply wp_ret, HQ0; [by right; right|done]].
  destruct (available_base _ _ _ _ _ _ T Ea) as [Hi Hb]. pose proof (task_of_lookup ts i Hlen Hi) as Ht.
  destruct (ids_ok_replace _ _ _ _ _ Ht Hids) as [Hclr Hnew].
  apply wp_bind, wp_task_at. rewrite Hb. change (negb (0 =? 0)) with false.
  apply wp_bind, wp_ret, wp_bind, wp_upd_task, wp_bind, wp_get, wp_bind, wp_get_ticks.
  change (scheduler_stats (upd s (alter _ i ts) st h)) with st.
  apply wp_bind, wp_upd_task, wp_bind, wp_upd_task, wp_bind, wp_upd_task, wp_bind.
  rewrite !list_alter_alter_eq. set (g := _ ∘ _).
  set (t0 := g (task_of ts i)).
  assert (alter g i ts = alter (fun _ => t0) i ts) as -> by (by apply list_alter_ext).
  assert (forall t, kernel_stack_base t = 0 -> owned F (alter (fun _ => t) i ts) h) as Hown0.
  { intros t Hz. apply owned_alter; [|done]. intros t' Ht'. rewrite Ht in Ht'. injection Ht' as <-. congruence. }
  apply (allocate_stack_ok F); [by rewrite length_alter|by apply Hown0|done|by rewrite task_of_alter| |].
  - intros h' Hown'. cbn [negb]. apply wp_bind, wp_upd_task, wp_bind, wp_recalculate, wp_ret.
    rewrite list_alter_alter_eq. change (_ ∘ _) with (fun _ : scheduler_task_t => scheduler_clear_task).
    apply HQ1; [done|]. apply recount_core. constructor; [|done|done].
    constructor; [by rewrite length_alter| | |by apply Hclr].
    + apply tasks_ok_alter; [done|]. by intros.
    + replace (alter (fun _ => scheduler_clear_task) i ts)
        with (alter (fun _ => scheduler_clear_task) i (alter (fun _ => t0) i ts))
        by (by rewrite list_alter_alter_eq).
      apply owned_alter; [|done]. intros t. rewrite list_lookup_alter_eq, Ht. by intros [= <-].
  - intros h' p Hp Hp' Hown'. cbn [negb]. apply wp_bind, wp_sstat, wp_bind, wp_recalculate, wp_bind, wp_task_at, wp_ret.
    rewrite list_alter_alter_eq in *. rewrite task_of_alter by done.
    change (id ((with_stack p ∘ (fun _ => t0)) (task_of ts i))) with (next_task_id st).
    set (t1 := new_task (default text_at_null nm) md interval ent (next_task_id st) (timer_ticks s) p).
    change (with_stack p ∘ (fun _ => t0)) with (fun _ : scheduler_task_t => t1) in *.
    apply HQ2; try done. apply recount_core. constructor; [|done|done].
    constructor; [by rewrite length_alter| |done|by apply Hnew].
    apply tasks_ok_alter; [done|]. intros _ _ _. unfold task_ok. cbn.
    change SCHEDULER_KERNEL_STACK_SIZE with 4096. rewrite u32_small by (unfold is_u32; lia). done.
Qed.
End Create.
End Ops.
