(* ===== verification/SchedSweep.v ===== *)
(** * Operations on the whole task table

    The functions of core/scheduler.c that visit every slot: waking the sleepers
    that are due, clearing the inactive tasks, the audit and the repair. *)
From S2P Require Import Prelude KString KernelHeap Scheduler SchedQueue SchedTable SchedOps.

(** Evaluating tests on known task states. *)
Ltac eval_states :=
  unfold state_needs_stack, state_is_inactive, state_is_runnable in *;
  repeat match goal with
  | |- context [state_is ?a ?b] =>
      let v := eval vm_compute in (state_is a b) in
      match v with true => idtac | false => idtac end; change (state_is a b) with v
  | Hyp : context [state_is ?a ?b] |- _ =>
      let v := eval vm_compute in (state_is a b) in
      match v with true => idtac | false => idtac end; change (state_is a b) with v in Hyp
  end; cbn [negb andb orb scheduler_task_state_is_valid] in *.

(** ** Loops over the slots *)

Lemma slots_split l1 x l2 : slots = l1 ++ x :: l2 -> x = length l1 /\ (x < 16)%nat.
Proof.
  intros E. assert (slots !! length l1 = Some x) as Hx by (by rewrite E, list_lookup_middle).
  unfold slots in Hx. apply lookup_seq in Hx. lia.
Qed.

Lemma count_if_snoc {A} (p : A -> bool) l x :
  count_if p (l ++ [x]) = count_if p l + (if p x then 1 else 0).
Proof. rewrite count_if_app. cbn. lia. Qed.

Section Sweep.
Context {H : Type} `{KernelHeapLaws H}.
Implicit Types (s : sched_state H) (ts : list scheduler_task_t) (st : scheduler_stats_t) (h : H).
Implicit Types (F : gset Z).

(** The first [k] slots were changed by [g]. *)
Definition mapped_upto (g : scheduler_task_t -> scheduler_task_t) (k : nat) ts ts' : Prop :=
  forall j, ts' !! j = if decide (j < k)%nat then g <$> ts !! j else ts !! j.

Lemma mapped_upto_0 g ts : mapped_upto g 0 ts ts.
Proof. intros j. by rewrite decide_False by lia. Qed.

Lemma mapped_upto_step g k ts ts' f :
  mapped_upto g k ts ts' -> (forall t, ts !! k = Some t -> f t = g t) ->
  mapped_upto g (S k) ts (alter f k ts').
Proof.
  intros Hm Hf j. rewrite list_lookup_alter. pose proof (Hm j) as Hj. destruct (decide (k = j)) as [->|E].
  - rewrite decide_False in Hj by lia. rewrite decide_True by lia. rewrite Hj.
    destruct (ts !! j) as [t|] eqn:Et; [|done]. cbn. by rewrite Hf.
  - rewrite Hj. destruct (decide (j < k)%nat); [by rewrite decide_True by lia|by rewrite decide_False by lia].
Qed.

Lemma mapped_upto_skip g k ts ts' :
  mapped_upto g k ts ts' -> (forall t, ts !! k = Some t -> g t = t) -> mapped_upto g (S k) ts ts'.
Proof.
  intros Hm Hg j. rewrite (Hm j). destruct (decide (j = k)) as [->|Hne].
  - rewrite decide_False by lia. rewrite decide_True by lia.
    destruct (ts !! k) as [t|] eqn:Et; [|done]. cbn. by rewrite Hg.
  - destruct (decide (j < k)%nat); [by rewrite decide_True by lia|by rewrite decide_False by lia].
Qed.

Lemma mapped_upto_all g n ts ts' : (length ts <= n)%nat -> mapped_upto g n ts ts' -> ts' = g <$> ts.
Proof.
  intros Hn Hm. apply list_eq. intros j. rewrite (Hm j), list_lookup_fmap. case_decide; [done|].
  by rewrite lookup_ge_None_2 by lia.
Qed.

Lemma mapped_upto_at g k ts ts' : mapped_upto g k ts ts' -> task_of ts' k = task_of ts k.
Proof. intros Hm. unfold task_of. by rewrite (Hm k), decide_False by lia. Qed.

(** ** Waking the sleepers that are due *)

Definition is_due (tick : Z) (t : scheduler_task_t) : bool :=
  used t && state_is (state t) SCHEDULER_TASK_SLEEPING && (tick [-] wake_tick t <? 0x80000000).

Definition wake_due (tick : Z) (t : scheduler_task_t) : scheduler_task_t :=
  if is_due tick t then woken_task t else t.

Lemma wake_sleeping_ok F K s ts st h tick (Q : unit -> sched_state H -> Prop) :
  core F K ts st h ->
  (forall st', core F K (wake_due tick <$> ts) st' h ->
     current_task_index st' = current_task_index st ->
     Q tt (upd s (wake_due tick <$> ts) st' h)) ->
  wp (scheduler_wake_sleeping_tasks tick) Q (upd s ts st h).
Proof.
  intros Hc HQ. pose proof (tb_length _ _ _ _ _ (co_table _ _ _ _ _ Hc)) as Hlen. apply wp_bind.
  apply (wp_fold _ _ (fun l1 changed s' => exists ts' st', s' = upd s ts' st' h /\
    mapped_upto (wake_due tick) (length l1) ts ts' /\ uncounted F K ts' st' h /\
    current_task_index st' = current_task_index st /\
    (changed = false -> core F K ts' st' h))).
  - exists ts, st. split; [done|]. split; [apply mapped_upto_0|]. split; [by apply core_uncounted|done].
  - intros l1 i l2 changed s' E (ts' & st' & -> & Hm & Hu & Hix & Hun).
    apply slots_split in E as [-> Hi]. rewrite length_app, Nat.add_1_r.
    unfold scheduler_wake_step. apply wp_bind, wp_task_at. rewrite (mapped_upto_at _ _ _ _ Hm).
    set (t := task_of ts (length l1)). pose proof (task_of_lookup ts _ Hlen Hi) as Ht. fold t in Ht.
    assert (is_due tick t = false -> wp (mret_ changed) (fun c s'' => exists ts'' st'', s'' = upd s ts'' st'' h /\
      mapped_upto (wake_due tick) (S (length l1)) ts ts'' /\ uncounted F K ts'' st'' h /\
      current_task_index st'' = current_task_index st /\ (c = false -> core F K ts'' st'' h)) (upd s ts' st' h)) as Hskip.
    { intros Hd. apply wp_ret. exists ts', st'. split; [done|]. split; [|done].
      apply mapped_upto_skip; [done|]. intros t' Ht'. rewrite Ht in Ht'. injection Ht' as <-.
      unfold wake_due. by rewrite Hd. }
    destruct (used t) eqn:Hused; cbn [negb orb]; [|apply Hskip; unfold is_due; by rewrite Hused].
    destruct (state_is (state t) SCHEDULER_TASK_SLEEPING) eqn:Hs; cbn [negb];
      [|apply Hskip; unfold is_due; by rewrite Hused, Hs].
    destruct (tick [-] wake_tick t <? 2147483648) eqn:Hd;
      [|apply Hskip; unfold is_due; by rewrite Hused, Hs, Hd].
    apply wp_bind, wp_upd_task, wp_bind, wp_upd_task, wp_bind, wp_sstat, wp_ret.
    rewrite list_alter_alter_eq. eexists _, _. split; [reflexivity|]. split; [|split; [|done]].
    + apply mapped_upto_step; [done|]. intros t' Ht'. rewrite Ht in Ht'. injection Ht' as <-.
      unfold wake_due, is_due. by rewrite Hused, Hs, Hd.
    + apply (uncounted_stats _ _ _ st'); [done..|].
      apply (alter_uncounted _ _ _ _ _ _ _ SCHEDULER_TASK_ACTIVE); try done;
        rewrite (mapped_upto_at _ _ _ _ Hm); fold t; [done|].
      apply bool_decide_eq_true in Hs. by rewrite Hs.
  - intros changed s' (ts' & st' & -> & Hm & Hu & Hix & Hun).
    apply mapped_upto_all in Hm as ->; [|by rewrite Hlen]. destruct changed; cbn.
    + apply wp_recalculate, HQ; [by apply recount_core|done].
    + apply wp_ret, HQ; [by apply Hun|done].
Qed.

(** ** The whole scheduler *)

Record queue_shape s : Prop := {
  qs_count : 0 <= count (scheduler_ready_queue_info s) <= 16;
  qs_slots : length (scheduler_ready_queue_slots s) = 16%nat;
  qs_ids : length (task_ids (scheduler_ready_queue_info s)) = 16%nat
}.

Record sched_ok F K s : Prop := {
  so_core : core F K (scheduler_tasks s) (scheduler_stats s) (sched_heap s);
  so_queue : queue_shape s;
  so_running : scheduler_pointer_points_to_task_table (scheduler_current_running_task s) = true;
  so_switched : scheduler_pointer_points_to_task_table (scheduler_current_switched_task s) = true
}.

Lemma sched_ok_upd F K s ts st h :
  sched_ok F K s -> forall K', core F K' ts st h -> sched_ok F K' (upd s ts st h).
Proof. intros [C1 [Q1 Q2 Q3] C3 C4] K' Hc. constructor; [done|by constructor|done|done]. Qed.

(** Every state is of the form the lemmas on tables are stated for. *)
Lemma upd_id s : s = upd s (scheduler_tasks s) (scheduler_stats s) (sched_heap s).
Proof. by destruct s. Qed.

Lemma wp_to_upd {A} (m : M (sched_state H) A) Q s :
  wp m Q (upd s (scheduler_tasks s) (scheduler_stats s) (sched_heap s)) -> wp m Q s.
Proof. by rewrite <- upd_id. Qed.

(** ** The audit *)

Lemma b2z_bound b : 0 <= Z.b2z b <= 1.
Proof. destruct b; cbn; lia. Qed.

Definition has_stack (t : scheduler_task_t) : bool :=
  negb (kernel_stack_base t =? 0) || negb (kernel_stack_top t =? 0).
Definition lacks_stack (t : scheduler_task_t) : bool :=
  (kernel_stack_base t =? 0) || (kernel_stack_top t =? 0).
Definition asleep_without_tick (t : scheduler_task_t) : bool :=
  state_is (state t) SCHEDULER_TASK_SLEEPING && (wake_tick t =? 0).

(** What is wrong with a task. *)
Definition task_issues (t : scheduler_task_t) : Z :=
  if negb (used t) then Z.b2z (has_stack t)
  else if negb (scheduler_task_state_is_valid (state t)) then 1
  else
    (if state_needs_stack (state t) then Z.b2z (lacks_stack t) + Z.b2z (entry t =? 0) else 0) +
    Z.b2z (asleep_without_tick t) +
    Z.b2z (state_is_inactive (state t) && has_stack t).

Lemma task_issues_bound t : 0 <= task_issues t <= 4.
Proof.
  unfold task_issues. pose proof (b2z_bound (has_stack t)). pose proof (b2z_bound (lacks_stack t)).
  pose proof (b2z_bound (entry t =? 0)). pose proof (b2z_bound (asleep_without_tick t)).
  pose proof (b2z_bound (state_is_inactive (state t) && has_stack t)).
  repeat case_match; lia.
Qed.

(** The invariant leaves one irregularity. *)
Lemma task_issues_ok t : task_ok t -> task_issues t = Z.b2z (used t && asleep_without_tick t).
Proof.
  unfold task_ok, task_issues, has_stack, lacks_stack, asleep_without_tick.
  destruct (used t); cbn [negb andb]; [|by intros [-> ->]].
  destruct (state t); eval_states; try done; try (by intros [-> ->]).
  all: intros (H1' & H2' & H3' & H4');
    rewrite (proj2 (Z.eqb_neq (kernel_stack_base t) 0)), (proj2 (Z.eqb_neq (kernel_stack_top t) 0)),
      (proj2 (Z.eqb_neq (entry t) 0)) by lia; cbn; lia.
Qed.

Fixpoint sum_of {A} (f : A -> Z) (l : list A) : Z :=
  match l with [] => 0 | x :: l' => f x + sum_of f l' end.

Lemma sum_of_snoc {A} (f : A -> Z) l x : sum_of f (l ++ [x]) = sum_of f l + f x.
Proof. induction l as [|y l IH]; cbn [sum_of app]; lia. Qed.

Lemma sum_of_bound {A} (f : A -> Z) l m :
  (forall x, 0 <= f x <= m) -> 0 <= sum_of f l <= m * Z.of_nat (length l).
Proof. intros Hf. induction l as [|y l IH]; cbn [sum_of length]; [lia|]. specialize (Hf y). lia. Qed.

Lemma sum_of_ext {A} (f g : A -> Z) l : (forall x, x ∈ l -> f x = g x) -> sum_of f l = sum_of g l.
Proof.
  induction l as [|y l IH]; intros Hfg; [done|]. cbn. rewrite Hfg by by left. f_equal. apply IH.
  intros x Hx. apply Hfg. by right.
Qed.

Lemma sum_of_zero {A} (f : A -> Z) l : (forall x, x ∈ l -> f x = 0) -> sum_of f l = 0.
Proof.
  induction l as [|y l IH]; intros Hf; [done|]. cbn [sum_of].
  rewrite Hf, IH; [done| |by left]. intros x Hx. apply Hf. by right.
Qed.

(** A queue entry that no longer names the task in its slot. *)
Definition stale_entry s (i : Z) : bool :=
  match scheduler_ready_queue_slots s !! Z.to_nat i, task_ids (scheduler_ready_queue_info s) !! Z.to_nat i with
  | Some slot, Some tid =>
      (16 <=? slot) || negb (used (get_task s (Z.to_nat slot))) ||
      negb (tid =? id (get_task s (Z.to_nat slot)))
  | _, _ => false
  end.

Definition with_audit s a : sched_state H := s <| scheduler_audit_info := a |>.

(** [n] more issues were counted. *)
Definition issues_added (n : Z) (a a' : scheduler_audit_info_t) : Prop :=
  issues_found a' = issues_found a + n /\ repairs_run a' = repairs_run a /\
  issues_repaired a' = issues_repaired a.

Lemma issues_added_0 a : issues_added 0 a a.
Proof. split; [lia|done]. Qed.

Lemma issues_added_trans m n a1 a2 a3 :
  issues_added m a1 a2 -> issues_added n a2 a3 -> issues_added (m + n) a1 a3.
Proof. intros (E1 & E2 & E3) (E4 & E5 & E6). split; [lia|]. split; congruence. Qed.

Lemma record_issue_ok s a (counter : scheduler_audit_info_t -> scheduler_audit_info_t)
    (Q : unit -> sched_state H -> Prop) :
  (forall a0, issues_found (counter a0) = issues_found a0 /\ repairs_run (counter a0) = repairs_run a0 /\
              issues_repaired (counter a0) = issues_repaired a0) ->
  0 <= issues_found a < 4294967295 ->
  (forall a', issues_added 1 a a' -> Q tt (with_audit s a')) ->
  wp (scheduler_audit_record_issue counter) Q (with_audit s a).
Proof.
  intros Hc Ha HQ. apply wp_bind, wp_mod, wp_mod.
  apply (HQ (counter (a <| issues_found ::= incr |>))).
  destruct (Hc (a <| issues_found ::= incr |>)) as (E1 & E2 & E3). split; [|done].
  rewrite E1. cbn. by apply incr_small.
Qed.

Lemma maybe_issue_ok s a (c : bool) counter (Q : unit -> sched_state H -> Prop) :
  (forall a0, issues_found (counter a0) = issues_found a0 /\ repairs_run (counter a0) = repairs_run a0 /\
              issues_repaired (counter a0) = issues_repaired a0) ->
  0 <= issues_found a < 4294967295 ->
  (forall a', issues_added (Z.b2z c) a a' -> Q tt (with_audit s a')) ->
  wp (mwhen c (scheduler_audit_record_issue counter)) Q (with_audit s a).
Proof.
  intros Hc Ha HQ. destruct c; cbn [mwhen Z.b2z] in *; [by apply record_issue_ok|].
  apply wp_ret, HQ, issues_added_0.
Qed.

Lemma audit_task_ok s a t (Q : unit -> sched_state H -> Prop) :
  0 <= issues_found a < 4294967200 ->
  (forall a', issues_added (task_issues t) a a' -> Q tt (with_audit s a')) ->
  wp (scheduler_audit_task t) Q (with_audit s a).
Proof.
  intros Ha HQ. unfold scheduler_audit_task, task_issues in *.
  destruct (negb (used t)); [apply maybe_issue_ok; [done|lia|exact HQ]|].
  destruct (negb (scheduler_task_state_is_valid (state t)));
    [apply record_issue_ok; [done|lia|exact HQ]|].
  apply wp_bind.
  set (n1 := if state_needs_stack (state t) then Z.b2z (lacks_stack t) + Z.b2z (entry t =? 0) else 0) in *.
  assert (0 <= n1 <= 2) as Hn1 by (subst n1; unfold Z.b2z; repeat case_match; lia).
  assert (forall Q' : unit -> sched_state H -> Prop,
    (forall a', issues_added n1 a a' -> Q' tt (with_audit s a')) ->
    wp (if state_needs_stack (state t)
        then mwhen ((kernel_stack_base t =? 0) || (kernel_stack_top t =? 0))
               (scheduler_audit_record_issue (fun a => a <| active_task_without_stack ::= incr |>)) ;;;
             mwhen (entry t =? 0)
               (scheduler_audit_record_issue (fun a => a <| active_task_without_entry ::= incr |>))
        else mret_ tt) Q' (with_audit s a)) as H1'.
  { intros Q' HQ'. subst n1. destruct (state_needs_stack (state t)); [|apply wp_ret, HQ', issues_added_0].
    apply wp_bind, maybe_issue_ok; [done|lia|]. intros a1 Ha1.
    apply maybe_issue_ok; [done|destruct Ha1 as [-> _]; pose proof (b2z_bound (lacks_stack t)); unfold lacks_stack in *; lia|].
    intros a2 Ha2. apply HQ'. by eapply issues_added_trans. }
  apply H1'. intros a1 Ha1. apply wp_bind, maybe_issue_ok; [done|destruct Ha1 as [-> _]; lia|].
  intros a2 Ha2. apply maybe_issue_ok; [done| |].
  - destruct Ha1 as [E1 _], Ha2 as [E2 _]. rewrite E2, E1. pose proof (b2z_bound (asleep_without_tick t)). unfold asleep_without_tick in *. lia.
  - intros a3 Ha3. apply HQ. eapply issues_added_trans; [|exact Ha3]. by eapply issues_added_trans.
Qed.

Lemma audit_queue_ok s a (Q : unit -> sched_state H -> Prop) :
  queue_shape s -> 0 <= issues_found a < 4294967200 ->
  (forall a', issues_added (count_if (stale_entry s) (seqZ 0 (count (scheduler_ready_queue_info s)))) a a' ->
     Q tt (with_audit s a')) ->
  wp scheduler_audit_ready_queue Q (with_audit s a).
Proof.
  intros [Qc Qs Qi] Ha HQ. apply wp_bind, wp_get.
  change (scheduler_ready_queue_info (with_audit s a)) with (scheduler_ready_queue_info s).
  set (q := scheduler_ready_queue_info s) in *. change SCHEDULER_MAX_TASKS with 16.
  rewrite (proj2 (Z.ltb_ge _ _)) by lia. apply wp_bind, wp_ret.
  apply (wp_for _ _ (fun l s' => exists a', s' = with_audit s a' /\
    issues_added (count_if (stale_entry s) l) a a')).
  - exists a. split; [done|]. apply issues_added_0.
  - intros l i r s' E (a' & -> & Ea).
    assert (seqZ 0 (count q) !! length l = Some i) as Hi by (by rewrite E, list_lookup_middle).
    apply lookup_seqZ in Hi. pose proof (count_if_bound (stale_entry s) l) as Hb.
    assert (0 <= issues_found a' < 4294967295) as Hr by (destruct Ea; lia).
    destruct (lookup_lt_is_Some_2 (scheduler_ready_queue_slots s) (Z.to_nat i)) as [slot Hs]; [lia|].
    destruct (lookup_lt_is_Some_2 (task_ids q) (Z.to_nat i)) as [tid Ht]; [lia|].
    apply wp_bind, wp_get.
    change (scheduler_ready_queue_slots (with_audit s a')) with (scheduler_ready_queue_slots s).
    rewrite Hs, Ht, count_if_snoc.
    assert (stale_entry s i = (16 <=? slot) || negb (used (get_task s (Z.to_nat slot))) ||
      negb (tid =? id (get_task s (Z.to_nat slot)))) as Est.
    { unfold stale_entry. fold q. by rewrite Hs, Ht. }
    assert (forall c, (forall a0, issues_found (c a0) = issues_found a0 /\
        repairs_run (c a0) = repairs_run a0 /\ issues_repaired (c a0) = issues_repaired a0) ->
      wp (scheduler_audit_record_issue c) (fun _ s' => exists a2, s' = with_audit s a2 /\
        issues_added (count_if (stale_entry s) l + 1) a a2) (with_audit s a')) as Hrec.
    { intros c Hc. apply record_issue_ok; [done|done|]. intros a2 Ha2. exists a2. split; [done|].
      by eapply issues_added_trans. }
    rewrite Est. destruct (16 <=? slot); cbn [orb]; [by apply Hrec|].
    apply wp_bind, wp_get. change (get_task (with_audit s a') (Z.to_nat slot)) with (get_task s (Z.to_nat slot)).
    apply wp_when; intros Hc; rewrite Hc; [by apply Hrec|].
    exists a'. split; [done|]. by rewrite Z.add_0_r.
  - intros s' (a' & -> & Ea). by apply HQ.
Qed.

Definition bad_pointer (p : task_ptr) : bool := negb (scheduler_pointer_points_to_task_table p).

(** Everything the audit counts. *)
Definition audit_issues s : Z :=
  sum_of (fun i => task_issues (get_task s i)) slots +
  count_if (stale_entry s) (seqZ 0 (count (scheduler_ready_queue_info s))) +
  Z.b2z (bad_pointer (scheduler_current_running_task s)) +
  Z.b2z (bad_pointer (scheduler_current_switched_task s)).

Lemma sched_audit_ok s a (Q : Z -> sched_state H -> Prop) :
  queue_shape s ->
  (forall a', issues_added (audit_issues s) scheduler_clear_audit_info a' ->
     Q (audit_issues s) (with_audit s a')) ->
  wp scheduler_audit_unlocked Q (with_audit s a).
Proof.
  intros Qs HQ. apply wp_bind, wp_mod, wp_bind.
  set (a0 := scheduler_clear_audit_info <| audits_run := 1 |>).
  set (f := fun i => task_issues (get_task s i)).
  assert (forall l, 0 <= sum_of f l <= 4 * Z.of_nat (length l)) as Hsum
    by (intros l; apply sum_of_bound; intros i; apply task_issues_bound).
  apply (wp_for _ _ (fun l s' => exists a', s' = with_audit s a' /\
    issues_added (sum_of f l) scheduler_clear_audit_info a')).
  - exists a0. split; [reflexivity|]. by split.
  - intros l i r s' E (a' & -> & Ea). pose proof (slots_split _ _ _ E) as [-> Hi].
    specialize (Hsum l). apply wp_bind, wp_get.
    change (get_task (with_audit s a') (length l)) with (get_task s (length l)).
    rewrite sum_of_snoc. apply audit_task_ok.
    + destruct Ea as [-> _]. cbn. lia.
    + intros a2 Ha2. exists a2. split; [done|]. by eapply issues_added_trans.
  - intros s' (a' & -> & Ea). apply wp_bind. specialize (Hsum slots).
    pose proof (count_if_bound (stale_entry s) (seqZ 0 (count (scheduler_ready_queue_info s)))) as Hc.
    rewrite length_seqZ in Hc. pose proof (qs_count s Qs).
    apply audit_queue_ok; [done|destruct Ea as [-> _]; cbn in *; lia|]. intros a2 Ha2.
    assert (issues_added _ _ _) as Ea2 by (eapply issues_added_trans; [exact Ea|exact Ha2]).
    apply wp_bind, wp_get, wp_bind, maybe_issue_ok; [done|destruct Ea2 as [-> _]; cbn in *; lia|].
    intros a3 Ha3. assert (issues_added _ _ _) as Ea3 by (eapply issues_added_trans; [exact Ea2|exact Ha3]).
    apply wp_bind, wp_get, wp_bind, maybe_issue_ok;
      [done|destruct Ea3 as [-> _]; pose proof (b2z_bound (bad_pointer (scheduler_current_running_task s)));
       cbn in *; unfold bad_pointer in *; lia|].
    intros a4 Ha4. assert (issues_added _ _ _) as Ea4 by (eapply issues_added_trans; [exact Ea3|exact Ha4]).
    apply wp_get. change (issues_found (scheduler_audit_info (with_audit s a4))) with (issues_found a4).
    change (issues_added (audit_issues s) scheduler_clear_audit_info a4) in Ea4.
    replace (issues_found a4) with (audit_issues s) by (destruct Ea4 as [-> _]; cbn; lia). by apply HQ.
Qed.

(** ** Clearing and repairing *)

Definition emptied_queue s : sched_state H :=
  s <| scheduler_ready_queue_info ::= fun q =>
         q <| count := 0 |> <| head := 0 |> <| tail := 0 |>
           <| selected_slot := SCHEDULER_NO_TASK_SELECTED |> <| task_ids := replicate 16 0 |> |>
    <| scheduler_ready_queue_slots := cleared_slots |>.

Lemma sched_ok_emptied F K s ts st h :
  scheduler_pointer_points_to_task_table (scheduler_current_running_task s) = true ->
  scheduler_pointer_points_to_task_table (scheduler_current_switched_task s) = true ->
  core F K ts st h -> sched_ok F K (upd (emptied_queue s) ts st h).
Proof. intros Hr Hs Hc. constructor; [done|constructor; cbn; (done || lia)|done|done]. Qed.

Definition is_inactive (t : scheduler_task_t) : bool := used t && state_is_inactive (state t).

Definition clear_inactive (t : scheduler_task_t) : scheduler_task_t :=
  if is_inactive t then scheduler_clear_task else t.

Lemma table_clear F K ts st h i :
  uncounted F K ts st h -> (i < 16)%nat -> kernel_stack_base (task_of ts i) = 0 ->
  uncounted F K (alter (fun _ => scheduler_clear_task) i ts) st h.
Proof.
  intros [[Hlen Htok Hown Hids] I1 I2] Hi Hb. pose proof (task_of_lookup ts i Hlen Hi) as Ht.
  constructor; [|done|done]. constructor.
  - by rewrite length_alter.
  - apply tasks_ok_alter; [done|]. by intros.
  - apply owned_alter; [|done]. intros t Ht'. rewrite Ht in Ht'. injection Ht' as <-. by rewrite Hb.
  - by apply (ids_ok_replace _ _ _ _ _ Ht Hids).
Qed.

Lemma inactive_base t : task_ok t -> is_inactive t = true -> kernel_stack_base t = 0.
Proof.
  unfold task_ok, is_inactive. destruct (used t); [|done]. destruct (state t); try done; by intros [].
Qed.

Lemma clear_inactive_ok F K s (Q : Z -> sched_state H -> Prop) :
  sched_ok F K s ->
  (forall st', let s' := upd (emptied_queue s) (clear_inactive <$> scheduler_tasks s) st' (sched_heap s) in
     sched_ok F K s' -> Q (count_if (fun i => is_inactive (get_task s i)) slots) s') ->
  wp scheduler_clear_inactive_tasks_unlocked Q s.
Proof.
  intros [Hc Qs Hr Hsw] HQ. set (ts := scheduler_tasks s) in *. set (st := scheduler_stats s) in *.
  set (h := sched_heap s) in *. pose proof (co_table _ _ _ _ _ Hc) as [Hlen Htok _ _].
  apply wp_bind.
  apply (wp_fold _ _ (fun l1 n s' => exists ts', s' = upd s ts' st h /\
    mapped_upto clear_inactive (length l1) ts ts' /\ uncounted F K ts' st h /\
    n = count_if (fun i => is_inactive (task_of ts i)) l1)).
  - exists ts. split; [apply upd_id|]. split; [apply mapped_upto_0|]. split; [by apply core_uncounted|done].
  - intros l1 i l2 n s' E (ts' & -> & Hm & Hu & ->). pose proof (slots_split _ _ _ E) as [-> Hi].
    rewrite length_app, Nat.add_1_r, count_if_snoc. unfold scheduler_clear_inactive_step.
    apply wp_bind, wp_task_at. pose proof (mapped_upto_at _ _ _ _ Hm) as Et. rewrite Et.
    pose proof (task_of_lookup ts _ Hlen Hi) as Ht. set (t := task_of ts (length l1)) in *.
    pose proof (Forall_lookup_1 _ _ _ _ Htok Ht) as Hok.
    pose proof (count_if_bound (fun i => is_inactive (task_of ts i)) l1) as Hb.
    assert (is_inactive t = false -> wp (mret_ (count_if (fun i => is_inactive (task_of ts i)) l1))
      (fun n s'' => exists ts'', s'' = upd s ts'' st h /\
        mapped_upto clear_inactive (S (length l1)) ts ts'' /\ uncounted F K ts'' st h /\
        n = count_if (fun i => is_inactive (task_of ts i)) l1 + (if is_inactive t then 1 else 0))
      (upd s ts' st h)) as Hskip.
    { intros Hin. apply wp_ret. exists ts'. rewrite Hin. split; [done|]. split; [|split; [done|lia]].
      apply mapped_upto_skip; [done|]. intros t' Ht'. rewrite Ht in Ht'. injection Ht' as <-.
      unfold clear_inactive. by rewrite Hin. }
    destruct (used t) eqn:Hused; cbn [negb]; [|apply Hskip; unfold is_inactive; by rewrite Hused].
    destruct (state_is_inactive (state t)) eqn:Hs; [|apply Hskip; unfold is_inactive; by rewrite Hused, Hs].
    clear Hskip.
    assert (is_inactive t = true) as Hin by (unfold is_inactive; by rewrite Hused, Hs).
    pose proof (inactive_base t Hok Hin) as Hb0. apply wp_bind.
    apply (free_stack_ok F); [apply Hu|apply Hu|done| |rewrite Et, Hb0; done]. intros _.
    apply wp_bind, wp_upd_task, wp_ret. eexists. split; [reflexivity|]. rewrite Hin.
    split; [|split; [by apply table_clear; [done|done|rewrite Et]|]].
    + apply mapped_upto_step; [done|]. intros t' Ht'. rewrite Ht in Ht'. injection Ht' as <-.
      unfold clear_inactive. by rewrite Hin.
    + assert (Z.of_nat (length l1) < 16) by lia. apply incr_small. lia.
  - intros n s' (ts' & -> & Hm & Hu & ->). apply mapped_upto_all in Hm as ->; [|by rewrite Hlen].
    apply wp_bind, wp_sstat. change SCHEDULER_MAX_TASKS with 16.
    rewrite (proj2 (Z.leb_gt 16 (current_task_index st))) by apply Hu.
    apply wp_bind, wp_bind, wp_mod, wp_mod, wp_bind, wp_mod, wp_ret.
    apply (HQ (recount (clear_inactive <$> ts) st)). apply sched_ok_emptied; [done|done|].
    by apply recount_core.
Qed.


(** [scheduler_free_kernel_stack] on one task. *)
Definition freed (t : scheduler_task_t) : scheduler_task_t :=
  if kernel_stack_base t =? 0 then t else without_stack t.

Definition is_broken (t : scheduler_task_t) : bool :=
  state_needs_stack (state t) &&
  ((entry t =? 0) || (kernel_stack_base t =? 0) || (kernel_stack_top t =? 0)).

(** The effect of [scheduler_repair_unlocked] on one task. *)
Definition repair_one (t : scheduler_task_t) : scheduler_task_t :=
  if negb (used t) then (freed t) <| kernel_stack_top := 0 |> <| kernel_stack_size := 0 |>
  else if negb (scheduler_task_state_is_valid (state t)) || is_broken t
  then freed (t <| state := SCHEDULER_TASK_DISABLED |>)
  else if asleep_without_tick t then t <| state := SCHEDULER_TASK_ACTIVE |>
  else if state_is_inactive (state t) then freed t
  else t.

Definition needs_repair (t : scheduler_task_t) : bool :=
  if negb (used t) then negb (kernel_stack_base t =? 0)
  else negb (scheduler_task_state_is_valid (state t)) || is_broken t || asleep_without_tick t ||
       (state_is_inactive (state t) && negb (kernel_stack_base t =? 0)).

Lemma alter_at_task ts i (f g : scheduler_task_t -> scheduler_task_t) :
  length ts = 16%nat -> (i < 16)%nat -> f (task_of ts i) = g (task_of ts i) ->
  alter f i ts = alter g i ts.
Proof.
  intros Hlen Hi E. apply list_alter_ext; [|done]. intros t Ht.
  rewrite (task_of_lookup ts i) in Ht by done. by injection Ht as <-.
Qed.

Lemma alter_nothing ts i (f : scheduler_task_t -> scheduler_task_t) :
  length ts = 16%nat -> (i < 16)%nat -> f (task_of ts i) = task_of ts i -> alter f i ts = ts.
Proof.
  intros Hlen Hi E. rewrite (alter_at_task ts i f (fun t => t)) by done. by apply list_alter_id.
Qed.

Lemma free_ok F s ts st h i (Q : unit -> sched_state H -> Prop) :
  length ts = 16%nat -> owned F ts h -> (i < 16)%nat ->
  (forall st' h', stats_kept st st' -> current_task_index st' = current_task_index st ->
     owned F (alter freed i ts) h' -> Q tt (upd s (alter freed i ts) st' h')) ->
  wp (scheduler_free_kernel_stack i) Q (upd s ts st h).
Proof.
  intros Hlen Hown Hi HQ. apply (free_stack_ok F); [done|done|done| |].
  - intros Hb. assert (alter freed i ts = ts) as E.
    { apply alter_nothing; [done|done|]. unfold freed. by rewrite Hb. }
    rewrite E in HQ. by apply HQ; [apply stats_kept_refl|..].
  - intros h' Hb Hown'. assert (alter freed i ts = alter without_stack i ts) as E.
    { apply alter_at_task; [done|done|]. unfold freed. by rewrite (proj2 (Z.eqb_neq _ _)). }
    rewrite E in HQ. by apply HQ.
Qed.

(** One visit of the repair loop. *)
Section RepairTask.
Context (F : gset Z) (s : sched_state H) (ts : list scheduler_task_t) (st : scheduler_stats_t) (h : H).
Context (i : nat) (n : Z) (Q : Z -> sched_state H -> Prop).
Hypothesis Hlen : length ts = 16%nat.
Hypothesis Hown : owned F ts h.
Hypothesis Hi : (i < 16)%nat.
Hypothesis Hn : 0 <= n < 1000.
Hypothesis HQ : forall st' h', stats_kept st st' -> current_task_index st' = current_task_index st ->
  owned F (alter repair_one i ts) h' ->
  Q (n + Z.b2z (needs_repair (task_of ts i))) (upd s (alter repair_one i ts) st' h').
Let t := task_of ts i.

Lemma repair_done f n' st' h' :
  f t = repair_one t -> n' = n + Z.b2z (needs_repair t) ->
  stats_kept st st' -> current_task_index st' = current_task_index st ->
  owned F (alter f i ts) h' -> Q n' (upd s (alter f i ts) st' h').
Proof using All.
  intros E -> S1 S2 Ho. rewrite (alter_at_task ts i f repair_one) in * by done. by apply HQ.
Qed.

Lemma repair_same : repair_one t = t -> needs_repair t = false -> Q n (upd s ts st h).
Proof using All.
  intros E Er. assert (alter (fun x => x) i ts = ts) as E0 by by apply list_alter_id.
  rewrite <- E0. apply repair_done; [done|rewrite Er; cbn; lia|apply stats_kept_refl|done|by rewrite E0].
Qed.

Lemma repair_disable_ok :
  used t = true -> negb (scheduler_task_state_is_valid (state t)) || is_broken t = true ->
  wp (scheduler_assign_task_state i SCHEDULER_TASK_DISABLED ;;; scheduler_free_kernel_stack i ;;; mret_ (incr n))
    Q (upd s ts st h).
Proof using All.
  intros Hu Hbad. apply wp_bind, wp_upd_task, wp_bind, (free_ok F);
    [by rewrite length_alter|by apply owned_alter|done|].
  intros st' h' S1 S2 Hown'. apply wp_ret. rewrite list_alter_alter_eq in *. apply repair_done; try done.
  - unfold repair_one. by rewrite Hu, Hbad.
  - unfold needs_repair. rewrite Hu, Hbad. apply incr_small. lia.
Qed.

Lemma repair_unused_ok :
  used t = false ->
  wp (repaired' <- (if negb (kernel_stack_base t =? 0)
                    then scheduler_free_kernel_stack i ;;; mret_ (incr n)
                    else mret_ n) ;;
      upd_task i (fun t => t <| kernel_stack_top := 0 |> <| kernel_stack_size := 0 |>) ;;;
      mret_ repaired') Q (upd s ts st h).
Proof using All.
  intros Hu. apply wp_bind. destruct (Z.eqb_spec (kernel_stack_base t) 0) as [Hb|Hb]; cbn [negb].
  - apply wp_ret, wp_bind, wp_upd_task, wp_ret, repair_done; try done; [| |by apply owned_alter].
    + unfold repair_one, freed. by rewrite Hu, Hb.
    + unfold needs_repair. rewrite Hu, Hb. cbn. lia.
  - apply wp_bind, (free_ok F); [done|done|done|]. intros st' h' S1 S2 Hown'.
    apply wp_ret, wp_bind, wp_upd_task, wp_ret. rewrite list_alter_alter_eq. apply repair_done; try done.
    + unfold repair_one. by rewrite Hu.
    + unfold needs_repair. rewrite Hu, (proj2 (Z.eqb_neq _ _)) by done. apply incr_small. lia.
    + rewrite <- list_alter_alter_eq. by apply owned_alter.
Qed.

Lemma repair_valid_ok :
  used t = true -> scheduler_task_state_is_valid (state t) = true -> is_broken t = false ->
  wp (repaired' <- (if asleep_without_tick t
                    then scheduler_assign_task_state i SCHEDULER_TASK_ACTIVE ;;; mret_ (incr n)
                    else mret_ n) ;;
      task' <- task_at i ;;
      if state_is_inactive (state task') && negb (kernel_stack_base task' =? 0)
      then scheduler_free_kernel_stack i ;;; mret_ (incr repaired')
      else mret_ repaired') Q (upd s ts st h).
Proof using All.
  intros Hu Hv Hbr. apply wp_bind. destruct (asleep_without_tick t) eqn:Has.
  { apply wp_bind, wp_upd_task, wp_ret, wp_bind, wp_task_at. rewrite task_of_alter by done.
    change (state_is_inactive _) with false. apply wp_ret, repair_done; try done; [| |by apply owned_alter].
    - unfold repair_one. by rewrite Hu, Hv, Hbr, Has.
    - unfold needs_repair. rewrite Hu, Hv, Hbr, Has. apply incr_small. lia. }
  apply wp_ret, wp_bind, wp_task_at. fold t.
  destruct (state_is_inactive (state t)) eqn:Hina; cbn [andb].
  2:{ apply wp_ret, repair_same; [unfold repair_one|unfold needs_repair]; by rewrite Hu, Hv, Hbr, Has, Hina. }
  destruct (Z.eqb_spec (kernel_stack_base t) 0) as [Hb|Hb]; cbn [negb].
  { apply wp_ret, repair_same; [unfold repair_one, freed|unfold needs_repair];
      by rewrite Hu, Hv, Hbr, Has, Hina, Hb. }
  apply wp_bind, (free_ok F); [done|done|done|]. intros st' h' S1 S2 Hown'. apply wp_ret, repair_done; try done.
  - unfold repair_one. by rewrite Hu, Hv, Hbr, Has, Hina.
  - unfold needs_repair. rewrite Hu, Hv, Hbr, Has, Hina, (proj2 (Z.eqb_neq _ _)) by done. apply incr_small. lia.
Qed.

Lemma repair_task_ok : wp (scheduler_repair_task i n) Q (upd s ts st h).
Proof using All.
  apply wp_bind, wp_task_at. fold t. destruct (used t) eqn:Hu; cbn [negb]; [|by apply repair_unused_ok].
  destruct (scheduler_task_state_is_valid (state t)) eqn:Hv; cbn [negb];
    [|apply repair_disable_ok; by rewrite ?Hv].
  change (state_needs_stack (state t) && _) with (is_broken t).
  destruct (is_broken t) eqn:Hbr; [apply repair_disable_ok; by rewrite ?Hv, ?Hbr|].
  change (state_is (state t) SCHEDULER_TASK_SLEEPING && _) with (asleep_without_tick t).
  by apply repair_valid_ok.
Qed.
End RepairTask.

(** The table after the repair loop. *)
Lemma repair_tasks_ok F s ts st h (Q : Z -> sched_state H -> Prop) :
  length ts = 16%nat -> owned F ts h ->
  (forall st' h', stats_kept st st' -> current_task_index st' = current_task_index st ->
     owned F (repair_one <$> ts) h' ->
     Q (count_if (fun i => needs_repair (task_of ts i)) slots) (upd s (repair_one <$> ts) st' h')) ->
  wp (mfold slots (fun repaired i => scheduler_repair_task i repaired) 0) Q (upd s ts st h).
Proof.
  intros Hlen Hown HQ.
  apply (wp_fold _ _ (fun l1 n s' => exists ts' st' h', s' = upd s ts' st' h' /\
    mapped_upto repair_one (length l1) ts ts' /\ length ts' = 16%nat /\ owned F ts' h' /\
    stats_kept st st' /\ current_task_index st' = current_task_index st /\
    n = count_if (fun i => needs_repair (task_of ts i)) l1)).
  - exists ts, st, h. by split_and!.
  - intros l1 i l2 n s' E (ts' & st' & h' & -> & Hm & Hl' & Ho & S1 & S2 & ->).
    pose proof (slots_split _ _ _ E) as [-> Hi]. rewrite length_app, Nat.add_1_r, count_if_snoc.
    pose proof (count_if_bound (fun i => needs_repair (task_of ts i)) l1) as Hb.
    apply (repair_task_ok F); [done|done|done|lia|]. intros st2 h2 S3 S4 Ho2.
    rewrite (mapped_upto_at _ _ _ _ Hm). eexists _, _, _. split; [reflexivity|]. split_and!; try done.
    + by apply mapped_upto_step.
    + by rewrite length_alter.
    + by eapply stats_kept_trans.
    + congruence.
  - intros n s' (ts' & st' & h' & -> & Hm & Hl' & Ho & S1 & S2 & ->).
    apply mapped_upto_all in Hm as ->; [|by rewrite Hlen]. by apply HQ.
Qed.

Definition fix_pointer (p : task_ptr) : task_ptr := if bad_pointer p then TaskNull else p.

Lemma fix_pointer_good p : bad_pointer (fix_pointer p) = false.
Proof. unfold fix_pointer. by destruct (bad_pointer p) eqn:E. Qed.

(** The state after a repair: [s] with the repaired table, valid pointers and an
    empty queue. *)
Definition repaired_state s st h : sched_state H :=
  upd (emptied_queue (s <| scheduler_current_running_task ::= fix_pointer |>
                        <| scheduler_current_switched_task ::= fix_pointer |>))
      (repair_one <$> scheduler_tasks s) st h.

Definition repairs_done s : Z :=
  count_if (fun i => needs_repair (get_task s i)) slots +
  Z.b2z (bad_pointer (scheduler_current_running_task s)) +
  Z.b2z (bad_pointer (scheduler_current_switched_task s)).

Lemma task_of_fmap (g : scheduler_task_t -> scheduler_task_t) ts i :
  length ts = 16%nat -> (i < 16)%nat -> task_of (g <$> ts) i = g (task_of ts i).
Proof. intros Hlen Hi. unfold task_of at 1. rewrite list_lookup_fmap. by rewrite (task_of_lookup ts i). Qed.

(** Damage that the repair does not see: the top of a stack without its base. *)
Definition stack_top_known (t : scheduler_task_t) : Prop :=
  used t = true -> kernel_stack_base t = 0 -> kernel_stack_top t = 0.

Lemma repair_one_clean t : stack_top_known t -> task_issues (repair_one t) = 0.
Proof.
  intros Ht. assert (has_stack (freed t) = false \/ (used t = false /\ kernel_stack_base (freed t) = 0)) as Hf.
  { unfold freed, has_stack. destruct (Z.eqb_spec (kernel_stack_base t) 0) as [Hb|Hb]; [|by left].
    destruct (used t) eqn:Hu; [left|right; done]. by rewrite Hb, (Ht Hu Hb). }
  assert (used (freed t) = used t /\ state (freed t) = state t) as [Eu Es] by (unfold freed; by case_match).
  unfold repair_one. destruct (used t) eqn:Hu; cbn [negb].
  2:{ unfold task_issues, has_stack. cbn. rewrite Eu. cbn.
      destruct Hf as [Hf|[_ ->]]; [|done]. unfold has_stack in Hf. apply orb_false_iff in Hf as [-> _]. done. }
  destruct Hf as [Hf|[]]; [|done].
  destruct (negb (scheduler_task_state_is_valid (state t)) || is_broken t) eqn:Hbad.
  { assert (freed (t <| state := SCHEDULER_TASK_DISABLED |>) = (freed t) <| state := SCHEDULER_TASK_DISABLED |>) as ->.
    { unfold freed. cbn. by case_match. }
    unfold task_issues. cbn. rewrite Eu. eval_states. unfold asleep_without_tick. cbn. eval_states.
    change (has_stack _) with (has_stack (freed t)). by rewrite Hf. }
  apply orb_false_iff in Hbad as [Hv Hbr]. unfold is_broken in Hbr.
  destruct (asleep_without_tick t) eqn:Has.
  { unfold task_issues, lacks_stack, has_stack. cbn. rewrite Hu. eval_states. unfold asleep_without_tick. cbn.
    eval_states. apply andb_true_iff in Has as [Hs _]. apply bool_decide_eq_true in Hs. rewrite Hs in Hbr.
    eval_states. apply orb_false_iff in Hbr as [Hbr ->]. apply orb_false_iff in Hbr as [-> ->]. done. }
  destruct (state_is_inactive (state t)) eqn:Hina; unfold task_issues.
  - assert (state_needs_stack (state t) = false) as Hns by (by destruct (state t)).
    assert (asleep_without_tick (freed t) = false) as Has'.
    { unfold asleep_without_tick. rewrite Es. by destruct (state t). }
    by rewrite Eu, Es, Hv, Hns, Has', Hf, andb_false_r.
  - rewrite Hu, Hv, Has, Hina. cbn [negb andb]. destruct (state_needs_stack (state t)); [|done].
    cbn in Hbr. apply orb_false_iff in Hbr as [Hbr E3]. apply orb_false_iff in Hbr as [E1 E2].
    unfold lacks_stack. by rewrite E1, E2, E3.
Qed.

(** The pointer checks at the end of the repair. *)
Lemma fix_running_ok s n (Q : Z -> sched_state H -> Prop) :
  0 <= n < 1000 ->
  Q (n + Z.b2z (bad_pointer (scheduler_current_running_task s)))
    (s <| scheduler_current_running_task ::= fix_pointer |>) ->
  wp (if negb (scheduler_pointer_points_to_task_table (scheduler_current_running_task s))
      then mmod (fun s => s <| scheduler_current_running_task := TaskNull |>) ;;; mret_ (incr n)
      else mret_ n) Q s.
Proof.
  intros Hn HQ. fold (bad_pointer (scheduler_current_running_task s)).
  destruct (bad_pointer (scheduler_current_running_task s)) eqn:Eb; cbn [Z.b2z] in HQ.
  - apply wp_bind, wp_mod, wp_ret. rewrite incr_small by lia.
    replace (s <| scheduler_current_running_task := TaskNull |>)
      with (s <| scheduler_current_running_task ::= fix_pointer |>); [done|].
    destruct s. unfold set_field. cbn in *. unfold fix_pointer. by rewrite Eb.
  - apply wp_ret. rewrite Z.add_0_r in HQ.
    replace s with (s <| scheduler_current_running_task ::= fix_pointer |>); [done|].
    destruct s. unfold set_field. cbn in *. unfold fix_pointer. by rewrite Eb.
Qed.

Lemma fix_switched_ok s n (Q : Z -> sched_state H -> Prop) :
  0 <= n < 1000 ->
  Q (n + Z.b2z (bad_pointer (scheduler_current_switched_task s)))
    (s <| scheduler_current_switched_task ::= fix_pointer |>) ->
  wp (if negb (scheduler_pointer_points_to_task_table (scheduler_current_switched_task s))
      then mmod (fun s => s <| scheduler_current_switched_task := TaskNull |>) ;;; mret_ (incr n)
      else mret_ n) Q s.
Proof.
  intros Hn HQ. fold (bad_pointer (scheduler_current_switched_task s)).
  destruct (bad_pointer (scheduler_current_switched_task s)) eqn:Eb; cbn [Z.b2z] in HQ.
  - apply wp_bind, wp_mod, wp_ret. rewrite incr_small by lia.
    replace (s <| scheduler_current_switched_task := TaskNull |>)
      with (s <| scheduler_current_switched_task ::= fix_pointer |>); [done|].
    destruct s. unfold set_field. cbn in *. unfold fix_pointer. by rewrite Eb.
  - apply wp_ret. rewrite Z.add_0_r in HQ.
    replace s with (s <| scheduler_current_switched_task ::= fix_pointer |>); [done|].
    destruct s. unfold set_field. cbn in *. unfold fix_pointer. by rewrite Eb.
Qed.

Lemma repair_ok F s (Q : Z -> sched_state H -> Prop) :
  length (scheduler_tasks s) = 16%nat -> owned F (scheduler_tasks s) (sched_heap s) ->
  (forall st h a, stats_kept (recount (repair_one <$> scheduler_tasks s) (scheduler_stats s)) st ->
     current_task_index st = current_task_index (scheduler_stats s) ->
     owned F (repair_one <$> scheduler_tasks s) h ->
     issues_added (audit_issues (repaired_state s st h)) scheduler_clear_audit_info a ->
     Q (repairs_done s) (with_audit (repaired_state s st h) a)) ->
  wp scheduler_repair_unlocked Q s.
Proof.
  intros Hlen Hown HQ. apply wp_bind, wp_mod, wp_bind.
  set (a1 := (scheduler_audit_info s) <| repairs_run ::= incr |>).
  change (s <| scheduler_audit_info ::= _ |>) with
    (upd (with_audit s a1) (scheduler_tasks s) (scheduler_stats s) (sched_heap s)).
  apply (repair_tasks_ok F); [done|done|]. intros st h S1 S2 Ho.
  pose proof (count_if_bound (fun i => needs_repair (task_of (scheduler_tasks s) i)) slots) as Hb.
  change (Z.of_nat (length slots)) with 16 in Hb.
  set (n := count_if (fun i => needs_repair (task_of (scheduler_tasks s) i)) slots) in *.
  set (s1 := upd (with_audit s a1) (repair_one <$> scheduler_tasks s) st h).
  apply wp_bind, wp_get, wp_bind, fix_running_ok; [lia|].
  set (s2 := s1 <| scheduler_current_running_task ::= fix_pointer |>).
  change (scheduler_current_running_task s1) with (scheduler_current_running_task s).
  pose proof (b2z_bound (bad_pointer (scheduler_current_running_task s))).
  apply wp_bind, wp_get, wp_bind, fix_switched_ok; [lia|].
  change (scheduler_current_switched_task s2) with (scheduler_current_switched_task s).
  fold (repairs_done s). apply wp_bind, wp_bind, wp_mod, wp_mod, wp_bind, wp_mod, wp_bind, wp_mod, wp_bind.
  set (st' := recount (repair_one <$> scheduler_tasks s) st).
  set (a2 := a1 <| issues_repaired ::= fun m => m [+] repairs_done s |>).
  lazymatch goal with |- wp _ _ ?s0 => change s0 with (with_audit (repaired_state s st' h) a2) end.
  apply sched_audit_ok; [constructor; cbn; (done || lia)|]. intros a Ha. apply wp_ret, HQ; try done.
  destruct S1. by constructor.
Qed.
End Sweep.
