(* ===== verification/SchedRun.v ===== *)
(** * The lock, and running tasks

    The interrupt lock of core/scheduler.c and the functions that run a task:
    the trampoline, direct and switched dispatch, the timer tick. The bodies of
    the tasks are a parameter; what they must respect is [body_ok]. *)
From S2P Require Import Prelude KString KernelHeap Scheduler SchedQueue SchedTable SchedOps SchedSweep.

(** ** The lock *)

Section Lock.
Context {H : Type}.
Implicit Types (s : sched_state H).

Definition relock s (l : scheduler_lock_info_t) (e : Z) : sched_state H :=
  s <| scheduler_lock_info := l |> <| eflags := e |>.

Definition lock_depth s : Z := depth (scheduler_lock_info s).

(** The flags that the outermost unlock restores, once the lock is taken. *)
Definition flags_to_restore s : Z :=
  if lock_depth s =? 0 then eflags s else saved_flags (scheduler_lock_info s).

Definition interrupts_off (e : Z) : Z := Z.ldiff e FLAG_IF.

Lemma interrupts_off_clear e : Z.land (interrupts_off e) FLAG_IF = 0.
Proof.
  apply Z.bits_inj'. intros n Hn. unfold interrupts_off. rewrite Z.land_spec, Z.ldiff_spec, Z.bits_0.
  destruct (Z.testbit e n), (Z.testbit FLAG_IF n); done.
Qed.

Lemma lock_ok s (Q : unit -> sched_state H -> Prop) :
  0 <= lock_depth s < 4294967295 ->
  (forall l, depth l = lock_depth s + 1 -> saved_flags l = flags_to_restore s -> locked l = true ->
     interrupts_enabled_now l = false -> lock_count l = incr (lock_count (scheduler_lock_info s)) ->
     unlock_count l = unlock_count (scheduler_lock_info s) ->
     Q tt (relock s l (interrupts_off (eflags s)))) ->
  wp scheduler_lock Q s.
Proof.
  intros Hd HQ. unfold scheduler_lock, irq_save. apply wp_bind, wp_bind, wp_get, wp_bind, wp_mod, wp_ret.
  apply wp_bind, wp_mod, wp_bind, wp_mod, wp_bind, wp_mod, wp_mod.
  set (f := eflags s). lazymatch goal with |- Q tt ?s0 => set (s1 := s0) end.
  change s1 with (relock s (scheduler_lock_info s1) (interrupts_off (eflags s))).
  unfold flags_to_restore, lock_depth in *. fold f in HQ |- *.
  assert (interrupts_enabled_now (scheduler_lock_info s1) = false) as Hi.
  { change (interrupts_enabled_now (scheduler_lock_info s1)) with
      (negb (Z.land (interrupts_off (eflags s)) FLAG_IF =? 0)). by rewrite interrupts_off_clear. }
  apply HQ; [..|done| |]; subst s1; cbn;
    repeat match goal with |- context [if ?b then _ else _] => destruct b eqn:?; cbn end; try done;
    try (rewrite incr_small by lia; done).
Qed.

(** The outermost unlock restores the flags, an inner one keeps them. *)
Lemma unlock_ok s (Q : unit -> sched_state H -> Prop) :
  0 < lock_depth s <= 4294967295 ->
  (forall l, depth l = lock_depth s - 1 ->
     saved_flags l = (if lock_depth s =? 1 then 0 else saved_flags (scheduler_lock_info s)) ->
     locked l = (if lock_depth s =? 1 then false else locked (scheduler_lock_info s)) ->
     failed_unlocks l = failed_unlocks (scheduler_lock_info s) ->
     Q tt (relock s l (if lock_depth s =? 1 then saved_flags (scheduler_lock_info s) else eflags s))) ->
  wp scheduler_unlock Q s.
Proof.
  intros Hd HQ. apply wp_bind, wp_get. unfold lock_depth in *.
  set (l0 := scheduler_lock_info s) in *. rewrite (proj2 (Z.eqb_neq (depth l0) 0)) by lia.
  apply wp_bind, wp_mod, wp_bind, wp_get, wp_bind.
  change (depth (scheduler_lock_info (set_field _ _ s))) with (decr (depth l0)).
  rewrite decr_small by lia.
  destruct (Z.eqb_spec (depth l0 - 1) 0) as [E|E].
  - rewrite (proj2 (Z.eqb_eq (depth l0) 1)) in HQ by lia.
    apply wp_bind, wp_mod, wp_mod, wp_mod.
    lazymatch goal with |- Q tt ?s0 => set (s1 := s0) end.
    change s1 with (relock s (scheduler_lock_info s1) (saved_flags l0)).
    apply HQ; try done. subst s1. cbn. fold l0. by rewrite decr_small by lia.
  - rewrite (proj2 (Z.eqb_neq (depth l0) 1)) in HQ by lia. apply wp_ret, wp_mod.
    lazymatch goal with |- Q tt ?s0 => set (s1 := s0) end.
    change s1 with (relock s (scheduler_lock_info s1) (eflags s)).
    apply HQ; try done. subst s1. cbn. fold l0. by rewrite decr_small by lia.
Qed.

(** What a routine that runs under the lock does to it. *)
Record lock_kept s s' : Prop := {
  lk_depth : lock_depth s' = lock_depth s;
  lk_saved : saved_flags (scheduler_lock_info s') = saved_flags (scheduler_lock_info s);
  lk_locked : locked (scheduler_lock_info s') = locked (scheduler_lock_info s)
}.

End Lock.

Section Run.
Context {H : Type} `{KernelHeapLaws H}.
Implicit Types (s : sched_state H) (ts : list scheduler_task_t) (st : scheduler_stats_t) (h : H).
Implicit Types (F : gset Z).
Context (call_entry : Z -> M (sched_state H) unit).
Context (text_at_null : list Z).
Context (cpu_registers : sched_state H -> scheduler_context_t).
Context (addr_switched_task_entry : Z).

(** ** Task bodies *)

Definition is_running s (i : nat) : Prop :=
  (i < 16)%nat /\ used (get_task s i) = true /\ state (get_task s i) = SCHEDULER_TASK_RUNNING.

(** The stack of the context-switch test, a heap block of its own. *)
Definition test_base s : Z := test_stack_base (switch_test_info s).

(** What a task body leaves when it returns: a well-formed scheduler in which the
    task is still running, the lock at the same depth, the bookkeeping of a context
    switch, and the stack of the switch test. It may have created up to [B] tasks. *)
Record body_post (B : Z) F K s (i : nat) s' K' : Prop := {
  bp_issued : K <= K' <= K + B;
  bp_ok : sched_ok F K' s';
  bp_running : is_running s' i;
  bp_lock : lock_kept s s';
  bp_flags : Z.land (eflags s) FLAG_IF = 0 -> eflags s' = eflags s;
  bp_stack : scheduler_running_on_task_stack s' = scheduler_running_on_task_stack s;
  bp_main : scheduler_main_context s' = scheduler_main_context s;
  bp_switched : scheduler_current_switched_task s' = scheduler_current_switched_task s;
  bp_test : test_base s' = test_base s
}.

Definition bodies_ok (B : Z) : Prop := forall e F K s i,
  e <> 0 -> sched_ok F K s -> is_running s i -> 0 < lock_depth s < 4294967295 ->
  scheduler_current_running_task s = TaskSlot i ->
  wp (call_entry e) (fun _ s' => exists K', body_post B F K s i s' K') s.

Context (B : Z).
Hypothesis Hbodies : bodies_ok B.

Lemma slot_pointer i : (i < 16)%nat -> scheduler_pointer_points_to_task_table (TaskSlot i) = true.
Proof. apply Nat.ltb_lt. Qed.

Lemma wp_set_running p (Q : unit -> sched_state H -> Prop) s ts st h :
  Q tt (upd (s <| scheduler_current_running_task := p |>) ts st h) ->
  wp (mmod (fun s => s <| scheduler_current_running_task := p |>)) Q (upd s ts st h).
Proof. intros. by apply wp_mod. Qed.

(** The part of the trampoline after the body returned. *)
Definition trampoline_exit (i : nat) : M (sched_state H) unit :=
  mmod (fun s => s <| scheduler_current_running_task := TaskNull |>) ;;;
  upd_task i (fun t => t <| run_count ::= incr |>) ;;;
  task' <- task_at i ;;
  (if mode_is (mode task') SCHEDULER_TASK_ONESHOT then
     scheduler_assign_task_state i SCHEDULER_TASK_COMPLETED ;;;
     on_stack <- mget scheduler_running_on_task_stack ;;
     mwhen (negb on_stack) (scheduler_free_kernel_stack i) ;;;
     sstat (fun st => st <| task_completions ::= incr |>)
   else scheduler_assign_task_state i SCHEDULER_TASK_ACTIVE) ;;;
  scheduler_recalculate_task_counts.

Lemma trampoline_enter_ok F K s i (Q : unit -> sched_state H -> Prop) :
  sched_ok F K s -> (i < 16)%nat -> used (get_task s i) = true ->
  state (get_task s i) = SCHEDULER_TASK_ACTIVE -> 0 < lock_depth s < 4294967295 ->
  (forall s' K', body_post B F K s i s' K' -> wp (trampoline_exit i) Q s') ->
  wp (scheduler_task_trampoline call_entry i) Q s.
Proof using Hbodies.
  intros Hok Hi Hu Hs Hd HQ. pose proof Hok as [Hc Hqs Hr Hsw]. pose proof Hc as [T _ Hini Hidx].
  apply wp_bind, wp_get. pose proof (table_task_ok _ _ _ _ _ _ T Hi) as Htok.
  change (task_of (scheduler_tasks s) i) with (get_task s i) in Htok.
  unfold task_ok in Htok. rewrite Hu, Hs in Htok. destruct Htok as (_ & _ & _ & He).
  rewrite (proj2 (Z.eqb_neq (entry (get_task s i)) 0)) by done.
  apply wp_to_upd.
  apply wp_bind, wp_sstat, wp_bind, wp_upd_task, wp_bind, wp_set_running, wp_bind, wp_recalculate, wp_bind.
  set (ts := alter (fun t => t <| state := SCHEDULER_TASK_RUNNING |>) i (scheduler_tasks s)).
  set (st := recount ts _).
  set (s1 := s <| scheduler_current_running_task := TaskSlot i |>).
  assert (core F K ts st (sched_heap s)) as Hc1.
  { apply recount_core. apply (uncounted_stats _ _ _ (scheduler_stats s)); [done..|].
    apply (alter_uncounted _ _ _ _ _ _ _ SCHEDULER_TASK_RUNNING); [by apply core_uncounted|done|done| |done..].
    change (task_of (scheduler_tasks s) i) with (get_task s i). by rewrite Hs. }
  eapply wp_mono; [apply (Hbodies _ F K _ i He)|].
  - constructor; [exact Hc1|by destruct Hqs|by apply slot_pointer|exact Hsw].
  - split; [done|]. change (get_task (upd s1 ts st (sched_heap s)) i) with (task_of ts i).
    unfold ts. rewrite task_of_alter by (done || apply T). done.
  - done.
  - done.
  - intros u s' (K' & [P1 P2 P3 [L1 L2 L3] P5 P6 P7 P8 P9]). apply (HQ s' K').
    constructor; try done; by constructor.
Qed.

(** The task after the trampoline. *)
Definition returned_task (t : scheduler_task_t) : scheduler_task_t :=
  if mode_is (mode t) SCHEDULER_TASK_ONESHOT
  then t <| run_count ::= incr |> <| state := SCHEDULER_TASK_COMPLETED |>
  else t <| run_count ::= incr |> <| state := SCHEDULER_TASK_ACTIVE |>.

(** ... and once a completed task gave its stack back. *)
Definition finished_task (t : scheduler_task_t) : scheduler_task_t :=
  if mode_is (mode t) SCHEDULER_TASK_ONESHOT then without_stack (returned_task t) else returned_task t.

Lemma running_core F K ts st h i :
  core F K ts st h -> (i < 16)%nat -> used (task_of ts i) = true ->
  state (task_of ts i) = SCHEDULER_TASK_RUNNING ->
  mode_is (mode (task_of ts i)) SCHEDULER_TASK_ONESHOT = false ->
  uncounted F K (alter returned_task i ts) st h.
Proof.
  intros Hc Hi Hu Hs Hm. pose proof (tb_length _ _ _ _ _ (co_table _ _ _ _ _ Hc)) as Hlen.
  rewrite (alter_at_task ts i _ (fun t => t <| run_count ::= incr |> <| state := SCHEDULER_TASK_ACTIVE |>));
    [|done|done|unfold returned_task; by rewrite Hm].
  apply (alter_uncounted _ _ _ _ _ _ _ SCHEDULER_TASK_ACTIVE);
    [by apply core_uncounted|done|done|by rewrite Hs|done..].
Qed.

(** Off the task's own stack, a completed task is released at once. *)
Lemma exit_direct_ok F K s i (Q : unit -> sched_state H -> Prop) :
  sched_ok F K s -> is_running s i -> scheduler_running_on_task_stack s = false ->
  (forall st h, core F K (alter finished_task i (scheduler_tasks s)) st h ->
     Q tt (upd (s <| scheduler_current_running_task := TaskNull |>)
               (alter finished_task i (scheduler_tasks s)) st h)) ->
  wp (trampoline_exit i) Q s.
Proof using Type.
  intros [Hc _ _ _] (Hi & Hu & Hs) Hst HQ. apply wp_to_upd.
  pose proof (tb_length _ _ _ _ _ (co_table _ _ _ _ _ Hc)) as Hlen.
  apply wp_bind, wp_set_running, wp_bind, wp_upd_task, wp_bind, wp_task_at. rewrite task_of_alter by done.
  change (get_task s i) with (task_of (scheduler_tasks s) i) in Hu, Hs.
  set (ts := scheduler_tasks s) in *. set (st := scheduler_stats s) in *. set (h := sched_heap s) in *.
  change (mode ((task_of ts i) <| run_count ::= incr |>)) with (mode (task_of ts i)).
  destruct (mode_is (mode (task_of ts i)) SCHEDULER_TASK_ONESHOT) eqn:Hm.
  - set (ts1 := alter (fun t => t <| run_count ::= incr |>) i ts).
    assert (core F K ts1 st h) as Hc1 by (by apply core_alter).
    assert (task_of ts1 i = (task_of ts i) <| run_count ::= incr |>) as E1 by (by apply task_of_alter).
    assert (alter (fun t => without_stack (t <| state := SCHEDULER_TASK_COMPLETED |>)) i ts1 =
            alter finished_task i ts) as E2.
    { unfold ts1. rewrite list_alter_alter_eq. apply alter_at_task; [done|done|].
      unfold finished_task, returned_task. by rewrite Hm. }
    apply wp_bind, wp_bind, wp_upd_task, wp_bind, wp_get, wp_bind.
    change (scheduler_running_on_task_stack (upd _ _ _ _)) with (scheduler_running_on_task_stack s).
    rewrite Hst. cbn [negb mwhen].
    apply (release_free_ok F K); [by apply core_uncounted|done|by rewrite E1|by rewrite E1; cbn; rewrite Hs|done|].
    intros st' h' S1 S2 Hun. apply wp_sstat, wp_recalculate. rewrite E2 in *. apply HQ, recount_core.
    by apply (uncounted_stats _ _ _ st').
  - apply wp_bind, wp_upd_task, wp_recalculate. rewrite list_alter_alter_eq.
    rewrite (alter_at_task ts i _ finished_task); [|done|done|unfold finished_task, returned_task; by rewrite Hm].
    apply HQ, recount_core.
    rewrite (alter_at_task ts i _ returned_task); [|done|done|unfold finished_task; by rewrite Hm].
    by apply running_core.
Qed.

(** On the task's own stack, a completed task keeps it until the switch back. *)
Lemma exit_switched_ok F K s i (Q : unit -> sched_state H -> Prop) :
  sched_ok F K s -> is_running s i -> scheduler_running_on_task_stack s = true ->
  (forall st, stats_kept (recount (alter returned_task i (scheduler_tasks s)) (scheduler_stats s)) st ->
     current_task_index st = current_task_index (scheduler_stats s) ->
     Q tt (upd (s <| scheduler_current_running_task := TaskNull |>)
               (alter returned_task i (scheduler_tasks s)) st (sched_heap s))) ->
  wp (trampoline_exit i) Q s.
Proof using Type.
  intros [Hc _ _ _] (Hi & Hu & Hs) Hst HQ. apply wp_to_upd.
  pose proof (tb_length _ _ _ _ _ (co_table _ _ _ _ _ Hc)) as Hlen.
  apply wp_bind, wp_set_running, wp_bind, wp_upd_task, wp_bind, wp_task_at. rewrite task_of_alter by done.
  set (ts := scheduler_tasks s) in *. set (st := scheduler_stats s) in *. set (h := sched_heap s) in *.
  change (mode ((task_of ts i) <| run_count ::= incr |>)) with (mode (task_of ts i)).
  destruct (mode_is (mode (task_of ts i)) SCHEDULER_TASK_ONESHOT) eqn:Hm.
  - apply wp_bind, wp_bind, wp_upd_task, wp_bind, wp_get, wp_bind.
    change (scheduler_running_on_task_stack (upd _ _ _ _)) with (scheduler_running_on_task_stack s).
    rewrite Hst. cbn [negb mwhen]. apply wp_ret, wp_sstat, wp_recalculate. rewrite list_alter_alter_eq.
    rewrite (alter_at_task ts i _ returned_task); [|done|done|unfold returned_task; by rewrite Hm].
    by apply HQ.
  - apply wp_bind, wp_upd_task, wp_recalculate. rewrite list_alter_alter_eq.
    rewrite (alter_at_task ts i _ returned_task); [|done|done|unfold returned_task; by rewrite Hm].
    by apply HQ.
Qed.

(** A task that returned gives its stack back if it completed. *)
Lemma settle_ok F K s ts st h i c (Q : unit -> sched_state H -> Prop) :
  uncounted F K ts st h -> (i < 16)%nat -> used (task_of ts i) = true ->
  state (task_of ts i) = SCHEDULER_TASK_RUNNING ->
  (forall st' h' ts', uncounted F K ts' st' h' -> Q tt (upd s ts' st' h')) ->
  wp (mwhen (state_is (state (task_of (alter (fun t => (returned_task t) <| context := c |>) i ts) i))
               SCHEDULER_TASK_COMPLETED) (scheduler_free_kernel_stack i)) Q
     (upd s (alter (fun t => (returned_task t) <| context := c |>) i ts) st h).
Proof using Type.
  intros Hc Hi Hu Hs HQ. pose proof (tb_length _ _ _ _ _ (un_table _ _ _ _ _ Hc)) as Hlen.
  rewrite task_of_alter by done.
  assert (state ((returned_task (task_of ts i)) <| context := c |>) = state (returned_task (task_of ts i))) as ->
    by done.
  destruct (mode_is (mode (task_of ts i)) SCHEDULER_TASK_ONESHOT) eqn:Hm.
  - assert (state (returned_task (task_of ts i)) = SCHEDULER_TASK_COMPLETED) as ->
      by (unfold returned_task; by rewrite Hm).
    change (state_is SCHEDULER_TASK_COMPLETED SCHEDULER_TASK_COMPLETED) with true. cbn [mwhen].
    set (ts0 := alter (fun t => t <| run_count ::= incr |> <| context := c |>) i ts).
    assert (uncounted F K ts0 st h) as Hc0 by (by apply uncounted_alter).
    assert (task_of ts0 i = (task_of ts i) <| run_count ::= incr |> <| context := c |>) as E0
      by (by apply task_of_alter).
    rewrite (alter_at_task ts i _
      ((fun t => t <| state := SCHEDULER_TASK_COMPLETED |>) ∘
       (fun t => t <| run_count ::= incr |> <| context := c |>)));
      [|done|done|unfold returned_task; by rewrite Hm].
    rewrite <- list_alter_alter_eq. fold ts0.
    apply (release_free_ok F K); [done|done|by rewrite E0|by rewrite E0; cbn; rewrite Hs|done|].
    intros st' h' _ _ Hun. by apply HQ.
  - assert (state (returned_task (task_of ts i)) = SCHEDULER_TASK_ACTIVE) as ->
      by (unfold returned_task; by rewrite Hm).
    change (state_is SCHEDULER_TASK_ACTIVE SCHEDULER_TASK_COMPLETED) with false. apply wp_ret, HQ.
    rewrite (alter_at_task ts i _
      (fun t => t <| run_count ::= incr |> <| state := SCHEDULER_TASK_ACTIVE |> <| context := c |>));
      [|done|done|unfold returned_task; by rewrite Hm].
    apply (alter_uncounted _ _ _ _ _ _ _ SCHEDULER_TASK_ACTIVE);
      [done|done|done|by rewrite Hs|done..].
Qed.

(** ** Dispatching *)

Hypothesis HB : 0 <= B.

(** What every operation leaves that may have run one task body. *)
Record sched_ran F K s s' K' : Prop := {
  rn_issued : K <= K' <= K + B;
  rn_ok : sched_ok F K' s';
  rn_lock : lock_kept s s';
  rn_flags : Z.land (eflags s) FLAG_IF = 0 -> eflags s' = eflags s;
  rn_stack : scheduler_running_on_task_stack s' = false;
  rn_test : test_base s' = test_base s
}.

Lemma ran_nothing F K s ts st h :
  sched_ok F K s -> core F K ts st h -> scheduler_running_on_task_stack s = false ->
  sched_ran F K s (upd s ts st h) K.
Proof using HB.
  intros Hok Hc Hst. constructor; [lia|by eapply sched_ok_upd|by constructor|done|done|done].
Qed.

Lemma trampoline_direct_ok F K s i :
  sched_ok F K s -> (i < 16)%nat -> used (get_task s i) = true ->
  state (get_task s i) = SCHEDULER_TASK_ACTIVE -> 0 < lock_depth s < 4294967295 ->
  scheduler_running_on_task_stack s = false ->
  wp (scheduler_task_trampoline call_entry i) (fun _ s' => exists K', sched_ran F K s s' K') s.
Proof using Hbodies.
  intros Hok Hi Hu Hs Hd Hst. apply (trampoline_enter_ok F K); try done.
  intros s1 K1 [P1 P2 P3 [L1 L2 L3] P5 P6 P7 P8 P9]. rewrite Hst in P6.
  apply (exit_direct_ok F K1); [done|done|done|]. intros st h Hc. exists K1.
  destruct P2 as [C1 Q1 R1 W1]. constructor; [done| |by constructor|done|done|done].
  constructor; [done|by destruct Q1|done|done].
Qed.

(** The same after updates of fields no invariant mentions. *)
Lemma dispatch_ok F K s i now f :
  sched_ok F K s -> (i < 16)%nat -> used (get_task s i) = true ->
  state (get_task s i) = SCHEDULER_TASK_ACTIVE -> 0 < lock_depth s < 4294967295 ->
  scheduler_running_on_task_stack s = false ->
  (forall st, stats_kept st (f st) /\ current_task_index (f st) = current_task_index st) ->
  wp (scheduler_task_trampoline call_entry i) (fun _ s' => exists K', sched_ran F K s s' K')
    (upd s (alter (fun t => t <| last_run_tick := now |>) i (scheduler_tasks s)) (f (scheduler_stats s)) (sched_heap s)).
Proof using Hbodies.
  intros Hok Hi Hu Hs Hd Hst Hf. set (ts := alter _ i _). set (s1 := upd _ _ _ _).
  pose proof (tb_length _ _ _ _ _ (co_table _ _ _ _ _ (so_core _ _ _ Hok))) as Hlen.
  assert (core F K ts (f (scheduler_stats s)) (sched_heap s)) as Hc.
  { destruct (Hf (scheduler_stats s)) as [F1 F2]. eapply core_stats; [exact F1|exact F2|].
    apply core_alter; [apply Hok|done]. }
  assert (get_task s1 i = (get_task s i) <| last_run_tick := now |>) as Et.
  { change (get_task s1 i) with (task_of ts i). unfold ts. by rewrite task_of_alter. }
  assert (used (get_task s1 i) = true /\ state (get_task s1 i) = SCHEDULER_TASK_ACTIVE) as [Hu1 Hs1]
    by (by rewrite Et).
  eapply wp_mono; [apply (trampoline_direct_ok F K); [by eapply sched_ok_upd|exact Hi|exact Hu1|exact Hs1|done|done]|].
  intros u s' (K' & [R1 R2 [L1 L2 L3] R4 R5 R6]). exists K'. by constructor.
Qed.

Lemma run_now_ok F K s tid :
  sched_ok F K s -> 0 < lock_depth s < 4294967295 -> scheduler_running_on_task_stack s = false ->
  wp (scheduler_run_task_now_unlocked call_entry tid) (fun _ s' => exists K', sched_ran F K s s' K') s.
Proof using Hbodies HB.
  intros Hok Hd Hst. pose proof Hok as [Hc _ _ _]. apply wp_to_upd, wp_bind, wp_find_task.
  destruct (lookup_id (scheduler_tasks s) tid) as [i|] eqn:El; [|apply wp_ret; exists K; by apply ran_nothing].
  destruct (lookup_id_Some _ _ _ El) as (Hi & Hu & _). apply wp_bind, wp_task_at.
  destruct (state_is (state (task_of (scheduler_tasks s) i)) SCHEDULER_TASK_ACTIVE) eqn:Hs; cbn [negb];
    [|apply wp_ret; exists K; by apply ran_nothing].
  apply bool_decide_eq_true in Hs.
  apply wp_bind, wp_sstat, wp_bind, wp_get_ticks, wp_bind, wp_upd_task, wp_bind.
  set (f := fun st => st <| manual_dispatches ::= incr |> <| task_dispatches ::= incr |>).
  eapply wp_mono; [apply (dispatch_ok F K s i (timer_ticks s) f); try done|].
  intros u s' Hr. by apply wp_ret.
Qed.

(** A selected task is ready, so active. *)
Lemma selected_active tick s x r :
  ready_slots tick s = x :: r ->
  0 <= x < 16 /\ used (get_task s (Z.to_nat x)) = true /\
  state (get_task s (Z.to_nat x)) = SCHEDULER_TASK_ACTIVE.
Proof.
  intros Er. assert (x ∈ ready_slots tick s) as Hx by (rewrite Er; by left).
  apply list_elem_of_filter in Hx as [Hx Hin]. apply rotation_range in Hin. split; [done|].
  unfold slot_ready, scheduler_task_is_ready_to_run in Hx.
  destruct (used (get_task s (Z.to_nat x))); [|done]. cbn [negb orb] in Hx. split; [done|].
  unfold state_is in Hx. by case_bool_decide.
Qed.

Lemma selection_keeps F K s s' :
  sched_ok F K s -> selection_frame s s' ->
  0 <= current_task_index (scheduler_stats s') < 16 ->
  count (scheduler_ready_queue_info s') <= 16 -> 0 <= count (scheduler_ready_queue_info s') ->
  length (scheduler_ready_queue_slots s') = 16%nat ->
  length (task_ids (scheduler_ready_queue_info s')) = 16%nat -> sched_ok F K s'.
Proof.
  intros [[C1 [] C3 C4] Q1 R1 W1] (q & sl & st & -> & [S1 S2 S3 S4 S5 S6 S7]) Hi Hc1 Hc2 Hl1 Hl2.
  constructor; [|by constructor|done|done].
  constructor; [by eapply table_stats|constructor; (etrans; [eassumption|assumption])|cbn; by rewrite S1|done].
Qed.

Lemma select_keeps F K s tick :
  sched_ok F K s ->
  wp (scheduler_select_next_ready_task tick) (fun r s' =>
    sched_ok F K s' /\ selection_frame s s' /\
    match r with
    | Some i => (i < 16)%nat /\ used (get_task s' i) = true /\
                state (get_task s' i) = SCHEDULER_TASK_ACTIVE
    | None => True
    end) s.
Proof.
  intros Hok. eapply wp_mono; [apply select_ok|]. intros r s' (q & [Q1 Q2 Q3 Q4] & Hf & Hcase).
  assert (length (scheduler_ready_queue_slots s') = 16%nat) as Hl1
    by (rewrite Q3, length_app, length_replicate; lia).
  assert (length (task_ids q) = 16%nat) as Hl2
    by (rewrite Q4, length_app, length_fmap, length_replicate; lia).
  pose proof (co_index _ _ _ _ _ (so_core _ _ _ Hok)) as Hi.
  destruct (ready_slots tick s) as [|x l] eqn:Er.
  - destruct Hcase as (-> & Eq & Ei & _). split; [|done].
    apply (selection_keeps F K s); rewrite ?Ei, ?Eq; try done; rewrite Q2; lia.
  - destruct Hcase as (-> & Eq & Ei & _). destruct (selected_active _ _ _ _ Er) as (Hx & Hu & Hs).
    split; [|split; [done|]].
    + apply (selection_keeps F K s); rewrite ?Ei, ?Eq; try done;
        [apply Z.mod_pos_bound; lia|..]; cbn; rewrite Q2; lia.
    + destruct Hf as (q' & sl & st & -> & _). split; [lia|]. by split.
Qed.

Lemma run_pending_ok F K s :
  sched_ok F K s -> 0 < lock_depth s < 4294967295 -> scheduler_running_on_task_stack s = false ->
  wp (scheduler_run_pending_unlocked call_entry) (fun _ s' => exists K', sched_ran F K s s' K') s.
Proof using Hbodies HB.
  intros Hok Hd Hst. pose proof Hok as [Hc _ _ _]. apply wp_bind, wp_get.
  rewrite (co_init _ _ _ _ _ Hc). cbn [negb]. apply wp_bind, wp_get, wp_bind, wp_to_upd.
  apply (wake_sleeping_ok F K); [done|]. intros st1 Hc1 _. set (ts1 := wake_due _ <$> _) in *.
  apply wp_bind, wp_sstat, wp_bind.
  set (st2 := st1 <| scheduler_runs ::= incr |>). set (s2 := upd s ts1 st2 (sched_heap s)).
  assert (sched_ok F K s2) as Hok2.
  { eapply sched_ok_upd; [exact Hok|]. eapply core_stats; [| |exact Hc1]; done. }
  eapply wp_mono; [by apply (select_keeps F K)|]. intros r s3 (Hok3 & Hf & Hr).
  destruct Hf as (q & sl & st & E3 & _).
  assert (lock_kept s s3 /\ eflags s3 = eflags s /\ scheduler_running_on_task_stack s3 = false /\
          lock_depth s3 = lock_depth s /\ test_base s3 = test_base s) as (L3 & E4 & St3 & D3 & T3) by (subst s3; done).
  clear E3. destruct r as [i|]; [|apply wp_ret; exists K; constructor; [lia|done|done|done|done|done]].
  destruct Hr as (Hi & Hu & Hs). apply wp_to_upd, wp_bind, wp_upd_task, wp_bind, wp_sstat.
  eapply wp_mono; [apply (dispatch_ok F K s3 i _ (fun st => st <| task_dispatches ::= incr |>)); try done; by rewrite D3|].
  intros u s' (K' & [R1 R2 R3 R4 R5 R6]). exists K'. constructor; [done|done| |by rewrite <- E4|done|by rewrite R6].
  destruct L3, R3. constructor; congruence.
Qed.

(** ** Context switches *)

(** A switch to the task in slot [i] and back. *)
Lemma switch_ok F K s i (Q : unit -> sched_state H -> Prop) :
  sched_ok F K s -> (i < 16)%nat -> used (get_task s i) = true ->
  state (get_task s i) = SCHEDULER_TASK_ACTIVE -> 0 < lock_depth s < 4294967295 ->
  scheduler_current_switched_task s = TaskSlot i -> scheduler_running_on_task_stack s = true ->
  (forall s1 K' ts1 st1 h1 c, K <= K' <= K + B -> core F K' ts1 st1 h1 -> used (task_of ts1 i) = true ->
     state (task_of ts1 i) = SCHEDULER_TASK_RUNNING -> queue_shape s1 -> lock_kept s s1 ->
     eflags s1 = eflags s -> scheduler_current_running_task s1 = TaskNull -> test_base s1 = test_base s ->
     let ts' := alter (fun t => (returned_task t) <| context := c |>) i ts1 in
     forall st, next_task_id st = next_task_id st1 -> sched_initialized st = sched_initialized st1 ->
     current_task_index st = current_task_index st1 -> Q tt (upd s1 ts' st h1)) ->
  wp (scheduler_switch_to_task call_entry cpu_registers i) Q s.
Proof using Hbodies.
  intros Hok Hi Hu Hs Hd Hsw Hst HQ. unfold scheduler_switch_to_task.
  apply wp_bind, wp_get, wp_bind, wp_mod, wp_bind, wp_mod, wp_bind, wp_get.
  set (c := saved_context cpu_registers s). set (e := ctx_eflags (context (get_task s i))).
  set (s0 := s <| scheduler_main_context := c |> <| eflags := e |>).
  change (scheduler_current_switched_task s0) with (scheduler_current_switched_task s). rewrite Hsw.
  apply wp_bind, (trampoline_enter_ok F K); [by destruct Hok as [? [] ? ?]|done|done|done|done|].
  intros s1 K1 [P1 P2 P3 [L1 L2 L3] _ P6 P7 P8 P9].
  apply (exit_switched_ok F K1); [done|done|by rewrite P6|]. intros st S1 S2.
  apply wp_bind, wp_get.
  change (scheduler_running_on_task_stack (upd _ _ _ _)) with (scheduler_running_on_task_stack s1).
  rewrite P6. change (scheduler_running_on_task_stack s0) with (scheduler_running_on_task_stack s).
  rewrite Hst. cbn [negb]. apply wp_bind, wp_mod, wp_mod.
  destruct P2 as [C1 Q1 R1 W1], P3 as (_ & Hu1 & Hs1).
  set (s2 := s1 <| scheduler_current_running_task := TaskNull |>).
  set (c2 := saved_context _ _).
  lazymatch goal with |- Q tt ?s3 => change s3 with
    (upd (s2 <| eflags := ctx_eflags (scheduler_main_context s1) |>)
       (alter (fun t => t <| context := c2 |>) i (alter returned_task i (scheduler_tasks s1))) st (sched_heap s1)) end.
  rewrite list_alter_alter_eq. destruct S1. eapply HQ; try done; [by destruct Q1|]. cbn. by rewrite P7.
Qed.

Lemma run_switched_ok F K s tid :
  sched_ok F K s -> 0 < lock_depth s < 4294967295 -> scheduler_running_on_task_stack s = false ->
  wp (scheduler_run_task_with_context_switch_unlocked call_entry cpu_registers addr_switched_task_entry tid)
    (fun _ s' => exists K', sched_ran F K s s' K') s.
Proof using Hbodies HB.
  intros Hok Hd Hst. pose proof Hok as [Hc Hqs Hr Hsw]. apply wp_to_upd, wp_bind, wp_find_task.
  assert (wp (mret_ false) (fun _ s' => exists K', sched_ran F K s s' K')
    (upd s (scheduler_tasks s) (scheduler_stats s) (sched_heap s))) as Hno
    by (apply wp_ret; exists K; by apply ran_nothing).
  destruct (lookup_id (scheduler_tasks s) tid) as [i|] eqn:El; [|exact Hno].
  destruct (lookup_id_Some _ _ _ El) as (Hi & Hu & _). apply wp_bind, wp_task_at.
  destruct (state_is (state (task_of (scheduler_tasks s) i)) SCHEDULER_TASK_ACTIVE) eqn:Hs; cbn [negb]; [|exact Hno].
  apply bool_decide_eq_true in Hs. destruct (_ || _); [exact Hno|]. clear Hno.
  set (ts := scheduler_tasks s) in *. pose proof (tb_length _ _ _ _ _ (co_table _ _ _ _ _ Hc)) as Hlen.
  set (s1 := s <| scheduler_current_switched_task := TaskSlot i |>).
  apply wp_bind, wp_mod.
  lazymatch goal with |- wp _ _ ?s0 => change s0 with (upd s1 ts (scheduler_stats s) (sched_heap s)) end.
  apply wp_bind, wp_upd_task, wp_bind, wp_sstat, wp_bind, wp_get_ticks, wp_bind, wp_upd_task, wp_bind, wp_mod, wp_bind.
  rewrite list_alter_alter_eq. set (g := _ ∘ _). set (st := _ <| task_dispatches ::= incr |>).
  set (s2 := s1 <| scheduler_running_on_task_stack := true |>).
  lazymatch goal with |- wp _ _ ?s0 => change s0 with (upd s2 (alter g i ts) st (sched_heap s)) end.
  assert (core F K (alter g i ts) st (sched_heap s)) as Hc2.
  { eapply core_stats; [| |apply core_alter; [exact Hc|done]]; done. }
  assert (get_task (upd s2 (alter g i ts) st (sched_heap s)) i = g (task_of ts i)) as Et
    by (by apply task_of_alter).
  apply (switch_ok F K); [|done|by rewrite Et|by rewrite Et|done|done|done|].
  { constructor; [done|by destruct Hqs|done|by apply slot_pointer]. }
  intros s3 K' ts3 st3 h3 c HK Hc3 Hu3 Hs3 Q3 [L1 L2 L3] E3 R3 T3 ts4 st4 S1 S2 S3.
  apply wp_bind, wp_mod, wp_bind, wp_mod, wp_bind, wp_mod, wp_bind.
  set (s5 := s3 <| scheduler_running_on_task_stack := false |> <| scheduler_current_switched_task := TaskNull |>).
  set (st5 := st4 <| switched_returns ::= incr |>).
  lazymatch goal with |- wp _ _ ?s0 => change s0 with (upd s5 ts4 st5 h3) end.
  apply wp_task_at, wp_bind.
  assert (uncounted F K' ts3 st5 h3) as Hu5.
  { destruct Hc3 as [C1 C2 C3 C4]. constructor; [by eapply table_stats|cbn; congruence|cbn; congruence]. }
  apply (settle_ok F K'); [done|done|done|done|]. intros st' h' ts' Hun.
  apply wp_bind, wp_recalculate, wp_ret. exists K'. constructor; [done| |by constructor| |done|done].
  - constructor; [by apply recount_core|by destruct Q3|cbn; by rewrite R3|done].
  - intros _. cbn. by rewrite E3.
Qed.
End Run.
