(* ===== verification/SchedSafety.v ===== *)
(** * No sequence of scheduler operations panics

    The public functions of core/scheduler.c, at any nesting of the lock, keep the
    scheduler well formed and always return. A failed assertion ends in
    [kernel_panic], so returning means that no assertion fails. *)
From S2P Require Import Prelude KString KernelHeap Scheduler SchedQueue SchedTable SchedOps SchedSweep SchedRun.

Section Safety.
Context {H : Type} `{KernelHeapLaws H}.
Implicit Types (s : sched_state H) (ts : list scheduler_task_t) (st : scheduler_stats_t) (h : H).
Implicit Types (F : gset Z).

(** ** Between and inside public calls *)

(** The lock is free. *)
Record lock_idle s : Prop := {
  li_depth : lock_depth s = 0;
  li_saved : saved_flags (scheduler_lock_info s) = 0;
  li_locked : locked (scheduler_lock_info s) = false
}.

Record top_ok F K s : Prop := {
  to_sched : sched_ok F K s;
  to_lock : lock_idle s;
  to_stack : scheduler_running_on_task_stack s = false
}.

(** [d] locks are open, and [e] are the flags of the code outside the outermost
    one: with [d = 0] the lock is free, otherwise interrupts are off and [e] is what
    the outermost unlock restores. *)
Record at_lock F K (d e : Z) s : Prop := {
  al_sched : sched_ok F K s;
  al_depth : lock_depth s = d;
  al_saved : saved_flags (scheduler_lock_info s) = if d =? 0 then 0 else e;
  al_locked : locked (scheduler_lock_info s) = negb (d =? 0);
  al_flags : if d =? 0 then eflags s = e else Z.land (eflags s) FLAG_IF = 0;
  al_stack : scheduler_running_on_task_stack s = false
}.

(** Inside a public call made with the lock free. *)
Abbreviation held F K e s := (at_lock F K 1 e s).

Lemma top_at F K s : top_ok F K s -> at_lock F K 0 (eflags s) s.
Proof. intros [Hok [L1 L2 L3] Hst]. by constructor. Qed.

Lemma at_top F K e s : at_lock F K 0 e s -> top_ok F K s /\ eflags s = e.
Proof. intros [Hok L1 L2 L3 L4 Hst]. by split; [constructor; [done|constructor|done]|]. Qed.

Lemma sched_ok_relock F K s l e : sched_ok F K s -> sched_ok F K (relock s l e).
Proof. intros [C [] R W]. by constructor. Qed.

Lemma at_upd F K K' d e s ts st h : at_lock F K d e s -> core F K' ts st h -> at_lock F K' d e (upd s ts st h).
Proof. intros [H1' H2' H3' H4' H5' H6'] Hc. constructor; try done. by eapply sched_ok_upd. Qed.

Lemma lock_at F K d e s (Q : unit -> sched_state H -> Prop) :
  at_lock F K d e s -> 0 <= d < 4294967294 ->
  (forall l, let s1 := relock s l (interrupts_off (eflags s)) in at_lock F K (d + 1) e s1 -> Q tt s1) ->
  wp scheduler_lock Q s.
Proof.
  intros [Hok D1 D2 D3 D4 Hst] Hd HQ. apply lock_ok; [lia|]. intros l M1 M2 M3 _ _ _. apply HQ.
  unfold flags_to_restore in M2. rewrite D1 in *.
  constructor; rewrite ?(proj2 (Z.eqb_neq (d + 1) 0)) by lia; try done.
  - by apply sched_ok_relock.
  - change (saved_flags l = e). rewrite M2. destruct (Z.eqb_spec d 0); done.
  - apply interrupts_off_clear.
Qed.

Lemma unlock_at F K d e s (Q : unit -> sched_state H -> Prop) :
  at_lock F K (d + 1) e s -> 0 <= d < 4294967294 ->
  (forall l, let s1 := relock s l (if d =? 0 then e else eflags s) in at_lock F K d e s1 -> Q tt s1) ->
  wp scheduler_unlock Q s.
Proof.
  intros [Hok D1 D2 D3 D4 Hst] Hd HQ. rewrite (proj2 (Z.eqb_neq (d + 1) 0)) in * by lia.
  apply unlock_ok; [lia|]. rewrite D1, D2. replace (d + 1 =? 1) with (d =? 0)
    by (destruct (Z.eqb_spec d 0), (Z.eqb_spec (d + 1) 1); (done || lia)).
  intros l M1 M2 M3 _. apply HQ. constructor; [by apply sched_ok_relock|change (depth l = d); lia|done| | |done].
  - change (locked l = negb (d =? 0)). rewrite M3, D3. by destruct (d =? 0).
  - cbn. destruct (d =? 0); [done|exact D4].
Qed.

Lemma with_lock_at {A} (m : M (sched_state H) A) F K d e s (Q : A -> sched_state H -> Prop) :
  at_lock F K d e s -> 0 <= d < 4294967294 ->
  (forall l, let s1 := relock s l (interrupts_off (eflags s)) in at_lock F K (d + 1) e s1 ->
     wp m (fun r s2 => exists K', at_lock F K' (d + 1) e s2 /\
       forall l', let s3 := relock s2 l' (if d =? 0 then e else eflags s2) in
         at_lock F K' d e s3 -> Q r s3) s1) ->
  wp (with_lock m) Q s.
Proof.
  intros Hat Hd Hm. apply wp_bind, (lock_at F K d e); [done|done|]. intros l s1 Hat1. apply wp_bind.
  eapply wp_mono; [by apply Hm|]. intros r s2 (K' & Hat2 & HQ).
  apply wp_bind, (unlock_at F K' d e); [done|done|]. intros l' s3 Hat3. by apply wp_ret, HQ.
Qed.

(** The same from a free lock. *)
Lemma lock_top F K s (Q : unit -> sched_state H -> Prop) :
  top_ok F K s ->
  (forall l, let s1 := relock s l (interrupts_off (eflags s)) in held F K (eflags s) s1 -> Q tt s1) ->
  wp scheduler_lock Q s.
Proof. intros Htop HQ. apply (lock_at F K 0 (eflags s)); [by apply top_at|lia|exact HQ]. Qed.

Lemma unlock_top F K e s (Q : unit -> sched_state H -> Prop) :
  held F K e s -> (forall l, top_ok F K (relock s l e) -> Q tt (relock s l e)) ->
  wp scheduler_unlock Q s.
Proof.
  intros Hh HQ. apply (unlock_at F K 0 e); [exact Hh|lia|]. intros l s1 Hat.
  apply HQ. by destruct (at_top _ _ _ _ Hat).
Qed.

Lemma with_lock_top {A} (m : M (sched_state H) A) F K s (Q : A -> sched_state H -> Prop) :
  top_ok F K s ->
  (forall l, let s1 := relock s l (interrupts_off (eflags s)) in held F K (eflags s) s1 ->
     wp m (fun r s2 => exists K', held F K' (eflags s) s2 /\
       forall l', top_ok F K' (relock s2 l' (eflags s)) -> Q r (relock s2 l' (eflags s))) s1) ->
  wp (with_lock m) Q s.
Proof.
  intros Htop Hm. apply (with_lock_at m F K 0 (eflags s)); [by apply top_at|lia|]. intros l s1 Hat.
  eapply wp_mono; [by apply Hm|]. intros r s2 (K' & Hh & HQ). exists K'. split; [exact Hh|].
  intros l' s3 Hat3. apply HQ. by destruct (at_top _ _ _ _ Hat3).
Qed.

(** A task operation under the lock. *)
Lemma effect_held op p f tid F K d e s :
  has_effect op p f tid -> at_lock F K d e s ->
  wp op (fun r s' => r = fst (task_effect p (f (timer_ticks s)) (scheduler_tasks s) tid) /\
    at_lock F K d e s' /\ exists st h,
    s' = upd s (snd (task_effect p (f (timer_ticks s)) (scheduler_tasks s) tid)) st h) s.
Proof.
  intros Heff Hh. apply wp_to_upd. eapply Heff; [apply Hh|].
  destruct (task_effect p (f (timer_ticks s)) (scheduler_tasks s) tid) as [r ts'] eqn:Et. intros st' h' Hc.
  split; [done|]. split; [by eapply at_upd|]. by exists st', h'.
Qed.

Lemma sleep_zero tid s : scheduler_sleep_task_unlocked tid 0 s = Some (false, s).
Proof. unfold scheduler_sleep_task_unlocked, mbind_, scheduler_find_task_by_id_mutable, mget. by case_match. Qed.

Context (call_entry : Z -> M (sched_state H) unit).
Context (text_at_null : list Z).
Context (cpu_registers : sched_state H -> scheduler_context_t).
Context (addr_switched_task_entry addr_switch_test_entry addr_test_workload_task : Z).
Context (B : Z).

Lemma ran_at F K d e s s' K' : 0 < d -> at_lock F K d e s -> sched_ran B F K s s' K' -> at_lock F K' d e s'.
Proof.
  intros Hd [H1' H2' H3' H4' H5' H6'] [R1 R2 [L1 L2 L3] R4 R5 R6].
  rewrite (proj2 (Z.eqb_neq d 0)) in * by lia.
  constructor; rewrite ?(proj2 (Z.eqb_neq d 0)) by lia; try done; try congruence. by rewrite R4.
Qed.

(** The outcome of a call that leaves [d] locks open, may run a body and may
    create a task. *)
Definition op_post F K d e s s' : Prop :=
  exists K', K <= K' <= K + B + 1 /\ at_lock F K' d e s' /\ test_base s' = test_base s.

Lemma public_ok {A} (m : M (sched_state H) A) F K d e s :
  at_lock F K d e s -> 0 <= d < 4294967290 ->
  (forall s1, at_lock F K (d + 1) e s1 -> wp m (fun _ s2 => op_post F K (d + 1) e s1 s2) s1) ->
  wp (with_lock m) (fun _ s' => op_post F K d e s s') s.
Proof.
  intros Hat Hd Hm. apply (with_lock_at m F K d e); [done|lia|]. intros l s1 Hh. eapply wp_mono; [by apply Hm|].
  intros r s2 (K' & HK & Hh2 & Ht). exists K'. split; [done|]. intros l' s3 Ht3. by exists K'.
Qed.

Hypothesis HB : 0 <= B.
Hypothesis Hbodies : bodies_ok call_entry B.

Lemma op_post_same F K d e s s' : at_lock F K d e s' -> test_base s' = test_base s -> op_post F K d e s s'.
Proof using HB. intros ? ?. exists K. split; [lia|done]. Qed.

Lemma effect_public op p f tid F K d e s :
  has_effect op p f tid -> at_lock F K d e s -> 0 <= d < 4294967290 ->
  wp (with_lock op) (fun _ s' => op_post F K d e s s') s.
Proof using HB.
  intros Heff Hat Hd. apply public_ok; [done|done|]. intros s1 Hh. eapply wp_mono; [by eapply effect_held|].
  intros r s2 (_ & Hh2 & st & h & ->). by apply op_post_same.
Qed.

Lemma create_held F K d e s nm interval ent md :
  at_lock F K d e s ->
  wp (scheduler_create_task_internal_unlocked text_at_null nm interval ent md)
    (fun _ s' => op_post F K d e s s') s.
Proof using HB.
  intros Hh. apply wp_to_upd, (create_ok text_at_null F K); [apply Hh|..].
  - intros st' _ Hc. apply op_post_same; [by eapply at_upd|done].
  - intros i st' h' _ Hc. apply op_post_same; [by eapply at_upd|done].
  - intros i st' h' p _ _ _ t Hc. exists (K + 1). split; [lia|]. split; [by eapply at_upd|done].
Qed.

Lemma ran_public {A} (m : M (sched_state H) A) F K d e s :
  (forall s1, sched_ok F K s1 -> 0 < lock_depth s1 < 4294967295 ->
     scheduler_running_on_task_stack s1 = false ->
     wp m (fun _ s' => exists K', sched_ran B F K s1 s' K') s1) ->
  at_lock F K d e s -> 0 <= d < 4294967290 -> wp (with_lock m) (fun _ s' => op_post F K d e s s') s.
Proof using Type.
  intros Hm Hat Hd. apply public_ok; [done|done|]. intros s1 Hh. pose proof Hh as [H1' H2' _ _ _ H6'].
  eapply wp_mono; [apply Hm; [done|lia|done]|]. intros r s2 (K' & Hr). exists K'.
  split; [destruct Hr; lia|]. split; [eapply ran_at; [|exact Hh|exact Hr]; lia|by destruct Hr].
Qed.

Lemma clear_held F K d e s :
  at_lock F K d e s ->
  wp scheduler_clear_inactive_tasks_unlocked (fun _ s' => at_lock F K d e s' /\ test_base s' = test_base s) s.
Proof.
  intros Hh. apply (clear_inactive_ok F K); [apply Hh|]. intros st' s' Hok.
  destruct Hh. by split; [constructor|].
Qed.

Lemma wp_to_audit {A} (m : M (sched_state H) A) Q s :
  wp m Q (with_audit s (scheduler_audit_info s)) -> wp m Q s.
Proof. by destruct s. Qed.

Lemma audit_held F K d e s :
  at_lock F K d e s ->
  wp scheduler_audit_unlocked (fun _ s' => at_lock F K d e s' /\ test_base s' = test_base s) s.
Proof.
  intros Hh. apply wp_to_audit, sched_audit_ok; [apply Hh|]. intros a _.
  by destruct Hh as [[C [] R W] ? ? ? ? ?].
Qed.

Lemma repair_one_ok t : task_ok t -> task_ok (repair_one t) /\ used (repair_one t) = used t /\ id (repair_one t) = id t.
Proof.
  intros Hok. assert (kernel_stack_base t = 0 -> freed t = t) as Hf by (unfold freed; by intros ->).
  unfold repair_one. destruct (used t) eqn:Hu; cbn [negb].
  2:{ unfold task_ok in *. rewrite Hu in Hok. destruct Hok as [Hb0 Ht0].
      rewrite Hf by done. cbn. by rewrite Hu. }
  unfold task_ok in Hok. rewrite Hu in Hok. unfold is_broken, asleep_without_tick, task_ok.
  destruct (state t) eqn:Hs; eval_states; try done.
  1,2,5: destruct Hok as (H1' & H2' & H3' & H4');
    rewrite (proj2 (Z.eqb_neq (kernel_stack_base t) 0)), (proj2 (Z.eqb_neq (kernel_stack_top t) 0)),
      (proj2 (Z.eqb_neq (entry t) 0)) by lia; cbn [orb].
  4,5: destruct Hok as [Hb Ht]; rewrite Hf by done; by rewrite Hu, Hs.
  - by rewrite Hu, Hs.
  - by rewrite Hu, Hs.
  - destruct (wake_tick t =? 0); cbn; by rewrite Hu, ?Hs.
Qed.

Lemma ids_fmap (g : scheduler_task_t -> scheduler_task_t) ts :
  Forall (fun t => used (g t) = used t /\ id (g t) = id t) ts -> ids (g <$> ts) = ids ts.
Proof.
  induction 1 as [|t ts [E1 E2] _ IH]; [done|]. rewrite fmap_cons, !ids_cons, E1, E2, IH. done.
Qed.

(** Repairing a well-formed scheduler keeps it well formed. *)
Lemma repair_held F K d e s :
  at_lock F K d e s ->
  wp scheduler_repair_unlocked (fun _ s' => at_lock F K d e s' /\ test_base s' = test_base s) s.
Proof.
  intros Hh. pose proof Hh as [[[[Hlen Htok Hown (I1 & I2 & I3)] _ Hini Hidx] _ Hr Hsw] H2' H3' H4' H5' H6'].
  apply (repair_ok F); [done|done|]. intros st h a [S1 S2 S3 S4 S5 S6 S7] S8 Ho _.
  assert (Forall (fun t => task_ok (repair_one t) /\ used (repair_one t) = used t /\ id (repair_one t) = id t)
    (scheduler_tasks s)) as Hall by (eapply Forall_impl; [exact Htok|]; apply repair_one_ok).
  assert (ids (repair_one <$> scheduler_tasks s) = ids (scheduler_tasks s)) as Eids.
  { apply ids_fmap. eapply Forall_impl; [exact Hall|]. by intros t [_ ?]. }
  assert (core F K (repair_one <$> scheduler_tasks s) st h) as Hc.
  { constructor; [|by constructor|by rewrite S1|by rewrite S8].
    constructor; [by rewrite length_fmap| |done|].
    - apply Forall_fmap. eapply Forall_impl; [exact Hall|]. by intros t [? _].
    - unfold ids_ok. rewrite Eids, S2. done. }
  split; [|done]. constructor; try done. constructor; [done|constructor; cbn; (done || lia)|..]; cbn.
  - unfold fix_pointer, bad_pointer. by rewrite Hr.
  - unfold fix_pointer, bad_pointer. by rewrite Hsw.
Qed.

(** The timer interrupt. *)
Lemma timer_tick_ok F K d e s tick :
  at_lock F K d e s -> 0 <= d < 4294967290 ->
  wp (scheduler_on_timer_tick call_entry tick) (fun _ s' => op_post F K d e s s') s.
Proof using HB Hbodies.
  intros Hat Hd. pose proof Hat as [[Hc _ _ _] _ _ _ _ _]. apply wp_bind, wp_get.
  rewrite (co_init _ _ _ _ _ Hc). cbn [negb].
  assert (forall s3 K' d' f, at_lock F K' d' e s3 ->
    at_lock F K' d' e (s3 <| scheduler_preempt_test_info ::= f |>)) as Hpre.
  { intros s3 K' d' f [[C3 [] R3 W3] ? ? ? ? ?]. by constructor. }
  apply wp_bind, wp_mod. set (s0 := s <| scheduler_preempt_test_info ::= _ |>).
  apply wp_bind, (lock_at F K d e); [by apply Hpre|lia|]. intros l s1 Hh. apply wp_bind, wp_to_upd.
  apply (wake_sleeping_ok F K); [apply Hh|]. intros st2 Hc2 _. set (s2 := upd s1 _ _ _).
  assert (at_lock F K (d + 1) e s2 /\ test_base s2 = test_base s) as [Hh2 T2]
    by (split; [by eapply at_upd|done]).
  assert (forall s3 K', K <= K' <= K + B + 1 -> at_lock F K' (d + 1) e s3 -> test_base s3 = test_base s ->
    wp scheduler_unlock (fun _ s' => op_post F K d e s s') s3) as Hun.
  { intros s3 K' HK Hh3 T3. apply (unlock_at F K' d e); [done|lia|]. intros l' s4 Ht. by exists K'. }
  apply wp_bind, wp_get. destruct (negb (pt_enabled _)); [by apply (Hun _ K); [lia|..]|].
  destruct (in_timer_dispatch _).
  { apply wp_bind, wp_mod, (Hun _ K); [lia|by apply Hpre|done]. }
  destruct (_ <? _); [by apply (Hun _ K); [lia|..]|].
  apply wp_bind, wp_mod, wp_bind. set (s3 := s2 <| scheduler_preempt_test_info ::= _ |>).
  assert (at_lock F K (d + 1) e s3) as Hh3 by (by apply Hpre).
  eapply wp_mono; [apply (run_pending_ok call_entry B Hbodies HB F K);
    [apply Hh3|rewrite (al_depth _ _ _ _ _ Hh3); lia|apply Hh3]|].
  intros u s4 (K' & Hran). apply wp_bind, wp_mod, (Hun _ K'); [destruct Hran; lia| |].
  - apply Hpre. eapply ran_at; [|exact Hh3|exact Hran]. lia.
  - exact (rn_test _ _ _ _ _ _ Hran).
Qed.

(** ** Single calls *)

(** Updates of fields that no invariant mentions. *)
Definition unrelated (f : sched_state H -> sched_state H) : Prop :=
  forall F K d e s, at_lock F K d e s -> at_lock F K d e (f s) /\ test_base (f s) = test_base s.

Lemma unrelated_mod f F K d e s :
  unrelated f -> at_lock F K d e s -> wp (mmod f) (fun _ s' => op_post F K d e s s') s.
Proof using HB. intros Hf Hat. apply wp_mod. destruct (Hf F K d e s Hat). by apply op_post_same. Qed.


Lemma same_public {A} (m : M (sched_state H) A) F K d e s :
  (forall s1, at_lock F K (d + 1) e s1 ->
     wp m (fun _ s2 => at_lock F K (d + 1) e s2 /\ test_base s2 = test_base s1) s1) ->
  at_lock F K d e s -> 0 <= d < 4294967290 -> wp (with_lock m) (fun _ s' => op_post F K d e s s') s.
Proof using HB.
  intros Hm Hat Hd. apply public_ok; [done|done|]. intros s1 Hh. eapply wp_mono; [by apply Hm|].
  intros r s2 [? ?]. by apply op_post_same.
Qed.

Lemma preempt_public (m : M (sched_state H) unit) F K d e s :
  (forall s1, exists p, m s1 = Some (tt, s1 <| scheduler_preempt_test_info := p |>)) ->
  at_lock F K d e s -> 0 <= d < 4294967290 -> wp (with_lock m) (fun _ s' => op_post F K d e s s') s.
Proof using HB.
  intros Hm. apply same_public. intros s1 Hh. destruct (Hm s1) as [p E].
  eexists _, _. split; [exact E|]. destruct Hh as [[C [] R W] ? ? ? ? ?]. by split; [constructor|].
Qed.

Lemma sleep_held F K d e s tid ticks :
  at_lock F K d e s ->
  wp (scheduler_sleep_task_unlocked tid ticks) (fun _ s' => at_lock F K d e s' /\ test_base s' = test_base s) s.
Proof.
  intros Hat. destruct (decide (ticks = 0)) as [->|Hz]; [by eexists _, _; split; [apply sleep_zero|]|].
  eapply wp_mono; [by eapply effect_held; [by apply sleep_effect|]|]. intros r s2 (_ & Hh2 & st & h & ->). done.
Qed.

(** The [_status] calls. *)
Lemma status_public bad tid p (op : M (sched_state H) bool) F K d e s :
  (forall s1, at_lock F K (d + 1) e s1 ->
     wp op (fun _ s2 => at_lock F K (d + 1) e s2 /\ test_base s2 = test_base s1) s1) ->
  at_lock F K d e s -> 0 <= d < 4294967290 ->
  wp (task_op_status bad tid p op) (fun _ s' => op_post F K d e s s') s.
Proof using HB.
  intros Hop Hat Hd. unfold task_op_status. destruct bad; [by apply wp_ret, op_post_same|].
  apply wp_bind, wp_get. rewrite (co_init _ _ _ _ _ (so_core _ _ _ (al_sched _ _ _ _ _ Hat))). cbn [negb].
  apply wp_bind, (lock_at F K d e); [done|lia|]. intros l s1 Hh. apply wp_bind, wp_get.
  assert (forall s2 (c : Z), at_lock F K (d + 1) e s2 -> test_base s2 = test_base s1 ->
    wp (scheduler_unlock ;;; mret_ c) (fun _ s' => op_post F K d e s s') s2) as Hret.
  { intros s2 c Hh2 T2. apply wp_bind, (unlock_at F K d e); [done|lia|]. intros l' s3 Ht. apply wp_ret.
    by apply op_post_same. }
  destruct (find_first _ _) as [i|]; [|by apply Hret]. apply wp_bind, wp_get.
  destruct (negb (p _)); [by apply Hret|]. apply wp_bind. eapply wp_mono; [by apply Hop|].
  intros r s2 [Hh2 T2]. by apply Hret.
Qed.

Lemma create_status_public has bad (m : M (sched_state H) (option Z)) F K d e s :
  wp m (fun _ s' => op_post F K d e s s') s -> at_lock F K d e s ->
  wp (create_status has bad m) (fun _ s' => op_post F K d e s s') s.
Proof using HB.
  intros Hm Hat. unfold create_status. destruct has; cbn [negb]; [|by apply wp_ret, op_post_same].
  apply wp_bind, wp_get. destruct (negb _); [by apply wp_ret, op_post_same|].
  destruct bad; [by apply wp_ret, op_post_same|]. apply wp_bind. eapply wp_mono; [exact Hm|].
  intros r s' Hp. by destruct (result_is_negative r); apply wp_ret.
Qed.

Lemma lock_mod_at f F K d e s :
  (forall l, depth (f l) = depth l /\ saved_flags (f l) = saved_flags l /\ locked (f l) = locked l) ->
  at_lock F K d e s ->
  at_lock F K d e (s <| scheduler_lock_info ::= f |>) /\ test_base (s <| scheduler_lock_info ::= f |>) = test_base s.
Proof.
  intros Hf [[C [] R W] D1 D2 D3 D4 D5]. destruct (Hf (scheduler_lock_info s)) as (E1 & E2 & E3).
  unfold lock_depth in *. split; [|done]. constructor; unfold lock_depth; cbn; rewrite ?E1, ?E2, ?E3; try done.
Qed.
Lemma lock_test_ok F K d e s :
  at_lock F K d e s -> 0 <= d < 4294967290 -> wp scheduler_run_lock_test (fun _ s' => op_post F K d e s s') s.
Proof using HB.
  intros Hat Hd. apply wp_bind, wp_get, wp_bind, wp_mod.
  destruct (lock_mod_at (fun l => l <| test_runs ::= incr |>) F K d e s ltac:(done) Hat) as [Hat0 _].
  apply wp_bind, (lock_at F K d e); [done|lia|]. intros l1 s1 Hat1. apply wp_bind, wp_get, wp_bind, wp_get.
  apply wp_bind, (lock_at F K (d + 1) e); [done|lia|]. intros l2 s2 Hat2. apply wp_bind, wp_get.
  apply wp_bind, (unlock_at F K (d + 1) e); [done|lia|]. intros l3 s3 Hat3. apply wp_bind, wp_get.
  apply wp_bind, (unlock_at F K d e); [done|lia|]. intros l4 s4 Hat4. apply wp_bind, wp_get, wp_bind, wp_mod, wp_ret.
  destruct (lock_mod_at (fun l => l <| interrupts_enabled_now := irq_are_enabled s4 |>) F K d e s4 ltac:(done) Hat4).
  by apply op_post_same.
Qed.

Lemma yield_current_ok F K d e s :
  at_lock F K d e s -> wp scheduler_yield_current_task (fun _ s' => op_post F K d e s s') s.
Proof using HB.
  intros Hat. apply wp_bind, wp_get.
  destruct (scheduler_current_running_task s) as [|i|p] eqn:Er.
  - apply wp_bind, wp_to_upd, wp_sstat, wp_ret. apply op_post_same; [|done]. eapply at_upd; [exact Hat|].
    eapply core_stats; [| |apply Hat]; done.
  - apply wp_bind, wp_get. eapply wp_mono; [by eapply effect_held; [apply yield_effect|]|].
    intros r s2 (_ & Hh2 & st & h & ->). by apply op_post_same.
  - pose proof (so_running _ _ _ (al_sched _ _ _ _ _ Hat)) as Hr. by rewrite Er in Hr.
Qed.

Lemma self_test_ok F K d e s :
  at_lock F K d e s -> wp scheduler_run_context_self_test (fun _ s' => op_post F K d e s s') s.
Proof using HB.
  intros Hat. apply wp_bind, wp_get. destruct (negb _); [by apply wp_ret, op_post_same|].
  apply wp_bind, wp_to_upd, wp_sstat, wp_ret. apply op_post_same; [|done]. eapply at_upd; [exact Hat|].
  eapply core_stats; [| |apply Hat]; done.
Qed.

Lemma workload_create_ok F K d e s :
  at_lock F K d e s -> 0 <= d < 4294967290 ->
  wp (scheduler_create_test_workload text_at_null addr_test_workload_task) (fun _ s' => op_post F K d e s s') s.
Proof using HB.
  intros Hat Hd. apply wp_bind, wp_get, wp_bind.
  assert (wp (mret_ tt) (fun _ s' => op_post F K d e s s') s /\
    wp (task_id <- scheduler_create_kernel_task text_at_null (Some workload_name) 100 addr_test_workload_task ;;
        match task_id with
        | Some v => mwhen ((0 <? v) && (v <? 0x80000000)) (mmod (fun s => s <| test_workload_task_id := v |>))
        | None => mret_ tt
        end) (fun _ s' => op_post F K d e s s') s) as [Hno Hyes].
  { split; [by apply wp_ret, op_post_same|]. apply wp_bind.
    eapply wp_mono; [apply public_ok; [exact Hat|done|]; intros s1; apply create_held|].
    intros r s1 Hp. destruct r as [v|]; [|by apply wp_ret]. destruct ((0 <? v) && (v <? 0x80000000)); cbn [mwhen]; [|by apply wp_ret].
    apply wp_mod. destruct Hp as (K' & HK & [[C [] R W] ? ? ? ? ?] & Ht). exists K'. split; [done|]. by split; [constructor|]. }
  destruct (negb _); [|by apply wp_ret]. apply wp_bind, wp_get.
  destruct (find_first _ _) as [i|]; [|by apply wp_ret]. apply wp_bind, wp_get, wp_ret.
  by destruct (state_is _ _).
Qed.

Lemma workload_disable_ok F K d e s :
  at_lock F K d e s -> 0 <= d < 4294967290 ->
  wp scheduler_disable_test_workload (fun _ s' => op_post F K d e s s') s.
Proof using HB.
  intros Hat Hd. apply wp_bind, wp_get. destruct (_ =? 0); [by apply wp_ret, op_post_same|]. apply wp_bind.
  eapply wp_mono; [by eapply effect_public; [apply disable_effect|..]|]. intros r s1 Hp. apply wp_mod.
  destruct Hp as (K' & HK & [[C [] R W] ? ? ? ? ?] & Ht). exists K'. split; [done|]. by split; [constructor|].
Qed.

Lemma workload_active_ok F K d e s :
  at_lock F K d e s -> wp scheduler_is_test_workload_active (fun _ s' => op_post F K d e s s') s.
Proof using HB.
  intros Hat. apply wp_bind, wp_get. destruct (_ =? 0); [by apply wp_ret, op_post_same|].
  apply wp_bind, wp_get. destruct (find_first _ _) as [i|]; [|by apply wp_ret, op_post_same].
  by apply wp_bind, wp_get, wp_ret, op_post_same.
Qed.

(** ** The context-switch test *)

(** The test owns a heap block of its own, once it allocated one. *)
Definition test_frame (b : Z) : gset Z := if b =? 0 then ∅ else {[b]}.

Record sched_open_ok F K d e s : Prop := {
  oo_at : at_lock (test_frame (test_base s) ∪ F) K d e s;
  oo_fresh : test_base s <> 0 -> test_base s ∉ F;
  oo_room : (size F + 17 <= kh_room)%nat
}.

Definition sched_open_post F K d e s' : Prop := exists K', K <= K' <= K + B + 1 /\ sched_open_ok F K' d e s'.

Lemma op_post_open F K d d' e s s' :
  sched_open_ok F K d e s -> op_post (test_frame (test_base s) ∪ F) K d' e s s' -> sched_open_post F K d' e s'.
Proof.
  intros [_ Hf Hr] (K' & HK & Hat & Ht). exists K'. split; [done|]. rewrite <- Ht in *. by constructor.
Qed.

Lemma core_reframe F F' K ts st h h' : core F K ts st h -> owned F' ts h' -> core F' K ts st h'.
Proof. intros [[T1 T2 T3 T4] C2 C3 C4] Ho. by constructor. Qed.

(** The part of the state that the switch test changes, flags apart. *)
Definition retest s st r c i (h : H) : sched_state H :=
  s <| scheduler_stats := st |> <| switch_test_return_context := r |> <| switch_test_context := c |>
    <| switch_test_info := i |> <| sched_heap := h |>.

Lemma at_retest F F' K d e s st r c i h :
  at_lock F K d e s -> core F' K (scheduler_tasks s) st h -> at_lock F' K d e (retest s st r c i h).
Proof. intros [[C [] R W] ? ? ? ? ?] Hc. by constructor. Qed.

Lemma open_retest F K d e s st r c i :
  sched_open_ok F K d e s -> stats_kept (scheduler_stats s) st ->
  current_task_index st = current_task_index (scheduler_stats s) -> test_stack_base i = test_base s ->
  sched_open_ok F K d e (retest s st r c i (sched_heap s)).
Proof.
  intros [Hat Hf Hr] Hk Hi Ht. unfold test_base in Ht. constructor.
  - change (test_base (retest s st r c i (sched_heap s))) with (test_stack_base i). rewrite Ht.
    eapply at_retest; [exact Hat|]. eapply core_stats; [exact Hk|exact Hi|]. apply Hat.
  - change (test_base (retest s st r c i (sched_heap s))) with (test_stack_base i). rewrite Ht. exact Hf.
  - exact Hr.
Qed.

Lemma test_frame_none s F : test_base s = 0 -> test_frame (test_base s) ∪ F = F.
Proof. intros ->. apply union_empty_l_L. Qed.

(** Allocating the stack of the test, when it has none. *)
Lemma test_stack_ok F K d e s (Q : Z -> sched_state H -> Prop) :
  sched_open_ok F K d e s -> test_base s = 0 ->
  (forall h, sched_open_ok F K d e (s <| sched_heap := h |>) -> Q 0 (s <| sched_heap := h |>)) ->
  (forall p h, 0 < p -> (forall i, test_stack_base i = p ->
     sched_open_ok F K d e (s <| sched_heap := h |> <| switch_test_info := i |>)) -> Q p (s <| sched_heap := h |>)) ->
  wp (on_heap (heap_kmalloc SCHEDULER_KERNEL_STACK_SIZE)) Q s.
Proof.
  intros [Hat Hf Hr] E0 HQ0 HQ1. rewrite (test_frame_none _ _ E0) in Hat.
  pose proof (al_sched _ _ _ _ _ Hat) as [Hc _ _ _].
  pose proof (tb_owned _ _ _ _ _ (co_table _ _ _ _ _ Hc)) as Ho. pose proof Ho as [O1 O2 O3 O4].
  pose proof (live_size _ _ _ Ho). pose proof (length_stacks (scheduler_tasks s)) as Hsl.
  rewrite (tb_length _ _ _ _ _ (co_table _ _ _ _ _ Hc)) in Hsl.
  apply wp_to_upd, wp_on_heap. eapply wp_mono; [eapply kh_malloc_ok; [exact O3|lia|done]|].
  intros p h' [[-> Hl]|(Hp & _ & Hnew & Hl)].
  - apply HQ0. constructor; [|exact Hf|exact Hr]. unfold test_base in E0 |- *.
    eapply (at_retest F _ K d e s); [exact Hat|]. cbn. rewrite E0. cbn.
    eapply core_reframe; [exact Hc|]. constructor; try done; rewrite union_empty_l_L; done.
  - apply HQ1; [done|]. intros i Hi. constructor.
    + eapply (at_retest F _ K d e s); [exact Hat|]. eapply core_reframe; [exact Hc|].
      unfold test_base, test_frame. cbn. rewrite Hi, (proj2 (Z.eqb_neq _ _)) by lia.
      constructor; [done| | |].
      * set_solver.
      * replace (list_to_set (stacks (scheduler_tasks s)) ∪ ({[p]} ∪ F))
          with ({[p]} ∪ (list_to_set (stacks (scheduler_tasks s)) ∪ F)); [exact Hl|]. set_solver.
      * rewrite size_union by set_solver. rewrite size_singleton. lia.
    + intros _. unfold test_base. cbn. rewrite Hi. set_solver.
    + exact Hr.
Qed.

Lemma ensure_stack_ok F K d e s :
  sched_open_ok F K d e s -> wp scheduler_ensure_switch_test_stack (fun _ s' => sched_open_ok F K d e s') s.
Proof.
  intros Hop. apply wp_bind, wp_get. fold (test_base s).
  destruct (Z.eqb_spec (test_base s) 0) as [E0|E0]; cbn [negb].
  - apply wp_bind, (test_stack_ok F K d e); [done|done|..].
    + intros h Hop'. cbn [Z.eqb]. apply wp_bind, wp_mod, wp_ret.
      eapply (open_retest F K d e (s <| sched_heap := h |>)); [exact Hop'|by constructor|done|done].
    + intros p h Hp Hop'. rewrite (proj2 (Z.eqb_neq _ _)) by lia. apply wp_bind, wp_mod, wp_ret.
      by apply Hop'.
  - apply wp_bind, wp_mod, wp_ret. eapply (open_retest F K d e s); [exact Hop|by constructor|done|done].
Qed.

(** A state during the switch test: it would be well formed with the flags [f]. *)
Definition testing F K d e f s1 : Prop := sched_open_ok F K d e (s1 <| eflags := f |>).

Lemma testing_mod g F K d e f s1 (Q : unit -> sched_state H -> Prop) :
  testing F K d e f s1 -> (testing F K d e f s1 -> testing F K d e f (g s1)) ->
  (forall s2, s2 = g s1 -> testing F K d e f s2 -> Q tt s2) -> wp (mmod g) Q s1.
Proof. intros Ht Hg HQ. apply wp_mod, HQ; [done|auto]. Qed.

Lemma testing_id F K d e f s1 : eflags s1 = f -> testing F K d e f s1 <-> sched_open_ok F K d e s1.
Proof. intros <-. unfold testing. by replace (s1 <| eflags := eflags s1 |>) with s1 by by destruct s1. Qed.

Ltac testing_step :=
  let Ht := fresh in
  intros Ht; lazymatch type of Ht with testing ?F ?K ?d ?e ?f ?s1 =>
    lazymatch goal with |- testing _ _ _ _ _ ?x =>
      change (sched_open_ok F K d e (retest (s1 <| eflags := f |>) (scheduler_stats x) (switch_test_return_context x)
        (switch_test_context x) (switch_test_info x) (sched_heap (s1 <| eflags := f |>)))) end end;
  apply open_retest; [exact Ht|by constructor|done|done].

Lemma switch_test_ok F K d e s :
  sched_open_ok F K d e s ->
  wp (scheduler_run_switch_test cpu_registers addr_switch_test_entry) (fun _ s' => sched_open_ok F K d e s') s.
Proof.
  intros Hop. apply wp_bind, wp_get. destruct (negb _); [by apply wp_ret|].
  apply wp_bind. eapply wp_mono; [by apply ensure_stack_ok|]. clear s Hop. intros ok s Hop.
  destruct ok; cbn [negb]; [|by apply wp_ret]. pose proof (proj2 (testing_id F K d e (eflags s) s eq_refl) Hop) as T0.
  apply wp_bind, (testing_mod _ F K d e (eflags s)); [done|testing_step|]. intros s1 E1 T1.
  apply wp_bind, (testing_mod _ F K d e (eflags s)); [done|testing_step|]. intros s2 E2 T2.
  apply wp_bind, (testing_mod _ F K d e (eflags s)); [done|testing_step|]. intros s3 E3 T3.
  apply wp_bind, (testing_mod _ F K d e (eflags s)); [done|testing_step|]. intros s4 E4 T4.
  assert (eflags s4 = eflags s) as F4 by (by rewrite E4, E3, E2, E1). clear E1 E2 E3 E4.
  apply wp_bind, (testing_mod _ F K d e (eflags s)); [done|testing_step|]. intros s5 E5 T5.
  apply wp_bind, (testing_mod _ F K d e (eflags s)); [done|testing_step|]. intros s6 E6 T6.
  apply wp_bind, wp_bind, (testing_mod _ F K d e (eflags s)); [done|testing_step|]. intros s7 E7 T7.
  apply wp_bind, (testing_mod _ F K d e (eflags s)); [done|testing_step|]. intros s8 E8 T8.
  assert (ctx_eflags (switch_test_return_context s8) = eflags s) as F8.
  { rewrite E8, E7, E6, E5. exact F4. }
  apply (testing_mod _ F K d e (eflags s)); [done|testing_step|]. intros s9 E9 T9.
  apply wp_bind, (testing_mod _ F K d e (eflags s)); [done|testing_step|]. intros s10 E10 T10.
  assert (eflags s10 = eflags s) as F10 by (by rewrite E10, E9). clear E5 E6 E7 E8 E9 E10.
  apply wp_bind, wp_get. destruct (negb _); apply wp_bind, (testing_mod _ F K d e (eflags s)); try done; try testing_step;
    intros s11 E11 T11; apply wp_ret, (testing_id F K d e (eflags s)); try done; by rewrite E11.
Qed.

Lemma reset_switch_test_ok F K d e s :
  sched_open_ok F K d e s -> wp scheduler_reset_switch_test (fun _ s' => sched_open_ok F K d e s') s.
Proof.
  intros [Hat Hf Hr]. apply wp_bind, wp_get, wp_bind. fold (test_base s).
  pose proof (al_sched _ _ _ _ _ Hat) as [Hc _ _ _].
  assert (forall h, owned F (scheduler_tasks s) h ->
    wp (mmod (fun s => s <| switch_test_return_context := scheduler_clear_context |>
        <| switch_test_context := scheduler_clear_context |>
        <| switch_test_info := scheduler_clear_switch_test_info |>)) (fun _ s' => sched_open_ok F K d e s')
      (s <| sched_heap := h |>)) as Hend.
  { intros h Ho. apply wp_mod. constructor; [|done|exact Hr].
    eapply at_retest; [exact Hat|]. change (test_frame _) with (∅ : gset Z). rewrite union_empty_l_L.
    by eapply core_reframe. }
  pose proof (tb_owned _ _ _ _ _ (co_table _ _ _ _ _ Hc)) as Ho. pose proof Ho as [O1 O2 O3 O4].
  destruct (Z.eqb_spec (test_base s) 0) as [E0|E0]; cbn [negb mwhen].
  - apply wp_ret. rewrite (test_frame_none _ _ E0) in Ho.
    replace s with (s <| sched_heap := sched_heap s |>) by by destruct s. by apply Hend.
  - unfold test_frame in *. rewrite (proj2 (Z.eqb_neq _ _)) in * by done.
    pose proof (live_size _ _ _ Ho). pose proof (length_stacks (scheduler_tasks s)) as Hsl.
    rewrite (tb_length _ _ _ _ _ (co_table _ _ _ _ _ Hc)) in Hsl.
    apply wp_to_upd, wp_on_heap. eapply wp_mono; [eapply kh_free_ok; [exact O3|lia|set_solver]|].
    intros u h Hl. apply Hend. constructor; [done|set_solver| |lia].
    replace (list_to_set (stacks (scheduler_tasks s)) ∪ F) with
      ((list_to_set (stacks (scheduler_tasks s)) ∪ ({[test_base s]} ∪ F)) ∖ {[test_base s]}); [exact Hl|].
    assert (test_base s ∉ stacks (scheduler_tasks s)) by (intros Hin; apply (O2 _ Hin); set_solver).
    specialize (Hf E0). set_solver.
Qed.

(** ** Sequences of operations *)

(** The public functions of scheduler.h that change its state, and the timer
    driver advancing the tick count. *)
Inductive sched_op :=
| OpCreate (nm : option (list Z)) (interval ent : Z)
| OpCreateOneshot (nm : option (list Z)) (ent : Z)
| OpCreateStatus (nm : option (list Z)) (interval ent : Z) (has_task_id : bool)
| OpCreateOneshotStatus (nm : option (list Z)) (ent : Z) (has_task_id : bool)
| OpDisable (tid : Z) | OpSleep (tid ticks : Z) | OpWake (tid : Z) | OpYield (tid : Z) | OpYieldCurrent
| OpDisableStatus (tid : Z) | OpSleepStatus (tid ticks : Z) | OpWakeStatus (tid : Z) | OpYieldStatus (tid : Z)
| OpRunNow (tid : Z) | OpRunSwitched (tid : Z) | OpRunPending
| OpTimerTick (tick : Z) | OpAdvance (ticks : Z)
| OpClearInactive | OpAudit | OpRepair
| OpEnablePreempt (interval : Z) | OpDisablePreempt | OpResetPreempt
| OpLock | OpUnlock | OpLockTest | OpGetLockInfo
| OpContextSelfTest | OpSwitchTest | OpResetSwitchTest
| OpCreateWorkload | OpDisableWorkload | OpResetWorkloadCounter | OpIsWorkloadActive.

Definition run_op (o : sched_op) : M (sched_state H) unit :=
  match o with
  | OpCreate nm interval ent => scheduler_create_kernel_task text_at_null nm interval ent ;;; mret_ tt
  | OpCreateOneshot nm ent => scheduler_create_oneshot_kernel_task text_at_null nm ent ;;; mret_ tt
  | OpCreateStatus nm interval ent has_task_id =>
      scheduler_create_kernel_task_status text_at_null nm interval ent has_task_id ;;; mret_ tt
  | OpCreateOneshotStatus nm ent has_task_id =>
      scheduler_create_oneshot_kernel_task_status text_at_null nm ent has_task_id ;;; mret_ tt
  | OpDisable tid => scheduler_disable_task tid ;;; mret_ tt
  | OpSleep tid ticks => scheduler_sleep_task tid ticks ;;; mret_ tt
  | OpWake tid => scheduler_wake_task tid ;;; mret_ tt
  | OpYield tid => scheduler_yield_task tid ;;; mret_ tt
  | OpYieldCurrent => scheduler_yield_current_task ;;; mret_ tt
  | OpDisableStatus tid => scheduler_disable_task_status tid ;;; mret_ tt
  | OpSleepStatus tid ticks => scheduler_sleep_task_status tid ticks ;;; mret_ tt
  | OpWakeStatus tid => scheduler_wake_task_status tid ;;; mret_ tt
  | OpYieldStatus tid => scheduler_yield_task_status tid ;;; mret_ tt
  | OpRunNow tid => scheduler_run_task_now call_entry tid ;;; mret_ tt
  | OpRunSwitched tid =>
      scheduler_run_task_with_context_switch call_entry cpu_registers addr_switched_task_entry tid ;;; mret_ tt
  | OpRunPending => scheduler_run_pending call_entry
  | OpTimerTick tick => scheduler_on_timer_tick call_entry tick
  | OpAdvance ticks => mmod (fun s => s <| timer_ticks := ticks |>)
  | OpClearInactive => scheduler_clear_inactive_tasks ;;; mret_ tt
  | OpAudit => scheduler_audit ;;; mret_ tt
  | OpRepair => scheduler_repair ;;; mret_ tt
  | OpEnablePreempt interval => scheduler_enable_preempt_test interval
  | OpDisablePreempt => scheduler_disable_preempt_test
  | OpResetPreempt => scheduler_reset_preempt_test
  | OpLock => scheduler_lock
  | OpUnlock => scheduler_unlock
  | OpLockTest => scheduler_run_lock_test ;;; mret_ tt
  | OpGetLockInfo => scheduler_get_lock_info ;;; mret_ tt
  | OpContextSelfTest => scheduler_run_context_self_test ;;; mret_ tt
  | OpSwitchTest => scheduler_run_switch_test cpu_registers addr_switch_test_entry ;;; mret_ tt
  | OpResetSwitchTest => scheduler_reset_switch_test
  | OpCreateWorkload => scheduler_create_test_workload text_at_null addr_test_workload_task
  | OpDisableWorkload => scheduler_disable_test_workload
  | OpResetWorkloadCounter => scheduler_reset_test_workload_counter
  | OpIsWorkloadActive => scheduler_is_test_workload_active ;;; mret_ tt
  end.

(** The number of open locks after a call, starting from [d]; [None] for an unlock
    that no lock precedes, which fails an assertion. *)
Definition op_depth (d : Z) (o : sched_op) : option Z :=
  match o with
  | OpLock => Some (d + 1)
  | OpUnlock => if d =? 0 then None else Some (d - 1)
  | _ => Some d
  end.

Fixpoint ops_depth (d : Z) (ops : list sched_op) : option Z :=
  match ops with [] => Some d | o :: ops' => d' ← op_depth d o; ops_depth d' ops' end.

Lemma wp_tt {A} (m : M (sched_state H) A) (P : sched_state H -> Prop) s :
  wp m (fun _ s' => P s') s -> wp (m ;;; mret_ tt) (fun _ s' => P s') s.
Proof. intros Hm. apply wp_bind. eapply wp_mono; [exact Hm|]. intros a s' Hp. by apply wp_ret. Qed.

(** The calls that keep the depth of the lock and leave the switch test alone. *)
Lemma op_ok o F K d e s :
  at_lock F K d e s -> 0 <= d < 4294967290 ->
  (forall m, m = o -> match m with OpLock | OpUnlock | OpSwitchTest | OpResetSwitchTest => False | _ => True end) ->
  wp (run_op o) (fun _ s' => op_post F K d e s s') s.
Proof using HB Hbodies.
  intros Hat Hd Ho. assert (forall op p f tid, has_effect op p f tid -> forall s1, at_lock F K (d + 1) e s1 ->
    wp op (fun _ s2 => at_lock F K (d + 1) e s2 /\ test_base s2 = test_base s1) s1) as Heff.
  { intros op p f tid He s1 Hh. eapply wp_mono; [by eapply effect_held|]. by intros r s2 (_ & Hh2 & st & h & ->). }
  assert (forall nm i ent md, wp (with_lock (scheduler_create_task_internal_unlocked text_at_null nm i ent md))
    (fun _ s' => op_post F K d e s s') s) as Hcr.
  { intros. apply public_ok; [done|done|]. intros s1. apply create_held. }
  destruct o; cbn [run_op]; try (by destruct (Ho _ eq_refl));
    lazymatch goal with |- wp (_ ;;; mret_ tt) _ _ => apply (wp_tt _ (op_post F K d e s)) | _ => idtac end.
  - apply Hcr.
  - apply Hcr.
  - by apply create_status_public.
  - by apply create_status_public.
  - eapply effect_public; [apply disable_effect|done|done].
  - apply same_public; [|done|done]. intros s1. apply sleep_held.
  - eapply effect_public; [apply wake_effect|done|done].
  - eapply effect_public; [apply yield_effect|done|done].
  - by apply yield_current_ok.
  - apply status_public; [|done|done]. eapply Heff, disable_effect.
  - apply status_public; [|done|done]. intros s1. apply sleep_held.
  - apply status_public; [|done|done]. eapply Heff, wake_effect.
  - apply status_public; [|done|done]. eapply Heff, yield_effect.
  - apply ran_public; [|done|done]. intros s1. by apply run_now_ok.
  - apply ran_public; [|done|done]. intros s1. by apply run_switched_ok.
  - apply ran_public; [|done|done]. intros s1. by apply run_pending_ok.
  - by apply timer_tick_ok.
  - apply unrelated_mod; [|done]. intros F' K' d' e' s' [[C [] R W] ? ? ? ? ?]. by split; [constructor|].
  - apply same_public; [|done|done]. intros s1. apply clear_held.
  - apply same_public; [|done|done]. intros s1. apply audit_held.
  - apply same_public; [|done|done]. intros s1. apply repair_held.
  - apply preempt_public; [|done|done]. intros s1. eexists. reflexivity.
  - apply preempt_public; [|done|done]. intros s1. eexists. reflexivity.
  - apply preempt_public; [|done|done]. intros s1. unfold mbind_, mget, preempt_mod, mmod, timer_get_ticks. cbn.
    destruct (pt_enabled _); eexists; reflexivity.
  - by apply lock_test_ok.
  - apply wp_bind. eapply wp_mono; [apply unrelated_mod; [|exact Hat]|intros u s' Hp; by apply wp_get].
    intros F' K' d' e' s' Hat'. by apply (lock_mod_at _ F' K' d' e' s').
  - by apply self_test_ok.
  - by apply workload_create_ok.
  - by apply workload_disable_ok.
  - apply unrelated_mod; [|done]. intros F' K' d' e' s' [[C [] R W] ? ? ? ? ?]. by split; [constructor|].
  - by apply workload_active_ok.
Qed.

Lemma op_open o F K d d' e s :
  sched_open_ok F K d e s -> 0 <= d < 4294967290 -> op_depth d o = Some d' ->
  wp (run_op o) (fun _ s' => sched_open_post F K d' e s') s.
Proof using HB Hbodies.
  intros Hop Hd Hdep. pose proof (oo_at _ _ _ _ _ Hop) as Hat.
  assert (Hkeep : forall s', sched_open_ok F K d e s' -> sched_open_post F K d e s')
    by (intros s' Hs'; exists K; split; [lia|done]).
  assert (Hrest : (forall m, m = o -> match m with OpLock | OpUnlock | OpSwitchTest | OpResetSwitchTest => False | _ => True end) ->
    d' = d -> wp (run_op o) (fun _ s' => sched_open_post F K d' e s') s).
  { intros Ho ->. eapply wp_mono; [by apply op_ok|]. intros u s'. by apply (op_post_open F K d). }
  destruct o; try (injection Hdep as <-; apply Hrest; [by intros ? ->|done]); clear Hrest; cbn in Hdep |- *.
  - injection Hdep as <-. apply (lock_at (test_frame (test_base s) ∪ F) K d e); [done|lia|]. intros l s1 Hat1.
    eapply (op_post_open F K d); [exact Hop|by apply op_post_same].
  - destruct (Z.eqb_spec d 0); [done|]. injection Hdep as <-.
    apply (unlock_at (test_frame (test_base s) ∪ F) K (d - 1) e); [by rewrite Z.sub_add|lia|]. intros l s1 Hat1.
    eapply (op_post_open F K d); [exact Hop|by apply op_post_same].
  - injection Hdep as <-. apply (wp_tt _ (sched_open_post F K d e)). eapply wp_mono; [by apply switch_test_ok|]. auto.
  - injection Hdep as <-. eapply wp_mono; [by apply reset_switch_test_ok|]. auto.
Qed.

Lemma op_depth_range o d d' : 0 <= d -> op_depth d o = Some d' -> 0 <= d' <= d + 1.
Proof. intros Hd. destruct o; cbn; try destruct (Z.eqb_spec d 0); intros [= <-]; lia. Qed.

Lemma ops_ok ops F K d d' e s :
  sched_open_ok F K d e s -> 0 <= d -> d + Z.of_nat (length ops) < 4294967290 -> ops_depth d ops = Some d' ->
  wp (mfor ops run_op) (fun _ s' => exists K', K <= K' <= K + (B + 1) * Z.of_nat (length ops) /\
    sched_open_ok F K' d' e s') s.
Proof using HB Hbodies.
  revert K d s. induction ops as [|o ops IH]; intros K d s Hop Hd0 Hlen Hdep.
  - injection Hdep as <-. apply wp_ret. exists K. split; [cbn; lia|done].
  - cbn [ops_depth] in Hdep. apply bind_Some in Hdep as (d1 & E1 & Hdep). pose proof (op_depth_range _ _ _ Hd0 E1).
    cbn [length] in Hlen. cbn [mfor]. apply wp_bind. eapply wp_mono; [by apply (op_open o F K d d1 e); [|lia|]|].
    intros u s1 (K1 & HK1 & Hop1). eapply wp_mono; [apply (IH K1 d1); [done|lia|lia|done]|].
    intros u2 s2 (K2 & HK2 & Hop2). exists K2. split; [cbn [length]; lia|done].
Qed.

Lemma sched_initialize_ok F s :
  kh_live (sched_heap s) F -> (size F + 16 <= kh_room)%nat ->
  wp scheduler_initialize (fun _ s' => top_ok F 0 s' /\ eflags s' = eflags s /\ test_base s' = 0) s.
Proof.
  intros Hlive Hroom. unfold scheduler_initialize. do 5 (apply wp_bind, wp_mod). apply wp_mod. 
  split; [|done]. constructor; [|by constructor|done].
  constructor; [|constructor; cbn; (done || lia)|done|done].
  constructor; [|by constructor|done|cbn; lia].
  constructor; [done| | |].
  - apply Forall_replicate. done.
  - constructor; [apply NoDup_nil_2| | |done].
    + intros p Hp. by apply not_elem_of_nil in Hp.
    + change (kh_live (sched_heap s) (list_to_set [] ∪ F)). rewrite list_to_set_nil, union_empty_l_L. exact Hlive.
  - split; [lia|]. split; [done|]. intros _. split; [apply NoDup_nil_2|apply Forall_nil_2].
Qed.

Lemma initialize_open F s :
  kh_live (sched_heap s) F -> (size F + 17 <= kh_room)%nat ->
  wp scheduler_initialize (fun _ s' => sched_open_ok F 0 0 (eflags s) s') s.
Proof.
  intros Hlive Hroom. eapply wp_mono; [apply (sched_initialize_ok F); [done|lia]|].
  intros u s' (Ht & Ee & E0). constructor; [|by rewrite E0|done]. rewrite (test_frame_none _ _ E0), <- Ee.
  by apply top_at.
Qed.
End Safety.
