(* ===== verification/SchedTheorems.v ===== *)
(** * Theorems about the scheduler

    The properties a user of core/scheduler.c relies on, instantiated on the
    kernel's own heap, virtual and physical memory managers. *)
From S2P Require Import Prelude Mem Boot Pmm Vmm Pages Heap HeapBlocks HeapProofs HeapGrow HeapSpec HeapTheorems KernelHeap.
From S2P Require Import HeapClient KString Scheduler SchedQueue SchedTable SchedOps SchedSweep SchedRun SchedSafety.

Section Theorems.
Context {H : Type} `{KernelHeapLaws H}.
Implicit Types (s : sched_state H) (ts : list scheduler_task_t) (F : gset Z).
Context (call_entry : Z -> M (sched_state H) unit).
Context (text_at_null : list Z).
Context (cpu_registers : sched_state H -> scheduler_context_t).
Context (addr_switched_task_entry addr_switch_test_entry addr_test_workload_task : Z).

(** C9: after initialization, no sequence of the calls of [sched_op] - the
    functions of scheduler.h that change its state, the lock and unlock calls among
    them, and the timer interrupt - fails an assertion, as long as no unlock comes
    without its lock and the task bodies respect [bodies_ok]: every call returns, the
    task table stays well formed (every live task owns its own heap block as stack,
    ids are unique until 2^32 - 1 of them were issued, the counters are exact), as
    many locks are open as the calls opened, with the lock free the EFLAGS are those
    of the start and otherwise interrupts are off, and the heap blocks [F] of other
    clients stay allocated. *)
Theorem scheduler_never_panics B ops d F s :
  0 <= B -> bodies_ok call_entry B ->
  kh_live (sched_heap s) F -> (size F + 17 <= kh_room)%nat ->
  ops_depth 0 ops = Some d -> Z.of_nat (length ops) < 4294967290 ->
  wp (scheduler_initialize ;;;
      mfor ops (run_op call_entry text_at_null cpu_registers addr_switched_task_entry
                  addr_switch_test_entry addr_test_workload_task))
    (fun _ s' => exists K, K <= (B + 1) * Z.of_nat (length ops) /\ sched_open_ok F K d (eflags s) s') s.
Proof.
  intros HB Hb Hlive Hroom Hdep Hlen. apply wp_bind. eapply wp_mono; [by apply (initialize_open F)|].
  intros u s1 Hop. eapply wp_mono; [by apply (ops_ok _ _ _ _ _ _ B HB Hb ops F 0 0 d (eflags s))|].
  intros u2 s2 (K & HK & Hop2). exists K. split; [lia|done].
Qed.

(** [d] locks are open and [e] are the flags of the code outside: the flags saved
    by the outermost lock, unchanged by the inner ones. *)
Record nested (d e : Z) s : Prop := {
  ne_depth : lock_depth s = d;
  ne_locked : locked (scheduler_lock_info s) = negb (d =? 0);
  ne_flags : if d =? 0 then eflags s = e
             else saved_flags (scheduler_lock_info s) = e /\ Z.land (eflags s) FLAG_IF = 0
}.

Lemma nested_lock d e s :
  nested d e s -> 0 <= d < 4294967295 -> wp scheduler_lock (fun _ s' => nested (d + 1) e s') s.
Proof.
  intros [D1 D2 D3] Hd. apply lock_ok; [lia|]. intros l M1 M2 M3 _ _ _. unfold flags_to_restore in M2. rewrite D1 in *.
  constructor; rewrite ?(proj2 (Z.eqb_neq (d + 1) 0)) by lia; [exact M1|exact M3|].
  split; [|apply interrupts_off_clear]. change (saved_flags l = e). rewrite M2.
  destruct (Z.eqb_spec d 0); [exact D3|apply D3].
Qed.

Lemma nested_unlock d e s :
  nested (d + 1) e s -> 0 <= d < 4294967295 -> wp scheduler_unlock (fun _ s' => nested d e s') s.
Proof.
  intros [D1 D2 D3] Hd. rewrite (proj2 (Z.eqb_neq (d + 1) 0)) in * by lia. destruct D3 as [D3 D4].
  apply unlock_ok; [lia|]. rewrite D1, D3. replace (d + 1 =? 1) with (d =? 0)
    by (destruct (Z.eqb_spec d 0), (Z.eqb_spec (d + 1) 1); (done || lia)).
  intros l M1 M2 M3 _. constructor; [change (depth l = d); lia| |].
  - change (locked l = negb (d =? 0)). rewrite M3, D2. by destruct (d =? 0).
  - change (if d =? 0 then (if d =? 0 then e else eflags s) = e
            else saved_flags l = e /\ Z.land (if d =? 0 then e else eflags s) FLAG_IF = 0).
    destruct (d =? 0); [done|by split].
Qed.

Lemma nested_locks (n : nat) d e s :
  nested d e s -> 0 <= d -> d + Z.of_nat n < 4294967296 ->
  wp (mfor (replicate n tt) (fun _ => scheduler_lock)) (fun _ s' => nested (d + Z.of_nat n) e s') s.
Proof.
  revert d s. induction n as [|n IH]; intros d s Hne Hd Hn; [apply wp_ret; by rewrite Z.add_0_r|].
  cbn [replicate mfor]. apply wp_bind. eapply wp_mono; [apply (nested_lock d e s Hne); lia|].
  intros u s1 Hne1. replace (d + Z.of_nat (S n)) with (d + 1 + Z.of_nat n) by lia. by apply IH; [|lia|lia].
Qed.

Lemma nested_unlocks (n : nat) d e s :
  nested (d + Z.of_nat n) e s -> 0 <= d -> d + Z.of_nat n < 4294967296 ->
  wp (mfor (replicate n tt) (fun _ => scheduler_unlock)) (fun _ s' => nested d e s') s.
Proof.
  revert s. induction n as [|n IH]; intros s Hne Hd Hn; [apply wp_ret; by rewrite Z.add_0_r in Hne|].
  cbn [replicate mfor]. apply wp_bind. replace (d + Z.of_nat (S n)) with (d + Z.of_nat n + 1) in Hne by lia.
  eapply wp_mono; [apply (nested_unlock _ e s Hne); lia|]. intros u s1 Hne1. apply IH; [done|lia|lia].
Qed.

(** C29: the interrupt lock nests. After [n] locks, taken while the lock is free,
    the code between runs with interrupts off and the flags to restore are those of
    the code outside, however deep the nesting; after [k] of the [n] unlocks this
    still holds at depth [n - k], and the last unlock restores EFLAGS exactly and
    frees the lock. An unlock without a lock panics. The code between may use the
    lock and the flags as long as it leaves them as it found them. *)
Theorem scheduler_lock_discipline {A} (n k : nat) (m : M (sched_state H) A) s :
  lock_depth s = 0 -> locked (scheduler_lock_info s) = false ->
  (k <= n)%nat -> Z.of_nat n < 4294967296 ->
  (forall s1, nested (Z.of_nat n) (eflags s) s1 -> wp m (fun _ s2 => nested (Z.of_nat n) (eflags s) s2) s1) ->
  wp (mfor (replicate n tt) (fun _ => scheduler_lock) ;;; m ;;;
      mfor (replicate k tt) (fun _ => scheduler_unlock))
    (fun _ s' => nested (Z.of_nat n - Z.of_nat k) (eflags s) s') s /\
  (forall s0, lock_depth s0 = 0 -> scheduler_unlock s0 = None).
Proof.
  intros Hd Hl Hk Hn Hm. split.
  - assert (nested 0 (eflags s) s) as Hne by by constructor.
    apply wp_bind. eapply wp_mono; [apply (nested_locks n 0 (eflags s) s Hne); lia|]. intros u1 s1 Hne1.
    apply wp_bind. eapply wp_mono; [by apply Hm|]. intros r s2 Hne2.
    apply nested_unlocks; [|lia|lia]. by rewrite Z.sub_add.
  - intros s0 E. unfold scheduler_unlock, mbind_, mget. unfold lock_depth in E. by rewrite E.
Qed.

(** The rebuilt ready queue holds exactly the ready tasks, in rotation order
    from the current index: slots, ids, count and tail agree, nothing overflows
    and the unused entries are cleared. *)
Theorem ready_queue_exact tick s :
  wp (scheduler_rebuild_ready_queue tick) (fun _ s' =>
    let q := scheduler_ready_queue_info s' in
    scheduler_tasks s' = scheduler_tasks s /\
    count q = Z.of_nat (length (ready_slots tick s)) /\ head q = 0 /\ tail q = count q /\
    overflows q = overflows (scheduler_ready_queue_info s) /\
    scheduler_ready_queue_slots s' = ready_slots tick s ++
      replicate (16 - length (ready_slots tick s)) SCHEDULER_NO_TASK_SELECTED /\
    task_ids q = (slot_id s <$> ready_slots tick s) ++ replicate (16 - length (ready_slots tick s)) 0) s.
Proof.
  eapply wp_mono; [apply rebuild_ok|]. intros u s' (q & sl & st & -> & _ & [[Q1 Q2 Q3 Q4] R2 R3 R4 R5]).
  change (scheduler_ready_queue_info (with_queue s q sl st)) with q. by split_and!.
Qed.

(** Selection is round robin: it returns the first ready task at or after the
    current index, moves the index just behind it, and returns none exactly when
    no task is ready; no assertion fails. *)
Theorem select_round_robin tick s :
  wp (scheduler_select_next_ready_task tick) (fun r s' =>
    scheduler_tasks s' = scheduler_tasks s /\
    match ready_slots tick s with
    | [] => r = None /\ current_task_index (scheduler_stats s') = current_task_index (scheduler_stats s)
    | x :: _ => r = Some (Z.to_nat x) /\ slot_ready tick s x = true /\
                current_task_index (scheduler_stats s') = (x + 1) mod 16 /\
                last_selected_task_id (scheduler_stats s') = slot_id s x
    end) s.
Proof.
  eapply wp_mono; [apply select_ok|]. intros r s' (q & _ & (q' & sl & st & E & _) & Hcase).
  split; [by rewrite E|]. destruct (ready_slots tick s) as [|x l] eqn:Er.
  - destruct Hcase as (-> & _ & -> & _). done.
  - destruct Hcase as (-> & _ & -> & -> & _).
    assert (x ∈ ready_slots tick s) as Hx by (rewrite Er; by left).
    by apply list_elem_of_filter in Hx as [-> _].
Qed.

(** C26: bounded waiting. However the rest of the scheduler state changes in
    between, a task that is ready at every selection is passed over at most 15
    times before it is selected. *)
Theorem scheduler_bounded_waiting i n s s' :
  0 <= i < 16 -> passed_over i n s s' -> (n <= 15)%nat.
Proof.
  intros Hi Hp. pose proof (passed_over_distance i n s s' Hi Hp).
  pose proof (Z.mod_pos_bound (i - current_task_index (scheduler_stats s)) 16).
  pose proof (Z.mod_pos_bound (i - current_task_index (scheduler_stats s')) 16).
  unfold distance in *. lia.
Qed.

(** ** Sleeping *)

(** The timer interrupt with the preemption test off only wakes tasks. *)
Lemma tick_wakes F K s tick :
  top_ok F K s -> pt_enabled (scheduler_preempt_test_info s) = false ->
  wp (scheduler_on_timer_tick call_entry tick) (fun _ s' =>
    top_ok F K s' /\ scheduler_tasks s' = wake_due tick <$> scheduler_tasks s) s.
Proof.
  intros Htop Hpt. pose proof Htop as [[Hc Hqs Hr Hsw] Hl Hst]. apply wp_bind, wp_get.
  rewrite (co_init _ _ _ _ _ Hc). cbn [negb]. apply wp_bind, wp_mod.
  set (s0 := s <| scheduler_preempt_test_info ::= _ |>).
  assert (top_ok F K s0) as Ht0 by (constructor; [by destruct Hqs|by destruct Hl|done]).
  apply wp_bind, (lock_top F K); [done|]. intros l s1 Hh. apply wp_bind, wp_to_upd.
  apply (wake_sleeping_ok F K); [apply Hh|]. intros st2 Hc2 _. apply wp_bind, wp_get.
  lazymatch goal with |- context [pt_enabled ?p] =>
    replace (pt_enabled p) with false by (symmetry; exact Hpt) end. cbn [negb].
  apply (unlock_top F K (eflags s0)); [by eapply at_upd|]. intros l' Ht. by split.
Qed.

Lemma due_exactly t now ticks d :
  used t = true -> 0 <= now < 4294967296 -> 0 < ticks < 0x80000000 -> 0 <= d < 0x80000000 ->
  is_due (now [+] d) (sleeping_task now ticks t) = (ticks <=? d).
Proof.
  intros Hu Hn Ht Hd. unfold is_due, sleeping_task. cbn. rewrite Hu.
  change (state_is SCHEDULER_TASK_SLEEPING SCHEDULER_TASK_SLEEPING) with true. cbn [andb].
  destruct (Z.leb_spec ticks d); [apply Z.ltb_lt|apply Z.ltb_ge]; u32_lia.
Qed.

(** A sleeping task is woken on time: put to sleep for [ticks] ticks, it is
    still asleep at the timer interrupt [d] ticks later if [d < ticks] and active
    again if [d >= ticks], also when the tick counter wraps in between. *)
Theorem scheduler_sleep_on_time F K s i ticks d :
  top_ok F K s -> K < 4294967295 -> (i < 16)%nat -> used (get_task s i) = true ->
  state (get_task s i) = SCHEDULER_TASK_ACTIVE ->
  0 <= timer_ticks s < 4294967296 -> 0 < ticks < 0x80000000 -> 0 <= d < 0x80000000 ->
  pt_enabled (scheduler_preempt_test_info s) = false ->
  wp (scheduler_sleep_task (id (get_task s i)) ticks ;;;
      scheduler_on_timer_tick call_entry (timer_ticks s [+] d))
    (fun _ s' => top_ok F K s' /\ state (get_task s' i) =
       if ticks <=? d then SCHEDULER_TASK_ACTIVE else SCHEDULER_TASK_SLEEPING) s.
Proof.
  intros Htop HK Hi Hu Hs Hn Ht Hd Hpt. apply wp_bind, (with_lock_top _ F K); [done|]. intros l s1 Hh.
  pose proof (so_core _ _ _ (to_sched _ _ _ Htop)) as [T _ _ _]. pose proof (tb_length _ _ _ _ _ T) as Hlen.
  eapply wp_mono; [eapply effect_held; [apply sleep_effect; lia|exact Hh]|].
  intros r s2 (_ & Hh2 & st & h & E2). exists K. split; [done|]. intros l' Ht2.
  unfold task_effect in E2.
  change (scheduler_tasks s1) with (scheduler_tasks s) in E2. change (timer_ticks s1) with (timer_ticks s) in E2.
  change (get_task s i) with (task_of (scheduler_tasks s) i) in *.
  rewrite (lookup_id_unique _ _ _ _ _ _ T HK Hi Hu) in E2. rewrite Hs in E2.
  change (state_is SCHEDULER_TASK_ACTIVE SCHEDULER_TASK_ACTIVE) with true in E2. cbn [snd] in E2.
  eapply wp_mono; [apply (tick_wakes F K); [done|by rewrite E2]|]. intros u s3 [Ht3 E3]. split; [done|].
  change (get_task s3 i) with (task_of (scheduler_tasks s3) i).
  change (scheduler_tasks (relock s2 l' _)) with (scheduler_tasks s2) in E3. rewrite E3, E2.
  change (scheduler_tasks (upd _ ?ts _ _)) with ts.
  rewrite task_of_fmap, task_of_alter by (rewrite ?length_alter; done).
  unfold wake_due. rewrite due_exactly by done. by destruct (ticks <=? d).
Qed.

(** ** Status codes *)

(** What a [_status] function returns and does: [p] is the state it requires, [f]
    its effect on the task. *)
Definition status_spec (bad : bool) (p : scheduler_task_state_t -> bool)
    (f : scheduler_task_t -> scheduler_task_t) (tid : Z) s (code : Z) s' : Prop :=
  if bad then code = KERNEL_ERROR_INVALID_ARGUMENT /\ s' = s
  else match lookup_id (scheduler_tasks s) tid with
       | None => code = KERNEL_ERROR_NOT_FOUND /\ scheduler_tasks s' = scheduler_tasks s
       | Some i =>
           if p (state (get_task s i))
           then code = KERNEL_OK /\ scheduler_tasks s' = alter f i (scheduler_tasks s)
           else code = KERNEL_ERROR_INVALID_STATE /\ scheduler_tasks s' = scheduler_tasks s
       end.

Lemma task_status_ok op p f tid (bad : bool) F K s :
  (bad = false -> has_effect op p f tid) -> top_ok F K s ->
  wp (task_op_status bad tid p op) (fun code s' =>
    top_ok F K s' /\ status_spec bad p (f (timer_ticks s)) tid s code s') s.
Proof.
  intros Heff Htop. unfold task_op_status, status_spec. destruct bad; [by apply wp_ret|].
  specialize (Heff eq_refl). apply wp_bind, wp_get.
  rewrite (co_init _ _ _ _ _ (so_core _ _ _ (to_sched _ _ _ Htop))). cbn [negb].
  apply wp_bind, (lock_top F K); [done|]. intros l s1 Hh. apply wp_bind, wp_get.
  change (find_first _ slots) with (lookup_id (scheduler_tasks s) tid).
  assert (forall c : Z, wp (scheduler_unlock ;;; mret_ c) (fun code s' => top_ok F K s' /\
    code = c /\ scheduler_tasks s' = scheduler_tasks s) s1) as Hret.
  { intros c. apply wp_bind, (unlock_top F K (eflags s)); [done|]. intros l' Ht. by apply wp_ret. }
  destruct (lookup_id (scheduler_tasks s) tid) as [i|] eqn:El; [|apply Hret].
  apply wp_bind, wp_get. change (get_task s1 i) with (get_task s i).
  destruct (p (state (get_task s i))) eqn:Ep; cbn [negb]; [|apply Hret].
  apply wp_bind. eapply wp_mono; [by eapply effect_held|]. intros r s2 (-> & Hh2 & st & h & ->).
  change (timer_ticks s1) with (timer_ticks s). change (scheduler_tasks s1) with (scheduler_tasks s).
  unfold task_effect. rewrite El. change (task_of (scheduler_tasks s) i) with (get_task s i). rewrite Ep.
  apply wp_bind, (unlock_top F K (eflags s)).
  - revert Hh2. change (timer_ticks s1) with (timer_ticks s). change (scheduler_tasks s1) with (scheduler_tasks s).
    unfold task_effect. rewrite El. change (task_of (scheduler_tasks s) i) with (get_task s i). by rewrite Ep.
  - intros l' Ht. apply wp_ret. by split.
Qed.

(** The four [_status] functions on an initialized scheduler return exactly
    the documented code on every path (bad argument, unknown id, wrong state,
    success) and change exactly the addressed task on success; before
    initialization they refuse without touching anything. *)
Theorem scheduler_status_codes F K s tid ticks :
  top_ok F K s ->
  wp (scheduler_disable_task_status tid) (fun code s' => top_ok F K s' /\
    status_spec (tid =? 0) state_is_runnable disabled_task tid s code s') s /\
  wp (scheduler_sleep_task_status tid ticks) (fun code s' => top_ok F K s' /\
    status_spec ((tid =? 0) || (ticks =? 0)) (fun x => state_is x SCHEDULER_TASK_ACTIVE)
      (sleeping_task (timer_ticks s) ticks) tid s code s') s /\
  wp (scheduler_wake_task_status tid) (fun code s' => top_ok F K s' /\
    status_spec (tid =? 0) (fun x => state_is x SCHEDULER_TASK_SLEEPING) woken_task tid s code s') s /\
  wp (scheduler_yield_task_status tid) (fun code s' => top_ok F K s' /\
    status_spec (tid =? 0) state_is_runnable (yielded_task (timer_ticks s)) tid s code s') s /\
  (forall s0, tid <> 0 -> sched_initialized (scheduler_stats s0) = false ->
     scheduler_disable_task_status tid s0 = Some (KERNEL_ERROR_NOT_INITIALIZED, s0)).
Proof.
  intros Htop. split_and!.
  - apply (task_status_ok _ _ (fun _ => disabled_task)); [|done]. intros _. apply disable_effect.
  - apply (task_status_ok _ _ (fun now => sleeping_task now ticks)); [|done]. intros Hb.
    bool_simpl. by apply sleep_effect.
  - apply (task_status_ok _ _ (fun _ => woken_task)); [|done]. intros _. apply wake_effect.
  - apply (task_status_ok _ _ yielded_task); [|done]. intros _. apply yield_effect.
  - intros s0 Ht Hi. unfold scheduler_disable_task_status, task_op_status.
    rewrite (proj2 (Z.eqb_neq _ _)) by done. unfold mbind_, mget. by rewrite Hi.
Qed.

(** ** Creation *)

(** Creating a recurring task. Bad arguments are refused without any effect;
    otherwise either the first available slot receives the new task, with a fresh
    id, an own kernel stack and its name cut to the buffer, and no other slot
    changes, or the call reports that memory or slots ran out. *)
Theorem scheduler_create_contract F K s nm interval ent (has_task_id : bool) :
  top_ok F K s -> K < 0x7FFFFFFF ->
  wp (scheduler_create_kernel_task_status text_at_null nm interval ent has_task_id) (fun r s' =>
    if negb has_task_id then r = (KERNEL_ERROR_INVALID_ARGUMENT, None) /\ s' = s
    else if bool_decide (nm = None) || (ent =? 0) || (interval =? 0)
    then r = (KERNEL_ERROR_INVALID_ARGUMENT, Some 0) /\ s' = s
    else (r = (KERNEL_ERROR_OUT_OF_MEMORY, Some 0) /\ top_ok F K s' /\
          (available_slot (scheduler_tasks s) = None -> scheduler_tasks s' = scheduler_tasks s)) \/
      exists i p, available_slot (scheduler_tasks s) = Some i /\
        r = (KERNEL_OK, Some (K + 1)) /\ (K + 1 ∉ ids (scheduler_tasks s)) /\ top_ok F (K + 1) s' /\
        scheduler_tasks s' = alter (fun _ => new_task (default text_at_null nm) SCHEDULER_TASK_RECURRING
          interval ent (K + 1) (timer_ticks s) p) i (scheduler_tasks s)) s.
Proof.
  intros Htop HK. unfold scheduler_create_kernel_task_status, create_status.
  destruct has_task_id; cbn [negb]; [|by apply wp_ret].
  pose proof (so_core _ _ _ (to_sched _ _ _ Htop)) as [[_ _ _ (I1 & I2 & I3)] _ Hini _].
  destruct (I3 ltac:(lia)) as [_ Hrange]. rewrite u32_small in I2 by (unfold is_u32; lia).
  apply wp_bind, wp_get. rewrite Hini. cbn [negb]. destruct (_ || _) eqn:Ebad; [by apply wp_ret|].
  apply orb_false_iff in Ebad as [Ebad Ei]. apply orb_false_iff in Ebad as [_ Ee].
  apply Z.eqb_neq in Ee, Ei. apply wp_bind, (with_lock_top _ F K); [done|]. intros l s1 Hh.
  apply wp_to_upd, (create_ok text_at_null F K); [apply Hh|..].
  - intros st' _ Hc. exists K. split; [by eapply at_upd|]. intros l' Ht. apply wp_ret. left. by split_and!.
  - intros i st' h' Ea Hc. exists K. split; [by eapply at_upd|]. intros l' Ht. apply wp_ret. left.
    split_and!; try done. intros En. change (scheduler_tasks s1) with (scheduler_tasks s) in Ea. congruence.
  - intros i st' h' p Ea _ _ t Hc. exists (K + 1). split; [by eapply at_upd|]. intros l' Ht. subst t.
    change (next_task_id (scheduler_stats s1)) with (next_task_id (scheduler_stats s)) in *. rewrite I2 in *.
    cbn [result_is_negative]. rewrite (proj2 (Z.leb_gt _ _)) by lia. apply wp_ret. right.
    exists i, p. split; [done|]. split; [done|]. split; [|by split].
    intros Hin. rewrite Forall_forall in Hrange. specialize (Hrange _ Hin). lia.
Qed.

(** ** Audit and repair *)

Lemma sum_of_count (f : nat -> bool) l : sum_of (fun i => Z.b2z (f i)) l = count_if f l.
Proof. induction l as [|i l IH]; [done|]. cbn [sum_of count_if]. rewrite IH. by destruct (f i). Qed.

(** The audit is exact: on any task table, however damaged, it counts every
    irregularity of every task, every stale queue entry and every wild pointer,
    and changes nothing else. On a well-formed scheduler only sleepers whose wake
    tick is 0 and stale queue entries are left to report. *)
Theorem scheduler_audit_exact s :
  queue_shape s ->
  wp scheduler_audit_unlocked (fun n s' => n = audit_issues s /\
    exists a, s' = with_audit s a /\ issues_found a = n) s /\
  forall F K, sched_ok F K s -> audit_issues s =
    count_if (fun i => used (get_task s i) && asleep_without_tick (get_task s i)) slots +
    count_if (stale_entry s) (seqZ 0 (count (scheduler_ready_queue_info s))).
Proof.
  intros Hqs. split.
  - apply wp_to_audit, sched_audit_ok; [done|]. intros a [Ha _]. split; [done|]. exists a.
    split; [done|]. rewrite Ha. cbn. lia.
  - intros F K [[T _ _ _] _ Hr Hsw]. unfold audit_issues, bad_pointer. rewrite Hr, Hsw. cbn [negb Z.b2z].
    rewrite !Z.add_0_r. f_equal. rewrite <- sum_of_count. apply sum_of_ext. intros i Hi.
    apply task_issues_ok. apply elem_of_slots in Hi. by apply (table_task_ok _ _ _ _ _ i T).
Qed.

Lemma repaired_fields s st h :
  scheduler_tasks (repaired_state s st h) = repair_one <$> scheduler_tasks s /\
  sched_heap (repaired_state s st h) = h /\
  count (scheduler_ready_queue_info (repaired_state s st h)) = 0 /\
  scheduler_current_running_task (repaired_state s st h) = fix_pointer (scheduler_current_running_task s) /\
  scheduler_current_switched_task (repaired_state s st h) = fix_pointer (scheduler_current_switched_task s).
Proof. by split_and!. Qed.

(** The repair works from any damage in which the stacks are still distinct
    live blocks and no live task lost only the base of its stack: it returns the
    number of repairs, leaves nothing for the audit to report, and frees exactly
    the stacks it takes away. Its two counters are lost: the audit it ends with
    clears them. *)
Theorem scheduler_repair_clean F s :
  length (scheduler_tasks s) = 16%nat -> owned F (scheduler_tasks s) (sched_heap s) ->
  Forall stack_top_known (scheduler_tasks s) ->
  wp scheduler_repair_unlocked (fun n s' => n = repairs_done s /\ audit_issues s' = 0 /\
    scheduler_tasks s' = repair_one <$> scheduler_tasks s /\
    owned F (scheduler_tasks s') (sched_heap s') /\
    issues_found (scheduler_audit_info s') = 0 /\
    repairs_run (scheduler_audit_info s') = 0 /\ issues_repaired (scheduler_audit_info s') = 0) s.
Proof.
  intros Hlen Hown Hkn. apply (repair_ok F); [done|done|]. intros st h a _ _ Ho Ha.
  destruct (repaired_fields s st h) as (Et & Eh & Ec & Er & Ew).
  revert Ha Et Eh Ec Er Ew. generalize (repaired_state s st h) as s1. intros s1 (A1 & A2 & A3) Et Eh Ec Er Ew.
  assert (audit_issues s1 = 0) as E0.
  { unfold audit_issues. rewrite Ec, Er, Ew, !fix_pointer_good, sum_of_zero; [done|].
    intros i Hi. apply elem_of_slots in Hi. unfold get_task. rewrite Et.
    fold (task_of (repair_one <$> scheduler_tasks s) i). rewrite task_of_fmap by done.
    apply repair_one_clean. eapply Forall_lookup_1; [exact Hkn|]. by apply task_of_lookup. }
  rewrite E0 in A1. rewrite <- Et, <- Eh in Ho.
  split; [reflexivity|]. split; [exact E0|]. split; [exact Et|]. split; [exact Ho|].
  split; [exact A1|]. by split.
Qed.
End Theorems.

(** ** The scheduler on the kernel's own heap *)

Abbreviation kernel := (sched_state (heap_state vmm_state)).

Definition sched_zero : kernel := {|
  scheduler_tasks := replicate 16 scheduler_clear_task;
  scheduler_stats := Build_scheduler_stats_t false 0 0 0 0 0 0 0 0 0 0 0 0 0 0 0 0 0 0 0 0 0 0 0 0 0 0 0 0 0 0 0;
  test_workload_counter := 0; test_workload_task_id := 0;
  switch_test_return_context := scheduler_clear_context; switch_test_context := scheduler_clear_context;
  switch_test_info := scheduler_clear_switch_test_info;
  scheduler_main_context := scheduler_clear_context;
  scheduler_current_switched_task := TaskNull; scheduler_current_running_task := TaskNull;
  scheduler_running_on_task_stack := false;
  scheduler_preempt_test_info := scheduler_clear_preempt_test_info;
  scheduler_ready_queue_info := scheduler_clear_ready_queue_info;
  scheduler_ready_queue_slots := cleared_slots;
  scheduler_audit_info := scheduler_clear_audit_info;
  scheduler_lock_info := Build_scheduler_lock_info_t false true 0 0 0 0 0 0 0;
  eflags := 0x202; timer_ticks := 0; sched_heap := heap_boot |}.

(** The task bodies of the examples: every entry is the test workload. *)
Definition workload_bodies (_ : Z) : M kernel unit := scheduler_test_workload_task.
Definition idle_registers (_ : kernel) : scheduler_context_t := scheduler_clear_context.

Lemma workload_bodies_ok : bodies_ok workload_bodies 0.
Proof.
  intros e F K s i He Hok Hrun Hd Hp. apply wp_mod. exists K. destruct Hok as [C [] R W].
  constructor; try done; try lia; by constructor.
Qed.

Lemma heap_boot_live : kh_live heap_boot ∅.
Proof. exists [Blk HS 4080 false]. split; [exact heap_boot_inv|]. by split. Qed.

Lemma kernel_room : (size (∅ : gset Z) + 17 <= kh_room)%nat.
Proof. rewrite size_empty. change kh_room with 2000%nat. lia. Qed.

Definition sample_op : sched_op -> M kernel unit :=
  run_op workload_bodies [] idle_registers 0x200000 0x200100 0x200200.

Definition sched_boot : kernel := final scheduler_initialize sched_zero.
(** One recurring task with a stack. *)
Definition sched_one : kernel :=
  final (mfor [OpCreate (Some workload_name) 100 0x100000] sample_op) sched_boot.

Lemma sched_one_task :
  let t := get_task sched_one 0 in
  used t = true /\ id t = 1 /\ state t = SCHEDULER_TASK_ACTIVE /\ kernel_stack_base t <> 0 /\
  test_workload_counter sched_one = 0 /\ pt_enabled (scheduler_preempt_test_info sched_one) = false.
Proof. vm_compute. done. Qed.

Lemma sched_boot_top : top_ok ∅ 0 sched_boot.
Proof.
  destruct (sched_initialize_ok ∅ sched_zero heap_boot_live) as (u & s' & E & Ht & _);
    [pose proof kernel_room; lia|].
  unfold sched_boot, final. rewrite E. exact Ht.
Qed.

Lemma sched_boot_open : sched_open_ok ∅ 0 0 0x202 sched_boot.
Proof.
  destruct (initialize_open ∅ sched_zero heap_boot_live kernel_room) as (u & s' & E & Hop).
  unfold sched_boot, final. rewrite E. exact Hop.
Qed.

(** Sequences without the switch test. *)
Lemma sample_ops_top ops :
  ops_depth 0 ops = Some 0 -> Z.of_nat (length ops) < 4294967290 ->
  test_base (final (mfor ops sample_op) sched_boot) = 0 ->
  exists K, K <= Z.of_nat (length ops) /\ top_ok ∅ K (final (mfor ops sample_op) sched_boot).
Proof.
  intros Hdep Hlen. destruct (ops_ok workload_bodies [] idle_registers 0x200000 0x200100 0x200200 0 ltac:(lia)
    workload_bodies_ok ops ∅ 0 0 0 0x202 _ sched_boot_open ltac:(lia) ltac:(lia) Hdep) as (u & s' & E & K & HK & Hop).
  unfold final, sample_op. rewrite E. cbn [snd]. intros E0. exists K. split; [lia|].
  destruct Hop as [Hat _ _]. rewrite (test_frame_none _ _ E0) in Hat. by destruct (at_top _ _ _ _ Hat).
Qed.

Lemma sched_one_top : exists K, K <= 1 /\ top_ok ∅ K sched_one.
Proof. apply (sample_ops_top [OpCreate (Some workload_name) 100 0x100000]); vm_compute; reflexivity. Qed.

Definition sample_session : list sched_op :=
  [OpCreate (Some workload_name) 100 0x100000; OpAdvance 100; OpRunPending; OpSwitchTest; OpLock;
   OpSleepStatus 1 5; OpTimerTick 105; OpLock; OpRunSwitched 1; OpUnlock; OpUnlock; OpLockTest;
   OpCreateWorkload; OpDisable 1; OpClearInactive; OpRepair; OpResetSwitchTest].

Lemma scheduler_never_panics_witness :
  wp (scheduler_initialize ;;;
      mfor sample_session (run_op workload_bodies [] idle_registers 0x200000 0x200100 0x200200))
    (fun _ s' => exists K, K <= 17 /\ sched_open_ok ∅ K 0 0x202 s') sched_zero.
Proof.
  eapply wp_mono; [exact (scheduler_never_panics workload_bodies [] idle_registers 0x200000 0x200100 0x200200 0
    sample_session 0 ∅ sched_zero ltac:(lia) workload_bodies_ok heap_boot_live kernel_room eq_refl ltac:(cbn; lia))|].
  intros u s' (K & HK & Hop). exists K. split; [exact HK|exact Hop].
Defined.

Lemma scheduler_lock_discipline_witness :
  wp (mfor (replicate 3 tt) (fun _ => scheduler_lock) ;;; mret_ tt ;;;
      mfor (replicate 3 tt) (fun _ => scheduler_unlock))
    (fun _ (s' : kernel) => lock_depth s' = 0 /\ eflags s' = 0x202) sched_zero.
Proof.
  eapply wp_mono; [apply (scheduler_lock_discipline 3 3 (mret_ tt) sched_zero);
    [reflexivity|reflexivity|lia|lia|]|].
  - intros s1 Hne. apply wp_ret. exact Hne.
  - intros u s' [E1 _ E3]. split; [exact E1|exact E3].
Defined.

(** Slot 1 is passed over once: the task of slot 0 is ready too. *)
Definition sched_two : kernel :=
  final (mfor [OpCreate (Some workload_name) 100 0x100000; OpCreate (Some workload_name) 100 0x100000;
               OpAdvance 200] sample_op) sched_boot.

Lemma sched_two_select :
  fst <$> scheduler_select_next_ready_task 200 sched_two = Some (Some 0%nat) /\
  slot_ready 200 sched_two 1 = true.
Proof. vm_compute. by split. Qed.

Lemma sched_two_passed :
  passed_over 1 1 sched_two (final (scheduler_select_next_ready_task 200) sched_two).
Proof.
  destruct sched_two_select as [E Hr].
  exact (po_select 1 0 _ _ _ 200 (Some 0%nat) (po_start 1 _) Hr (final_run _ _ _ E) ltac:(done)).
Qed.

Lemma scheduler_bounded_waiting_witness :
  passed_over 1 1 sched_two (final (scheduler_select_next_ready_task 200) sched_two) /\ (1 <= 15)%nat.
Proof.
  split; [exact sched_two_passed|].
  exact (scheduler_bounded_waiting 1 1 _ _ ltac:(lia) sched_two_passed).
Defined.

Lemma scheduler_sleep_on_time_witness :
  wp (scheduler_sleep_task 1 5 ;;; scheduler_on_timer_tick workload_bodies 5)
    (fun _ s' => state (get_task s' 0) = SCHEDULER_TASK_ACTIVE) sched_one.
Proof.
  destruct sched_one_top as (K & HK & Ht). destruct sched_one_task as (T1 & T2 & T3 & _ & _ & T6).
  assert (timer_ticks sched_one = 0) as T0 by (vm_compute; reflexivity).
  pose proof (scheduler_sleep_on_time workload_bodies ∅ K sched_one 0 5 5 Ht) as Hw.
  rewrite T2, T0 in Hw. eapply wp_mono; [apply Hw; (exact T1 || exact T3 || exact T6 || lia)|].
  intros u s' [_ E]. exact E.
Defined.

Lemma wrong_state_code p f tid i (s s' : kernel) code :
  status_spec false p f tid s code s' -> lookup_id (scheduler_tasks s) tid = Some i ->
  p (state (get_task s i)) = false -> code = KERNEL_ERROR_INVALID_STATE.
Proof. unfold status_spec. intros Hs El Ep. rewrite El, Ep in Hs. apply Hs. Qed.

Lemma sched_one_lookup :
  lookup_id (scheduler_tasks sched_one) 1 = Some 0%nat /\
  state_is (state (get_task sched_one 0)) SCHEDULER_TASK_SLEEPING = false.
Proof. vm_compute. by split. Qed.

Lemma scheduler_status_codes_witness :
  wp (scheduler_wake_task_status 1) (fun code _ => code = KERNEL_ERROR_INVALID_STATE) sched_one.
Proof.
  destruct sched_one_top as (K & HK & Ht).
  destruct (scheduler_status_codes ∅ K sched_one 1 1 Ht) as (_ & _ & Hw & _).
  eapply wp_mono; [exact Hw|]. intros code s' [_ Hs].
  exact (wrong_state_code _ _ _ _ _ _ _ Hs (proj1 sched_one_lookup) (proj2 sched_one_lookup)).
Defined.

Lemma scheduler_create_contract_witness :
  wp (scheduler_create_kernel_task_status [] None 100 0x100000 true)
    (fun r s' => r = (KERNEL_ERROR_INVALID_ARGUMENT, Some 0) /\ s' = sched_boot) sched_boot.
Proof.
  eapply wp_mono; [apply (scheduler_create_contract [] ∅ 0 sched_boot None 100 0x100000 true sched_boot_top); lia|].
  intros r s' Hr. exact Hr.
Defined.

Lemma scheduler_audit_exact_witness :
  wp scheduler_audit_unlocked (fun n _ => n = audit_issues sched_one) sched_one.
Proof.
  destruct sched_one_top as (K & HK & [[_ Hqs _ _] _ _]).
  eapply wp_mono; [apply (scheduler_audit_exact sched_one Hqs)|]. intros n s' [E _]. exact E.
Defined.

(** A scheduler whose first task lost its entry point and whose running pointer is
    wild. *)
Definition damaged (s : kernel) : kernel :=
  s <| scheduler_tasks ::= alter (fun t => t <| entry := 0 |>) 0%nat |>
    <| scheduler_current_running_task := TaskWild 0xDEAD |>.

Lemma task_ok_top_known t : task_ok t -> stack_top_known t.
Proof.
  unfold task_ok, stack_top_known. intros Hok Hu Hb. rewrite Hu in Hok. destruct (state t); try done; lia.
Qed.

Lemma damaged_repairable F K s :
  sched_ok F K s ->
  length (scheduler_tasks (damaged s)) = 16%nat /\
  owned F (scheduler_tasks (damaged s)) (sched_heap (damaged s)) /\
  Forall stack_top_known (scheduler_tasks (damaged s)).
Proof.
  intros [[[Hlen Htok Hown _] _ _ _] _ _ _].
  change (scheduler_tasks (damaged s)) with (alter (fun t => t <| entry := 0 |>) 0%nat (scheduler_tasks s)).
  split; [by rewrite length_alter|]. split; [by apply owned_alter|]. apply Forall_alter; [|done].
  eapply Forall_impl; [exact Htok|]. apply task_ok_top_known.
Qed.

Lemma damaged_repairs : repairs_done (damaged sched_one) = 2.
Proof. vm_compute. reflexivity. Qed.

Lemma scheduler_repair_clean_witness :
  wp scheduler_repair_unlocked (fun n s' => n = 2 /\ audit_issues s' = 0) (damaged sched_one).
Proof.
  destruct sched_one_top as (K & HK & [Hok _ _]).
  destruct (damaged_repairable ∅ K sched_one Hok) as (D1 & D2 & D3).
  eapply wp_mono; [exact (scheduler_repair_clean ∅ (damaged sched_one) D1 D2 D3)|].
  intros n s' (En & E0 & _). split; [exact (eq_trans En damaged_repairs)|exact E0].
Defined.

(** ** Two defects *)

(** A false alarm of the audit. After a one-shot task completed and its slot
    was reused, the queue snapshot of the last selection names the old task, and
    the audit of a well-formed scheduler reports an issue. *)
Theorem scheduler_audit_false_alarm :
  let s := final (mfor [OpCreateOneshot (Some workload_name) 0x100000; OpRunPending;
                        OpCreate (Some workload_name) 100 0x100000] sample_op) sched_boot in
  (exists K, top_ok ∅ K s) /\ fst <$> scheduler_audit s = Some 1.
Proof.
  split; [|vm_compute; reflexivity].
  destruct (sample_ops_top [OpCreateOneshot (Some workload_name) 0x100000; OpRunPending;
                            OpCreate (Some workload_name) 100 0x100000]) as (K & _ & Ht);
    [reflexivity|cbn; lia|vm_compute; reflexivity|]. by exists K.
Qed.

(** A recurring task that disables itself. [scheduler_disable_task] accepts a
    running task and frees its stack, but when the body returns the trampoline
    makes the task active again: it stays schedulable without a stack. *)
Theorem scheduler_self_disable_undone :
  let bodies := fun _ : Z => scheduler_disable_task 1 ;;; mret_ tt in
  let op := run_op bodies [] idle_registers 0x200000 0x200100 0x200200 in
  let s := final (mfor [OpCreate (Some workload_name) 100 0x100000; OpAdvance 100; OpRunPending] op) sched_boot in
  let t := get_task s 0 in
  used t = true /\ id t = 1 /\ run_count t = 1 /\ state t = SCHEDULER_TASK_ACTIVE /\ kernel_stack_base t = 0 /\
  fst <$> scheduler_audit s = Some 1.
Proof. vm_compute. by split_and!. Qed.
