(* ===== verification/Vfs.v ===== *)
(** * Virtual file system (fs/vfs.h, fs/vfs.c)

    The file system is a tree of statically allocated nodes that are linked by
    pointers. [vfs_nodes] is the store: it maps the address of a node to its
    contents. Reading a node, a child pointer or a byte of file data that is not
    there is undefined in C and never returns in the model, so a theorem that a
    routine returns also says that it stays inside the objects it may read. An
    [out] pointer is a boolean argument (is it non-NULL?) and a result:
    [Some v] when the routine assigned [v] through it. *)
From S2P Require Import Prelude KString.

Definition VFS_PATH_MAX : nat := 128.
Definition VFS_READ_CHUNK_MAX := 512.
Definition chr_slash := 47.

Inductive vfs_node_type_t := VFS_NODE_DIRECTORY | VFS_NODE_FILE | VFS_NODE_DEVICE.

#[export] Instance vfs_node_type_eq_dec : EqDecision vfs_node_type_t.
Proof. solve_decision. Defined.

Definition vfs_node_type_value (t : vfs_node_type_t) : Z :=
  match t with VFS_NODE_DIRECTORY => 1 | VFS_NODE_FILE => 2 | VFS_NODE_DEVICE => 3 end.

(** [vn_data] holds the bytes from [data] on, [vn_children] the array
    [children]; [None] is a NULL pointer. *)
Record vfs_node_t := {
  vn_name : option (list Z);
  vn_path : option (list Z);
  vn_type : vfs_node_type_t;
  vn_data : option (list Z);
  vn_size : Z;
  vn_mode : Z;
  vn_flags : Z;
  vn_parent : Z;
  vn_children : list Z;
  vn_child_count : Z
}.

Record vfs_stat_t := {
  stat_type : Z;
  stat_size : Z;
  stat_mode : Z;
  stat_flags : Z;
  stat_child_count : Z
}.

Record vfs_info_t := {
  vfs_initialized : bool;
  mounted_nodes : Z;
  lookup_attempts : Z;
  lookup_failures : Z;
  vfs_read_attempts : Z;
  vfs_read_failures : Z;
  vfs_last_status : Z;
  vfs_last_path : list Z
}.

#[export] Instance eta_vfs_info : Settable vfs_info_t := fun i =>
  Build_vfs_info_t (vfs_initialized i) (mounted_nodes i) (lookup_attempts i) (lookup_failures i)
    (vfs_read_attempts i) (vfs_read_failures i) (vfs_last_status i) (vfs_last_path i).

Record vfs_state := {
  vfs_nodes : gmap Z vfs_node_t;
  vfs_root : Z;
  vfs_info : vfs_info_t
}.

#[export] Instance eta_vfs_state : Settable vfs_state := fun s =>
  Build_vfs_state (vfs_nodes s) (vfs_root s) (vfs_info s).

Abbreviation VM := (M vfs_state).

Definition vinfo (f : vfs_info_t -> vfs_info_t) : VM unit := mmod (fun s => s <| vfs_info ::= f |>).

(** [*p] *)
Definition node_at (p : Z) : VM vfs_node_t := fun s =>
  match vfs_nodes s !! p with Some n => Some (n, s) | None => None end.

Definition is_type (n : vfs_node_t) (t : vfs_node_type_t) : bool := bool_decide (vn_type n = t).

(** ** Operations *)

Definition vfs_set_last_status (status : Z) : VM unit := vinfo (fun i => i <| vfs_last_status := status |>).

Definition vfs_initialize : VM unit :=
  mmod (fun s => s <| vfs_root := 0 |>) ;;;
  vinfo (fun i => {| vfs_initialized := true; mounted_nodes := 0; lookup_attempts := 0;
    lookup_failures := 0; vfs_read_attempts := 0; vfs_read_failures := 0;
    vfs_last_status := KERNEL_OK; vfs_last_path := <[0%nat := 0]> (vfs_last_path i) |}).

(** The recursion has no bound in C; [depth] is how many calls may be nested. *)
Fixpoint vfs_count_nodes_recursive (depth : nat) (node : Z) : VM Z :=
  match depth with
  | O => mhalt
  | S depth' =>
      if node =? 0 then mret_ 0
      else
        n <- node_at node ;;
        mfold (seqZ 0 (vn_child_count n)) (fun count i =>
          child <- array_at (vn_children n) i ;;
          k <- vfs_count_nodes_recursive depth' child ;;
          mret_ (count [+] k)) 1
  end.

(** More nested calls than there are nodes means that the links have a cycle and
    the recursion never ends. *)
Definition vfs_count_nodes (node : Z) : VM Z :=
  nodes <- mget vfs_nodes ;; vfs_count_nodes_recursive (S (S (size nodes))) node.

Definition vfs_mount_static_tree (root : Z) : VM Z :=
  info <- mget vfs_info ;;
  if negb (vfs_initialized info) then mret_ KERNEL_ERROR_NOT_INITIALIZED
  else
    bad <- (if root =? 0 then mret_ true
            else n <- node_at root ;; mret_ (negb (is_type n VFS_NODE_DIRECTORY))) ;;
    if bad : bool then
      vfs_set_last_status KERNEL_ERROR_INVALID_ARGUMENT ;;; mret_ KERNEL_ERROR_INVALID_ARGUMENT
    else
      mmod (fun s => s <| vfs_root := root |>) ;;;
      count <- vfs_count_nodes root ;;
      vinfo (fun i => i <| mounted_nodes := count |>) ;;;
      vfs_set_last_status KERNEL_OK ;;;
      mret_ KERNEL_OK.

Definition vfs_path_is_root (path : list Z) : bool :=
  (char_at path 0 =? chr_slash) && (char_at path 1 =? 0).

(** The inner loop of [vfs_find_child]: [child->name[j] == name[j]] for every [j]. *)
Definition vfs_name_matches (child_name name : list Z) (name_length : Z) : bool :=
  forallb (fun j => char_at child_name (Z.to_nat j) =? char_at name (Z.to_nat j))
    (seqZ 0 name_length).

(** The loop of [vfs_find_child] over the children of [d]. *)
Definition vfs_child_step (d : vfs_node_t) (name : list Z) (name_length i : Z) : VM (option Z) :=
  child <- array_at (vn_children d) i ;;
  if child =? 0 then mret_ None
  else
    n <- node_at child ;;
    match vn_name n with
    | None => mret_ None
    | Some child_name =>
        if negb (string_length child_name =? name_length) then mret_ None
        else if vfs_name_matches child_name name name_length then mret_ (Some child)
        else mret_ None
    end.

Definition vfs_find_child (directory : Z) (name : option (list Z)) (name_length : Z) (out_node : bool)
    : VM (Z * option Z) :=
  match name with
  | None => mret_ (KERNEL_ERROR_INVALID_ARGUMENT, None)
  | Some name =>
      if (directory =? 0) || negb out_node then mret_ (KERNEL_ERROR_INVALID_ARGUMENT, None)
      else
        d <- node_at directory ;;
        if negb (is_type d VFS_NODE_DIRECTORY) then mret_ (KERNEL_ERROR_INVALID_STATE, None)
        else
          found <- mfor_ret (seqZ 0 (vn_child_count d)) (vfs_child_step d name name_length) ;;
          match found with
          | Some child => mret_ (KERNEL_OK, Some child)
          | None => mret_ (KERNEL_ERROR_NOT_FOUND, None)
          end
  end.

(** [while (path[index] == '/') index++;] on the suffix [path + index]. *)
Fixpoint vfs_skip_slashes (rest : list Z) : list Z :=
  match rest with
  | c :: r => if c =? chr_slash then vfs_skip_slashes r else rest
  | [] => []
  end.

(** [while (path[index] != '\0' && path[index] != '/') index++;]: the bytes passed. *)
Definition vfs_component (rest : list Z) : list Z :=
  until (fun c => (c =? 0) || (c =? chr_slash)) rest.

Definition vfs_lookup_fail (status : Z) : VM (Z * option Z) :=
  vinfo (fun i => i <| lookup_failures ::= incr |>) ;;;
  vfs_set_last_status status ;;;
  mret_ (status, None).

(** The body of the component loop; its variables are [current] and the suffix
    [path + index]. *)
Definition vfs_lookup_step (l : Z * list Z) : VM (Z * list Z + (Z + Z)) :=
  let '(current, rest) := l in
  if char_at rest 0 =? 0 then mret_ (inr (inl current))
  else
    let rest := vfs_skip_slashes rest in
    if char_at rest 0 =? 0 then mret_ (inr (inl current))
    else
      let name := vfs_component rest in
      r <- vfs_find_child current (Some rest) (u32 (Z.of_nat (length name))) true ;;
      let '(status, next) := r in
      if negb (status =? KERNEL_OK) then mret_ (inr (inr status))
      else mret_ (inl (default 0 next, drop (length name) rest)).

Definition vfs_lookup (path : option (list Z)) (out_node : bool) : VM (Z * option Z) :=
  info <- mget vfs_info ;;
  if negb (vfs_initialized info) then mret_ (KERNEL_ERROR_NOT_INITIALIZED, None)
  else
    match path with
    | None => vfs_set_last_status KERNEL_ERROR_INVALID_ARGUMENT ;;;
              mret_ (KERNEL_ERROR_INVALID_ARGUMENT, None)
    | Some path =>
        if negb out_node then
          vfs_set_last_status KERNEL_ERROR_INVALID_ARGUMENT ;;;
          mret_ (KERNEL_ERROR_INVALID_ARGUMENT, None)
        else
          vinfo (fun i => i <| lookup_attempts ::= incr |>) ;;;
          vinfo (fun i => i <| vfs_last_path ::= fun old => string_copy old path VFS_PATH_MAX |>) ;;;
          root <- mget vfs_root ;;
          if root =? 0 then vfs_lookup_fail KERNEL_ERROR_NOT_INITIALIZED
          else if negb (char_at path 0 =? chr_slash) then
            vfs_lookup_fail KERNEL_ERROR_INVALID_ARGUMENT
          else if vfs_path_is_root path then
            vfs_set_last_status KERNEL_OK ;;; mret_ (KERNEL_OK, Some root)
          else
            r <- mloop vfs_lookup_step (root, drop 1 path) ;;
            match r with
            | inl current => vfs_set_last_status KERNEL_OK ;;; mret_ (KERNEL_OK, Some current)
            | inr status => vfs_lookup_fail status
            end
    end.

Definition vfs_read_fail (status : Z) : VM Z :=
  vinfo (fun i => i <| vfs_read_failures ::= incr |>) ;;;
  vfs_set_last_status status ;;;
  mret_ status.

(** The result is the status and, when it is OK, [node->data] and [node->size]. *)
Definition vfs_read_file (path : option (list Z)) (out_data out_size : bool)
    : VM (Z * option (option (list Z) * Z)) :=
  if bool_decide (path = None) || negb out_data || negb out_size then
    vfs_set_last_status KERNEL_ERROR_INVALID_ARGUMENT ;;;
    mret_ (KERNEL_ERROR_INVALID_ARGUMENT, None)
  else
    vinfo (fun i => i <| vfs_read_attempts ::= incr |>) ;;;
    r <- vfs_lookup path true ;;
    let '(status, node) := r in
    if negb (status =? KERNEL_OK) then st <- vfs_read_fail status ;; mret_ (st, None)
    else
      n <- node_at (default 0 node) ;;
      if negb (is_type n VFS_NODE_FILE) then
        st <- vfs_read_fail KERNEL_ERROR_INVALID_STATE ;; mret_ (st, None)
      else
        vfs_set_last_status KERNEL_OK ;;;
        mret_ (KERNEL_OK, Some (vn_data n, vn_size n)).

(** [buffer] is the array the bytes go to; the result is the status, the array
    afterwards and [*out_bytes_read]. *)
Definition vfs_read_node (node offset : Z) (buffer : option (list Z)) (length : Z)
    (out_bytes_read : bool) : VM (Z * option (list Z) * Z) :=
  info <- mget vfs_info ;;
  if negb (vfs_initialized info) then
    st <- vfs_read_fail KERNEL_ERROR_NOT_INITIALIZED ;; mret_ (st, buffer, 0)
  else
    vinfo (fun i => i <| vfs_read_attempts ::= incr |>) ;;;
    match buffer with
    | None => st <- vfs_read_fail KERNEL_ERROR_INVALID_ARGUMENT ;; mret_ (st, buffer, 0)
    | Some buf =>
        if (node =? 0) || negb out_bytes_read then
          st <- vfs_read_fail KERNEL_ERROR_INVALID_ARGUMENT ;; mret_ (st, buffer, 0)
        else
          n <- node_at node ;;
          if negb (is_type n VFS_NODE_FILE) then
            st <- vfs_read_fail KERNEL_ERROR_INVALID_STATE ;; mret_ (st, buffer, 0)
          else
            match vn_data n with
            | None => vfs_set_last_status KERNEL_OK ;;; mret_ (KERNEL_OK, buffer, 0)
            | Some data =>
                if (vn_size n <=? offset) || (length =? 0) then
                  vfs_set_last_status KERNEL_OK ;;; mret_ (KERNEL_OK, buffer, 0)
                else
                  let available := vn_size n [-] offset in
                  let bytes_to_read := if available <? length then available else length in
                  let bytes_to_read :=
                    if VFS_READ_CHUNK_MAX <? bytes_to_read then VFS_READ_CHUNK_MAX
                    else bytes_to_read in
                  buf' <- mfold (seqZ 0 bytes_to_read) (fun b i =>
                    byte <- array_at data (offset [+] i) ;;
                    _ <- array_at b i ;;
                    mret_ (<[Z.to_nat i := byte]> b)) buf ;;
                  vfs_set_last_status KERNEL_OK ;;;
                  mret_ (KERNEL_OK, Some buf', bytes_to_read)
            end
    end.

Definition vfs_stat_node (node : Z) (out_stat : bool) : VM (Z * option vfs_stat_t) :=
  if (node =? 0) || negb out_stat then
    vfs_set_last_status KERNEL_ERROR_INVALID_ARGUMENT ;;;
    mret_ (KERNEL_ERROR_INVALID_ARGUMENT, None)
  else
    n <- node_at node ;;
    vfs_set_last_status KERNEL_OK ;;;
    mret_ (KERNEL_OK, Some {| stat_type := vfs_node_type_value (vn_type n); stat_size := vn_size n;
      stat_mode := vn_mode n; stat_flags := vn_flags n; stat_child_count := vn_child_count n |}).

Definition vfs_stat_path (path : option (list Z)) (out_stat : bool) : VM (Z * option vfs_stat_t) :=
  r <- vfs_lookup path true ;;
  let '(status, node) := r in
  if negb (status =? KERNEL_OK) then mret_ (status, None)
  else vfs_stat_node (default 0 node) out_stat.

Definition vfs_list_directory (path : option (list Z)) (out_children out_count : bool)
    : VM (Z * option (list Z * Z)) :=
  if bool_decide (path = None) || negb out_children || negb out_count then
    vfs_set_last_status KERNEL_ERROR_INVALID_ARGUMENT ;;;
    mret_ (KERNEL_ERROR_INVALID_ARGUMENT, None)
  else
    r <- vfs_lookup path true ;;
    let '(status, node) := r in
    if negb (status =? KERNEL_OK) then mret_ (status, None)
    else
      n <- node_at (default 0 node) ;;
      if negb (is_type n VFS_NODE_DIRECTORY) then
        vfs_set_last_status KERNEL_ERROR_INVALID_STATE ;;;
        mret_ (KERNEL_ERROR_INVALID_STATE, None)
      else
        vfs_set_last_status KERNEL_OK ;;;
        mret_ (KERNEL_OK, Some (vn_children n, vn_child_count n)).

Definition vfs_get_root : VM Z := mget vfs_root.
Definition vfs_get_info : VM vfs_info_t := mget vfs_info.

Definition vfs_node_type_name (type : vfs_node_type_t) : list Z :=
  match type with
  | VFS_NODE_DIRECTORY => str "dir"
  | VFS_NODE_FILE => str "file"
  | VFS_NODE_DEVICE => str "device"
  end.
