(* ===== verification/Initramfs.v ===== *)
(** * The initial file system (fs/initramfs.h, fs/initramfs.c)

    The tree of nodes that is compiled into the kernel. The address of a node
    variable is represented by its number in the order of the declarations. The
    user programs are linked in as bytes between two symbols; they are built from
    assembly and are the parameter [images]. *)
From S2P Require Import Prelude KString Vfs.

(** The bytes between [ring3_<name>_image_start] and [ring3_<name>_image_end]. *)
Record embedded_images := {
  ring3_user_image : list Z;
  ring3_hello_image : list Z;
  ring3_syscheck_image : list Z;
  ring3_sysbadptr_image : list Z;
  ring3_pid_image : list Z;
  ring3_ticks_image : list Z;
  ring3_about_image : list Z;
  ring3_os_release_image : list Z;
  ring3_cat_image : list Z;
  ring3_clear_image : list Z;
  ring3_help_image : list Z;
  ring3_args_image : list Z;
  ring3_echo_image : list Z;
  ring3_sh_image : list Z;
  ring3_uptime_image : list Z
}.

Definition LIAM_OS_VERSION : String.string := "0.8.69-dev".
Definition LIAM_OS_CODENAME : String.string := "Genesis".
Definition LIAM_OS_ARCH : String.string := "i386".
Definition chr_quote := 34.
Definition chr_newline := 10.

(** A line of the file: the key, an equals sign, the quoted value, a newline. *)
Definition release_line (key value : String.string) : list Z :=
  str key ++ [61; chr_quote] ++ str value ++ [chr_quote; chr_newline].

(** Without the terminating NUL, which [os_release_node.size] excludes. *)
Definition os_release_data : list Z :=
  release_line "NAME" "Liam OS" ++ release_line "VERSION" LIAM_OS_VERSION ++
  release_line "CODENAME" LIAM_OS_CODENAME ++ release_line "ARCH" LIAM_OS_ARCH.

Definition console_device_data : list Z := str "console device" ++ [chr_newline].

Definition elf32_sample_data : list Z := [
   127; 69; 76; 70; 1; 1; 1; 0; 0; 0; 0; 0; 0; 0; 0; 0;
   2; 0; 3; 0; 1; 0; 0; 0; 0; 0; 16; 16; 52; 0; 0; 0;
   0; 0; 0; 0; 0; 0; 0; 0; 52; 0; 32; 0; 0; 0; 0; 0;
   0; 0; 0; 0 ].

Definition hello_elf_data : list Z := [
   127; 69; 76; 70; 1; 1; 1; 0; 0; 0; 0; 0; 0; 0; 0; 0;
   2; 0; 3; 0; 1; 0; 0; 0; 0; 0; 0; 16; 52; 0; 0; 0;
   0; 0; 0; 0; 0; 0; 0; 0; 52; 0; 32; 0; 1; 0; 0; 0;
   0; 0; 0; 0; 1; 0; 0; 0; 84; 0; 0; 0; 0; 0; 0; 16;
   0; 0; 0; 16; 92; 0; 0; 0; 92; 0; 0; 0; 5; 0; 0; 0;
   0; 16; 0; 0; 232; 0; 0; 0; 0; 94; 137; 243; 131; 195; 47; 185;
   40; 0; 0; 0; 186; 0; 0; 0; 0; 184; 2; 0; 0; 0; 205; 128;
   187; 0; 0; 0; 0; 185; 0; 0; 0; 0; 186; 0; 0; 0; 0; 184;
   1; 0; 0; 0; 205; 128; 15; 11; 104; 101; 108; 108; 111; 58; 32; 69;
   76; 70; 51; 50; 32; 117; 115; 101; 114; 115; 112; 97; 99; 101; 32; 112;
   114; 111; 103; 114; 97; 109; 32; 101; 120; 101; 99; 117; 116; 101; 100; 10 ].

Definition root_node := 1.
Definition sbin_node := 2.
Definition bin_node := 3.
Definition etc_node := 4.
Definition dev_node := 5.
Definition tests_node := 6.
Definition init_node := 7.
Definition hello_node := 8.
Definition hello_elf_node := 9.
Definition syscheck_node := 10.
Definition sysbadptr_node := 11.
Definition pid_node := 12.
Definition ticks_node := 13.
Definition about_node := 14.
Definition os_release_program_node := 15.
Definition cat_node := 16.
Definition clear_node := 17.
Definition help_node := 18.
Definition uptime_node := 19.
Definition args_node := 20.
Definition echo_node := 21.
Definition sh_node := 22.
Definition os_release_node := 23.
Definition console_node := 24.
Definition elf32_sample_node := 25.

Definition root_children : list Z :=
  [sbin_node; bin_node; etc_node; dev_node; tests_node].
Definition sbin_children : list Z :=
  [init_node].
Definition bin_children : list Z :=
  [hello_node; hello_elf_node; syscheck_node; sysbadptr_node; pid_node; ticks_node; about_node; os_release_program_node; cat_node; clear_node; help_node; uptime_node; args_node; echo_node; sh_node].
Definition etc_children : list Z :=
  [os_release_node].
Definition dev_children : list Z :=
  [console_node].
Definition tests_children : list Z :=
  [elf32_sample_node].

Record initramfs_info_t := {
  initramfs_initialized : bool;
  initramfs_last_status : Z;
  node_count : Z;
  mount_count : Z
}.

#[export] Instance eta_initramfs_info : Settable initramfs_info_t := fun i =>
  Build_initramfs_info_t (initramfs_initialized i) (initramfs_last_status i) (node_count i)
    (mount_count i).

(** The file system together with the statics of initramfs.c. *)
Record initramfs_state := {
  ifs_vfs : vfs_state;
  initramfs_info : initramfs_info_t
}.

#[export] Instance eta_initramfs_state : Settable initramfs_state := fun s =>
  Build_initramfs_state (ifs_vfs s) (initramfs_info s).

Abbreviation IM := (M initramfs_state).

Definition on_vfs {A} (m : VM A) : IM A := mzoom ifs_vfs (fun v s => s <| ifs_vfs := v |>) m.

(** A directory, and a node without children whose data are [data] and whose
    size is their number. *)
Definition directory_node (name path : String.string) (parent : Z) (children : list Z) : vfs_node_t :=
  {| vn_name := Some (str name); vn_path := Some (str path); vn_type := VFS_NODE_DIRECTORY;
     vn_data := None; vn_size := 0; vn_mode := 493; vn_flags := 0; vn_parent := parent;
     vn_children := children; vn_child_count := Z.of_nat (length children) |}.

Definition leaf_node (name path : String.string) (type : vfs_node_type_t) (data : list Z)
    (mode parent : Z) : vfs_node_t :=
  {| vn_name := Some (str name); vn_path := Some (str path); vn_type := type;
     vn_data := Some data; vn_size := u32 (Z.of_nat (length data)); vn_mode := mode; vn_flags := 0;
     vn_parent := parent; vn_children := []; vn_child_count := 0 |}.

Section Initramfs.
Context (images : embedded_images).

(** The node variables as [initramfs_define_nodes] fills them: the directories, the
    programs and the other files. *)
Definition initramfs_directories : list (Z * vfs_node_t) := [
  (root_node, directory_node "" "/" 0 root_children);
  (sbin_node, directory_node "sbin" "/sbin" root_node sbin_children);
  (bin_node, directory_node "bin" "/bin" root_node bin_children);
  (etc_node, directory_node "etc" "/etc" root_node etc_children);
  (dev_node, directory_node "dev" "/dev" root_node dev_children);
  (tests_node, directory_node "tests" "/tests" root_node tests_children)
].

Definition initramfs_programs : list (Z * vfs_node_t) := [
  (init_node, leaf_node "init" "/sbin/init" VFS_NODE_FILE (ring3_user_image images) 493 sbin_node);
  (hello_node, leaf_node "hello" "/bin/hello" VFS_NODE_FILE (ring3_hello_image images) 493 bin_node);
  (hello_elf_node, leaf_node "hello-elf" "/bin/hello-elf" VFS_NODE_FILE hello_elf_data 493 bin_node);
  (syscheck_node, leaf_node "syscheck" "/bin/syscheck" VFS_NODE_FILE (ring3_syscheck_image images) 493 bin_node);
  (sysbadptr_node, leaf_node "sysbadptr" "/bin/sysbadptr" VFS_NODE_FILE (ring3_sysbadptr_image images) 493 bin_node);
  (pid_node, leaf_node "pid" "/bin/pid" VFS_NODE_FILE (ring3_pid_image images) 493 bin_node);
  (ticks_node, leaf_node "ticks" "/bin/ticks" VFS_NODE_FILE (ring3_ticks_image images) 493 bin_node);
  (about_node, leaf_node "about" "/bin/about" VFS_NODE_FILE (ring3_about_image images) 493 bin_node);
  (os_release_program_node, leaf_node "os-release" "/bin/os-release" VFS_NODE_FILE (ring3_os_release_image images) 493 bin_node);
  (cat_node, leaf_node "cat" "/bin/cat" VFS_NODE_FILE (ring3_cat_image images) 493 bin_node);
  (clear_node, leaf_node "clear" "/bin/clear" VFS_NODE_FILE (ring3_clear_image images) 493 bin_node);
  (help_node, leaf_node "help" "/bin/help" VFS_NODE_FILE (ring3_help_image images) 493 bin_node);
  (uptime_node, leaf_node "uptime" "/bin/uptime" VFS_NODE_FILE (ring3_uptime_image images) 493 bin_node);
  (args_node, leaf_node "args" "/bin/args" VFS_NODE_FILE (ring3_args_image images) 493 bin_node);
  (echo_node, leaf_node "echo" "/bin/echo" VFS_NODE_FILE (ring3_echo_image images) 493 bin_node);
  (sh_node, leaf_node "sh" "/bin/sh" VFS_NODE_FILE (ring3_sh_image images) 493 bin_node)
].

Definition initramfs_files : list (Z * vfs_node_t) := [
  (os_release_node, leaf_node "os-release" "/etc/os-release" VFS_NODE_FILE os_release_data 420 etc_node);
  (console_node, leaf_node "console" "/dev/console" VFS_NODE_DEVICE console_device_data 384 dev_node);
  (elf32_sample_node, leaf_node "elf32-sample" "/tests/elf32-sample" VFS_NODE_FILE elf32_sample_data 420 tests_node)
].

Definition initramfs_nodes : list (Z * vfs_node_t) :=
  initramfs_directories ++ initramfs_programs ++ initramfs_files.

Definition initramfs_define_nodes : IM unit :=
  on_vfs (mfor initramfs_nodes (fun '(p, n) => mmod (fun s => s <| vfs_nodes ::= <[p := n]> |>))).

Definition initramfs_initialize : IM unit :=
  initramfs_define_nodes ;;;
  mmod (fun s => s <| initramfs_info := {|
    initramfs_initialized := true; initramfs_last_status := KERNEL_OK; node_count := 25;
    mount_count := 0 |} |>).

Definition initramfs_mount : IM Z :=
  info <- mget initramfs_info ;;
  if negb (initramfs_initialized info) then
    mmod (fun s => s <| initramfs_info ::= fun i =>
      i <| initramfs_last_status := KERNEL_ERROR_NOT_INITIALIZED |> |>) ;;;
    mret_ KERNEL_ERROR_NOT_INITIALIZED
  else
    status <- on_vfs (vfs_mount_static_tree root_node) ;;
    mmod (fun s => s <| initramfs_info ::= fun i => i <| initramfs_last_status := status |> |>) ;;;
    mwhen (status =? KERNEL_OK)
      (mmod (fun s => s <| initramfs_info ::= fun i => i <| mount_count ::= incr |> |>)) ;;;
    mret_ status.

Definition initramfs_get_info : IM initramfs_info_t := mget initramfs_info.
End Initramfs.
