(* ===== verification/VfsProofs.v ===== *)
(** * Correctness of the virtual file system

    Path lookup against a reference that splits the path into its components and
    walks down the tree, and reading from a file node. *)
From S2P Require Import Prelude KString Vfs.

(** ** Well-formed trees *)

Record node_ok (nodes : gmap Z vfs_node_t) (n : vfs_node_t) : Prop := {
  nk_count : vn_child_count n = Z.of_nat (length (vn_children n));
  nk_children : forall c, c ∈ vn_children n -> c <> 0 -> is_Some (nodes !! c);
  nk_name : forall nm, vn_name n = Some nm -> Z.of_nat (length (cstr nm)) < 4294967296;
  nk_size : is_u32 (vn_size n);
  nk_data : forall d, vn_data n = Some d ->
    vn_size n <= Z.of_nat (length d) /\ Forall (fun b => 0 <= b < 256) d
}.

Definition tree_ok (nodes : gmap Z vfs_node_t) : Prop :=
  nodes !! 0 = None /\ forall p n, nodes !! p = Some n -> node_ok nodes n.

(** ** The reference: components of a path, and walking along them *)

Definition is_slash (c : Z) : bool := c =? chr_slash.

(** The nonempty pieces between slashes. *)
Definition components (path : list Z) : list (list Z) := fields is_slash path.

Definition named (nodes : gmap Z vfs_node_t) (name : list Z) (p : Z) : bool :=
  negb (p =? 0) &&
  match nodes !! p with
  | Some n => match vn_name n with Some nm => bool_decide (cstr nm = name) | None => false end
  | None => false
  end.

Definition child_named (nodes : gmap Z vfs_node_t) (d : vfs_node_t) (name : list Z) : option Z :=
  find (named nodes name) (vn_children d).

(** The node reached, or the status of the failure. *)
Fixpoint resolve (nodes : gmap Z vfs_node_t) (p : Z) (names : list (list Z)) : Z + Z :=
  match names with
  | [] => inl p
  | name :: names' =>
      match nodes !! p with
      | Some d =>
          if is_type d VFS_NODE_DIRECTORY then
            match child_named nodes d name with
            | Some q => resolve nodes q names'
            | None => inr KERNEL_ERROR_NOT_FOUND
            end
          else inr KERNEL_ERROR_INVALID_STATE
      | None => inr KERNEL_ERROR_INVALID_STATE
      end
  end.

Definition lookup_result (s : vfs_state) (path : list Z) : Z * option Z :=
  if vfs_root s =? 0 then (KERNEL_ERROR_NOT_INITIALIZED, None)
  else if negb (char_at path 0 =? chr_slash) then (KERNEL_ERROR_INVALID_ARGUMENT, None)
  else match resolve (vfs_nodes s) (vfs_root s) (components path) with
       | inl p => (KERNEL_OK, Some p)
       | inr status => (status, None)
       end.

(** The record of a lookup in [vfs_info]. *)
Definition looked_up (path : list Z) (status : Z) (i : vfs_info_t) : vfs_info_t :=
  let i := i <| lookup_attempts ::= incr |>
             <| vfs_last_path ::= fun old => string_copy old path VFS_PATH_MAX |> in
  let i := if status =? KERNEL_OK then i else i <| lookup_failures ::= incr |> in
  i <| vfs_last_status := status |>.

(** ** The loops of [vfs_lookup] *)

Lemma vfs_component_field l : vfs_component l = field is_slash l.
Proof. done. Qed.

Lemma vfs_skip_slashes_skip l : vfs_skip_slashes l = skip is_slash l.
Proof. induction l as [|c r IH]; [done|]. cbn. by rewrite IH. Qed.

Lemma components_slash r : components (chr_slash :: r) = components r.
Proof. done. Qed.

(** Comparing the first [length name] bytes decides equality with [name]. *)
Lemma name_matches_spec child_name rest :
  let name := vfs_component rest in
  length (cstr child_name) = length name ->
  vfs_name_matches child_name rest (Z.of_nat (length name)) = bool_decide (cstr child_name = name).
Proof.
  intros name Hlen. assert (Hc : cstr child_name = take (length name) child_name).
  { rewrite <- Hlen, <- until_cstr. symmetry. apply until_prefix. }
  assert (Hn : name = take (length name) rest) by (symmetry; apply until_prefix).
  apply eq_bool_prop_intro. rewrite bool_decide_spec. unfold vfs_name_matches.
  rewrite Is_true_true, forallb_forall.
  assert (Hat : forall j, (j < length name)%nat ->
    char_at child_name j = char_at (cstr child_name) j /\ char_at rest j = char_at name j).
  { intros j Hj. split; [rewrite Hc|rewrite Hn]; by rewrite char_at_take. }
  split.
  - intros H. apply list_eq_same_length with (length name); [lia|lia|].
    intros j x y Hj Hx Hy. rewrite char_at_lookup in Hx, Hy by lia.
    injection Hx as <-. injection Hy as <-. destruct (Hat j Hj) as [<- <-].
    specialize (H (Z.of_nat j)). rewrite Nat2Z.id in H. apply Z.eqb_eq, H.
    apply list_elem_of_In, elem_of_seqZ. lia.
  - intros E j Hj. apply list_elem_of_In, elem_of_seqZ in Hj. apply Z.eqb_eq.
    destruct (Hat (Z.to_nat j)) as [-> ->]; [lia|]. by rewrite E.
Qed.

(** ** Finding a child *)

Section Lookup.
Context (s : vfs_state).
Hypothesis Htree : tree_ok (vfs_nodes s).

Lemma node_at_ok p n : vfs_nodes s !! p = Some n -> node_at p s = Some (n, s).
Proof. unfold node_at. by intros ->. Qed.

Lemma wp_node_at p n (Q : vfs_node_t -> vfs_state -> Prop) :
  vfs_nodes s !! p = Some n -> Q n s -> wp (node_at p) Q s.
Proof. intros. exists n, s. split; [by apply node_at_ok|done]. Qed.

Lemma child_step_ok rest d i c :
  vn_children d !! Z.to_nat i = Some c -> node_ok (vfs_nodes s) d ->
  Z.of_nat (length (vfs_component rest)) < 4294967296 ->
  wp (vfs_child_step d rest (u32 (Z.of_nat (length (vfs_component rest)))) i)
     (fun o s' => s' = s /\
        o = if named (vfs_nodes s) (vfs_component rest) c then Some c else None) s.
Proof.
  intros Hi Hd Hlen. set (name := vfs_component rest) in *. unfold vfs_child_step, named.
  apply wp_bind, (wp_array_at _ _ c); [done|].
  destruct (Z.eqb_spec c 0) as [->|Hc]; cbn [negb andb]; [by apply wp_ret|].
  destruct (nk_children _ _ Hd c) as [n En]; [by eapply list_elem_of_lookup_2|done|].
  rewrite En. apply wp_bind, (wp_node_at _ n); [done|].
  destruct (vn_name n) as [nm|] eqn:Enm; [|by apply wp_ret].
  pose proof (nk_name _ _ (proj2 Htree _ _ En) nm Enm) as Hnm.
  rewrite string_length_cstr, !u32_small by (unfold is_u32; lia).
  destruct (Z.eqb_spec (Z.of_nat (length (cstr nm))) (Z.of_nat (length name))) as [El|El]; cbn [negb].
  - unfold name. rewrite name_matches_spec by (unfold name in El; lia). fold name.
    destruct (bool_decide (cstr nm = name)); by apply wp_ret.
  - rewrite bool_decide_eq_false_2; [by apply wp_ret|]. intros E. apply El. by rewrite E.
Qed.

Lemma find_child_scan rest d l r :
  vn_children d = l ++ r -> node_ok (vfs_nodes s) d ->
  Z.of_nat (length (vfs_component rest)) < 4294967296 ->
  wp (mfor_ret (seqZ (Z.of_nat (length l)) (Z.of_nat (length r)))
        (vfs_child_step d rest (u32 (Z.of_nat (length (vfs_component rest))))))
     (fun o s' => s' = s /\ o = find (named (vfs_nodes s) (vfs_component rest)) r) s.
Proof.
  intros Hch Hd Hlen. revert l Hch. induction r as [|c r IH]; intros l Hch; [by apply wp_ret|].
  replace (Z.of_nat (length (c :: r))) with (Z.succ (Z.of_nat (length r))) by (cbn; lia).
  rewrite seqZ_cons, Z.pred_succ by lia. cbn [mfor_ret]. apply wp_bind.
  eapply wp_mono; [apply (child_step_ok _ _ _ c); [|done|done]|].
  { rewrite Nat2Z.id, Hch. by apply list_lookup_middle. }
  intros o s' [-> ->]. cbn [find]. destruct (named _ _ c); [by apply wp_ret|].
  specialize (IH (l ++ [c])). rewrite length_app, Nat2Z.inj_add in IH. cbn [length] in IH.
  apply IH. by rewrite Hch, <- app_assoc.
Qed.

Lemma find_child_ok p rest d :
  p <> 0 -> vfs_nodes s !! p = Some d ->
  Z.of_nat (length (vfs_component rest)) < 4294967296 ->
  wp (vfs_find_child p (Some rest) (u32 (Z.of_nat (length (vfs_component rest)))) true)
     (fun r s' => s' = s /\ r =
        if is_type d VFS_NODE_DIRECTORY then
          match child_named (vfs_nodes s) d (vfs_component rest) with
          | Some c => (KERNEL_OK, Some c)
          | None => (KERNEL_ERROR_NOT_FOUND, None)
          end
        else (KERNEL_ERROR_INVALID_STATE, None)) s.
Proof.
  intros Hp Ed Hlen. destruct Htree as [H0 Hall]. pose proof (Hall _ _ Ed) as Hd.
  unfold vfs_find_child. rewrite (proj2 (Z.eqb_neq p 0)) by done. cbn [orb negb].
  apply wp_bind. apply (wp_node_at _ d); [done|].
  destruct (is_type d VFS_NODE_DIRECTORY); cbn [negb]; [|by apply wp_ret].
  apply wp_bind. rewrite (nk_count _ _ Hd).
  eapply wp_mono; [apply (find_child_scan rest d [] (vn_children d)); done|].
  intros o s' [-> ->]. unfold child_named.
  destruct (find _ _); by apply wp_ret.
Qed.

Lemma child_named_node d name c : child_named (vfs_nodes s) d name = Some c ->
  c <> 0 /\ is_Some (vfs_nodes s !! c).
Proof.
  intros H. apply find_some in H as [_ H]. unfold named in H. bool_simpl.
  split; [done|]. destruct (vfs_nodes s !! c); [eauto|done].
Qed.

(** ** The component loop *)

Lemma lookup_loop_ok p rest :
  is_Some (vfs_nodes s !! p) -> Z.of_nat (length rest) < 4294967296 ->
  wp (mloop vfs_lookup_step (p, rest))
     (fun r s' => s' = s /\ r = resolve (vfs_nodes s) p (components rest)) s.
Proof.
  intros Hp Hlen.
  apply (wp_loop _ (fun '(q, r) s' => s' = s /\ is_Some (vfs_nodes s !! q) /\
      Z.of_nat (length r) < 4294967296 /\
      resolve (vfs_nodes s) q (components r) = resolve (vfs_nodes s) p (components rest))
    (fun '(_, r) _ => Z.of_nat (length r))); [|done|cbv beta iota; lia].
  intros [q r] s' (-> & [d Ed] & Hr & <-). unfold vfs_lookup_step.
  destruct (Z.eqb_spec (char_at r 0) 0) as [E|E].
  { apply wp_ret. unfold components. by rewrite fields_nul. }
  unfold components. rewrite vfs_skip_slashes_skip, <- (fields_skip is_slash eq_refl r).
  pose proof (skip_length is_slash r) as Hle. pose proof (skip_head is_slash eq_refl r) as Hns.
  set (t := skip is_slash r) in *. destruct (Z.eqb_spec (char_at t 0) 0) as [E'|E'].
  { apply wp_ret. by rewrite fields_nul. }
  rewrite vfs_component_field, (fields_step is_slash t E' Hns).
  pose proof (field_nonempty is_slash t E' Hns) as Hne.
  pose proof (until_length _ t : (length (field is_slash t) <= length t)%nat) as Hul.
  assert (q <> 0). { destruct Htree as [H0 _]. intros ->. by rewrite H0 in Ed. }
  apply wp_bind. eapply wp_mono; [apply find_child_ok; [done|exact Ed|rewrite vfs_component_field; lia]|].
  intros x s' [-> ->]. rewrite vfs_component_field. cbn [resolve]. rewrite Ed.
  destruct (is_type d VFS_NODE_DIRECTORY); [|cbn; by apply wp_ret].
  destruct (child_named _ d _) as [c|] eqn:Ech; [|cbn; by apply wp_ret].
  cbn. apply wp_ret. apply child_named_node in Ech as [_ Hc].
  rewrite length_drop. split_and!; try done; try lia.
  destruct (field is_slash t); [done|]. cbn [length] in *. lia.
Qed.

End Lookup.

Lemma resolve_status nodes p names st : resolve nodes p names = inr st -> (st =? KERNEL_OK) = false.
Proof.
  revert p. induction names as [|name names IH]; intros p; [done|]. cbn.
  destruct (nodes !! p) as [d|]; [|by intros [= <-]].
  destruct (is_type d _); [|by intros [= <-]].
  destruct (child_named nodes d name); [apply IH|by intros [= <-]].
Qed.

(** A lookup computes the reference and changes nothing but its own record. *)
Lemma vfs_lookup_ok s path :
  tree_ok (vfs_nodes s) ->
  vfs_initialized (vfs_info s) = true -> vfs_root s = 0 \/ is_Some (vfs_nodes s !! vfs_root s) ->
  Z.of_nat (length path) < 4294967296 ->
  wp (vfs_lookup (Some path) true) (fun r s' => r = lookup_result s path /\
    s' = s <| vfs_info ::= looked_up path (fst r) |>) s.
Proof.
  intros Htree Hini Hroot Hlen. unfold vfs_lookup, lookup_result.
  unfold vfs_lookup_fail, vfs_set_last_status, vinfo.
  wp_step. wp_step. rewrite Hini. cbn [negb]. do 6 wp_step. get_set.
  destruct (Z.eqb_spec (vfs_root s) 0) as [E|Hr0].
  { wp_steps. split; [done|]. by destruct s. }
  destruct (Z.eqb_spec (char_at path 0) chr_slash) as [Es|]; cbn [negb].
  2:{ wp_steps. split; [done|]. by destruct s. }
  assert (exists r, path = chr_slash :: r) as [r ->].
  { destruct path as [|c r]; [done|]. exists r. unfold char_at in Es. cbn in Es. by subst. }
  rewrite components_slash. unfold vfs_path_is_root. rewrite Es, Z.eqb_refl. cbn [andb].
  change (char_at (chr_slash :: r) 1) with (char_at r 0).
  destruct (Z.eqb_spec (char_at r 0) 0) as [E0|E0].
  { unfold components. rewrite fields_nul by done. cbn [resolve].
    wp_steps. split; [done|]. by destruct s. }
  cbn [length] in Hlen. destruct Hroot as [?|Hroot]; [done|].
  change (drop 1 (chr_slash :: r)) with (drop 0 r). rewrite drop_0.
  wp_step. eapply wp_mono; [apply lookup_loop_ok; [exact Htree|exact Hroot|lia]|].
  intros x s' [-> ->]. get_set.
  destruct (resolve _ _ _) as [p|st] eqn:Er; wp_steps; (split; [done|]).
  - by destruct s.
  - cbn [fst]. unfold looked_up. rewrite (resolve_status _ _ _ _ Er). by destruct s.
Qed.

(** ** Canonical paths *)

Definition is_word (w : list Z) : Prop :=
  w <> [] /\ Forall (fun c => c <> 0 /\ is_slash c = false) w.

Definition canonical_path (names : list (list Z)) : list Z :=
  match names with
  | [] => [chr_slash]
  | _ => concat ((fun w => chr_slash :: w) <$> names)
  end.

Lemma components_canonical names : Forall is_word names -> components (canonical_path names) = names.
Proof.
  destruct names as [|w0 names]; [done|]. unfold canonical_path. generalize (w0 :: names). clear.
  induction 1 as [|w names Hw Hns IH]; [done|]. cbn [fmap list_fmap concat].
  change ((chr_slash :: w) ++ ?r) with (chr_slash :: (w ++ r)). rewrite components_slash.
  set (rest := concat _) in *.
  destruct Hw as [Hne Hw]. assert (field is_slash (w ++ rest) = w) as Ec.
  { apply field_word; [done|]. subst rest. destruct names; [by left|by right]. }
  destruct w as [|c w]; [done|]. pose proof Hw as Hw'. apply Forall_cons in Hw' as [[? ?] _].
  unfold components. rewrite fields_step by done. rewrite Ec, drop_app_length. f_equal. exact IH.
Qed.

(** The node reached from the root through directories by the given names, each
    of which names one child only. *)
Inductive linked (nodes : gmap Z vfs_node_t) (root : Z) : list (list Z) -> Z -> Prop :=
| linked_root : linked nodes root [] root
| linked_child names p d q w :
    linked nodes root names p -> nodes !! p = Some d -> vn_type d = VFS_NODE_DIRECTORY ->
    q ∈ vn_children d -> named nodes w q = true ->
    (forall q', q' ∈ vn_children d -> named nodes w q' = true -> q' = q) ->
    linked nodes root (names ++ [w]) q.

Lemma resolve_app nodes p ns ns' :
  resolve nodes p (ns ++ ns') =
    match resolve nodes p ns with inl q => resolve nodes q ns' | inr st => inr st end.
Proof.
  revert p. induction ns as [|n ns IH]; intros p; [done|]. cbn.
  destruct (nodes !! p) as [d|]; [|done]. destruct (is_type d _); [|done].
  by destruct (child_named nodes d n).
Qed.

Lemma linked_resolve nodes root names p : linked nodes root names p -> resolve nodes root names = inl p.
Proof.
  induction 1 as [|names p d q w Hl IH Ed Ht Hq Hn Hu]; [done|].
  rewrite resolve_app, IH. cbn. rewrite Ed. unfold is_type. rewrite bool_decide_eq_true_2 by done.
  unfold child_named. destruct (find _ _) as [q'|] eqn:E.
  - apply find_some in E as [Hin E]. f_equal. apply Hu; [by apply list_elem_of_In|done].
  - exfalso. apply list_elem_of_In in Hq. by rewrite (find_none _ _ E q Hq) in Hn.
Qed.

(** ** Reading *)

Definition read_length (n : vfs_node_t) (offset length : Z) : Z :=
  match vn_data n with
  | None => 0
  | Some _ => if vn_size n <=? offset then 0
              else Z.min (Z.min length (vn_size n - offset)) VFS_READ_CHUNK_MAX
  end.

Definition node_data (n : vfs_node_t) : list Z := default [] (vn_data n).

(** The bytes a read delivers. *)
Definition read_bytes (n : vfs_node_t) (offset length : Z) : list Z :=
  take (Z.to_nat (read_length n offset length)) (drop (Z.to_nat offset) (node_data n)).

Lemma read_length_bound n offset length :
  0 <= length -> 0 <= read_length n offset length <= Z.min length 512.
Proof.
  intros. unfold read_length, VFS_READ_CHUNK_MAX. destruct (vn_data n); [|lia].
  destruct (Z.leb_spec (vn_size n) offset); lia.
Qed.

Lemma read_bytes_length nodes n offset length :
  node_ok nodes n -> 0 <= offset -> 0 <= length ->
  Z.of_nat (base.length (read_bytes n offset length)) = read_length n offset length.
Proof.
  intros Hn Ho Hl. unfold read_bytes, read_length, node_data. pose proof (nk_data _ _ Hn) as Hd.
  destruct (vn_data n) as [d|]; [|done]. specialize (Hd d eq_refl).
  change (default [] (Some d)) with d.
  destruct (Z.leb_spec (vn_size n) offset); [done|].
  rewrite length_take, length_drop. unfold VFS_READ_CHUNK_MAX. lia.
Qed.

(** The copying loop. *)
Lemma copy_loop_ok {S} (data buf : list Z) offset k (s : S) :
  0 <= offset -> 0 <= k <= Z.of_nat (length buf) -> offset + k <= Z.of_nat (length data) ->
  offset + k < 4294967296 ->
  wp (mfold (seqZ 0 k) (fun b i =>
        byte <- array_at data (offset [+] i) ;;
        _ <- array_at b i ;;
        mret_ (<[Z.to_nat i := byte]> b)) buf)
     (fun b s' => s' = s /\
        b = take (Z.to_nat k) (drop (Z.to_nat offset) data) ++ drop (Z.to_nat k) buf) s.
Proof.
  intros Ho Hk Hd Hw.
  apply (wp_fold _ _ (fun l b s' => s' = s /\
    b = take (length l) (drop (Z.to_nat offset) data) ++ drop (length l) buf)).
  - by rewrite take_0, drop_0.
  - intros l i r b s' E [-> ->].
    assert (seqZ 0 k !! length l = Some i) as Hi by (by rewrite E, list_lookup_middle).
    apply lookup_seqZ in Hi as [-> Hlt]. rewrite Z.add_0_l, u32_small by (unfold is_u32; lia).
    set (j := length l) in *. rewrite length_app. cbn [length]. fold j.
    destruct (lookup_lt_is_Some_2 data (Z.to_nat offset + j)) as [x Ex]; [lia|].
    assert (length (take j (drop (Z.to_nat offset) data)) = j) as Hj
      by (rewrite length_take, length_drop; lia).
    apply wp_bind, (wp_array_at _ _ x).
    { replace (Z.to_nat (offset + Z.of_nat j)) with (Z.to_nat offset + j)%nat by lia. done. }
    destruct (lookup_lt_is_Some_2 buf j) as [y Ey]; [lia|].
    apply wp_bind, (wp_array_at _ _ y).
    { rewrite lookup_app_r by lia. by rewrite Nat2Z.id, Hj, Nat.sub_diag, lookup_drop, Nat.add_0_r. }
    apply wp_ret. split; [done|]. rewrite Nat2Z.id, insert_app_r_alt by lia.
    rewrite Hj, Nat.sub_diag, (drop_S buf y j) by done. cbn [insert list_insert].
    rewrite (Nat.add_1_r j), (take_S_r _ _ x) by (by rewrite lookup_drop).
    by rewrite <- app_assoc.
  - intros b s' [-> ->]. rewrite length_seqZ. done.
Qed.

(** A read of a file returns its bytes and leaves the rest of the buffer alone. *)
Lemma vfs_read_node_ok s node n offset buf length :
  tree_ok (vfs_nodes s) -> vfs_initialized (vfs_info s) = true ->
  vfs_nodes s !! node = Some n -> vn_type n = VFS_NODE_FILE ->
  is_u32 offset -> is_u32 length -> read_length n offset length <= Z.of_nat (base.length buf) ->
  wp (vfs_read_node node offset (Some buf) length true) (fun r s' =>
    r = (KERNEL_OK,
         Some (read_bytes n offset length ++
               drop (Z.to_nat (read_length n offset length)) buf),
         read_length n offset length) /\
    s' = s <| vfs_info ::= fun i => i <| vfs_read_attempts ::= incr |>
                                      <| vfs_last_status := KERNEL_OK |> |>) s.
Proof.
  intros [H0 Htree] Hini En Ht Ho Hl Hb. pose proof (Htree _ _ En) as Hn. unfold is_u32 in *.
  unfold vfs_read_node, vfs_set_last_status, vinfo. wp_step. wp_step. rewrite Hini. cbn [negb].
  wp_step. wp_step. rewrite (proj2 (Z.eqb_neq node 0)) by (by intros ->; rewrite H0 in En).
  cbn [orb negb]. wp_step. apply (wp_node_at _ _ n); [exact En|]. unfold is_type.
  rewrite bool_decide_eq_true_2 by done. cbn [negb]. unfold read_bytes, read_length, node_data in *.
  pose proof (nk_data _ _ Hn) as Hd. pose proof (nk_size _ _ Hn) as Hs. unfold is_u32 in Hs.
  destruct (vn_data n) as [d|]; [|wp_steps; split; [done|by destruct s]]. specialize (Hd d eq_refl).
  destruct (Z.leb_spec (vn_size n) offset); cbn [orb]; [wp_steps; split; [done|by destruct s]|].
  destruct (Z.eqb_spec length 0) as [->|Hl0].
  { wp_steps. split; [|by destruct s]. unfold VFS_READ_CHUNK_MAX.
    replace (Z.min (Z.min 0 (vn_size n - offset)) 512) with 0 by lia. done. }
  rewrite u32_small by (unfold is_u32; lia). change (default [] (Some d)) with d.
  set (k := if VFS_READ_CHUNK_MAX <? _ then _ else _).
  assert (k = Z.min (Z.min length (vn_size n - offset)) VFS_READ_CHUNK_MAX) as ->.
  { subst k. unfold VFS_READ_CHUNK_MAX. destruct (Z.ltb_spec (vn_size n - offset) length);
      [destruct (Z.ltb_spec 512 (vn_size n - offset))|destruct (Z.ltb_spec 512 length)]; lia. }
  unfold VFS_READ_CHUNK_MAX in *. remember (Z.min (Z.min length (vn_size n - offset)) 512) as k eqn:Ek.
  wp_step. eapply wp_mono; [apply copy_loop_ok; lia|]. intros b s' [-> ->].
  wp_steps. split; [done|]. by destruct s.
Qed.
