(* ===== verification/Process.v ===== *)
(** * The process table (core/process.h, core/process.c)

    A table of 16 processes, each with its arguments and open files. A
    [process_t*] is the index of the slot it points to, [None] when it is NULL.
    The functions that load and run a program are in [Exec]; here is everything
    that only touches the statics of process.c, and [fd_table_initialize_process]
    (core/fd_table.c), which process.c calls. *)
From S2P Require Import Prelude KString.

Definition PROCESS_MAX_PROCESSES : nat := 16.
Definition PROCESS_NAME_MAX : nat := 32.
Definition PROCESS_INVALID_PID := 0.
Definition PROCESS_MAX_OPEN_FILES : nat := 16.
Definition PROCESS_MAX_ARGUMENTS : nat := 8.
Definition PROCESS_ARGUMENT_MAX : nat := 64.
Definition PROCESS_ARGUMENT_LINE_MAX : nat := 128.
Definition PROCESS_IMAGE_PATH_MAX : nat := 64.

(** Conversion to [int32_t]. *)
Definition s32 (z : Z) : Z := (z + 2147483648) mod 4294967296 - 2147483648.

Record process_file_t := {
  file_used : bool;
  file_node : Z;
  file_offset : Z;
  file_flags : Z
}.

#[export] Instance eta_process_file : Settable process_file_t := fun f =>
  Build_process_file_t (file_used f) (file_node f) (file_offset f) (file_flags f).

Inductive process_state_t :=
  PROCESS_UNUSED | PROCESS_READY | PROCESS_RUNNING | PROCESS_EXITED | PROCESS_FAILED.

#[export] Instance process_state_eq_dec : EqDecision process_state_t.
Proof. solve_decision. Defined.

Record process_t := {
  p_pid : Z;
  p_name : list Z;
  p_state : process_state_t;
  p_entry : Z;
  p_user_stack : Z;
  p_image_path : list Z;
  p_exit_code : Z;
  p_last_status : Z;
  p_runs : Z;
  p_argc : Z;
  p_arguments : list Z;
  p_argv : list (list Z);
  p_files : list process_file_t
}.

#[export] Instance eta_process : Settable process_t := fun p =>
  Build_process_t (p_pid p) (p_name p) (p_state p) (p_entry p) (p_user_stack p) (p_image_path p)
    (p_exit_code p) (p_last_status p) (p_runs p) (p_argc p) (p_arguments p) (p_argv p) (p_files p).

Record process_info_t := {
  pi_initialized : bool;
  table_capacity : Z;
  used_slots : Z;
  current_pid : Z;
  info_next_pid : Z;
  create_attempts : Z;
  successful_creates : Z;
  failed_creates : Z;
  run_attempts : Z;
  process_successful_runs : Z;
  process_failed_runs : Z;
  exit_count : Z;
  failed_processes : Z;
  last_created_pid : Z;
  last_run_pid : Z;
  last_exit_pid : Z;
  last_exit_code : Z;
  last_exit_status : Z;
  last_exit_name : list Z;
  has_last_exit : bool;
  process_last_status : Z
}.

#[export] Instance eta_process_info : Settable process_info_t := fun i =>
  Build_process_info_t (pi_initialized i) (table_capacity i) (used_slots i) (current_pid i)
    (info_next_pid i) (create_attempts i) (successful_creates i) (failed_creates i) (run_attempts i)
    (process_successful_runs i) (process_failed_runs i) (exit_count i) (failed_processes i)
    (last_created_pid i) (last_run_pid i) (last_exit_pid i) (last_exit_code i) (last_exit_status i)
    (last_exit_name i) (has_last_exit i) (process_last_status i).

Record process_state := {
  process_table : list process_t;
  next_pid : Z;
  current_process : option nat;
  process_count : Z;
  process_info : process_info_t
}.

#[export] Instance eta_process_state : Settable process_state := fun s =>
  Build_process_state (process_table s) (next_pid s) (current_process s) (process_count s)
    (process_info s).

Abbreviation PM := (M process_state).

(** [process_table[i]] *)
Definition proc_at (i : nat) : PM process_t := fun s =>
  match process_table s !! i with Some p => Some (p, s) | None => None end.

Definition upd_proc (i : nat) (f : process_t -> process_t) : PM unit :=
  mmod (fun s => s <| process_table ::= alter f i |>).

Definition pinfo (f : process_info_t -> process_info_t) : PM unit :=
  mmod (fun s => s <| process_info ::= f |>).

Definition pstate_is (p : process_t) (st : process_state_t) : bool := bool_decide (p_state p = st).

(** ** Operations *)

(** core/fd_table.c, on a process that is not NULL. *)
Definition closed_file : process_file_t :=
  {| file_used := false; file_node := 0; file_offset := 0; file_flags := 0 |}.

Definition fd_table_initialize_process (p : process_t) : process_t :=
  p <| p_files ::= fun files => foldl (fun fs i => <[i := closed_file]> fs) files
                                  (seq 0 PROCESS_MAX_OPEN_FILES) |>.

Definition process_clear_arguments (p : process_t) : process_t :=
  p <| p_argc := 0 |>
    <| p_arguments ::= fun a => string_clear a PROCESS_ARGUMENT_LINE_MAX |>
    <| p_argv ::= fun argv =>
         foldl (fun av i => alter (fun a => string_clear a PROCESS_ARGUMENT_MAX) i av) argv
           (seq 0 PROCESS_MAX_ARGUMENTS) |>.

Definition process_reset_slot (p : process_t) : process_t :=
  fd_table_initialize_process (process_clear_arguments (
    p <| p_pid := PROCESS_INVALID_PID |>
      <| p_name ::= <[0%nat := 0]> |>
      <| p_state := PROCESS_UNUSED |>
      <| p_entry := 0 |>
      <| p_user_stack := 0 |>
      <| p_image_path ::= fun a => string_clear a PROCESS_IMAGE_PATH_MAX |>
      <| p_exit_code := 0 |>
      <| p_last_status := KERNEL_OK |>
      <| p_runs := 0 |>)).

Definition process_initialize : PM unit :=
  mfor (seq 0 PROCESS_MAX_PROCESSES) (fun i => upd_proc i process_reset_slot) ;;;
  mmod (fun s => s <| next_pid := 1 |> <| current_process := None |> <| process_count := 0 |>) ;;;
  pinfo (fun i => {|
    pi_initialized := true; table_capacity := Z.of_nat PROCESS_MAX_PROCESSES; used_slots := 0;
    current_pid := PROCESS_INVALID_PID; info_next_pid := 1; create_attempts := 0;
    successful_creates := 0; failed_creates := 0; run_attempts := 0; process_successful_runs := 0;
    process_failed_runs := 0; exit_count := 0; failed_processes := 0;
    last_created_pid := PROCESS_INVALID_PID; last_run_pid := PROCESS_INVALID_PID;
    last_exit_pid := PROCESS_INVALID_PID; last_exit_code := 0; last_exit_status := KERNEL_OK;
    last_exit_name := <[0%nat := 0]> (last_exit_name i); has_last_exit := false;
    process_last_status := KERNEL_OK |}).

(** [for (i ...) if (test(&process_table[i])) return &process_table[i];] *)
Definition process_search (test : process_t -> bool) : PM (option nat) :=
  mfor_ret (seq 0 PROCESS_MAX_PROCESSES) (fun i =>
    p <- proc_at i ;; mret_ (if test p then Some i else None)).

Definition process_find_free_slot : PM (option nat) :=
  process_search (fun p => pstate_is p PROCESS_UNUSED).

Definition process_create_fail (status : Z) : PM (Z * option nat) :=
  pinfo (fun i => i <| failed_creates ::= incr |> <| process_last_status := status |>) ;;;
  mret_ (status, None).

(** [process->argc = 1; string_copy(process->argv[0], process->name, 64);] *)
Definition process_name_argument (p : process_t) : process_t :=
  p <| p_argc := 1 |>
    <| p_argv ::= alter (fun a => string_copy a (p_name p) PROCESS_ARGUMENT_MAX) 0%nat |>.

Definition process_create (name : option (list Z)) (entry user_stack : Z) (out_process : bool)
    : PM (Z * option nat) :=
  pinfo (fun i => i <| create_attempts ::= incr |>) ;;;
  match name with
  | None => process_create_fail KERNEL_ERROR_INVALID_ARGUMENT
  | Some name =>
      if negb out_process then process_create_fail KERNEL_ERROR_INVALID_ARGUMENT
      else if (entry =? 0) || (user_stack =? 0) then
        process_create_fail KERNEL_ERROR_INVALID_ARGUMENT
      else
        slot <- process_find_free_slot ;;
        match slot with
        | None => process_create_fail KERNEL_ERROR_OUT_OF_MEMORY
        | Some i =>
            pid <- mget next_pid ;;
            mmod (fun s => s <| next_pid ::= incr |>) ;;;
            upd_proc i (fun p => p <| p_pid := pid |>
              <| p_name ::= fun old => string_copy old name PROCESS_NAME_MAX |>
              <| p_state := PROCESS_READY |> <| p_entry := entry |> <| p_user_stack := user_stack |>
              <| p_image_path ::= fun a => string_clear a PROCESS_IMAGE_PATH_MAX |>
              <| p_exit_code := 0 |> <| p_last_status := KERNEL_OK |> <| p_runs := 0 |>) ;;;
            upd_proc i process_clear_arguments ;;;
            upd_proc i process_name_argument ;;;
            upd_proc i fd_table_initialize_process ;;;
            mmod (fun s => s <| process_count ::= incr |>) ;;;
            mmod (fun s => s <| process_info ::= fun i =>
              i <| used_slots := process_count s |> <| info_next_pid := next_pid s |>
                <| successful_creates ::= incr |> <| last_created_pid := pid |>
                <| process_last_status := KERNEL_OK |> |>) ;;;
            mret_ (KERNEL_OK, Some i)
        end
  end.

Definition process_configure_image_path (process : option nat) (path : option (list Z)) : PM Z :=
  match process, path with
  | Some i, Some path =>
      upd_proc i (fun p => p <| p_image_path ::= fun old =>
        string_copy old path PROCESS_IMAGE_PATH_MAX |>) ;;;
      mret_ KERNEL_OK
  | _, _ => mret_ KERNEL_ERROR_INVALID_ARGUMENT
  end.

(** The loop that splits the argument line; its variable is [cursor]. *)
Definition process_argument_step (i : nat) (cursor : list Z) : PM (list Z + unit) :=
  p <- proc_at i ;;
  if negb (negb (char_at cursor 0 =? 0) && (p_argc p <? Z.of_nat PROCESS_MAX_ARGUMENTS))
  then mret_ (inr tt)
  else
    old <- array_at (p_argv p) (p_argc p) ;;
    let '(argument, copied) := string_copy_until_space old cursor PROCESS_ARGUMENT_MAX in
    upd_proc i (fun q => q <| p_argv ::= <[Z.to_nat (p_argc p) := argument]> |>) ;;;
    if (copied =? 0)%nat then mret_ (inr tt)
    else
      upd_proc i (fun p => p <| p_argc ::= incr |>) ;;;
      mret_ (inl (string_trim_left (drop copied cursor))).

Definition process_configure_arguments (process : option nat) (arguments : option (list Z)) : PM Z :=
  match process with
  | None => mret_ KERNEL_ERROR_INVALID_ARGUMENT
  | Some i =>
      upd_proc i process_clear_arguments ;;;
      upd_proc i process_name_argument ;;;
      match arguments with
      | None => mret_ KERNEL_OK
      | Some arguments =>
          let cursor := string_trim_left arguments in
          if char_at cursor 0 =? 0 then mret_ KERNEL_OK
          else
            upd_proc i (fun p => p <| p_arguments ::= fun old =>
              string_copy old cursor PROCESS_ARGUMENT_LINE_MAX |>) ;;;
            p <- proc_at i ;;
            mloop (process_argument_step i) (string_trim_left (p_arguments p)) ;;;
            mret_ KERNEL_OK
      end
  end.

Definition process_get_current_argc : PM Z :=
  current <- mget current_process ;;
  match current with
  | None => mret_ 0
  | Some i => p <- proc_at i ;; mret_ (p_argc p)
  end.

(** The result is the status, the buffer and [*out_length] when it was assigned. *)
Definition process_get_current_argument (index : Z) (buffer : option (list Z)) (length : Z)
    (out_length : bool) : PM (Z * option (list Z) * option Z) :=
  current <- mget current_process ;;
  match current, buffer with
  | Some i, Some buf =>
      if negb out_length || (length =? 0) then mret_ (KERNEL_ERROR_INVALID_ARGUMENT, buffer, None)
      else
        p <- proc_at i ;;
        if p_argc p <=? index then mret_ (KERNEL_ERROR_NOT_FOUND, buffer, None)
        else
          argument <- array_at (p_argv p) index ;;
          let argument_length := string_length argument in
          if length <? argument_length [+] 1 then mret_ (KERNEL_ERROR_UNSUPPORTED, buffer, None)
          else mret_ (KERNEL_OK, Some (string_copy buf argument (Z.to_nat length)),
                      Some argument_length)
  | _, _ => mret_ (KERNEL_ERROR_INVALID_ARGUMENT, buffer, None)
  end.

(** What [process_run] and [process_mark_exit] record of a process that ended. *)
Definition note_exit (p : process_t) (exit_code status : Z) (i : process_info_t) : process_info_t :=
  i <| last_exit_pid := p_pid p |> <| last_exit_code := exit_code |> <| last_exit_status := status |>
    <| last_exit_name ::= fun old => string_copy old (p_name p) PROCESS_NAME_MAX |>
    <| has_last_exit := true |>.

Definition process_mark_exit (exit_code : Z) : PM unit :=
  current <- mget current_process ;;
  match current with
  | None => mret_ tt
  | Some i =>
      upd_proc i (fun p => p <| p_exit_code := exit_code |> <| p_state := PROCESS_EXITED |>) ;;;
      p <- proc_at i ;;
      pinfo (fun i => note_exit p exit_code KERNEL_OK (i <| exit_count ::= incr |>))
  end.

Definition process_get_current_pid : PM Z :=
  current <- mget current_process ;;
  match current with
  | None => mret_ PROCESS_INVALID_PID
  | Some i => p <- proc_at i ;; mret_ (p_pid p)
  end.

Definition process_get_current_mutable : PM (option nat) := mget current_process.
Definition process_get_count : PM Z := mget process_count.

Definition process_find_by_pid_mutable (pid : Z) : PM (option nat) :=
  if pid =? PROCESS_INVALID_PID then mret_ None
  else process_search (fun p => negb (pstate_is p PROCESS_UNUSED) && (p_pid p =? pid)).

Definition process_find_next_ready : PM (option nat) :=
  process_search (fun p => pstate_is p PROCESS_READY).

(** The parts of [process_run] that keep the table: a process whose image could
    not be loaded, ... *)
Definition process_load_failed (n : nat) (load_status : Z) : PM unit :=
  p <- proc_at n ;;
  pinfo (fun i => i <| process_failed_runs ::= incr |> <| last_run_pid := p_pid p |>
                    <| process_last_status := load_status |>) ;;;
  upd_proc n (fun p => p <| p_last_status := load_status |> <| p_state := PROCESS_FAILED |>) ;;;
  pinfo (fun i => i <| failed_processes ::= incr |>).

(** ... the process that starts to run, ... *)
Definition process_begin (n : nat) : PM unit :=
  p <- proc_at n ;;
  upd_proc n (fun p => p <| p_state := PROCESS_RUNNING |> <| p_runs ::= incr |>
                         <| p_exit_code := 0 |> <| p_last_status := KERNEL_OK |>) ;;;
  mmod (fun s => s <| current_process := Some n |>) ;;;
  pinfo (fun i => i <| current_pid := p_pid p |> <| last_run_pid := p_pid p |>).

(** ... and the process whose run is over. *)
Definition process_finish (n : nat) (status : Z) : PM unit :=
  p <- proc_at n ;;
  mwhen (pstate_is p PROCESS_RUNNING)
    (if status =? KERNEL_OK then
       upd_proc n (fun p => p <| p_state := PROCESS_EXITED |> <| p_exit_code := 0 |>) ;;;
       pinfo (fun i => note_exit p 0 KERNEL_OK (i <| exit_count ::= incr |>))
     else
       upd_proc n (fun p => p <| p_state := PROCESS_FAILED |> <| p_exit_code := -1 |>) ;;;
       pinfo (fun i => note_exit p (-1) status (i <| failed_processes ::= incr |>))) ;;;
  upd_proc n (fun p => p <| p_last_status := status |>) ;;;
  mmod (fun s => s <| current_process := None |>) ;;;
  pinfo (fun i => i <| current_pid := PROCESS_INVALID_PID |> <| process_last_status := status |>) ;;;
  if status =? KERNEL_OK then pinfo (fun i => i <| process_successful_runs ::= incr |>)
  else pinfo (fun i => i <| process_failed_runs ::= incr |>).

Definition process_clear_exited : PM Z :=
  cleared <- mfold (seq 0 PROCESS_MAX_PROCESSES) (fun cleared i =>
    p <- proc_at i ;;
    if negb (pstate_is p PROCESS_EXITED) && negb (pstate_is p PROCESS_FAILED) then mret_ cleared
    else upd_proc i process_reset_slot ;;; mret_ (incr cleared)) 0 ;;
  mmod (fun s => s <| process_count := if process_count s <? cleared then 0
                                       else process_count s [-] cleared |>) ;;;
  mmod (fun s => s <| process_info ::= fun i =>
    i <| used_slots := process_count s |> <| process_last_status := KERNEL_OK |> |>) ;;;
  mret_ cleared.

Definition process_get_info : PM process_info_t :=
  pid <- process_get_current_pid ;;
  mmod (fun s => s <| process_info ::= fun i =>
    i <| used_slots := process_count s |> <| current_pid := pid |>
      <| info_next_pid := next_pid s |> |>) ;;;
  mget process_info.

Definition process_state_name (state : process_state_t) : list Z :=
  match state with
  | PROCESS_UNUSED => str "unused"
  | PROCESS_READY => str "ready"
  | PROCESS_RUNNING => str "running"
  | PROCESS_EXITED => str "exited"
  | PROCESS_FAILED => str "failed"
  end.
