(* ===== verification/ProcessProofs.v ===== *)
(** * Correctness of the process table

    The invariant of the table and the contracts of the operations of [Process]:
    creation, clearing, searching, and splitting the argument line. *)
From S2P Require Import Prelude KString Process.

(** ** Loops over all elements of an array *)

Lemma foldl_insert {A} (x : A) n l :
  (n <= length l)%nat ->
  foldl (fun fs i => <[i := x]> fs) l (seq 0 n) = replicate n x ++ drop n l.
Proof.
  induction n as [|n IH]; intros Hn; [by rewrite drop_0|].
  rewrite seq_S, foldl_app, IH, replicate_S_end, <- app_assoc by lia. cbn.
  destruct (lookup_lt_is_Some_2 l n) as [y Ey]; [lia|]. rewrite (drop_S l y n) by done.
  rewrite insert_app_r_alt by (rewrite length_replicate; lia).
  by rewrite length_replicate, Nat.sub_diag.
Qed.

Lemma foldl_alter {A} (f : A -> A) n l :
  (n <= length l)%nat ->
  foldl (fun av i => alter f i av) l (seq 0 n) = (f <$> take n l) ++ drop n l.
Proof.
  induction n as [|n IH]; intros Hn; [by rewrite drop_0|].
  rewrite seq_S, foldl_app, IH by lia. cbn.
  destruct (lookup_lt_is_Some_2 l n) as [y Ey]; [lia|].
  rewrite (drop_S l y n), (take_S_r l n y) by done.
  assert (length (f <$> take n l) = n) as Hl by (rewrite length_fmap, length_take; lia).
  rewrite alter_app_r_alt by lia. rewrite Hl, Nat.sub_diag. cbn [alter list_alter].
  rewrite fmap_app, <- app_assoc. done.
Qed.

Lemma string_clear_all a n : length a = n -> string_clear a n = replicate n 0.
Proof.
  intros <-. unfold string_clear. rewrite Nat.min_id, drop_ge by lia. apply app_nil_r.
Qed.

Lemma string_copy_length dest src n : length (string_copy dest src n) = length dest.
Proof.
  unfold string_copy. destruct (n =? 0)%nat; [done|].
  assert (forall stop src d index room, length (fst (string_copy_from stop d src index room)) = length d) as H.
  { intros stop src'. induction src' as [|c r IH]; intros d index [|room]; cbn; try done.
    destruct (stop c); [done|]. by rewrite IH, length_insert. }
  specialize (H (fun c => c =? 0) src dest 0%nat (n - 1)%nat).
  destruct (string_copy_from _ _ _ _ _) as [d i]. cbn in H. by rewrite length_insert.
Qed.

(** ** The invariant *)

Definition active (p : process_t) : bool := negb (pstate_is p PROCESS_UNUSED).

Record proc_wf (p : process_t) : Prop := {
  pw_name : length (p_name p) = 32%nat;
  pw_image_path : length (p_image_path p) = 64%nat;
  pw_arguments : length (p_arguments p) = 128%nat;
  pw_argv : length (p_argv p) = 8%nat;
  pw_rows : Forall (fun a => length a = 64%nat) (p_argv p);
  pw_argc : 0 <= p_argc p <= 8;
  pw_files : length (p_files p) = 16%nat
}.

Record process_inv (s : process_state) : Prop := {
  pv_length : length (process_table s) = 16%nat;
  pv_wf : Forall proc_wf (process_table s);
  pv_count : process_count s = count_if active (process_table s);
  pv_next : 0 < next_pid s < 4294967296;
  pv_pids : forall i p, process_table s !! i = Some p -> active p = true -> 0 < p_pid p < next_pid s;
  pv_unique : forall i j p q, process_table s !! i = Some p -> process_table s !! j = Some q ->
    active p = true -> active q = true -> p_pid p = p_pid q -> i = j;
  pv_running : forall i p, process_table s !! i = Some p -> p_state p = PROCESS_RUNNING ->
    current_process s = Some i;
  pv_current : forall i, current_process s = Some i ->
    exists p, process_table s !! i = Some p /\ (p_state p = PROCESS_RUNNING \/ p_state p = PROCESS_EXITED)
}.

Lemma wp_proc_at i p (Q : process_t -> process_state -> Prop) s :
  process_table s !! i = Some p -> Q p s -> wp (proc_at i) Q s.
Proof. intros E HQ. exists p, s. split; [unfold proc_at; by rewrite E|done]. Qed.

(** ** Searching *)

Lemma search_from (test : process_t -> bool) n k (s : process_state) :
  length (process_table s) = (k + n)%nat ->
  wp (mfor_ret (seq k n) (fun i => p <- proc_at i ;; mret_ (if test p then Some i else None)))
     (fun o s' => s' = s /\
        o = (fun '(i, _) => (k + i)%nat) <$> list_find (fun p => test p = true) (drop k (process_table s))) s.
Proof.
  revert k. induction n as [|n IH]; intros k Hlen.
  { apply wp_ret. rewrite drop_ge by lia. done. }
  cbn [seq mfor_ret]. apply wp_bind, wp_bind.
  destruct (lookup_lt_is_Some_2 (process_table s) k) as [p Ep]; [lia|].
  apply (wp_proc_at _ p); [done|]. apply wp_ret. rewrite (drop_S _ p k) by done. cbn [list_find].
  destruct (test p) eqn:Et.
  - apply wp_ret. split; [done|]. rewrite decide_True by done. cbn. by rewrite Nat.add_0_r.
  - rewrite decide_False by congruence. eapply wp_mono; [apply IH; lia|].
    intros o s' [-> ->]. split; [done|]. destruct (list_find _ _) as [[j q]|]; [|done]. cbn. f_equal. lia.
Qed.

(** [process_search] finds the first process that passes the test. *)
Lemma process_search_ok (test : process_t -> bool) (s : process_state) :
  length (process_table s) = 16%nat ->
  wp (process_search test) (fun (o : option nat) s' => s' = s /\
    match o with
    | Some i => exists p, process_table s !! i = Some p /\ test p = true /\
        forall j q, process_table s !! j = Some q -> (j < i)%nat -> test q = false
    | None => forall j q, process_table s !! j = Some q -> test q = false
    end) s.
Proof.
  intros Hlen. eapply wp_mono; [apply (search_from test 16 0); done|].
  intros o s' [-> ->]. rewrite drop_0. split; [done|].
  destruct (list_find _ (process_table s)) as [[i p]|] eqn:E; cbn.
  - apply list_find_Some in E as (Ep & Ht & Hj). exists p. split_and!; [done..|].
    intros j q Hq Hlt. specialize (Hj j q Hq Hlt). by destruct (test q).
  - apply list_find_None in E. intros j q Hq. eapply Forall_lookup_1 in E; [|done]. cbn in E.
    by destruct (test q).
Qed.

(** ** Replacing one process *)

Lemma alter_insert {A} (f : A -> A) i (l : list A) x : l !! i = Some x -> alter f i l = <[i := f x]> l.
Proof.
  intros E. apply list_eq. intros j. destruct (decide (i = j)) as [<-|Hne].
  - rewrite list_lookup_alter_eq, list_lookup_insert_eq by (by eapply lookup_lt_Some). by rewrite E.
  - by rewrite list_lookup_alter_ne, list_lookup_insert_ne.
Qed.

Lemma alter_twice {A} (f g : A -> A) i (l : list A) : alter (fun x => f (g x)) i l = alter f i (alter g i l).
Proof.
  apply list_eq. intros j. destruct (decide (i = j)) as [<-|Hne].
  - rewrite !list_lookup_alter_eq. by destruct (l !! i).
  - by rewrite !list_lookup_alter_ne.
Qed.

Lemma count_if_insert {A} (t : A -> bool) i l (x y : A) :
  l !! i = Some x ->
  count_if t (<[i := y]> l) = count_if t l - (if t x then 1 else 0) + (if t y then 1 else 0).
Proof.
  intros E. rewrite insert_take_drop by (by eapply lookup_lt_Some).
  rewrite <- (take_drop_middle l i x E) at 3. rewrite !count_if_app. cbn [count_if]. lia.
Qed.

(** The invariant after a process was replaced by one with the given state. *)
Lemma process_inv_insert s s' i p p' :
  process_inv s -> process_table s !! i = Some p -> proc_wf p' ->
  process_table s' = <[i := p']> (process_table s) ->
  next_pid s <= next_pid s' < 4294967296 ->
  process_count s' = process_count s - (if active p then 1 else 0) + (if active p' then 1 else 0) ->
  (active p' = true -> 0 < p_pid p' < next_pid s' /\
     ((active p = true /\ p_pid p' = p_pid p) \/ next_pid s <= p_pid p')) ->
  (forall j q, j <> i -> process_table s !! j = Some q -> p_state q = PROCESS_RUNNING ->
     current_process s' = Some j) ->
  (p_state p' = PROCESS_RUNNING -> current_process s' = Some i) ->
  (forall j, current_process s' = Some j -> if decide (j = i)
     then p_state p' = PROCESS_RUNNING \/ p_state p' = PROCESS_EXITED
     else exists q, process_table s !! j = Some q /\
       (p_state q = PROCESS_RUNNING \/ p_state q = PROCESS_EXITED)) ->
  process_inv s'.
Proof.
  intros Hinv Ep Hwf Et Hnext Hcount Hpid Hrun Hrun' Hcur.
  assert (Hlt : (i < length (process_table s))%nat) by (by eapply lookup_lt_Some).
  assert (Hlook : forall j q, process_table s' !! j = Some q ->
    (j = i /\ q = p') \/ (j <> i /\ process_table s !! j = Some q)).
  { intros j q. rewrite Et. destruct (decide (j = i)) as [->|Hne].
    - rewrite list_lookup_insert_eq by done. intros [= <-]. auto.
    - rewrite list_lookup_insert_ne by done. auto. }
  pose proof (pv_next _ Hinv) as Hn0.
  assert (Hold : forall j q, process_table s !! j = Some q -> active q = true -> 0 < p_pid q < next_pid s)
    by apply Hinv.
  assert (Hsame : forall j q, j <> i -> process_table s !! j = Some q -> active q = true ->
    active p' = true -> p_pid p' <> p_pid q).
  { intros j q Hne Hq Haq Ha Eq. destruct (Hpid Ha) as [_ [[Hap Epp]|Hge]].
    - apply Hne. symmetry. eapply (pv_unique _ Hinv i j p q); try done. congruence.
    - specialize (Hold j q Hq Haq). lia. }
  constructor.
  - rewrite Et, length_insert. apply Hinv.
  - rewrite Et. apply Forall_insert; [apply Hinv|done].
  - rewrite Hcount, Et, (count_if_insert _ _ _ p) by done. by rewrite (pv_count _ Hinv).
  - lia.
  - intros j q Hq Ha. destruct (Hlook j q Hq) as [[-> ->]|[Hne Hq']]; [by apply Hpid|].
    specialize (Hold j q Hq' Ha). lia.
  - intros j k q r Hq Hr Haq Har Epid.
    destruct (Hlook j q Hq) as [[-> ->]|[Hj Hq']], (Hlook k r Hr) as [[-> ->]|[Hk Hr']]; [done| | |].
    + exfalso. by eapply (Hsame k r).
    + exfalso. by eapply (Hsame j q).
    + by eapply (pv_unique _ Hinv).
  - intros j q Hq Hst. destruct (Hlook j q Hq) as [[-> ->]|[Hne Hq']]; [auto|]. by eapply Hrun.
  - intros j Hj. specialize (Hcur j Hj). destruct (decide (j = i)) as [->|Hne].
    + exists p'. rewrite Et, list_lookup_insert_eq by done. auto.
    + rewrite Et, list_lookup_insert_ne by done. done.
Qed.

(** ... with the same state and pid. *)
Lemma process_inv_update s i p p' :
  process_inv s -> process_table s !! i = Some p -> proc_wf p' ->
  p_state p' = p_state p -> p_pid p' = p_pid p ->
  process_inv (s <| process_table := <[i := p']> (process_table s) |>).
Proof.
  intros Hinv Ep Hw Est Epid. assert (Ea : active p' = active p).
  { unfold active, pstate_is. by rewrite Est. }
  pose proof (pv_next _ Hinv). apply (process_inv_insert s _ i p p'); get_set; rewrite ?Ea; try done; try lia.
  - intros Ha. rewrite Epid. split; [by apply (pv_pids _ Hinv i)|by left].
  - intros j q _. apply Hinv.
  - rewrite Est. by apply Hinv.
  - intros j Hj. destruct (pv_current _ Hinv j Hj) as (q & Eq & Hq). destruct (decide (j = i)) as [->|Hne].
    + rewrite Est. rewrite Ep in Eq. by injection Eq as <-.
    + by exists q.
Qed.

(** ** What the resetting functions leave *)

(** Computing the fields of an updated process. *)
Ltac eval_process :=
  cbv [set_field eta_process p_pid p_name p_state p_entry p_user_stack p_image_path p_exit_code
       p_last_status p_runs p_argc p_arguments p_argv p_files].

Definition blank_argv : list (list Z) := replicate 8 (replicate 64 0).

Lemma clear_rows (argv : list (list Z)) :
  length argv = 8%nat -> Forall (fun a => length a = 64%nat) argv ->
  foldl (fun av i => alter (fun a => string_clear a PROCESS_ARGUMENT_MAX) i av) argv
    (seq 0 PROCESS_MAX_ARGUMENTS) = blank_argv.
Proof.
  intros Hl Hr. rewrite foldl_alter by (rewrite Hl; unfold PROCESS_MAX_ARGUMENTS; lia).
  unfold PROCESS_MAX_ARGUMENTS, blank_argv. rewrite take_ge, drop_ge, app_nil_r by lia.
  assert (forall x : list Z, (forall a, a ∈ argv -> string_clear a PROCESS_ARGUMENT_MAX = x) ->
    (fun a => string_clear a PROCESS_ARGUMENT_MAX) <$> argv = replicate (length argv) x) as H.
  { intros x. clear Hl Hr. induction argv as [|a argv IH]; intros H; [done|].
    rewrite fmap_cons, H, IH by set_solver. done. }
  rewrite (H (replicate 64 0)); [by rewrite Hl|]. intros a Ha. apply string_clear_all.
  rewrite Forall_forall in Hr. by apply Hr.
Qed.

Lemma clear_arguments_eq p : proc_wf p ->
  process_clear_arguments p =
    p <| p_argc := 0 |> <| p_arguments := replicate 128 0 |> <| p_argv := blank_argv |>.
Proof.
  intros Hw. unfold process_clear_arguments. destruct p as [pid nm st en us im ec ls ru ac ar av fi].
  eval_process. f_equal.
  - apply string_clear_all, Hw.
  - apply clear_rows; apply Hw.
Qed.

Lemma initialize_files_eq p : proc_wf p ->
  fd_table_initialize_process p = p <| p_files := replicate 16 closed_file |>.
Proof.
  intros Hw. pose proof (pw_files _ Hw) as Hf. unfold fd_table_initialize_process.
  destruct p as [pid nm st en us im ec ls ru ac ar av fi]. eval_process. f_equal. cbv [p_files] in *.
  rewrite foldl_insert by (rewrite Hf; unfold PROCESS_MAX_OPEN_FILES; lia).
  rewrite drop_ge by (rewrite Hf; unfold PROCESS_MAX_OPEN_FILES; lia). apply app_nil_r.
Qed.

(** The slot after [process_create]. *)
Definition fresh_process (pid : Z) (name : list Z) (entry user_stack : Z) (p : process_t) : process_t := {|
  p_pid := pid; p_name := string_copy (p_name p) name 32; p_state := PROCESS_READY; p_entry := entry;
  p_user_stack := user_stack; p_image_path := replicate 64 0; p_exit_code := 0;
  p_last_status := KERNEL_OK; p_runs := 0; p_argc := 1; p_arguments := replicate 128 0;
  p_argv := string_copy (replicate 64 0) (string_copy (p_name p) name 32) 64 :: replicate 7 (replicate 64 0);
  p_files := replicate 16 closed_file |}.

(** The slot after [process_reset_slot]. *)
Definition empty_process (p : process_t) : process_t := {|
  p_pid := 0; p_name := <[0%nat := 0]> (p_name p); p_state := PROCESS_UNUSED; p_entry := 0;
  p_user_stack := 0; p_image_path := replicate 64 0; p_exit_code := 0;
  p_last_status := KERNEL_OK; p_runs := 0; p_argc := 0; p_arguments := replicate 128 0;
  p_argv := blank_argv; p_files := replicate 16 closed_file |}.

Lemma blank_rows n : Forall (fun a : list Z => length a = 64%nat) (replicate n (replicate 64 0)).
Proof. by apply Forall_replicate. Qed.

Lemma fresh_process_wf pid name entry user_stack p :
  proc_wf p -> proc_wf (fresh_process pid name entry user_stack p).
Proof.
  intros Hw. constructor; cbn -[string_copy replicate]; try done; try lia.
  - rewrite string_copy_length. apply Hw.
  - constructor; [apply string_copy_length|apply blank_rows].
Qed.

Lemma empty_process_wf p : proc_wf p -> proc_wf (empty_process p).
Proof.
  intros Hw. constructor; cbn -[replicate]; try done; try lia.
  - rewrite length_insert. apply Hw.
  - apply (blank_rows 8).
Qed.

Lemma reset_slot_eq p : proc_wf p -> process_reset_slot p = empty_process p.
Proof.
  intros Hw. unfold process_reset_slot. set (q := set_field p_runs _ _).
  assert (proc_wf q) as Hq.
  { subst q. destruct Hw. constructor; get_set; try done.
    - by rewrite length_insert.
    - unfold PROCESS_IMAGE_PATH_MAX. by rewrite string_clear_all. }
  rewrite clear_arguments_eq by done. rewrite initialize_files_eq.
  2:{ destruct Hq. constructor; get_set; try done; try lia. apply (blank_rows 8). }
  subst q. destruct p as [pid nm st en us im ec ls ru ac ar av fi].
  unfold empty_process. eval_process. f_equal. apply string_clear_all, Hw.
Qed.

(** The chain of updates of [process_create]. *)
Lemma fresh_process_eq pid name entry user_stack p : proc_wf p ->
  fd_table_initialize_process (process_name_argument (process_clear_arguments (
    p <| p_pid := pid |> <| p_name ::= fun old => string_copy old name PROCESS_NAME_MAX |>
      <| p_state := PROCESS_READY |> <| p_entry := entry |> <| p_user_stack := user_stack |>
      <| p_image_path ::= fun a => string_clear a PROCESS_IMAGE_PATH_MAX |>
      <| p_exit_code := 0 |> <| p_last_status := KERNEL_OK |> <| p_runs := 0 |>))) =
  fresh_process pid name entry user_stack p.
Proof.
  intros Hw. set (q := set_field p_runs _ _).
  assert (proc_wf q) as Hq.
  { subst q. destruct Hw. constructor; get_set; try done.
    - by rewrite string_copy_length.
    - unfold PROCESS_IMAGE_PATH_MAX. by rewrite string_clear_all. }
  rewrite clear_arguments_eq by done. rewrite initialize_files_eq.
  2:{ destruct Hq. unfold process_name_argument. constructor; get_set; try done; try lia.
      repeat constructor; rewrite string_copy_length; done. }
  subst q. destruct p as [pid' nm st en us im ec ls ru ac ar av fi].
  unfold process_name_argument, fresh_process. eval_process.
  f_equal. apply string_clear_all, Hw.
Qed.

(** ** Creating and clearing processes *)

(** [process_create] fills the first unused slot with a fresh pid; it refuses a
    zero entry or stack, and a full table. *)
Lemma process_create_ok s name entry user_stack :
  process_inv s -> next_pid s < 4294967295 ->
  wp (process_create (Some name) entry user_stack true) (fun '(status, o) s' =>
    process_inv s' /\ current_process s' = current_process s /\
    match o with
    | Some i => status = KERNEL_OK /\ next_pid s' = next_pid s + 1 /\ exists p,
        process_table s !! i = Some p /\ active p = false /\
        (forall j q, process_table s !! j = Some q -> (j < i)%nat -> active q = true) /\
        process_table s' = <[i := fresh_process (next_pid s) name entry user_stack p]> (process_table s)
    | None => process_table s' = process_table s /\ next_pid s' = next_pid s /\
        if (entry =? 0) || (user_stack =? 0) then status = KERNEL_ERROR_INVALID_ARGUMENT
        else status = KERNEL_ERROR_OUT_OF_MEMORY /\
             forall j q, process_table s !! j = Some q -> active q = true
    end) s.
Proof.
  intros Hinv Hnext. assert (Hsame : forall s', process_table s' = process_table s ->
    next_pid s' = next_pid s -> current_process s' = current_process s ->
    process_count s' = process_count s -> process_inv s').
  { intros s' E1 E2 E3 E4. destruct Hinv. constructor; rewrite ?E1, ?E2, ?E3, ?E4; done. }
  unfold process_create, process_create_fail, pinfo. wp_step. wp_step. cbn [negb].
  destruct ((entry =? 0) || (user_stack =? 0)) eqn:Ez.
  { wp_steps. split; [by apply Hsame|]. done. }
  wp_step. eapply wp_mono; [apply process_search_ok; get_set; apply Hinv|].
  intros [i|] s' [-> Hs].
  2:{ wp_steps. split; [by apply Hsame|]. split; [done|]. split; [done|]. split; [done|]. split; [done|].
      intros j q Hq. unfold active. rewrite (Hs j q Hq). done. }
  get_set_in Hs. destruct Hs as (p & Ep & Hfree & Hfirst). get_set.
  assert (Hw : proc_wf p) by (eapply Forall_lookup_1; [apply Hinv|done]).
  unfold upd_proc. wp_steps.
  assert (Et : forall f, f p = fresh_process (next_pid s) name entry user_stack p ->
    alter f i (process_table s) = <[i := fresh_process (next_pid s) name entry user_stack p]> (process_table s)).
  { intros f <-. by apply alter_insert. }
  set (s1 := set_field process_info _ _).
  assert (E1 : process_table s1 = <[i := fresh_process (next_pid s) name entry user_stack p]> (process_table s)).
  { subst s1. get_set. rewrite <- !alter_twice. apply Et. by apply fresh_process_eq. }
  assert (E2 : next_pid s1 = incr (next_pid s)) by done.
  assert (E3 : current_process s1 = current_process s) by done.
  assert (E4 : process_count s1 = incr (process_count s)) by done. clearbody s1.
  pose proof (pv_next _ Hinv). rewrite incr_small in E2 by lia.
  assert (Hact : active p = false) by (unfold active; by rewrite Hfree).
  assert (0 <= process_count s < 100) as Hc.
  { rewrite (pv_count _ Hinv). pose proof (count_if_bound active (process_table s)) as Hb.
    rewrite (pv_length _ Hinv) in Hb. lia. }
  rewrite incr_small in E4 by lia.
  assert (Hrun : forall j q, process_table s !! j = Some q -> p_state q = PROCESS_RUNNING \/
    p_state q = PROCESS_EXITED -> j <> i).
  { intros j q Hq Hst ->. rewrite Ep in Hq. injection Hq as <-. unfold active, pstate_is in Hact.
    destruct Hst as [E|E]; by rewrite E in Hact. }
  split; [|split; [done|]].
  - apply (process_inv_insert s s1 i p (fresh_process (next_pid s) name entry user_stack p)); try done.
    + by apply fresh_process_wf.
    + lia.
    + rewrite Hact. change (active (fresh_process (next_pid s) name entry user_stack p)) with true. cbv iota. lia.
    + intros _. change (p_pid (fresh_process (next_pid s) name entry user_stack p)) with (next_pid s). lia.
    + intros j q _ Hq Hst. rewrite E3. by eapply (pv_running _ Hinv).
    + intros j Hj. rewrite E3 in Hj. destruct (pv_current _ Hinv j Hj) as (q & Hq & Hst).
      rewrite decide_False by (by eapply Hrun). eauto.
  - split; [done|]. split; [done|]. exists p. split_and!; try done.
    intros j q Hq Hlt. unfold active. by rewrite (Hfirst j q Hq Hlt).
Qed.

(** Resetting every slot. *)
Lemma upd_all f s : forall n, (n <= length (process_table s))%nat ->
  wp (mfor (seq 0 n) (fun i => upd_proc i f)) (fun _ s' =>
    s' = s <| process_table := (f <$> take n (process_table s)) ++ drop n (process_table s) |>) s.
Proof.
  intros n Hn. rewrite <- foldl_alter by done.
  apply (wp_for _ _ (fun l s' => s' = s <| process_table := foldl (fun av i => alter f i av) (process_table s) l |>)).
  - by destruct s.
  - intros l x r s' _ ->. apply wp_mod. rewrite foldl_app. by destruct s.
  - by intros s' ->.
Qed.

Lemma process_initialize_ok s :
  length (process_table s) = 16%nat -> Forall proc_wf (process_table s) ->
  wp process_initialize (fun _ s' => process_inv s' /\ current_process s' = None /\ next_pid s' = 1 /\
    Forall (fun p => active p = false /\ p_files p = replicate 16 closed_file) (process_table s')) s.
Proof.
  intros Hlen Hwf. unfold process_initialize. apply wp_bind.
  eapply wp_mono; [apply (upd_all process_reset_slot s 16); lia|]. intros _ s' ->.
  unfold pinfo. wp_steps. set (s1 := set_field process_info _ _).
  assert (E1 : process_table s1 = empty_process <$> process_table s).
  { subst s1. get_set. rewrite take_ge, drop_ge, app_nil_r by lia.
    apply list_fmap_ext. intros i p Hp. apply reset_slot_eq. by eapply Forall_lookup_1. }
  assert (E2 : next_pid s1 = 1) by done. assert (E3 : current_process s1 = None) by done.
  assert (E4 : process_count s1 = 0) by done. clearbody s1.
  assert (Hun : Forall (fun p => active p = false /\ p_files p = replicate 16 closed_file) (process_table s1)).
  { rewrite E1. apply Forall_fmap, Forall_true. done. }
  assert (Hnot : forall i p, process_table s1 !! i = Some p -> active p = true -> False).
  { intros i p Hp Ha. eapply Forall_lookup_1 in Hun as [Hun _]; [|done]. congruence. }
  split; [|done]. constructor; try rewrite E2; try lia.
  - by rewrite E1, length_fmap.
  - rewrite E1. apply Forall_fmap. eapply Forall_impl; [done|]. apply empty_process_wf.
  - rewrite E4, count_if_none; [done|]. intros p Hp. rewrite Forall_forall in Hun. by apply Hun.
  - intros i p Hp Ha. destruct (Hnot i p Hp Ha).
  - intros i j p q Hp _ Ha. destruct (Hnot i p Hp Ha).
  - intros i p Hp Hst. destruct (Hnot i p Hp). unfold active, pstate_is. by rewrite Hst.
  - intros i Hi. by rewrite E3 in Hi.
Qed.

(** ** Removing the processes that ended *)

Definition ended (p : process_t) : bool := pstate_is p PROCESS_EXITED || pstate_is p PROCESS_FAILED.
Definition clear_ended (p : process_t) : process_t := if ended p then empty_process p else p.

Lemma ended_active p : ended p = true -> active p = true.
Proof. unfold ended, active, pstate_is. by destruct (p_state p). Qed.

Lemma active_clear_ended p : active (clear_ended p) = active p && negb (ended p).
Proof. unfold clear_ended. destruct (ended p); [by rewrite andb_false_r|by rewrite andb_true_r]. Qed.

Lemma count_clear_ended l :
  count_if active (clear_ended <$> l) = count_if active l - count_if ended l.
Proof.
  induction l as [|p l IH]; [done|]. cbn [fmap list_fmap count_if]. rewrite active_clear_ended.
  change (list_fmap process_t process_t clear_ended l) with (clear_ended <$> l). rewrite IH.
  destruct (ended p) eqn:E; [rewrite (ended_active p E)|destruct (active p)]; cbn; lia.
Qed.

Lemma clear_loop_ok s :
  length (process_table s) = 16%nat -> Forall proc_wf (process_table s) ->
  wp (mfold (seq 0 PROCESS_MAX_PROCESSES) (fun cleared i =>
        p <- proc_at i ;;
        if negb (pstate_is p PROCESS_EXITED) && negb (pstate_is p PROCESS_FAILED) then mret_ cleared
        else upd_proc i process_reset_slot ;;; mret_ (incr cleared)) 0)
     (fun cleared s' => cleared = count_if ended (process_table s) /\
        s' = s <| process_table ::= fmap clear_ended |>) s.
Proof.
  intros Hlen Hwf.
  apply (wp_fold _ _ (fun l c s' => c = count_if ended (take (length l) (process_table s)) /\
    s' = s <| process_table := (clear_ended <$> take (length l) (process_table s)) ++
                               drop (length l) (process_table s) |>)).
  - split; [done|]. by destruct s.
  - intros l i r c s' E [-> ->].
    assert (seq 0 16 !! length l = Some i) as Hi by (unfold PROCESS_MAX_PROCESSES in E; by rewrite E, list_lookup_middle).
    apply lookup_seq in Hi as [-> Hlt]. cbn [Nat.add]. rewrite length_app, Nat.add_1_r. cbn [length].
    set (k := length l) in *. destruct (lookup_lt_is_Some_2 (process_table s) k) as [p Ep]; [lia|].
    assert (length (clear_ended <$> take k (process_table s)) = k) as Hk by (rewrite length_fmap, length_take; lia).
    apply wp_bind, (wp_proc_at _ p).
    { get_set. rewrite lookup_app_r by lia. by rewrite Hk, Nat.sub_diag, lookup_drop, Nat.add_0_r. }
    rewrite (take_S_r _ _ p), count_if_app, fmap_app, <- app_assoc by done. cbn [count_if fmap list_fmap app].
    rewrite (drop_S _ p k) by done. unfold clear_ended at 2. rewrite <- negb_orb. fold (ended p).
    destruct (ended p); cbn [negb].
    + unfold upd_proc. wp_steps. split.
      { rewrite incr_small; [lia|]. pose proof (count_if_bound ended (take k (process_table s))) as Hb.
        rewrite length_take in Hb. lia. }
      assert (alter process_reset_slot k ((clear_ended <$> take k (process_table s)) ++ p :: drop (S k) (process_table s))
        = (clear_ended <$> take k (process_table s)) ++ empty_process p :: drop (S k) (process_table s)) as Ea.
      { rewrite (alter_insert _ _ _ p) by (rewrite lookup_app_r by lia; by rewrite Hk, Nat.sub_diag).
        rewrite insert_app_r_alt, Hk, Nat.sub_diag by lia. cbn [insert list_insert].
        rewrite reset_slot_eq; [done|]. by eapply Forall_lookup_1. }
      rewrite <- Ea. by destruct s.
    + apply wp_ret. split; [lia|]. done.
  - intros c s' [-> ->]. rewrite length_seq, take_ge, drop_ge, app_nil_r by (rewrite Hlen; done).
    split; [done|]. by destruct s.
Qed.

Lemma process_clear_exited_ok s :
  process_inv s -> current_process s = None ->
  wp process_clear_exited (fun cleared s' => process_inv s' /\ current_process s' = None /\
    cleared = count_if ended (process_table s) /\ next_pid s' = next_pid s /\
    process_table s' = clear_ended <$> process_table s) s.
Proof.
  intros Hinv Hcur. unfold process_clear_exited. apply wp_bind.
  eapply wp_mono; [apply clear_loop_ok; apply Hinv|]. intros cleared s' [-> ->]. wp_steps.
  set (s1 := set_field process_info _ _).
  assert (E1 : process_table s1 = clear_ended <$> process_table s) by done.
  assert (E2 : next_pid s1 = next_pid s) by done. assert (E3 : current_process s1 = None) by done.
  assert (E4 : process_count s1 = if process_count s <? count_if ended (process_table s) then 0
    else process_count s [-] count_if ended (process_table s)) by done.
  clearbody s1. split; [|done].
  assert (Hle : count_if ended (process_table s) <= count_if active (process_table s)).
  { clear. induction (process_table s) as [|p l IH]; cbn [count_if]; [lia|].
    destruct (ended p) eqn:E; [rewrite (ended_active p E)|destruct (active p)]; lia. }
  pose proof (count_if_bound active (process_table s)) as Hb. rewrite (pv_length _ Hinv) in Hb.
  pose proof (count_if_bound ended (process_table s)) as He.
  assert (Hlook : forall i p, process_table s1 !! i = Some p -> active p = true ->
    process_table s !! i = Some p /\ ended p = false).
  { intros i p. rewrite E1, list_lookup_fmap. intros H Ha. apply fmap_Some in H as (q & Hq & ->).
    unfold clear_ended in *. destruct (ended q) eqn:Eq; [done|]. by rewrite Eq. }
  constructor.
  - rewrite E1, length_fmap. apply Hinv.
  - rewrite E1. apply Forall_fmap. eapply Forall_impl; [apply Hinv|]. intros p Hp. cbn.
    unfold clear_ended. destruct (ended p); [by apply empty_process_wf|done].
  - rewrite E4, E1, count_clear_ended, (pv_count _ Hinv).
    rewrite (proj2 (Z.ltb_ge _ _)) by lia. apply u32_small. unfold is_u32. lia.
  - rewrite E2. apply Hinv.
  - intros i p Hp Ha. rewrite E2. destruct (Hlook i p Hp Ha). by eapply (pv_pids _ Hinv).
  - intros i j p q Hp Hq Ha Hb'. destruct (Hlook i p Hp Ha), (Hlook j q Hq Hb').
    by eapply (pv_unique _ Hinv).
  - intros i p Hp Hst. assert (active p = true) as Ha by (unfold active, pstate_is; by rewrite Hst).
    destruct (Hlook i p Hp Ha) as [Hp' _]. pose proof (pv_running _ Hinv i p Hp' Hst). congruence.
  - intros i Hi. congruence.
Qed.

(** ** A running process that exits *)

Lemma process_mark_exit_ok s i p exit_code :
  process_inv s -> current_process s = Some i -> process_table s !! i = Some p ->
  wp (process_mark_exit exit_code) (fun _ s' => process_inv s' /\
    current_process s' = Some i /\ next_pid s' = next_pid s /\
    process_table s' = <[i := p <| p_exit_code := exit_code |> <| p_state := PROCESS_EXITED |>]> (process_table s)) s.
Proof.
  intros Hinv Hcur Ep. unfold process_mark_exit, upd_proc, pinfo. wp_step. wp_step. rewrite Hcur.
  wp_step. wp_step.
  set (p' := p <| p_exit_code := exit_code |> <| p_state := PROCESS_EXITED |>).
  assert (Hlt : (i < length (process_table s))%nat) by (by eapply lookup_lt_Some).
  wp_step. apply (wp_proc_at _ p').
  { get_set. rewrite (alter_insert _ _ _ p Ep). by rewrite list_lookup_insert_eq. }
  wp_steps. set (s1 := set_field process_info _ _).
  assert (E1 : process_table s1 = <[i := p']> (process_table s)).
  { subst s1. get_set. by rewrite (alter_insert _ _ _ p Ep). }
  assert (E2 : next_pid s1 = next_pid s) by done. assert (E3 : current_process s1 = Some i) by exact Hcur.
  assert (E4 : process_count s1 = process_count s) by done. clearbody s1.
  split; [|done]. pose proof (pv_next _ Hinv).
  destruct (pv_current _ Hinv i Hcur) as (q & Hq & Hst). rewrite Ep in Hq. injection Hq as <-.
  assert (Ha : active p = true) by (unfold active, pstate_is; by destruct Hst as [-> | ->]).
  apply (process_inv_insert s s1 i p p'); try done.
  - assert (Hw : proc_wf p) by (eapply Forall_lookup_1; [apply Hinv|done]). by destruct Hw.
  - lia.
  - rewrite Ha, E4. change (active p') with true. cbv iota. lia.
  - intros _. change (p_pid p') with (p_pid p). rewrite E2.
    pose proof (pv_pids _ Hinv i p Ep Ha). auto.
  - intros j q _ Hq Hr. rewrite E3, <- Hcur. by eapply (pv_running _ Hinv).
  - intros j Hj. rewrite E3 in Hj. injection Hj as <-. rewrite decide_True by done. by right.
Qed.

(** ** The argument line *)

(** A word longer than an argument slot is cut into pieces of 63 bytes. *)
Fixpoint pieces (fuel : nat) (w : list Z) : list (list Z) :=
  match fuel, w with
  | S fuel', _ :: _ => take 63 w :: pieces fuel' (drop 63 w)
  | _, _ => []
  end.

Definition cut (w : list Z) : list (list Z) := pieces (length w) w.

Definition split_arguments (line : list Z) : list (list Z) := fields is_blank line ≫= cut.

(** What the argument line becomes: the words of its first 127 bytes, cut, and
    of these the first seven. *)
Definition argument_words (line : list Z) : list (list Z) :=
  take 7 (split_arguments (take 127 (cstr (string_trim_left line)))).

Lemma pieces_fuel fuel w : (length w <= fuel)%nat -> pieces fuel w = cut w.
Proof.
  unfold cut. revert w. assert (forall n f g w, (length w <= n)%nat -> (length w <= f)%nat ->
    (length w <= g)%nat -> pieces f w = pieces g w) as H.
  { induction n as [|n IH]; intros f g [|c w] Hn Hf Hg; cbn [length] in *; try lia;
      try (by destruct f, g).
    destruct f as [|f], g as [|g]; cbn [length] in *; try lia. cbn [pieces]. f_equal.
    assert (length (drop 63 (c :: w)) <= length w)%nat by (rewrite length_drop; cbn [length]; lia).
    apply IH; lia. }
  intros w Hw. by apply (H (length w)).
Qed.

Lemma cut_step w : w <> [] -> cut w = take 63 w :: cut (drop 63 w).
Proof.
  intros Hw. unfold cut at 1. destruct w as [|c w]; [done|]. cbn [length pieces]. f_equal.
  apply pieces_fuel. rewrite length_drop. cbn [length]. lia.
Qed.

Lemma string_trim_left_skip l : string_trim_left l = skip is_blank l.
Proof. induction l as [|c r IH]; [done|]. cbn. by rewrite IH. Qed.

Lemma fields_text sep l l' : cstr l = cstr l' -> fields sep l = fields sep l'.
Proof. intros E. unfold fields. by rewrite E. Qed.

(** One iteration of the loop takes one element of the reference. *)
Lemma split_arguments_step l :
  char_at l 0 <> 0 -> is_blank (char_at l 0) = false ->
  let t := take 63 (field is_blank l) in
  t <> [] /\
  split_arguments l = t :: split_arguments (string_trim_left (drop (length t) l)).
Proof.
  intros H0 H1 t. pose proof (field_nonempty is_blank l H0 H1) as Hne.
  assert (Ht : t <> []) by (subst t; destruct (field is_blank l); done).
  split; [done|]. unfold split_arguments at 1. rewrite (fields_step is_blank l H0 H1).
  rewrite bind_cons, cut_step by done. fold t. cbn [app]. f_equal.
  unfold split_arguments. rewrite string_trim_left_skip, (fields_skip is_blank eq_refl).
  destruct (decide (length (field is_blank l) <= 63)%nat) as [Hle|Hgt].
  - assert (t = field is_blank l) as -> by (subst t; by rewrite take_ge).
    rewrite drop_ge by lia. done.
  - assert (length t = 63%nat) as -> by (subst t; rewrite length_take; lia).
    assert (Ed : field is_blank (drop 63 l) = drop 63 (field is_blank l)).
    { apply until_drop. unfold field in *. lia. }
    assert (length (drop 63 (field is_blank l)) <> 0%nat) as Hd by (rewrite length_drop; lia).
    destruct (Z.eqb_spec (char_at (drop 63 l) 0) 0) as [E|E].
    { exfalso. apply Hd. rewrite <- Ed. unfold field. destruct (drop 63 l) as [|c r]; [done|].
      change (c = 0) in E. subst c. done. }
    destruct (is_blank (char_at (drop 63 l) 0)) eqn:Eb.
    { exfalso. apply Hd. rewrite <- Ed. unfold field. destruct (drop 63 l) as [|c r]; [done|].
      change (is_blank c = true) in Eb. cbn. by rewrite Eb, orb_true_r. }
    rewrite (fields_step is_blank (drop 63 l) E Eb), bind_cons, Ed, drop_drop, length_drop.
    do 3 f_equal. f_equal. lia.
Qed.

Lemma copy_until_space_eq dest src :
  length dest = 64%nat ->
  let t := take 63 (field is_blank src) in
  string_copy_until_space dest src 64 = (t ++ 0 :: drop (S (length t)) dest, length t).
Proof.
  intros Hlen t. unfold string_copy_until_space. cbn [Nat.eqb].
  rewrite string_copy_from_spec by lia. rewrite take_0. cbn [Nat.sub Nat.add app].
  change (until _ src) with (field is_blank src). change (take _ (field is_blank src)) with t.
  apply (f_equal2 pair); [|done].
  assert (length t <= 63)%nat by (subst t; rewrite length_take; lia).
  rewrite insert_app_r_alt, Nat.sub_diag by lia. f_equal.
  destruct (lookup_lt_is_Some_2 dest (length t)) as [y Ey]; [lia|]. by rewrite (drop_S dest y).
Qed.

(** Updating a process, and updating it again. *)
Lemma upd_state s i p f :
  process_table s !! i = Some p ->
  s <| process_table ::= alter f i |> = s <| process_table := <[i := f p]> (process_table s) |>.
Proof.
  intros Ep. destruct s as [tbl nx cu co inf]. change (tbl !! i = Some p) in Ep.
  change (Build_process_state (alter f i tbl) nx cu co inf =
          Build_process_state (<[i := f p]> tbl) nx cu co inf). f_equal. by apply alter_insert.
Qed.

Lemma upd_state_again s i p f :
  (i < length (process_table s))%nat ->
  s <| process_table := <[i := p]> (process_table s) |> <| process_table ::= alter f i |> =
  s <| process_table := <[i := f p]> (process_table s) |>.
Proof.
  intros Hi. rewrite (upd_state _ i p) by (get_set; by apply list_lookup_insert_eq).
  destruct s as [tbl nx cu co inf].
  change (Build_process_state (<[i := f p]> (<[i := p]> tbl)) nx cu co inf =
          Build_process_state (<[i := f p]> tbl) nx cu co inf). by rewrite list_insert_insert_eq.
Qed.

Section Arguments.
Context (s : process_state) (i : nat) (p0 : process_t) (row0 : list Z) (line : list Z).
Hypothesis Hi : (i < length (process_table s))%nat.

(** The table when [d] are the words stored so far. *)
Definition args_state (d : list (list Z)) (s' : process_state) : Prop :=
  exists rows, length rows = 7%nat /\ Forall (fun a => length a = 64%nat) rows /\
    cstr <$> rows = d ++ replicate (7 - length d) [] /\ (length d <= 7)%nat /\
    s' = s <| process_table := <[i := p0 <| p_argc := 1 + Z.of_nat (length d) |>
                                         <| p_argv := row0 :: rows |>]> (process_table s) |>.

Lemma argument_step_ok cursor d s' :
  is_blank (char_at cursor 0) = false -> args_state d s' ->
  wp (process_argument_step i cursor) (fun r s'' =>
    match r with
    | inl cursor' => is_blank (char_at cursor' 0) = false /\
        (length cursor' < length cursor)%nat /\
        exists w, args_state (d ++ [w]) s'' /\ split_arguments cursor = w :: split_arguments cursor'
    | inr _ => args_state d s'' /\ (split_arguments cursor = [] \/ length d = 7%nat)
    end) s'.
Proof using Hi.
  intros Hb (rows & Hlen & Hrows & Hd & Hd7 & ->). unfold process_argument_step.
  set (p1 := p0 <| p_argc := 1 + Z.of_nat (length d) |> <| p_argv := row0 :: rows |>).
  set (s1 := s <| process_table := <[i := p1]> (process_table s) |>).
  assert (Ep : process_table s1 !! i = Some p1) by (subst s1; get_set; by apply list_lookup_insert_eq).
  assert (Hst : args_state d s1) by (exists rows; done).
  wp_step. apply (wp_proc_at _ p1); [done|].
  change (p_argc p1) with (1 + Z.of_nat (length d)). change (p_argv p1) with (row0 :: rows).
  destruct (Z.eqb_spec (char_at cursor 0) 0) as [E0|E0]; cbn [negb andb].
  { apply wp_ret. split; [done|]. left. unfold split_arguments. by rewrite fields_nul. }
  destruct (Z.ltb_spec (1 + Z.of_nat (length d)) (Z.of_nat PROCESS_MAX_ARGUMENTS)) as [Hlt|Hge]; cbn [negb].
  2:{ apply wp_ret. split; [done|]. right. unfold PROCESS_MAX_ARGUMENTS in Hge. lia. }
  unfold PROCESS_MAX_ARGUMENTS in Hlt.
  destruct (lookup_lt_is_Some_2 rows (length d)) as [old Eold]; [lia|].
  replace (Z.to_nat (1 + Z.of_nat (length d))) with (S (length d)) by lia.
  wp_step. apply (wp_array_at _ _ old).
  { by replace (Z.to_nat (1 + Z.of_nat (length d))) with (S (length d)) by lia. }
  unfold PROCESS_ARGUMENT_MAX. rewrite copy_until_space_eq by (eapply Forall_lookup_1 in Hrows; done).
  destruct (split_arguments_step cursor E0 Hb) as [Hne Hsplit].
  set (t := take 63 (field is_blank cursor)) in *. set (row := t ++ 0 :: drop (S (length t)) old).
  assert (Ht : (length t =? 0)%nat = false) by (apply Nat.eqb_neq; by destruct t).
  unfold upd_proc. rewrite Ht. wp_steps.
  assert (Hlt63 : (length t <= 63)%nat) by (subst t; rewrite length_take; lia).
  split; [|split].
  - rewrite string_trim_left_skip. by apply skip_head.
  - rewrite string_trim_left_skip. pose proof (skip_length is_blank (drop (length t) cursor)) as Hk.
    rewrite length_drop in Hk. assert (length cursor <> 0%nat) by (by destruct cursor).
    apply Nat.eqb_neq in Ht. lia.
  - exists t. split; [|done]. exists (<[length d := row]> rows). rewrite length_app. cbn [length].
    assert (Hold : length old = 64%nat) by (eapply Forall_lookup_1 in Hrows; done).
    split_and!; try lia.
    + by rewrite length_insert.
    + apply Forall_insert; [done|]. subst row. rewrite length_app. cbn [length]. rewrite length_drop. lia.
    + rewrite list_fmap_insert, Hd. subst row. rewrite cstr_app_nul.
      2:{ subst t. apply Forall_take, field_nonzero. }
      rewrite insert_app_r_alt, Nat.sub_diag by lia. rewrite <- app_assoc. f_equal.
      replace (7 - length d)%nat with (S (7 - (length d + 1))) by lia. done.
    + subst s1. rewrite !upd_state_again by done. subst p1. clear - Hlt. clearbody row t.
      match goal with
      | |- s <| process_table := <[i := ?x]> _ |> = s <| process_table := <[i := ?y]> _ |> =>
          assert (x = y) as ->; [|done]
      end.
      destruct p0. eval_process. f_equal. rewrite incr_small by lia. lia.
Qed.

Lemma argument_loop_ok cursor :
  is_blank (char_at cursor 0) = false -> Z.of_nat (length cursor) < 4294967296 ->
  forall s', args_state [] s' ->
  wp (mloop (process_argument_step i) cursor) (fun _ s'' =>
    args_state (take 7 (split_arguments cursor)) s'') s'.
Proof using Hi.
  intros Hb Hlen s' Hst.
  apply (wp_loop _ (fun c s'' => is_blank (char_at c 0) = false /\
      exists d, args_state d s'' /\ d ++ split_arguments c = split_arguments cursor)
    (fun c _ => Z.of_nat (length c))); [|by split; [|exists []]|lia].
  intros c s'' [Hc (d & Hd & E)]. eapply wp_mono; [by apply (argument_step_ok c d)|].
  intros [c'|[]] s3.
  - intros (Hb' & Hlt & w & Hw & Es). split; [|lia]. split; [done|]. exists (d ++ [w]).
    split; [done|]. rewrite <- E, Es, <- app_assoc. done.
  - intros [Hd' Hor]. rewrite <- E. assert (length d <= 7)%nat by (by destruct Hd as (? & _ & _ & _ & ? & _)).
    replace (take 7 (d ++ split_arguments c)) with d; [done|].
    destruct Hor as [-> | H7].
    + rewrite app_nil_r, take_ge by lia. done.
    + rewrite take_app_le, take_ge by lia. done.
Qed.
End Arguments.

(** The process before the loop: its name as the only argument. *)
Definition named_process (p : process_t) (line : list Z) : process_t :=
  p <| p_argc := 1 |> <| p_arguments := line |>
    <| p_argv := string_copy (replicate 64 0) (p_name p) 64 :: replicate 7 (replicate 64 0) |>.

Lemma name_row p : proc_wf p -> cstr (string_copy (replicate 64 0) (p_name p) 64) = cstr (p_name p).
Proof.
  intros Hw. destruct (string_copy_text (replicate 64 0) (p_name p) 64) as (_ & E & _); [lia|done|].
  rewrite E, take_ge; [done|]. pose proof (until_length (fun c => c =? 0) (p_name p)) as Hl.
  rewrite until_cstr, (pw_name _ Hw) in Hl. lia.
Qed.

Lemma argument_words_line line :
  split_arguments (string_trim_left (string_copy (replicate 128 0) (string_trim_left line) 128)) =
  split_arguments (take 127 (cstr (string_trim_left line))).
Proof.
  unfold split_arguments. rewrite (string_trim_left_skip (string_copy _ _ _)), (fields_skip is_blank eq_refl).
  f_equal. apply fields_text.
  destruct (string_copy_text (replicate 128 0) (string_trim_left line) 128) as (_ & -> & _); [lia|done|].
  symmetry. apply cstr_id, Forall_take, cstr_nonzero.
Qed.

(** [process_configure_arguments] stores the name of the program and the words of
    the line, and changes nothing else. *)
Lemma process_configure_arguments_ok s i p line :
  process_table s !! i = Some p -> proc_wf p -> Z.of_nat (length line) < 4294967296 ->
  wp (process_configure_arguments (Some i) (Some line)) (fun status s' => status = KERNEL_OK /\
    exists p', proc_wf p' /\ s' = s <| process_table := <[i := p']> (process_table s) |> /\
      p' = p <| p_argc := p_argc p' |> <| p_arguments := p_arguments p' |> <| p_argv := p_argv p' |> /\
      p_argc p' = 1 + Z.of_nat (length (argument_words line)) /\
      cstr <$> p_argv p' = cstr (p_name p) :: argument_words line ++
        replicate (7 - length (argument_words line)) []) s.
Proof.
  intros Ep Hw Hlen. assert (Hi : (i < length (process_table s))%nat) by (by eapply lookup_lt_Some).
  unfold process_configure_arguments, upd_proc. do 4 wp_step.
  assert (E1 : s <| process_table ::= alter process_clear_arguments i |>
                 <| process_table ::= alter process_name_argument i |> =
               s <| process_table := <[i := named_process p (replicate 128 0)]> (process_table s) |>).
  { rewrite (upd_state s i p), upd_state_again, clear_arguments_eq by done. done. }
  rewrite E1. clear E1. set (p1 := named_process p (replicate 128 0)).
  assert (Hrow := name_row p Hw).
  assert (Hwf : forall l, length l = 128%nat -> proc_wf (named_process p l)).
  { intros l Hl. destruct Hw. constructor; unfold named_process; get_set; try done; try lia.
    constructor; [by rewrite string_copy_length|apply blank_rows]. }
  destruct (Z.eqb_spec (char_at (string_trim_left line) 0) 0) as [E0|E0].
  - wp_steps. split; [done|]. exists p1.
    assert (argument_words line = []) as ->.
    { unfold argument_words. replace (cstr (string_trim_left line)) with (@nil Z); [done|].
      destruct (string_trim_left line) as [|c r]; [done|]. change (c = 0) in E0. by subst. }
    split_and!; [by apply Hwf|done|by destruct p|done|]. unfold p1, named_process. get_set.
    rewrite fmap_cons, Hrow. done.
  - wp_step. wp_step. rewrite upd_state_again by done.
    set (text := string_copy (replicate 128 0) (string_trim_left line) 128).
    change (p1 <| p_arguments ::= _ |>) with (named_process p text).
    wp_step. apply (wp_proc_at _ (named_process p text)); [get_set; by apply list_lookup_insert_eq|].
    change (p_arguments (named_process p text)) with text.
    assert (Htext : length text = 128%nat) by apply string_copy_length.
    wp_step. eapply wp_mono.
    + apply (argument_loop_ok s i (named_process p text) (string_copy (replicate 64 0) (p_name p) 64) Hi).
      * rewrite string_trim_left_skip. by apply skip_head.
      * rewrite string_trim_left_skip. pose proof (skip_length is_blank text). lia.
      * exists (replicate 7 (replicate 64 0)). split_and!; try done; try (cbn; lia). apply blank_rows.
    + pose proof (argument_words_line line) as Ew. fold text in Ew. rewrite Ew. fold (argument_words line).
      intros _ s' (rows & Hl & Hrows & Hd & Hd7 & ->). wp_steps. split; [done|].
      eexists. split; [|split; [reflexivity|]].
      * pose proof (Hwf text Htext) as Hp. destruct Hp. constructor; get_set; try done; try lia.
        -- cbn [length]. lia.
        -- constructor; [apply string_copy_length|done].
      * split_and!; [by destruct p|by get_set|]. get_set. rewrite fmap_cons, Hrow, Hd. done.
Qed.
