(* ===== verification/KState.v ===== *)
(** * The state behind the system call interface

    The static variables of the modules that run user programs, and the state of
    the components below them: memory and page tables ([Vmm]), the file system
    ([Vfs], [Initramfs]) and the process table ([Process]). [console] collects the
    characters handed to [vga_write_char] (drivers/vga.c). *)
From S2P Require Import Prelude Mem KString Boot Pmm Vmm Vfs Initramfs Process.

(** core/fd_table.h *)
Record fd_table_info_t := {
  fd_initialized : bool;
  open_attempts : Z;
  successful_opens : Z;
  failed_opens : Z;
  fd_read_attempts : Z;
  successful_reads : Z;
  failed_reads : Z;
  close_attempts : Z;
  successful_closes : Z;
  failed_closes : Z;
  fd_last_status : Z;
  last_fd : Z;
  fd_last_path : list Z
}.

#[export] Instance eta_fd_table_info : Settable fd_table_info_t := fun i =>
  Build_fd_table_info_t (fd_initialized i) (open_attempts i) (successful_opens i) (failed_opens i)
    (fd_read_attempts i) (successful_reads i) (failed_reads i) (close_attempts i)
    (successful_closes i) (failed_closes i) (fd_last_status i) (last_fd i) (fd_last_path i).

(** arch/i386/ring3.h *)
Record ring3_info_t := {
  r3_initialized : bool;
  r3_ready : bool;
  r3_in_progress : bool;
  r3_completed : bool;
  r3_runs : Z;
  r3_successful_runs : Z;
  r3_failed_runs : Z;
  r3_syscall_count : Z;
  r3_last_syscall_number : Z;
  r3_load_attempts : Z;
  r3_successful_loads : Z;
  r3_failed_loads : Z;
  user_code_virtual : Z;
  user_stack_virtual : Z;
  user_stack_top : Z;
  code_physical : Z;
  stack_physical : Z;
  kernel_syscall_stack_top : Z;
  previous_tss_esp0 : Z;
  loaded_image_size : Z;
  r3_last_status : Z
}.

#[export] Instance eta_ring3_info : Settable ring3_info_t := fun i =>
  Build_ring3_info_t (r3_initialized i) (r3_ready i) (r3_in_progress i) (r3_completed i) (r3_runs i)
    (r3_successful_runs i) (r3_failed_runs i) (r3_syscall_count i) (r3_last_syscall_number i)
    (r3_load_attempts i) (r3_successful_loads i) (r3_failed_loads i) (user_code_virtual i)
    (user_stack_virtual i) (user_stack_top i) (code_physical i) (stack_physical i)
    (kernel_syscall_stack_top i) (previous_tss_esp0 i) (loaded_image_size i) (r3_last_status i).

(** arch/i386/tss.h *)
Record tss_info_t := {
  tss_initialized : bool;
  tss_loaded : bool;
  tss_selector : Z;
  tss_ss0 : Z;
  tss_esp0 : Z;
  tss_base : Z;
  tss_limit : Z;
  set_kernel_stack_count : Z
}.

#[export] Instance eta_tss_info : Settable tss_info_t := fun i =>
  Build_tss_info_t (tss_initialized i) (tss_loaded i) (tss_selector i) (tss_ss0 i) (tss_esp0 i)
    (tss_base i) (tss_limit i) (set_kernel_stack_count i).

(** loader/flat_binary.h *)
Record flat_binary_loader_info_t := {
  flat_initialized : bool;
  flat_load_attempts : Z;
  flat_successful_loads : Z;
  flat_failed_loads : Z;
  last_image_size : Z;
  flat_last_entry : Z;
  last_stack_top : Z;
  flat_last_status : Z;
  flat_last_path : list Z
}.

#[export] Instance eta_flat_info : Settable flat_binary_loader_info_t := fun i =>
  Build_flat_binary_loader_info_t (flat_initialized i) (flat_load_attempts i)
    (flat_successful_loads i) (flat_failed_loads i) (last_image_size i) (flat_last_entry i)
    (last_stack_top i) (flat_last_status i) (flat_last_path i).

(** loader/elf32.h *)
Record elf32_loader_info_t := {
  elf_initialized : bool;
  validation_attempts : Z;
  successful_validations : Z;
  failed_validations : Z;
  elf_load_attempts : Z;
  elf_successful_loads : Z;
  elf_failed_loads : Z;
  elf_last_entry : Z;
  last_program_header_count : Z;
  last_file_size : Z;
  last_load_segment_offset : Z;
  last_load_segment_vaddr : Z;
  last_load_segment_file_size : Z;
  last_load_segment_memory_size : Z;
  elf_last_status : Z;
  elf_last_path : list Z
}.

#[export] Instance eta_elf_info : Settable elf32_loader_info_t := fun i =>
  Build_elf32_loader_info_t (elf_initialized i) (validation_attempts i) (successful_validations i)
    (failed_validations i) (elf_load_attempts i) (elf_successful_loads i) (elf_failed_loads i)
    (elf_last_entry i) (last_program_header_count i) (last_file_size i) (last_load_segment_offset i)
    (last_load_segment_vaddr i) (last_load_segment_file_size i) (last_load_segment_memory_size i)
    (elf_last_status i) (elf_last_path i).

(** core/user_image.h *)
Record user_image_info_t := {
  ui_initialized : bool;
  registered_image_count : Z;
  resolve_attempts : Z;
  resolve_failures : Z;
  ui_last_status : Z;
  ui_last_path : list Z
}.

#[export] Instance eta_user_image_info : Settable user_image_info_t := fun i =>
  Build_user_image_info_t (ui_initialized i) (registered_image_count i) (resolve_attempts i)
    (resolve_failures i) (ui_last_status i) (ui_last_path i).

(** core/exec.h *)
Record exec_info_t := {
  exec_initialized : bool;
  spawn_attempts : Z;
  successful_spawns : Z;
  failed_spawns : Z;
  exec_last_status : Z;
  exec_last_pid : Z;
  exec_last_path : list Z
}.

#[export] Instance eta_exec_info : Settable exec_info_t := fun i =>
  Build_exec_info_t (exec_initialized i) (spawn_attempts i) (successful_spawns i) (failed_spawns i)
    (exec_last_status i) (exec_last_pid i) (exec_last_path i).

(** core/syscall.h *)
Record syscall_info_t := {
  total_calls : Z;
  last_number : Z;
  last_arg1 : Z;
  last_arg2 : Z;
  last_arg3 : Z;
  unsupported_calls : Z
}.

#[export] Instance eta_syscall_info : Settable syscall_info_t := fun i =>
  Build_syscall_info_t (total_calls i) (last_number i) (last_arg1 i) (last_arg2 i) (last_arg3 i)
    (unsupported_calls i).

(** core/user_program.h *)
Record user_program_info_t := {
  up_initialized : bool;
  available_programs : Z;
  up_runs : Z;
  up_successful_runs : Z;
  up_failed_runs : Z;
  up_last_status : Z;
  last_program_name : list Z
}.

#[export] Instance eta_user_program_info : Settable user_program_info_t := fun i =>
  Build_user_program_info_t (up_initialized i) (available_programs i) (up_runs i)
    (up_successful_runs i) (up_failed_runs i) (up_last_status i) (last_program_name i).

Record kernel_state := {
  k_vmm : vmm_state;
  k_fs : initramfs_state;
  k_proc : process_state;
  fd_table_info : fd_table_info_t;
  ring3_info : ring3_info_t;
  tss_info : tss_info_t;
  flat_binary_info : flat_binary_loader_info_t;
  elf32_info : elf32_loader_info_t;
  user_image_info : user_image_info_t;
  exec_info : exec_info_t;
  syscall_info : syscall_info_t;
  user_program_info : user_program_info_t;
  syscall_copy_buffer : list Z;
  console : list Z;
  timer_ticks : Z
}.

#[export] Instance eta_kernel_state : Settable kernel_state := fun s =>
  Build_kernel_state (k_vmm s) (k_fs s) (k_proc s) (fd_table_info s) (ring3_info s) (tss_info s)
    (flat_binary_info s) (elf32_info s) (user_image_info s) (exec_info s) (syscall_info s)
    (user_program_info s) (syscall_copy_buffer s) (console s) (timer_ticks s).

Abbreviation KM := (M kernel_state).

(** Calls into the components. *)
Definition on_vmm {A} (m : M vmm_state A) : KM A := mzoom k_vmm (fun v s => s <| k_vmm := v |>) m.
Definition on_proc {A} (m : PM A) : KM A := mzoom k_proc (fun v s => s <| k_proc := v |>) m.
Definition on_fs {A} (m : IM A) : KM A := mzoom k_fs (fun v s => s <| k_fs := v |>) m.
Definition on_files {A} (m : VM A) : KM A := on_fs (on_vfs m).

(** [k_vfs] is the state of the file system. *)
Definition k_vfs (s : kernel_state) : vfs_state := ifs_vfs (k_fs s).
