(* ===== verification/FdTable.v ===== *)
(** * Open files (core/fd_table.h, core/fd_table.c)

    The descriptors of the current process; descriptors 0 to 2 are reserved. *)
From S2P Require Import Prelude KString Vfs Initramfs Process KState.

Definition FD_INVALID := 0xFFFFFFFF.
Definition FD_FIRST_PROCESS_FILE : nat := 3.

Definition fd_info (f : fd_table_info_t -> fd_table_info_t) : KM unit :=
  mmod (fun s => s <| fd_table_info ::= f |>).

Definition fd_table_initialize : KM unit :=
  fd_info (fun i => {| fd_initialized := true; open_attempts := 0; successful_opens := 0;
    failed_opens := 0; fd_read_attempts := 0; successful_reads := 0; failed_reads := 0;
    close_attempts := 0; successful_closes := 0; failed_closes := 0; fd_last_status := KERNEL_OK;
    last_fd := FD_INVALID; fd_last_path := <[0%nat := 0]> (fd_last_path i) |}).

(** The slots that may be used, in the order of the loop. *)
Definition fd_slots : list nat := seq FD_FIRST_PROCESS_FILE (PROCESS_MAX_OPEN_FILES - FD_FIRST_PROCESS_FILE).

Definition fd_table_allocate_slot (process : option nat) (out_fd : bool) : KM (Z * option Z) :=
  match process with
  | None => mret_ (KERNEL_ERROR_INVALID_ARGUMENT, None)
  | Some i =>
      if negb out_fd then mret_ (KERNEL_ERROR_INVALID_ARGUMENT, None)
      else
        p <- on_proc (proc_at i) ;;
        slot <- mfor_ret fd_slots (fun k =>
          f <- array_at (p_files p) (Z.of_nat k) ;;
          mret_ (if negb (file_used f) then Some k else None)) ;;
        match slot with
        | Some k => mret_ (KERNEL_OK, Some (Z.of_nat k))
        | None => mret_ (KERNEL_ERROR_OUT_OF_MEMORY, None)
        end
  end.

Definition fd_open_fail (status : Z) : KM (Z * option Z) :=
  fd_info (fun i => i <| failed_opens ::= incr |> <| fd_last_status := status |>) ;;;
  mret_ (status, None).

(** Assigning a descriptor of process [i]. *)
Definition set_file (i : nat) (fd : Z) (f : process_file_t -> process_file_t) : KM unit :=
  on_proc (upd_proc i (fun p => p <| p_files ::= alter f (Z.to_nat fd) |>)).

Definition fd_table_open_current (path : option (list Z)) (flags : Z) (out_fd : bool)
    : KM (Z * option Z) :=
  fd_info (fun i => i <| open_attempts ::= incr |> <| last_fd := FD_INVALID |>) ;;;
  fd_info (fun i => i <| fd_last_path ::= fun old =>
    match path with Some p => string_copy old p VFS_PATH_MAX | None => <[0%nat := 0]> old end |>) ;;;
  info <- mget fd_table_info ;;
  if negb (fd_initialized info) then fd_open_fail KERNEL_ERROR_NOT_INITIALIZED
  else
    process <- on_proc process_get_current_mutable ;;
    match process, path with
    | Some i, Some path =>
        if negb out_fd then fd_open_fail KERNEL_ERROR_INVALID_ARGUMENT
        else
          r <- on_files (vfs_lookup (Some path) true) ;;
          let '(status, out) := r in
          if negb (status =? KERNEL_OK) then fd_open_fail status
          else
            let node := default 0 out in
            n <- on_files (node_at node) ;;
            if negb (is_type n VFS_NODE_FILE) then fd_open_fail KERNEL_ERROR_INVALID_STATE
            else
              r <- fd_table_allocate_slot (Some i) true ;;
              let '(status, slot) := r in
              if negb (status =? KERNEL_OK) then fd_open_fail status
              else
                let fd := default FD_INVALID slot in
                set_file i fd (fun _ => {| file_used := true; file_node := node; file_offset := 0;
                                           file_flags := flags |}) ;;;
                fd_info (fun i => i <| successful_opens ::= incr |> <| last_fd := fd |>
                                    <| fd_last_status := KERNEL_OK |>) ;;;
                mret_ (KERNEL_OK, Some fd)
    | _, _ => fd_open_fail KERNEL_ERROR_INVALID_ARGUMENT
    end.

(** [process->files[fd]] when [fd] is a descriptor in use; the guard of read and close. *)
Definition fd_entry (i : nat) (fd : Z) : KM (option process_file_t) :=
  if (Z.of_nat PROCESS_MAX_OPEN_FILES <=? fd) || (fd <? Z.of_nat FD_FIRST_PROCESS_FILE)
  then mret_ None
  else
    p <- on_proc (proc_at i) ;;
    f <- array_at (p_files p) fd ;;
    mret_ (if file_used f then Some f else None).

Definition fd_read_fail (status : Z) (buffer : option (list Z)) : KM (Z * option (list Z) * Z) :=
  fd_info (fun i => i <| failed_reads ::= incr |> <| fd_last_status := status |>) ;;;
  mret_ (status, buffer, 0).

(** The result is the status, the buffer and [*out_bytes_read]. *)
Definition fd_table_read_current (fd : Z) (buffer : option (list Z)) (length : Z)
    (out_bytes_read : bool) : KM (Z * option (list Z) * Z) :=
  fd_info (fun i => i <| fd_read_attempts ::= incr |> <| last_fd := fd |>) ;;;
  info <- mget fd_table_info ;;
  if negb (fd_initialized info) then fd_read_fail KERNEL_ERROR_NOT_INITIALIZED buffer
  else
    process <- on_proc process_get_current_mutable ;;
    match process with
    | None => fd_read_fail KERNEL_ERROR_INVALID_ARGUMENT buffer
    | Some i =>
        if bool_decide (buffer = None) || negb out_bytes_read then
          fd_read_fail KERNEL_ERROR_INVALID_ARGUMENT buffer
        else
          entry <- fd_entry i fd ;;
          match entry with
          | None => fd_read_fail KERNEL_ERROR_INVALID_ARGUMENT buffer
          | Some entry =>
              let node := file_node entry in
              is_file <- (if node =? 0 then mret_ false
                          else n <- on_files (node_at node) ;; mret_ (is_type n VFS_NODE_FILE)) ;;
              if negb is_file then fd_read_fail KERNEL_ERROR_INVALID_STATE buffer
              else
                r <- on_files (vfs_read_node node (file_offset entry) buffer length out_bytes_read) ;;
                let '(status, buffer', bytes_read) := r in
                if negb (status =? KERNEL_OK) then
                  fd_info (fun i => i <| failed_reads ::= incr |> <| fd_last_status := status |>) ;;;
                  mret_ (status, buffer', bytes_read)
                else
                  set_file i fd (fun f => f <| file_offset ::= fun o => o [+] bytes_read |>) ;;;
                  fd_info (fun i => i <| successful_reads ::= incr |>
                                      <| fd_last_status := KERNEL_OK |>) ;;;
                  mret_ (KERNEL_OK, buffer', bytes_read)
          end
    end.

Definition fd_close_fail (status : Z) : KM Z :=
  fd_info (fun i => i <| failed_closes ::= incr |> <| fd_last_status := status |>) ;;;
  mret_ status.

Definition fd_table_close_current (fd : Z) : KM Z :=
  fd_info (fun i => i <| close_attempts ::= incr |> <| last_fd := fd |>) ;;;
  info <- mget fd_table_info ;;
  if negb (fd_initialized info) then fd_close_fail KERNEL_ERROR_NOT_INITIALIZED
  else
    process <- on_proc process_get_current_mutable ;;
    match process with
    | None => fd_close_fail KERNEL_ERROR_INVALID_ARGUMENT
    | Some i =>
        entry <- fd_entry i fd ;;
        match entry with
        | None => fd_close_fail KERNEL_ERROR_INVALID_ARGUMENT
        | Some _ =>
            set_file i fd (fun _ => closed_file) ;;;
            fd_info (fun i => i <| successful_closes ::= incr |> <| fd_last_status := KERNEL_OK |>) ;;;
            mret_ KERNEL_OK
        end
    end.

Definition fd_table_get_info : KM fd_table_info_t := mget fd_table_info.
