(* ===== verification/Ring3.v ===== *)
(** * User mode (arch/i386/ring3.h, ring3.c, tss.c, ring3_entry.asm)

    One page of code and one of stack are mapped for user programs. The kernel
    writes an image through the identity mapping of physical memory. Running user
    code is a parameter of the functions that need it. *)
From S2P Require Import Prelude Mem KString Boot Pmm Vmm Vfs Initramfs Process KState.

Definition RING3_USER_CODE_VIRTUAL := 0x10000000.
Definition RING3_USER_STACK_VIRTUAL := 0x10001000.
Definition RING3_USER_PAGE_SIZE := 4096.
Definition RING3_KERNEL_SYSCALL_STACK_SIZE := 4096.
Definition GDT_KERNEL_DATA_SELECTOR := 0x10.
Definition GDT_TSS_SELECTOR := 0x28.
(** [sizeof(tss_entry_t)]: 25 words and two half words, packed. *)
Definition sizeof_tss_entry := 104.

Record ring3_loaded_image_t := {
  loaded_entry : Z;
  loaded_stack_top : Z;
  loaded_size : Z
}.

Definition r3_info (f : ring3_info_t -> ring3_info_t) : KM unit :=
  mmod (fun s => s <| ring3_info ::= f |>).

(** A byte of physical memory below 128 MiB, reached through the identity mapping;
    any other address is not mapped for the kernel and faults. *)
Definition phys_write8 (a v : Z) : KM unit := fun s =>
  if (0 <=? a) && (a <? 0x8000000)
  then Some (tt, s <| k_vmm ::= fun m => m <| vmm_mem ::= store8 a v |> |>)
  else None.

(** ** Task state segment (arch/i386/tss.c) *)

Section Ring3.
(** The linker's addresses of [tss_entry] and [ring3_kernel_syscall_stack]. *)
Context (addr_tss_entry addr_syscall_stack : Z).

Definition tss_initialize : KM unit :=
  mmod (fun s => s <| tss_info := {| tss_initialized := true; tss_loaded := false;
    tss_selector := GDT_TSS_SELECTOR; tss_ss0 := GDT_KERNEL_DATA_SELECTOR; tss_esp0 := 0;
    tss_base := addr_tss_entry; tss_limit := sizeof_tss_entry - 1;
    set_kernel_stack_count := 0 |} |>).

Definition tss_set_kernel_stack (stack_top : Z) : KM unit :=
  t <- mget tss_info ;;
  mwhen (negb (tss_initialized t)) tss_initialize ;;;
  mmod (fun s => s <| tss_info ::= fun t => t <| tss_esp0 := stack_top |>
    <| tss_ss0 := GDT_KERNEL_DATA_SELECTOR |> <| set_kernel_stack_count ::= incr |> |>).

(** ** Pages *)

Definition ring3_zero_page (page : Z) : KM unit :=
  mfor (seqZ 0 RING3_USER_PAGE_SIZE) (fun i => phys_write8 (page + i) 0).

Definition user_flags : Z := Z.lor VMM_PAGE_WRITABLE VMM_PAGE_USER.

(** A store in user mode needs a page that is present, writable and marked user. *)
Definition user_writable (m : vmm_state) (a : Z) : bool :=
  let e := vmm_entry m a in
  is_present e && (Z.land e user_flags =? user_flags).

Definition ring3_free_pages (code_page stack_page : Z) : KM unit :=
  on_vmm (on_pmm (pmm_free_page stack_page)) ;;; on_vmm (on_pmm (pmm_free_page code_page)).

(** The second half of [ring3_prepare_pages], on two zeroed frames. *)
Definition ring3_map_pages (code_page stack_page : Z) : KM Z :=
  let free_pages := ring3_free_pages code_page stack_page in
  ok <- on_vmm (vmm_map_page RING3_USER_CODE_VIRTUAL code_page user_flags) ;;
  if negb ok then free_pages ;;; mret_ KERNEL_ERROR_OUT_OF_MEMORY
  else
    ok <- on_vmm (vmm_map_page RING3_USER_STACK_VIRTUAL stack_page user_flags) ;;
    if negb ok then
      on_vmm (vmm_unmap_page RING3_USER_CODE_VIRTUAL) ;;;
      free_pages ;;; mret_ KERNEL_ERROR_OUT_OF_MEMORY
    else
      let undo :=
        on_vmm (vmm_unmap_page RING3_USER_STACK_VIRTUAL) ;;;
        on_vmm (vmm_unmap_page RING3_USER_CODE_VIRTUAL) ;;;
        free_pages ;;; mret_ KERNEL_ERROR_CORRUPTION_DETECTED in
      ok <- on_vmm (vmm_validate_mapping RING3_USER_CODE_VIRTUAL user_flags) ;;
      if negb ok then undo
      else
        ok <- on_vmm (vmm_validate_mapping RING3_USER_STACK_VIRTUAL user_flags) ;;
        if negb ok then undo
        else
          r3_info (fun i => i <| code_physical := code_page |> <| stack_physical := stack_page |>
            <| loaded_image_size := 0 |>
            <| user_code_virtual := RING3_USER_CODE_VIRTUAL |>
            <| user_stack_virtual := RING3_USER_STACK_VIRTUAL |>
            <| user_stack_top :=
                 RING3_USER_STACK_VIRTUAL [+] RING3_USER_PAGE_SIZE [-] 16 |>) ;;;
          mret_ KERNEL_OK.

Definition ring3_prepare_pages : KM Z :=
  code_page <- on_vmm (on_pmm pmm_alloc_page) ;;
  if code_page =? 0 then mret_ KERNEL_ERROR_OUT_OF_MEMORY
  else
    stack_page <- on_vmm (on_pmm pmm_alloc_page) ;;
    if stack_page =? 0 then
      on_vmm (on_pmm (pmm_free_page code_page)) ;;; mret_ KERNEL_ERROR_OUT_OF_MEMORY
    else
      ring3_zero_page code_page ;;;
      ring3_zero_page stack_page ;;;
      ring3_map_pages code_page stack_page.

Definition ring3_initialize : KM Z :=
  info <- mget ring3_info ;;
  if r3_initialized info then mret_ (r3_last_status info)
  else
    r3_info (fun i => {| r3_initialized := true; r3_ready := false; r3_in_progress := false;
      r3_completed := false; r3_runs := 0; r3_successful_runs := 0; r3_failed_runs := 0;
      r3_syscall_count := 0; r3_last_syscall_number := 0; r3_load_attempts := 0;
      r3_successful_loads := 0; r3_failed_loads := 0; user_code_virtual := 0;
      user_stack_virtual := 0; user_stack_top := 0; code_physical := 0; stack_physical := 0;
      kernel_syscall_stack_top := addr_syscall_stack [+] RING3_KERNEL_SYSCALL_STACK_SIZE;
      previous_tss_esp0 := 0; loaded_image_size := 0; r3_last_status := r3_last_status i |}) ;;;
    status <- ring3_prepare_pages ;;
    r3_info (fun i => i <| r3_last_status := status |>) ;;;
    mwhen (status =? KERNEL_OK) (r3_info (fun i => i <| r3_ready := true |>)) ;;;
    mret_ status.

(** ** Loading *)

Definition ring3_load_fail (status : Z) : KM (Z * option ring3_loaded_image_t) :=
  r3_info (fun i => i <| r3_failed_loads ::= incr |> <| r3_last_status := status |>) ;;;
  mret_ (status, None).

Definition ring3_load_user_image (image : option (list Z)) (image_size : Z) (out_loaded : bool)
    : KM (Z * option ring3_loaded_image_t) :=
  match image with
  | None => mret_ (KERNEL_ERROR_INVALID_ARGUMENT, None)
  | Some image =>
      if negb out_loaded then mret_ (KERNEL_ERROR_INVALID_ARGUMENT, None)
      else
        status <- ring3_initialize ;;
        if negb (status =? KERNEL_OK) then mret_ (status, None)
        else
          r3_info (fun i => i <| r3_load_attempts ::= incr |>) ;;;
          info <- mget ring3_info ;;
          if negb (r3_ready info) || (code_physical info =? 0) || (stack_physical info =? 0) then
            ring3_load_fail KERNEL_ERROR_INVALID_STATE
          else if (image_size =? 0) || (RING3_USER_PAGE_SIZE <? image_size) then
            ring3_load_fail KERNEL_ERROR_UNSUPPORTED
          else
            let code_page := code_physical info in
            ring3_zero_page code_page ;;;
            mfor (seqZ 0 image_size) (fun i =>
              byte <- array_at image i ;; phys_write8 (code_page + i) byte) ;;;
            r3_info (fun i => i <| loaded_image_size := image_size |>
                                <| r3_successful_loads ::= incr |>
                                <| r3_last_status := KERNEL_OK |>) ;;;
            info <- mget ring3_info ;;
            mret_ (KERNEL_OK, Some {| loaded_entry := user_code_virtual info;
                                      loaded_stack_top := user_stack_top info;
                                      loaded_size := image_size |})
  end.

(** ** Running *)

Definition ring3_run_fail (status : Z) : KM Z :=
  r3_info (fun i => i <| r3_failed_runs ::= incr |> <| r3_last_status := status |>) ;;;
  mret_ status.

(** [ring3_enter_user_mode] starts user code and comes back when a system call
    resumes the kernel; what happens in between is the argument [user_code]. *)
Definition ring3_run_user_image (user_code : Z -> Z -> KM unit) (user_eip user_esp : Z) : KM Z :=
  status <- ring3_initialize ;;
  if negb (status =? KERNEL_OK) then ring3_run_fail status
  else
    info <- mget ring3_info ;;
    if negb (r3_ready info) then ring3_run_fail KERNEL_ERROR_INVALID_STATE
    else if (user_eip =? 0) || (user_esp =? 0) then ring3_run_fail KERNEL_ERROR_INVALID_ARGUMENT
    else
      mmod (fun s => s <| ring3_info ::= fun i =>
        i <| r3_runs ::= incr |> <| r3_in_progress := true |> <| r3_completed := false |>
          <| r3_last_syscall_number := 0 |> <| previous_tss_esp0 := tss_esp0 (tss_info s) |> |>) ;;;
      tss_set_kernel_stack (kernel_syscall_stack_top info) ;;;
      user_code user_eip user_esp ;;;
      info <- mget ring3_info ;;
      if negb (r3_completed info) then
        r3_info (fun i => i <| r3_in_progress := false |>) ;;;
        ring3_run_fail KERNEL_ERROR_INVALID_STATE
      else
        r3_info (fun i => i <| r3_successful_runs ::= incr |> <| r3_last_status := KERNEL_OK |>) ;;;
        mret_ KERNEL_OK.
End Ring3.
