(* ===== verification/Loader.v ===== *)
(** * Program loaders (loader/flat_binary.c, loader/elf32.c, core/user_image.c)

    A flat binary is copied as it is. An ELF file is checked field by field; its
    only loadable segment must start at the user code address and fit the page.
    Both end in [ring3_load_user_image]. The registered images tie a path to its
    format. *)
From S2P Require Import Prelude Mem KString Boot Pmm Vmm Vfs Initramfs Process KState Ring3.

Definition USER_IMAGE_PATH_MAX : nat := 64.

Inductive user_image_kind_t :=
  USER_IMAGE_KIND_EMBEDDED | USER_IMAGE_KIND_FLAT_BINARY | USER_IMAGE_KIND_ELF.

Record user_image_t := {
  img_path : option (list Z);
  img_name : list Z;
  img_kind : user_image_kind_t;
  img_entry : Z;
  img_user_stack_top : Z;
  img_size : Z;
  img_flags : Z
}.

Definition ELF32_CLASS_32BIT := 1.
Definition ELF32_DATA_LITTLE_ENDIAN := 1.
Definition ELF32_VERSION_CURRENT := 1.
Definition ELF32_TYPE_EXECUTABLE := 2.
Definition ELF32_MACHINE_I386 := 3.
Definition ELF32_PROGRAM_TYPE_NULL := 0.
Definition ELF32_PROGRAM_TYPE_LOAD := 1.
Definition sizeof_elf32_header := 52.
Definition sizeof_elf32_program_header := 32.

(** The fields of [elf32_header_t] and [elf32_program_header_t] are read from the
    bytes of the file, little-endian, at their offsets. *)
Section Fields.
Context {S : Type}.

Definition get8 (d : list Z) (off : Z) : M S Z := array_at d off.
Definition get16 (d : list Z) (off : Z) : M S Z :=
  lo <- get8 d off ;; hi <- get8 d (off + 1) ;; mret_ (lo + 256 * hi).
Definition get32 (d : list Z) (off : Z) : M S Z :=
  lo <- get16 d off ;; hi <- get16 d (off + 2) ;; mret_ (lo + 65536 * hi).

Definition e_type (d : list Z) : M S Z := get16 d 16.
Definition e_machine (d : list Z) : M S Z := get16 d 18.
Definition e_version (d : list Z) : M S Z := get32 d 20.
Definition e_entry (d : list Z) : M S Z := get32 d 24.
Definition e_program_header_offset (d : list Z) : M S Z := get32 d 28.
Definition e_header_size (d : list Z) : M S Z := get16 d 40.
Definition e_program_header_entry_size (d : list Z) : M S Z := get16 d 42.
Definition e_program_header_count (d : list Z) : M S Z := get16 d 44.

(** [ph] is the offset of the program header in the file. *)
Definition ph_type (d : list Z) (ph : Z) : M S Z := get32 d ph.
Definition ph_offset (d : list Z) (ph : Z) : M S Z := get32 d (ph + 4).
Definition ph_virtual_address (d : list Z) (ph : Z) : M S Z := get32 d (ph + 8).
Definition ph_file_size (d : list Z) (ph : Z) : M S Z := get32 d (ph + 16).
Definition ph_memory_size (d : list Z) (ph : Z) : M S Z := get32 d (ph + 20).
End Fields.

(** The last component of a path, as a suffix of it. *)
Fixpoint basename_from (last rest : list Z) : list Z :=
  match rest with
  | [] => last
  | c :: r => if c =? 0 then last
              else basename_from (if (c =? chr_slash) && negb (char_at r 0 =? 0) then r else last) r
  end.

Definition flat_binary_basename (path : option (list Z)) : list Z :=
  match path with None => [] | Some p => basename_from p p end.

Definition elf32_basename (path : option (list Z)) : list Z :=
  match path with None => [] | Some p => basename_from p p end.

Section Loader.
Context (addr_syscall_stack : Z).
(** The bytes at address 0, which a NULL path would be read from. *)
Context (text_at_null : list Z).

Abbreviation ring3_load := (ring3_load_user_image addr_syscall_stack).

Definition flat_info (f : flat_binary_loader_info_t -> flat_binary_loader_info_t) : KM unit :=
  mmod (fun s => s <| flat_binary_info ::= f |>).
Definition elf_info (f : elf32_loader_info_t -> elf32_loader_info_t) : KM unit :=
  mmod (fun s => s <| elf32_info ::= f |>).
Definition image_info (f : user_image_info_t -> user_image_info_t) : KM unit :=
  mmod (fun s => s <| user_image_info ::= f |>).

(** ** Flat binaries *)

Definition flat_binary_loader_initialize : KM unit :=
  flat_info (fun i => {| flat_initialized := true; flat_load_attempts := 0;
    flat_successful_loads := 0; flat_failed_loads := 0; last_image_size := 0; flat_last_entry := 0;
    last_stack_top := 0; flat_last_status := KERNEL_OK;
    flat_last_path := <[0%nat := 0]> (flat_last_path i) |}).

Definition flat_fail (status : Z) : KM (Z * option user_image_t) :=
  flat_info (fun i => i <| flat_failed_loads ::= incr |> <| flat_last_status := status |>) ;;;
  mret_ (status, None).

Definition flat_binary_load_from_node (node : Z) (out_image : bool) : KM (Z * option user_image_t) :=
  info <- mget flat_binary_info ;;
  if negb (flat_initialized info) then mret_ (KERNEL_ERROR_NOT_INITIALIZED, None)
  else if (node =? 0) || negb out_image then flat_fail KERNEL_ERROR_INVALID_ARGUMENT
  else
    flat_info (fun i => i <| flat_load_attempts ::= incr |>) ;;;
    n <- on_files (node_at node) ;;
    flat_info (fun i => i <| flat_last_path ::= fun old =>
      string_copy old (default text_at_null (vn_path n)) USER_IMAGE_PATH_MAX |>) ;;;
    if negb (is_type n VFS_NODE_FILE) || bool_decide (vn_data n = None) || (vn_size n =? 0) then
      flat_fail KERNEL_ERROR_INVALID_STATE
    else
      r <- ring3_load (vn_data n) (vn_size n) true ;;
      let '(status, loaded) := r in
      flat_info (fun i => i <| flat_last_status := status |>) ;;;
      match loaded with
      | Some loaded =>
          if negb (status =? KERNEL_OK) then flat_fail status
          else
            flat_info (fun i => i <| flat_successful_loads ::= incr |>
              <| last_image_size := loaded_size loaded |> <| flat_last_entry := loaded_entry loaded |>
              <| last_stack_top := loaded_stack_top loaded |>) ;;;
            mret_ (KERNEL_OK, Some {| img_path := vn_path n; img_name := flat_binary_basename (vn_path n);
              img_kind := USER_IMAGE_KIND_FLAT_BINARY; img_entry := loaded_entry loaded;
              img_user_stack_top := loaded_stack_top loaded; img_size := loaded_size loaded;
              img_flags := 0 |})
      | None => flat_fail status
      end.

(** ** ELF files *)

Definition elf32_initialize : KM unit :=
  elf_info (fun i => {| elf_initialized := true; validation_attempts := 0;
    successful_validations := 0; failed_validations := 0; elf_load_attempts := 0;
    elf_successful_loads := 0; elf_failed_loads := 0; elf_last_entry := 0;
    last_program_header_count := 0; last_file_size := 0; last_load_segment_offset := 0;
    last_load_segment_vaddr := 0; last_load_segment_file_size := 0;
    last_load_segment_memory_size := 0; elf_last_status := KERNEL_OK;
    elf_last_path := <[0%nat := 0]> (elf_last_path i) |}).

Definition elf32_fail {A} (status : Z) : KM (Z * option A) :=
  elf_info (fun i => i <| failed_validations ::= incr |> <| elf_last_status := status |>) ;;;
  mret_ (status, None).

Definition elf32_load_fail {A} (status : Z) : KM (Z * option A) :=
  elf_info (fun i => i <| elf_failed_loads ::= incr |> <| elf_last_status := status |>) ;;;
  mret_ (status, None).

(** The checks on the header, in order; the result is the failure, if any. *)
Definition elf32_check_header (d : list Z) (size : Z) : KM (option Z) :=
  m0 <- get8 d 0 ;; m1 <- get8 d 1 ;; m2 <- get8 d 2 ;; m3 <- get8 d 3 ;;
  if negb (m0 =? 0x7F) || negb (m1 =? 69) || negb (m2 =? 76) || negb (m3 =? 70) then
    mret_ (Some KERNEL_ERROR_INVALID_STATE)
  else
    class <- get8 d 4 ;;
    if negb (class =? ELF32_CLASS_32BIT) then mret_ (Some KERNEL_ERROR_UNSUPPORTED)
    else
      encoding <- get8 d 5 ;;
      if negb (encoding =? ELF32_DATA_LITTLE_ENDIAN) then mret_ (Some KERNEL_ERROR_UNSUPPORTED)
      else
        v <- get8 d 6 ;;
        if negb (v =? ELF32_VERSION_CURRENT) then mret_ (Some KERNEL_ERROR_UNSUPPORTED)
        else
          type <- e_type d ;;
          if negb (type =? ELF32_TYPE_EXECUTABLE) then mret_ (Some KERNEL_ERROR_UNSUPPORTED)
          else
            machine <- e_machine d ;;
            if negb (machine =? ELF32_MACHINE_I386) then mret_ (Some KERNEL_ERROR_UNSUPPORTED)
            else
              version <- e_version d ;;
              if negb (version =? ELF32_VERSION_CURRENT) then
                mret_ (Some KERNEL_ERROR_UNSUPPORTED)
              else
                header_size <- e_header_size d ;;
                if negb (header_size =? sizeof_elf32_header) then
                  mret_ (Some KERNEL_ERROR_INVALID_STATE)
                else
                  count <- e_program_header_count d ;;
                  if 0 <? count then
                    entry_size <- e_program_header_entry_size d ;;
                    if negb (entry_size =? sizeof_elf32_program_header) then
                      mret_ (Some KERNEL_ERROR_INVALID_STATE)
                    else
                      let program_header_bytes := count [*] entry_size in
                      offset <- e_program_header_offset d ;;
                      if size <=? offset then mret_ (Some KERNEL_ERROR_INVALID_STATE)
                      else if size [-] offset <? program_header_bytes then
                        mret_ (Some KERNEL_ERROR_INVALID_STATE)
                      else mret_ None
                  else mret_ None.

(** [out_header] is assigned the bytes of the file, which start with the header. *)
Definition elf32_validate_from_node (node : Z) (out_header : bool) : KM (Z * option (list Z)) :=
  if (node =? 0) || negb out_header then mret_ (KERNEL_ERROR_INVALID_ARGUMENT, None)
  else
    n <- on_files (node_at node) ;;
    elf_info (fun i => i <| validation_attempts ::= incr |> <| last_file_size := vn_size n |>
      <| elf_last_entry := 0 |> <| last_program_header_count := 0 |>
      <| elf_last_path ::= fun old =>
           string_copy old (default text_at_null (vn_path n)) VFS_PATH_MAX |>) ;;;
    if negb (is_type n VFS_NODE_FILE) then elf32_fail KERNEL_ERROR_INVALID_ARGUMENT
    else
      match vn_data n with
      | None => elf32_fail KERNEL_ERROR_INVALID_STATE
      | Some d =>
          if vn_size n <? sizeof_elf32_header then elf32_fail KERNEL_ERROR_INVALID_STATE
          else
            bad <- elf32_check_header d (vn_size n) ;;
            match bad with
            | Some status => elf32_fail status
            | None =>
                entry <- e_entry d ;;
                count <- e_program_header_count d ;;
                elf_info (fun i => i <| successful_validations ::= incr |>
                  <| elf_last_entry := entry |> <| last_program_header_count := count |>
                  <| elf_last_status := KERNEL_OK |>) ;;;
                mret_ (KERNEL_OK, Some d)
            end
      end.

(** The loop that picks the only loadable segment: [inl] the failure, [inr] the
    offset of its program header. *)
Definition elf32_select_segment (d : list Z) : KM (Z + option Z) :=
  count <- e_program_header_count d ;;
  mfold (seqZ 0 count) (fun acc i =>
    match acc with
    | inl status => mret_ (inl status)
    | inr selected =>
        base <- e_program_header_offset d ;;
        entry_size <- e_program_header_entry_size d ;;
        let program_header := base [+] (i [*] entry_size) in
        type <- ph_type d program_header ;;
        if negb (type =? ELF32_PROGRAM_TYPE_LOAD) then mret_ acc
        else match selected with
             | Some _ => mret_ (inl KERNEL_ERROR_UNSUPPORTED)
             | None => mret_ (inr (Some program_header))
             end
    end) (inr None).

(** The checks on the selected segment; the result is the failure, if any. *)
Definition elf32_check_segment (d : list Z) (size ph : Z) : KM (option Z) :=
  vaddr <- ph_virtual_address d ph ;;
  if negb (vaddr =? RING3_USER_CODE_VIRTUAL) then mret_ (Some KERNEL_ERROR_UNSUPPORTED)
  else
    entry <- e_entry d ;;
    if entry <? vaddr then mret_ (Some KERNEL_ERROR_INVALID_STATE)
    else
      memory_size <- ph_memory_size d ph ;;
      if vaddr [+] memory_size <=? entry then mret_ (Some KERNEL_ERROR_INVALID_STATE)
      else
        file_size <- ph_file_size d ph ;;
        if file_size =? 0 then mret_ (Some KERNEL_ERROR_INVALID_STATE)
        else if memory_size <? file_size then mret_ (Some KERNEL_ERROR_INVALID_STATE)
        else if RING3_USER_PAGE_SIZE <? memory_size then mret_ (Some KERNEL_ERROR_UNSUPPORTED)
        else
          offset <- ph_offset d ph ;;
          if size <=? offset then mret_ (Some KERNEL_ERROR_INVALID_STATE)
          else if size [-] offset <? file_size then mret_ (Some KERNEL_ERROR_INVALID_STATE)
          else mret_ None.

Definition elf32_load_from_node (node : Z) (out_image : bool) : KM (Z * option user_image_t) :=
  if (node =? 0) || negb out_image then mret_ (KERNEL_ERROR_INVALID_ARGUMENT, None)
  else
    info <- mget elf32_info ;;
    if negb (elf_initialized info) then mret_ (KERNEL_ERROR_NOT_INITIALIZED, None)
    else
      n <- on_files (node_at node) ;;
      elf_info (fun i => i <| elf_load_attempts ::= incr |>
        <| elf_last_path ::= fun old =>
             string_copy old (default text_at_null (vn_path n)) VFS_PATH_MAX |>) ;;;
      r <- elf32_validate_from_node node true ;;
      let '(status, header) := r in
      match header with
      | None => elf32_load_fail status
      | Some d =>
          if negb (status =? KERNEL_OK) then elf32_load_fail status
          else
            count <- e_program_header_count d ;;
            if count =? 0 then elf32_load_fail KERNEL_ERROR_INVALID_STATE
            else
              selected <- elf32_select_segment d ;;
              match selected with
              | inl status => elf32_load_fail status
              | inr None => elf32_load_fail KERNEL_ERROR_INVALID_STATE
              | inr (Some ph) =>
                  bad <- elf32_check_segment d (vn_size n) ph ;;
                  match bad with
                  | Some status => elf32_load_fail status
                  | None =>
                      offset <- ph_offset d ph ;;
                      file_size <- ph_file_size d ph ;;
                      memory_size <- ph_memory_size d ph ;;
                      vaddr <- ph_virtual_address d ph ;;
                      entry <- e_entry d ;;
                      r <- ring3_load (Some (drop (Z.to_nat offset) d)) file_size true ;;
                      let '(status, loaded) := r in
                      match loaded with
                      | None => elf32_load_fail status
                      | Some loaded =>
                          if negb (status =? KERNEL_OK) then elf32_load_fail status
                          else
                            elf_info (fun i => i <| elf_successful_loads ::= incr |>
                              <| elf_last_entry := entry |> <| last_program_header_count := count |>
                              <| last_file_size := vn_size n |>
                              <| last_load_segment_offset := offset |>
                              <| last_load_segment_vaddr := vaddr |>
                              <| last_load_segment_file_size := file_size |>
                              <| last_load_segment_memory_size := memory_size |>
                              <| elf_last_status := KERNEL_OK |>) ;;;
                            mret_ (KERNEL_OK, Some {| img_path := vn_path n;
                              img_name := elf32_basename (vn_path n);
                              img_kind := USER_IMAGE_KIND_ELF; img_entry := entry;
                              img_user_stack_top := loaded_stack_top loaded;
                              img_size := memory_size; img_flags := 0 |})
                      end
                  end
              end
      end.

(** ** Registered images (core/user_image.c) *)

Record registered_user_image_t := {
  reg_path : list Z;
  reg_name : list Z;
  reg_kind : user_image_kind_t
}.

Definition flat_image (path name : String.string) : registered_user_image_t :=
  {| reg_path := str path; reg_name := str name; reg_kind := USER_IMAGE_KIND_FLAT_BINARY |}.

Definition registered_images : list registered_user_image_t := [
  flat_image "/sbin/init" "init";
  flat_image "/bin/hello" "hello";
  {| reg_path := str "/bin/hello-elf"; reg_name := str "hello-elf"; reg_kind := USER_IMAGE_KIND_ELF |};
  flat_image "/bin/syscheck" "syscheck";
  flat_image "/bin/sysbadptr" "sysbadptr";
  flat_image "/bin/pid" "pid";
  flat_image "/bin/ticks" "ticks";
  flat_image "/bin/about" "about";
  flat_image "/bin/os-release" "os-release";
  flat_image "/bin/cat" "cat";
  flat_image "/bin/clear" "clear";
  flat_image "/bin/help" "help";
  flat_image "/bin/uptime" "uptime";
  flat_image "/bin/args" "args";
  flat_image "/bin/echo" "echo";
  flat_image "/bin/sh" "sh"
].

Definition user_image_count : Z := Z.of_nat (length registered_images).

Definition user_image_initialize : KM unit :=
  image_info (fun i => {| ui_initialized := true; registered_image_count := user_image_count;
    resolve_attempts := 0; resolve_failures := 0; ui_last_status := KERNEL_OK;
    ui_last_path := <[0%nat := 0]> (ui_last_path i) |}).

Definition user_image_resolve_registered_node (registration : registered_user_image_t)
    : KM (Z * option Z) :=
  r <- on_files (vfs_lookup (Some (reg_path registration)) true) ;;
  let '(status, out) := r in
  if negb (status =? KERNEL_OK) then mret_ (status, None)
  else
    let node := default 0 out in
    is_file <- (if node =? 0 then mret_ false
                else n <- on_files (node_at node) ;; mret_ (is_type n VFS_NODE_FILE)) ;;
    if negb is_file then mret_ (KERNEL_ERROR_INVALID_STATE, None)
    else mret_ (KERNEL_OK, Some node).

Definition user_image_load_registered (registration : registered_user_image_t)
    : KM (Z * option user_image_t) :=
  r <- user_image_resolve_registered_node registration ;;
  let '(status, out) := r in
  if negb (status =? KERNEL_OK) then mret_ (status, None)
  else
    match reg_kind registration with
    | USER_IMAGE_KIND_FLAT_BINARY => flat_binary_load_from_node (default 0 out) true
    | USER_IMAGE_KIND_ELF => elf32_load_from_node (default 0 out) true
    | USER_IMAGE_KIND_EMBEDDED => mret_ (KERNEL_ERROR_UNSUPPORTED, None)
    end.

(** [out_image] of the functions that describe an image without loading it. *)
Definition described_image (registration : registered_user_image_t) (entry stack size : Z) : user_image_t :=
  {| img_path := Some (reg_path registration); img_name := reg_name registration;
     img_kind := reg_kind registration; img_entry := entry; img_user_stack_top := stack;
     img_size := size; img_flags := 0 |}.

Definition user_image_get_at (index : Z) (out_image : bool) : KM (Z * option user_image_t) :=
  if negb out_image then mret_ (KERNEL_ERROR_INVALID_ARGUMENT, None)
  else if user_image_count <=? index then mret_ (KERNEL_ERROR_NOT_FOUND, None)
  else
    registration <- array_at registered_images index ;;
    r <- user_image_resolve_registered_node registration ;;
    let '(status, out) := r in
    if negb (status =? KERNEL_OK) then
      image_info (fun i => i <| ui_last_status := status |>) ;;; mret_ (status, None)
    else
      n <- on_files (node_at (default 0 out)) ;;
      image_info (fun i => i <| ui_last_status := KERNEL_OK |>) ;;;
      mret_ (KERNEL_OK, Some (described_image registration 0 0 (vn_size n))).

(** The registration of a path, searched in order. *)
Definition find_registration (path : list Z) : option registered_user_image_t :=
  find (fun r => string_equals path (reg_path r)) registered_images.

Definition image_not_found {A} : KM (Z * option A) :=
  image_info (fun i => i <| resolve_failures ::= incr |>
                         <| ui_last_status := KERNEL_ERROR_NOT_FOUND |>) ;;;
  mret_ (KERNEL_ERROR_NOT_FOUND, None).

Definition note_image_request (path : list Z) : KM unit :=
  image_info (fun i => i <| resolve_attempts ::= incr |>
    <| ui_last_path ::= fun old => string_copy old path USER_IMAGE_PATH_MAX |>).

Definition user_image_lookup (path : option (list Z)) (out_image : bool) : KM (Z * option user_image_t) :=
  match path with
  | None => mret_ (KERNEL_ERROR_INVALID_ARGUMENT, None)
  | Some path =>
      if negb out_image then mret_ (KERNEL_ERROR_INVALID_ARGUMENT, None)
      else
        note_image_request path ;;;
        match find_registration path with
        | None => image_not_found
        | Some registration =>
            r <- user_image_resolve_registered_node registration ;;
            let '(status, out) := r in
            if negb (status =? KERNEL_OK) then
              image_info (fun i => i <| resolve_failures ::= incr |> <| ui_last_status := status |>) ;;;
              mret_ (status, None)
            else
              n <- on_files (node_at (default 0 out)) ;;
              image_info (fun i => i <| ui_last_status := KERNEL_OK |>) ;;;
              mret_ (KERNEL_OK, Some (described_image registration RING3_USER_CODE_VIRTUAL
                                        RING3_USER_STACK_VIRTUAL (vn_size n)))
        end
  end.

Definition user_image_resolve (path : option (list Z)) (out_image : bool) : KM (Z * option user_image_t) :=
  match path with
  | None => mret_ (KERNEL_ERROR_INVALID_ARGUMENT, None)
  | Some path =>
      if negb out_image then mret_ (KERNEL_ERROR_INVALID_ARGUMENT, None)
      else
        note_image_request path ;;;
        match find_registration path with
        | None => image_not_found
        | Some registration =>
            r <- user_image_load_registered registration ;;
            image_info (fun i => i <| ui_last_status := fst r |>) ;;;
            mwhen (negb (fst r =? KERNEL_OK))
              (image_info (fun i => i <| resolve_failures ::= incr |>)) ;;;
            mret_ r
        end
  end.
End Loader.
