(* ===== verification/Syscall.v ===== *)
(** * Program start and system calls (core/exec.c, core/syscall.c)

    A user pointer is an address that the kernel dereferences through the page
    tables; an address that is not mapped is a page fault, which stops the kernel.
    [exec_create_with_args] is the part of exec.c that system calls use. Local
    arrays start as zeros: the code writes every byte of them that it reads. *)
From S2P Require Import Prelude Mem KString Boot Pmm Vmm Pages Vfs Initramfs Process KState FdTable Ring3 Loader.

Definition SYSCALL_WRITE_MAX_BYTES := 4096.
Definition SYSCALL_COPY_CHUNK_MAX := 512.

Definition LIAM_SYSCALL_EXIT := 1.
Definition LIAM_SYSCALL_WRITE := 2.
Definition LIAM_SYSCALL_GET_TICKS := 3.
Definition LIAM_SYSCALL_YIELD := 4.
Definition LIAM_SYSCALL_GET_PID := 5.
Definition LIAM_SYSCALL_OPEN := 6.
Definition LIAM_SYSCALL_READ := 7.
Definition LIAM_SYSCALL_CLOSE := 8.
Definition LIAM_SYSCALL_STAT := 9.
Definition LIAM_SYSCALL_GET_ARGC := 10.
Definition LIAM_SYSCALL_GET_ARG := 11.
Definition LIAM_SYSCALL_EXEC := 12.

(** ** core/exec.c: creating a process *)

Definition ex_info (f : exec_info_t -> exec_info_t) : KM unit :=
  mmod (fun s => s <| exec_info ::= f |>).

Definition exec_initialize : KM unit :=
  ex_info (fun i => {| exec_initialized := true; spawn_attempts := 0; successful_spawns := 0;
    failed_spawns := 0; exec_last_status := KERNEL_OK; exec_last_pid := PROCESS_INVALID_PID;
    exec_last_path := <[0%nat := 0]> (exec_last_path i) |}).

Definition exec_fail (status pid : Z) (out : option nat) : KM (Z * option nat) :=
  ex_info (fun i => i <| failed_spawns ::= incr |> <| exec_last_status := status |>
                      <| exec_last_pid := pid |>) ;;;
  mret_ (status, out).

Definition exec_create_with_args (path arguments : option (list Z)) (out_process : bool)
    : KM (Z * option nat) :=
  match path with
  | None => mret_ (KERNEL_ERROR_INVALID_ARGUMENT, None)
  | Some path =>
      if negb out_process then mret_ (KERNEL_ERROR_INVALID_ARGUMENT, None)
      else
        ex_info (fun i => i <| spawn_attempts ::= incr |>
          <| exec_last_path ::= fun old => string_copy old path 64 |>) ;;;
        r <- user_image_lookup (Some path) true ;;
        match r with
        | (status, None) => exec_fail status PROCESS_INVALID_PID None
        | (status, Some image) =>
            if negb (status =? KERNEL_OK) then exec_fail status PROCESS_INVALID_PID None
            else
              r <- on_proc (process_create (Some (img_name image)) (img_entry image)
                              (img_user_stack_top image) true) ;;
              let '(status, process) := r in
              match process with
              | None => exec_fail status PROCESS_INVALID_PID None
              | Some i =>
                  status <- on_proc (process_configure_image_path (Some i) (Some path)) ;;
                  p <- on_proc (proc_at i) ;;
                  if negb (status =? KERNEL_OK) then exec_fail status (p_pid p) (Some i)
                  else
                    status <- on_proc (process_configure_arguments (Some i) arguments) ;;
                    p <- on_proc (proc_at i) ;;
                    if negb (status =? KERNEL_OK) then exec_fail status (p_pid p) (Some i)
                    else
                      ex_info (fun e => e <| successful_spawns ::= incr |>
                        <| exec_last_status := KERNEL_OK |> <| exec_last_pid := p_pid p |>) ;;;
                      mret_ (KERNEL_OK, Some i)
              end
        end
  end.

(** ** User memory *)

Definition user_load8 (a : Z) : KM Z := fun s =>
  match vmm_frame (k_vmm s) a with
  | Some frame => Some (load8 (vmm_mem (k_vmm s)) (frame + a mod 4096), s)
  | None => None
  end.

Definition user_store8 (a v : Z) : KM unit := fun s =>
  match vmm_frame (k_vmm s) a with
  | Some frame => Some (tt, s <| k_vmm ::= fun m => m <| vmm_mem ::= store8 (frame + a mod 4096) v |> |>)
  | None => None
  end.

Definition syscall_user_range_contains (address length range_start range_length : Z) : bool :=
  if length =? 0 then true
  else
    let range_end := range_start [+] range_length [-] 1 in
    let e := address [+] length [-] 1 in
    if e <? address then false
    else (range_start <=? address) && (e <=? range_end).

Definition syscall_user_buffer_is_valid (pointer length : Z) : bool :=
  if (pointer =? 0) || (length =? 0) then false
  else if syscall_user_range_contains pointer length RING3_USER_CODE_VIRTUAL RING3_USER_PAGE_SIZE
  then true
  else syscall_user_range_contains pointer length RING3_USER_STACK_VIRTUAL RING3_USER_PAGE_SIZE.

(** [destination] is a kernel array; the result is the status and the array. *)
Definition syscall_copy_from_user (destination : list Z) (source length : Z) : KM (Z * list Z) :=
  if length =? 0 then mret_ (KERNEL_OK, destination)
  else if negb (syscall_user_buffer_is_valid source length) then
    mret_ (KERNEL_ERROR_PERMISSION_DENIED, destination)
  else
    d <- mfold (seqZ 0 length) (fun d i =>
      byte <- user_load8 (source [+] i) ;;
      _ <- array_at d i ;;
      mret_ (<[Z.to_nat i := byte]> d)) destination ;;
    mret_ (KERNEL_OK, d).

Definition syscall_copy_to_user (destination : Z) (source : list Z) (length : Z) : KM Z :=
  if length =? 0 then mret_ KERNEL_OK
  else if negb (syscall_user_buffer_is_valid destination length) then
    mret_ KERNEL_ERROR_PERMISSION_DENIED
  else
    mfor (seqZ 0 length) (fun i =>
      byte <- array_at source i ;; user_store8 (destination [+] i) byte) ;;;
    mret_ KERNEL_OK.

(** The loop leaves with a status through [return]. *)
Definition syscall_copy_user_string (max_length : nat) (source : Z) : KM (Z * list Z) :=
  if (source =? 0) || (max_length =? 0)%nat then
    mret_ (KERNEL_ERROR_INVALID_ARGUMENT, replicate max_length 0)
  else
    r <- mfold (seqZ 0 (Z.of_nat max_length)) (fun acc i =>
      match acc with
      | inr done => mret_ (inr done)
      | inl d =>
          if negb (syscall_user_buffer_is_valid (source [+] i) 1) then
            mret_ (inr (KERNEL_ERROR_PERMISSION_DENIED, <[0%nat := 0]> d))
          else
            c <- user_load8 (source [+] i) ;;
            let d := <[Z.to_nat i := c]> d in
            mret_ (if c =? 0 then inr (KERNEL_OK, d) else inl d)
      end) (inl (replicate max_length 0)) ;;
    match r with
    | inr result => mret_ result
    | inl d => mret_ (KERNEL_ERROR_INVALID_ARGUMENT, <[(max_length - 1)%nat := 0]> d)
    end.

(** ** The system calls *)

Definition sys_info (f : syscall_info_t -> syscall_info_t) : KM unit :=
  mmod (fun s => s <| syscall_info ::= f |>).

Definition syscall_initialize : KM unit :=
  sys_info (fun _ => {| total_calls := 0; last_number := 0; last_arg1 := 0; last_arg2 := 0;
                        last_arg3 := 0; unsupported_calls := 0 |}).

(** A call of [vga_write_char]; [console] is the text given to it so far. *)
Definition console_put (c : Z) : KM unit := mmod (fun s => s <| console ::= fun t => t ++ [c] |>).

(** The text that core/log.c prints for a warning (its colours are not recorded). *)
Definition log_warning (message : list Z) : KM unit :=
  mmod (fun s => s <| console ::= fun t => t ++ str "[WARN] " ++ message ++ [chr_newline] |>).

(** The loop of [syscall_write]; its variable is [total_written]. *)
Definition syscall_write_step (buffer length total_written : Z) : KM (Z + Z) :=
  if negb (total_written <? length) then mret_ (inr total_written)
  else
    let chunk_length := length [-] total_written in
    let chunk_length :=
      if SYSCALL_COPY_CHUNK_MAX <? chunk_length then SYSCALL_COPY_CHUNK_MAX else chunk_length in
    copy <- mget syscall_copy_buffer ;;
    r <- syscall_copy_from_user copy (buffer [+] total_written) chunk_length ;;
    let '(status, copy) := r in
    mmod (fun s => s <| syscall_copy_buffer := copy |>) ;;;
    if negb (status =? KERNEL_OK) then mret_ (inr (u32 status))
    else
      mfor (seqZ 0 chunk_length) (fun i => c <- array_at copy i ;; console_put c) ;;;
      mret_ (inl (total_written [+] chunk_length)).

Definition syscall_write (buffer length : Z) : KM Z :=
  if (buffer =? 0) || (length =? 0) then mret_ 0
  else
    let length := if SYSCALL_WRITE_MAX_BYTES <? length then SYSCALL_WRITE_MAX_BYTES else length in
    mloop (syscall_write_step buffer length) 0.

Definition syscall_open (path flags : Z) : KM Z :=
  r <- syscall_copy_user_string VFS_PATH_MAX path ;;
  let '(status, kernel_path) := r in
  if negb (status =? KERNEL_OK) then mret_ (u32 status)
  else
    r <- fd_table_open_current (Some kernel_path) flags true ;;
    let '(status, fd) := r in
    if negb (status =? KERNEL_OK) then mret_ (u32 status)
    else mret_ (default FD_INVALID fd).

Definition syscall_read (fd buffer length : Z) : KM Z :=
  if length =? 0 then mret_ 0
  else
    let read_length := if SYSCALL_COPY_CHUNK_MAX <? length then SYSCALL_COPY_CHUNK_MAX else length in
    if negb (syscall_user_buffer_is_valid buffer read_length) then
      mret_ (u32 KERNEL_ERROR_PERMISSION_DENIED)
    else
      copy <- mget syscall_copy_buffer ;;
      r <- fd_table_read_current fd (Some copy) read_length true ;;
      let '(status, copy', bytes_read) := r in
      mmod (fun s => s <| syscall_copy_buffer := default [] copy' |>) ;;;
      if negb (status =? KERNEL_OK) then mret_ (u32 status)
      else
        status <- syscall_copy_to_user buffer (default [] copy') bytes_read ;;
        if negb (status =? KERNEL_OK) then mret_ (u32 status) else mret_ bytes_read.

Definition syscall_close (fd : Z) : KM Z := status <- fd_table_close_current fd ;; mret_ (u32 status).

(** The bytes of a [vfs_stat_t]. *)
Definition le32 (v : Z) : list Z := [u8 v; u8 (v / 256); u8 (v / 65536); u8 (v / 16777216)].
Definition sizeof_vfs_stat := 20.
Definition stat_bytes (st : vfs_stat_t) : list Z :=
  le32 (stat_type st) ++ le32 (stat_size st) ++ le32 (stat_mode st) ++ le32 (stat_flags st) ++
  le32 (stat_child_count st).

Definition syscall_stat (path out_stat : Z) : KM Z :=
  r <- syscall_copy_user_string VFS_PATH_MAX path ;;
  let '(status, kernel_path) := r in
  if negb (status =? KERNEL_OK) then mret_ (u32 status)
  else
    r <- on_files (vfs_stat_path (Some kernel_path) true) ;;
    match r with
    | (status, Some st) =>
        if negb (status =? KERNEL_OK) then mret_ (u32 status)
        else
          status <- syscall_copy_to_user out_stat (stat_bytes st) sizeof_vfs_stat ;;
          mret_ (u32 status)
    | (status, None) => mret_ (u32 status)
    end.

Definition syscall_get_arg (index buffer length : Z) : KM Z :=
  if length =? 0 then mret_ (u32 KERNEL_ERROR_INVALID_ARGUMENT)
  else
    r <- on_proc (process_get_current_argument index (Some (replicate PROCESS_ARGUMENT_MAX 0))
                    (Z.of_nat PROCESS_ARGUMENT_MAX) true) ;;
    let '(status, kernel_argument, argument_length) := r in
    if negb (status =? KERNEL_OK) then mret_ (u32 status)
    else
      let argument_length := default 0 argument_length in
      if length <? argument_length [+] 1 then mret_ (u32 KERNEL_ERROR_UNSUPPORTED)
      else
        status <- syscall_copy_to_user buffer (default [] kernel_argument) (argument_length [+] 1) ;;
        if negb (status =? KERNEL_OK) then mret_ (u32 status) else mret_ argument_length.

Definition syscall_exec (path arguments : Z) : KM Z :=
  r <- syscall_copy_user_string VFS_PATH_MAX path ;;
  let '(status, kernel_path) := r in
  if negb (status =? KERNEL_OK) then mret_ (u32 status)
  else
    r <- (if negb (arguments =? 0) then
            r <- syscall_copy_user_string PROCESS_ARGUMENT_LINE_MAX arguments ;;
            mret_ (fst r, Some (snd r))
          else mret_ (KERNEL_OK, None)) ;;
    let '(status, kernel_arguments) := r in
    if negb (status =? KERNEL_OK) then mret_ (u32 status)
    else
      r <- exec_create_with_args (Some kernel_path) kernel_arguments true ;;
      let '(status, process) := r in
      if negb (status =? KERNEL_OK) then mret_ (u32 status)
      else
        match process with
        | None => mret_ (u32 KERNEL_ERROR_INVALID_STATE)
        | Some i => p <- on_proc (proc_at i) ;; mret_ (p_pid p)
        end.

Definition syscall_dispatch (number arg1 arg2 arg3 : Z) : KM Z :=
  sys_info (fun i => i <| total_calls ::= incr |> <| last_number := number |>
    <| last_arg1 := arg1 |> <| last_arg2 := arg2 |> <| last_arg3 := arg3 |>) ;;;
  if number =? LIAM_SYSCALL_EXIT then on_proc (process_mark_exit (s32 arg1)) ;;; mret_ KERNEL_OK
  else if number =? LIAM_SYSCALL_WRITE then syscall_write arg1 arg2
  else if number =? LIAM_SYSCALL_GET_TICKS then mget timer_ticks
  else if number =? LIAM_SYSCALL_YIELD then mret_ KERNEL_OK
  else if number =? LIAM_SYSCALL_GET_PID then on_proc process_get_current_pid
  else if number =? LIAM_SYSCALL_OPEN then syscall_open arg1 arg2
  else if number =? LIAM_SYSCALL_READ then syscall_read arg1 arg2 arg3
  else if number =? LIAM_SYSCALL_CLOSE then syscall_close arg1
  else if number =? LIAM_SYSCALL_STAT then syscall_stat arg1 arg2
  else if number =? LIAM_SYSCALL_GET_ARGC then on_proc process_get_current_argc
  else if number =? LIAM_SYSCALL_GET_ARG then syscall_get_arg arg1 arg2 arg3
  else if number =? LIAM_SYSCALL_EXEC then syscall_exec arg1 arg2
  else
    sys_info (fun i => i <| unsupported_calls ::= incr |>) ;;;
    log_warning (str "Unsupported syscall requested") ;;;
    mret_ (u32 KERNEL_ERROR_UNSUPPORTED).
