(* ===== verification/Run.v ===== *)
(** * Running processes (core/process.c, core/exec.c, core/user_program.c, ring3.c)

    A user program is what the processor does between [ring3_enter_user_mode] and
    the system call that resumes the kernel: stores to user memory, timer
    interrupts and system calls. [user_script] gives these actions for every state
    in which user mode is entered; it is arbitrary. An exception in user mode ends
    in the halt loop of idt_exception_handler, so a store that the page tables do
    not allow, like a program that never exits, does not come back. *)
From S2P Require Import Prelude Mem KString Boot Pmm Vmm Pages Vfs Initramfs Process KState FdTable Ring3 Loader Syscall.

Inductive user_action :=
| UStore (a v : Z)
| UTick
| USyscall (number arg1 arg2 arg3 : Z).

Section Run.
Context (addr_tss_entry addr_syscall_stack : Z).
Context (text_at_null : list Z).

(** The result and whether the kernel is resumed in place of the user program. *)
Definition ring3_syscall_entry (syscall_number arg1 arg2 arg3 : Z) : KM (Z * bool) :=
  r3_info (fun i => i <| r3_syscall_count ::= incr |> <| r3_last_syscall_number := syscall_number |>) ;;;
  result <- syscall_dispatch syscall_number arg1 arg2 arg3 ;;
  info <- mget ring3_info ;;
  if r3_in_progress info && (syscall_number =? LIAM_SYSCALL_EXIT) && (result =? KERNEL_OK) then
    r3_info (fun i => i <| r3_completed := true |> <| r3_in_progress := false |>) ;;;
    tss_set_kernel_stack addr_tss_entry (previous_tss_esp0 info) ;;;
    mret_ (result, true)
  else if negb (syscall_number =? LIAM_SYSCALL_EXIT) then mret_ (result, false)
  else
    r3_info (fun i => i <| r3_in_progress := false |> <| r3_failed_runs ::= incr |>
                        <| r3_last_status := KERNEL_ERROR_UNSUPPORTED |>) ;;;
    tss_set_kernel_stack addr_tss_entry (previous_tss_esp0 info) ;;;
    mret_ (result, true).

(** One action; the result is whether the kernel is resumed. *)
Definition user_step (action : user_action) : KM bool :=
  match action with
  | UStore a v =>
      ok <- mget (fun s => user_writable (k_vmm s) a) ;;
      if ok then user_store8 a v ;;; mret_ false else mhalt
  | UTick => mmod (fun s => s <| timer_ticks ::= incr |>) ;;; mret_ false
  | USyscall number arg1 arg2 arg3 =>
      r <- ring3_syscall_entry number arg1 arg2 arg3 ;; mret_ (snd r)
  end.

Fixpoint run_script (script : list user_action) : KM unit :=
  match script with
  | [] => mhalt
  | action :: script' =>
      resumed <- user_step action ;;
      if resumed : bool then mret_ tt else run_script script'
  end.

Context (user_script : kernel_state -> Z -> Z -> list user_action).

Definition ring3_enter_user_mode (user_eip user_esp : Z) : KM unit := fun s =>
  run_script (user_script s user_eip user_esp) s.

(** ** core/process.c *)

Definition k_pinfo (f : process_info_t -> process_info_t) : KM unit := on_proc (pinfo f).

(** The first half of [process_run]: loading the image of the process. *)
Definition process_load (n : nat) (p : process_t) : KM Z :=
  if negb (char_at (p_image_path p) 0 =? 0) then
    r <- user_image_resolve addr_syscall_stack text_at_null (Some (p_image_path p)) true ;;
    match r with
    | (status, Some image) =>
        mwhen (status =? KERNEL_OK)
          (on_proc (upd_proc n (fun p => p <| p_entry := img_entry image |>
                                           <| p_user_stack := img_user_stack_top image |>))) ;;;
        mret_ status
    | (status, None) => mret_ status
    end
  else mret_ KERNEL_OK.

(** The second half: running it. *)
Definition process_enter (n : nat) : KM Z :=
  on_proc (process_begin n) ;;;
  p <- on_proc (proc_at n) ;;
  status <- ring3_run_user_image addr_tss_entry addr_syscall_stack ring3_enter_user_mode
              (p_entry p) (p_user_stack p) ;;
  on_proc (process_finish n status) ;;;
  mret_ status.

Definition process_run (process : option nat) : KM Z :=
  k_pinfo (fun i => i <| run_attempts ::= incr |>) ;;;
  match process with
  | None =>
      k_pinfo (fun i => i <| process_failed_runs ::= incr |>
                          <| process_last_status := KERNEL_ERROR_INVALID_ARGUMENT |>) ;;;
      mret_ KERNEL_ERROR_INVALID_ARGUMENT
  | Some n =>
      p <- on_proc (proc_at n) ;;
      if negb (pstate_is p PROCESS_READY) && negb (pstate_is p PROCESS_EXITED) then
        k_pinfo (fun i => i <| process_failed_runs ::= incr |> <| last_run_pid := p_pid p |>
                            <| process_last_status := KERNEL_ERROR_INVALID_STATE |>) ;;;
        mret_ KERNEL_ERROR_INVALID_STATE
      else
        load_status <- process_load n p ;;
        if negb (load_status =? KERNEL_OK) then
          on_proc (process_load_failed n load_status) ;;;
          mret_ load_status
        else process_enter n
  end.

Definition process_run_next_ready (out_process : bool) : KM (Z * option nat) :=
  if negb out_process then mret_ (KERNEL_ERROR_INVALID_ARGUMENT, None)
  else
    process <- on_proc process_find_next_ready ;;
    match process with
    | None => mret_ (KERNEL_ERROR_NOT_FOUND, None)
    | Some i => status <- process_run (Some i) ;; mret_ (status, Some i)
    end.

Definition process_run_by_pid (pid : Z) (out_process : bool) : KM (Z * option nat) :=
  if negb out_process then mret_ (KERNEL_ERROR_INVALID_ARGUMENT, None)
  else
    process <- on_proc (process_find_by_pid_mutable pid) ;;
    match process with
    | None => mret_ (KERNEL_ERROR_NOT_FOUND, None)
    | Some i =>
        p <- on_proc (proc_at i) ;;
        if negb (pstate_is p PROCESS_READY) then mret_ (KERNEL_ERROR_INVALID_STATE, Some i)
        else status <- process_run (Some i) ;; mret_ (status, Some i)
    end.

(** The loop of [process_run_all_ready]; its variables are [i] and [*out_run_count]. *)
Definition process_run_all_step (max_runs : Z) (l : Z * Z) : KM (Z * Z + Z * Z) :=
  let '(i, count) := l in
  if negb (i <? max_runs) then
    process <- on_proc process_find_next_ready ;;
    mret_ (inr (match process with Some _ => KERNEL_ERROR_BUSY | None => KERNEL_OK end, count))
  else
    process <- on_proc process_find_next_ready ;;
    match process with
    | None => mret_ (inr (if count =? 0 then KERNEL_ERROR_NOT_FOUND else KERNEL_OK, count))
    | Some n =>
        status <- process_run (Some n) ;;
        if negb (status =? KERNEL_OK) then mret_ (inr (status, count))
        else mret_ (inl (incr i, incr count))
    end.

(** The result is the status and [*out_run_count]. *)
Definition process_run_all_ready (max_runs : Z) (out_run_count : bool) : KM (Z * Z) :=
  if negb out_run_count then mret_ (KERNEL_ERROR_INVALID_ARGUMENT, 0)
  else
    let max_runs := if max_runs =? 0 then Z.of_nat PROCESS_MAX_PROCESSES else max_runs in
    mloop (process_run_all_step max_runs) (0, 0).

(** ** core/exec.c *)

Definition exec_spawn_with_args (path arguments : option (list Z)) (out_process : bool)
    : KM (Z * option nat) :=
  r <- exec_create_with_args path arguments true ;;
  let '(status, process) := r in
  if negb (status =? KERNEL_OK) then mret_ (status, if out_process then process else None)
  else
    status <- process_run process ;;
    match process with
    | None => mhalt
    | Some i =>
        p <- on_proc (proc_at i) ;;
        ex_info (fun e => e <| exec_last_status := status |> <| exec_last_pid := p_pid p |>) ;;;
        mwhen (negb (status =? KERNEL_OK)) (ex_info (fun e => e <| failed_spawns ::= incr |>)) ;;;
        mret_ (status, if out_process then Some i else None)
    end.

Definition exec_spawn (path : option (list Z)) (out_process : bool) : KM (Z * option nat) :=
  exec_spawn_with_args path (Some []) out_process.

Definition exec_start_init : KM Z :=
  r <- exec_spawn (Some (str "/sbin/init")) true ;; mret_ (fst r).

(** ** core/user_program.c *)

Definition builtin_programs : list (list Z) := [str "hello"].

Definition up_info (f : user_program_info_t -> user_program_info_t) : KM unit :=
  mmod (fun s => s <| user_program_info ::= f |>).

Definition user_program_count : Z := Z.of_nat (length builtin_programs).

Definition user_program_initialize : KM unit :=
  up_info (fun i => {| up_initialized := true; available_programs := user_program_count; up_runs := 0;
    up_successful_runs := 0; up_failed_runs := 0; up_last_status := KERNEL_OK;
    last_program_name := <[0%nat := 0]> (last_program_name i) |}).

Definition user_program_name_at (index : Z) : option (list Z) :=
  if user_program_count <=? index then None else builtin_programs !! Z.to_nat index.

Definition user_program_exists (name : list Z) : bool :=
  existsb (fun program => string_equals name program) builtin_programs.

Definition user_program_fail (status : Z) : KM Z :=
  up_info (fun i => i <| up_failed_runs ::= incr |> <| up_last_status := status |>) ;;; mret_ status.

Definition user_program_run (name : option (list Z)) : KM Z :=
  match name with
  | None => mret_ KERNEL_ERROR_INVALID_ARGUMENT
  | Some name =>
      if string_equals name [] then mret_ KERNEL_ERROR_INVALID_ARGUMENT
      else
        up_info (fun i => i <| up_runs ::= incr |>
          <| last_program_name ::= fun old => string_copy old name 32 |>) ;;;
        if negb (user_program_exists name) then user_program_fail KERNEL_ERROR_NOT_FOUND
        else
          status <- ring3_initialize addr_syscall_stack ;;
          if negb (status =? KERNEL_OK) then user_program_fail status
          else
            ring3 <- mget ring3_info ;;
            r <- on_proc (process_create (Some name) (user_code_virtual ring3) (user_stack_top ring3) true) ;;
            let '(status, process) := r in
            if negb (status =? KERNEL_OK) then user_program_fail status
            else
              status <- process_run process ;;
              if status =? KERNEL_OK then
                up_info (fun i => i <| up_successful_runs ::= incr |> <| up_last_status := status |>) ;;;
                mret_ status
              else user_program_fail status
  end.
End Run.

(** ** core/kernel.c: the part of [kernel_main] that sets up user programs

    The calls from [process_initialize] to [exec_initialize], in order; a file
    system that cannot be mounted is a panic. *)
Definition kernel_main_userspace (images : embedded_images) (addr_syscall_stack : Z) : KM unit :=
  on_proc process_initialize ;;;
  fd_table_initialize ;;;
  syscall_initialize ;;;
  ring3_initialize addr_syscall_stack ;;;
  on_files vfs_initialize ;;;
  on_fs (initramfs_initialize images) ;;;
  initramfs_status <- on_fs initramfs_mount ;;
  if negb (initramfs_status =? KERNEL_OK) then mhalt
  else
    flat_binary_loader_initialize ;;;
    elf32_initialize ;;;
    user_image_initialize ;;;
    exec_initialize.
