(* ===== verification/UserMem.v ===== *)
(** * Writing to data frames

    Stores into frames that are not page tables change no translation. The user
    pages are two such frames. *)
From S2P Require Import Prelude Mem KString Boot Pmm Vmm Pages Vfs Initramfs Process KState Ring3.

(** A data frame is aligned, in low memory, and disjoint from the page tables. *)
Lemma data_frame_range s p :
  vmm_inv s -> vmm_data_frame s p -> 0 < p /\ p + 4096 <= 0x8000000 /\ p mod 4096 = 0.
Proof.
  intros [Hwf _] [Hout _]. pose proof (wf_pmm _ _ _ Hwf) as Hpm.
  destruct (outstanding_in_range _ _ Hpm Hout) as (H0 & _ & Hr & Hlt). destruct Hout as [(H1 & H2 & H3) _].
  pose proof (inv_next_end _ Hpm). pose proof (wf_window _ _ _ Hwf). pose proof (inv_start_next _ Hpm). lia.
Qed.

Lemma data_frame_not_dir s p :
  vmm_inv s -> vmm_data_frame s p -> p + 4096 <= dir s \/ dir s + 4096 <= p.
Proof.
  intros Hinv Hp. pose proof (data_frame_range s p Hinv Hp) as (_ & _ & Hal).
  destruct Hinv as [Hwf _], Hp as [Hout _]. pose proof (wf_pmm _ _ _ Hwf) as Hpm.
  apply pages_disjoint; [done|apply Hwf|]. intros ->.
  destruct (outstanding_in_range _ _ Hpm Hout) as (_ & _ & Hr & _).
  pose proof (wf_dir_static _ _ _ Hwf) as Hs. destruct Hout as [(H1 & H2 & H3) _].
  pose proof (inv_next_end _ Hpm). unfold outside_region in Hs. lia.
Qed.

Lemma data_frame_not_table s p i :
  vmm_inv s -> vmm_data_frame s p -> 0 <= i < 1024 -> is_present (pd_entry (dir s) (vmm_mem s) i) = true ->
  p + 4096 <= pt_base (dir s) (vmm_mem s) i \/ pt_base (dir s) (vmm_mem s) i + 4096 <= p.
Proof.
  intros Hinv Hp Hi Hpr. pose proof (data_frame_range s p Hinv Hp) as (_ & _ & Hal).
  apply pages_disjoint; [done|apply pt_base_aligned|]. intros ->. destruct Hp as [_ Hnt].
  apply Hnt. by exists i.
Qed.

(** Changing bytes of data frames only. *)
Lemma data_write s m' (P : Z -> Prop) :
  vmm_inv s -> (forall a, P a -> exists p, vmm_data_frame s p /\ p <= a < p + 4096) ->
  (forall a, ~ P a -> load8 m' a = load8 (vmm_mem s) a) ->
  let s' := s <| vmm_mem := m' |> in
  vmm_inv s' /\ (forall v, is_u32 v -> vmm_entry s' v = vmm_entry s v) /\
  (forall q, vmm_data_frame s' q <-> vmm_data_frame s q).
Proof.
  intros Hinv HP Hag s'. pose proof Hinv as [Hwf Htlb].
  assert (Hdir : forall i, 0 <= i < 1024 -> pd_entry (dir s) m' i = pd_entry (dir s) (vmm_mem s) i).
  { intros i Hi. apply (load32_agree (fun a => dir s <= a < dir s + 4096)); [|intros; lia].
    intros a Ha. apply Hag. intros (p & Hp & Hr)%HP. destruct (data_frame_not_dir s p Hinv Hp); lia. }
  assert (Hs : same_tables (dir s) (vmm_mem s) m').
  { intros i Hi. unfold pt_base. by rewrite Hdir. }
  assert (He : forall v, is_u32 v -> pt_entry (dir s) m' v = pt_entry (dir s) (vmm_mem s) v).
  { intros v Hv. destruct (index_bounds v Hv) as [Hi Hj]. unfold pt_entry.
    destruct (Hs _ Hi) as [-> ->].
    destruct (is_present (pd_entry (dir s) (vmm_mem s) (v / 4194304))) eqn:Hpr; [|done].
    set (t := pt_base (dir s) (vmm_mem s) (v / 4194304)).
    apply (load32_agree (fun a => t <= a < t + 4096)); [|intros; lia].
    intros a Ha. apply Hag. intros (p & Hp & Hr)%HP.
    destruct (data_frame_not_table s p _ Hinv Hp Hi Hpr); unfold t in *; lia. }
  assert (Hd : dir s' = dir s) by done.
  split; [|split].
  - split; [by apply (pt_wf_congr (dir s) (vmm_mem s) m')|].
    eapply tlb_coherent_mono; [exact Htlb|]. intros n e Hn. split; [done|]. intros Hr.
    apply He. by apply page_start_u32.
  - intros v Hv. by apply He.
  - intros q. unfold vmm_data_frame, data_frame. rewrite Hd. change (vmm_pmm s') with (vmm_pmm s).
    change (vmm_mem s') with m'. by rewrite (is_table_congr (dir s) (vmm_mem s) m' q Hs).
Qed.

(** ** The kernel's view of physical memory *)

(** The state with other memory contents. *)
Definition with_mem (m : mem) (s : kernel_state) : kernel_state :=
  s <| k_vmm ::= fun v => v <| vmm_mem := m |> |>.

Definition kmem (s : kernel_state) : mem := vmm_mem (k_vmm s).

Lemma with_mem_self s : with_mem (kmem s) s = s.
Proof. by destruct s as [[] ? ? ? ? ? ? ? ? ? ? ? ? ? ?]. Qed.

Lemma with_mem_twice m m' s : with_mem m' (with_mem m s) = with_mem m' s.
Proof. by destruct s as [[] ? ? ? ? ? ? ? ? ? ? ? ? ? ?]. Qed.

Lemma wp_phys_write8 a v (Q : unit -> kernel_state -> Prop) s :
  0 <= a < 0x8000000 -> Q tt (with_mem (store8 a v (kmem s)) s) -> wp (phys_write8 a v) Q s.
Proof.
  intros Ha HQ. eexists _, _. split; [|exact HQ]. unfold phys_write8.
  rewrite (proj2 (Z.leb_le 0 a)), (proj2 (Z.ltb_lt a 0x8000000)) by lia. done.
Qed.

(** Memory after consecutive bytes were written. *)
Definition filled (m : mem) (base : Z) (bytes : list Z) (m' : mem) : Prop :=
  (forall i b, bytes !! i = Some b -> load8 m' (base + Z.of_nat i) = u8 b) /\
  (forall a, a < base \/ base + Z.of_nat (length bytes) <= a -> load8 m' a = load8 m a).

Lemma filled_nil m base : filled m base [] m.
Proof. split; done. Qed.

Lemma filled_snoc m base bytes m' b :
  filled m base bytes m' -> filled m base (bytes ++ [b]) (store8 (base + Z.of_nat (length bytes)) b m').
Proof.
  intros [H1 H2]. split.
  - intros i c Hi. destruct (decide (i = length bytes)) as [->|Hne].
    + rewrite list_lookup_middle in Hi by done. injection Hi as ->. by rewrite load8_store8_eq.
    + rewrite load8_store8_ne by lia. apply H1. rewrite lookup_app_Some in Hi.
      destruct Hi as [?|[Hge Hi]]; [done|]. exfalso.
      assert (i - length bytes < length [b])%nat by (by eapply lookup_lt_Some). cbn in *. lia.
  - intros a Ha. rewrite length_app in Ha. cbn [length] in Ha. rewrite load8_store8_ne by lia.
    apply H2. lia.
Qed.

Lemma zero_page_ok page s :
  0 <= page -> page + 4096 <= 0x8000000 ->
  wp (ring3_zero_page page) (fun _ s' => exists m', filled (kmem s) page (replicate 4096 0) m' /\
    s' = with_mem m' s) s.
Proof.
  intros H0 H1. unfold ring3_zero_page, RING3_USER_PAGE_SIZE.
  apply (wp_for_seqZ 4096 _ (fun k s' => exists m', filled (kmem s) page (replicate (Z.to_nat k) 0) m' /\
    s' = with_mem m' s)); [lia| | |].
  - exists (kmem s). split; [apply filled_nil|by rewrite with_mem_self].
  - intros i s' Hi (m' & Hf & ->). apply wp_phys_write8; [lia|]. eexists. split; [|apply with_mem_twice].
    replace (Z.to_nat (i + 1)) with (S (Z.to_nat i)) by lia. rewrite replicate_S_end.
    replace (page + i) with (page + Z.of_nat (length (replicate (Z.to_nat i) 0))) at 1
      by (rewrite length_replicate; lia).
    by apply filled_snoc.
  - intros s' H. exact H.
Qed.

(** Copying an array to physical memory. *)
Lemma copy_to_phys_ok (image : list Z) n page s :
  0 <= page -> page + n <= 0x8000000 -> 0 <= n <= Z.of_nat (length image) ->
  wp (mfor (seqZ 0 n) (fun i => byte <- array_at image i ;; phys_write8 (page + i) byte))
     (fun _ s' => exists m', filled (kmem s) page (take (Z.to_nat n) image) m' /\ s' = with_mem m' s) s.
Proof.
  intros H0 H1 Hn.
  apply (wp_for_seqZ n _ (fun k s' => exists m', filled (kmem s) page (take (Z.to_nat k) image) m' /\
    s' = with_mem m' s)); [lia| | |].
  - exists (kmem s). split; [apply filled_nil|by rewrite with_mem_self].
  - intros i s' Hi (m' & Hf & ->).
    destruct (lookup_lt_is_Some_2 image (Z.to_nat i)) as [b Eb]; [lia|].
    apply wp_bind, (wp_array_at _ _ b); [done|]. apply wp_phys_write8; [lia|].
    eexists. split; [|apply with_mem_twice].
    replace (Z.to_nat (i + 1)) with (S (Z.to_nat i)) by lia. rewrite (take_S_r _ _ b) by done.
    replace (page + i) with (page + Z.of_nat (length (take (Z.to_nat i) image))) at 1
      by (rewrite length_take; lia).
    by apply filled_snoc.
  - intros s' H. exact H.
Qed.

(** ** The user pages *)

(** [cp] and [sp] are the frames of the code and the stack page. *)
Record user_pages (v : vmm_state) (cp sp : Z) : Prop := {
  up_code : vmm_data_frame v cp;
  up_stack : vmm_data_frame v sp;
  up_distinct : cp <> sp;
  up_code_entry : vmm_entry v RING3_USER_CODE_VIRTUAL = map_entry cp user_flags;
  up_stack_entry : vmm_entry v RING3_USER_STACK_VIRTUAL = map_entry sp user_flags
}.

Definition in_page (p a : Z) : Prop := p <= a < p + 4096.

(** Writing into the user pages keeps everything else. *)
Lemma user_pages_write v cp sp m' :
  vmm_ready v -> user_pages v cp sp ->
  (forall a, ~ in_page cp a -> ~ in_page sp a -> load8 m' a = load8 (vmm_mem v) a) ->
  vmm_ready (v <| vmm_mem := m' |>) /\ user_pages (v <| vmm_mem := m' |>) cp sp /\
  (forall u, is_u32 u -> vmm_entry (v <| vmm_mem := m' |>) u = vmm_entry v u).
Proof.
  intros [Hinv Hini] Hup Hm.
  destruct (data_write v m' (fun a => in_page cp a \/ in_page sp a)) as (Hinv' & Hent & Hdf); [done| | |].
  - intros a [Ha|Ha]; [exists cp|exists sp]; (split; [apply Hup|exact Ha]).
  - intros a Ha. apply Hm; tauto.
  - split; [done|]. split; [|done]. destruct Hup. constructor; try done.
    + by apply Hdf.
    + by apply Hdf.
    + rewrite Hent; [done|]. unfold is_u32, RING3_USER_CODE_VIRTUAL. lia.
    + rewrite Hent; [done|]. unfold is_u32, RING3_USER_STACK_VIRTUAL. lia.
Qed.

Lemma user_flags_valid : is_u32 user_flags /\ vmm_flags_are_valid user_flags = true /\ user_flags = 6.
Proof. split_and!; [by vm_compute|done|done]. Qed.
