(* ===== verification/Ring3Proofs.v ===== *)
(** * Correctness of the user mode set-up and of image loading *)
From S2P Require Import Prelude Mem KString Boot Pmm Vmm Pages Vfs Initramfs Process KState Ring3 UserMem.

Section Ring3Proofs.
Context (addr_syscall_stack : Z).

(** Calls into the memory manager leave the rest of the kernel alone. *)
Lemma wp_on_vmm {A} (m : M vmm_state A) (Q : A -> kernel_state -> Prop) s :
  wp m (fun a v => Q a (s <| k_vmm := v |>)) (k_vmm s) -> wp (on_vmm m) Q s.
Proof. apply (wp_zoom k_vmm (fun v s => s <| k_vmm := v |>)). Qed.

(** The two user pages are not mapped. *)
Definition user_unmapped (v : vmm_state) : Prop :=
  vmm_entry v RING3_USER_CODE_VIRTUAL = 0 /\ vmm_entry v RING3_USER_STACK_VIRTUAL = 0.

Lemma user_virtual_u32 : is_u32 RING3_USER_CODE_VIRTUAL /\ is_u32 RING3_USER_STACK_VIRTUAL.
Proof. unfold is_u32, RING3_USER_CODE_VIRTUAL, RING3_USER_STACK_VIRTUAL. lia. Qed.

(** Allocating a frame changes no translation. *)
Lemma alloc_ok v :
  vmm_ready v ->
  wp (on_pmm pmm_alloc_page) (fun p v' => vmm_ready v' /\
    (forall u, vmm_entry v' u = vmm_entry v u) /\
    ((p = 0 /\ forall q, vmm_data_frame v' q <-> vmm_data_frame v q) \/
     (p <> 0 /\ is_u32 p /\ p mod 4096 = 0 /\ ~ vmm_data_frame v p /\
      forall q, vmm_data_frame v' q <-> q = p \/ vmm_data_frame v q))) v.
Proof.
  intros Hv. eapply wp_mono; [apply wp_conj; [by apply vmm_alloc_law|]|].
  - apply wp_zoom. eapply wp_mono; [apply pmm_alloc_page_ok, Hv|].
    intros p pm' _. instantiate (1 := fun _ v' => forall u, vmm_entry v' u = vmm_entry v u). done.
  - intros p v' [(H1 & _ & H3) H2]. done.
Qed.

Lemma frame_free_ok v p :
  vmm_ready v -> vmm_data_frame v p ->
  wp (on_pmm (pmm_free_page p)) (fun _ v' => vmm_ready v' /\
    (forall u, vmm_entry v' u = vmm_entry v u) /\
    forall q, q <> p -> vmm_data_frame v' q <-> vmm_data_frame v q) v.
Proof.
  intros Hv Hp. eapply wp_mono; [apply wp_conj; [by apply vmm_free_law|]|].
  - apply wp_zoom. eapply wp_mono; [apply pmm_free_page_ok, Hv|].
    intros u pm' _. instantiate (1 := fun _ v' => forall u, vmm_entry v' u = vmm_entry v u). done.
  - intros u v' [(H1 & _ & H3) H2]. done.
Qed.

(** Mapping a user page. *)
Lemma map_user_ok v va pa :
  vmm_ready v -> is_u32 va -> is_u32 pa ->
  wp (vmm_map_page va pa user_flags) (fun ok v' => vmm_ready v' /\
    (forall q, vmm_data_frame v' q <-> vmm_data_frame v q) /\
    forall u, is_u32 u -> vmm_entry v' u =
      if ok && bool_decide (u / 4096 = va / 4096) then map_entry pa user_flags else vmm_entry v u) v.
Proof.
  intros [Hinv Hini] Hva Hpa. destruct user_flags_valid as (H1 & H2 & H3).
  eapply wp_mono; [by apply vmm_map_page_ok|]. intros ok v' (Hinv' & [_ Hi _ Hf] & He & _).
  split; [split; [done|by rewrite Hi]|]. done.
Qed.

Lemma unmap_ok v va :
  vmm_ready v -> is_u32 va -> is_present (vmm_entry v va) = true ->
  wp (vmm_unmap_page va) (fun _ v' => vmm_ready v' /\
    (forall q, vmm_data_frame v' q <-> vmm_data_frame v q) /\
    forall u, is_u32 u ->
      vmm_entry v' u = if bool_decide (u / 4096 = va / 4096) then 0 else vmm_entry v u) v.
Proof.
  intros [Hinv Hini] Hva Hp. eapply wp_mono; [by apply vmm_unmap_page_ok|].
  intros ok v' (Hinv' & [_ Hi _ Hf] & -> & He). split; [split; [done|by rewrite Hi]|].
  split; [done|]. intros u Hu. rewrite He by done. by rewrite Hp.
Qed.

(** The rules for a state whose memory manager is given. *)
Lemma wp_at_vmm {A} (m : M vmm_state A) (Q : A -> kernel_state -> Prop) s v :
  wp m (fun a v' => Q a (s <| k_vmm := v' |>)) v -> wp (on_vmm m) Q (s <| k_vmm := v |>).
Proof. intros H. apply wp_on_vmm. get_set. eapply wp_mono; [exact H|]. intros a v'. by destruct s. Qed.

(** Writing zeros to a frame. *)
Lemma zero_frame_ok s v p :
  vmm_ready v -> vmm_data_frame v p ->
  wp (ring3_zero_page p) (fun _ s' => exists v', s' = s <| k_vmm := v' |> /\ vmm_ready v' /\
    (forall u, is_u32 u -> vmm_entry v' u = vmm_entry v u) /\
    (forall q, vmm_data_frame v' q <-> vmm_data_frame v q)) (s <| k_vmm := v |>).
Proof.
  intros [Hinv Hini] Hp. pose proof (data_frame_range _ _ Hinv Hp).
  eapply wp_mono; [apply zero_page_ok; lia|]. intros _ s' (m' & [_ Hout] & ->).
  exists (v <| vmm_mem := m' |>). split; [by destruct s|].
  destruct (data_write v m' (in_page p)) as (H1 & H2 & H3); [done|by exists p| |].
  - intros a Ha. change (load8 (vmm_mem v) a) with (load8 (kmem (s <| k_vmm := v |>)) a).
    apply Hout. rewrite length_replicate. unfold in_page in Ha. lia.
  - split; [split; [exact H1|exact Hini]|]. split; [exact H2|exact H3].
Qed.

(** Giving both frames back. *)
Lemma free_both_ok {A} (a : A) s v sp cp :
  vmm_ready v -> vmm_data_frame v sp -> vmm_data_frame v cp -> cp <> sp ->
  wp (ring3_free_pages cp sp ;;; mret_ a)
    (fun b s' => b = a /\ exists v', s' = s <| k_vmm := v' |> /\ vmm_ready v' /\
    (forall u, vmm_entry v' u = vmm_entry v u) /\
    forall q, q <> cp -> q <> sp -> vmm_data_frame v q -> vmm_data_frame v' q) (s <| k_vmm := v |>).
Proof.
  intros Hv Hsp Hcp Hne. unfold ring3_free_pages. wp_step. wp_step. apply wp_at_vmm. eapply wp_mono; [by apply frame_free_ok|].
  intros _ v1 (Hv1 & He1 & Hf1). apply wp_at_vmm.
  eapply wp_mono; [apply frame_free_ok; [done|by apply Hf1]|]. intros _ v2 (Hv2 & He2 & Hf2).
  apply wp_ret. split; [done|]. exists v2. split; [done|]. split; [done|]. split.
  - intros u. by rewrite He2.
  - intros q H1 H2 Hq. by apply Hf2, Hf1.
Qed.

Lemma user_pages_differ :
  bool_decide (RING3_USER_STACK_VIRTUAL / 4096 = RING3_USER_CODE_VIRTUAL / 4096) = false /\
  bool_decide (RING3_USER_CODE_VIRTUAL / 4096 = RING3_USER_STACK_VIRTUAL / 4096) = false.
Proof. done. Qed.

(** A page just mapped for the user passes the check of its mapping. *)
Lemma validate_user v va pa :
  vmm_ready v -> is_u32 va -> is_u32 pa -> vmm_entry v va = map_entry pa user_flags ->
  vmm_validate_mapping va user_flags v = Some (true, v).
Proof.
  intros [_ Hini] Hva Hpa E. destruct user_flags_valid as (_ & Hfl & E6).
  rewrite vmm_validate_mapping_spec, E, Hfl by done. rewrite E6.
  destruct (map_entry_fields pa 6) as (_ & _ & -> & _); [done|tauto|].
  rewrite map_entry_flags by (done || tauto). done.
Qed.

Definition other_page (u : Z) : Prop :=
  u / 4096 <> RING3_USER_CODE_VIRTUAL / 4096 /\ u / 4096 <> RING3_USER_STACK_VIRTUAL / 4096.

(** What [ring3_map_pages] and [ring3_prepare_pages] leave: the user's pages, or an
    error after which no translation has changed. *)
Definition mapped_outcome (s : kernel_state) (v : vmm_state) (cp sp : Z) (status : Z) (s' : kernel_state) : Prop :=
  exists v', vmm_ready v' /\
  (forall q, q <> cp -> q <> sp -> vmm_data_frame v q -> vmm_data_frame v' q) /\
  ((status = KERNEL_ERROR_OUT_OF_MEMORY /\ s' = s <| k_vmm := v' |> /\
    forall u, is_u32 u -> vmm_entry v' u = vmm_entry v u) \/
   (status = KERNEL_OK /\ user_pages v' cp sp /\
    (forall u, is_u32 u -> other_page u -> vmm_entry v' u = vmm_entry v u) /\
    s' = s <| k_vmm := v' |> <| ring3_info ::= fun i =>
      i <| code_physical := cp |> <| stack_physical := sp |> <| loaded_image_size := 0 |>
        <| user_code_virtual := RING3_USER_CODE_VIRTUAL |>
        <| user_stack_virtual := RING3_USER_STACK_VIRTUAL |>
        <| user_stack_top := 0x10001FF0 |> |>)).

Lemma ring3_map_pages_ok s v cp sp :
  vmm_ready v -> user_unmapped v -> vmm_data_frame v cp -> vmm_data_frame v sp -> cp <> sp ->
  is_u32 cp -> is_u32 sp ->
  wp (ring3_map_pages cp sp) (mapped_outcome s v cp sp) (s <| k_vmm := v |>).
Proof.
  intros Hv [Hc0 Hs0] Hcp Hsp Hne Hcu Hsu.
  destruct user_virtual_u32 as [Huc Hus], user_pages_differ as [Hd1 Hd2]. unfold ring3_map_pages.
  wp_step. apply wp_at_vmm. eapply wp_mono; [by apply map_user_ok|]. intros ok v1 (Hv1 & Hf1 & He1).
  destruct ok; cbn [negb andb] in *.
  2:{ eapply wp_mono; [apply free_both_ok; first [done|by apply Hf1]|]. intros st s' (-> & v2 & -> & Hv2 & He2 & Hf2).
      exists v2. split; [done|]. split; [intros q ? ? ?; apply Hf2; first [done|by apply Hf1]|].
      left. split; [done|]. split; [done|]. intros u Hu. by rewrite He2, He1. }
  wp_step. apply wp_at_vmm. eapply wp_mono; [by apply map_user_ok|]. intros ok v2 (Hv2 & Hf2 & He2).
  assert (Hec : vmm_entry v2 RING3_USER_CODE_VIRTUAL = map_entry cp user_flags).
  { rewrite He2, Hd2, andb_false_r, He1 by done. done. }
  destruct ok; cbn [negb andb] in *.
  2:{ wp_step. apply wp_at_vmm. eapply wp_mono; [apply unmap_ok; [done|done|]|].
      { rewrite Hec. destruct user_flags_valid as (_ & _ & ->). apply map_entry_fields; tauto. }
      intros _ v3 (Hv3 & Hf3 & He3).
      eapply wp_mono; [apply free_both_ok; first [done|by apply Hf3, Hf2, Hf1]|].
      intros st s' (-> & v4 & -> & Hv4 & He4 & Hf4).
      exists v4. split; [done|]. split; [intros q ? ? ?; apply Hf4; first [done|by apply Hf3, Hf2, Hf1]|].
      left. split; [done|]. split; [done|]. intros u Hu. rewrite He4, He3, He2, He1 by done.
      clear Hd1 Hd2. case_bool_decide as E; [|done].
      rewrite <- Hc0. symmetry. by apply pt_entry_same_page. }
  assert (Hes : vmm_entry v2 RING3_USER_STACK_VIRTUAL = map_entry sp user_flags) by (by rewrite He2).
  wp_step. apply wp_at_vmm. eexists _, _. split; [by apply (validate_user _ _ cp)|]. cbn [negb].
  wp_step. apply wp_at_vmm. eexists _, _. split; [by apply (validate_user _ _ sp)|]. cbn [negb].
  unfold r3_info. wp_steps. exists v2. split; [done|].
  split; [intros q _ _ Hq; by apply Hf2, Hf1|]. right. split; [done|]. split; [|split; [|done]].
  - constructor; try done; by apply Hf2, Hf1.
  - intros u Hu [H1 H2]. rewrite He2, He1 by done. by rewrite !bool_decide_eq_false_2 by done.
Qed.

(** [ring3_prepare_pages]: two distinct fresh frames mapped for the user, or an
    error for lack of memory after which no translation has changed. The checks of
    the new mappings never fail. *)
Lemma ring3_prepare_pages_ok s :
  vmm_ready (k_vmm s) -> user_unmapped (k_vmm s) ->
  wp ring3_prepare_pages (fun status s' => exists cp sp,
    ~ vmm_data_frame (k_vmm s) cp /\ ~ vmm_data_frame (k_vmm s) sp /\
    mapped_outcome s (k_vmm s) cp sp status s') s.
Proof.
  intros Hv [Hc0 Hs0]. unfold ring3_prepare_pages. destruct user_virtual_u32 as [Huc Hus].
  assert (H0 : ~ vmm_data_frame (k_vmm s) 0) by (intros [? _]%data_frame_range; [lia|apply Hv]).
  wp_step. apply wp_on_vmm. eapply wp_mono; [by apply alloc_ok|].
  intros cp v1 (Hv1 & He1 & [[-> Hf1]|(Hcp & Hcu & Hca & Hcn & Hf1)]).
  { cbn [Z.eqb]. wp_steps. exists 0, 0. split; [done|]. split; [done|].
    exists v1. split; [done|]. split; [intros q; by rewrite Hf1|]. by left. }
  rewrite (proj2 (Z.eqb_neq cp 0)) by done.
  wp_step. apply wp_at_vmm. eapply wp_mono; [by apply alloc_ok|].
  intros sp v2 (Hv2 & He2 & [[-> Hf2]|(Hsp & Hsu & Hsa & Hsn & Hf2)]).
  { cbn [Z.eqb]. wp_step. apply wp_at_vmm. eapply wp_mono; [apply frame_free_ok; [done|]|].
    { apply Hf2, Hf1. by left. }
    intros _ v3 (Hv3 & He3 & Hf3). apply wp_ret. exists cp, 0. split; [done|]. split; [done|].
    exists v3. split; [done|]. split.
    - intros q Hq _ Hd. apply Hf3; [done|]. apply Hf2, Hf1. by right.
    - left. split; [done|]. split; [done|]. intros u _. by rewrite He3, He2. }
  rewrite (proj2 (Z.eqb_neq sp 0)) by done.
  assert (Hne : cp <> sp) by (intros ->; apply Hsn, Hf1; by left).
  assert (Hspn : ~ vmm_data_frame (k_vmm s) sp) by (intros H; apply Hsn, Hf1; by right).
  wp_step. eapply wp_mono; [apply zero_frame_ok; [done|]|].
  { apply Hf2; right; apply Hf1; by left. }
  intros _ s3 (v3 & -> & Hv3 & He3 & Hf3). wp_step. eapply wp_mono; [apply zero_frame_ok; [done|]|].
  { apply Hf3, Hf2; by left. }
  intros _ s4 (v4 & -> & Hv4 & He4 & Hf4).
  assert (He : forall u, is_u32 u -> vmm_entry v4 u = vmm_entry (k_vmm s) u)
    by (intros u Hu; by rewrite He4, He3, He2, He1).
  assert (Hf : forall q, vmm_data_frame v4 q <-> q = sp \/ q = cp \/ vmm_data_frame (k_vmm s) q)
    by (intros q; by rewrite Hf4, Hf3, Hf2, Hf1).
  eapply wp_mono; [apply ring3_map_pages_ok; try done; try (apply Hf; tauto)|].
  { split; by rewrite He. }
  intros status s' (v' & Hv' & Hfr & Hcase). exists cp, sp. split; [done|]. split; [done|].
  exists v'. split; [done|]. split; [intros q H1 H2 Hq; apply Hfr, Hf; tauto|].
  destruct Hcase as [(-> & -> & Hent)|(-> & Hup & Hent & ->)]; [left|right].
  - split; [done|]. split; [done|]. intros u Hu. by rewrite Hent, He.
  - split; [done|]. split; [done|]. split; [|done]. intros u Hu Ho. by rewrite Hent, He.
Qed.

(** ** Initialization *)

(** The statics of ring3.c against the page tables: nothing is mapped before the
    set-up or after a failed one; after a successful one the two user pages are. *)
Definition ring3_inv (s : kernel_state) : Prop :=
  vmm_ready (k_vmm s) /\
  let i := ring3_info s in
  if r3_ready i then
    r3_initialized i = true /\ user_pages (k_vmm s) (code_physical i) (stack_physical i) /\
    user_code_virtual i = RING3_USER_CODE_VIRTUAL /\ user_stack_top i = 0x10001FF0
  else user_unmapped (k_vmm s) /\ (r3_initialized i = true -> r3_last_status i <> KERNEL_OK).

(** What [ring3_initialize] may have changed. *)
Record ring3_started (s s' : kernel_state) : Prop := {
  rs_only : s' = s <| k_vmm := k_vmm s' |> <| ring3_info := ring3_info s' |>;
  rs_entries : forall u, is_u32 u -> other_page u -> vmm_entry (k_vmm s') u = vmm_entry (k_vmm s) u;
  rs_frames : forall q, vmm_data_frame (k_vmm s) q -> vmm_data_frame (k_vmm s') q;
  rs_once : r3_initialized (ring3_info s) = true -> s' = s;
  rs_done : r3_initialized (ring3_info s') = true
}.

Lemma ring3_initialize_ok s :
  ring3_inv s ->
  wp (ring3_initialize addr_syscall_stack) (fun status s' => ring3_inv s' /\ ring3_started s s' /\
    status = r3_last_status (ring3_info s') /\
    (r3_initialized (ring3_info s) = false ->
       status = KERNEL_ERROR_OUT_OF_MEMORY \/ status = KERNEL_OK)) s.
Proof.
  intros Hinv. pose proof Hinv as [Hv Hr]. unfold ring3_initialize, r3_info. wp_step. wp_step.
  destruct (r3_initialized (ring3_info s)) eqn:Ei.
  { apply wp_ret. split; [done|]. split; [by constructor; [destruct s| | | |]|done]. }
  assert (user_unmapped (k_vmm s)) as Hu .
  { cbv zeta in Hr. destruct (r3_ready (ring3_info s)); [|apply Hr]. destruct Hr as [E _]. congruence. }
  wp_step. wp_step. set (s1 := set_field ring3_info _ s). wp_step.
  eapply wp_mono; [by apply (ring3_prepare_pages_ok s1)|].
  intros status s2 (cp & sp & Hcp & Hsp & v' & Hv' & Hf & Hcase).
  change (k_vmm s1) with (k_vmm s) in *.
  assert (Hfr : forall q, vmm_data_frame (k_vmm s) q -> vmm_data_frame v' q).
  { intros q Hq. apply Hf; first [done|by intros ->]. }
  destruct Hcase as [(-> & -> & Hent)|(-> & Hup & Hent & ->)]; cbn [Z.eqb mwhen]; wp_steps; try done.
  - set (s3 := set_field ring3_info _ _). assert (Ev : k_vmm s3 = v') by done.
    assert (Hent' : forall u, is_u32 u -> vmm_entry (k_vmm s3) u = vmm_entry (k_vmm s) u) by (by rewrite Ev).
    destruct user_virtual_u32 as [Huc Hus].
    split; [split; [by rewrite Ev|]|split; [constructor; auto; congruence|split; [done|by left]]].
    cbv zeta. change (r3_ready (ring3_info s3)) with false. cbv iota.
    split; [split; rewrite Hent' by done; apply Hu|done].
  - set (s3 := set_field ring3_info _ _). assert (Ev : k_vmm s3 = v') by done.
    split; [split; [by rewrite Ev|]|split; [constructor; auto; congruence|split; [done|by right]]].
    cbv zeta. change (r3_ready (ring3_info s3)) with true. cbv iota. by rewrite Ev.
Qed.

(** ** Loading an image *)

(** A page that holds the given bytes, padded with zeros. *)
Definition page_holds (m : mem) (p : Z) (bytes : list Z) : Prop :=
  forall i, 0 <= i < 4096 -> load8 m (p + i) = u8 (default 0 (bytes !! Z.to_nat i)).

Lemma page_holds_fill m m1 m2 p bytes :
  Z.of_nat (length bytes) <= 4096 -> filled m p (replicate 4096 0) m1 -> filled m1 p bytes m2 ->
  page_holds m2 p bytes /\ forall a, ~ in_page p a -> load8 m2 a = load8 m a.
Proof.
  intros Hl [H1 H2] [H3 H4]. rewrite length_replicate in H2. split.
  - intros i Hi. destruct (bytes !! Z.to_nat i) as [b|] eqn:E.
    + change (default 0 (Some b)) with b. rewrite <- (H3 _ _ E). f_equal. lia.
    + change (default 0 None) with 0. apply lookup_ge_None in E. rewrite H4 by lia.
      rewrite <- (H1 (Z.to_nat i) 0) by (apply lookup_replicate; lia). f_equal. lia.
  - intros a Ha. unfold in_page in Ha. rewrite H4, H2 by lia. done.
Qed.

(** Writing the code page. *)
Lemma ring3_inv_write s m' :
  ring3_inv s -> r3_ready (ring3_info s) = true ->
  (forall a, ~ in_page (code_physical (ring3_info s)) a -> ~ in_page (stack_physical (ring3_info s)) a ->
     load8 m' a = load8 (kmem s) a) ->
  ring3_inv (with_mem m' s) /\ forall u, is_u32 u -> vmm_entry (k_vmm (with_mem m' s)) u = vmm_entry (k_vmm s) u.
Proof.
  intros [Hv Hr] Hrdy Hm. cbv zeta in Hr. rewrite Hrdy in Hr. destruct Hr as (Hini & Hup & Hc & Hs).
  destruct (user_pages_write (k_vmm s) _ _ m' Hv Hup) as (Hv' & Hup' & He); [done|].
  split; [|done]. split; [done|]. cbv zeta. change (ring3_info (with_mem m' s)) with (ring3_info s).
  by rewrite Hrdy.
Qed.

(** Only the records of loads and runs are updated. *)
Definition same_pages (i i' : ring3_info_t) : Prop :=
  r3_initialized i' = r3_initialized i /\ r3_ready i' = r3_ready i /\
  code_physical i' = code_physical i /\ stack_physical i' = stack_physical i /\
  user_code_virtual i' = user_code_virtual i /\ user_stack_top i' = user_stack_top i /\
  kernel_syscall_stack_top i' = kernel_syscall_stack_top i.

Lemma ring3_inv_info s s' :
  ring3_inv s -> k_vmm s' = k_vmm s -> same_pages (ring3_info s) (ring3_info s') ->
  r3_ready (ring3_info s) = true \/ r3_last_status (ring3_info s') <> KERNEL_OK -> ring3_inv s'.
Proof.
  intros [Hv Hr] Ev (H1 & H2 & H3 & H4 & H5 & H6 & _) Hst. split; [by rewrite Ev|]. cbv zeta in *.
  rewrite H1, H2, H3, H4, H5, H6, Ev. destruct (r3_ready (ring3_info s)); [done|].
  split; [apply Hr|]. by destruct Hst.
Qed.

Definition loaded_result (size : Z) : ring3_loaded_image_t :=
  {| loaded_entry := RING3_USER_CODE_VIRTUAL; loaded_stack_top := 0x10001FF0; loaded_size := size |}.

(** [ring3_load_user_image]: on success the code page holds the image and zeros, and
    no other byte of memory has changed since the set-up; on failure none has. *)
Lemma ring3_load_ok s image size :
  ring3_inv s -> 0 <= size <= Z.of_nat (length image) ->
  wp (ring3_load_user_image addr_syscall_stack (Some image) size true) (fun r s' => exists s1,
    ring3_started s s1 /\ ring3_inv s1 /\ ring3_inv s' /\ same_pages (ring3_info s1) (ring3_info s') /\
    fst r = r3_last_status (ring3_info s') /\
    if bool_decide (r3_last_status (ring3_info s1) = KERNEL_OK /\ 0 < size <= 4096) then
      r = (KERNEL_OK, Some (loaded_result size)) /\ r3_ready (ring3_info s') = true /\
      exists m', page_holds m' (code_physical (ring3_info s1)) (take (Z.to_nat size) image) /\
        (forall a, ~ in_page (code_physical (ring3_info s1)) a -> load8 m' a = load8 (kmem s1) a) /\
        s' = with_mem m' s1 <| ring3_info := ring3_info s' |>
    else fst r <> KERNEL_OK /\ snd r = None /\ s' = s1 <| ring3_info := ring3_info s' |>) s.
Proof.
  intros Hinv Hsz. unfold ring3_load_user_image, ring3_load_fail, r3_info. cbn [negb]. wp_step.
  eapply wp_mono; [by apply ring3_initialize_ok|]. intros status s1 (Hi1 & Hst & -> & _).
  destruct (Z.eqb_spec (r3_last_status (ring3_info s1)) KERNEL_OK) as [E|E]; cbn [negb].
  2:{ apply wp_ret. exists s1. rewrite bool_decide_eq_false_2 by tauto.
      split; [done|]. split; [done|]. split; [done|]. split; [done|]. split; [done|].
      split; [done|]. split; [done|]. by destruct s1. }
  assert (Hrdy : r3_ready (ring3_info s1) = true).
  { destruct Hi1 as [_ Hr]. cbv zeta in Hr. destruct (r3_ready _) eqn:Er; [done|].
    exfalso. apply Hr; [apply Hst|done]. }
  pose proof Hi1 as [Hv1 Hr1]. cbv zeta in Hr1. rewrite Hrdy in Hr1. destruct Hr1 as (_ & Hup & Hcv & Hstk).
  pose proof (data_frame_range _ _ (proj1 Hv1) (up_code _ _ _ Hup)) as (Hc0 & Hc1 & _).
  pose proof (data_frame_range _ _ (proj1 Hv1) (up_stack _ _ _ Hup)) as (Hs0 & _).
  do 4 wp_step. get_set. rewrite Hrdy. zbool. cbn [negb orb]. unfold RING3_USER_PAGE_SIZE.
  destruct ((size =? 0) || (4096 <? size)) eqn:Eb.
  { wp_steps. set (s2 := set_field ring3_info _ _). exists s1.
    rewrite bool_decide_eq_false_2 by (intros [_ ?]; apply orb_true_iff in Eb; destruct Eb; bool_simpl; lia).
    split; [done|]. split; [done|]. split; [apply (ring3_inv_info s1); first [done|by left]|].
    split; [done|]. split; [done|]. split; [done|]. split; [done|]. by destruct s1. }
  bool_simpl. wp_step. eapply wp_mono; [apply zero_page_ok; lia|]. intros _ s2 (m1 & Hf1 & ->).
  wp_step. eapply wp_mono; [apply copy_to_phys_ok; lia|]. intros _ s2 (m2 & Hf2 & ->).
  wp_steps. set (s2 := set_field ring3_info _ _).
  edestruct (fun Hl => page_holds_fill _ _ _ _ _ Hl Hf1 Hf2) as [Hp Ho]; [rewrite length_take; lia|].
  exists s1. rewrite bool_decide_eq_true_2 by lia.
  assert (ring3_inv s2) as Hi2.
  { apply (ring3_inv_info (with_mem m2 s1)); [|done|done|by left].
    apply ring3_inv_write; [done|done|]. intros a Ha _. by apply Ho. }
  split; [done|]. split; [done|]. split; [done|]. split; [done|]. split; [done|].
  split; [unfold loaded_result; by rewrite <- Hcv, <- Hstk|]. split; [done|].
  exists m2. split; [done|]. split; [done|]. by destruct s1 as [[] ? ? ? ? ? ? ? ? ? ? ? ? ? ?].
Qed.
End Ring3Proofs.
