(* ===== verification/KernelInv.v ===== *)
(** * The invariant of the kernel between system calls

    The components below the system call interface are consistent with each
    other: the user pages are mapped as ring3.c records them, the file system is
    mounted, and every open descriptor names a regular file of it. *)
From S2P Require Import Prelude Mem KString Boot Pmm Vmm Pages Vfs Initramfs VfsProofs Process ProcessProofs KState FdTable.
From S2P Require Import Ring3 UserMem Ring3Proofs.

Abbreviation k_nodes s := (vfs_nodes (k_vfs s)).
Abbreviation k_table s := (process_table (k_proc s)).

(** A descriptor in use names a regular file. *)
Definition file_ok (nodes : gmap Z vfs_node_t) (f : process_file_t) : Prop :=
  file_used f = true ->
  is_u32 (file_offset f) /\ exists n, nodes !! file_node f = Some n /\ vn_type n = VFS_NODE_FILE.

Definition table_files_ok (nodes : gmap Z vfs_node_t) (table : list process_t) : Prop :=
  Forall (fun p => Forall (file_ok nodes) (p_files p)) table.

Record fs_ok (fs : vfs_state) : Prop := {
  fs_tree : tree_ok (vfs_nodes fs);
  fs_initialized : vfs_initialized (vfs_info fs) = true;
  fs_root : is_Some (vfs_nodes fs !! vfs_root fs)
}.

Definition loaders_ready (s : kernel_state) : Prop :=
  flat_initialized (flat_binary_info s) = true /\ elf_initialized (elf32_info s) = true.

(** User code can write to no page but its two. *)
Definition user_confined (v : vmm_state) : Prop :=
  forall u, is_u32 u -> other_page u -> user_writable v u = false.

Lemma user_confined_same v v' :
  user_confined v -> (forall u, is_u32 u -> other_page u -> vmm_entry v' u = vmm_entry v u) -> user_confined v'.
Proof. intros H E u Hu Ho. unfold user_writable. rewrite E by done. by apply H. Qed.

Record kernel_inv (s : kernel_state) : Prop := {
  ki_ring3 : ring3_inv s;
  ki_fs : fs_ok (k_vfs s);
  ki_proc : process_inv (k_proc s);
  ki_files : table_files_ok (k_nodes s) (k_table s);
  ki_fd : fd_initialized (fd_table_info s) = true;
  ki_copy : length (syscall_copy_buffer s) = 512%nat;
  ki_ticks : is_u32 (timer_ticks s);
  ki_loaders : loaders_ready s;
  ki_confined : user_confined (k_vmm s)
}.

(** States that differ in the processes and in records of past calls only. *)
Record quiet (s s' : kernel_state) : Prop := {
  q_vmm : k_vmm s' = k_vmm s;
  q_nodes : k_nodes s' = k_nodes s;
  q_root : vfs_root (k_vfs s') = vfs_root (k_vfs s);
  q_vfs : vfs_initialized (vfs_info (k_vfs s')) = vfs_initialized (vfs_info (k_vfs s));
  q_fd : fd_initialized (fd_table_info s') = fd_initialized (fd_table_info s);
  q_ring3 : ring3_info s' = ring3_info s;
  q_copy : syscall_copy_buffer s' = syscall_copy_buffer s;
  q_console : console s' = console s;
  q_ticks : timer_ticks s' = timer_ticks s;
  q_flat : flat_initialized (flat_binary_info s') = flat_initialized (flat_binary_info s);
  q_elf : elf_initialized (elf32_info s') = elf_initialized (elf32_info s)
}.

#[export] Instance quiet_preorder : PreOrder quiet.
Proof.
  split; [done|]. intros s1 s2 s3 [] []. constructor; etrans; eassumption.
Qed.

Lemma fs_ok_same fs fs' :
  fs_ok fs -> vfs_nodes fs' = vfs_nodes fs -> vfs_root fs' = vfs_root fs ->
  vfs_initialized (vfs_info fs') = vfs_initialized (vfs_info fs) -> fs_ok fs'.
Proof. intros [] E1 E2 E3. constructor; rewrite ?E1, ?E2, ?E3; done. Qed.

Lemma kernel_inv_quiet s s' :
  kernel_inv s -> quiet s s' -> process_inv (k_proc s') -> table_files_ok (k_nodes s) (k_table s') ->
  kernel_inv s'.
Proof.
  intros [Hr Hf Hp Ht Hd Hc Hti Hl Hco] [Ev En Ero Evf Efd Er Ec _ Eti Efl Eel] Hp' Ht'.
  constructor; [|by apply (fs_ok_same (k_vfs s))|done|by rewrite En|by rewrite Efd|by rewrite Ec
               |by rewrite Eti|unfold loaders_ready; by rewrite Efl, Eel|by rewrite Ev].
  destruct Hr as [Hv Hr]. split; [by rewrite Ev|]. cbv zeta. rewrite Er, Ev. exact Hr.
Qed.

(** ... when the processes are the same too. *)
Lemma kernel_inv_same s s' :
  kernel_inv s -> quiet s s' -> k_proc s' = k_proc s -> kernel_inv s'.
Proof.
  intros Hi Hq E. apply (kernel_inv_quiet s); [done|done| |]; rewrite E; apply Hi.
Qed.

(** Comparing a known status with [KERNEL_OK]. *)
Ltac eval_status :=
  repeat match goal with
  | |- context [?c =? KERNEL_OK] =>
      let b := eval vm_compute in (c =? KERNEL_OK) in
      match b with true => idtac | false => idtac end; change (c =? KERNEL_OK) with b
  end; cbn [negb].

(** Two conjuncts at a time. *)
Lemma and_join (A B C : Prop) : A /\ B -> C -> A /\ B /\ C.
Proof. tauto. Qed.

(** Calls into the components. *)
Lemma wp_on_proc {A} (m : PM A) (Q : A -> kernel_state -> Prop) s :
  wp m (fun a v => Q a (s <| k_proc := v |>)) (k_proc s) -> wp (on_proc m) Q s.
Proof. apply (wp_zoom k_proc (fun v s => s <| k_proc := v |>)). Qed.

Definition with_vfs (v : vfs_state) (s : kernel_state) : kernel_state :=
  s <| k_fs ::= fun f => f <| ifs_vfs := v |> |>.

Lemma wp_on_files {A} (m : VM A) (Q : A -> kernel_state -> Prop) s :
  wp m (fun a v => Q a (with_vfs v s)) (k_vfs s) -> wp (on_files m) Q s.
Proof.
  intros H. apply (wp_zoom k_fs (fun v s => s <| k_fs := v |>)).
  by apply (wp_zoom ifs_vfs (fun v s => s <| ifs_vfs := v |>)).
Qed.

Lemma with_vfs_self s : with_vfs (k_vfs s) s = s.
Proof. by destruct s as [? [] ? ? ? ? ? ? ? ? ? ? ? ? ?]. Qed.

Lemma with_proc_self s : s <| k_proc := k_proc s |> = s.
Proof. by destruct s. Qed.

(** Reading a node and a process. *)
Lemma wp_kernel_node p n (Q : vfs_node_t -> kernel_state -> Prop) s :
  k_nodes s !! p = Some n -> Q n s -> wp (on_files (node_at p)) Q s.
Proof. intros E HQ. apply wp_on_files, (wp_node_at _ _ n); [done|]. by rewrite with_vfs_self. Qed.

Lemma wp_kernel_proc i p (Q : process_t -> kernel_state -> Prop) s :
  k_table s !! i = Some p -> Q p s -> wp (on_proc (proc_at i)) Q s.
Proof. intros E HQ. apply wp_on_proc, (wp_proc_at _ p); [done|]. by rewrite with_proc_self. Qed.

(** A lookup in the mounted file system. *)
Lemma kernel_lookup_ok s path (Q : Z * option Z -> kernel_state -> Prop) :
  fs_ok (k_vfs s) -> Z.of_nat (length path) < 4294967296 ->
  (forall s', quiet s s' -> k_proc s' = k_proc s -> fd_table_info s' = fd_table_info s ->
     Q (lookup_result (k_vfs s) path) s') ->
  wp (on_files (vfs_lookup (Some path) true)) Q s.
Proof.
  intros [Ht Hi Hr] Hl HQ. apply wp_on_files. eapply wp_mono; [apply vfs_lookup_ok; first [done|by right]|].
  intros r v' [-> ->]. apply HQ; [|done|done]. constructor; try done.
  unfold with_vfs, k_vfs. get_set. unfold looked_up. by destruct (_ =? _).
Qed.

(** A found node exists. *)
Lemma lookup_result_node fs path st p :
  fs_ok fs -> lookup_result fs path = (st, Some p) -> st = KERNEL_OK /\ is_Some (vfs_nodes fs !! p).
Proof.
  intros [Ht _ Hr]. unfold lookup_result. destruct (_ =? 0); [done|]. destruct (negb _); [done|].
  destruct (resolve _ _ _) as [q|] eqn:E; [|done]. intros [= <- <-]. split; [done|].
  revert E Hr. generalize (vfs_root fs). induction (components path) as [|w ws IH]; intros r; cbn.
  - by intros [= ->].
  - intros E [d Ed]. rewrite Ed in E. destruct (is_type d _); [|done].
    destruct (child_named (vfs_nodes fs) d w) eqn:Ec; [|done]. eapply IH; [done|].
    by eapply child_named_node.
Qed.

Lemma lookup_result_status fs path st : lookup_result fs path = (st, None) -> (st =? KERNEL_OK) = false.
Proof.
  unfold lookup_result. destruct (_ =? 0); [by intros [= <-]|]. destruct (negb _); [by intros [= <-]|].
  destruct (resolve _ _ _) eqn:E; [done|]. intros [= <-]. by eapply resolve_status.
Qed.
