(* ===== verification/FdProofs.v ===== *)
(** * Open files: contracts of open, read and close

    Each operation is described by the descriptor table of the current process
    before and after; every other process, and every other descriptor, keeps its
    state. *)
From S2P Require Import Prelude Mem KString Boot Pmm Vmm Pages Vfs Initramfs VfsProofs Process ProcessProofs KState FdTable.
From S2P Require Import Ring3 UserMem Ring3Proofs KernelInv.

(** ** Replacing the descriptors of one process *)

Definition with_files (fs : list process_file_t) (p : process_t) : process_t := p <| p_files := fs |>.

(** The processes after process [i] has got the descriptors [fs]. *)
Definition files_set (ps : process_state) (i : nat) (p : process_t) (fs : list process_file_t) : process_state :=
  ps <| process_table := <[i := with_files fs p]> (process_table ps) |>.

Lemma kernel_inv_files s s' i p fs :
  kernel_inv s -> quiet s s' -> k_table s !! i = Some p -> length fs = 16%nat ->
  Forall (file_ok (k_nodes s)) fs -> k_proc s' = files_set (k_proc s) i p fs -> kernel_inv s'.
Proof.
  intros Hinv Hq Ep Hl Hfs E. apply (kernel_inv_quiet s); [done|done| |]; rewrite E.
  - apply (process_inv_update _ i p); try done; [apply Hinv|].
    pose proof (Forall_lookup_1 _ _ _ _ (pv_wf _ (ki_proc _ Hinv)) Ep) as Hw. by destruct Hw.
  - unfold files_set, table_files_ok. get_set. apply Forall_insert; [apply Hinv|done].
Qed.

Section Current.
Context (s : kernel_state) (Hinv : kernel_inv s) (i : nat) (p : process_t).
Context (Hcur : current_process (k_proc s) = Some i) (Ep : k_table s !! i = Some p).

Lemma current_files : length (p_files p) = 16%nat /\ Forall (file_ok (k_nodes s)) (p_files p).
Proof using Hinv Ep.
  split.
  - pose proof (Forall_lookup_1 _ _ _ _ (pv_wf _ (ki_proc _ Hinv)) Ep) as Hw. apply Hw.
  - exact (Forall_lookup_1 _ _ _ _ (ki_files _ Hinv) Ep).
Qed.

(** Assigning a descriptor in a state whose processes are those of [s]. *)
Lemma set_file_ok s1 fd f g (Q : unit -> kernel_state -> Prop) :
  k_proc s1 = k_proc s -> p_files p !! Z.to_nat fd = Some f ->
  Q tt (s1 <| k_proc := files_set (k_proc s) i p (<[Z.to_nat fd := g f]> (p_files p)) |>) ->
  wp (set_file i fd g) Q s1.
Proof using Ep.
  intros E1 Ef HQ. apply wp_on_proc, wp_mod. rewrite E1.
  rewrite (upd_state _ i p) by done. unfold files_set, with_files in HQ.
  replace (p <| p_files ::= alter g (Z.to_nat fd) |>)
    with (p <| p_files := <[Z.to_nat fd := g f]> (p_files p) |>); [done|].
  destruct p. eval_process. f_equal. symmetry. by apply alter_insert.
Qed.

(** ** Opening *)

(** The first descriptor that may be used and is not. *)
Definition free_slot (fs : list process_file_t) : option nat :=
  find (fun k => match fs !! k with Some f => negb (file_used f) | None => false end) fd_slots.

Lemma free_slot_bound fs k : free_slot fs = Some k -> (3 <= k < 16)%nat /\
  exists f, fs !! k = Some f /\ file_used f = false.
Proof using.
  clear. intros H. apply find_some in H as [Hin Hf]. apply in_seq in Hin.
  split; [unfold FD_FIRST_PROCESS_FILE, PROCESS_MAX_OPEN_FILES in *; lia|].
  destruct (fs !! k) as [f|]; [|done]. exists f. by destruct (file_used f).
Qed.

Lemma slot_scan fs ks (s1 : kernel_state) :
  (forall k, k ∈ ks -> is_Some (fs !! k)) ->
  wp (mfor_ret ks (fun k => f <- array_at fs (Z.of_nat k) ;;
                            mret_ (if negb (file_used f) then Some k else None)))
     (fun o s' => s' = s1 /\
        o = find (fun k => match fs !! k with Some f => negb (file_used f) | None => false end) ks) s1.
Proof using.
  clear. induction ks as [|k ks IH]; intros Hk; [by apply wp_ret|].
  cbn [mfor_ret find]. apply wp_bind, wp_bind. destruct (Hk k) as [f Ef]; [by left|].
  apply (wp_array_at _ _ f); [by rewrite Nat2Z.id|]. apply wp_ret. rewrite Ef.
  destruct (file_used f); cbn [negb]; [|by apply wp_ret]. apply IH. intros j Hj. apply Hk. by right.
Qed.

Lemma allocate_slot_ok s1 :
  k_proc s1 = k_proc s ->
  wp (fd_table_allocate_slot (Some i) true) (fun r s' => s' = s1 /\
    r = match free_slot (p_files p) with
        | Some k => (KERNEL_OK, Some (Z.of_nat k))
        | None => (KERNEL_ERROR_OUT_OF_MEMORY, None)
        end) s1.
Proof using Hinv Ep.
  intros E1. unfold fd_table_allocate_slot. cbn [negb]. wp_step.
  apply (wp_kernel_proc _ p); [by rewrite E1|]. wp_step.
  eapply wp_mono; [apply slot_scan|].
  - intros k Hk. apply lookup_lt_is_Some_2. destruct current_files as [-> _].
    apply list_elem_of_In, in_seq in Hk. unfold FD_FIRST_PROCESS_FILE, PROCESS_MAX_OPEN_FILES in Hk. lia.
  - intros o s' [-> ->]. fold (free_slot (p_files p)). by destruct (free_slot _); apply wp_ret.
Qed.

(** The outcome of opening [path]: a status, and the node and descriptor. *)
Definition open_outcome (fs : vfs_state) (files : list process_file_t) (path : list Z)
    : Z + Z * nat :=
  match lookup_result fs path with
  | (_, Some node) =>
      match vfs_nodes fs !! node with
      | Some n =>
          if is_type n VFS_NODE_FILE then
            match free_slot files with
            | Some k => inr (node, k)
            | None => inl KERNEL_ERROR_OUT_OF_MEMORY
            end
          else inl KERNEL_ERROR_INVALID_STATE
      | None => inl KERNEL_ERROR_INVALID_STATE
      end
  | (status, None) => inl status
  end.

Definition opened_file (node flags : Z) : process_file_t :=
  {| file_used := true; file_node := node; file_offset := 0; file_flags := flags |}.

Lemma fd_table_open_ok path flags :
  Z.of_nat (length path) < 4294967296 ->
  wp (fd_table_open_current (Some path) flags true) (fun r s' => quiet s s' /\ kernel_inv s' /\
    match open_outcome (k_vfs s) (p_files p) path with
    | inr (node, k) => r = (KERNEL_OK, Some (Z.of_nat k)) /\
        k_proc s' = files_set (k_proc s) i p (<[k := opened_file node flags]> (p_files p))
    | inl status => r = (status, None) /\ status <> KERNEL_OK /\ k_proc s' = k_proc s
    end) s.
Proof using All.
  intros Hl. unfold fd_table_open_current, fd_open_fail, fd_info.
  do 6 wp_step. get_set. rewrite (ki_fd _ Hinv). cbn [negb]. wp_step. apply wp_on_proc, wp_get. get_set.
  rewrite Hcur. cbv iota. wp_step. unfold open_outcome.
  apply kernel_lookup_ok; [exact (ki_fs _ Hinv)|done|]. intros s1 Hq1 Ep1 Ef1.
  change (lookup_result _ path) with (lookup_result (k_vfs s) path).
  assert (Hq : quiet s s1) by (destruct Hq1; constructor; done).
  change (k_proc s1 = k_proc s) in Ep1.
  assert (Hinv1 : forall s', quiet s1 s' -> k_proc s' = k_proc s -> quiet s s' /\ kernel_inv s').
  { intros s' H1 H2. assert (quiet s s') by (by etrans). split; [done|]. by apply (kernel_inv_same s). }
  destruct (lookup_result (k_vfs s) path) as [st [node|]] eqn:El.
  2:{ pose proof (lookup_result_status _ _ _ El) as Hst. rewrite Hst. cbn [negb]. wp_steps.
      apply and_join; [by apply Hinv1|]. split; [done|]. split; [|done].
      by apply Z.eqb_neq. }
  destruct (lookup_result_node _ _ _ _ (ki_fs _ Hinv) El) as [-> [n En]].
  change (default 0 (Some node)) with node. change (KERNEL_OK =? KERNEL_OK) with true. cbn [negb].
  wp_step. apply (wp_kernel_node _ n); [by rewrite (q_nodes _ _ Hq)|].
  change (vfs_nodes (k_vfs s) !! node) with (k_nodes s !! node). rewrite En.
  destruct (is_type n VFS_NODE_FILE) eqn:Et; cbn [negb].
  2:{ wp_steps. apply and_join; [by apply Hinv1|done]. }
  wp_step. eapply wp_mono; [by apply allocate_slot_ok|]. intros r s2 [-> ->].
  destruct (free_slot (p_files p)) as [k|] eqn:Ek.
  2:{ change (KERNEL_ERROR_OUT_OF_MEMORY =? KERNEL_OK) with false. cbn [negb]. wp_steps. apply and_join; [by apply Hinv1|done]. }
  destruct (free_slot_bound _ _ Ek) as (Hk & f & Efk & _). destruct current_files as [Hlen Hall].
  change (default FD_INVALID (Some (Z.of_nat k))) with (Z.of_nat k).
  change (KERNEL_OK =? KERNEL_OK) with true. cbn [negb]. wp_step.
  apply (set_file_ok s1 _ f); [done|by rewrite Nat2Z.id|]. rewrite Nat2Z.id. wp_steps.
  set (s2 := set_field fd_table_info _ _).
  assert (quiet s s2) as Hq2 by (destruct Hq; constructor; done).
  split; [done|]. split; [|done].
  apply (kernel_inv_files s s2 i p (<[k := opened_file node flags]> (p_files p))); try done.
  - by rewrite length_insert.
  - apply Forall_insert; [done|]. intros _. split; [unfold is_u32; cbn; lia|].
    exists n. split; [exact En|]. by apply bool_decide_eq_true in Et.
Qed.

(** ** Reading *)

(** The descriptor [fd], when it is in use. *)
Definition descriptor (files : list process_file_t) (fd : Z) : option process_file_t :=
  if (3 <=? fd) && (fd <? 16) then
    match files !! Z.to_nat fd with
    | Some f => if file_used f then Some f else None
    | None => None
    end
  else None.

Lemma descriptor_lookup files fd f : descriptor files fd = Some f ->
  3 <= fd < 16 /\ files !! Z.to_nat fd = Some f /\ file_used f = true.
Proof using.
  clear. unfold descriptor. destruct ((3 <=? fd) && (fd <? 16)) eqn:E; [|done].
  destruct (files !! Z.to_nat fd) as [g|]; [|done]. destruct (file_used g) eqn:Eg; [|done].
  intros [= <-]. bool_simpl. done.
Qed.

Lemma fd_entry_ok s1 fd :
  k_proc s1 = k_proc s ->
  wp (fd_entry i fd) (fun r s' => s' = s1 /\ r = descriptor (p_files p) fd) s1.
Proof using Hinv Ep.
  intros E1. unfold fd_entry, descriptor.
  change (Z.of_nat PROCESS_MAX_OPEN_FILES) with 16. change (Z.of_nat FD_FIRST_PROCESS_FILE) with 3.
  destruct (Z.leb_spec 16 fd), (Z.ltb_spec fd 3), (Z.leb_spec 3 fd), (Z.ltb_spec fd 16); try lia;
    cbn [orb andb]; try by apply wp_ret.
  wp_step. apply (wp_kernel_proc _ p); [by rewrite E1|]. wp_step.
  destruct (lookup_lt_is_Some_2 (p_files p) (Z.to_nat fd)) as [f Ef]; [destruct current_files; lia|].
  apply (wp_array_at _ _ f); [done|]. apply wp_ret. by rewrite Ef.
Qed.

Lemma read_length_end n offset length :
  0 <= offset -> 0 <= length -> offset + read_length n offset length <= Z.max offset (vn_size n).
Proof using.
  clear. intros. unfold read_length. destruct (vn_data n); [|lia].
  destruct (Z.leb_spec (vn_size n) offset); lia.
Qed.

(** A node that a descriptor names. *)
Lemma descriptor_node fd f : descriptor (p_files p) fd = Some f ->
  is_u32 (file_offset f) /\ exists n, k_nodes s !! file_node f = Some n /\ vn_type n = VFS_NODE_FILE /\
    node_ok (k_nodes s) n /\ file_node f <> 0.
Proof using Hinv Ep.
  intros (_ & Ef & Hu)%descriptor_lookup. destruct current_files as [_ Hall].
  destruct (Forall_lookup_1 _ _ _ _ Hall Ef Hu) as [Ho (n & En & Ht)]. split; [done|].
  destruct (fs_tree _ (ki_fs _ Hinv)) as [H0 Hok]. exists n. split; [done|]. split; [done|].
  split; [by apply (Hok (file_node f))|]. intros E. by rewrite E, H0 in En.
Qed.

Lemma fd_table_read_ok fd buf len :
  is_u32 len -> Z.min len 512 <= Z.of_nat (length buf) ->
  wp (fd_table_read_current fd (Some buf) len true) (fun r s' => quiet s s' /\ kernel_inv s' /\
    match descriptor (p_files p) fd with
    | None => r = (KERNEL_ERROR_INVALID_ARGUMENT, Some buf, 0) /\ k_proc s' = k_proc s
    | Some f => exists n, k_nodes s !! file_node f = Some n /\
        let k := read_length n (file_offset f) len in
        r = (KERNEL_OK, Some (read_bytes n (file_offset f) len ++ drop (Z.to_nat k) buf), k) /\
        k_proc s' = files_set (k_proc s) i p
          (<[Z.to_nat fd := f <| file_offset := file_offset f + k |>]> (p_files p))
    end) s.
Proof using All.
  intros Hlen Hbuf. unfold fd_table_read_current, fd_read_fail, fd_info.
  do 4 wp_step. get_set. rewrite (ki_fd _ Hinv). cbn [negb]. wp_step. apply wp_on_proc, wp_get. get_set.
  rewrite Hcur. rewrite bool_decide_eq_false_2 by done. cbn [orb]. set (s1 := set_field k_proc _ _).
  assert (Hq1 : quiet s s1) by done. assert (E1 : k_proc s1 = k_proc s) by done. clearbody s1.
  wp_step. eapply wp_mono; [by apply fd_entry_ok|]. intros r s2 [-> ->].
  destruct (descriptor (p_files p) fd) as [f|] eqn:Ed.
  2:{ wp_steps. set (s2 := set_field _ _ s1). assert (quiet s s2) by (destruct Hq1; constructor; done).
      split; [done|]. split; [by apply (kernel_inv_same s)|done]. }
  destruct (descriptor_node _ _ Ed) as (Ho & n & En & Ht & Hn & Hn0).
  destruct (descriptor_lookup _ _ _ Ed) as (Hfd & Ef & Hu). destruct current_files as [Hfl Hall].
  wp_step. rewrite (proj2 (Z.eqb_neq _ _)) by done.
  wp_step. apply (wp_kernel_node _ n); [by rewrite (q_nodes _ _ Hq1)|]. wp_step.
  unfold is_type. rewrite bool_decide_eq_true_2 by done. cbn [negb]. wp_step. apply wp_on_files.
  set (k := read_length n (file_offset f) len).
  assert (Hk : 0 <= k <= Z.min len 512) by (apply read_length_bound; unfold is_u32 in *; lia).
  eapply wp_mono; [apply (vfs_read_node_ok _ _ n); try done|].
  { rewrite (q_nodes _ _ Hq1). apply (ki_fs _ Hinv). }
  { rewrite (q_vfs _ _ Hq1). apply (ki_fs _ Hinv). }
  { by rewrite (q_nodes _ _ Hq1). }
  { fold k. lia. }
  intros r v' [-> ->]. fold k. change (KERNEL_OK =? KERNEL_OK) with true. cbn [negb]. wp_step.
  apply (set_file_ok _ _ f); [done|done|]. wp_steps. set (s2 := set_field fd_table_info _ _).
  assert (quiet s s2) as Hq2 by (destruct Hq1; constructor; done).
  assert (Hoff : file_offset f + k < 4294967296).
  { pose proof (read_length_end n (file_offset f) len). pose proof (nk_size _ _ Hn).
    unfold is_u32 in *. lia. }
  assert (E2 : k_proc s2 = files_set (k_proc s) i p
    (<[Z.to_nat fd := f <| file_offset := file_offset f + k |>]> (p_files p))).
  { subst s2. get_set. do 2 f_equal. unfold is_u32 in Ho. destruct f. cbv [set_field eta_process_file].
    cbn. f_equal. apply u32_small. unfold is_u32. cbn in *. lia. }
  split; [done|]. split; [|by exists n].
  apply (kernel_inv_files s s2 i p _ Hinv Hq2 Ep) in E2; [done|by rewrite length_insert|].
  apply Forall_insert; [done|]. intros _. get_set. split; [unfold is_u32 in *; lia|by exists n].
Qed.

(** ** Closing *)

Lemma fd_table_close_ok fd :
  wp (fd_table_close_current fd) (fun status s' => quiet s s' /\ kernel_inv s' /\
    match descriptor (p_files p) fd with
    | None => status = KERNEL_ERROR_INVALID_ARGUMENT /\ k_proc s' = k_proc s
    | Some _ => status = KERNEL_OK /\
        k_proc s' = files_set (k_proc s) i p (<[Z.to_nat fd := closed_file]> (p_files p))
    end) s.
Proof using All.
  unfold fd_table_close_current, fd_close_fail, fd_info.
  do 4 wp_step. get_set. rewrite (ki_fd _ Hinv). cbn [negb]. wp_step. apply wp_on_proc, wp_get. get_set.
  rewrite Hcur. set (s1 := set_field k_proc _ _).
  assert (Hq1 : quiet s s1) by done. assert (E1 : k_proc s1 = k_proc s) by done. clearbody s1.
  wp_step. eapply wp_mono; [by apply fd_entry_ok|]. intros r s2 [-> ->].
  destruct (descriptor (p_files p) fd) as [f|] eqn:Ed.
  2:{ wp_steps. set (s2 := set_field _ _ s1). assert (quiet s s2) by (destruct Hq1; constructor; done).
      split; [done|]. split; [by apply (kernel_inv_same s)|done]. }
  destruct (descriptor_lookup _ _ _ Ed) as (Hfd & Ef & Hu). destruct current_files as [Hfl Hall].
  wp_step. apply (set_file_ok _ _ f); [done|done|]. wp_steps. set (s2 := set_field fd_table_info _ _).
  assert (quiet s s2) as Hq2 by (destruct Hq1; constructor; done).
  split; [done|]. split; [|done].
  apply (kernel_inv_files s s2 i p (<[Z.to_nat fd := closed_file]> (p_files p))); try done.
  - by rewrite length_insert.
  - by apply Forall_insert.
Qed.
End Current.

(** ** Reading a file to its end *)

(** Reading [k] times with a 512-byte buffer; the bytes delivered, in order. *)
Fixpoint read_times (k : nat) (fd : Z) (acc : list Z) : KM (list Z) :=
  match k with
  | O => mret_ acc
  | S k' =>
      r <- fd_table_read_current fd (Some (replicate 512 0)) 512 true ;;
      let '(_, buffer, bytes_read) := r in
      read_times k' fd (acc ++ take (Z.to_nat bytes_read) (default [] buffer))
  end.

Definition file_contents (n : vfs_node_t) : list Z := take (Z.to_nat (vn_size n)) (node_data n).

(** One read delivers the next bytes of the contents. *)
Lemma read_bytes_next nodes n o :
  node_ok nodes n -> 0 <= o -> let k := read_length n o 512 in
  read_bytes n o 512 = take (Z.to_nat k) (drop (Z.to_nat o) (file_contents n)) /\
  (vn_data n <> None -> o <= vn_size n -> k = Z.min 512 (vn_size n - o)).
Proof.
  intros Hn Ho k. unfold read_bytes, file_contents. fold k.
  pose proof (read_length_bound n o 512 ltac:(lia)) as Hk. fold k in Hk.
  pose proof (read_length_end n o 512 Ho ltac:(lia)) as Hend. fold k in Hend. split.
  - destruct (decide (vn_size n <= o)) as [Hge|Hlt].
    + replace k with 0 by lia. by rewrite !take_0.
    + rewrite skipn_firstn_comm, take_take. f_equal. lia.
  - intros Hd Hle. subst k. unfold read_length, VFS_READ_CHUNK_MAX. destruct (vn_data n); [|done].
    destruct (Z.leb_spec (vn_size n) o); lia.
Qed.

Lemma read_times_ok i node n fd k : forall s p f acc,
  kernel_inv s -> current_process (k_proc s) = Some i -> k_table s !! i = Some p ->
  descriptor (p_files p) fd = Some f -> file_node f = node -> k_nodes s !! node = Some n -> vn_data n <> None ->
  file_offset f <= vn_size n ->
  wp (read_times k fd acc) (fun bytes s' => kernel_inv s' /\ bytes =
    acc ++ take (512 * k) (drop (Z.to_nat (file_offset f)) (file_contents n))) s.
Proof.
  induction k as [|k IH]; intros s p f acc Hinv Hcur Ep Ed Enode En Hdata Hle.
  { apply wp_ret. split; [done|]. by rewrite Nat.mul_0_r, take_0, app_nil_r. }
  cbn [read_times]. wp_step. eapply wp_mono; [apply (fd_table_read_ok s Hinv i p Hcur Ep fd)|].
  { unfold is_u32. lia. } { rewrite length_replicate. lia. }
  intros r s1 (Hq & Hinv1 & Hr). rewrite Ed, Enode in Hr. destruct Hr as (n' & En' & -> & Epr).
  assert (n' = n) as -> by congruence.
  destruct (descriptor_node s Hinv i p Ep _ _ Ed) as (Ho & n' & En2 & _ & Hn & _).
  assert (n' = n) as -> by congruence. unfold is_u32 in Ho.
  set (m := read_length n (file_offset f) 512) in *.
  destruct (read_bytes_next _ n (file_offset f) Hn ltac:(lia)) as [Eb Em]. fold m in Eb, Em.
  specialize (Em Hdata Hle).
  assert (Hlb : Z.of_nat (length (read_bytes n (file_offset f) 512)) = m).
  { by apply (read_bytes_length _ n (file_offset f) 512 Hn); lia. }
  change (default [] (Some ?x)) with x. rewrite take_app_le, take_ge by lia.
  assert (Hi : (i < length (k_table s))%nat) by (by eapply lookup_lt_Some).
  destruct (descriptor_lookup _ _ _ Ed) as (Hfd & Ef & Hu).
  assert (Hfl : (Z.to_nat fd < length (p_files p))%nat) by (by eapply lookup_lt_Some).
  set (f' := f <| file_offset := file_offset f + m |>).
  eapply wp_mono; [apply (IH s1 (with_files (<[Z.to_nat fd := f']> (p_files p)) p) f' _)|].
  - done.
  - by rewrite Epr.
  - rewrite Epr. unfold files_set. get_set. by apply list_lookup_insert_eq.
  - unfold descriptor, with_files. get_set. rewrite (proj2 (Z.leb_le 3 fd)), (proj2 (Z.ltb_lt fd 16)) by lia.
    cbn [andb]. rewrite list_lookup_insert_eq by done. change (file_used f') with (file_used f). by rewrite Hu.
  - done.
  - by rewrite (q_nodes _ _ Hq).
  - done.
  - change (file_offset f') with (file_offset f + m). lia.
  - intros bytes s2 [Hinv2 ->]. split; [done|]. rewrite Eb, <- app_assoc. f_equal.
    change (file_offset f') with (file_offset f + m).
    rewrite Z2Nat.inj_add, <- drop_drop by lia. set (rest := drop (Z.to_nat (file_offset f)) (file_contents n)).
    assert (Hrest : Z.of_nat (length rest) = vn_size n - file_offset f).
    { subst rest. unfold file_contents, node_data. rewrite length_drop, length_take.
      pose proof (nk_data _ _ Hn) as Hd. destruct (vn_data n) as [d|]; [|done].
      destruct (Hd d eq_refl) as [Hd1 _]. change (default [] (Some d)) with d. lia. }
    replace (512 * S k)%nat with (512 + 512 * k)%nat by lia. rewrite <- take_take_drop.
    destruct (decide (m = 512)) as [->|Hne]; [done|].
    rewrite !(take_ge rest), !(drop_ge rest) by lia. done.
Qed.

(** Opening a regular file and reading it to the end. *)
Lemma open_read_ok s i p path flags node k n m :
  kernel_inv s -> current_process (k_proc s) = Some i -> k_table s !! i = Some p ->
  Z.of_nat (length path) < 4294967296 -> open_outcome (k_vfs s) (p_files p) path = inr (node, k) ->
  k_nodes s !! node = Some n -> vn_data n <> None -> vn_size n <= 512 * Z.of_nat m ->
  wp (r <- fd_table_open_current (Some path) flags true ;; read_times m (default 0 (snd r)) [])
    (fun bytes s' => kernel_inv s' /\ bytes = file_contents n) s.
Proof.
  intros Hinv Hcur Ep Hl Ho En Hd Hm. wp_step.
  eapply wp_mono; [by apply (fd_table_open_ok s Hinv i p Hcur Ep)|]. intros r s1 (Hq & Hinv1 & Hr).
  rewrite Ho in Hr. destruct Hr as [-> Epr]. cbn [snd]. change (default 0 (Some (Z.of_nat k))) with (Z.of_nat k).
  assert (Hi : (i < length (k_table s))%nat) by (by eapply lookup_lt_Some).
  assert (exists f, (3 <= k < 16)%nat /\ p_files p !! k = Some f) as (f & Hk & Ef).
  { unfold open_outcome in Ho. destruct (lookup_result _ _) as [? [?|]]; [|done].
    destruct (vfs_nodes _ !! _); [|done]. destruct (is_type _ _); [|done].
    destruct (free_slot (p_files p)) eqn:Ek; [|done]. injection Ho as _ ->.
    destruct (free_slot_bound _ _ Ek) as (? & f & ? & _). by exists f. }
  assert (Hfl : (k < length (p_files p))%nat) by (by eapply lookup_lt_Some).
  eapply wp_mono; [apply (read_times_ok i node n (Z.of_nat k) m s1
    (with_files (<[k := opened_file node flags]> (p_files p)) p) (opened_file node flags)); try done|].
  - by rewrite Epr.
  - rewrite Epr. unfold files_set. get_set. by apply list_lookup_insert_eq.
  - unfold descriptor, with_files. get_set. rewrite (proj2 (Z.leb_le 3 _)), (proj2 (Z.ltb_lt _ 16)) by lia.
    cbn [andb]. by rewrite Nat2Z.id, list_lookup_insert_eq.
  - by rewrite (q_nodes _ _ Hq).
  - change (file_offset (opened_file node flags)) with 0.
    apply (nk_size _ _ (proj2 (fs_tree _ (ki_fs _ Hinv)) _ _ En)).
  - intros bytes s2 [Hinv2 ->]. split; [done|]. change (file_offset (opened_file node flags)) with 0.
    cbn [app]. rewrite drop_0. apply take_ge. unfold file_contents. rewrite length_take.
    pose proof (nk_size _ _ (proj2 (fs_tree _ (ki_fs _ Hinv)) _ _ En)) as Hsz. unfold is_u32 in Hsz. lia.
Qed.
