(* ===== verification/UserCopy.v ===== *)
(** * User pointers: the check and the copying routines of core/syscall.c *)
From S2P Require Import Prelude Mem KString Boot Pmm Vmm Pages Vfs Initramfs VfsProofs Process ProcessProofs KState FdTable.
From S2P Require Import Ring3 Loader Syscall UserMem Ring3Proofs KernelInv.

(** ** The check *)

(** A range of bytes inside one of the two user pages. *)
Definition user_range (a n : Z) : Prop :=
  0 < n /\ (RING3_USER_CODE_VIRTUAL <= a /\ a + n <= RING3_USER_CODE_VIRTUAL + 4096 \/
            RING3_USER_STACK_VIRTUAL <= a /\ a + n <= RING3_USER_STACK_VIRTUAL + 4096).

Lemma range_contains_spec a n start :
  is_u32 a -> 0 < n < 4294967296 -> 0 <= start -> start + 4096 < 4294967296 ->
  syscall_user_range_contains a n start RING3_USER_PAGE_SIZE = true <-> start <= a /\ a + n <= start + 4096.
Proof.
  intros Ha Hn H0 H1. unfold syscall_user_range_contains, RING3_USER_PAGE_SIZE, is_u32 in *.
  rewrite !u32_sub_l. rewrite (u32_small (start + 4096 - 1)) by (unfold is_u32; lia).
  rewrite (proj2 (Z.eqb_neq n 0)) by lia.
  assert (u32 (a + n - 1) = a + n - 1 \/ u32 (a + n - 1) = a + n - 1 - 4294967296 /\ 4294967296 <= a + n - 1)
    as E by u32_lia.
  destruct (Z.ltb_spec (u32 (a + n - 1)) a); [split; [done|lia]|].
  rewrite andb_true_iff, !Z.leb_le. lia.
Qed.

Lemma user_buffer_valid_spec a n :
  is_u32 a -> is_u32 n -> syscall_user_buffer_is_valid a n = true <-> user_range a n.
Proof.
  intros Ha Hn. unfold syscall_user_buffer_is_valid, user_range.
  destruct (Z.eqb_spec a 0) as [->|]; cbn [orb].
  { unfold RING3_USER_CODE_VIRTUAL, RING3_USER_STACK_VIRTUAL. split; [done|lia]. }
  destruct (Z.eqb_spec n 0) as [->|]; [split; [done|lia]|]. unfold is_u32 in *.
  pose proof (range_contains_spec a n RING3_USER_CODE_VIRTUAL) as H1.
  pose proof (range_contains_spec a n RING3_USER_STACK_VIRTUAL) as H2.
  unfold is_u32, RING3_USER_CODE_VIRTUAL, RING3_USER_STACK_VIRTUAL in *.
  specialize (H1 ltac:(lia) ltac:(lia) ltac:(lia) ltac:(lia)).
  destruct (syscall_user_range_contains a n 0x10000000 _).
  - split; [|done]. intros _. split; [lia|]. left. by apply H1.
  - rewrite H2 by lia. split; [intros H; split; [lia|by right]|].
    intros [_ [H|H]]; [|done]. by apply H1 in H.
Qed.

(** ** Access to user memory *)

(** A state in which user code runs: process [i] is the current one. *)
Record running (s : kernel_state) (i : nat) : Prop := {
  ru_inv : kernel_inv s;
  ru_ready : r3_ready (ring3_info s) = true;
  ru_current : current_process (k_proc s) = Some i
}.

Abbreviation code_page s := (code_physical (ring3_info s)).
Abbreviation stack_page s := (stack_physical (ring3_info s)).

(** The bytes of physical memory that belong to the user. *)
Definition user_byte (s : kernel_state) (a : Z) : Prop := in_page (code_page s) a \/ in_page (stack_page s) a.

(** Where a user address is in physical memory. *)
Definition user_phys (s : kernel_state) (a : Z) : Z :=
  (if a <? RING3_USER_STACK_VIRTUAL then code_page s else stack_page s) + a mod 4096.

Section Access.
Context (s : kernel_state) (i : nat) (Hrun : running s i).

Lemma running_pages : vmm_ready (k_vmm s) /\ user_pages (k_vmm s) (code_page s) (stack_page s).
Proof using Hrun.
  destruct Hrun as [[[Hv Hr] _ _ _ _ _ _ _ _] Hrdy _]. cbv zeta in Hr. rewrite Hrdy in Hr.
  split; [done|]. apply Hr.
Qed.

Lemma user_frame a : user_range a 1 ->
  vmm_frame (k_vmm s) a = Some (if a <? RING3_USER_STACK_VIRTUAL then code_page s else stack_page s).
Proof using Hrun.
  intros [_ Ha]. destruct running_pages as [Hv Hup]. destruct user_flags_valid as (_ & _ & E6).
  assert (forall p v, vmm_data_frame (k_vmm s) p -> vmm_entry (k_vmm s) v = map_entry p user_flags ->
    a / 4096 = v / 4096 -> vmm_frame (k_vmm s) a = Some p) as H.
  { intros p v Hp E Ea. destruct (data_frame_range _ _ (proj1 Hv) Hp) as (H0 & H1 & Hal).
    unfold vmm_frame. cbv zeta. replace (vmm_entry (k_vmm s) a) with (map_entry p 6).
    2:{ rewrite <- E6, <- E. symmetry. by apply pt_entry_same_page. }
    destruct (map_entry_fields p 6) as (_ & _ & -> & _); [unfold is_u32; lia|tauto|].
    f_equal. unfold map_entry. Z.div_mod_to_equations. lia. }
  unfold RING3_USER_CODE_VIRTUAL, RING3_USER_STACK_VIRTUAL in *. destruct (Z.ltb_spec a 0x10001000).
  - apply (H _ RING3_USER_CODE_VIRTUAL); [apply Hup|apply Hup|].
    unfold RING3_USER_CODE_VIRTUAL. Z.div_mod_to_equations. lia.
  - apply (H _ RING3_USER_STACK_VIRTUAL); [apply Hup|apply Hup|].
    unfold RING3_USER_STACK_VIRTUAL. Z.div_mod_to_equations. lia.
Qed.

Lemma user_phys_byte a : user_byte s (user_phys s a).
Proof using.
  clear. unfold user_byte, user_phys, in_page. pose proof (Z.mod_pos_bound a 4096).
  destruct (a <? _); lia.
Qed.

(** A valid range is contiguous in physical memory. *)
Lemma user_phys_add a n k : user_range a n -> 0 <= k < n -> user_phys s (a + k) = user_phys s a + k.
Proof using.
  clear. intros [_ Ha] Hk. unfold user_phys, RING3_USER_CODE_VIRTUAL, RING3_USER_STACK_VIRTUAL in *.
  destruct (Z.ltb_spec a 0x10001000), (Z.ltb_spec (a + k) 0x10001000); Z.div_mod_to_equations; lia.
Qed.

Lemma wp_user_load a (Q : Z -> kernel_state -> Prop) :
  user_range a 1 -> Q (load8 (kmem s) (user_phys s a)) s -> wp (user_load8 a) Q s.
Proof using Hrun.
  intros Ha HQ. eexists _, _. split; [unfold user_load8; by rewrite user_frame|]. exact HQ.
Qed.

Lemma wp_user_store a v (Q : unit -> kernel_state -> Prop) :
  user_range a 1 -> Q tt (with_mem (store8 (user_phys s a) v (kmem s)) s) -> wp (user_store8 a v) Q s.
Proof using Hrun.
  intros Ha HQ. eexists _, _. split; [unfold user_store8; by rewrite user_frame|]. exact HQ.
Qed.

(** Changing the user's bytes keeps the invariant. *)
Lemma running_write m' :
  (forall a, ~ user_byte s a -> load8 m' a = load8 (kmem s) a) -> running (with_mem m' s) i.
Proof using Hrun.
  intros Hm. destruct Hrun as [[Hr Hf Hp Ht Hd Hc Hti Hl Hco] Hrdy Hcur].
  destruct (ring3_inv_write s m' Hr Hrdy) as [Hr' He].
  { intros a H1 H2. apply Hm. unfold user_byte. tauto. }
  split; [|done|done]. constructor; try done. apply (user_confined_same (k_vmm s)); [done|].
  intros u Hu _. by apply He.
Qed.
End Access.

Lemma user_range_sub a n k m : user_range a n -> 0 <= k -> 0 < m -> k + m <= n -> user_range (a + k) m.
Proof. unfold user_range. lia. Qed.

Lemma user_range_u32 a n : user_range a n -> is_u32 a /\ a + n < 4294967296 /\ 0 < n <= 4096.
Proof. unfold user_range, is_u32, RING3_USER_CODE_VIRTUAL, RING3_USER_STACK_VIRTUAL. lia. Qed.

(** The bytes of a user range. *)
Definition user_bytes (s : kernel_state) (a n : Z) : list Z :=
  (fun k => load8 (kmem s) (user_phys s a + k)) <$> seqZ 0 n.

Lemma user_bytes_length s a n : 0 <= n -> Z.of_nat (length (user_bytes s a n)) = n.
Proof. intros. unfold user_bytes. rewrite length_fmap, length_seqZ. lia. Qed.

Lemma user_bytes_snoc s a k : 0 <= k ->
  user_bytes s a (k + 1) = user_bytes s a k ++ [load8 (kmem s) (user_phys s a + k)].
Proof.
  intros. unfold user_bytes. rewrite seqZ_app by lia. by rewrite fmap_app.
Qed.

(** ** Copying *)

Section Copy.
Context (s : kernel_state) (i : nat) (Hrun : running s i).

Lemma copy_from_user_ok d source len :
  is_u32 source -> 0 < len <= Z.of_nat (length d) -> len < 4294967296 ->
  wp (syscall_copy_from_user d source len) (fun r s' => s' = s /\
    r = if syscall_user_buffer_is_valid source len
        then (KERNEL_OK, user_bytes s source len ++ drop (Z.to_nat len) d)
        else (KERNEL_ERROR_PERMISSION_DENIED, d)) s.
Proof using Hrun.
  intros Hs Hd Hl. unfold syscall_copy_from_user. rewrite (proj2 (Z.eqb_neq len 0)) by lia.
  destruct (syscall_user_buffer_is_valid source len) eqn:Ev; cbn [negb]; [|by apply wp_ret].
  apply user_buffer_valid_spec in Ev; [|done|unfold is_u32; lia]. wp_step.
  apply (wp_fold _ _ (fun l d' s' => s' = s /\
    d' = user_bytes s source (Z.of_nat (length l)) ++ drop (length l) d)).
  - by rewrite drop_0.
  - intros l k r d' s' E [-> ->].
    assert (seqZ 0 len !! length l = Some k) as Hk by (by rewrite E, list_lookup_middle).
    apply lookup_seqZ in Hk as [-> Hlt]. rewrite Z.add_0_l.
    rewrite (u32_small (source + _)) by (apply user_range_u32 in Ev; unfold is_u32 in *; lia).
    wp_step. apply (wp_user_load _ i Hrun); [by apply (user_range_sub _ len); [|lia..]|].
    rewrite (user_phys_add _ _ len) by (done || lia).
    pose proof (user_bytes_length s source (Z.of_nat (length l))) as Hub.
    destruct (lookup_lt_is_Some_2 d (length l)) as [x Ex]; [lia|].
    wp_step. apply (wp_array_at _ _ x).
    { rewrite Nat2Z.id, lookup_app_r by lia. rewrite lookup_drop. rewrite <- Ex. f_equal. lia. }
    apply wp_ret. split; [done|]. rewrite length_app. cbn [length].
    rewrite Nat2Z.inj_add, user_bytes_snoc, <- app_assoc by lia. rewrite Nat2Z.id.
    rewrite insert_app_r_alt by lia. f_equal.
    replace (length l - length (user_bytes s source (Z.of_nat (length l))))%nat with 0%nat by lia.
    rewrite (drop_S d x) by done. cbn. do 2 f_equal. lia.
  - intros d' s' [-> ->]. apply wp_ret. split; [done|]. rewrite length_seqZ. f_equal.
    by rewrite Z2Nat.id by lia.
Qed.

Lemma copy_to_user_ok dest source len :
  is_u32 dest -> 0 < len <= Z.of_nat (length source) -> len < 4294967296 ->
  wp (syscall_copy_to_user dest source len) (fun status s' =>
    if syscall_user_buffer_is_valid dest len then status = KERNEL_OK /\
      exists m', filled (kmem s) (user_phys s dest) (take (Z.to_nat len) source) m' /\ s' = with_mem m' s /\
        running s' i
    else status = KERNEL_ERROR_PERMISSION_DENIED /\ s' = s) s.
Proof using Hrun.
  intros Hs Hd Hl. unfold syscall_copy_to_user. rewrite (proj2 (Z.eqb_neq len 0)) by lia.
  destruct (syscall_user_buffer_is_valid dest len) eqn:Ev; cbn [negb]; [|by apply wp_ret].
  apply user_buffer_valid_spec in Ev; [|done|unfold is_u32; lia]. wp_step.
  apply (wp_for_seqZ len _ (fun k s' => exists m',
    filled (kmem s) (user_phys s dest) (take (Z.to_nat k) source) m' /\ s' = with_mem m' s /\ running s' i)); [lia| | |].
  - exists (kmem s). rewrite with_mem_self. split; [apply filled_nil|done].
  - intros k s' Hk (m' & Hf & -> & Hrun').
    destruct (lookup_lt_is_Some_2 source (Z.to_nat k)) as [b Eb]; [lia|].
    wp_step. apply (wp_array_at _ _ b); [done|].
    rewrite (u32_small (dest + _)) by (apply user_range_u32 in Ev; unfold is_u32 in *; lia).
    apply (wp_user_store _ i Hrun'); [by apply (user_range_sub _ len); [|lia..]|].
    change (user_phys (with_mem m' s)) with (user_phys s). change (kmem (with_mem m' s)) with m'.
    rewrite with_mem_twice. rewrite (user_phys_add _ _ len) by (done || lia).
    exists (store8 (user_phys s dest + k) b m').
    assert (filled (kmem s) (user_phys s dest) (take (Z.to_nat (k + 1)) source)
              (store8 (user_phys s dest + k) b m')) as Hf'.
    { replace (Z.to_nat (k + 1)) with (S (Z.to_nat k)) by lia. rewrite (take_S_r _ _ b) by done.
      replace (user_phys s dest + k) with (user_phys s dest + Z.of_nat (length (take (Z.to_nat k) source)))
        by (rewrite length_take; lia).
      by apply filled_snoc. }
    split; [done|]. split; [done|]. apply running_write; [done|]. intros a Ha.
    apply Hf'. rewrite length_take.
    destruct (decide (user_phys s dest <= a < user_phys s dest + (k + 1))) as [Hr|Hr]; [|lia].
    exfalso. apply Ha. replace a with (user_phys s (dest + (a - user_phys s dest))).
    + apply user_phys_byte.
    + rewrite (user_phys_add _ _ len) by (done || lia). lia.
  - intros s' (m' & Hf & -> & Hrun'). apply wp_ret. split; [done|]. by exists m'.
Qed.

(** ** Strings *)

(** The string at a user address: its bytes up to the NUL, which has to be among
    the first [n]; a status otherwise. *)
Fixpoint user_string (n : nat) (a : Z) : Z + list Z :=
  match n with
  | O => inl KERNEL_ERROR_INVALID_ARGUMENT
  | S n' =>
      if syscall_user_buffer_is_valid a 1 then
        let c := load8 (kmem s) (user_phys s a) in
        if c =? 0 then inr []
        else match user_string n' (a [+] 1) with inr l => inr (c :: l) | inl st => inl st end
      else inl KERNEL_ERROR_PERMISSION_DENIED
  end.

(** The loop from its [k]-th iteration on, with [pre] already copied. *)
Lemma string_loop_ok source n pre d :
  is_u32 source -> Forall (fun c => c <> 0) pre -> length d = n ->
  wp (mfold (seqZ (Z.of_nat (length pre)) (Z.of_nat n)) (fun acc i =>
      match acc with
      | inr done => mret_ (inr done)
      | inl d =>
          if negb (syscall_user_buffer_is_valid (source [+] i) 1) then
            mret_ (inr (KERNEL_ERROR_PERMISSION_DENIED, <[0%nat := 0]> d))
          else
            c <- user_load8 (source [+] i) ;;
            let d := <[Z.to_nat i := c]> d in
            mret_ (if c =? 0 then inr (KERNEL_OK, d) else inl d)
      end) (inl (pre ++ d)))
    (fun r s' => s' = s /\ match user_string n (source [+] Z.of_nat (length pre)) with
      | inr l => exists d', r = inr (KERNEL_OK, d') /\ cstr d' = pre ++ l /\ length d' = (length pre + n)%nat
      | inl st => (exists d', r = inr (st, d') /\ st <> KERNEL_OK /\ length d' = (length pre + n)%nat) \/
                  (exists d', r = inl d' /\ st = KERNEL_ERROR_INVALID_ARGUMENT /\ length d' = (length pre + n)%nat)
      end) s.
Proof using Hrun.
  intros Hs. revert pre d. induction n as [|n IH]; intros pre d Hpre Hd.
  { apply wp_ret. split; [done|]. right. exists (pre ++ d). split; [done|]. split; [done|].
    rewrite length_app. lia. }
  replace (Z.of_nat (S n)) with (Z.succ (Z.of_nat n)) by lia.
  rewrite seqZ_cons, Z.pred_succ by lia. cbn [mfold user_string].
  set (a := source [+] Z.of_nat (length pre)). wp_step.
  destruct (syscall_user_buffer_is_valid a 1) eqn:Ev; cbn [negb].
  2:{ apply wp_ret, wp_fold_stop; [done|]. split; [done|]. left. eexists. split; [done|].
      split; [done|]. rewrite length_insert, length_app. lia. }
  apply user_buffer_valid_spec in Ev; [|apply u32_range|unfold is_u32; lia].
  wp_step. apply (wp_user_load _ i Hrun); [done|]. set (c := load8 _ _). wp_step.
  destruct d as [|x d]; [done|]. rewrite Nat2Z.id.
  replace (<[length pre := c]> (pre ++ x :: d)) with ((pre ++ [c]) ++ d).
  2:{ rewrite insert_app_r_alt, Nat.sub_diag by lia. cbn. by rewrite <- app_assoc. }
  injection Hd as Hd. destruct (Z.eqb_spec c 0) as [Ec|Ec].
  - apply wp_fold_stop; [done|]. split; [done|]. eexists. split; [done|]. split.
    + rewrite <- app_assoc, Ec, app_nil_r. by apply cstr_app_nul.
    + rewrite !length_app. cbn [length]. lia.
  - specialize (IH (pre ++ [c]) d). rewrite length_app in IH. cbn [length] in IH.
    rewrite Nat2Z.inj_add in IH. change (Z.of_nat 1) with 1 in IH.
    unfold Z.succ. replace (a [+] 1) with (source [+] (Z.of_nat (length pre) + 1)).
    2:{ subst a. rewrite u32_add_l. f_equal. lia. }
    eapply wp_mono; [apply IH; [|done]|].
    + apply Forall_app. split; [done|]. by constructor.
    + intros r s' [-> Hr]. split; [done|].
      destruct (user_string n _) as [st|l].
      * destruct Hr as [(d' & ? & ? & ?)|(d' & ? & ? & ?)]; [left|right]; exists d'; split_and!; try done; lia.
      * destruct Hr as (d' & ? & Hcs & ?). exists d'. split_and!; [done| |lia]. by rewrite Hcs, <- app_assoc.
Qed.

(** [syscall_copy_user_string] computes the reference, for every pointer. *)
Lemma copy_user_string_ok n source :
  is_u32 source -> (0 < n)%nat ->
  wp (syscall_copy_user_string n source) (fun r s' => s' = s /\ length (snd r) = n /\
    match (if source =? 0 then inl KERNEL_ERROR_INVALID_ARGUMENT else user_string n source) with
    | inr l => fst r = KERNEL_OK /\ cstr (snd r) = l
    | inl st => fst r = st /\ st <> KERNEL_OK
    end) s.
Proof using Hrun.
  intros Hs Hn. unfold syscall_copy_user_string. destruct n as [|n]; [lia|].
  destruct (Z.eqb_spec source 0) as [->|Hs0]; cbn [orb Nat.eqb].
  { apply wp_ret. split; [done|]. split; [apply length_replicate|done]. }
  wp_step. pose proof (string_loop_ok source (S n) [] (replicate (S n) 0) Hs) as H.
  cbn [length app Nat.add] in H. eapply wp_mono; [apply H; [done|apply length_replicate]|].
  intros r s' [-> Hr]. clear H. change (Z.of_nat 0) with 0 in Hr. rewrite Z.add_0_r, u32_small in Hr by done.
  destruct (user_string (S n) source) as [st|l].
  - destruct Hr as [(d' & -> & Hst & Hl)|(d' & -> & -> & Hl)]; apply wp_ret; (split; [done|]).
    + done.
    + cbn [fst snd]. rewrite length_insert. done.
  - destruct Hr as (d' & -> & Hcs & Hl). by apply wp_ret.
Qed.
End Copy.
