(* ===== verification/SyscallProofs.v ===== *)
(** * System calls: containment and contracts

    A system call changes the user's pages, the caller's own descriptors and the
    processes it starts; it returns for all arguments. *)
From S2P Require Import Prelude Mem KString Boot Pmm Vmm Pages Vfs Initramfs VfsProofs Process ProcessProofs KState FdTable.
From S2P Require Import Ring3 Loader Syscall UserMem Ring3Proofs KernelInv FdProofs UserCopy.

(** What makes a process the process it is: its pid, its name, its image and its
    arguments. *)
Definition identity (p : process_t) : Z * list Z * list Z * list Z * list (list Z) * Z :=
  (p_pid p, p_name p, p_image_path p, p_arguments p, p_argv p, p_argc p).

Lemma identity_pid p p' : identity p' = identity p -> p_pid p' = p_pid p.
Proof. by intros [= -> _]. Qed.

(** What a call of process [i] may do to the rest of the system. *)
Record contained (i : nat) (s s' : kernel_state) : Prop := {
  ct_running : running s' i;
  ct_memory : exists m', k_vmm s' = (k_vmm s) <| vmm_mem := m' |> /\
    forall a, ~ user_byte s a -> load8 m' a = load8 (kmem s) a;
  ct_nodes : k_nodes s' = k_nodes s;
  ct_root : vfs_root (k_vfs s') = vfs_root (k_vfs s);
  ct_ring3 : ring3_info s' = ring3_info s;
  ct_others : forall j q, j <> i -> k_table s !! j = Some q -> active q = true -> k_table s' !! j = Some q;
  ct_self : exists p p', k_table s !! i = Some p /\ k_table s' !! i = Some p' /\
    identity p' = identity p;
  ct_console : exists out, console s' = console s ++ out;
  ct_ticks : timer_ticks s' = timer_ticks s
}.

Lemma running_self s i : running s i -> exists p, k_table s !! i = Some p /\ active p = true.
Proof.
  intros [Hinv _ Hcur]. destruct (pv_current _ (ki_proc _ Hinv) i Hcur) as (p & Ep & Hst).
  exists p. split; [done|]. unfold active, pstate_is. by destruct Hst as [-> | ->].
Qed.

Lemma contained_refl i s : running s i -> contained i s s.
Proof.
  intros Hrun. destruct (running_self s i Hrun) as (p & Ep & _). constructor; try done.
  - exists (kmem s). split; [|done]. unfold kmem. by destruct (k_vmm s).
  - by exists p, p.
  - exists []. by rewrite app_nil_r.
Qed.

Lemma contained_trans i s1 s2 s3 : contained i s1 s2 -> contained i s2 s3 -> contained i s1 s3.
Proof.
  intros [R1 (m1 & E1 & H1) N1 T1 I1 O1 (p1 & p1' & Ep1 & Ep1' & Q1) (o1 & C1) K1]
         [R2 (m2 & E2 & H2) N2 T2 I2 O2 (p2 & p2' & Ep2 & Ep2' & Q2) (o2 & C2) K2].
  constructor; try congruence.
  - exists m2. split; [by rewrite E2, E1|]. intros a Ha. rewrite H2, <- H1; [|done|].
    + unfold kmem. by rewrite E1.
    + unfold user_byte. by rewrite I1.
  - intros j q Hj Ej Ha. by apply O2, Ha; [|apply O1].
  - exists p1, p2'. assert (p1' = p2) by congruence. split_and!; congruence.
  - exists (o1 ++ o2). by rewrite C2, C1, app_assoc.
Qed.

(** Changes of memory, of records, and of the caller's descriptors. *)
Lemma contained_write i s m' :
  running s i -> (forall a, ~ user_byte s a -> load8 m' a = load8 (kmem s) a) ->
  contained i s (with_mem m' s).
Proof.
  intros Hrun Hm. destruct (contained_refl i s Hrun) as []. constructor; try done.
  - by apply running_write.
  - exists m'. by split.
Qed.

Lemma contained_quiet i s s' p fs :
  running s i -> quiet s s' -> kernel_inv s' -> k_table s !! i = Some p ->
  k_proc s' = k_proc s \/ k_proc s' = files_set (k_proc s) i p fs ->
  contained i s s' /\ next_pid (k_proc s') = next_pid (k_proc s).
Proof.
  intros Hrun Hq Hinv Ep Hp. destruct (contained_refl i s Hrun) as [R [m [E H]] _ _ _ _ _ _ _].
  assert (Hlt : (i < length (k_table s))%nat) by (by eapply lookup_lt_Some).
  split; [|by destruct Hp as [-> | ->]].
  destruct Hq as [Ev En Er _ _ Ei Ec Eo Et _ _]. constructor; try done.
  - constructor; [done|by rewrite Ei; apply Hrun|]. destruct Hp as [-> | ->]; apply Hrun.
  - exists m. by rewrite Ev.
  - intros j q Hj Eq _. destruct Hp as [-> | ->]; [done|]. unfold files_set. get_set.
    by rewrite list_lookup_insert_ne.
  - exists p. destruct Hp as [-> | ->]; [by exists p|]. exists (with_files fs p). unfold files_set. get_set.
    by rewrite list_lookup_insert_eq.
  - exists []. by rewrite app_nil_r, Eo.
Qed.

Lemma running_buffer s i b out :
  running s i -> length b = 512%nat ->
  running (s <| syscall_copy_buffer := b |> <| console := out |>) i.
Proof. intros [[] Hr Hc] Hb. done. Qed.

Lemma contained_buffer s i b out :
  running s i -> length b = 512%nat ->
  contained i s (s <| syscall_copy_buffer := b |> <| console := console s ++ out |>).
Proof.
  intros Hrun Hb. destruct (contained_refl i s Hrun) as []. constructor; try done.
  - by apply running_buffer.
  - by exists out.
Qed.

(** ** write *)

(** The bytes that reach the console, chunk by chunk, and whether all chunks passed
    the check. *)
Fixpoint write_chunks (s : kernel_state) (fuel : nat) (a n : Z) : list Z * bool :=
  match fuel with
  | O => ([], true)
  | S fuel' =>
      if n <=? 0 then ([], true)
      else
        let k := Z.min n 512 in
        if syscall_user_buffer_is_valid a k then
          let '(out, ok) := write_chunks s fuel' (a [+] k) (n - k) in (user_bytes s a k ++ out, ok)
        else ([], false)
  end.

Definition write_outcome (s : kernel_state) (a n : Z) : list Z * bool := write_chunks s (S (Z.to_nat n)) a n.

Lemma write_chunks_fuel s : forall f g a n, (Z.to_nat n < f)%nat -> (Z.to_nat n < g)%nat ->
  write_chunks s f a n = write_chunks s g a n.
Proof.
  induction f as [|f IH]; intros [|g] a n Hf Hg; try lia. cbn [write_chunks].
  destruct (Z.leb_spec n 0); [done|]. destruct (syscall_user_buffer_is_valid a _); [|done].
  by rewrite (IH g) by lia.
Qed.

Lemma write_outcome_step s a n : 0 < n ->
  write_outcome s a n = if syscall_user_buffer_is_valid a (Z.min n 512) then
    let '(out, ok) := write_outcome s (a [+] Z.min n 512) (n - Z.min n 512) in
    (user_bytes s a (Z.min n 512) ++ out, ok) else ([], false).
Proof.
  intros Hn. unfold write_outcome. cbn [write_chunks]. rewrite (proj2 (Z.leb_gt n 0)) by lia.
  destruct (syscall_user_buffer_is_valid a _); [|done].
  by rewrite (write_chunks_fuel s _ (S (Z.to_nat (n - Z.min n 512)))) by lia.
Qed.

Lemma print_loop_ok copy n (s : kernel_state) :
  0 <= n <= Z.of_nat (length copy) ->
  wp (mfor (seqZ 0 n) (fun i => c <- array_at copy i ;; console_put c))
     (fun _ s' => s' = s <| console := console s ++ take (Z.to_nat n) copy |>) s.
Proof.
  intros Hn. apply (wp_for_seqZ n _ (fun k s' => s' = s <| console := console s ++ take (Z.to_nat k) copy |>)); [lia| | |].
  - rewrite take_0, app_nil_r. by destruct s.
  - intros i s' Hi ->. destruct (lookup_lt_is_Some_2 copy (Z.to_nat i)) as [c Ec]; [lia|].
    wp_step. apply (wp_array_at _ _ c); [done|]. apply wp_mod.
    replace (Z.to_nat (i + 1)) with (S (Z.to_nat i)) by lia. rewrite (take_S_r _ _ c) by done.
    rewrite app_assoc. by destruct s.
  - done.
Qed.

Section Calls.
Context (s : kernel_state) (i : nat) (Hrun : running s i).

Definition written (b out : list Z) : kernel_state :=
  s <| syscall_copy_buffer := b |> <| console := console s ++ out |>.

Lemma syscall_write_loop a n :
  is_u32 a -> 0 <= n <= 4096 ->
  wp (mloop (syscall_write_step a n) 0) (fun r s' =>
    r = (if snd (write_outcome s a n) then n else u32 KERNEL_ERROR_PERMISSION_DENIED) /\
    exists b, length b = 512%nat /\ s' = written b (fst (write_outcome s a n))) s.
Proof using Hrun.
  intros Ha Hn.
  apply (wp_loop _ (fun t s' => 0 <= t <= n /\ exists b out, length b = 512%nat /\ s' = written b out /\
      write_outcome s a n = (out ++ fst (write_outcome s (a [+] t) (n - t)), snd (write_outcome s (a [+] t) (n - t))))
    (fun t _ => n - t)); [| |lia].
  - intros t s' (Ht & b & out & Hb & -> & Ew). unfold syscall_write_step.
    destruct (Z.ltb_spec t n) as [Hlt|]; cbn [negb].
    2:{ apply wp_ret. replace (n - t) with 0 in Ew by lia. rewrite Ew. cbn [fst snd write_outcome].
        change (write_outcome s (a [+] t) 0) with (@nil Z, true). cbn [fst snd]. rewrite app_nil_r.
        split; [lia|]. by exists b. }
    rewrite (u32_small (n - t)) by (unfold is_u32; lia).
    replace (if SYSCALL_COPY_CHUNK_MAX <? n - t then SYSCALL_COPY_CHUNK_MAX else n - t)
      with (Z.min (n - t) 512) by (unfold SYSCALL_COPY_CHUNK_MAX; destruct (Z.ltb_spec 512 (n - t)); lia).
    rewrite (write_outcome_step s (a [+] t)) in Ew by lia. set (k := Z.min (n - t) 512) in *.
    do 3 wp_step. get_set.
    eapply wp_mono; [apply (copy_from_user_ok _ i)|].
    + by apply running_buffer.
    + apply u32_range.
    + change (syscall_copy_buffer (written b out)) with b. lia.
    + lia.
    + intros r s' [-> ->]. change (syscall_copy_buffer (written b out)) with b.
      destruct (syscall_user_buffer_is_valid (a [+] t) k); wp_step; wp_step.
      * change (KERNEL_OK =? KERNEL_OK) with true. cbn [negb].
        change (user_bytes (written b out)) with (user_bytes s).
        pose proof (user_bytes_length s (a [+] t) k ltac:(lia)) as Hub.
        wp_step. eapply wp_mono; [apply print_loop_ok|].
        { rewrite length_app, length_drop. lia. }
        intros _ s' ->. wp_step. rewrite take_app_le, take_ge by lia.
        rewrite u32_small by (unfold is_u32; lia).
        replace (u32 (u32 (a + t) + k)) with (a [+] (t + k)) in Ew by (rewrite u32_add_l; f_equal; lia).
        replace (n - t - k) with (n - (t + k)) in Ew by lia.
        destruct (write_outcome s (a [+] (t + k)) (n - (t + k))) as [o ok] eqn:Eo.
        split; [|lia]. split; [lia|].
        exists (user_bytes s (a [+] t) k ++ drop (Z.to_nat k) b), (out ++ user_bytes s (a [+] t) k).
        split; [rewrite length_app, length_drop; lia|]. split.
        -- unfold written. get_set. rewrite app_assoc. by destruct s.
        -- rewrite Ew. cbn [fst snd]. by rewrite app_assoc.
      * eval_status. wp_step. rewrite Ew. cbn [fst snd]. rewrite app_nil_r. split; [done|].
        exists b. split; [done|]. unfold written. by destruct s.
  - split; [lia|]. exists (syscall_copy_buffer s), []. split; [apply (ki_copy _ (ru_inv _ _ Hrun))|].
    rewrite Z.add_0_r, u32_small, Z.sub_0_r by done. split.
    + unfold written. rewrite app_nil_r. by destruct s.
    + cbn [app]. by destruct (write_outcome s a n).
Qed.

(** Every result is a 32-bit value, and at most one pid is consumed. *)
Definition call_ok (r : Z) (s' : kernel_state) : Prop :=
  is_u32 r /\ contained i s s' /\ next_pid (k_proc s) <= next_pid (k_proc s') <= next_pid (k_proc s) + 1.

Lemma call_ok_same r : is_u32 r -> call_ok r s.
Proof using Hrun. intros Hr. split; [done|]. split; [by apply contained_refl|lia]. Qed.

Lemma syscall_write_ok a n :
  is_u32 a -> is_u32 n ->
  wp (syscall_write a n) (fun r s' => call_ok r s' /\
    if (a =? 0) || (n =? 0) then r = 0 /\ s' = s
    else let '(out, ok) := write_outcome s a (Z.min n 4096) in
      r = (if ok then Z.min n 4096 else u32 KERNEL_ERROR_PERMISSION_DENIED) /\
      exists b, length b = 512%nat /\ s' = written b out) s.
Proof using Hrun.
  intros Ha Hn. unfold syscall_write. destruct ((a =? 0) || (n =? 0)) eqn:E0.
  { apply wp_ret. split; [|done]. apply call_ok_same. unfold is_u32. lia. }
  replace (if SYSCALL_WRITE_MAX_BYTES <? n then SYSCALL_WRITE_MAX_BYTES else n) with (Z.min n 4096)
    by (unfold SYSCALL_WRITE_MAX_BYTES; destruct (Z.ltb_spec 4096 n); lia).
  unfold is_u32 in Hn. eapply wp_mono; [apply syscall_write_loop; [done|lia]|].
  intros r s' (-> & b & Hb & ->). destruct (write_outcome s a (Z.min n 4096)) as [out ok]. cbn [fst snd].
  split; [|split; [done|by exists b]]. split; [destruct ok; [unfold is_u32; lia|apply u32_range]|].
  split; [by apply contained_buffer|]. unfold written. get_set. lia.
Qed.

(** ** Paths *)

(** The string argument of a call. *)
Definition user_text (n : nat) (a : Z) : Z + list Z :=
  if a =? 0 then inl KERNEL_ERROR_INVALID_ARGUMENT else user_string s n a.

Lemma lookup_result_cstr fs path : lookup_result fs path = lookup_result fs (cstr path).
Proof using.
  clear. unfold lookup_result, components.
  rewrite (fields_text is_slash path (cstr path)) by (symmetry; apply cstr_id, cstr_nonzero).
  replace (char_at (cstr path) 0) with (char_at path 0); [done|].
  destruct path as [|c r]; [done|]. cbn. by destruct (Z.eqb_spec c 0) as [->|].
Qed.

Lemma open_outcome_cstr fs files path : open_outcome fs files path = open_outcome fs files (cstr path).
Proof using. clear. unfold open_outcome. by rewrite (lookup_result_cstr fs path). Qed.

Context (p : process_t) (Ep : k_table s !! i = Some p).

Lemma syscall_open_ok path flags :
  is_u32 path ->
  wp (syscall_open path flags) (fun r s' => call_ok r s' /\
    match user_text 128 path with
    | inl status => r = u32 status /\ s' = s
    | inr text =>
        match open_outcome (k_vfs s) (p_files p) text with
        | inl status => r = u32 status /\ k_proc s' = k_proc s
        | inr (node, k) => r = Z.of_nat k /\
            k_proc s' = files_set (k_proc s) i p (<[k := opened_file node flags]> (p_files p))
        end
    end) s.
Proof using Hrun Ep.
  intros Ha. unfold syscall_open. wp_step.
  eapply wp_mono; [apply (copy_user_string_ok s i Hrun VFS_PATH_MAX); [done|unfold VFS_PATH_MAX; lia]|].
  intros [st d] s1 (-> & Hd & Hr). unfold user_text. cbn [fst snd] in *.
  change VFS_PATH_MAX with 128%nat in Hr, Hd.
  destruct (if path =? 0 then _ else _) as [st'|text].
  { destruct Hr as [-> Hst]. rewrite (proj2 (Z.eqb_neq _ _) Hst). apply wp_ret.
    split; [apply call_ok_same, u32_range|done]. }
  destruct Hr as [-> Et]. eval_status. wp_step.
  eapply wp_mono; [apply (fd_table_open_ok s (ru_inv _ _ Hrun) i p (ru_current _ _ Hrun) Ep); lia|].
  intros r s1 (Hq & Hinv & Ho). rewrite open_outcome_cstr, Et in Ho.
  destruct (open_outcome (k_vfs s) (p_files p) text) as [st|[node k]] eqn:Eo.
  - destruct Ho as (-> & Hst & Epr). rewrite (proj2 (Z.eqb_neq _ _) Hst). apply wp_ret.
    destruct (contained_quiet i s s1 p [] Hrun Hq Hinv Ep ltac:(by left)) as [Hc Hn].
    split; [split; [apply u32_range|split; [done|lia]]|done].
  - destruct Ho as (-> & Epr). eval_status. apply wp_ret.
    destruct (contained_quiet i s s1 p _ Hrun Hq Hinv Ep ltac:(by right)) as [Hc Hn].
    assert (k < 16)%nat.
    { unfold open_outcome in Eo. destruct (lookup_result _ _) as [? [?|]]; [|done].
      destruct (vfs_nodes _ !! _); [|done]. destruct (is_type _ _); [|done].
      destruct (free_slot (p_files p)) eqn:Ek; [|done]. injection Eo as _ ->.
      apply free_slot_bound in Ek. lia. }
    split; [split; [cbn; unfold is_u32; lia|split; [done|lia]]|done].
Qed.

Lemma syscall_close_ok fd :
  wp (syscall_close fd) (fun r s' => call_ok r s' /\
    match descriptor (p_files p) fd with
    | None => r = u32 KERNEL_ERROR_INVALID_ARGUMENT /\ k_proc s' = k_proc s
    | Some _ => r = KERNEL_OK /\
        k_proc s' = files_set (k_proc s) i p (<[Z.to_nat fd := closed_file]> (p_files p))
    end) s.
Proof using Hrun Ep.
  unfold syscall_close. wp_step.
  eapply wp_mono; [apply (fd_table_close_ok s (ru_inv _ _ Hrun) i p (ru_current _ _ Hrun) Ep)|].
  intros st s1 (Hq & Hinv & Hc). apply wp_ret.
  destruct (descriptor (p_files p) fd); destruct Hc as [-> Epr];
    [destruct (contained_quiet i s s1 p _ Hrun Hq Hinv Ep ltac:(by right)) as [Hc Hn]
    |destruct (contained_quiet i s s1 p [] Hrun Hq Hinv Ep ltac:(by left)) as [Hc Hn]];
    (split; [split; [apply u32_range|split; [done|lia]]|done]).
Qed.

(** ** Calls that write to user memory *)

(** Copying a kernel array to the user, as the end of a call. *)
Lemma copy_out_contained s1 dest source len :
  contained i s s1 -> is_u32 dest -> 0 <= len <= Z.of_nat (length source) -> len < 4294967296 ->
  wp (syscall_copy_to_user dest source len) (fun status s' => contained i s s' /\ k_proc s' = k_proc s1 /\
    if (len =? 0) || syscall_user_buffer_is_valid dest len then status = KERNEL_OK /\
      filled (kmem s1) (user_phys s dest) (take (Z.to_nat len) source) (kmem s')
    else status = KERNEL_ERROR_PERMISSION_DENIED /\ kmem s' = kmem s1) s1.
Proof using.
  clear. intros Hc Hd Hl Hu. destruct (Z.eqb_spec len 0) as [->|Hl0]; cbn [orb].
  { unfold syscall_copy_to_user. cbn [Z.eqb]. apply wp_ret. split; [done|]. split; [done|].
    split; [done|]. apply filled_nil. }
  pose proof (ct_running _ _ _ Hc) as Hrun1.
  eapply wp_mono; [apply (copy_to_user_ok s1 i Hrun1); [done|lia|lia]|]. intros st s' H.
  destruct (syscall_user_buffer_is_valid dest len) eqn:Ev; [|by destruct H as [-> ->]].
  destruct H as (-> & m' & Hf & -> & _).
  replace (user_phys s1 dest) with (user_phys s dest) in Hf
    by (unfold user_phys; by rewrite (ct_ring3 _ _ _ Hc)).
  split; [|done]. eapply contained_trans; [exact Hc|]. apply contained_write; [done|].
  apply user_buffer_valid_spec in Ev; [|done|unfold is_u32; lia].
  intros a Ha. apply Hf. rewrite length_take.
  destruct (decide (user_phys s dest <= a < user_phys s dest + len)) as [Hr|Hr]; [|lia]. exfalso. apply Ha.
  unfold user_byte. rewrite (ct_ring3 _ _ _ Hc). fold (user_byte s a).
  replace a with (user_phys s (dest + (a - user_phys s dest))) by (rewrite (user_phys_add s dest len) by (done || lia); lia).
  apply user_phys_byte.
Qed.

Lemma valid_shorter a n k :
  is_u32 a -> is_u32 n -> 0 < k <= n -> syscall_user_buffer_is_valid a n = true ->
  syscall_user_buffer_is_valid a k = true.
Proof using.
  clear. intros Ha Hn Hk Hv. unfold is_u32 in *. apply user_buffer_valid_spec in Hv; [|done|done].
  apply user_buffer_valid_spec; [done|unfold is_u32; lia|].
  replace a with (a + 0) by lia. by apply (user_range_sub _ n); [|lia..].
Qed.

Lemma syscall_read_ok fd buffer len :
  is_u32 buffer -> is_u32 len ->
  wp (syscall_read fd buffer len) (fun r s' => call_ok r s' /\
    if len =? 0 then r = 0 /\ s' = s
    else if negb (syscall_user_buffer_is_valid buffer (Z.min len 512)) then
      r = u32 KERNEL_ERROR_PERMISSION_DENIED /\ s' = s
    else match descriptor (p_files p) fd with
    | None => r = u32 KERNEL_ERROR_INVALID_ARGUMENT /\ k_proc s' = k_proc s /\ kmem s' = kmem s
    | Some f => exists n, k_nodes s !! file_node f = Some n /\
        r = read_length n (file_offset f) (Z.min len 512) /\
        filled (kmem s) (user_phys s buffer) (read_bytes n (file_offset f) (Z.min len 512)) (kmem s') /\
        k_proc s' = files_set (k_proc s) i p
          (<[Z.to_nat fd := f <| file_offset := file_offset f + r |>]> (p_files p))
    end) s.
Proof using Hrun Ep.
  intros Hb Hl. unfold syscall_read. destruct (Z.eqb_spec len 0) as [->|Hl0].
  { apply wp_ret. split; [|done]. apply call_ok_same. unfold is_u32. lia. }
  replace (if SYSCALL_COPY_CHUNK_MAX <? len then SYSCALL_COPY_CHUNK_MAX else len) with (Z.min len 512)
    by (unfold SYSCALL_COPY_CHUNK_MAX; destruct (Z.ltb_spec 512 len); lia).
  set (m := Z.min len 512). assert (Hm : is_u32 m /\ 0 < m <= 512) by (unfold is_u32 in *; lia).
  destruct (syscall_user_buffer_is_valid buffer m) eqn:Ev; cbn [negb].
  2:{ apply wp_ret. split; [|done]. apply call_ok_same, u32_range. }
  pose proof (ki_copy _ (ru_inv _ _ Hrun)) as Hcopy. do 3 wp_step.
  eapply wp_mono; [apply (fd_table_read_ok s (ru_inv _ _ Hrun) i p (ru_current _ _ Hrun) Ep); [apply Hm|lia]|].
  intros r s1 (Hq & Hinv & Hr). destruct (descriptor (p_files p) fd) as [f|] eqn:Ed.
  2:{ destruct Hr as [-> Epr]. wp_step. wp_step. eval_status. wp_step.
      destruct (contained_quiet i s s1 p [] Hrun Hq Hinv Ep ltac:(by left)) as [Hc Hn].
      replace (s1 <| syscall_copy_buffer := _ |>) with s1
        by (change (default [] (Some ?x)) with x; rewrite <- (q_copy _ _ Hq); by destruct s1).
      split; [split; [apply u32_range|split; [done|lia]]|].
      split; [done|]. split; [done|]. unfold kmem. by rewrite (q_vmm _ _ Hq). }
  destruct Hr as (n & En & -> & Epr). set (k := read_length n (file_offset f) m) in *.
  destruct (descriptor_node s (ru_inv _ _ Hrun) i p Ep _ _ Ed) as (Ho & n' & En' & _ & Hn & _).
  assert (n' = n) as -> by congruence. unfold is_u32 in Ho, Hm.
  pose proof (read_length_bound n (file_offset f) m ltac:(lia)) as Hk. fold k in Hk.
  pose proof (read_bytes_length _ n (file_offset f) m Hn ltac:(lia) ltac:(lia)) as Hrl. fold k in Hrl.
  destruct (contained_quiet i s s1 p _ Hrun Hq Hinv Ep ltac:(by right)) as [Hc Hnx].
  wp_step. wp_step. eval_status. change (default [] (Some ?x)) with x. wp_step.
  set (b := read_bytes _ _ _ ++ _). set (s2 := set_field syscall_copy_buffer _ s1).
  assert (Hbl : length b = 512%nat) by (subst b; rewrite length_app, length_drop; lia).
  assert (Hc2 : contained i s s2).
  { eapply contained_trans; [exact Hc|].
    pose proof (contained_buffer s1 i b [] (ct_running _ _ _ Hc) Hbl) as H. rewrite app_nil_r in H.
    replace s2 with (s1 <| syscall_copy_buffer := b |> <| console := console s1 |>) by (subst s2; by destruct s1).
    exact H. }
  eapply wp_mono; [apply copy_out_contained; [exact Hc2|done|lia|lia]|].
  intros st s3 (Hc3 & Ep3 & H3). change (k_proc s2) with (k_proc s1) in Ep3.
  assert ((k =? 0) || syscall_user_buffer_is_valid buffer k = true) as Hv.
  { destruct (Z.eqb_spec k 0); [done|]. apply (valid_shorter _ m); unfold is_u32; (done || lia). }
  rewrite Hv in H3. destruct H3 as [-> Hf]. eval_status. apply wp_ret.
  split; [split; [unfold is_u32; lia|split; [done|rewrite Ep3; lia]]|]. exists n. split; [done|]. split; [done|].
  split; [|by rewrite Ep3, Epr]. replace (kmem s2) with (kmem s) in Hf by (unfold kmem; by rewrite <- (q_vmm _ _ Hq)).
  subst b. rewrite take_app_le, take_ge in Hf by lia. exact Hf.
Qed.

Definition node_stat (n : vfs_node_t) : vfs_stat_t :=
  {| stat_type := vfs_node_type_value (vn_type n); stat_size := vn_size n; stat_mode := vn_mode n;
     stat_flags := vn_flags n; stat_child_count := vn_child_count n |}.

(** [vfs_stat_path] is a lookup and a copy of the fields. *)
Lemma kernel_stat_ok path (Q : Z * option vfs_stat_t -> kernel_state -> Prop) :
  Z.of_nat (length path) < 4294967296 ->
  (forall s', quiet s s' -> k_proc s' = k_proc s ->
     Q (match lookup_result (k_vfs s) path with
        | (_, Some node) => (KERNEL_OK, node_stat <$> (k_nodes s !! node))
        | (st, None) => (st, None)
        end) s') ->
  wp (on_files (vfs_stat_path (Some path) true)) Q s.
Proof using Hrun.
  intros Hl HQ. pose proof (ki_fs _ (ru_inv _ _ Hrun)) as Hfs. pose proof Hfs as [Ht Hi Hr].
  apply wp_on_files. unfold vfs_stat_path. wp_step.
  eapply wp_mono; [apply vfs_lookup_ok; first [done|by right]|]. intros r v' [-> ->].
  set (v1 := set_field vfs_info _ _).
  assert (Hq : quiet s (with_vfs v1 s)).
  { constructor; try done. unfold with_vfs, k_vfs. get_set. unfold v1, looked_up. get_set. by destruct (_ =? _). }
  destruct (lookup_result (k_vfs s) path) as [st [node|]] eqn:El.
  - destruct (lookup_result_node _ _ _ _ Hfs El) as [-> [n En]]. eval_status.
    change (default 0 (Some node)) with node. unfold vfs_stat_node, vfs_set_last_status, vinfo.
    rewrite (proj2 (Z.eqb_neq node 0)) by (intros ->; by rewrite (proj1 Ht) in En). cbn [negb orb].
    wp_step. apply (wp_node_at _ _ n); [done|]. wp_steps. specialize (HQ (with_vfs (v1 <| vfs_info ::= fun i => i <| vfs_last_status := KERNEL_OK |> |>) s)).
    rewrite En in HQ. apply HQ; [|done]. destruct Hq; constructor; done.
  - rewrite (lookup_result_status _ _ _ El). cbn [negb]. apply wp_ret. by apply HQ.
Qed.

Lemma syscall_stat_ok path out_stat :
  is_u32 path -> is_u32 out_stat ->
  wp (syscall_stat path out_stat) (fun r s' => call_ok r s' /\ k_proc s' = k_proc s /\
    match user_text 128 path with
    | inl status => r = u32 status /\ s' = s
    | inr text =>
        match lookup_result (k_vfs s) text with
        | (status, None) => r = u32 status /\ kmem s' = kmem s
        | (_, Some node) => exists n, k_nodes s !! node = Some n /\
            if syscall_user_buffer_is_valid out_stat 20 then r = KERNEL_OK /\
              filled (kmem s) (user_phys s out_stat) (stat_bytes (node_stat n)) (kmem s')
            else r = u32 KERNEL_ERROR_PERMISSION_DENIED /\ kmem s' = kmem s
        end
    end) s.
Proof using Hrun Ep.
  intros Ha Hos. unfold syscall_stat. wp_step.
  eapply wp_mono; [apply (copy_user_string_ok s i Hrun VFS_PATH_MAX); [done|unfold VFS_PATH_MAX; lia]|].
  intros [st d] s1 (-> & Hd & Hr). unfold user_text. cbn [fst snd] in *.
  change VFS_PATH_MAX with 128%nat in Hr, Hd.
  destruct (if path =? 0 then _ else _) as [st'|text].
  { destruct Hr as [-> Hst]. rewrite (proj2 (Z.eqb_neq _ _) Hst). apply wp_ret.
    split; [apply call_ok_same, u32_range|done]. }
  destruct Hr as [-> Et]. eval_status. wp_step. apply kernel_stat_ok; [lia|]. intros s1 Hq Epr.
  rewrite lookup_result_cstr, Et.
  assert (Hinv : kernel_inv s1) by (by apply (kernel_inv_same s); [apply Hrun| |]).
  destruct (contained_quiet i s s1 p [] Hrun Hq Hinv Ep ltac:(by left)) as [Hc Hn].
  destruct (lookup_result (k_vfs s) text) as [st [node|]] eqn:El.
  - destruct (lookup_result_node _ _ _ _ (ki_fs _ (ru_inv _ _ Hrun)) El) as [-> [n En]].
    change (vfs_nodes (k_vfs s)) with (k_nodes s) in En. rewrite En. cbn [fmap option_fmap option_map].
    eval_status. wp_step. eapply wp_mono; [apply copy_out_contained; [exact Hc|done|done|done]|].
    intros st s2 (Hc2 & Ep2 & H2). apply wp_ret. change (take (Z.to_nat sizeof_vfs_stat) ?x) with x in H2.
    change ((sizeof_vfs_stat =? 0) || ?b) with b in H2. change sizeof_vfs_stat with 20 in H2.
    assert (Ek : kmem s1 = kmem s) by (unfold kmem; by rewrite (q_vmm _ _ Hq)). rewrite Ek in H2.
    split; [split; [apply u32_range|split; [done|rewrite Ep2, Epr; lia]]|]. split; [by rewrite Ep2|].
    exists n. split; [done|]. destruct (syscall_user_buffer_is_valid out_stat 20); by destruct H2 as [-> H2].
  - wp_step. split; [split; [apply u32_range|split; [done|lia]]|]. split; [done|]. split; [done|].
    unfold kmem. by rewrite (q_vmm _ _ Hq).
Qed.

(** ** Arguments *)

Lemma syscall_get_arg_ok index buffer len :
  is_u32 index -> is_u32 buffer -> is_u32 len ->
  wp (syscall_get_arg index buffer len) (fun r s' => call_ok r s' /\ k_proc s' = k_proc s /\
    if len =? 0 then r = u32 KERNEL_ERROR_INVALID_ARGUMENT /\ s' = s
    else if p_argc p <=? index then r = u32 KERNEL_ERROR_NOT_FOUND /\ s' = s
    else exists row, p_argv p !! Z.to_nat index = Some row /\
      let n := Z.of_nat (length (cstr row)) in
      if Z.min len 64 <=? n then r = u32 KERNEL_ERROR_UNSUPPORTED /\ s' = s
      else if syscall_user_buffer_is_valid buffer (n + 1) then
        r = n /\ filled (kmem s) (user_phys s buffer) (cstr row ++ [0]) (kmem s')
      else r = u32 KERNEL_ERROR_PERMISSION_DENIED /\ kmem s' = kmem s) s.
Proof using Hrun Ep.
  intros Hi Hb Hl. pose proof (contained_refl i s Hrun) as Hc0.
  pose proof (Forall_lookup_1 _ _ _ _ (pv_wf _ (ki_proc _ (ru_inv _ _ Hrun))) Ep) as Hw.
  assert (Hsame : forall st, call_ok (u32 st) s /\ k_proc s = k_proc s)
    by (intros st; split; [apply call_ok_same, u32_range|done]).
  unfold syscall_get_arg. destruct (Z.eqb_spec len 0) as [->|Hl0].
  { apply wp_ret. apply and_join; [apply Hsame|done]. }
  wp_step. apply wp_on_proc. unfold process_get_current_argument. wp_step. wp_step.
  rewrite (ru_current _ _ Hrun). cbn [negb orb]. change (Z.of_nat PROCESS_ARGUMENT_MAX) with 64. cbn [Z.eqb].
  wp_step. apply (wp_proc_at _ p); [done|].
  destruct (Z.leb_spec (p_argc p) index) as [Hge|Hlt].
  { wp_step. eval_status. rewrite with_proc_self. wp_step. apply and_join; [apply Hsame|done]. }
  pose proof (pw_argc _ Hw). unfold is_u32 in Hi, Hl.
  destruct (lookup_lt_is_Some_2 (p_argv p) (Z.to_nat index)) as [row Er]; [rewrite (pw_argv _ Hw); lia|].
  pose proof (Forall_lookup_1 _ _ _ _ (pw_rows _ Hw) Er) as Hrl. cbv beta in Hrl.
  wp_step. apply (wp_array_at _ _ row); [done|].
  pose proof (until_length (fun c => c =? 0) row) as Hcl. rewrite until_cstr in Hcl.
  set (n := Z.of_nat (length (cstr row))). rewrite string_length_cstr. fold n.
  rewrite (u32_small n), (u32_small (n + 1)) by (unfold is_u32; lia).
  destruct (Z.ltb_spec 64 (n + 1)).
  { wp_step. eval_status. rewrite with_proc_self. wp_step. apply and_join; [apply Hsame|].
    exists row. split; [done|]. fold n. cbv zeta. by rewrite (proj2 (Z.leb_le _ _)) by lia. }
  wp_step. eval_status. rewrite with_proc_self. change (default 0 (Some n)) with n.
  rewrite (u32_small (n + 1)) by (unfold is_u32; lia). destruct (Z.ltb_spec len (n + 1)).
  { wp_step. apply and_join; [apply Hsame|].
    exists row. split; [done|]. fold n. cbv zeta. by rewrite (proj2 (Z.leb_le _ _)) by lia. }
  change (default [] (Some ?x)) with x. change (Z.to_nat 64) with 64%nat. change PROCESS_ARGUMENT_MAX with 64%nat.
  rewrite string_copy_eq by (first [lia|apply length_replicate]). rewrite (take_ge (cstr row)) by lia.
  wp_step. eapply wp_mono; [apply copy_out_contained; [exact Hc0|done| |lia]|].
  { rewrite length_app. cbn [length]. rewrite length_drop. lia. }
  intros st s2 (Hc2 & Ep2 & H2). rewrite (proj2 (Z.eqb_neq (n + 1) 0)) in H2 by lia. cbn [orb] in H2.
  assert (Hok : forall r, is_u32 r -> call_ok r s2 /\ k_proc s2 = k_proc s).
  { intros r Hr. split; [|done]. split; [done|]. split; [done|]. rewrite Ep2. lia. }
  assert (Hle : (Z.min len 64 <=? n) = false) by (apply Z.leb_gt; lia).
  destruct (syscall_user_buffer_is_valid buffer (n + 1)) eqn:Ev; destruct H2 as [-> H2]; eval_status; apply wp_ret;
    (apply and_join; [apply Hok; first [apply u32_range|unfold is_u32; lia]|]); exists row; (split; [done|]);
    fold n; cbv zeta; rewrite Hle, Ev; split; try done.
  replace (take (Z.to_nat (n + 1)) _) with (cstr row ++ [0]) in H2; [done|].
  replace (Z.to_nat (n + 1)) with (length (cstr row) + 1)%nat by lia.
  by rewrite take_app_add.
Qed.
End Calls.
