(* ===== verification/ExecProofs.v ===== *)
(** * Creating processes from registered images (core/user_image.c, core/exec.c) *)
From S2P Require Import Prelude Mem KString Boot Pmm Vmm Pages Vfs Initramfs VfsProofs Process ProcessProofs KState FdTable.
From S2P Require Import Ring3 Loader Syscall UserMem Ring3Proofs KernelInv FdProofs UserCopy SyscallProofs.

(** What a registration resolves to: a regular file, or a status. *)
Definition registered_node (fs : vfs_state) (reg : registered_user_image_t) : Z + Z :=
  match lookup_result fs (reg_path reg) with
  | (_, Some node) =>
      match vfs_nodes fs !! node with
      | Some n => if is_type n VFS_NODE_FILE then inr node else inl KERNEL_ERROR_INVALID_STATE
      | None => inl KERNEL_ERROR_INVALID_STATE
      end
  | (status, None) => inl status
  end.

Lemma registered_node_file fs reg node :
  registered_node fs reg = inr node ->
  exists n, vfs_nodes fs !! node = Some n /\ vn_type n = VFS_NODE_FILE.
Proof.
  unfold registered_node. destruct (lookup_result fs _) as [st [q|]]; [|done].
  destruct (vfs_nodes fs !! q) as [n|] eqn:En; [|done].
  destruct (is_type n VFS_NODE_FILE) eqn:Et; [|done]. intros [= <-]. exists n. split; [done|].
  by apply bool_decide_eq_true in Et.
Qed.

Lemma registered_node_status fs reg st : registered_node fs reg = inl st -> (st =? KERNEL_OK) = false.
Proof.
  unfold registered_node. destruct (lookup_result fs _) as [st' [q|]] eqn:El.
  - destruct (vfs_nodes fs !! q); [destruct (is_type _ _)|]; by intros [= <-].
  - intros [= <-]. by eapply lookup_result_status.
Qed.

(** The paths of the table are short. *)
Lemma registered_paths : Forall (fun r => Z.of_nat (length (reg_path r)) < 4294967296 /\
  Z.of_nat (length (reg_name r)) <= 31) registered_images.
Proof. repeat (constructor; [done|]). constructor. Qed.

Lemma find_registration_in path reg : find_registration path = Some reg ->
  reg ∈ registered_images /\ cstr path = cstr (reg_path reg).
Proof.
  intros H. apply find_some in H as [Hin He]. split; [by apply list_elem_of_In|].
  rewrite string_equals_spec in He. by apply bool_decide_eq_true in He.
Qed.

Lemma resolve_registered_ok s reg (Q : Z * option Z -> kernel_state -> Prop) :
  fs_ok (k_vfs s) -> reg ∈ registered_images ->
  (forall s', quiet s s' -> k_proc s' = k_proc s ->
     Q (match registered_node (k_vfs s) reg with
        | inr node => (KERNEL_OK, Some node)
        | inl st => (st, None)
        end) s') ->
  wp (user_image_resolve_registered_node reg) Q s.
Proof.
  intros Hfs Hin HQ. destruct (proj1 (Forall_forall _ _) registered_paths reg Hin) as [Hl _].
  unfold user_image_resolve_registered_node. wp_step. apply kernel_lookup_ok; [done|done|].
  intros s1 Hq Ep _. specialize (HQ s1 Hq Ep). unfold registered_node in HQ.
  destruct (lookup_result (k_vfs s) (reg_path reg)) as [st [node|]] eqn:El.
  - destruct (lookup_result_node _ _ _ _ Hfs El) as [-> [n En]]. eval_status. rewrite En in HQ.
    change (default 0 (Some node)) with node. wp_step.
    rewrite (proj2 (Z.eqb_neq node 0)) by (intros ->; by rewrite (proj1 (fs_tree _ Hfs)) in En).
    wp_step. apply (wp_kernel_node _ n); [by rewrite (q_nodes _ _ Hq)|]. wp_step.
    destruct (is_type n VFS_NODE_FILE); by apply wp_ret.
  - rewrite (lookup_result_status _ _ _ El). by apply wp_ret.
Qed.

Lemma user_image_lookup_ok s path (Q : Z * option user_image_t -> kernel_state -> Prop) :
  fs_ok (k_vfs s) ->
  (forall s', quiet s s' -> k_proc s' = k_proc s ->
     match find_registration path with
     | None => Q (KERNEL_ERROR_NOT_FOUND, None) s'
     | Some reg =>
         match registered_node (k_vfs s) reg with
         | inr node => exists n, vfs_nodes (k_vfs s) !! node = Some n /\
             Q (KERNEL_OK, Some (described_image reg RING3_USER_CODE_VIRTUAL RING3_USER_STACK_VIRTUAL (vn_size n))) s'
         | inl st => Q (st, None) s'
         end
     end) ->
  wp (user_image_lookup (Some path) true) Q s.
Proof.
  intros Hfs HQ. unfold user_image_lookup, note_image_request, image_not_found, image_info. cbn [negb].
  wp_step. wp_step. set (s1 := set_field user_image_info _ s).
  assert (Hq1 : quiet s s1) by done.
  destruct (find_registration path) as [reg|] eqn:Er; [|by wp_steps; apply HQ].
  destruct (find_registration_in _ _ Er) as [Hin _]. wp_step.
  apply resolve_registered_ok; [done|done|]. intros s2 Hq2 Ep2.
  assert (Hq : quiet s s2) by (by etrans). change (k_proc s1) with (k_proc s) in Ep2.
  change (registered_node (k_vfs s1)) with (registered_node (k_vfs s)).
  destruct (registered_node (k_vfs s) reg) as [st|node] eqn:Erg.
  - rewrite (registered_node_status _ _ _ Erg). cbn [negb]. wp_steps. apply HQ; [|done].
    destruct Hq; constructor; done.
  - eval_status. change (default 0 (Some node)) with node.
    destruct (registered_node_file _ _ _ Erg) as (n & En & _).
    wp_step. apply (wp_kernel_node _ n); [by rewrite (q_nodes _ _ Hq)|]. wp_steps.
    edestruct HQ as (n' & En' & HQ'); [| |rewrite En in En'; injection En' as <-; exact HQ']; [|done].
    destruct Hq; constructor; done.
Qed.

(** ** exec_create_with_args *)

(** The process that [exec_create_with_args] leaves in a slot. *)
Record created_process (reg : registered_user_image_t) (path line : list Z) (pid : Z) (p : process_t) : Prop := {
  cp_wf : proc_wf p;
  cp_pid : p_pid p = pid;
  cp_state : p_state p = PROCESS_READY;
  cp_name : cstr (p_name p) = cstr (reg_name reg);
  cp_path : cstr (p_image_path p) = take 63 (cstr path);
  cp_entry : p_entry p = RING3_USER_CODE_VIRTUAL /\ p_user_stack p = RING3_USER_STACK_VIRTUAL;
  cp_argc : p_argc p = 1 + Z.of_nat (length (argument_words line));
  cp_argv : cstr <$> p_argv p = cstr (reg_name reg) :: argument_words line ++
              replicate (7 - length (argument_words line)) [];
  cp_files : p_files p = replicate 16 closed_file
}.

Definition with_path (path : list Z) (p : process_t) : process_t :=
  p <| p_image_path ::= fun old => string_copy old path 64 |>.

Lemma with_path_wf path p : proc_wf p -> proc_wf (with_path path p).
Proof. intros []. constructor; try done. unfold with_path. get_set. by rewrite string_copy_length. Qed.

Lemma configure_path_ok ps j p path :
  process_table ps !! j = Some p ->
  wp (process_configure_image_path (Some j) (Some path)) (fun status ps' => status = KERNEL_OK /\
    ps' = ps <| process_table := <[j := with_path path p]> (process_table ps) |>) ps.
Proof.
  intros Ep. unfold process_configure_image_path, upd_proc. wp_steps. split; [done|].
  by rewrite (upd_state _ _ p).
Qed.

(** Why no process was created. *)
Definition create_refused (s : kernel_state) (path : list Z) (status : Z) : Prop :=
  match find_registration path with
  | None => status = KERNEL_ERROR_NOT_FOUND
  | Some reg =>
      match registered_node (k_vfs s) reg with
      | inl st => status = st
      | inr _ => status = KERNEL_ERROR_OUT_OF_MEMORY /\ forall j q, k_table s !! j = Some q -> active q = true
      end
  end.

Definition create_outcome (s : kernel_state) (path line : list Z) (r : Z * option nat) (s' : kernel_state) : Prop :=
  current_process (k_proc s') = current_process (k_proc s) /\
  match r with
  | (status, None) => status <> KERNEL_OK /\ create_refused s path status /\
      k_table s' = k_table s /\ next_pid (k_proc s') = next_pid (k_proc s)
  | (status, Some j) => status = KERNEL_OK /\ next_pid (k_proc s') = next_pid (k_proc s) + 1 /\
      exists reg q p', find_registration path = Some reg /\ k_table s !! j = Some q /\ active q = false /\
        k_table s' = <[j := p']> (k_table s) /\ created_process reg path line (next_pid (k_proc s)) p'
  end.

Lemma exec_create_ok s path arguments :
  kernel_inv s -> next_pid (k_proc s) < 4294967295 -> Z.of_nat (length (default [] arguments)) < 4294967296 ->
  wp (exec_create_with_args (Some path) arguments true) (fun r s' => quiet s s' /\ kernel_inv s' /\
    create_outcome s path (default [] arguments) r s') s.
Proof.
  intros Hinv Hnext Hlen. unfold exec_create_with_args, exec_fail, ex_info. cbn [negb].
  wp_step. wp_step. set (s1 := set_field exec_info _ s).
  assert (Hq1 : quiet s s1) by done. assert (Ep1 : k_proc s1 = k_proc s) by done.
  wp_step. apply user_image_lookup_ok; [apply (ki_fs _ Hinv)|]. intros s2 Hq12 Ep12.
  assert (Hq2 : quiet s s2) by (by etrans). rewrite Ep1 in Ep12.
  assert (Hfail : forall st s', quiet s s' -> k_proc s' = k_proc s -> st <> KERNEL_OK ->
    create_refused s path st -> quiet s s' /\ kernel_inv s' /\ create_outcome s path (default [] arguments) (st, None) s').
  { intros st s' Hq Ep Hst Href. split; [done|]. split; [by apply (kernel_inv_same s)|].
    split; rewrite Ep; done. }
  change (k_vfs s1) with (k_vfs s). unfold create_refused in Hfail.
  destruct (find_registration path) as [reg|] eqn:Er.
  2:{ wp_steps. apply Hfail; [|done..]. destruct Hq2; constructor; done. }
  destruct (registered_node (k_vfs s) reg) as [st|node] eqn:Erg.
  { wp_steps. apply Hfail; [|done| |done].
    - destruct Hq2; constructor; done.
    - pose proof (registered_node_status _ _ _ Erg). by apply Z.eqb_neq. }
  destruct (registered_node_file _ _ _ Erg) as (n & En & Ht). exists n. split; [done|]. eval_status.
  wp_step. apply wp_on_proc. rewrite Ep12.
  eapply wp_mono; [apply process_create_ok; [apply Hinv|done]|].
  intros [st [j|]] ps (Hps & Hcur & Hcase).
  2:{ destruct Hcase as (Etab & Enx & -> & Hfull). wp_steps.
      set (s3 := set_field exec_info _ _). assert (Hq3 : quiet s s3) by (destruct Hq2; constructor; done).
      split; [done|]. split.
      - apply (kernel_inv_quiet s); [done|done|done|]. change (k_table s3) with (process_table ps).
        rewrite Etab. apply Hinv.
      - split; [done|]. unfold create_refused. rewrite Er, Erg. done. }
  destruct Hcase as (-> & Enx & q & Eq & Hqa & _ & Etab). set (f := fresh_process _ _ _ _ q) in Etab.
  assert (Hj : (j < length (k_table s))%nat) by (by eapply lookup_lt_Some).
  assert (Hqw : proc_wf q) by (exact (Forall_lookup_1 _ _ _ _ (pv_wf _ (ki_proc _ Hinv)) Eq)).
  assert (Hfw : proc_wf f) by (by apply fresh_process_wf).
  assert (Ef : process_table ps !! j = Some f) by (rewrite Etab; by apply list_lookup_insert_eq).
  wp_step. apply wp_on_proc. get_set. eapply wp_mono; [by apply (configure_path_ok _ _ f)|].
  intros st ps2 [-> ->]. wp_step. apply (wp_kernel_proc _ (with_path path f)).
  { get_set. apply list_lookup_insert_eq. by rewrite Etab, length_insert. }
  eval_status. wp_step. apply wp_on_proc. get_set.
  set (ps2 := set_field process_table _ ps).
  assert (E2 : process_table ps2 !! j = Some (with_path path f)).
  { subst ps2. get_set. apply list_lookup_insert_eq. by rewrite Etab, length_insert. }
  assert (Hps2 : process_inv ps2) by (apply (process_inv_update _ _ f); try done; by apply with_path_wf).
  replace (process_configure_arguments (Some j) arguments)
    with (process_configure_arguments (Some j) (Some (default [] arguments))) by (by destruct arguments).
  eapply wp_mono; [apply (process_configure_arguments_ok ps2 j (with_path path f)); [done|by apply with_path_wf|done]|].
  intros st ps3 (-> & p' & Hw' & -> & Ep' & Hargc & Hargv).
  assert (Hj2 : (j < length (process_table ps2))%nat) by (by eapply lookup_lt_Some).
  wp_step. apply (wp_kernel_proc _ p').
  { get_set. by apply list_lookup_insert_eq. }
  eval_status. wp_steps. set (s3 := set_field exec_info _ _).
  assert (Hq3 : quiet s s3) by (destruct Hq2; constructor; done).
  assert (Etab3 : k_table s3 = <[j := p']> (k_table s)).
  { change (k_table s3) with (<[j := p']> (<[j := with_path path f]> (process_table ps))).
    by rewrite Etab, !list_insert_insert_eq. }
  assert (Efiles : p_files p' = replicate 16 closed_file) by (by rewrite Ep').
  split; [done|]. split.
  - apply (kernel_inv_quiet s); [done|done| |].
    + apply (process_inv_update ps2 j (with_path path f)); try done; rewrite Ep'; done.
    + rewrite Etab3. apply Forall_insert; [apply Hinv|]. rewrite Efiles. by apply Forall_replicate.
  - split; [done|]. split; [done|]. split; [done|]. exists reg, q, p'.
    split; [done|]. split; [done|]. split; [done|]. split; [done|].
    destruct (find_registration_in _ _ Er) as [Hin _].
    destruct (proj1 (Forall_forall _ _) registered_paths reg Hin) as [_ Hnm].
    assert (Hname : cstr (p_name (with_path path f)) = cstr (reg_name reg)).
    { change (p_name (with_path path f)) with (string_copy (p_name q) (reg_name reg) 32).
      destruct (string_copy_text (p_name q) (reg_name reg) 32) as (_ & -> & _); [lia|apply Hqw|].
      apply take_ge. pose proof (until_length (fun c => c =? 0) (reg_name reg)) as Hu.
      rewrite until_cstr in Hu. lia. }
    constructor; try (rewrite Ep'; done); try done.
    + rewrite Ep'. change (cstr (string_copy (replicate 64 0) path 64) = take 63 (cstr path)).
      by destruct (string_copy_text (replicate 64 0) path 64) as (_ & -> & _); [lia|apply length_replicate|].
    + by rewrite Hargv, Hname.
Qed.

(** The outcome depends on the texts only. *)
Lemma create_outcome_text s path path' line line' r s' :
  cstr path = cstr path' -> argument_words line = argument_words line' ->
  create_outcome s path line r s' -> create_outcome s path' line' r s'.
Proof.
  intros Ec Ea [Hcur H]. split; [done|].
  assert (find_registration path = find_registration path') as Er.
  { unfold find_registration. induction registered_images as [|g l IH]; [done|]. cbn [find].
    rewrite !string_equals_spec, Ec, IH. done. }
  destruct r as [st [j|]].
  - destruct H as (H1 & H2 & reg & q & p' & H3 & H4 & H5 & H6 & []). split; [done|]. split; [done|].
    exists reg, q, p'. rewrite <- Er. split; [done|]. split; [done|]. split; [done|]. split; [done|].
    constructor; try done; rewrite <- ?Ec, <- ?Ea; done.
  - unfold create_refused in *. by rewrite <- Er.
Qed.

Lemma trim_left_cstr l : cstr (string_trim_left (cstr l)) = cstr (string_trim_left l).
Proof.
  rewrite (string_trim_left_skip l), (string_trim_left_skip (cstr l)). induction l as [|c l IH]; [done|]. cbn [cstr].
  destruct (Z.eqb_spec c 0) as [->|Hc]; [done|]. cbn [skip].
  destruct (is_blank c); [done|]. cbn [cstr]. rewrite (proj2 (Z.eqb_neq c 0)) by done.
  f_equal. apply cstr_id, cstr_nonzero.
Qed.

Lemma argument_words_cstr l : argument_words (cstr l) = argument_words l.
Proof. unfold argument_words. by rewrite trim_left_cstr. Qed.
