(* ===== verification/SyscallTheorems.v ===== *)
(** * The system call interface

    [syscall_dispatch] returns for every number and every arguments, and what it
    changes is confined. *)
From S2P Require Import Prelude Mem KString Boot Pmm Vmm Pages Vfs Initramfs VfsProofs Process ProcessProofs KState FdTable.
From S2P Require Import Ring3 Loader Syscall UserMem Ring3Proofs KernelInv FdProofs UserCopy SyscallProofs ExecProofs.

(** ** exec *)

Lemma contained_create i s s' path line r :
  running s i -> quiet s s' -> kernel_inv s' -> create_outcome s path line r s' ->
  contained i s s' /\ next_pid (k_proc s) <= next_pid (k_proc s') <= next_pid (k_proc s) + 1.
Proof.
  intros Hrun Hq Hinv [Hcur Hr]. destruct (running_self s i Hrun) as (p & Ep & Ha).
  destruct (contained_refl i s Hrun) as [_ [m [Em Hm]] _ _ _ _ _ _ _].
  assert (Hkeep : forall j q, k_table s !! j = Some q -> active q = true -> k_table s' !! j = Some q).
  { intros j q Eq Haq. destruct r as [st [k|]]; [|by destruct Hr as (_ & _ & -> & _)].
    destruct Hr as (_ & _ & reg & q0 & p' & _ & Eq0 & Hq0 & -> & _).
    rewrite list_lookup_insert_ne; [done|]. intros ->. congruence. }
  split; [|destruct r as [st [k|]]; lia].
  destruct Hq as [Ev En Er _ _ Ei _ Eo Et _ _]. constructor; try done.
  - constructor; [done|by rewrite Ei; apply Hrun|]. rewrite Hcur. apply Hrun.
  - exists m. by rewrite Ev.
  - intros j q _. apply Hkeep.
  - exists p, p. split; [done|]. split; [by apply Hkeep|done].
  - exists []. by rewrite app_nil_r, Eo.
Qed.

Section Exec.
Context (s : kernel_state) (i : nat) (Hrun : running s i).
Context (Hnext : next_pid (k_proc s) < 4294967295).

Lemma syscall_exec_ok path arguments :
  is_u32 path -> is_u32 arguments ->
  wp (syscall_exec path arguments) (fun r s' => call_ok s i r s' /\
    match user_text s 128 path, (if arguments =? 0 then inr [] else user_text s 128 arguments) with
    | inl status, _ => r = u32 status /\ s' = s
    | inr _, inl status => r = u32 status /\ s' = s
    | inr text, inr line => exists status o, create_outcome s text line (status, o) s' /\
        r = match o with Some _ => next_pid (k_proc s) | None => u32 status end
    end) s.
Proof using Hrun Hnext.
  intros Ha Hb. unfold syscall_exec. wp_step.
  assert (Hsame : forall st, call_ok s i (u32 st) s) by (intros; apply call_ok_same; [done|apply u32_range]).
  eapply wp_mono; [apply (copy_user_string_ok s i Hrun VFS_PATH_MAX); [done|unfold VFS_PATH_MAX; lia]|].
  intros [st d] s1 (-> & Hd & Hr). unfold user_text at 1. cbn [fst snd] in *.
  change VFS_PATH_MAX with 128%nat in Hr, Hd.
  destruct (if path =? 0 then _ else _) as [st'|text].
  { destruct Hr as [-> Hst]. rewrite (proj2 (Z.eqb_neq _ _) Hst). by apply wp_ret. }
  destruct Hr as [-> Et]. eval_status. wp_step.
  set (args := if arguments =? 0 then inr [] else user_text s 128 arguments).
  set (Q := fun (r : Z * option (list Z)) (s' : kernel_state) => s' = s /\
    match args with
    | inl status => fst r = status /\ status <> KERNEL_OK
    | inr line => fst r = KERNEL_OK /\ Z.of_nat (length (default [] (snd r))) <= 128 /\
        cstr (default [] (snd r)) = line
    end).
  assert (wp (if negb (arguments =? 0) then
            r <- syscall_copy_user_string PROCESS_ARGUMENT_LINE_MAX arguments ;;
            mret_ (fst r, Some (snd r))
          else mret_ (KERNEL_OK, None)) Q s) as HQ.
  { unfold Q, args. destruct (Z.eqb_spec arguments 0) as [->|H0]; cbn [negb].
    { apply wp_ret. done. }
    wp_step. eapply wp_mono; [apply (copy_user_string_ok s i Hrun PROCESS_ARGUMENT_LINE_MAX); [done|unfold PROCESS_ARGUMENT_LINE_MAX; lia]|].
    intros [st1 d1] s1 (-> & Hd1 & Hr1). wp_step. split; [done|]. unfold user_text. cbn [fst snd] in *.
    change PROCESS_ARGUMENT_LINE_MAX with 128%nat in Hr1, Hd1.
    destruct (if arguments =? 0 then _ else _); [done|]. change (default [] (Some d1)) with d1.
    split; [apply Hr1|]. split; [lia|apply Hr1]. }
  eapply wp_mono; [exact HQ|]. clear HQ. intros [st oargs] s1 [-> Hargs]. cbn [fst snd] in Hargs.
  destruct args as [st'|line].
  { destruct Hargs as [-> Hst]. rewrite (proj2 (Z.eqb_neq _ _) Hst). by apply wp_ret. }
  destruct Hargs as (-> & Hl & Eline). eval_status. wp_step.
  eapply wp_mono; [apply (exec_create_ok s d oargs); [apply Hrun|done|lia]|].
  intros [st o] s1 (Hq & Hinv & Hout).
  destruct (contained_create i s s1 _ _ _ Hrun Hq Hinv Hout) as [Hc Hp].
  apply (create_outcome_text s d text _ line) in Hout.
  2:{ rewrite <- Et. symmetry. apply cstr_id, cstr_nonzero. }
  2:{ rewrite <- Eline. by rewrite argument_words_cstr. }
  pose proof (pv_next _ (ki_proc _ (ru_inv _ _ Hrun))) as Hpn.
  destruct o as [j|].
  - pose proof Hout as (_ & -> & Hnx & reg & q & p' & _ & Eq & _ & Etab & Hcp). eval_status.
    wp_step. apply (wp_kernel_proc _ p').
    { rewrite Etab. apply list_lookup_insert_eq. by eapply lookup_lt_Some. }
    apply wp_ret. rewrite (cp_pid _ _ _ _ _ Hcp).
    split; [split; [unfold is_u32; lia|done]|]. eexists _, _. by split.
  - pose proof Hout as (_ & Hst & _). rewrite (proj2 (Z.eqb_neq _ _) Hst). apply wp_ret.
    split; [split; [apply u32_range|done]|]. eexists _, _. by split.
Qed.

(** ** exit *)

Lemma syscall_exit_ok code p :
  k_table s !! i = Some p ->
  wp (on_proc (process_mark_exit code) ;;; mret_ KERNEL_OK) (fun r s' => call_ok s i r s' /\ r = KERNEL_OK /\
    quiet s s' /\ next_pid (k_proc s') = next_pid (k_proc s) /\
    k_table s' = <[i := p <| p_exit_code := code |> <| p_state := PROCESS_EXITED |>]> (k_table s)) s.
Proof using Hrun.
  intros Ep. wp_step. apply wp_on_proc.
  eapply wp_mono; [by apply (process_mark_exit_ok _ i p); [apply Hrun|apply Hrun|]|].
  intros _ ps (Hps & Hcur & Hnx & Etab). apply wp_ret. set (s1 := set_field k_proc _ s).
  assert (Hi : (i < length (k_table s))%nat) by (by eapply lookup_lt_Some).
  assert (Hq : quiet s s1) by done.
  assert (kernel_inv s1) as Hinv.
  { apply (kernel_inv_quiet s); [apply Hrun|done|done|]. change (k_table s1) with (process_table ps).
    rewrite Etab. pose proof (ki_files _ (ru_inv _ _ Hrun)) as Hf. apply Forall_insert; [done|].
    exact (Forall_lookup_1 _ _ _ _ Hf Ep). }
  assert (contained i s s1).
  { destruct (contained_refl i s Hrun) as []. constructor; try done.
    - constructor; [done|apply Hrun|done].
    - intros j q Hj Eq _. change (k_table s1) with (process_table ps). rewrite Etab.
      by rewrite list_lookup_insert_ne.
    - exists p, (p <| p_exit_code := code |> <| p_state := PROCESS_EXITED |>). split; [done|]. split; [|by split]. change (k_table s1) with (process_table ps).
      rewrite Etab. by apply list_lookup_insert_eq. }
  split; [|by split]. split; [unfold is_u32, KERNEL_OK; lia|]. split; [done|].
  change (k_proc s1) with ps. lia.
Qed.
End Exec.

(** ** Dispatch *)

Lemma contained_after i s s1 s' :
  running s i -> quiet s s1 -> k_proc s1 = k_proc s -> contained i s1 s' -> contained i s s'.
Proof.
  intros Hrun Hq Ep. apply contained_trans. destruct (running_self s i Hrun) as (p & Ep0 & _).
  apply (contained_quiet i s s1 p []); try done; [|by left].
  by apply (kernel_inv_same s); [apply Hrun| |].
Qed.

Lemma syscall_dispatch_ok s i number arg1 arg2 arg3 :
  running s i -> next_pid (k_proc s) < 4294967295 ->
  is_u32 arg1 -> is_u32 arg2 -> is_u32 arg3 ->
  wp (syscall_dispatch number arg1 arg2 arg3) (fun r s' => call_ok s i r s') s.
Proof.
  intros Hrun Hnext H1 H2 H3. unfold syscall_dispatch, sys_info. wp_step. wp_step.
  set (s1 := set_field syscall_info _ s).
  assert (Hq : quiet s s1) by done. assert (Ep1 : k_proc s1 = k_proc s) by done.
  assert (Hrun1 : running s1 i) by (destruct Hrun as [[] ? ?]; done).
  assert (Hfin : forall m, wp m (fun r s' => call_ok s1 i r s') s1 -> wp m (fun r s' => call_ok s i r s') s1).
  { intros m Hm. eapply wp_mono; [exact Hm|]. intros r s' (Hr & Hc & Hp). split; [done|].
    split; [by apply (contained_after i s s1)|done]. }
  apply Hfin. clear Hfin. clearbody s1. assert (Hn1 : next_pid (k_proc s1) < 4294967295) by (by rewrite Ep1).
  clear dependent s. destruct (running_self s1 i Hrun1) as (p & Ep & Hact).
  assert (Hconst : forall r, is_u32 r -> call_ok s1 i r s1) by (intros r Hr; by apply call_ok_same).
  pose proof (ki_proc _ (ru_inv _ _ Hrun1)) as Hproc. pose proof (pv_pids _ Hproc i p Ep Hact) as Hpid.
  pose proof (Forall_lookup_1 _ _ _ _ (pv_wf _ Hproc) Ep) as Hw. pose proof (pw_argc _ Hw).
  destruct (number =? LIAM_SYSCALL_EXIT).
  { eapply wp_mono; [by apply (syscall_exit_ok s1 i Hrun1 _ p)|]. tauto. }
  destruct (number =? LIAM_SYSCALL_WRITE).
  { eapply wp_mono; [by apply (syscall_write_ok s1 i Hrun1)|]. tauto. }
  destruct (number =? LIAM_SYSCALL_GET_TICKS).
  { apply wp_get, Hconst. apply (ki_ticks _ (ru_inv _ _ Hrun1)). }
  destruct (number =? LIAM_SYSCALL_YIELD); [by apply wp_ret, Hconst|].
  destruct (number =? LIAM_SYSCALL_GET_PID).
  { apply wp_on_proc. unfold process_get_current_pid. wp_step. wp_step. rewrite (ru_current _ _ Hrun1).
    wp_step. apply (wp_proc_at _ p); [done|]. apply wp_ret. rewrite with_proc_self. apply Hconst.
    unfold is_u32. lia. }
  destruct (number =? LIAM_SYSCALL_OPEN).
  { eapply wp_mono; [by apply (syscall_open_ok s1 i Hrun1 p Ep)|]. tauto. }
  destruct (number =? LIAM_SYSCALL_READ).
  { eapply wp_mono; [by apply (syscall_read_ok s1 i Hrun1 p Ep)|]. tauto. }
  destruct (number =? LIAM_SYSCALL_CLOSE).
  { eapply wp_mono; [by apply (syscall_close_ok s1 i Hrun1 p Ep)|]. tauto. }
  destruct (number =? LIAM_SYSCALL_STAT).
  { eapply wp_mono; [by apply (syscall_stat_ok s1 i Hrun1 p Ep)|]. tauto. }
  destruct (number =? LIAM_SYSCALL_GET_ARGC).
  { apply wp_on_proc. unfold process_get_current_argc. wp_step. wp_step. rewrite (ru_current _ _ Hrun1).
    wp_step. apply (wp_proc_at _ p); [done|]. apply wp_ret. rewrite with_proc_self. apply Hconst.
    unfold is_u32. lia. }
  destruct (number =? LIAM_SYSCALL_GET_ARG).
  { eapply wp_mono; [by apply (syscall_get_arg_ok s1 i Hrun1 p Ep)|]. tauto. }
  destruct (number =? LIAM_SYSCALL_EXEC).
  { eapply wp_mono; [by apply (syscall_exec_ok s1 i Hrun1 Hn1)|]. tauto. }
  unfold log_warning. wp_steps. destruct (Hconst (u32 KERNEL_ERROR_UNSUPPORTED)) as (Hr & Hc & Hp); [apply u32_range|].
  split; [done|]. split; [|done]. destruct Hc. constructor; try done.
  - destruct Hrun1 as [[] ? ?]. done.
  - by eexists.
Qed.
