(* ===== verification/ElfProofs.v ===== *)
(** * ELF files: the checks as a specification

    [elf_header_ok] and [elf_segment_ok] say which files are accepted; the
    routines of loader/elf32.c compute them and never read outside the file. *)
From S2P Require Import Prelude Mem KString Boot Pmm Vmm Pages Vfs Initramfs VfsProofs Process ProcessProofs KState FdTable.
From S2P Require Import Ring3 Loader.

Definition byte_at (d : list Z) (k : Z) : Z := default 0 (d !! Z.to_nat k).
Definition half_at (d : list Z) (k : Z) : Z := byte_at d k + 256 * byte_at d (k + 1).
Definition word_at (d : list Z) (k : Z) : Z := half_at d k + 65536 * half_at d (k + 2).

Definition is_bytes (d : list Z) : Prop := Forall (fun b => 0 <= b < 256) d.

Lemma byte_at_range d k : is_bytes d -> 0 <= byte_at d k < 256.
Proof.
  intros H. unfold byte_at. destruct (d !! Z.to_nat k) as [b|] eqn:E; cbn; [|lia].
  exact (Forall_lookup_1 _ _ _ _ H E).
Qed.

Lemma half_at_range d k : is_bytes d -> 0 <= half_at d k < 65536.
Proof.
  intros H. unfold half_at. pose proof (byte_at_range d k H). pose proof (byte_at_range d (k + 1) H). lia.
Qed.

Lemma word_at_range d k : is_bytes d -> is_u32 (word_at d k).
Proof.
  intros H. unfold word_at, is_u32. pose proof (half_at_range d k H). pose proof (half_at_range d (k + 2) H). lia.
Qed.

Section Get.
Context {S : Type} (d : list Z) (s : S).

Lemma wp_get8 k (Q : Z -> S -> Prop) :
  0 <= k < Z.of_nat (length d) -> Q (byte_at d k) s -> wp (get8 d k) Q s.
Proof.
  intros Hk HQ. destruct (lookup_lt_is_Some_2 d (Z.to_nat k)) as [b Eb]; [lia|].
  apply (wp_array_at _ _ b); [done|]. unfold byte_at in HQ. by rewrite Eb in HQ.
Qed.

Lemma wp_get16 k (Q : Z -> S -> Prop) :
  0 <= k -> k + 2 <= Z.of_nat (length d) -> Q (half_at d k) s -> wp (get16 d k) Q s.
Proof.
  intros H0 Hk HQ. unfold get16. wp_step. apply wp_get8; [lia|]. wp_step. apply wp_get8; [lia|]. by apply wp_ret.
Qed.

Lemma wp_get32 k (Q : Z -> S -> Prop) :
  0 <= k -> k + 4 <= Z.of_nat (length d) -> Q (word_at d k) s -> wp (get32 d k) Q s.
Proof.
  intros H0 Hk HQ. unfold get32. wp_step. apply wp_get16; [lia|lia|]. wp_step. apply wp_get16; [lia|lia|].
  by apply wp_ret.
Qed.
End Get.

(** One read of a field. *)
Ltac wp_field :=
  apply wp_bind; first [apply wp_get8 | apply wp_get16 | apply wp_get32]; [lia..|]; cbv beta.

(** The file header. *)
Definition elf_ident_ok (d : list Z) : bool :=
  (byte_at d 0 =? 0x7F) && (byte_at d 1 =? 69) && (byte_at d 2 =? 76) && (byte_at d 3 =? 70) &&
  (byte_at d 4 =? 1) && (byte_at d 5 =? 1) && (byte_at d 6 =? 1).

Definition elf_type_ok (d : list Z) : bool :=
  (half_at d 16 =? 2) && (half_at d 18 =? 3) && (word_at d 20 =? 1) && (half_at d 40 =? 52).

Definition ph_count (d : list Z) : Z := half_at d 44.
Definition ph_table (d : list Z) : Z := word_at d 28.

(** The table of program headers lies inside the file. *)
Definition elf_table_ok (d : list Z) (size : Z) : bool :=
  (ph_count d =? 0) ||
  (half_at d 42 =? 32) && (ph_table d <? size) && (ph_table d + 32 * ph_count d <=? size).

Definition elf_header_ok (d : list Z) (size : Z) : bool := elf_ident_ok d && elf_type_ok d && elf_table_ok d size.

Section Check.
Context (d : list Z) (size : Z) (Hb : is_bytes d) (Hd : size <= Z.of_nat (length d)) (Hu : is_u32 size).

(** A check whose outcome is a status, or none. *)
Definition checks (b : bool) (r : option Z) : Prop :=
  match r with None => b = true | Some st => b = false /\ st <> KERNEL_OK end.

Lemma elf32_check_header_ok (s : kernel_state) :
  52 <= size -> wp (elf32_check_header d size) (fun r s' => s' = s /\ checks (elf_header_ok d size) r) s.
Proof using Hb Hd Hu.
  intros H52. unfold elf32_check_header, elf_header_ok, elf_ident_ok, elf_type_ok, elf_table_ok.
  unfold e_type, e_machine, e_version, e_header_size, e_program_header_count, e_program_header_entry_size, e_program_header_offset.
  unfold ELF32_CLASS_32BIT, ELF32_DATA_LITTLE_ENDIAN, ELF32_VERSION_CURRENT, ELF32_TYPE_EXECUTABLE, ELF32_MACHINE_I386, sizeof_elf32_header, sizeof_elf32_program_header.
  do 4 wp_field.
  destruct (byte_at d 0 =? 0x7F); [|by apply wp_ret]. destruct (byte_at d 1 =? 69); [|by apply wp_ret].
  destruct (byte_at d 2 =? 76); [|by apply wp_ret]. destruct (byte_at d 3 =? 70); [|by apply wp_ret].
  cbn [negb orb andb]. wp_field. destruct (byte_at d 4 =? 1); cbn [negb andb]; [|by apply wp_ret].
  wp_field. destruct (byte_at d 5 =? 1); cbn [negb andb]; [|by apply wp_ret].
  wp_field. destruct (byte_at d 6 =? 1); cbn [negb andb]; [|by apply wp_ret].
  wp_field. destruct (half_at d 16 =? 2); cbn [negb andb]; [|by apply wp_ret].
  wp_field. destruct (half_at d 18 =? 3); cbn [negb andb]; [|by apply wp_ret].
  wp_field. destruct (word_at d 20 =? 1); cbn [negb andb]; [|by apply wp_ret].
  wp_field. destruct (half_at d 40 =? 52); cbn [negb andb]; [|by apply wp_ret].
  wp_field. fold (ph_count d). pose proof (half_at_range d 44 Hb) as Hc. fold (ph_count d) in Hc.
  destruct (Z.ltb_spec 0 (ph_count d)).
  2:{ apply wp_ret. split; [done|]. cbn. by rewrite (proj2 (Z.eqb_eq _ _)) by lia. }
  rewrite (proj2 (Z.eqb_neq (ph_count d) 0)) by lia. cbn [orb].
  wp_field. destruct (Z.eqb_spec (half_at d 42) 32) as [->|]; cbn [negb andb]; [|by apply wp_ret].
  wp_field. fold (ph_table d). pose proof (word_at_range d 28 Hb) as Ht. fold (ph_table d) in Ht.
  unfold is_u32 in *. rewrite (u32_small (ph_count d * 32)) by (unfold is_u32; lia).
  destruct (Z.leb_spec size (ph_table d)), (Z.ltb_spec (ph_table d) size); try lia; cbn [andb]; [by apply wp_ret|].
  rewrite u32_small by (unfold is_u32; lia).
  destruct (Z.ltb_spec (size - ph_table d) (ph_count d * 32)), (Z.leb_spec (ph_table d + 32 * ph_count d) size);
    try lia; by apply wp_ret.
Qed.

(** The loadable segments. *)
Definition ph_offsets (d : list Z) : list Z := (fun k => ph_table d + 32 * k) <$> seqZ 0 (ph_count d).
Definition load_segments (d : list Z) : list Z := filter (fun ph => word_at d ph = 1) (ph_offsets d).

Definition selection (l : list Z) : Z + option Z :=
  match l with
  | [] => inr None
  | [ph] => inr (Some ph)
  | _ => inl KERNEL_ERROR_UNSUPPORTED
  end.

Lemma elf32_select_ok (s : kernel_state) :
  52 <= size -> elf_header_ok d size = true ->
  wp (elf32_select_segment d) (fun r s' => s' = s /\ r = selection (load_segments d)) s.
Proof using Hb Hd Hu.
  intros H52 Hok. unfold elf_header_ok, elf_table_ok in Hok. apply andb_true_iff in Hok as [_ Hok].
  unfold elf32_select_segment, e_program_header_count, e_program_header_offset, e_program_header_entry_size, ph_type.
  wp_field. fold (ph_count d). unfold load_segments, ph_offsets.
  pose proof (half_at_range d 44 Hb) as Hc. fold (ph_count d) in Hc.
  pose proof (word_at_range d 28 Hb) as Ht. fold (ph_table d) in Ht. unfold is_u32 in *.
  apply (wp_fold _ _ (fun l r s' => s' = s /\
    r = selection (filter (fun ph => word_at d ph = 1) ((fun k => ph_table d + 32 * k) <$> l)))); [done| |done].
  intros l k r acc s' E [-> ->]. rewrite fmap_app, filter_app. cbn [fmap list_fmap].
  assert (seqZ 0 (ph_count d) !! length l = Some k) as Hk by (by rewrite E, list_lookup_middle).
  apply lookup_seqZ in Hk as [-> Hlt]. rewrite Z.add_0_l. set (k := Z.of_nat (length l)) in *.
  destruct (Z.eqb_spec (ph_count d) 0); [lia|]. cbn [orb] in Hok. bool_simpl.
  set (sel := filter _ (_ <$> l)).
  assert (forall st, selection sel = inl st -> selection (sel ++ filter (fun ph => word_at d ph = 1) [ph_table d + 32 * k]) = inl st) as Hstop.
  { intros st. destruct sel as [|x [|y z]]; done. }
  destruct (selection sel) as [st|o] eqn:Es.
  { apply wp_ret. split; [done|]. symmetry. by apply Hstop. }
  wp_field. fold (ph_table d). wp_field. replace (half_at d 42) with 32 by done.
  rewrite (u32_small (k * 32)), (u32_small (ph_table d + k * 32)) by (unfold is_u32; lia).
  replace (ph_table d + k * 32) with (ph_table d + 32 * k) by lia. wp_field.
  unfold ELF32_PROGRAM_TYPE_LOAD.
  destruct (Z.eqb_spec (word_at d (ph_table d + 32 * k)) 1) as [E1|E1]; cbn [negb].
  - rewrite filter_cons_True, filter_nil by done.
    destruct sel as [|x [|y z]]; cbn in Es; simplify_eq; by apply wp_ret.
  - rewrite filter_cons_False, filter_nil, app_nil_r by done. by apply wp_ret.
Qed.

(** The selected segment. *)
Definition elf_segment_ok (d : list Z) (size ph : Z) : bool :=
  let entry := word_at d 24 in
  let offset := word_at d (ph + 4) in
  let vaddr := word_at d (ph + 8) in
  let file_size := word_at d (ph + 16) in
  let memory_size := word_at d (ph + 20) in
  (vaddr =? RING3_USER_CODE_VIRTUAL) && (vaddr <=? entry) && (entry <? vaddr + memory_size) &&
  (0 <? file_size) && (file_size <=? memory_size) && (memory_size <=? 4096) &&
  (offset + file_size <=? size).

Lemma load_segment_inside ph :
  elf_header_ok d size = true -> ph ∈ load_segments d -> 0 <= ph /\ ph + 32 <= size.
Proof using Hb Hu.
  intros Hok Hin. unfold elf_header_ok, elf_table_ok in Hok. apply andb_true_iff in Hok as [_ Hok].
  apply list_elem_of_filter in Hin as [_ Hin]. apply list_elem_of_fmap in Hin as (k & -> & Hk).
  apply elem_of_seqZ in Hk. pose proof (word_at_range d 28 Hb) as Ht. fold (ph_table d) in Ht. unfold is_u32 in *.
  destruct (Z.eqb_spec (ph_count d) 0); [lia|]. cbn [orb] in Hok. bool_simpl. lia.
Qed.

Lemma elf32_check_segment_ok ph (s : kernel_state) :
  52 <= size -> 0 <= ph -> ph + 32 <= size ->
  wp (elf32_check_segment d size ph) (fun r s' => s' = s /\ checks (elf_segment_ok d size ph) r) s.
Proof using Hb Hd Hu.
  intros H52 H0 H1. unfold elf32_check_segment, elf_segment_ok. cbv zeta.
  unfold ph_virtual_address, ph_memory_size, ph_file_size, ph_offset, e_entry, RING3_USER_PAGE_SIZE, RING3_USER_CODE_VIRTUAL.
  pose proof (word_at_range d 24 Hb) as He. pose proof (word_at_range d (ph + 4) Hb) as Ho.
  pose proof (word_at_range d (ph + 16) Hb) as Hf. pose proof (word_at_range d (ph + 20) Hb) as Hm.
  unfold is_u32 in *.
  wp_field. destruct (Z.eqb_spec (word_at d (ph + 8)) 0x10000000) as [->|]; cbn [negb andb]; [|by apply wp_ret].
  set (entry := word_at d 24) in *. set (offset := word_at d (ph + 4)) in *.
  set (fsz := word_at d (ph + 16)) in *. set (msz := word_at d (ph + 20)) in *.
  wp_field. fold entry.
  destruct (Z.ltb_spec entry 0x10000000), (Z.leb_spec 0x10000000 entry); try lia; cbn [andb]; [by apply wp_ret|].
  wp_field. fold msz.
  assert (u32 (0x10000000 + msz) = 0x10000000 + msz /\ 0x10000000 + msz < 4294967296 \/
          u32 (0x10000000 + msz) < 0x10000000 /\ 4096 < msz) as Hw by u32_lia.
  destruct (Z.leb_spec (u32 (0x10000000 + msz)) entry).
  { apply wp_ret. split; [done|]. cbn [checks]. split; [|done].
    destruct (Z.ltb_spec entry (0x10000000 + msz)); [|done].
    rewrite (proj2 (Z.leb_gt msz 4096)) by lia. by rewrite !andb_false_r. }
  rewrite (proj2 (Z.ltb_lt entry (0x10000000 + msz))) by lia. cbn [andb]. wp_field. fold fsz.
  destruct (Z.eqb_spec fsz 0) as [E0|E0].
  { apply wp_ret. rewrite E0. done. }
  rewrite (proj2 (Z.ltb_lt 0 fsz)) by lia. cbn [andb].
  destruct (Z.ltb_spec msz fsz), (Z.leb_spec fsz msz); try lia; cbn [andb]; [by apply wp_ret|].
  destruct (Z.ltb_spec 4096 msz), (Z.leb_spec msz 4096); try lia; cbn [andb]; [by apply wp_ret|].
  wp_field. fold offset. destruct (Z.leb_spec size offset).
  { apply wp_ret. split; [done|]. cbn [checks]. by rewrite (proj2 (Z.leb_gt _ _)) by lia. }
  rewrite u32_small by (unfold is_u32; lia).
  destruct (Z.ltb_spec (size - offset) fsz), (Z.leb_spec (offset + fsz) size); try lia; by apply wp_ret.
Qed.

(** The file can be loaded: its only loadable segment is accepted. *)
Definition elf_loadable : option Z :=
  if (52 <=? size) && elf_header_ok d size then
    match load_segments d with
    | [ph] => if elf_segment_ok d size ph then Some ph else None
    | _ => None
    end
  else None.
End Check.
