(* ===== verification/LoaderProofs.v ===== *)
(** * Loading programs: flat binaries, ELF files, registered images *)
From S2P Require Import Prelude Mem KString Boot Pmm Vmm Pages Vfs Initramfs VfsProofs Process ProcessProofs KState FdTable.
From S2P Require Import Ring3 Loader Syscall UserMem Ring3Proofs KernelInv FdProofs UserCopy SyscallProofs ExecProofs ElfProofs.

(** ** What loading may change *)

Record load_frame (s s' : kernel_state) : Prop := {
  lf_ring3 : ring3_inv s';
  lf_proc : k_proc s' = k_proc s;
  lf_nodes : k_nodes s' = k_nodes s;
  lf_root : vfs_root (k_vfs s') = vfs_root (k_vfs s);
  lf_vfs : vfs_initialized (vfs_info (k_vfs s')) = vfs_initialized (vfs_info (k_vfs s));
  lf_fd : fd_initialized (fd_table_info s') = fd_initialized (fd_table_info s);
  lf_copy : syscall_copy_buffer s' = syscall_copy_buffer s;
  lf_console : console s' = console s;
  lf_ticks : timer_ticks s' = timer_ticks s;
  lf_flat : flat_initialized (flat_binary_info s') = flat_initialized (flat_binary_info s);
  lf_elf : elf_initialized (elf32_info s') = elf_initialized (elf32_info s);
  lf_entries : forall u, is_u32 u -> other_page u -> vmm_entry (k_vmm s') u = vmm_entry (k_vmm s) u;
  lf_ready : r3_ready (ring3_info s) = true -> same_pages (ring3_info s) (ring3_info s') /\
    forall a, ~ in_page (code_page s) a -> load8 (kmem s') a = load8 (kmem s) a
}.

Lemma load_frame_inv s s' : kernel_inv s -> load_frame s s' -> kernel_inv s'.
Proof.
  intros [] []. constructor; try done; try congruence.
  - by apply (fs_ok_same (k_vfs s)).
  - unfold loaders_ready in *. intuition congruence.
  - by apply (user_confined_same (k_vmm s)).
Qed.

Lemma load_frame_quiet s s' : ring3_inv s -> quiet s s' -> k_proc s' = k_proc s -> load_frame s s'.
Proof.
  intros Hr [Ev En Er Evf Ef Ei Ec Eo Et Efl Eel] Ep. constructor; try done.
  - destruct Hr as [Hv Hr]. split; [by rewrite Ev|]. cbv zeta. by rewrite Ei, Ev.
  - by rewrite Ev.
  - intros _. rewrite Ei. unfold kmem. by rewrite Ev.
Qed.

Lemma load_frame_trans s1 s2 s3 : load_frame s1 s2 -> load_frame s2 s3 -> load_frame s1 s3.
Proof.
  intros H1 H2. pose proof (lf_ready _ _ H1) as R1. pose proof (lf_ready _ _ H2) as R2.
  pose proof (lf_entries _ _ H1) as E1. pose proof (lf_entries _ _ H2) as E2.
  destruct H1, H2. constructor; try congruence; try done.
  - intros u Hu Ho. by rewrite E2, E1.
  - intros Hr. destruct (R1 Hr) as [P1 M1]. destruct (R2 ltac:(destruct P1 as (_ & -> & _); done)) as [P2 M2].
    unfold same_pages in *. split; [intuition congruence|].
    intros a Ha. rewrite M2, M1; [done|done|]. destruct P1 as (_ & _ & -> & _). done.
Qed.

(** The code page holds the program. *)
Definition holds_program (s : kernel_state) (bytes : list Z) : Prop :=
  r3_ready (ring3_info s) = true /\ page_holds (kmem s) (code_page s) bytes.

Definition usable (s : kernel_state) : Prop :=
  r3_ready (ring3_info s) = true /\ r3_last_status (ring3_info s) = KERNEL_OK.

Section Load.
Context (addr_syscall_stack : Z) (text_at_null : list Z).

Lemma ring3_load_frame s image size :
  ring3_inv s -> 0 <= size <= Z.of_nat (length image) ->
  wp (ring3_load_user_image addr_syscall_stack (Some image) size true) (fun r s' => load_frame s s' /\
    match r with
    | (status, Some l) => status = KERNEL_OK /\ l = loaded_result size /\ 0 < size <= 4096 /\
        usable s' /\ holds_program s' (take (Z.to_nat size) image)
    | (status, None) => status <> KERNEL_OK /\ ~ (usable s /\ 0 < size <= 4096)
    end) s.
Proof.
  intros Hinv Hsz. eapply wp_mono; [by apply ring3_load_ok|].
  intros r s' (s1 & Hst & Hi1 & Hi' & Hsp & Hfst & Hcase). destruct Hst as [Hon Hent Hfr Honce Hdone].
  assert (Hready1 : r3_ready (ring3_info s) = true -> s1 = s).
  { intros Hr. apply Honce. destruct Hinv as [_ H]. cbv zeta in H. rewrite Hr in H. apply H. }
  case_bool_decide as Hc.
  - destruct Hc as [Hls Hs]. destruct Hcase as (-> & Hrdy & m' & Hp & Hout & Es').
    destruct (ring3_inv_write s1 m' Hi1) as [_ Hent1].
    { destruct Hsp as (_ & E & _). by rewrite E in Hrdy. }
    { intros a Ha _. by apply Hout. }
    split.
    + constructor; try (rewrite Es', Hon; reflexivity).
      * done.
      * intros u Hu Ho. replace (k_vmm s') with (k_vmm (with_mem m' s1)) by (by rewrite Es').
        by rewrite Hent1, Hent.
      * intros Hr. rewrite <- (Hready1 Hr). split; [done|]. intros a Ha.
        replace (kmem s') with m' by (by rewrite Es'). by apply Hout.
    + split; [done|]. split; [done|]. split; [done|]. cbn in Hfst. split; [by split|]. split; [done|].
      replace (kmem s') with m' by (by rewrite Es'). destruct Hsp as (_ & _ & -> & _). done.
  - destruct Hcase as (Hne & Hsnd & Es'). split.
    + constructor; try (rewrite Es', Hon; reflexivity).
      * done.
      * intros u Hu Ho. replace (k_vmm s') with (k_vmm s1) by (by rewrite Es'). by apply Hent.
      * intros Hr. rewrite <- (Hready1 Hr). split; [done|]. intros a Ha.
        replace (kmem s') with (kmem s1) by (unfold kmem; by rewrite Es'). done.
    + destruct r as [st o]. cbn in Hsnd, Hne. subst o. split; [done|]. intros [[Hr Hl] Hs]. apply Hc.
      by rewrite (Hready1 Hr).
Qed.

(** The entry point and the contents of the code page that a file asks for. *)
Definition flat_program (n : vfs_node_t) : option (Z * list Z) :=
  match vn_data n with
  | Some d => if (0 <? vn_size n) && (vn_size n <=? 4096)
              then Some (RING3_USER_CODE_VIRTUAL, take (Z.to_nat (vn_size n)) d) else None
  | None => None
  end.

Definition elf_program (n : vfs_node_t) : option (Z * list Z) :=
  match vn_data n with
  | Some d =>
      match elf_loadable d (vn_size n) with
      | Some ph => Some (word_at d 24,
          take (Z.to_nat (word_at d (ph + 16))) (drop (Z.to_nat (word_at d (ph + 4))) d))
      | None => None
      end
  | None => None
  end.

(** A program is loaded exactly as the file asks; a file that asks for none is
    refused, and one that does is loaded when user mode works. *)
Definition load_outcome (program : option (Z * list Z)) (s : kernel_state) (r : Z * option user_image_t)
    (s' : kernel_state) : Prop :=
  load_frame s s' /\
  match r with
  | (status, Some img) => status = KERNEL_OK /\ usable s' /\ img_user_stack_top img = 0x10001FF0 /\
      exists bytes, program = Some (img_entry img, bytes) /\ holds_program s' bytes
  | (status, None) => status <> KERNEL_OK /\ (usable s -> program = None)
  end.

Lemma load_outcome_before program s s1 r s' :
  ring3_inv s -> quiet s s1 -> k_proc s1 = k_proc s -> load_outcome program s1 r s' -> load_outcome program s r s'.
Proof.
  intros Hr Hq Ep [Hf H]. split; [eapply load_frame_trans; [by apply load_frame_quiet|done]|].
  destruct r as [st [img|]]; [done|]. destruct H as [H1 H2]. split; [done|]. intros Hu. apply H2.
  unfold usable in *. by rewrite (q_ring3 _ _ Hq).
Qed.

Lemma load_outcome_after program s s1 r s' :
  ring3_inv s1 -> quiet s1 s' -> k_proc s' = k_proc s1 -> load_outcome program s r s1 -> load_outcome program s r s'.
Proof.
  intros Hr Hq Ep [Hf H]. split; [eapply load_frame_trans; [done|by apply load_frame_quiet]|].
  destruct r as [st [img|]]; [|done].
  destruct H as (H1 & H2 & H3 & bytes & H4 & H5). split; [done|].
  unfold usable, holds_program, kmem in *. rewrite (q_ring3 _ _ Hq), (q_vmm _ _ Hq).
  split; [done|]. split; [done|]. by exists bytes.
Qed.

Lemma load_refused program s st :
  ring3_inv s -> st <> KERNEL_OK -> program = None -> load_outcome program s (st, None) s.
Proof. intros Hr Hst Hp. split; [by apply load_frame_quiet|]. by split. Qed.

(** A flat binary. *)
Lemma flat_binary_load_ok s node n :
  ring3_inv s -> tree_ok (k_nodes s) -> k_nodes s !! node = Some n -> vn_type n = VFS_NODE_FILE ->
  flat_initialized (flat_binary_info s) = true ->
  wp (flat_binary_load_from_node addr_syscall_stack text_at_null node true) (load_outcome (flat_program n) s) s.
Proof.
  intros Hr Ht En Hty Hini. pose proof (proj2 Ht _ _ En) as Hn. unfold flat_binary_load_from_node, flat_fail, flat_info.
  wp_step. wp_step. rewrite Hini. cbn [negb].
  rewrite (proj2 (Z.eqb_neq node 0)) by (intros ->; by rewrite (proj1 Ht) in En). cbn [orb].
  wp_step. wp_step. wp_step. apply (wp_kernel_node _ n); [done|]. wp_step. wp_step.
  set (s1 := set_field flat_binary_info _ _). assert (Hq : quiet s s1) by done.
  unfold is_type. rewrite bool_decide_eq_true_2 by done. cbn [negb orb].
  unfold flat_program. pose proof (nk_data _ _ Hn) as Hd. pose proof (nk_size _ _ Hn) as Hu. unfold is_u32 in Hu.
  destruct (vn_data n) as [d|].
  2:{ rewrite bool_decide_eq_true_2 by done. cbn [orb]. wp_steps. apply (load_outcome_before _ s s1); [done|done|done|].
      eapply load_outcome_after; [| | |by apply (load_refused _ s1)]; done. }
  rewrite bool_decide_eq_false_2 by done. cbn [orb]. destruct (Hd d eq_refl) as [Hlen _].
  destruct (Z.eqb_spec (vn_size n) 0) as [E0|E0].
  { rewrite E0. wp_steps. apply (load_outcome_before _ s s1); [done|done|done|].
    eapply load_outcome_after; [| | |by apply (load_refused _ s1)]; done. }
  wp_step. eapply wp_mono; [apply (ring3_load_frame s1); [done|lia]|].
  intros [st [l|]] s2 [Hf Hcase].
  - destruct Hcase as (-> & -> & Hs & Hus & Hh). wp_step. wp_step. eval_status. wp_steps.
    eapply load_outcome_before; [done|done|done|].
    eapply load_outcome_after; [apply (lf_ring3 _ _ Hf)| | |]; [| |split; [exact Hf|]]; [done|done|].
    zbool. cbn [andb]. split; [done|]. split; [done|]. split; [done|]. eexists. by split.
  - destruct Hcase as [Hne Hnu]. wp_steps.
    eapply load_outcome_before; [done|done|done|].
    eapply load_outcome_after; [apply (lf_ring3 _ _ Hf)| | |]; [| |split; [exact Hf|]]; [done|done|].
    split; [done|]. intros Hus. destruct (Z.leb_spec (vn_size n) 4096); [|by rewrite andb_false_r].
    exfalso. apply Hnu. split; [exact Hus|lia].
Qed.

(** ** ELF files *)

Definition elf_accepted (n : vfs_node_t) : option (list Z) :=
  match vn_data n with
  | Some d => if (52 <=? vn_size n) && elf_header_ok d (vn_size n) then Some d else None
  | None => None
  end.

Lemma elf32_validate_ok s node n :
  tree_ok (k_nodes s) -> k_nodes s !! node = Some n -> vn_type n = VFS_NODE_FILE ->
  wp (elf32_validate_from_node text_at_null node true) (fun r s' => quiet s s' /\ k_proc s' = k_proc s /\
    snd r = elf_accepted n /\ (fst r = KERNEL_OK <-> is_Some (elf_accepted n))) s.
Proof.
  intros Ht En Hty. pose proof (proj2 Ht _ _ En) as Hn. unfold elf32_validate_from_node, elf32_fail, elf_info.
  rewrite (proj2 (Z.eqb_neq node 0)) by (intros ->; by rewrite (proj1 Ht) in En). cbn [negb orb].
  wp_step. apply (wp_kernel_node _ n); [done|]. wp_step. wp_step.
  unfold is_type. rewrite bool_decide_eq_true_2 by done. cbn [negb]. unfold elf_accepted.
  pose proof (nk_data _ _ Hn) as Hd. pose proof (nk_size _ _ Hn) as Hu.
  assert (Hno : forall st s', st <> KERNEL_OK -> quiet s s' -> k_proc s' = k_proc s ->
    quiet s s' /\ k_proc s' = k_proc s /\ @None (list Z) = None /\ (st = KERNEL_OK <-> is_Some (@None (list Z)))).
  { intros st s' Hst Hq Hp. split; [done|]. split; [done|]. split; [done|]. split; [done|by intros [? ?]]. }
  destruct (vn_data n) as [d|]; [|by wp_steps; apply Hno].
  destruct (Hd d eq_refl) as [Hlen Hby]. unfold sizeof_elf32_header.
  destruct (Z.ltb_spec (vn_size n) 52), (Z.leb_spec 52 (vn_size n)); try lia; cbn [andb].
  { by wp_steps; apply Hno. }
  wp_step. eapply wp_mono; [by apply elf32_check_header_ok|]. intros [st|] s1 [-> Hck]; cbn [checks] in Hck.
  - destruct Hck as [-> Hst]. by wp_steps; apply Hno.
  - rewrite Hck. unfold e_entry, e_program_header_count. wp_field. wp_field. wp_steps.
    split; [done|]. split; [done|]. split; [done|]. cbn. split; [by eexists|done].
Qed.

Lemma elf_program_loadable n d ph :
  vn_data n = Some d -> elf_accepted n = Some d -> load_segments d = [ph] ->
  elf_program n = if elf_segment_ok d (vn_size n) ph then Some (word_at d 24,
      take (Z.to_nat (word_at d (ph + 16))) (drop (Z.to_nat (word_at d (ph + 4))) d)) else None.
Proof.
  unfold elf_accepted, elf_program, elf_loadable. intros -> Ha ->.
  destruct ((52 <=? vn_size n) && elf_header_ok d (vn_size n)); [|done]. by destruct (elf_segment_ok _ _ _).
Qed.

Lemma elf32_load_ok s node n :
  ring3_inv s -> tree_ok (k_nodes s) -> k_nodes s !! node = Some n -> vn_type n = VFS_NODE_FILE ->
  elf_initialized (elf32_info s) = true ->
  wp (elf32_load_from_node addr_syscall_stack text_at_null node true) (load_outcome (elf_program n) s) s.
Proof.
  intros Hr Ht En Hty Hini. pose proof (proj2 Ht _ _ En) as Hn. unfold elf32_load_from_node.
  rewrite (proj2 (Z.eqb_neq node 0)) by (intros ->; by rewrite (proj1 Ht) in En). cbn [negb orb].
  wp_step. wp_step. rewrite Hini. cbn [negb]. wp_step. apply (wp_kernel_node _ n); [done|].
  wp_step. apply wp_mod. set (s1 := set_field elf32_info _ s). assert (Hq1 : quiet s s1) by done.
  wp_step. eapply wp_mono; [by apply (elf32_validate_ok s1 node n)|].
  intros [st header] s2 (Hq2 & Ep2 & Eh & Hst). cbn [fst snd] in *.
  assert (Hq : quiet s s2) by (by etrans). assert (Hp2 : k_proc s2 = k_proc s) by (by rewrite Ep2).
  assert (Hrefuse : forall st', st' <> KERNEL_OK -> elf_program n = None ->
    wp (elf32_load_fail st') (load_outcome (elf_program n) s) s2).
  { intros st' Hst' Hnone. unfold elf32_load_fail, elf_info. wp_steps.
    apply (load_outcome_after _ _ s); [done| |done|by apply load_refused].
    destruct Hq; constructor; done. }
  destruct header as [d|].
  2:{ apply Hrefuse; [rewrite Hst, <- Eh; by intros [? ?]|].
      unfold elf_program, elf_loadable. unfold elf_accepted in Eh. destruct (vn_data n) as [d|]; [|done].
      by destruct ((52 <=? vn_size n) && _). }
  assert (Ed : vn_data n = Some d).
  { unfold elf_accepted in Eh. destruct (vn_data n) as [d'|]; [|done]. destruct (_ && _); congruence. }
  assert (st = KERNEL_OK) as -> by (apply Hst; rewrite <- Eh; by eexists). eval_status.
  pose proof Eh as Hok. unfold elf_accepted in Hok. rewrite Ed in Hok.
  destruct ((52 <=? vn_size n) && elf_header_ok d (vn_size n)) eqn:Ehd; [|done]. clear Hok.
  apply andb_true_iff in Ehd as [H52 Hhd]. apply Z.leb_le in H52.
  destruct (nk_data _ _ Hn d Ed) as [Hlen Hby]. pose proof (nk_size _ _ Hn) as Hu.
  assert (Hprog : forall l, load_segments d = l -> (forall ph, l <> [ph]) -> elf_program n = None).
  { intros l El Hl. unfold elf_program, elf_loadable. rewrite Ed, El. destruct (_ && _); [|done].
    destruct l as [|x [|y l]]; [done| |done]. by destruct (Hl x). }
  unfold e_program_header_count. wp_field. fold (ph_count d).
  destruct (Z.eqb_spec (ph_count d) 0) as [E0|E0].
  { apply Hrefuse; [done|]. apply (Hprog []); [|done]. unfold load_segments, ph_offsets. by rewrite E0. }
  wp_step. eapply wp_mono; [by apply (elf32_select_ok d (vn_size n))|]. intros r s3 [-> ->].
  destruct (load_segments d) as [|ph [|ph2 l]] eqn:El; cbn [selection].
  { apply Hrefuse; [done|]. by apply (Hprog []). }
  2:{ apply Hrefuse; [done|]. by apply (Hprog (ph :: ph2 :: l)). }
  destruct (load_segment_inside d (vn_size n) Hby Hu ph Hhd) as [Hph0 Hph1]; [rewrite El; by left|].
  pose proof (elf_program_loadable n d ph Ed ltac:(congruence) El) as Eprog.
  wp_step. eapply wp_mono; [by apply elf32_check_segment_ok|]. intros [st|] s3 [-> Hck]; cbn [checks] in Hck.
  { destruct Hck as [Hck Hst']. apply Hrefuse; [done|]. by rewrite Eprog, Hck. }
  rewrite Hck in Eprog. unfold elf_segment_ok in Hck. cbv zeta in Hck. bool_simpl.
  unfold ph_offset, ph_file_size, ph_memory_size, ph_virtual_address, e_entry.
  pose proof (word_at_range d (ph + 4) Hby) as Hoff. unfold is_u32 in Hoff.
  do 5 wp_field. wp_step. eapply wp_mono; [apply (ring3_load_frame s2)|].
  { apply (load_frame_quiet s s2); done. }
  { rewrite length_drop. lia. }
  intros [st [ld|]] s3 [Hf Hcase].
  - destruct Hcase as (-> & -> & Hs & Hus & Hh). eval_status. unfold elf_info. wp_steps.
    eapply load_outcome_before; [done|exact Hq|done|].
    eapply load_outcome_after; [apply (lf_ring3 _ _ Hf)| | |]; [| |split; [exact Hf|]]; [done|done|].
    split; [done|]. split; [done|]. split; [done|]. rewrite Eprog. eexists. by split.
  - destruct Hcase as [Hne Hnu]. unfold elf32_load_fail, elf_info. wp_steps.
    eapply load_outcome_before; [done|exact Hq|done|].
    eapply load_outcome_after; [apply (lf_ring3 _ _ Hf)| | |]; [| |split; [exact Hf|]]; [done|done|].
    split; [done|]. intros Hus. exfalso. apply Hnu. split; [exact Hus|lia].
Qed.

(** ** Registered images *)

Definition registered_program (fs : vfs_state) (reg : registered_user_image_t) : option (Z * list Z) :=
  match registered_node fs reg with
  | inr node =>
      match vfs_nodes fs !! node, reg_kind reg with
      | Some n, USER_IMAGE_KIND_FLAT_BINARY => flat_program n
      | Some n, USER_IMAGE_KIND_ELF => elf_program n
      | _, _ => None
      end
  | inl _ => None
  end.

(** The program that a path stands for. *)
Definition path_program (fs : vfs_state) (path : list Z) : option (Z * list Z) :=
  match find_registration path with
  | Some reg => registered_program fs reg
  | None => None
  end.

Lemma load_registered_ok s reg :
  ring3_inv s -> fs_ok (k_vfs s) -> loaders_ready s -> reg ∈ registered_images ->
  wp (user_image_load_registered addr_syscall_stack text_at_null reg)
    (load_outcome (registered_program (k_vfs s) reg) s) s.
Proof.
  intros Hr Hfs [Hfl Hel] Hin. unfold user_image_load_registered. wp_step.
  apply resolve_registered_ok; [done|done|]. intros s1 Hq Ep.
  assert (Hr1 : ring3_inv s1) by (apply (lf_ring3 s), load_frame_quiet; done).
  unfold registered_program. destruct (registered_node (k_vfs s) reg) as [st|node] eqn:Erg.
  { rewrite (registered_node_status _ _ _ Erg). cbn [negb]. apply wp_ret.
    apply (load_outcome_before _ s s1); [done|done|done|]. apply load_refused; [done| |done].
    pose proof (registered_node_status _ _ _ Erg). by apply Z.eqb_neq. }
  destruct (registered_node_file _ _ _ Erg) as (n & En & Hty). rewrite En. eval_status.
  change (default 0 (Some node)) with node.
  assert (Ht1 : tree_ok (k_nodes s1)) by (rewrite (q_nodes _ _ Hq); apply Hfs).
  assert (En1 : k_nodes s1 !! node = Some n) by (by rewrite (q_nodes _ _ Hq)).
  eapply (wp_mono _ (load_outcome _ s1)); [|intros r s'; by apply load_outcome_before].
  destruct (reg_kind reg).
  - apply wp_ret. by apply load_refused.
  - apply (flat_binary_load_ok s1 node n); try done. by rewrite (q_flat _ _ Hq).
  - apply (elf32_load_ok s1 node n); try done. by rewrite (q_elf _ _ Hq).
Qed.

Lemma user_image_resolve_ok s path :
  ring3_inv s -> fs_ok (k_vfs s) -> loaders_ready s ->
  wp (user_image_resolve addr_syscall_stack text_at_null (Some path) true)
    (load_outcome (path_program (k_vfs s) path) s) s.
Proof.
  intros Hr Hfs Hl. unfold user_image_resolve, note_image_request, image_not_found, image_info. cbn [negb].
  wp_step. wp_step. set (s1 := set_field user_image_info _ s). assert (Hq1 : quiet s s1) by done.
  unfold path_program. destruct (find_registration path) as [reg|] eqn:Er.
  2:{ wp_steps. apply (load_outcome_after _ _ s); [done|done|done|]. by apply load_refused. }
  destruct (find_registration_in _ _ Er) as [Hin _]. wp_step.
  eapply wp_mono; [by apply (load_registered_ok s1 reg)|]. intros r s2 Ho.
  apply (load_outcome_before _ s) in Ho; [|done|done|done]. change (k_vfs s1) with (k_vfs s) in Ho.
  assert (Hr2 : ring3_inv s2) by apply Ho. wp_steps; (eapply load_outcome_after; [exact Hr2| | |exact Ho]; done).
Qed.
End Load.
