(* ===== verification/RunProofs.v ===== *)
(** * Running user programs

    What user code can reach, and what is left after it has run. *)
From S2P Require Import Prelude Mem KString Boot Pmm Vmm Pages Vfs Initramfs VfsProofs Process ProcessProofs KState FdTable.
From S2P Require Import Ring3 Loader Syscall Run UserMem Ring3Proofs KernelInv FdProofs UserCopy SyscallProofs ExecProofs.
From S2P Require Import SyscallTheorems ElfProofs LoaderProofs.

(** ** Stores in user mode *)

Lemma user_range_page a : is_u32 a -> user_range a 1 <-> ~ other_page a.
Proof.
  intros Ha. unfold user_range, other_page, is_u32, RING3_USER_CODE_VIRTUAL, RING3_USER_STACK_VIRTUAL in *.
  change (0x10000000 / 4096) with 65536. change (0x10001000 / 4096) with 65537.
  pose proof (Z_div_mod_eq_full a 4096). pose proof (Z.mod_pos_bound a 4096). lia.
Qed.

Lemma user_writable_range s i a :
  running s i -> is_u32 a -> user_writable (k_vmm s) a = true <-> user_range a 1.
Proof.
  intros Hrun Ha. split.
  - intros Hw. apply user_range_page; [done|]. intros Ho.
    by rewrite (ki_confined _ (ru_inv _ _ Hrun) a Ha Ho) in Hw.
  - intros Hr. destruct (running_pages s i Hrun) as [Hv Hup]. destruct user_flags_valid as (_ & _ & E6).
    assert (exists p, is_u32 p /\ vmm_entry (k_vmm s) a = map_entry p user_flags) as (p & Hp & E).
    { apply user_range_page in Hr; [|done]. unfold other_page in Hr.
      assert (Hu : forall q, vmm_data_frame (k_vmm s) q -> is_u32 q).
      { intros q Hq. destruct (data_frame_range _ _ (proj1 Hv) Hq) as (? & ? & _). unfold is_u32. lia. }
      destruct (decide (a / 4096 = RING3_USER_CODE_VIRTUAL / 4096)) as [Ec|Ec].
      - exists (code_page s). split; [apply Hu, Hup|]. rewrite <- (up_code_entry _ _ _ Hup). by apply pt_entry_same_page.
      - exists (stack_page s). split; [apply Hu, Hup|]. rewrite <- (up_stack_entry _ _ _ Hup).
        apply pt_entry_same_page. destruct (decide (a / 4096 = RING3_USER_STACK_VIRTUAL / 4096)); [done|tauto]. }
    unfold user_writable. rewrite E, E6. destruct (map_entry_fields p 6) as (_ & _ & -> & _); [done|tauto|].
    by rewrite map_entry_flags by (done || tauto).
Qed.

(** ** One system call from user mode *)

Definition kept_ring3 (i i' : ring3_info_t) : Prop :=
  same_pages i i' /\ r3_last_status i' = r3_last_status i.

(** What the rest of the system keeps while process [i] runs. *)
Record ran (i : nat) (s s' : kernel_state) : Prop := {
  rn_running : running s' i;
  rn_memory : exists m', k_vmm s' = (k_vmm s) <| vmm_mem := m' |> /\
    forall a, ~ user_byte s a -> load8 m' a = load8 (kmem s) a;
  rn_nodes : k_nodes s' = k_nodes s;
  rn_root : vfs_root (k_vfs s') = vfs_root (k_vfs s);
  rn_ring3 : kept_ring3 (ring3_info s) (ring3_info s');
  rn_others : forall j q, j <> i -> k_table s !! j = Some q -> active q = true -> k_table s' !! j = Some q;
  rn_self : exists p p', k_table s !! i = Some p /\ k_table s' !! i = Some p' /\
    identity p' = identity p;
  rn_console : exists out, console s' = console s ++ out
}.

Lemma kept_ring3_byte i i' s s' : ring3_info s = i -> ring3_info s' = i' -> kept_ring3 i i' ->
  forall a, user_byte s' a <-> user_byte s a.
Proof. intros <- <- [(_ & _ & Ec & Es & _) _] a. unfold user_byte. by rewrite Ec, Es. Qed.

Lemma contained_ran i s s' : contained i s s' -> ran i s s'.
Proof. intros []. constructor; try done. by rewrite ct_ring3. Qed.

Lemma ran_refl i s : running s i -> ran i s s.
Proof. intros H. by apply contained_ran, contained_refl. Qed.

Lemma ran_trans i s1 s2 s3 : ran i s1 s2 -> ran i s2 s3 -> ran i s1 s3.
Proof.
  intros [R1 (m1 & E1 & H1) N1 T1 I1 O1 (p1 & p1' & Ep1 & Ep1' & Q1) (o1 & C1)]
         [R2 (m2 & E2 & H2) N2 T2 I2 O2 (p2 & p2' & Ep2 & Ep2' & Q2) (o2 & C2)].
  constructor; try congruence.
  - exists m2. split; [by rewrite E2, E1|]. intros a Ha. rewrite H2, <- H1; [|done|].
    + unfold kmem. by rewrite E1.
    + by rewrite (kept_ring3_byte _ _ s1 s2 eq_refl eq_refl I1).
  - destruct I1 as [I1 L1], I2 as [I2 L2]. split; [unfold same_pages in *; intuition congruence|congruence].
  - intros j q Hj Ej Ha. by apply O2, Ha; [|apply O1].
  - exists p1, p2'. assert (p1' = p2) by congruence. split_and!; congruence.
  - exists (o1 ++ o2). by rewrite C2, C1, app_assoc.
Qed.

(** Updating the records of ring3.c and the task state segment. *)
Lemma ran_info i s s' :
  running s i -> kernel_inv s' -> k_vmm s' = k_vmm s -> k_nodes s' = k_nodes s ->
  vfs_root (k_vfs s') = vfs_root (k_vfs s) -> k_proc s' = k_proc s -> console s' = console s ->
  kept_ring3 (ring3_info s) (ring3_info s') -> ran i s s'.
Proof.
  intros Hrun Hinv Ev En Er Ep Ec Hk. destruct (ran_refl i s Hrun) as [_ Hm _ _ _ Ho Hs Hc].
  constructor; rewrite ?Ev, ?En, ?Er, ?Ep, ?Ec; try done.
  destruct Hk as [(_ & Erd & _) _]. constructor; [done|by rewrite Erd; apply Hrun|by rewrite Ep; apply Hrun].
Qed.

Lemma kernel_inv_ring3 s s' :
  kernel_inv s -> r3_ready (ring3_info s) = true -> k_vmm s' = k_vmm s -> k_fs s' = k_fs s -> k_proc s' = k_proc s ->
  fd_table_info s' = fd_table_info s -> syscall_copy_buffer s' = syscall_copy_buffer s ->
  is_u32 (timer_ticks s') -> flat_binary_info s' = flat_binary_info s -> elf32_info s' = elf32_info s ->
  same_pages (ring3_info s) (ring3_info s') -> kernel_inv s'.
Proof.
  intros [] Hr Ev Ef Ep Efd Ec Ht Efl Eel Hsp. constructor; unfold loaders_ready, k_vfs in *;
    rewrite ?Ev, ?Ef, ?Ep, ?Efd, ?Ec, ?Efl, ?Eel; try done.
  apply (ring3_inv_info s); [done|done|done|by left].
Qed.

Section Running.
Context (addr_tss_entry addr_syscall_stack : Z) (text_at_null : list Z).

Lemma wp_tss_set top (Q : unit -> kernel_state -> Prop) s :
  (forall t, tss_esp0 t = top -> Q tt (s <| tss_info := t |>)) ->
  wp (tss_set_kernel_stack addr_tss_entry top) Q s.
Proof.
  intros HQ. unfold tss_set_kernel_stack, tss_initialize. wp_step. wp_step. wp_step. wp_step.
  - wp_steps. set (s1 := set_field tss_info _ _).
    replace s1 with (s <| tss_info := tss_info s1 |>) by (by destruct s). by apply HQ.
  - wp_steps. set (s1 := set_field tss_info _ _).
    replace s1 with (s <| tss_info := tss_info s1 |>) by (by destruct s). by apply HQ.
Qed.

(** Entering the kernel for a call other than exit. *)
Lemma syscall_entry_ok s i number arg1 arg2 arg3 :
  running s i -> next_pid (k_proc s) < 4294967295 -> is_u32 arg1 -> is_u32 arg2 -> is_u32 arg3 ->
  number <> LIAM_SYSCALL_EXIT ->
  wp (ring3_syscall_entry addr_tss_entry number arg1 arg2 arg3) (fun r s' => is_u32 (fst r) /\ snd r = false /\
    ran i s s' /\ next_pid (k_proc s) <= next_pid (k_proc s') <= next_pid (k_proc s) + 1 /\
    r3_in_progress (ring3_info s') = r3_in_progress (ring3_info s) /\
    previous_tss_esp0 (ring3_info s') = previous_tss_esp0 (ring3_info s)) s.
Proof.
  intros Hrun Hn H1 H2 H3 Hne. unfold ring3_syscall_entry, r3_info. wp_step. wp_step.
  set (s1 := set_field ring3_info _ s).
  assert (Hinv1 : kernel_inv s1) by (apply (kernel_inv_ring3 s); try done; apply Hrun).
  assert (Hrn1 : ran i s s1) by (by apply ran_info).
  wp_step. eapply wp_mono; [by apply (syscall_dispatch_ok s1 i); [apply Hrn1|..]|].
  intros r s2 (Hr & Hc & Hp). wp_step. wp_step. rewrite (proj2 (Z.eqb_neq number _)) by done.
  rewrite andb_false_r. cbn [andb negb]. apply wp_ret. pose proof (ct_ring3 _ _ _ Hc) as E3.
  split; [done|]. split; [done|]. split; [eapply ran_trans; [done|by apply contained_ran]|].
  split; [done|]. by rewrite E3.
Qed.

(** The exit call of a running program resumes the kernel. *)
Lemma syscall_exit_entry_ok s i p code arg2 arg3 :
  running s i -> k_table s !! i = Some p -> r3_in_progress (ring3_info s) = true ->
  wp (ring3_syscall_entry addr_tss_entry LIAM_SYSCALL_EXIT code arg2 arg3) (fun r s' => r = (KERNEL_OK, true) /\
    ran i s s' /\ next_pid (k_proc s') = next_pid (k_proc s) /\
    k_table s' !! i = Some (p <| p_exit_code := s32 code |> <| p_state := PROCESS_EXITED |>) /\
    r3_completed (ring3_info s') = true /\ r3_in_progress (ring3_info s') = false /\
    tss_esp0 (tss_info s') = previous_tss_esp0 (ring3_info s)) s.
Proof.
  intros Hrun Ep Hprog. unfold ring3_syscall_entry, r3_info. wp_step. wp_step.
  set (s1 := set_field ring3_info _ s).
  assert (Hinv1 : kernel_inv s1) by (apply (kernel_inv_ring3 s); try done; apply Hrun).
  assert (Hrn1 : ran i s s1) by (by apply ran_info).
  unfold syscall_dispatch, sys_info. change (LIAM_SYSCALL_EXIT =? LIAM_SYSCALL_EXIT) with true. cbv iota.
  wp_step. wp_step. wp_step. set (s2 := set_field syscall_info _ s1).
  assert (Hrn2 : ran i s s2).
  { eapply ran_trans; [done|]. apply ran_info; try done; [apply Hrn1|].
    by apply (kernel_inv_ring3 s1); try done; [apply Hrn1|apply (ki_ticks _ Hinv1)]. }
  eapply wp_mono; [by apply (syscall_exit_ok s2 i (rn_running _ _ _ Hrn2) _ p)|].
  intros r s3 ((_ & Hc & _) & -> & Hq & Hp & Etab). wp_step. wp_step.
  pose proof (ct_ring3 _ _ _ Hc) as E3. rewrite E3.
  change (r3_in_progress (ring3_info s2)) with (r3_in_progress (ring3_info s)). rewrite Hprog.
  change (KERNEL_OK =? KERNEL_OK) with true. cbn [andb].
  assert (Hrn3 : ran i s s3) by (eapply ran_trans; [done|by apply contained_ran]).
  wp_step. wp_step. wp_step. apply wp_tss_set. intros t Ht. apply wp_ret.
  set (s4 := set_field tss_info _ _).
  assert (Hrn4 : ran i s s4).
  { eapply ran_trans; [exact Hrn3|]. apply ran_info; try done; [apply Hrn3|].
    pose proof (ki_ticks _ (ru_inv _ _ (rn_running _ _ _ Hrn3))).
    apply (kernel_inv_ring3 s3); try done; apply Hrn3. }
  assert (Hi : (i < length (k_table s2))%nat) by (by eapply lookup_lt_Some).
  split; [done|]. split; [done|]. split; [exact Hp|]. split; [|done].
  change (k_table s4) with (k_table s3). rewrite Etab. by apply list_lookup_insert_eq.
Qed.

(** ** Scripts of user actions *)

(** An action that does not fault and does not end the program. *)
Definition action_ok (action : user_action) : Prop :=
  match action with
  | UStore a _ => is_u32 a /\ user_range a 1
  | UTick => True
  | USyscall number arg1 arg2 arg3 =>
      number <> LIAM_SYSCALL_EXIT /\ is_u32 arg1 /\ is_u32 arg2 /\ is_u32 arg3
  end.

Lemma user_step_ok s i action :
  running s i -> next_pid (k_proc s) < 4294967295 -> action_ok action ->
  wp (user_step addr_tss_entry action) (fun resumed s' => resumed = false /\ ran i s s' /\
    next_pid (k_proc s) <= next_pid (k_proc s') <= next_pid (k_proc s) + 1 /\
    r3_in_progress (ring3_info s') = r3_in_progress (ring3_info s) /\
    previous_tss_esp0 (ring3_info s') = previous_tss_esp0 (ring3_info s)) s.
Proof.
  intros Hrun Hn Hok. destruct action as [a v| |number arg1 arg2 arg3]; cbn [user_step action_ok] in *.
  - destruct Hok as [Ha Hr]. wp_step. wp_step. rewrite (proj2 (user_writable_range s i a Hrun Ha) Hr).
    wp_step. apply (wp_user_store _ i Hrun); [done|]. apply wp_ret. split; [done|].
    set (s1 := with_mem _ s). split; [|split; [change (k_proc s1) with (k_proc s); lia|done]].
    apply contained_ran, contained_write; [done|]. intros b Hb. apply load8_store8_ne.
    intros ->. apply Hb, user_phys_byte.
  - wp_steps. set (s1 := set_field timer_ticks _ s). split; [done|].
    split; [|split; [change (k_proc s1) with (k_proc s); lia|done]]. apply ran_info; try done.
    apply (kernel_inv_ring3 s); try done; [apply Hrun|apply Hrun|apply u32_range].
  - destruct Hok as (Hne & H1 & H2 & H3). wp_step.
    eapply wp_mono; [by apply (syscall_entry_ok s i)|]. intros [r b] s' (_ & Hb & Hrest). cbn in Hb. subst b.
    by apply wp_ret.
Qed.

(** A script that ends with an exit call after at most [n] actions. *)
Definition exits (script : list user_action) (code : Z) (n : nat) : Prop :=
  exists acts arg2 arg3 rest, script = acts ++ USyscall LIAM_SYSCALL_EXIT code arg2 arg3 :: rest /\
    Forall action_ok acts /\ (length acts <= n)%nat.

Lemma run_script_ok i code n : forall script s,
  exits script code n -> running s i -> r3_in_progress (ring3_info s) = true ->
  next_pid (k_proc s) + Z.of_nat n < 4294967296 ->
  wp (run_script addr_tss_entry script) (fun _ s' => ran i s s' /\
    next_pid (k_proc s) <= next_pid (k_proc s') <= next_pid (k_proc s) + Z.of_nat n /\
    (exists p, k_table s' !! i = Some p /\ p_state p = PROCESS_EXITED /\ p_exit_code p = s32 code) /\
    r3_completed (ring3_info s') = true /\ r3_in_progress (ring3_info s') = false /\
    tss_esp0 (tss_info s') = previous_tss_esp0 (ring3_info s)) s.
Proof.
  intros script s (acts & arg2 & arg3 & rest & -> & Hacts & Hlen). revert n s Hlen.
  induction Hacts as [|a acts Ha Hacts IH]; intros n s Hlen Hrun Hprog Hn; cbn [app run_script].
  - destruct (running_self s i Hrun) as (p & Ep & _). wp_step. cbn [user_step]. wp_step.
    eapply wp_mono; [by apply (syscall_exit_entry_ok s i p)|].
    intros r s1 (-> & Hrn & Hp & Et & Hrest). wp_step. cbn [snd]. apply wp_ret.
    split; [done|]. split; [lia|]. split; [|done]. by eexists.
  - destruct n as [|n]; [cbn in Hlen; lia|]. wp_step.
    eapply wp_mono; [apply (user_step_ok s i); [done|lia|done]|].
    intros r s1 (-> & Hrn & Hp & Hpr & Htss). cbv iota.
    eapply wp_mono; [apply (IH n s1); [cbn in Hlen; lia|apply Hrn|by rewrite Hpr|lia]|].
    intros _ s2 (Hrn2 & Hp2 & Hex & Hc & Hpr2 & Ht2). split; [by eapply ran_trans|]. split; [lia|].
    split; [done|]. split; [done|]. split; [done|]. by rewrite Ht2.
Qed.

(** ** Entering user mode *)

Context (user_script : kernel_state -> Z -> Z -> list user_action).

(** Initialising again gives the last status back. *)
Lemma initialize_again s status :
  r3_initialized (ring3_info s) = true -> r3_last_status (ring3_info s) = status ->
  ring3_initialize addr_syscall_stack s = Some (status, s).
Proof. intros Hini <-. unfold ring3_initialize, mbind_, mget. by rewrite Hini. Qed.

Lemma initialize_usable s :
  ring3_inv s -> usable s -> ring3_initialize addr_syscall_stack s = Some (KERNEL_OK, s).
Proof.
  intros [_ Hr] [Hrdy Hst]. cbv zeta in Hr. rewrite Hrdy in Hr. destruct Hr as [Hini _]. by apply initialize_again.
Qed.

Lemma ring3_run_ok s i n eip esp :
  running s i -> usable s -> eip <> 0 -> esp <> 0 -> next_pid (k_proc s) + Z.of_nat n < 4294967296 ->
  (forall st, running st i -> exists code, exits (user_script st eip esp) code n) ->
  wp (ring3_run_user_image addr_tss_entry addr_syscall_stack (ring3_enter_user_mode addr_tss_entry user_script) eip esp)
    (fun status s' => status = KERNEL_OK /\ ran i s s' /\
      next_pid (k_proc s) <= next_pid (k_proc s') <= next_pid (k_proc s) + Z.of_nat n /\
      tss_esp0 (tss_info s') = tss_esp0 (tss_info s) /\
      exists st code p, ran i s st /\ kmem st = kmem s /\ exits (user_script st eip esp) code n /\
        k_table s' !! i = Some p /\ p_state p = PROCESS_EXITED /\ p_exit_code p = s32 code) s.
Proof.
  intros Hrun Hus He Hs Hn Hscript. pose proof (ki_ring3 _ (ru_inv _ _ Hrun)) as Hr3.
  unfold ring3_run_user_image, ring3_run_fail, r3_info.
  wp_step. eexists _, _. split; [by apply initialize_usable|]. eval_status. wp_step. wp_step.
  rewrite (proj1 Hus), (proj2 (Z.eqb_neq eip 0)), (proj2 (Z.eqb_neq esp 0)) by done. cbn [negb orb].
  wp_step. wp_step. set (s1 := set_field ring3_info _ s). wp_step. apply wp_tss_set. intros t _.
  set (s2 := set_field tss_info _ s1).
  assert (Hrn2 : ran i s s2).
  { pose proof (ki_ticks _ (ru_inv _ _ Hrun)). apply ran_info; try done.
    apply (kernel_inv_ring3 s); try done; apply Hrun. }
  destruct (Hscript s2 (rn_running _ _ _ Hrn2)) as [code Hex]. wp_step. unfold ring3_enter_user_mode.
  eapply wp_mono; [by apply (run_script_ok i code n _ s2 Hex); [apply Hrn2| |]|].
  intros _ s3 (Hrn3 & Hp & (p & Ep & Hst & Hc) & Hcomp & _ & Htss).
  assert (Hs3 : ran i s s3) by (by eapply ran_trans).
  wp_step. wp_step. rewrite Hcomp. cbn [negb]. wp_steps. set (s4 := set_field ring3_info _ s3).
  split; [done|]. split.
  - eapply ran_trans; [exact Hs3|]. apply ran_info; try done; [apply Hs3| |].
    + pose proof (ki_ticks _ (ru_inv _ _ (rn_running _ _ _ Hs3))). apply (kernel_inv_ring3 s3); try done; apply Hs3.
    + split; [done|]. destruct (rn_ring3 _ _ _ Hs3) as [_ ->]. symmetry. apply Hus.
  - split; [done|]. split; [done|]. by exists s2, code, p.
Qed.
End Running.
