(* ===== verification/ProcessRun.v ===== *)
(** * The life of a process (core/process.c: process_run) *)
From S2P Require Import Prelude Mem KString Boot Pmm Vmm Pages Vfs Initramfs VfsProofs Process ProcessProofs KState FdTable.
From S2P Require Import Ring3 Loader Syscall Run UserMem Ring3Proofs KernelInv FdProofs UserCopy SyscallProofs ExecProofs.
From S2P Require Import SyscallTheorems ElfProofs LoaderProofs RunProofs.

(** ** The table while a process starts and ends *)

Lemma process_inv_start ps ps' n p p' :
  process_inv ps -> current_process ps = None -> process_table ps !! n = Some p -> active p = true ->
  proc_wf p' -> p_pid p' = p_pid p -> p_state p' = PROCESS_RUNNING ->
  process_table ps' = <[n := p']> (process_table ps) -> next_pid ps' = next_pid ps ->
  process_count ps' = process_count ps -> current_process ps' = Some n -> process_inv ps'.
Proof.
  intros Hinv Hcur Ep Ha Hw Epid Est Et En Ec Ecur. pose proof (pv_next _ Hinv).
  assert (Ea : active p' = true) by (unfold active, pstate_is; by rewrite Est).
  apply (process_inv_insert ps ps' n p p'); rewrite ?En, ?Ec, ?Ea, ?Ha; try done; try lia.
  - intros _. rewrite Epid. split; [by apply (pv_pids _ Hinv n)|by left].
  - intros j q _ Eq Hr. rewrite (pv_running _ Hinv j q Eq Hr) in Hcur. done.
  - intros j. rewrite Ecur. intros [= <-]. rewrite decide_True by done. by left.
Qed.

(** Replacing a process that has ended, when no process is current any more. *)
Lemma process_inv_stop ps ps' n p p' :
  process_inv ps -> (current_process ps = None \/ current_process ps = Some n) ->
  process_table ps !! n = Some p -> active p = true -> proc_wf p' -> p_pid p' = p_pid p -> ended p' = true ->
  process_table ps' = <[n := p']> (process_table ps) -> next_pid ps' = next_pid ps ->
  process_count ps' = process_count ps -> current_process ps' = None -> process_inv ps'.
Proof.
  intros Hinv Hcur Ep Ha Hw Epid Est Et En Ec Ecur. pose proof (pv_next _ Hinv).
  assert (Ea : active p' = true) by (by apply ended_active).
  apply (process_inv_insert ps ps' n p p'); rewrite ?En, ?Ec, ?Ea, ?Ha, ?Ecur; try done; try lia.
  - intros _. rewrite Epid. split; [by apply (pv_pids _ Hinv n)|by left].
  - intros j q Hj Eq Hr. rewrite (pv_running _ Hinv j q Eq Hr) in Hcur. destruct Hcur; congruence.
  - intros Hr. unfold ended, pstate_is in Est. by rewrite Hr in Est.
Qed.

(** What the parts of [process_run] do to the table. *)
Definition started_process (p : process_t) : process_t :=
  p <| p_state := PROCESS_RUNNING |> <| p_runs ::= incr |> <| p_exit_code := 0 |> <| p_last_status := KERNEL_OK |>.

Definition finished (status : Z) (p : process_t) : process_t :=
  match p_state p with
  | PROCESS_RUNNING => p <| p_state := if status =? KERNEL_OK then PROCESS_EXITED else PROCESS_FAILED |>
                         <| p_exit_code := if status =? KERNEL_OK then 0 else -1 |> <| p_last_status := status |>
  | _ => p <| p_last_status := status |>
  end.

(** A state with a new table, current process and record. *)
Definition with_table (ps : process_state) tbl cur i : process_state :=
  ps <| process_table := tbl |> <| current_process := cur |> <| process_info := i |>.

Lemma with_table_eq ps ps' tbl cur :
  process_table ps' = tbl -> current_process ps' = cur -> next_pid ps' = next_pid ps ->
  process_count ps' = process_count ps -> ps' = with_table ps tbl cur (process_info ps').
Proof. destruct ps, ps'; cbn. by intros -> -> -> ->. Qed.

Lemma process_begin_run n p ps (Q : unit -> process_state -> Prop) :
  process_table ps !! n = Some p ->
  (forall i, Q tt (with_table ps (<[n := started_process p]> (process_table ps)) (Some n) i)) ->
  wp (process_begin n) Q ps.
Proof.
  intros Ep HQ. apply wp_bind, (wp_proc_at _ p); [done|]. apply wp_bind, wp_mod, wp_bind, wp_mod, wp_mod.
  lazymatch goal with |- Q tt ?X => rewrite (with_table_eq ps X (<[n := started_process p]> (process_table ps)) (Some n)) end;
    [apply HQ| |done|done|done]. by apply alter_insert.
Qed.

Lemma process_load_failed_run n p status ps (Q : unit -> process_state -> Prop) :
  process_table ps !! n = Some p ->
  (forall i, Q tt (with_table ps (<[n := p <| p_last_status := status |> <| p_state := PROCESS_FAILED |>]> (process_table ps))
     (current_process ps) i)) ->
  wp (process_load_failed n status) Q ps.
Proof.
  intros Ep HQ. apply wp_bind, (wp_proc_at _ p); [done|]. apply wp_bind, wp_mod, wp_bind, wp_mod, wp_mod.
  lazymatch goal with |- Q tt ?X => rewrite (with_table_eq ps X
    (<[n := p <| p_last_status := status |> <| p_state := PROCESS_FAILED |>]> (process_table ps)) (current_process ps)) end;
    [apply HQ| |done|done|done].
  exact (alter_insert (fun p => p <| p_last_status := status |> <| p_state := PROCESS_FAILED |>) n _ p Ep).
Qed.

Lemma process_finish_run n p status ps (Q : unit -> process_state -> Prop) :
  process_table ps !! n = Some p ->
  (forall i, Q tt (with_table ps (<[n := finished status p]> (process_table ps)) None i)) ->
  wp (process_finish n status) Q ps.
Proof.
  intros Ep HQ. apply wp_bind, (wp_proc_at _ p); [done|]. apply wp_bind.
  assert (Hend : forall ps1 f, process_table ps1 = alter f n (process_table ps) ->
    next_pid ps1 = next_pid ps -> process_count ps1 = process_count ps ->
    (f p) <| p_last_status := status |> = finished status p ->
    wp (upd_proc n (fun p => p <| p_last_status := status |>) ;;;
        mmod (fun s => s <| current_process := None |>) ;;;
        pinfo (fun i => i <| current_pid := PROCESS_INVALID_PID |> <| process_last_status := status |>) ;;;
        if status =? KERNEL_OK then pinfo (fun i => i <| process_successful_runs ::= incr |>)
        else pinfo (fun i => i <| process_failed_runs ::= incr |>)) Q ps1).
  { intros ps1 f Et En Ec Ef. apply wp_bind, wp_mod, wp_bind, wp_mod, wp_bind, wp_mod.
    assert (Ht : alter (fun p => p <| p_last_status := status |>) n (process_table ps1) =
      <[n := finished status p]> (process_table ps)).
    { rewrite Et, list_alter_alter_eq, <- Ef.
      exact (alter_insert ((fun p => p <| p_last_status := status |>) ∘ f) n _ p Ep). }
    destruct (status =? KERNEL_OK); apply wp_mod;
      (lazymatch goal with |- Q tt ?X => rewrite (with_table_eq ps X (<[n := finished status p]> (process_table ps)) None) end;
       [apply HQ|exact Ht|done|exact En|exact Ec]). }
  unfold finished in Hend. unfold pstate_is. destruct (p_state p) eqn:Est; cbn [bool_decide decide_rel]; cbn.
  all: try (apply wp_ret, (Hend _ (fun p => p)); [|done|done|by destruct p]; symmetry; by apply list_alter_id).
  destruct (status =? KERNEL_OK); cbn [mwhen]; apply wp_bind, wp_mod, wp_mod; by eapply Hend.
Qed.

Lemma proc_wf_same p p' :
  proc_wf p -> p_name p' = p_name p -> p_image_path p' = p_image_path p -> p_arguments p' = p_arguments p ->
  p_argv p' = p_argv p -> p_argc p' = p_argc p -> p_files p' = p_files p -> proc_wf p'.
Proof. intros [] E1 E2 E3 E4 E5 E6. constructor; rewrite ?E1, ?E2, ?E3, ?E4, ?E5, ?E6; done. Qed.

(** Programs start inside the code page. *)
Lemma path_program_entry fs path entry bytes :
  path_program fs path = Some (entry, bytes) ->
  RING3_USER_CODE_VIRTUAL <= entry < RING3_USER_CODE_VIRTUAL + 4096.
Proof.
  unfold path_program, registered_program. destruct (find_registration path) as [reg|]; [|done].
  destruct (registered_node fs reg); [done|]. destruct (vfs_nodes fs !! _) as [n|]; [|done].
  destruct (reg_kind reg); [done| |].
  - unfold flat_program. destruct (vn_data n); [|done]. destruct (_ && _); [|done]. intros [= <- _].
    unfold RING3_USER_CODE_VIRTUAL. lia.
  - unfold elf_program, elf_loadable. destruct (vn_data n) as [d|]; [|done].
    destruct (_ && _); [|done]. destruct (load_segments d) as [|ph [|]]; [done| |done].
    destruct (elf_segment_ok d (vn_size n) ph) eqn:Ok; [|done]. intros [= <- _].
    unfold elf_segment_ok in Ok. cbv zeta in Ok. bool_simpl. lia.
Qed.

Section ProcessRun.
Context (addr_tss_entry addr_syscall_stack : Z) (text_at_null : list Z).
Context (user_script : kernel_state -> Z -> Z -> list user_action).

Abbreviation prun := (process_run addr_tss_entry addr_syscall_stack text_at_null user_script).

(** Every program process [n] may run exits after at most [bound] actions. *)
Definition well_behaved (n bound : nat) : Prop :=
  forall st eip esp, running st n -> exists code, exits (user_script st eip esp) code bound.

(** What a run leaves alone. *)
Record run_frame (n : nat) (s s' : kernel_state) : Prop := {
  rf_inv : kernel_inv s';
  rf_current : current_process (k_proc s') = None;
  rf_nodes : k_nodes s' = k_nodes s;
  rf_root : vfs_root (k_vfs s') = vfs_root (k_vfs s);
  rf_others : forall j q, j <> n -> k_table s !! j = Some q -> active q = true -> k_table s' !! j = Some q;
  rf_console : exists out, console s' = console s ++ out
}.

(** The process after a run: still the same process, with its image path and its
    arguments; it exited with the code it passed, or its image could not be loaded. *)
Definition run_outcome (n bound : nat) (s : kernel_state) (p : process_t) (status : Z) (s' : kernel_state) : Prop :=
  exists p', k_table s' !! n = Some p' /\ identity p' = identity p /\ p_last_status p' = status /\
  if status =? KERNEL_OK then
    p_state p' = PROCESS_EXITED /\ usable s' /\
    exists entry bytes st code, path_program (k_vfs s) (p_image_path p) = Some (entry, bytes) /\
      holds_program st bytes /\ exits (user_script st entry 0x10001FF0) code bound /\ p_exit_code p' = s32 code
  else p_state p' = PROCESS_FAILED /\ console s' = console s /\
    (usable s -> path_program (k_vfs s) (p_image_path p) = None).

(** [upd_proc] through the kernel state. *)
Lemma wp_kernel_upd n p f (Q : unit -> kernel_state -> Prop) s :
  k_table s !! n = Some p ->
  Q tt (s <| k_proc ::= fun ps => ps <| process_table := <[n := f p]> (process_table ps) |> |>) ->
  wp (on_proc (upd_proc n f)) Q s.
Proof.
  intros Ep HQ. apply wp_on_proc, wp_mod. rewrite (upd_state _ n p) by done. exact HQ.
Qed.

(** Entering user mode with a loaded program. *)
Lemma process_enter_ok s n bound p :
  kernel_inv s -> usable s -> current_process (k_proc s) = None -> k_table s !! n = Some p -> active p = true ->
  p_entry p <> 0 -> p_user_stack p <> 0 -> well_behaved n bound ->
  next_pid (k_proc s) + Z.of_nat bound < 4294967296 ->
  wp (process_enter addr_tss_entry addr_syscall_stack user_script n) (fun status s' => status = KERNEL_OK /\
    run_frame n s s' /\ usable s' /\
    next_pid (k_proc s) <= next_pid (k_proc s') <= next_pid (k_proc s) + Z.of_nat bound /\
    exists p' st code, k_table s' !! n = Some p' /\ identity p' = identity p /\ p_last_status p' = KERNEL_OK /\
      p_state p' = PROCESS_EXITED /\ p_exit_code p' = s32 code /\ kmem st = kmem s /\
      same_pages (ring3_info s) (ring3_info st) /\ exits (user_script st (p_entry p) (p_user_stack p)) code bound) s.
Proof.
  intros Hinv Hus Hcur Ep Ha He Hs Hwb Hnext.
  assert (Hw : proc_wf p) by (exact (Forall_lookup_1 _ _ _ _ (pv_wf _ (ki_proc _ Hinv)) Ep)).
  assert (Hn : (n < length (k_table s))%nat) by (by eapply lookup_lt_Some).
  unfold process_enter. wp_step. apply wp_on_proc, (process_begin_run n p); [done|]. intros i1.
  set (s1 := set_field k_proc _ _).
  set (p1 := p <| p_state := PROCESS_RUNNING |> <| p_runs ::= incr |> <| p_exit_code := 0 |> <| p_last_status := KERNEL_OK |>).
  assert (Et1 : k_table s1 = <[n := p1]> (k_table s)) by done.
  assert (Hq1 : quiet s s1) by done.
  assert (Hinv1 : kernel_inv s1).
  { apply (kernel_inv_quiet s); [done|done| |].
    - apply (process_inv_start (k_proc s) _ n p p1); try done; [apply Hinv|]. by apply (proc_wf_same p).
    - rewrite Et1. apply Forall_insert; [apply Hinv|]. exact (Forall_lookup_1 _ _ _ _ (ki_files _ Hinv) Ep). }
  assert (Hrun1 : running s1 n) by (constructor; [done|apply Hus|done]).
  assert (Ep1 : k_table s1 !! n = Some p1) by (rewrite Et1; by apply list_lookup_insert_eq).
  wp_step. apply (wp_kernel_proc _ p1); [done|]. wp_step.
  eapply wp_mono; [apply (ring3_run_ok addr_tss_entry addr_syscall_stack user_script s1 n bound); try done|].
  { intros st Hst. by apply Hwb. }
  intros status s2 (-> & Hrn & Hp & _ & st & code & p2 & Hst & Hmem & Hex & Ep2 & Hst2 & Hc2).
  pose proof (rn_running _ _ _ Hrn) as Hrun2. pose proof (ru_inv _ _ Hrun2) as Hinv2.
  assert (Hw2 : proc_wf p2) by (exact (Forall_lookup_1 _ _ _ _ (pv_wf _ (ki_proc _ Hinv2)) Ep2)).
  assert (Hn2 : (n < length (k_table s2))%nat) by (by eapply lookup_lt_Some).
  wp_step. apply wp_on_proc, (process_finish_run n p2); [done|]. intros i3. unfold finished. rewrite Hst2. wp_step.
  set (s3 := set_field k_proc _ _). set (p3 := p2 <| p_last_status := KERNEL_OK |>).
  assert (Et3 : k_table s3 = <[n := p3]> (k_table s2)) by done.
  assert (Hq3 : quiet s2 s3) by done.
  assert (Hinv3 : kernel_inv s3).
  { apply (kernel_inv_quiet s2); [done|done| |].
    - apply (process_inv_stop (k_proc s2) _ n p2 p3); try done; [apply Hinv2|right; apply Hrun2| | |].
      + unfold active, pstate_is. by rewrite Hst2.
      + by apply (proc_wf_same p2).
      + unfold ended, pstate_is. change (p_state p3) with (p_state p2). by rewrite Hst2.
    - rewrite Et3. apply Forall_insert; [apply Hinv2|]. exact (Forall_lookup_1 _ _ _ _ (ki_files _ Hinv2) Ep2). }
  assert (Hpid : identity p2 = identity p).
  { destruct (rn_self _ _ _ Hrn) as (q & q' & Eq & Eq' & Epid). rewrite Ep1 in Eq. injection Eq as <-.
    rewrite Ep2 in Eq'. by injection Eq' as <-. }
  split; [done|]. split; [|split; [|split; [done|]]].
  - constructor; [done|done|exact (rn_nodes _ _ _ Hrn)|exact (rn_root _ _ _ Hrn)| |exact (rn_console _ _ _ Hrn)].
    intros j q Hj Eq Haq. rewrite Et3, list_lookup_insert_ne by done. apply (rn_others _ _ _ Hrn j q Hj); [|done].
    by rewrite Et1, list_lookup_insert_ne.
  - destruct (rn_ring3 _ _ _ Hrn) as [(_ & Er & _) El]. split.
    + change (ring3_info s3) with (ring3_info s2). rewrite Er. apply Hus.
    + change (ring3_info s3) with (ring3_info s2). rewrite El. apply Hus.
  - exists p3, st, code. split; [rewrite Et3; by apply list_lookup_insert_eq|]. split; [done|].
    split; [done|]. split; [done|]. split; [done|]. split; [done|]. split; [|done].
    apply (rn_ring3 _ _ _ Hst).
Qed.

Lemma process_run_ok s n bound p :
  kernel_inv s -> current_process (k_proc s) = None -> k_table s !! n = Some p ->
  (p_state p = PROCESS_READY \/ p_state p = PROCESS_EXITED) -> char_at (p_image_path p) 0 <> 0 ->
  well_behaved n bound -> next_pid (k_proc s) + Z.of_nat bound < 4294967296 ->
  wp (prun (Some n)) (fun status s' => run_frame n s s' /\ run_outcome n bound s p status s' /\
    next_pid (k_proc s) <= next_pid (k_proc s') <= next_pid (k_proc s) + Z.of_nat bound) s.
Proof.
  intros Hinv Hcur Ep Hst Hpath Hwb Hnext.
  assert (Ha : active p = true) by (unfold active, pstate_is; by destruct Hst as [-> | ->]).
  assert (Hw : proc_wf p) by (exact (Forall_lookup_1 _ _ _ _ (pv_wf _ (ki_proc _ Hinv)) Ep)).
  assert (Hn : (n < length (k_table s))%nat) by (by eapply lookup_lt_Some).
  assert (Hfiles : Forall (file_ok (k_nodes s)) (p_files p)) by (exact (Forall_lookup_1 _ _ _ _ (ki_files _ Hinv) Ep)).
  unfold process_run, process_load, k_pinfo.
  wp_step. apply wp_on_proc. unfold pinfo at 1. apply wp_mod. set (s1 := set_field k_proc _ s).
  assert (Hq1 : quiet s s1) by done. assert (Ep1 : k_table s1 !! n = Some p) by done.
  assert (Hinv1 : kernel_inv s1).
  { apply (kernel_inv_quiet s); [done|done| |apply Hinv]. destruct (ki_proc _ Hinv). constructor; done. }
  wp_step. apply (wp_kernel_proc _ p); [done|].
  replace (negb (pstate_is p PROCESS_READY) && negb (pstate_is p PROCESS_EXITED)) with false
    by (unfold pstate_is; by destruct Hst as [-> | ->]).
  rewrite (proj2 (Z.eqb_neq _ _)) by done. cbn [negb]. wp_step. wp_step.
  eapply wp_mono; [apply (user_image_resolve_ok addr_syscall_stack text_at_null s1 (p_image_path p)); apply Hinv1|].
  intros [st o] s2 [Hf Hcase]. change (k_vfs s1) with (k_vfs s) in Hcase.
  assert (Hinv2 : kernel_inv s2) by (by apply (load_frame_inv s1)).
  pose proof (lf_proc _ _ Hf) as Epr. assert (Ep2 : k_table s2 !! n = Some p) by (by rewrite Epr).
  assert (Hcur2 : current_process (k_proc s2) = None) by (by rewrite Epr).
  destruct o as [img|].
  - destruct Hcase as (-> & Hus & Hstk & bytes & Hprog & Hhold). eval_status. wp_step.
    change (KERNEL_OK =? KERNEL_OK) with true. cbn [mwhen]. apply (wp_kernel_upd n p); [done|]. apply wp_ret.
    set (s3 := set_field k_proc _ s2). eval_status.
    set (p3 := p <| p_entry := img_entry img |> <| p_user_stack := img_user_stack_top img |>).
    assert (Et3 : k_table s3 = <[n := p3]> (k_table s2)) by done. assert (Hq3 : quiet s2 s3) by done.
    assert (Hn2 : (n < length (k_table s2))%nat) by (by rewrite Epr).
    assert (Ep3 : k_table s3 !! n = Some p3) by (rewrite Et3; by apply list_lookup_insert_eq).
    assert (Hinv3 : kernel_inv s3).
    { apply (kernel_inv_quiet s2); [done|done| |].
      - apply (process_inv_update (k_proc s2) n p p3); try done; [apply Hinv2|]. by apply (proc_wf_same p).
      - rewrite Et3. apply Forall_insert; [apply Hinv2|]. change (p_files p3) with (p_files p).
        by rewrite (lf_nodes _ _ Hf). }
    pose proof (path_program_entry _ _ _ _ Hprog) as Hent. unfold RING3_USER_CODE_VIRTUAL in Hent.
    assert (Enx : next_pid (k_proc s3) = next_pid (k_proc s)).
    { change (next_pid (k_proc s3)) with (next_pid (k_proc s2)). by rewrite Epr. }
    eapply wp_mono; [apply (process_enter_ok s3 n bound p3); try done|].
    { change (p_entry p3) with (img_entry img). lia. }
    { change (p_user_stack p3) with (img_user_stack_top img). lia. }
    { by rewrite Enx. }
    intros status s4 (-> & [Hi4 Hc4 Hn4 Hr4 Ho4 Hcs4] & Hus4 & Hp4 & p' & st & code & Ep' & Epid & Els & Est & Eec & Hmem & Hsp & Hex).
    rewrite Enx in Hp4. split; [|split; [|done]].
    + constructor; [done|done| | | |].
      * by rewrite Hn4, (q_nodes _ _ Hq3), (lf_nodes _ _ Hf).
      * by rewrite Hr4, (q_root _ _ Hq3), (lf_root _ _ Hf).
      * intros j q Hj Eq Haq. apply Ho4; [done| |done]. rewrite Et3, list_lookup_insert_ne by done. by rewrite Epr.
      * destruct Hcs4 as [out E]. exists out. by rewrite E, (q_console _ _ Hq3), (lf_console _ _ Hf).
    + exists p'. split; [done|]. split; [done|]. split; [done|]. eval_status. split; [done|]. split; [done|].
      exists (img_entry img), bytes, st, code. split; [done|]. split; [|split; [by rewrite <- Hstk|done]].
      destruct Hhold as [Hr2 Hpg]. destruct Hsp as (_ & Erd & Ecp & _). split.
      * rewrite Erd. exact Hr2.
      * rewrite Ecp, Hmem. exact Hpg.
  - destruct Hcase as [Hne Hno]. apply wp_ret. rewrite (proj2 (Z.eqb_neq st KERNEL_OK)) by done. cbn [negb].
    wp_step. apply wp_on_proc, (process_load_failed_run n p); [done|]. intros i3. apply wp_ret.
    set (s3 := set_field k_proc _ _). set (p3 := p <| p_last_status := st |> <| p_state := PROCESS_FAILED |>).
    assert (Et3 : k_table s3 = <[n := p3]> (k_table s2)) by done. assert (Hq3 : quiet s2 s3) by done.
    assert (Hn2 : (n < length (k_table s2))%nat) by (by rewrite Epr).
    split; [|split].
    + constructor; [| |by rewrite (q_nodes _ _ Hq3), (lf_nodes _ _ Hf)
                      |by rewrite (q_root _ _ Hq3), (lf_root _ _ Hf)| |].
      * apply (kernel_inv_quiet s2); [done|done| |].
        -- apply (process_inv_stop (k_proc s2) _ n p p3); try done; [apply Hinv2|by left|]. by apply (proc_wf_same p).
        -- rewrite Et3. apply Forall_insert; [apply Hinv2|]. change (p_files p3) with (p_files p).
           by rewrite (lf_nodes _ _ Hf).
      * change (current_process (k_proc s3)) with (current_process (k_proc s2)). done.
      * intros j q Hj Eq _. rewrite Et3, list_lookup_insert_ne by done. by rewrite Epr.
      * exists []. rewrite app_nil_r. by rewrite (q_console _ _ Hq3), (lf_console _ _ Hf).
    + exists p3. split; [rewrite Et3; by apply list_lookup_insert_eq|]. split; [done|]. split; [done|].
      rewrite (proj2 (Z.eqb_neq st KERNEL_OK)) by done. split; [done|].
      split; [by rewrite (q_console _ _ Hq3), (lf_console _ _ Hf)|]. intros Hu. by apply Hno.
    + change (next_pid (k_proc s3)) with (next_pid (k_proc s2)). rewrite Epr.
      change (next_pid (k_proc s1)) with (next_pid (k_proc s)). lia.
Qed.

(** ** exec_spawn *)

Lemma registered_path_text path reg :
  find_registration path = Some reg -> (length (cstr path) <= 63)%nat /\ cstr path <> [].
Proof.
  intros [Hin ->]%find_registration_in.
  assert (Forall (fun r => (length (cstr (reg_path r)) <= 63)%nat /\ cstr (reg_path r) <> []) registered_images) as H.
  { repeat (apply Forall_cons; split; [split; [vm_compute; lia|done]|]). constructor. }
  by apply (proj1 (Forall_forall _ _) H).
Qed.

(** Only the program of [path] is run, as a fresh process; in the final table its
    slot holds that process, with the next pid, the name and the image path of the
    program, and as argument vector the name followed by the words of [line]. Every
    other process is as before. *)
Definition spawn_outcome (bound : nat) (s : kernel_state) (path line : list Z) (r : Z * option nat)
    (s' : kernel_state) : Prop :=
  kernel_inv s' /\ current_process (k_proc s') = None /\ k_nodes s' = k_nodes s /\
  (forall j q, k_table s !! j = Some q -> active q = true -> k_table s' !! j = Some q) /\
  match r with
  | (status, None) => status <> KERNEL_OK /\ create_refused s path status
  | (status, Some n) => exists reg p0 p', created_process reg path line (next_pid (k_proc s)) p0 /\
      run_outcome n bound s p0 status s' /\ k_table s' !! n = Some p' /\
      p_pid p' = next_pid (k_proc s) /\ find_registration path = Some reg /\
      cstr (p_name p') = cstr (reg_name reg) /\ cstr (p_image_path p') = cstr path /\
      p_argc p' = 1 + Z.of_nat (length (argument_words line)) /\
      cstr <$> p_argv p' = cstr (reg_name reg) :: argument_words line ++
        replicate (7 - length (argument_words line)) []
  end.

Lemma path_program_same fs fs' path :
  vfs_nodes fs' = vfs_nodes fs -> vfs_root fs' = vfs_root fs -> path_program fs' path = path_program fs path.
Proof.
  intros En Er. unfold path_program, registered_program, registered_node, lookup_result. by rewrite En, Er.
Qed.

Lemma run_outcome_quiet n bound s s1 p status s2 s3 :
  quiet s s1 -> quiet s2 s3 -> k_proc s3 = k_proc s2 ->
  run_outcome n bound s1 p status s2 -> console s1 = console s -> run_outcome n bound s p status s3.
Proof.
  intros Hq Hq3 Ep (p' & E1 & E2 & E3 & E4) Hc. exists p'. rewrite Ep. split; [done|]. split; [done|].
  split; [done|]. unfold usable in *. rewrite (q_ring3 _ _ Hq3).
  assert (Evf : path_program (k_vfs s1) (p_image_path p) = path_program (k_vfs s) (p_image_path p))
    by (apply path_program_same; apply Hq).
  rewrite Evf, (q_ring3 _ _ Hq), Hc in E4. by rewrite (q_console _ _ Hq3).
Qed.

Lemma exec_spawn_ok s path line bound :
  kernel_inv s -> current_process (k_proc s) = None -> (forall n, well_behaved n bound) ->
  next_pid (k_proc s) + 1 + Z.of_nat bound < 4294967296 -> Z.of_nat (length line) < 4294967296 ->
  wp (exec_spawn_with_args addr_tss_entry addr_syscall_stack text_at_null user_script (Some path) (Some line) true)
    (spawn_outcome bound s path line) s.
Proof.
  intros Hinv Hcur Hwb Hnext Hl. unfold exec_spawn_with_args. wp_step.
  eapply wp_mono; [apply (exec_create_ok s path (Some line)); [done|lia|done]|].
  intros [st [n|]] s1 (Hq & Hinv1 & Hcur1 & Ho).
  2:{ destruct Ho as (Hst & Href & Et & _). rewrite (proj2 (Z.eqb_neq st KERNEL_OK)) by done. cbn [negb].
      apply wp_ret. split; [done|]. split; [by rewrite Hcur1|]. split; [apply Hq|]. by rewrite Et. }
  destruct Ho as (-> & Hnx & reg & q & p & Er & Eq & Hqa & Et & Hcp). eval_status.
  assert (Hn : (n < length (k_table s))%nat) by (by eapply lookup_lt_Some).
  destruct (registered_path_text _ _ Er) as [Hlen Hne].
  assert (Etext : cstr (p_image_path p) = cstr path) by (rewrite (cp_path _ _ _ _ _ Hcp); by apply take_ge).
  wp_step. eapply wp_mono; [apply (process_run_ok s1 n bound p); try done|].
  { by rewrite Hcur1. }
  { rewrite Et. by apply list_lookup_insert_eq. }
  { left. apply Hcp. }
  { intros E0. apply Hne. rewrite <- Etext. destruct (p_image_path p) as [|c r]; [done|].
    change (c = 0) in E0. subst c. done. }
  { rewrite Hnx. lia. }
  intros status s2 ([Hi2 Hc2 Hn2 Hr2 Ho2 Hcs2] & Hout & Hp2).
  pose proof Hout as (p2 & Ep2 & Eid & _). wp_step. apply (wp_kernel_proc _ p2); [done|]. unfold ex_info.
  assert (Hold : forall j q', k_table s !! j = Some q' -> active q' = true -> k_table s2 !! j = Some q').
  { intros j q' Ej Ha. assert (j <> n) by (intros ->; congruence). apply Ho2; [done| |done].
    by rewrite Et, list_lookup_insert_ne. }
  assert (Hfin : forall s3, quiet s2 s3 -> k_proc s3 = k_proc s2 -> spawn_outcome bound s path line (status, Some n) s3).
  { intros s3 Hq3 Ep3. split; [by apply (kernel_inv_same s2)|]. rewrite Ep3. split; [done|].
    split; [by rewrite (q_nodes _ _ Hq3), Hn2, (q_nodes _ _ Hq)|]. split; [done|]. exists reg, p, p2.
    split; [done|]. split; [apply (run_outcome_quiet n bound s s1 p status s2); try done; apply Hq|].
    split; [done|]. injection Eid as E1 E2 E3 _ E5 E6. rewrite E1, E2, E3, E5, E6, Etext.
    destruct Hcp. by split_and!. }
  wp_step. wp_step. wp_step. apply wp_when; intros _; wp_steps; by apply Hfin.
Qed.
End ProcessRun.
