(* ===== verification/StartProofs.v ===== *)
(** * The initial file system and the start of user space *)
From S2P Require Import Prelude Mem KString Boot Pmm Vmm Pages Vfs Initramfs VfsProofs Process ProcessProofs KState FdTable.
From S2P Require Import Ring3 Loader Syscall Run UserMem Ring3Proofs KernelInv FdProofs UserCopy SyscallProofs ExecProofs.
From S2P Require Import SyscallTheorems ElfProofs LoaderProofs RunProofs ProcessRun.

Section Mounted.
Context (images : embedded_images).

Definition images_list : list (list Z) :=
  [ring3_user_image images; ring3_hello_image images; ring3_syscheck_image images;
   ring3_sysbadptr_image images; ring3_pid_image images; ring3_ticks_image images;
   ring3_about_image images; ring3_os_release_image images; ring3_cat_image images;
   ring3_clear_image images; ring3_help_image images; ring3_args_image images;
   ring3_echo_image images; ring3_sh_image images; ring3_uptime_image images].

(** The embedded programs are bytes. *)
Definition images_ok : Prop := Forall is_bytes images_list.

Definition mounted_map : gmap Z vfs_node_t :=
  foldl (fun m '(p, n) => <[p := n]> m) ∅ (initramfs_nodes images).

Lemma foldl_insert_lookup (l : list (Z * vfs_node_t)) (m : gmap Z vfs_node_t) p n :
  foldl (fun m '(p, n) => <[p := n]> m) m l !! p = Some n -> (p, n) ∈ l \/ m !! p = Some n.
Proof.
  revert m. induction l as [|[q x] l IH]; intros m; [by right|]. cbn [foldl]. intros H.
  destruct (IH _ H) as [Hin|Hm]; [left; by right|].
  destruct (decide (q = p)) as [->|Hne].
  - rewrite lookup_insert_eq in Hm. injection Hm as <-. left. by left.
  - rewrite lookup_insert_ne in Hm by done. by right.
Qed.

Lemma leaf_ok nodes name path type data mode parent :
  is_bytes data -> (Z.of_nat (length (cstr (str name))) < 4294967296) ->
  node_ok nodes (leaf_node name path type data mode parent).
Proof.
  intros Hd Hn. constructor; cbn [vn_child_count vn_children vn_name vn_size vn_data leaf_node]; try done.
  - intros c Hc. by apply not_elem_of_nil in Hc.
  - by intros nm [= <-].
  - apply u32_range.
  - intros d [= <-]. split; [|done]. unfold u32. apply Z.mod_le; lia.
Qed.

Lemma directory_ok nodes name path parent children :
  Forall (fun c => is_Some (nodes !! c)) children -> (Z.of_nat (length (cstr (str name))) < 4294967296) ->
  node_ok nodes (directory_node name path parent children).
Proof.
  intros Hc Hn. constructor; cbn [vn_child_count vn_children vn_name vn_size vn_data directory_node]; try done.
  - intros c Hin _. by eapply Forall_forall in Hc.
  - by intros nm [= <-].
Qed.

(** Checks that evaluate. *)
Definition children_present (nodes : gmap Z vfs_node_t) (children : list Z) : bool :=
  forallb (fun c => match nodes !! c with Some _ => true | None => false end) children.

Lemma children_present_ok nodes children :
  children_present nodes children = true -> Forall (fun c => is_Some (nodes !! c)) children.
Proof.
  intros H. unfold children_present in H. rewrite forallb_forall in H. apply Forall_forall.
  intros c Hc. apply list_elem_of_In, H in Hc. destruct (nodes !! c); [by eexists|done].
Qed.

Definition bytes_check (d : list Z) : bool := forallb (fun b => (0 <=? b) && (b <? 256)) d.

Lemma bytes_check_ok d : bytes_check d = true -> is_bytes d.
Proof.
  intros H. unfold bytes_check in H. rewrite forallb_forall in H. apply Forall_forall.
  intros b Hb. apply list_elem_of_In, H in Hb. bool_simpl. done.
Qed.

Lemma mounted_nodes_ok : images_ok -> Forall (fun x => node_ok mounted_map (snd x)) (initramfs_nodes images).
Proof.
  intros Hi. unfold images_ok, images_list in Hi. repeat (apply Forall_cons in Hi as [? Hi]).
  unfold initramfs_nodes, initramfs_directories, initramfs_programs, initramfs_files. cbn [app].
  repeat (apply Forall_cons; split; [cbn [snd]; first
    [ apply directory_ok; [apply children_present_ok; vm_compute; reflexivity|vm_compute; reflexivity]
    | apply leaf_ok; [first [eassumption|apply bytes_check_ok; vm_compute; reflexivity]|vm_compute; reflexivity] ]|]).
  constructor.
Qed.

Lemma mounted_tree : images_ok -> tree_ok mounted_map.
Proof.
  intros Hi. split; [by vm_compute|]. intros p n H. apply foldl_insert_lookup in H as [H|H].
  - exact (proj1 (Forall_forall _ _) (mounted_nodes_ok Hi) (p, n) H).
  - by rewrite lookup_empty in H.
Qed.

(** The mounted file system, whatever the record of past calls. *)
Definition mounted_fs (info : vfs_info_t) : vfs_state :=
  {| vfs_nodes := mounted_map; vfs_root := root_node; vfs_info := info |}.

(** Counting changes nothing. *)
Lemma count_same depth : forall node v k v', vfs_count_nodes_recursive depth node v = Some (k, v') -> v' = v.
Proof.
  induction depth as [|depth IH]; intros node v k v'; [done|]. cbn [vfs_count_nodes_recursive].
  destruct (node =? 0); [by intros [= _ <-]|]. unfold mbind_ at 1, node_at.
  destruct (vfs_nodes v !! node) as [n|]; [|done]. generalize 1 as acc.
  induction (seqZ 0 (vn_child_count n)) as [|i l IHl]; intros acc; cbn [mfold]; [by intros [= _ <-]|].
  unfold mbind_ at 1 2 3, array_at. destruct (vn_children n !! Z.to_nat i) as [c|]; [|done].
  destruct (vfs_count_nodes_recursive depth c v) as [[k1 v1]|] eqn:E; [|done].
  rewrite (IH _ _ _ _ E). cbn [mret_]. apply IHl.
Qed.

Lemma mounted_count info : vfs_count_nodes root_node (mounted_fs info) = Some (25, mounted_fs info).
Proof.
  assert (fst <$> vfs_count_nodes root_node (mounted_fs info) = Some 25) as H by (vm_compute; reflexivity).
  destruct (vfs_count_nodes root_node (mounted_fs info)) as [[k v]|] eqn:E; [|done].
  injection H as ->. do 2 f_equal. unfold vfs_count_nodes, mbind_, mget in E. by eapply count_same.
Qed.

Lemma mounted_lookup node n : (node, n) ∈ initramfs_nodes images -> mounted_map !! node = Some n.
Proof.
  intros Hin. assert (Forall (fun x => mounted_map !! fst x = Some (snd x)) (initramfs_nodes images)) as H
    by (repeat (apply Forall_cons; split; [reflexivity|]); constructor).
  exact (proj1 (Forall_forall _ _) H (node, n) Hin).
Qed.

(** Every node is found under its own path. *)
Definition path_leads_back (fs : vfs_state) (x : Z * vfs_node_t) : bool :=
  match vn_path (snd x) with
  | Some path => bool_decide (lookup_result fs path = (KERNEL_OK, Some (fst x)))
  | None => false
  end.

Lemma mounted_paths info : forallb (path_leads_back (mounted_fs info)) (initramfs_nodes images) = true.
Proof. vm_compute. reflexivity. Qed.

Lemma mounted_fs_ok info : images_ok -> vfs_initialized info = true -> fs_ok (mounted_fs info).
Proof.
  intros Hi Hinit. constructor; [by apply mounted_tree|done|]. by eexists.
Qed.

Lemma define_nodes_ok (f : initramfs_state) :
  vfs_nodes (ifs_vfs f) = ∅ ->
  wp (initramfs_define_nodes images) (fun _ f' => f' = f <| ifs_vfs ::= fun v => v <| vfs_nodes := mounted_map |> |>) f.
Proof.
  intros E0. unfold initramfs_define_nodes, on_vfs. apply wp_zoom.
  apply (wp_for _ _ (fun l v => v = (ifs_vfs f) <| vfs_nodes := foldl (fun m '(p, n) => <[p := n]> m) ∅ l |>)).
  - cbn [foldl]. rewrite <- E0. by destruct (ifs_vfs f).
  - intros l [p n] r v _ ->. apply wp_mod. rewrite foldl_app. by destruct (ifs_vfs f).
  - intros v ->. by destruct f.
Qed.

Lemma mount_tree_ok v :
  vfs_nodes v = mounted_map -> vfs_initialized (vfs_info v) = true ->
  wp (vfs_mount_static_tree root_node) (fun status v' => status = KERNEL_OK /\
    exists info, vfs_initialized info = true /\ mounted_nodes info = 25 /\ v' = mounted_fs info) v.
Proof.
  destruct v as [nodes root info]. cbn [vfs_nodes vfs_info]. intros -> Hi.
  unfold vfs_mount_static_tree, vfs_set_last_status, vinfo. wp_step. wp_step. cbn [vfs_info]. rewrite Hi. cbn [negb].
  wp_step. change (root_node =? 0) with false. cbv iota. wp_step.
  apply (wp_node_at _ _ (directory_node "" "/" 0 root_children)); [done|]. wp_step.
  change (negb (is_type _ VFS_NODE_DIRECTORY)) with false. cbv iota. wp_step. wp_step. wp_step.
  eexists _, _. split; [exact (mounted_count info)|]. wp_steps. split; [done|].
  exists (info <| mounted_nodes := 25 |> <| vfs_last_status := KERNEL_OK |>). done.
Qed.

(** Setting up the file system. *)
Lemma initramfs_initialize_ok (f : initramfs_state) :
  vfs_nodes (ifs_vfs f) = ∅ ->
  wp (initramfs_initialize images) (fun _ f' => vfs_nodes (ifs_vfs f') = mounted_map /\
    vfs_info (ifs_vfs f') = vfs_info (ifs_vfs f) /\ initramfs_initialized (initramfs_info f') = true /\
    node_count (initramfs_info f') = 25 /\ mount_count (initramfs_info f') = 0) f.
Proof.
  intros E0. unfold initramfs_initialize. wp_step.
  eapply wp_mono; [by apply define_nodes_ok|]. intros _ f2 ->. by wp_steps.
Qed.

Lemma initramfs_mount_ok (f : initramfs_state) :
  vfs_nodes (ifs_vfs f) = mounted_map -> vfs_initialized (vfs_info (ifs_vfs f)) = true ->
  initramfs_initialized (initramfs_info f) = true ->
  wp initramfs_mount (fun status f' => status = KERNEL_OK /\
    node_count (initramfs_info f') = node_count (initramfs_info f) /\
    mount_count (initramfs_info f') = incr (mount_count (initramfs_info f)) /\
    exists info, vfs_initialized info = true /\ mounted_nodes info = 25 /\ ifs_vfs f' = mounted_fs info) f.
Proof.
  intros En Ei Ef. unfold initramfs_mount. wp_step. wp_step. rewrite Ef. cbn [negb]. wp_step. apply wp_zoom.
  eapply wp_mono; [by apply mount_tree_ok|]. intros st v' (-> & info & Hi & Hm & ->).
  wp_step. wp_step. change (KERNEL_OK =? KERNEL_OK) with true. cbn [mwhen]. wp_steps.
  split; [done|]. split; [done|]. split; [done|]. by exists info.
Qed.

(** ** The start of user space *)

(** The statics before [kernel_main] sets them up, and the page tables after
    [vmm_initialize]. *)
Record statics_ok (s : kernel_state) : Prop := {
  st_table : length (k_table s) = 16%nat;
  st_wf : Forall proc_wf (k_table s);
  st_copy : length (syscall_copy_buffer s) = 512%nat;
  st_ticks : is_u32 (timer_ticks s);
  st_nodes : k_nodes s = ∅;
  st_ring3 : r3_initialized (ring3_info s) = false /\ r3_ready (ring3_info s) = false;
  st_vmm : vmm_ready (k_vmm s);
  st_unmapped : user_unmapped (k_vmm s);
  st_confined : user_confined (k_vmm s)
}.

Lemma kernel_start_ok addr_syscall_stack s :
  images_ok -> statics_ok s ->
  wp (kernel_main_userspace images addr_syscall_stack) (fun _ s' => kernel_inv s' /\
    current_process (k_proc s') = None /\ next_pid (k_proc s') = 1 /\
    (forall j p, k_table s' !! j = Some p -> active p = false) /\
    (exists info, k_vfs s' = mounted_fs info) /\
    (r3_last_status (ring3_info s') = KERNEL_OK -> usable s') /\
    (r3_last_status (ring3_info s') = KERNEL_OK \/ r3_last_status (ring3_info s') = KERNEL_ERROR_OUT_OF_MEMORY)) s.
Proof.
  intros Himg [Htl Hwf Hcp Htk Hnd [Hr3i Hr3r] Hv Hun Hco]. unfold kernel_main_userspace.
  wp_step. apply wp_on_proc. eapply wp_mono; [by apply process_initialize_ok|].
  intros _ ps (Hps & Hcur & Hnx & Hall). unfold fd_table_initialize, fd_info, syscall_initialize, sys_info.
  wp_step. wp_step. wp_step. wp_step. set (s1 := set_field syscall_info _ _). wp_step.
  eapply wp_mono; [apply (ring3_initialize_ok _ s1)|].
  { split; [done|]. cbv zeta. change (ring3_info s1) with (ring3_info s). rewrite Hr3r. split; [done|].
    rewrite Hr3i. done. }
  intros st s2 (Hr2 & [Hon Hent Hfr Honce Hdone] & -> & Hst). specialize (Hst Hr3i).
  wp_step. apply wp_on_files. unfold vfs_initialize, vinfo. wp_steps.
  set (s3 := with_vfs _ s2).
  assert (Hn3 : k_nodes s3 = ∅) by (change (k_nodes s3) with (k_nodes s2); rewrite Hon; exact Hnd).
  apply (wp_zoom k_fs (fun v s => s <| k_fs := v |>)). eapply wp_mono; [by apply initramfs_initialize_ok|].
  intros _ f4 (En4 & Ei4 & Ef4 & _). wp_step. apply (wp_zoom k_fs (fun v s => s <| k_fs := v |>)). get_set.
  eapply wp_mono; [apply initramfs_mount_ok; [done| |done]|].
  { by rewrite Ei4. }
  intros st f5 (-> & _ & _ & info & Hinfo & _ & Ef5). eval_status.
  unfold flat_binary_loader_initialize, elf32_initialize, user_image_initialize, exec_initialize, flat_info, elf_info, image_info, ex_info.
  wp_steps. set (s4 := set_field exec_info _ _).
  assert (Ep4 : k_proc s4 = ps) by (change (k_proc s4) with (k_proc s2); by rewrite Hon).
  assert (Evf4 : k_vfs s4 = mounted_fs info) by exact Ef5.
  assert (Hinv4 : kernel_inv s4).
  { constructor.
    - destruct Hr2 as [Hv2 Hr2]. by split.
    - rewrite Evf4. by apply mounted_fs_ok.
    - by rewrite Ep4.
    - rewrite Ep4. eapply Forall_impl; [exact Hall|]. intros p [_ ->]. by apply Forall_replicate.
    - change (fd_table_info s4) with (fd_table_info s2). by rewrite Hon.
    - change (syscall_copy_buffer s4) with (syscall_copy_buffer s2). by rewrite Hon.
    - change (timer_ticks s4) with (timer_ticks s2). by rewrite Hon.
    - done.
    - apply (user_confined_same (k_vmm s)); [done|]. exact Hent. }
  split; [done|]. rewrite Ep4. split; [done|]. split; [done|]. split; [|split; [by exists info|]].
  - intros j p Ej. by destruct (Forall_lookup_1 _ _ _ _ Hall Ej).
  - change (ring3_info s4) with (ring3_info s2). split; [|tauto]. intros E. split; [|done].
    destruct Hr2 as [_ Hr2]. cbv zeta in Hr2. change (ring3_info s4) with (ring3_info s2).
    destruct (r3_ready (ring3_info s2)); [done|]. destruct Hr2 as [_ Hr2]. exfalso. by apply Hr2.
Qed.
End Mounted.
