(* ===== verification/KernelSample.v ===== *)
(** * A concrete kernel

    The machine of [vmm_sample] after the set-up of user space, with small images
    in place of the assembled programs; the states at which the theorems of the
    next files are evaluated. *)
From S2P Require Import Prelude Mem KString Boot Pmm Vmm Pages Vfs Initramfs VfsProofs Process ProcessProofs KState FdTable.
From S2P Require Import Ring3 Loader Syscall Run UserMem Ring3Proofs KernelInv FdProofs UserCopy SyscallProofs ExecProofs.
From S2P Require Import SyscallTheorems ElfProofs LoaderProofs RunProofs ProcessRun StartProofs.

(** A run whose result was evaluated. *)
Lemma wp_final_value {S A} (m : M S A) Q s a : wp m Q s -> fst <$> m s = Some a -> Q a (final m s).
Proof.
  intros (b & s' & E & HQ) Ef. unfold final. rewrite E in *. cbn in Ef. injection Ef as ->. exact HQ.
Qed.

Definition sample_images : embedded_images :=
  Build_embedded_images [1; 2; 3] [4; 5] [] [] [] [] [] [] [] [] [] [] [] [] [].

Lemma sample_images_ok : images_ok sample_images.
Proof. repeat (apply Forall_cons; split; [apply bytes_check_ok; reflexivity|]). constructor. Qed.

(** Statics as the program loader clears them. *)
Definition zero_process : process_t := {|
  p_pid := 0; p_name := replicate 32 0; p_state := PROCESS_UNUSED; p_entry := 0; p_user_stack := 0;
  p_image_path := replicate 64 0; p_exit_code := 0; p_last_status := 0; p_runs := 0; p_argc := 0;
  p_arguments := replicate 128 0; p_argv := replicate 8 (replicate 64 0);
  p_files := replicate 16 closed_file |}.

Definition kernel_zero : kernel_state := {|
  k_vmm := vmm_sample;
  k_fs := {| ifs_vfs := {| vfs_nodes := ∅; vfs_root := 0;
                           vfs_info := Build_vfs_info_t false 0 0 0 0 0 0 (replicate 128 0) |};
             initramfs_info := Build_initramfs_info_t false 0 0 0 |};
  k_proc := {| process_table := replicate 16 zero_process; next_pid := 0; current_process := None;
               process_count := 0;
               process_info := Build_process_info_t false 0 0 0 0 0 0 0 0 0 0 0 0 0 0 0 0 0 (replicate 32 0) false 0 |};
  fd_table_info := Build_fd_table_info_t false 0 0 0 0 0 0 0 0 0 0 0 (replicate 128 0);
  ring3_info := Build_ring3_info_t false false false false 0 0 0 0 0 0 0 0 0 0 0 0 0 0 0 0 0;
  tss_info := Build_tss_info_t true false 0 0 0x9F000 0 0 0;
  flat_binary_info := Build_flat_binary_loader_info_t false 0 0 0 0 0 0 0 (replicate 64 0);
  elf32_info := Build_elf32_loader_info_t false 0 0 0 0 0 0 0 0 0 0 0 0 0 0 (replicate 128 0);
  user_image_info := Build_user_image_info_t false 0 0 0 0 (replicate 64 0);
  exec_info := Build_exec_info_t false 0 0 0 0 0 (replicate 64 0);
  syscall_info := Build_syscall_info_t 0 0 0 0 0 0;
  user_program_info := Build_user_program_info_t false 0 0 0 0 0 (replicate 32 0);
  syscall_copy_buffer := replicate 512 0;
  console := [];
  timer_ticks := 42 |}.

Lemma kernel_zero_ok : statics_ok kernel_zero.
Proof.
  constructor; try done.
  - apply Forall_replicate. constructor; try done; cbn; try lia. by apply (Forall_replicate _ 8%nat).
  - split; [apply vmm_sample_inv|done].
Qed.

Definition kernel_started : kernel_state := final (kernel_main_userspace sample_images 0x120000) kernel_zero.

Lemma kernel_started_status :
  (fun r => r3_last_status (ring3_info (snd r))) <$> kernel_main_userspace sample_images 0x120000 kernel_zero = Some 0.
Proof. vm_compute. reflexivity. Qed.

Lemma kernel_started_ok :
  kernel_inv kernel_started /\ current_process (k_proc kernel_started) = None /\
  next_pid (k_proc kernel_started) = 1 /\ (exists info, k_vfs kernel_started = mounted_fs sample_images info) /\
  usable kernel_started.
Proof.
  destruct (kernel_start_ok sample_images 0x120000 kernel_zero sample_images_ok kernel_zero_ok)
    as (a & s' & E & H1 & H2 & H3 & _ & H5 & H6 & _).
  pose proof kernel_started_status as Hs. unfold kernel_started, final. rewrite E in *. injection Hs as Hs.
  split; [done|]. split; [done|]. split; [done|]. split; [done|]. by apply H6.
Qed.

(** A process for an image, and the same while its program runs. *)
Definition with_process (path line : list Z) (s : kernel_state) : kernel_state :=
  final (exec_create_with_args (Some path) (Some line) true) s.

Lemma with_process_ok s path line j :
  kernel_inv s -> usable s -> current_process (k_proc s) = None -> next_pid (k_proc s) = 1 ->
  Z.of_nat (length line) < 4294967296 ->
  fst <$> exec_create_with_args (Some path) (Some line) true s = Some (KERNEL_OK, Some j) ->
  let s' := with_process path line s in
  kernel_inv s' /\ usable s' /\ current_process (k_proc s') = None /\ next_pid (k_proc s') = 2 /\
  k_nodes s' = k_nodes s /\ exists p reg, k_table s' !! j = Some p /\ created_process reg path line 1 p.
Proof.
  intros Hi Hu Hc Hn Hl E s'.
  pose proof (exec_create_ok s path (Some line) Hi ltac:(lia) Hl) as Hw.
  apply (fun H => wp_final_value _ _ _ _ H E) in Hw. fold (with_process path line s) in Hw. fold s' in Hw.
  destruct Hw as (Hq & Hinv & Hcur & _ & Hnx & reg & q & p & _ & Eq & _ & Et & Hcp).
  split; [done|]. split; [unfold usable; by rewrite (q_ring3 _ _ Hq)|]. split; [by rewrite Hcur|].
  split; [by rewrite Hnx, Hn|]. split; [apply Hq|]. exists p, reg. rewrite Hn in Hcp. split; [|done].
  rewrite Et. apply list_lookup_insert_eq. by eapply lookup_lt_Some.
Qed.

Definition entered (j : nat) (s : kernel_state) : kernel_state :=
  s <| k_proc ::= fun ps => ps <| process_table ::= alter (fun p => p <| p_state := PROCESS_RUNNING |>) j |>
                               <| current_process := Some j |> |>.

Lemma entered_ok s j p :
  kernel_inv s -> usable s -> current_process (k_proc s) = None -> k_table s !! j = Some p -> active p = true ->
  running (entered j s) j /\ usable (entered j s) /\ next_pid (k_proc (entered j s)) = next_pid (k_proc s) /\ k_proc (entered j s) = (k_proc s)
    <| process_table := <[j := p <| p_state := PROCESS_RUNNING |>]> (k_table s) |> <| current_process := Some j |>.
Proof.
  intros Hi Hu Hc Ep Ha. assert (Hq : quiet s (entered j s)) by done.
  assert (Epr : k_proc (entered j s) = (k_proc s)
    <| process_table := <[j := p <| p_state := PROCESS_RUNNING |>]> (k_table s) |> <| current_process := Some j |>).
  { unfold entered. get_set. by rewrite (upd_state _ j p). }
  split; [|done]. constructor; [|apply Hu|done]. apply (kernel_inv_quiet s); [done|done| |]; rewrite Epr.
  - apply (process_inv_start (k_proc s) _ j p (p <| p_state := PROCESS_RUNNING |>)); try done; [apply Hi|].
    apply (proc_wf_same p); try done. exact (Forall_lookup_1 _ _ _ _ (pv_wf _ (ki_proc _ Hi)) Ep).
  - get_set. apply Forall_insert; [apply Hi|]. exact (Forall_lookup_1 _ _ _ _ (ki_files _ Hi) Ep).
Qed.

Definition kernel_ready : kernel_state := with_process (str "/sbin/init") (str "one two") kernel_started.
Definition kernel_running : kernel_state := entered 0 kernel_ready.

Lemma kernel_ready_slot :
  fst <$> exec_create_with_args (Some (str "/sbin/init")) (Some (str "one two")) true kernel_started =
  Some (KERNEL_OK, Some 0%nat).
Proof. vm_compute. reflexivity. Qed.

Lemma kernel_ready_ok :
  kernel_inv kernel_ready /\ usable kernel_ready /\ current_process (k_proc kernel_ready) = None /\
  next_pid (k_proc kernel_ready) = 2 /\ exists p reg, k_table kernel_ready !! 0%nat = Some p /\
    created_process reg (str "/sbin/init") (str "one two") 1 p.
Proof.
  destruct kernel_started_ok as (Hi & Hc & Hn & _ & Hu).
  destruct (with_process_ok kernel_started (str "/sbin/init") (str "one two") 0%nat Hi Hu Hc Hn eq_refl
    kernel_ready_slot) as (H1 & H2 & H3 & H4 & _ & H5).
  exact (conj H1 (conj H2 (conj H3 (conj H4 H5)))).
Qed.

Lemma kernel_running_ok :
  running kernel_running 0%nat /\ usable kernel_running /\ next_pid (k_proc kernel_running) = 2.
Proof.
  destruct kernel_ready_ok as (Hi & Hu & Hc & Hn & p & reg & Ep & Hcp).
  assert (Ha : active p = true) by (unfold active, pstate_is; by rewrite (cp_state _ _ _ _ _ Hcp)).
  destruct (entered_ok kernel_ready 0%nat p Hi Hu Hc Ep Ha) as (H1 & H2 & H3 & _).
  refine (conj H1 (conj H2 _)). unfold kernel_running. rewrite H3. exact Hn.
Qed.

#[global] Opaque kernel_started kernel_ready kernel_running.
