(* ===== verification/ProcessTheorems.v ===== *)
(** * Theorems about the file system and the process table *)
From S2P Require Import Prelude Mem KString Boot Pmm Vmm Pages Vfs Initramfs VfsProofs Process ProcessProofs KState FdTable.
From S2P Require Import Ring3 Loader Syscall Run UserMem Ring3Proofs KernelInv FdProofs UserCopy SyscallProofs ExecProofs.
From S2P Require Import SyscallTheorems ElfProofs LoaderProofs RunProofs ProcessRun StartProofs KernelSample.

(** C19: path lookup is the reference semantics of paths: the nonempty pieces
    between slashes, followed from the root through directories, with the status
    of the first step that fails. The lookup returns for every path and tree, and
    changes no node. *)
Theorem vfs_lookup_exact s path :
  fs_ok s -> Z.of_nat (length path) < 4294967296 ->
  wp (vfs_lookup (Some path) true) (fun r s' => vfs_nodes s' = vfs_nodes s /\ vfs_root s' = vfs_root s /\
    r = if char_at path 0 =? chr_slash
        then match resolve (vfs_nodes s) (vfs_root s) (components path) with
             | inl node => (KERNEL_OK, Some node)
             | inr status => (status, None)
             end
        else (KERNEL_ERROR_INVALID_ARGUMENT, None)) s.
Proof.
  intros [Ht Hi Hr] Hl. eapply wp_mono; [apply vfs_lookup_ok; first [done|by right]|].
  intros r s' [-> ->]. split; [done|]. split; [done|]. unfold lookup_result.
  destruct (Z.eqb_spec (vfs_root s) 0) as [E|_].
  { rewrite E, (proj1 Ht) in Hr. by destruct Hr. }
  by destruct (char_at path 0 =? chr_slash).
Qed.

Lemma vfs_lookup_exact_witness :
  wp (vfs_lookup (Some (str "//etc/./os-release")) true) (fun r _ => r = (KERNEL_ERROR_NOT_FOUND, None))
    (mounted_fs sample_images (Build_vfs_info_t true 25 0 0 0 0 0 [])).
Proof.
  eapply wp_mono; [apply (vfs_lookup_exact (mounted_fs sample_images (Build_vfs_info_t true 25 0 0 0 0 0 [])));
    [apply mounted_fs_ok; [apply sample_images_ok|reflexivity]|reflexivity]|].
  intros r s' (_ & _ & ->). vm_compute. reflexivity.
Defined.

(** A node that is linked from the root under given names is found by the
    path made of these names. *)
Theorem vfs_lookup_canonical s names node :
  fs_ok s -> Forall is_word names -> linked (vfs_nodes s) (vfs_root s) names node ->
  Z.of_nat (length (canonical_path names)) < 4294967296 ->
  wp (vfs_lookup (Some (canonical_path names)) true) (fun r _ => r = (KERNEL_OK, Some node)) s.
Proof.
  intros Hfs Hw Hl Hlen. pose proof Hfs as [Ht Hi Hr].
  eapply wp_mono; [apply vfs_lookup_ok; first [done|by right]|].
  intros r s' [-> _]. unfold lookup_result. rewrite components_canonical by done.
  rewrite (linked_resolve _ _ _ _ Hl). destruct (Z.eqb_spec (vfs_root s) 0) as [E|_].
  { rewrite E, (proj1 Ht) in Hr. by destruct Hr. }
  replace (char_at (canonical_path names) 0) with chr_slash by (by destruct names). done.
Qed.

Lemma vfs_lookup_canonical_witness :
  wp (vfs_lookup (Some (str "/etc")) true) (fun r _ => r = (KERNEL_OK, Some etc_node))
    (mounted_fs sample_images (Build_vfs_info_t true 25 0 0 0 0 0 [])).
Proof.
  apply (vfs_lookup_canonical (mounted_fs sample_images (Build_vfs_info_t true 25 0 0 0 0 0 [])) [str "etc"]).
  - apply mounted_fs_ok; [apply sample_images_ok|reflexivity].
  - repeat constructor; try discriminate; reflexivity.
  - apply (linked_child _ _ [] root_node (directory_node "" "/" 0 root_children) etc_node (str "etc")).
    + apply linked_root.
    + reflexivity.
    + reflexivity.
    + do 2 right. by left.
    + vm_compute. reflexivity.
    + intros q' Hq Hn. change (q' ∈ [2; 3; 4; 5; 6]) in Hq.
      repeat (apply elem_of_cons in Hq as [->|Hq]; [first [reflexivity|vm_compute in Hn; discriminate]|]).
      by apply not_elem_of_nil in Hq.
  - reflexivity.
Defined.

(** Mounting the compiled-in file system succeeds, counts its 25 nodes, and
    every node is found under the path it carries, whatever the images are. *)
Theorem initramfs_mounts images f :
  vfs_nodes (ifs_vfs f) = ∅ -> vfs_initialized (vfs_info (ifs_vfs f)) = true ->
  wp (initramfs_initialize images ;;; initramfs_mount) (fun status f' => status = KERNEL_OK /\
    mounted_nodes (vfs_info (ifs_vfs f')) = node_count (initramfs_info f') /\
    forall node n path, (node, n) ∈ initramfs_nodes images -> vn_path n = Some path ->
      vfs_nodes (ifs_vfs f') !! node = Some n /\ lookup_result (ifs_vfs f') path = (KERNEL_OK, Some node)) f.
Proof.
  intros E0 Hi. wp_step. eapply wp_mono; [by apply initramfs_initialize_ok|].
  intros _ f1 (En & Ei & Ef & Enc & _). eapply wp_mono; [apply (initramfs_mount_ok images); [done|by rewrite Ei|done]|].
  intros status f2 (-> & Hn & _ & info & _ & Hm & Ev). rewrite Ev, Hn, Enc. split; [done|]. split; [done|].
  intros node n path Hin Hp. pose proof (mounted_paths images info) as Hall. rewrite forallb_forall in Hall.
  specialize (Hall _ (proj1 (list_elem_of_In _ _) Hin)). unfold path_leads_back in Hall. cbn [fst snd] in Hall.
  rewrite Hp in Hall. apply bool_decide_eq_true in Hall. split; [|done].
  by apply mounted_lookup.
Qed.

Lemma initramfs_mounts_witness :
  wp (initramfs_initialize sample_images ;;; initramfs_mount) (fun status f' => status = KERNEL_OK /\
    lookup_result (ifs_vfs f') (str "/bin/hello-elf") = (KERNEL_OK, Some hello_elf_node))
    (Build_initramfs_state (Build_vfs_state ∅ 0 (Build_vfs_info_t true 0 0 0 0 0 0 [])) (Build_initramfs_info_t false 0 0 0)).
Proof.
  eapply wp_mono; [apply (initramfs_mounts sample_images); reflexivity|].
  intros status f' (H1 & _ & H2). split; [exact H1|].
  eapply (H2 hello_elf_node); [do 8 right; by left|reflexivity].
Defined.

(** ** The process table *)

(** Everything core/process.c does to its table. [process_run] is the composition
    of [process_load_failed], [process_begin], the user program and
    [process_finish]; while the program runs, its system calls create, configure and
    exit. A run starts, and exited processes are cleared, while no process is
    current: both are done by the kernel, not on behalf of a program. *)
Inductive process_step : relation process_state :=
| step_create s name entry user_stack r s' :
    next_pid s < 4294967295 ->
    process_create (Some name) entry user_stack true s = Some (r, s') -> process_step s s'
| step_configure_path s i p path r s' :
    process_table s !! i = Some p ->
    process_configure_image_path (Some i) (Some path) s = Some (r, s') -> process_step s s'
| step_configure_arguments s i p line r s' :
    process_table s !! i = Some p -> Z.of_nat (length line) < 4294967296 ->
    process_configure_arguments (Some i) (Some line) s = Some (r, s') -> process_step s s'
| step_load_failed s i p status s' :
    current_process s = None -> process_table s !! i = Some p ->
    p_state p = PROCESS_READY \/ p_state p = PROCESS_EXITED ->
    process_load_failed i status s = Some (tt, s') -> process_step s s'
| step_begin s i p s' :
    current_process s = None -> process_table s !! i = Some p ->
    p_state p = PROCESS_READY \/ p_state p = PROCESS_EXITED ->
    process_begin i s = Some (tt, s') -> process_step s s'
| step_exit s exit_code r s' :
    process_mark_exit exit_code s = Some (r, s') -> process_step s s'
| step_finish s i status s' :
    current_process s = Some i -> process_finish i status s = Some (tt, s') -> process_step s s'
| step_clear s r s' :
    current_process s = None -> process_clear_exited s = Some (r, s') -> process_step s s'.

Lemma begin_inv s i p s' :
  process_inv s -> current_process s = None -> process_table s !! i = Some p ->
  p_state p = PROCESS_READY \/ p_state p = PROCESS_EXITED -> process_begin i s = Some (tt, s') -> process_inv s'.
Proof.
  intros Hinv Hc Ep Hst E. pose proof (Forall_lookup_1 _ _ _ _ (pv_wf _ Hinv) Ep) as Hw.
  refine (wp_run _ (fun _ s' => process_inv s') _ _ _ _ E). apply (process_begin_run i p); [done|]. intros info.
  apply (process_inv_start s _ i p (started_process p)); try done.
  - unfold active, pstate_is. by destruct Hst as [-> | ->].
  - by apply (proc_wf_same p).
Qed.

Lemma finish_inv s i status s' :
  process_inv s -> current_process s = Some i -> process_finish i status s = Some (tt, s') -> process_inv s'.
Proof.
  intros Hinv Hc E. destruct (pv_current _ Hinv i Hc) as (p & Ep & Hst).
  pose proof (Forall_lookup_1 _ _ _ _ (pv_wf _ Hinv) Ep) as Hw.
  refine (wp_run _ (fun _ s' => process_inv s') _ _ _ _ E). apply (process_finish_run i p); [done|]. intros info.
  apply (process_inv_stop s _ i p (finished status p)); try done; [by right|..].
  - unfold active, pstate_is. by destruct Hst as [-> | ->].
  - apply (proc_wf_same p); [done|..]; unfold finished; by destruct Hst as [-> | ->].
  - unfold finished. by destruct Hst as [-> | ->].
  - unfold finished, ended, pstate_is. destruct Hst as [-> | E']; [by destruct (status =? KERNEL_OK)|].
    rewrite E'. change (p_state (p <| p_last_status := status |>)) with (p_state p). by rewrite E'.
Qed.

Lemma load_failed_inv s i p status s' :
  process_inv s -> current_process s = None -> process_table s !! i = Some p ->
  p_state p = PROCESS_READY \/ p_state p = PROCESS_EXITED ->
  process_load_failed i status s = Some (tt, s') -> process_inv s'.
Proof.
  intros Hinv Hc Ep Hst E. pose proof (Forall_lookup_1 _ _ _ _ (pv_wf _ Hinv) Ep) as Hw.
  refine (wp_run _ (fun _ s' => process_inv s') _ _ _ _ E). apply (process_load_failed_run i p); [done|]. intros info.
  set (p' := p <| p_last_status := status |> <| p_state := PROCESS_FAILED |>).
  apply (process_inv_stop s _ i p p'); try done; [by left| |by apply (proc_wf_same p)].
  unfold active, pstate_is. by destruct Hst as [-> | ->].
Qed.

Lemma process_step_inv s s' : process_step s s' -> process_inv s -> process_inv s'.
Proof.
  intros Hst Hinv.
  destruct Hst as [s name entry stk [st o] s' Hn E|s i p path r s' Ep E|s i p line r s' Ep Hl E
    |s i p st s' Hc Ep Hst E|s i p s' Hc Ep Hst E|s code r s' E|s i st s' Hc E|s r s' Hc E].
  - exact (proj1 (wp_run _ _ _ _ _ (process_create_ok s name entry stk Hinv Hn) E)).
  - destruct (wp_run _ _ _ _ _ (configure_path_ok s i p path Ep) E) as [_ ->].
    apply (process_inv_update _ _ p); try done.
    apply with_path_wf. exact (Forall_lookup_1 _ _ _ _ (pv_wf _ Hinv) Ep).
  - pose proof (Forall_lookup_1 _ _ _ _ (pv_wf _ Hinv) Ep) as Hw.
    destruct (wp_run _ _ _ _ _ (process_configure_arguments_ok s i p line Ep Hw Hl) E) as (_ & p' & Hw' & -> & Ep' & _).
    apply (process_inv_update _ _ p); try done; rewrite Ep'; done.
  - by eapply load_failed_inv.
  - by eapply begin_inv.
  - destruct (current_process s) as [i|] eqn:Ec.
    + destruct (pv_current _ Hinv i Ec) as (p & Ep & _).
      exact (proj1 (wp_run _ _ _ _ _ (process_mark_exit_ok s i p code Hinv Ec Ep) E)).
    + unfold process_mark_exit, mbind_, mget in E. rewrite Ec in E. by injection E as _ <-.
  - by eapply finish_inv.
  - exact (proj1 (wp_run _ _ _ _ _ (process_clear_exited_ok s Hinv Hc) E)).
Qed.

(** C34: from [process_initialize] on, through creations, configurations, starts,
    exits and ends of runs, the table is well formed in every reachable state,
    those while a program runs included: every array has its declared size, the
    count is the number of slots in use, pids are positive and below the next one,
    no two processes share a pid, at most one process is running, and it is the
    current one. *)
Theorem process_table_typed s0 s1 s :
  length (process_table s0) = 16%nat -> Forall proc_wf (process_table s0) ->
  process_initialize s0 = Some (tt, s1) -> rtc process_step s1 s ->
  process_inv s /\
  (forall i j p q, process_table s !! i = Some p -> process_table s !! j = Some q ->
     p_state p = PROCESS_RUNNING -> p_state q = PROCESS_RUNNING -> i = j).
Proof.
  intros Hl Hw E Hr. assert (process_inv s) as Hinv.
  { apply (rtc_invariant process_step process_inv process_step_inv _ _ Hr).
    exact (proj1 (wp_run _ _ _ _ _ (process_initialize_ok s0 Hl Hw) E)). }
  split; [done|]. intros i j p q Ei Ej Hi Hj.
  pose proof (pv_running _ Hinv i p Ei Hi). pose proof (pv_running _ Hinv j q Ej Hj). congruence.
Qed.

(** The table while the first process runs. *)
Definition table_started : process_state := final process_initialize (k_proc kernel_zero).
Definition table_created : process_state :=
  final (process_create (Some (str "init")) 0x10000000 0x10001FF0 true) table_started.
Definition table_running : process_state := final (process_begin 0) table_created.

Lemma table_running_state :
  fst <$> process_initialize (k_proc kernel_zero) = Some tt /\ next_pid table_started < 4294967295 /\
  fst <$> process_create (Some (str "init")) 0x10000000 0x10001FF0 true table_started = Some (KERNEL_OK, Some 0%nat) /\
  p_state <$> process_table table_created !! 0%nat = Some PROCESS_READY /\
  current_process table_created = None /\ fst <$> process_begin 0 table_created = Some tt /\
  p_state <$> process_table table_running !! 0%nat = Some PROCESS_RUNNING.
Proof. vm_compute. by split_and!. Qed.

Lemma process_table_typed_witness :
  process_inv table_running /\ p_state <$> process_table table_running !! 0%nat = Some PROCESS_RUNNING.
Proof.
  destruct table_running_state as (Einit & Hn & Ecr & Hready & Hc & Hbegin & Hrun). split; [|exact Hrun].
  apply fmap_Some in Hready as (p & Ep & Est). symmetry in Est.
  exact (proj1 (process_table_typed (k_proc kernel_zero) table_started table_running eq_refl
    (st_wf _ kernel_zero_ok) (final_run _ _ _ Einit)
    (rtc_l _ _ _ _ (step_create table_started (str "init") 0x10000000 0x10001FF0 _ table_created Hn (final_run _ _ _ Ecr))
      (rtc_l _ _ _ _ (step_begin table_created 0%nat p table_running Hc Ep (or_introl Est) (final_run _ _ _ Hbegin))
        (rtc_refl _ _))))).
Defined.

(** C38: the argument vector of a process is its name followed by the words of the
    argument line: the line is cut at 127 bytes, split at blanks and tabs, words
    are cut into pieces of 63 bytes, and the first seven are kept. *)
Theorem process_arguments_exact s i p line :
  process_inv s -> process_table s !! i = Some p -> Z.of_nat (length line) < 4294967296 ->
  wp (process_configure_arguments (Some i) (Some line)) (fun status s' => status = KERNEL_OK /\ process_inv s' /\
    (forall j, j <> i -> process_table s' !! j = process_table s !! j) /\
    exists p', process_table s' !! i = Some p' /\ p_argc p' = 1 + Z.of_nat (length (argument_words line)) /\
      take (Z.to_nat (p_argc p')) (cstr <$> p_argv p') = cstr (p_name p) :: argument_words line) s.
Proof.
  intros Hinv Ep Hl. pose proof (Forall_lookup_1 _ _ _ _ (pv_wf _ Hinv) Ep) as Hw.
  assert (Hi : (i < length (process_table s))%nat) by (by eapply lookup_lt_Some).
  eapply wp_mono; [by apply process_configure_arguments_ok|].
  intros status s' (-> & p' & Hw' & -> & Ep' & Hc & Hv). split; [done|]. get_set.
  split; [apply (process_inv_update _ _ p); try done; rewrite Ep'; done|].
  split; [intros j Hj; by rewrite list_lookup_insert_ne|]. exists p'.
  split; [by apply list_lookup_insert_eq|]. split; [done|]. rewrite Hc, Hv.
  replace (Z.to_nat _) with (S (length (argument_words line))) by lia. cbn [take]. f_equal. by rewrite take_app_length.
Qed.

Definition process_sample : process_state :=
  final (process_create (Some (str "echo")) 0x10000000 0x10001FF0 true) (final process_initialize (k_proc kernel_zero)).

Lemma process_sample_inv : process_inv process_sample.
Proof.
  destruct (process_initialize_ok (k_proc kernel_zero)) as ([] & s1 & E1 & Hi & _ & Hn & _);
    [reflexivity|apply kernel_zero_ok|].
  unfold process_sample. assert (final process_initialize (k_proc kernel_zero) = s1) as ->
    by (unfold final; by rewrite E1).
  destruct (process_create_ok s1 (str "echo") 0x10000000 0x10001FF0 Hi ltac:(lia)) as ([st o] & s2 & E2 & H2 & _).
  unfold final. by rewrite E2.
Qed.

Lemma process_arguments_exact_witness :
  wp (process_configure_arguments (Some 0%nat) (Some (str "  hello   world "))) (fun status s' =>
    status = KERNEL_OK /\ exists p', process_table s' !! 0%nat = Some p' /\
      take (Z.to_nat (p_argc p')) (cstr <$> p_argv p') = [str "echo"; str "hello"; str "world"]) process_sample.
Proof.
  destruct (lookup_lt_is_Some_2 (process_table process_sample) 0) as [p Ep]; [vm_compute; lia|].
  assert (cstr (p_name p) = str "echo") as En.
  { assert ((fun p => cstr (p_name p)) <$> process_table process_sample !! 0%nat = Some (str "echo")) as H
      by (vm_compute; reflexivity). rewrite Ep in H. by injection H. }
  eapply wp_mono; [apply (process_arguments_exact process_sample 0%nat p); [apply process_sample_inv|exact Ep|reflexivity]|].
  intros status s' (H1 & _ & _ & p' & H2 & _ & H3). split; [exact H1|]. exists p'. split; [exact H2|].
  rewrite H3, En. vm_compute. reflexivity.
Defined.
