(* ===== verification/KernelTheorems.v ===== *)
(** * Theorems about user programs and system calls *)
From S2P Require Import Heap HeapSpec HeapTheorems KernelHeap HeapClient.
From S2P Require Import Scheduler SchedQueue SchedTable SchedOps SchedSweep SchedRun SchedSafety SchedTheorems.
From S2P Require Import Prelude Mem KString Boot Pmm Vmm Pages Vfs Initramfs VfsProofs Process ProcessProofs KState FdTable.
From S2P Require Import Ring3 Loader Syscall Run UserMem Ring3Proofs KernelInv FdProofs UserCopy SyscallProofs ExecProofs.
From S2P Require Import SyscallTheorems ElfProofs LoaderProofs RunProofs ProcessRun StartProofs KernelSample.

Local Abbreviation K0 := kernel_running.

Lemma K0_running : running K0 0%nat.
Proof. apply kernel_running_ok. Qed.

Lemma K0_pid : next_pid (k_proc K0) < 4294967295.
Proof. destruct kernel_running_ok as (_ & _ & ->). lia. Qed.

(** ** Confinement *)

(** C1: a system call returns for every number and all 32-bit arguments, with a
    32-bit result. It changes no byte of physical memory outside the two user
    pages, no translation, no file system node, no record of user mode and no
    process but the caller and, for exec, a slot that was not in use; the kernel
    invariant holds after it, and at most one pid is consumed. *)
Theorem syscall_confined s i number arg1 arg2 arg3 :
  running s i -> next_pid (k_proc s) < 4294967295 -> is_u32 arg1 -> is_u32 arg2 -> is_u32 arg3 ->
  wp (syscall_dispatch number arg1 arg2 arg3) (fun r s' => is_u32 r /\ contained i s s' /\ kernel_inv s' /\
    (forall u, is_u32 u -> vmm_entry (k_vmm s') u = vmm_entry (k_vmm s) u) /\
    next_pid (k_proc s) <= next_pid (k_proc s') <= next_pid (k_proc s) + 1) s.
Proof.
  intros Hrun Hn H1 H2 H3. eapply wp_mono; [by apply (syscall_dispatch_ok s i)|].
  intros r s' (Hr & Hc & Hp). split; [done|]. split; [done|]. split; [apply Hc|]. split; [|done].
  destruct (ct_memory _ _ _ Hc) as (m' & -> & Hm). destruct (running_pages s i Hrun) as [Hv Hup].
  apply (user_pages_write (k_vmm s) _ _ m' Hv Hup).
  intros a Ha Hb. apply Hm. unfold user_byte. tauto.
Qed.

Lemma syscall_confined_witness :
  wp (syscall_dispatch 7 99 0xFFFFF000 0xFFFFFFFF) (fun r s' => is_u32 r /\ contained 0%nat K0 s') K0.
Proof.
  eapply wp_mono; [apply (syscall_confined K0 0%nat 7 99 0xFFFFF000 0xFFFFFFFF);
    [apply K0_running|apply K0_pid|unfold is_u32; lia..]|].
  intros r s' (H1 & H2 & _). split; [exact H1|exact H2].
Defined.

(** ** The machine while a user program runs *)

Section Machine.
Context {H : Type} `{KernelHeapLaws H}.
Context (addr_tss_entry : Z) (call_entry : Z -> M (sched_state H) unit).

(** The kernel as its system calls see it, and the scheduler, which the timer
    interrupt runs. *)
Record machine := Machine { mc_kernel : kernel_state; mc_sched : sched_state H }.

Definition on_kernel {A} (m : M kernel_state A) : M machine A :=
  mzoom mc_kernel (fun k mc => Machine k (mc_sched mc)) m.
Definition on_sched {A} (m : M (sched_state H) A) : M machine A :=
  mzoom mc_sched (fun s mc => Machine (mc_kernel mc) s) m.

(** After an action the program goes on, or its exit call has resumed the kernel,
    or it has caused an exception. *)
Inductive outcome := Continues | Exited | Halted.

(** [timer_irq_handler] of drivers/timer.c. *)
Definition timer_irq_handler : M machine unit :=
  on_kernel (user_step addr_tss_entry UTick) ;;;
  ticks <- mget (fun mc => timer_ticks (mc_kernel mc)) ;;
  on_sched (mmod (fun s => s <| Scheduler.timer_ticks := ticks |>) ;;;
            scheduler_on_timer_tick call_entry ticks).

(** Anything user code can do next. A store that the page tables do not permit is
    a page fault, and idt_exception_handler only reports it and halts the machine
    for good. *)
Definition machine_step (action : user_action) : M machine outcome :=
  match action with
  | UStore a v =>
      ok <- mget (fun mc => user_writable (k_vmm (mc_kernel mc)) a) ;;
      if (ok : bool) then on_kernel (user_step addr_tss_entry action) ;;; mret_ Continues
      else mret_ Halted
  | UTick => timer_irq_handler ;;; mret_ Continues
  | USyscall _ _ _ _ =>
      resumed <- on_kernel (user_step addr_tss_entry action) ;;
      mret_ (if (resumed : bool) then Exited else Continues)
  end.

(** Any store at all, and any system call with 32-bit arguments. *)
Definition possible (action : user_action) : Prop :=
  match action with
  | UStore a _ => is_u32 a
  | UTick => True
  | USyscall _ arg1 arg2 arg3 => is_u32 arg1 /\ is_u32 arg2 /\ is_u32 arg3
  end.

Definition machine_move : relation machine := fun m m' =>
  exists action, possible action /\ next_pid (k_proc (mc_kernel m)) < 4294967295 /\
    machine_step action m = Some (Continues, m').

(** What process [i] leaves alone, whatever it does: [d] scheduler locks are open,
    [e] are the flags outside, and [F] are the heap blocks of others. *)
Record isolated (i : nat) F d e (m m' : machine) : Prop := {
  is_kernel : ran i (mc_kernel m) (mc_kernel m');
  is_sched : exists K, at_lock F K d e (mc_sched m')
}.

Context (B : Z) (HB : 0 <= B) (Hbodies : bodies_ok call_entry B).

(** What an outcome says of the action and the state after it. *)
Definition outcome_ok (i : nat) (action : user_action) (m m' : machine) (o : outcome) : Prop :=
  match o with
  | Continues => match action with
      | UStore a _ => user_range a 1
      | UTick => timer_ticks (mc_kernel m') = incr (timer_ticks (mc_kernel m))
      | USyscall number _ _ _ => number <> LIAM_SYSCALL_EXIT
      end /\ r3_in_progress (ring3_info (mc_kernel m')) = true
  | Exited => exists code arg2 arg3 p, action = USyscall LIAM_SYSCALL_EXIT code arg2 arg3 /\
      k_table (mc_kernel m') !! i = Some p /\ p_state p = PROCESS_EXITED /\ p_exit_code p = s32 code
  | Halted => (exists a v, action = UStore a v /\ ~ user_range a 1) /\ m' = m
  end.

Lemma machine_step_ok i F K d e action m :
  running (mc_kernel m) i -> r3_in_progress (ring3_info (mc_kernel m)) = true ->
  at_lock F K d e (mc_sched m) -> 0 <= d < 4294967290 ->
  next_pid (k_proc (mc_kernel m)) < 4294967295 -> possible action ->
  wp (machine_step action) (fun o m' => isolated i F d e m m' /\ outcome_ok i action m m' o) m.
Proof using HB Hbodies.
  intros Hrun Hprog Hat Hd Hn Hpos. destruct m as [k s]. cbn [mc_kernel mc_sched] in *.
  assert (Hus : forall act, action_ok act -> wp (on_kernel (user_step addr_tss_entry act)) (fun resumed m' =>
    resumed = false /\ mc_sched m' = s /\ ran i k (mc_kernel m') /\ r3_in_progress (ring3_info (mc_kernel m')) = true) (Machine k s)).
  { intros act Hact. apply (wp_zoom mc_kernel). eapply wp_mono; [by apply (user_step_ok addr_tss_entry k i act)|].
    intros r k' (-> & Hr & _ & Ep & _). cbn. by rewrite Ep. }
  destruct action as [a v| |number arg1 arg2 arg3]; cbn [machine_step possible] in *.
  - apply wp_bind, wp_get. cbn [mc_kernel]. destruct (user_writable (k_vmm k) a) eqn:Ew.
    + apply (user_writable_range k i a Hrun Hpos) in Ew. apply wp_bind. eapply wp_mono; [by apply (Hus (UStore a v))|].
      intros r m' (-> & Es & Hr & Hp). apply wp_ret. split; [constructor; [done|exists K; by rewrite Es]|done].
    + apply wp_ret. split; [constructor; [by apply ran_refl|by exists K]|]. split; [|done]. exists a, v. split; [done|].
      intros Hr. by rewrite (proj2 (user_writable_range k i a Hrun Hpos) Hr) in Ew.
  - destruct (user_step_ok addr_tss_entry k i UTick Hrun Hn I) as (r & k' & E & _ & Hr & _ & Ep & _).
    injection E as <- Ek. apply wp_bind. unfold timer_irq_handler. apply wp_bind, (wp_zoom mc_kernel).
    exists false, k'. split; [by rewrite <- Ek|]. apply wp_bind, wp_get, (wp_zoom mc_sched). cbn [mc_sched mc_kernel].
    apply wp_bind, wp_mod. set (s1 := s <| Scheduler.timer_ticks := _ |>).
    assert (at_lock F K d e s1) as Hat1 by (destruct Hat as [[C [] R W] ? ? ? ? ?]; by constructor).
    eapply wp_mono; [by apply (timer_tick_ok call_entry B HB Hbodies F K d e s1)|].
    intros u s2 (K' & _ & Hat2 & _). apply wp_ret. split; [constructor; [done|by exists K']|].
    cbn [outcome_ok mc_kernel]. rewrite Ep. by rewrite <- Ek.
  - destruct Hpos as (H1' & H2' & H3'). destruct (decide (number = LIAM_SYSCALL_EXIT)) as [->|Hne].
    + destruct (running_self k i Hrun) as (p & Ep & _). apply wp_bind, (wp_zoom mc_kernel), wp_bind.
      eapply wp_mono; [by apply (syscall_exit_entry_ok addr_tss_entry k i p)|].
      intros r k' (-> & Hr & _ & Et & _). apply wp_ret, wp_ret. split; [constructor; [done|by exists K]|].
      eexists _, _, _, _. split; [reflexivity|]. by split.
    + apply wp_bind. eapply wp_mono; [by apply (Hus (USyscall number arg1 arg2 arg3))|].
      intros r m' (-> & Es & Hr & Hp). apply wp_ret. split; [constructor; [done|exists K; by rewrite Es]|done].
Qed.

(** C11: whatever a user program does - stores to any addresses, system calls with
    any numbers and arguments, with timer interrupts in between - the rest of the
    system is as it was: memory outside its two pages, translations, the file
    system, the other processes and the user mode set-up are kept, and the scheduler
    that the interrupts run stays well formed. Every further action has an outcome:
    it is done and the program goes on; or it is the exit call, and the process has
    exited with that code; or it is a store outside the two user pages, which is a
    page fault that halts the machine with nothing changed. *)
Theorem user_program_isolated i F d e m m' :
  running (mc_kernel m) i -> r3_in_progress (ring3_info (mc_kernel m)) = true ->
  (exists K, at_lock F K d e (mc_sched m)) -> 0 <= d < 4294967290 -> rtc machine_move m m' ->
  isolated i F d e m m' /\
  forall action, possible action -> next_pid (k_proc (mc_kernel m')) < 4294967295 ->
    exists o m'', machine_step action m' = Some (o, m'') /\ isolated i F d e m m'' /\ outcome_ok i action m' m'' o.
Proof using HB Hbodies.
  intros Hrun Hprog Hat Hd Hrt.
  assert (Hstep : forall m1 action, isolated i F d e m m1 -> r3_in_progress (ring3_info (mc_kernel m1)) = true ->
    possible action -> next_pid (k_proc (mc_kernel m1)) < 4294967295 ->
    wp (machine_step action) (fun o m2 => isolated i F d e m m2 /\ outcome_ok i action m1 m2 o) m1).
  { intros m1 action [Hr (K & Hat1)] Hp1 Hpos Hn.
    eapply wp_mono; [apply (machine_step_ok i F K d e action m1); try done; apply Hr|].
    intros o m2 ([Hr2 Hs2] & Ho). split; [constructor; [by eapply ran_trans|done]|done]. }
  assert (isolated i F d e m m' /\ r3_in_progress (ring3_info (mc_kernel m')) = true) as [His Hp'].
  { apply (rtc_invariant machine_move (fun m1 => isolated i F d e m m1 /\ r3_in_progress (ring3_info (mc_kernel m1)) = true)) with m;
      [|done|split; [constructor; [by apply ran_refl|done]|done]].
    intros m1 m2 (action & Hpos & Hn & E) [His Hp1].
    destruct (wp_run _ _ _ _ _ (Hstep m1 action His Hp1 Hpos Hn) E) as (His2 & _ & Hp2). done. }
  split; [done|]. intros action Hpos Hn. destruct (Hstep m' action His Hp' Hpos Hn) as (o & m2 & E & H2). by exists o, m2.
Qed.
End Machine.

(** The machine of [kernel_running] with the scheduler of the sample. *)
Definition in_user_mode (k : kernel_state) : kernel_state :=
  k <| ring3_info ::= fun r => r <| r3_in_progress := true |> |>.

Lemma in_user_mode_ok k i n :
  running k i -> next_pid (k_proc k) < n ->
  running (in_user_mode k) i /\ next_pid (k_proc (in_user_mode k)) < n /\
  r3_in_progress (ring3_info (in_user_mode k)) = true.
Proof.
  intros Hrun Hn. split; [|done]. apply (rn_running i k), ran_info; try done.
  apply (kernel_inv_ring3 k); try done; apply Hrun.
Qed.

Definition sample_machine : machine := Machine (in_user_mode K0) sched_one.

Lemma sample_machine_ok :
  running (in_user_mode K0) 0%nat /\ next_pid (k_proc (in_user_mode K0)) < 4294967295 /\
  r3_in_progress (ring3_info (in_user_mode K0)) = true.
Proof. exact (in_user_mode_ok K0 0%nat 4294967295 K0_running K0_pid). Qed.

Lemma sched_one_at : exists K, at_lock ∅ K 0 0x202 sched_one.
Proof.
  destruct sched_one_top as (K & _ & Ht). apply top_at in Ht. exists K.
  assert (eflags sched_one = 0x202) as E by (vm_compute; reflexivity). rewrite E in Ht. exact Ht.
Qed.

Lemma user_program_isolated_witness :
  exists o m', machine_step 0x130000 workload_bodies (UStore 0xC0000000 1) sample_machine = Some (o, m') /\
    isolated 0 ∅ 0 0x202 sample_machine m' /\ outcome_ok 0 (UStore 0xC0000000 1) sample_machine m' o.
Proof.
  assert (possible (UStore 0xC0000000 1)) as Hpos by (unfold possible, is_u32; lia).
  exact (proj2 (user_program_isolated 0x130000 workload_bodies 0 ltac:(lia) workload_bodies_ok 0%nat ∅ 0 0x202
    sample_machine sample_machine (proj1 sample_machine_ok) (proj2 (proj2 sample_machine_ok)) sched_one_at ltac:(lia)
    (rtc_refl _ _)) (UStore 0xC0000000 1) Hpos (proj1 (proj2 sample_machine_ok))).
Defined.

(** C22: the pointer check accepts a buffer exactly when it is not empty, lies
    inside one page, and user code itself could write each of its bytes. *)
Theorem user_pointer_exact s i a n :
  running s i -> is_u32 a -> is_u32 n ->
  syscall_user_buffer_is_valid a n = true <->
    0 < n /\ a / 4096 = (a + n - 1) / 4096 /\
    forall k, 0 <= k < n -> is_u32 (a + k) /\ user_writable (k_vmm s) (a + k) = true.
Proof.
  intros Hrun Ha Hn. rewrite user_buffer_valid_spec by done. split.
  - intros Hr. pose proof Hr as [Hn0 Hin]. split; [done|]. split.
    + unfold RING3_USER_CODE_VIRTUAL, RING3_USER_STACK_VIRTUAL in Hin. Z.div_mod_to_equations. lia.
    + intros k Hk. pose proof (user_range_u32 _ _ Hr) as (H1 & H2 & _). unfold is_u32 in H1.
      assert (is_u32 (a + k)) by (unfold is_u32; lia). split; [done|].
      apply (user_writable_range s i); [done|done|]. apply (user_range_sub _ n); [done|lia..].
  - intros (Hn0 & Hp & Hall). unfold user_range. split; [done|].
    destruct (Hall 0 ltac:(lia)) as [H1 H2]. rewrite Z.add_0_r in *.
    apply (user_writable_range s i) in H2 as [_ H2]; [|done|done].
    unfold RING3_USER_CODE_VIRTUAL, RING3_USER_STACK_VIRTUAL in *. Z.div_mod_to_equations. lia.
Qed.

Lemma user_pointer_exact_witness :
  syscall_user_buffer_is_valid 0x10000FFF 2 = false /\
  forall k, 0 <= k < 2 -> user_writable (k_vmm K0) (0x10000FFF + k) = true.
Proof.
  split; [reflexivity|]. intros k Hk. assert (k = 0 \/ k = 1) as [-> | ->] by lia.
  - destruct (user_pointer_exact K0 0%nat 0x10000FFF 1 K0_running) as [H _]; [unfold is_u32; lia..|].
    destruct (H eq_refl) as (_ & _ & H'). apply H'. lia.
  - destruct (user_pointer_exact K0 0%nat 0x10001000 1 K0_running) as [H _]; [unfold is_u32; lia..|].
    destruct (H eq_refl) as (_ & _ & H'). apply (H' 0). lia.
Defined.

(** ** Files *)

(** C33: opening a regular file and reading it 512 bytes at a time, for at least
    its length, delivers exactly its contents. *)
Theorem open_read_contents s i p path flags node k n m :
  kernel_inv s -> current_process (k_proc s) = Some i -> k_table s !! i = Some p ->
  Z.of_nat (length path) < 4294967296 -> open_outcome (k_vfs s) (p_files p) path = inr (node, k) ->
  k_nodes s !! node = Some n -> vn_data n <> None -> vn_size n <= 512 * Z.of_nat m ->
  wp (r <- fd_table_open_current (Some path) flags true ;; read_times m (default 0 (snd r)) [])
    (fun bytes s' => kernel_inv s' /\ bytes = file_contents n) s.
Proof. apply open_read_ok. Qed.

Definition os_release_file : vfs_node_t := leaf_node "os-release" "/etc/os-release" VFS_NODE_FILE os_release_data 420 etc_node.

Lemma K0_open : open_outcome (k_vfs K0) (replicate 16 closed_file) (str "/etc/os-release") = inr (os_release_node, 3%nat).
Proof. vm_compute. reflexivity. Qed.

Lemma K0_files : (fun s => p_files <$> k_table s !! 0%nat) K0 = Some (replicate 16 closed_file).
Proof. vm_compute. reflexivity. Qed.

Lemma K0_process : exists p, k_table K0 !! 0%nat = Some p /\ p_files p = replicate 16 closed_file.
Proof.
  pose proof K0_files as H. cbv beta in H. destruct (k_table K0 !! 0%nat) as [p|]; [|discriminate].
  exists p. split; [reflexivity|]. by injection H.
Qed.

Lemma K0_node : k_nodes K0 !! os_release_node = Some os_release_file.
Proof. vm_compute. reflexivity. Qed.

Lemma open_read_contents_witness :
  wp (r <- fd_table_open_current (Some (str "/etc/os-release")) 0 true ;; read_times 1 (default 0 (snd r)) [])
    (fun bytes _ => bytes = os_release_data) K0.
Proof.
  destruct K0_process as (p & Ep & Ef).
  pose proof K0_open as Eo. rewrite <- Ef in Eo.
  eapply wp_mono; [exact (open_read_contents K0 0%nat p (str "/etc/os-release") 0 os_release_node 3 os_release_file 1
    (ru_inv _ _ K0_running) (ru_current _ _ K0_running) Ep eq_refl Eo K0_node ltac:(discriminate) ltac:(vm_compute; discriminate))|].
  intros bytes s' [_ ->]. vm_compute. reflexivity.
Defined.

(** C37: a read call delivers the next bytes of the file to the user buffer, at most
    512 of them, advances the descriptor by as many and returns their number; it
    touches no other byte, and a bad buffer or descriptor leaves memory alone. *)
Theorem syscall_read_contract s i p fd buffer len :
  running s i -> k_table s !! i = Some p -> is_u32 buffer -> 0 < len < 4294967296 ->
  wp (syscall_dispatch LIAM_SYSCALL_READ fd buffer len) (fun r s' => contained i s s' /\
    if syscall_user_buffer_is_valid buffer (Z.min len 512) then
      match descriptor (p_files p) fd with
      | None => r = u32 KERNEL_ERROR_INVALID_ARGUMENT /\ kmem s' = kmem s
      | Some f => exists n, k_nodes s !! file_node f = Some n /\
          r = read_length n (file_offset f) (Z.min len 512) /\
          filled (kmem s) (user_phys s buffer) (read_bytes n (file_offset f) (Z.min len 512)) (kmem s') /\
          k_proc s' = files_set (k_proc s) i p
            (<[Z.to_nat fd := f <| file_offset := file_offset f + r |>]> (p_files p))
      end
    else r = u32 KERNEL_ERROR_PERMISSION_DENIED /\ kmem s' = kmem s) s.
Proof.
  intros Hrun Ep Hb Hl. unfold syscall_dispatch, sys_info. wp_step. wp_step.
  set (s1 := set_field syscall_info _ s). assert (Hq : quiet s s1) by done.
  assert (Hrun1 : running s1 i) by (destruct Hrun as [[] ? ?]; done).
  change (wp (syscall_read fd buffer len) (fun r s' => contained i s s' /\
    if syscall_user_buffer_is_valid buffer (Z.min len 512) then
      match descriptor (p_files p) fd with
      | None => r = u32 KERNEL_ERROR_INVALID_ARGUMENT /\ kmem s' = kmem s
      | Some f => exists n, k_nodes s !! file_node f = Some n /\
          r = read_length n (file_offset f) (Z.min len 512) /\
          filled (kmem s) (user_phys s buffer) (read_bytes n (file_offset f) (Z.min len 512)) (kmem s') /\
          k_proc s' = files_set (k_proc s) i p
            (<[Z.to_nat fd := f <| file_offset := file_offset f + r |>]> (p_files p))
      end
    else r = u32 KERNEL_ERROR_PERMISSION_DENIED /\ kmem s' = kmem s) s1).
  eapply wp_mono; [apply (syscall_read_ok s1 i Hrun1 p Ep fd buffer len Hb); unfold is_u32; lia|].
  intros r s' ((_ & Hc & _) & H). split; [by apply (contained_after i s s1)|].
  rewrite (proj2 (Z.eqb_neq len 0)) in H by lia.
  destruct (syscall_user_buffer_is_valid buffer (Z.min len 512)); cbn [negb] in H.
  - destruct (descriptor (p_files p) fd) as [f|]; [exact H|]. by destruct H as (-> & _ & H).
  - by destruct H as [-> ->].
Qed.

Lemma syscall_read_contract_witness :
  wp (syscall_dispatch LIAM_SYSCALL_READ 3 0xC0000000 16) (fun r s' =>
    r = u32 KERNEL_ERROR_PERMISSION_DENIED /\ kmem s' = kmem K0) K0.
Proof.
  destruct K0_process as (p & Ep & Ef).
  eapply wp_mono; [apply (syscall_read_contract K0 0%nat p 3 0xC0000000 16);
    [apply K0_running|exact Ep|unfold is_u32; lia|lia]|].
  intros r s' [_ H]. exact H.
Defined.

(** A write call prints the buffer in chunks of 512 bytes, each after its own
    check: the result is the length (at most 4096) when every chunk passes, and
    otherwise an error, with the chunks before the bad one already printed. *)
Theorem syscall_write_contract s i buffer len :
  running s i -> 0 < buffer < 4294967296 -> 0 < len < 4294967296 ->
  wp (syscall_write buffer len) (fun r s' => contained i s s' /\
    let '(out, ok) := write_outcome s buffer (Z.min len 4096) in
    console s' = console s ++ out /\ kmem s' = kmem s /\
    r = if ok then Z.min len 4096 else u32 KERNEL_ERROR_PERMISSION_DENIED) s.
Proof.
  intros Hrun Hb Hl. eapply wp_mono; [apply (syscall_write_ok s i Hrun buffer len); unfold is_u32; lia|].
  intros r s' ((_ & Hc & _) & H). split; [done|].
  rewrite (proj2 (Z.eqb_neq buffer 0)), (proj2 (Z.eqb_neq len 0)) in H by lia. cbn [orb] in H.
  destruct (write_outcome s buffer (Z.min len 4096)) as [out ok]. destruct H as (-> & b & _ & ->). done.
Qed.

Lemma syscall_write_contract_witness :
  wp (syscall_write 0x10000000 5) (fun r s' => r = 5 /\ kmem s' = kmem K0) K0.
Proof.
  eapply wp_mono; [apply (syscall_write_contract K0 0%nat 0x10000000 5); [apply K0_running|lia|lia]|].
  intros r s' [_ H]. assert (snd (write_outcome K0 0x10000000 (Z.min 5 4096)) = true) as E by (vm_compute; reflexivity).
  destruct (write_outcome K0 0x10000000 (Z.min 5 4096)) as [out ok]. cbn in E. subst ok.
  destruct H as (_ & Hm & ->). split; [reflexivity|exact Hm].
Defined.

(** A buffer that user code may use can be refused after half of it was
    printed: 1024 bytes from the code page into the adjacent stack page print
    512 characters and return PERMISSION_DENIED. *)
Theorem syscall_write_prints_then_fails :
  (fun r => (fst r, length (console (snd r)))) <$> syscall_write 0x10000DFF 1024 kernel_running =
    Some (u32 KERNEL_ERROR_PERMISSION_DENIED, 512%nat) /\
  forall k, 0 <= k < 1024 -> user_range (0x10000DFF + k) 1.
Proof.
  split; [vm_compute; reflexivity|].
  intros k Hk. unfold user_range, RING3_USER_CODE_VIRTUAL, RING3_USER_STACK_VIRTUAL. lia.
Qed.

(** ** Loading *)

(** C24: resolving a path loads exactly the program the registered file holds: the
    code page gets its bytes followed by zeros and the image its entry point, and
    nothing outside the code page changes. Other paths and files are refused, and
    every loadable file is loaded while user mode works. *)
Theorem user_image_resolve_exact addr_syscall_stack text_at_null s path :
  kernel_inv s -> usable s ->
  wp (user_image_resolve addr_syscall_stack text_at_null (Some path) true) (fun r s' => kernel_inv s' /\
    k_proc s' = k_proc s /\ (forall a, ~ in_page (code_page s) a -> load8 (kmem s') a = load8 (kmem s) a) /\
    match path_program (k_vfs s) path with
    | Some (entry, bytes) => page_holds (kmem s') (code_page s) bytes /\ usable s' /\
        exists img, r = (KERNEL_OK, Some img) /\ img_entry img = entry /\ img_user_stack_top img = 0x10001FF0
    | None => fst r <> KERNEL_OK /\ snd r = None
    end) s.
Proof.
  intros Hinv Hus. eapply wp_mono; [apply user_image_resolve_ok; apply Hinv|].
  intros [st o] s' [Hf H]. destruct (lf_ready _ _ Hf (proj1 Hus)) as [Hsp Hm].
  split; [by apply (load_frame_inv s)|]. split; [apply Hf|]. split; [done|]. destruct o as [img|].
  - destruct H as (-> & Hus' & Hst & bytes & -> & _ & Hp). destruct Hsp as (_ & _ & Ec & _). rewrite Ec in Hp.
    split; [done|]. split; [done|]. by exists img.
  - destruct H as [Hne Hno]. by rewrite (Hno Hus).
Qed.

Lemma user_image_resolve_exact_witness :
  wp (user_image_resolve 0x120000 [] (Some (str "/bin/hello-elf")) true) (fun r s' =>
    fst r = KERNEL_OK /\ page_holds (kmem s') (code_page kernel_started) (drop 84 hello_elf_data)) kernel_started.
Proof.
  destruct kernel_started_ok as (Hi & _ & _ & _ & Hu).
  eapply wp_mono; [apply (user_image_resolve_exact 0x120000 [] kernel_started (str "/bin/hello-elf") Hi Hu)|].
  assert (path_program (k_vfs kernel_started) (str "/bin/hello-elf") =
    Some (0x10000000, drop 84 hello_elf_data)) as -> by (vm_compute; reflexivity).
  intros r s' (_ & _ & _ & Hp & _ & img & -> & _). split; [reflexivity|exact Hp].
Defined.

(** C25: an ELF file is accepted exactly when its header, its program header table
    and its only loadable segment pass the conditions of [elf_loadable]; the
    loader reads no byte outside the file, whatever the bytes are. *)
Theorem elf32_load_exact addr_syscall_stack text_at_null s node n d :
  kernel_inv s -> usable s -> k_nodes s !! node = Some n -> vn_type n = VFS_NODE_FILE -> vn_data n = Some d ->
  wp (elf32_load_from_node addr_syscall_stack text_at_null node true) (fun r s' => kernel_inv s' /\
    match elf_loadable d (vn_size n) with
    | Some ph => page_holds (kmem s') (code_page s)
          (take (Z.to_nat (word_at d (ph + 16))) (drop (Z.to_nat (word_at d (ph + 4))) d)) /\
        exists img, r = (KERNEL_OK, Some img) /\ img_entry img = word_at d 24
    | None => fst r <> KERNEL_OK /\ snd r = None
    end) s.
Proof.
  intros Hinv Hus En Hty Ed.
  eapply wp_mono; [apply (elf32_load_ok _ _ s node n); [apply Hinv|apply (ki_fs _ Hinv)|done|done|apply (ki_loaders _ Hinv)]|].
  intros [st o] s' [Hf H]. destruct (lf_ready _ _ Hf (proj1 Hus)) as [(_ & _ & Ec & _) _].
  split; [by apply (load_frame_inv s)|]. unfold elf_program in H. rewrite Ed in H.
  destruct (elf_loadable d (vn_size n)) as [ph|]; destruct o as [img|].
  - destruct H as (-> & _ & _ & bytes & [= -> <-] & _ & Hp). rewrite Ec in Hp. split; [done|]. by exists img.
  - destruct H as [_ H]. by specialize (H Hus).
  - by destruct H as (_ & _ & _ & bytes & H & _).
  - by destruct H as [H _].
Qed.

Definition hello_elf_file : vfs_node_t := leaf_node "hello-elf" "/bin/hello-elf" VFS_NODE_FILE hello_elf_data 493 bin_node.

Lemma elf32_load_exact_witness :
  wp (elf32_load_from_node 0x120000 [] hello_elf_node true) (fun r s' =>
    exists img, r = (KERNEL_OK, Some img) /\ img_entry img = 0x10000000) kernel_started.
Proof.
  destruct kernel_started_ok as (Hi & _ & _ & _ & Hu).
  assert ((fun s => k_nodes s !! hello_elf_node) kernel_started = Some hello_elf_file) as En by (vm_compute; reflexivity).
  eapply wp_mono; [apply (elf32_load_exact 0x120000 [] kernel_started hello_elf_node hello_elf_file hello_elf_data Hi Hu En);
    reflexivity|].
  assert (elf_loadable hello_elf_data (vn_size hello_elf_file) = Some 52) as -> by (vm_compute; reflexivity).
  intros r s' (_ & _ & img & -> & He). exists img. split; [reflexivity|]. rewrite He. vm_compute. reflexivity.
Defined.
