(* ===== verification/RunTheorems.v ===== *)
(** * Theorems about running processes and starting user space *)
From S2P Require Import Prelude Mem KString Boot Pmm Vmm Pages Vfs Initramfs VfsProofs Process ProcessProofs KState FdTable.
From S2P Require Import Ring3 Loader Syscall Run UserMem Ring3Proofs KernelInv FdProofs UserCopy SyscallProofs ExecProofs.
From S2P Require Import SyscallTheorems ElfProofs LoaderProofs RunProofs ProcessRun StartProofs KernelSample.

(** A program that exits at once with code 7. *)
Definition exit_seven : kernel_state -> Z -> Z -> list user_action :=
  fun _ _ _ => [UTick; USyscall LIAM_SYSCALL_EXIT 7 0 0].

Lemma exit_seven_exits n : well_behaved exit_seven n 1.
Proof.
  intros st eip esp _. exists 7, [UTick], 0, 0, []. split; [reflexivity|]. split; [|cbn; lia].
  apply Forall_cons; split; [done|constructor].
Qed.

(** ** Running *)

(** C16: a process that is ready, or has exited, is run to its end: the run returns,
    the process has exited with the code its program passed to exit, started at
    the entry point of its image with the image's bytes in the code page; or its
    image could not be loaded, and the process has failed, with nothing printed.
    Every other live process, the file system and the kernel invariant are kept,
    and no process is current afterwards. *)
Theorem process_run_lifecycle addr_tss_entry addr_syscall_stack text_at_null user_script s n bound p :
  kernel_inv s -> current_process (k_proc s) = None -> k_table s !! n = Some p ->
  (p_state p = PROCESS_READY \/ p_state p = PROCESS_EXITED) -> char_at (p_image_path p) 0 <> 0 ->
  well_behaved user_script n bound -> next_pid (k_proc s) + Z.of_nat bound < 4294967296 ->
  wp (process_run addr_tss_entry addr_syscall_stack text_at_null user_script (Some n)) (fun status s' =>
    run_frame n s s' /\ run_outcome user_script n bound s p status s') s.
Proof.
  intros H1 H2 H3 H4 H5 H6 H7. eapply wp_mono; [by apply process_run_ok|].
  intros status s' (Hf & Ho & _). done.
Qed.

Lemma process_run_lifecycle_witness :
  exists p, k_table kernel_ready !! 0%nat = Some p /\
  wp (process_run 0x130000 0x120000 [] exit_seven (Some 0%nat)) (fun status s' =>
    run_frame 0 kernel_ready s' /\ run_outcome exit_seven 0 1 kernel_ready p status s') kernel_ready.
Proof.
  destruct kernel_ready_ok as (Hi & _ & Hc & Hn & p & reg & Ep & Hcp). exists p. split; [exact Ep|].
  apply (process_run_lifecycle 0x130000 0x120000 [] exit_seven kernel_ready 0%nat 1 p Hi Hc Ep).
  - left. apply Hcp.
  - pose proof (cp_path _ _ _ _ _ Hcp) as Hp. intros E0. destruct (p_image_path p) as [|c r]; [discriminate Hp|].
    change (c = 0) in E0. subst c. discriminate Hp.
  - apply exit_seven_exits.
  - rewrite Hn. lia.
Defined.

(** C30: exec creates a process of the given path in a slot that was not in use and
    runs it: in the final table that slot holds the process, with the next pid, the
    name and image path of the program, and the argument vector made of the name and
    the words of the argument line; it has exited with the code of its exit call, or
    failed because its image does not load. Or exec is refused for the first of the
    reasons of [create_refused]. In both cases no other process is touched. *)
Theorem exec_spawn_contract addr_tss_entry addr_syscall_stack text_at_null user_script s path line bound :
  kernel_inv s -> current_process (k_proc s) = None -> (forall n, well_behaved user_script n bound) ->
  next_pid (k_proc s) + 1 + Z.of_nat bound < 4294967296 -> Z.of_nat (length line) < 4294967296 ->
  wp (exec_spawn_with_args addr_tss_entry addr_syscall_stack text_at_null user_script (Some path) (Some line) true)
    (spawn_outcome user_script bound s path line) s.
Proof. apply exec_spawn_ok. Qed.

Lemma exec_spawn_contract_witness :
  wp (exec_spawn_with_args 0x130000 0x120000 [] exit_seven (Some (str "/sbin/init")) (Some (str "a b")) true)
    (fun r s' => current_process (k_proc s') = None /\ (snd r = None -> fst r <> KERNEL_OK)) kernel_started.
Proof.
  destruct kernel_started_ok as (Hi & Hc & Hn & _ & _).
  eapply wp_mono; [apply (exec_spawn_contract 0x130000 0x120000 [] exit_seven kernel_started (str "/sbin/init") (str "a b") 1 Hi Hc
    exit_seven_exits); [rewrite Hn; lia|reflexivity]|].
  intros [st [n|]] s' (_ & Hcur & _ & _ & Ho); (split; [exact Hcur|]).
  - intros H. discriminate H.
  - intros _. destruct Ho as [Hst _]. exact Hst.
Defined.

(** ** The start of user space *)

(** C23: from the statics as the loader clears them, the set-up calls of
    [kernel_main] return with the kernel invariant: no process exists, the first
    pid is 1, the file system is the mounted tree, and user mode is ready unless
    its two pages could not be allocated. *)
Theorem kernel_start_establishes images addr_syscall_stack s :
  images_ok images -> statics_ok s ->
  wp (kernel_main_userspace images addr_syscall_stack) (fun _ s' => kernel_inv s' /\
    current_process (k_proc s') = None /\ next_pid (k_proc s') = 1 /\
    (forall j p, k_table s' !! j = Some p -> active p = false) /\
    (exists info, k_vfs s' = mounted_fs images info) /\
    (usable s' \/ r3_last_status (ring3_info s') = KERNEL_ERROR_OUT_OF_MEMORY)) s.
Proof.
  intros Hi Hs. eapply wp_mono; [by apply kernel_start_ok|].
  intros _ s' (H1 & H2 & H3 & H4 & H5 & H6 & H7). split_and!; try done. destruct H7; [left; by apply H6|by right].
Qed.

Lemma kernel_start_establishes_witness :
  wp (kernel_main_userspace sample_images 0x120000) (fun _ s' => kernel_inv s' /\ next_pid (k_proc s') = 1) kernel_zero.
Proof.
  eapply wp_mono; [apply (kernel_start_establishes sample_images 0x120000 kernel_zero sample_images_ok kernel_zero_ok)|].
  intros _ s' (H1 & _ & H2 & _). exact (conj H1 H2).
Defined.

(** ** A failure that stays *)

(** After one load whose size is refused, user mode is lost: [ring3_initialize]
    answers every later call with the recorded status, so each later load and
    each later run is refused with it, although the pages are ready. *)
Theorem ring3_failure_sticky addr_tss_entry addr_syscall_stack s image size :
  ring3_inv s -> usable s -> size = 0 \/ 4096 < size ->
  wp (ring3_load_user_image addr_syscall_stack (Some image) size true) (fun r s' =>
    r = (KERNEL_ERROR_UNSUPPORTED, None) /\ kmem s' = kmem s /\ r3_ready (ring3_info s') = true /\
    (forall image' size', ring3_load_user_image addr_syscall_stack (Some image') size' true s' =
       Some ((KERNEL_ERROR_UNSUPPORTED, None), s')) /\
    (forall user_code eip esp, fst <$> ring3_run_user_image addr_tss_entry addr_syscall_stack user_code eip esp s' =
       Some KERNEL_ERROR_UNSUPPORTED)) s.
Proof.
  intros Hinv Hus Hsz. unfold ring3_load_user_image at 1, ring3_load_fail, r3_info. cbn [negb].
  wp_step. eexists _, _. split; [by apply initialize_usable|]. eval_status. wp_step. wp_step. wp_step. wp_step. get_set.
  destruct Hinv as [Hv Hinv]. cbv zeta in Hinv. rewrite (proj1 Hus) in *. destruct Hinv as (Hini & Hup & _).
  pose proof (data_frame_range _ _ (proj1 Hv) (up_code _ _ _ Hup)) as (Hc0 & _).
  pose proof (data_frame_range _ _ (proj1 Hv) (up_stack _ _ _ Hup)) as (Hs0 & _).
  zbool. cbn [negb orb]. replace ((size =? 0) || _) with true
    by (symmetry; apply orb_true_iff; unfold RING3_USER_PAGE_SIZE; rewrite Z.eqb_eq, Z.ltb_lt; lia).
  wp_steps. set (s1 := set_field ring3_info _ _).
  assert (Ei : ring3_initialize addr_syscall_stack s1 = Some (KERNEL_ERROR_UNSUPPORTED, s1)).
  { apply initialize_again; [exact Hini|reflexivity]. }
  split; [done|]. split; [done|]. split; [exact (proj1 Hus)|]. split.
  - intros image' size'. unfold ring3_load_user_image, mbind_. cbn [negb]. by rewrite Ei.
  - intros user_code eip esp. unfold ring3_run_user_image, mbind_. by rewrite Ei.
Qed.

Lemma ring3_failure_sticky_witness :
  wp (ring3_load_user_image 0x120000 (Some []) 0 true) (fun r s' => r = (KERNEL_ERROR_UNSUPPORTED, None) /\
    ring3_load_user_image 0x120000 (Some [0x90; 0xC3]) 2 true s' = Some ((KERNEL_ERROR_UNSUPPORTED, None), s')) kernel_started.
Proof.
  destruct kernel_started_ok as (Hi & _ & _ & _ & Hu).
  eapply wp_mono; [apply (ring3_failure_sticky 0x130000 0x120000 kernel_started [] 0 (ki_ring3 _ Hi) Hu); left; reflexivity|].
  intros r s' (H1 & _ & _ & H2 & _). exact (conj H1 (H2 _ _)).
Defined.
