(* ===== verification/Word64.v ===== *)
(** * 64-bit words

    The arithmetic of [u64] in the 64-bit kernel (arch/x86_64/types.h), and the
    assignment to an element of an array; 64-bit words in memory and ring buffers. *)
From S2P Require Import Prelude Mem.

Definition u64 (z : Z) : Z := z mod 18446744073709551616.
Definition is_u64 (z : Z) : Prop := 0 <= z < 18446744073709551616.

Notation "x [++] y" := (u64 (x + y)) (at level 50, left associativity) : c_scope.
Notation "x [--] y" := (u64 (x - y)) (at level 50, left associativity) : c_scope.
Notation "x [**] y" := (u64 (x * y)) (at level 40, left associativity) : c_scope.

(** [~x] *)
Definition not64 (x : Z) : Z := 18446744073709551615 - x.

Ltac u64_lia :=
  unfold u64, is_u64, not64 in *; Z.div_mod_to_equations; lia.

Lemma u64_range z : is_u64 (u64 z).
Proof. unfold is_u64, u64. apply Z.mod_pos_bound. lia. Qed.

Lemma u64_small z : is_u64 z -> u64 z = z.
Proof. unfold is_u64, u64. apply Z.mod_small. Qed.

#[export] Hint Resolve u64_range : u32.

(** Clearing the low [k] bits. *)
Lemma land_high_mask64 x k :
  is_u64 x -> 0 <= k <= 64 -> Z.land x (not64 (2 ^ k - 1)) = 2 ^ k * (x / 2 ^ k).
Proof.
  intros Hx Hk. rewrite <- (land_mask_width 64 x k) by done. f_equal. unfold not64. lia.
Qed.

(** [array[i] = v]; writing outside an array is undefined and never returns. *)
Definition array_put {S A} (l : list A) (i : Z) (v : A) : M S (list A) := fun s =>
  match l !! Z.to_nat i with Some _ => Some (<[Z.to_nat i := v]> l, s) | None => None end.

Lemma wp_array_put {S A} (l : list A) i v (Q : list A -> S -> Prop) (s : S) :
  (Z.to_nat i < length l)%nat -> Q (<[Z.to_nat i := v]> l) s -> wp (array_put l i v) Q s.
Proof.
  intros [x E]%lookup_lt_is_Some_2 HQ. eexists _, _. split; [|exact HQ]. unfold array_put. by rewrite E.
Qed.

Lemma keeps_array_put {S A B} (f : S -> B) (l : list A) i v : keeps f (array_put l i v).
Proof. intros s a s'. unfold array_put. case_match; [|done]. by intros [= <- <-]. Qed.
#[export] Hint Resolve keeps_array_put : keeps.

(** The first [n] elements after an assignment to element [n]. *)
Lemma take_insert_end {A} (l : list A) n x :
  (n < length l)%nat -> take (S n) (<[n := x]> l) = take n l ++ [x].
Proof.
  intros Hn. erewrite take_S_r by (by apply list_lookup_insert_eq). by rewrite take_insert_ge.
Qed.

(** [for (i = 0; i < n; i++)] with [return] in the body: an invariant for the
    iterations that go on, and the postcondition where one returns. *)
Lemma wp_for_ret_seqZ {S R} n (body : Z -> M S (option R)) (I : Z -> S -> Prop) (Q : option R -> S -> Prop) s :
  0 <= n -> I 0 s ->
  (forall i s', 0 <= i < n -> I i s' ->
     wp (body i) (fun r s2 => match r with None => I (i + 1) s2 | Some v => Q (Some v) s2 end) s') ->
  (forall s', I n s' -> Q None s') ->
  wp (mfor_ret (seqZ 0 n) body) Q s.
Proof.
  intros Hn H0 Hstep HQ.
  enough (H : forall k i s', Z.of_nat k = n - i -> 0 <= i -> I i s' -> wp (mfor_ret (seqZ i (n - i)) body) Q s').
  { specialize (H (Z.to_nat n) 0 s). rewrite Z.sub_0_r in H. apply H; [lia|lia|done]. }
  induction k as [|k IH]; intros i s' Hk Hi HI.
  - rewrite seqZ_nil by lia. apply wp_ret, HQ. by replace n with i by lia.
  - rewrite seqZ_cons by lia. cbn [mfor_ret]. apply wp_bind. eapply wp_mono; [apply Hstep; [lia|done]|].
    intros [v|] s2 H2; [by apply wp_ret|]. replace (Z.succ i) with (i + 1) by lia.
    replace (Z.pred (n - i)) with (n - (i + 1)) by lia. apply IH; [lia|lia|done].
Qed.

(** ** Words of 64 bits in memory *)

Definition store64 (a v : Z) (m : mem) : mem := store32 (a + 4) (v / 4294967296) (store32 a v m).

Lemma load64_store64_eq m a v : load64 (store64 a v m) a = v mod 18446744073709551616.
Proof.
  unfold load64, store64. rewrite load32_store32_ne, !load32_store32_eq by lia. unfold u32. Z.div_mod_to_equations. lia.
Qed.

Lemma load8_store64_ne m a b v : a < b \/ b + 8 <= a -> load8 (store64 b v m) a = load8 m a.
Proof. intros. unfold store64. by rewrite !load8_store32_ne by lia. Qed.

Lemma load64_agree P m m' a :
  agree P m m' -> (forall i, 0 <= i < 8 -> P (a + i)) -> load64 m a = load64 m' a.
Proof.
  intros Hag HP. unfold load64. rewrite (load32_agree P m m' a), (load32_agree P m m' (a + 4)); [done|done| |done|].
  - intros i Hi. rewrite <- Z.add_assoc. apply HP. lia.
  - intros i Hi. apply HP. lia.
Qed.

Lemma load64_store64_ne m a b v : a + 8 <= b \/ b + 8 <= a -> load64 (store64 b v m) a = load64 m a.
Proof.
  intros. apply (load64_agree (fun x => a <= x < a + 8)); [|intros; lia]. intros x Hx. apply load8_store64_ne. lia.
Qed.

(** A word whose bytes are those of another place. *)
Lemma load64_same m m' a b : (forall i, 0 <= i < 8 -> load8 m' (a + i) = load8 m (b + i)) -> load64 m' a = load64 m b.
Proof.
  intros H. unfold load64, load32, load16.
  rewrite <- (Z.add_0_r a) at 1. rewrite <- (Z.add_0_r b) at 1. rewrite <- !Z.add_assoc.
  rewrite !H by lia. done.
Qed.

Lemma load64_zero m a : (forall i, 0 <= i < 8 -> load8 m (a + i) = 0) -> load64 m a = 0.
Proof.
  intros H. unfold load64, load32, load16. rewrite <- (Z.add_0_r a) at 1. rewrite <- !Z.add_assoc. rewrite !H by lia. done.
Qed.

Lemma load64_range m a : 0 <= load64 m a < 18446744073709551616.
Proof.
  unfold load64. pose proof (load32_range m a) as H1. pose proof (load32_range m (a + 4)) as H2. unfold is_u32 in *. lia.
Qed.

(** ** Ring buffers

    [ring_items] reads a ring of capacity [cap] from its head: the reference for the
    character ring and the event queue of the input driver. *)

Section Ring.
Context {A : Type} `{!Inhabited A} (cap : Z).
Hypothesis cap_pos : 0 < cap.

Definition ring_items (l : list A) (head count : Z) : list A :=
  (fun i => l !!! Z.to_nat ((head + i) mod cap)) <$> seqZ 0 count.

Lemma ring_items_length l head count : length (ring_items l head count) = Z.to_nat count.
Proof using. unfold ring_items. by rewrite length_fmap, length_seqZ. Qed.

Lemma ring_items_lookup l head count i :
  0 <= i < count -> ring_items l head count !! Z.to_nat i = Some (l !!! Z.to_nat ((head + i) mod cap)).
Proof using.
  intros Hi. unfold ring_items. rewrite list_lookup_fmap, lookup_seqZ_lt by lia. cbn. do 2 f_equal. f_equal. f_equal. lia.
Qed.

Lemma ring_push l head count x :
  Z.of_nat (length l) = cap -> 0 <= count < cap ->
  ring_items (<[Z.to_nat ((head + count) mod cap) := x]> l) head (count + 1) = ring_items l head count ++ [x].
Proof using cap_pos.
  intros Hl Hc. unfold ring_items. rewrite seqZ_app, fmap_app by lia. f_equal.
  - apply list_fmap_ext. intros j i Hj. apply lookup_seqZ in Hj as [-> Hj].
    apply list_lookup_total_insert_ne.
    pose proof (Z.mod_pos_bound (head + count) cap cap_pos). pose proof (Z.mod_pos_bound (head + (0 + Z.of_nat j)) cap cap_pos).
    intros E. apply Z2Nat.inj in E; [|lia|lia].
    assert (Hd : (count - Z.of_nat j) mod cap = 0).
    { replace (count - Z.of_nat j) with ((head + count) - (head + (0 + Z.of_nat j))) by lia.
      rewrite Zminus_mod, E, Z.sub_diag. by apply Z.mod_0_l; lia. }
    rewrite Z.mod_small in Hd by lia. lia.
  - rewrite (seqZ_cons _ 1), seqZ_nil by lia. cbn [fmap list_fmap]. rewrite Z.add_0_l.
    rewrite list_lookup_total_insert_eq; [done|].
    pose proof (Z.mod_pos_bound (head + count) cap cap_pos). lia.
Qed.

Lemma ring_pop l head count :
  0 < count -> ring_items l head count = l !!! Z.to_nat (head mod cap) :: ring_items l ((head + 1) mod cap) (count - 1).
Proof using cap_pos.
  intros Hc. unfold ring_items. rewrite seqZ_cons by lia. cbn [fmap list_fmap]. rewrite Z.add_0_r. f_equal.
  replace (Z.pred count) with (count - 1) by lia. change (Z.succ 0) with (1 + 0).
  rewrite <- (fmap_add_seqZ 1 0). rewrite <- list_fmap_compose. apply list_fmap_ext. intros j i Hj. cbn. do 2 f_equal.
  rewrite Zplus_mod_idemp_l. f_equal. lia.
Qed.
End Ring.
