(* ===== verification/Pmm64.v ===== *)
(** * The frame allocator of the 64-bit kernel (arch/x86_64/pmm.c)

    A stack of free frames. Initialization pushes the frames of the available
    regions above the kernel image; a frame is freed by pushing it back. *)
From S2P Require Import Prelude Word64.

Definition X86_64_PAGE_SIZE := 4096.
Definition X86_64_PMM_MAX_TRACKED_PAGES := 65536.
Definition X86_64_PMM_INVALID_PAGE := 0.
Definition X86_64_MEMORY_REGION_AVAILABLE := 1.

(** boot_info.h *)
Record x86_64_memory_region := { mr_base : Z; mr_length : Z; mr_type : Z }.

Record x86_64_pmm_state := {
  pm_initialized : bool;
  pm_tracked_pages : Z;
  pm_free_pages : Z;
  pm_dropped_pages : Z;
  pm_duplicate_free_rejects : Z;
  pm_lowest_page : Z;
  pm_highest_page : Z
}.
#[export] Instance eta_x86_64_pmm_state : Settable x86_64_pmm_state := fun s =>
  Build_x86_64_pmm_state (pm_initialized s) (pm_tracked_pages s) (pm_free_pages s) (pm_dropped_pages s)
    (pm_duplicate_free_rejects s) (pm_lowest_page s) (pm_highest_page s).

Record pmm64 := { page_stack : list Z; pmm64_state : x86_64_pmm_state }.
#[export] Instance eta_pmm64 : Settable pmm64 := fun s => Build_pmm64 (page_stack s) (pmm64_state s).

Abbreviation P64 := (M pmm64).

Definition pmm64_mod (f : x86_64_pmm_state -> x86_64_pmm_state) : P64 unit :=
  mmod (fun s => s <| pmm64_state ::= f |>).

Definition align_down64 (value alignment : Z) : Z := Z.land value (not64 (alignment [--] 1)).
Definition align_up64 (value alignment : Z) : Z := align_down64 (value [++] alignment [--] 1) alignment.

Definition pmm64_zero_state : P64 unit :=
  pmm64_mod (fun _ => Build_x86_64_pmm_state false 0 0 0 0 0 0).

(** [page_stack[pmm_state.free_pages++] = page] *)
Definition push_page (page : Z) : P64 unit :=
  st <- mget pmm64_state ;;
  stack <- mget page_stack ;;
  stack' <- array_put stack (pm_free_pages st) page ;;
  mmod (fun s => s <| page_stack := stack' |>) ;;;
  pmm64_mod (fun st => st <| pm_free_pages ::= incr |>).

Definition track_page (page : Z) : P64 unit :=
  st <- mget pmm64_state ;;
  if X86_64_PMM_MAX_TRACKED_PAGES <=? pm_tracked_pages st then
    pmm64_mod (fun st => st <| pm_dropped_pages ::= incr |>)
  else
    push_page page ;;;
    pmm64_mod (fun st => st <| pm_tracked_pages ::= incr |>) ;;;
    st <- mget pmm64_state ;;
    mwhen ((pm_lowest_page st =? 0) || (page <? pm_lowest_page st))
      (pmm64_mod (fun st => st <| pm_lowest_page := page |>)) ;;;
    st <- mget pmm64_state ;;
    mwhen (pm_highest_page st <? page)
      (pmm64_mod (fun st => st <| pm_highest_page := page |>)).

(** The loop of [track_range]; its variable is [page]. *)
Definition track_range_step (e page : Z) : P64 (Z + unit) :=
  if page <=? e [--] X86_64_PAGE_SIZE then
    track_page page ;;; mret_ (inl (page [++] X86_64_PAGE_SIZE))
  else mret_ (inr tt).

Definition track_range (start e : Z) : P64 unit :=
  if (e <=? start) || (e [--] start <? X86_64_PAGE_SIZE) then mret_ tt
  else mloop (track_range_step e) start.

Definition page_is_already_free (page : Z) : P64 bool :=
  st <- mget pmm64_state ;;
  stack <- mget page_stack ;;
  r <- mfor_ret (seqZ 0 (pm_free_pages st)) (fun i =>
    p <- array_at stack i ;; mret_ (if p =? page then Some tt else None)) ;;
  mret_ (match r with Some _ => true | None => false end).

(** The body of the loop of [x86_64_pmm_init]. *)
Definition pmm64_init_region (reserved_below : Z) (region : x86_64_memory_region) : P64 unit :=
  if negb (mr_type region =? X86_64_MEMORY_REGION_AVAILABLE) then mret_ tt
  else
    let region_end := mr_base region [++] mr_length region in
    if (region_end <? mr_base region) || (region_end <=? reserved_below) then mret_ tt
    else
      let start := mr_base region in
      let start := if start <? reserved_below then reserved_below else start in
      track_range (align_up64 start X86_64_PAGE_SIZE) (align_down64 region_end X86_64_PAGE_SIZE).

(** Of the boot summary only [memory_region_count] and [memory_regions] are used, and
    of the layout [kernel_end]. *)
Definition x86_64_pmm_init (memory_region_count : Z) (memory_regions : list x86_64_memory_region)
    (kernel_end : Z) : P64 unit :=
  pmm64_zero_state ;;;
  let reserved_below := align_up64 kernel_end X86_64_PAGE_SIZE in
  mfor (seqZ 0 memory_region_count) (fun i =>
    region <- array_at memory_regions i ;; pmm64_init_region reserved_below region) ;;;
  pmm64_mod (fun st => st <| pm_initialized := true |>).

Definition x86_64_pmm_alloc_page : P64 Z :=
  st <- mget pmm64_state ;;
  if negb (pm_initialized st) || (pm_free_pages st =? 0) then mret_ X86_64_PMM_INVALID_PAGE
  else
    pmm64_mod (fun st => st <| pm_free_pages ::= decr |>) ;;;
    st <- mget pmm64_state ;;
    stack <- mget page_stack ;;
    array_at stack (pm_free_pages st).

Definition x86_64_pmm_free_page (page : Z) : P64 Z :=
  st <- mget pmm64_state ;;
  if negb (pm_initialized st) || (page =? X86_64_PMM_INVALID_PAGE) then mret_ 0
  else if negb (Z.land page (X86_64_PAGE_SIZE - 1) =? 0) then mret_ 0
  else if (page <? pm_lowest_page st) || (pm_highest_page st <? page) then mret_ 0
  else
    free <- page_is_already_free page ;;
    if free : bool then pmm64_mod (fun st => st <| pm_duplicate_free_rejects ::= incr |>) ;;; mret_ 0
    else if pm_tracked_pages st <=? pm_free_pages st then mret_ 0
    else push_page page ;;; mret_ 1.

Definition x86_64_pmm_get_state : P64 x86_64_pmm_state := mget pmm64_state.

(** ** Reference: the frames of the available regions *)

(** The frames that lie whole inside the region and above the reserved part. *)
Definition region_frames (kernel_end : Z) (region : x86_64_memory_region) : list Z :=
  let reserved := 4096 * ((kernel_end + 4095) / 4096) in
  let first := (Z.max (mr_base region) reserved + 4095) / 4096 in
  let last := (mr_base region + mr_length region) / 4096 in
  if mr_type region =? 1 then (fun k => 4096 * k) <$> seqZ first (last - first) else [].

Definition usable_frames (kernel_end : Z) (regions : list x86_64_memory_region) : list Z :=
  mjoin (region_frames kernel_end <$> regions).

(** A region below 2^45, as physical memory is. *)
Definition region_ok (region : x86_64_memory_region) : Prop :=
  0 <= mr_base region /\ 0 <= mr_length region /\ mr_base region + mr_length region <= 35184372088832.

(** The free frames, the one to be handed out next last. *)
Definition free_frames (s : pmm64) : list Z := take (Z.to_nat (pm_free_pages (pmm64_state s))) (page_stack s).

Example region_frames_sample :
  region_frames 0x105432 {| mr_base := 0x100000; mr_length := 0x9800; mr_type := 1 |} = [0x106000; 0x107000; 0x108000].
Proof. reflexivity. Qed.
