(* ===== verification/Pmm64Proofs.v ===== *)
(** * The 64-bit frame allocator: invariant and contracts *)
From S2P Require Import Prelude Word64 Pmm64.

Lemma align_down_page x : is_u64 x -> align_down64 x 4096 = 4096 * (x / 4096).
Proof. intros Hx. unfold align_down64. change (4096 [--] 1) with (2 ^ 12 - 1). by apply (land_high_mask64 x 12). Qed.

Lemma align_up_page64 x : 0 <= x <= 35184372088832 -> align_up64 x 4096 = 4096 * ((x + 4095) / 4096).
Proof.
  intros Hx. unfold align_up64.
  replace (x [++] 4096 [--] 1) with (x + 4095) by u64_lia. apply align_down_page. unfold is_u64. lia.
Qed.

(** ** Initialization *)

(** The state after the frames of [t] were tracked. *)
Record tracked (t : list Z) (s : pmm64) : Prop := {
  tk_stack : Z.of_nat (length (page_stack s)) = 65536;
  tk_count : pm_tracked_pages (pmm64_state s) = Z.min (Z.of_nat (length t)) 65536;
  tk_free : pm_free_pages (pmm64_state s) = Z.min (Z.of_nat (length t)) 65536;
  tk_frames : free_frames s = take (Z.to_nat 65536) t;
  tk_low : 0 <= pm_lowest_page (pmm64_state s);
  tk_high : 0 <= pm_highest_page (pmm64_state s);
  tk_zero : pm_lowest_page (pmm64_state s) = 0 -> t = [];
  tk_range : Forall (fun p => pm_lowest_page (pmm64_state s) <= p <= pm_highest_page (pmm64_state s)) (take (Z.to_nat 65536) t)
}.

(** Pushing a frame while there is room. *)
Lemma push_page_ok s page (Q : unit -> pmm64 -> Prop) :
  0 <= pm_free_pages (pmm64_state s) < Z.of_nat (length (page_stack s)) -> pm_free_pages (pmm64_state s) < 65536 ->
  (forall s', length (page_stack s') = length (page_stack s) ->
     pmm64_state s' = (pmm64_state s) <| pm_free_pages := pm_free_pages (pmm64_state s) + 1 |> ->
     free_frames s' = free_frames s ++ [page] -> Q tt s') ->
  wp (push_page page) Q s.
Proof.
  intros Hf Hf2 HQ. unfold push_page, pmm64_mod. wp_step. wp_step. wp_step. wp_step. wp_step.
  apply wp_array_put; [lia|]. wp_steps. apply HQ; get_set.
  - by rewrite length_insert.
  - destruct s as [l []]. cbv [set_field eta_x86_64_pmm_state]. cbn in *. by rewrite incr_small by lia.
  - unfold free_frames. get_set. rewrite incr_small by lia.
    replace (Z.to_nat (pm_free_pages (pmm64_state s) + 1)) with (S (Z.to_nat (pm_free_pages (pmm64_state s)))) by lia.
    apply take_insert_end. lia.
Qed.

(** The bounds after a frame was tracked. *)
Definition lowest_after (page low : Z) : Z := if (low =? 0) || (page <? low) then page else low.
Definition highest_after (page high : Z) : Z := if high <? page then page else high.

Lemma track_page_run s page (Q : unit -> pmm64 -> Prop) :
  0 <= pm_tracked_pages (pmm64_state s) < 65536 -> 0 <= pm_free_pages (pmm64_state s) < 65536 ->
  Z.of_nat (length (page_stack s)) = 65536 ->
  (forall s', length (page_stack s') = length (page_stack s) ->
     pmm64_state s' = (pmm64_state s)
       <| pm_free_pages := pm_free_pages (pmm64_state s) + 1 |>
       <| pm_tracked_pages := pm_tracked_pages (pmm64_state s) + 1 |>
       <| pm_lowest_page := lowest_after page (pm_lowest_page (pmm64_state s)) |>
       <| pm_highest_page := highest_after page (pm_highest_page (pmm64_state s)) |> ->
     free_frames s' = free_frames s ++ [page] -> Q tt s') ->
  wp (track_page page) Q s.
Proof.
  intros Ht Hf Hs HQ. unfold track_page, pmm64_mod. wp_step. wp_step.
  unfold X86_64_PMM_MAX_TRACKED_PAGES. zbool. wp_step. apply push_page_ok; [lia|lia|].
  intros s1 E1 E2 E3. do 4 wp_step. get_set. rewrite E2. get_set.
  set (st := pmm64_state s) in *.
  assert (Hend : forall s', page_stack s' = page_stack s1 ->
    pmm64_state s' = st <| pm_free_pages := pm_free_pages st + 1 |>
       <| pm_tracked_pages := pm_tracked_pages st + 1 |>
       <| pm_lowest_page := lowest_after page (pm_lowest_page st) |>
       <| pm_highest_page := highest_after page (pm_highest_page st) |> -> Q tt s').
  { intros s' Es Est. apply HQ; [by rewrite Es|done|].
    rewrite <- E3. unfold free_frames. by rewrite Es, Est, E2. }
  unfold lowest_after, highest_after in Hend.
  wp_step; wp_steps; get_set_in H0; rewrite E2 in H0; get_set_in H0; apply Hend; get_set; try done; rewrite ?E2;
    rewrite H; rewrite H0; clear - Ht; destruct st; cbn in *;
    cbv [set_field eta_x86_64_pmm_state]; cbn; rewrite ?incr_small by lia; done.
Qed.

Lemma track_page_ok t s page :
  tracked t s -> 0 < page -> wp (track_page page) (fun _ => tracked (t ++ [page])) s.
Proof.
  intros [Hs Hc Hf Hfr Hl Hh Hz Hr] Hp.
  assert (Hlen : Z.of_nat (length (t ++ [page])) = Z.of_nat (length t) + 1) by (rewrite length_app; cbn; lia).
  destruct (decide (Z.of_nat (length t) < 65536)) as [Hroom|Hfull].
  - apply track_page_run; [lia|lia|done|]. intros s' E1 E2 E3.
    assert (Etake : take (Z.to_nat 65536) (t ++ [page]) = t ++ [page]) by (apply take_ge; lia).
    rewrite (take_ge t (Z.to_nat 65536)) in * by lia.
    constructor; rewrite ?Etake, ?E1, ?E2, ?E3, ?Hfr, ?Hlen; get_set; rewrite ?Hf, ?Hc; try done; try lia;
      unfold lowest_after, highest_after.
    + destruct (_ || _); lia.
    + destruct (Z.ltb_spec (pm_highest_page (pmm64_state s)) page); lia.
    + destruct (Z.eqb_spec (pm_lowest_page (pmm64_state s)) 0), (Z.ltb_spec page (pm_lowest_page (pmm64_state s))); cbn [orb]; lia.
    + apply Forall_app. split.
      * apply Forall_forall. intros p Hin. rewrite Forall_forall in Hr. specialize (Hr p Hin).
        destruct (Z.eqb_spec (pm_lowest_page (pmm64_state s)) 0) as [E0|].
        { rewrite (Hz E0) in Hin. by apply not_elem_of_nil in Hin. }
        destruct (Z.ltb_spec page (pm_lowest_page (pmm64_state s))), (Z.ltb_spec (pm_highest_page (pmm64_state s)) page);
          cbn [orb]; lia.
      * apply Forall_singleton.
        destruct (Z.eqb_spec (pm_lowest_page (pmm64_state s)) 0), (Z.ltb_spec page (pm_lowest_page (pmm64_state s))),
          (Z.ltb_spec (pm_highest_page (pmm64_state s)) page); cbn [orb]; lia.
  - unfold track_page, pmm64_mod. wp_step. wp_step. unfold X86_64_PMM_MAX_TRACKED_PAGES. zbool. wp_step.
    assert (Et : take (Z.to_nat 65536) (t ++ [page]) = take (Z.to_nat 65536) t) by (apply take_app_le; lia).
    assert (E : free_frames (s <| pmm64_state ::= (fun st => st <| pm_dropped_pages ::= incr |>) |>) = free_frames s) by done.
    constructor; get_set; rewrite ?Hlen, ?Et, ?E; try done; try lia.
    intros E0. apply Hz in E0. subst t. cbn in *. lia.
Qed.

(** The frames numbered from [a] up to [b]. *)
Definition frames_between (a b : Z) : list Z := (fun k => 4096 * k) <$> seqZ a (b - a).

Lemma frames_between_snoc a k : a <= k -> frames_between a k ++ [4096 * k] = frames_between a (k + 1).
Proof.
  intros Hk. unfold frames_between. replace (k + 1 - a) with ((k - a) + 1) by lia.
  rewrite seqZ_app, fmap_app by lia. replace (a + (k - a)) with k by lia. reflexivity.
Qed.

Lemma track_range_ok t s a b :
  tracked t s -> 0 < a -> 0 <= b <= 8589934592 ->
  wp (track_range (4096 * a) (4096 * b)) (fun _ => tracked (t ++ frames_between a b)) s.
Proof.
  intros Ht Ha Hb. unfold track_range, X86_64_PAGE_SIZE.
  destruct (decide (b <= a)) as [Hle|Hlt].
  { rewrite (proj2 (Z.leb_le _ _)) by lia. cbn [orb]. wp_step. unfold frames_between. rewrite seqZ_nil by lia. cbn. by rewrite app_nil_r. }
  replace (4096 * b [--] 4096 * a) with (4096 * (b - a)) by u64_lia. zbool. cbn [orb].
  apply (wp_loop _ (fun p s' => exists k, p = 4096 * k /\ a <= k <= b /\ tracked (t ++ frames_between a k) s')
           (fun p _ => b - p / 4096)).
  - intros p s' (k & -> & Hk & Htk). unfold track_range_step, X86_64_PAGE_SIZE.
    replace (4096 * b [--] 4096) with (4096 * (b - 1)) by u64_lia.
    rewrite (Z.mul_comm 4096 k), Z.div_mul, (Z.mul_comm k 4096) by lia.
    destruct (Z.leb_spec (4096 * k) (4096 * (b - 1))).
    + wp_step. eapply wp_mono; [apply track_page_ok; [exact Htk|lia]|]. intros [] s2 H2. wp_step.
      replace (4096 * k [++] 4096) with ((k + 1) * 4096) by u64_lia. rewrite Z.div_mul by lia.
      split; [|lia]. exists (k + 1). split; [lia|]. split; [lia|].
      by rewrite <- frames_between_snoc, app_assoc by lia.
    + wp_step. by replace b with k by lia.
  - exists a. split; [done|]. split; [lia|]. unfold frames_between. rewrite Z.sub_diag. cbn. by rewrite app_nil_r.
  - rewrite (Z.mul_comm 4096 a), Z.div_mul by lia. lia.
Qed.

Lemma init_region_ok t s kernel_end region :
  tracked t s -> 0 < kernel_end <= 35184372084736 -> region_ok region ->
  wp (pmm64_init_region (align_up64 kernel_end 4096) region)
     (fun _ => tracked (t ++ region_frames kernel_end region)) s.
Proof.
  intros Ht Hk (Hb & Hl & He). unfold pmm64_init_region, region_frames, X86_64_MEMORY_REGION_AVAILABLE, X86_64_PAGE_SIZE.
  destruct (mr_type region =? 1); cbn [negb]; [|wp_step; by rewrite app_nil_r].
  rewrite (u64_small (mr_base region + mr_length region)) by (unfold is_u64; lia).
  rewrite (align_up_page64 kernel_end) by lia.
  set (reserved := 4096 * ((kernel_end + 4095) / 4096)).
  assert (Hres : 0 < reserved <= 35184372088832) by (unfold reserved; Z.div_mod_to_equations; lia).
  fold (frames_between ((mr_base region `max` reserved + 4095) / 4096) ((mr_base region + mr_length region) / 4096)).
  destruct (Z.ltb_spec (mr_base region + mr_length region) (mr_base region)); [lia|]. cbn [orb].
  destruct (Z.leb_spec (mr_base region + mr_length region) reserved) as [Hlow|Hhigh].
  { wp_step. unfold frames_between. rewrite seqZ_nil; [by rewrite app_nil_r|].
    assert (reserved <= 4096 * ((mr_base region `max` reserved + 4095) / 4096)) by (Z.div_mod_to_equations; lia).
    Z.div_mod_to_equations. lia. }
  replace (if mr_base region <? reserved then reserved else mr_base region) with (mr_base region `max` reserved).
  2:{ destruct (Z.ltb_spec (mr_base region) reserved); lia. }
  rewrite align_up_page64 by lia. rewrite align_down_page by (unfold is_u64; lia).
  apply track_range_ok; [done| |]; Z.div_mod_to_equations; lia.
Qed.

Lemma pmm_init_tracked count regions kernel_end s :
  Z.of_nat (length (page_stack s)) = 65536 -> 0 < kernel_end <= 35184372084736 ->
  0 <= count <= Z.of_nat (length regions) -> Forall region_ok regions ->
  wp (x86_64_pmm_init count regions kernel_end)
     (fun _ s' => pm_initialized (pmm64_state s') = true /\
        tracked (usable_frames kernel_end (take (Z.to_nat count) regions)) s') s.
Proof.
  intros Hs Hk Hc Hr. unfold x86_64_pmm_init, pmm64_zero_state, pmm64_mod, X86_64_PAGE_SIZE. wp_step. wp_step. wp_step.
  apply (wp_for_seqZ count _ (fun i => tracked (usable_frames kernel_end (take (Z.to_nat i) regions)))); [lia| | |].
  - by constructor.
  - intros i s' Hi Ht. wp_step. destruct (lookup_lt_is_Some_2 regions (Z.to_nat i)) as [r Er]; [lia|].
    eapply wp_array_at; [exact Er|]. eapply wp_mono.
    { apply init_region_ok; [exact Ht|lia|]. by eapply Forall_lookup_1. }
    intros [] s2. cbv beta. replace (Z.to_nat (i + 1)) with (S (Z.to_nat i)) by lia.
    rewrite (take_S_r _ _ _ Er). unfold usable_frames. rewrite fmap_app, join_app. cbn. by rewrite app_nil_r.
  - intros s' Ht. wp_step. split; [done|]. by destruct Ht.
Qed.

(** ** The invariant

    [all] are the frames the allocator manages and [held] those it has handed
    out. *)
Record pmm64_inv (all : list Z) (held : gset Z) (s : pmm64) : Prop := {
  pi_initialized : pm_initialized (pmm64_state s) = true;
  pi_stack : Z.of_nat (length (page_stack s)) = 65536;
  pi_count : pm_tracked_pages (pmm64_state s) = Z.of_nat (length all);
  pi_free : pm_free_pages (pmm64_state s) = Z.of_nat (length (free_frames s));
  pi_max : Z.of_nat (length all) <= 65536;
  pi_nodup : NoDup all;
  pi_split : free_frames s ++ elements held ≡ₚ all;
  pi_frames : Forall (fun p => 0 < p /\ p mod 4096 = 0 /\
                pm_lowest_page (pmm64_state s) <= p <= pm_highest_page (pmm64_state s)) all
}.

Lemma region_frames_aligned kernel_end region p :
  0 < kernel_end -> p ∈ region_frames kernel_end region -> 0 < p /\ p mod 4096 = 0.
Proof.
  intros Hk Hp. unfold region_frames in Hp. destruct (_ =? 1); [|by apply not_elem_of_nil in Hp].
  apply list_elem_of_fmap in Hp as (k & -> & Hin). apply elem_of_seqZ in Hin. split; Z.div_mod_to_equations; lia.
Qed.

Lemma usable_frames_aligned kernel_end regions p :
  0 < kernel_end -> p ∈ usable_frames kernel_end regions -> 0 < p /\ p mod 4096 = 0.
Proof.
  intros Hk. unfold usable_frames. rewrite list_elem_of_join. intros (l & Hp & Hl).
  apply list_elem_of_fmap in Hl as (r & -> & _). by eapply region_frames_aligned.
Qed.

Lemma tracked_inv kernel_end regions s :
  0 < kernel_end -> tracked (usable_frames kernel_end regions) s -> pm_initialized (pmm64_state s) = true ->
  NoDup (usable_frames kernel_end regions) ->
  pmm64_inv (take (Z.to_nat 65536) (usable_frames kernel_end regions)) ∅ s.
Proof.
  intros Hk [Hs Hc Hf Hfr _ _ _ Hr] Hi Hnd.
  constructor; rewrite ?Hfr, ?length_take; try done; try lia.
  - eapply sublist_NoDup; [exact Hnd|]. apply sublist_take.
  - by rewrite elements_empty, app_nil_r.
  - apply Forall_forall. intros p Hp. rewrite Forall_forall in Hr.
    destruct (usable_frames_aligned kernel_end regions p Hk) as [H1 H2]; [|by auto].
    apply elem_of_take in Hp as (i & Hi' & _). by eapply list_elem_of_lookup_2.
Qed.

(** ** Allocation *)

Lemma free_frames_last s all held :
  pmm64_inv all held s -> 0 < pm_free_pages (pmm64_state s) ->
  exists p, page_stack s !! Z.to_nat (pm_free_pages (pmm64_state s) - 1) = Some p /\
    free_frames s = take (Z.to_nat (pm_free_pages (pmm64_state s) - 1)) (page_stack s) ++ [p].
Proof.
  intros Hi Hpos. assert (Hle : pm_free_pages (pmm64_state s) <= 65536).
  { pose proof (pi_stack _ _ _ Hi). rewrite (pi_free _ _ _ Hi). unfold free_frames. rewrite length_take. lia. }
  destruct (lookup_lt_is_Some_2 (page_stack s) (Z.to_nat (pm_free_pages (pmm64_state s) - 1))) as [p Hp].
  { pose proof (pi_stack _ _ _ Hi). lia. }
  exists p. split; [done|]. unfold free_frames. rewrite <- (take_S_r _ _ _ Hp). f_equal. lia.
Qed.

Lemma pmm64_alloc_ok all held s :
  pmm64_inv all held s ->
  wp x86_64_pmm_alloc_page (fun p s' =>
    match last (free_frames s) with
    | None => p = 0 /\ s' = s
    | Some q => p = q /\ p ∈ all /\ p ∉ held /\ free_frames s = free_frames s' ++ [p] /\
        pmm64_inv all ({[p]} ∪ held) s'
    end) s.
Proof.
  intros Hi. unfold x86_64_pmm_alloc_page, pmm64_mod, X86_64_PMM_INVALID_PAGE. wp_step. wp_step.
  rewrite (pi_initialized _ _ _ Hi). cbn [negb orb].
  destruct (Z.eqb_spec (pm_free_pages (pmm64_state s)) 0) as [E0|Hne].
  - wp_step. unfold free_frames. by rewrite E0.
  - assert (Hpos : 0 < pm_free_pages (pmm64_state s)) by (rewrite (pi_free _ _ _ Hi) in *; lia).
    destruct (free_frames_last _ _ _ Hi Hpos) as (p & Hp & Efr).
    pose proof (pi_split _ _ _ Hi) as Hsplit. pose proof (pi_nodup _ _ _ Hi) as Hnd.
    assert (Hle : pm_free_pages (pmm64_state s) <= 65536).
    { rewrite (pi_free _ _ _ Hi). apply Permutation_length in Hsplit. rewrite length_app in Hsplit.
      pose proof (pi_max _ _ _ Hi). lia. }
    do 6 wp_step. get_set. rewrite decr_small by lia.
    eapply wp_array_at; [exact Hp|].
    rewrite Efr, last_snoc. split; [done|].
    assert (Hmid : take (Z.to_nat (pm_free_pages (pmm64_state s) - 1)) (page_stack s) ++ p :: elements held ≡ₚ all).
    { rewrite <- Hsplit, Efr, <- app_assoc. done. }
    assert (Hnew : p ∉ held).
    { rewrite <- Hmid in Hnd. apply NoDup_app in Hnd as (_ & _ & Hnd). apply NoDup_cons in Hnd as [Hn _].
      by rewrite elem_of_elements in Hn. }
    split; [rewrite <- Hmid; set_solver|]. split; [done|].
    set (s' := s <| pmm64_state ::= _ |>).
    assert (Ef' : free_frames s' = take (Z.to_nat (pm_free_pages (pmm64_state s) - 1)) (page_stack s)).
    { unfold free_frames, s'. get_set. by rewrite decr_small by lia. }
    rewrite Ef'. split; [done|]. destruct Hi.
    constructor; rewrite ?Ef'; unfold s'; get_set; try done.
    + rewrite length_take, decr_small by lia. lia.
    + rewrite elements_union_singleton by done. done.
Qed.

(** ** Freeing *)

Lemma page_is_already_free_ok s page all held (Q : bool -> pmm64 -> Prop) :
  pmm64_inv all held s -> Q (bool_decide (page ∈ free_frames s)) s -> wp (page_is_already_free page) Q s.
Proof.
  intros Hi HQ. unfold page_is_already_free. wp_step. wp_step. wp_step. wp_step. wp_step.
  assert (Hlen : Z.of_nat (length (free_frames s)) = pm_free_pages (pmm64_state s)) by (by rewrite <- (pi_free _ _ _ Hi)).
  enough (Hr : wp (mfor_ret (seqZ 0 (pm_free_pages (pmm64_state s))) (fun i =>
      p <- array_at (page_stack s) i ;; mret_ (if p =? page then Some tt else None)))
      (fun r s' => s' = s /\ (match r with Some _ => true | None => false end) = bool_decide (page ∈ free_frames s)) s).
  { eapply wp_mono; [exact Hr|]. intros r s' [-> E]. wp_step. by rewrite E. }
  rewrite <- Hlen. unfold free_frames at 2 3. clear HQ Q.
  assert (Hgen : forall n k, (k + n <= length (page_stack s))%nat ->
    wp (mfor_ret (seqZ (Z.of_nat k) (Z.of_nat n)) (fun i =>
      p <- array_at (page_stack s) i ;; mret_ (if p =? page then Some tt else None)))
      (fun r s' => s' = s /\ (match r with Some _ => true | None => false end)
         = bool_decide (page ∈ take n (drop k (page_stack s)))) s).
  { induction n as [|n IH]; intros k Hk.
    - rewrite seqZ_nil by lia. apply wp_ret. split; [done|]. symmetry. apply bool_decide_eq_false_2, not_elem_of_nil.
    - destruct (lookup_lt_is_Some_2 (page_stack s) k) as [p Hp]; [lia|].
      rewrite seqZ_cons by lia. cbn [mfor_ret]. wp_step. wp_step.
      eapply wp_array_at; [by rewrite Nat2Z.id|]. wp_step. rewrite (drop_S _ _ _ Hp). cbn [take].
      destruct (Z.eqb_spec p page) as [->|Hne].
      + wp_step. split; [done|]. symmetry. apply bool_decide_eq_true_2. by left.
      + replace (Z.succ (Z.of_nat k)) with (Z.of_nat (S k)) by lia.
        replace (Z.pred (Z.of_nat (S n))) with (Z.of_nat n) by lia.
        eapply wp_mono; [apply IH; lia|]. intros r s' [-> ->]. split; [done|].
        apply bool_decide_ext. rewrite elem_of_cons. naive_solver. }
  specialize (Hgen (length (free_frames s)) 0%nat). rewrite drop_0 in Hgen.
  replace (Z.to_nat (pm_free_pages (pmm64_state s))) with (length (free_frames s)) by lia.
  apply Hgen. unfold free_frames. rewrite length_take. lia.
Qed.

(** The frames the code refuses to take back. *)
Definition free_rejected (s : pmm64) (page : Z) : Prop :=
  page = 0 \/ page mod 4096 <> 0 \/ page < pm_lowest_page (pmm64_state s) \/
  pm_highest_page (pmm64_state s) < page \/ page ∈ free_frames s.

Lemma pmm64_free_held all held s page :
  pmm64_inv all held s -> page ∈ held ->
  wp (x86_64_pmm_free_page page)
     (fun r s' => r = 1 /\ free_frames s' = free_frames s ++ [page] /\ pmm64_inv all (held ∖ {[page]}) s') s.
Proof.
  intros Hi Hh. pose proof Hi as [Hin Hs Hc Hf Hm Hnd Hsp Hfr].
  assert (Hall : page ∈ all) by (rewrite <- Hsp; set_solver).
  rewrite Forall_forall in Hfr. destruct (Hfr page Hall) as (Hp0 & Hp1 & Hp2).
  assert (Hel : elements held ≡ₚ page :: elements (held ∖ {[page]})).
  { rewrite <- elements_union_singleton by set_solver. apply elements_proper.
    rewrite <- union_difference_singleton_L; set_solver. }
  assert (Hnf : page ∉ free_frames s).
  { intros Hx. rewrite <- Hsp in Hnd. apply NoDup_app in Hnd as (_ & Hd & _). apply (Hd _ Hx). by apply elem_of_elements. }
  assert (Hlt : pm_free_pages (pmm64_state s) < pm_tracked_pages (pmm64_state s)).
  { rewrite Hc, Hf, <- Hsp, length_app, Hel. cbn. lia. }
  unfold x86_64_pmm_free_page, X86_64_PMM_INVALID_PAGE, X86_64_PAGE_SIZE. wp_step. wp_step. rewrite Hin. cbn [negb orb].
  change (4096 - 1) with (2 ^ 12 - 1). rewrite land_low_mask by lia. change (2 ^ 12) with 4096. rewrite Hp1.
  zbool. cbn [negb orb]. wp_step.
  eapply page_is_already_free_ok; [exact Hi|]. rewrite bool_decide_eq_false_2 by done. zbool. wp_step.
  apply push_page_ok; [lia|lia|]. intros s' E1 E2 E3. wp_step. split; [done|]. split; [done|].
  constructor; rewrite ?E1, ?E2, ?E3, ?length_app; get_set; try done.
  - cbn. lia.
  - rewrite <- app_assoc. cbn. by rewrite <- Hel.
  - by apply Forall_forall.
Qed.

Lemma pmm64_free_rejects all held s page :
  pmm64_inv all held s -> free_rejected s page ->
  wp (x86_64_pmm_free_page page)
     (fun r s' => r = 0 /\ free_frames s' = free_frames s /\ pmm64_inv all held s') s.
Proof.
  intros Hi Hrej. pose proof Hi as [Hin Hs Hc Hf Hm Hnd Hsp Hfr].
  unfold x86_64_pmm_free_page, X86_64_PMM_INVALID_PAGE, X86_64_PAGE_SIZE. wp_step. wp_step. rewrite Hin. cbn [negb orb].
  change (4096 - 1) with (2 ^ 12 - 1). rewrite land_low_mask by lia. change (2 ^ 12) with 4096.
  destruct (Z.eqb_spec page 0); [by wp_step|]. destruct (Z.eqb_spec (page mod 4096) 0); cbn [negb]; [|by wp_step].
  destruct (Z.ltb_spec page (pm_lowest_page (pmm64_state s))); cbn [orb]; [by wp_step|].
  destruct (Z.ltb_spec (pm_highest_page (pmm64_state s)) page); [by wp_step|].
  assert (Hf' : page ∈ free_frames s) by (destruct Hrej as [?|[?|[?|[?|?]]]]; [lia..|done]).
  wp_step. eapply page_is_already_free_ok; [exact Hi|]. rewrite bool_decide_eq_true_2 by done.
  unfold pmm64_mod. wp_step. wp_step. wp_step. split; [done|]. split; [done|]. by constructor.
Qed.

(** ** Clients

    A client allocates and frees what it holds, or makes calls that are refused.
    The second component is the set of frames it holds. *)
Inductive pmm64_step : pmm64 * gset Z -> pmm64 * gset Z -> Prop :=
  | P64_alloc s held p s' :
      x86_64_pmm_alloc_page s = Some (p, s') -> p <> 0 -> pmm64_step (s, held) (s', {[p]} ∪ held)
  | P64_alloc_none s held s' :
      x86_64_pmm_alloc_page s = Some (0, s') -> pmm64_step (s, held) (s', held)
  | P64_free s held p r s' :
      p ∈ held -> x86_64_pmm_free_page p s = Some (r, s') -> pmm64_step (s, held) (s', held ∖ {[p]})
  | P64_free_rejected s held p r s' :
      free_rejected s p -> x86_64_pmm_free_page p s = Some (r, s') -> pmm64_step (s, held) (s', held).

Lemma pmm64_step_inv all x y :
  pmm64_step x y -> pmm64_inv all x.2 x.1 -> pmm64_inv all y.2 y.1.
Proof.
  intros [s held p s' E Hp|s held s' E|s held p r s' Hh E|s held p r s' Hr E]; cbn; intros Hi.
  - pose proof (wp_run _ _ _ _ _ (pmm64_alloc_ok _ _ _ Hi) E) as H. cbv beta in H.
    destruct (last (free_frames s)) as [q|]; [|destruct H; by subst]. by destruct H as (-> & _ & _ & _ & H).
  - pose proof (wp_run _ _ _ _ _ (pmm64_alloc_ok _ _ _ Hi) E) as H. cbv beta in H.
    destruct (last (free_frames s)) as [q|]; [|destruct H; by subst]. destruct H as (_ & Ha & _).
    pose proof (pi_frames _ _ _ Hi) as Hf. rewrite Forall_forall in Hf. apply Hf in Ha. lia.
  - by destruct (wp_run _ _ _ _ _ (pmm64_free_held _ _ _ _ Hi Hh) E) as (_ & _ & H).
  - by destruct (wp_run _ _ _ _ _ (pmm64_free_rejects _ _ _ _ Hi Hr) E) as (_ & _ & H).
Qed.

(** ** The 64-bit frame allocator: theorems *)

(** A memory map of two available regions, the first of which the kernel image
    takes in part. *)
Definition pmm64_map : list x86_64_memory_region :=
  [ {| mr_base := 0; mr_length := 0x9fc00; mr_type := 1 |};
    {| mr_base := 0x100000; mr_length := 0x9800; mr_type := 1 |};
    {| mr_base := 0xf0000; mr_length := 0x10000; mr_type := 2 |} ].
Definition pmm64_start : pmm64 :=
  {| page_stack := replicate (Z.to_nat 65536) 0; pmm64_state := Build_x86_64_pmm_state false 0 0 0 0 0 0 |}.
Definition pmm64_ready : pmm64 := final (x86_64_pmm_init 3 pmm64_map 0x105432) pmm64_start.

(** The stack after [x86_64_pmm_init] holds the frames that lie whole inside an
    available region above the kernel image, in the order of the memory map and
    each once per region, cut after 65536 frames; the counts agree. *)
Theorem pmm64_init_frames count regions kernel_end s
    (Hs : Z.of_nat (length (page_stack s)) = 65536) (Hk : 0 < kernel_end <= 35184372084736)
    (Hc : 0 <= count <= Z.of_nat (length regions)) (Hr : Forall region_ok regions) :
  wp (x86_64_pmm_init count regions kernel_end)
     (fun _ s' => let frames := take (Z.to_nat 65536) (usable_frames kernel_end (take (Z.to_nat count) regions)) in
        pm_initialized (pmm64_state s') = true /\ free_frames s' = frames /\
        pm_free_pages (pmm64_state s') = Z.of_nat (length frames) /\
        pm_tracked_pages (pmm64_state s') = Z.of_nat (length frames)) s.
Proof.
  eapply wp_mono; [by apply pmm_init_tracked|]. intros [] s' [Hi []]. cbv beta zeta.
  rewrite length_take. repeat split; try done; lia.
Qed.

Lemma pmm64_init_frames_witness :
  free_frames pmm64_ready = [0x106000; 0x107000; 0x108000] /\
  wp (x86_64_pmm_init 3 pmm64_map 0x105432)
     (fun _ s' => let frames := take (Z.to_nat 65536) (usable_frames 0x105432 (take (Z.to_nat 3) pmm64_map)) in
        pm_initialized (pmm64_state s') = true /\ free_frames s' = frames /\
        pm_free_pages (pmm64_state s') = Z.of_nat (length frames) /\
        pm_tracked_pages (pmm64_state s') = Z.of_nat (length frames)) pmm64_start.
Proof.
  split; [vm_compute; reflexivity|].
  apply (pmm64_init_frames 3 pmm64_map 0x105432 pmm64_start).
  - vm_compute. reflexivity.
  - lia.
  - cbn. lia.
  - repeat constructor; cbn; lia.
Defined.

(** C32: from an initialized allocator whose memory map has no overlaps, whatever a
    client allocates and frees, with wrong and repeated frees among the calls: the
    frames it holds and the free ones are together the frames of the memory map,
    each once. So no frame is handed out twice or lost, and allocation fails only
    when the client holds them all. *)
Theorem pmm64_exclusive_ownership kernel_end regions s0 s held
    (Hk : 0 < kernel_end) (Ht : tracked (usable_frames kernel_end regions) s0)
    (Hi : pm_initialized (pmm64_state s0) = true) (Hnd : NoDup (usable_frames kernel_end regions))
    (Hrun : rtc pmm64_step (s0, ∅) (s, held)) :
  let all := take (Z.to_nat 65536) (usable_frames kernel_end regions) in
  free_frames s ++ elements held ≡ₚ all /\
  wp x86_64_pmm_alloc_page (fun p s' => if p =? 0 then elements held ≡ₚ all else p ∈ all /\ p ∉ held) s /\
  (forall page, page ∈ held -> wp (x86_64_pmm_free_page page) (fun r s' => r = 1) s).
Proof.
  pose proof (rtc_invariant pmm64_step (fun x => pmm64_inv _ x.2 x.1) (pmm64_step_inv _) _ _ Hrun
    (tracked_inv _ _ _ Hk Ht Hi Hnd)) as Hinv. cbn in Hinv. intros all.
  split; [apply Hinv|]. split.
  - eapply wp_mono; [by apply pmm64_alloc_ok|]. intros p s' H. cbv beta in H.
    destruct (last (free_frames s)) as [q|] eqn:El.
    + destruct H as (-> & Ha & Hn & _). pose proof (pi_frames _ _ _ Hinv) as Hf. rewrite Forall_forall in Hf.
      pose proof (Hf _ Ha). zbool. done.
    + destruct H as [-> ->]. cbn. apply last_None in El. pose proof (pi_split _ _ _ Hinv) as Hsp. by rewrite El in Hsp.
  - intros page Hp. eapply wp_mono; [by eapply pmm64_free_held|]. naive_solver.
Qed.

Definition pmm64_taken : pmm64 := final x86_64_pmm_alloc_page pmm64_ready.

Lemma pmm64_ready_tracked :
  tracked (usable_frames 0x105432 pmm64_map) pmm64_ready /\ pm_initialized (pmm64_state pmm64_ready) = true.
Proof.
  assert (Hw : wp (x86_64_pmm_init 3 pmm64_map 0x105432) (fun _ s' => pm_initialized (pmm64_state s') = true /\
      tracked (usable_frames 0x105432 (take (Z.to_nat 3) pmm64_map)) s') pmm64_start).
  { apply pmm_init_tracked; [vm_compute; reflexivity|lia|cbn; lia|]. repeat constructor; cbn; lia. }
  destruct Hw as ([] & s' & E & Hi & Ht). unfold pmm64_ready, final. rewrite E. split; [exact Ht|exact Hi].
Qed.

Lemma pmm64_exclusive_ownership_witness :
  free_frames pmm64_taken ++ elements ({[0x108000]} ∪ ∅ : gset Z) ≡ₚ [0x106000; 0x107000; 0x108000].
Proof.
  destruct pmm64_ready_tracked as [Ht Hi].
  destruct (pmm64_exclusive_ownership 0x105432 pmm64_map pmm64_ready pmm64_taken ({[0x108000]} ∪ ∅)) as [H _].
  - lia.
  - exact Ht.
  - exact Hi.
  - apply (bool_decide_unpack _). vm_compute. exact I.
  - eapply rtc_l; [|apply rtc_refl]. apply P64_alloc; [|lia]. apply final_run. vm_compute. reflexivity.
  - exact H.
Defined.

(** A free of a frame that the allocator never had is accepted when a frame of
    it is out and the address lies between its lowest and highest frame: the two
    regions here leave a gap of reserved memory at 0x108000, and after the call
    the allocator hands that address out. *)
Theorem pmm64_free_accepts_foreign_frame :
  let regions := [ {| mr_base := 0x106000; mr_length := 0x1000; mr_type := 1 |};
                   {| mr_base := 0x10a000; mr_length := 0x1000; mr_type := 1 |} ] in
  let s1 := final x86_64_pmm_alloc_page (final (x86_64_pmm_init 2 regions 0x105432) pmm64_start) in
  let s2 := final (x86_64_pmm_free_page 0x108000) s1 in
  0x108000 ∉ usable_frames 0x105432 regions /\
  fst <$> x86_64_pmm_free_page 0x108000 s1 = Some 1 /\ fst <$> x86_64_pmm_alloc_page s2 = Some 0x108000.
Proof.
  split; [apply (bool_decide_unpack _); vm_compute; exact I|]. split; vm_compute; reflexivity.
Qed.
