(* ===== verification/Vfs64.v ===== *)
(** * The file system of the 64-bit kernel (arch/x86_64/vfs.h, vfs.c)

    A fixed table of nodes and one file in RAM, /tmp/session.txt. A [struct
    x86_64_vfs_state] is a table of four open files; the bytes of the RAM file
    are shared by all such tables. The state pointer of the operations points to
    [v_state], so their test for a NULL state is left out; other pointers that are
    tested are [option] values (strings and buffers) or a boolean (is an output
    pointer non-NULL?). *)
From S2P Require Import Prelude Word64 KString Vfs.

Definition X86_64_VFS_RET_OK := 0.
Definition X86_64_VFS_RET_EFAULT := 0xFFFFFFFFFFFFFFF2.
Definition X86_64_VFS_RET_EINVAL := 0xFFFFFFFFFFFFFFEA.
Definition X86_64_VFS_RET_ENOENT := 0xFFFFFFFFFFFFFFFE.
Definition X86_64_VFS_RET_EBADF := 0xFFFFFFFFFFFFFFF7.
Definition X86_64_VFS_FD_BASE := 3.
Definition X86_64_VFS_MAX_OPEN_FILES := 4.
Definition X86_64_VFS_PATH_MAX_BYTES := 64.
Definition X86_64_VFS_NO_NODE := 0xFFFFFFFF.
Definition X86_64_VFS_NODE_FILE := 1.
Definition X86_64_VFS_NODE_DIRECTORY := 2.
Definition X86_64_VFS_NODE_EXECUTABLE := 3.
Definition X86_64_VFS_OPEN_READ := 0.
Definition X86_64_VFS_OPEN_WRITE := 1.
Definition X86_64_VFS_OPEN_CREATE := 2.
Definition X86_64_VFS_OPEN_TRUNCATE := 4.
Definition X86_64_VFS_RAM_FILE_BYTES := 256.

(** The programs that are linked into the kernel. *)
Inductive user_image64 :=
  | IMG_eventd | IMG_datatest | IMG_hello | IMG_sysinfo | IMG_inputd | IMG_storaged | IMG_timed
  | IMG_windowd | IMG_windowd_service.

(** What a [const u8 *] of this file can point to. *)
Inductive data64 :=
  | DNull
  | DText (text : list Z)
  | DImage (image : user_image64)
  | DSession.

#[export] Instance user_image64_eq_dec : EqDecision user_image64.
Proof. solve_decision. Defined.
#[export] Instance data64_eq_dec : EqDecision data64.
Proof. solve_decision. Defined.

Record x86_64_vfs_node := { n64_path : list Z; n64_data : data64; n64_size : Z; n64_type : Z }.

Record x86_64_vfs_state := {
  v64_initialized : bool;
  fd_used : list bool;
  fd_flags : list Z;
  fd_node_index : list Z;
  fd_offset : list Z
}.
#[export] Instance eta_x86_64_vfs_state : Settable x86_64_vfs_state := fun s =>
  Build_x86_64_vfs_state (v64_initialized s) (fd_used s) (fd_flags s) (fd_node_index s) (fd_offset s).

Record vfs64 := { v_state : x86_64_vfs_state; session_storage : list Z; session_storage_size : Z }.
#[export] Instance eta_vfs64 : Settable vfs64 := fun s =>
  Build_vfs64 (v_state s) (session_storage s) (session_storage_size s).

Abbreviation V64 := (M vfs64).

(** ** The nodes *)

(** Lines of text, each ended by a newline. *)
Definition lines_of (l : list (list Z)) : list Z := mjoin ((fun x => x ++ [10]) <$> l).

Definition x86_64_vfs_dir_root : list Z :=
  lines_of [str "bin"; str "etc"; str "proc"; str "sbin"; str "tmp"; str "usr"].
Definition x86_64_vfs_dir_bin : list Z :=
  lines_of [str "datatest"; str "eventd"; str "hello"; str "inputd"; str "storaged"; str "sysinfo";
            str "timed"; str "windowd"; str "windowd-service"].
Definition x86_64_vfs_dir_sbin : list Z := [].
Definition x86_64_vfs_dir_tmp : list Z := lines_of [str "session.txt"].
Definition x86_64_vfs_dir_etc : list Z := lines_of [str "motd"; str "os-release"].
Definition x86_64_vfs_dir_proc : list Z := lines_of [str "version"].
Definition x86_64_vfs_dir_usr : list Z := lines_of [str "share"].
Definition x86_64_vfs_dir_usr_share : list Z := lines_of [str "files.txt"; str "help.txt"].
Definition x86_64_vfs_file_os_release : list Z := lines_of [str "NAME=Liam_OS"; str "ARCH=x86_64"; str "BUILD=dev"].
Definition x86_64_vfs_file_motd : list Z := lines_of [str "Liam_OS x86_64 read-only VFS mounted."].
Definition x86_64_vfs_file_version : list Z := lines_of [str "Liam_OS Core x86_64 0.8.69-dev"].
Definition x86_64_vfs_file_help : list Z :=
  lines_of [str "Available commands:";
            str "help, about, version, pid, ps, deskcheck, wait, echo, ls, cat, stat, exec, clear, exit";
            str "Executable files:"; str "/bin/datatest"; str "/bin/eventd"; str "/bin/hello"; str "/bin/inputd";
            str "/bin/storaged"; str "/bin/sysinfo"; str "/bin/timed"; str "/bin/windowd"; str "/bin/windowd-service"].
Definition x86_64_vfs_file_files : list Z :=
  lines_of [str "/"; str "/bin"; str "/bin/datatest"; str "/bin/eventd"; str "/bin/hello"; str "/bin/inputd";
            str "/bin/storaged"; str "/bin/sysinfo"; str "/bin/timed"; str "/bin/windowd"; str "/bin/windowd-service";
            str "/etc"; str "/etc/motd"; str "/etc/os-release"; str "/proc"; str "/proc/version"; str "/sbin";
            str "/tmp"; str "/tmp/session.txt"; str "/usr"; str "/usr/share"; str "/usr/share/files.txt";
            str "/usr/share/help.txt"].

(** A node whose data is a text of the kernel; [size] is [sizeof(text) - 1]. *)
Definition text_node (path text : list Z) (type : Z) : x86_64_vfs_node :=
  {| n64_path := path; n64_data := DText text; n64_size := Z.of_nat (length text); n64_type := type |}.
Definition image_node (path : list Z) (image : user_image64) : x86_64_vfs_node :=
  {| n64_path := path; n64_data := DImage image; n64_size := 0; n64_type := X86_64_VFS_NODE_EXECUTABLE |}.

Definition x86_64_vfs_nodes : list x86_64_vfs_node :=
  [ text_node (str "/") x86_64_vfs_dir_root X86_64_VFS_NODE_DIRECTORY;
    text_node (str "/bin") x86_64_vfs_dir_bin X86_64_VFS_NODE_DIRECTORY;
    text_node (str "/etc") x86_64_vfs_dir_etc X86_64_VFS_NODE_DIRECTORY;
    text_node (str "/proc") x86_64_vfs_dir_proc X86_64_VFS_NODE_DIRECTORY;
    text_node (str "/sbin") x86_64_vfs_dir_sbin X86_64_VFS_NODE_DIRECTORY;
    text_node (str "/tmp") x86_64_vfs_dir_tmp X86_64_VFS_NODE_DIRECTORY;
    text_node (str "/usr") x86_64_vfs_dir_usr X86_64_VFS_NODE_DIRECTORY;
    text_node (str "/usr/share") x86_64_vfs_dir_usr_share X86_64_VFS_NODE_DIRECTORY;
    image_node (str "/bin/datatest") IMG_datatest;
    image_node (str "/bin/eventd") IMG_eventd;
    image_node (str "/bin/hello") IMG_hello;
    image_node (str "/bin/inputd") IMG_inputd;
    image_node (str "/bin/storaged") IMG_storaged;
    image_node (str "/bin/sysinfo") IMG_sysinfo;
    image_node (str "/bin/timed") IMG_timed;
    image_node (str "/bin/windowd") IMG_windowd;
    image_node (str "/bin/windowd-service") IMG_windowd_service;
    text_node (str "/etc/motd") x86_64_vfs_file_motd X86_64_VFS_NODE_FILE;
    text_node (str "/etc/os-release") x86_64_vfs_file_os_release X86_64_VFS_NODE_FILE;
    text_node (str "/proc/version") x86_64_vfs_file_version X86_64_VFS_NODE_FILE;
    {| n64_path := str "/tmp/session.txt"; n64_data := DNull; n64_size := 0; n64_type := X86_64_VFS_NODE_FILE |};
    text_node (str "/usr/share/files.txt") x86_64_vfs_file_files X86_64_VFS_NODE_FILE;
    text_node (str "/usr/share/help.txt") x86_64_vfs_file_help X86_64_VFS_NODE_FILE ].

Definition X86_64_VFS_NODE_COUNT : Z := Z.of_nat (length x86_64_vfs_nodes).

Definition x86_64_vfs_is_session_storage_node (node : x86_64_vfs_node) : bool :=
  bool_decide (n64_data node = DNull) && (n64_type node =? X86_64_VFS_NODE_FILE).

(** ** Paths *)

(** [while (in < MAX && path[in] == '/') ++in;] *)
Definition normalize_skip {S} (path : list Z) (i : Z) : M S Z :=
  mloop (fun i => mret_ (if (i <? X86_64_VFS_PATH_MAX_BYTES) && (char_at path (Z.to_nat i) =? chr_slash)
                         then inl (i [++] 1) else inr i)) i.

(** [while (in < MAX && path[in] != '\0' && path[in] != '/') { ++in; ++segment_len; }] *)
Definition normalize_scan {S} (path : list Z) (i : Z) : M S (Z * Z) :=
  mloop (fun '(i, len) =>
    mret_ (if (i <? X86_64_VFS_PATH_MAX_BYTES) && negb (char_at path (Z.to_nat i) =? 0) &&
              negb (char_at path (Z.to_nat i) =? chr_slash)
           then inl (i [++] 1, len [++] 1) else inr (i, len))) (i, 0).

(** [while (out > 1 && normalized[out - 1] != '/') --out;] *)
Definition normalize_pop {S} (normalized : list Z) (out : Z) : M S Z :=
  mloop (fun out =>
    if 1 <? out then
      c <- array_at normalized (out [--] 1) ;;
      mret_ (if negb (c =? chr_slash) then inl (out [--] 1) else inr out)
    else mret_ (inr out)) out.

(** [for (i = 0; i < segment_len; ++i) normalized[out++] = path[segment_start + i];] *)
Definition normalize_copy {S} (path : list Z) (segment_start segment_len : Z) (l : list Z * Z) : M S (list Z * Z) :=
  mfold (seqZ 0 segment_len) (fun '(normalized, out) i =>
    normalized' <- array_put normalized out (char_at path (Z.to_nat (segment_start [++] i))) ;;
    mret_ (normalized', out [++] 1)) l.

(** The segment "..". *)
Definition normalize_up {S} (out : Z) (normalized : list Z) : M S (Z * list Z) :=
  if 1 <? out then
    out <- normalize_pop normalized (out [--] 1) ;;
    normalized <- array_put normalized out 0 ;;
    mret_ (out, normalized)
  else mret_ (out, normalized).

(** Any other segment than "." and ".."; [None] is [return 0]. *)
Definition normalize_push {S} (path : list Z) (segment_start segment_len out : Z) (normalized : list Z)
    : M S (option (Z * list Z)) :=
  slash <- (if 1 <? out then
              if X86_64_VFS_PATH_MAX_BYTES <=? out [++] 1 then mret_ None
              else normalized <- array_put normalized out chr_slash ;; mret_ (Some (normalized, out [++] 1))
            else mret_ (Some (normalized, out))) ;;
  match slash with
  | None => mret_ None
  | Some (normalized, out) =>
      if X86_64_VFS_PATH_MAX_BYTES <=? out [++] segment_len then mret_ None
      else
        copied <- normalize_copy path segment_start segment_len (normalized, out) ;;
        let '(normalized, out) := copied in
        normalized <- array_put normalized out 0 ;;
        mret_ (Some (out, normalized))
  end.

(** The body of the outer loop; the variables are [in], [out] and [normalized].
    [inr None] is [return 0]. *)
Definition normalize_step {S} (path : list Z) (l : Z * Z * list Z) : M S (Z * Z * list Z + option (Z * Z * list Z)) :=
  let '(i, out, normalized) := l in
  if (i <? X86_64_VFS_PATH_MAX_BYTES) && negb (char_at path (Z.to_nat i) =? 0) then
    i <- normalize_skip path i ;;
    if (X86_64_VFS_PATH_MAX_BYTES <=? i) || (char_at path (Z.to_nat i) =? 0) then mret_ (inr (Some (i, out, normalized)))
    else
      let segment_start := i in
      scan <- normalize_scan path i ;;
      let '(i, segment_len) := scan in
      if X86_64_VFS_PATH_MAX_BYTES <=? i then mret_ (inr None)
      else if (segment_len =? 1) && (char_at path (Z.to_nat segment_start) =? 46) then mret_ (inl (i, out, normalized))
      else if (segment_len =? 2) && (char_at path (Z.to_nat segment_start) =? 46) &&
              (char_at path (Z.to_nat (segment_start [++] 1)) =? 46) then
        up <- normalize_up out normalized ;; mret_ (inl (i, fst up, snd up))
      else
        pushed <- normalize_push path segment_start segment_len out normalized ;;
        match pushed with
        | None => mret_ (inr None)
        | Some (out, normalized) => mret_ (inl (i, out, normalized))
        end
  else mret_ (inr (Some (i, out, normalized))).

(** [None] is the result 0, after which the array is not read; [Some normalized] is
    the result 1 with the array. *)
Definition x86_64_vfs_normalize_path {S} (path normalized : list Z) : M S (option (list Z)) :=
  if negb (char_at path 0 =? chr_slash) then mret_ None
  else
    normalized <- array_put normalized 0 chr_slash ;;
    r <- mloop (normalize_step path) (0, 1, normalized) ;;
    match r with
    | None => mret_ None
    | Some (i, out, normalized) =>
        if X86_64_VFS_PATH_MAX_BYTES <=? i then mret_ None
        else normalized <- array_put normalized out 0 ;; mret_ (Some normalized)
    end.

Definition x86_64_vfs_path_equals {S} (path kernel_path : list Z) : M S bool :=
  r <- mfor_ret (seqZ 0 X86_64_VFS_PATH_MAX_BYTES) (fun i =>
    let path_char := char_at path (Z.to_nat i) in
    let kernel_char := char_at kernel_path (Z.to_nat i) in
    mret_ (if negb (path_char =? kernel_char) then Some false
           else if path_char =? 0 then Some true else None)) ;;
  mret_ (default false r).

(** The local array is written before it is read; its first contents do not matter
    ([normalize_path_spec] holds for any). *)
Definition x86_64_vfs_find_node {S} (path : list Z) : M S Z :=
  r <- x86_64_vfs_normalize_path path (replicate 64 0) ;;
  match r with
  | None => mret_ X86_64_VFS_NO_NODE
  | Some normalized =>
      r <- mfor_ret (seqZ 0 X86_64_VFS_NODE_COUNT) (fun i =>
        node <- array_at x86_64_vfs_nodes i ;;
        eq <- x86_64_vfs_path_equals normalized (n64_path node) ;;
        mret_ (if eq : bool then Some i else None)) ;;
      mret_ (default X86_64_VFS_NO_NODE r)
  end.

Definition x86_64_vfs_fd_slot (fd : Z) : Z :=
  if fd <? X86_64_VFS_FD_BASE then X86_64_VFS_MAX_OPEN_FILES
  else
    let slot := fd [--] X86_64_VFS_FD_BASE in
    if X86_64_VFS_MAX_OPEN_FILES <=? slot then X86_64_VFS_MAX_OPEN_FILES else u32 slot.

(** ** Operations *)

Section Vfs64.
(** The bytes of the linked programs. *)
Context (user_image : user_image64 -> list Z).

Definition v64_mod (f : x86_64_vfs_state -> x86_64_vfs_state) : V64 unit := mmod (fun s => s <| v_state ::= f |>).

(** The comparisons with the start of each image, then the RAM file, then the node's
    own size. *)
Definition x86_64_vfs_node_size (node : x86_64_vfs_node) : V64 Z :=
  match n64_data node with
  | DImage image => mret_ (Z.of_nat (length (user_image image)))
  | _ =>
      if x86_64_vfs_is_session_storage_node node then mget session_storage_size
      else mret_ (n64_size node)
  end.

Definition x86_64_vfs_node_data (node : x86_64_vfs_node) : data64 :=
  if x86_64_vfs_is_session_storage_node node then DSession else n64_data node.

(** [p[i]]; reading at NULL or past the object never returns. *)
Definition data64_at (p : data64) (i : Z) : V64 Z :=
  match p with
  | DNull => mhalt
  | DText text => array_at text i
  | DImage image => array_at (user_image image) i
  | DSession => storage <- mget session_storage ;; array_at storage i
  end.

(** The assignments to slot [slot] of the four arrays. *)
Definition fd_slot_put (slot : Z) (used : bool) (flags node_index offset : Z) : V64 unit :=
  st <- mget v_state ;;
  used' <- array_put (fd_used st) slot used ;;
  flags' <- array_put (fd_flags st) slot flags ;;
  index' <- array_put (fd_node_index st) slot node_index ;;
  offset' <- array_put (fd_offset st) slot offset ;;
  v64_mod (fun st => st <| fd_used := used' |> <| fd_flags := flags' |> <| fd_node_index := index' |>
                        <| fd_offset := offset' |>).

Definition fd_offset_put (slot offset : Z) : V64 unit :=
  st <- mget v_state ;;
  offset' <- array_put (fd_offset st) slot offset ;;
  v64_mod (fun st => st <| fd_offset := offset' |>).

Definition x86_64_vfs_init : V64 unit :=
  v64_mod (fun st => st <| v64_initialized := true |>) ;;;
  mfor (seqZ 0 X86_64_VFS_MAX_OPEN_FILES) (fun i => fd_slot_put i false X86_64_VFS_OPEN_READ X86_64_VFS_NO_NODE 0).

Definition x86_64_vfs_file_count : Z := X86_64_VFS_NODE_COUNT.

Definition x86_64_vfs_open_count : V64 Z :=
  st <- mget v_state ;;
  mfold (seqZ 0 X86_64_VFS_MAX_OPEN_FILES) (fun count i =>
    used <- array_at (fd_used st) i ;; mret_ (if used : bool then count [+] 1 else count)) 0.

Definition x86_64_vfs_open (path : option (list Z)) (flags : Z) : V64 Z :=
  match path with
  | None => mret_ X86_64_VFS_RET_EINVAL
  | Some path =>
      node_index <- x86_64_vfs_find_node path ;;
      if node_index =? X86_64_VFS_NO_NODE then mret_ X86_64_VFS_RET_ENOENT
      else
        node <- array_at x86_64_vfs_nodes node_index ;;
        let supported_flags := Z.lor (Z.lor X86_64_VFS_OPEN_WRITE X86_64_VFS_OPEN_CREATE) X86_64_VFS_OPEN_TRUNCATE in
        if negb (Z.land flags (not64 supported_flags) =? 0) then mret_ X86_64_VFS_RET_EINVAL
        else if negb (flags =? X86_64_VFS_OPEN_READ) && negb (x86_64_vfs_is_session_storage_node node) then
          mret_ X86_64_VFS_RET_EINVAL
        else
          mwhen (negb (Z.land flags X86_64_VFS_OPEN_TRUNCATE =? 0)) (mmod (fun s => s <| session_storage_size := 0 |>)) ;;;
          r <- mfor_ret (seqZ 0 X86_64_VFS_MAX_OPEN_FILES) (fun slot =>
            st <- mget v_state ;;
            used <- array_at (fd_used st) slot ;;
            if negb used then
              fd_slot_put slot true flags node_index 0 ;;; mret_ (Some (X86_64_VFS_FD_BASE [++] slot))
            else mret_ None) ;;
          mret_ (default X86_64_VFS_RET_EINVAL r)
  end.

(** [None] when [slot >= MAX || fd_used[slot] == 0]. *)
Definition fd_open_slot (fd : Z) : V64 (option Z) :=
  let slot := x86_64_vfs_fd_slot fd in
  if X86_64_VFS_MAX_OPEN_FILES <=? slot then mret_ None
  else
    st <- mget v_state ;;
    used <- array_at (fd_used st) slot ;;
    mret_ (if negb used then None else Some slot).

(** [buffer] is the array that receives the bytes; the result is the returned value
    and the array afterwards. *)
Definition x86_64_vfs_read (fd : Z) (buffer : option (list Z)) (size : Z) : V64 (Z * option (list Z)) :=
  match buffer with
  | None => mret_ (X86_64_VFS_RET_EINVAL, buffer)
  | Some buf =>
      open <- fd_open_slot fd ;;
      match open with
      | None => mret_ (X86_64_VFS_RET_EBADF, buffer)
      | Some slot =>
          st <- mget v_state ;;
          node_index <- array_at (fd_node_index st) slot ;;
          if X86_64_VFS_NODE_COUNT <=? node_index then mret_ (X86_64_VFS_RET_EBADF, buffer)
          else
            node <- array_at x86_64_vfs_nodes node_index ;;
            let node_data := x86_64_vfs_node_data node in
            node_size <- x86_64_vfs_node_size node ;;
            offset <- array_at (fd_offset st) slot ;;
            if (node_size <=? offset) || (size =? 0) then mret_ (0, buffer)
            else
              let remaining := node_size [--] offset in
              let bytes := if size <? remaining then size else remaining in
              buf' <- mfold (seqZ 0 bytes) (fun b i =>
                byte <- data64_at node_data (offset [++] i) ;; array_put b i byte) buf ;;
              fd_offset_put slot (offset [++] bytes) ;;;
              mret_ (bytes, Some buf')
      end
  end.

Definition x86_64_vfs_write (fd : Z) (buffer : option (list Z)) (size : Z) : V64 Z :=
  match buffer with
  | None => mret_ X86_64_VFS_RET_EINVAL
  | Some buf =>
      open <- fd_open_slot fd ;;
      match open with
      | None => mret_ X86_64_VFS_RET_EBADF
      | Some slot =>
          st <- mget v_state ;;
          flags <- array_at (fd_flags st) slot ;;
          if Z.land flags X86_64_VFS_OPEN_WRITE =? 0 then mret_ X86_64_VFS_RET_EBADF
          else
            node_index <- array_at (fd_node_index st) slot ;;
            bad <- (if X86_64_VFS_NODE_COUNT <=? node_index then mret_ true
                    else node <- array_at x86_64_vfs_nodes node_index ;;
                         mret_ (negb (x86_64_vfs_is_session_storage_node node))) ;;
            if bad : bool then mret_ X86_64_VFS_RET_EBADF
            else
              offset <- array_at (fd_offset st) slot ;;
              if (X86_64_VFS_RAM_FILE_BYTES <=? offset) || (size =? 0) then mret_ 0
              else
                let remaining := X86_64_VFS_RAM_FILE_BYTES [--] offset in
                let bytes := if size <? remaining then size else remaining in
                mfor (seqZ 0 bytes) (fun i =>
                  byte <- array_at buf i ;;
                  storage <- mget session_storage ;;
                  storage' <- array_put storage (offset [++] i) (u8 byte) ;;
                  mmod (fun s => s <| session_storage := storage' |>)) ;;;
                fd_offset_put slot (offset [++] bytes) ;;;
                mmod (fun s => s <| session_storage_size ::= fun old =>
                  if old <? offset [++] bytes then offset [++] bytes else old |>) ;;;
                mret_ bytes
      end
  end.

Definition x86_64_vfs_close (fd : Z) : V64 Z :=
  open <- fd_open_slot fd ;;
  match open with
  | None => mret_ X86_64_VFS_RET_EBADF
  | Some slot => fd_slot_put slot false X86_64_VFS_OPEN_READ X86_64_VFS_NO_NODE 0 ;;; mret_ X86_64_VFS_RET_OK
  end.

(** The results are the returned value and what is assigned through the output
    pointers. *)
Definition x86_64_vfs_stat (path : option (list Z)) (size_out : bool) : V64 (Z * option Z) :=
  match path with
  | None => mret_ (X86_64_VFS_RET_EINVAL, None)
  | Some path =>
      if negb size_out then mret_ (X86_64_VFS_RET_EINVAL, None)
      else
        node_index <- x86_64_vfs_find_node path ;;
        if node_index =? X86_64_VFS_NO_NODE then mret_ (X86_64_VFS_RET_ENOENT, None)
        else
          node <- array_at x86_64_vfs_nodes node_index ;;
          size <- x86_64_vfs_node_size node ;;
          mret_ (X86_64_VFS_RET_OK, Some size)
  end.

Definition x86_64_vfs_type (path : option (list Z)) (type_out : bool) : V64 (Z * option Z) :=
  match path with
  | None => mret_ (X86_64_VFS_RET_EINVAL, None)
  | Some path =>
      if negb type_out then mret_ (X86_64_VFS_RET_EINVAL, None)
      else
        node_index <- x86_64_vfs_find_node path ;;
        if node_index =? X86_64_VFS_NO_NODE then mret_ (X86_64_VFS_RET_ENOENT, None)
        else node <- array_at x86_64_vfs_nodes node_index ;; mret_ (X86_64_VFS_RET_OK, Some (n64_type node))
  end.

Definition x86_64_vfs_resolve (path : option (list Z)) (data_out size_out type_out : bool)
    : V64 (Z * option (data64 * Z * Z)) :=
  st <- mget v_state ;;
  match path with
  | None => mret_ (X86_64_VFS_RET_EINVAL, None)
  | Some path =>
      if negb (v64_initialized st) || negb data_out || negb size_out || negb type_out then
        mret_ (X86_64_VFS_RET_EINVAL, None)
      else
        node_index <- x86_64_vfs_find_node path ;;
        if node_index =? X86_64_VFS_NO_NODE then mret_ (X86_64_VFS_RET_ENOENT, None)
        else
          node <- array_at x86_64_vfs_nodes node_index ;;
          size <- x86_64_vfs_node_size node ;;
          mret_ (X86_64_VFS_RET_OK, Some (x86_64_vfs_node_data node, size, n64_type node))
  end.

(** ** Self tests *)

(** A table of open files that is a local variable. *)
Definition with_probe {A} (m : V64 A) : V64 A :=
  st <- mget v_state ;;
  v64_mod (fun _ => {| v64_initialized := false; fd_used := replicate 4 false; fd_flags := replicate 4 0;
                       fd_node_index := replicate 4 0; fd_offset := replicate 4 0 |}) ;;;
  r <- m ;;
  v64_mod (fun _ => st) ;;;
  mret_ r.

(** [if (!test) return 0;] before the rest. *)
Definition unless_fails (test : V64 bool) (k : V64 bool) : V64 bool :=
  ok <- test ;; if ok : bool then k else mret_ false.

(** [open] gives descriptor 3 and the first bytes read are [text]. *)
Definition probe_open (path : list Z) : V64 bool :=
  fd <- x86_64_vfs_open (Some path) 0 ;; mret_ (fd =? X86_64_VFS_FD_BASE).
Definition probe_read (text : list Z) : V64 bool :=
  r <- x86_64_vfs_read X86_64_VFS_FD_BASE (Some (replicate 6 0)) (Z.of_nat (length text)) ;;
  mret_ ((fst r =? Z.of_nat (length text)) && bool_decide (take (length text) (default [] (snd r)) = text)).
Definition probe_close : V64 bool :=
  r <- x86_64_vfs_close X86_64_VFS_FD_BASE ;; mret_ (r =? X86_64_VFS_RET_OK).
Definition probe_type (path : list Z) (type : Z) : V64 bool :=
  r <- x86_64_vfs_type (Some path) true ;;
  mret_ ((fst r =? X86_64_VFS_RET_OK) && (default 0 (snd r) =? type)).
Definition probe_size (path : list Z) (ok : Z -> bool) : V64 bool :=
  r <- x86_64_vfs_stat (Some path) true ;;
  mret_ ((fst r =? X86_64_VFS_RET_OK) && ok (default 0 (snd r))).

Definition x86_64_vfs_ready_probe : V64 bool :=
  x86_64_vfs_init ;;;
  unless_fails (probe_open (str "/")) (unless_fails (probe_read (str "bin" ++ [10])) (unless_fails probe_close (
  unless_fails (probe_open (str "///usr/../bin/./")) (unless_fails (probe_read (str "hello" ++ [10])) (
  unless_fails probe_close (
  unless_fails (probe_open (str "/etc/./os-release")) (unless_fails (probe_read (str "NAME=")) (
  unless_fails (probe_size (str "/etc/../etc/os-release") (fun n => n =? Z.of_nat (length x86_64_vfs_file_os_release))) (
  unless_fails (probe_type (str "/etc/os-release") X86_64_VFS_NODE_FILE) (
  unless_fails (probe_type (str "/usr/share") X86_64_VFS_NODE_DIRECTORY) (
  unless_fails (probe_type (str "/etc/../bin//hello") X86_64_VFS_NODE_EXECUTABLE) (
  unless_fails (probe_type (str "/bin/eventd") X86_64_VFS_NODE_EXECUTABLE) (
  unless_fails (probe_size (str "/bin/./hello") (fun n => negb (n <=? 64))) (
  unless_fails (probe_type (str "/bin/inputd") X86_64_VFS_NODE_EXECUTABLE) (
  unless_fails (probe_type (str "/bin/storaged") X86_64_VFS_NODE_EXECUTABLE) (
  unless_fails (probe_type (str "/bin/sysinfo") X86_64_VFS_NODE_EXECUTABLE) (
  unless_fails (probe_size (str "/bin/../bin/sysinfo") (fun n => negb (n <=? 64))) (
  unless_fails (probe_type (str "/bin/timed") X86_64_VFS_NODE_EXECUTABLE) (
  unless_fails (probe_type (str "/bin/windowd") X86_64_VFS_NODE_EXECUTABLE) (
  unless_fails (probe_size (str "/bin/../bin/windowd") (fun n => negb (n <=? 64))) (
  unless_fails (probe_type (str "/bin/windowd-service") X86_64_VFS_NODE_EXECUTABLE) (
  unless_fails (probe_size (str "/bin/windowd-service") (fun n => negb (n <=? 64))) (
  unless_fails (probe_size (str "/tmp/session.txt") (fun n => negb (X86_64_VFS_RAM_FILE_BYTES <? n))) (
  unless_fails (probe_type (str "/tmp/session.txt") X86_64_VFS_NODE_FILE) (
  unless_fails (r <- x86_64_vfs_stat (Some (str "/missing")) true ;; mret_ (fst r =? X86_64_VFS_RET_ENOENT)) (
  unless_fails probe_close (
  n <- x86_64_vfs_open_count ;; mret_ (n =? 0)))))))))))))))))))))))))))).

Definition x86_64_vfs_ready : V64 bool :=
  st <- mget v_state ;;
  if negb (v64_initialized st) || (X86_64_VFS_NODE_COUNT =? 0) then mret_ false
  else with_probe x86_64_vfs_ready_probe.

Definition session_probe : V64 bool :=
  x86_64_vfs_init ;;;
  fd <- x86_64_vfs_open (Some (str "/tmp/session.txt"))
          (Z.lor (Z.lor X86_64_VFS_OPEN_WRITE X86_64_VFS_OPEN_CREATE) X86_64_VFS_OPEN_TRUNCATE) ;;
  if fd <? X86_64_VFS_FD_BASE then mret_ false
  else
    n <- x86_64_vfs_write fd (Some (str "ram" ++ [0])) 3 ;;
    if negb (n =? 3) then mret_ false
    else
      r <- x86_64_vfs_close fd ;;
      if negb (r =? X86_64_VFS_RET_OK) then mret_ false
      else
        fd <- x86_64_vfs_open (Some (str "/tmp/session.txt")) X86_64_VFS_OPEN_READ ;;
        if fd <? X86_64_VFS_FD_BASE then mret_ false
        else
          got <- x86_64_vfs_read fd (Some (replicate 4 0)) 3 ;;
          if negb ((fst got =? 3) && bool_decide (take 3 (default [] (snd got)) = str "ram")) then mret_ false
          else r <- x86_64_vfs_close fd ;; mret_ (r =? X86_64_VFS_RET_OK).

Definition x86_64_vfs_session_storage_ready : V64 bool :=
  saved_size <- mget session_storage_size ;;
  saved <- mget session_storage ;;
  ok <- with_probe session_probe ;;
  mmod (fun s => s <| session_storage := saved |> <| session_storage_size := saved_size |>) ;;;
  mret_ ok.
End Vfs64.
