(* ===== verification/Vfs64Paths.v ===== *)
(** * Paths of the 64-bit file system

    [x86_64_vfs_normalize_path] against a reference on the segments of the path. *)
From S2P Require Import Prelude Word64 KString Vfs Vfs64.

Definition is_slash64 (c : Z) : bool := c =? 47.
Abbreviation segments := (fields is_slash64).

(** ".." on the text of the directory so far: the last character goes, then all up
    to a '/', never the first. *)
Fixpoint strip_name (rev_text : list Z) : list Z :=
  match rev_text with
  | [] => []
  | [c] => [c]
  | c :: r => if is_slash64 c then rev_text else strip_name r
  end.
Definition text_up (text : list Z) : list Z :=
  match rev text with
  | _ :: ((_ :: _) as r) => rev (strip_name r)
  | _ => text
  end.

(** One segment after the text so far. *)
Definition text_push (text seg : list Z) : list Z :=
  if bool_decide (seg = [46]) then text
  else if bool_decide (seg = [46; 46]) then text_up text
  else (if bool_decide (length text = 1%nat) then text else text ++ [47]) ++ seg.

(** What the code makes of a path. *)
Definition normalized_text (path : list Z) : list Z := foldl text_push [47] (segments path).

(** What it means to make of it: directories are a stack, ".." leaves the top one. *)
Definition dir_push (stack : list (list Z)) (seg : list Z) : list (list Z) :=
  if bool_decide (seg = [46]) then stack
  else if bool_decide (seg = [46; 46]) then take (pred (length stack)) stack
  else stack ++ [seg].
Definition path_text (stack : list (list Z)) : list Z :=
  match stack with [] => [47] | _ => mjoin ((fun seg => 47 :: seg) <$> stack) end.
Definition canonical_text (path : list Z) : list Z := path_text (foldl dir_push [] (segments path)).

Example normalized_samples :
  normalized_text (str "//usr/./share/") = str "/usr/share" /\
  normalized_text (str "/usr/../bin/hello") = str "/bin/hello" /\
  normalized_text (str "/usr/share/../share") = str "/usr//share" /\
  normalized_text (str "/a/b/../..") = str "/" /\
  canonical_text (str "/usr/share/../share") = str "/usr/share".
Proof. repeat split; reflexivity. Qed.

(** ** Positions in a C string *)

Lemma char_at_drop path i : char_at (drop i path) 0 = char_at path i.
Proof. unfold char_at. by rewrite lookup_drop, Nat.add_0_r. Qed.

Lemma drop_char path i c : char_at path i = c -> c <> 0 -> drop i path = c :: drop (S i) path.
Proof.
  unfold char_at. intros E Hc. destruct (path !! i) as [x|] eqn:El; cbn in E; [|congruence].
  subst x. by apply drop_S.
Qed.

Lemma cstr_char path i :
  (i <= length (cstr path))%nat -> char_at path i = 0 <-> length (cstr path) = i.
Proof.
  revert i. induction path as [|c r IH]; intros i Hi.
  - cbn in *. unfold char_at. rewrite lookup_nil. split; [lia|done].
  - cbn [cstr] in *. destruct (Z.eqb_spec c 0) as [->|Hc].
    + cbn in Hi. destruct i; [done|lia].
    + destruct i as [|i]; cbn [length] in *; [change (char_at (c :: r) 0) with c; split; [done|lia]|].
      change (char_at (c :: r) (S i)) with (char_at r i). rewrite IH by lia. lia.
Qed.

Lemma segments_nul path i : char_at path i = 0 -> segments (drop i path) = [].
Proof. intros H. apply fields_nul. by rewrite char_at_drop. Qed.

(** ** The inner loops *)

Lemma normalize_skip_ok {S} path i (Q : Z -> S -> Prop) s :
  0 <= i <= 64 -> i <= Z.of_nat (length (cstr path)) ->
  (forall j, i <= j <= 64 -> j <= Z.of_nat (length (cstr path)) ->
     segments (drop (Z.to_nat j) path) = segments (drop (Z.to_nat i) path) ->
     j = 64 \/ is_slash64 (char_at path (Z.to_nat j)) = false ->
     (is_slash64 (char_at path (Z.to_nat i)) = true -> i < 64 -> i < j) -> Q j s) ->
  wp (normalize_skip path i) Q s.
Proof.
  intros Hi Hlen HQ. unfold normalize_skip, X86_64_VFS_PATH_MAX_BYTES.
  apply (wp_loop _ (fun j s' => s' = s /\ i <= j <= 64 /\ j <= Z.of_nat (length (cstr path)) /\
           segments (drop (Z.to_nat j) path) = segments (drop (Z.to_nat i) path)) (fun j _ => 64 - j)); [|by repeat split; try lia|lia].
  intros j s' (-> & Hj & Hjl & Hseg). wp_step.
  destruct (Z.ltb_spec j 64) as [Hlt|Hge]; cbn [andb].
  - destruct (Z.eqb_spec (char_at path (Z.to_nat j)) chr_slash) as [Ec|Ec].
    + assert (Hd : drop (Z.to_nat j) path = 47 :: drop (Z.to_nat (j + 1)) path).
      { rewrite (drop_char _ _ _ Ec) by done. do 2 f_equal. lia. }
      assert (j < Z.of_nat (length (cstr path))).
      { assert (Hne : char_at path (Z.to_nat j) <> 0) by (by rewrite Ec). rewrite cstr_char in Hne; lia. }
      rewrite u64_small by (unfold is_u64; lia). split; [|lia]. split; [done|]. split; [lia|]. split; [lia|].
      rewrite <- Hseg, Hd. symmetry. by apply fields_sep.
    + apply HQ; [lia|done|done| |].
      * right. by apply Z.eqb_neq.
      * intros Hs Hi64. destruct (decide (i = j)) as [->|]; [|lia]. apply Z.eqb_eq in Hs. done.
  - apply HQ; [lia|done|done|lia|lia].
Qed.

Lemma normalize_scan_ok {S} path i (Q : Z * Z -> S -> Prop) s :
  0 <= i <= 64 -> i <= Z.of_nat (length (cstr path)) ->
  (forall j seg, i <= j <= 64 -> j <= Z.of_nat (length (cstr path)) ->
     drop (Z.to_nat i) path = seg ++ drop (Z.to_nat j) path -> Z.of_nat (length seg) = j - i ->
     Forall (fun c => c <> 0 /\ is_slash64 c = false) seg ->
     j = 64 \/ char_at path (Z.to_nat j) = 0 \/ is_slash64 (char_at path (Z.to_nat j)) = true -> Q (j, j - i) s) ->
  wp (normalize_scan path i) Q s.
Proof.
  intros Hi Hlen HQ. unfold normalize_scan, X86_64_VFS_PATH_MAX_BYTES.
  apply (wp_loop _ (fun '(j, len) s' => s' = s /\ i <= j <= 64 /\ len = j - i /\ j <= Z.of_nat (length (cstr path)) /\
           exists seg, drop (Z.to_nat i) path = seg ++ drop (Z.to_nat j) path /\ Z.of_nat (length seg) = j - i /\
             Forall (fun c => c <> 0 /\ is_slash64 c = false) seg) (fun '(j, _) _ => 64 - j)).
  - intros [j len] s' (-> & Hj & -> & Hjl & seg & Hd & Hls & Hf). wp_step.
    destruct (Z.ltb_spec j 64) as [Hlt|Hge]; cbn [andb].
    + destruct (Z.eqb_spec (char_at path (Z.to_nat j)) 0) as [Ec|Ec]; cbn [negb andb].
      { eapply HQ; eauto. }
      destruct (Z.eqb_spec (char_at path (Z.to_nat j)) chr_slash) as [Es|Es]; cbn [negb].
      { eapply HQ; eauto. right. right. by apply Z.eqb_eq. }
      assert (j < Z.of_nat (length (cstr path))) by (pose proof Ec as Hne; rewrite cstr_char in Hne; lia).
      rewrite !u64_small by (unfold is_u64; lia). split; [|lia]. split; [done|]. split; [lia|]. split; [lia|].
      split; [lia|]. exists (seg ++ [char_at path (Z.to_nat j)]). split; [|split].
      * rewrite Hd, <- app_assoc. f_equal. replace (Z.to_nat (j + 1)) with (Datatypes.S (Z.to_nat j)) by lia.
        by apply drop_char.
      * rewrite length_app. cbn. lia.
      * apply Forall_app. split; [done|]. apply Forall_singleton. split; [done|]. by apply Z.eqb_neq.
    + apply (HQ j seg); [lia|done|done|done|done|lia].
  - split; [done|]. split; [lia|]. split; [lia|]. split; [lia|]. exists []. split; [done|]. split; [cbn; lia|done].
  - lia.
Qed.

(** [text] fills the first [out] places of the array. *)
Definition holds_text (normalized : list Z) (out : Z) (text : list Z) : Prop :=
  length normalized = 64%nat /\ out = Z.of_nat (length text) /\ take (length text) normalized = text.

Lemma holds_text_put normalized out text c :
  holds_text normalized out text -> out < 64 -> holds_text (<[Z.to_nat out := c]> normalized) (out + 1) (text ++ [c]).
Proof.
  intros (Hl & Ho & Ht) Hlt. split; [by rewrite length_insert|]. rewrite length_app. cbn [length]. split; [lia|].
  replace (length text + 1)%nat with (S (length text)) by lia. subst out. rewrite Nat2Z.id, take_insert_end by lia.
  by rewrite Ht.
Qed.

Lemma holds_text_nul normalized out text :
  holds_text normalized out text -> out < 64 -> holds_text (<[Z.to_nat out := 0]> normalized) out text.
Proof.
  intros (Hl & Ho & Ht) Hlt. split; [by rewrite length_insert|]. split; [done|].
  rewrite take_insert_ge by lia. done.
Qed.

Lemma holds_text_prefix normalized out text text' rest :
  holds_text normalized out text -> text = text' ++ rest -> holds_text normalized (Z.of_nat (length text')) text'.
Proof.
  intros (Hl & Ho & Ht) ->. split; [done|]. split; [done|].
  rewrite <- (take_app_length text' rest) at 2. rewrite <- Ht, take_take, length_app. f_equal. lia.
Qed.

Lemma strip_name_suffix l : exists p, l = p ++ strip_name l.
Proof.
  induction l as [|c [|d r] [p IH]]; [by exists []..|]. cbn [strip_name] in *. destruct (is_slash64 c); [by exists []|].
  exists (c :: p). cbn [app]. by rewrite <- IH.
Qed.

Lemma strip_name_length l : l <> [] -> (1 <= length (strip_name l) <= length l)%nat.
Proof.
  intros Hl. induction l as [|c [|d r] IH]; [done|cbn; lia|]. cbn [strip_name] in *.
  destruct (is_slash64 c); cbn [length] in *; [lia|]. specialize (IH ltac:(done)). lia.
Qed.

Lemma normalize_pop_ok {S} normalized out l (Q : Z -> S -> Prop) s :
  holds_text normalized out (rev l) -> l <> [] ->
  Q (Z.of_nat (length (strip_name l))) s -> wp (normalize_pop normalized out) Q s.
Proof.
  intros Hh Hl HQ. unfold normalize_pop.
  apply (wp_loop _ (fun o s' => s' = s /\ exists l', l' <> [] /\ holds_text normalized o (rev l') /\ strip_name l' = strip_name l)
           (fun o _ => o)).
  - intros o s' (-> & l' & Hne & Hh' & Hs). destruct Hh' as (Hn & Ho & Ht). rewrite length_rev in Ho, Ht.
    destruct l' as [|c [|d r]]; [done| |].
    + subst o. change (1 <? _) with false. cbv iota. wp_step. by rewrite <- Hs in HQ.
    + cbn [length] in Ho, Ht. rewrite (proj2 (Z.ltb_lt 1 o)) by lia. wp_step.
      assert (Hle : (Datatypes.S (Datatypes.S (length r)) <= 64)%nat).
      { apply (f_equal length) in Ht. rewrite length_take, length_rev, Hn in Ht. cbn [length] in Ht. lia. }
      rewrite u64_small by (unfold is_u64; lia).
      assert (Hc : normalized !! Z.to_nat (o - 1) = Some c).
      { rewrite <- (lookup_take_lt _ (Datatypes.S (Datatypes.S (length r)))) by lia. rewrite Ht. cbn [rev].
        rewrite lookup_app_r by (rewrite length_app, length_rev; cbn; lia).
        rewrite length_app, length_rev. cbn [length]. by replace (Z.to_nat (o - 1) - (length r + 1))%nat with 0%nat by lia. }
      eapply wp_array_at; [exact Hc|]. wp_step. cbn [strip_name] in Hs. unfold is_slash64, chr_slash in *.
      destruct (Z.eqb_spec c 47); cbn [negb].
      * rewrite <- Hs in HQ. cbn [length] in HQ. by replace o with (Z.of_nat (Datatypes.S (Datatypes.S (length r)))) by lia.
      * split; [|lia]. split; [done|]. exists (d :: r). split; [done|]. split; [|done].
        replace (o - 1) with (Z.of_nat (length (rev (d :: r)))) by (rewrite length_rev; cbn; lia).
        eapply (holds_text_prefix normalized o (rev (c :: d :: r)) _ [c]); [|done].
        split; [done|]. rewrite length_rev. done.
  - split; [done|]. by exists l.
  - destruct Hh as (Hn & Ho & Ht). apply (f_equal length) in Ht. rewrite length_take in Ht. lia.
Qed.

Lemma normalize_copy_ok {S} path start (seg : list Z) normalized out text (Q : list Z * Z -> S -> Prop) s :
  holds_text normalized out text -> out + Z.of_nat (length seg) < 64 -> 0 <= start <= 64 ->
  seg `prefix_of` drop (Z.to_nat start) path ->
  (forall normalized', holds_text normalized' (out + Z.of_nat (length seg)) (text ++ seg) ->
     Q (normalized', out + Z.of_nat (length seg)) s) ->
  wp (normalize_copy path start (Z.of_nat (length seg)) (normalized, out)) Q s.
Proof.
  intros Hh Hlt Hs [rest Hp] HQ. unfold normalize_copy.
  apply (wp_fold _ _ (fun l '(n, o) s' => s' = s /\ holds_text n o (text ++ take (length l) seg))).
  - split; [done|]. by rewrite app_nil_r.
  - intros l i r [n o] s' E (-> & Hho). pose proof Hh as (_ & Hout & _).
    assert (Hi : seqZ 0 (Z.of_nat (length seg)) !! length l = Some i) by (by rewrite E, list_lookup_middle).
    apply lookup_seqZ in Hi as [Hi Hil].
    destruct (lookup_lt_is_Some_2 seg (length l)) as [c Hc]; [lia|].
    assert (Hch : char_at path (Z.to_nat (start [++] i)) = c).
    { rewrite u64_small by (unfold is_u64; lia). unfold char_at.
      replace (Z.to_nat (start + i)) with (Z.to_nat start + length l)%nat by lia.
      rewrite <- lookup_drop, Hp, lookup_app_l by lia. by rewrite Hc. }
    rewrite Hch. assert (Ho : o = Z.of_nat (length text + length l)).
    { destruct Hho as (_ & -> & _). rewrite length_app, length_take. f_equal. lia. }
    wp_step.
    apply wp_array_put; [destruct Hho as (-> & _ & _); lia|]. wp_step.
    rewrite u64_small by (unfold is_u64; lia). split; [done|].
    rewrite length_app. cbn [length]. replace (length l + 1)%nat with (Datatypes.S (length l)) by lia.
    rewrite (take_S_r _ _ _ Hc), app_assoc. apply holds_text_put; [done|lia].
  - intros [n o] s' (-> & Hho). rewrite length_seqZ, Nat2Z.id, firstn_all in Hho.
    destruct Hh as (_ & Hout & _). pose proof Hho as (_ & Ho & _). rewrite length_app in Ho.
    replace o with (out + Z.of_nat (length seg)) in * by lia. by apply HQ.
Qed.

(** ** The outer loop *)

Lemma text_up_keeps text :
  Forall (fun c => c <> 0) text -> text <> [] ->
  Forall (fun c => c <> 0) (text_up text) /\ (1 <= length (text_up text) <= length text)%nat.
Proof.
  intros Hf Hne. unfold text_up. destruct (rev text) as [|c [|d r]] eqn:E.
  - split; [done|]. destruct text; [done|cbn; lia].
  - split; [done|]. destruct text; [done|cbn; lia].
  - rewrite length_rev.
    assert (Hl : length text = Datatypes.S (Datatypes.S (length r))) by (by rewrite <- length_rev, E).
    pose proof (strip_name_length (d :: r) ltac:(done)) as Hs. cbn [length] in Hs. split; [|lia].
    destruct (strip_name_suffix (d :: r)) as [p Ep].
    assert (Hf' : Forall (fun x => x <> 0) (c :: d :: r)) by (rewrite <- E; by apply Forall_rev).
    rewrite Ep in Hf'. apply Forall_rev. apply Forall_cons in Hf' as [_ Hf']. by apply Forall_app in Hf' as [_ Hf'].
Qed.

(** The state of the outer loop between two segments. *)
Record normalizing (path : list Z) (i out : Z) (normalized text : list Z) : Prop := {
  nz_pos : 0 <= i <= 64;
  nz_in : i <= Z.of_nat (length (cstr path));
  nz_text : holds_text normalized out text;
  nz_one : 1 <= out;
  nz_out : out = 1 \/ out <= i;
  nz_max : out < 64;
  nz_nonzero : Forall (fun c => c <> 0) text;
  nz_next : char_at path (Z.to_nat i) = 0 \/ is_slash64 (char_at path (Z.to_nat i)) = true;
  nz_rest : foldl text_push text (segments (drop (Z.to_nat i) path)) = normalized_text path
}.

Definition normalize_result (path : list Z) (r : option (Z * Z * list Z)) : Prop :=
  match r with
  | None => 64 <= Z.of_nat (length (cstr path))
  | Some (i, out, normalized) =>
      (i = 64 /\ 64 <= Z.of_nat (length (cstr path))) \/
      (i = Z.of_nat (length (cstr path)) /\ i < 64 /\ 1 <= out < 64 /\ holds_text normalized out (normalized_text path) /\
       Forall (fun c => c <> 0) (normalized_text path))
  end.

Lemma bool_seg_dot path start (seg : list Z) rest :
  drop start path = seg ++ rest ->
  (Z.of_nat (length seg) =? 1) && (char_at path start =? 46) = bool_decide (seg = [46]).
Proof.
  intros E. rewrite <- char_at_drop, E. destruct seg as [|c [|d r]]; cbn [length app].
  - done.
  - change (char_at _ 0) with c. cbn. destruct (Z.eqb_spec c 46) as [->|]; [by rewrite bool_decide_eq_true_2|].
    rewrite bool_decide_eq_false_2; [done|congruence].
  - rewrite (proj2 (Z.eqb_neq _ 1)) by lia. by rewrite bool_decide_eq_false_2.
Qed.

Lemma bool_seg_dotdot path start (seg : list Z) rest :
  drop (Z.to_nat start) path = seg ++ rest -> 0 <= start <= 64 ->
  (Z.of_nat (length seg) =? 2) && (char_at path (Z.to_nat start) =? 46) && (char_at path (Z.to_nat (start [++] 1)) =? 46)
  = bool_decide (seg = [46; 46]).
Proof.
  intros E Hs. rewrite u64_small by (unfold is_u64; lia).
  assert (E1 : char_at path (Z.to_nat (start + 1)) = char_at (seg ++ rest) 1).
  { rewrite <- E. unfold char_at. rewrite lookup_drop. do 2 f_equal. lia. }
  rewrite E1, <- char_at_drop, E. destruct seg as [|c [|d [|e r]]]; cbn [length app].
  - done.
  - rewrite (proj2 (Z.eqb_neq _ 2)) by lia. by rewrite bool_decide_eq_false_2.
  - change (char_at (c :: d :: rest) 0) with c. change (char_at (c :: d :: rest) 1) with d.
    rewrite (proj2 (Z.eqb_eq _ 2)) by lia.
    destruct (Z.eqb_spec c 46) as [->|]; [destruct (Z.eqb_spec d 46) as [->|]|].
    + by rewrite bool_decide_eq_true_2.
    + rewrite bool_decide_eq_false_2; [done|congruence].
    + rewrite bool_decide_eq_false_2; [done|congruence].
  - rewrite (proj2 (Z.eqb_neq _ 2)) by lia. by rewrite bool_decide_eq_false_2.
Qed.

(** After a segment the loop is at its end. *)
Lemma normalizing_next path i j k out out' normalized normalized' text text' seg :
  normalizing path i out normalized text -> i < j -> j <= k < 64 -> k <= Z.of_nat (length (cstr path)) ->
  segments (drop (Z.to_nat j) path) = segments (drop (Z.to_nat i) path) ->
  drop (Z.to_nat j) path = seg ++ drop (Z.to_nat k) path -> seg <> [] ->
  Forall (fun c => c <> 0 /\ is_slash64 c = false) seg ->
  char_at path (Z.to_nat k) = 0 \/ is_slash64 (char_at path (Z.to_nat k)) = true ->
  text_push text seg = text' -> holds_text normalized' out' text' ->
  1 <= out' -> out' = 1 \/ out' <= k -> Forall (fun c => c <> 0) text' ->
  normalizing path k out' normalized' text'.
Proof.
  intros Hn Hij Hjk Hk Hsk Hd Hne Hf Hnext Hpush Hh H1 Hout Hnz. pose proof (nz_pos _ _ _ _ _ Hn).
  constructor; try done; try lia.
  assert (Hseg : field is_slash64 (drop (Z.to_nat j) path) = seg).
  { rewrite Hd. apply field_word; [done|]. by rewrite char_at_drop. }
  destruct seg as [|c seg']; [done|]. apply Forall_cons in Hf as [[Hc0 Hc1] _].
  rewrite <- (nz_rest _ _ _ _ _ Hn), <- Hsk, (fields_step is_slash64 (drop (Z.to_nat j) path)).
  - rewrite Hseg. cbn [foldl]. rewrite Hpush. do 2 f_equal. rewrite Hd. by rewrite drop_app_length.
  - rewrite Hd. done.
  - rewrite Hd. done.
Qed.

Lemma normalize_up_ok {S} out normalized text (Q : Z * list Z -> S -> Prop) s :
  holds_text normalized out text -> 1 <= out < 64 ->
  (forall normalized', holds_text normalized' (Z.of_nat (length (text_up text))) (text_up text) ->
     Q (Z.of_nat (length (text_up text)), normalized') s) ->
  wp (normalize_up out normalized) Q s.
Proof.
  intros Ht Hout HQ. pose proof Ht as (Hl & Ho & Htk). unfold normalize_up, text_up in *.
  destruct (rev text) as [|c [|d r]] eqn:Er; pose proof Er as Hlen; apply (f_equal length) in Hlen;
    rewrite length_rev in Hlen; cbn [length] in Hlen.
  - lia.
  - rewrite (proj2 (Z.ltb_ge 1 out)) by lia. wp_step. rewrite <- Ho in HQ. by apply HQ.
  - rewrite (proj2 (Z.ltb_lt 1 out)) by lia. wp_step. rewrite u64_small by (unfold is_u64; lia).
    assert (Etext : text = rev (d :: r) ++ [c]) by (rewrite <- (rev_involutive text), Er; done).
    assert (Hh1 : holds_text normalized (out - 1) (rev (d :: r))).
    { replace (out - 1) with (Z.of_nat (length (rev (d :: r)))); [by eapply holds_text_prefix|].
      rewrite length_rev. cbn [length]. lia. }
    pose proof (strip_name_length (d :: r) ltac:(done)) as Hs. cbn [length] in Hs.
    eapply normalize_pop_ok; [exact Hh1|done|]. wp_step. apply wp_array_put; [lia|]. wp_step.
    rewrite length_rev in HQ. apply HQ. apply holds_text_nul; [|lia].
    rewrite <- length_rev. destruct (strip_name_suffix (d :: r)) as [p Ep].
    eapply (holds_text_prefix _ _ _ _ (rev p)); [exact Hh1|]. rewrite <- rev_app_distr. by rewrite <- Ep.
Qed.

Lemma normalize_push_ok {S} path start seg rest out normalized text (Q : option (Z * list Z) -> S -> Prop) s :
  holds_text normalized out text -> 1 <= out -> 0 <= start <= 64 -> out = 1 \/ out < start ->
  start + Z.of_nat (length seg) < 64 -> 1 <= start -> drop (Z.to_nat start) path = seg ++ rest ->
  seg <> [46] -> seg <> [46; 46] ->
  (forall normalized', holds_text normalized' (Z.of_nat (length (text_push text seg))) (text_push text seg) ->
     (length (text_push text seg) <= Z.to_nat start + length seg)%nat ->
     Q (Some (Z.of_nat (length (text_push text seg)), normalized')) s) ->
  wp (normalize_push path start (Z.of_nat (length seg)) out normalized) Q s.
Proof.
  intros Ht Hone Hs Hos Hlt Hs1 Hd H1 H2. unfold text_push. rewrite !bool_decide_eq_false_2 by done.
  set (base := if bool_decide (length text = 1%nat) then text else text ++ [47]). intros HQ.
  pose proof Ht as (Hl & Ho & _). unfold normalize_push, X86_64_VFS_PATH_MAX_BYTES. wp_step.
  enough (Hcopy : forall n1 o1, holds_text n1 o1 base -> o1 <= start ->
    wp (if 64 <=? o1 [++] Z.of_nat (length seg) then mret_ None
        else copied <- normalize_copy path start (Z.of_nat (length seg)) (n1, o1) ;;
             let '(n2, o2) := copied in n2 <- array_put n2 o2 0 ;; mret_ (Some (o2, n2))) Q s).
  { unfold base in Hcopy. destruct (Z.ltb_spec 1 out) as [Hgt|Hle].
    - rewrite u64_small by (unfold is_u64; lia). rewrite (proj2 (Z.leb_gt 64 _)) by lia. wp_step.
      apply wp_array_put; [lia|]. wp_step. rewrite bool_decide_eq_false_2 in Hcopy by lia.
      apply Hcopy; [|lia]. by apply holds_text_put; [|lia].
    - wp_step. rewrite bool_decide_eq_true_2 in Hcopy by lia. by apply Hcopy; [|lia]. }
  intros n1 o1 Hh1 Hle1. pose proof Hh1 as (_ & Ho1 & _). rewrite u64_small by (unfold is_u64; lia).
  rewrite (proj2 (Z.leb_gt 64 _)) by lia. wp_step.
  eapply normalize_copy_ok; [exact Hh1|lia|lia|by exists rest|]. intros n2 Hh2. wp_step.
  apply wp_array_put; [destruct Hh2 as (-> & _ & _); lia|]. wp_step.
  replace (o1 + Z.of_nat (length seg)) with (Z.of_nat (length (base ++ seg))) in * by (rewrite length_app; lia).
  apply HQ; [apply holds_text_nul; [done|rewrite length_app; lia]|rewrite length_app; lia].
Qed.

Lemma normalize_step_ok {S} path i out normalized text (s : S) :
  normalizing path i out normalized text ->
  wp (normalize_step path (i, out, normalized)) (fun r s' => s' = s /\
    match r with
    | inl (i', out', normalized') => i < i' <= 64 /\ exists text', normalizing path i' out' normalized' text'
    | inr v => normalize_result path v
    end) s.
Proof.
  intros Hn. pose proof Hn as [Hpos Hin Ht Hone Hout Hmax Hnz Hnext Hrest].
  unfold normalize_step, X86_64_VFS_PATH_MAX_BYTES.
  assert (Hend : forall j, 0 <= j < 64 -> j <= Z.of_nat (length (cstr path)) -> char_at path (Z.to_nat j) = 0 ->
    segments (drop (Z.to_nat j) path) = segments (drop (Z.to_nat i) path) ->
    normalize_result path (Some (j, out, normalized))).
  { intros j Hj Hjl E Hseg. right. rewrite cstr_char in E by lia.
    rewrite <- Hrest, <- Hseg, (segments_nul path (Z.to_nat j)) by (apply cstr_char; lia).
    cbn [foldl]. repeat split; try done; try lia; apply Ht. }
  destruct (Z.ltb_spec i 64) as [Hi|Hi]; cbn [andb]; [|wp_step; split; [done|]; left; lia].
  destruct (Z.eqb_spec (char_at path (Z.to_nat i)) 0) as [E0|E0]; cbn [negb].
  { wp_step. split; [done|]. apply Hend; [lia|done|done|done]. }
  destruct Hnext as [|Hslash]; [done|]. wp_step.
  apply normalize_skip_ok; [lia|done|]. intros j Hj Hjl Hseg Hjend Hlt. specialize (Hlt Hslash Hi).
  destruct (Z.leb_spec 64 j) as [Hj64|Hj64]; cbn [orb]; [wp_step; split; [done|]; left; lia|].
  destruct (Z.eqb_spec (char_at path (Z.to_nat j)) 0) as [Ej|Ej].
  { wp_step. split; [done|]. apply Hend; [lia|done|done|done]. }
  destruct Hjend as [|Hjs]; [lia|]. wp_step.
  apply normalize_scan_ok; [lia|done|]. intros k seg Hk Hkl Hd Hlen Hf Hkend. cbv beta iota.
  destruct (Z.leb_spec 64 k) as [Hk64|Hk64]; [wp_step; split; [done|]; cbn; lia|].
  assert (Hne : seg <> []).
  { intros ->. cbn in Hd, Hlen. replace k with j in * by lia. destruct Hkend as [?|[?|?]]; [lia|done|congruence]. }
  destruct Hkend as [?|Hkend]; [lia|].
  rewrite <- Hlen, (bool_seg_dot path (Z.to_nat j) seg _ Hd), (bool_seg_dotdot path j seg _ Hd) by lia.
  pose proof (normalizing_next path i j k out) as Hgo.
  assert (Htne : text <> []) by (destruct Ht as (_ & Ho & _); destruct text; [cbn in Ho; lia|done]).
  destruct (text_up_keeps text Hnz Htne) as [Hnz' Hup].
  case_bool_decide as Edot.
  { wp_step. split; [done|]. split; [lia|]. exists text.
    eapply Hgo; try done; try lia. unfold text_push. by rewrite bool_decide_eq_true_2. }
  case_bool_decide as Eup; wp_step.
  - eapply normalize_up_ok; [exact Ht|lia|]. intros n' Hh'. wp_step. split; [done|]. split; [lia|]. exists (text_up text).
    destruct Ht as (_ & Ho & _). eapply Hgo; try done; try (cbn [fst]; lia).
    unfold text_push. by rewrite bool_decide_eq_false_2, bool_decide_eq_true_2.
  - eapply normalize_push_ok; [exact Ht|lia|lia|lia|lia|lia|exact Hd|done|done|]. intros n' Hh' Hle. wp_step. split; [done|].
    split; [lia|]. exists (text_push text seg).
    assert (Hpl : (1 <= length (text_push text seg))%nat).
    { unfold text_push. rewrite !bool_decide_eq_false_2 by done. rewrite length_app.
      destruct seg; [done|]. cbn [length]. lia. }
    eapply Hgo; try done; try lia.
    unfold text_push. rewrite !bool_decide_eq_false_2 by done.
    apply Forall_app. split; [|eapply Forall_impl; [exact Hf|]; naive_solver].
    case_bool_decide; [done|]. apply Forall_app. split; [done|]. by repeat constructor.
Qed.

(** The result of [x86_64_vfs_normalize_path] on every path. *)
Lemma normalize_path_spec {S} path normalized (s : S) :
  length normalized = 64%nat ->
  wp (x86_64_vfs_normalize_path path normalized) (fun r s' => s' = s /\
    if (char_at path 0 =? 47) && (Z.of_nat (length (cstr path)) <? 64)
    then exists normalized', r = Some normalized' /\ length normalized' = 64%nat /\ cstr normalized' = normalized_text path /\
           (length (normalized_text path) < 64)%nat
    else r = None) s.
Proof.
  intros Hl. unfold x86_64_vfs_normalize_path, X86_64_VFS_PATH_MAX_BYTES, chr_slash.
  destruct (Z.eqb_spec (char_at path 0) 47) as [E0|E0]; cbn [negb andb]; [|by wp_step].
  wp_step. apply wp_array_put; [lia|]. wp_step.
  apply (wp_loop _ (fun '(i, out, n) s' => s' = s /\ i <= 64 /\ exists text, normalizing path i out n text) (fun '(i, _, _) _ => 64 - i)
    (fun r s' => wp _ _ s')).
  - intros [[i out] n] s' (-> & Hi & text & Hn). eapply wp_mono; [by eapply normalize_step_ok|].
    intros [[[i' out'] n']|r] s' [-> H].
    + destruct H as [Hii Hex]. split; [|lia]. split; [done|]. split; [lia|done].
    + destruct r as [[[i' out'] n']|]; cbv beta iota in *; cbn [normalize_result] in H.
      * destruct H as [[-> Hlen]|(-> & Hlt & Hout & Hh & Hnz)].
        { change (64 <=? 64) with true. cbv iota. wp_step. split; [done|]. rewrite (proj2 (Z.ltb_ge _ 64)) by lia. done. }
        rewrite (proj2 (Z.leb_gt 64 _)) by lia. wp_step. pose proof Hh as (Hn' & Ho & Ht).
        apply wp_array_put; [lia|]. wp_step. split; [done|]. rewrite (proj2 (Z.ltb_lt _ 64)) by lia.
        eexists. split; [done|]. split; [by rewrite length_insert|]. split; [|lia].
        rewrite insert_take_drop by lia. replace (Z.to_nat out') with (length (normalized_text path)) by lia.
        by rewrite Ht, cstr_app_nul.
      * wp_step. split; [done|]. rewrite (proj2 (Z.ltb_ge _ 64)) by lia. done.
  - split; [done|]. split; [lia|]. exists [47]. constructor; try done; try lia.
    + split; [by rewrite length_insert|]. split; [done|]. destruct normalized; [done|reflexivity].
    + by repeat constructor.
    + right. change (Z.to_nat 0) with 0%nat. rewrite E0. done.
  - lia.
Qed.

(** ** Finding a node *)

Lemma cstr_drop_char p k : char_at p k <> 0 -> cstr (drop k p) = char_at p k :: cstr (drop (S k) p).
Proof. intros H. rewrite (drop_char p k _ eq_refl H). cbn [cstr]. by rewrite (proj2 (Z.eqb_neq _ _) H). Qed.

Lemma cstr_drop_nul p k : char_at p k = 0 -> cstr (drop k p) = [].
Proof.
  intros H. rewrite <- char_at_drop in H. destruct (drop k p) as [|c r]; [done|]. change (c = 0) in H. by subst c.
Qed.

Lemma path_equals_ok {S} p q (s : S) :
  (length (cstr p) < 64)%nat ->
  wp (x86_64_vfs_path_equals p q) (fun r s' => s' = s /\ r = bool_decide (cstr p = cstr q)) s.
Proof.
  intros Hlen. unfold x86_64_vfs_path_equals, X86_64_VFS_PATH_MAX_BYTES. wp_step.
  assert (H : forall n k, (length (cstr (drop k p)) < n)%nat ->
    wp (mfor_ret (seqZ (Z.of_nat k) (Z.of_nat n)) (fun i =>
      let path_char := char_at p (Z.to_nat i) in
      let kernel_char := char_at q (Z.to_nat i) in
      mret_ (if negb (path_char =? kernel_char) then Some false
             else if path_char =? 0 then Some true else None)))
      (fun r s' => s' = s /\ default false r = bool_decide (cstr (drop k p) = cstr (drop k q))) s).
  { induction n as [|n IH]; intros k Hk; [lia|]. rewrite seqZ_cons by lia. cbn [mfor_ret]. wp_step.
    replace (Z.succ (Z.of_nat k)) with (Z.of_nat (Datatypes.S k)) by lia.
    replace (Z.pred (Z.of_nat (Datatypes.S n))) with (Z.of_nat n) by lia. rewrite Nat2Z.id. cbv zeta. wp_step.
    destruct (Z.eqb_spec (char_at p k) 0) as [Ep|Ep].
    - rewrite (cstr_drop_nul p k Ep), Ep. destruct (Z.eqb_spec 0 (char_at q k)) as [Eq|Eq]; cbn [negb].
      + wp_step. split; [done|]. symmetry. apply bool_decide_eq_true_2. by rewrite cstr_drop_nul.
      + wp_step. split; [done|]. symmetry. apply bool_decide_eq_false_2. rewrite cstr_drop_char by done. done.
    - rewrite (cstr_drop_char p k Ep) in Hk |- *. cbn [length] in Hk.
      destruct (Z.eqb_spec (char_at p k) (char_at q k)) as [Eq|Eq]; cbn [negb].
      + eapply wp_mono; [apply IH; lia|]. intros r s' [-> ->]. split; [done|]. apply bool_decide_ext.
        rewrite (cstr_drop_char q k) by congruence. rewrite Eq. split; [by intros ->|by intros [= ->]].
      + wp_step. split; [done|]. symmetry. apply bool_decide_eq_false_2.
        destruct (decide (char_at q k = 0)) as [E0|E0]; [by rewrite (cstr_drop_nul q k)|].
        rewrite (cstr_drop_char q k) by done. by intros [= E _]. }
  eapply wp_mono; [apply (H 64%nat 0%nat); by rewrite drop_0|]. intros r s' [-> E]. wp_step. rewrite !drop_0 in E. done.
Qed.

(** The index of the first node with the path [text]. *)
Definition node_index_of (text : list Z) : Z :=
  match list_find (fun n => n64_path n = text) x86_64_vfs_nodes with
  | Some (i, _) => Z.of_nat i
  | None => X86_64_VFS_NO_NODE
  end.

Lemma node_paths_nonzero : Forall (fun n => cstr (n64_path n) = n64_path n) x86_64_vfs_nodes.
Proof. repeat constructor. Qed.

Lemma find_node_scan {S} (text : list Z) p (s : S) :
  cstr p = text -> (length text < 64)%nat ->
  wp (r <- mfor_ret (seqZ 0 X86_64_VFS_NODE_COUNT) (fun i =>
        node <- array_at x86_64_vfs_nodes i ;;
        eq <- x86_64_vfs_path_equals p (n64_path node) ;;
        mret_ (if eq : bool then Some i else None)) ;;
      mret_ (default X86_64_VFS_NO_NODE r)) (fun r s' => s' = s /\ r = node_index_of text) s.
Proof.
  intros Hp Hlen. wp_step.
  assert (H : forall nodes k, drop k x86_64_vfs_nodes = nodes ->
    wp (mfor_ret (seqZ (Z.of_nat k) (Z.of_nat (length nodes))) (fun i =>
        node <- array_at x86_64_vfs_nodes i ;;
        eq <- x86_64_vfs_path_equals p (n64_path node) ;;
        mret_ (if eq : bool then Some i else None)))
      (fun r s' => s' = s /\ r = match list_find (fun n => n64_path n = text) nodes with
                                 | Some (i, _) => Some (Z.of_nat (k + i)) | None => None end) s).
  { induction nodes as [|n nodes IH]; intros k Hk; [by apply wp_ret|]. rewrite seqZ_cons by (cbn; lia). cbn [mfor_ret]. wp_step.
    replace (Z.succ (Z.of_nat k)) with (Z.of_nat (Datatypes.S k)) by lia.
    replace (Z.pred (Z.of_nat (length (n :: nodes)))) with (Z.of_nat (length nodes)) by (cbn [length]; lia).
    assert (Hn : x86_64_vfs_nodes !! k = Some n) by (rewrite <- (Nat.add_0_r k), <- lookup_drop, Hk; done).
    wp_step. eapply wp_array_at; [by rewrite Nat2Z.id|]. wp_step.
    eapply wp_mono; [apply path_equals_ok; by rewrite Hp|]. intros eq s' [-> ->]. wp_step.
    rewrite Hp, (Forall_lookup_1 _ _ _ _ node_paths_nonzero Hn). cbn [list_find].
    destruct (decide (n64_path n = text)) as [E|E].
    - rewrite bool_decide_eq_true_2 by done. wp_step. split; [done|]. by rewrite Nat.add_0_r.
    - rewrite bool_decide_eq_false_2 by congruence. eapply wp_mono; [apply IH|].
      { replace (Datatypes.S k) with (k + 1)%nat by lia. by rewrite <- drop_drop, Hk. }
      intros r s' [-> ->]. split; [done|]. destruct (list_find _ nodes) as [[i x]|]; cbn; [|done]. do 2 f_equal. lia. }
  eapply wp_mono; [apply (H x86_64_vfs_nodes 0%nat eq_refl)|]. intros r s' [-> ->]. wp_step. split; [done|].
  unfold node_index_of. by destruct (list_find _ _) as [[i x]|].
Qed.

Lemma find_node_ok {S} path (s : S) :
  wp (x86_64_vfs_find_node path) (fun r s' => s' = s /\
    r = if (char_at path 0 =? 47) && (Z.of_nat (length (cstr path)) <? 64)
        then node_index_of (normalized_text path) else X86_64_VFS_NO_NODE) s.
Proof.
  unfold x86_64_vfs_find_node. wp_step. eapply wp_mono; [by apply normalize_path_spec|].
  intros r s' [-> H]. destruct (_ && _).
  - destruct H as (n & -> & _ & Hc & Hl). by apply find_node_scan.
  - subst r. by wp_step.
Qed.

(** ** The meant reading *)

(** Every ".." comes when at most one directory is left to leave. *)
Fixpoint shallow (depth : nat) (segs : list (list Z)) : bool :=
  match segs with
  | [] => true
  | seg :: r =>
      if bool_decide (seg = [46]) then shallow depth r
      else if bool_decide (seg = [46; 46]) then (depth <=? 1)%nat && shallow 0 r
      else shallow (S depth) r
  end.

Lemma path_text_snoc stack seg :
  path_text (stack ++ [seg]) = (if bool_decide (length (path_text stack) = 1%nat) then path_text stack else path_text stack ++ [47]) ++ seg
  \/ exists w, w = [] /\ w ∈ stack.
Proof.
  destruct stack as [|w stack]; [left; cbn; by rewrite app_nil_r|]. destruct w as [|c w]; [right; exists []; split; [done|by left]|].
  left. change (path_text ((c :: w) :: stack)) with (mjoin ((fun seg => 47 :: seg) <$> ((c :: w) :: stack))).
  change (path_text (((c :: w) :: stack) ++ [seg])) with (mjoin ((fun seg => 47 :: seg) <$> (((c :: w) :: stack) ++ [seg]))).
  rewrite fmap_app, join_app, bool_decide_eq_false_2 by (cbn; lia).
  rewrite <- app_assoc. f_equal. cbn. by rewrite app_nil_r.
Qed.

Lemma strip_name_word r w :
  Forall (fun x => is_slash64 x = false) w -> strip_name (rev w ++ 47 :: r) = 47 :: r.
Proof.
  intros Hw. apply Forall_rev in Hw. induction Hw as [|x l Hx _ IH]; cbn [app].
  - by destruct r.
  - cbn [strip_name]. destruct (l ++ 47 :: r) eqn:E; [by destruct l|]. rewrite Hx. exact IH.
Qed.

Lemma text_up_one w :
  Forall (fun x => is_slash64 x = false) w -> w <> [] -> text_up (47 :: w) = [47].
Proof.
  intros Hw Hne. unfold text_up. destruct w as [|a w _] using rev_ind; [done|].
  apply Forall_app in Hw as [Hw _]. cbn [rev]. rewrite rev_app_distr. cbn [rev app].
  destruct (rev w ++ [47]) as [|d r] eqn:E; [by destruct (rev w)|]. rewrite <- E.
  rewrite (strip_name_word []) by done. done.
Qed.

Lemma shallow_text segs : forall stack,
  Forall (fun w => w <> [] /\ Forall (fun x => is_slash64 x = false) w) stack ->
  Forall (fun w => w <> [] /\ Forall (fun x => is_slash64 x = false) w) segs ->
  shallow (length stack) segs = true ->
  foldl text_push (path_text stack) segs = path_text (foldl dir_push stack segs).
Proof.
  induction segs as [|seg segs IH]; intros stack Hst Hsegs Hsh; [done|].
  apply Forall_cons in Hsegs as [[Hne Hns] Hsegs]. cbn [foldl shallow] in *. unfold text_push at 2, dir_push at 2.
  case_bool_decide as E1; [by apply IH|]. case_bool_decide as E2.
  - apply andb_true_iff in Hsh as [Hd Hsh]. apply Nat.leb_le in Hd.
    assert (Hgoal : text_up (path_text stack) = [47] /\ take (pred (length stack)) stack = []).
    { destruct stack as [|w [|w2 r]]; [done| |cbn in Hd; lia]. apply Forall_cons in Hst as [[Hw1 Hw2] _].
      split; [|done]. cbn [path_text fmap list_fmap mjoin list_join]. rewrite app_nil_r. by apply text_up_one. }
    destruct Hgoal as [-> ->]. by apply (IH []).
  - destruct (path_text_snoc stack seg) as [Es|(w & -> & Hw)].
    + rewrite <- Es. apply IH; [|done|].
      * apply Forall_app. split; [done|]. by repeat constructor.
      * rewrite length_app. cbn [length]. by rewrite Nat.add_1_r.
    + rewrite Forall_forall in Hst. by apply Hst in Hw as [? _].
Qed.

Lemma fields_words path : Forall (fun w => w <> [] /\ Forall (fun x => is_slash64 x = false) w) (segments path).
Proof.
  unfold fields. apply Forall_forall. intros w Hw. apply list_elem_of_filter in Hw as [Hne Hw]. split; [done|].
  revert w Hne Hw. generalize (cstr path) as l.
  enough (H : forall l acc w, Forall (fun x => is_slash64 x = false) acc -> w ∈ split_on is_slash64 acc l ->
      Forall (fun x => is_slash64 x = false) w) by (intros; eapply H; [|done]; constructor).
  induction l as [|c l IH]; intros acc w Ha Hw; cbn [split_on] in Hw.
  - by apply list_elem_of_singleton in Hw as ->.
  - destruct (is_slash64 c) eqn:E.
    + apply elem_of_cons in Hw as [->|Hw]; [done|]. by eapply IH; [|exact Hw].
    + eapply IH; [|exact Hw]. apply Forall_app. split; [done|]. by repeat constructor.
Qed.

Lemma shallow_canonical path : shallow 0 (segments path) = true -> normalized_text path = canonical_text path.
Proof. intros H. apply (shallow_text _ []); [done|apply fields_words|done]. Qed.
