(* ===== verification/Vfs64Proofs.v ===== *)
(** * The file system of the 64-bit kernel: invariant and contracts *)
From S2P Require Import Prelude Word64 KString Vfs Vfs64 Vfs64Paths.

(** The index of /tmp/session.txt. *)
Definition session_index : Z := 20.

(** An open file: flags, node and offset. *)
Record file64 := { f64_flags : Z; f64_index : Z; f64_offset : Z }.

(** What slot [i] of a table holds. *)
Definition slot_file (st : x86_64_vfs_state) (i : nat) : option file64 :=
  match fd_used st !! i, fd_flags st !! i, fd_node_index st !! i, fd_offset st !! i with
  | Some true, Some fl, Some ix, Some off => Some {| f64_flags := fl; f64_index := ix; f64_offset := off |}
  | _, _, _, _ => None
  end.

Definition file64_at (s : vfs64) (fd : Z) : option file64 :=
  if fd <? 3 then None else slot_file (v_state s) (Z.to_nat (fd - 3)).

Section Contracts.
Context (user_image : user_image64 -> list Z).
Hypothesis images_small : forall i, Z.of_nat (length (user_image i)) < 4294967296.

(** The bytes of a node. *)
Definition node_bytes (s : vfs64) (node : x86_64_vfs_node) : list Z :=
  match n64_data node with
  | DText t => t
  | DImage i => user_image i
  | _ => take (Z.to_nat (session_storage_size s)) (session_storage s)
  end.

(** How far an offset into a file can get. *)
Definition offset_limit (index : Z) : Z :=
  if index =? session_index then 256
  else match x86_64_vfs_nodes !! Z.to_nat index with
       | Some node => match n64_data node with
                      | DText t => Z.of_nat (length t)
                      | DImage i => Z.of_nat (length (user_image i))
                      | _ => 0
                      end
       | None => 0
       end.

Definition file64_ok (f : file64) : Prop :=
  0 <= f64_index f < X86_64_VFS_NODE_COUNT /\ 0 <= f64_flags f < 8 /\
  (f64_flags f <> 0 -> f64_index f = session_index) /\ 0 <= f64_offset f <= offset_limit (f64_index f).

Record vfs64_ok (s : vfs64) : Prop := {
  vo_used : length (fd_used (v_state s)) = 4%nat;
  vo_flags : length (fd_flags (v_state s)) = 4%nat;
  vo_index : length (fd_node_index (v_state s)) = 4%nat;
  vo_offset : length (fd_offset (v_state s)) = 4%nat;
  vo_storage : length (session_storage s) = 256%nat;
  vo_size : 0 <= session_storage_size s <= 256;
  vo_files : forall i f, slot_file (v_state s) i = Some f -> file64_ok f
}.

Lemma slot_file_lt st i f :
  length (fd_used st) = 4%nat -> slot_file st i = Some f -> (i < 4)%nat.
Proof using.
  intros Hl. unfold slot_file. destruct (fd_used st !! i) eqn:E; [|done]. intros _. rewrite <- Hl.
  by eapply lookup_lt_Some.
Qed.

(** ** Nodes *)

(** What the table says of a node: the RAM file, a text of the kernel or a program. *)
Lemma node_kind k node :
  x86_64_vfs_nodes !! k = Some node ->
  (Z.of_nat k = session_index /\ n64_data node = DNull /\ n64_type node = 1) \/
  (Z.of_nat k <> session_index /\ exists t, n64_data node = DText t /\ n64_size node = Z.of_nat (length t) /\ (length t < 1000)%nat) \/
  (Z.of_nat k <> session_index /\ exists i, n64_data node = DImage i).
Proof using.
  intros E. pose proof (lookup_lt_Some _ _ _ E) as Hlt. cbn [length x86_64_vfs_nodes] in Hlt.
  do 8 (destruct k as [|k]; [injection E as <-; right; left; split; [done|]; eexists; repeat split; apply Nat.ltb_lt; vm_compute; reflexivity|]).
  do 9 (destruct k as [|k]; [injection E as <-; right; right; split; [done|]; by eexists|]).
  do 3 (destruct k as [|k]; [injection E as <-; right; left; split; [done|]; eexists; repeat split; apply Nat.ltb_lt; vm_compute; reflexivity|]).
  destruct k as [|k]; [injection E as <-; by left|].
  do 2 (destruct k as [|k]; [injection E as <-; right; left; split; [done|]; eexists; repeat split; apply Nat.ltb_lt; vm_compute; reflexivity|]).
  lia.
Qed.

Lemma session_node_index k node :
  x86_64_vfs_nodes !! k = Some node ->
  x86_64_vfs_is_session_storage_node node = bool_decide (Z.of_nat k = session_index).
Proof using.
  intros E. unfold x86_64_vfs_is_session_storage_node.
  destruct (node_kind k node E) as [(Hk & Hd & Ht)|[(Hk & t & Hd & _)|(Hk & i & Hd)]]; rewrite Hd.
  - rewrite Ht. by rewrite !bool_decide_eq_true_2.
  - by rewrite !bool_decide_eq_false_2.
  - by rewrite !bool_decide_eq_false_2.
Qed.

Lemma node_size_ok s k node (Q : Z -> vfs64 -> Prop) :
  vfs64_ok s -> x86_64_vfs_nodes !! k = Some node ->
  Q (Z.of_nat (length (node_bytes s node))) s -> wp (x86_64_vfs_node_size user_image node) Q s.
Proof using.
  intros Hok E HQ. unfold x86_64_vfs_node_size, node_bytes in *. pose proof (session_node_index k node E) as Hs.
  destruct (node_kind k node E) as [(Hk & Hd & Ht)|[(Hk & t & Hd & Hz & _)|(Hk & i & Hd)]]; rewrite Hd in *.
  - rewrite Hs, bool_decide_eq_true_2 by done. wp_step. rewrite length_take, (vo_storage s Hok) in HQ.
    pose proof (vo_size s Hok). by replace (session_storage_size s) with (Z.of_nat (Z.to_nat (session_storage_size s) `min` 256)) by lia.
  - rewrite Hs, bool_decide_eq_false_2 by done. wp_step. by rewrite Hz.
  - by wp_step.
Qed.

(** Reading a byte of the node. *)
Lemma node_data_ok s k node i b (Q : Z -> vfs64 -> Prop) :
  x86_64_vfs_nodes !! k = Some node -> 0 <= i ->
  node_bytes s node !! Z.to_nat i = Some b -> Q b s -> wp (data64_at user_image (x86_64_vfs_node_data node) i) Q s.
Proof using.
  intros E Hi Hb HQ. unfold x86_64_vfs_node_data, node_bytes in *. rewrite (session_node_index k node E).
  destruct (node_kind k node E) as [(Hk & Hd & Ht)|[(Hk & t & Hd & Hz & _)|(Hk & im & Hd)]]; rewrite Hd in *.
  - rewrite bool_decide_eq_true_2 by done. apply lookup_take_Some in Hb as [Hb _]. cbn [data64_at].
    wp_step. wp_step. by eapply wp_array_at.
  - rewrite bool_decide_eq_false_2 by done. by eapply wp_array_at.
  - rewrite bool_decide_eq_false_2 by done. by eapply wp_array_at.
Qed.

Lemma node_bytes_small s k node :
  vfs64_ok s -> x86_64_vfs_nodes !! k = Some node ->
  Z.of_nat (length (node_bytes s node)) <= offset_limit (Z.of_nat k) < 4294967296.
Proof using images_small.
  intros Hok E. unfold node_bytes, offset_limit. rewrite Nat2Z.id, E. pose proof (vo_storage s Hok).
  destruct (node_kind k node E) as [(Hk & Hd & Ht)|[(Hk & t & Hd & Hz & Hl)|(Hk & i & Hd)]]; rewrite Hd.
  - rewrite Hk, length_take. change (session_index =? session_index) with true. cbv iota. lia.
  - rewrite (proj2 (Z.eqb_neq _ _)) by done. lia.
  - rewrite (proj2 (Z.eqb_neq _ _)) by done. specialize (images_small i). lia.
Qed.

(** ** Slots *)

Lemma fd_slot_ok fd :
  is_u64 fd -> x86_64_vfs_fd_slot fd = if (3 <=? fd) && (fd <? 7) then fd - 3 else 4.
Proof using.
  intros Hf. unfold x86_64_vfs_fd_slot, X86_64_VFS_FD_BASE, X86_64_VFS_MAX_OPEN_FILES.
  destruct (Z.ltb_spec fd 3); [by rewrite (proj2 (Z.leb_gt 3 fd)) by lia|].
  rewrite (proj2 (Z.leb_le 3 fd)) by lia. cbn [andb].
  unfold is_u64 in Hf. rewrite u64_small by (unfold is_u64; lia).
  destruct (Z.leb_spec 4 (fd - 3)), (Z.ltb_spec fd 7); try lia. apply u32_small. unfold is_u32. lia.
Qed.

Lemma fd_open_slot_ok s fd (Q : option Z -> vfs64 -> Prop) :
  vfs64_ok s -> is_u64 fd ->
  Q (match file64_at s fd with Some _ => Some (fd - 3) | None => None end) s -> wp (fd_open_slot fd) Q s.
Proof using.
  intros Hok Hf HQ. unfold fd_open_slot, X86_64_VFS_MAX_OPEN_FILES. rewrite (fd_slot_ok fd Hf). unfold file64_at in HQ.
  destruct (Z.leb_spec 3 fd) as [H3|H3]; cbn [andb].
  2:{ rewrite (proj2 (Z.ltb_lt fd 3)) in HQ by lia. change (4 <=? 4) with true. cbv iota. by wp_step. }
  rewrite (proj2 (Z.ltb_ge fd 3)) in HQ by lia.
  destruct (Z.ltb_spec fd 7) as [H7|H7].
  - rewrite (proj2 (Z.leb_gt 4 (fd - 3))) by lia. wp_step. wp_step. wp_step.
    destruct (lookup_lt_is_Some_2 (fd_used (v_state s)) (Z.to_nat (fd - 3))) as [u Eu]; [rewrite (vo_used s Hok); lia|].
    eapply wp_array_at; [exact Eu|]. wp_step. unfold slot_file in HQ. rewrite Eu in HQ.
    destruct (lookup_lt_is_Some_2 (fd_flags (v_state s)) (Z.to_nat (fd - 3))) as [x1 E1]; [rewrite (vo_flags s Hok); lia|].
    destruct (lookup_lt_is_Some_2 (fd_node_index (v_state s)) (Z.to_nat (fd - 3))) as [x2 E2]; [rewrite (vo_index s Hok); lia|].
    destruct (lookup_lt_is_Some_2 (fd_offset (v_state s)) (Z.to_nat (fd - 3))) as [x3 E3]; [rewrite (vo_offset s Hok); lia|].
    rewrite E1, E2, E3 in HQ. by destruct u.
  - change (4 <=? 4) with true. cbv iota. wp_step. unfold slot_file in HQ.
    rewrite lookup_ge_None_2 in HQ; [done|]. rewrite (vo_used s Hok). lia.
Qed.

Lemma file64_at_lookups s fd f :
  vfs64_ok s -> file64_at s fd = Some f ->
  3 <= fd < 7 /\ fd_used (v_state s) !! Z.to_nat (fd - 3) = Some true /\
  fd_flags (v_state s) !! Z.to_nat (fd - 3) = Some (f64_flags f) /\
  fd_node_index (v_state s) !! Z.to_nat (fd - 3) = Some (f64_index f) /\
  fd_offset (v_state s) !! Z.to_nat (fd - 3) = Some (f64_offset f) /\ file64_ok f.
Proof using.
  intros Hok. unfold file64_at. destruct (Z.ltb_spec fd 3); [done|]. intros E.
  pose proof (slot_file_lt _ _ _ (vo_used s Hok) E). pose proof (vo_files s Hok _ _ E) as Hf.
  unfold slot_file in E. destruct (_ !! _) as [[]|]; [|done|done]. destruct (fd_flags _ !! _); [|done].
  destruct (fd_node_index _ !! _); [|done]. destruct (fd_offset _ !! _); [|done]. injection E as <-.
  split; [lia|]. repeat split; try done; apply Hf.
Qed.

(** The table after an assignment to a slot. *)
Definition slot_update (st : x86_64_vfs_state) (i : nat) (f : option file64) : nat -> option file64 :=
  fun j => if decide (j = i) then f else slot_file st j.

Lemma slot_put_ok s slot used flags index offset (Q : unit -> vfs64 -> Prop) :
  vfs64_ok s -> 0 <= slot < 4 ->
  (used = true -> file64_ok {| f64_flags := flags; f64_index := index; f64_offset := offset |}) ->
  (forall s', vfs64_ok s' -> session_storage s' = session_storage s -> session_storage_size s' = session_storage_size s ->
     v64_initialized (v_state s') = v64_initialized (v_state s) ->
     (forall j, slot_file (v_state s') j = slot_update (v_state s) (Z.to_nat slot)
        (if used then Some {| f64_flags := flags; f64_index := index; f64_offset := offset |} else None) j) ->
     Q tt s') ->
  wp (fd_slot_put slot used flags index offset) Q s.
Proof using.
  intros [H1 H2 H3 H4 H5 H6 H7] Hs Hf HQ. unfold fd_slot_put, v64_mod. wp_step. wp_step.
  wp_step. apply wp_array_put; [lia|]. wp_step. apply wp_array_put; [lia|]. wp_step. apply wp_array_put; [lia|].
  wp_step. apply wp_array_put; [lia|]. wp_step.
  assert (Hslots : forall j, slot_file ((v_state s) <| fd_used := <[Z.to_nat slot:=used]> (fd_used (v_state s)) |>
      <| fd_flags := <[Z.to_nat slot:=flags]> (fd_flags (v_state s)) |>
      <| fd_node_index := <[Z.to_nat slot:=index]> (fd_node_index (v_state s)) |>
      <| fd_offset := <[Z.to_nat slot:=offset]> (fd_offset (v_state s)) |>) j =
      slot_update (v_state s) (Z.to_nat slot)
        (if used then Some {| f64_flags := flags; f64_index := index; f64_offset := offset |} else None) j).
  { intros j. unfold slot_update, slot_file. get_set. destruct (decide (j = Z.to_nat slot)) as [->|Hne].
    - rewrite !list_lookup_insert_eq by lia. by destruct used.
    - rewrite !list_lookup_insert_ne by done. done. }
  apply HQ; get_set; try done. constructor; get_set; rewrite ?length_insert; try done.
  intros i f. rewrite Hslots. unfold slot_update. destruct (decide _); [|by apply H7].
  destruct used; [|done]. intros [= <-]. by apply Hf.
Qed.

Lemma fd_offset_put_ok s fd f offset (Q : unit -> vfs64 -> Prop) :
  vfs64_ok s -> file64_at s fd = Some f -> 0 <= offset <= offset_limit (f64_index f) ->
  (forall s', vfs64_ok s' -> session_storage s' = session_storage s -> session_storage_size s' = session_storage_size s ->
     v64_initialized (v_state s') = v64_initialized (v_state s) ->
     (forall j, slot_file (v_state s') j = slot_update (v_state s) (Z.to_nat (fd - 3))
        (Some {| f64_flags := f64_flags f; f64_index := f64_index f; f64_offset := offset |}) j) ->
     Q tt s') ->
  wp (fd_offset_put (fd - 3) offset) Q s.
Proof using.
  intros Hok Hfd Ho HQ. destruct (file64_at_lookups s fd f Hok Hfd) as (Hr & E1 & E2 & E3 & E4 & Hfo).
  destruct Hok as [H1 H2 H3 H4 H5 H6 H7]. unfold fd_offset_put, v64_mod. wp_step. wp_step. wp_step.
  apply wp_array_put; [lia|]. wp_step.
  assert (Hslots : forall j, slot_file ((v_state s) <| fd_offset := <[Z.to_nat (fd - 3):=offset]> (fd_offset (v_state s)) |>) j =
      slot_update (v_state s) (Z.to_nat (fd - 3))
        (Some {| f64_flags := f64_flags f; f64_index := f64_index f; f64_offset := offset |}) j).
  { intros j. unfold slot_update, slot_file. get_set. destruct (decide (j = Z.to_nat (fd - 3))) as [->|Hne].
    - rewrite E1, E2, E3, list_lookup_insert_eq by lia. done.
    - rewrite !list_lookup_insert_ne by done. done. }
  apply HQ; get_set; try done. constructor; get_set; rewrite ?length_insert; try done.
  intros i g. rewrite Hslots. unfold slot_update. destruct (decide _); [|by apply H7].
  intros [= <-]. destruct Hfo as (Ha & Hb & Hc & _). repeat split; cbn; try done; lia.
Qed.

(** ** Opening *)

(** The node a path names, as [x86_64_vfs_find_node] finds it. *)
Definition path_index (path : list Z) : Z :=
  if (char_at path 0 =? 47) && (Z.of_nat (length (cstr path)) <? 64)
  then node_index_of (normalized_text path) else X86_64_VFS_NO_NODE.

Lemma node_index_cases text :
  node_index_of text = X86_64_VFS_NO_NODE \/
  0 <= node_index_of text < X86_64_VFS_NODE_COUNT /\
  exists node, x86_64_vfs_nodes !! Z.to_nat (node_index_of text) = Some node /\ n64_path node = text.
Proof using.
  unfold node_index_of. destruct (list_find _ _) as [[i n]|] eqn:E; [|by left]. right.
  apply list_find_Some in E as (E & Hp & _). pose proof (lookup_lt_Some _ _ _ E).
  unfold X86_64_VFS_NODE_COUNT. split; [lia|]. exists n. by rewrite Nat2Z.id.
Qed.

Lemma path_index_cases path :
  path_index path = X86_64_VFS_NO_NODE \/
  0 <= path_index path < X86_64_VFS_NODE_COUNT /\ exists node, x86_64_vfs_nodes !! Z.to_nat (path_index path) = Some node.
Proof using.
  unfold path_index. destruct (_ && _); [|by left].
  destruct (node_index_cases (normalized_text path)) as [H|(H & n & Hn & _)]; [by left|right; eauto].
Qed.

Definition truncated (flags : Z) (s : vfs64) : vfs64 :=
  if Z.testbit flags 2 then s <| session_storage_size := 0 |> else s.

(** The first slot that is not in use. *)
Definition free_slot64 (s : vfs64) : option nat :=
  fst <$> list_find (fun u => u = false) (fd_used (v_state s)).

Lemma truncated_ok flags s : vfs64_ok s -> vfs64_ok (truncated flags s).
Proof using. intros []. unfold truncated. destruct (Z.testbit flags 2); constructor; get_set; done || lia. Qed.

Lemma find_slot_ok s flags index (Q : option Z -> vfs64 -> Prop) :
  vfs64_ok s -> file64_ok {| f64_flags := flags; f64_index := index; f64_offset := 0 |} ->
  (free_slot64 s = None -> Q None s) ->
  (forall k s', free_slot64 s = Some k -> (k < 4)%nat -> vfs64_ok s' -> session_storage s' = session_storage s ->
     session_storage_size s' = session_storage_size s -> v64_initialized (v_state s') = v64_initialized (v_state s) ->
     (forall j, slot_file (v_state s') j = slot_update (v_state s) k
        (Some {| f64_flags := flags; f64_index := index; f64_offset := 0 |}) j) ->
     Q (Some (3 + Z.of_nat k)) s') ->
  wp (mfor_ret (seqZ 0 X86_64_VFS_MAX_OPEN_FILES) (fun slot =>
        st <- mget v_state ;;
        used <- array_at (fd_used st) slot ;;
        if negb used then
          fd_slot_put slot true flags index 0 ;;; mret_ (Some (X86_64_VFS_FD_BASE [++] slot))
        else mret_ None)) Q s.
Proof using.
  intros Hok Hf Hnone Hsome. unfold free_slot64 in *.
  assert (H : forall us pre, fd_used (v_state s) = pre ++ us -> Forall (fun u => u = true) pre ->
    wp (mfor_ret (seqZ (Z.of_nat (length pre)) (Z.of_nat (length us))) (fun slot =>
        st <- mget v_state ;;
        used <- array_at (fd_used st) slot ;;
        if negb used then
          fd_slot_put slot true flags index 0 ;;; mret_ (Some (X86_64_VFS_FD_BASE [++] slot))
        else mret_ None)) Q s).
  { induction us as [|u us IH]; intros pre E Hpre.
    - apply wp_ret, Hnone. rewrite E, app_nil_r. clear -Hpre.
      rewrite (proj2 (list_find_None _ _)); [done|]. eapply Forall_impl; [exact Hpre|]. by intros ? ->.
    - rewrite seqZ_cons by (cbn [length]; lia). cbn [mfor_ret].
      assert (Eu : fd_used (v_state s) !! length pre = Some u) by (by rewrite E, list_lookup_middle).
      pose proof (lookup_lt_Some _ _ _ Eu) as Hlt. rewrite (vo_used s Hok) in Hlt.
      wp_step. wp_step. wp_step. wp_step. eapply wp_array_at; [by rewrite Nat2Z.id|].
      destruct u; cbn [negb].
      + wp_step. replace (Z.succ (Z.of_nat (length pre))) with (Z.of_nat (length (pre ++ [true]))) by (rewrite length_app; cbn; lia).
        replace (Z.pred (Z.of_nat (length (true :: us)))) with (Z.of_nat (length us)) by (cbn [length]; lia).
        apply IH; [by rewrite <- app_assoc|]. apply Forall_app. split; [done|by repeat constructor].
      + wp_step. eapply slot_put_ok; [done|lia|done|]. intros s' Hok' Hst Hsz Hin Hsl. wp_step. wp_step.
        rewrite Nat2Z.id in Hsl. unfold X86_64_VFS_FD_BASE. rewrite u64_small by (unfold is_u64; lia).
        eapply Hsome; try done.
        rewrite E. assert (Hfind : list_find (fun u => u = false) (pre ++ false :: us) = Some (length pre, false)).
        { apply list_find_Some. split; [by rewrite list_lookup_middle|]. split; [done|].
          intros j y Hj Hlj ->. rewrite lookup_app_l in Hj by lia. rewrite Forall_lookup in Hpre. by apply Hpre in Hj. }
        by rewrite Hfind. }
  specialize (H (fd_used (v_state s)) [] eq_refl (Forall_nil_2 _)). cbn [length] in H.
  rewrite (vo_used s Hok) in H. exact H.
Qed.

(** What [x86_64_vfs_open] returns and leaves, on every branch. *)
Definition open_post (s : vfs64) (path : option (list Z)) (flags : Z) (r : Z) (s' : vfs64) : Prop :=
  match path with
  | None => r = X86_64_VFS_RET_EINVAL /\ s' = s
  | Some path =>
      if path_index path =? X86_64_VFS_NO_NODE then r = X86_64_VFS_RET_ENOENT /\ s' = s
      else if (8 <=? flags) || (negb (flags =? 0) && negb (path_index path =? session_index)) then
        r = X86_64_VFS_RET_EINVAL /\ s' = s
      else match free_slot64 s with
        | None => r = X86_64_VFS_RET_EINVAL /\ s' = truncated flags s
        | Some k => r = 3 + Z.of_nat k /\ (k < 4)%nat /\ session_storage s' = session_storage s /\
            session_storage_size s' = session_storage_size (truncated flags s) /\
            (forall j, slot_file (v_state s') j = slot_update (v_state s) k
               (Some {| f64_flags := flags; f64_index := path_index path; f64_offset := 0 |}) j)
        end
  end.

Lemma flags_supported flags : is_u64 flags -> (Z.land flags (not64 7) =? 0) = (flags <? 8).
Proof using.
  intros Hf. change 7 with (2 ^ 3 - 1). rewrite land_high_mask64 by (done || lia). change (2 ^ 3) with 8.
  unfold is_u64 in Hf. destruct (Z.eqb_spec (8 * (flags / 8)) 0), (Z.ltb_spec flags 8); try done; Z.div_mod_to_equations; lia.
Qed.

Lemma flags_bit flags n : 0 <= n -> (Z.land flags (2 ^ n) =? 0) = negb (Z.testbit flags n).
Proof using.
  intros Hn. destruct (Z.testbit flags n) eqn:E; cbn [negb].
  - apply Z.eqb_neq. intros H0. assert (Hb : Z.testbit (Z.land flags (2 ^ n)) n = true) by (rewrite Z.land_spec, E, Z.pow2_bits_true by lia; done).
    by rewrite H0, Z.bits_0 in Hb.
  - apply Z.eqb_eq. apply Z.bits_inj'. intros k Hk. rewrite Z.land_spec, Z.bits_0.
    destruct (decide (k = n)) as [->|]; [by rewrite E|]. rewrite Z.pow2_bits_false by lia. apply andb_false_r.
Qed.

Lemma offset_limit_nonneg index : 0 <= offset_limit index.
Proof using.
  unfold offset_limit. destruct (_ =? _); [lia|]. destruct (_ !! _) as [n|]; [|lia]. destruct (n64_data n); lia.
Qed.

(** The part of [x86_64_vfs_open] after its checks. *)
Lemma open_tail_ok s flags index :
  vfs64_ok s -> 0 <= flags < 8 -> 0 <= index < X86_64_VFS_NODE_COUNT -> (flags <> 0 -> index = session_index) ->
  wp (mwhen (negb (Z.land flags X86_64_VFS_OPEN_TRUNCATE =? 0)) (mmod (fun s => s <| session_storage_size := 0 |>)) ;;;
      r <- mfor_ret (seqZ 0 X86_64_VFS_MAX_OPEN_FILES) (fun slot =>
        st <- mget v_state ;;
        used <- array_at (fd_used st) slot ;;
        if negb used then
          fd_slot_put slot true flags index 0 ;;; mret_ (Some (X86_64_VFS_FD_BASE [++] slot))
        else mret_ None) ;;
      mret_ (default X86_64_VFS_RET_EINVAL r))
     (fun r s' => vfs64_ok s' /\ match free_slot64 s with
        | None => r = X86_64_VFS_RET_EINVAL /\ s' = truncated flags s
        | Some k => r = 3 + Z.of_nat k /\ (k < 4)%nat /\ session_storage s' = session_storage s /\
            session_storage_size s' = session_storage_size (truncated flags s) /\
            (forall j, slot_file (v_state s') j = slot_update (v_state s) k
               (Some {| f64_flags := flags; f64_index := index; f64_offset := 0 |}) j)
        end) s.
Proof using.
  intros Hok Hf Hi Hfi. change X86_64_VFS_OPEN_TRUNCATE with (2 ^ 2). rewrite flags_bit, negb_involutive by lia.
  wp_step. apply (wp_mono _ (fun _ s1 => s1 = truncated flags s)).
  { unfold truncated. wp_step; [wp_step|]; by rewrite H. }
  intros [] s1 ->.
  assert (Et : v_state (truncated flags s) = v_state s) by (unfold truncated; by destruct (Z.testbit flags 2)).
  assert (Ef : free_slot64 (truncated flags s) = free_slot64 s) by (unfold free_slot64; by rewrite Et).
  assert (Est : session_storage (truncated flags s) = session_storage s) by (unfold truncated; by destruct (Z.testbit flags 2)).
  pose proof (offset_limit_nonneg index). wp_step.
  apply find_slot_ok; [by apply truncated_ok|repeat split; cbn; try done; lia| |]; rewrite Ef, ?Et.
  - intros ->. wp_step. split; [by apply truncated_ok|done].
  - intros k s' -> Hk Hok' H1 H2 H3 H4. wp_step. split; [done|]. by rewrite H1, H2, Est.
Qed.

Lemma path_index_node path : path_index path <> X86_64_VFS_NO_NODE ->
  0 <= path_index path < X86_64_VFS_NODE_COUNT /\ exists node, x86_64_vfs_nodes !! Z.to_nat (path_index path) = Some node.
Proof using. intros H. by destruct (path_index_cases path) as [E|E]. Qed.

Lemma open_ok s path flags :
  vfs64_ok s -> is_u64 flags ->
  wp (x86_64_vfs_open path flags) (fun r s' => vfs64_ok s' /\ open_post s path flags r s') s.
Proof using.
  intros Hok Hf. unfold x86_64_vfs_open, open_post. destruct path as [path|]; [|by wp_step]. wp_step.
  eapply wp_mono; [apply find_node_ok|]. intros idx s0 [-> ->]. cbv beta. fold (path_index path).
  destruct (Z.eqb_spec (path_index path) X86_64_VFS_NO_NODE) as [E|E]; [by wp_step|].
  destruct (path_index_node path E) as (Hr & node & En). wp_step. eapply wp_array_at; [exact En|]. cbv zeta.
  change (Z.lor (Z.lor X86_64_VFS_OPEN_WRITE X86_64_VFS_OPEN_CREATE) X86_64_VFS_OPEN_TRUNCATE) with 7.
  rewrite (flags_supported flags Hf), (session_node_index _ _ En), Z2Nat.id by lia. change X86_64_VFS_OPEN_READ with 0.
  unfold is_u64 in Hf. destruct (Z.ltb_spec flags 8) as [H8|H8]; cbn [negb].
  2:{ rewrite (proj2 (Z.leb_le 8 flags)) by lia. by wp_step. }
  rewrite (proj2 (Z.leb_gt 8 flags)) by lia. cbn [orb].
  replace (bool_decide (path_index path = session_index)) with (path_index path =? session_index).
  2:{ destruct (Z.eqb_spec (path_index path) session_index); symmetry; [by apply bool_decide_eq_true_2|by apply bool_decide_eq_false_2]. }
  destruct (negb (flags =? 0) && negb (path_index path =? session_index)) eqn:Eb; [by wp_step|].
  apply open_tail_ok; [done|lia|done|]. intros Hf0. apply Z.eqb_neq in Hf0. rewrite Hf0 in Eb. cbn in Eb. bool_simpl. done.
Qed.

(** ** Closing, reading, writing *)

Definition close_post (s : vfs64) (fd : Z) (r : Z) (s' : vfs64) : Prop :=
  match file64_at s fd with
  | None => r = X86_64_VFS_RET_EBADF /\ s' = s
  | Some _ => r = X86_64_VFS_RET_OK /\ session_storage s' = session_storage s /\
      session_storage_size s' = session_storage_size s /\
      (forall j, slot_file (v_state s') j = slot_update (v_state s) (Z.to_nat (fd - 3)) None j)
  end.

Lemma close_ok s fd :
  vfs64_ok s -> is_u64 fd -> wp (x86_64_vfs_close fd) (fun r s' => vfs64_ok s' /\ close_post s fd r s') s.
Proof using.
  intros Hok Hf. unfold x86_64_vfs_close, close_post. wp_step. apply fd_open_slot_ok; [done|done|].
  destruct (file64_at s fd) as [f|] eqn:E; [|by wp_step].
  destruct (file64_at_lookups s fd f Hok E) as (Hr & _). wp_step.
  apply slot_put_ok; [done|lia|done|]. intros s' Hok' H1 H2 H3 H4. by wp_step.
Qed.

(** The bytes a read of [size] bytes gives. *)
Definition bytes_read (s : vfs64) (f : file64) (size : Z) : list Z :=
  match x86_64_vfs_nodes !! Z.to_nat (f64_index f) with
  | Some node => take (Z.to_nat size) (drop (Z.to_nat (f64_offset f)) (node_bytes s node))
  | None => []
  end.

Definition read_post (s : vfs64) (fd : Z) (buffer : option (list Z)) (size : Z) (r : Z * option (list Z)) (s' : vfs64) : Prop :=
  match buffer with
  | None => r = (X86_64_VFS_RET_EINVAL, None) /\ s' = s
  | Some buf =>
      match file64_at s fd with
      | None => r = (X86_64_VFS_RET_EBADF, Some buf) /\ s' = s
      | Some f =>
          let got := bytes_read s f size in
          r = (Z.of_nat (length got), Some (got ++ drop (length got) buf)) /\
          session_storage s' = session_storage s /\ session_storage_size s' = session_storage_size s /\
          (forall j, slot_file (v_state s') j = slot_update (v_state s) (Z.to_nat (fd - 3))
             (Some {| f64_flags := f64_flags f; f64_index := f64_index f;
                      f64_offset := f64_offset f + Z.of_nat (length got) |}) j)
      end
  end.

Lemma slot_update_same s fd f :
  file64_at s fd = Some f -> forall j, slot_file (v_state s) j = slot_update (v_state s) (Z.to_nat (fd - 3)) (Some f) j.
Proof using.
  unfold file64_at, slot_update. destruct (fd <? 3); [done|]. intros E j. by destruct (decide (j = Z.to_nat (fd - 3))) as [->|].
Qed.

Lemma file64_eta f : {| f64_flags := f64_flags f; f64_index := f64_index f; f64_offset := f64_offset f + 0 |} = f.
Proof using. destruct f. cbn. by rewrite Z.add_0_r. Qed.

(** The copy loop of [x86_64_vfs_read]. *)
Lemma read_loop_ok s k node offset (got buf : list Z) (Q : list Z -> vfs64 -> Prop) :
  vfs64_ok s -> x86_64_vfs_nodes !! k = Some node -> 0 <= offset < 4294967296 ->
  got `prefix_of` drop (Z.to_nat offset) (node_bytes s node) -> (length got <= length buf)%nat ->
  Q (got ++ drop (length got) buf) s ->
  wp (mfold (seqZ 0 (Z.of_nat (length got))) (fun b i =>
        byte <- data64_at user_image (x86_64_vfs_node_data node) (offset [++] i) ;; array_put b i byte) buf) Q s.
Proof using images_small.
  intros Hok En Ho [rest Hp] Hlen HQ. pose proof (node_bytes_small s k node Hok En) as Hsm.
  assert (Hgl : (length got <= length (node_bytes s node))%nat).
  { apply (f_equal length) in Hp. rewrite length_drop, length_app in Hp. lia. }
  apply (wp_fold _ _ (fun l b s' => s' = s /\ b = take (length l) got ++ drop (length l) buf)).
  - split; [done|]. done.
  - intros l i r b s' E (-> & ->).
    assert (Hi : seqZ 0 (Z.of_nat (length got)) !! length l = Some i) by (by rewrite E, list_lookup_middle).
    apply lookup_seqZ in Hi as [Hi Hil]. destruct (lookup_lt_is_Some_2 got (length l)) as [c Hc]; [lia|].
    wp_step. rewrite u64_small by (unfold is_u64; lia).
    eapply node_data_ok; [exact En|lia| |].
    { replace (Z.to_nat (offset + i)) with (Z.to_nat offset + length l)%nat by lia.
      rewrite <- lookup_drop, Hp, lookup_app_l by lia. exact Hc. }
    assert (Hlt : length (take (length l) got) = length l) by (rewrite length_take; lia).
    apply wp_array_put; [rewrite length_app, length_drop, Hlt; lia|]. split; [done|].
    rewrite length_app. cbn [length]. replace (Z.to_nat i) with (length (take (length l) got) + 0)%nat by lia.
    rewrite insert_app_r. rewrite Nat.add_1_r, (take_S_r _ _ _ Hc), <- app_assoc. f_equal.
    destruct (lookup_lt_is_Some_2 buf (length l)) as [y Hy]; [lia|]. rewrite (drop_S _ _ _ Hy). done.
  - intros b s' (-> & ->). rewrite length_seqZ, Nat2Z.id, firstn_all. done.
Qed.

Lemma read_ok s fd buffer size :
  vfs64_ok s -> is_u64 fd -> is_u64 size -> match buffer with Some buf => size <= Z.of_nat (length buf) | None => True end ->
  wp (x86_64_vfs_read user_image fd buffer size) (fun r s' => vfs64_ok s' /\ read_post s fd buffer size r s') s.
Proof using images_small.
  intros Hok Hf Hs Hb. unfold x86_64_vfs_read, read_post. destruct buffer as [buf|]; [|by wp_step].
  wp_step. apply fd_open_slot_ok; [done|done|]. destruct (file64_at s fd) as [f|] eqn:Ef; [|by wp_step].
  destruct (file64_at_lookups s fd f Hok Ef) as (Hr & E1 & E2 & E3 & E4 & Hfo). pose proof Hfo as (Hi & _ & _ & Hoff).
  wp_step. wp_step. wp_step. eapply wp_array_at; [exact E3|]. rewrite (proj2 (Z.leb_gt _ _)) by lia.
  destruct (lookup_lt_is_Some_2 x86_64_vfs_nodes (Z.to_nat (f64_index f))) as [node En].
  { unfold X86_64_VFS_NODE_COUNT in Hi. lia. }
  wp_step. eapply wp_array_at; [exact En|]. cbv zeta. wp_step. eapply node_size_ok; [done|exact En|].
  wp_step. eapply wp_array_at; [exact E4|]. unfold bytes_read. rewrite En.
  set (data := node_bytes s node). set (off := f64_offset f) in *. set (got := take (Z.to_nat size) (drop (Z.to_nat off) data)).
  assert (Hlg : Z.of_nat (length got) = Z.max 0 (Z.min size (Z.of_nat (length data) - off))).
  { unfold got. rewrite length_take, length_drop. unfold is_u64 in Hs. lia. }
  pose proof (node_bytes_small s _ node Hok En) as Hsm. fold data in Hsm. rewrite Z2Nat.id in Hsm by lia. unfold is_u64 in *.
  destruct ((Z.of_nat (length data) <=? off) || (size =? 0)) eqn:Ez.
  - assert (Hg : got = []).
    { apply length_zero_iff_nil. apply orb_true_iff in Ez as [Ez|Ez]; bool_simpl; lia. }
    wp_step. split; [done|]. rewrite Hg. cbn [length app]. rewrite drop_0. split; [done|]. split; [done|]. split; [done|].
    change (Z.of_nat 0) with 0. unfold off. rewrite file64_eta. by apply slot_update_same.
  - apply orb_false_iff in Ez as [Ez1 Ez2]. bool_simpl. rewrite u64_small by (unfold is_u64; lia).
    replace (if size <? Z.of_nat (length data) - off then size else Z.of_nat (length data) - off) with (Z.of_nat (length got)).
    2:{ destruct (Z.ltb_spec size (Z.of_nat (length data) - off)); lia. }
    wp_step. eapply read_loop_ok; [done|exact En|lia| |lia|].
    { unfold got. apply prefix_take. }
    wp_step. rewrite u64_small by (unfold is_u64; lia).
    eapply fd_offset_put_ok; [done|exact Ef|lia|]. intros s' Hok' H1 H2 H3 H4. wp_step. split; [done|]. done.
Qed.

(** [data] written over [l] from place [off]. *)
Definition splice (l : list Z) (off : nat) (data : list Z) : list Z :=
  take off l ++ data ++ drop (off + length data) l.

Lemma splice_snoc l off data c :
  (off + length data < length l)%nat ->
  <[(off + length data)%nat := c]> (splice l off data) = splice l off (data ++ [c]).
Proof using.
  intros Hl. unfold splice. rewrite length_app. cbn [length].
  replace (off + length data)%nat with (length (take off l) + (length data + 0))%nat at 1 by (rewrite length_take; lia).
  rewrite insert_app_r, insert_app_r. f_equal. rewrite <- app_assoc. f_equal.
  destruct (lookup_lt_is_Some_2 l (off + length data)) as [y Hy]; [done|]. rewrite (drop_S _ _ _ Hy). cbn [app].
  replace (off + (length data + 1))%nat with (S (off + length data)) by lia. done.
Qed.

Lemma splice_length l off data : (off + length data <= length l)%nat -> length (splice l off data) = length l.
Proof using. intros H. unfold splice. rewrite !length_app, length_take, length_drop. lia. Qed.

(** Storing the bytes [data]; the rest of the state stays. *)
Lemma write_loop_ok s offset (data buf : list Z) (Q : unit -> vfs64 -> Prop) :
  0 <= offset <= 256 -> data `prefix_of` buf -> length (session_storage s) = 256%nat ->
  offset + Z.of_nat (length data) <= 256 ->
  Q tt (s <| session_storage := splice (session_storage s) (Z.to_nat offset) (u8 <$> data) |>) ->
  wp (mfor (seqZ 0 (Z.of_nat (length data))) (fun i =>
        byte <- array_at buf i ;;
        storage <- mget session_storage ;;
        storage' <- array_put storage (offset [++] i) (u8 byte) ;;
        mmod (fun s => s <| session_storage := storage' |>))) Q s.
Proof using.
  intros Ho [rest ->] Hl Hlen HQ.
  apply (wp_for_seqZ _ _ (fun i s' => s' =
    s <| session_storage := splice (session_storage s) (Z.to_nat offset) (u8 <$> take (Z.to_nat i) data) |>)); [lia| | |].
  - change (take (Z.to_nat 0) data) with (@nil Z). cbn [fmap list_fmap]. unfold splice. cbn [length app].
    rewrite Nat.add_0_r, take_drop. by destruct s.
  - intros i s' Hi ->. destruct (lookup_lt_is_Some_2 data (Z.to_nat i)) as [c Hc]; [lia|].
    wp_step. eapply wp_array_at; [rewrite lookup_app_l by lia; exact Hc|]. do 3 wp_step. get_set.
    rewrite u64_small by (unfold is_u64; lia).
    assert (Htl : length (u8 <$> take (Z.to_nat i) data) = Z.to_nat i) by (rewrite length_fmap, length_take; lia).
    apply wp_array_put; [rewrite splice_length; lia|]. wp_step.
    replace (Z.to_nat (offset + i)) with (Z.to_nat offset + length (u8 <$> take (Z.to_nat i) data))%nat by lia.
    rewrite splice_snoc by lia. replace (Z.to_nat (i + 1)) with (S (Z.to_nat i)) by lia.
    rewrite (take_S_r _ _ _ Hc), fmap_app. by destruct s.
  - intros s' ->. rewrite Nat2Z.id, firstn_all. exact HQ.
Qed.

(** The bytes a write of [size] bytes stores. *)
Definition bytes_written (f : file64) (buf : list Z) (size : Z) : list Z :=
  take (Z.to_nat (Z.min size (256 - f64_offset f))) buf.

Definition writable (f : file64) : bool := Z.testbit (f64_flags f) 0.

Definition write_post (s : vfs64) (fd : Z) (buffer : option (list Z)) (size : Z) (r : Z) (s' : vfs64) : Prop :=
  match buffer with
  | None => r = X86_64_VFS_RET_EINVAL /\ s' = s
  | Some buf =>
      match file64_at s fd with
      | Some f =>
          if writable f then
            let put := bytes_written f buf size in
            r = Z.of_nat (length put) /\
            session_storage s' = splice (session_storage s) (Z.to_nat (f64_offset f)) (u8 <$> put) /\
            session_storage_size s' = (if decide (put = []) then session_storage_size s
                                       else Z.max (session_storage_size s) (f64_offset f + Z.of_nat (length put))) /\
            (forall j, slot_file (v_state s') j = slot_update (v_state s) (Z.to_nat (fd - 3))
               (Some {| f64_flags := f64_flags f; f64_index := f64_index f;
                        f64_offset := f64_offset f + Z.of_nat (length put) |}) j)
          else r = X86_64_VFS_RET_EBADF /\ s' = s
      | None => r = X86_64_VFS_RET_EBADF /\ s' = s
      end
  end.

Lemma write_ok s fd buffer size :
  vfs64_ok s -> is_u64 fd -> is_u64 size -> match buffer with Some buf => Z.min size 256 <= Z.of_nat (length buf) | None => True end ->
  wp (x86_64_vfs_write fd buffer size) (fun r s' => vfs64_ok s' /\ write_post s fd buffer size r s') s.
Proof using.
  intros Hok Hf Hs Hb. unfold x86_64_vfs_write, write_post. destruct buffer as [buf|]; [|by wp_step].
  wp_step. apply fd_open_slot_ok; [done|done|]. destruct (file64_at s fd) as [f|] eqn:Ef; [|by wp_step].
  destruct (file64_at_lookups s fd f Hok Ef) as (Hr & E1 & E2 & E3 & E4 & Hfo).
  pose proof Hfo as (Hi & Hfl & Hsess & Hoff).
  wp_step. wp_step. wp_step. eapply wp_array_at; [exact E2|].
  change X86_64_VFS_OPEN_WRITE with (2 ^ 0). rewrite flags_bit by lia. unfold writable.
  destruct (Z.testbit (f64_flags f) 0) eqn:Ew; cbn [negb]; [|by wp_step].
  assert (Ei : f64_index f = session_index) by (apply Hsess; intros E0; by rewrite E0 in Ew).
  wp_step. eapply wp_array_at; [exact E3|]. rewrite Ei. wp_step. cbn [negb].
  change (X86_64_VFS_NODE_COUNT <=? session_index) with false. cbv iota. wp_step.
  eapply wp_array_at; [reflexivity|]. wp_step.
  change (negb (x86_64_vfs_is_session_storage_node _)) with false. cbv iota. wp_step. eapply wp_array_at; [exact E4|].
  assert (Hlim : offset_limit (f64_index f) = 256) by (by rewrite Ei).
  set (off := f64_offset f) in *. set (put := bytes_written f buf size).
  assert (Hput : Z.of_nat (length put) = Z.min size (256 - off)).
  { unfold put, bytes_written. rewrite length_take. fold off. unfold is_u64 in *. lia. }
  unfold X86_64_VFS_RAM_FILE_BYTES, is_u64 in *.
  destruct ((256 <=? off) || (size =? 0)) eqn:Ez.
  - assert (Hg : put = []) by (apply length_zero_iff_nil; apply orb_true_iff in Ez as [Ez|Ez]; bool_simpl; lia).
    wp_step. split; [done|]. rewrite Hg. cbn [length fmap list_fmap decide]. split; [done|]. split; [|split; [done|]].
    + unfold splice. cbn [length app]. by rewrite Nat.add_0_r, take_drop.
    + change (Z.of_nat 0) with 0. unfold off. rewrite <- Ei, file64_eta. by apply slot_update_same.
  - apply orb_false_iff in Ez as [Ez1 Ez2]. bool_simpl. rewrite u64_small by (unfold is_u64; lia).
    replace (if size <? 256 - off then size else 256 - off) with (Z.of_nat (length put)).
    2:{ destruct (Z.ltb_spec size (256 - off)); lia. }
    wp_step. eapply write_loop_ok; [lia|apply prefix_take|apply (vo_storage s Hok)|lia|].
    rewrite u64_small by (unfold is_u64; lia).
    set (s1 := s <| session_storage := _ |>).
    assert (Hok1 : vfs64_ok s1).
    { destruct Hok. constructor; unfold s1; get_set; try done. rewrite splice_length; [done|]. rewrite length_fmap. lia. }
    wp_step. eapply (fd_offset_put_ok s1 fd f); [done|done|lia|]. intros s2 Hok2 H1 H2 H3 H4. wp_step. wp_step. wp_step.
    assert (Hne : put <> []) by (intros E; rewrite E in Hput; cbn in Hput; lia).
    destruct (decide (put = [])) as [|_]; [done|]. rewrite Ei in H4.
    split.
    + destruct Hok2. constructor; get_set; try done. rewrite H2. unfold s1. get_set. pose proof (vo_size s Hok).
      destruct (Z.ltb_spec (session_storage_size s) (off + Z.of_nat (length put))); lia.
    + get_set. rewrite H1, H2. unfold s1. get_set. split; [done|]. split; [done|]. split; [|done].
      destruct (Z.ltb_spec (session_storage_size s) (off + Z.of_nat (length put))); lia.
Qed.

(** ** Status calls *)

Lemma stat_ok s path :
  vfs64_ok s ->
  wp (x86_64_vfs_stat user_image (Some path) true) (fun r s' => s' = s /\
    match x86_64_vfs_nodes !! Z.to_nat (path_index path) with
    | Some node => r = (X86_64_VFS_RET_OK, Some (Z.of_nat (length (node_bytes s node))))
    | None => r = (X86_64_VFS_RET_ENOENT, None)
    end) s.
Proof using.
  intros Hok. unfold x86_64_vfs_stat. cbn [negb]. wp_step. eapply wp_mono; [apply find_node_ok|]. intros idx s0 [-> ->]. cbv beta.
  fold (path_index path). destruct (Z.eqb_spec (path_index path) X86_64_VFS_NO_NODE) as [E|E].
  - wp_step. split; [done|]. rewrite E. rewrite lookup_ge_None_2; [done|]. apply Nat2Z.inj_le. rewrite Z2Nat.id; by vm_compute.
  - destruct (path_index_node path E) as (Hr & node & En). wp_step. eapply wp_array_at; [exact En|]. wp_step.
    eapply node_size_ok; [done|exact En|]. wp_step. by rewrite En.
Qed.
End Contracts.
