(* ===== verification/Vfs64Theorems.v ===== *)
(** * The file system of the 64-bit kernel: theorems *)
From S2P Require Import Prelude Word64 KString Vfs Vfs64 Vfs64Paths Vfs64Proofs.

(** A table with no open files and an empty RAM file, and programs of 100 bytes. *)
Definition sample_images64 (i : user_image64) : list Z := replicate 100 7.
Definition vfs64_blank : vfs64 :=
  {| v_state := {| v64_initialized := false; fd_used := replicate 4 false; fd_flags := replicate 4 0;
                   fd_node_index := replicate 4 0; fd_offset := replicate 4 0 |};
     session_storage := replicate 256 0; session_storage_size := 0 |}.
Definition vfs64_sample : vfs64 := final x86_64_vfs_init vfs64_blank.

Lemma sample_images_small i : Z.of_nat (length (sample_images64 i)) < 4294967296.
Proof. unfold sample_images64. rewrite length_replicate. lia. Qed.

Lemma vfs64_init_ok images st storage size :
  length (fd_used st) = 4%nat -> length (fd_flags st) = 4%nat -> length (fd_node_index st) = 4%nat ->
  length (fd_offset st) = 4%nat -> length storage = 256%nat -> 0 <= size <= 256 ->
  wp x86_64_vfs_init (fun _ s' => vfs64_ok images s' /\ (forall fd, file64_at s' fd = None) /\ v64_initialized (v_state s') = true)
     {| v_state := st; session_storage := storage; session_storage_size := size |}.
Proof.
  intros H1 H2 H3 H4 H5 H6. destruct st as [i l1 l2 l3 l4]. cbn in H1, H2, H3, H4.
  do 4 (destruct l1 as [|? l1]; [done|]). destruct l1; [|done]. do 4 (destruct l2 as [|? l2]; [done|]). destruct l2; [|done].
  do 4 (destruct l3 as [|? l3]; [done|]). destruct l3; [|done]. do 4 (destruct l4 as [|? l4]; [done|]). destruct l4; [|done].
  eexists tt, _. split; [reflexivity|]. cbn [v_state].
  assert (Hs : forall j, slot_file {| v64_initialized := true; fd_used := [false; false; false; false];
    fd_flags := [0; 0; 0; 0]; fd_node_index := [X86_64_VFS_NO_NODE; X86_64_VFS_NO_NODE; X86_64_VFS_NO_NODE; X86_64_VFS_NO_NODE];
    fd_offset := [0; 0; 0; 0] |} j = None) by (intros j; do 4 (destruct j as [|j]; [done|]); done).
  split; [constructor; try done; intros j f; cbn; intros E; by rewrite Hs in E|].
  split; [|done]. intros fd. unfold file64_at. destruct (fd <? 3); [done|]. apply Hs.
Qed.

Lemma vfs64_sample_ok : vfs64_ok sample_images64 vfs64_sample.
Proof.
  destruct (vfs64_init_ok sample_images64 (v_state vfs64_blank) (session_storage vfs64_blank) 0) as ([] & s' & E & H & _);
    [done..|lia|]. unfold vfs64_sample, final. change vfs64_blank with {| v_state := v_state vfs64_blank;
    session_storage := session_storage vfs64_blank; session_storage_size := 0 |}. by rewrite E.
Qed.

(** C18: [x86_64_vfs_normalize_path] never writes outside its 64 bytes and returns
    for every path. It fails exactly on paths that do not start with '/' or have 64
    characters or more, and otherwise leaves the text that the reference
    [normalized_text] computes from the segments of the path. *)
Theorem vfs64_normalize_path {S} (path normalized : list Z) (s : S) (Hn : length normalized = 64%nat) :
  wp (x86_64_vfs_normalize_path path normalized) (fun r s' => s' = s /\
    if (char_at path 0 =? 47) && (Z.of_nat (length (cstr path)) <? 64)
    then exists normalized', r = Some normalized' /\ length normalized' = 64%nat /\ cstr normalized' = normalized_text path
    else r = None) s.
Proof.
  eapply wp_mono; [by apply normalize_path_spec|]. intros r s' [-> H]. split; [done|].
  destruct (_ && _); [|done]. destruct H as (n & -> & H1 & H2 & _). by exists n.
Qed.

Lemma vfs64_normalize_path_witness :
  wp (x86_64_vfs_normalize_path (str "//usr/./share/") (replicate 64 9)) (fun r s' => s' = tt /\
    exists normalized', r = Some normalized' /\ length normalized' = 64%nat /\ cstr normalized' = str "/usr/share") tt.
Proof. exact (vfs64_normalize_path (str "//usr/./share/") (replicate 64 9) tt eq_refl). Defined.

(** A path below 64 characters in which ".." never leaves a directory that is
    itself inside another one names the node with the canonical path, if there is
    one, and no node otherwise. *)
Theorem vfs64_find_node_canonical {S} (path : list Z) (s : S)
    (Hroot : char_at path 0 = 47) (Hlen : Z.of_nat (length (cstr path)) < 64)
    (Hsh : shallow 0 (segments path) = true) :
  wp (x86_64_vfs_find_node path) (fun r s' => s' = s /\ r = node_index_of (canonical_text path)) s.
Proof.
  eapply wp_mono; [apply find_node_ok|]. intros r s' [-> ->]. split; [done|].
  rewrite Hroot. change (47 =? 47) with true. rewrite (proj2 (Z.ltb_lt _ 64)) by lia. cbn [andb].
  by rewrite shallow_canonical.
Qed.

Lemma vfs64_find_node_canonical_witness :
  wp (x86_64_vfs_find_node (str "/usr/../bin/./hello")) (fun r s' => s' = tt /\ r = 10) tt.
Proof.
  apply (vfs64_find_node_canonical (str "/usr/../bin/./hello") tt).
  - reflexivity.
  - vm_compute. reflexivity.
  - reflexivity.
Defined.

(** ".." inside a directory of the second level leaves its '/' behind, so that
    the next name follows an empty one: the path /usr/share/../share/help.txt names a
    node that exists, and opening it fails with ENOENT. *)
Theorem vfs64_dotdot_loses_node s (Hok : vfs64_ok sample_images64 s) :
  let path := str "/usr/share/../share/help.txt" in
  canonical_text path = str "/usr/share/help.txt" /\ node_index_of (canonical_text path) = 22 /\
  wp (x86_64_vfs_open (Some path) 0) (fun r s' => r = X86_64_VFS_RET_ENOENT /\ s' = s) s.
Proof.
  intros path. split; [reflexivity|]. split; [reflexivity|].
  eapply wp_mono; [apply (open_ok sample_images64); [done|done]|]. intros r s' [_ H]. exact H.
Qed.

Lemma vfs64_dotdot_loses_node_witness :
  wp (x86_64_vfs_open (Some (str "/usr/share/../share/help.txt")) 0)
     (fun r s' => r = X86_64_VFS_RET_ENOENT /\ s' = vfs64_sample) vfs64_sample.
Proof. apply (vfs64_dotdot_loses_node vfs64_sample vfs64_sample_ok). Defined.

(** The self test [x86_64_vfs_ready] answers 0 in every state: it expects the
    listing of /bin to start with "hello", and it starts with "datatest". *)
Theorem vfs64_ready_never images s : fst <$> x86_64_vfs_ready images s = Some false.
Proof. destruct s as [[[] u fl ix off] st sz]; vm_compute; reflexivity. Qed.

(** ** Sequences of calls *)

(** The calls a client makes; a buffer for reading is fresh. *)
Inductive vfs64_call :=
  | COpen (path : option (list Z)) (flags : Z)
  | CRead (fd size : Z) (buffer : option (list Z))
  | CWrite (fd size : Z) (buffer : option (list Z))
  | CClose (fd : Z)
  | CStat (path : list Z).

Definition call64_ok (c : vfs64_call) : Prop :=
  match c with
  | COpen _ flags => is_u64 flags
  | CRead fd size b | CWrite fd size b =>
      is_u64 fd /\ is_u64 size /\ match b with Some buf => size <= Z.of_nat (length buf) | None => True end
  | CClose fd => is_u64 fd
  | CStat _ => True
  end.

Definition vfs64_perform (images : user_image64 -> list Z) (c : vfs64_call) : V64 Z :=
  match c with
  | COpen path flags => x86_64_vfs_open path flags
  | CRead fd size b => r <- x86_64_vfs_read images fd b size ;; mret_ (fst r)
  | CWrite fd size b => x86_64_vfs_write fd b size
  | CClose fd => x86_64_vfs_close fd
  | CStat path => r <- x86_64_vfs_stat images (Some path) true ;; mret_ (fst r)
  end.

Fixpoint vfs64_run (images : user_image64 -> list Z) (cs : list vfs64_call) : V64 (list Z) :=
  match cs with
  | [] => mret_ []
  | c :: cs => r <- vfs64_perform images c ;; rs <- vfs64_run images cs ;; mret_ (r :: rs)
  end.

Lemma calls_safe images cs s
    (Himg : forall i, Z.of_nat (length (images i)) < 4294967296)
    (Hok : vfs64_ok images s) (Hcs : Forall call64_ok cs) :
  wp (vfs64_run images cs) (fun rs s' => vfs64_ok images s' /\ length rs = length cs) s.
Proof.
  revert s Hok. induction Hcs as [|c cs Hc _ IH]; intros s Hok; [by apply wp_ret|]. cbn [vfs64_run].
  wp_step. assert (H1 : wp (vfs64_perform images c) (fun _ s' => vfs64_ok images s') s).
  { destruct c; cbn in *.
    - eapply wp_mono; [by apply (open_ok images)|]. naive_solver.
    - destruct Hc as (? & ? & ?). wp_step. eapply wp_mono; [by apply (read_ok images)|]. intros r s' [Hr _]. by wp_step.
    - destruct Hc as (? & ? & ?). eapply wp_mono; [apply (write_ok images); [done..|]; case_match; [lia|done]|]. naive_solver.
    - eapply wp_mono; [by apply (close_ok images)|]. naive_solver.
    - wp_step. eapply wp_mono; [by apply (stat_ok images)|]. intros r s' [-> _]. by wp_step. }
  eapply wp_mono; [exact H1|]. intros r s1 Hok1. wp_step. eapply wp_mono; [by apply IH|].
  intros rs s2 [Hok2 Hl]. wp_step. split; [done|]. cbn. by rewrite Hl.
Qed.

(** C28: whatever a client calls and in whatever order, with any path, descriptor,
    flags and size: every call returns, no array is left, the table stays well formed
    (every open file has a node, only the RAM file is open for writing, no offset is
    past the end of what the file can hold) and the RAM file stays within its 256
    bytes. *)
Theorem vfs64_calls_safe images cs s
    (Himg : forall i, Z.of_nat (length (images i)) < 4294967296)
    (Hok : vfs64_ok images s) (Hcs : Forall call64_ok cs) :
  wp (vfs64_run images cs) (fun rs s' => vfs64_ok images s' /\ length rs = length cs) s.
Proof. by apply calls_safe. Qed.

Definition sample_calls : list vfs64_call :=
  [ COpen (Some (str "/tmp/session.txt")) 7; CWrite 3 2 (Some [65; 66]); COpen (Some (str "/bin")) 1; CRead 3 4 (Some [0; 0; 0; 0]);
    CClose 3; CClose 3; CStat (str "/bin/hello") ].

Lemma vfs64_calls_safe_witness :
  fst <$> vfs64_run sample_images64 sample_calls vfs64_sample
    = Some [3; 2; X86_64_VFS_RET_EINVAL; 0; 0; X86_64_VFS_RET_EBADF; 0] /\
  wp (vfs64_run sample_images64 sample_calls) (fun rs s' => vfs64_ok sample_images64 s' /\ length rs = length sample_calls) vfs64_sample.
Proof.
  split; [vm_compute; reflexivity|]. apply (vfs64_calls_safe sample_images64 sample_calls vfs64_sample sample_images_small).
  - exact vfs64_sample_ok.
  - unfold is_u64. repeat constructor; cbn; lia.
Defined.

(** ** Round trip *)

(** Writing the RAM file: open with truncation, write, close. *)
Definition session_store (data : list Z) : V64 unit :=
  fd <- x86_64_vfs_open (Some (str "/tmp/session.txt")) 7 ;;
  x86_64_vfs_write fd (Some data) (Z.of_nat (length data)) ;;;
  x86_64_vfs_close fd ;;;
  mret_ tt.

(** Reading it: open, read, close; the result is what was read. *)
Definition session_load (images : user_image64 -> list Z) (buffer : list Z) : V64 (list Z) :=
  fd <- x86_64_vfs_open (Some (str "/tmp/session.txt")) 0 ;;
  r <- x86_64_vfs_read images fd (Some buffer) (Z.of_nat (length buffer)) ;;
  x86_64_vfs_close fd ;;;
  mret_ (take (Z.to_nat (fst r)) (default [] (snd r))).

Lemma splice_front l data : (length data <= length l)%nat -> take (length data) (splice l 0 data) = data.
Proof. intros H. unfold splice. by rewrite take_0, app_nil_l, take_app_length. Qed.

Lemma fmap_u8 data : Forall (fun b => 0 <= b < 256) data -> u8 <$> data = data.
Proof.
  induction 1 as [|b data Hb _ IH]; [done|]. cbn. f_equal; [|exact IH]. unfold u8. rewrite Z.mod_small; lia.
Qed.

(** The first half: the RAM file holds the data and the slot is free again. *)
Lemma store_ok images s k data (Q : unit -> vfs64 -> Prop) :
  vfs64_ok images s -> free_slot64 s = Some k -> (length data <= 256)%nat -> Forall (fun b => 0 <= b < 256) data ->
  (forall s', vfs64_ok images s' -> take (Z.to_nat (session_storage_size s')) (session_storage s') = data ->
     (exists k', free_slot64 s' = Some k') -> Q tt s') ->
  wp (session_store data) Q s.
Proof.
  intros Hok Hk Hlen Hb HQ. unfold session_store. wp_step. eapply wp_mono; [by apply (open_ok images)|]. intros fd s1 [Hok1 H1].
  cbv [open_post] in H1. change (path_index _) with 20 in H1. cbn [Z.eqb Pos.eqb Z.leb Z.compare Pos.compare Pos.compare_cont orb negb andb] in H1.
  rewrite Hk in H1. destruct H1 as (-> & Hk4 & Hst1 & Hsz1 & Hsl1). change (session_storage_size (truncated 7 s)) with 0 in Hsz1.
  assert (Hf1 : file64_at s1 (3 + Z.of_nat k) = Some {| f64_flags := 7; f64_index := 20; f64_offset := 0 |}).
  { unfold file64_at. rewrite (proj2 (Z.ltb_ge _ 3)) by lia. replace (Z.to_nat (3 + Z.of_nat k - 3)) with k by lia.
    rewrite Hsl1. unfold slot_update. by rewrite decide_True. }
  wp_step. eapply wp_mono; [apply (write_ok images); [done|unfold is_u64; lia|unfold is_u64; lia|cbn; lia]|].
  intros n s2 [Hok2 H2]. unfold write_post in H2. rewrite Hf1 in H2. change (writable _) with true in H2. cbv iota zeta in H2.
  assert (Hw : bytes_written {| f64_flags := 7; f64_index := 20; f64_offset := 0 |} data (Z.of_nat (length data)) = data).
  { unfold bytes_written. cbn [f64_offset]. apply take_ge. lia. }
  rewrite Hw in H2. cbn [f64_offset f64_flags f64_index] in H2. destruct H2 as (_ & Hst2 & Hsz2 & Hsl2). rewrite Hsz1, Hst1 in *.
  wp_step. eapply wp_mono; [apply (close_ok images); [done|unfold is_u64; lia]|].
  intros r s3 [Hok3 H3]. unfold close_post in H3.
  assert (Hf2 : file64_at s2 (3 + Z.of_nat k) <> None).
  { unfold file64_at. rewrite (proj2 (Z.ltb_ge _ 3)) by lia. rewrite Hsl2. unfold slot_update. by rewrite decide_True. }
  destruct (file64_at s2 (3 + Z.of_nat k)); [|done]. destruct H3 as (_ & Hst3 & Hsz3 & Hsl3). wp_step. apply HQ; [done| |].
  - rewrite Hst3, Hsz3, Hst2, Hsz2, fmap_u8 by done.
    destruct (decide (data = [])) as [->|Hne]; [done|]. rewrite Z.max_r, Z.add_0_l, Nat2Z.id by lia.
    change (Z.to_nat 0) with 0%nat. apply splice_front. rewrite (vo_storage _ _ Hok). lia.
  - unfold free_slot64. destruct (list_find (fun u => u = false) (fd_used (v_state s3))) as [[i u]|] eqn:E; [by eexists|].
    exfalso. apply list_find_None in E.
    assert (Hn : slot_file (v_state s3) k = None).
    { rewrite Hsl3. unfold slot_update. rewrite decide_True; [done|lia]. }
    destruct Hok3. unfold slot_file in Hn.
    destruct (lookup_lt_is_Some_2 (fd_used (v_state s3)) k) as [u Eu]; [lia|]. rewrite Eu in Hn.
    destruct (lookup_lt_is_Some_2 (fd_flags (v_state s3)) k) as [a Ea]; [lia|]. rewrite Ea in Hn.
    destruct (lookup_lt_is_Some_2 (fd_node_index (v_state s3)) k) as [b Eb]; [lia|]. rewrite Eb in Hn.
    destruct (lookup_lt_is_Some_2 (fd_offset (v_state s3)) k) as [c Ec]; [lia|]. rewrite Ec in Hn.
    rewrite Forall_lookup in E. apply E in Eu. by destruct u.
Qed.

Lemma load_ok images s k buffer :
  (forall i, Z.of_nat (length (images i)) < 4294967296) -> vfs64_ok images s -> free_slot64 s = Some k ->
  Z.of_nat (length buffer) < 4294967296 ->
  wp (session_load images buffer) (fun r s' =>
    r = take (length buffer) (take (Z.to_nat (session_storage_size s)) (session_storage s)) /\ vfs64_ok images s') s.
Proof.
  intros Himg Hok Hk Hbuf. unfold session_load. wp_step. eapply wp_mono; [by apply (open_ok images)|]. intros fd s1 [Hok1 H1].
  cbv [open_post] in H1. change (path_index _) with 20 in H1. cbn [Z.eqb Pos.eqb Z.leb Z.compare Pos.compare Pos.compare_cont orb negb andb] in H1.
  rewrite Hk in H1. destruct H1 as (-> & Hk4 & Hst1 & Hsz1 & Hsl1). change (truncated 0 s) with s in Hsz1.
  assert (Hf1 : file64_at s1 (3 + Z.of_nat k) = Some {| f64_flags := 0; f64_index := 20; f64_offset := 0 |}).
  { unfold file64_at. rewrite (proj2 (Z.ltb_ge _ 3)) by lia. replace (Z.to_nat (3 + Z.of_nat k - 3)) with k by lia.
    rewrite Hsl1. unfold slot_update. by rewrite decide_True. }
  wp_step. eapply wp_mono; [apply (read_ok images); [done|done|unfold is_u64; lia|unfold is_u64; lia|cbn; lia]|].
  intros r s2 [Hok2 H2]. unfold read_post in H2. rewrite Hf1 in H2. destruct H2 as (-> & _).
  wp_step. eapply wp_mono; [apply (close_ok images); [done|unfold is_u64; lia]|]. intros c s3 [Hok3 _]. wp_step.
  split; [|done]. cbn [fst snd]. change (default [] (Some ?x)) with x. rewrite Nat2Z.id, take_app_length.
  unfold bytes_read. cbn [f64_index f64_offset]. change (x86_64_vfs_nodes !! Z.to_nat 20) with (Some
    {| n64_path := str "/tmp/session.txt"; n64_data := DNull; n64_size := 0; n64_type := X86_64_VFS_NODE_FILE |}).
  cbv iota. unfold node_bytes. cbn [n64_data]. rewrite Nat2Z.id, Hst1, Hsz1. done.
Qed.

(** C40: what a process stores in /tmp/session.txt it reads back: up to 256 bytes of
    data, written through a descriptor opened with truncation and read through a
    second one into a buffer at least as long, come back as they were. *)
Theorem vfs64_store_load images s k data buffer
    (Himg : forall i, Z.of_nat (length (images i)) < 4294967296)
    (Hok : vfs64_ok images s) (Hk : free_slot64 s = Some k) (Hlen : (length data <= 256)%nat)
    (Hb : Forall (fun b => 0 <= b < 256) data) (Hbuf : (length data <= length buffer)%nat)
    (Hbuf2 : Z.of_nat (length buffer) < 4294967296) :
  wp (session_store data ;;; session_load images buffer) (fun r s' => r = data /\ vfs64_ok images s') s.
Proof.
  wp_step. eapply store_ok; [done|done|done|done|]. intros s1 Hok1 Hd [k' Hk'].
  eapply wp_mono; [by eapply load_ok|]. intros r s2 [-> Hok2]. split; [|done]. rewrite Hd. apply take_ge. lia.
Qed.

Lemma vfs64_store_load_witness :
  wp (session_store [104; 105] ;;; session_load sample_images64 (replicate 16 0))
     (fun r s' => r = [104; 105] /\ vfs64_ok sample_images64 s') vfs64_sample.
Proof.
  apply (vfs64_store_load sample_images64 vfs64_sample 0 [104; 105] (replicate 16 0) sample_images_small).
  - exact vfs64_sample_ok.
  - reflexivity.
  - cbn. lia.
  - repeat constructor; lia.
  - cbn. lia.
  - cbn. lia.
Defined.

(** Opening with the truncate flag empties the RAM file before a descriptor is
    looked for: with the table full the call fails with EINVAL and the contents are
    gone. *)
Theorem vfs64_failed_open_truncates images s
    (Hok : vfs64_ok images s) (Hfull : free_slot64 s = None) :
  wp (x86_64_vfs_open (Some (str "/tmp/session.txt")) X86_64_VFS_OPEN_TRUNCATE)
     (fun r s' => r = X86_64_VFS_RET_EINVAL /\ session_storage_size s' = 0) s.
Proof.
  eapply wp_mono; [by apply (open_ok images)|]. intros r s' [_ H].
  cbv [open_post] in H. change (path_index _) with 20 in H.
  cbn [Z.eqb Pos.eqb Z.leb Z.compare Pos.compare Pos.compare_cont orb negb andb] in H. rewrite Hfull in H.
  destruct H as [-> ->]. done.
Qed.

Definition vfs64_full : vfs64 :=
  final (vfs64_run sample_images64 [COpen (Some (str "/tmp/session.txt")) 1; CWrite 3 2 (Some [65; 66]); COpen (Some (str "/")) 0;
    COpen (Some (str "/")) 0; COpen (Some (str "/")) 0]) vfs64_sample.

Lemma vfs64_full_ok : vfs64_ok sample_images64 vfs64_full.
Proof.
  destruct (calls_safe sample_images64 [COpen (Some (str "/tmp/session.txt")) 1; CWrite 3 2 (Some [65; 66]); COpen (Some (str "/")) 0;
    COpen (Some (str "/")) 0; COpen (Some (str "/")) 0] vfs64_sample sample_images_small vfs64_sample_ok) as (rs & s' & E & H & _).
  { unfold is_u64. repeat constructor; cbn; lia. }
  unfold vfs64_full, final. by rewrite E.
Qed.

Lemma vfs64_failed_open_truncates_witness :
  session_storage_size vfs64_full = 2 /\
  wp (x86_64_vfs_open (Some (str "/tmp/session.txt")) X86_64_VFS_OPEN_TRUNCATE)
     (fun r s' => r = X86_64_VFS_RET_EINVAL /\ session_storage_size s' = 0) vfs64_full.
Proof.
  split; [vm_compute; reflexivity|]. apply (vfs64_failed_open_truncates sample_images64 vfs64_full vfs64_full_ok).
  vm_compute. reflexivity.
Defined.

(** Truncation leaves the old bytes in place: a second writer that was already
    further in the file makes them part of the file again. *)
Theorem vfs64_truncated_bytes_return :
  let calls := [ COpen (Some (str "/tmp/session.txt")) 1; CWrite 3 3 (Some [65; 66; 67]);
                 COpen (Some (str "/tmp/session.txt")) 5; CWrite 3 1 (Some [68]) ] in
  let s := final (vfs64_run sample_images64 calls) vfs64_sample in
  fst <$> session_load sample_images64 (replicate 8 0) s = Some [65; 66; 67; 68].
Proof. vm_compute. reflexivity. Qed.
