(* ===== verification/Heap64.v ===== *)
(** * The early heap of the 64-bit kernel (arch/x86_64/heap.c)

    A bump allocator over 96 frames that are reached through the direct map.
    Offsets count through the frames in the order they were allocated. *)
From S2P Require Import Prelude Word64 Mem Pmm64.

Definition X86_64_EARLY_HEAP_PAGES := 96.
Definition X86_64_HEAP_ALIGNMENT_DEFAULT := 16.
Definition X86_64_HEAP_INVALID_INDEX := 0xFFFFFFFF.
Definition X86_64_HEAP_PATTERN_A := 0xA5.
Definition X86_64_HEAP_PATTERN_B := 0x5A.

Record x86_64_heap_state := {
  hs_initialized : bool;
  hs_pmm_backed : bool;
  hs_direct_map_ok : bool;
  hs_heap_pages : Z;
  hs_allocations : Z;
  hs_alignment_ok : bool;
  hs_pattern_ok : bool;
  hs_smoke_ok : bool;
  hs_pmm_free_pages_before : Z;
  hs_pmm_free_pages_after : Z;
  hs_heap_bytes : Z;
  hs_used_bytes : Z;
  hs_first_physical_page : Z;
  hs_last_physical_page : Z;
  hs_first_virtual_page : Z;
  hs_last_virtual_page : Z;
  hs_first_allocation : Z;
  hs_second_allocation : Z
}.
#[export] Instance eta_x86_64_heap_state : Settable x86_64_heap_state := fun s =>
  Build_x86_64_heap_state (hs_initialized s) (hs_pmm_backed s) (hs_direct_map_ok s) (hs_heap_pages s) (hs_allocations s)
    (hs_alignment_ok s) (hs_pattern_ok s) (hs_smoke_ok s) (hs_pmm_free_pages_before s) (hs_pmm_free_pages_after s)
    (hs_heap_bytes s) (hs_used_bytes s) (hs_first_physical_page s) (hs_last_physical_page s) (hs_first_virtual_page s)
    (hs_last_virtual_page s) (hs_first_allocation s) (hs_second_allocation s).

Definition heap64_zero : x86_64_heap_state :=
  Build_x86_64_heap_state false false false 0 0 false false false 0 0 0 0 0 0 0 0 0 0.

(** [h64_mem] is the memory at its virtual addresses. *)
Record heap64 := {
  h64_pmm : pmm64;
  heap64_state : x86_64_heap_state;
  heap_physical_pages : list Z;
  heap_virtual_pages : list Z;
  heap_next_offset : Z;
  h64_mem : mem
}.
#[export] Instance eta_heap64 : Settable heap64 := fun s =>
  Build_heap64 (h64_pmm s) (heap64_state s) (heap_physical_pages s) (heap_virtual_pages s) (heap_next_offset s) (h64_mem s).

Abbreviation H64 := (M heap64).

Definition h64_zoom {A} (m : M pmm64 A) : H64 A := mzoom h64_pmm (fun p s => s <| h64_pmm := p |>) m.
Definition h64_mod (f : x86_64_heap_state -> x86_64_heap_state) : H64 unit := mmod (fun s => s <| heap64_state ::= f |>).

(** [clear_bytes] on memory is [fill_pattern] with 0. *)
Definition fill_pattern (ptr size pattern : Z) : H64 unit :=
  mfor (seqZ 0 size) (fun i => mmod (fun s => s <| h64_mem ::= store8 (ptr [++] i) pattern |>)).

Definition align_up_u64 (value alignment : Z) : Z := Z.land (value [++] alignment [--] 1) (not64 (alignment [--] 1)).
Definition is_power_of_two (value : Z) : bool := negb (value =? 0) && (Z.land value (value [--] 1) =? 0).
Definition is_aligned64 (value alignment : Z) : bool := Z.land value (alignment [--] 1) =? 0.

Definition page_index_for_offset (offset : Z) : Z :=
  let index := offset / X86_64_PAGE_SIZE in
  if X86_64_EARLY_HEAP_PAGES <=? index then X86_64_HEAP_INVALID_INDEX else u32 index.

Definition virtual_for_offset (offset : Z) : H64 Z :=
  let page_index := page_index_for_offset offset in
  if page_index =? X86_64_HEAP_INVALID_INDEX then mret_ 0
  else
    pages <- mget heap_virtual_pages ;;
    page <- array_at pages page_index ;;
    mret_ (page [++] Z.land offset (X86_64_PAGE_SIZE - 1)).

Definition verify_pattern (ptr size pattern : Z) : H64 bool :=
  m <- mget h64_mem ;;
  r <- mfor_ret (seqZ 0 size) (fun i =>
    mret_ (if negb (load8 m (ptr [++] i) =? pattern) then Some tt else None)) ;;
  mret_ (match r with Some _ => false | None => true end).

Definition heap_pages_are_available : H64 bool :=
  physical <- mget heap_physical_pages ;;
  virtual <- mget heap_virtual_pages ;;
  r <- mfor_ret (seqZ 0 X86_64_EARLY_HEAP_PAGES) (fun i =>
    p <- array_at physical i ;;
    v <- array_at virtual i ;;
    mret_ (if (p =? X86_64_PMM_INVALID_PAGE) || (v =? 0) then Some tt else None)) ;;
  mret_ (match r with Some _ => false | None => true end).

(** [heap_physical_pages[i] = physical; heap_virtual_pages[i] = virtual] *)
Definition heap_page_put (i physical virtual : Z) : H64 unit :=
  ps <- mget heap_physical_pages ;;
  vs <- mget heap_virtual_pages ;;
  ps' <- array_put ps i physical ;;
  vs' <- array_put vs i virtual ;;
  mmod (fun s => s <| heap_physical_pages := ps' |> <| heap_virtual_pages := vs' |>).

Definition rollback_heap_pages (allocated_pages : Z) : H64 unit :=
  mfor (seqZ 0 allocated_pages) (fun i =>
    ps <- mget heap_physical_pages ;;
    p <- array_at ps i ;;
    mwhen (negb (p =? X86_64_PMM_INVALID_PAGE))
      (h64_zoom (x86_64_pmm_free_page p) ;;; heap_page_put i X86_64_PMM_INVALID_PAGE 0)).

(** The loop of [x86_64_heap_init] over the pages; [Some] is the return after a
    failed allocation. In iteration [i] the count [allocated_pages] is [i]. *)
Definition heap_init_page (direct_map_base i : Z) : H64 (option unit) :=
  page <- h64_zoom x86_64_pmm_alloc_page ;;
  if page =? X86_64_PMM_INVALID_PAGE then
    rollback_heap_pages i ;;;
    p <- mget h64_pmm ;;
    h64_mod (fun st => st <| hs_pmm_free_pages_after := pm_free_pages (pmm64_state p) |>) ;;;
    mret_ (Some tt)
  else
    heap_page_put i page (direct_map_base [++] page) ;;;
    fill_pattern (direct_map_base [++] page) X86_64_PAGE_SIZE 0 ;;;
    mret_ None.

Definition heap_init_finish (direct_map_canonical : bool) (direct_map_bytes : Z) : H64 unit :=
  p <- mget h64_pmm ;;
  ps <- mget heap_physical_pages ;;
  vs <- mget heap_virtual_pages ;;
  p0 <- array_at ps 0 ;; pl <- array_at ps (X86_64_EARLY_HEAP_PAGES - 1) ;;
  v0 <- array_at vs 0 ;; vl <- array_at vs (X86_64_EARLY_HEAP_PAGES - 1) ;;
  h64_mod (fun st => st <| hs_pmm_free_pages_after := pm_free_pages (pmm64_state p) |>
    <| hs_first_physical_page := p0 |> <| hs_last_physical_page := pl |>
    <| hs_first_virtual_page := v0 |> <| hs_last_virtual_page := vl |>) ;;;
  backed <- heap_pages_are_available ;;
  h64_mod (fun st => st <| hs_pmm_backed := backed |>) ;;;
  h64_mod (fun st => st <| hs_direct_map_ok := direct_map_canonical && (hs_heap_bytes st <=? direct_map_bytes) |>) ;;;
  h64_mod (fun st => st <| hs_initialized := hs_pmm_backed st && hs_direct_map_ok st |>).

(** Of the plan only the base, size and canonicity of the direct map are used; the
    copy of the state to the caller is left out. *)
Definition x86_64_heap_init (direct_map_base direct_map_bytes : Z) (direct_map_canonical : bool) : H64 unit :=
  mmod (fun s => s <| heap64_state := heap64_zero |>
    <| heap_physical_pages := replicate 96 0 |> <| heap_virtual_pages := replicate 96 0 |> <| heap_next_offset := 0 |>) ;;;
  p <- mget h64_pmm ;;
  h64_mod (fun st => st <| hs_pmm_free_pages_before := pm_free_pages (pmm64_state p) |>
    <| hs_heap_pages := X86_64_EARLY_HEAP_PAGES |>
    <| hs_heap_bytes := X86_64_EARLY_HEAP_PAGES [**] X86_64_PAGE_SIZE |>) ;;;
  failed <- mfor_ret (seqZ 0 X86_64_EARLY_HEAP_PAGES) (heap_init_page direct_map_base) ;;
  match failed with
  | Some _ => mret_ tt
  | None => heap_init_finish direct_map_canonical direct_map_bytes
  end.

Definition x86_64_heap_alloc (size alignment : Z) : H64 Z :=
  st <- mget heap64_state ;;
  if negb (hs_initialized st) || (size =? 0) then mret_ 0
  else
    let effective_alignment := if alignment =? 0 then X86_64_HEAP_ALIGNMENT_DEFAULT else alignment in
    if negb (is_power_of_two effective_alignment) then mret_ 0
    else
      next <- mget heap_next_offset ;;
      let aligned_offset := align_up_u64 next effective_alignment in
      let end_offset := aligned_offset [++] size in
      if (hs_heap_bytes st <? end_offset) || (end_offset <? aligned_offset) then mret_ 0
      else
        allocation <- virtual_for_offset aligned_offset ;;
        if allocation =? 0 then mret_ 0
        else
          mmod (fun s => s <| heap_next_offset := end_offset |>) ;;;
          h64_mod (fun st => st <| hs_used_bytes := end_offset |>) ;;;
          h64_mod (fun st => st <| hs_allocations ::= fun n => n [+] 1 |>) ;;;
          mret_ allocation.

Definition x86_64_heap_run_smoke : H64 unit :=
  first <- x86_64_heap_alloc 64 16 ;;
  second <- x86_64_heap_alloc 128 64 ;;
  h64_mod (fun st => st <| hs_first_allocation := first |> <| hs_second_allocation := second |>
    <| hs_alignment_ok := negb (first =? 0) && negb (second =? 0) && is_aligned64 first 16 && is_aligned64 second 64 |>) ;;;
  mwhen (negb (first =? 0)) (fill_pattern first 64 X86_64_HEAP_PATTERN_A) ;;;
  mwhen (negb (second =? 0)) (fill_pattern second 128 X86_64_HEAP_PATTERN_B) ;;;
  pattern_ok <- (if (first =? 0) || (second =? 0) then mret_ false
                 else
                   a <- verify_pattern first 64 X86_64_HEAP_PATTERN_A ;;
                   if negb a then mret_ false else verify_pattern second 128 X86_64_HEAP_PATTERN_B) ;;
  h64_mod (fun st => st <| hs_pattern_ok := pattern_ok |>) ;;;
  h64_mod (fun st => st <| hs_smoke_ok := hs_initialized st && hs_pmm_backed st && hs_direct_map_ok st &&
    hs_alignment_ok st && hs_pattern_ok st |>).

Definition x86_64_heap_get_state : H64 x86_64_heap_state := mget heap64_state.
