(* ===== verification/Heap64Proofs.v ===== *)
(** * The early heap of the 64-bit kernel: initialization and allocation *)
From S2P Require Import Prelude Word64 Mem Pmm64 Pmm64Proofs Heap64.

Definition direct_map : Z := 0xFFFF800000000000.

(** ** Initialization *)

Lemma wp_h64_zoom {A} (m : M pmm64 A) (Q : A -> heap64 -> Prop) s :
  wp m (fun a p => Q a (s <| h64_pmm := p |>)) (h64_pmm s) -> wp (h64_zoom m) Q s.
Proof. apply (wp_zoom h64_pmm (fun p s => s <| h64_pmm := p |>)). Qed.

Lemma fill_pattern_ok ptr size pattern (Q : unit -> heap64 -> Prop) s :
  (forall m, Q tt (s <| h64_mem := m |>)) -> wp (fill_pattern ptr size pattern) Q s.
Proof.
  intros HQ. unfold fill_pattern.
  apply (wp_for _ _ (fun _ s' => exists m, s' = s <| h64_mem := m |>)).
  - exists (h64_mem s). by destruct s.
  - intros l x r s' _ [m ->]. wp_step. eexists. done.
  - intros s' [m ->]. apply HQ.
Qed.

(** The first [i] pages of the heap are [pages]. *)
Definition heap_has (i : Z) (pages : list Z) (s : heap64) : Prop :=
  length (heap_physical_pages s) = 96%nat /\ length (heap_virtual_pages s) = 96%nat /\ i = Z.of_nat (length pages) /\
  take (length pages) (heap_physical_pages s) = pages /\
  take (length pages) (heap_virtual_pages s) = (fun p => direct_map [++] p) <$> pages.

Lemma heap_page_put_ok s i p v (Q : unit -> heap64 -> Prop) :
  length (heap_physical_pages s) = 96%nat -> length (heap_virtual_pages s) = 96%nat -> 0 <= i < 96 ->
  Q tt (s <| heap_physical_pages := <[Z.to_nat i := p]> (heap_physical_pages s) |>
          <| heap_virtual_pages := <[Z.to_nat i := v]> (heap_virtual_pages s) |>) ->
  wp (heap_page_put i p v) Q s.
Proof.
  intros H1 H2 Hi HQ. unfold heap_page_put. do 5 wp_step. apply wp_array_put; [lia|]. wp_step.
  apply wp_array_put; [lia|]. by wp_step.
Qed.

Lemma heap_has_snoc s i pages page :
  heap_has i pages s -> i < 96 ->
  heap_has (i + 1) (pages ++ [page])
    (s <| heap_physical_pages := <[Z.to_nat i := page]> (heap_physical_pages s) |>
       <| heap_virtual_pages := <[Z.to_nat i := direct_map [++] page]> (heap_virtual_pages s) |>).
Proof.
  intros (H1 & H2 & -> & H3 & H4) Hi. unfold heap_has. get_set. rewrite !length_insert, Nat2Z.id, length_app. cbn [length].
  rewrite Nat.add_1_r, !take_insert_end, H3, H4, fmap_app by lia. repeat split; try done; lia.
Qed.

(** Giving back the pages: all of them are in the allocator again. *)
Lemma rollback_ok all held pages s (Q : unit -> heap64 -> Prop) :
  pmm64_inv all (list_to_set pages ∪ held) (h64_pmm s) -> NoDup pages -> (forall p, p ∈ pages -> p ∉ held) ->
  heap_has (Z.of_nat (length pages)) pages s -> (length pages <= 96)%nat -> (forall p, p ∈ pages -> p <> 0) ->
  (forall s', pmm64_inv all held (h64_pmm s') -> heap64_state s' = heap64_state s -> Q tt s') ->
  wp (rollback_heap_pages (Z.of_nat (length pages))) Q s.
Proof.
  intros Hi Hnd Hdis (H1 & H2 & _ & H3 & H4) Hlen Hz HQ. unfold rollback_heap_pages.
  apply (wp_for_seqZ _ _ (fun i s' => pmm64_inv all (list_to_set (drop (Z.to_nat i) pages) ∪ held) (h64_pmm s') /\
    length (heap_physical_pages s') = 96%nat /\ length (heap_virtual_pages s') = 96%nat /\
    heap64_state s' = heap64_state s /\
    (forall k, Z.to_nat i <= k -> heap_physical_pages s' !! k = heap_physical_pages s !! k)%nat)); [lia| | |].
  - change (Z.to_nat 0) with 0%nat. rewrite drop_0. done.
  - intros i s' Hi2 (Hinv & Hl1 & Hl2 & Hst & Hsame).
    destruct (lookup_lt_is_Some_2 pages (Z.to_nat i)) as [p Hp]; [lia|].
    assert (Hpp : heap_physical_pages s' !! Z.to_nat i = Some p).
    { rewrite Hsame by lia. rewrite <- (lookup_take_lt _ (length pages)) by lia. by rewrite H3. }
    wp_step. wp_step. wp_step. eapply wp_array_at; [exact Hpp|].
    pose proof (list_elem_of_lookup_2 _ _ _ Hp) as Hin. specialize (Hz p Hin). unfold X86_64_PMM_INVALID_PAGE.
    rewrite (proj2 (Z.eqb_neq p 0)) by done. cbn [negb mwhen]. wp_step. apply wp_h64_zoom.
    rewrite (drop_S _ _ _ Hp) in Hinv. cbn [list_to_set] in Hinv.
    assert (Hnin : p ∉ drop (S (Z.to_nat i)) pages).
    { assert (Hnd2 : NoDup (drop (Z.to_nat i) pages)) by (eapply sublist_NoDup; [exact Hnd|apply sublist_drop]).
      rewrite (drop_S _ _ _ Hp) in Hnd2. by apply NoDup_cons in Hnd2 as [? _]. }
    eapply wp_mono; [eapply pmm64_free_held; [exact Hinv|set_solver]|].
    intros r p' (_ & _ & Hinv'). apply heap_page_put_ok; get_set; [done|done|lia|].
    replace (Z.to_nat (i + 1)) with (S (Z.to_nat i)) by lia.
    split; [|get_set; rewrite !length_insert; split; [done|]; split; [done|]; split; [done|]].
    + get_set. replace (list_to_set (drop (S (Z.to_nat i)) pages) ∪ held) with
        ((({[p]} ∪ list_to_set (drop (S (Z.to_nat i)) pages)) ∪ held) ∖ {[p]} : gset Z); [exact Hinv'|].
      specialize (Hdis p Hin). apply leibniz_equiv. intros x. rewrite elem_of_difference, !elem_of_union, !elem_of_list_to_set, !elem_of_singleton.
      split; [tauto|]. intros Hx. split; [tauto|]. intros ->. tauto.
    + intros k Hk. rewrite list_lookup_insert_ne by lia. apply Hsame. lia.
  - intros s' (Hinv & _ & _ & Hst & _). apply HQ; [|done]. rewrite Nat2Z.id, drop_all in Hinv.
    replace (list_to_set [] ∪ held) with held in Hinv; [done|]. apply leibniz_equiv. set_solver.
Qed.

(** The heap while its pages are being allocated from the allocator [p0]. *)
Record heap_filling (all : list Z) (held : gset Z) (p0 : pmm64) (st : x86_64_heap_state) (i : Z) (pages : list Z) (s : heap64) : Prop := {
  hf_has : heap_has i pages s;
  hf_inv : pmm64_inv all (list_to_set pages ∪ held) (h64_pmm s);
  hf_free : free_frames p0 = free_frames (h64_pmm s) ++ rev pages;
  hf_state : heap64_state s = st;
  hf_next : heap_next_offset s = 0;
  hf_nodup : NoDup pages;
  hf_fresh : forall p, p ∈ pages -> p ∉ held /\ 0 < p
}.

Lemma heap_init_page_ok all held p0 st i pages s (Q : option unit -> heap64 -> Prop) :
  heap_filling all held p0 st i pages s -> i < 96 ->
  (free_frames (h64_pmm s) = [] -> forall s', pmm64_inv all held (h64_pmm s') -> hs_initialized (heap64_state s') = hs_initialized st ->
     Q (Some tt) s') ->
  (forall page s', heap_filling all held p0 st (i + 1) (pages ++ [page]) s' -> Q None s') ->
  wp (heap_init_page direct_map i) Q s.
Proof.
  intros [Hhas Hinv Hfree Hst Hnext Hnd Hfr] Hi Hfail Hgo. pose proof Hhas as (H1 & H2 & Hil & H3 & H4). unfold heap_init_page. wp_step.
  apply wp_h64_zoom. eapply wp_mono; [by apply pmm64_alloc_ok|]. intros page p1 Hal.
  unfold X86_64_PMM_INVALID_PAGE. destruct (last (free_frames (h64_pmm s))) as [q|] eqn:El.
  - destruct Hal as (-> & Hall & Hnh & Hfe & Hinv1).
    pose proof (pi_frames _ _ _ Hinv) as Hfa. rewrite Forall_forall in Hfa. destruct (Hfa q Hall) as (Hq0 & Hqa & _).
    rewrite (proj2 (Z.eqb_neq q 0)) by lia. wp_step. apply heap_page_put_ok; [done|done|lia|]. wp_step.
    apply fill_pattern_ok. intros m. wp_step. apply (Hgo q).
    apply not_elem_of_union in Hnh as [Hn1 Hn2]. rewrite elem_of_list_to_set in Hn1.
    constructor; get_set; try done.
    + apply (heap_has_snoc _ _ _ q) in Hhas; [|done]. exact Hhas.
    + replace (list_to_set (pages ++ [q]) ∪ held : gset Z) with ({[q]} ∪ (list_to_set pages ∪ held) : gset Z); [exact Hinv1|].
      apply leibniz_equiv. rewrite list_to_set_app. cbn [list_to_set]. set_solver.
    + rewrite Hfree, Hfe, rev_app_distr, <- app_assoc. done.
    + apply NoDup_app. split; [done|]. split; [|apply NoDup_singleton]. intros x Hx Hq. apply list_elem_of_singleton in Hq. by subst.
    + intros p Hp. apply elem_of_app in Hp as [Hp|Hp]; [by apply Hfr|]. apply list_elem_of_singleton in Hp. by subst.
  - destruct Hal as [-> ->]. cbn [Z.eqb]. wp_step. rewrite Hil.
    eapply rollback_ok; get_set; [exact Hinv|done| |by rewrite <- Hil|lia| |].
    + intros p Hp. by apply Hfr.
    + intros p Hp. apply Hfr in Hp. lia.
    + intros s' Hinv' Hst'. unfold h64_mod. wp_steps. apply Hfail; get_set; [by apply last_None|done|].
      rewrite Hst'. get_set. by rewrite Hst.
Qed.

Lemma heap_pages_available_ok pages s (Q : bool -> heap64 -> Prop) :
  heap_has 96 pages s -> (forall p, p ∈ pages -> 0 < p < 35184372088832) -> Q true s -> wp heap_pages_are_available Q s.
Proof.
  intros (H1 & H2 & Hl & H3 & H4) Hp HQ. unfold heap_pages_are_available. do 5 wp_step.
  apply (wp_for_ret_seqZ 96 _ (fun _ s' => s' = s)); [lia|done| |].
  - intros i s' Hi ->. destruct (lookup_lt_is_Some_2 pages (Z.to_nat i)) as [p Ep]; [lia|].
    specialize (Hp p (list_elem_of_lookup_2 _ _ _ Ep)). wp_step. eapply wp_array_at.
    { rewrite <- (lookup_take_lt _ (length pages)) by lia. rewrite H3. exact Ep. }
    wp_step. eapply wp_array_at.
    { rewrite <- (lookup_take_lt _ (length pages)) by lia. rewrite H4, list_lookup_fmap, Ep. done. }
    wp_step. unfold X86_64_PMM_INVALID_PAGE, direct_map. rewrite (proj2 (Z.eqb_neq p 0)) by lia.
    rewrite u64_small by (unfold is_u64; lia). rewrite (proj2 (Z.eqb_neq _ 0)) by lia. done.
  - intros s' ->. by wp_step.
Qed.

(** An assignment to fields of the heap's state. *)
Lemma wp_h64_mod f (Q : unit -> heap64 -> Prop) s :
  (forall s', h64_pmm s' = h64_pmm s -> heap_physical_pages s' = heap_physical_pages s ->
     heap_virtual_pages s' = heap_virtual_pages s -> heap_next_offset s' = heap_next_offset s ->
     heap64_state s' = f (heap64_state s) -> Q tt s') ->
  wp (h64_mod f) Q s.
Proof. intros HQ. unfold h64_mod. wp_step. by apply HQ. Qed.

Lemma heap_init_finish_ok pages s canonical bytes (Q : unit -> heap64 -> Prop) :
  heap_has 96 pages s -> (forall p, p ∈ pages -> 0 < p < 35184372088832) -> hs_heap_bytes (heap64_state s) = 393216 ->
  (forall s', h64_pmm s' = h64_pmm s -> heap_has 96 pages s' -> heap_next_offset s' = heap_next_offset s ->
     hs_heap_bytes (heap64_state s') = 393216 ->
     hs_initialized (heap64_state s') = canonical && (393216 <=? bytes) -> Q tt s') ->
  wp (heap_init_finish canonical bytes) Q s.
Proof.
  intros Hhas Hp Hb HQ. pose proof Hhas as (H1 & H2 & Hl & _).
  assert (Hat : forall k, (k < 96)%nat -> exists p, heap_physical_pages s !! k = Some p) by (intros k Hk; apply lookup_lt_is_Some; lia).
  assert (Hvt : forall k, (k < 96)%nat -> exists p, heap_virtual_pages s !! k = Some p) by (intros k Hk; apply lookup_lt_is_Some; lia).
  destruct (Hat 0%nat ltac:(lia)) as [a Ea], (Hat 95%nat ltac:(lia)) as [b Eb], (Hvt 0%nat ltac:(lia)) as [c Ec], (Hvt 95%nat ltac:(lia)) as [d Ed].
  unfold heap_init_finish. do 6 wp_step.
  wp_step. eapply wp_array_at; [exact Ea|]. wp_step. eapply wp_array_at; [exact Eb|].
  wp_step. eapply wp_array_at; [exact Ec|]. wp_step. eapply wp_array_at; [exact Ed|].
  wp_step. apply wp_h64_mod. intros s1 F1 F2 F3 F4 F5.
  assert (Hb1 : hs_heap_bytes (heap64_state s1) = 393216) by (rewrite F5; get_set; exact Hb). clear F5.
  assert (Hhas1 : heap_has 96 pages s1) by (unfold heap_has; rewrite F2, F3; exact Hhas).
  wp_step. apply (heap_pages_available_ok pages); [done|done|].
  wp_step. apply wp_h64_mod. intros s2 G1 G2 G3 G4 G5.
  assert (Hb2 : hs_heap_bytes (heap64_state s2) = 393216) by (rewrite G5; get_set; exact Hb1).
  assert (Hk2 : hs_pmm_backed (heap64_state s2) = true) by (rewrite G5; by get_set). clear G5.
  wp_step. apply wp_h64_mod. intros s3 K1 K2 K3 K4 K5.
  assert (Hb3 : hs_heap_bytes (heap64_state s3) = 393216) by (rewrite K5; get_set; exact Hb2).
  assert (Hk3 : hs_pmm_backed (heap64_state s3) = true) by (rewrite K5; get_set; exact Hk2).
  assert (Hd3 : hs_direct_map_ok (heap64_state s3) = canonical && (393216 <=? bytes)) by (rewrite K5; get_set; by rewrite Hb2). clear K5.
  apply wp_h64_mod. intros s4 L1 L2 L3 L4 L5. apply HQ.
  - by rewrite L1, K1, G1.
  - unfold heap_has. by rewrite L2, L3, K2, K3, G2, G3.
  - by rewrite L4, K4, G4.
  - rewrite L5. get_set. exact Hb3.
  - rewrite L5. get_set. by rewrite Hk3, Hd3.
Qed.

(** The state of an initialized heap over [pages]. *)
Record heap64_ready (pages : list Z) (s : heap64) : Prop := {
  hr_has : heap_has 96 pages s;
  hr_initialized : hs_initialized (heap64_state s) = true;
  hr_bytes : hs_heap_bytes (heap64_state s) = 393216;
  hr_next : 0 <= heap_next_offset s <= 393216;
  hr_pages : forall p, p ∈ pages -> 0 < p < 35184372088832 /\ p mod 4096 = 0
}.

Lemma heap_init_ok all held p0 bytes canonical s :
  pmm64_inv all held p0 -> h64_pmm s = p0 -> (forall p, p ∈ all -> p < 35184372088832) ->
  wp (x86_64_heap_init direct_map bytes canonical) (fun _ s' =>
    if decide (96 <= length (free_frames p0))%nat then
      let pages := take 96 (rev (free_frames p0)) in
      (heap_next_offset s' = 0 /\ free_frames p0 = free_frames (h64_pmm s') ++ rev pages) /\ pmm64_inv all (list_to_set pages ∪ held) (h64_pmm s') /\
      hs_initialized (heap64_state s') = canonical && (393216 <=? bytes) /\
      (canonical && (393216 <=? bytes) = true -> heap64_ready pages s')
    else hs_initialized (heap64_state s') = false /\ pmm64_inv all held (h64_pmm s')) s.
Proof.
  intros Hinv <- Hbound. unfold x86_64_heap_init, h64_mod. do 6 wp_step.
  change (X86_64_EARLY_HEAP_PAGES [**] X86_64_PAGE_SIZE) with 393216.
  match goal with |- wp _ _ ?t => set (s0 := t) end.
  assert (Hst : hs_heap_bytes (heap64_state s0) = 393216) by done.
  assert (Hsi : hs_initialized (heap64_state s0) = false) by done.
  wp_step. apply (wp_for_ret_seqZ 96 _ (fun i s' => exists pages, heap_filling all held (h64_pmm s) (heap64_state s0) i pages s')); [lia| | |].
  - exists []. constructor; try done.
    + change (h64_pmm s0) with (h64_pmm s). replace (list_to_set [] ∪ held : gset Z) with held; [done|]. apply leibniz_equiv. set_solver.
    + change (h64_pmm s0) with (h64_pmm s). by rewrite app_nil_r.
    + apply NoDup_nil_2.
    + intros p Hp. by apply not_elem_of_nil in Hp.
  - intros i s' Hi [pages Hf]. eapply heap_init_page_ok; [exact Hf|lia| |].
    + intros Hnil s2 Hinv2 Hin2. wp_step.
      assert (Hlen : (length (free_frames (h64_pmm s)) < 96)%nat).
      { rewrite (hf_free _ _ _ _ _ _ _ Hf), Hnil. cbn [app]. rewrite length_rev.
        destruct (hf_has _ _ _ _ _ _ _ Hf) as (_ & _ & Hl & _). lia. }
      destruct (decide _); [lia|]. split; [by rewrite Hin2|done].
    + intros page s2 Hf2. by exists (pages ++ [page]).
  - intros s' [pages [Hhas Hinv' Hfree Hst' Hnext Hnd Hfr]]. pose proof Hhas as (_ & _ & Hl & _).
    assert (Hlen : (96 <= length (free_frames (h64_pmm s)))%nat) by (rewrite Hfree, length_app, length_rev; lia).
    assert (Hpages : take 96 (rev (free_frames (h64_pmm s))) = pages).
    { rewrite Hfree, rev_app_distr, rev_involutive. replace 96%nat with (length pages) by lia. apply take_app_length. }
    destruct (decide _); [|lia]. cbv zeta. rewrite Hpages.
    assert (Hall : forall p, p ∈ pages -> 0 < p < 35184372088832 /\ p mod 4096 = 0).
    { intros p Hp. pose proof (pi_split _ _ _ Hinv') as Hs. pose proof (pi_frames _ _ _ Hinv') as Hfa.
      assert (Hpa : p ∈ all) by (rewrite <- Hs; apply elem_of_app; right; apply elem_of_elements; set_solver).
      rewrite Forall_forall in Hfa. pose proof (Hfa p Hpa). specialize (Hbound p Hpa). split; [lia|tauto]. }
    eapply heap_init_finish_ok; [exact Hhas|intros p Hp; by apply Hall|by rewrite Hst'|].
    intros s2 E1 E2 E3 E4 E5. rewrite E1, E3. split; [done|]. split; [done|]. split; [done|]. intros Hcan.
    constructor; [done|by rewrite E5|done|lia|done].
Qed.

(** ** Allocation *)

Lemma align_up_pow2 x k : 0 <= x <= 393216 -> 0 <= k <= 62 -> align_up_u64 x (2 ^ k) = 2 ^ k * ((x + 2 ^ k - 1) / 2 ^ k).
Proof.
  intros Hx Hk. assert (Hp : 0 < 2 ^ k <= 2 ^ 62) by (split; [lia|apply Z.pow_le_mono_r; lia]).
  change (2 ^ 62) with 4611686018427387904 in Hp. unfold align_up_u64.
  rewrite (u64_small (x + 2 ^ k)) by (unfold is_u64; lia). rewrite (u64_small (x + 2 ^ k - 1)) by (unfold is_u64; lia).
  rewrite (u64_small (2 ^ k - 1)) by (unfold is_u64; lia).
  apply land_high_mask64; [unfold is_u64; lia|lia].
Qed.

Lemma power_of_two_ok k : 0 <= k <= 63 -> is_power_of_two (2 ^ k) = true.
Proof.
  intros Hk. assert (Hp : 0 < 2 ^ k <= 2 ^ 63) by (split; [lia|apply Z.pow_le_mono_r; lia]).
  change (2 ^ 63) with 9223372036854775808 in Hp. unfold is_power_of_two.
  rewrite (proj2 (Z.eqb_neq _ 0)) by lia. rewrite u64_small by (unfold is_u64; lia). cbn [negb andb].
  rewrite land_low_mask by lia. rewrite Z.mod_same by lia. done.
Qed.

(** The offset a request is served at. *)
Definition served_offset (s : heap64) (k : Z) : Z := 2 ^ k * ((heap_next_offset s + 2 ^ k - 1) / 2 ^ k).

Lemma heap64_alloc_ok pages s size k :
  heap64_ready pages s -> 0 < size < 18446744073709551616 -> 0 <= k <= 62 ->
  wp (x86_64_heap_alloc size (2 ^ k)) (fun r s' =>
    let off := served_offset s k in
    if (off + size <=? 393216) then
      heap64_ready pages s' /\ heap_next_offset s' = off + size /\
      exists page, pages !! Z.to_nat (off / 4096) = Some page /\ r = direct_map + page + off mod 4096
    else r = 0 /\ s' = s) s.
Proof.
  intros [Hhas Hin Hb Hn Hp] Hs Hk. unfold x86_64_heap_alloc. wp_step. wp_step. rewrite Hin, Hb. cbn [negb orb].
  rewrite (proj2 (Z.eqb_neq size 0)) by lia.
  assert (Hpow : 0 < 2 ^ k <= 2 ^ 62) by (split; [lia|apply Z.pow_le_mono_r; lia]). change (2 ^ 62) with 4611686018427387904 in Hpow.
  rewrite (proj2 (Z.eqb_neq (2 ^ k) 0)) by lia. cbv zeta. rewrite power_of_two_ok by lia. cbn [negb]. wp_step. wp_step.
  rewrite align_up_pow2 by lia. fold (served_offset s k). set (off := served_offset s k).
  assert (Hoff : heap_next_offset s <= off < heap_next_offset s + 2 ^ k) by (unfold off, served_offset; Z.div_mod_to_equations; nia).
  destruct (Z.leb_spec (off + size) 393216) as [Hfit|Hnofit].
  - rewrite u64_small by (unfold is_u64; lia). rewrite (proj2 (Z.ltb_ge 393216 _)) by lia. rewrite (proj2 (Z.ltb_ge _ off)) by lia. cbn [orb].
    wp_step. unfold virtual_for_offset, page_index_for_offset, X86_64_EARLY_HEAP_PAGES, X86_64_PAGE_SIZE, X86_64_HEAP_INVALID_INDEX.
    assert (Hidx : 0 <= off / 4096 < 96) by (Z.div_mod_to_equations; lia).
    rewrite (proj2 (Z.leb_gt 96 _)) by lia. rewrite u32_small by (unfold is_u32; lia). rewrite (proj2 (Z.eqb_neq _ 0xFFFFFFFF)) by lia.
    pose proof Hhas as (H1 & H2 & Hl & H3 & H4).
    destruct (lookup_lt_is_Some_2 pages (Z.to_nat (off / 4096))) as [page Ep]; [lia|].
    pose proof (Hp page (list_elem_of_lookup_2 _ _ _ Ep)) as Hpg.
    wp_step. wp_step. wp_step. eapply wp_array_at.
    { rewrite <- (lookup_take_lt _ (length pages)) by lia. rewrite H4, list_lookup_fmap, Ep. done. }
    wp_step. change (4096 - 1) with (2 ^ 12 - 1). rewrite land_low_mask by lia. change (2 ^ 12) with 4096.
    pose proof (Z.mod_pos_bound off 4096 ltac:(lia)). unfold direct_map in *.
    rewrite (u64_small (0xFFFF800000000000 + page)) by (unfold is_u64; lia). rewrite u64_small by (unfold is_u64; lia).
    rewrite (proj2 (Z.eqb_neq _ 0)) by lia. unfold h64_mod. wp_steps.
    split; [constructor; get_set; try done; lia|]. split; [done|]. by exists page.
  - destruct (Z.ltb_spec (off + size) 18446744073709551616) as [Hsm|Hbig].
    + rewrite u64_small by (unfold is_u64; lia). rewrite (proj2 (Z.ltb_lt 393216 _)) by lia. cbn [orb]. by wp_step.
    + assert (Hw : off [++] size < off) by (unfold u64; Z.div_mod_to_equations; lia).
      rewrite (proj2 (Z.ltb_lt _ off)) by lia. rewrite orb_true_r. by wp_step.
Qed.

(** ** Theorems *)

(** Initialization takes 96 frames or none: with fewer than 96 free frames the
    heap stays uninitialized and every frame it had taken is free again, otherwise
    its pages are the 96 frames that were to be handed out next, in that order. *)
Theorem heap64_init_all_or_nothing all held bytes canonical s
    (Hinv : pmm64_inv all held (h64_pmm s)) (Hbound : forall p, p ∈ all -> p < 35184372088832) :
  wp (x86_64_heap_init direct_map bytes canonical) (fun _ s' =>
    let pages := take 96 (rev (free_frames (h64_pmm s))) in
    if decide (96 <= length (free_frames (h64_pmm s)))%nat then
      pmm64_inv all (list_to_set pages ∪ held) (h64_pmm s') /\
      hs_initialized (heap64_state s') = canonical && (393216 <=? bytes) /\
      (canonical && (393216 <=? bytes) = true -> heap64_ready pages s')
    else hs_initialized (heap64_state s') = false /\ pmm64_inv all held (h64_pmm s')) s.
Proof.
  eapply wp_mono; [by eapply heap_init_ok|]. intros [] s' H. cbv zeta. destruct (decide _); [|done]. by destruct H as (_ & H).
Qed.

Definition heap64_start (p : pmm64) : heap64 :=
  {| h64_pmm := p; heap64_state := heap64_zero; heap_physical_pages := []; heap_virtual_pages := [];
     heap_next_offset := 0; h64_mem := ∅ |}.

Lemma pmm64_ready_inv : pmm64_inv [0x106000; 0x107000; 0x108000] ∅ pmm64_ready.
Proof.
  destruct pmm64_ready_tracked as [Ht Hi].
  assert (Hnd : NoDup (usable_frames 0x105432 pmm64_map)) by (apply (bool_decide_unpack _); vm_compute; exact I).
  exact (tracked_inv 0x105432 pmm64_map pmm64_ready ltac:(lia) Ht Hi Hnd).
Qed.

Lemma heap64_init_all_or_nothing_witness :
  wp (x86_64_heap_init direct_map 0x40000000 true) (fun _ s' =>
    hs_initialized (heap64_state s') = false /\ pmm64_inv [0x106000; 0x107000; 0x108000] ∅ (h64_pmm s')) (heap64_start pmm64_ready).
Proof.
  assert (Hn : length (free_frames (h64_pmm (heap64_start pmm64_ready))) = 3%nat) by (vm_compute; reflexivity).
  pose proof (heap64_init_all_or_nothing [0x106000; 0x107000; 0x108000] ∅ 0x40000000 true (heap64_start pmm64_ready) pmm64_ready_inv) as H.
  cbv zeta in H. rewrite Hn in H. apply H. intros p Hp.
  repeat (apply elem_of_cons in Hp as [->|Hp]; [lia|]). by apply not_elem_of_nil in Hp.
Defined.

(** ** Requests that stay inside a page *)

(** A request for at most as many bytes as it is aligned to, and at most a page. *)
Record small_request := { rq_size : Z; rq_bits : Z }.
Definition request_ok (r : small_request) : Prop := 0 < rq_size r <= 2 ^ rq_bits r /\ 0 <= rq_bits r <= 12.

(** Serving requests in order; the granted blocks as address and size. *)
Fixpoint heap64_serve (rs : list small_request) : H64 (list (Z * Z)) :=
  match rs with
  | [] => mret_ []
  | r :: rs =>
      a <- x86_64_heap_alloc (rq_size r) (2 ^ rq_bits r) ;;
      bs <- heap64_serve rs ;;
      mret_ (if a =? 0 then bs else (a, rq_size r) :: bs)
  end.

(** A block inside the page at its offset, not before [lo]. *)
Definition block_from (pages : list Z) (lo : Z) (b : Z * Z) : Prop :=
  exists off page, lo <= off /\ pages !! Z.to_nat (off / 4096) = Some page /\ off mod 4096 + snd b <= 4096 /\
    fst b = direct_map + page + off mod 4096.

Definition blocks_apart (b b' : Z * Z) : Prop := fst b + snd b <= fst b' \/ fst b' + snd b' <= fst b.

Lemma blocks_disjoint pages lo off page (b b' : Z * Z) :
  NoDup pages -> (forall p, p ∈ pages -> p mod 4096 = 0) -> 0 <= off -> 0 < snd b' ->
  pages !! Z.to_nat (off / 4096) = Some page -> off mod 4096 + snd b <= 4096 -> fst b = direct_map + page + off mod 4096 ->
  0 < snd b -> off + snd b <= lo -> block_from pages lo b' -> blocks_apart b b'.
Proof.
  intros Hnd Hal Ho Hb' Hp Hin Hf Hb Hlo (off' & page' & Hlo' & Hp' & Hin' & Hf'). unfold blocks_apart. rewrite Hf, Hf'.
  pose proof (Hal _ (list_elem_of_lookup_2 _ _ _ Hp)) as Ha. pose proof (Hal _ (list_elem_of_lookup_2 _ _ _ Hp')) as Ha'.
  destruct (decide (off / 4096 = off' / 4096)) as [E|E].
  - rewrite E in Hp. assert (page = page') as -> by congruence. left. Z.div_mod_to_equations. lia.
  - assert (Hne : page <> page').
    { intros ->. apply E. pose proof (NoDup_lookup _ _ _ _ Hnd Hp Hp') as En.
      assert (0 <= off / 4096) by (Z.div_mod_to_equations; lia). assert (0 <= off' / 4096) by (Z.div_mod_to_equations; lia). lia. }
    pose proof (Z.mod_pos_bound off 4096 ltac:(lia)). pose proof (Z.mod_pos_bound off' 4096 ltac:(lia)).
    assert (page + 4096 <= page' \/ page' + 4096 <= page) by (Z.div_mod_to_equations; lia). lia.
Qed.

Lemma served_offset_aligned s k size :
  0 <= heap_next_offset s -> 0 <= k <= 12 -> 0 < size <= 2 ^ k ->
  heap_next_offset s <= served_offset s k /\ served_offset s k mod 4096 + size <= 4096 /\ (2 ^ k | served_offset s k mod 4096).
Proof.
  intros Hn Hk Hs. unfold served_offset. set (q := (heap_next_offset s + 2 ^ k - 1) / 2 ^ k).
  assert (Hpow : 0 < 2 ^ k) by lia. split; [unfold q; Z.div_mod_to_equations; nia|].
  assert (E : 4096 = 2 ^ k * 2 ^ (12 - k)) by (rewrite <- Z.pow_add_r by lia; replace (k + (12 - k)) with 12 by lia; done).
  rewrite E, Z.mul_mod_distr_l by lia. pose proof (Z.mod_pos_bound q (2 ^ (12 - k)) ltac:(lia)) as Hm.
  split; [nia|]. exists (q mod 2 ^ (12 - k)). lia.
Qed.

(** C39: of any sequence of requests that are no larger than their alignment and
    their alignment no larger than a page, the granted blocks lie each inside one
    frame of the heap, and no two overlap. *)
Theorem heap64_small_blocks_disjoint pages rs s
    (Hready : heap64_ready pages s) (Hnd : NoDup pages) (Hrs : Forall request_ok rs) :
  wp (heap64_serve rs) (fun bs s' => heap64_ready pages s' /\ Forall (block_from pages (heap_next_offset s)) bs /\
    ForallOrdPairs blocks_apart bs) s.
Proof.
  assert (Hmain : wp (heap64_serve rs) (fun bs s' => heap64_ready pages s' /\
    Forall (fun b => block_from pages (heap_next_offset s) b /\ 0 < snd b) bs /\ ForallOrdPairs blocks_apart bs) s).
  { revert s Hready. induction Hrs as [|r rs [Hsz Hbits] _ IH]; intros s Hready.
    - apply wp_ret. split; [done|]. split; [done|constructor].
    - assert (H12 : 2 ^ rq_bits r <= 2 ^ 12) by (apply Z.pow_le_mono_r; lia). change (2 ^ 12) with 4096 in H12.
      cbn [heap64_serve]. wp_step. eapply wp_mono; [apply heap64_alloc_ok; [exact Hready|lia|lia]|].
      intros a s1 H1. cbv zeta in H1. destruct (_ <=? _).
      + destruct H1 as (Hr1 & Hn1 & page & Hp & ->). wp_step. eapply wp_mono; [by apply IH|].
        intros bs s2 (Hr2 & Hbs & Hap). wp_step.
        pose proof (hr_next _ _ Hready). destruct (served_offset_aligned s (rq_bits r) (rq_size r)) as (Hge & Hinp & _); [lia|lia|lia|].
        pose proof (hr_pages _ _ Hready page (list_elem_of_lookup_2 _ _ _ Hp)) as Hpg.
        pose proof (Z.mod_pos_bound (served_offset s (rq_bits r)) 4096 ltac:(lia)).
        rewrite (proj2 (Z.eqb_neq _ 0)) by (unfold direct_map; lia). split; [done|]. split.
        * constructor.
          { split; [|cbn; lia]. exists (served_offset s (rq_bits r)), page. repeat split; done || (cbn; lia). }
          eapply Forall_impl; [exact Hbs|]. intros b [(o & q & Ho & Hb) Hpos]. split; [|done]. exists o, q. split; [lia|done].
        * constructor; [|done]. apply Forall_forall. intros b Hb. rewrite Forall_forall in Hbs. destruct (Hbs b Hb) as [Hfrom Hpos].
          eapply (blocks_disjoint pages _ (served_offset s (rq_bits r)) page); [done| | |done|done|cbn; lia|done|cbn; lia| |exact Hfrom].
          { intros p Hin. by apply (hr_pages _ _ Hready). }
          { lia. }
          { cbn. lia. }
      + destruct H1 as [-> ->]. wp_step. eapply wp_mono; [by apply IH|]. intros bs s2 (Hr2 & Hbs & Hap). by wp_step. }
  eapply wp_mono; [exact Hmain|]. intros bs s' (H1 & H2 & H3). split; [done|]. split; [|done].
  eapply Forall_impl; [exact H2|]. by intros b [H _].
Qed.

(** A heap whose frames were allocated from the top of memory downwards. *)
Definition sample_pages : list Z := (fun k => 4096 * (1000 - k)) <$> seqZ 0 96.
Definition heap64_sample : heap64 :=
  {| h64_pmm := pmm64_ready;
     heap64_state := heap64_zero <| hs_initialized := true |> <| hs_heap_bytes := 393216 |>;
     heap_physical_pages := sample_pages; heap_virtual_pages := (fun p => direct_map [++] p) <$> sample_pages;
     heap_next_offset := 0; h64_mem := ∅ |}.

Lemma sample_pages_in p : p ∈ sample_pages -> 0 < p < 35184372088832 /\ p mod 4096 = 0.
Proof.
  intros Hp. unfold sample_pages in Hp. apply list_elem_of_fmap in Hp as (k & -> & Hk). apply elem_of_seqZ in Hk.
  split; [lia|]. rewrite Z.mul_comm. apply Z.mod_mul. lia.
Qed.

Lemma heap64_sample_ready : heap64_ready sample_pages heap64_sample.
Proof.
  constructor; [|done|done|cbn; lia|exact sample_pages_in].
  unfold heap_has. repeat split; vm_compute; reflexivity.
Qed.

Definition sample_requests : list small_request :=
  [ {| rq_size := 64; rq_bits := 6 |}; {| rq_size := 4096; rq_bits := 12 |}; {| rq_size := 3; rq_bits := 4 |} ].

Lemma heap64_small_blocks_disjoint_witness :
  fst <$> heap64_serve sample_requests heap64_sample
    = Some [(0xFFFF8000003E8000, 64); (0xFFFF8000003E7000, 4096); (0xFFFF8000003E6000, 3)] /\
  wp (heap64_serve sample_requests) (fun bs s' => heap64_ready sample_pages s' /\ Forall (block_from sample_pages 0) bs /\
    ForallOrdPairs blocks_apart bs) heap64_sample.
Proof.
  split; [vm_compute; reflexivity|].
  apply (heap64_small_blocks_disjoint sample_pages sample_requests heap64_sample heap64_sample_ready).
  - apply (bool_decide_unpack _). vm_compute. exact I.
  - unfold request_ok. repeat constructor; cbn; lia.
Defined.

(** Blocks that cross a page are not what the offsets say: the frames come in
    descending order, so the bytes after the first page of a block of two pages
    are those of the block allocated before it. Here a block of 8192 bytes covers
    all of an earlier block of 4096. *)
Theorem heap64_large_block_overlaps pages page s
    (Hready : heap64_ready pages s) (H0 : pages !! 0%nat = Some (page + 4096)) (H1 : pages !! 1%nat = Some page)
    (Hn : heap_next_offset s = 0) :
  wp (a <- x86_64_heap_alloc 4096 (2 ^ 12) ;; b <- x86_64_heap_alloc 8192 (2 ^ 12) ;; mret_ (a, b))
     (fun r _ => r = (direct_map + page + 4096, direct_map + page)) s.
Proof.
  wp_step. eapply wp_mono; [apply heap64_alloc_ok; [exact Hready|lia|lia]|]. intros a s1 Ha. unfold served_offset in Ha. rewrite Hn in Ha.
  destruct Ha as (Hr1 & Hn1 & p & Hp & ->). wp_step.
  change (2 ^ 12 * ((0 + 2 ^ 12 - 1) / 2 ^ 12)) with 0 in *. change (Z.to_nat (0 / 4096)) with 0%nat in Hp.
  eapply wp_mono; [apply heap64_alloc_ok; [exact Hr1|lia|lia]|]. intros b s2 Hb. unfold served_offset in Hb. rewrite Hn1 in Hb.
  change (2 ^ 12 * ((0 + 4096 + 2 ^ 12 - 1) / 2 ^ 12)) with 4096 in Hb. destruct Hb as (_ & _ & q & Hq & ->). wp_step.
  change (Z.to_nat (4096 / 4096)) with 1%nat in Hq. rewrite H0 in Hp. rewrite H1 in Hq. injection Hp as <-. injection Hq as <-.
  change (0 mod 4096) with 0. change (4096 mod 4096) with 0. f_equal; lia.
Qed.

Lemma heap64_large_block_overlaps_witness :
  wp (a <- x86_64_heap_alloc 4096 (2 ^ 12) ;; b <- x86_64_heap_alloc 8192 (2 ^ 12) ;; mret_ (a, b))
     (fun r _ => r = (direct_map + 0x3E7000 + 4096, direct_map + 0x3E7000)) heap64_sample.
Proof. apply (heap64_large_block_overlaps sample_pages 0x3E7000 heap64_sample heap64_sample_ready); reflexivity. Defined.
