(* ===== verification/Input64.v ===== *)
(** * Interrupts, timer and input of the 64-bit kernel (arch/x86_64/idt.h, idt.c)

    The handlers of the timer and keyboard interrupts, the ring of typed
    characters, the queue of input events with its readers, the tick counter and
    the descriptor table. What the processor's ports answer is a parameter; what is
    written to them is recorded in order. Text on the serial line is not recorded. *)
From S2P Require Import Prelude Word64.

Definition X86_64_IRQ_VECTOR_BASE := 32.
Definition X86_64_IRQ_VECTOR_COUNT := 16.
Definition X86_64_IRQ_PIT_VECTOR := 32.
Definition X86_64_IRQ_KEYBOARD_VECTOR := 33.
Definition X86_64_PIC1_COMMAND := 0x20.
Definition X86_64_PIC1_DATA := 0x21.
Definition X86_64_PIC2_COMMAND := 0xA0.
Definition X86_64_PIC2_DATA := 0xA1.
Definition X86_64_PIC_EOI := 0x20.
Definition X86_64_PIT_BASE_FREQUENCY := 1193182.
Definition X86_64_PIT_DEFAULT_FREQUENCY_HZ := 100.
Definition X86_64_KEYBOARD_BUFFER_CAPACITY := 128.
Definition X86_64_INPUT_EVENT_QUEUE_CAPACITY := 64.
Definition X86_64_INPUT_EVENT_TYPE_KEYBOARD := 1.
Definition X86_64_INPUT_EVENT_FLAG_PRESSED := 1.
Definition X86_64_INPUT_EVENT_FLAG_RELEASED := 2.
Definition X86_64_INPUT_EVENT_FLAG_SHIFT := 4.

Record x86_64_input_event := { ie_type : Z; ie_code : Z; ie_value : Z; ie_flags : Z; ie_tick : Z; ie_sequence : Z }.
#[export] Instance input_event_inhabited : Inhabited x86_64_input_event := populate (Build_x86_64_input_event 0 0 0 0 0 0).

Record x86_64_timer_state := {
  ti_initialized : bool;
  ti_interrupts_enabled_before : bool;
  ti_interrupts_enabled_after : bool;
  ti_irq0_unmasked : bool;
  ti_frequency_hz : Z;
  ti_divisor : Z;
  ti_ticks : Z;
  ti_waited_ticks : Z;
  ti_wait_ok : bool;
  ti_timer_ok : bool
}.
#[export] Instance eta_x86_64_timer_state : Settable x86_64_timer_state := fun s =>
  Build_x86_64_timer_state (ti_initialized s) (ti_interrupts_enabled_before s) (ti_interrupts_enabled_after s)
    (ti_irq0_unmasked s) (ti_frequency_hz s) (ti_divisor s) (ti_ticks s) (ti_waited_ticks s) (ti_wait_ok s) (ti_timer_ok s).

Record x86_64_keyboard_state := {
  ks_initialized : bool;
  ks_irq1_unmasked : bool;
  ks_scancodes_seen : Z;
  ks_make_codes_seen : Z;
  ks_break_codes_seen : Z;
  ks_translated_chars_seen : Z;
  ks_shift_pressed : bool;
  ks_buffered_chars : Z;
  ks_buffer_capacity : Z;
  ks_buffer_overflows : Z;
  ks_event_queue_capacity : Z;
  ks_event_queued : Z;
  ks_event_drops : Z;
  ks_event_oldest_sequence : Z;
  ks_event_latest_sequence : Z;
  ks_event_read_calls : Z;
  ks_events_read : Z;
  ks_read_calls : Z;
  ks_bytes_read : Z;
  ks_last_scancode : Z;
  ks_last_ascii : Z;
  ks_keyboard_ok : bool
}.
#[export] Instance eta_x86_64_keyboard_state : Settable x86_64_keyboard_state := fun s =>
  Build_x86_64_keyboard_state (ks_initialized s) (ks_irq1_unmasked s) (ks_scancodes_seen s) (ks_make_codes_seen s)
    (ks_break_codes_seen s) (ks_translated_chars_seen s) (ks_shift_pressed s) (ks_buffered_chars s) (ks_buffer_capacity s)
    (ks_buffer_overflows s) (ks_event_queue_capacity s) (ks_event_queued s) (ks_event_drops s) (ks_event_oldest_sequence s)
    (ks_event_latest_sequence s) (ks_event_read_calls s) (ks_events_read s) (ks_read_calls s) (ks_bytes_read s)
    (ks_last_scancode s) (ks_last_ascii s) (ks_keyboard_ok s).

(** [in64_outs] are the writes to ports so far, oldest first. *)
Record input64 := {
  timer_ticks : Z;
  timer64_state : x86_64_timer_state;
  keyboard64_state : x86_64_keyboard_state;
  keyboard_buffer : list Z;
  keyboard_buffer_head : Z;
  keyboard_buffer_tail : Z;
  keyboard_buffer_count : Z;
  input_event_queue : list x86_64_input_event;
  input_event_head : Z;
  input_event_tail : Z;
  input_event_count : Z;
  input_event_next_sequence : Z;
  irq_self_test_active : bool;
  irq_delivery_count : Z;
  last_irq_vector : Z;
  legacy_cursor : Z;
  in64_outs : list (Z * Z)
}.
#[export] Instance eta_input64 : Settable input64 := fun s =>
  Build_input64 (timer_ticks s) (timer64_state s) (keyboard64_state s) (keyboard_buffer s) (keyboard_buffer_head s)
    (keyboard_buffer_tail s) (keyboard_buffer_count s) (input_event_queue s) (input_event_head s) (input_event_tail s)
    (input_event_count s) (input_event_next_sequence s) (irq_self_test_active s) (irq_delivery_count s) (last_irq_vector s)
    (legacy_cursor s) (in64_outs s).

Abbreviation I64 := (M input64).

Definition ks_mod (f : x86_64_keyboard_state -> x86_64_keyboard_state) : I64 unit := mmod (fun s => s <| keyboard64_state ::= f |>).
Definition ti_mod (f : x86_64_timer_state -> x86_64_timer_state) : I64 unit := mmod (fun s => s <| timer64_state ::= f |>).
Definition outb (port value : Z) : I64 unit := mmod (fun s => s <| in64_outs ::= fun l => l ++ [(port, value)] |>).

(** ** Scancodes *)

Definition scancode_ascii_map : list Z :=
  [0; 27; 49; 50; 51; 52; 53; 54; 55; 56; 57; 48; 45; 61; 8; 9;
   113; 119; 101; 114; 116; 121; 117; 105; 111; 112; 91; 93; 10; 0; 97; 115;
   100; 102; 103; 104; 106; 107; 108; 59; 39; 96; 0; 92; 122; 120; 99; 118;
   98; 110; 109; 44; 46; 47; 0; 42; 0; 32] ++ replicate 70 0.

Definition scancode_shift_ascii_map : list Z :=
  [0; 27; 33; 64; 35; 36; 37; 94; 38; 42; 40; 41; 95; 43; 8; 9;
   81; 87; 69; 82; 84; 89; 85; 73; 79; 80; 123; 125; 10; 0; 65; 83;
   68; 70; 71; 72; 74; 75; 76; 58; 34; 126; 0; 124; 90; 88; 67; 86;
   66; 78; 77; 60; 62; 63; 0; 42; 0; 32] ++ replicate 70 0.

Definition keyboard_translate_scancode (scancode : Z) : I64 Z :=
  if 128 <=? scancode then mret_ 0
  else
    st <- mget keyboard64_state ;;
    if ks_shift_pressed st then array_at scancode_shift_ascii_map scancode else array_at scancode_ascii_map scancode.

(** ** The rings *)

Definition keyboard_buffer_reset : I64 unit :=
  mmod (fun s => s <| keyboard_buffer_head := 0 |> <| keyboard_buffer_tail := 0 |> <| keyboard_buffer_count := 0 |>
    <| input_event_head := 0 |> <| input_event_tail := 0 |> <| input_event_count := 0 |> <| input_event_next_sequence := 1 |>) ;;;
  ks_mod (fun st => st <| ks_buffered_chars := 0 |> <| ks_buffer_capacity := X86_64_KEYBOARD_BUFFER_CAPACITY |>
    <| ks_buffer_overflows := 0 |> <| ks_event_queue_capacity := X86_64_INPUT_EVENT_QUEUE_CAPACITY |> <| ks_event_queued := 0 |>
    <| ks_event_drops := 0 |> <| ks_event_oldest_sequence := 0 |> <| ks_event_latest_sequence := 0 |>
    <| ks_event_read_calls := 0 |> <| ks_events_read := 0 |> <| ks_read_calls := 0 |> <| ks_bytes_read := 0 |>).

Definition input_event_latest_sequence : I64 Z :=
  n <- mget input_event_next_sequence ;; mret_ (if n =? 0 then 0 else n [-] 1).

(** [event_oldest_sequence = (count == 0) ? 0 : queue[head].sequence] and
    [event_latest_sequence]. *)
Definition input_event_bounds : I64 unit :=
  count <- mget input_event_count ;;
  head <- mget input_event_head ;;
  queue <- mget input_event_queue ;;
  oldest <- (if count =? 0 then mret_ 0 else e <- array_at queue head ;; mret_ (ie_sequence e)) ;;
  ks_mod (fun st => st <| ks_event_oldest_sequence := oldest |>) ;;;
  latest <- input_event_latest_sequence ;;
  ks_mod (fun st => st <| ks_event_latest_sequence := latest |>).

Definition input_event_push (type code value flags : Z) : I64 unit :=
  count <- mget input_event_count ;;
  mwhen (X86_64_INPUT_EVENT_QUEUE_CAPACITY <=? count)
    (mmod (fun s => s <| input_event_head ::= fun h => (h [+] 1) mod X86_64_INPUT_EVENT_QUEUE_CAPACITY |>
       <| input_event_count ::= decr |>) ;;;
     ks_mod (fun st => st <| ks_event_drops ::= incr |>)) ;;;
  queue <- mget input_event_queue ;;
  tail <- mget input_event_tail ;;
  tick <- mget timer_ticks ;;
  sequence <- mget input_event_next_sequence ;;
  queue' <- array_put queue tail {| ie_type := type; ie_code := code; ie_value := value; ie_flags := flags;
                                    ie_tick := tick; ie_sequence := sequence |} ;;
  mmod (fun s => s <| input_event_queue := queue' |> <| input_event_next_sequence ::= incr |>
    <| input_event_tail ::= fun t => (t [+] 1) mod X86_64_INPUT_EVENT_QUEUE_CAPACITY |> <| input_event_count ::= incr |>) ;;;
  count <- mget input_event_count ;;
  ks_mod (fun st => st <| ks_event_queued := count |>) ;;;
  input_event_bounds.

Definition keyboard_buffer_push (ascii : Z) : I64 unit :=
  count <- mget keyboard_buffer_count ;;
  if X86_64_KEYBOARD_BUFFER_CAPACITY <=? count then ks_mod (fun st => st <| ks_buffer_overflows ::= incr |>)
  else
    buffer <- mget keyboard_buffer ;;
    tail <- mget keyboard_buffer_tail ;;
    buffer' <- array_put buffer tail ascii ;;
    mmod (fun s => s <| keyboard_buffer := buffer' |>
      <| keyboard_buffer_tail ::= fun t => (t [+] 1) mod X86_64_KEYBOARD_BUFFER_CAPACITY |>
      <| keyboard_buffer_count ::= incr |>) ;;;
    count <- mget keyboard_buffer_count ;;
    ks_mod (fun st => st <| ks_buffered_chars := count |>).

(** ** The interrupt handlers *)

Definition send_pic_eoi (vector : Z) : I64 unit :=
  mwhen ((X86_64_IRQ_VECTOR_BASE + 8 <=? vector) && (vector <? X86_64_IRQ_VECTOR_BASE + X86_64_IRQ_VECTOR_COUNT))
    (outb X86_64_PIC2_COMMAND X86_64_PIC_EOI) ;;;
  mwhen ((X86_64_IRQ_VECTOR_BASE <=? vector) && (vector <? X86_64_IRQ_VECTOR_BASE + X86_64_IRQ_VECTOR_COUNT))
    (outb X86_64_PIC1_COMMAND X86_64_PIC_EOI).

Definition timer_handle_irq (vector : Z) : I64 bool :=
  if negb (vector =? X86_64_IRQ_PIT_VECTOR) then mret_ false
  else
    mmod (fun s => s <| timer_ticks ::= incr |>) ;;;
    ticks <- mget timer_ticks ;;
    ti_mod (fun st => st <| ti_ticks := ticks |>) ;;;
    mret_ true.

(** [scancode] is what the keyboard's data port gives. *)
Definition keyboard_handle_irq (scancode vector : Z) : I64 bool :=
  if negb (vector =? X86_64_IRQ_KEYBOARD_VECTOR) then mret_ false
  else
    ks_mod (fun st => st <| ks_scancodes_seen ::= incr |> <| ks_last_scancode := scancode |>) ;;;
    if (scancode =? 0x2A) || (scancode =? 0x36) then
      ks_mod (fun st => st <| ks_shift_pressed := true |> <| ks_make_codes_seen ::= incr |>) ;;;
      input_event_push X86_64_INPUT_EVENT_TYPE_KEYBOARD scancode 0
        (Z.lor X86_64_INPUT_EVENT_FLAG_PRESSED X86_64_INPUT_EVENT_FLAG_SHIFT) ;;;
      mret_ true
    else if (scancode =? 0xAA) || (scancode =? 0xB6) then
      ks_mod (fun st => st <| ks_shift_pressed := false |> <| ks_break_codes_seen ::= incr |>) ;;;
      input_event_push X86_64_INPUT_EVENT_TYPE_KEYBOARD scancode 0
        (Z.lor X86_64_INPUT_EVENT_FLAG_RELEASED X86_64_INPUT_EVENT_FLAG_SHIFT) ;;;
      mret_ true
    else if negb (Z.land scancode 0x80 =? 0) then
      ks_mod (fun st => st <| ks_break_codes_seen ::= incr |>) ;;;
      input_event_push X86_64_INPUT_EVENT_TYPE_KEYBOARD scancode 0 X86_64_INPUT_EVENT_FLAG_RELEASED ;;;
      mret_ true
    else
      ks_mod (fun st => st <| ks_make_codes_seen ::= incr |>) ;;;
      ascii <- keyboard_translate_scancode scancode ;;
      ks_mod (fun st => st <| ks_last_ascii := ascii |>) ;;;
      input_event_push X86_64_INPUT_EVENT_TYPE_KEYBOARD scancode ascii X86_64_INPUT_EVENT_FLAG_PRESSED ;;;
      mwhen (negb (ascii =? 0))
        (ks_mod (fun st => st <| ks_translated_chars_seen ::= incr |>) ;;; keyboard_buffer_push ascii) ;;;
      mret_ true.

Definition x86_64_irq_handler (scancode vector : Z) : I64 unit :=
  active <- mget irq_self_test_active ;;
  timer <- (if negb active then timer_handle_irq vector else mret_ false) ;;
  if timer : bool then send_pic_eoi vector
  else
    keyboard <- (if negb active then keyboard_handle_irq scancode vector else mret_ false) ;;
    if keyboard : bool then send_pic_eoi vector
    else
      mmod (fun s => s <| irq_delivery_count ::= incr |> <| last_irq_vector := vector |>) ;;;
      mwhen (negb active) (send_pic_eoi vector).

(** ** Readers *)

(** The loop of [x86_64_keyboard_read]; its variables are [bytes] and [buffer]. *)
Definition keyboard_read_step (size : Z) (l : Z * list Z) : I64 (Z * list Z + (Z * list Z)) :=
  let '(bytes, buffer) := l in
  count <- mget keyboard_buffer_count ;;
  if (bytes <? size) && (0 <? count) then
    ring <- mget keyboard_buffer ;;
    head <- mget keyboard_buffer_head ;;
    c <- array_at ring head ;;
    buffer <- array_put buffer bytes c ;;
    mmod (fun s => s <| keyboard_buffer_head ::= fun h => (h [+] 1) mod X86_64_KEYBOARD_BUFFER_CAPACITY |>
      <| keyboard_buffer_count ::= decr |>) ;;;
    mret_ (inl (bytes [++] 1, buffer))
  else mret_ (inr (bytes, buffer)).

Definition x86_64_keyboard_read (buffer : option (list Z)) (size : Z) : I64 (Z * option (list Z)) :=
  st <- mget keyboard64_state ;;
  match buffer with
  | None => mret_ (0, buffer)
  | Some buf =>
      if (size =? 0) || negb (ks_initialized st) then mret_ (0, buffer)
      else
        ks_mod (fun st => st <| ks_read_calls ::= incr |>) ;;;
        r <- mloop (keyboard_read_step size) (0, buf) ;;
        let '(bytes, buf) := r in
        count <- mget keyboard_buffer_count ;;
        ks_mod (fun st => st <| ks_buffered_chars := count |> <| ks_bytes_read ::= fun n => n [+] u32 bytes |>) ;;;
        mret_ (bytes, Some buf)
  end.

(** The loop of [x86_64_input_events_read_from]; its variables are [i], [count],
    [*cursor] and [events]. *)
Definition events_read_step (max_events current_cursor : Z) (l : Z * Z * Z * list x86_64_input_event)
    : I64 (Z * Z * Z * list x86_64_input_event + (Z * Z * list x86_64_input_event)) :=
  let '(i, count, cursor, events) := l in
  total <- mget input_event_count ;;
  if (i <? total) && (count <? max_events) then
    head <- mget input_event_head ;;
    queue <- mget input_event_queue ;;
    e <- array_at queue ((head [+] i) mod X86_64_INPUT_EVENT_QUEUE_CAPACITY) ;;
    if current_cursor <? ie_sequence e then
      events <- array_put events count e ;;
      mret_ (inl (i [+] 1, count [++] 1, ie_sequence e, events))
    else mret_ (inl (i [+] 1, count, cursor, events))
  else mret_ (inr (count, cursor, events)).

(** The results are the returned count, [*cursor] and the array [events]. *)
Definition x86_64_input_events_read_from (cursor : Z) (events : option (list x86_64_input_event)) (max_events : Z)
    : I64 (Z * Z * option (list x86_64_input_event)) :=
  st <- mget keyboard64_state ;;
  match events with
  | None => mret_ (0, cursor, events)
  | Some evs =>
      if (max_events =? 0) || negb (ks_initialized st) then mret_ (0, cursor, events)
      else
        ks_mod (fun st => st <| ks_event_read_calls ::= incr |>) ;;;
        total <- mget input_event_count ;;
        if total =? 0 then
          latest <- input_event_latest_sequence ;;
          ks_mod (fun st => st <| ks_event_queued := 0 |>) ;;;
          mret_ (0, latest, events)
        else
          queue <- mget input_event_queue ;;
          head <- mget input_event_head ;;
          first <- array_at queue head ;;
          let oldest_sequence := ie_sequence first in
          let current_cursor := if cursor <? oldest_sequence [-] 1 then oldest_sequence [-] 1 else cursor in
          r <- mloop (events_read_step max_events current_cursor) (0, 0, cursor, evs) ;;
          let '(count, cursor, evs) := r in
          total <- mget input_event_count ;;
          latest <- input_event_latest_sequence ;;
          ks_mod (fun st => st <| ks_event_queued := total |> <| ks_event_oldest_sequence := oldest_sequence |>
            <| ks_event_latest_sequence := latest |> <| ks_events_read ::= fun n => n [+] u32 count |>) ;;;
          mret_ (count, cursor, Some evs)
  end.

Definition x86_64_input_events_read (events : option (list x86_64_input_event)) (max_events : Z)
    : I64 (Z * option (list x86_64_input_event)) :=
  cursor <- mget legacy_cursor ;;
  r <- x86_64_input_events_read_from cursor events max_events ;;
  let '(count, cursor, events) := r in
  mmod (fun s => s <| legacy_cursor := cursor |>) ;;;
  mret_ (count, events).

Definition x86_64_input_events_latest_sequence : I64 Z := input_event_latest_sequence.

Definition x86_64_keyboard_get_state : I64 x86_64_keyboard_state :=
  buffered <- mget keyboard_buffer_count ;;
  queued <- mget input_event_count ;;
  ks_mod (fun st => st <| ks_buffered_chars := buffered |> <| ks_buffer_capacity := X86_64_KEYBOARD_BUFFER_CAPACITY |>
    <| ks_event_queue_capacity := X86_64_INPUT_EVENT_QUEUE_CAPACITY |> <| ks_event_queued := queued |>) ;;;
  input_event_bounds ;;;
  mget keyboard64_state.

(** ** Initialization and the timer *)

Section Hardware.
(** What a port reads as after the writes so far, and whether the processor's
    interrupt flag is set. *)
Context (port_value : list (Z * Z) -> Z -> Z) (interrupts_enabled : list (Z * Z) -> bool).

Definition inb (port : Z) : I64 Z := outs <- mget in64_outs ;; mret_ (port_value outs port).

(** Clearing bit [bit] of the mask register; the result is whether it reads as
    clear. *)
Definition unmask_irq (bit : Z) : I64 bool :=
  mask <- inb X86_64_PIC1_DATA ;;
  outb X86_64_PIC1_DATA (u8 (Z.land mask (not32 (2 ^ bit)))) ;;;
  v <- inb X86_64_PIC1_DATA ;;
  mret_ (Z.land v (2 ^ bit) =? 0).

Definition unmask_irq0 : I64 unit := ok <- unmask_irq 0 ;; ti_mod (fun st => st <| ti_irq0_unmasked := ok |>).
Definition unmask_irq1 : I64 unit := ok <- unmask_irq 1 ;; ks_mod (fun st => st <| ks_irq1_unmasked := ok |>).

(** The last assignment reads the flag that [enable_interrupts] has just set. *)
Definition x86_64_timer_initialize (frequency_hz : Z) : I64 unit :=
  let frequency_hz := if frequency_hz =? 0 then X86_64_PIT_DEFAULT_FREQUENCY_HZ else frequency_hz in
  let divisor := X86_64_PIT_BASE_FREQUENCY / frequency_hz in
  let divisor := if divisor =? 0 then 1 else divisor in
  outs <- mget in64_outs ;;
  mmod (fun s => s <| timer_ticks := 0 |>) ;;;
  ti_mod (fun st => st <| ti_initialized := true |> <| ti_frequency_hz := frequency_hz |> <| ti_divisor := divisor |>
    <| ti_ticks := 0 |> <| ti_waited_ticks := 0 |> <| ti_wait_ok := false |> <| ti_timer_ok := false |>
    <| ti_interrupts_enabled_before := interrupts_enabled outs |>) ;;;
  outb 0x43 0x36 ;;;
  outb 0x40 (u8 (Z.land divisor 0xFF)) ;;;
  outb 0x40 (u8 (Z.land (Z.shiftr divisor 8) 0xFF)) ;;;
  unmask_irq0 ;;;
  ti_mod (fun st => st <| ti_interrupts_enabled_after := true |>).

Definition x86_64_keyboard_initialize : I64 unit :=
  ks_mod (fun st => st <| ks_initialized := true |> <| ks_scancodes_seen := 0 |> <| ks_make_codes_seen := 0 |>
    <| ks_break_codes_seen := 0 |> <| ks_translated_chars_seen := 0 |> <| ks_shift_pressed := false |>
    <| ks_last_scancode := 0 |> <| ks_last_ascii := 0 |> <| ks_keyboard_ok := false |>) ;;;
  keyboard_buffer_reset ;;;
  unmask_irq1 ;;;
  ti <- mget timer64_state ;;
  ks_mod (fun st => st <| ks_keyboard_ok := ks_initialized st && ks_irq1_unmasked st && ti_interrupts_enabled_after ti |>).

(** The waiting loop; [arrivals n] is how many timer interrupts come in during spin
    [n], each handled by [x86_64_irq_handler]. Its variables are [spin_budget] and the number of spins made. *)
Definition timer_wait_step (arrivals : Z -> nat) (target : Z) (l : Z * Z) : I64 (Z * Z + unit) :=
  let '(spin_budget, spins) := l in
  ticks <- mget timer_ticks ;;
  if (ticks <? target) && (0 <? spin_budget) then
    mfor (replicate (arrivals spins) tt) (fun _ => x86_64_irq_handler 0 X86_64_IRQ_PIT_VECTOR) ;;;
    mret_ (inl (spin_budget [-] 1, spins + 1))
  else mret_ (inr tt).

Definition x86_64_timer_wait_for_ticks (arrivals : Z -> nat) (ticks : Z) : I64 unit :=
  start <- mget timer_ticks ;;
  let target := start [+] ticks in
  mloop (timer_wait_step arrivals target) (200000000, 0) ;;;
  now <- mget timer_ticks ;;
  ti_mod (fun st => st <| ti_ticks := now |> <| ti_waited_ticks := now [-] start |> <| ti_wait_ok := ticks <=? now [-] start |>) ;;;
  ti_mod (fun st => st <| ti_timer_ok := ti_initialized st && ti_irq0_unmasked st && ti_interrupts_enabled_after st && ti_wait_ok st |>).

Definition x86_64_timer_get_state : I64 x86_64_timer_state :=
  now <- mget timer_ticks ;;
  ti_mod (fun st => st <| ti_ticks := now |>) ;;;
  mget timer64_state.
End Hardware.
