(* ===== verification/Input64Proofs.v ===== *)
(** * The input driver of the 64-bit kernel: refinement to queues *)
From S2P Require Import Prelude Word64 Input64.

(** ** The abstract driver

    Typed characters wait in a queue of at most 128; of the events the last 64 are
    kept, numbered in the order of their arrival. *)
Record driver := {
  dr_shift : bool;
  dr_initialized : bool;
  dr_typed : list Z;
  dr_events : list x86_64_input_event;
  dr_next : Z;
  dr_ticks : Z
}.
#[export] Instance eta_driver : Settable driver := fun d =>
  Build_driver (dr_shift d) (dr_initialized d) (dr_typed d) (dr_events d) (dr_next d) (dr_ticks d).

(** The last 64 elements. *)
Definition last64 {A} (l : list A) : list A := drop (length l - 64) l.

Definition driver_event (code value flags : Z) (d : driver) : driver :=
  d <| dr_events ::= fun l => last64 (l ++ [ {| ie_type := 1; ie_code := code; ie_value := value; ie_flags := flags;
         ie_tick := dr_ticks d; ie_sequence := dr_next d |} ]) |> <| dr_next ::= fun n => n + 1 |>.

Lemma driver_event_eq code value flags d :
  driver_event code value flags d = {| dr_shift := dr_shift d; dr_initialized := dr_initialized d; dr_typed := dr_typed d;
    dr_events := last64 (dr_events d ++ [ {| ie_type := 1; ie_code := code; ie_value := value; ie_flags := flags;
         ie_tick := dr_ticks d; ie_sequence := dr_next d |} ]); dr_next := dr_next d + 1; dr_ticks := dr_ticks d |}.
Proof. reflexivity. Qed.

Definition driver_type (ascii : Z) (d : driver) : driver :=
  if decide (length (dr_typed d) < 128)%nat then d <| dr_typed ::= fun l => l ++ [ascii] |> else d.

Definition translate (shift : bool) (scancode : Z) : Z :=
  (if shift then scancode_shift_ascii_map else scancode_ascii_map) !!! Z.to_nat scancode.

(** A keyboard interrupt with [scancode]. *)
Definition driver_key (scancode : Z) (d : driver) : driver :=
  if (scancode =? 0x2A) || (scancode =? 0x36) then driver_event scancode 0 5 (d <| dr_shift := true |>)
  else if (scancode =? 0xAA) || (scancode =? 0xB6) then driver_event scancode 0 6 (d <| dr_shift := false |>)
  else if 128 <=? scancode then driver_event scancode 0 2 d
  else
    let ascii := translate (dr_shift d) scancode in
    let d' := driver_event scancode ascii 1 d in
    if ascii =? 0 then d' else driver_type ascii d'.

Definition driver_tick (d : driver) : driver := d <| dr_ticks ::= incr |>.

(** ** The invariant of the rings *)
Record input64_ok (s : input64) : Prop := {
  io_buffer : Z.of_nat (length (keyboard_buffer s)) = 128;
  io_head : 0 <= keyboard_buffer_head s < 128;
  io_count : 0 <= keyboard_buffer_count s <= 128;
  io_tail : keyboard_buffer_tail s = (keyboard_buffer_head s + keyboard_buffer_count s) mod 128;
  io_queue : Z.of_nat (length (input_event_queue s)) = 64;
  io_ehead : 0 <= input_event_head s < 64;
  io_ecount : 0 <= input_event_count s <= 64;
  io_etail : input_event_tail s = (input_event_head s + input_event_count s) mod 64;
  io_next : input_event_count s < input_event_next_sequence s < 4294967296;
  io_sequence : forall i e, ring_items 64 (input_event_queue s) (input_event_head s) (input_event_count s) !! i = Some e ->
    ie_sequence e = input_event_next_sequence s - input_event_count s + Z.of_nat i
}.

Definition view (s : input64) : driver :=
  {| dr_shift := ks_shift_pressed (keyboard64_state s);
     dr_initialized := ks_initialized (keyboard64_state s);
     dr_typed := ring_items 128 (keyboard_buffer s) (keyboard_buffer_head s) (keyboard_buffer_count s);
     dr_events := ring_items 64 (input_event_queue s) (input_event_head s) (input_event_count s);
     dr_next := input_event_next_sequence s;
     dr_ticks := timer_ticks s |}.

(** Changing counters of the keyboard's state only. *)
Lemma wp_ks_mod f (Q : unit -> input64 -> Prop) s :
  input64_ok s -> ks_shift_pressed (f (keyboard64_state s)) = ks_shift_pressed (keyboard64_state s) ->
  ks_initialized (f (keyboard64_state s)) = ks_initialized (keyboard64_state s) ->
  (forall s', input64_ok s' -> view s' = view s -> input_event_count s' = input_event_count s ->
     irq_self_test_active s' = irq_self_test_active s -> Q tt s') ->
  wp (ks_mod f) Q s.
Proof.
  intros [] Hs Hi HQ. unfold ks_mod. wp_step. apply HQ; [by constructor| |done|done]. unfold view. get_set. by rewrite Hs, Hi.
Qed.

Lemma length_events s : input64_ok s -> Z.of_nat (length (dr_events (view s))) = input_event_count s.
Proof. intros []. cbn [view dr_events]. rewrite ring_items_length. lia. Qed.

Lemma length_typed s : input64_ok s -> Z.of_nat (length (dr_typed (view s))) = keyboard_buffer_count s.
Proof. intros []. cbn [view dr_typed]. rewrite ring_items_length. lia. Qed.

(** ** Events *)

Lemma event_bounds_ok s (Q : unit -> input64 -> Prop) :
  input64_ok s ->
  (forall s', input64_ok s' -> view s' = view s -> irq_self_test_active s' = irq_self_test_active s -> Q tt s') ->
  wp input_event_bounds Q s.
Proof.
  intros Hok HQ. unfold input_event_bounds, input_event_latest_sequence. do 6 wp_step. wp_step.
  apply (wp_mono _ (fun _ s' => s' = s)).
  { destruct (input_event_count s =? 0); [by wp_step|]. wp_step.
    destruct (lookup_lt_is_Some_2 (input_event_queue s) (Z.to_nat (input_event_head s))) as [e Ee]; [destruct Hok; lia|].
    eapply wp_array_at; [exact Ee|]. by wp_step. }
  intros oldest s0 ->. wp_step. apply wp_ks_mod; [done|done|done|]. intros s1 Hok1 Hv1 _ Hst1. do 3 wp_step. wp_step.
  apply wp_ks_mod; [done|done|done|]. intros s2 Hok2 Hv2 _ Hst2. apply HQ; [done|congruence|congruence].
Qed.

Lemma last64_app {A} (l : list A) x :
  (length l <= 64)%nat -> last64 (l ++ [x]) = (if decide (length l = 64%nat) then drop 1 l else l) ++ [x].
Proof.
  intros Hl. unfold last64. rewrite length_app. cbn [length]. destruct (decide _) as [E|E].
  - rewrite E. change (64 + 1 - 64)%nat with 1%nat. apply drop_app_le. lia.
  - replace (length l + 1 - 64)%nat with 0%nat by lia. done.
Qed.

(** The ring after the oldest event was given up. *)
Lemma drop_oldest s :
  input64_ok s -> 0 < input_event_count s ->
  ring_items 64 (input_event_queue s) ((input_event_head s + 1) mod 64) (input_event_count s - 1)
  = drop 1 (ring_items 64 (input_event_queue s) (input_event_head s) (input_event_count s)).
Proof. intros [] Hc. rewrite (ring_pop 64 ltac:(lia) _ (input_event_head s)) by lia. done. Qed.

(** One assignment to the queue, when there is room. *)
Lemma queue_store_ok s e :
  input64_ok s -> input_event_count s < 64 -> input_event_next_sequence s < 4294967295 ->
  ie_sequence e = input_event_next_sequence s ->
  input64_ok (s <| input_event_queue := <[Z.to_nat (input_event_tail s) := e]> (input_event_queue s) |>
      <| input_event_next_sequence ::= incr |> <| input_event_tail ::= (fun t => (t [+] 1) mod 64) |> <| input_event_count ::= incr |>) /\
  ring_items 64 (<[Z.to_nat (input_event_tail s) := e]> (input_event_queue s)) (input_event_head s) (input_event_count s + 1)
  = ring_items 64 (input_event_queue s) (input_event_head s) (input_event_count s) ++ [e].
Proof.
  intros [H1 H2 H3 H4 H5 H6 H7 H8 H9 H10] Hc Hn He.
  assert (Hring : ring_items 64 (<[Z.to_nat (input_event_tail s) := e]> (input_event_queue s)) (input_event_head s) (input_event_count s + 1)
    = ring_items 64 (input_event_queue s) (input_event_head s) (input_event_count s) ++ [e]).
  { rewrite H8. apply ring_push; lia. }
  split; [|done]. constructor; get_set; rewrite ?length_insert; rewrite ?(incr_small (input_event_count s)) by lia;
    rewrite ?(incr_small (input_event_next_sequence s)) by lia; try done; try lia.
  - pose proof (Z.mod_pos_bound (input_event_head s + input_event_count s) 64 ltac:(lia)).
    rewrite H8, u32_small by (unfold is_u32; lia). rewrite Zplus_mod_idemp_l. f_equal. lia.
  - intros i e' Hi. rewrite Hring in Hi. apply lookup_app_Some in Hi as [Hi|[Hl Hi]].
    + apply H10 in Hi. lia.
    + rewrite ring_items_length in *. apply list_lookup_singleton_Some in Hi as [Hi ->]. lia.
Qed.

Lemma event_push_ok s code value flags (Q : unit -> input64 -> Prop) :
  input64_ok s -> input_event_next_sequence s < 4294967295 ->
  (forall s', input64_ok s' -> view s' = driver_event code value flags (view s) ->
     irq_self_test_active s' = irq_self_test_active s -> Q tt s') ->
  wp (input_event_push 1 code value flags) Q s.
Proof.
  intros Hok Hn HQ. unfold input_event_push, X86_64_INPUT_EVENT_QUEUE_CAPACITY. wp_step. wp_step. wp_step.
  pose proof (length_events s Hok) as Hlen. pose proof (io_ecount s Hok) as Hec.
  apply (wp_mono _ (fun _ s1 => input64_ok s1 /\ input_event_count s1 < 64 /\ irq_self_test_active s1 = irq_self_test_active s /\
    view s1 = (view s) <| dr_events := if decide (length (dr_events (view s)) = 64%nat) then drop 1 (dr_events (view s)) else dr_events (view s) |>)).
  { destruct (Z.leb_spec 64 (input_event_count s)) as [Hfull|Hroom]; cbn [mwhen].
    - wp_step. wp_step. set (s1 := s <| input_event_head ::= _ |> <| input_event_count ::= decr |>).
      assert (Hh : input_event_head s1 = (input_event_head s + 1) mod 64).
      { unfold s1. get_set. rewrite u32_small; [done|]. destruct Hok; unfold is_u32; lia. }
      assert (Hc : input_event_count s1 = input_event_count s - 1) by (unfold s1; get_set; rewrite decr_small; lia).
      assert (Hev : ring_items 64 (input_event_queue s1) (input_event_head s1) (input_event_count s1)
        = drop 1 (ring_items 64 (input_event_queue s) (input_event_head s) (input_event_count s))).
      { rewrite Hh, Hc. change (input_event_queue s1) with (input_event_queue s). apply drop_oldest; [done|lia]. }
      assert (Hok1 : input64_ok s1).
      { pose proof Hok as [H1 H2 H3 H4 H5 H6 H7 H8 H9 H10].
        constructor; try done; rewrite ?Hev, ?Hh, ?Hc; unfold s1; get_set; try done; try lia.
        - apply Z.mod_pos_bound. lia.
        - rewrite H8, Zplus_mod_idemp_l. f_equal. lia.
        - intros i e Hi. rewrite lookup_drop in Hi. apply H10 in Hi. lia. }
      apply wp_ks_mod; [done|done|done|]. intros s2 Hok2 Hv2 Hc2 Hst2. split; [done|]. split; [lia|]. split; [done|].
      rewrite Hv2, decide_True by lia. unfold view at 1. rewrite Hev. done.
    - wp_step. split; [done|]. split; [lia|]. split; [done|]. rewrite decide_False by lia. by destruct (view s). }
  intros [] s1 (Hok1 & Hc1 & Hst1 & Hv1). do 8 wp_step. wp_step.
  pose proof (io_queue s1 Hok1) as Hq. pose proof (io_etail s1 Hok1) as Ht. pose proof (Z.mod_pos_bound (input_event_head s1 + input_event_count s1) 64 ltac:(lia)).
  apply wp_array_put; [lia|]. do 2 wp_step.
  assert (Hnx : input_event_next_sequence s1 = input_event_next_sequence s) by exact (f_equal dr_next Hv1).
  destruct (queue_store_ok s1 {| ie_type := 1; ie_code := code; ie_value := value; ie_flags := flags; ie_tick := timer_ticks s1;
     ie_sequence := input_event_next_sequence s1 |} Hok1 Hc1 ltac:(lia) eq_refl) as [Hok2 Hring].
  set (s2 := s1 <| input_event_queue := _ |> <| input_event_next_sequence ::= _ |> <| input_event_tail ::= _ |> <| input_event_count ::= _ |>) in *.
  assert (Hv2 : view s2 = driver_event code value flags (view s)).
  { assert (Hc2 : input_event_count s2 = input_event_count s1 + 1) by (unfold s2; get_set; rewrite incr_small; [done|destruct Hok1; lia]).
    assert (Hn2 : input_event_next_sequence s2 = input_event_next_sequence s1 + 1) by (unfold s2; get_set; rewrite incr_small; [done|destruct Hok1; lia]).
    rewrite driver_event_eq, last64_app by lia.
    unfold view at 1. rewrite Hc2, Hn2. change (input_event_queue s2) with (<[Z.to_nat (input_event_tail s1) := {| ie_type := 1; ie_code := code;
      ie_value := value; ie_flags := flags; ie_tick := timer_ticks s1; ie_sequence := input_event_next_sequence s1 |}]> (input_event_queue s1)).
    change (input_event_head s2) with (input_event_head s1). rewrite Hring.
    change (ring_items 64 (input_event_queue s1) (input_event_head s1) (input_event_count s1)) with (dr_events (view s1)).
    change (timer_ticks s1) with (dr_ticks (view s1)). change (input_event_next_sequence s1) with (dr_next (view s1)).
    change (ring_items 128 (keyboard_buffer s2) (keyboard_buffer_head s2) (keyboard_buffer_count s2)) with (dr_typed (view s1)).
    change (ks_shift_pressed (keyboard64_state s2)) with (dr_shift (view s1)).
    change (ks_initialized (keyboard64_state s2)) with (dr_initialized (view s1)).
    change (timer_ticks s2) with (dr_ticks (view s1)). rewrite Hv1. done. }
  do 2 wp_step. wp_step. apply wp_ks_mod; [done|done|done|]. intros s3 Hok3 Hv3 _ Hst3.
  apply event_bounds_ok; [done|]. intros s4 Hok4 Hv4 Hst4. apply HQ; [done|congruence|].
  rewrite Hst4, Hst3. change (irq_self_test_active s2) with (irq_self_test_active s1). done.
Qed.

(** ** Typed characters *)

Lemma buffer_push_ok s ascii (Q : unit -> input64 -> Prop) :
  input64_ok s ->
  (forall s', input64_ok s' -> view s' = driver_type ascii (view s) ->
     irq_self_test_active s' = irq_self_test_active s -> Q tt s') ->
  wp (keyboard_buffer_push ascii) Q s.
Proof.
  intros Hok HQ. unfold keyboard_buffer_push, X86_64_KEYBOARD_BUFFER_CAPACITY. wp_step. wp_step.
  pose proof (length_typed s Hok) as Hlen. pose proof Hok as [H1 H2 H3 H4 H5 H6 H7 H8 H9 H10].
  unfold driver_type in HQ. destruct (Z.leb_spec 128 (keyboard_buffer_count s)) as [Hfull|Hroom].
  - rewrite decide_False in HQ by lia. apply wp_ks_mod; [done|done|done|]. intros s' Hok' Hv _ Hst. by apply HQ.
  - rewrite decide_True in HQ by lia. do 5 wp_step.
    pose proof (Z.mod_pos_bound (keyboard_buffer_head s + keyboard_buffer_count s) 128 ltac:(lia)).
    apply wp_array_put; [lia|]. do 2 wp_step.
    set (s1 := s <| keyboard_buffer := _ |> <| keyboard_buffer_tail ::= _ |> <| keyboard_buffer_count ::= _ |>).
    assert (Hc : keyboard_buffer_count s1 = keyboard_buffer_count s + 1) by (unfold s1; get_set; rewrite incr_small; lia).
    assert (Hring : ring_items 128 (keyboard_buffer s1) (keyboard_buffer_head s1) (keyboard_buffer_count s1)
      = dr_typed (view s) ++ [ascii]).
    { rewrite Hc. unfold s1. get_set. rewrite H4. apply ring_push; lia. }
    assert (Hok1 : input64_ok s1).
    { constructor; try done; rewrite ?Hc; unfold s1; get_set; rewrite ?length_insert; try done; try lia.
      rewrite H4, u32_small by (unfold is_u32; lia). rewrite Zplus_mod_idemp_l. f_equal. lia. }
    assert (Hv1 : view s1 = (view s) <| dr_typed ::= fun l => l ++ [ascii] |>) by (unfold view at 1; by rewrite Hring).
    do 2 wp_step. apply wp_ks_mod; [done|done|done|]. intros s2 Hok2 Hv2 _ Hst2. apply HQ; [done|congruence|done].
Qed.

Lemma translate_ok s scancode (Q : Z -> input64 -> Prop) :
  0 <= scancode < 128 -> Q (translate (ks_shift_pressed (keyboard64_state s)) scancode) s ->
  wp (keyboard_translate_scancode scancode) Q s.
Proof.
  intros Hs HQ. unfold keyboard_translate_scancode, translate in *. rewrite (proj2 (Z.leb_gt 128 scancode)) by lia. do 2 wp_step.
  assert (H1 : (Z.to_nat scancode < length scancode_ascii_map)%nat) by (change (length scancode_ascii_map) with 128%nat; lia).
  assert (H2 : (Z.to_nat scancode < length scancode_shift_ascii_map)%nat) by (change (length scancode_shift_ascii_map) with 128%nat; lia).
  destruct (ks_shift_pressed (keyboard64_state s)).
  - eapply wp_array_at; [|exact HQ]. by apply list_lookup_lookup_total_lt.
  - eapply wp_array_at; [|exact HQ]. by apply list_lookup_lookup_total_lt.
Qed.

(** Setting the shift flag. *)
Lemma wp_ks_shift b f (Q : unit -> input64 -> Prop) s :
  input64_ok s -> ks_shift_pressed (f (keyboard64_state s)) = b ->
  ks_initialized (f (keyboard64_state s)) = ks_initialized (keyboard64_state s) ->
  (forall s', input64_ok s' -> view s' = (view s) <| dr_shift := b |> ->
     irq_self_test_active s' = irq_self_test_active s -> Q tt s') ->
  wp (ks_mod f) Q s.
Proof.
  intros [] Hs Hi HQ. unfold ks_mod. wp_step. apply HQ; [by constructor| |done]. unfold view at 1. get_set. by rewrite Hs, Hi.
Qed.

Lemma land_128 x : 0 <= x < 256 -> (Z.land x 0x80 =? 0) = (x <? 128).
Proof.
  intros Hx. destruct (Z.ltb_spec x 128) as [Hlt|Hge].
  - apply Z.eqb_eq. change 0x80 with (2 ^ 7). apply Z.bits_inj'. intros n Hn. rewrite Z.land_spec, Z.bits_0, Z.pow2_bits_eqb by lia.
    destruct (Z.eqb_spec 7 n) as [<-|]; [|apply andb_false_r]. rewrite andb_true_r.
    destruct (decide (x = 0)) as [->|]; [done|]. apply Z.bits_above_log2; [lia|]. apply Z.log2_lt_pow2; lia.
  - apply Z.eqb_neq. intros E. assert (Hb : Z.testbit (Z.land x (2 ^ 7)) 7 = true).
    { rewrite Z.land_spec, Z.pow2_bits_true, andb_true_r by lia. rewrite Z.testbit_odd, Z.shiftr_div_pow2 by lia.
      change (2 ^ 7) with 128. replace (x / 128) with 1 by (Z.div_mod_to_equations; lia). done. }
    change (2 ^ 7) with 0x80 in Hb. rewrite E in Hb. by rewrite Z.bits_0 in Hb.
Qed.

Lemma key_irq_ok s scancode (Q : bool -> input64 -> Prop) :
  input64_ok s -> 0 <= scancode < 256 -> input_event_next_sequence s < 4294967295 ->
  (forall s', input64_ok s' -> view s' = driver_key scancode (view s) ->
     irq_self_test_active s' = irq_self_test_active s -> Q true s') ->
  wp (keyboard_handle_irq scancode 33) Q s.
Proof.
  intros Hok Hs Hn HQ. unfold keyboard_handle_irq. change (negb (33 =? X86_64_IRQ_KEYBOARD_VECTOR)) with false. cbv iota. wp_step.
  apply wp_ks_mod; [done|done|done|]. intros s1 Hok1 Hv1 _ Hst1.
  assert (Hn1 : input_event_next_sequence s1 < 4294967295) by (by rewrite (f_equal dr_next Hv1 : input_event_next_sequence s1 = _)).
  rewrite <- Hv1 in HQ. unfold driver_key in HQ.
  change (Z.lor X86_64_INPUT_EVENT_FLAG_PRESSED X86_64_INPUT_EVENT_FLAG_SHIFT) with 5. change X86_64_INPUT_EVENT_FLAG_PRESSED with 1.
  change (Z.lor X86_64_INPUT_EVENT_FLAG_RELEASED X86_64_INPUT_EVENT_FLAG_SHIFT) with 6. change X86_64_INPUT_EVENT_FLAG_RELEASED with 2.
  assert (Hnext : forall s2, view s2 = view s1 \/ (exists b, view s2 = (view s1) <| dr_shift := b |>) -> input_event_next_sequence s2 < 4294967295).
  { intros s2 Hv. replace (input_event_next_sequence s2) with (input_event_next_sequence s1); [done|].
    destruct Hv as [Hv|[b Hv]]; by rewrite (f_equal dr_next Hv : input_event_next_sequence s2 = _). }
  destruct ((scancode =? 0x2A) || (scancode =? 0x36)).
  { wp_step. apply (wp_ks_shift true); [done|done|done|]. intros s2 Hok2 Hv2 Hst2. wp_step. apply event_push_ok; [done|eauto|].
    intros s3 Hok3 Hv3 Hst3. wp_step. apply HQ; [done|congruence|congruence]. }
  destruct ((scancode =? 0xAA) || (scancode =? 0xB6)).
  { wp_step. apply (wp_ks_shift false); [done|done|done|]. intros s2 Hok2 Hv2 Hst2. wp_step. apply event_push_ok; [done|eauto|].
    intros s3 Hok3 Hv3 Hst3. wp_step. apply HQ; [done|congruence|congruence]. }
  rewrite land_128 by done. destruct (Z.ltb_spec scancode 128) as [Hlt|Hge]; cbn [negb].
  2:{ rewrite (proj2 (Z.leb_le 128 scancode)) in HQ by lia. wp_step. apply wp_ks_mod; [done|done|done|].
      intros s2 Hok2 Hv2 _ Hst2. wp_step. apply event_push_ok; [done|eauto|].
      intros s3 Hok3 Hv3 Hst3. wp_step. apply HQ; [done|congruence|congruence]. }
  rewrite (proj2 (Z.leb_gt 128 scancode)) in HQ by lia. wp_step. apply wp_ks_mod; [done|done|done|]. intros s2 Hok2 Hv2 _ Hst2.
  wp_step. apply translate_ok; [lia|]. change (ks_shift_pressed (keyboard64_state s2)) with (dr_shift (view s2)). rewrite Hv2.
  set (ascii := translate (dr_shift (view s1)) scancode) in *. wp_step. apply wp_ks_mod; [done|done|done|]. intros s3 Hok3 Hv3 _ Hst3.
  wp_step. apply event_push_ok; [done|rewrite Hv2 in Hv3; eauto|]. intros s4 Hok4 Hv4 Hst4. wp_step. unfold mwhen.
  rewrite Hv3, Hv2 in Hv4. destruct (Z.eqb_spec ascii 0) as [E0|E0]; cbn [negb].
  - wp_step. wp_step. apply HQ; [done|done|congruence].
  - wp_step. apply wp_ks_mod; [done|done|done|]. intros s5 Hok5 Hv5 _ Hst5. apply buffer_push_ok; [done|].
    intros s6 Hok6 Hv6 Hst6. wp_step. apply HQ; [done|congruence|congruence].
Qed.

(** ** Interrupts *)

Lemma eoi_ok s vector (Q : unit -> input64 -> Prop) :
  input64_ok s ->
  (forall s', input64_ok s' -> view s' = view s -> irq_self_test_active s' = irq_self_test_active s -> Q tt s') ->
  wp (send_pic_eoi vector) Q s.
Proof.
  intros Hok HQ. unfold send_pic_eoi, outb. assert (Hout : forall s l, input64_ok s -> input64_ok (s <| in64_outs := l |>)).
  { intros t l []. by constructor. }
  wp_step. apply (wp_mono _ (fun _ s1 => input64_ok s1 /\ view s1 = view s /\ irq_self_test_active s1 = irq_self_test_active s)).
  { wp_step; [wp_step|]; split; try done. apply (Hout s (in64_outs s ++ [(X86_64_PIC2_COMMAND, X86_64_PIC_EOI)]) Hok). }
  intros [] s1 (Hok1 & Hv1 & Hst1). wp_step; [wp_step|]; apply HQ; try done.
  apply (Hout s1 (in64_outs s1 ++ [(X86_64_PIC1_COMMAND, X86_64_PIC_EOI)]) Hok1).
Qed.

(** What an interrupt does to the driver. *)
Definition driver_irq (scancode vector : Z) (d : driver) : driver :=
  if vector =? 32 then driver_tick d else if vector =? 33 then driver_key scancode d else d.

Lemma irq_ok s scancode vector (Q : unit -> input64 -> Prop) :
  input64_ok s -> irq_self_test_active s = false -> 0 <= scancode < 256 -> input_event_next_sequence s < 4294967295 ->
  (forall s', input64_ok s' -> view s' = driver_irq scancode vector (view s) -> irq_self_test_active s' = false -> Q tt s') ->
  wp (x86_64_irq_handler scancode vector) Q s.
Proof.
  intros Hok Hst Hs Hn HQ. unfold x86_64_irq_handler, driver_irq in *. wp_step. wp_step. rewrite Hst. cbn [negb]. wp_step.
  unfold timer_handle_irq, X86_64_IRQ_PIT_VECTOR. destruct (Z.eqb_spec vector 32) as [->|Hv32]; cbn [negb].
  - wp_step. wp_step. set (s1 := s <| timer_ticks ::= incr |>). do 2 wp_step.
    assert (Hok1 : input64_ok s1) by (destruct Hok; by constructor).
    unfold ti_mod. do 2 wp_step. wp_step. set (s2 := s1 <| timer64_state ::= _ |>).
    assert (Hok2 : input64_ok s2) by (destruct Hok1; by constructor).
    apply eoi_ok; [done|]. intros s3 Hok3 Hv3 Hst3. apply HQ; [done|by rewrite Hv3|by rewrite Hst3].
  - wp_step. wp_step. destruct (Z.eqb_spec vector 33) as [->|Hv33].
    + apply key_irq_ok; [done|done|done|]. intros s1 Hok1 Hv1 Hst1. apply eoi_ok; [done|].
      intros s2 Hok2 Hv2 Hst2. apply HQ; [done|congruence|congruence].
    + unfold keyboard_handle_irq, X86_64_IRQ_KEYBOARD_VECTOR. rewrite (proj2 (Z.eqb_neq vector 33)) by done. cbn [negb]. wp_step.
      wp_step. wp_step. set (s1 := s <| irq_delivery_count ::= incr |> <| last_irq_vector := vector |>).
      assert (Hok1 : input64_ok s1) by (destruct Hok; by constructor).
      cbn [mwhen]. apply eoi_ok; [done|]. intros s2 Hok2 Hv2 Hst2. apply HQ; [done|done|by rewrite Hst2].
Qed.

(** ** Reading characters *)

Lemma keyboard_read_step_ok s size bytes (buf firsts : list Z) buf0 typed :
  input64_ok s -> 0 <= size < 18446744073709551616 -> typed = firsts ++ dr_typed (view s) -> bytes = Z.of_nat (length firsts) ->
  bytes <= size -> size <= Z.of_nat (length buf0) -> buf = firsts ++ drop (length firsts) buf0 -> (length typed <= 128)%nat ->
  wp (keyboard_read_step size (bytes, buf)) (fun r s' => input64_ok s' /\ irq_self_test_active s' = irq_self_test_active s /\
    match r with
    | inl (bytes', buf') => bytes' = bytes + 1 /\ bytes' <= size /\ 0 < keyboard_buffer_count s /\
        keyboard_buffer_count s' = keyboard_buffer_count s - 1 /\
        exists c, typed = (firsts ++ [c]) ++ dr_typed (view s') /\ buf' = (firsts ++ [c]) ++ drop (length firsts + 1) buf0 /\
          view s' = (view s) <| dr_typed := dr_typed (view s') |>
    | inr (bytes', buf') => bytes' = bytes /\ buf' = buf /\ s' = s /\ (size <= bytes \/ dr_typed (view s) = [])
    end) s.
Proof.
  intros Hok Hsz Htyped Hbytes Hle Hbuf0 Hbuf Hlen. pose proof Hok as [H1 H2 H3 H4 H5 H6 H7 H8 H9 H10].
  unfold keyboard_read_step, X86_64_KEYBOARD_BUFFER_CAPACITY. do 2 wp_step.
  assert (Hl : Z.of_nat (length typed) = bytes + keyboard_buffer_count s).
  { rewrite Htyped, length_app, <- (length_typed s Hok). lia. }
  destruct (Z.ltb_spec bytes size) as [Hlt|Hge]; cbn [andb].
  2:{ wp_step. do 5 (split; [done|]). left. lia. }
  destruct (Z.ltb_spec 0 (keyboard_buffer_count s)) as [Hc|Hc].
  2:{ wp_step. do 5 (split; [done|]). right. apply length_zero_iff_nil. pose proof (length_typed s Hok). lia. }
  do 5 wp_step. eapply wp_array_at.
  { apply list_lookup_lookup_total_lt. lia. }
  wp_step. apply wp_array_put.
  { rewrite Hbuf, length_app, length_drop. lia. }
  do 3 wp_step. set (s1 := s <| keyboard_buffer_head ::= _ |> <| keyboard_buffer_count ::= _ |>).
  assert (Hh : keyboard_buffer_head s1 = (keyboard_buffer_head s + 1) mod 128) by (unfold s1; get_set; rewrite u32_small; [done|unfold is_u32; lia]).
  assert (Hc1 : keyboard_buffer_count s1 = keyboard_buffer_count s - 1) by (unfold s1; get_set; rewrite decr_small; lia).
  assert (Hok1 : input64_ok s1).
  { constructor; try done; rewrite ?Hh, ?Hc1; try lia.
    - apply Z.mod_pos_bound. lia.
    - change (keyboard_buffer_tail s1) with (keyboard_buffer_tail s). rewrite H4, Zplus_mod_idemp_l. f_equal. lia. }
  split; [done|]. split; [done|]. split; [unfold is_u64 in *; rewrite u64_small; [done|unfold is_u64; lia]|].
  split; [rewrite u64_small by (unfold is_u64; lia); lia|]. split; [done|]. split; [done|].
  exists (keyboard_buffer s !!! Z.to_nat (keyboard_buffer_head s)).
  assert (Hpop : dr_typed (view s) = (keyboard_buffer s !!! Z.to_nat (keyboard_buffer_head s)) :: dr_typed (view s1)).
  { cbn [view dr_typed]. rewrite Hh, Hc1. change (keyboard_buffer s1) with (keyboard_buffer s).
    rewrite (ring_pop 128 ltac:(lia)) by lia. by rewrite (Z.mod_small (keyboard_buffer_head s)) by lia. }
  split; [by rewrite Htyped, Hpop, <- app_assoc|]. split; [|done].
  rewrite Hbuf. replace (Z.to_nat bytes) with (length firsts + 0)%nat by lia. rewrite insert_app_r, <- app_assoc. f_equal.
  destruct (lookup_lt_is_Some_2 buf0 (length firsts)) as [y Hy]; [lia|]. rewrite (drop_S _ _ _ Hy), Nat.add_1_r. done.
Qed.

Lemma keyboard_read_ok s buf size :
  input64_ok s -> dr_initialized (view s) = true -> 0 < size <= Z.of_nat (length buf) -> Z.of_nat (length buf) < 18446744073709551616 ->
  wp (x86_64_keyboard_read (Some buf) size) (fun r s' =>
    let got := take (Z.to_nat size) (dr_typed (view s)) in
    r = (Z.of_nat (length got), Some (got ++ drop (length got) buf)) /\ input64_ok s' /\
    view s' = (view s) <| dr_typed := drop (Z.to_nat size) (dr_typed (view s)) |> /\
    irq_self_test_active s' = irq_self_test_active s) s.
Proof.
  intros Hok Hin Hs Hb. unfold x86_64_keyboard_read. do 2 wp_step.
  change (ks_initialized (keyboard64_state s)) with (dr_initialized (view s)). rewrite Hin, (proj2 (Z.eqb_neq size 0)) by lia. cbn [negb orb].
  wp_step. apply wp_ks_mod; [done|done|done|]. intros s1 Hok1 Hv1 _ Hst1.
  assert (Hlen : (length (dr_typed (view s)) <= 128)%nat) by (pose proof (length_typed s Hok); destruct Hok; lia).
  wp_step. set (typed := dr_typed (view s)) in *.
  apply (wp_loop _ (fun '(bytes, b) s' => input64_ok s' /\ irq_self_test_active s' = irq_self_test_active s /\
      exists firsts, typed = firsts ++ dr_typed (view s') /\ bytes = Z.of_nat (length firsts) /\ bytes <= size /\
        b = firsts ++ drop (length firsts) buf /\ view s' = (view s) <| dr_typed := dr_typed (view s') |>)
    (fun _ s' => keyboard_buffer_count s') (fun r s' => wp _ _ s')).
  - intros [bytes b] s2 (Hok2 & Hst2 & firsts & Ht & Hby & Hle & Hbuf & Hv2).
    eapply wp_mono; [eapply (keyboard_read_step_ok s2 size bytes b firsts buf typed); [done|lia|done|done|done|lia|done|done]|].
    intros [[bytes' b']|[bytes' b']] s3 (Hok3 & Hst3 & H).
    + destruct H as (-> & Hle' & Hpos & Hcnt & c & Hc & -> & Hv3). split.
      * split; [done|]. split; [congruence|]. exists (firsts ++ [c]). rewrite length_app. cbn [length]. split; [done|].
        split; [lia|]. split; [lia|]. split; [done|]. rewrite Hv3, Hv2. done.
      * pose proof (io_count s3 Hok3). lia.
    + destruct H as (-> & -> & -> & Hend). cbv beta iota.
      assert (Hgot : firsts = take (Z.to_nat size) typed /\ dr_typed (view s2) = drop (Z.to_nat size) typed).
      { destruct Hend as [Hend|Hend].
        - assert (Hsz : Z.to_nat size = length firsts) by lia. rewrite Hsz, Ht. by rewrite take_app_length, drop_app_length.
        - rewrite Hend, app_nil_r in Ht. rewrite Ht. rewrite take_ge, drop_ge by lia. done. }
      destruct Hgot as [Hg1 Hg2]. do 3 wp_step. apply wp_ks_mod; [done|done|done|]. intros s4 Hok4 Hv4 _ Hst4. wp_step.
      cbv zeta. rewrite <- Hg1. subst b bytes. split; [done|]. split; [done|]. split; [|congruence].
      rewrite Hv4, Hv2, Hg2. done.
  - split; [done|]. split; [done|]. exists []. rewrite Hv1. cbn [app length]. rewrite drop_0. repeat split; try done; lia.
  - pose proof (io_count s1 Hok1). lia.
Qed.

(** ** Reading events *)

Lemma latest_sequence_ok s (Q : Z -> input64 -> Prop) :
  input64_ok s -> Q (dr_next (view s) - 1) s -> wp input_event_latest_sequence Q s.
Proof.
  intros Hok HQ. unfold input_event_latest_sequence. do 3 wp_step. destruct Hok.
  rewrite (proj2 (Z.eqb_neq _ 0)) by lia. rewrite u32_small by (unfold is_u32; lia). done.
Qed.

Lemma filter_elem_iff {A} (P1 P2 : A -> Prop) `{!forall x, Decision (P1 x), !forall x, Decision (P2 x)} (l : list A) :
  (forall x, x ∈ l -> P1 x <-> P2 x) -> filter P1 l = filter P2 l.
Proof.
  induction l as [|x l IH]; intros Hl; [done|]. rewrite !filter_cons, IH by (intros; apply Hl; by apply list_elem_of_further).
  specialize (Hl x (list_elem_of_here _ _)). repeat case_decide; tauto || done.
Qed.

(** What a reader with [cursor] gets. *)
Definition events_after (cursor : Z) (d : driver) : list x86_64_input_event :=
  filter (fun e => cursor < ie_sequence e) (dr_events d).

Lemma events_read_loop_ok s max cursor0 cc (evs : list x86_64_input_event) (Q : Z * Z * list x86_64_input_event -> input64 -> Prop) :
  input64_ok s -> 0 < max <= Z.of_nat (length evs) -> Z.of_nat (length evs) < 18446744073709551616 ->
  (let got := take (Z.to_nat max) (events_after cc (view s)) in
   Q (Z.of_nat (length got), match last got with Some e => ie_sequence e | None => cursor0 end, got ++ drop (length got) evs) s) ->
  wp (mloop (events_read_step max cc) (0, 0, cursor0, evs)) Q s.
Proof.
  intros Hok Hmax Hevs HQ. set (all := dr_events (view s)) in *.
  pose proof (length_events s Hok) as Hlen. fold all in Hlen. pose proof (io_ecount s Hok) as Hec.
  apply (wp_loop _ (fun '(i, count, cursor, b) s' => s' = s /\ 0 <= i <= input_event_count s /\
      let got := filter (fun e => cc < ie_sequence e) (take (Z.to_nat i) all) in
      (length got <= Z.to_nat max)%nat /\ count = Z.of_nat (length got) /\
      cursor = match last got with Some e => ie_sequence e | None => cursor0 end /\ b = got ++ drop (length got) evs)
    (fun '(i, _, _, _) _ => input_event_count s - i)).
  - intros [[[i count] cursor] b] s' (-> & Hi & Hgl & -> & -> & ->). unfold events_read_step. do 2 wp_step.
    set (got := filter (fun e => cc < ie_sequence e) (take (Z.to_nat i) all)) in *.
    destruct (Z.ltb_spec i (input_event_count s)) as [Hlt|Hge]; cbn [andb].
    2:{ wp_step. replace i with (input_event_count s) in got by lia. unfold got in *. rewrite (take_ge all) in * by lia.
        unfold events_after in HQ. fold all in HQ. rewrite take_ge in HQ by lia. exact HQ. }
    destruct (Z.ltb_spec (Z.of_nat (length got)) max) as [Hltm|Hgem].
    2:{ wp_step. unfold events_after in HQ. fold all in HQ.
        assert (Ht : take (Z.to_nat max) (filter (fun e => cc < ie_sequence e) all) = got).
        { rewrite <- (take_drop (Z.to_nat i) all), filter_app. fold got. replace (Z.to_nat max) with (length got) by lia. apply take_app_length. }
        rewrite Ht in HQ. exact HQ. }
    do 5 wp_step. rewrite u32_small by (destruct Hok; unfold is_u32; lia). unfold X86_64_INPUT_EVENT_QUEUE_CAPACITY.
    assert (He : all !! Z.to_nat i = Some (input_event_queue s !!! Z.to_nat ((input_event_head s + i) mod 64))).
    { unfold all. cbn [view dr_events]. apply ring_items_lookup. lia. }
    set (e := input_event_queue s !!! Z.to_nat ((input_event_head s + i) mod 64)) in *.
    eapply (wp_array_at _ _ e).
    { apply list_lookup_lookup_total_lt. pose proof (io_queue s Hok). pose proof (Z.mod_pos_bound (input_event_head s + i) 64 ltac:(lia)). lia. }
    assert (Hstep : filter (fun e => cc < ie_sequence e) (take (Z.to_nat (i + 1)) all) = got ++ filter (fun e => cc < ie_sequence e) [e]).
    { replace (Z.to_nat (i + 1)) with (S (Z.to_nat i)) by lia. by rewrite (take_S_r _ _ _ He), filter_app. }
    destruct (Z.ltb_spec cc (ie_sequence e)) as [Hsq|Hsq].
    + rewrite filter_cons_True, filter_nil in Hstep by done. wp_step.
      apply wp_array_put; [rewrite length_app, length_drop; lia|]. wp_step.
      rewrite u32_small by (unfold is_u32; lia). rewrite u64_small by (unfold is_u64; lia).
      split; [|lia]. split; [done|]. split; [lia|]. rewrite Hstep, length_app, last_snoc. cbn [length].
      split; [lia|]. split; [lia|]. split; [done|]. rewrite Nat2Z.id. replace (length got) with (length got + 0)%nat at 1 by lia.
      rewrite insert_app_r, <- app_assoc. f_equal.
      destruct (lookup_lt_is_Some_2 evs (length got)) as [y Hy]; [lia|]. rewrite (drop_S _ _ _ Hy), Nat.add_1_r. done.
    + rewrite filter_cons_False, filter_nil, app_nil_r in Hstep by lia. wp_step. rewrite u32_small by (unfold is_u32; lia).
      split; [|lia]. split; [done|]. split; [lia|]. by rewrite Hstep.
  - split; [done|]. split; [lia|]. change (take (Z.to_nat 0) all) with (@nil x86_64_input_event). rewrite filter_nil. cbn. rewrite drop_0.
    repeat split; try done. lia.
  - lia.
Qed.

Lemma events_read_ok s cursor evs max :
  input64_ok s -> dr_initialized (view s) = true -> 0 < max <= Z.of_nat (length evs) -> Z.of_nat (length evs) < 18446744073709551616 ->
  0 <= cursor < 4294967296 ->
  wp (x86_64_input_events_read_from cursor (Some evs) max) (fun r s' =>
    let got := take (Z.to_nat max) (events_after cursor (view s)) in
    let cursor' := match last got with
                   | Some e => ie_sequence e
                   | None => if decide (dr_events (view s) = []) then dr_next (view s) - 1 else cursor
                   end in
    r = (Z.of_nat (length got), cursor', Some (got ++ drop (length got) evs)) /\ input64_ok s' /\ view s' = view s /\
    irq_self_test_active s' = irq_self_test_active s) s.
Proof.
  intros Hok Hin Hmax Hevs Hcur. unfold x86_64_input_events_read_from. do 2 wp_step.
  change (ks_initialized (keyboard64_state s)) with (dr_initialized (view s)). rewrite Hin, (proj2 (Z.eqb_neq max 0)) by lia. cbn [negb orb].
  wp_step. apply wp_ks_mod; [done|done|done|]. intros s1 Hok1 Hv1 Hc1 Hst1. do 2 wp_step.
  pose proof (length_events s1 Hok1) as Hlen. rewrite Hv1 in Hlen.
  destruct (Z.eqb_spec (input_event_count s1) 0) as [E0|E0].
  - wp_step. apply latest_sequence_ok; [done|]. wp_step. apply wp_ks_mod; [done|done|done|]. intros s2 Hok2 Hv2 _ Hst2. wp_step.
    assert (Hnil : dr_events (view s) = []) by (apply length_zero_iff_nil; lia).
    unfold events_after. rewrite Hnil, filter_nil, take_nil. cbn [last length app]. rewrite drop_0, decide_True, Hv1 by done.
    split; [done|]. split; [done|]. split; [congruence|congruence].
  - assert (Hne : dr_events (view s) <> []) by (intros E; rewrite E in Hlen; cbn in Hlen; lia).
    pose proof (io_ecount s1 Hok1) as Hec. pose proof (io_ehead s1 Hok1) as Heh. pose proof (io_next s1 Hok1) as Hnx.
    do 5 wp_step. eapply wp_array_at; [apply list_lookup_lookup_total_lt; pose proof (io_queue s1 Hok1); lia|]. cbv zeta.
    set (first := input_event_queue s1 !!! Z.to_nat (input_event_head s1)).
    assert (Hfirst : ie_sequence first = input_event_next_sequence s1 - input_event_count s1).
    { rewrite (io_sequence s1 Hok1 0 first); [lia|]. pose proof (ring_items_lookup 64 (input_event_queue s1) (input_event_head s1) (input_event_count s1) 0 ltac:(lia)) as Hl.
      rewrite Z.add_0_r, (Z.mod_small (input_event_head s1)) in Hl by lia. exact Hl. }
    rewrite (u32_small (ie_sequence first - 1)) by (unfold is_u32; lia).
    set (cc := if cursor <? ie_sequence first - 1 then ie_sequence first - 1 else cursor).
    assert (Hsame : events_after cc (view s1) = events_after cursor (view s)).
    { rewrite Hv1. unfold events_after. apply filter_elem_iff. intros e He.
      rewrite <- Hv1 in He. apply list_elem_of_lookup in He as [i He]. apply (io_sequence s1 Hok1) in He.
      unfold cc. destruct (Z.ltb_spec cursor (ie_sequence first - 1)); lia. }
    wp_step. eapply events_read_loop_ok; [done|done|done|]. rewrite Hsame. cbv zeta beta iota. do 3 wp_step.
    apply latest_sequence_ok; [done|]. wp_step. apply wp_ks_mod; [done|done|done|]. intros s2 Hok2 Hv2 _ Hst2. wp_step.
    rewrite decide_False by done. split; [done|]. split; [done|]. split; congruence.
Qed.
