(* ===== verification/Input64Theorems.v ===== *)
(** * Input and timer of the 64-bit kernel: theorems *)
From S2P Require Import Prelude Word64 Input64 Input64Proofs.

(** ** Interleavings of interrupts and readers *)

(** An interrupt with the byte the keyboard's port gives, a read of at most [n]
    typed characters, or a read of at most [n] events past a cursor. *)
Inductive input_action :=
  | AIrq (scancode vector : Z)
  | ARead (n : nat)
  | APoll (cursor : Z) (n : nat).

(** What a reader gets: characters, or events and its new cursor. *)
Inductive input_answer :=
  | NoAnswer
  | Chars (l : list Z)
  | Events (l : list x86_64_input_event) (cursor : Z).

Definition run_action (a : input_action) : I64 input_answer :=
  match a with
  | AIrq scancode vector => x86_64_irq_handler scancode vector ;;; mret_ NoAnswer
  | ARead n =>
      r <- x86_64_keyboard_read (Some (replicate n 0)) (Z.of_nat n) ;;
      mret_ (Chars (take (Z.to_nat (fst r)) (default [] (snd r))))
  | APoll cursor n =>
      r <- x86_64_input_events_read_from cursor (Some (replicate n inhabitant)) (Z.of_nat n) ;;
      let '(count, cursor, events) := r in
      mret_ (Events (take (Z.to_nat count) (default [] events)) cursor)
  end.

Fixpoint run_actions (l : list input_action) : I64 (list input_answer) :=
  match l with
  | [] => mret_ []
  | a :: l => r <- run_action a ;; rs <- run_actions l ;; mret_ (r :: rs)
  end.

(** The same on the queues of the abstract driver. *)
Definition driver_action (a : input_action) (d : driver) : driver * input_answer :=
  match a with
  | AIrq scancode vector => (driver_irq scancode vector d, NoAnswer)
  | ARead n => (d <| dr_typed := drop n (dr_typed d) |>, Chars (take n (dr_typed d)))
  | APoll cursor n =>
      let got := take n (events_after cursor d) in
      (d, Events got (match last got with
                      | Some e => ie_sequence e
                      | None => if decide (dr_events d = []) then dr_next d - 1 else cursor
                      end))
  end.

Fixpoint driver_actions (l : list input_action) (d : driver) : driver * list input_answer :=
  match l with
  | [] => (d, [])
  | a :: l => let '(d1, r) := driver_action a d in let '(d2, rs) := driver_actions l d1 in (d2, r :: rs)
  end.

Definition action64_ok (a : input_action) : Prop :=
  match a with
  | AIrq scancode _ => 0 <= scancode < 256
  | ARead n => 0 < Z.of_nat n < 18446744073709551616
  | APoll cursor n => 0 <= cursor < 4294967296 /\ 0 < Z.of_nat n < 18446744073709551616
  end.
#[export] Instance action_ok_dec a : Decision (action64_ok a).
Proof. destruct a; apply _. Defined.

(** The driver set up and outside its self test. *)
Definition driver_live (s : input64) : Prop :=
  input64_ok s /\ dr_initialized (view s) = true /\ irq_self_test_active s = false.

Lemma driver_key_fields scancode d :
  dr_initialized (driver_key scancode d) = dr_initialized d /\ dr_next (driver_key scancode d) = dr_next d + 1.
Proof.
  unfold driver_key, driver_type. repeat (case_match; cbn; try done).
Qed.

Lemma driver_irq_fields scancode vector d :
  dr_initialized (driver_irq scancode vector d) = dr_initialized d /\
  dr_next d <= dr_next (driver_irq scancode vector d) <= dr_next d + 1.
Proof.
  unfold driver_irq. case_match; [split; cbn; [done|lia]|]. case_match; [|split; cbn; [done|lia]].
  destruct (driver_key_fields scancode d) as [-> ->]. split; [done|lia].
Qed.

Lemma run_action_ok a s :
  driver_live s -> action64_ok a -> input_event_next_sequence s < 4294967295 ->
  wp (run_action a) (fun r s' => driver_live s' /\ (view s', r) = driver_action a (view s) /\
    input_event_next_sequence s' <= input_event_next_sequence s + 1) s.
Proof.
  intros (Hok & Hin & Hst) Ha Hn. destruct a as [sc v|n|cursor n]; cbn [run_action driver_action action64_ok] in *.
  - wp_step. apply irq_ok; [done|done|done|done|]. intros s' Hok' Hv' Hst'. wp_step.
    pose proof (driver_irq_fields sc v (view s)) as [Hi Hx]. rewrite <- Hv' in Hi, Hx.
    split; [split; [done|split; [congruence|done]]|]. split; [by rewrite Hv'|]. exact (proj2 Hx).
  - wp_step. eapply wp_mono; [apply keyboard_read_ok; rewrite ?length_replicate; try done; lia|].
    intros r s' H. cbv zeta in H. destruct H as (-> & Hok' & Hv' & Hst'). wp_step. cbn [fst snd default id]. rewrite !Nat2Z.id in *.
    rewrite take_app_length.
    split; [split; [done|split; [by rewrite Hv'|congruence]]|]. split; [by rewrite Hv'|].
    rewrite (f_equal dr_next Hv' : input_event_next_sequence s' = _). cbn. lia.
  - wp_step. destruct Ha as [Hc Hn0]. eapply wp_mono; [apply events_read_ok; rewrite ?length_replicate; try done; lia|].
    intros r s' H. cbv zeta in H. destruct H as (-> & Hok' & Hv' & Hst'). wp_step. cbn [default id]. rewrite !Nat2Z.id, take_app_length.
    split; [split; [done|split; [by rewrite Hv'|congruence]]|]. split; [by rewrite Hv'|].
    rewrite (f_equal dr_next Hv' : input_event_next_sequence s' = _). cbn. lia.
Qed.

Lemma run_actions_ok l s :
  driver_live s -> Forall action64_ok l -> input_event_next_sequence s + Z.of_nat (length l) < 4294967296 ->
  wp (run_actions l) (fun rs s' => driver_live s' /\ (view s', rs) = driver_actions l (view s)) s.
Proof.
  intros Hlive Hl Hn. revert s Hlive Hn. induction Hl as [|a l Ha Hl IH]; intros s Hlive Hn; cbn [run_actions driver_actions length] in *.
  - by apply wp_ret.
  - wp_step. eapply wp_mono; [apply run_action_ok; [done|done|lia]|]. intros r s1 (Hlive1 & <- & Hn1).
    wp_step. eapply wp_mono; [apply IH; [done|lia]|]. intros rs s2 (Hlive2 & <-). wp_step. done.
Qed.

(** C21: in every interleaving of interrupts with the calls of the readers, the rings
    of the input driver behave as queues: each call returns what the abstract
    driver's does, whose typed characters are a queue of 128 places that refuses
    characters when it is full and whose events are the last 64, and afterwards the
    rings hold that driver's queues. *)
Theorem input64_refines_queues l s
    (Hlive : driver_live s) (Hl : Forall action64_ok l)
    (Hn : input_event_next_sequence s + Z.of_nat (length l) < 4294967296) :
  wp (run_actions l) (fun rs s' => driver_live s' /\ (view s', rs) = driver_actions l (view s)) s.
Proof. by apply run_actions_ok. Qed.

(** ** A reader of events *)

Definition irqs (l : list (Z * Z)) : list input_action := (fun '(scancode, vector) => AIrq scancode vector) <$> l.

(** The scancodes of the keyboard's interrupts among [l]. *)
Definition key_codes (l : list (Z * Z)) : list Z := fst <$> filter (fun i => snd i = 33) l.

(** A reader that asks for up to 64 events after each batch of interrupts, with
    the cursor the last call left. *)
Fixpoint reader_session (cursor : Z) (batches : list (list (Z * Z))) : I64 (list (list Z)) :=
  match batches with
  | [] => mret_ []
  | b :: bs =>
      run_actions (irqs b) ;;;
      r <- x86_64_input_events_read_from cursor (Some (replicate 64 inhabitant)) 64 ;;
      let '(count, cursor, events) := r in
      rest <- reader_session cursor bs ;;
      mret_ ((ie_code <$> take (Z.to_nat count) (default [] events)) :: rest)
  end.

Lemma last64_short {A} (l : list A) : (length l <= 64)%nat -> last64 l = l.
Proof. intros. unfold last64. by replace (length l - 64)%nat with 0%nat by lia. Qed.

Lemma last64_length {A} (l : list A) : (length (last64 l) <= 64)%nat.
Proof. unfold last64. rewrite length_drop. lia. Qed.

Lemma last64_last64 {A} (l k : list A) : last64 (last64 l ++ k) = last64 (l ++ k).
Proof.
  unfold last64. rewrite !length_app, length_drop. destruct (decide (length l <= 64)%nat) as [Hl|Hl].
  { replace (length l - 64)%nat with 0%nat by lia. rewrite drop_0. f_equal. lia. }
  rewrite <- drop_app_le by lia. rewrite drop_drop. f_equal. lia.
Qed.

Lemma last64_fmap {A B} (f : A -> B) l : f <$> last64 l = last64 (f <$> l).
Proof. unfold last64. by rewrite fmap_drop, length_fmap. Qed.

(** The numbering of the events of a driver, and what [new] adds to it. *)
Definition added (d d' : driver) (new : list x86_64_input_event) : Prop :=
  dr_events d' = last64 (dr_events d ++ new) /\ dr_next d' = dr_next d + Z.of_nat (length new) /\
  ie_sequence <$> new = seqZ (dr_next d) (Z.of_nat (length new)).

Lemma added_trans d1 d2 d3 n1 n2 : added d1 d2 n1 -> added d2 d3 n2 -> added d1 d3 (n1 ++ n2).
Proof.
  intros (E1 & X1 & S1) (E2 & X2 & S2). split; [by rewrite E2, E1, last64_last64, app_assoc|].
  rewrite length_app, Nat2Z.inj_add. split; [lia|]. rewrite fmap_app, S1, S2, X1, seqZ_app by lia. done.
Qed.

Lemma driver_key_added scancode d : exists e, ie_code e = scancode /\ added d (driver_key scancode d) [e].
Proof.
  unfold driver_key, driver_type, added.
  repeat (case_match; try (eexists; split; [|split; [reflexivity|split; reflexivity]]; reflexivity)).
Qed.

Lemma driver_irq_added scancode vector d :
  (length (dr_events d) <= 64)%nat ->
  exists new, ie_code <$> new = key_codes [(scancode, vector)] /\ added d (driver_irq scancode vector d) new.
Proof.
  intros Hl. assert (Hnil : forall d', dr_events d' = dr_events d -> dr_next d' = dr_next d -> added d d' []).
  { intros d' He Hx. split; [by rewrite app_nil_r, last64_short|]. split; [cbn; lia|done]. }
  unfold driver_irq, key_codes. rewrite filter_cons, filter_nil. cbn [snd].
  destruct (Z.eqb_spec vector 32) as [->|]; [exists []; split; [done|by apply Hnil]|].
  destruct (Z.eqb_spec vector 33) as [->|]; [|exists []; rewrite decide_False by done; split; [done|by apply Hnil]].
  rewrite decide_True by done. destruct (driver_key_added scancode d) as (e & <- & Ha). by exists [e].
Qed.

Lemma driver_irqs_added l d :
  (length (dr_events d) <= 64)%nat ->
  exists new, ie_code <$> new = key_codes l /\ added d (fst (driver_actions (irqs l) d)) new.
Proof.
  revert d. induction l as [|[sc v] l IH]; intros d Hl.
  - exists []. split; [done|]. split; [cbn; by rewrite app_nil_r, last64_short|]. split; [cbn; lia|done].
  - destruct (driver_irq_added sc v d Hl) as (n1 & C1 & A1).
    destruct (IH (driver_irq sc v d)) as (n2 & C2 & A2); [rewrite (proj1 A1); apply last64_length|].
    exists (n1 ++ n2). split.
    + rewrite fmap_app, C1, C2. unfold key_codes. rewrite <- fmap_app, <- filter_app. done.
    + change (irqs ((sc, v) :: l)) with (AIrq sc v :: irqs l). cbn [driver_actions driver_action].
      destruct (driver_actions (irqs l) (driver_irq sc v d)) as [d2 rs] eqn:E. cbn [fst] in *. by eapply added_trans.
Qed.

Lemma filter_all {A} (P : A -> Prop) `{!forall x, Decision (P x)} (l : list A) : (forall x, x ∈ l -> P x) -> filter P l = l.
Proof.
  induction l as [|x l IH]; intros Hl; [done|]. rewrite filter_cons_True by (apply Hl, list_elem_of_here).
  f_equal. apply IH. intros y Hy. by apply Hl, list_elem_of_further.
Qed.

Lemma filter_none {A} (P : A -> Prop) `{!forall x, Decision (P x)} (l : list A) : (forall x, x ∈ l -> ~ P x) -> filter P l = [].
Proof.
  induction l as [|x l IH]; intros Hl; [done|]. rewrite filter_cons_False by (apply Hl, list_elem_of_here).
  apply IH. intros y Hy. by apply Hl, list_elem_of_further.
Qed.

Lemma elem_of_drop_lookup {A} (x : A) n l : x ∈ drop n l -> exists i, l !! i = Some x.
Proof. intros Hx. apply list_elem_of_lookup in Hx as [i Hi]. rewrite lookup_drop in Hi. eauto. Qed.

(** What is past the cursor of a reader that had seen everything. *)
Lemma added_after d d' new :
  (length (dr_events d) <= 64)%nat -> (forall e, e ∈ dr_events d -> ie_sequence e < dr_next d) -> added d d' new ->
  events_after (dr_next d - 1) d' = last64 new.
Proof.
  intros Hl Hold (He & Hx & Hs). unfold events_after. rewrite He. unfold last64. rewrite drop_app, filter_app.
  rewrite filter_none by (intros e Hin; apply elem_of_drop_lookup in Hin as [i Hi]; apply list_elem_of_lookup_2, Hold in Hi; lia).
  rewrite filter_all.
  - cbn [app]. f_equal. rewrite length_app. lia.
  - intros e Hin. apply elem_of_drop_lookup in Hin as [i Hi]. assert (Hsi : (ie_sequence <$> new) !! i = Some (ie_sequence e)) by (by rewrite list_lookup_fmap, Hi).
    rewrite Hs in Hsi. apply lookup_seqZ in Hsi as [-> _]. lia.
Qed.

(** The cursor such a reader is left with. *)
Lemma added_cursor d d' new :
  added d d' new -> last (last64 new) = last new /\
  match last new with Some e => ie_sequence e = dr_next d' - 1 | None => dr_next d' = dr_next d end.
Proof.
  intros (He & Hx & Hs). destruct new as [|e new _] using rev_ind; [split; [done|cbn in *; lia]|].
  split.
  - unfold last64. rewrite drop_app_le by (rewrite length_app; cbn; lia). by rewrite !last_snoc.
  - rewrite last_snoc. rewrite length_app in *. cbn [length] in *.
    assert (Hsi : (ie_sequence <$> new ++ [e]) !! length new = Some (ie_sequence e)) by (by rewrite list_lookup_fmap, list_lookup_middle).
    rewrite Hs in Hsi. apply lookup_seqZ in Hsi as [-> _]. lia.
Qed.

Lemma events_numbered s e : input64_ok s -> e ∈ dr_events (view s) -> ie_sequence e < dr_next (view s).
Proof.
  intros Hok He. apply list_elem_of_lookup in He as [i Hi]. pose proof (lookup_lt_Some _ _ _ Hi) as Hlt.
  pose proof (length_events s Hok). apply (io_sequence s Hok) in Hi. cbn [view dr_next]. lia.
Qed.

Lemma irqs_ok l : Forall (fun i => 0 <= fst i < 256) l -> Forall action64_ok (irqs l).
Proof. intros Hl. apply Forall_fmap. eapply Forall_impl; [exact Hl|]. by intros [sc v]. Qed.

(** C36: a reader of events misses nothing it could have been given and sees nothing
    twice: starting with the cursor of the latest event, each of its calls returns the
    scancodes of the keyboard interrupts since its previous call, in order, all of
    them when there were at most 64 and the last 64 otherwise. *)
Theorem input64_reader_gets_each_event batches s
    (Hlive : driver_live s) (Hsc : Forall (Forall (fun i => 0 <= fst i < 256)) batches)
    (Hn : input_event_next_sequence s + Z.of_nat (length (concat batches)) < 4294967296) :
  wp (reader_session (input_event_next_sequence s - 1) batches)
     (fun got s' => got = (fun b => last64 (key_codes b)) <$> batches /\ driver_live s') s.
Proof.
  revert s Hlive Hn. induction Hsc as [|b bs Hb Hbs IH]; intros s Hlive Hn; [by apply wp_ret|].
  cbn [reader_session]. cbn [concat] in Hn. rewrite length_app in Hn.
  assert (Hlen : length (irqs b) = length b) by apply length_fmap.
  wp_step. eapply wp_mono; [apply run_actions_ok; [done|by apply irqs_ok|lia]|].
  intros rs s1 (Hlive1 & Hv1). pose proof Hlive as (Hok & _). pose proof Hlive1 as (Hok1 & Hin1 & Hst1).
  destruct (driver_irqs_added b (view s)) as (new & Hnew & Hadd).
  { pose proof (length_events s Hok). destruct Hok. lia. }
  rewrite <- Hv1 in Hadd. cbn [fst] in Hadd. wp_step.
  assert (Hgot : events_after (input_event_next_sequence s - 1) (view s1) = last64 new).
  { apply (added_after (view s)); [pose proof (length_events s Hok); destruct Hok; lia| |done]. intros e. by apply events_numbered. }
  assert (Hbl : (length new <= length b)%nat).
  { rewrite <- (length_fmap ie_code), Hnew. unfold key_codes. rewrite length_fmap. apply length_filter. }
  pose proof Hadd as (_ & Hx & _). cbn [view dr_next] in Hx.
  eapply wp_mono; [apply (events_read_ok s1); rewrite ?length_replicate; try done; pose proof (io_next s Hok); pose proof (io_ecount s Hok); lia|].
  intros r s2 H. cbv zeta in H. destruct H as (-> & Hok2 & Hv2 & Hst2). rewrite Hgot in *. change (Z.to_nat 64) with 64%nat.
  rewrite (take_ge (last64 new)) by apply last64_length. cbn [default id]. rewrite Nat2Z.id, take_app_length.
  assert (Hcur : match last (last64 new) with
                 | Some e => ie_sequence e
                 | None => if decide (dr_events (view s1) = []) then dr_next (view s1) - 1 else input_event_next_sequence s - 1
                 end = input_event_next_sequence s2 - 1).
  { change (input_event_next_sequence s2) with (dr_next (view s2)). rewrite Hv2. destruct (added_cursor _ _ _ Hadd) as [-> Hc].
    destruct (last new); [done|]. cbn [view dr_next] in *. case_decide; lia. }
  rewrite Hcur. wp_step. eapply wp_mono; [apply IH; [split; [done|split; [by rewrite Hv2|congruence]]|]|].
  { change (input_event_next_sequence s2) with (dr_next (view s2)). rewrite Hv2. cbn [view dr_next]. lia. }
  intros got s3 (-> & Hlive3). wp_step. split; [|done]. cbn [fmap list_fmap]. f_equal. by rewrite last64_fmap, Hnew.
Qed.

(** ** Setting the driver up *)

(** Arrays of the declared sizes, as at boot. *)
Definition driver_arrays (s : input64) : Prop :=
  length (keyboard_buffer s) = 128%nat /\ length (input_event_queue s) = 64%nat /\ irq_self_test_active s = false.

(** The rings and the flag of the self test. *)
Definition rings (s : input64) :=
  (keyboard_buffer s, keyboard_buffer_head s, keyboard_buffer_tail s, keyboard_buffer_count s,
   (input_event_queue s, input_event_head s, input_event_tail s, input_event_count s, input_event_next_sequence s),
   irq_self_test_active s).

Lemma wp_ks_rings f (Q : unit -> input64 -> Prop) s b :
  (forall st, ks_initialized st = b -> ks_initialized (f st) = true) -> ks_initialized (keyboard64_state s) = b ->
  (forall s', rings s' = rings s -> ks_initialized (keyboard64_state s') = true -> Q tt s') -> wp (ks_mod f) Q s.
Proof. intros Hf Hb HQ. unfold ks_mod. wp_step. apply HQ; [done|]. by apply Hf. Qed.

Lemma wp_outb_rings port v (Q : unit -> input64 -> Prop) s :
  (forall s', rings s' = rings s -> keyboard64_state s' = keyboard64_state s -> Q tt s') -> wp (outb port v) Q s.
Proof. intros HQ. unfold outb. wp_step. by apply HQ. Qed.

Lemma keyboard_initialize_ok port_value s :
  driver_arrays s ->
  wp (x86_64_keyboard_initialize port_value) (fun _ s' => driver_live s' /\ input_event_next_sequence s' = 1) s.
Proof.
  intros (Hb & Hq & Hst). unfold x86_64_keyboard_initialize, keyboard_buffer_reset, unmask_irq1, unmask_irq, inb. wp_step.
  eapply wp_ks_rings; [done|reflexivity|]. intros s1 H1 I1. do 3 wp_step. set (s2 := s1 <| keyboard_buffer_head := 0 |> <| keyboard_buffer_tail := 0 |> <| keyboard_buffer_count := 0 |>
    <| input_event_head := 0 |> <| input_event_tail := 0 |> <| input_event_count := 0 |> <| input_event_next_sequence := 1 |>).
  assert (H2 : rings s2 = (keyboard_buffer s, 0, 0, 0, (input_event_queue s, 0, 0, 0, 1), false)).
  { replace (keyboard_buffer s) with (keyboard_buffer s1) by (revert H1; unfold rings; congruence).
    replace (input_event_queue s) with (input_event_queue s1) by (revert H1; unfold rings; congruence).
    rewrite <- Hst. replace (irq_self_test_active s) with (irq_self_test_active s1) by (revert H1; unfold rings; congruence). reflexivity. }
  apply (wp_ks_rings _ _ s2 true); [done|exact I1|]. intros s3 H3 I3. do 7 wp_step.
  apply wp_outb_rings. intros s4 H4 I4. do 5 wp_step. rewrite <- I4 in I3.
  apply (wp_ks_rings _ _ s4 true); [done|done|]. intros s5 H5 I5. do 2 wp_step.
  apply (wp_ks_rings _ _ s5 true); [done|done|]. intros s6 H6 I6.
  rewrite H5, H4, H3, H2 in H6. unfold rings in H6. injection H6 as E1 E2 E3 E4 E5 E6 E7 E8 E9 E10.
  split; [|done]. split; [|done]. constructor; rewrite ?E1, ?E2, ?E3, ?E4, ?E5, ?E6, ?E7, ?E8, ?E9, ?Hb, ?Hq; try lia; done.
Qed.

Definition timer64_zero : x86_64_timer_state := Build_x86_64_timer_state false false false false 0 0 0 0 false false.
Definition keyboard64_zero : x86_64_keyboard_state := Build_x86_64_keyboard_state false false 0 0 0 0 false 0 0 0 0 0 0 0 0 0 0 0 0 0 0 false.
Definition input64_start : input64 :=
  {| timer_ticks := 0; timer64_state := timer64_zero; keyboard64_state := keyboard64_zero; keyboard_buffer := replicate 128 0;
     keyboard_buffer_head := 0; keyboard_buffer_tail := 0; keyboard_buffer_count := 0;
     input_event_queue := replicate 64 inhabitant; input_event_head := 0; input_event_tail := 0; input_event_count := 0;
     input_event_next_sequence := 0; irq_self_test_active := false; irq_delivery_count := 0; last_irq_vector := 0;
     legacy_cursor := 0; in64_outs := [] |}.

(** The state after [x86_64_keyboard_initialize], with ports that read as zero. *)
Definition input64_ready : input64 :=
  match x86_64_keyboard_initialize (fun _ _ => 0) input64_start with Some (_, s) => s | None => input64_start end.

Lemma input64_ready_live : driver_live input64_ready /\ input_event_next_sequence input64_ready = 1.
Proof.
  destruct (keyboard_initialize_ok (fun _ _ => 0) input64_start) as ([] & s' & E & Hl & Hn); [by repeat split|].
  unfold input64_ready. rewrite E. done.
Qed.

(** Shift, a letter, its release, a timer tick, then two readers. *)
Definition input64_typing : list input_action :=
  [AIrq 0x2A 33; AIrq 0x23 33; AIrq 0xAA 33; AIrq 0 32; AIrq 0x17 33; APoll 0 2; ARead 8; ARead 8].

Lemma input64_refines_queues_witness :
  wp (run_actions input64_typing) (fun rs _ => rs !! 6%nat = Some (Chars [72; 105]) /\ rs !! 7%nat = Some (Chars [])) input64_ready.
Proof.
  destruct input64_ready_live as [Hl Hn]. eapply wp_mono.
  - apply (input64_refines_queues input64_typing input64_ready Hl).
    + apply (bool_decide_unpack _). vm_compute. exact I.
    + rewrite Hn. vm_compute. reflexivity.
  - intros rs s' (_ & H). assert (E : rs = snd (driver_actions input64_typing (view input64_ready))) by (by rewrite <- H).
    rewrite E. split; vm_compute; reflexivity.
Defined.

Lemma input64_reader_gets_each_event_witness :
  wp (reader_session 0 [[(30, 33); (0, 32)]; []; [(31, 33); (32, 33)]]) (fun got _ => got = [[30]; []; [31; 32]]) input64_ready.
Proof.
  destruct input64_ready_live as [Hl Hn]. eapply wp_mono.
  - apply (input64_reader_gets_each_event [[(30, 33); (0, 32)]; []; [(31, 33); (32, 33)]] input64_ready Hl).
    + repeat constructor; cbn; lia.
    + rewrite Hn. vm_compute. reflexivity.
  - intros got s' (-> & _). vm_compute. reflexivity.
Defined.

(** ** Waiting for ticks *)

(** The timer interrupts of the first [n] spins. *)
Definition ticks_by (arrivals : Z -> nat) (n : Z) : Z := Z.of_nat (sum_list_with arrivals (seqZ 0 n)).

Lemma ticks_by_succ arrivals n : 0 <= n -> ticks_by arrivals (n + 1) = ticks_by arrivals n + Z.of_nat (arrivals n).
Proof.
  intros Hn. unfold ticks_by. rewrite seqZ_app, sum_list_with_app by lia. change (seqZ (0 + n) 1) with [Z.of_nat 0 + (0 + n)].
  cbn [sum_list_with]. change (Z.of_nat 0 + (0 + n)) with n. lia.
Qed.

Lemma timer_irq_ok s scancode (Q : unit -> input64 -> Prop) :
  irq_self_test_active s = false ->
  (forall s', timer_ticks s' = u32 (timer_ticks s + 1) -> irq_self_test_active s' = false -> Q tt s') ->
  wp (x86_64_irq_handler scancode 32) Q s.
Proof.
  intros Hst HQ. unfold x86_64_irq_handler. do 2 wp_step. rewrite Hst. wp_step. cbn [negb].
  unfold timer_handle_irq. change (negb (32 =? X86_64_IRQ_PIT_VECTOR)) with false. cbv iota. unfold ti_mod. do 6 wp_step.
  unfold send_pic_eoi, outb, mwhen. change ((X86_64_IRQ_VECTOR_BASE + 8 <=? 32) && _) with false.
  change ((X86_64_IRQ_VECTOR_BASE <=? 32) && _) with true. cbv iota. repeat wp_step. by apply HQ.
Qed.

Lemma timer_irqs_ok s n (Q : unit -> input64 -> Prop) :
  irq_self_test_active s = false -> is_u32 (timer_ticks s) ->
  (forall s', timer_ticks s' = u32 (timer_ticks s + Z.of_nat n) -> irq_self_test_active s' = false -> Q tt s') ->
  wp (mfor (replicate n tt) (fun _ => x86_64_irq_handler 0 X86_64_IRQ_PIT_VECTOR)) Q s.
Proof.
  intros Hst Ht HQ. apply (wp_for _ _ (fun l s' => timer_ticks s' = u32 (timer_ticks s + Z.of_nat (length l)) /\ irq_self_test_active s' = false)).
  - split; [|done]. cbn [length]. by rewrite Z.add_0_r, u32_small.
  - intros l x r s' _ (Ht' & Hst'). apply timer_irq_ok; [done|]. intros s'' Ht'' Hst''. split; [|done].
    rewrite Ht'', Ht', u32_add_l, length_app. f_equal. cbn. lia.
  - intros s' (Ht' & Hst'). rewrite length_replicate in Ht'. by apply HQ.
Qed.

(** The assignments after the loop, with the counter at its value after [n] spins. *)
Lemma wait_end s s1 arrivals ticks n :
  irq_self_test_active s = false -> timer_ticks s1 = u32 (timer_ticks s + ticks_by arrivals n) ->
  let counter n := u32 (timer_ticks s + ticks_by arrivals n) in
  let target := u32 (timer_ticks s + ticks) in
  0 <= n <= 200000000 /\ (n = 200000000 \/ target <= counter n) /\ (forall m, 0 <= m < n -> counter m < target) ->
  wp (now <- mget timer_ticks ;;
      ti_mod (fun st => st <| ti_ticks := now |> <| ti_waited_ticks := now [-] timer_ticks s |> <| ti_wait_ok := ticks <=? now [-] timer_ticks s |>) ;;;
      ti_mod (fun st => st <| ti_timer_ok := ti_initialized st && ti_irq0_unmasked st && ti_interrupts_enabled_after st && ti_wait_ok st |>))
    (fun _ s' => exists n, 0 <= n <= 200000000 /\ timer_ticks s' = counter n /\ (n = 200000000 \/ target <= counter n) /\
      (forall m, 0 <= m < n -> counter m < target) /\ ti_waited_ticks (timer64_state s') = u32 (ticks_by arrivals n) /\
      ti_wait_ok (timer64_state s') = (ticks <=? u32 (ticks_by arrivals n))) s1.
Proof.
  intros Hst Ht counter target (Hn & Hend & Hbefore). unfold ti_mod. do 5 wp_step. exists n. split; [done|]. split; [exact Ht|].
  split; [done|]. split; [done|]. cbn. rewrite Ht, u32_sub_l. by replace (timer_ticks s + ticks_by arrivals n - timer_ticks s) with (ticks_by arrivals n) by lia.
Qed.

(** C31: waiting for ticks ends whatever the interrupts do. It stops at the first spin
    at which the counter has reached the target, and after 200,000,000 spins when it
    never does, with exactly the interrupts of those spins counted; [wait_ok] says
    whether the counter moved far enough. *)
Theorem timer_wait_terminates arrivals ticks s
    (Hst : irq_self_test_active s = false) (Hs : is_u32 (timer_ticks s)) :
  let counter n := u32 (timer_ticks s + ticks_by arrivals n) in
  let target := u32 (timer_ticks s + ticks) in
  wp (x86_64_timer_wait_for_ticks arrivals ticks) (fun _ s' => exists n, 0 <= n <= 200000000 /\
    timer_ticks s' = counter n /\ (n = 200000000 \/ target <= counter n) /\
    (forall m, 0 <= m < n -> counter m < target) /\
    ti_waited_ticks (timer64_state s') = u32 (ticks_by arrivals n) /\
    ti_wait_ok (timer64_state s') = (ticks <=? u32 (ticks_by arrivals n))) s.
Proof.
  intros counter target. unfold x86_64_timer_wait_for_ticks. wp_step. wp_step. wp_step. fold target.
  assert (Hu : forall n, is_u32 (counter n)) by (intros; apply u32_range).
  apply (wp_loop _ (fun '(budget, n) s' => budget = 200000000 - n /\ 0 <= n <= 200000000 /\ timer_ticks s' = counter n /\
      irq_self_test_active s' = false /\ forall m, 0 <= m < n -> counter m < target) (fun '(budget, _) _ => budget)).
  - intros [budget n] s1 (-> & Hn & Ht & Hst1 & Hbefore). unfold timer_wait_step. wp_step. wp_step. rewrite Ht.
    destruct (Z.ltb_spec (counter n) target) as [Hlt|Hge]; [destruct (Z.ltb_spec 0 (200000000 - n)) as [Hb|Hb]|]; cbn [andb].
    + wp_step. apply timer_irqs_ok; [done|by rewrite Ht|]. intros s2 Ht2 Hst2. wp_step. rewrite u32_small by (unfold is_u32; lia).
      split; [|lia]. split; [lia|]. split; [lia|]. split.
      * rewrite Ht2, Ht. unfold counter. rewrite ticks_by_succ, u32_add_l, Z.add_assoc by lia. done.
      * split; [done|]. intros m Hm. destruct (decide (m = n)) as [->|]; [done|]. apply Hbefore. lia.
    + wp_step. apply (wait_end s s1 arrivals ticks n); [done|done|]. split; [lia|]. split; [left; lia|done].
    + wp_step. apply (wait_end s s1 arrivals ticks n); [done|done|]. split; [lia|]. split; [by right|done].
  - split; [lia|]. split; [lia|]. split; [unfold counter, ticks_by; cbn; by rewrite Z.add_0_r, u32_small|]. split; [done|]. intros; lia.
  - lia.
Qed.

Lemma timer_wait_terminates_witness :
  wp (x86_64_timer_wait_for_ticks (fun n => if n =? 2 then 5%nat else 0%nat) 5) (fun _ s' => timer_ticks s' = 5 /\ ti_wait_ok (timer64_state s') = true)
    input64_start.
Proof.
  eapply wp_mono; [apply (timer_wait_terminates (fun n => if n =? 2 then 5%nat else 0%nat) 5 input64_start); [done|unfold is_u32; cbn; lia]|].
  intros [] s' (n & Hn & Ht & Hend & Hbefore & _ & Hok). rewrite Ht, Hok. change (timer_ticks input64_start) with 0 in *.
  assert (Hsome : forall k, 0 <= k -> ticks_by (fun n => if n =? 2 then 5%nat else 0%nat) (3 + k) = 5).
  { intros k Hk. unfold ticks_by. rewrite seqZ_app, sum_list_with_app by lia.
    replace (sum_list_with _ (seqZ (0 + 3) k)) with 0%nat; [reflexivity|].
    assert (Hz : Forall (fun i => 3 <= i) (seqZ (0 + 3) k)) by (apply Forall_seqZ; intros; lia).
    induction Hz as [|i l Hi _ IH]; [done|]. cbn. rewrite (proj2 (Z.eqb_neq i 2)) by lia. exact IH. }
  assert (H3 : 3 <= n).
  { destruct (decide (3 <= n)) as [|Hlt]; [done|]. destruct Hend as [->|Hend]; [lia|].
    assert (Hcase : n = 0 \/ n = 1 \/ n = 2) by lia. destruct Hcase as [->|[->| ->]]; vm_compute in Hend; by destruct Hend. }
  replace n with (3 + (n - 3)) by lia. rewrite Hsome by lia. done.
Defined.

(** When the target wraps around the 32-bit counter the wait does not wait: it
    returns in the state of the counter it started in and reports failure, whatever
    interrupts would come. *)
Theorem timer_wait_wraps arrivals ticks s
    (Hs : is_u32 (timer_ticks s)) (Hticks : 0 < ticks < 4294967296) (Hwrap : 4294967296 <= timer_ticks s + ticks) :
  wp (x86_64_timer_wait_for_ticks arrivals ticks) (fun _ s' =>
    timer_ticks s' = timer_ticks s /\ ti_waited_ticks (timer64_state s') = 0 /\ ti_wait_ok (timer64_state s') = false) s.
Proof.
  unfold x86_64_timer_wait_for_ticks. wp_step. wp_step. wp_step.
  assert (Ht : u32 (timer_ticks s + ticks) = timer_ticks s + ticks - 4294967296) by u32_lia.
  apply wp_loop_first. unfold timer_wait_step. do 2 wp_step. rewrite Ht, (proj2 (Z.ltb_ge _ _)) by lia. cbn [andb]. wp_step.
  unfold ti_mod. do 5 wp_step. cbn. rewrite Z.sub_diag. split; [done|]. split; [done|]. apply Z.leb_gt. change (u32 0) with 0. lia.
Qed.

Definition input64_late : input64 := input64_start <| timer_ticks := 4294967290 |>.

Lemma timer_wait_wraps_witness :
  wp (x86_64_timer_wait_for_ticks (fun _ => 1%nat) 10) (fun _ s' => timer_ticks s' = 4294967290) input64_late.
Proof.
  eapply wp_mono; [apply (timer_wait_wraps (fun _ => 1%nat) 10 input64_late); cbn; unfold is_u32; lia|]. by intros [] s' (H & _).
Defined.
