(* ===== verification/Text64.v ===== *)
(** * Text buffers of the 64-bit kernel (arch/x86_64/process.c, syscall_dispatch.h)

    Both files build text the same way: characters are put at an offset that keeps
    counting when the buffer is full, so that what is written is a prefix. A buffer
    is the list of its bytes. *)
From S2P Require Import Prelude Word64 KString.

(** [append_char] and [x86_64_syscall_append_char]; the results are the buffer and
    the returned offset. *)
Definition append_char {S} (size value : Z) (l : list Z * Z) : M S (list Z * Z) :=
  let '(buffer, offset) := l in
  if offset [++] 1 <? size then
    buffer <- array_put buffer offset value ;; mret_ (buffer, offset [++] 1)
  else mret_ (buffer, offset [++] 1).

(** The loop ends at the terminating NUL. *)
Definition append_string {S} (size : Z) (value : list Z) (l : list Z * Z) : M S (list Z * Z) :=
  mfold (cstr value) (fun l c => append_char size c l) l.

(** The loop that fills [digits] and the loop that prints them backwards; the
    variables of the first are [value] and [digits[0..count)]. *)
Definition append_digits_step {S} (l : Z * list Z) : M S (Z * list Z + list Z) :=
  let '(value, digits) := l in
  if negb (value =? 0) && (Z.of_nat (length digits) <? 10) then
    mret_ (inl (value / 10, digits ++ [chr_0 + value mod 10]))
  else mret_ (inr digits).

Definition append_u32_decimal {S} (size value : Z) (l : list Z * Z) : M S (list Z * Z) :=
  if value =? 0 then append_char size chr_0 l
  else
    digits <- mloop append_digits_step (value, []) ;;
    mfold (rev digits) (fun l c => append_char size c l) l.

(** The end of a text: the terminating NUL inside the buffer. *)
Definition text_end {S} (size : Z) (l : list Z * Z) : M S (list Z) :=
  let '(buffer, offset) := l in
  if offset <? size then array_put buffer offset 0 else array_put buffer (size [--] 1) 0.

(** [copy_limited]: a bounded copy that always terminates. *)
Definition copy_limited_step {S} (dest_size : Z) (src : list Z) (l : Z * list Z) : M S (Z * list Z + (Z * list Z)) :=
  let '(i, dest) := l in
  if (i [+] 1 <? dest_size) && negb (char_at src (Z.to_nat i) =? 0) then
    dest <- array_put dest i (char_at src (Z.to_nat i)) ;; mret_ (inl (i [+] 1, dest))
  else mret_ (inr (i, dest)).

Definition copy_limited {S} (dest : list Z) (dest_size : Z) (src : option (list Z)) : M S (list Z) :=
  if dest_size =? 0 then mret_ dest
  else
    r <- match src with
         | Some src => mloop (copy_limited_step dest_size src) (0, dest)
         | None => mret_ (0, dest)
         end ;;
    let '(i, dest) := r in
    array_put dest i 0.

(** ** Reference: what a buffer holds *)

(** [buffer] with the text [t] in its first [size - 1] places. *)
Definition put_text (size : Z) (t buffer : list Z) : list Z :=
  let t' := take (Z.to_nat (size - 1)) t in t' ++ drop (length t') buffer.

(** ... and then the NUL. *)
Definition finish_text (size : Z) (t buffer : list Z) : list Z :=
  let t' := take (Z.to_nat (size - 1)) t in t' ++ 0 :: drop (length t' + 1) buffer.

Lemma insert_drop_app {A} (l : list A) (t : list A) x :
  (length t < length l)%nat -> <[length t := x]> (t ++ drop (length t) l) = t ++ x :: drop (length t + 1) l.
Proof.
  intros Hl. replace (length t) with (length t + 0)%nat at 1 by lia. rewrite insert_app_r. f_equal.
  destruct (lookup_lt_is_Some_2 l (length t) Hl) as [y Hy]. by rewrite (drop_S _ _ _ Hy), Nat.add_1_r.
Qed.

Lemma append_digits_ok {S} value (Q : list Z -> S -> Prop) s :
  0 <= value -> Q (vga_u32_buffer 10 value) s -> wp (mloop append_digits_step (value, [])) Q s.
Proof.
  intros Hv HQ.
  apply (wp_loop _ (fun '(v, d) s' => s' = s /\ 0 <= v /\ exists n, (length d + n = 10)%nat /\ d ++ vga_u32_buffer n v = vga_u32_buffer 10 value)
    (fun '(v, d) _ => 10 - Z.of_nat (length d))).
  - intros [v d] s' (-> & Hv' & n & Hn & Hd). unfold append_digits_step.
    destruct (Z.eqb_spec v 0) as [->|Hne]; cbn [negb andb].
    { wp_step. replace d with (vga_u32_buffer 10 value); [done|]. rewrite <- Hd. destruct n; by rewrite app_nil_r. }
    destruct (Z.ltb_spec (Z.of_nat (length d)) 10) as [Hlt|Hge].
    + wp_step. rewrite length_app. cbn [length]. split; [|lia]. split; [done|]. split; [apply Z.div_pos; lia|].
      destruct n as [|n]; [lia|]. exists n. split; [lia|]. rewrite <- app_assoc. cbn [vga_u32_buffer app] in *.
      rewrite (proj2 (Z.ltb_lt 0 v)) in Hd by lia. exact Hd.
    + wp_step. replace d with (vga_u32_buffer 10 value); [done|]. rewrite <- Hd. replace n with 0%nat by lia. by rewrite app_nil_r.
  - split; [done|]. split; [done|]. by exists 10%nat.
  - cbn. lia.
Qed.

Lemma vga_u32_buffer_length n v : (length (vga_u32_buffer n v) <= n)%nat.
Proof. revert v. induction n as [|n IH]; intros v; cbn; [lia|]. destruct (0 <? v); cbn; [|lia]. specialize (IH (v / 10)). lia. Qed.

Section Text.
Context {S : Type} (size : Z) (buffer : list Z).
Hypothesis size_ok : 0 <= size <= Z.of_nat (length buffer).
Hypothesis buffer_ok : Z.of_nat (length buffer) < 18446744073709551615.

(** Appending to the text [t]. *)
Definition text_state (t : list Z) : list Z * Z := (put_text size t buffer, Z.of_nat (length t)).

Lemma append_char_ok t c (Q : list Z * Z -> S -> Prop) s :
  Z.of_nat (length t) < 18446744073709551615 ->
  Q (text_state (t ++ [c])) s -> wp (append_char size c (text_state t)) Q s.
Proof using buffer_ok size_ok.
  intros Ht HQ. unfold append_char, text_state in *. rewrite u64_small by (unfold is_u64; lia).
  rewrite length_app in HQ. cbn [length] in HQ. rewrite Nat2Z.inj_add in HQ. change (Z.of_nat 1) with 1 in HQ. unfold put_text in *.
  destruct (Z.ltb_spec (Z.of_nat (length t) + 1) size) as [Hlt|Hge].
  - rewrite !take_ge in HQ by (rewrite ?length_app; cbn; lia). rewrite !take_ge by lia. wp_step. apply wp_array_put.
    { rewrite length_app, length_drop. lia. }
    wp_step. rewrite Nat2Z.id, insert_drop_app by lia.
    rewrite length_app, <- app_assoc in HQ. cbn [app length] in HQ. exact HQ.
  - rewrite take_app_le in HQ by lia. wp_step. exact HQ.
Qed.

Lemma append_chars_ok l t (Q : list Z * Z -> S -> Prop) s :
  Z.of_nat (length t) + Z.of_nat (length l) < 18446744073709551615 ->
  Q (text_state (t ++ l)) s -> wp (mfold l (fun l c => append_char size c l) (text_state t)) Q s.
Proof using buffer_ok size_ok.
  revert t. induction l as [|c l IH]; intros t Ht HQ; cbn [mfold length] in *.
  - apply wp_ret. by rewrite app_nil_r in HQ.
  - wp_step. apply append_char_ok; [lia|]. apply IH; [rewrite length_app; cbn; lia|]. by rewrite <- app_assoc.
Qed.

Lemma append_string_ok value t (Q : list Z * Z -> S -> Prop) s :
  Z.of_nat (length t) + Z.of_nat (length (cstr value)) < 18446744073709551615 ->
  Q (text_state (t ++ cstr value)) s -> wp (append_string size value (text_state t)) Q s.
Proof using buffer_ok size_ok. intros. by apply append_chars_ok. Qed.

Lemma append_u32_ok value t (Q : list Z * Z -> S -> Prop) s :
  0 <= value -> Z.of_nat (length t) < 18446744073709551600 ->
  Q (text_state (t ++ vga_write_u32 value)) s -> wp (append_u32_decimal size value (text_state t)) Q s.
Proof using buffer_ok size_ok.
  intros Hv Ht HQ. unfold append_u32_decimal, vga_write_u32 in *. destruct (Z.eqb_spec value 0) as [->|Hne].
  - apply append_char_ok; [lia|done].
  - wp_step. apply append_digits_ok; [done|]. apply append_chars_ok; [|done].
    rewrite length_rev. pose proof (vga_u32_buffer_length 10 value). lia.
Qed.

Lemma text_end_ok t (Q : list Z -> S -> Prop) s :
  0 < size -> Q (finish_text size t buffer) s -> wp (text_end size (text_state t)) Q s.
Proof using buffer_ok size_ok.
  intros Hs HQ. unfold text_end, text_state, finish_text, put_text in *.
  destruct (Z.ltb_spec (Z.of_nat (length t)) size) as [Hlt|Hge].
  - rewrite take_ge in * by lia. apply wp_array_put; [rewrite length_app, length_drop; lia|].
    rewrite Nat2Z.id, insert_drop_app by lia. exact HQ.
  - assert (Hl : length (take (Z.to_nat (size - 1)) t) = Z.to_nat (size - 1)) by (rewrite length_take; lia).
    rewrite u64_small by (unfold is_u64; lia). apply wp_array_put; [rewrite length_app, length_drop; lia|].
    rewrite <- Hl at 1. rewrite insert_drop_app by lia. exact HQ.
Qed.
End Text.

Lemma text_start size buffer : (buffer, 0) = text_state size buffer [].
Proof. unfold text_state, put_text. by rewrite take_nil. Qed.

Lemma text_length size buffer t : snd (text_state size buffer t) = Z.of_nat (length t).
Proof. reflexivity. Qed.
#[global] Opaque text_state.

(** ** Bounded copies *)

Lemma char_at_cstr src i c : cstr src !! i = Some c -> char_at src i = c /\ c <> 0.
Proof.
  revert i. induction src as [|x src IH]; intros i; cbn [cstr]; [done|]. destruct (Z.eqb_spec x 0) as [->|Hx]; [done|].
  destruct i as [|i]; cbn; [intros [= ->]; done|]. intros Hi. by apply IH.
Qed.

Lemma char_at_end src : char_at src (length (cstr src)) = 0.
Proof.
  induction src as [|x src IH]; cbn [cstr]; [done|]. destruct (Z.eqb_spec x 0) as [->|Hx]; [done|]. cbn. exact IH.
Qed.

(** A copy is the text cut to one less than the size, and the NUL. *)
Lemma copy_limited_ok {St} dest src (Q : list Z -> St -> Prop) s :
  0 < Z.of_nat (length dest) < 4294967296 ->
  Q (finish_text (Z.of_nat (length dest)) (match src with Some src => cstr src | None => [] end) dest) s ->
  wp (copy_limited dest (Z.of_nat (length dest)) src) Q s.
Proof.
  intros Hd HQ. unfold copy_limited. rewrite (proj2 (Z.eqb_neq _ 0)) by lia. unfold finish_text in HQ. set (n := Z.of_nat (length dest)) in *.
  destruct src as [src|].
  2:{ wp_step. wp_step. apply wp_array_put; [lia|]. rewrite take_nil in HQ. destruct dest; [cbn in *; lia|]. cbn in *. by rewrite drop_0 in HQ. }
  wp_step. apply (wp_loop _ (fun '(i, d) s' => s' = s /\ 0 <= i < n /\ i <= Z.of_nat (length (cstr src)) /\
     d = take (Z.to_nat i) (cstr src) ++ drop (Z.to_nat i) dest) (fun '(i, _) _ => n - i)).
  - intros [i d] s' (-> & Hi & Hil & ->). unfold copy_limited_step. rewrite u32_small by (unfold is_u32; lia).
    assert (Htl : length (take (Z.to_nat i) (cstr src)) = Z.to_nat i) by (rewrite length_take; lia).
    destruct (Z.ltb_spec (i + 1) n) as [Hlt|Hge]; cbn [andb].
    + destruct (decide (i = Z.of_nat (length (cstr src)))) as [->|Hne].
      * rewrite Nat2Z.id, char_at_end. cbn [Z.eqb negb]. wp_step. apply wp_array_put; [rewrite length_app, length_drop, length_take; lia|].
        rewrite Nat2Z.id, take_ge in * by lia. rewrite insert_drop_app by lia. exact HQ.
      * destruct (lookup_lt_is_Some_2 (cstr src) (Z.to_nat i)) as [c Hc]; [lia|]. destruct (char_at_cstr _ _ _ Hc) as [-> Hc0].
        rewrite (proj2 (Z.eqb_neq c 0)) by done. cbn [negb]. wp_step. apply wp_array_put; [rewrite length_app, length_drop; lia|]. wp_step.
        split; [|lia]. split; [done|]. split; [lia|]. split; [lia|].
        replace (Z.to_nat (i + 1)) with (S (Z.to_nat i)) by lia. rewrite (take_S_r _ _ _ Hc), <- app_assoc.
        rewrite <- Htl at 1 3. rewrite insert_drop_app by lia. rewrite Htl, Nat.add_1_r. done.
    + wp_step. apply wp_array_put; [rewrite length_app, length_drop; lia|]. rewrite <- Htl at 1 3. rewrite insert_drop_app by lia.
      replace (Z.to_nat (n - 1)) with (Z.to_nat i) in HQ by lia. exact HQ.
  - split; [done|]. split; [lia|]. split; [lia|]. cbn. by rewrite drop_0.
  - lia.
Qed.

Lemma finish_text_length size t buffer :
  0 < size <= Z.of_nat (length buffer) -> length (finish_text size t buffer) = length buffer.
Proof. intros Hs. unfold finish_text. rewrite length_app. cbn [length]. rewrite length_drop, length_take. lia. Qed.
