(* ===== verification/Process64.v ===== *)
(** * Processes of the 64-bit kernel (arch/x86_64/process.c, process.h)

    The process table, address spaces with their four levels of page tables in
    physical memory, kernel stacks, the two round-robin schedulers, the queue of
    exit codes of children and the text of the process list. A function that takes a
    pointer to a process takes and returns the record; the callers write it back to
    the table. Flags are [bool], a null pointer is 0 or [None]. *)
From S2P Require Import Prelude Word64 Mem KString Pmm64 Text64.

Definition X86_64_USER_CODE_BASE := 0x400000.
Definition X86_64_USER_STACK_TOP := 0x80000000.
Definition X86_64_USER_PAGE_BYTES := 4096.
Definition X86_64_USER_IMAGE_MAX_PAGES := 4.
Definition X86_64_USER_IMAGE_MAX_BYTES := 16384.
Definition X86_64_DIRECT_MAP_BASE := 0xFFFF800000000000.
Definition X86_64_KERNEL_VIRTUAL_BASE := 0xFFFFFFFF80000000.

Definition X86_64_PROCESS_MAX_PROCESSES := 64.
Definition X86_64_PROCESS_NAME_LEN := 24.
Definition X86_64_PROCESS_IMAGE_PATH_LEN := 64.
Definition X86_64_PROCESS_KERNEL_STACK_BYTES := 4096.
Definition X86_64_PROCESS_ADDRESS_SPACE_PAGES := 7 + X86_64_USER_IMAGE_MAX_PAGES.
Definition X86_64_PROCESS_CHILD_STATUS_QUEUE := 16.
Definition X86_64_PROCESS_UNUSED := 0.
Definition X86_64_PROCESS_READY := 1.
Definition X86_64_PROCESS_RUNNING := 2.
Definition X86_64_PROCESS_EXITED := 3.
Definition X86_64_PROCESS_FAILED := 4.
Definition X86_64_PROCESS_MODE_NONE := 0.
Definition X86_64_PROCESS_MODE_KERNEL := 1.
Definition X86_64_PROCESS_MODE_USER := 2.
Definition X86_64_PROCESS_INVALID_PID := 0.
Definition X86_64_PROCESS_FIRST_PID := 1.
Definition X86_64_PROCESS_USER_RFLAGS := 0x202.
Definition X86_64_PROCESS_USER_STACK_ALIGNMENT := 16.
Definition X86_64_PROCESS_PAGE_PRESENT := 1.
Definition X86_64_PROCESS_PAGE_WRITABLE := 2.
Definition X86_64_PROCESS_PAGE_USER := 4.
Definition X86_64_PROCESS_USER_TABLE_FLAGS := 7.
Definition X86_64_PROCESS_USER_CODE_FLAGS := 5.
Definition X86_64_PROCESS_USER_STACK_FLAGS := 7.

Record x86_64_process := {
  p6_pid : Z;
  p6_state : Z;
  p6_mode : Z;
  p6_image_bytes : Z;
  p6_name : list Z;
  p6_image_path : list Z;
  p6_entry : Z;
  p6_arg : Z;
  p6_kernel_stack_page : Z;
  p6_kernel_stack_base : Z;
  p6_kernel_stack_top : Z;
  p6_address_space_id : Z;
  p6_cr3 : Z;
  p6_user_pdpt_page : Z;
  p6_user_code_pd_page : Z;
  p6_user_stack_pd_page : Z;
  p6_user_code_pt_page : Z;
  p6_user_stack_pt_page : Z;
  p6_user_code_page : Z;
  p6_user_code_pages : list Z;
  p6_user_code_page_flags : list Z;
  p6_user_stack_page : Z;
  p6_user_code_virtual : Z;
  p6_user_stack_virtual : Z;
  p6_user_entry : Z;
  p6_address_space_owned : bool;
  p6_user_page_tables_ready : bool;
  p6_kernel_mappings_ready : bool;
  p6_user_code_page_count : Z;
  p6_exit_code : Z
}.
#[export] Instance eta_x86_64_process : Settable x86_64_process := fun s =>
  Build_x86_64_process (p6_pid s) (p6_state s) (p6_mode s) (p6_image_bytes s) (p6_name s) (p6_image_path s) (p6_entry s) (p6_arg s)
    (p6_kernel_stack_page s) (p6_kernel_stack_base s) (p6_kernel_stack_top s) (p6_address_space_id s) (p6_cr3 s)
    (p6_user_pdpt_page s) (p6_user_code_pd_page s) (p6_user_stack_pd_page s) (p6_user_code_pt_page s)
    (p6_user_stack_pt_page s) (p6_user_code_page s) (p6_user_code_pages s) (p6_user_code_page_flags s)
    (p6_user_stack_page s) (p6_user_code_virtual s) (p6_user_stack_virtual s) (p6_user_entry s)
    (p6_address_space_owned s) (p6_user_page_tables_ready s) (p6_kernel_mappings_ready s)
    (p6_user_code_page_count s) (p6_exit_code s).

#[export] Instance process64_inhabited : Inhabited x86_64_process :=
  populate (Build_x86_64_process 0 0 0 0 (replicate 24 0) (replicate 64 0) 0 0 0 0 0 0 0 0 0 0 0 0 0 (replicate 4 0)
    (replicate 4 0) 0 0 0 0 false false false 0 0).

Record x86_64_process_smoke_state := {
  sm_initialized : bool;
  sm_table_capacity : Z;
  sm_created_processes : Z;
  sm_run_attempts : Z;
  sm_run_count : Z;
  sm_exited_processes : Z;
  sm_failed_processes : Z;
  sm_stack_allocations : Z;
  sm_stack_alignment_ok : bool;
  sm_stack_switches : Z;
  sm_address_space_allocations : Z;
  sm_address_space_pages_allocated : Z;
  sm_kernel_mapping_source_ready : bool;
  sm_kernel_mappings_ready : Z;
  sm_user_page_tables_ready : Z;
  sm_user_page_table_entries_ok : bool;
  sm_user_processes_created : Z;
  sm_user_processes_exited : Z;
  sm_user_processes_reaped : Z;
  sm_reap_failures : Z;
  sm_completed_child_records : Z;
  sm_completed_child_waits : Z;
  sm_wait_misses : Z;
  sm_completed_child_queue_depth : Z;
  sm_completed_child_queue_high_watermark : Z;
  sm_completed_child_drops : Z;
  sm_user_image_bytes : Z;
  sm_user_image_copied : bool;
  sm_user_process_ready : bool;
  sm_user_scheduler_ready : bool;
  sm_last_created_pid : Z;
  sm_last_user_pid : Z;
  sm_last_exited_user_pid : Z;
  sm_last_reaped_pid : Z;
  sm_last_completed_parent_pid : Z;
  sm_last_completed_child_pid : Z;
  sm_last_completed_exit_code : Z;
  sm_last_wait_parent_pid : Z;
  sm_last_wait_child_pid : Z;
  sm_last_wait_exit_code : Z;
  sm_last_scheduled_user_pid : Z;
  sm_last_run_pid : Z;
  sm_kernel_scheduler_selections : Z;
  sm_user_scheduler_selections : Z;
  sm_kernel_scheduler_cursor : Z;
  sm_user_scheduler_cursor : Z;
  sm_worker_a_count : Z;
  sm_worker_b_count : Z;
  sm_first_stack_base : Z;
  sm_first_stack_top : Z;
  sm_second_stack_base : Z;
  sm_second_stack_top : Z;
  sm_first_address_space_id : Z;
  sm_second_address_space_id : Z;
  sm_first_cr3 : Z;
  sm_second_cr3 : Z;
  sm_first_user_code_page : Z;
  sm_second_user_code_page : Z;
  sm_first_user_stack_page : Z;
  sm_second_user_stack_page : Z;
  sm_last_user_entry : Z;
  sm_last_user_cr3 : Z;
  sm_last_user_pdpt_page : Z;
  sm_last_user_code_pd_page : Z;
  sm_last_user_stack_pd_page : Z;
  sm_last_user_code_pt_page : Z;
  sm_last_user_stack_pt_page : Z;
  sm_last_user_code_page : Z;
  sm_last_user_stack_page : Z;
  sm_scheduled_user_rsp : Z;
  sm_scheduled_user_rflags : Z;
  sm_worker_a_stack_sample : Z;
  sm_worker_b_stack_sample : Z
}.
#[export] Instance eta_x86_64_process_smoke_state : Settable x86_64_process_smoke_state := fun s =>
  Build_x86_64_process_smoke_state (sm_initialized s) (sm_table_capacity s) (sm_created_processes s) (sm_run_attempts s) (sm_run_count s)
    (sm_exited_processes s) (sm_failed_processes s) (sm_stack_allocations s) (sm_stack_alignment_ok s)
    (sm_stack_switches s) (sm_address_space_allocations s) (sm_address_space_pages_allocated s)
    (sm_kernel_mapping_source_ready s) (sm_kernel_mappings_ready s) (sm_user_page_tables_ready s)
    (sm_user_page_table_entries_ok s) (sm_user_processes_created s) (sm_user_processes_exited s)
    (sm_user_processes_reaped s) (sm_reap_failures s) (sm_completed_child_records s) (sm_completed_child_waits s)
    (sm_wait_misses s) (sm_completed_child_queue_depth s) (sm_completed_child_queue_high_watermark s)
    (sm_completed_child_drops s) (sm_user_image_bytes s) (sm_user_image_copied s) (sm_user_process_ready s)
    (sm_user_scheduler_ready s) (sm_last_created_pid s) (sm_last_user_pid s) (sm_last_exited_user_pid s)
    (sm_last_reaped_pid s) (sm_last_completed_parent_pid s) (sm_last_completed_child_pid s)
    (sm_last_completed_exit_code s) (sm_last_wait_parent_pid s) (sm_last_wait_child_pid s)
    (sm_last_wait_exit_code s) (sm_last_scheduled_user_pid s) (sm_last_run_pid s)
    (sm_kernel_scheduler_selections s) (sm_user_scheduler_selections s) (sm_kernel_scheduler_cursor s)
    (sm_user_scheduler_cursor s) (sm_worker_a_count s) (sm_worker_b_count s) (sm_first_stack_base s)
    (sm_first_stack_top s) (sm_second_stack_base s) (sm_second_stack_top s) (sm_first_address_space_id s)
    (sm_second_address_space_id s) (sm_first_cr3 s) (sm_second_cr3 s) (sm_first_user_code_page s)
    (sm_second_user_code_page s) (sm_first_user_stack_page s) (sm_second_user_stack_page s) (sm_last_user_entry s)
    (sm_last_user_cr3 s) (sm_last_user_pdpt_page s) (sm_last_user_code_pd_page s) (sm_last_user_stack_pd_page s)
    (sm_last_user_code_pt_page s) (sm_last_user_stack_pt_page s) (sm_last_user_code_page s)
    (sm_last_user_stack_page s) (sm_scheduled_user_rsp s) (sm_scheduled_user_rflags s)
    (sm_worker_a_stack_sample s) (sm_worker_b_stack_sample s).

Definition x86_64_process_smoke_state_zero : x86_64_process_smoke_state :=
  Build_x86_64_process_smoke_state false 0 0 0 0 0 0 0 false 0 0 0 false 0 0 false 0 0 0 0 0 0 0 0 0 0 0 false false false 0 0 0 0 0 0 0 0 0 0 0 0 0 0 0 0 0 0 0 0 0 0 0 0 0 0 0 0 0 0 0 0 0 0 0 0 0 0 0 0 0 0 0.
Record x86_64_user_schedule_state := {
  us_initialized : bool;
  us_candidate_found : bool;
  us_selected_pid : Z;
  us_selected_state : Z;
  us_selected_mode : Z;
  us_entry_valid : bool;
  us_stack_valid : bool;
  us_cr3_valid : bool;
  us_code_page_valid : bool;
  us_stack_page_valid : bool;
  us_page_tables_valid : bool;
  us_kernel_mappings_valid : bool;
  us_transition_ready : bool;
  us_scheduler_ok : bool;
  us_address_space_id : Z;
  us_cr3 : Z;
  us_user_entry : Z;
  us_user_rsp : Z;
  us_user_rflags : Z;
  us_user_code_page : Z;
  us_user_stack_page : Z
}.
#[export] Instance eta_x86_64_user_schedule_state : Settable x86_64_user_schedule_state := fun s =>
  Build_x86_64_user_schedule_state (us_initialized s) (us_candidate_found s) (us_selected_pid s) (us_selected_state s) (us_selected_mode s)
    (us_entry_valid s) (us_stack_valid s) (us_cr3_valid s) (us_code_page_valid s) (us_stack_page_valid s)
    (us_page_tables_valid s) (us_kernel_mappings_valid s) (us_transition_ready s) (us_scheduler_ok s)
    (us_address_space_id s) (us_cr3 s) (us_user_entry s) (us_user_rsp s) (us_user_rflags s) (us_user_code_page s)
    (us_user_stack_page s).

Definition x86_64_user_schedule_state_zero : x86_64_user_schedule_state :=
  Build_x86_64_user_schedule_state false false 0 0 0 false false false false false false false false false 0 0 0 0 0 0 0.

Record x86_64_process_paging_context := {
  pg_initialized : bool;
  pg_identity_pml4_index : Z;
  pg_direct_map_pml4_index : Z;
  pg_kernel_pml4_index : Z;
  pg_source_pml4_table : Z;
  pg_source_identity_pdpt_table : Z;
  pg_source_identity_pd_table : Z
}.

Record x86_64_child_status := { cs_parent_pid : Z; cs_child_pid : Z; cs_exit_code : Z }.
#[export] Instance child_status_inhabited : Inhabited x86_64_child_status := populate (Build_x86_64_child_status 0 0 0).

(** [pr_mem] is physical memory, which the kernel reaches at the same addresses. *)
Record process64 := {
  pr_pmm : pmm64;
  pr_mem : mem;
  process64_table : list x86_64_process;
  process64_state : x86_64_process_smoke_state;
  process_paging_context : x86_64_process_paging_context;
  next_pid64 : Z;
  next_address_space_id : Z;
  kernel_schedule_cursor : Z;
  user_schedule_cursor : Z;
  child_status_queue : list x86_64_child_status;
  child_status_count : Z;
  worker_a_runs : Z;
  worker_b_runs : Z;
  worker_a_stack_sample : Z;
  worker_b_stack_sample : Z
}.
#[export] Instance eta_process64 : Settable process64 := fun s =>
  Build_process64 (pr_pmm s) (pr_mem s) (process64_table s) (process64_state s) (process_paging_context s) (next_pid64 s)
    (next_address_space_id s) (kernel_schedule_cursor s) (user_schedule_cursor s) (child_status_queue s)
    (child_status_count s) (worker_a_runs s) (worker_b_runs s) (worker_a_stack_sample s) (worker_b_stack_sample s).

Abbreviation PR := (M process64).

Definition sm_mod (f : x86_64_process_smoke_state -> x86_64_process_smoke_state) : PR unit :=
  mmod (fun s => s <| process64_state ::= f |>).
Definition pr_zoom {A} (m : M pmm64 A) : PR A := mzoom pr_pmm (fun p s => s <| pr_pmm := p |>) m.

(** [process_table[i]] *)
Definition process_at (i : Z) : PR x86_64_process := table <- mget process64_table ;; array_at table i.
Definition process_put (i : Z) (p : x86_64_process) : PR unit :=
  table <- mget process64_table ;;
  table' <- array_put table i p ;;
  mmod (fun s => s <| process64_table := table' |>).

(** ** Memory *)

Definition clear_bytes64 (ptr size : Z) : PR unit :=
  mfor (seqZ 0 size) (fun i => mmod (fun s => s <| pr_mem ::= store8 (ptr [++] i) 0 |>)).

Definition copy_bytes64 (dest src size : Z) : PR unit :=
  mfor (seqZ 0 size) (fun i => mmod (fun s => s <| pr_mem ::= fun m => store8 (dest [++] i) (load8 m (src [++] i)) m |>)).

Definition clear_page64 (page : Z) : PR unit := clear_bytes64 page X86_64_USER_PAGE_BYTES.

(** [table[index]], for a table of 64-bit entries. *)
Definition entry_at (table index : Z) : PR Z := m <- mget pr_mem ;; mret_ (load64 m (table [++] 8 [**] index)).
Definition entry_put (table index v : Z) : PR unit := mmod (fun s => s <| pr_mem ::= store64 (table [++] 8 [**] index) v |>).

Definition is_aligned_u64 (value alignment : Z) : bool := Z.land value (alignment [--] 1) =? 0.
Definition pml4_index_for (address : Z) : Z := Z.land (Z.shiftr address 39) 0x1FF.
Definition pdpt_index_for (address : Z) : Z := Z.land (Z.shiftr address 30) 0x1FF.
Definition pd_index_for (address : Z) : Z := Z.land (Z.shiftr address 21) 0x1FF.
Definition pt_index_for (address : Z) : Z := Z.land (Z.shiftr address 12) 0x1FF.
Definition entry_present (entry : Z) : bool := negb (Z.land entry X86_64_PROCESS_PAGE_PRESENT =? 0).
Definition entry_user_accessible (entry : Z) : bool := negb (Z.land entry X86_64_PROCESS_PAGE_USER =? 0).
Definition entry_points_to (entry page : Z) : bool := Z.land entry (not64 (X86_64_USER_PAGE_BYTES - 1)) =? page.

Definition user_code_flags_for_bitmap (page_index writable_page_bitmap : Z) : Z :=
  if negb (Z.land writable_page_bitmap (u32 (Z.shiftl 1 page_index)) =? 0) then
    Z.lor X86_64_PROCESS_USER_CODE_FLAGS X86_64_PROCESS_PAGE_WRITABLE
  else X86_64_PROCESS_USER_CODE_FLAGS.

Definition is_inside_stack (value stack_base stack_top : Z) : bool := (stack_base <=? value) && (value <? stack_top).

(** Of the state of the paging builder, [builder_ok] and the addresses of three
    tables; [None] is the null pointer. *)
Definition x86_64_process_set_paging_context (paging_builder : option (bool * Z * Z * Z)) : PR unit :=
  mmod (fun s => s <| process_paging_context := Build_x86_64_process_paging_context false 0 0 0 0 0 0 |>) ;;;
  match paging_builder with
  | None => mret_ tt
  | Some (builder_ok, pml4_table, identity_pdpt_table, identity_pd_table) =>
      if negb builder_ok || (pml4_table =? 0) || (identity_pdpt_table =? 0) || (identity_pd_table =? 0) then mret_ tt
      else
        mmod (fun s => s <| process_paging_context := {|
          pg_initialized := true;
          pg_identity_pml4_index := pml4_index_for 0;
          pg_direct_map_pml4_index := pml4_index_for X86_64_DIRECT_MAP_BASE;
          pg_kernel_pml4_index := pml4_index_for X86_64_KERNEL_VIRTUAL_BASE;
          pg_source_pml4_table := pml4_table;
          pg_source_identity_pdpt_table := identity_pdpt_table;
          pg_source_identity_pd_table := identity_pd_table |} |>)
  end.

Definition validate_kernel_mappings (process : x86_64_process) : PR bool :=
  ctx <- mget process_paging_context ;;
  if negb (pg_initialized ctx) || (p6_cr3 process =? 0) || (p6_user_pdpt_page process =? 0) || (p6_user_code_pd_page process =? 0)
  then mret_ false
  else
    let identity_index := pg_identity_pml4_index ctx in
    let direct_index := pg_direct_map_pml4_index ctx in
    let kernel_index := pg_kernel_pml4_index ctx in
    let code_pdpt_index := pdpt_index_for (p6_user_code_virtual process) in
    let code_pd_index := pd_index_for (p6_user_code_virtual process) in
    source_direct <- entry_at (pg_source_pml4_table ctx) direct_index ;;
    source_kernel <- entry_at (pg_source_pml4_table ctx) kernel_index ;;
    direct <- entry_at (p6_cr3 process) direct_index ;;
    kernel <- entry_at (p6_cr3 process) kernel_index ;;
    identity <- entry_at (p6_cr3 process) identity_index ;;
    pdpt <- entry_at (p6_user_pdpt_page process) code_pdpt_index ;;
    source_pdpt <- entry_at (pg_source_identity_pdpt_table ctx) code_pdpt_index ;;
    source_pd0 <- entry_at (pg_source_identity_pd_table ctx) 0 ;;
    pd0 <- entry_at (p6_user_code_pd_page process) 0 ;;
    pd <- entry_at (p6_user_code_pd_page process) code_pd_index ;;
    source_pd <- entry_at (pg_source_identity_pd_table ctx) code_pd_index ;;
    mret_ (entry_present source_direct && entry_present source_kernel && (direct =? source_direct) && (kernel =? source_kernel) &&
      entry_points_to identity (p6_user_pdpt_page process) && entry_user_accessible identity &&
      entry_points_to pdpt (p6_user_code_pd_page process) && entry_user_accessible pdpt &&
      entry_present source_pdpt && entry_present source_pd0 && (pd0 =? source_pd0) && negb (pd =? source_pd)).

Definition clone_kernel_mappings (process : x86_64_process) : PR bool :=
  ctx <- mget process_paging_context ;;
  if negb (pg_initialized ctx) then mret_ false
  else
    copy_bytes64 (p6_cr3 process) (pg_source_pml4_table ctx) X86_64_USER_PAGE_BYTES ;;;
    copy_bytes64 (p6_user_pdpt_page process) (pg_source_identity_pdpt_table ctx) X86_64_USER_PAGE_BYTES ;;;
    copy_bytes64 (p6_user_code_pd_page process) (pg_source_identity_pd_table ctx) X86_64_USER_PAGE_BYTES ;;;
    entry_put (p6_cr3 process) (pg_identity_pml4_index ctx) (Z.lor (p6_user_pdpt_page process) X86_64_PROCESS_USER_TABLE_FLAGS) ;;;
    mret_ true.

Definition process64_state_name (state : Z) : list Z :=
  if state =? X86_64_PROCESS_READY then str "ready"
  else if state =? X86_64_PROCESS_RUNNING then str "running"
  else if state =? X86_64_PROCESS_EXITED then str "exited"
  else if state =? X86_64_PROCESS_FAILED then str "failed" else str "unused".

Definition process_mode_name (mode : Z) : list Z :=
  if mode =? X86_64_PROCESS_MODE_KERNEL then str "kernel"
  else if mode =? X86_64_PROCESS_MODE_USER then str "user" else str "none".

(** ** Looking processes up; a pointer into the table is its index *)

Definition find_unused_process : PR (option Z) :=
  mfor_ret (seqZ 0 X86_64_PROCESS_MAX_PROCESSES) (fun i =>
    p <- process_at i ;; mret_ (if p6_state p =? X86_64_PROCESS_UNUSED then Some i else None)).

Definition find_process_by_pid (pid : Z) : PR (option Z) :=
  mfor_ret (seqZ 0 X86_64_PROCESS_MAX_PROCESSES) (fun i =>
    p <- process_at i ;;
    mret_ (if negb (p6_state p =? X86_64_PROCESS_UNUSED) && (p6_pid p =? pid) then Some i else None)).

Definition find_next_ready_process : PR (option Z) :=
  r <- mfor_ret (seqZ 0 X86_64_PROCESS_MAX_PROCESSES) (fun scanned =>
    cursor <- mget kernel_schedule_cursor ;;
    let index := (cursor [+] scanned) mod X86_64_PROCESS_MAX_PROCESSES in
    p <- process_at index ;;
    if (p6_state p =? X86_64_PROCESS_READY) && (p6_mode p =? X86_64_PROCESS_MODE_KERNEL) && negb (p6_entry p =? 0) then
      mmod (fun s => s <| kernel_schedule_cursor := (index [+] 1) mod X86_64_PROCESS_MAX_PROCESSES |>) ;;;
      cursor <- mget kernel_schedule_cursor ;;
      sm_mod (fun st => st <| sm_kernel_scheduler_selections ::= incr |> <| sm_kernel_scheduler_cursor := cursor |>) ;;;
      mret_ (Some index)
    else mret_ None) ;;
  match r with
  | Some index => mret_ (Some index)
  | None =>
      cursor <- mget kernel_schedule_cursor ;;
      sm_mod (fun st => st <| sm_kernel_scheduler_cursor := cursor |>) ;;;
      mret_ None
  end.

Definition find_next_ready_user_process : PR (option Z) :=
  r <- mfor_ret (seqZ 0 X86_64_PROCESS_MAX_PROCESSES) (fun scanned =>
    cursor <- mget user_schedule_cursor ;;
    let index := (cursor [+] scanned) mod X86_64_PROCESS_MAX_PROCESSES in
    p <- process_at index ;;
    if (p6_state p =? X86_64_PROCESS_READY) && (p6_mode p =? X86_64_PROCESS_MODE_USER) && negb (p6_user_entry p =? 0) then
      mmod (fun s => s <| user_schedule_cursor := (index [+] 1) mod X86_64_PROCESS_MAX_PROCESSES |>) ;;;
      cursor <- mget user_schedule_cursor ;;
      sm_mod (fun st => st <| sm_user_scheduler_selections ::= incr |> <| sm_user_scheduler_cursor := cursor |>) ;;;
      mret_ (Some index)
    else mret_ None) ;;
  match r with
  | Some index => mret_ (Some index)
  | None =>
      cursor <- mget user_schedule_cursor ;;
      sm_mod (fun st => st <| sm_user_scheduler_cursor := cursor |>) ;;;
      mret_ None
  end.

Definition count_processes_with_state (state : Z) : PR Z :=
  mfold (seqZ 0 X86_64_PROCESS_MAX_PROCESSES) (fun count i =>
    p <- process_at i ;; mret_ (if p6_state p =? state then count [+] 1 else count)) 0.

(** ** Address spaces and kernel stacks *)

(** [if (page != 0) x86_64_pmm_free_page(page)] *)
Definition release_page (page : Z) : PR unit :=
  mwhen (negb (page =? 0)) (pr_zoom (x86_64_pmm_free_page page) ;;; mret_ tt).

Definition release_address_space (process : x86_64_process) : PR x86_64_process :=
  release_page (p6_cr3 process) ;;;
  release_page (p6_user_pdpt_page process) ;;;
  release_page (p6_user_code_pd_page process) ;;;
  release_page (p6_user_stack_pd_page process) ;;;
  release_page (p6_user_code_pt_page process) ;;;
  release_page (p6_user_stack_pt_page process) ;;;
  mfor (seqZ 0 X86_64_USER_IMAGE_MAX_PAGES) (fun i => page <- array_at (p6_user_code_pages process) i ;; release_page page) ;;;
  release_page (p6_user_stack_page process) ;;;
  mret_ (process <| p6_address_space_id := 0 |> <| p6_cr3 := 0 |> <| p6_user_pdpt_page := 0 |> <| p6_user_code_pd_page := 0 |>
    <| p6_user_stack_pd_page := 0 |> <| p6_user_code_pt_page := 0 |> <| p6_user_stack_pt_page := 0 |> <| p6_user_code_page := 0 |>
    <| p6_user_code_pages := [0; 0; 0; 0] |> <| p6_user_code_page_flags := [0; 0; 0; 0] |> <| p6_user_stack_page := 0 |>
    <| p6_user_code_virtual := 0 |> <| p6_user_stack_virtual := 0 |> <| p6_address_space_owned := false |>
    <| p6_user_page_tables_ready := false |> <| p6_kernel_mappings_ready := false |> <| p6_user_code_page_count := 0 |>).

Definition allocate_kernel_stack (process : x86_64_process) : PR (x86_64_process * bool) :=
  page <- pr_zoom x86_64_pmm_alloc_page ;;
  if page =? X86_64_PMM_INVALID_PAGE then mret_ (process, false)
  else
    clear_page64 page ;;;
    let base := X86_64_DIRECT_MAP_BASE [++] page in
    let top := base [++] X86_64_PROCESS_KERNEL_STACK_BYTES in
    mret_ (process <| p6_kernel_stack_page := page |> <| p6_kernel_stack_base := base |> <| p6_kernel_stack_top := top |>,
      is_aligned_u64 page X86_64_PROCESS_KERNEL_STACK_BYTES && is_aligned_u64 base X86_64_PROCESS_KERNEL_STACK_BYTES &&
      is_aligned_u64 top 16).

Definition release_kernel_stack (process : x86_64_process) : PR x86_64_process :=
  release_page (p6_kernel_stack_page process) ;;;
  mret_ (process <| p6_kernel_stack_page := 0 |> <| p6_kernel_stack_base := 0 |> <| p6_kernel_stack_top := 0 |>).

Definition release_process_resources (process : x86_64_process) : PR x86_64_process :=
  process <- release_address_space process ;; release_kernel_stack process.

(** The loop over the code pages: whether page [i] is mapped as recorded. *)
Definition code_page_mapped (process : x86_64_process) (i : Z) : PR bool :=
  let pt_index := pt_index_for (p6_user_code_virtual process) [+] i in
  if 512 <=? pt_index then mret_ false
  else
    page <- array_at (p6_user_code_pages process) i ;;
    flags <- array_at (p6_user_code_page_flags process) i ;;
    entry <- entry_at (p6_user_code_pt_page process) pt_index ;;
    mret_ (negb ((page =? 0) || (flags =? 0) || negb (entry_present entry) || negb (entry_user_accessible entry) ||
      negb (entry_points_to entry page) || negb (Z.land entry 0xFFF =? flags))).

Definition validate_user_page_tables (process : x86_64_process) : PR bool :=
  let code_pml4_index := pml4_index_for (p6_user_code_virtual process) in
  let code_pdpt_index := pdpt_index_for (p6_user_code_virtual process) in
  let code_pd_index := pd_index_for (p6_user_code_virtual process) in
  let stack_pml4_index := pml4_index_for (p6_user_stack_virtual process) in
  let stack_pdpt_index := pdpt_index_for (p6_user_stack_virtual process) in
  let stack_pd_index := pd_index_for (p6_user_stack_virtual process) in
  let stack_pt_index := pt_index_for (p6_user_stack_virtual process) in
  let code_pages_ok := negb ((p6_user_code_page_count process =? 0) ||
    (X86_64_USER_IMAGE_MAX_PAGES <? p6_user_code_page_count process)) in
  code_pages_ok <- mfold (seqZ 0 (p6_user_code_page_count process)) (fun ok i =>
    mapped <- code_page_mapped process i ;; mret_ (ok && mapped)) code_pages_ok ;;
  pml4 <- entry_at (p6_cr3 process) code_pml4_index ;;
  pdpt_code <- entry_at (p6_user_pdpt_page process) code_pdpt_index ;;
  pdpt_stack <- entry_at (p6_user_pdpt_page process) stack_pdpt_index ;;
  code_pd <- entry_at (p6_user_code_pd_page process) code_pd_index ;;
  stack_pd <- entry_at (p6_user_stack_pd_page process) stack_pd_index ;;
  stack_pt <- entry_at (p6_user_stack_pt_page process) stack_pt_index ;;
  kernel <- validate_kernel_mappings process ;;
  mret_ ((code_pml4_index =? stack_pml4_index) &&
    entry_present pml4 && entry_user_accessible pml4 && entry_points_to pml4 (p6_user_pdpt_page process) &&
    entry_present pdpt_code && entry_user_accessible pdpt_code && entry_points_to pdpt_code (p6_user_code_pd_page process) &&
    entry_present pdpt_stack && entry_user_accessible pdpt_stack && entry_points_to pdpt_stack (p6_user_stack_pd_page process) &&
    entry_present code_pd && entry_user_accessible code_pd && entry_points_to code_pd (p6_user_code_pt_page process) &&
    entry_present stack_pd && entry_user_accessible stack_pd && entry_points_to stack_pd (p6_user_stack_pt_page process) &&
    code_pages_ok &&
    entry_present stack_pt && entry_user_accessible stack_pt && entry_points_to stack_pt (p6_user_stack_page process) &&
    kernel).

(** The assignments to the tables. *)
Definition put_user_entries (process : x86_64_process) : PR unit :=
  let code_pml4_index := pml4_index_for (p6_user_code_virtual process) in
  let code_pdpt_index := pdpt_index_for (p6_user_code_virtual process) in
  let code_pd_index := pd_index_for (p6_user_code_virtual process) in
  let code_pt_index := pt_index_for (p6_user_code_virtual process) in
  let stack_pdpt_index := pdpt_index_for (p6_user_stack_virtual process) in
  let stack_pd_index := pd_index_for (p6_user_stack_virtual process) in
  let stack_pt_index := pt_index_for (p6_user_stack_virtual process) in
  entry_put (p6_cr3 process) code_pml4_index (Z.lor (p6_user_pdpt_page process) X86_64_PROCESS_USER_TABLE_FLAGS) ;;;
  entry_put (p6_user_pdpt_page process) code_pdpt_index (Z.lor (p6_user_code_pd_page process) X86_64_PROCESS_USER_TABLE_FLAGS) ;;;
  entry_put (p6_user_pdpt_page process) stack_pdpt_index (Z.lor (p6_user_stack_pd_page process) X86_64_PROCESS_USER_TABLE_FLAGS) ;;;
  entry_put (p6_user_code_pd_page process) code_pd_index (Z.lor (p6_user_code_pt_page process) X86_64_PROCESS_USER_TABLE_FLAGS) ;;;
  entry_put (p6_user_stack_pd_page process) stack_pd_index (Z.lor (p6_user_stack_pt_page process) X86_64_PROCESS_USER_TABLE_FLAGS) ;;;
  mfor (seqZ 0 (p6_user_code_page_count process)) (fun i =>
    page <- array_at (p6_user_code_pages process) i ;;
    flags <- array_at (p6_user_code_page_flags process) i ;;
    entry_put (p6_user_code_pt_page process) (code_pt_index [+] i) (Z.lor page flags)) ;;;
  entry_put (p6_user_stack_pt_page process) stack_pt_index (Z.lor (p6_user_stack_page process) X86_64_PROCESS_USER_STACK_FLAGS).

Definition build_user_page_tables (process : x86_64_process) : PR x86_64_process :=
  put_user_entries process ;;;
  kernel <- validate_kernel_mappings process ;;
  let process := process <| p6_kernel_mappings_ready := kernel |> in
  tables <- validate_user_page_tables process ;;
  mret_ (process <| p6_user_page_tables_ready := tables |>).

(** The assignments of the loop that allocates the code pages. *)
Definition allocate_code_pages : PR (list Z) :=
  mfold (seqZ 0 X86_64_USER_IMAGE_MAX_PAGES) (fun pages _ =>
    page <- pr_zoom x86_64_pmm_alloc_page ;; mret_ (pages ++ [page])) [].

(** The part of [allocate_address_space] behind the check that all frames were
    allocated. *)
Definition initialize_address_space (process : x86_64_process) : PR (x86_64_process * bool) :=
  clear_page64 (p6_cr3 process) ;;;
  clear_page64 (p6_user_pdpt_page process) ;;;
  clear_page64 (p6_user_code_pd_page process) ;;;
  clear_page64 (p6_user_stack_pd_page process) ;;;
  clear_page64 (p6_user_code_pt_page process) ;;;
  clear_page64 (p6_user_stack_pt_page process) ;;;
  mfor (seqZ 0 X86_64_USER_IMAGE_MAX_PAGES) (fun i => page <- array_at (p6_user_code_pages process) i ;; clear_page64 page) ;;;
  clear_page64 (p6_user_stack_page process) ;;;
  id <- mget next_address_space_id ;;
  mmod (fun s => s <| next_address_space_id ::= fun n => n [++] 1 |>) ;;;
  let process := process <| p6_address_space_id := id |> <| p6_user_code_virtual := X86_64_USER_CODE_BASE |>
    <| p6_user_stack_virtual := X86_64_USER_STACK_TOP [--] X86_64_USER_PAGE_BYTES |> <| p6_user_code_page_count := 1 |>
    <| p6_user_code_page_flags := [X86_64_PROCESS_USER_CODE_FLAGS; 0; 0; 0] |> <| p6_address_space_owned := true |> in
  cloned <- clone_kernel_mappings process ;;
  if negb cloned then process <- release_address_space process ;; mret_ (process, false)
  else
    process <- build_user_page_tables process ;;
    mret_ (process, p6_kernel_mappings_ready process && p6_user_page_tables_ready process).

Definition allocate_address_space (process : x86_64_process) : PR (x86_64_process * bool) :=
  cr3 <- pr_zoom x86_64_pmm_alloc_page ;;
  pdpt <- pr_zoom x86_64_pmm_alloc_page ;;
  code_pd <- pr_zoom x86_64_pmm_alloc_page ;;
  stack_pd <- pr_zoom x86_64_pmm_alloc_page ;;
  code_pt <- pr_zoom x86_64_pmm_alloc_page ;;
  stack_pt <- pr_zoom x86_64_pmm_alloc_page ;;
  code_pages <- allocate_code_pages ;;
  code_page <- array_at code_pages 0 ;;
  stack_page <- pr_zoom x86_64_pmm_alloc_page ;;
  let process := process <| p6_cr3 := cr3 |> <| p6_user_pdpt_page := pdpt |> <| p6_user_code_pd_page := code_pd |>
    <| p6_user_stack_pd_page := stack_pd |> <| p6_user_code_pt_page := code_pt |> <| p6_user_stack_pt_page := stack_pt |>
    <| p6_user_code_pages := code_pages |> <| p6_user_code_page := code_page |> <| p6_user_stack_page := stack_page |> in
  let user_code_pages_allocated := forallb (fun page => negb (page =? 0)) code_pages in
  if (cr3 =? 0) || (pdpt =? 0) || (code_pd =? 0) || (stack_pd =? 0) || (code_pt =? 0) || (stack_pt =? 0) ||
     negb user_code_pages_allocated || (stack_page =? 0) then
    process <- release_address_space process ;; mret_ (process, false)
  else initialize_address_space process.

(** ** Statistics *)

Definition record_created_process (process : x86_64_process) : PR unit :=
  sm_mod (fun st => st <| sm_created_processes ::= incr |> <| sm_stack_allocations ::= incr |>
    <| sm_address_space_allocations ::= incr |>
    <| sm_address_space_pages_allocated ::= fun n => n [+] X86_64_PROCESS_ADDRESS_SPACE_PAGES |>
    <| sm_last_created_pid := p6_pid process |>) ;;;
  mwhen (p6_kernel_mappings_ready process) (sm_mod (fun st => st <| sm_kernel_mappings_ready ::= incr |>)) ;;;
  mwhen (p6_user_page_tables_ready process) (sm_mod (fun st => st <| sm_user_page_tables_ready ::= incr |>)) ;;;
  st <- mget process64_state ;;
  if sm_first_stack_base st =? 0 then
    sm_mod (fun st => st <| sm_first_stack_base := p6_kernel_stack_base process |> <| sm_first_stack_top := p6_kernel_stack_top process |>
      <| sm_first_address_space_id := p6_address_space_id process |> <| sm_first_cr3 := p6_cr3 process |>
      <| sm_first_user_code_page := p6_user_code_page process |> <| sm_first_user_stack_page := p6_user_stack_page process |>)
  else if sm_second_stack_base st =? 0 then
    sm_mod (fun st => st <| sm_second_stack_base := p6_kernel_stack_base process |> <| sm_second_stack_top := p6_kernel_stack_top process |>
      <| sm_second_address_space_id := p6_address_space_id process |> <| sm_second_cr3 := p6_cr3 process |>
      <| sm_second_user_code_page := p6_user_code_page process |> <| sm_second_user_stack_page := p6_user_stack_page process |>)
  else mret_ tt.

Definition refresh_counts : PR unit :=
  exited <- count_processes_with_state X86_64_PROCESS_EXITED ;;
  failed <- count_processes_with_state X86_64_PROCESS_FAILED ;;
  depth <- mget child_status_count ;;
  a <- mget worker_a_runs ;; b <- mget worker_b_runs ;;
  sa <- mget worker_a_stack_sample ;; sb <- mget worker_b_stack_sample ;;
  sm_mod (fun st => st <| sm_exited_processes := exited |> <| sm_failed_processes := failed |>
    <| sm_completed_child_queue_depth := depth |> <| sm_worker_a_count := a |> <| sm_worker_b_count := b |>
    <| sm_worker_a_stack_sample := sa |> <| sm_worker_b_stack_sample := sb |>).

(** ** Exit codes of children *)

Definition refresh_child_status_high_watermark : PR unit :=
  count <- mget child_status_count ;;
  sm_mod (fun st => st <| sm_completed_child_queue_depth := count |>) ;;;
  st <- mget process64_state ;;
  mwhen (sm_completed_child_queue_high_watermark st <? count)
    (sm_mod (fun st => st <| sm_completed_child_queue_high_watermark := count |>)).

(** [child_status_queue[i] = v] *)
Definition child_status_put (i : Z) (v : x86_64_child_status) : PR unit :=
  queue <- mget child_status_queue ;;
  queue' <- array_put queue i v ;;
  mmod (fun s => s <| child_status_queue := queue' |>).

Definition remove_child_status_at (index : Z) : PR unit :=
  count <- mget child_status_count ;;
  if count <=? index then mret_ tt
  else
    mfor (seqZ index (count - 1 - index)) (fun i =>
      queue <- mget child_status_queue ;;
      next <- array_at queue (i [+] 1) ;;
      child_status_put i next) ;;;
    mwhen (negb (count =? 0)) (mmod (fun s => s <| child_status_count ::= decr |>)) ;;;
    count <- mget child_status_count ;;
    mwhen (count <? X86_64_PROCESS_CHILD_STATUS_QUEUE) (child_status_put count (Build_x86_64_child_status 0 0 0)) ;;;
    refresh_child_status_high_watermark.

Definition x86_64_process_record_child_exit (parent_pid child_pid exit_code : Z) : PR bool :=
  if (parent_pid =? X86_64_PROCESS_INVALID_PID) || (child_pid =? X86_64_PROCESS_INVALID_PID) || (parent_pid =? child_pid)
  then mret_ false
  else
    count <- mget child_status_count ;;
    mwhen (X86_64_PROCESS_CHILD_STATUS_QUEUE <=? count)
      (remove_child_status_at 0 ;;; sm_mod (fun st => st <| sm_completed_child_drops ::= incr |>)) ;;;
    count <- mget child_status_count ;;
    child_status_put count {| cs_parent_pid := parent_pid; cs_child_pid := child_pid; cs_exit_code := exit_code |} ;;;
    mmod (fun s => s <| child_status_count ::= incr |>) ;;;
    sm_mod (fun st => st <| sm_completed_child_records ::= incr |> <| sm_last_completed_parent_pid := parent_pid |>
      <| sm_last_completed_child_pid := child_pid |> <| sm_last_completed_exit_code := exit_code |>) ;;;
    refresh_child_status_high_watermark ;;;
    mret_ true.

(** The result is [Some (child_pid, exit_code)] when the code returns 1 and stores
    the two, [None] when it returns 0; [outs] says that both pointers are not null. *)
Definition x86_64_process_wait_child (parent_pid : Z) (outs : bool) : PR (option (Z * Z)) :=
  if (parent_pid =? X86_64_PROCESS_INVALID_PID) || negb outs then mret_ None
  else
    count <- mget child_status_count ;;
    r <- mfor_ret (seqZ 0 count) (fun i =>
      queue <- mget child_status_queue ;;
      e <- array_at queue i ;;
      if negb (cs_parent_pid e =? parent_pid) then mret_ None
      else
        sm_mod (fun st => st <| sm_completed_child_waits ::= incr |> <| sm_last_wait_parent_pid := parent_pid |>
          <| sm_last_wait_child_pid := cs_child_pid e |> <| sm_last_wait_exit_code := cs_exit_code e |>) ;;;
        remove_child_status_at i ;;;
        mret_ (Some (cs_child_pid e, cs_exit_code e))) ;;
    match r with
    | Some r => mret_ (Some r)
    | None =>
        sm_mod (fun st => st <| sm_wait_misses ::= incr |>) ;;;
        refresh_child_status_high_watermark ;;;
        mret_ None
    end.

(** ** The operations of the table *)

(** The copy of the state to the caller is left out. *)
Definition x86_64_process_initialize : PR unit :=
  mmod (fun s => s <| process64_table := replicate 64 inhabitant |> <| process64_state := x86_64_process_smoke_state_zero |>
    <| child_status_queue := replicate 16 inhabitant |> <| next_pid64 := X86_64_PROCESS_FIRST_PID |>
    <| next_address_space_id := 1 |> <| kernel_schedule_cursor := 0 |> <| user_schedule_cursor := 0 |>
    <| child_status_count := 0 |> <| worker_a_runs := 0 |> <| worker_b_runs := 0 |>
    <| worker_a_stack_sample := 0 |> <| worker_b_stack_sample := 0 |>) ;;;
  ctx <- mget process_paging_context ;;
  sm_mod (fun st => st <| sm_initialized := true |> <| sm_table_capacity := X86_64_PROCESS_MAX_PROCESSES |>
    <| sm_kernel_mapping_source_ready := pg_initialized ctx |>).

(** The part that both ways of creating a process begin with: a free slot, an
    address space and a kernel stack. [None] is the early return. *)
Definition process_acquire : PR (option (Z * x86_64_process)) :=
  slot <- find_unused_process ;;
  match slot with
  | None => mret_ None
  | Some i =>
      process <- process_at i ;;
      r <- allocate_address_space process ;;
      let '(process, ok) := r in
      if negb ok then process_put i process ;;; mret_ None
      else
        r <- allocate_kernel_stack process ;;
        let '(process, ok) := r in
        if negb ok then
          process <- release_kernel_stack process ;;
          process <- release_address_space process ;;
          process_put i process ;;;
          mret_ None
        else mret_ (Some (i, process))
  end.

Definition take_next_pid : PR Z :=
  pid <- mget next_pid64 ;; mmod (fun s => s <| next_pid64 ::= incr |>) ;;; mret_ pid.

Definition x86_64_process_create (name : option (list Z)) (entry arg : Z) : PR Z :=
  st <- mget process64_state ;;
  if negb (sm_initialized st) || (entry =? 0) then mret_ X86_64_PROCESS_INVALID_PID
  else
    r <- process_acquire ;;
    match r with
    | None => mret_ X86_64_PROCESS_INVALID_PID
    | Some (i, process) =>
        pid <- take_next_pid ;;
        name <- copy_limited (p6_name process) X86_64_PROCESS_NAME_LEN name ;;
        path <- copy_limited (p6_image_path process) X86_64_PROCESS_IMAGE_PATH_LEN (Some (str "")) ;;
        let process := process <| p6_pid := pid |> <| p6_state := X86_64_PROCESS_READY |> <| p6_mode := X86_64_PROCESS_MODE_KERNEL |>
          <| p6_name := name |> <| p6_image_path := path |> <| p6_entry := entry |> <| p6_arg := arg |> <| p6_user_entry := 0 |>
          <| p6_image_bytes := 0 |> <| p6_exit_code := 0 |> in
        process_put i process ;;;
        record_created_process process ;;;
        sm_mod (fun st => st <| sm_stack_alignment_ok := negb (p6_kernel_stack_base process =? 0) &&
          is_aligned_u64 (p6_kernel_stack_base process) 16 && is_aligned_u64 (p6_kernel_stack_top process) 16 |>) ;;;
        mret_ pid
    end.

(** One iteration of the loop that fills the code pages; [flags] is
    [process->user_code_page_flags]. *)
Definition fill_code_page (process : x86_64_process) (loaded_code_pages code_bytes writable_page_bitmap : Z)
    (flags : list Z) (i : Z) : PR (list Z) :=
  let page_offset := i [**] X86_64_USER_PAGE_BYTES in
  let remaining := if page_offset <? code_bytes then code_bytes [--] page_offset else 0 in
  let copy_size := if X86_64_USER_PAGE_BYTES <? remaining then X86_64_USER_PAGE_BYTES else remaining in
  flags <- array_put flags i (user_code_flags_for_bitmap i writable_page_bitmap) ;;
  page <- array_at (p6_user_code_pages process) i ;;
  clear_page64 page ;;;
  mwhen (negb (copy_size =? 0)) (copy_bytes64 page (loaded_code_pages [++] page_offset) copy_size) ;;;
  mret_ flags.

Definition record_user_process (process : x86_64_process) : PR unit :=
  sm_mod (fun st => st <| sm_user_processes_created ::= incr |> <| sm_user_image_bytes := p6_image_bytes process |>
    <| sm_user_image_copied := true |> <| sm_user_process_ready := true |> <| sm_last_user_pid := p6_pid process |>
    <| sm_last_user_entry := p6_user_entry process |> <| sm_last_user_cr3 := p6_cr3 process |>
    <| sm_last_user_pdpt_page := p6_user_pdpt_page process |> <| sm_last_user_code_pd_page := p6_user_code_pd_page process |>
    <| sm_last_user_stack_pd_page := p6_user_stack_pd_page process |> <| sm_last_user_code_pt_page := p6_user_code_pt_page process |>
    <| sm_last_user_stack_pt_page := p6_user_stack_pt_page process |> <| sm_last_user_code_page := p6_user_code_page process |>
    <| sm_last_user_stack_page := p6_user_stack_page process |>) ;;;
  ok <- validate_user_page_tables process ;;
  sm_mod (fun st => st <| sm_user_page_table_entries_ok := ok |>).

(** [loaded_code_pages] is the address of the image in memory. *)
Definition x86_64_process_create_user_image (path : option (list Z)) (loaded_code_pages code_bytes entry page_count
    writable_page_bitmap : Z) : PR Z :=
  st <- mget process64_state ;;
  if negb (sm_initialized st) || (loaded_code_pages =? 0) || (code_bytes =? 0) || (X86_64_USER_IMAGE_MAX_BYTES <? code_bytes) ||
     (page_count =? 0) || (X86_64_USER_IMAGE_MAX_PAGES <? page_count) || (entry <? X86_64_USER_CODE_BASE) ||
     (X86_64_USER_CODE_BASE [++] page_count [**] X86_64_USER_PAGE_BYTES <=? entry) then mret_ X86_64_PROCESS_INVALID_PID
  else
    r <- process_acquire ;;
    match r with
    | None => mret_ X86_64_PROCESS_INVALID_PID
    | Some (i, process) =>
        pid <- take_next_pid ;;
        name <- copy_limited (p6_name process) X86_64_PROCESS_NAME_LEN (Some (str "user-process")) ;;
        path <- copy_limited (p6_image_path process) X86_64_PROCESS_IMAGE_PATH_LEN path ;;
        let process := process <| p6_pid := pid |> <| p6_state := X86_64_PROCESS_READY |> <| p6_mode := X86_64_PROCESS_MODE_USER |>
          <| p6_name := name |> <| p6_image_path := path |> <| p6_entry := 0 |> <| p6_arg := 0 |> <| p6_user_entry := entry |>
          <| p6_image_bytes := u32 code_bytes |> <| p6_exit_code := 0 |> <| p6_user_code_page_count := page_count |> in
        flags <- mfold (seqZ 0 page_count) (fill_code_page process loaded_code_pages code_bytes writable_page_bitmap) [0; 0; 0; 0] ;;
        process <- build_user_page_tables (process <| p6_user_code_page_flags := flags |>) ;;
        if negb (p6_user_page_tables_ready process) then
          process <- release_kernel_stack process ;;
          process <- release_address_space process ;;
          process_put i process ;;;
          mret_ X86_64_PROCESS_INVALID_PID
        else
          process_put i process ;;;
          record_created_process process ;;;
          record_user_process process ;;;
          mret_ pid
    end.

Definition x86_64_process_mark_user_exited (pid exit_code : Z) : PR bool :=
  slot <- find_process_by_pid pid ;;
  match slot with
  | None => mret_ false
  | Some i =>
      process <- process_at i ;;
      if negb (p6_mode process =? X86_64_PROCESS_MODE_USER) || (p6_state process =? X86_64_PROCESS_UNUSED) then mret_ false
      else
        mwhen (negb (p6_state process =? X86_64_PROCESS_EXITED)) (sm_mod (fun st => st <| sm_user_processes_exited ::= incr |>)) ;;;
        process_put i (process <| p6_state := X86_64_PROCESS_EXITED |> <| p6_exit_code := exit_code |>) ;;;
        sm_mod (fun st => st <| sm_last_exited_user_pid := pid |>) ;;;
        refresh_counts ;;;
        mret_ true
  end.

Definition x86_64_process_reap_user (pid : Z) : PR bool :=
  slot <- find_process_by_pid pid ;;
  match slot with
  | None => sm_mod (fun st => st <| sm_reap_failures ::= incr |>) ;;; mret_ false
  | Some i =>
      process <- process_at i ;;
      if negb (p6_mode process =? X86_64_PROCESS_MODE_USER) ||
         (negb (p6_state process =? X86_64_PROCESS_EXITED) && negb (p6_state process =? X86_64_PROCESS_FAILED)) then
        sm_mod (fun st => st <| sm_reap_failures ::= incr |>) ;;; mret_ false
      else
        release_process_resources process ;;;
        process_put i inhabitant ;;;
        sm_mod (fun st => st <| sm_user_processes_reaped ::= incr |> <| sm_last_reaped_pid := pid |>) ;;;
        refresh_counts ;;;
        mret_ true
  end.

Definition x86_64_process_reap_exited_user_processes : PR Z :=
  mfold (seqZ 0 X86_64_PROCESS_MAX_PROCESSES) (fun reaped i =>
    p <- process_at i ;;
    if (p6_mode p =? X86_64_PROCESS_MODE_USER) && ((p6_state p =? X86_64_PROCESS_EXITED) || (p6_state p =? X86_64_PROCESS_FAILED)) then
      ok <- x86_64_process_reap_user (p6_pid p) ;;
      mret_ (if ok : bool then reaped [+] 1 else reaped)
    else mret_ reaped) 0.

(** ** The process list as text *)

(** One line of the list. *)
Definition snapshot_line (size : Z) (l : list Z * Z) (i : Z) : PR (list Z * Z) :=
  p <- process_at i ;;
  if p6_state p =? X86_64_PROCESS_UNUSED then mret_ l
  else
    l <- append_u32_decimal size (p6_pid p) l ;;
    l <- append_char size 32 l ;;
    l <- append_string size (process64_state_name (p6_state p)) l ;;
    l <- append_char size 32 l ;;
    l <- append_string size (process_mode_name (p6_mode p)) l ;;
    l <- append_char size 32 l ;;
    l <- append_string size (p6_name p) l ;;
    l <- (if negb (char_at (p6_image_path p) 0 =? 0) then
            l <- append_char size 32 l ;; append_string size (p6_image_path p) l
          else mret_ l) ;;
    append_char size 10 l.

(** A label and a number. *)
Definition snapshot_number (size : Z) (l : list Z * Z) (x : list Z * Z) : PR (list Z * Z) :=
  l <- append_string size (fst x) l ;; append_u32_decimal size (snd x) l.

(** The numbers of the last line, in order. *)
Definition snapshot_totals (st : x86_64_process_smoke_state) (child_count : Z) : list (list Z * Z) :=
  [(str "created ", sm_created_processes st); (str " user-created ", sm_user_processes_created st);
   (str " user-exited ", sm_user_processes_exited st); (str " user-reaped ", sm_user_processes_reaped st);
   (str " wait-ready ", child_count); (str " wait-records ", sm_completed_child_records st);
   (str " waits ", sm_completed_child_waits st); (str " wait-drops ", sm_completed_child_drops st);
   (str " kernel-sched ", sm_kernel_scheduler_selections st); (str " user-sched ", sm_user_scheduler_selections st);
   (str " kernel-cursor ", sm_kernel_scheduler_cursor st); (str " user-cursor ", sm_user_scheduler_cursor st)].

Definition x86_64_process_snapshot (buffer : option (list Z)) (size : Z) : PR (Z * option (list Z)) :=
  match buffer with
  | None => mret_ (0, None)
  | Some buf =>
      if size =? 0 then mret_ (0, buffer)
      else
        l <- append_string size (str "PID STATE MODE NAME" ++ [10]) (buf, 0) ;;
        l <- mfold (seqZ 0 X86_64_PROCESS_MAX_PROCESSES) (snapshot_line size) l ;;
        st <- mget process64_state ;;
        count <- mget child_status_count ;;
        l <- mfold (snapshot_totals st count) (snapshot_number size) l ;;
        l <- append_char size 10 l ;;
        buf <- text_end size l ;;
        mret_ (if snd l <? size then snd l else size [--] 1, Some buf)
  end.

(** ** Scheduling *)

(** The checks of [x86_64_process_prepare_next_user] on the selected process. *)
Definition schedule_of (process : x86_64_process) : x86_64_user_schedule_state :=
  let user_rsp := X86_64_USER_STACK_TOP [--] X86_64_PROCESS_USER_STACK_ALIGNMENT in
  let entry_valid := (X86_64_USER_CODE_BASE <=? p6_user_entry process) &&
    (p6_user_entry process <? X86_64_USER_CODE_BASE [++] p6_user_code_page_count process [**] X86_64_USER_PAGE_BYTES) in
  let stack_valid := (p6_user_stack_virtual process <=? user_rsp) && (user_rsp <? X86_64_USER_STACK_TOP) &&
    is_aligned_u64 user_rsp X86_64_PROCESS_USER_STACK_ALIGNMENT in
  let cr3_valid := negb (p6_cr3 process =? 0) && is_aligned_u64 (p6_cr3 process) X86_64_USER_PAGE_BYTES in
  let code_page_valid := negb (p6_user_code_page process =? 0) && is_aligned_u64 (p6_user_code_page process) X86_64_USER_PAGE_BYTES in
  let stack_page_valid := negb (p6_user_stack_page process =? 0) && is_aligned_u64 (p6_user_stack_page process) X86_64_USER_PAGE_BYTES in
  let ready := entry_valid && stack_valid && cr3_valid && code_page_valid && stack_page_valid &&
    p6_user_page_tables_ready process && p6_kernel_mappings_ready process && p6_address_space_owned process in
  {| us_initialized := true; us_candidate_found := true; us_selected_pid := p6_pid process; us_selected_state := p6_state process;
     us_selected_mode := p6_mode process; us_entry_valid := entry_valid; us_stack_valid := stack_valid; us_cr3_valid := cr3_valid;
     us_code_page_valid := code_page_valid; us_stack_page_valid := stack_page_valid;
     us_page_tables_valid := p6_user_page_tables_ready process; us_kernel_mappings_valid := p6_kernel_mappings_ready process;
     us_transition_ready := ready; us_scheduler_ok := ready; us_address_space_id := p6_address_space_id process;
     us_cr3 := p6_cr3 process; us_user_entry := p6_user_entry process; us_user_rsp := user_rsp;
     us_user_rflags := X86_64_PROCESS_USER_RFLAGS; us_user_code_page := p6_user_code_page process;
     us_user_stack_page := p6_user_stack_page process |}.

(** The results are the returned flag and [*state]. *)
Definition x86_64_process_prepare_next_user : PR (bool * x86_64_user_schedule_state) :=
  let none := x86_64_user_schedule_state_zero <| us_initialized := true |> in
  st <- mget process64_state ;;
  if negb (sm_initialized st) then mret_ (false, none)
  else
    slot <- find_next_ready_user_process ;;
    match slot with
    | None => mret_ (false, none)
    | Some i =>
        process <- process_at i ;;
        let state := schedule_of process in
        sm_mod (fun st => st <| sm_user_scheduler_ready := us_scheduler_ok state |>
          <| sm_last_scheduled_user_pid := us_selected_pid state |> <| sm_scheduled_user_rsp := us_user_rsp state |>
          <| sm_scheduled_user_rflags := us_user_rflags state |>) ;;;
        mret_ (us_scheduler_ok state, state)
    end.

Section Run.
(** What a call of the function at [entry] with its argument does on the given
    stack, before it returns. *)
Context (call_entry : Z -> Z -> Z -> PR unit).

Definition x86_64_process_enter_stack (stack_top entry arg : Z) : PR unit := call_entry entry stack_top arg.

Definition x86_64_process_run_next_ready : PR bool :=
  slot <- find_next_ready_process ;;
  match slot with
  | None => mret_ false
  | Some i =>
      process <- process_at i ;;
      sm_mod (fun st => st <| sm_run_attempts ::= incr |> <| sm_last_run_pid := p6_pid process |>) ;;;
      let process := process <| p6_state := X86_64_PROCESS_RUNNING |> in
      process_put i process ;;;
      if (p6_entry process =? 0) || (p6_kernel_stack_top process =? 0) || negb (p6_address_space_owned process) ||
         (p6_cr3 process =? 0) || negb (p6_kernel_mappings_ready process) then
        process_put i (process <| p6_state := X86_64_PROCESS_FAILED |>) ;;;
        refresh_counts ;;;
        mret_ false
      else
        x86_64_process_enter_stack (p6_kernel_stack_top process) (p6_entry process) (p6_arg process) ;;;
        sm_mod (fun st => st <| sm_stack_switches ::= incr |>) ;;;
        process <- process_at i ;;
        process_put i (process <| p6_state := X86_64_PROCESS_EXITED |> <| p6_exit_code := 0 |>) ;;;
        sm_mod (fun st => st <| sm_run_count ::= incr |>) ;;;
        refresh_counts ;;;
        mret_ true
  end.

Definition run_all_step (max_runs runs : Z) : PR (Z + Z) :=
  if runs <? max_runs then
    ran <- x86_64_process_run_next_ready ;;
    mret_ (if negb ran then inr runs else inl (runs [+] 1))
  else mret_ (inr runs).

Definition x86_64_process_run_all_ready (max_runs : Z) : PR Z := mloop (run_all_step max_runs) 0.
End Run.

(** The two workers of the self test; [rsp] is the stack pointer they read. *)
Definition process_worker_a (rsp : Z) : PR unit :=
  mmod (fun s => s <| worker_a_stack_sample := rsp |> <| worker_a_runs ::= incr |>).
Definition process_worker_b (rsp : Z) : PR unit :=
  mmod (fun s => s <| worker_b_stack_sample := rsp |> <| worker_b_runs ::= incr |>).

(** ** Reference: the translation the processor makes *)

(** The four levels of tables at [cr3]; entries of the second and third level may
    map a large page. The result is the physical address and whether user code may
    read and write there. *)
Definition walk64 (m : mem) (cr3 va : Z) : option (Z * (bool * bool)) :=
  let frame e := 4096 * (Z.land e 0xFFFFFFFFFFFFF / 4096) in
  let rights es := (forallb (fun e => Z.testbit e 2) es, forallb (fun e => Z.testbit e 2 && Z.testbit e 1) es) in
  let e4 := load64 m (cr3 + 8 * ((va / 2 ^ 39) mod 512)) in
  if negb (Z.testbit e4 0) then None
  else
    let e3 := load64 m (frame e4 + 8 * ((va / 2 ^ 30) mod 512)) in
    if negb (Z.testbit e3 0) then None
    else if Z.testbit e3 7 then Some (frame e3 / 2 ^ 30 * 2 ^ 30 + va mod 2 ^ 30, rights [e4; e3])
    else
      let e2 := load64 m (frame e3 + 8 * ((va / 2 ^ 21) mod 512)) in
      if negb (Z.testbit e2 0) then None
      else if Z.testbit e2 7 then Some (frame e2 / 2 ^ 21 * 2 ^ 21 + va mod 2 ^ 21, rights [e4; e3; e2])
      else
        let e1 := load64 m (frame e2 + 8 * ((va / 2 ^ 12) mod 512)) in
        if negb (Z.testbit e1 0) then None
        else Some (frame e1 + va mod 2 ^ 12, rights [e4; e3; e2; e1]).
