(* ===== verification/Process64Queue.v ===== *)
(** * Exit codes of children in the 64-bit kernel: the queue as a list *)
From S2P Require Import Prelude Word64 Mem KString Pmm64 Text64 Process64.

(** Only the statistics change. *)
Lemma wp_sm_mod f (Q : unit -> process64 -> Prop) s :
  (forall st, Q tt (s <| process64_state := st |>)) -> wp (sm_mod f) Q s.
Proof. intros HQ. unfold sm_mod. wp_step. exact (HQ (f (process64_state s))). Qed.

(** The recorded exits, oldest first. *)
Definition children (s : process64) : list x86_64_child_status := take (Z.to_nat (child_status_count s)) (child_status_queue s).

Record children_ok (s : process64) : Prop := {
  ch_queue : length (child_status_queue s) = 16%nat;
  ch_count : 0 <= child_status_count s <= 16
}.

(** Nothing but the queue and the statistics differs. *)
Definition same_but_children (s s' : process64) : Prop :=
  exists st q c, s' = s <| process64_state := st |> <| child_status_queue := q |> <| child_status_count := c |>.

Lemma same_but_children_refl s : same_but_children s s.
Proof. exists (process64_state s), (child_status_queue s), (child_status_count s). by destruct s. Qed.

Lemma same_but_children_trans s1 s2 s3 : same_but_children s1 s2 -> same_but_children s2 s3 -> same_but_children s1 s3.
Proof. intros (a & b & c & ->) (d & e & f & ->). by exists d, e, f. Qed.

Lemma same_state s st : same_but_children s (s <| process64_state := st |>).
Proof. exists st, (child_status_queue s), (child_status_count s). by destruct s. Qed.

Lemma same_queue s q : same_but_children s (s <| child_status_queue := q |>).
Proof. exists (process64_state s), q, (child_status_count s). by destruct s. Qed.

Lemma same_count s f : same_but_children s (s <| child_status_count ::= f |>).
Proof. exists (process64_state s), (child_status_queue s), (f (child_status_count s)). by destruct s. Qed.

#[export] Hint Resolve same_but_children_refl same_state same_queue same_count : children.

Lemma watermark_ok s (Q : unit -> process64 -> Prop) :
  (forall st, Q tt (s <| process64_state := st |>)) -> wp refresh_child_status_high_watermark Q s.
Proof.
  intros HQ. unfold refresh_child_status_high_watermark. do 3 wp_step. apply wp_sm_mod. intros st. do 2 wp_step. wp_step.
  - apply wp_sm_mod. intros st'. exact (HQ st').
  - exact (HQ st).
Qed.

Lemma child_put_ok s i v (Q : unit -> process64 -> Prop) :
  (Z.to_nat i < length (child_status_queue s))%nat ->
  Q tt (s <| child_status_queue := <[Z.to_nat i := v]> (child_status_queue s) |>) -> wp (child_status_put i v) Q s.
Proof. intros Hi HQ. unfold child_status_put. do 3 wp_step. apply wp_array_put; [done|]. wp_step. exact HQ. Qed.

(** Moving the later elements of a list one place down. *)
Lemma delete_shift {A} (l : list A) i n :
  (i <= n < length l)%nat ->
  forall x, l !! S n = Some x ->
  <[n := x]> (take n (delete i l) ++ drop n l) = take (S n) (delete i l) ++ drop (S n) l.
Proof.
  intros Hn x Hx.
  assert (Hd : delete i l !! n = Some x) by (rewrite list_lookup_delete_ge by lia; done).
  assert (Hlen : length (take n (delete i l)) = n).
  { apply lookup_lt_Some in Hx. rewrite length_take, length_delete; [lia|]. apply lookup_lt_is_Some_2. lia. }
  destruct (lookup_lt_is_Some_2 l n) as [y Hy]; [lia|].
  rewrite (take_S_r _ _ _ Hd), <- app_assoc, (drop_S l y n Hy).
  replace n with (length (take n (delete i l)) + 0)%nat at 1 by lia. by rewrite insert_app_r.
Qed.

Lemma take_delete_gt {A} (l : list A) i n : (i < n)%nat -> take (n - 1) (delete i l) = delete i (take n l).
Proof.
  intros Hi. apply list_eq. intros j. destruct (decide (j < i)%nat) as [Hj|Hj].
  - rewrite lookup_take_lt, !list_lookup_delete_lt, lookup_take_lt by lia. done.
  - rewrite (list_lookup_delete_ge (take n l)) by lia. destruct (decide (j < n - 1)%nat) as [Hjn|Hjn].
    + rewrite lookup_take_lt, list_lookup_delete_ge, lookup_take_lt by lia. done.
    + rewrite !lookup_take_ge by lia. done.
Qed.

Lemma take_delete_eq {A} (l : list A) i : (i < length l)%nat -> take i (delete i l) = take i l.
Proof. intros Hi. rewrite delete_take_drop, take_app_le by (rewrite length_take; lia). rewrite take_take. f_equal. lia. Qed.

(** The loop that closes the gap at [i]. *)
Lemma close_gap_ok s i (Q : unit -> process64 -> Prop) :
  children_ok s -> 0 <= i < child_status_count s ->
  (let c := Z.to_nat (child_status_count s - 1) in
   Q tt (s <| child_status_queue := take c (delete (Z.to_nat i) (child_status_queue s)) ++ drop c (child_status_queue s) |>)) ->
  wp (mfor (seqZ i (child_status_count s - 1 - i)) (fun i =>
      queue <- mget child_status_queue ;;
      next <- array_at queue (i [+] 1) ;;
      child_status_put i next)) Q s.
Proof.
  intros [Hq Hc] Hi HQ. cbv zeta in HQ. set (c := child_status_count s) in *. set (q := child_status_queue s) in *.
  set (shifted := fun n => take n (delete (Z.to_nat i) q) ++ drop n q).
  assert (Hsl : forall n, (n <= 15)%nat -> length (shifted n) = 16%nat).
  { intros n Hn. unfold shifted. rewrite length_app, length_take, length_delete, length_drop; [lia|]. apply lookup_lt_is_Some_2. lia. }
  apply (wp_for _ _ (fun l s' => s' = s <| child_status_queue := shifted (Z.to_nat i + length l)%nat |>)).
  - cbn [length]. unfold shifted. rewrite Nat.add_0_r, take_delete_eq, take_drop by lia. by destruct s.
  - intros l x r s' E ->. assert (Hx : seqZ i (c - 1 - i) !! length l = Some x) by (by rewrite E, list_lookup_middle).
    apply lookup_seqZ in Hx as [-> Hl]. do 2 wp_step. cbn [child_status_queue]. wp_step. get_set.
    set (n := (Z.to_nat i + length l)%nat). destruct (lookup_lt_is_Some_2 q (S n)) as [y Hy]; [lia|].
    eapply (wp_array_at _ _ y).
    { rewrite u32_small by (unfold is_u32; lia). replace (Z.to_nat _) with (S n) by lia. unfold shifted.
      rewrite lookup_app_r by (rewrite length_take; lia). rewrite length_take, length_delete by (apply lookup_lt_is_Some_2; lia).
      rewrite lookup_drop, <- Hy. f_equal. lia. }
    apply child_put_ok; [get_set; rewrite Hsl; lia|]. get_set.
    replace (Z.to_nat (i + Z.of_nat (length l))) with n by lia. unfold shifted. rewrite (delete_shift q (Z.to_nat i) n) by (done || lia).
    rewrite length_app. cbn [length]. replace (Z.to_nat i + (length l + 1))%nat with (S n) by lia. by destruct s.
  - intros s' ->. rewrite length_seqZ. replace (Z.to_nat i + Z.to_nat (c - 1 - i))%nat with (Z.to_nat (c - 1)) by lia. exact HQ.
Qed.

Lemma remove_child_ok s i :
  children_ok s -> 0 <= i < child_status_count s ->
  wp (remove_child_status_at i) (fun _ s' => children_ok s' /\ children s' = delete (Z.to_nat i) (children s) /\
    child_status_count s' = child_status_count s - 1 /\ same_but_children s s') s.
Proof.
  intros Hok Hi. pose proof Hok as [Hq Hc]. unfold remove_child_status_at, X86_64_PROCESS_CHILD_STATUS_QUEUE. wp_step. wp_step. zbool.
  wp_step. apply close_gap_ok; [done|done|]. cbv zeta. set (c := child_status_count s) in *. set (q := child_status_queue s) in *.
  set (q' := take (Z.to_nat (c - 1)) (delete (Z.to_nat i) q) ++ drop (Z.to_nat (c - 1)) q).
  assert (Hdl : length (take (Z.to_nat (c - 1)) (delete (Z.to_nat i) q)) = Z.to_nat (c - 1)).
  { rewrite length_take, length_delete; [lia|]. apply lookup_lt_is_Some_2. lia. }
  assert (Hq' : length q' = 16%nat) by (unfold q'; rewrite length_app, Hdl, length_drop; lia).
  wp_step. cbn [mwhen]. zbool. cbn [negb mwhen]. wp_step. get_set. fold c. do 2 wp_step. get_set. fold c.
  rewrite decr_small by lia. zbool. cbn [mwhen]. wp_step. get_set. apply child_put_ok; get_set; [lia|].
  apply watermark_ok. intros st. split; [|split; [|split]].
  - constructor; get_set; [rewrite length_insert; lia|]. fold c. rewrite decr_small by lia. lia.
  - unfold children. get_set. fold c q. rewrite decr_small, take_insert_ge by lia. unfold q'.
    rewrite take_app_le, take_ge by lia. rewrite <- take_delete_gt by lia. f_equal. lia.
  - get_set. fold c. by rewrite decr_small by lia.
  - eexists _, _, _. by destruct s.
Qed.

(** ** Reference: a list of at most 16 exits *)

Definition exits_record (parent child code : Z) (l : list x86_64_child_status) : list x86_64_child_status :=
  (if decide (length l = 16%nat) then drop 1 l else l) ++ [ {| cs_parent_pid := parent; cs_child_pid := child; cs_exit_code := code |} ].

(** The oldest exit of a child of [parent], and the list without it. *)
Definition exits_wait (parent : Z) (l : list x86_64_child_status) : option (Z * Z) * list x86_64_child_status :=
  match list_find (fun e => cs_parent_pid e = parent) l with
  | Some (i, e) => (Some (cs_child_pid e, cs_exit_code e), delete i l)
  | None => (None, l)
  end.

Lemma children_length s : children_ok s -> Z.of_nat (length (children s)) = child_status_count s.
Proof. intros []. unfold children. rewrite length_take. lia. Qed.

Lemma children_state s st :
  children (s <| process64_state := st |>) = children s /\ (children_ok s -> children_ok (s <| process64_state := st |>)).
Proof. split; [done|]. intros []. by constructor. Qed.

(** Storing behind the last exit, when there is room. *)
Lemma child_append_ok s e st :
  children_ok s -> child_status_count s < 16 ->
  let s' := s <| child_status_queue := <[Z.to_nat (child_status_count s) := e]> (child_status_queue s) |>
    <| child_status_count ::= incr |> <| process64_state := st |> in
  children_ok s' /\ children s' = children s ++ [e].
Proof.
  intros [Hq Hc] Hlt s'. assert (Hn : child_status_count s' = child_status_count s + 1).
  { unfold s'. get_set. rewrite incr_small; lia. }
  split.
  - constructor; [unfold s'; get_set; by rewrite length_insert|rewrite Hn; lia].
  - unfold children. rewrite Hn. unfold s'. get_set. replace (Z.to_nat (child_status_count s + 1)) with (S (Z.to_nat (child_status_count s))) by lia.
    apply take_insert_end. lia.
Qed.

Lemma record_child_ok s parent child code :
  children_ok s ->
  wp (x86_64_process_record_child_exit parent child code) (fun r s' => children_ok s' /\ same_but_children s s' /\
    r = negb ((parent =? 0) || (child =? 0) || (parent =? child)) /\
    children s' = if r then exits_record parent child code (children s) else children s) s.
Proof.
  intros Hok. unfold x86_64_process_record_child_exit, X86_64_PROCESS_INVALID_PID, X86_64_PROCESS_CHILD_STATUS_QUEUE.
  destruct ((parent =? 0) || (child =? 0) || (parent =? child)); cbn [negb]; [wp_step; auto with children|].
  do 3 wp_step. pose proof (ch_count s Hok) as Hc. pose proof (children_length s Hok) as Hlen.
  apply (wp_mono _ (fun _ s1 => children_ok s1 /\ child_status_count s1 < 16 /\ same_but_children s s1 /\
    children s1 = if decide (length (children s) = 16%nat) then drop 1 (children s) else children s)).
  { destruct (Z.leb_spec 16 (child_status_count s)); cbn [mwhen].
    - wp_step. eapply wp_mono; [apply remove_child_ok; [done|lia]|]. intros [] s1 (Hok1 & Hch1 & Hc1 & Hs1). apply wp_sm_mod. intros st.
      destruct (children_state s1 st) as [E1 E2].
      split; [apply E2, Hok1|]. split; [get_set; lia|]. split; [eapply same_but_children_trans; [done|auto with children]|].
      rewrite decide_True by lia. rewrite E1, Hch1. by destruct (children s).
    - wp_step. split; [done|]. split; [lia|]. split; [auto with children|]. by rewrite decide_False by lia. }
  intros [] s1 (Hok1 & Hc1 & Hs1 & Hch1). do 3 wp_step. apply child_put_ok; [destruct Hok1; lia|]. do 3 wp_step.
  apply wp_sm_mod. intros st. wp_step. apply watermark_ok. intros st'. wp_step. cbv beta.
  destruct (child_append_ok s1 {| cs_parent_pid := parent; cs_child_pid := child; cs_exit_code := code |} st' Hok1 Hc1) as [H1 H2].
  split; [exact H1|]. split; [|split; [done|unfold exits_record; rewrite <- Hch1; exact H2]].
  destruct Hs1 as (st1 & q1 & c1 & ->). eexists _, _, _. by destruct s.
Qed.

Lemma wait_child_ok s parent :
  children_ok s -> parent <> 0 ->
  wp (x86_64_process_wait_child parent true) (fun r s' => children_ok s' /\ same_but_children s s' /\
    (r, children s') = exits_wait parent (children s)) s.
Proof.
  intros Hok Hp. unfold x86_64_process_wait_child, X86_64_PROCESS_INVALID_PID. zbool. cbn [negb orb]. do 3 wp_step.
  pose proof (children_length s Hok) as Hlen. pose proof (ch_count s Hok) as Hc. unfold exits_wait.
  apply (wp_for_ret_seqZ _ _ (fun i s' => s' = s /\ Forall (fun e => cs_parent_pid e <> parent) (take (Z.to_nat i) (children s)))).
  - lia.
  - done.
  - intros i s' Hi (-> & Hnone). do 3 wp_step. destruct (lookup_lt_is_Some_2 (children s) (Z.to_nat i)) as [e He]; [lia|].
    assert (Heq : child_status_queue s !! Z.to_nat i = Some e) by (unfold children in He; by apply lookup_take_Some in He as [? _]).
    eapply wp_array_at; [exact Heq|]. destruct (Z.eqb_spec (cs_parent_pid e) parent) as [Hpe|Hpe]; cbn [negb].
    + wp_step. apply wp_sm_mod. intros st. wp_step.
      destruct (children_state s st) as [E1 E2].
      eapply wp_mono; [apply remove_child_ok; [auto|exact Hi]|]. intros [] s1 (Hok1 & Hch1 & _ & Hs1). wp_step. wp_step.
      split; [done|]. split; [eapply same_but_children_trans; [apply (same_state s st)|done]|].
      rewrite Hch1, E1. assert (Hf : list_find (fun e => cs_parent_pid e = parent) (children s) = Some (Z.to_nat i, e)).
      { apply list_find_Some. split; [done|]. split; [done|]. intros j y Hj Hlt. rewrite Forall_lookup in Hnone. apply (Hnone j).
        rewrite lookup_take_lt by lia. done. }
      by rewrite Hf.
    + wp_step. split; [done|]. replace (Z.to_nat (i + 1)) with (S (Z.to_nat i)) by lia. rewrite (take_S_r _ _ _ He).
      apply Forall_app. split; [done|]. by constructor.
  - intros s' (-> & Hnone). rewrite take_ge in Hnone by lia. wp_step. apply wp_sm_mod. intros st. wp_step. apply watermark_ok. intros st'. wp_step.
    destruct (children_state s st') as [E1 E2].
    assert (Hf : list_find (fun e => cs_parent_pid e = parent) (children s) = None) by (by apply list_find_None). rewrite Hf.
    split; [apply E2, Hok|]. split; [exists st', (child_status_queue s), (child_status_count s); by destruct s|].
    change (children ((s <| process64_state := st |>) <| process64_state := st' |>)) with (children (s <| process64_state := st' |>)). by rewrite E1.
Qed.

(** ** Interleavings of exits and waits *)

Inductive exit_op :=
  | Record (parent child code : Z)
  | Wait (parent : Z).

Definition run_exit_op (o : exit_op) : PR (option (Z * Z)) :=
  match o with
  | Record parent child code => x86_64_process_record_child_exit parent child code ;;; mret_ None
  | Wait parent => x86_64_process_wait_child parent true
  end.

Fixpoint run_exit_ops (l : list exit_op) : PR (list (option (Z * Z))) :=
  match l with
  | [] => mret_ []
  | o :: l => r <- run_exit_op o ;; rs <- run_exit_ops l ;; mret_ (r :: rs)
  end.

Definition exits_op (o : exit_op) (l : list x86_64_child_status) : option (Z * Z) * list x86_64_child_status :=
  match o with
  | Record parent child code =>
      (None, if (parent =? 0) || (child =? 0) || (parent =? child) then l else exits_record parent child code l)
  | Wait parent => if parent =? 0 then (None, l) else exits_wait parent l
  end.

Fixpoint exits_ops (ops : list exit_op) (l : list x86_64_child_status) : list (option (Z * Z)) * list x86_64_child_status :=
  match ops with
  | [] => ([], l)
  | o :: ops => let '(r, l1) := exits_op o l in let '(rs, l2) := exits_ops ops l1 in (r :: rs, l2)
  end.

Lemma run_exit_op_ok s o :
  children_ok s ->
  wp (run_exit_op o) (fun r s' => children_ok s' /\ same_but_children s s' /\ (r, children s') = exits_op o (children s)) s.
Proof.
  intros Hok. destruct o as [parent child code|parent]; cbn [run_exit_op exits_op].
  - wp_step. eapply wp_mono; [by apply record_child_ok|]. intros r s' (Hok' & Hs' & -> & Hch). wp_step. cbv beta.
    split; [done|]. split; [done|]. rewrite Hch. by destruct (_ || _).
  - destruct (Z.eqb_spec parent 0) as [->|Hp]; [apply wp_ret; auto with children|]. by apply wait_child_ok.
Qed.

Lemma run_exit_ops_ok l s :
  children_ok s ->
  wp (run_exit_ops l) (fun rs s' => children_ok s' /\ same_but_children s s' /\ (rs, children s') = exits_ops l (children s)) s.
Proof.
  revert s. induction l as [|o l IH]; intros s Hok; cbn [run_exit_ops exits_ops]; [apply wp_ret; auto with children|].
  wp_step. eapply wp_mono; [by apply run_exit_op_ok|]. intros r s1 (Hok1 & Hs1 & <-).
  wp_step. eapply wp_mono; [by apply IH|]. intros rs s2 (Hok2 & Hs2 & <-). wp_step.
  split; [done|]. split; [by eapply same_but_children_trans|done].
Qed.

(** ** The process list of the 64-bit kernel as text *)

(** ** Reference text *)

Definition process_line (p : x86_64_process) : list Z :=
  if p6_state p =? X86_64_PROCESS_UNUSED then []
  else vga_write_u32 (p6_pid p) ++ [32] ++ process64_state_name (p6_state p) ++ [32] ++ process_mode_name (p6_mode p) ++ [32] ++
       cstr (p6_name p) ++ (if char_at (p6_image_path p) 0 =? 0 then [] else [32] ++ cstr (p6_image_path p)) ++ [10].

Definition totals_text (l : list (list Z * Z)) : list Z := mjoin ((fun x => fst x ++ vga_write_u32 (snd x)) <$> l).

Definition process_list_text (s : process64) : list Z :=
  str "PID STATE MODE NAME" ++ [10] ++ mjoin (process_line <$> process64_table s) ++
  totals_text (snapshot_totals (process64_state s) (child_status_count s)) ++ [10].

(** What the text of a process is made of. *)
Record printable (p : x86_64_process) : Prop := {
  pt_pid : is_u32 (p6_pid p);
  pt_name : length (p6_name p) = 24%nat;
  pt_path : length (p6_image_path p) = 64%nat
}.

Record table_printable (s : process64) : Prop := {
  tp_length : length (process64_table s) = 64%nat;
  tp_processes : Forall printable (process64_table s);
  tp_totals : Forall (fun x => is_u32 (snd x)) (snapshot_totals (process64_state s) (child_status_count s))
}.

Lemma cstr_length l : (length (cstr l) <= length l)%nat.
Proof. induction l as [|c l IH]; cbn; [lia|]. destruct (c =? 0); cbn; lia. Qed.

Lemma vga_write_u32_length v : (length (vga_write_u32 v) <= 10)%nat.
Proof.
  unfold vga_write_u32. destruct (v =? 0); [cbn; lia|]. rewrite length_rev. apply vga_u32_buffer_length.
Qed.

Lemma state_name_length x : (length (process64_state_name x) <= 7)%nat /\ cstr (process64_state_name x) = process64_state_name x.
Proof. unfold process64_state_name. repeat case_match; vm_compute; split; reflexivity || lia. Qed.

Lemma mode_name_length x : (length (process_mode_name x) <= 6)%nat /\ cstr (process_mode_name x) = process_mode_name x.
Proof. unfold process_mode_name. repeat case_match; vm_compute; split; reflexivity || lia. Qed.

Lemma process_line_length p : printable p -> (length (process_line p) <= 140)%nat.
Proof.
  intros [_ Hn Hp]. unfold process_line. destruct (_ =? _); [cbn; lia|]. rewrite !length_app.
  pose proof (vga_write_u32_length (p6_pid p)). pose proof (state_name_length (p6_state p)). pose proof (mode_name_length (p6_mode p)).
  pose proof (cstr_length (p6_name p)). pose proof (cstr_length (p6_image_path p)).
  destruct (char_at _ _ =? 0); rewrite ?length_app; cbn [length]; lia.
Qed.

Lemma length_join_bound {A} (f : A -> list Z) n l :
  Forall (fun x => (length (f x) <= n)%nat) l -> (length (mjoin (f <$> l)) <= n * length l)%nat.
Proof.
  induction 1 as [|x l Hx _ IH]; [apply Nat.le_0_l|]. change (mjoin (f <$> x :: l)) with (f x ++ mjoin (f <$> l)).
  rewrite length_app. cbn [length]. lia.
Qed.

Section Snapshot.
Context (size : Z) (buffer : list Z).
Hypothesis size_ok : 0 <= size <= Z.of_nat (length buffer).
Hypothesis buffer_ok : Z.of_nat (length buffer) < 18446744073709551615.

Lemma snapshot_line_ok s t i p (Q : list Z * Z -> process64 -> Prop) :
  process64_table s !! Z.to_nat i = Some p -> printable p -> Z.of_nat (length t) <= 100000 ->
  Q (text_state size buffer (t ++ process_line p)) s -> wp (snapshot_line size (text_state size buffer t) i) Q s.
Proof using size_ok buffer_ok.
  intros Hp Hpr Ht HQ. pose proof Hpr as [Hpid Hn Hpath]. unfold is_u32 in Hpid.
  pose proof (vga_write_u32_length (p6_pid p)). destruct (state_name_length (p6_state p)) as [Hs1 Hs2].
  destruct (mode_name_length (p6_mode p)) as [Hm1 Hm2]. pose proof (cstr_length (p6_name p)). pose proof (cstr_length (p6_image_path p)).
  unfold snapshot_line, process_at, process_line in *. do 3 wp_step. eapply wp_array_at; [exact Hp|].
  destruct (p6_state p =? X86_64_PROCESS_UNUSED); [wp_step; by rewrite app_nil_r in HQ|].
  wp_step. apply append_u32_ok; [done|done|lia|lia|]. rewrite !app_assoc in HQ.
  wp_step. apply append_char_ok; [done|done|rewrite ?length_app; cbn [length]; lia|].
  wp_step. apply append_string_ok; [done|done|rewrite Hs2, ?length_app; cbn [length]; lia|]. rewrite Hs2.
  wp_step. apply append_char_ok; [done|done|rewrite ?length_app; cbn [length]; lia|].
  wp_step. apply append_string_ok; [done|done|rewrite Hm2, ?length_app; cbn [length]; lia|]. rewrite Hm2.
  wp_step. apply append_char_ok; [done|done|rewrite ?length_app; cbn [length]; lia|].
  wp_step. apply append_string_ok; [done|done|rewrite ?length_app; cbn [length]; lia|].
  wp_step. destruct (char_at (p6_image_path p) 0 =? 0); cbn [negb].
  - wp_step. apply append_char_ok; [done|done|rewrite ?length_app; cbn [length]; lia|]. rewrite app_nil_r in HQ. exact HQ.
  - wp_step. apply append_char_ok; [done|done|rewrite ?length_app; cbn [length]; lia|].
    apply append_string_ok; [done|done|rewrite ?length_app; cbn [length]; lia|].
    apply append_char_ok; [done|done|rewrite ?length_app; cbn [length]; lia|]. rewrite !app_assoc in HQ. exact HQ.
Qed.

Lemma snapshot_lines_ok s t (Q : list Z * Z -> process64 -> Prop) :
  table_printable s -> (length t <= 100)%nat ->
  Q (text_state size buffer (t ++ mjoin (process_line <$> process64_table s))) s ->
  wp (mfold (seqZ 0 64) (snapshot_line size) (text_state size buffer t)) Q s.
Proof using size_ok buffer_ok.
  intros [Hl Hpr _] Ht HQ.
  apply (wp_fold _ _ (fun l a s' => s' = s /\ a = text_state size buffer (t ++ mjoin (process_line <$> take (length l) (process64_table s))) /\
    (length (mjoin (process_line <$> take (length l) (process64_table s))) <= 140 * length l)%nat)).
  - split; [done|]. split; [cbn; by rewrite app_nil_r|]. apply Nat.le_0_l.
  - intros l x r a s' E (-> & -> & Hlen). assert (Hx : seqZ 0 64 !! length l = Some x) by (by rewrite E, list_lookup_middle).
    apply lookup_seqZ in Hx as [-> Hi]. destruct (lookup_lt_is_Some_2 (process64_table s) (length l)) as [p Hp]; [lia|].
    assert (Hprp : printable p) by (rewrite Forall_lookup in Hpr; by eapply Hpr).
    assert (Hjoin : mjoin (process_line <$> take (length (l ++ [0 + Z.of_nat (length l)])) (process64_table s))
      = mjoin (process_line <$> take (length l) (process64_table s)) ++ process_line p).
    { rewrite length_app, Nat.add_1_r, (take_S_r _ _ _ Hp), fmap_app, join_app. cbn. by rewrite app_nil_r. }
    apply (snapshot_line_ok _ _ _ p); [rewrite <- Hp; f_equal; lia|done|rewrite length_app; lia|].
    split; [done|]. rewrite Hjoin, app_assoc, !length_app. cbn [length]. pose proof (process_line_length p Hprp). split; [done|lia].
  - intros a s' (-> & -> & _). rewrite length_seqZ, take_ge in * by (change (Z.to_nat 64) with 64%nat; lia). exact HQ.
Qed.

Lemma totals_ok l s t (Q : list Z * Z -> process64 -> Prop) :
  Forall (fun x => is_u32 (snd x) /\ (length (fst x) <= 20)%nat /\ cstr (fst x) = fst x) l -> Z.of_nat (length t) + 30 * Z.of_nat (length l) <= 20000 ->
  Q (text_state size buffer (t ++ totals_text l)) s ->
  wp (mfold l (snapshot_number size) (text_state size buffer t)) Q s.
Proof using size_ok buffer_ok.
  intros Hl. revert t. induction Hl as [|[label n] l (Hn & Hlab & Hc) Hl IH]; intros t Ht HQ; cbn [mfold length] in *.
  { apply wp_ret. by rewrite app_nil_r in HQ. }
  cbn [fst snd] in *. pose proof (vga_write_u32_length n). unfold is_u32 in Hn.
  unfold snapshot_number at 1. do 2 wp_step. cbn [fst snd]. apply append_string_ok; [done|done|rewrite Hc; lia|]. rewrite Hc.
  apply append_u32_ok; [done|done|lia|rewrite length_app; lia|]. apply IH; [rewrite !length_app; lia|].
  unfold totals_text in HQ. cbn in HQ. rewrite <- !app_assoc. rewrite <- !app_assoc in HQ. exact HQ.
Qed.
End Snapshot.

Lemma snapshot_ok s buffer size :
  table_printable s -> 0 < size <= Z.of_nat (length buffer) -> Z.of_nat (length buffer) < 18446744073709551615 ->
  wp (x86_64_process_snapshot (Some buffer) size) (fun r s' => s' = s /\
    let text := process_list_text s in
    r = (Z.min (Z.of_nat (length text)) (size - 1), Some (finish_text size text buffer))) s.
Proof.
  intros Hpr Hs Hb. pose proof Hpr as [Hl Hp Ht]. unfold x86_64_process_snapshot. rewrite (proj2 (Z.eqb_neq size 0)) by lia.
  assert (Hs' : 0 <= size <= Z.of_nat (length buffer)) by lia.
  assert (Hhead : cstr (str "PID STATE MODE NAME" ++ [10]) = str "PID STATE MODE NAME" ++ [10]) by reflexivity.
  assert (Hhl : length (str "PID STATE MODE NAME" ++ [10]) = 20%nat) by reflexivity.
  assert (Hlines : (length (mjoin (process_line <$> process64_table s)) <= 140 * length (process64_table s))%nat).
  { apply length_join_bound. eapply Forall_impl; [exact Hp|]. apply process_line_length. }
  assert (Htot : Forall (fun x => is_u32 (snd x) /\ (length (fst x) <= 20)%nat /\ cstr (fst x) = fst x)
    (snapshot_totals (process64_state s) (child_status_count s))).
  { apply Forall_forall. intros x Hx. rewrite Forall_forall in Ht. split; [by apply Ht|]. clear -Hx. unfold snapshot_totals in Hx.
    repeat (apply elem_of_cons in Hx as [->|Hx]; [cbn [fst]; split; [vm_compute; lia|reflexivity]|]). by apply not_elem_of_nil in Hx. }
  assert (Htl : (length (totals_text (snapshot_totals (process64_state s) (child_status_count s))) <= 360)%nat).
  { change 360%nat with (30 * length (snapshot_totals (process64_state s) (child_status_count s)))%nat.
    apply length_join_bound. eapply Forall_impl; [exact Htot|]. intros x (_ & Hx & _). rewrite length_app.
    pose proof (vga_write_u32_length (snd x)). lia. }
  assert (Htext : process_list_text s = ((((str "PID STATE MODE NAME" ++ [10]) ++ mjoin (process_line <$> process64_table s)) ++
    totals_text (snapshot_totals (process64_state s) (child_status_count s))) ++ [10])) by (unfold process_list_text; by rewrite !app_assoc).
  rewrite Htext. clear Htext. set (header := str "PID STATE MODE NAME" ++ [10]) in *.
  wp_step. rewrite (text_start size).
  apply append_string_ok; [done|done|rewrite Hhead, Hhl; cbn; lia|]. rewrite Hhead, app_nil_l.
  wp_step. apply snapshot_lines_ok; [done|done|done|rewrite Hhl; lia|]. do 5 wp_step.
  apply totals_ok; [done|done|done|rewrite length_app, Hhl; cbn [length snapshot_totals]; lia|].
  wp_step. apply append_char_ok; [done|done|rewrite !length_app, Hhl; lia|].
  wp_step. apply text_end_ok; [done|done|lia|]. wp_step.
  cbv beta zeta. split; [done|]. rewrite text_length. f_equal.
  destruct (Z.ltb_spec (Z.of_nat (length (((header ++ mjoin (process_line <$> process64_table s)) ++
    totals_text (snapshot_totals (process64_state s) (child_status_count s))) ++ [10]))) size); [lia|].
  rewrite u64_small by (unfold is_u64; lia). lia.
Qed.
