(* ===== verification/Process64Tables.v ===== *)
(** * Pages and page tables in memory: lemmas for the 64-bit kernel *)
From S2P Require Import Prelude Word64 Mem KString Pmm64 Text64 Process64.

(** A page frame. *)
Definition frame_ok (p : Z) : Prop := 0 < p < 35184372088832 /\ p mod 4096 = 0.

(** [a] lies in the page [p]. *)
Definition in_page64 (p a : Z) : Prop := p <= a < p + 4096.
#[export] Instance in_page_dec p a : Decision (in_page64 p a).
Proof. apply _. Defined.

Lemma pages_apart p q a : frame_ok p -> frame_ok q -> p <> q -> in_page64 p a -> ~ in_page64 q a.
Proof. unfold frame_ok, in_page64. intros [_ Hp] [_ Hq] Hne H1 H2. Z.div_mod_to_equations. lia. Qed.

(** Entry [i] of the table at [t]. *)
Definition word (m : mem) (t i : Z) : Z := load64 m (t + 8 * i).

Lemma word_range m t i : 0 <= word m t i < 18446744073709551616.
Proof. apply load64_range. Qed.

(** Memories that agree outside the pages [ps]. *)
Definition same_outside (ps : list Z) (m m' : mem) : Prop :=
  forall a, (forall p, p ∈ ps -> ~ in_page64 p a) -> load8 m' a = load8 m a.

Lemma same_outside_refl ps m : same_outside ps m m.
Proof. done. Qed.

Lemma same_outside_trans ps m1 m2 m3 : same_outside ps m1 m2 -> same_outside ps m2 m3 -> same_outside ps m1 m3.
Proof. intros H1 H2 a Ha. by rewrite H2, H1. Qed.

Lemma same_outside_mono ps qs m m' : ps ⊆ qs -> same_outside ps m m' -> same_outside qs m m'.
Proof. intros Hs H a Ha. apply H. intros p Hp. by apply Ha, Hs. Qed.

Lemma same_outside_word ps m m' t i :
  same_outside ps m m' -> frame_ok t -> t ∉ ps -> Forall frame_ok ps -> 0 <= i < 512 -> word m' t i = word m t i.
Proof.
  intros H Ht Hnin Hps Hi. unfold word. apply (load64_agree (fun a => in_page64 t a)).
  - intros a Ha. apply H. intros p Hp. rewrite Forall_forall in Hps. apply (pages_apart t); auto. by intros ->.
  - intros j Hj. unfold in_page64. lia.
Qed.

(** ** Clearing and copying *)

Lemma clear_page_ok s p (Q : unit -> process64 -> Prop) :
  frame_ok p ->
  (forall m', (forall a, load8 m' a = if decide (in_page64 p a) then 0 else load8 (pr_mem s) a) -> Q tt (s <| pr_mem := m' |>)) ->
  wp (clear_page64 p) Q s.
Proof.
  intros [Hp _] HQ. unfold clear_page64, clear_bytes64, X86_64_USER_PAGE_BYTES.
  apply (wp_for_seqZ _ _ (fun i s' => exists m', s' = s <| pr_mem := m' |> /\
    forall a, load8 m' a = if decide (p <= a < p + i) then 0 else load8 (pr_mem s) a)).
  - lia.
  - exists (pr_mem s). split; [by destruct s|]. intros a. by rewrite decide_False by lia.
  - intros i s' Hi (m' & -> & Hm). wp_step. exists (store8 (p [++] i) 0 m'). split; [by destruct s|].
    intros a. rewrite u64_small by (unfold is_u64; lia). destruct (decide (a = p + i)) as [->|Hne].
    + rewrite load8_store8_eq, decide_True by lia. done.
    + rewrite load8_store8_ne, Hm by done. repeat case_decide; lia || done.
  - intros s' (m' & -> & Hm). by apply HQ.
Qed.

Lemma copy_bytes_ok s dst src n (Q : unit -> process64 -> Prop) :
  0 <= dst -> 0 <= src -> 0 <= n -> dst + n < 18446744073709551616 -> src + n < 18446744073709551616 ->
  (dst + n <= src \/ src + n <= dst) ->
  (forall m', (forall a, load8 m' a = if decide (dst <= a < dst + n) then load8 (pr_mem s) (src + (a - dst)) else load8 (pr_mem s) a) ->
     Q tt (s <| pr_mem := m' |>)) ->
  wp (copy_bytes64 dst src n) Q s.
Proof.
  intros Hd Hs Hn Hdn Hsn Hdis HQ. unfold copy_bytes64.
  apply (wp_for_seqZ _ _ (fun i s' => exists m', s' = s <| pr_mem := m' |> /\
    forall a, load8 m' a = if decide (dst <= a < dst + i) then load8 (pr_mem s) (src + (a - dst)) else load8 (pr_mem s) a)).
  - done.
  - exists (pr_mem s). split; [by destruct s|]. intros a. by rewrite decide_False by lia.
  - intros i s' Hi (m' & -> & Hm). wp_step. exists (store8 (dst [++] i) (load8 m' (src [++] i)) m'). split; [by destruct s|].
    intros a. rewrite !u64_small by (unfold is_u64; lia). destruct (decide (a = dst + i)) as [->|Hne].
    + rewrite load8_store8_eq, decide_True by lia. rewrite Hm, decide_False by lia.
      replace (dst + i - dst) with i by lia. unfold u8. apply Z.mod_small, load8_range.
    + rewrite load8_store8_ne, Hm by done. repeat case_decide; lia || done.
  - intros s' (m' & -> & Hm). by apply HQ.
Qed.

(** ** Words: clearing, copying and assigning entries of tables *)

Lemma word_cleared m m' p t i :
  frame_ok p -> frame_ok t -> 0 <= i < 512 ->
  (forall a, load8 m' a = if decide (in_page64 p a) then 0 else load8 m a) ->
  word m' t i = if decide (t = p) then 0 else word m t i.
Proof.
  intros Hp Ht Hi Hm. unfold word. destruct (decide (t = p)) as [->|Hne].
  - apply load64_zero. intros j Hj. rewrite Hm, decide_True; [done|]. unfold in_page64. lia.
  - apply load64_same. intros j Hj. rewrite Hm, decide_False; [done|]. apply (pages_apart t); auto. unfold in_page64. lia.
Qed.

Lemma word_copied m m' dst src t i :
  frame_ok dst -> frame_ok t -> 0 <= i < 512 ->
  (forall a, load8 m' a = if decide (dst <= a < dst + 4096) then load8 m (src + (a - dst)) else load8 m a) ->
  word m' t i = if decide (t = dst) then word m src i else word m t i.
Proof.
  intros Hd Ht Hi Hm. unfold word. destruct (decide (t = dst)) as [->|Hne].
  - apply load64_same. intros j Hj. rewrite Hm, decide_True by lia. f_equal. lia.
  - apply load64_same. intros j Hj. rewrite Hm, decide_False; [done|]. apply (pages_apart t dst); auto. unfold in_page64. lia.
Qed.

Lemma entry_addr t i : frame_ok t -> 0 <= i < 512 -> t [++] 8 [**] i = t + 8 * i.
Proof. intros [Ht _] Hi. rewrite !u64_small; unfold is_u64; rewrite ?u64_small; unfold is_u64; lia. Qed.

Lemma entry_at_ok s t i (Q : Z -> process64 -> Prop) :
  frame_ok t -> 0 <= i < 512 -> Q (word (pr_mem s) t i) s -> wp (entry_at t i) Q s.
Proof. intros Ht Hi HQ. unfold entry_at. do 2 wp_step. wp_step. rewrite entry_addr by done. exact HQ. Qed.

Lemma entry_put_ok s t i v (Q : unit -> process64 -> Prop) :
  frame_ok t -> 0 <= i < 512 -> 0 <= v < 18446744073709551616 ->
  (forall m', (forall t' j, frame_ok t' -> 0 <= j < 512 -> word m' t' j = if decide (t' = t /\ j = i) then v else word (pr_mem s) t' j) ->
     (forall a, ~ in_page64 t a -> load8 m' a = load8 (pr_mem s) a) -> Q tt (s <| pr_mem := m' |>)) ->
  wp (entry_put t i v) Q s.
Proof.
  intros Ht Hi Hv HQ. unfold entry_put. wp_step. rewrite entry_addr by done.
  replace (s <| pr_mem ::= store64 (t + 8 * i) v |>) with (s <| pr_mem := store64 (t + 8 * i) v (pr_mem s) |>) by (by destruct s).
  apply HQ.
  - intros t' j Ht' Hj. unfold word. destruct (decide (t' = t /\ j = i)) as [[-> ->]|Hne].
    + rewrite load64_store64_eq. by apply Z.mod_small.
    + apply load64_store64_ne. destruct (decide (t' = t)) as [->|Hnt]; [lia|].
      unfold frame_ok in *. Z.div_mod_to_equations. lia.
  - intros a Ha. apply load8_store64_ne. unfold in_page64 in Ha. lia.
Qed.

(** ** Entries: an address and flags *)

Lemma lor_frame_flags p f : p mod 4096 = 0 -> 0 <= f < 4096 -> Z.lor p f = p + f.
Proof.
  intros Hp Hf. apply lor_disjoint_add, (land_aligned_low p 12 f); [lia|done..].
Qed.

Lemma frame_flag_bit p f n : p mod 4096 = 0 -> 0 <= f < 4096 -> 0 <= n < 12 -> Z.testbit (p + f) n = Z.testbit f n.
Proof.
  intros Hp Hf Hn. rewrite <- (Z.mod_pow2_bits_low (p + f) 12 n) by lia. change (2 ^ 12) with 4096.
  rewrite Zplus_mod, Hp. rewrite Z.add_0_l, Z.mod_mod, Z.mod_small by lia. done.
Qed.

Lemma land_frame_flags p f x : p mod 4096 = 0 -> 0 <= f < 4096 -> 0 <= x < 4096 -> Z.land (p + f) x = Z.land f x.
Proof.
  intros Hp Hf Hx. apply Z.bits_inj'. intros n Hn. rewrite !Z.land_spec. destruct (Z.ltb_spec n 12).
  - by rewrite frame_flag_bit by lia.
  - assert (Hxn : Z.testbit x n = false).
    { destruct (decide (x = 0)) as [->|]; [by rewrite Z.bits_0|]. apply Z.bits_above_log2; [lia|].
      apply Z.lt_le_trans with 12; [|done]. apply Z.log2_lt_pow2; lia. }
    by rewrite Hxn, !andb_false_r.
Qed.

Lemma points_to_frame p f : frame_ok p -> 0 <= f < 4096 -> entry_points_to (p + f) p = true.
Proof.
  intros [Hp Ha] Hf. unfold entry_points_to, X86_64_USER_PAGE_BYTES. change (4096 - 1) with (2 ^ 12 - 1).
  rewrite land_high_mask64 by (unfold is_u64; lia). change (2 ^ 12) with 4096. apply Z.eqb_eq. Z.div_mod_to_equations. lia.
Qed.

Lemma present_frame p f : p mod 4096 = 0 -> 0 <= f < 4096 -> entry_present (p + f) = Z.testbit f 0.
Proof.
  intros Hp Hf. unfold entry_present, X86_64_PROCESS_PAGE_PRESENT. rewrite land_frame_flags by (done || lia).
  change 1 with (2 ^ 1 - 1). rewrite land_low_mask by lia. change (2 ^ 1) with 2. rewrite Zmod_odd, <- Z.bit0_odd. by destruct (Z.testbit f 0).
Qed.

Lemma user_frame64 p f : p mod 4096 = 0 -> 0 <= f < 4096 -> entry_user_accessible (p + f) = Z.testbit f 2.
Proof.
  intros Hp Hf. unfold entry_user_accessible, X86_64_PROCESS_PAGE_USER. rewrite land_frame_flags by (done || lia).
  destruct (Z.testbit f 2) eqn:E.
  - apply negb_true_iff, Z.eqb_neq. intros H0. assert (H2 : Z.testbit (Z.land f 4) 2 = true) by (by rewrite Z.land_spec, E).
    rewrite H0 in H2. done.
  - apply negb_false_iff, Z.eqb_eq. apply Z.bits_inj'. intros n Hn. rewrite Z.land_spec, Z.bits_0. change 4 with (2 ^ 2).
    rewrite Z.pow2_bits_eqb by lia. destruct (Z.eqb_spec 2 n) as [<-|]; [by rewrite E|apply andb_false_r].
Qed.

(** The frame of an entry, as the processor reads it. *)
Lemma frame_of_entry p f : frame_ok p -> 0 <= f < 4096 -> 4096 * (Z.land (p + f) 0xFFFFFFFFFFFFF / 4096) = p.
Proof.
  intros [Hp Ha] Hf. change 0xFFFFFFFFFFFFF with (2 ^ 52 - 1). rewrite land_low_mask by lia. rewrite Z.mod_small by lia.
  Z.div_mod_to_equations. lia.
Qed.

(** ** The page tables of a process of the 64-bit kernel *)

(** The frames of an address space, in the order they are allocated. *)
Definition space_frames (p : x86_64_process) : list Z :=
  [p6_cr3 p; p6_user_pdpt_page p; p6_user_code_pd_page p; p6_user_stack_pd_page p; p6_user_code_pt_page p; p6_user_stack_pt_page p] ++
  p6_user_code_pages p ++ [p6_user_stack_page p].

(** The layout of every address space. *)
Record space_ok (p : x86_64_process) : Prop := {
  so_frames : Forall frame_ok (space_frames p);
  so_nodup : NoDup (space_frames p);
  so_pages : length (p6_user_code_pages p) = 4%nat;
  so_flags : length (p6_user_code_page_flags p) = 4%nat;
  so_code : p6_user_code_virtual p = 0x400000;
  so_stack : p6_user_stack_virtual p = 0x7FFFF000
}.

(** The kernel's own tables: [k4], [k3] and [k2] are the entries of its PML4 and of
    the PDPT and page directory of its identity map. *)
Record kernel_tables := { k4 : Z -> Z; k3 : Z -> Z; k2 : Z -> Z }.

Record source_ok (k : kernel_tables) (ctx : x86_64_process_paging_context) (m : mem) : Prop := {
  sr_initialized : pg_initialized ctx = true;
  sr_identity : pg_identity_pml4_index ctx = 0;
  sr_direct : pg_direct_map_pml4_index ctx = 256;
  sr_kernel : pg_kernel_pml4_index ctx = 511;
  sr_frames : Forall frame_ok [pg_source_pml4_table ctx; pg_source_identity_pdpt_table ctx; pg_source_identity_pd_table ctx];
  sr_k4 : forall i, 0 <= i < 512 -> word m (pg_source_pml4_table ctx) i = k4 k i;
  sr_k3 : forall i, 0 <= i < 512 -> word m (pg_source_identity_pdpt_table ctx) i = k3 k i;
  sr_k2 : forall i, 0 <= i < 512 -> word m (pg_source_identity_pd_table ctx) i = k2 k i;
  sr_direct_present : entry_present (k4 k 256) = true;
  sr_kernel_present : entry_present (k4 k 511) = true;
  sr_pdpt_present : entry_present (k3 k 0) = true;
  sr_pd_present : entry_present (k2 k 0) = true
}.

(** The entries that do not belong to user pages: the kernel's, or none. *)
Record template (k : kernel_tables) (n : Z) (p : x86_64_process) (m : mem) : Prop := {
  tm_pml4 : forall i, 0 < i < 512 -> word m (p6_cr3 p) i = k4 k i;
  tm_pdpt : forall i, 1 < i < 512 -> word m (p6_user_pdpt_page p) i = k3 k i;
  tm_code_pd : forall i, 0 <= i < 512 -> i <> 2 -> word m (p6_user_code_pd_page p) i = k2 k i;
  tm_stack_pd : forall i, 0 <= i < 511 -> word m (p6_user_stack_pd_page p) i = 0;
  tm_code_pt : forall i, n <= i < 512 -> word m (p6_user_code_pt_page p) i = 0;
  tm_stack_pt : forall i, 0 <= i < 511 -> word m (p6_user_stack_pt_page p) i = 0
}.

(** ... and those that do. *)
Record user_entries (n : Z) (p : x86_64_process) (m : mem) : Prop := {
  ue_pml4 : word m (p6_cr3 p) 0 = p6_user_pdpt_page p + 7;
  ue_code_pdpt : word m (p6_user_pdpt_page p) 0 = p6_user_code_pd_page p + 7;
  ue_stack_pdpt : word m (p6_user_pdpt_page p) 1 = p6_user_stack_pd_page p + 7;
  ue_code_pd : word m (p6_user_code_pd_page p) 2 = p6_user_code_pt_page p + 7;
  ue_stack_pd : word m (p6_user_stack_pd_page p) 511 = p6_user_stack_pt_page p + 7;
  ue_stack_pt : word m (p6_user_stack_pt_page p) 511 = p6_user_stack_page p + 7;
  ue_code : forall i page flags, 0 <= i < n -> p6_user_code_pages p !! Z.to_nat i = Some page ->
    p6_user_code_page_flags p !! Z.to_nat i = Some flags -> word m (p6_user_code_pt_page p) i = page + flags
}.

(** Frames of a space are page frames, and different. *)
Lemma space_frame p f : space_ok p -> f ∈ space_frames p -> frame_ok f.
Proof. intros Hp Hf. pose proof (so_frames p Hp) as H. rewrite Forall_forall in H. auto. Qed.

Record tables_apart (p : x86_64_process) : Prop := {
  ta_f1 : frame_ok (p6_cr3 p); ta_f2 : frame_ok (p6_user_pdpt_page p); ta_f3 : frame_ok (p6_user_code_pd_page p);
  ta_f4 : frame_ok (p6_user_stack_pd_page p); ta_f5 : frame_ok (p6_user_code_pt_page p); ta_f6 : frame_ok (p6_user_stack_pt_page p);
  ta_f7 : frame_ok (p6_user_stack_page p);
  ta_12 : p6_cr3 p <> p6_user_pdpt_page p; ta_13 : p6_cr3 p <> p6_user_code_pd_page p; ta_14 : p6_cr3 p <> p6_user_stack_pd_page p;
  ta_15 : p6_cr3 p <> p6_user_code_pt_page p; ta_16 : p6_cr3 p <> p6_user_stack_pt_page p;
  ta_23 : p6_user_pdpt_page p <> p6_user_code_pd_page p; ta_24 : p6_user_pdpt_page p <> p6_user_stack_pd_page p;
  ta_25 : p6_user_pdpt_page p <> p6_user_code_pt_page p; ta_26 : p6_user_pdpt_page p <> p6_user_stack_pt_page p;
  ta_34 : p6_user_code_pd_page p <> p6_user_stack_pd_page p; ta_35 : p6_user_code_pd_page p <> p6_user_code_pt_page p;
  ta_36 : p6_user_code_pd_page p <> p6_user_stack_pt_page p; ta_45 : p6_user_stack_pd_page p <> p6_user_code_pt_page p;
  ta_46 : p6_user_stack_pd_page p <> p6_user_stack_pt_page p; ta_56 : p6_user_code_pt_page p <> p6_user_stack_pt_page p
}.

Lemma space_tables_apart p : space_ok p -> tables_apart p.
Proof.
  intros Hp. pose proof (so_nodup p Hp) as Hnd. unfold space_frames in Hnd. cbn [app] in Hnd.
  assert (Hf : forall f, f ∈ space_frames p -> frame_ok f) by (intros; by apply (space_frame p)).
  rewrite !NoDup_cons in Hnd. destruct Hnd as (H1 & H2 & H3 & H4 & H5 & H6 & _).
  repeat (rewrite not_elem_of_cons in H1 || rewrite not_elem_of_cons in H2 || rewrite not_elem_of_cons in H3 ||
          rewrite not_elem_of_cons in H4 || rewrite not_elem_of_cons in H5).
  constructor; try (apply Hf; unfold space_frames; rewrite !elem_of_app, !elem_of_cons; tauto); tauto.
Qed.

(** Closing a query of an entry after assignments to other entries. *)
Ltac apart := match goal with
  | H : ?a = ?b |- False => first [contradiction | symmetry in H; contradiction]
  | |- ?a <> ?b => first [assumption | apply not_eq_sym; assumption]
  end.
Ltac other_index E := first [discriminate E | match goal with H : _ <= _ < _ |- _ => clear -E H; lia | H : _ < _ < _ |- _ => clear -E H; lia end | contradiction].
(** [lia] without the inequalities of the frames. *)
Ltac range_lia := repeat match goal with H : _ <> _ |- _ => clear H end; lia.
Ltac other_entry := rewrite decide_False by (let T := fresh "T" in let E := fresh "E" in intros [T E]; first [apart|other_index E|lia]).

Lemma code_flags_range p i f : space_ok p -> Forall (fun f => 0 <= f < 4096) (p6_user_code_page_flags p) ->
  p6_user_code_page_flags p !! i = Some f -> 0 <= f < 4096.
Proof. intros _ Hf Hi. rewrite Forall_lookup in Hf. eauto. Qed.

(** The loop over the code pages. *)
Lemma code_entries_ok s p (Q : unit -> process64 -> Prop) :
  space_ok p -> Forall (fun f => 0 <= f < 4096) (p6_user_code_page_flags p) -> 0 <= p6_user_code_page_count p <= 4 ->
  (forall m', (forall t i, frame_ok t -> 0 <= i < 512 -> t <> p6_user_code_pt_page p \/ p6_user_code_page_count p <= i -> word m' t i = word (pr_mem s) t i) ->
     (forall i page flags, 0 <= i < p6_user_code_page_count p -> p6_user_code_pages p !! Z.to_nat i = Some page ->
        p6_user_code_page_flags p !! Z.to_nat i = Some flags -> word m' (p6_user_code_pt_page p) i = page + flags) ->
     (forall a, ~ in_page64 (p6_user_code_pt_page p) a -> load8 m' a = load8 (pr_mem s) a) -> Q tt (s <| pr_mem := m' |>)) ->
  wp (mfor (seqZ 0 (p6_user_code_page_count p)) (fun i =>
    page <- array_at (p6_user_code_pages p) i ;;
    flags <- array_at (p6_user_code_page_flags p) i ;;
    entry_put (p6_user_code_pt_page p) (0 [+] i) (Z.lor page flags))) Q s.
Proof.
  intros Hp Hfl Hc HQ. pose proof (space_tables_apart p Hp) as Ht. pose proof (ta_f5 p Ht) as Hcpt.
  apply (wp_for_seqZ _ _ (fun n s' => exists m', s' = s <| pr_mem := m' |> /\
     (forall t i, frame_ok t -> 0 <= i < 512 -> t <> p6_user_code_pt_page p \/ n <= i -> word m' t i = word (pr_mem s) t i) /\
     (forall i page flags, 0 <= i < n -> p6_user_code_pages p !! Z.to_nat i = Some page ->
        p6_user_code_page_flags p !! Z.to_nat i = Some flags -> word m' (p6_user_code_pt_page p) i = page + flags) /\
     (forall a, ~ in_page64 (p6_user_code_pt_page p) a -> load8 m' a = load8 (pr_mem s) a))).
  - lia.
  - exists (pr_mem s). split; [by destruct s|]. split; [done|]. split; [intros; lia|done].
  - intros n s' Hn (m & -> & H1 & H2 & H3).
    destruct (lookup_lt_is_Some_2 (p6_user_code_pages p) (Z.to_nat n)) as [page Epage]; [rewrite (so_pages p Hp); lia|].
    destruct (lookup_lt_is_Some_2 (p6_user_code_page_flags p) (Z.to_nat n)) as [fl Efl]; [rewrite (so_flags p Hp); lia|].
    assert (Hpage : frame_ok page) by (apply (space_frame p page Hp); unfold space_frames; apply list_elem_of_lookup_2 in Epage; rewrite !elem_of_app; tauto).
    pose proof (code_flags_range p _ _ Hp Hfl Efl) as Hfr.
    wp_step. eapply wp_array_at; [exact Epage|]. wp_step. eapply wp_array_at; [exact Efl|].
    rewrite Z.add_0_l, u32_small by (unfold is_u32; lia). rewrite lor_frame_flags by (apply Hpage || done).
    apply entry_put_ok; [done|lia|unfold frame_ok in Hpage; lia|]. intros m' Hm' Hb. get_set_in Hm'. get_set_in Hb. exists m'. split; [by destruct s|].
    split; [|split].
    + intros t i Hft Hi Hor. rewrite Hm' by done. other_entry. apply H1; [done|done|]. destruct Hor; [by left|right; lia].
    + intros i page' fl' Hi E1 E2. rewrite Hm' by (done || lia). destruct (decide (i = n)) as [->|Hne].
      * rewrite decide_True by done. congruence.
      * other_entry. apply H2; [lia|done|done].
    + intros a Ha. by rewrite Hb, H3.
  - intros s' (m & -> & H1 & H2 & H3). by apply HQ.
Qed.

(** ** Validation *)

Lemma flags7 p : frame_ok p -> entry_present (p + 7) = true /\ entry_user_accessible (p + 7) = true /\ entry_points_to (p + 7) p = true.
Proof.
  intros Hp. split; [|split].
  - rewrite present_frame; [done|apply Hp|lia].
  - rewrite user_frame64; [done|apply Hp|lia].
  - apply points_to_frame; [done|lia].
Qed.

Lemma validate_kernel_ok s k n p (Q : bool -> process64 -> Prop) :
  space_ok p -> source_ok k (process_paging_context s) (pr_mem s) -> template k n p (pr_mem s) -> user_entries n p (pr_mem s) ->
  p6_user_code_pt_page p + 7 <> k2 k 2 -> Q true s -> wp (validate_kernel_mappings p) Q s.
Proof.
  intros Hp Hs Ht Hu Hne HQ. pose proof (space_tables_apart p Hp) as Ha. pose proof Ha as [F1 F2 F3 F4 F5 F6 _ _ _ _ _ _ _ _ _ _ _ _ _ _ _ _].
  pose proof (sr_frames _ _ _ Hs) as Hsf. rewrite !Forall_cons in Hsf. destruct Hsf as (G1 & G2 & G3 & _).
  unfold validate_kernel_mappings. do 2 wp_step. rewrite (sr_initialized _ _ _ Hs). cbn [negb orb].
  rewrite (proj2 (Z.eqb_neq (p6_cr3 p) 0)), (proj2 (Z.eqb_neq (p6_user_pdpt_page p) 0)), (proj2 (Z.eqb_neq (p6_user_code_pd_page p) 0))
    by (unfold frame_ok in *; lia). cbn [orb]. cbv zeta. rewrite (so_code p Hp), (sr_identity _ _ _ Hs), (sr_direct _ _ _ Hs), (sr_kernel _ _ _ Hs).
  change (pdpt_index_for 0x400000) with 0. change (pd_index_for 0x400000) with 2.
  do 11 (wp_step; apply entry_at_ok; [done|lia|]). wp_step.
  rewrite !(sr_k4 _ _ _ Hs), (sr_k3 _ _ _ Hs), !(sr_k2 _ _ _ Hs), !(tm_pml4 _ _ _ _ Ht), (tm_code_pd _ _ _ _ Ht) by lia.
  rewrite (ue_pml4 _ _ _ Hu), (ue_code_pdpt _ _ _ Hu), (ue_code_pd _ _ _ Hu).
  destruct (flags7 _ F2) as (_ & -> & ->). destruct (flags7 _ F3) as (_ & -> & ->).
  rewrite (sr_direct_present _ _ _ Hs), (sr_kernel_present _ _ _ Hs), (sr_pdpt_present _ _ _ Hs), (sr_pd_present _ _ _ Hs), !Z.eqb_refl.
  rewrite (proj2 (Z.eqb_neq _ _)) by exact Hne. exact HQ.
Qed.

(** Flags of code pages: present, for users, perhaps writable. *)
Definition code_flags_ok (p : x86_64_process) : Prop :=
  forall i f, 0 <= i < p6_user_code_page_count p -> p6_user_code_page_flags p !! Z.to_nat i = Some f -> f = 5 \/ f = 7.

Lemma code_page_mapped_ok s n p i (Q : bool -> process64 -> Prop) :
  space_ok p -> user_entries n p (pr_mem s) -> code_flags_ok p -> 0 <= i < n -> n <= 4 -> n = p6_user_code_page_count p ->
  Q true s -> wp (code_page_mapped p i) Q s.
Proof.
  intros Hp Hu Hfl Hi Hn Hnp HQ. pose proof (ta_f5 p (space_tables_apart p Hp)) as F5. unfold code_page_mapped.
  rewrite (so_code p Hp). change (pt_index_for 0x400000) with 0. rewrite Z.add_0_l, u32_small by (unfold is_u32; lia). zbool.
  destruct (lookup_lt_is_Some_2 (p6_user_code_pages p) (Z.to_nat i)) as [page Epage]; [rewrite (so_pages p Hp); lia|].
  destruct (lookup_lt_is_Some_2 (p6_user_code_page_flags p) (Z.to_nat i)) as [f Ef]; [rewrite (so_flags p Hp); lia|].
  assert (Hpage : frame_ok page) by (apply (space_frame p page Hp); unfold space_frames; apply list_elem_of_lookup_2 in Epage; rewrite !elem_of_app; tauto).
  assert (H57 : f = 5 \/ f = 7) by (apply (Hfl i); [lia|done]).
  wp_step. eapply wp_array_at; [exact Epage|]. wp_step. eapply wp_array_at; [exact Ef|]. wp_step. apply entry_at_ok; [done|lia|].
  wp_step. rewrite (ue_code _ _ _ Hu i page f) by (done || lia).
  rewrite present_frame, user_frame64, points_to_frame, land_frame_flags by (apply Hpage || done || lia).
  rewrite (proj2 (Z.eqb_neq page 0)) by (unfold frame_ok in Hpage; lia). by destruct H57 as [-> | ->].
Qed.

Lemma validate_user_ok s k n p (Q : bool -> process64 -> Prop) :
  space_ok p -> source_ok k (process_paging_context s) (pr_mem s) -> template k n p (pr_mem s) -> user_entries n p (pr_mem s) ->
  p6_user_code_pt_page p + 7 <> k2 k 2 -> code_flags_ok p -> n = p6_user_code_page_count p -> 0 < n <= 4 ->
  Q true s -> wp (validate_user_page_tables p) Q s.
Proof.
  intros Hp Hs Ht Hu Hne Hfl Hn Hn4 HQ. pose proof (space_tables_apart p Hp) as [F1 F2 F3 F4 F5 F6 F7 _ _ _ _ _ _ _ _ _ _ _ _ _ _ _].
  unfold validate_user_page_tables, X86_64_USER_IMAGE_MAX_PAGES. cbv zeta. rewrite (so_code p Hp), (so_stack p Hp), <- Hn. zbool. cbn [negb orb].
  change (pml4_index_for 0x400000) with 0. change (pdpt_index_for 0x400000) with 0. change (pd_index_for 0x400000) with 2.
  change (pml4_index_for 0x7FFFF000) with 0. change (pdpt_index_for 0x7FFFF000) with 1. change (pd_index_for 0x7FFFF000) with 511.
  change (pt_index_for 0x7FFFF000) with 511.
  wp_step. apply (wp_fold _ _ (fun _ ok s' => ok = true /\ s' = s)); [done| |].
  { intros l i r ok s' E (-> & ->). assert (Hi : i ∈ seqZ 0 n) by (rewrite E; set_solver). apply elem_of_seqZ in Hi.
    wp_step. eapply (code_page_mapped_ok s n); [done|done|done|lia|lia|done|]. by wp_step. }
  intros ok s' (-> & ->). do 6 (wp_step; apply entry_at_ok; [done|lia|]). wp_step. eapply validate_kernel_ok; [done..|]. wp_step.
  rewrite (ue_pml4 _ _ _ Hu), (ue_code_pdpt _ _ _ Hu), (ue_stack_pdpt _ _ _ Hu), (ue_code_pd _ _ _ Hu), (ue_stack_pd _ _ _ Hu), (ue_stack_pt _ _ _ Hu).
  destruct (flags7 _ F2) as (-> & -> & ->). destruct (flags7 _ F3) as (-> & -> & ->). destruct (flags7 _ F4) as (-> & -> & ->).
  destruct (flags7 _ F5) as (-> & -> & ->). destruct (flags7 _ F6) as (-> & -> & ->). destruct (flags7 _ F7) as (-> & -> & ->). exact HQ.
Qed.

(** ** Building the tables *)

(** Reading an entry back through the assignments before. *)
Ltac chase := repeat match goal with
  | W : forall t j, _ -> _ -> word ?m t j = _ |- context [word ?m ?t ?i] =>
      rewrite W by (assumption || range_lia); first [rewrite decide_True by (split; reflexivity) | other_entry]
  | W : forall t j, _ -> _ -> _ -> word ?m t j = _ |- context [word ?m ?t ?i] =>
      rewrite W by (assumption || range_lia || (left; apart) || (right; range_lia))
  end.

Lemma entries_ok s k n0 p (Q : process64 -> Prop) m :
  pr_mem s = m -> space_ok p -> template k n0 p m -> n0 <= p6_user_code_page_count p -> 0 < p6_user_code_page_count p <= 4 ->
  Forall (fun f => 0 <= f < 4096) (p6_user_code_page_flags p) ->
  (forall m', template k (p6_user_code_page_count p) p m' -> user_entries (p6_user_code_page_count p) p m' ->
     same_outside [p6_cr3 p; p6_user_pdpt_page p; p6_user_code_pd_page p; p6_user_stack_pd_page p; p6_user_code_pt_page p; p6_user_stack_pt_page p] m m' ->
     Q (s <| pr_mem := m' |>)) ->
  wp (put_user_entries p) (fun _ => Q) s.
Proof.
  intros Em Hp Ht Hn0 Hn Hfl HQ. unfold put_user_entries. cbv zeta. rewrite (so_code p Hp), (so_stack p Hp).
  change (pml4_index_for 0x400000) with 0. change (pdpt_index_for 0x400000) with 0. change (pd_index_for 0x400000) with 2.
  change (pt_index_for 0x400000) with 0. change (pdpt_index_for 0x7FFFF000) with 1. change (pd_index_for 0x7FFFF000) with 511.
  change (pt_index_for 0x7FFFF000) with 511. change X86_64_PROCESS_USER_TABLE_FLAGS with 7. change X86_64_PROCESS_USER_STACK_FLAGS with 7.
  pose proof (space_tables_apart p Hp) as [F1 F2 F3 F4 F5 F6 F7 ? ? ? ? ? ? ? ? ? ? ? ? ? ? ?].
  rewrite !lor_frame_flags by (lia || match goal with |- ?x mod _ = _ => match goal with H : frame_ok x |- _ => apply H end end).
  assert (Hv : forall x, frame_ok x -> 0 <= x + 7 < 18446744073709551616) by (unfold frame_ok; lia).
  wp_step. apply entry_put_ok; [done|lia|auto|]. intros m1 W1 B1. wp_step. apply entry_put_ok; [done|lia|auto|]. intros m2 W2 B2.
  wp_step. apply entry_put_ok; [done|lia|auto|]. intros m3 W3 B3. wp_step. apply entry_put_ok; [done|lia|auto|]. intros m4 W4 B4.
  wp_step. apply entry_put_ok; [done|lia|auto|]. intros m5 W5 B5. wp_step. apply code_entries_ok; [done|done|lia|]. intros m6 W6 U6 B6.
  apply entry_put_ok; [done|lia|auto|]. intros m7 W7 B7. get_set_in W2. get_set_in W3. get_set_in W4. get_set_in W5. get_set_in W6. get_set_in W7.
  get_set_in B2. get_set_in B3. get_set_in B4. get_set_in B5. get_set_in B6. get_set_in B7. rewrite Em in *.
  replace (_ <| pr_mem := m7 |>) with (s <| pr_mem := m7 |>) by (by destruct s). apply HQ.
  - destruct Ht as [T1 T2 T3 T4 T5 T6]. constructor; intros i Hi; [..|intros Hi2| | |]; chase; [by apply T1|by apply T2|by apply T3|by apply T4|apply T5; range_lia|by apply T6].
  - constructor; try (chase; done). intros i page flags Hi E1 E2. rewrite W7 by (assumption || range_lia). other_entry. by apply U6.
  - intros a Ha. assert (Hx : forall x, x ∈ [p6_cr3 p; p6_user_pdpt_page p; p6_user_code_pd_page p; p6_user_stack_pd_page p; p6_user_code_pt_page p; p6_user_stack_pt_page p] -> ~ in_page64 x a) by exact Ha.
    rewrite B7, B6, B5, B4, B3, B2, B1 by (apply Hx; rewrite !elem_of_cons; tauto). done.
Qed.

Definition table_pages (p : x86_64_process) : list Z :=
  [p6_cr3 p; p6_user_pdpt_page p; p6_user_code_pd_page p; p6_user_stack_pd_page p; p6_user_code_pt_page p; p6_user_stack_pt_page p].

(** The kernel's own tables are not among the frames of the space. *)
Definition source_apart (ctx : x86_64_process_paging_context) (ps : list Z) : Prop :=
  pg_source_pml4_table ctx ∉ ps /\ pg_source_identity_pdpt_table ctx ∉ ps /\ pg_source_identity_pd_table ctx ∉ ps.

Lemma source_ok_outside k ctx ps m m' :
  source_ok k ctx m -> same_outside ps m m' -> Forall frame_ok ps -> source_apart ctx ps -> source_ok k ctx m'.
Proof.
  intros [] Hs Hps (N1 & N2 & N3). pose proof sr_frames0 as Hf. rewrite !Forall_cons in Hf. destruct Hf as (G1 & G2 & G3 & _).
  constructor; try done; intros i Hi; rewrite (same_outside_word ps m m') by done; auto.
Qed.

Lemma build_tables_ok s k n0 p (Q : x86_64_process -> process64 -> Prop) :
  space_ok p -> source_ok k (process_paging_context s) (pr_mem s) -> source_apart (process_paging_context s) (space_frames p) ->
  template k n0 p (pr_mem s) -> n0 <= p6_user_code_page_count p -> 0 < p6_user_code_page_count p <= 4 ->
  Forall (fun f => 0 <= f < 4096) (p6_user_code_page_flags p) -> code_flags_ok p -> p6_user_code_pt_page p + 7 <> k2 k 2 ->
  (forall m', template k (p6_user_code_page_count p) p m' -> user_entries (p6_user_code_page_count p) p m' ->
     same_outside (table_pages p) (pr_mem s) m' ->
     Q (p <| p6_kernel_mappings_ready := true |> <| p6_user_page_tables_ready := true |>) (s <| pr_mem := m' |>)) ->
  wp (build_user_page_tables p) Q s.
Proof.
  intros Hp Hs Hap Ht Hn0 Hn Hfl Hfl' Hne HQ. unfold build_user_page_tables. wp_step.
  apply (entries_ok s k n0 p _ (pr_mem s)); [done..|]. intros m' Ht' Hu' Hout.
  assert (Hsub : table_pages p ⊆ space_frames p) by (intros x Hx; apply elem_of_app; by left).
  assert (Hs' : source_ok k (process_paging_context s) m').
  { eapply source_ok_outside; [exact Hs|exact Hout| |].
    - apply Forall_forall. intros x Hx. apply (space_frame p x Hp), Hsub, Hx.
    - destruct Hap as (N1 & N2 & N3). split; [|split]; intros Hin; [apply N1|apply N2|apply N3]; by apply Hsub. }
  wp_step. eapply (validate_kernel_ok _ k (p6_user_code_page_count p)); [done..|]. wp_step.
  eapply (validate_user_ok _ k (p6_user_code_page_count p)); get_set; try done.
  - by destruct Hp.
  - by destruct Ht'.
  - by destruct Hu'.
  - wp_step. by apply HQ.
Qed.

(** Writing elsewhere keeps the entries. *)
Section Elsewhere.
Context (p : x86_64_process) (ps : list Z) (m m' : mem).
Hypothesis space : space_ok p.
Hypothesis outside : same_outside ps m m'.
Hypothesis pages : Forall frame_ok ps.
Hypothesis apart : forall t, t ∈ table_pages p -> t ∉ ps.

Lemma table_word t i : t ∈ table_pages p -> 0 <= i < 512 -> word m' t i = word m t i.
Proof using space outside pages apart.
  intros Ht Hi. apply (same_outside_word ps); auto. apply (space_frame p t space). apply elem_of_app. by left.
Qed.

Lemma template_outside k n : 0 <= n -> template k n p m -> template k n p m'.
Proof using space outside pages apart.
  intros Hn []. constructor; intros i Hi; [..|intros Hi2| | |]; rewrite table_word by (lia || (unfold table_pages; rewrite !elem_of_cons; tauto)); auto.
Qed.

Lemma user_entries_outside n : n <= 512 -> user_entries n p m -> user_entries n p m'.
Proof using space outside pages apart.
  intros Hn []. constructor; [..|intros i page flags Hi E1 E2]; rewrite table_word by (lia || (unfold table_pages; rewrite !elem_of_cons; tauto)); auto.
Qed.
End Elsewhere.

(** ** What the processor sees of an address space of the 64-bit kernel *)

Definition entry_frame (e : Z) : Z := 4096 * (Z.land e 0xFFFFFFFFFFFFF / 4096).

(** The walk with its indices given. *)
Lemma walk64_eq m cr3 va :
  walk64 m cr3 va =
    let e4 := word m cr3 ((va / 2 ^ 39) mod 512) in
    if negb (Z.testbit e4 0) then None
    else
      let e3 := word m (entry_frame e4) ((va / 2 ^ 30) mod 512) in
      if negb (Z.testbit e3 0) then None
      else if Z.testbit e3 7 then
        Some (entry_frame e3 / 2 ^ 30 * 2 ^ 30 + va mod 2 ^ 30,
          (Z.testbit e4 2 && (Z.testbit e3 2 && true), (Z.testbit e4 2 && Z.testbit e4 1) && ((Z.testbit e3 2 && Z.testbit e3 1) && true)))
      else
        let e2 := word m (entry_frame e3) ((va / 2 ^ 21) mod 512) in
        if negb (Z.testbit e2 0) then None
        else if Z.testbit e2 7 then
          Some (entry_frame e2 / 2 ^ 21 * 2 ^ 21 + va mod 2 ^ 21,
            (Z.testbit e4 2 && (Z.testbit e3 2 && (Z.testbit e2 2 && true)),
             (Z.testbit e4 2 && Z.testbit e4 1) && ((Z.testbit e3 2 && Z.testbit e3 1) && ((Z.testbit e2 2 && Z.testbit e2 1) && true))))
        else
          let e1 := word m (entry_frame e2) ((va / 2 ^ 12) mod 512) in
          if negb (Z.testbit e1 0) then None
          else Some (entry_frame e1 + va mod 2 ^ 12,
            (Z.testbit e4 2 && (Z.testbit e3 2 && (Z.testbit e2 2 && (Z.testbit e1 2 && true))),
             (Z.testbit e4 2 && Z.testbit e4 1) && ((Z.testbit e3 2 && Z.testbit e3 1) && ((Z.testbit e2 2 && Z.testbit e2 1) &&
               ((Z.testbit e1 2 && Z.testbit e1 1) && true))))).
Proof. unfold walk64, word, entry_frame. cbv beta zeta. cbn [forallb]. reflexivity. Qed.

Lemma bits7 p n : frame_ok p -> 0 <= n < 12 -> Z.testbit (p + 7) n = Z.testbit 7 n.
Proof. intros [_ Hp] Hn. apply frame_flag_bit; [done|lia|done]. Qed.

Lemma entry_frame7 p : frame_ok p -> entry_frame (p + 7) = p.
Proof. intros Hp. apply frame_of_entry; [done|lia]. Qed.

(** Indices of addresses of the three kinds of places. *)
Lemma low_indices va : 0 <= va < 2 ^ 30 -> (va / 2 ^ 39) mod 512 = 0 /\ (va / 2 ^ 30) mod 512 = 0.
Proof. intros Hva. rewrite !Z.div_small by lia. done. Qed.

Lemma code_indices i off : 0 <= i < 512 -> 0 <= off < 4096 ->
  let va := 0x400000 + 4096 * i + off in (va / 2 ^ 21) mod 512 = 2 /\ (va / 2 ^ 12) mod 512 = i /\ va mod 2 ^ 12 = off.
Proof.
  intros Hi Ho va. unfold va. change (2 ^ 21) with 2097152. change (2 ^ 12) with 4096. repeat split; Z.div_mod_to_equations; lia.
Qed.

Lemma stack_indices off : 0 <= off < 4096 ->
  let va := 0x7FFFF000 + off in (va / 2 ^ 39) mod 512 = 0 /\ (va / 2 ^ 30) mod 512 = 1 /\ (va / 2 ^ 21) mod 512 = 511 /\
    (va / 2 ^ 12) mod 512 = 511 /\ va mod 2 ^ 12 = off.
Proof.
  intros Ho va. unfold va. change (2 ^ 39) with 549755813888. change (2 ^ 30) with 1073741824. change (2 ^ 21) with 2097152.
  change (2 ^ 12) with 4096. repeat split; Z.div_mod_to_equations; lia.
Qed.

Section Walk.
Context (k : kernel_tables) (n : Z) (p : x86_64_process) (m : mem).
Hypothesis space : space_ok p.
Hypothesis tmpl : template k n p m.
Hypothesis entries : user_entries n p m.
Hypothesis n_ok : 0 <= n <= 4.

Lemma walk_code i page flags off :
  0 <= i < n -> 0 <= off < 4096 -> p6_user_code_pages p !! Z.to_nat i = Some page ->
  p6_user_code_page_flags p !! Z.to_nat i = Some flags -> flags = 5 \/ flags = 7 ->
  walk64 m (p6_cr3 p) (0x400000 + 4096 * i + off) = Some (page + off, (true, flags =? 7)).
Proof using entries n_ok space.
  intros Hi Ho Epage Ef Hf. pose proof (space_tables_apart p space) as [F1 F2 F3 F4 F5 F6 F7 _ _ _ _ _ _ _ _ _ _ _ _ _ _ _].
  destruct (low_indices (0x400000 + 4096 * i + off)) as [I4 I3]; [lia|]. destruct (code_indices i off) as (I2 & I1 & I0); [lia|lia|].
  assert (Hpage : frame_ok page) by (apply (space_frame p page space); unfold space_frames; apply list_elem_of_lookup_2 in Epage; rewrite !elem_of_app; tauto).
  rewrite walk64_eq. cbv zeta. rewrite I4, I3, I2, I1, I0.
  rewrite (ue_pml4 _ _ _ entries), (entry_frame7 _ F2), (ue_code_pdpt _ _ _ entries), (entry_frame7 _ F3), (ue_code_pd _ _ _ entries), (entry_frame7 _ F5).
  rewrite (ue_code _ _ _ entries i page flags) by done. rewrite !bits7 by (done || lia).
  assert (Hfr : 0 <= flags < 4096) by lia. unfold entry_frame. rewrite (frame_of_entry page) by done.
  rewrite !(frame_flag_bit page) by (apply Hpage || done || lia). by destruct Hf as [-> | ->].
Qed.

Lemma walk_stack off : 0 <= off < 4096 -> walk64 m (p6_cr3 p) (0x7FFFF000 + off) = Some (p6_user_stack_page p + off, (true, true)).
Proof using entries space.
  intros Ho. pose proof (space_tables_apart p space) as [F1 F2 F3 F4 F5 F6 F7 _ _ _ _ _ _ _ _ _ _ _ _ _ _ _].
  destruct (stack_indices off Ho) as (I4 & I3 & I2 & I1 & I0). rewrite walk64_eq. cbv zeta. rewrite I4, I3, I2, I1, I0.
  rewrite (ue_pml4 _ _ _ entries), (entry_frame7 _ F2), (ue_stack_pdpt _ _ _ entries), (entry_frame7 _ F4), (ue_stack_pd _ _ _ entries), (entry_frame7 _ F6).
  rewrite (ue_stack_pt _ _ _ entries), (entry_frame7 _ F7). by rewrite !bits7 by (done || lia).
Qed.

(** The rest of the address space is the kernel's. *)
Lemma walk_kernel cr3 va :
  (forall i, 0 <= i < 512 -> word m cr3 i = k4 k i) -> (va / 2 ^ 39) mod 512 <> 0 -> walk64 m (p6_cr3 p) va = walk64 m cr3 va.
Proof using tmpl.
  intros Hk Hi. rewrite !walk64_eq. cbv zeta. pose proof (Z.mod_pos_bound (va / 2 ^ 39) 512 ltac:(lia)).
  rewrite (tm_pml4 _ _ _ _ tmpl) by lia. by rewrite Hk by lia.
Qed.

(** The kernel's own entries give nothing to user code. *)
Definition kernel_private : Prop :=
  (forall i, 0 < i < 512 -> Z.testbit (k4 k i) 2 = false) /\ (forall i, 1 < i < 512 -> Z.testbit (k3 k i) 2 = false) /\
  (forall i, 0 <= i < 512 -> i <> 2 -> Z.testbit (k2 k i) 2 = false).

(** What user code can reach. *)
Lemma walk_user_only va pa w :
  kernel_private -> 0 <= va < 2 ^ 48 -> walk64 m (p6_cr3 p) va = Some (pa, (true, w)) ->
  0x400000 <= va < 0x400000 + 4096 * n \/ 0x7FFFF000 <= va < 0x80000000.
Proof using entries n_ok space tmpl.
  intros (P4 & P3 & P2) Hva Hw. pose proof (space_tables_apart p space) as [F1 F2 F3 F4 F5 F6 F7 _ _ _ _ _ _ _ _ _ _ _ _ _ _ _].
  rewrite walk64_eq in Hw. cbv zeta in Hw. pose proof (Z.mod_pos_bound (va / 2 ^ 39) 512 ltac:(lia)) as B4.
  pose proof (Z.mod_pos_bound (va / 2 ^ 30) 512 ltac:(lia)) as B3. pose proof (Z.mod_pos_bound (va / 2 ^ 21) 512 ltac:(lia)) as B2.
  pose proof (Z.mod_pos_bound (va / 2 ^ 12) 512 ltac:(lia)) as B1.
  destruct (decide ((va / 2 ^ 39) mod 512 = 0)) as [I4|I4].
  2:{ rewrite (tm_pml4 _ _ _ _ tmpl), (P4 ((va / 2 ^ 39) mod 512)) in Hw by lia. repeat (case_match; try done). }
  rewrite I4, (ue_pml4 _ _ _ entries), (entry_frame7 _ F2) in Hw. rewrite !(bits7 (p6_user_pdpt_page p)) in Hw by (done || lia).
  change (Z.testbit 7 0) with true in Hw. cbn [negb] in Hw.
  destruct (decide ((va / 2 ^ 30) mod 512 = 0)) as [I3|I3]; [|destruct (decide ((va / 2 ^ 30) mod 512 = 1)) as [I3'|I3']].
  - rewrite I3, (ue_code_pdpt _ _ _ entries), (entry_frame7 _ F3) in Hw. rewrite !(bits7 (p6_user_code_pd_page p)) in Hw by (done || lia).
    destruct (decide ((va / 2 ^ 21) mod 512 = 2)) as [I2|I2].
    + rewrite I2, (ue_code_pd _ _ _ entries), (entry_frame7 _ F5) in Hw. rewrite !(bits7 (p6_user_code_pt_page p)) in Hw by (done || lia).
      left. destruct (decide ((va / 2 ^ 12) mod 512 < n)) as [I1|I1].
      * clear Hw. change (2 ^ 39) with 549755813888 in *. change (2 ^ 30) with 1073741824 in *. change (2 ^ 21) with 2097152 in *.
        change (2 ^ 12) with 4096 in *. change (2 ^ 48) with 281474976710656 in *. clear -I4 I3 I2 I1 Hva B1. Z.div_mod_to_equations. lia.
      * rewrite (tm_code_pt _ _ _ _ tmpl) in Hw by lia. rewrite Z.bits_0 in Hw. done.
    + rewrite (tm_code_pd _ _ _ _ tmpl), (P2 ((va / 2 ^ 21) mod 512)) in Hw by lia. repeat (case_match; try done).
  - rewrite I3', (ue_stack_pdpt _ _ _ entries), (entry_frame7 _ F4) in Hw. rewrite !(bits7 (p6_user_stack_pd_page p)) in Hw by (done || lia).
    destruct (decide ((va / 2 ^ 21) mod 512 = 511)) as [I2|I2].
    + rewrite I2, (ue_stack_pd _ _ _ entries), (entry_frame7 _ F6) in Hw. rewrite !(bits7 (p6_user_stack_pt_page p)) in Hw by (done || lia).
      right. destruct (decide ((va / 2 ^ 12) mod 512 = 511)) as [I1|I1].
      * clear Hw. change (2 ^ 39) with 549755813888 in *. change (2 ^ 30) with 1073741824 in *. change (2 ^ 21) with 2097152 in *.
        change (2 ^ 12) with 4096 in *. change (2 ^ 48) with 281474976710656 in *. clear -I4 I3' I2 I1 Hva B1. Z.div_mod_to_equations. lia.
      * rewrite (tm_stack_pt _ _ _ _ tmpl) in Hw by lia. rewrite Z.bits_0 in Hw. done.
    + rewrite (tm_stack_pd _ _ _ _ tmpl) in Hw by lia. rewrite !Z.bits_0 in Hw. done.
  - rewrite (tm_pdpt _ _ _ _ tmpl), (P3 ((va / 2 ^ 30) mod 512)) in Hw by lia. repeat (case_match; try done).
Qed.
End Walk.
