(* ===== verification/Process64Alloc.v ===== *)
(** * Address spaces and kernel stacks of the 64-bit kernel: frames *)
From S2P Require Import Prelude Word64 Mem KString Pmm64 Pmm64Proofs Text64 Process64 Process64Tables.

Lemma wp_pr_zoom {A} (m : M pmm64 A) (Q : A -> process64 -> Prop) s :
  wp m (fun a p => Q a (s <| pr_pmm := p |>)) (pr_pmm s) -> wp (pr_zoom m) Q s.
Proof. apply (wp_zoom pr_pmm (fun p s => s <| pr_pmm := p |>)). Qed.

(** ** Taking frames *)

(** The [k]-th frame to be handed out when [free] is free; 0 when there is none. *)
Definition nth_free (free : list Z) (k : nat) : Z := default 0 (rev free !! k).

(** The allocator after [k] requests from [free]. *)
Record taken (all : list Z) (held : gset Z) (free : list Z) (k : nat) (p : pmm64) : Prop := {
  tk_left : free_frames p = take (length free - k) free;
  tk_inv : pmm64_inv all (list_to_set (take k (rev free)) ∪ held) p
}.

Lemma taken_start all held p : pmm64_inv all held p -> taken all held (free_frames p) 0 p.
Proof.
  intros Hi. constructor; [by rewrite Nat.sub_0_r, take_ge|]. by rewrite take_0, list_to_set_nil, union_empty_l_L.
Qed.

Lemma set_pmm_same s : s <| pr_pmm := pr_pmm s |> = s.
Proof. by destruct s. Qed.

Lemma last_take {A} (l : list A) n : (0 < n <= length l)%nat -> last (take n l) = l !! (n - 1)%nat.
Proof. intros Hn. rewrite last_lookup, length_take, Nat.min_l by lia. rewrite lookup_take_lt by lia. f_equal. lia. Qed.

Lemma rev_lookup {A} (l : list A) k : (k < length l)%nat -> rev l !! k = l !! (length l - S k)%nat.
Proof. intros Hk. rewrite rev_alt. by apply reverse_lookup. Qed.

Lemma alloc_next all held free k s (Q : Z -> process64 -> Prop) :
  taken all held free k (pr_pmm s) ->
  (forall p', taken all held free (S k) p' -> Q (nth_free free k) (s <| pr_pmm := p' |>)) ->
  wp (pr_zoom x86_64_pmm_alloc_page) Q s.
Proof.
  intros [Hl Hi] HQ. apply wp_pr_zoom. eapply wp_mono; [by apply pmm64_alloc_ok|]. intros page p' Hpost. cbv beta in Hpost.
  unfold nth_free in HQ. destruct (decide (k < length free)%nat) as [Hk|Hk].
  - rewrite Hl, last_take in Hpost by lia. rewrite rev_lookup in HQ by done.
    replace (length free - k - 1)%nat with (length free - S k)%nat in Hpost by lia.
    destruct (lookup_lt_is_Some_2 free (length free - S k)) as [q Eq]; [lia|]. rewrite Eq in *. cbn [default id] in HQ.
    destruct Hpost as (-> & _ & _ & Hf & Hi'). apply HQ. constructor.
    + replace (length free - k)%nat with (S (length free - S k)) in Hf by lia. rewrite (take_S_r _ _ _ Eq) in Hf.
      by apply app_inj_2 in Hf as [-> _].
    + assert (Erev : rev free !! k = Some q) by (by rewrite rev_lookup). rewrite (take_S_r _ _ _ Erev), list_to_set_app_L, list_to_set_singleton_L.
      by rewrite (union_comm_L (list_to_set _) {[q]}), <- union_assoc_L.
  - replace (length free - k)%nat with 0%nat in Hl by lia. rewrite Hl in Hpost. cbn [take last] in Hpost. destruct Hpost as [-> ->].
    rewrite (lookup_ge_None_2 (rev free)) in HQ by (rewrite length_rev; lia). apply HQ. constructor.
    + by replace (length free - S k)%nat with 0%nat by lia.
    + rewrite take_ge in * by (rewrite length_rev; lia). exact Hi.
Qed.

(** The frames handed out first are page frames, and different. *)
Lemma free_frames_nodup all held p : pmm64_inv all held p -> NoDup (free_frames p).
Proof.
  intros Hi. pose proof (pi_nodup _ _ _ Hi) as Hnd. rewrite <- (pi_split _ _ _ Hi) in Hnd. by apply NoDup_app in Hnd as (H & _).
Qed.

Lemma free_frames_ok all held p :
  pmm64_inv all held p -> (forall q, q ∈ all -> q < 35184372088832) -> Forall frame_ok (free_frames p).
Proof.
  intros Hi Hb. apply Forall_forall. intros q Hq. assert (Hall : q ∈ all) by (rewrite <- (pi_split _ _ _ Hi); set_solver).
  pose proof (pi_frames _ _ _ Hi) as Hf. rewrite Forall_forall in Hf. destruct (Hf q Hall) as (H1 & H2 & _). split; [|done].
  split; [done|]. by apply Hb.
Qed.

Lemma free_not_held all held p q : pmm64_inv all held p -> q ∈ free_frames p -> q ∉ held.
Proof.
  intros Hi Hq Hh. pose proof (pi_nodup _ _ _ Hi) as Hnd. rewrite <- (pi_split _ _ _ Hi) in Hnd.
  apply NoDup_app in Hnd as (_ & H & _). apply (H q Hq). by apply elem_of_elements.
Qed.

(** ** Giving frames back *)

(** The nonzero addresses of [l] are different held frames. *)
Record releasable (held : gset Z) (l : list Z) : Prop := {
  re_held : forall q, q ∈ l -> q = 0 \/ q ∈ held;
  re_nodup : NoDup (filter (fun q => q <> 0) l)
}.

Lemma held_positive all held p q : pmm64_inv all held p -> q ∈ held -> 0 < q.
Proof.
  intros Hi Hq. assert (Hall : q ∈ all) by (rewrite <- (pi_split _ _ _ Hi); apply elem_of_app; right; by apply elem_of_elements).
  pose proof (pi_frames _ _ _ Hi) as Hf. rewrite Forall_forall in Hf. by destruct (Hf q Hall).
Qed.

Lemma release_page_ok all held a l s (Q : unit -> process64 -> Prop) :
  pmm64_inv all held (pr_pmm s) -> releasable held (a :: l) ->
  (forall p', pmm64_inv all (held ∖ {[a]}) p' -> releasable (held ∖ {[a]}) l -> Q tt (s <| pr_pmm := p' |>)) ->
  wp (release_page a) Q s.
Proof.
  intros Hi [Hh Hnd] HQ. unfold release_page. destruct (Z.eqb_spec a 0) as [->|Ha]; cbn [negb mwhen].
  - wp_step. rewrite <- (set_pmm_same s).
    assert (Hsame : held ∖ {[0]} = held).
    { apply leibniz_equiv. intros q. rewrite elem_of_difference, elem_of_singleton. split; [tauto|]. intros Hq. split; [done|].
      intros ->. by apply (held_positive _ _ _ _ Hi) in Hq. }
    rewrite Hsame in HQ. apply HQ; [done|]. rewrite filter_cons_False in Hnd by tauto. constructor; [|done]. intros q Hq. apply Hh. by right.
  - assert (Hah : a ∈ held) by (destruct (Hh a); [by left|done|done]).
    wp_step. apply wp_pr_zoom. eapply wp_mono; [by apply pmm64_free_held|]. intros r p' (_ & _ & Hi'). wp_step. apply HQ; [done|].
    rewrite filter_cons_True in Hnd by done. apply NoDup_cons in Hnd as [Hnin Hnd]. constructor; [|done].
    intros q Hq. destruct (decide (q = 0)) as [->|Hq0]; [by left|]. right. destruct (Hh q) as [|Hqh]; [by right|done|].
    apply elem_of_difference. split; [done|]. intros ->%elem_of_singleton. apply Hnin. by apply list_elem_of_filter.
Qed.

Lemma release_pages_ok all held l s (Q : unit -> process64 -> Prop) :
  pmm64_inv all held (pr_pmm s) -> releasable held l ->
  (forall p', pmm64_inv all (held ∖ list_to_set l) p' -> Q tt (s <| pr_pmm := p' |>)) ->
  wp (mfor l release_page) Q s.
Proof.
  revert held s. induction l as [|a l IH]; intros held s Hi Hr HQ; cbn [mfor].
  - apply wp_ret. rewrite <- (set_pmm_same s). apply HQ. by rewrite list_to_set_nil, difference_empty_L.
  - wp_step. eapply release_page_ok; [done|done|]. intros p' Hi' Hr'. eapply IH; [done|done|]. intros p'' Hi''.
    replace (_ <| pr_pmm := p'' |>) with (s <| pr_pmm := p'' |>) by (by destruct s). apply HQ. rewrite list_to_set_cons.
    by rewrite <- difference_difference_l_L.
Qed.

(** The record of a process whose address space was released. *)
Record released_space (p p' : x86_64_process) : Prop := {
  rs_frames : space_frames p' = replicate 11 0;
  rs_state : p6_state p' = p6_state p;
  rs_mode : p6_mode p' = p6_mode p;
  rs_pid : p6_pid p' = p6_pid p;
  rs_stack : p6_kernel_stack_page p' = p6_kernel_stack_page p;
  rs_name : p6_name p' = p6_name p /\ p6_image_path p' = p6_image_path p
}.

Lemma release_space_ok all held p s (Q : x86_64_process -> process64 -> Prop) :
  pmm64_inv all held (pr_pmm s) -> releasable held (space_frames p) -> length (p6_user_code_pages p) = 4%nat ->
  (forall p' q', pmm64_inv all (held ∖ list_to_set (space_frames p)) q' -> released_space p p' -> Q p' (s <| pr_pmm := q' |>)) ->
  wp (release_address_space p) Q s.
Proof.
  intros Hi Hr Hl HQ. unfold release_address_space. destruct (p6_user_code_pages p) as [|c0 [|c1 [|c2 [|c3 [|]]]]] eqn:Ec; try done.
  unfold space_frames in Hr, HQ. rewrite Ec in Hr, HQ. cbn [app] in Hr, HQ.
  do 6 (wp_step; eapply release_page_ok; [eassumption|eassumption|]; clear Hi Hr; intros ? Hi Hr).
  wp_step. change (seqZ 0 X86_64_USER_IMAGE_MAX_PAGES) with [0; 1; 2; 3]. cbn [mfor].
  do 4 (wp_step; wp_step; eapply wp_array_at; [reflexivity|]; eapply release_page_ok; [eassumption|eassumption|]; clear Hi Hr; intros ? Hi Hr).
  wp_step. wp_step. eapply release_page_ok; [eassumption|eassumption|]. clear Hi Hr; intros q' Hi Hr. wp_step.
  match goal with |- Q ?p' ?s' => replace s' with (s <| pr_pmm := q' |>) by (by destruct s) end. apply HQ.
  - rewrite !difference_difference_l_L in Hi. rewrite !list_to_set_cons, list_to_set_nil, union_empty_r_L. exact Hi.
  - constructor; reflexivity || (split; reflexivity).
Qed.

(** ** Clearing the frames of a space *)

(** The pages [ps] cleared, all else as it was. *)
Definition cleared (ps : list Z) (m m' : mem) : Prop :=
  forall a, load8 m' a = if decide (Exists (fun p => in_page64 p a) ps) then 0 else load8 m a.

Lemma clear_step ps m0 p s (Q : unit -> process64 -> Prop) :
  frame_ok p -> cleared ps m0 (pr_mem s) ->
  (forall m', cleared (ps ++ [p]) m0 m' -> Q tt (s <| pr_mem := m' |>)) -> wp (clear_page64 p) Q s.
Proof.
  intros Hp Hc HQ. apply clear_page_ok; [done|]. intros m' Hm'. apply HQ. intros a. rewrite Hm', Hc.
  destruct (decide (in_page64 p a)) as [Ha|Ha].
  - rewrite decide_True; [done|]. apply Exists_app. right. by constructor.
  - destruct (decide (Exists (fun p => in_page64 p a) ps)) as [He|He].
    + rewrite decide_True; [done|]. apply Exists_app. by left.
    + rewrite decide_False; [done|]. rewrite Exists_app. intros [?|H]; [done|]. apply Exists_cons in H as [H|H]; [done|]. by apply Exists_nil in H.
Qed.

Lemma cleared_outside ps m m' : cleared ps m m' -> same_outside ps m m'.
Proof.
  intros Hc a Ha. rewrite Hc, decide_False; [done|]. rewrite Exists_exists. intros (p & Hp & Hin). by apply (Ha p).
Qed.

Lemma cleared_byte ps m m' p a : cleared ps m m' -> p ∈ ps -> in_page64 p a -> load8 m' a = 0.
Proof. intros Hc Hp Ha. rewrite Hc, decide_True; [done|]. apply Exists_exists. eauto. Qed.

Lemma cleared_word ps m m' p i : cleared ps m m' -> p ∈ ps -> 0 <= i < 512 -> word m' p i = 0.
Proof. intros Hc Hp Hi. apply load64_zero. intros j Hj. eapply cleared_byte; [done|done|]. unfold in_page64. lia. Qed.

(** ** Copying the kernel's tables *)

Lemma copy_table_ok s dst src (Q : unit -> process64 -> Prop) :
  frame_ok dst -> frame_ok src -> dst <> src ->
  (forall m', (forall t i, frame_ok t -> 0 <= i < 512 -> word m' t i = if decide (t = dst) then word (pr_mem s) src i else word (pr_mem s) t i) ->
     (forall a, ~ in_page64 dst a -> load8 m' a = load8 (pr_mem s) a) -> Q tt (s <| pr_mem := m' |>)) ->
  wp (copy_bytes64 dst src X86_64_USER_PAGE_BYTES) Q s.
Proof.
  intros Hd Hs Hne HQ. pose proof Hd as [Hd1 Hd2]. pose proof Hs as [Hs1 Hs2]. unfold X86_64_USER_PAGE_BYTES.
  apply copy_bytes_ok; [lia|lia|lia|lia|lia| |]; [Z.div_mod_to_equations; lia|].
  intros m' Hm'. apply HQ.
  - intros t i Ht Hi. by apply word_copied.
  - intros a Ha. rewrite Hm', decide_False; [done|]. exact Ha.
Qed.

Ltac chase_copy := repeat match goal with
  | W : forall t j, _ -> _ -> word ?m t j = _ |- context [word ?m ?t ?i] =>
      rewrite W by (assumption || range_lia); first [rewrite decide_True by reflexivity | rewrite decide_False by apart | other_entry]
  end.

Lemma clone_ok s k p (Q : bool -> process64 -> Prop) :
  space_ok p -> source_ok k (process_paging_context s) (pr_mem s) -> source_apart (process_paging_context s) (space_frames p) ->
  (forall t i, t ∈ space_frames p -> 0 <= i < 512 -> word (pr_mem s) t i = 0) ->
  (forall m', template k 0 p m' -> same_outside (table_pages p) (pr_mem s) m' -> Q true (s <| pr_mem := m' |>)) ->
  wp (clone_kernel_mappings p) Q s.
Proof.
  intros Hp Hs Hap Hz HQ. pose proof (space_tables_apart p Hp) as [F1 F2 F3 F4 F5 F6 F7 ? ? ? ? ? ? ? ? ? ? ? ? ? ? ?].
  pose proof (sr_frames _ _ _ Hs) as Hsf. rewrite !Forall_cons in Hsf. destruct Hsf as (G1 & G2 & G3 & _). destruct Hap as (N1 & N2 & N3).
  set (ctx := process_paging_context s) in *.
  assert (Hin : forall t, t ∈ table_pages p -> t ∈ space_frames p) by (intros t Ht; apply elem_of_app; by left).
  assert (M1 : p6_cr3 p ∈ space_frames p) by (apply Hin; unfold table_pages; rewrite !elem_of_cons; tauto).
  assert (M2 : p6_user_pdpt_page p ∈ space_frames p) by (apply Hin; unfold table_pages; rewrite !elem_of_cons; tauto).
  assert (M3 : p6_user_code_pd_page p ∈ space_frames p) by (apply Hin; unfold table_pages; rewrite !elem_of_cons; tauto).
  assert (M4 : p6_user_stack_pd_page p ∈ space_frames p) by (apply Hin; unfold table_pages; rewrite !elem_of_cons; tauto).
  assert (M5 : p6_user_code_pt_page p ∈ space_frames p) by (apply Hin; unfold table_pages; rewrite !elem_of_cons; tauto).
  assert (M6 : p6_user_stack_pt_page p ∈ space_frames p) by (apply Hin; unfold table_pages; rewrite !elem_of_cons; tauto).
  assert (X : forall t src, t ∈ space_frames p -> src ∉ space_frames p -> t <> src) by (intros t src Ht Hsrc ->; done).
  unfold clone_kernel_mappings. wp_step. wp_step. fold ctx. rewrite (sr_initialized _ _ _ Hs). cbn [negb].
  wp_step. apply copy_table_ok; [done|done|auto|]. intros m1 W1 B1. wp_step. apply copy_table_ok; [done|done|auto|]. intros m2 W2 B2.
  wp_step. apply copy_table_ok; [done|done|auto|]. intros m3 W3 B3. wp_step. change X86_64_PROCESS_USER_TABLE_FLAGS with 7.
  rewrite lor_frame_flags by (apply F2 || lia). rewrite (sr_identity _ _ _ Hs).
  apply entry_put_ok; [done|lia|unfold frame_ok in F2; lia|]. intros m4 W4 B4. wp_step.
  get_set_in W2. get_set_in W3. get_set_in W4. get_set_in B2. get_set_in B3. get_set_in B4.
  replace (_ <| pr_mem := m4 |>) with (s <| pr_mem := m4 |>) by (by destruct s). apply HQ.
  - pose proof (X _ _ M1 N2). pose proof (X _ _ M1 N3). pose proof (X _ _ M2 N3).
    constructor; intros i Hi; [..|intros Hi2| | |]; chase_copy;
      [apply (sr_k4 _ _ _ Hs)|apply (sr_k3 _ _ _ Hs)|apply (sr_k2 _ _ _ Hs)|apply Hz|apply Hz|apply Hz]; done || range_lia.
  - intros a Ha. assert (Hx : forall x, x ∈ table_pages p -> ~ in_page64 x a) by exact Ha.
    rewrite B4, B3, B2, B1 by (apply Hx; unfold table_pages; rewrite !elem_of_cons; tauto). done.
Qed.

(** ** A new address space *)

(** The first [n] frames handed out, with 0 where there was none. *)
Definition frees (free : list Z) (n : nat) : list Z := nth_free free <$> seq 0 n.

Lemma frees_eq free n : frees free n = take n (rev free) ++ replicate (n - length free) 0.
Proof.
  apply list_eq. intros i. unfold frees, nth_free. rewrite list_lookup_fmap. destruct (decide (i < n)%nat) as [Hi|Hi].
  - rewrite lookup_seq_lt by done. cbn. destruct (decide (i < length free)%nat) as [Hl|Hl].
    + rewrite lookup_app_l, lookup_take_lt by (rewrite ?length_take, ?length_rev; lia).
      destruct (lookup_lt_is_Some_2 (rev free) i) as [x Hx]; [rewrite length_rev; lia|]. by rewrite Hx.
    + rewrite (lookup_ge_None_2 (rev free)) by (rewrite length_rev; lia).
      rewrite lookup_app_r, length_take, length_rev, lookup_replicate_2 by (rewrite ?length_take, ?length_rev; lia). done.
  - rewrite lookup_seq_ge by lia. cbn. symmetry. apply lookup_ge_None_2. rewrite length_app, length_take, length_rev, length_replicate. lia.
Qed.

Lemma frees_all free n : (n <= length free)%nat -> frees free n = take n (rev free).
Proof. intros Hn. rewrite frees_eq. replace (n - length free)%nat with 0%nat by lia. apply app_nil_r. Qed.

Lemma NoDup_rev_list {A} (l : list A) : NoDup l -> NoDup (rev l).
Proof. intros H. eapply (proj1 (NoDup_Permutation_proper _ _ (Permutation_rev l))). exact H. Qed.

Lemma frees_releasable free n held :
  NoDup free -> releasable (list_to_set (take n (rev free)) ∪ held) (frees free n).
Proof.
  intros Hnd. rewrite frees_eq. constructor.
  - intros q [Hq|Hq]%elem_of_app; [right; set_solver|left]. by apply elem_of_replicate_inv in Hq.
  - rewrite filter_app. replace (filter (fun q => q <> 0) (replicate (n - length free) 0)) with (@nil Z).
    + rewrite app_nil_r. apply NoDup_filter. eapply sublist_NoDup; [by apply NoDup_rev_list|]. apply sublist_take.
    + symmetry. induction (n - length free)%nat as [|j IH]; [done|]. cbn [replicate]. rewrite filter_cons_False by tauto. exact IH.
Qed.

Lemma frees_returned all held p n :
  pmm64_inv all held p ->
  (list_to_set (take n (rev (free_frames p))) ∪ held) ∖ list_to_set (frees (free_frames p) n) = held.
Proof.
  intros Hi. apply leibniz_equiv. intros q. rewrite elem_of_difference, elem_of_union, !elem_of_list_to_set, frees_eq, elem_of_app. split.
  - intros [[Hq|Hq] Hn]; [|done]. exfalso. tauto.
  - intros Hq. split; [by right|]. intros [Hf|Hf].
    + apply elem_of_take in Hf as (i & Hf & _). apply list_elem_of_lookup_2 in Hf.
      apply (free_not_held _ _ _ q Hi); [|done]. rewrite (Permutation_rev (free_frames p)). done.
    + apply elem_of_replicate_inv in Hf as ->. apply (held_positive _ _ _ _ Hi) in Hq. lia.
Qed.

(** What a new address space is. *)
Record fresh_space (k : kernel_tables) (p p' : x86_64_process) (frames : list Z) (m m' : mem) : Prop := {
  fs_space : space_ok p';
  fs_frames : space_frames p' = frames;
  fs_template : template k 1 p' m';
  fs_entries : user_entries 1 p' m';
  fs_outside : same_outside frames m m';
  fs_zero : forall q a, q ∈ p6_user_code_pages p' ++ [p6_user_stack_page p'] -> in_page64 q a -> load8 m' a = 0;
  fs_flags : p6_user_code_page_flags p' = [5; 0; 0; 0];
  fs_owned : p6_address_space_owned p' = true /\ p6_kernel_mappings_ready p' = true /\ p6_user_page_tables_ready p' = true;
  fs_state : p6_state p' = p6_state p /\ p6_mode p' = p6_mode p;
  fs_stack : p6_kernel_stack_page p' = p6_kernel_stack_page p;
  fs_name : p6_name p' = p6_name p /\ p6_image_path p' = p6_image_path p;
  fs_page : p6_user_code_pages p' !! 0%nat = Some (p6_user_code_page p');
  fs_id : p6_user_code_page_count p' = 1
}.

(** What creating a process needs of the kernel's tables. *)
Record kernel64_ready (all : list Z) (k : kernel_tables) (s : process64) : Prop := {
  kr_bound : forall q, q ∈ all -> q < 35184372088832;
  kr_source : source_ok k (process_paging_context s) (pr_mem s);
  kr_apart : source_apart (process_paging_context s) (free_frames (pr_pmm s));
  kr_code : forall f, f ∈ free_frames (pr_pmm s) -> f + 7 <> k2 k 2
}.

Lemma initialize_space_ok s k p (Q : x86_64_process * bool -> process64 -> Prop) :
  Forall frame_ok (space_frames p) -> NoDup (space_frames p) -> length (p6_user_code_pages p) = 4%nat ->
  p6_user_code_pages p !! 0%nat = Some (p6_user_code_page p) ->
  source_ok k (process_paging_context s) (pr_mem s) -> source_apart (process_paging_context s) (space_frames p) ->
  p6_user_code_pt_page p + 7 <> k2 k 2 ->
  (forall p' m', fresh_space k p p' (space_frames p) (pr_mem s) m' ->
     Q (p', true) (s <| pr_mem := m' |> <| next_address_space_id ::= fun n => n [++] 1 |>)) ->
  wp (initialize_address_space p) Q s.
Proof.
  intros Hf Hnd Hl Hp0 Hs Hap Hne HQ. unfold initialize_address_space.
  destruct (p6_user_code_pages p) as [|c0 [|c1 [|c2 [|c3 [|]]]]] eqn:Ec; try done.
  assert (Hfr : forall q, q ∈ space_frames p -> frame_ok q) by (by apply Forall_forall).
  assert (Hc : cleared [] (pr_mem s) (pr_mem s)) by (intros a; rewrite decide_False; [done|intros He; by apply Exists_nil in He]).
  assert (Esp : space_frames p = [p6_cr3 p; p6_user_pdpt_page p; p6_user_code_pd_page p; p6_user_stack_pd_page p;
    p6_user_code_pt_page p; p6_user_stack_pt_page p; c0; c1; c2; c3; p6_user_stack_page p]) by (unfold space_frames; by rewrite Ec).
  set (m0 := pr_mem s) in *.
  do 6 (wp_step; eapply clear_step; [apply Hfr; rewrite Esp, !elem_of_cons; tauto|exact Hc|]; clear Hc; intros ? Hc).
  wp_step. change (seqZ 0 X86_64_USER_IMAGE_MAX_PAGES) with [0; 1; 2; 3]. cbn [mfor].
  do 4 (wp_step; wp_step; eapply wp_array_at; [reflexivity|]; eapply clear_step; [apply Hfr; rewrite Esp, !elem_of_cons; tauto|exact Hc|]; clear Hc; intros ? Hc).
  wp_step. wp_step. eapply clear_step; [apply Hfr; rewrite Esp, !elem_of_cons; tauto|exact Hc|]; clear Hc; intros m1 Hc. cbn [app] in Hc. rewrite <- Esp in Hc.
  do 4 wp_step. set (p1 := p <| p6_address_space_id := _ |> <| p6_user_code_virtual := _ |> <| p6_user_stack_virtual := _ |>
    <| p6_user_code_page_count := _ |> <| p6_user_code_page_flags := _ |> <| p6_address_space_owned := _ |>).
  match goal with |- wp _ _ ?t => set (s1 := t) end.
  assert (Hs1 : s1 = s <| pr_mem := m1 |> <| next_address_space_id ::= fun n => n [++] 1 |>) by reflexivity.
  assert (Hm1 : pr_mem s1 = m1) by (by rewrite Hs1). assert (Hctx : process_paging_context s1 = process_paging_context s) by (by rewrite Hs1).
  clearbody s1. assert (Efr : space_frames p1 = space_frames p) by reflexivity.
  assert (Hsp : space_ok p1) by (constructor; [done|done|unfold p1; get_set; by rewrite Ec|reflexivity..]).
  assert (Hsrc : source_ok k (process_paging_context s1) (pr_mem s1)).
  { rewrite Hctx, Hm1. eapply source_ok_outside; [exact Hs|by apply cleared_outside|done|done]. }
  wp_step. eapply (clone_ok s1 k p1); [done|done|by rewrite Hctx, Efr| |].
  { intros t i Ht Hi. rewrite Hm1. eapply cleared_word; [exact Hc|by rewrite <- Efr|done]. }
  intros m2 Ht2 Hout2. cbn [negb]. wp_step.
  assert (Hsub : table_pages p1 ⊆ space_frames p1) by (intros x Hx; apply elem_of_app; by left).
  assert (Hfr1 : Forall frame_ok (table_pages p1)) by (apply Forall_forall; intros x Hx; by apply Hfr, Hsub).
  assert (Hap1 : source_apart (process_paging_context s1) (table_pages p1)).
  { rewrite Hctx. destruct Hap as (A1 & A2 & A3). split; [|split]; intros Hin; [apply A1|apply A2|apply A3]; by apply Hsub. }
  eapply (build_tables_ok _ k 0 p1); get_set.
  - done.
  - eapply source_ok_outside; [exact Hsrc|exact Hout2|done|done].
  - by rewrite Hctx, Efr.
  - done.
  - unfold p1. get_set. lia.
  - unfold p1. get_set. lia.
  - unfold p1. get_set. repeat constructor; lia || done.
  - intros i f Hi Hif. unfold p1 in Hi, Hif. get_set_in Hi. get_set_in Hif. assert (i = 0) as -> by lia. left. by injection Hif.
  - done.
  - intros m3 Ht3 Hu3 Hout3. wp_step.
    set (p2 := p1 <| p6_kernel_mappings_ready := true |> <| p6_user_page_tables_ready := true |>).
    change (p6_kernel_mappings_ready p2 && p6_user_page_tables_ready p2) with true.
    match goal with |- Q _ ?t => replace t with (s <| pr_mem := m3 |> <| next_address_space_id ::= fun n => n [++] 1 |>) by (by rewrite Hs1) end.
    apply HQ. constructor; try reflexivity.
    + by destruct Hsp.
    + by destruct Ht3.
    + by destruct Hu3.
    + rewrite <- Efr. eapply same_outside_trans; [apply cleared_outside; rewrite Efr; exact Hc|]. rewrite <- Hm1.
      eapply same_outside_trans; (eapply same_outside_mono; [exact Hsub|]); [exact Hout2|exact Hout3].
    + intros q a Hq Ha. assert (Hqs : q ∈ space_frames p1) by (apply elem_of_app; by right).
      assert (Hout : forall x, x ∈ table_pages p1 -> ~ in_page64 x a).
      { intros x Hx. apply (pages_apart q); [by apply Hfr|by apply Hfr, Hsub| |done]. intros <-.
        pose proof (so_nodup p1 Hsp) as Hnd1. apply NoDup_app in Hnd1 as (_ & Hdis & _). by apply (Hdis q). }
      rewrite Hout3, Hout2, Hm1 by done. eapply cleared_byte; [exact Hc|by rewrite <- Efr|done].
    + by split.
    + by split.
    + by split.
    + change (p6_user_code_pages p !! 0%nat = Some (p6_user_code_page p)). by rewrite Ec.
Qed.

(** The states in which only frames and memory differ. *)
Definition with_frames (s : process64) (q : pmm64) (m : mem) : process64 := s <| pr_pmm := q |> <| pr_mem := m |>.

Lemma nth_free_lt free i : (i < length free)%nat -> nth_free free i ∈ free.
Proof.
  intros Hi. unfold nth_free. rewrite rev_lookup by done. destruct (lookup_lt_is_Some_2 free (length free - S i)) as [x Hx]; [lia|].
  rewrite Hx. by apply list_elem_of_lookup_2 in Hx.
Qed.

Lemma elem_of_take_rev (free : list Z) n q : q ∈ take n (rev free) -> q ∈ free.
Proof.
  intros Hq. apply elem_of_take in Hq as (i & Hq & _). apply list_elem_of_lookup_2 in Hq. by rewrite (Permutation_rev free).
Qed.

Lemma allocate_space_ok all held k p s :
  pmm64_inv all held (pr_pmm s) -> kernel64_ready all k s ->
  wp (allocate_address_space p) (fun r s' =>
    let free := free_frames (pr_pmm s) in
    if decide (11 <= length free)%nat then
      exists p' q m, r = (p', true) /\ s' = (with_frames s q m) <| next_address_space_id ::= fun n => n [++] 1 |> /\
        taken all held free 11 q /\ fresh_space k p p' (take 11 (rev free)) (pr_mem s) m
    else exists p' q, r = (p', false) /\ s' = s <| pr_pmm := q |> /\ pmm64_inv all held q /\ released_space p p') s.
Proof.
  intros Hi [Hb Hs Hap Hk]. set (free := free_frames (pr_pmm s)) in *. pose proof (taken_start all held _ Hi) as Ht. fold free in Ht.
  unfold allocate_address_space.
  do 6 (wp_step; eapply alloc_next; [exact Ht|]; clear Ht; intros ? Ht).
  wp_step. unfold allocate_code_pages. change (seqZ 0 X86_64_USER_IMAGE_MAX_PAGES) with [0; 1; 2; 3]. cbn [mfold].
  do 4 (wp_step; wp_step; eapply alloc_next; [exact Ht|]; clear Ht; intros ? Ht; wp_step). wp_step. cbn [app].
  wp_step. eapply wp_array_at; [reflexivity|]. wp_step. eapply alloc_next; [exact Ht|]. clear Ht. intros q Ht.
  match goal with |- context [forallb _ _] => cbv zeta end.
  match goal with |- wp (if _ then (_ <- release_address_space ?x ;; _) else _) _ ?t => set (p1 := x); set (s1 := t) end.
  assert (Hs1 : s1 = s <| pr_pmm := q |>) by reflexivity. clearbody s1.
  assert (Efr : space_frames p1 = frees free 11) by reflexivity.
  destruct (decide (11 <= length free)%nat) as [H11|H11].
  - assert (Hnz : forall i, (i < 11)%nat -> (nth_free free i =? 0) = false).
    { intros i Hlt. apply Z.eqb_neq. pose proof (free_frames_ok _ _ _ Hi Hb) as Hf. rewrite Forall_forall in Hf.
      destruct (Hf (nth_free free i)) as [[H0 _] _]; [apply (nth_free_lt free); lia|]. lia. }
    cbn [forallb]. rewrite !Hnz by lia. cbn [negb andb orb]. rewrite frees_all in Efr by done.
    assert (Hsub : forall x, x ∈ space_frames p1 -> x ∈ free) by (rewrite Efr; intros x; apply elem_of_take_rev).
    eapply (initialize_space_ok s1 k p1).
    + apply Forall_forall. intros x Hx. pose proof (free_frames_ok _ _ _ Hi Hb) as Hf. rewrite Forall_forall in Hf. by apply Hf, Hsub.
    + rewrite Efr. eapply sublist_NoDup; [apply NoDup_rev_list; by eapply free_frames_nodup|apply sublist_take].
    + done.
    + reflexivity.
    + rewrite Hs1. exact Hs.
    + rewrite Hs1. destruct Hap as (A1 & A2 & A3). split; [|split]; intros Hin; [apply A1|apply A2|apply A3]; by apply Hsub.
    + apply Hk, Hsub. unfold space_frames. rewrite elem_of_app, !elem_of_cons. tauto.
    + intros pn m Hfs. rewrite Hs1. exists pn, q, m. split; [done|]. split; [done|]. split; [done|].
      rewrite <- Efr. rewrite Hs1 in Hfs. by destruct Hfs.
  - replace (nth_free free 10) with 0 by (unfold nth_free; by rewrite (lookup_ge_None_2 (rev free)) by (rewrite length_rev; lia)).
    change (0 =? 0) with true. rewrite orb_true_r. destruct Ht as [Hl Hi'].
    wp_step. eapply (release_space_ok all (list_to_set (take 11 (rev free)) ∪ held) p1 s1).
    + by rewrite Hs1.
    + rewrite Efr. apply frees_releasable. by eapply free_frames_nodup.
    + done.
    + intros pn q' Hq' Hr. rewrite Efr in Hq'. unfold free in Hq'. rewrite (frees_returned _ _ _ _ Hi) in Hq'. wp_step.
      exists pn, q'. split; [done|]. split; [by rewrite Hs1|]. split; [done|]. by destruct Hr.
Qed.
