(* ===== verification/Process64Create.v ===== *)
(** * Creating and reaping processes of the 64-bit kernel *)
From S2P Require Import Prelude Word64 Mem KString Pmm64 Pmm64Proofs Text64 Process64 Process64Queue Process64Tables.
From S2P Require Import Process64Alloc.

(** ** The table *)

Lemma process_at_ok s i p (Q : x86_64_process -> process64 -> Prop) :
  process64_table s !! Z.to_nat i = Some p -> Q p s -> wp (process_at i) Q s.
Proof. intros Hp HQ. unfold process_at. do 2 wp_step. by eapply wp_array_at. Qed.

Lemma process_put_ok s i p (Q : unit -> process64 -> Prop) :
  (Z.to_nat i < length (process64_table s))%nat ->
  Q tt (s <| process64_table := <[Z.to_nat i := p]> (process64_table s) |>) -> wp (process_put i p) Q s.
Proof. intros Hi HQ. unfold process_put. do 3 wp_step. apply wp_array_put; [done|]. by wp_step. Qed.

(** The two searches of the table. *)
Lemma find_process_slot_ok s (test : x86_64_process -> bool) (Q : option Z -> process64 -> Prop) :
  length (process64_table s) = 64%nat ->
  (forall i p, 0 <= i < 64 -> process64_table s !! Z.to_nat i = Some p -> test p = true ->
     (forall j q, 0 <= j < i -> process64_table s !! Z.to_nat j = Some q -> test q = false) -> Q (Some i) s) ->
  ((forall i p, process64_table s !! i = Some p -> test p = false) -> Q None s) ->
  wp (mfor_ret (seqZ 0 X86_64_PROCESS_MAX_PROCESSES) (fun i => p <- process_at i ;; mret_ (if test p then Some i else None))) Q s.
Proof.
  intros Hl HS HN. apply (wp_for_ret_seqZ _ _ (fun i s' => s' = s /\
    forall j q, 0 <= j < i -> process64_table s !! Z.to_nat j = Some q -> test q = false)).
  - done.
  - split; [done|]. intros; lia.
  - intros i s' Hi (-> & Hbefore). destruct (lookup_lt_is_Some_2 (process64_table s) (Z.to_nat i)) as [p Hp]; [unfold X86_64_PROCESS_MAX_PROCESSES in Hi; lia|].
    wp_step. eapply process_at_ok; [exact Hp|]. wp_step. destruct (test p) eqn:E.
    + by eapply HS.
    + split; [done|]. intros j q Hj Hq. destruct (decide (j = i)) as [->|]; [congruence|]. apply (Hbefore j); [lia|done].
  - intros s' (-> & Hbefore). apply HN. intros i p Hp. apply (Hbefore (Z.of_nat i)); [|by rewrite Nat2Z.id].
    apply lookup_lt_Some in Hp. unfold X86_64_PROCESS_MAX_PROCESSES. lia.
Qed.

Lemma count_processes_ok s state (Q : Z -> process64 -> Prop) :
  length (process64_table s) = 64%nat -> (forall n, Q n s) -> wp (count_processes_with_state state) Q s.
Proof.
  intros Hl HQ. unfold count_processes_with_state. apply (wp_fold _ _ (fun _ _ s' => s' = s)); [done| |by intros a s' ->].
  intros l i r a s' E ->. assert (Hi : i ∈ seqZ 0 X86_64_PROCESS_MAX_PROCESSES) by (rewrite E; set_solver). apply elem_of_seqZ in Hi.
  unfold X86_64_PROCESS_MAX_PROCESSES in Hi. destruct (lookup_lt_is_Some_2 (process64_table s) (Z.to_nat i)) as [p Hp]; [lia|].
  wp_step. eapply process_at_ok; [exact Hp|]. by wp_step.
Qed.

Lemma refresh_counts_ok s (Q : unit -> process64 -> Prop) :
  length (process64_table s) = 64%nat -> (forall st, Q tt (s <| process64_state := st |>)) -> wp refresh_counts Q s.
Proof.
  intros Hl HQ. unfold refresh_counts. wp_step. apply count_processes_ok; [done|]. intros n1. wp_step. apply count_processes_ok; [done|].
  intros n2. do 10 wp_step. by apply wp_sm_mod.
Qed.

(** ** The invariant: who owns which frame *)

Definition process_frames (p : x86_64_process) : list Z := space_frames p ++ [p6_kernel_stack_page p].

Record process_ok (held : gset Z) (next : Z) (p : x86_64_process) : Prop := {
  pk_pages : length (p6_user_code_pages p) = 4%nat;
  pk_name : length (p6_name p) = 24%nat;
  pk_path : length (p6_image_path p) = 64%nat;
  pk_unused : p6_state p = 0 -> process_frames p = replicate 12 0;
  pk_used : p6_state p <> 0 -> NoDup (process_frames p) /\ (forall q, q ∈ process_frames p -> q ∈ held) /\ 1 <= p6_pid p < next
}.

Record table64_ok (all : list Z) (held : gset Z) (s : process64) : Prop := {
  to_length : length (process64_table s) = 64%nat;
  to_pmm : pmm64_inv all held (pr_pmm s);
  to_processes : forall i p, process64_table s !! i = Some p -> process_ok held (next_pid64 s) p;
  to_apart : forall i j p q f, process64_table s !! i = Some p -> process64_table s !! j = Some q -> i <> j ->
    p6_state p <> 0 -> p6_state q <> 0 -> f ∈ process_frames p -> f ∉ process_frames q;
  to_pids : forall i j p q, process64_table s !! i = Some p -> process64_table s !! j = Some q ->
    p6_state p <> 0 -> p6_state q <> 0 -> p6_pid p = p6_pid q -> i = j;
  to_initialized : sm_initialized (process64_state s) = true;
  to_next : 1 <= next_pid64 s
}.

Lemma space_frames_released p : length (p6_user_code_pages p) = 4%nat -> space_frames p = replicate 11 0 ->
  releasable ∅ (space_frames p).
Proof.
  intros _ ->. constructor; [intros q Hq; left; by apply elem_of_replicate_inv in Hq|].
  change (filter (fun q => q <> 0) (replicate 11 0)) with (@nil Z). constructor.
Qed.

(** ** Kernel stacks *)

Lemma direct_map_aligned page : frame_ok page ->
  is_aligned_u64 page 4096 = true /\ is_aligned_u64 (X86_64_DIRECT_MAP_BASE [++] page) 4096 = true /\
  is_aligned_u64 (X86_64_DIRECT_MAP_BASE [++] page [++] 4096) 16 = true.
Proof.
  intros [Hp Ha]. unfold is_aligned_u64, X86_64_DIRECT_MAP_BASE. rewrite !(u64_small (_ + page)) by (unfold is_u64; lia).
  rewrite (u64_small (_ + page + 4096)) by (unfold is_u64; lia). change (4096 [--] 1) with (2 ^ 12 - 1). change (16 [--] 1) with (2 ^ 4 - 1).
  rewrite !land_low_mask by lia. change (2 ^ 12) with 4096. change (2 ^ 4) with 16.
  split; [|split]; apply Z.eqb_eq; Z.div_mod_to_equations; lia.
Qed.

Lemma kernel_stack_ok all held free k p s (Q : x86_64_process * bool -> process64 -> Prop) :
  taken all held free k (pr_pmm s) -> (forall q, q ∈ free -> frame_ok q) ->
  (let page := nth_free free k in
   if decide (k < length free)%nat then forall q m, taken all held free (S k) q -> same_outside [page] (pr_mem s) m ->
     Q (p <| p6_kernel_stack_page := page |> <| p6_kernel_stack_base := X86_64_DIRECT_MAP_BASE [++] page |>
          <| p6_kernel_stack_top := X86_64_DIRECT_MAP_BASE [++] page [++] 4096 |>, true) (with_frames s q m)
   else forall q, taken all held free (S k) q -> Q (p, false) (s <| pr_pmm := q |>)) ->
  wp (allocate_kernel_stack p) Q s.
Proof.
  intros Ht Hf HQ. unfold allocate_kernel_stack. wp_step. eapply alloc_next; [exact Ht|]. intros q Hq. cbv zeta in HQ.
  unfold X86_64_PMM_INVALID_PAGE. destruct (decide (k < length free)%nat) as [Hk|Hk].
  - assert (Hpage : frame_ok (nth_free free k)) by (by apply Hf, nth_free_lt). rewrite (proj2 (Z.eqb_neq _ 0)) by (unfold frame_ok in Hpage; lia).
    wp_step. apply clear_page_ok; [done|]. intros m Hm. wp_step. unfold X86_64_PROCESS_KERNEL_STACK_BYTES.
    destruct (direct_map_aligned _ Hpage) as (-> & -> & ->). cbn [andb]. apply HQ; [done|].
    intros a Ha. rewrite Hm, decide_False; [done|]. apply Ha. by left.
  - replace (nth_free free k) with 0 by (unfold nth_free; by rewrite (lookup_ge_None_2 (rev free)) by (rewrite length_rev; lia)).
    change (0 =? 0) with true. cbv iota. wp_step. by apply HQ.
Qed.

(** ** A slot with an address space and a stack *)

Record acquired (k : kernel_tables) (p0 p : x86_64_process) (free : list Z) (m m' : mem) : Prop := {
  aq_space : space_ok p;
  aq_frames : process_frames p = take 12 (rev free);
  aq_template : template k 1 p m';
  aq_entries : user_entries 1 p m';
  aq_outside : same_outside (take 12 (rev free)) m m';
  aq_zero : forall q a, q ∈ p6_user_code_pages p ++ [p6_user_stack_page p] -> in_page64 q a -> load8 m' a = 0;
  aq_owned : p6_address_space_owned p = true /\ p6_kernel_mappings_ready p = true /\ p6_user_page_tables_ready p = true;
  aq_name : p6_name p = p6_name p0 /\ p6_image_path p = p6_image_path p0;
  aq_page : p6_user_code_pages p !! 0%nat = Some (p6_user_code_page p);
  aq_flags : p6_user_code_page_flags p = [5; 0; 0; 0]
}.

(** The processes in use are the same in both states. *)
Definition same_used (s s' : process64) : Prop :=
  next_pid64 s' = next_pid64 s /\ process_paging_context s' = process_paging_context s /\
  forall i p, p6_state p <> 0 -> process64_table s' !! i = Some p <-> process64_table s !! i = Some p.

Lemma table_ok_unused all held s s' i p0 p' :
  table64_ok all held s -> process64_table s !! i = Some p0 -> p6_state p0 = 0 ->
  p6_state p' = 0 -> process_ok held (next_pid64 s) p' ->
  process64_table s' = <[i := p']> (process64_table s) -> pmm64_inv all held (pr_pmm s') -> next_pid64 s' = next_pid64 s ->
  process64_state s' = process64_state s -> process_paging_context s' = process_paging_context s -> table64_ok all held s' /\ same_used s s'.
Proof.
  intros [Hl Hp Hpr Hap Hpid Hin Hnx] Hi H0 H0' Hok' Et Hp' En Es Ec.
  assert (Hused : forall j q, p6_state q <> 0 -> process64_table s' !! j = Some q <-> process64_table s !! j = Some q).
  { intros j q Hq. rewrite Et. destruct (decide (j = i)) as [->|Hne].
    - rewrite list_lookup_insert_eq by (by eapply lookup_lt_Some). split.
      + intros E. injection E as <-. by rewrite H0' in Hq.
      + intros E. rewrite Hi in E. injection E as <-. done.
    - by rewrite list_lookup_insert_ne by done. }
  split; [|split; [done|split; done]]. constructor; try done.
  - by rewrite Et, length_insert.
  - intros j q Hq. rewrite En. rewrite Et in Hq. destruct (decide (j = i)) as [->|Hne].
    + rewrite list_lookup_insert_eq in Hq by (by eapply lookup_lt_Some). injection Hq as <-. done.
    + rewrite list_lookup_insert_ne in Hq by done. by eapply Hpr.
  - intros j j' q q' f Hj Hj' Hne Hu Hu' Hf. apply (Hap j j' q q'); try done; by apply Hused.
  - intros j j' q q' Hj Hj' Hu Hu' He. apply (Hpid j j' q q'); try done; by apply Hused.
  - by rewrite Es.
  - by rewrite En.
Qed.

Lemma acquire_ok all held k s (Q : option (Z * x86_64_process) -> process64 -> Prop) :
  table64_ok all held s -> kernel64_ready all k s ->
  let free := free_frames (pr_pmm s) in
  (forall i p0 p q m, 0 <= i < 64 -> process64_table s !! Z.to_nat i = Some p0 -> p6_state p0 = 0 -> (12 <= length free)%nat ->
     taken all held free 12 q -> acquired k p0 p free (pr_mem s) m ->
     Q (Some (i, p)) ((with_frames s q m) <| next_address_space_id ::= fun n => n [++] 1 |>)) ->
  (forall s', table64_ok all held s' -> same_used s s' -> same_outside free (pr_mem s) (pr_mem s') ->
     (forall i p, process64_table s !! i = Some p -> p6_state p <> 0) \/ (length free < 12)%nat -> Q None s') ->
  wp process_acquire Q s.
Proof.
  intros Hok Hk free HS HN. pose proof Hok as [Hl Hp Hpr Hap Hpid Hin Hnx]. unfold process_acquire, find_unused_process, X86_64_PROCESS_UNUSED.
  wp_step. apply (find_process_slot_ok s (fun p => p6_state p =? 0)); [done| |].
  2:{ intros Hno. wp_step. apply HN; [done|by split|done|]. left. intros i p Hi E. apply Hno in Hi. rewrite E in Hi. done. }
  intros i p0 Hi Hp0 H0 _. apply Z.eqb_eq in H0. wp_step. eapply process_at_ok; [exact Hp0|]. wp_step.
  destruct (Hpr _ _ Hp0) as [Kpages Kname Kpath Kun _]. specialize (Kun H0).
  assert (Kst : p6_kernel_stack_page p0 = 0).
  { assert (E : process_frames p0 !! 11%nat = Some (p6_kernel_stack_page p0)).
    { unfold process_frames. rewrite lookup_app_r; unfold space_frames; rewrite !length_app, Kpages; [done|cbn; lia]. }
    rewrite Kun in E. cbn in E. by injection E. }
  assert (Hfree : forall q, q ∈ free -> frame_ok q).
  { pose proof (free_frames_ok _ _ _ Hp (kr_bound _ _ _ Hk)) as H. rewrite Forall_forall in H. exact H. }
  assert (Hunused : forall p p', released_space p p' -> p6_state p = p6_state p0 -> p6_name p = p6_name p0 /\ p6_image_path p = p6_image_path p0 ->
    p6_kernel_stack_page p' = 0 -> length (p6_user_code_pages p') = 4%nat -> p6_state p' = 0 /\ process_ok held (next_pid64 s) p').
  { intros p p' [R1 R2 R3 R4 R5 [R6 R7]] E1 [E2 E3] Kp Kl. split; [congruence|]. constructor; [done|congruence|congruence| |].
    - intros _. unfold process_frames. by rewrite R1, Kp.
    - intros Hne. congruence. }
  eapply wp_mono; [by eapply allocate_space_ok|]. intros r s1 Hr. cbv beta zeta in Hr. fold free in Hr.
  destruct (decide (11 <= length free)%nat) as [H11|H11].
  2:{ destruct Hr as (p' & q & -> & -> & Hq & Hrel). cbn [negb]. wp_step. apply process_put_ok; [get_set; lia|]. wp_step. get_set.
      assert (Hlen : length (p6_user_code_pages p') = 4%nat).
      { pose proof (rs_frames _ _ Hrel) as E. apply (f_equal length) in E. unfold space_frames in E. rewrite !length_app in E. cbn in E. lia. }
      destruct (Hunused p0 p' Hrel) as [U1 U2]; [done|done|by rewrite (rs_stack _ _ Hrel)|done|].
      match goal with |- Q None ?t => destruct (table_ok_unused all held s t (Z.to_nat i) p0 p') as [T1 T2]; try done end.
      apply HN; [exact T1|exact T2|done|]. right. lia. }
  destruct Hr as (p1 & q1 & m1 & -> & -> & Hq1 & Hfs). cbn [negb]. wp_step.
  eapply (kernel_stack_ok all held free 11); [exact Hq1|done|]. cbv zeta.
  destruct (decide (11 < length free)%nat) as [H12|H12].
  - intros q2 m2 Hq2 Hout2. cbn [negb]. wp_step. get_set_in Hout2.
    match goal with |- Q ?r ?t => replace t with ((with_frames s q2 m2) <| next_address_space_id ::= fun n => n [++] 1 |>) by reflexivity end.
    eapply HS; [done|exact Hp0|done|lia|exact Hq2|].
    assert (Erev : rev free !! 11%nat = Some (nth_free free 11)).
    { unfold nth_free. destruct (lookup_lt_is_Some_2 (rev free) 11) as [x Hx]; [rewrite length_rev; lia|]. by rewrite Hx. }
    assert (Etake : take 12 (rev free) = take 11 (rev free) ++ [nth_free free 11]) by (by rewrite (take_S_r _ _ _ Erev)).
    set (page := nth_free free 11) in *. set (p2 := p1 <| p6_kernel_stack_page := _ |> <| p6_kernel_stack_base := _ |> <| p6_kernel_stack_top := _ |>).
    assert (Hpf : frame_ok page) by (apply Hfree, nth_free_lt; lia).
    assert (Hnin : page ∉ space_frames p2).
    { change (space_frames p2) with (space_frames p1). rewrite (fs_frames _ _ _ _ _ _ Hfs).
      pose proof (NoDup_rev_list _ (free_frames_nodup _ _ _ Hp)) as Hnd. fold free in Hnd. rewrite <- (take_drop 12 (rev free)), Etake in Hnd.
      apply NoDup_app in Hnd as (Hnd & _). apply NoDup_app in Hnd as (_ & Hdis & _). intros Hx. apply (Hdis page Hx). by left. }
    assert (Hsp : space_ok p2) by (by destruct (fs_space _ _ _ _ _ _ Hfs)).
    assert (Htp : forall t, t ∈ table_pages p2 -> t ∉ [page]).
    { intros t Ht Hx. apply list_elem_of_singleton in Hx as ->. apply Hnin. apply elem_of_app. by left. }
    destruct Hfs as [? Ffr Ft Fe Fo Fz ? Fown ? Fst Fn Fp ?]. constructor; try done.
    + unfold process_frames. rewrite Etake, <- Ffr. reflexivity.
    + eapply (template_outside p2 [page]); [done|exact Hout2|by constructor|done|lia|]. by destruct Ft.
    + eapply (user_entries_outside p2 [page]); [done|exact Hout2|by constructor|done|lia|]. by destruct Fe.
    + rewrite Etake. eapply same_outside_trans; (eapply same_outside_mono; [|eassumption]); set_solver.
    + intros x a Hx Ha. rewrite Hout2; [by apply (Fz x)|]. intros y Hy. apply list_elem_of_singleton in Hy as ->.
      apply (pages_apart x); [|done| |done].
      * apply (space_frame p2 x Hsp). apply elem_of_app. by right.
      * intros ->. apply Hnin. apply elem_of_app. by right.
  - intros q2 Hq2. cbn [negb]. assert (Hst1 : p6_kernel_stack_page p1 = 0) by (by rewrite (fs_stack _ _ _ _ _ _ Hfs)).
    wp_step. unfold release_kernel_stack. wp_step. unfold release_page at 1. rewrite Hst1. cbn [Z.eqb negb mwhen]. wp_step. wp_step.
    set (p2 := p1 <| p6_kernel_stack_page := _ |> <| p6_kernel_stack_base := _ |> <| p6_kernel_stack_top := _ |>). wp_step.
    assert (Efr : space_frames p2 = frees free 11).
    { change (space_frames p2) with (space_frames p1). by rewrite (fs_frames _ _ _ _ _ _ Hfs), frees_all by lia. }
    destruct Hq2 as [_ Hq2]. replace (take 12 (rev free)) with (take 11 (rev free)) in Hq2 by (rewrite !take_ge by (rewrite length_rev; lia); done).
    eapply (release_space_ok all (list_to_set (take 11 (rev free)) ∪ held) p2).
    + exact Hq2.
    + rewrite Efr. apply frees_releasable. by eapply free_frames_nodup.
    + by destruct (fs_space _ _ _ _ _ _ Hfs).
    + intros p' q' Hq' Hrel. rewrite Efr in Hq'. unfold free in Hq'. rewrite (frees_returned _ _ _ _ Hp) in Hq'.
      wp_step. apply process_put_ok; [change (Z.to_nat i < length (process64_table s))%nat; lia|]. wp_step.
      assert (Hlen : length (p6_user_code_pages p') = 4%nat).
      { pose proof (rs_frames _ _ Hrel) as E. apply (f_equal length) in E. unfold space_frames in E. rewrite !length_app in E. cbn in E. lia. }
      destruct (Hunused p2 p' Hrel) as [U1 U2]; [apply (fs_state _ _ _ _ _ _ Hfs)|apply (fs_name _ _ _ _ _ _ Hfs)|by rewrite (rs_stack _ _ Hrel)|done|].
      match goal with |- Q None ?t => destruct (table_ok_unused all held s t (Z.to_nat i) p0 p') as [T1 T2]; try done end.
      apply HN; [exact T1|exact T2| |right; lia]. eapply same_outside_mono; [|exact (fs_outside _ _ _ _ _ _ Hfs)].
      intros x. apply elem_of_take_rev.
Qed.

(** ** Creating processes of the 64-bit kernel *)

(** ** Filling the code pages *)

(** Byte [x] of an image of [n] bytes at [img], and zeros behind it. *)
Definition image_byte (m : mem) (img n x : Z) : Z := if x <? n then load8 m (img + x) else 0.

(** The image is not in any of the pages. *)
Definition image_apart (img n : Z) (ps : list Z) : Prop :=
  0 < img /\ img + n < 9223372036854775808 /\ forall p, p ∈ ps -> p + 4096 <= img \/ img + n <= p.

Definition code_flag (bitmap i : Z) : Z := if Z.testbit bitmap i then 7 else 5.

Lemma code_flag_ok bitmap i : 0 <= i < 4 -> user_code_flags_for_bitmap i bitmap = code_flag bitmap i.
Proof.
  intros Hi. unfold user_code_flags_for_bitmap, code_flag. rewrite Z.shiftl_1_l.
  assert (H4 : i = 0 \/ i = 1 \/ i = 2 \/ i = 3) by lia.
  replace (u32 (2 ^ i)) with (2 ^ i) by (destruct H4 as [-> | [-> | [-> | ->]]]; reflexivity).
  destruct (Z.testbit bitmap i) eqn:E.
  - rewrite (proj2 (Z.eqb_neq _ 0)); [done|]. intros H0. assert (Ht : Z.testbit (Z.land bitmap (2 ^ i)) i = true).
    { rewrite Z.land_spec, E, Z.pow2_bits_true by lia. done. }
    rewrite H0, Z.bits_0 in Ht. done.
  - rewrite (proj2 (Z.eqb_eq _ 0)); [done|]. apply Z.bits_inj'. intros n Hn. rewrite Z.land_spec, Z.bits_0, Z.pow2_bits_eqb by lia.
    destruct (Z.eqb_spec i n) as [<-|]; [by rewrite E|apply andb_false_r].
Qed.

(** The state of the loop before page [i]. *)
Record pages_filled (pages : list Z) (img n bitmap i : Z) (m m' : mem) (flags : list Z) : Prop := {
  fl_length : length flags = 4%nat;
  fl_range : Forall (fun f => 0 <= f < 4096) flags;
  fl_flags : forall j, 0 <= j < i -> flags !! Z.to_nat j = Some (code_flag bitmap j);
  fl_bytes : forall j page off, 0 <= j < i -> pages !! Z.to_nat j = Some page -> 0 <= off < 4096 ->
    load8 m' (page + off) = image_byte m img n (4096 * j + off);
  fl_outside : same_outside pages m m'
}.

Lemma fill_page_ok p img n bitmap i m0 m flags s (Q : list Z -> process64 -> Prop) :
  let pages := p6_user_code_pages p in
  length pages = 4%nat -> Forall frame_ok pages -> NoDup pages -> image_apart img n pages -> 0 < n <= 16384 -> 0 <= i < 4 ->
  pr_mem s = m -> pages_filled pages img n bitmap i m0 m flags ->
  (forall flags' m', pages_filled pages img n bitmap (i + 1) m0 m' flags' -> Q flags' (s <| pr_mem := m' |>)) ->
  wp (fill_code_page p img n bitmap flags i) Q s.
Proof.
  intros pages Hl Hf Hnd (Himg & Hbig & Hap) Hn Hi Hm [L R F B O] HQ. unfold fill_code_page, X86_64_USER_PAGE_BYTES. cbv zeta. fold pages.
  rewrite code_flag_ok by done. rewrite (u64_small (i * 4096)) by (unfold is_u64; lia).
  destruct (lookup_lt_is_Some_2 pages (Z.to_nat i)) as [page Hpage]; [lia|]. pose proof (list_elem_of_lookup_2 _ _ _ Hpage) as Hin.
  assert (Hpf : frame_ok page) by (rewrite Forall_forall in Hf; auto). pose proof Hpf as [Hpr _].
  set (rest := if i * 4096 <? n then n [--] i * 4096 else 0). set (size := if 4096 <? rest then 4096 else rest).
  assert (Hsize : size = Z.max 0 (Z.min 4096 (n - i * 4096))).
  { unfold size, rest. destruct (Z.ltb_spec (i * 4096) n); [rewrite u64_small by (unfold is_u64; lia)|]; case_match; lia. }
  clearbody size. clear rest. wp_step. apply wp_array_put; [lia|]. wp_step. eapply wp_array_at; [exact Hpage|].
  wp_step. apply clear_page_ok; [done|]. intros m1 Hm1. rewrite Hm in Hm1.
  assert (Hpages : forall j q off, 0 <= j < i -> pages !! Z.to_nat j = Some q -> 0 <= off < 4096 -> ~ in_page64 page (q + off)).
  { intros j q off Hj Hq Hoff. apply (pages_apart q); [rewrite Forall_forall in Hf; apply Hf; by apply list_elem_of_lookup_2 in Hq|done| |unfold in_page64; lia].
    intros ->. pose proof (NoDup_lookup _ _ _ _ Hnd Hpage Hq). lia. }
  assert (Hmem : forall x, 0 <= x < n -> load8 m1 (img + x) = load8 m0 (img + x)).
  { intros x Hx. assert (Hno : forall q, q ∈ pages -> ~ in_page64 q (img + x)) by (intros q Hq; specialize (Hap q Hq); unfold in_page64; lia).
    rewrite Hm1, decide_False by (by apply Hno). by apply O. }
  assert (Hdone : forall m', (forall a, load8 m' a = if decide (page <= a < page + size) then load8 m1 (img + i * 4096 + (a - page)) else load8 m1 a) ->
    pages_filled pages img n bitmap (i + 1) m0 m' (<[Z.to_nat i := code_flag bitmap i]> flags)).
  { intros m' Hm'. constructor.
    - by rewrite length_insert.
    - apply Forall_insert; [done|]. unfold code_flag. case_match; lia.
    - intros j Hj. destruct (decide (j = i)) as [->|Hne]; [rewrite list_lookup_insert_eq; [done|lia]|].
      rewrite list_lookup_insert_ne by lia. apply F. lia.
    - intros j q off Hj Hq Hoff. destruct (decide (j = i)) as [->|Hne].
      + rewrite Hpage in Hq. injection Hq as <-. rewrite Hm'. unfold image_byte. destruct (Z.ltb_spec (4096 * i + off) n).
        * rewrite decide_True by lia. replace (img + i * 4096 + (page + off - page)) with (img + (4096 * i + off)) by lia. apply Hmem. lia.
        * rewrite decide_False by lia. rewrite Hm1, decide_True by (unfold in_page64; lia). done.
      + assert (Hji : 0 <= j < i) by lia. pose proof (Hpages j q off Hji Hq Hoff) as Hno. unfold in_page64 in Hno.
        rewrite Hm', decide_False by lia. rewrite Hm1, decide_False by done. by apply B.
    - intros a Ha. pose proof (Ha page Hin) as Hno. unfold in_page64 in Hno. rewrite Hm', decide_False by lia. rewrite Hm1, decide_False by done. by apply O. }
  wp_step. destruct (Z.eqb_spec size 0) as [E0|E0]; cbn [negb mwhen].
  - wp_step. wp_step. apply HQ, Hdone. intros a. by rewrite decide_False by lia.
  - rewrite u64_small by (unfold is_u64; lia). specialize (Hap page Hin). eapply copy_bytes_ok; [lia|lia|lia|lia|lia|lia|].
    intros m2 Hm2. get_set_in Hm2. wp_step. replace (_ <| pr_mem := m2 |>) with (s <| pr_mem := m2 |>) by (by destruct s). by apply HQ, Hdone.
Qed.

Lemma seqZ_split n l x r : seqZ 0 n = l ++ x :: r -> x = Z.of_nat (length l) /\ x < n.
Proof.
  intros E. assert (Hx : seqZ 0 n !! length l = Some x) by (rewrite E; by apply list_lookup_middle).
  apply lookup_seqZ in Hx. lia.
Qed.

Lemma fill_pages_ok p img n bitmap count s (Q : list Z -> process64 -> Prop) :
  let pages := p6_user_code_pages p in
  length pages = 4%nat -> Forall frame_ok pages -> NoDup pages -> image_apart img n pages -> 0 < n <= 16384 -> 0 < count <= 4 ->
  (forall flags m', pages_filled pages img n bitmap count (pr_mem s) m' flags -> Q flags (s <| pr_mem := m' |>)) ->
  wp (mfold (seqZ 0 count) (fill_code_page p img n bitmap) [0; 0; 0; 0]) Q s.
Proof.
  intros pages Hl Hf Hnd Hap Hn Hc HQ.
  apply (wp_fold _ _ (fun l flags s' => exists m', s' = s <| pr_mem := m' |> /\
    pages_filled pages img n bitmap (Z.of_nat (length l)) (pr_mem s) m' flags)).
  - exists (pr_mem s). split; [by destruct s|]. constructor; [done|repeat constructor; lia|intros; cbn in *; lia|intros; cbn in *; lia|done].
  - intros l x r flags s' E (m' & -> & Hfill). apply seqZ_split in E as [-> Hx].
    eapply (fill_page_ok p img n bitmap _ (pr_mem s) m'); [done..|lia|done|exact Hfill|]. intros flags' m'' Hfill'. exists m''.
    split; [by destruct s|]. by rewrite length_app, Nat2Z.inj_add.
  - intros flags s' (m' & -> & Hfill). apply HQ. rewrite length_seqZ, Z2Nat.id in Hfill by lia. done.
Qed.

(** ** Statistics *)

(** [s] with other statistics. *)
Definition with_stats64 (s : process64) (st : x86_64_process_smoke_state) : process64 := s <| process64_state := st |>.
Definition same_init (s : process64) (st : x86_64_process_smoke_state) : Prop := sm_initialized st = sm_initialized (process64_state s).

Lemma wp_stats f (Q : unit -> process64 -> Prop) s :
  (forall st, sm_initialized (f st) = sm_initialized st) -> (forall st, same_init s st -> Q tt (with_stats64 s st)) -> wp (sm_mod f) Q s.
Proof. intros Hf HQ. unfold sm_mod. wp_step. exact (HQ (f (process64_state s)) (Hf _)). Qed.

Lemma wp_stats_field (P : x86_64_process_smoke_state -> Prop) f (Q : unit -> process64 -> Prop) s :
  (forall st, sm_initialized (f st) = sm_initialized st) -> P (f (process64_state s)) ->
  (forall st, same_init s st -> P st -> Q tt (with_stats64 s st)) -> wp (sm_mod f) Q s.
Proof. intros Hf HP HQ. unfold sm_mod. wp_step. exact (HQ (f (process64_state s)) (Hf _) HP). Qed.

Lemma stats_twice s st st' : with_stats64 (with_stats64 s st) st' = with_stats64 s st'.
Proof. reflexivity. Qed.

Lemma init_twice s st st' : same_init s st -> same_init (with_stats64 s st) st' -> same_init s st'.
Proof. unfold same_init. intros H1 H2. rewrite H2. exact H1. Qed.

(** [wp_stats] and folding the result. *)
Ltac stats_step st H := apply wp_stats; [intros ?; reflexivity|]; intros st H.

Lemma record_created_ok p s (Q : unit -> process64 -> Prop) :
  (forall st, same_init s st -> Q tt (with_stats64 s st)) -> wp (record_created_process p) Q s.
Proof.
  intros HQ. unfold record_created_process. wp_step. stats_step st1 H1.
  assert (Hrest : forall st, same_init s st ->
    wp (st <- mget process64_state ;;
        if sm_first_stack_base st =? 0 then
          sm_mod (fun st => st <| sm_first_stack_base := p6_kernel_stack_base p |> <| sm_first_stack_top := p6_kernel_stack_top p |>
            <| sm_first_address_space_id := p6_address_space_id p |> <| sm_first_cr3 := p6_cr3 p |>
            <| sm_first_user_code_page := p6_user_code_page p |> <| sm_first_user_stack_page := p6_user_stack_page p |>)
        else if sm_second_stack_base st =? 0 then
          sm_mod (fun st => st <| sm_second_stack_base := p6_kernel_stack_base p |> <| sm_second_stack_top := p6_kernel_stack_top p |>
            <| sm_second_address_space_id := p6_address_space_id p |> <| sm_second_cr3 := p6_cr3 p |>
            <| sm_second_user_code_page := p6_user_code_page p |> <| sm_second_user_stack_page := p6_user_stack_page p |>)
        else mret_ tt) Q (with_stats64 s st)).
  { intros st H. do 2 wp_step. case_match; [stats_step st' H'; apply HQ; by eapply init_twice|].
    case_match; [stats_step st' H'; apply HQ; by eapply init_twice|]. wp_step. by apply HQ. }
  wp_step. destruct (p6_kernel_mappings_ready p); cbn [mwhen].
  - stats_step st2 H2. wp_step. rewrite stats_twice. pose proof (init_twice _ _ _ H1 H2) as H3.
    destruct (p6_user_page_tables_ready p); cbn [mwhen]; [stats_step st4 H4; apply Hrest; by eapply init_twice|]. wp_step. by apply Hrest.
  - wp_step. wp_step. destruct (p6_user_page_tables_ready p); cbn [mwhen]; [stats_step st4 H4; apply Hrest; by eapply init_twice|]. wp_step. by apply Hrest.
Qed.

Lemma record_user_ok k n p s (Q : unit -> process64 -> Prop) :
  space_ok p -> template k n p (pr_mem s) -> user_entries n p (pr_mem s) -> source_ok k (process_paging_context s) (pr_mem s) ->
  code_flags_ok p -> n = p6_user_code_page_count p -> 0 < n <= 4 -> p6_user_code_pt_page p + 7 <> k2 k 2 ->
  (forall st, same_init s st -> sm_last_user_cr3 st = p6_cr3 p -> Q tt (with_stats64 s st)) ->
  wp (record_user_process p) Q s.
Proof.
  intros Hp Ht Hu Hs Hfl En Hn Hne HQ. unfold record_user_process. wp_step.
  apply (wp_stats_field (fun st => sm_last_user_cr3 st = p6_cr3 p)); [intros ?; reflexivity|reflexivity|]. intros st1 H1 H2. wp_step.
  eapply (validate_user_ok _ k n); try done. apply (wp_stats_field (fun st => sm_last_user_cr3 st = p6_cr3 p)); [intros ?; reflexivity|exact H2|].
  intros st2 H3 H4. apply HQ; [by eapply init_twice|exact H4].
Qed.

(** ** A slot is taken *)

Lemma table_ok_insert all held free s s' i p0 p :
  table64_ok all held s -> free = free_frames (pr_pmm s) -> (12 <= length free)%nat ->
  process64_table s !! i = Some p0 -> p6_state p0 = 0 -> process_frames p = take 12 (rev free) ->
  length (p6_user_code_pages p) = 4%nat -> length (p6_name p) = 24%nat -> length (p6_image_path p) = 64%nat ->
  p6_state p <> 0 -> p6_pid p = next_pid64 s -> process64_table s' = <[i := p]> (process64_table s) ->
  next_pid64 s' = next_pid64 s + 1 -> taken all held free 12 (pr_pmm s') -> sm_initialized (process64_state s') = true ->
  table64_ok all (list_to_set (process_frames p) ∪ held) s'.
Proof.
  intros [Hl Hp Hpr Hap Hpid Hin Hnx] Hfree H12 Hi H0 Hfr L1 L2 L3 Hst Epid Et En [_ Hq] Hini.
  assert (Hlt : (i < length (process64_table s))%nat) by (by eapply lookup_lt_Some).
  assert (Hcase : forall j q, process64_table s' !! j = Some q -> (j = i /\ q = p) \/ (j <> i /\ process64_table s !! j = Some q)).
  { intros j q Hq'. rewrite Et in Hq'. destruct (decide (j = i)) as [->|Hne].
    - rewrite list_lookup_insert_eq in Hq' by done. injection Hq' as <-. by left.
    - rewrite list_lookup_insert_ne in Hq' by done. by right. }
  assert (Hnew : forall j q f, process64_table s !! j = Some q -> p6_state q <> 0 -> f ∈ process_frames p -> f ∉ process_frames q).
  { intros j q f Hj Hu Hf Hf'. destruct (pk_used _ _ _ (Hpr j q Hj) Hu) as (_ & Hheld & _). rewrite Hfr in Hf. apply elem_of_take_rev in Hf.
    subst free. by apply (free_not_held _ _ _ _ Hp Hf), Hheld. }
  assert (Hnd : NoDup (process_frames p)).
  { rewrite Hfr, Hfree. eapply sublist_NoDup; [apply NoDup_rev_list; exact (free_frames_nodup _ _ _ Hp)|apply sublist_take]. }
  constructor; try done.
  - by rewrite Et, length_insert.
  - by rewrite Hfr.
  - intros j q Hj. rewrite En. destruct (Hcase j q Hj) as [[-> ->]|[Hne Hj']].
    + constructor; [done..|]. intros _. split; [done|]. split; [|lia]. intros f Hf. apply elem_of_union. left. by apply elem_of_list_to_set.
    + destruct (Hpr j q Hj') as [K1 K2 K3 K4 K5]. constructor; [done..|]. intros Hu. destruct (K5 Hu) as (? & K6 & ?). split; [done|]. split; [|lia].
      intros f Hf. apply elem_of_union. right. by apply K6.
  - intros j j' q q' f Hj Hj' Hne Hu Hu' Hf. destruct (Hcase j q Hj) as [[-> ->]|[Hji Hj1]]; destruct (Hcase j' q' Hj') as [[-> ->]|[Hji' Hj1']].
    + done.
    + by apply (Hnew j' q').
    + intros Hf'. by apply (Hnew j q f).
    + by apply (Hap j j' q q').
  - intros j j' q q' Hj Hj' Hu Hu' He. destruct (Hcase j q Hj) as [[-> ->]|[Hji Hj1]]; destruct (Hcase j' q' Hj') as [[-> ->]|[Hji' Hj1']].
    + done.
    + destruct (pk_used _ _ _ (Hpr _ _ Hj1') Hu') as (_ & _ & ?). lia.
    + destruct (pk_used _ _ _ (Hpr _ _ Hj1) Hu) as (_ & _ & ?). lia.
    + by apply (Hpid j j' q q').
  - lia.
Qed.

(** ** User processes *)

Definition slot_free (s : process64) : Prop := exists i p, process64_table s !! i = Some p /\ p6_state p = 0.

#[export] Instance slot_free_dec s : Decision (slot_free s).
Proof.
  destruct (decide (Exists (fun p => p6_state p = 0) (process64_table s))) as [He|He]; rewrite Exists_exists in He.
  - left. destruct He as (p & Hp & E). apply list_elem_of_lookup in Hp as [i Hi]. by exists i, p.
  - right. intros (i & p & Hi & E). apply He. exists p. split; [by eapply list_elem_of_lookup_2|done].
Defined.

(** What [x86_64_process_create_user_image] needs of its arguments. *)
Record image_args (free : list Z) (img n entry count : Z) : Prop := {
  ia_apart : image_apart img n free;
  ia_bytes : 0 < n <= 16384;
  ia_count : 0 < count <= 4;
  ia_entry : 0x400000 <= entry < 0x400000 + 4096 * count
}.

(** The new process [p] in slot [i]. *)
Record image_created (k : kernel_tables) (s s' : process64) (img n entry count bitmap : Z) (i : nat) (p : x86_64_process) : Prop := {
  ic_slot : exists p0, process64_table s !! i = Some p0 /\ p6_state p0 = 0;
  ic_table : process64_table s' = <[i := p]> (process64_table s);
  ic_frames : process_frames p = take 12 (rev (free_frames (pr_pmm s)));
  ic_space : space_ok p;
  ic_fields : p6_pid p = next_pid64 s /\ p6_state p = X86_64_PROCESS_READY /\ p6_mode p = X86_64_PROCESS_MODE_USER /\ p6_user_entry p = entry /\
    p6_user_code_page_count p = count;
  ic_ready : p6_address_space_owned p = true /\ p6_kernel_mappings_ready p = true /\ p6_user_page_tables_ready p = true /\
    p6_user_code_pages p !! 0%nat = Some (p6_user_code_page p);
  ic_next : next_pid64 s' = next_pid64 s + 1;
  ic_context : process_paging_context s' = process_paging_context s;
  ic_cursor : user_schedule_cursor s' = user_schedule_cursor s;
  ic_template : template k count p (pr_mem s');
  ic_entries : user_entries count p (pr_mem s');
  ic_flags : forall j, 0 <= j < count -> p6_user_code_page_flags p !! Z.to_nat j = Some (code_flag bitmap j);
  ic_code : forall j page off, 0 <= j < count -> p6_user_code_pages p !! Z.to_nat j = Some page -> 0 <= off < 4096 ->
    load8 (pr_mem s') (page + off) = image_byte (pr_mem s) img n (4096 * j + off);
  ic_stack : forall off, 0 <= off < 4096 -> load8 (pr_mem s') (p6_user_stack_page p + off) = 0;
  ic_outside : same_outside (process_frames p) (pr_mem s) (pr_mem s');
  ic_last : sm_last_user_cr3 (process64_state s') = p6_cr3 p
}.

(** The record [create_user_image] fills in. *)
Definition image_record (p : x86_64_process) (pid : Z) (name path : list Z) (entry n count : Z) : x86_64_process :=
  p <| p6_pid := pid |> <| p6_state := X86_64_PROCESS_READY |> <| p6_mode := X86_64_PROCESS_MODE_USER |>
    <| p6_name := name |> <| p6_image_path := path |> <| p6_entry := 0 |> <| p6_arg := 0 |> <| p6_user_entry := entry |>
    <| p6_image_bytes := u32 n |> <| p6_exit_code := 0 |> <| p6_user_code_page_count := count |>.

Lemma copy_limited_length {St} dest size src (Q : list Z -> St -> Prop) s :
  size = Z.of_nat (length dest) -> 0 < size < 4294967296 -> (forall l, length l = length dest -> Q l s) -> wp (copy_limited dest size src) Q s.
Proof. intros -> Hd HQ. apply copy_limited_ok; [done|]. apply HQ, finish_text_length. lia. Qed.

(** ** Loading a user image: the whole operation *)

Lemma image_byte_outside img n ps m m' x :
  image_apart img n ps -> same_outside ps m m' -> 0 <= x -> image_byte m' img n x = image_byte m img n x.
Proof.
  intros (_ & _ & Hap) Ho Hx. unfold image_byte. destruct (Z.ltb_spec x n); [|done]. apply Ho. intros p Hp. specialize (Hap p Hp).
  unfold in_page64. lia.
Qed.

Lemma image_apart_sub img n ps qs : image_apart img n ps -> qs ⊆ ps -> image_apart img n qs.
Proof. intros (H1 & H2 & H3) Hs. split; [done|]. split; [done|]. intros p Hp. by apply H3, Hs. Qed.

Lemma source_apart_sub ctx ps qs : source_apart ctx ps -> qs ⊆ ps -> source_apart ctx qs.
Proof. intros (H1 & H2 & H3) Hs. split; [|split]; intros Hin; [apply H1|apply H2|apply H3]; by apply Hs. Qed.

Lemma wp_bind_assoc {St A B C} (m : M St A) (f : A -> M St B) (g : B -> M St C) (Q : C -> St -> Prop) s :
  wp (mbind_ (mbind_ m f) g) Q s -> wp (mbind_ m (fun x => mbind_ (f x) g)) Q s.
Proof. unfold wp, mbind_. by destruct (m s) as [[a s']|]. Qed.

(** The parts of an address space. *)
Lemma space_parts p : space_ok p ->
  (forall t, t ∈ table_pages p -> t ∉ p6_user_code_pages p) /\ (forall t, t ∈ table_pages p -> t <> p6_user_stack_page p) /\
  p6_user_stack_page p ∉ p6_user_code_pages p /\ NoDup (p6_user_code_pages p) /\ Forall frame_ok (p6_user_code_pages p) /\
  Forall frame_ok (table_pages p) /\ p6_user_code_pages p ⊆ space_frames p /\ table_pages p ⊆ space_frames p /\ frame_ok (p6_user_stack_page p).
Proof.
  intros Hp. pose proof (so_nodup p Hp) as Hnd. apply NoDup_app in Hnd as (_ & Hdis & Hnd). apply NoDup_app in Hnd as (Hnd & Hst & _).
  pose proof (so_frames p Hp) as Hf. apply Forall_app in Hf as [Hf1 Hf2]. apply Forall_app in Hf2 as [Hf2 Hf3].
  refine (conj _ (conj _ (conj _ (conj _ (conj _ (conj _ (conj _ (conj _ _)))))))).
  - intros t Ht Hc. apply (Hdis t Ht). apply elem_of_app. by left.
  - intros t Ht ->. apply (Hdis _ Ht). apply elem_of_app. right. by left.
  - intros Hc. apply (Hst _ Hc). by left.
  - done.
  - done.
  - done.
  - intros x Hx. apply elem_of_app. right. apply elem_of_app. by left.
  - intros x Hx. apply elem_of_app. by left.
  - rewrite Forall_forall in Hf3. apply Hf3. by left.
Qed.

Lemma filled_flags_ok pages img n bitmap count m m' flags p :
  pages_filled pages img n bitmap count m m' flags -> p6_user_code_page_count p = count -> p6_user_code_page_flags p = flags -> code_flags_ok p.
Proof.
  intros Hf Ec Ef i f Hi E. rewrite Ef in E. rewrite Ec in Hi. rewrite (fl_flags _ _ _ _ _ _ _ _ Hf i Hi) in E. injection E as <-.
  unfold code_flag. case_match; auto.
Qed.

Section Image.
Context (all : list Z) (held : gset Z) (k : kernel_tables) (s : process64) (img n entry count bitmap : Z).
Hypothesis table : table64_ok all held s.
Hypothesis ready : kernel64_ready all k s.
Hypothesis args : image_args (free_frames (pr_pmm s)) img n entry count.
Hypothesis pids : next_pid64 s < 4294967295.

Let free := free_frames (pr_pmm s).

(** From the acquired slot to the pages_filled and mapped pages. *)
Lemma image_map_ok p0 p pid name path m s1 (Q : x86_64_process -> process64 -> Prop) :
  acquired k p0 p free (pr_mem s) m -> pr_mem s1 = m -> process_paging_context s1 = process_paging_context s ->
  (forall flags m', let p' := (image_record p pid name path entry n count) <| p6_user_code_page_flags := flags |> in
     space_ok p' -> template k count p' m' -> user_entries count p' m' -> source_ok k (process_paging_context s) m' ->
     code_flags_ok p' -> p6_user_code_pt_page p' + 7 <> k2 k 2 ->
     (forall j, 0 <= j < count -> flags !! Z.to_nat j = Some (code_flag bitmap j)) ->
     (forall j page off, 0 <= j < count -> p6_user_code_pages p !! Z.to_nat j = Some page -> 0 <= off < 4096 ->
        load8 m' (page + off) = image_byte (pr_mem s) img n (4096 * j + off)) ->
     (forall off, 0 <= off < 4096 -> load8 m' (p6_user_stack_page p + off) = 0) ->
     same_outside (process_frames p) (pr_mem s) m' ->
     Q (p' <| p6_kernel_mappings_ready := true |> <| p6_user_page_tables_ready := true |>) (s1 <| pr_mem := m' |>)) ->
  wp (flags <- mfold (seqZ 0 count) (fill_code_page (image_record p pid name path entry n count) img n bitmap) [0; 0; 0; 0] ;;
      build_user_page_tables ((image_record p pid name path entry n count) <| p6_user_code_page_flags := flags |>)) Q s1.
Proof using table ready args.
  intros Haq Em Ectx HQ. destruct args as [Ha Hn Hc He]. destruct Haq as [Asp Afr At Ae Ao Az _ _ _ _].
  destruct (space_parts p Asp) as (Htc & Hts & Hsc & Hnd & Hfc & Hft & Hsub1 & Hsub2 & Hfs).
  assert (Hfree : take 12 (rev free) ⊆ free) by (intros x; apply elem_of_take_rev).
  assert (Hspf : space_frames p ⊆ take 12 (rev free)) by (rewrite <- Afr; intros x Hx; apply elem_of_app; by left).
  assert (Hap12 : image_apart img n (take 12 (rev free))) by (by eapply image_apart_sub).
  assert (Hff : Forall frame_ok (take 12 (rev free))).
  { apply Forall_forall. intros x Hx. pose proof (free_frames_ok _ _ _ (to_pmm _ _ _ table) (kr_bound _ _ _ ready)) as H. rewrite Forall_forall in H. by apply H, Hfree. }
  assert (Hsap : source_apart (process_paging_context s) (take 12 (rev free))) by (eapply source_apart_sub; [exact (kr_apart _ _ _ ready)|done]).
  assert (Hsrc : source_ok k (process_paging_context s) m) by (eapply source_ok_outside; [exact (kr_source _ _ _ ready)|exact Ao|done|done]).
  wp_step. eapply fill_pages_ok; [apply (so_pages p Asp)|exact Hfc|exact Hnd| |done|done|].
  { eapply image_apart_sub; [exact Hap12|]. intros x Hx. by apply Hspf, Hsub1. }
  intros flags m2 Hfill. rewrite Em in Hfill. pose proof (fl_outside _ _ _ _ _ _ _ _ Hfill) as Ho2. change (p6_user_code_pages (image_record _ _ _ _ _ _ _)) with (p6_user_code_pages p) in *.
  set (p2 := (image_record p pid name path entry n count) <| p6_user_code_page_flags := flags |>).
  assert (Hsp2 : space_ok p2) by (destruct Asp; constructor; try done; exact (fl_length _ _ _ _ _ _ _ _ Hfill)).
  assert (Hflags : code_flags_ok p2) by (by eapply filled_flags_ok).
  assert (Hne : p6_user_code_pt_page p2 + 7 <> k2 k 2).
  { apply (kr_code _ _ _ ready), Hfree, Hspf, Hsub2. unfold table_pages. rewrite !elem_of_cons. tauto. }
  assert (Hsrc2 : source_ok k (process_paging_context s) m2).
  { eapply source_ok_outside; [exact Hsrc|exact Ho2|done|]. eapply source_apart_sub; [exact Hsap|]. intros x Hx. by apply Hspf, Hsub1. }
  assert (Ht2 : template k 1 p2 m2).
  { assert (H : template k 1 p m2) by (eapply (template_outside p (p6_user_code_pages p) m); [done..|lia|done]). by destruct H. }
  eapply (build_tables_ok _ k 1 p2).
  - exact Hsp2.
  - change (source_ok k (process_paging_context s1) m2). by rewrite Ectx.
  - change (source_apart (process_paging_context s1) (space_frames p)). rewrite Ectx. by eapply source_apart_sub.
  - exact Ht2.
  - change (1 <= count). lia.
  - exact Hc.
  - exact (fl_range _ _ _ _ _ _ _ _ Hfill).
  - exact Hflags.
  - exact Hne.
  - intros m3 Ht3 Hu3 Ho3. change (p6_user_code_page_count p2) with count in *. get_set_in Ho3. change (table_pages p2) with (table_pages p) in Ho3.
    replace (_ <| pr_mem := m3 |>) with (s1 <| pr_mem := m3 |>) by (by destruct s1).
    apply HQ; [done|done|done| |done|done|exact (fl_flags _ _ _ _ _ _ _ _ Hfill)| | |].
    + eapply source_ok_outside; [exact Hsrc2|exact Ho3|done|]. eapply source_apart_sub; [exact Hsap|]. intros x Hx. by apply Hspf, Hsub2.
    + intros j page off Hj Hpg Hoff. pose proof (list_elem_of_lookup_2 _ _ _ Hpg) as Hin.
      rewrite Ho3. 2:{ intros t Ht. apply (pages_apart page); [rewrite Forall_forall in Hfc; auto|rewrite Forall_forall in Hft; auto| |unfold in_page64; lia]. intros ->. by apply (Htc t). }
      rewrite (fl_bytes _ _ _ _ _ _ _ _ Hfill j page off) by done. eapply image_byte_outside; [exact Hap12|exact Ao|lia].
    + intros off Hoff. assert (Hin : in_page64 (p6_user_stack_page p) (p6_user_stack_page p + off)) by (unfold in_page64; lia).
      rewrite Ho3. 2:{ intros t Ht. apply (pages_apart (p6_user_stack_page p)); [done|rewrite Forall_forall in Hft; auto|apply not_eq_sym, Hts, Ht|done]. }
      rewrite Ho2. 2:{ intros t Ht. apply (pages_apart (p6_user_stack_page p)); [done|rewrite Forall_forall in Hfc; auto|intros E; apply Hsc; by rewrite E|done]. }
      apply (Az (p6_user_stack_page p)); [|done]. apply elem_of_app. right. by left.
    + rewrite Afr. eapply same_outside_trans; [exact Ao|]. eapply same_outside_trans; eapply same_outside_mono; [|exact Ho2| |exact Ho3].
      * intros x Hx. by apply Hspf, Hsub1.
      * intros x Hx. by apply Hspf, Hsub2.
Qed.

Lemma create_image_ok path :
  wp (x86_64_process_create_user_image path img n entry count bitmap) (fun r s' =>
    (r = next_pid64 s /\ slot_free s /\ (12 <= length free)%nat /\
     exists i p, image_created k s s' img n entry count bitmap i p /\ table64_ok all (list_to_set (process_frames p) ∪ held) s') \/
    (r = 0 /\ (~ slot_free s \/ (length free < 12)%nat) /\ table64_ok all held s' /\ same_used s s' /\
     same_outside free (pr_mem s) (pr_mem s'))) s.
Proof using table ready args pids.
  pose proof args as [Ha Hn Hc He]. pose proof table as [Hl Hp Hpr Hap Hpid Hin Hnx]. unfold x86_64_process_create_user_image. do 2 wp_step. rewrite Hin.
  unfold X86_64_USER_IMAGE_MAX_BYTES, X86_64_USER_IMAGE_MAX_PAGES, X86_64_USER_CODE_BASE, X86_64_USER_PAGE_BYTES.
  rewrite (u64_small (count * 4096)), (u64_small (_ + count * 4096)) by (unfold is_u64; lia). destruct Ha as (Hi0 & _).
  rewrite (proj2 (Z.eqb_neq img 0)), (proj2 (Z.eqb_neq n 0)), (proj2 (Z.ltb_ge _ n)), (proj2 (Z.eqb_neq count 0)), (proj2 (Z.ltb_ge _ count)),
    (proj2 (Z.ltb_ge entry _)), (proj2 (Z.leb_gt _ entry)) by lia. cbn [negb orb].
  wp_step. apply (acquire_ok all held k s); [done|done| |].
  2:{ intros s' Hok Hsame Hout Hwhy. wp_step. right. split; [done|]. split; [|done]. destruct Hwhy as [Hwhy|Hwhy]; [left|by right].
      intros (i & p & Hi & E). by apply (Hwhy i p). }
  intros i p0 p q m Hi Hp0 H0 H12 Hq Haq. destruct (Hpr _ _ Hp0) as [_ Kname Kpath _ _]. destruct (aq_name _ _ _ _ _ _ Haq) as [En Ep].
  wp_step. unfold take_next_pid. do 4 wp_step.
  match goal with |- wp _ _ ?t => set (s1 := t) end.
  assert (S1 : pr_mem s1 = m) by reflexivity. assert (S2 : process_paging_context s1 = process_paging_context s) by reflexivity.
  assert (S3 : process64_table s1 = process64_table s) by reflexivity. assert (S4 : pr_pmm s1 = q) by reflexivity.
  assert (S5 : next_pid64 s1 = next_pid64 s + 1) by (change (incr (next_pid64 s) = next_pid64 s + 1); apply incr_small; lia).
  assert (S6 : process64_state s1 = process64_state s) by reflexivity. assert (S7 : user_schedule_cursor s1 = user_schedule_cursor s) by reflexivity.
  change (next_pid64 _) with (next_pid64 s) at 1. set (pid := next_pid64 s) in *. clearbody s1.
  do 2 wp_step. apply copy_limited_length; [by rewrite En, Kname|done|]. intros name Hname.
  wp_step. apply copy_limited_length; [by rewrite Ep, Kpath|done|]. intros path' Hpath.
  change (p <| p6_pid := _ |> <| p6_state := _ |> <| p6_mode := _ |> <| p6_name := _ |> <| p6_image_path := _ |> <| p6_entry := _ |> <| p6_arg := _ |>
    <| p6_user_entry := _ |> <| p6_image_bytes := _ |> <| p6_exit_code := _ |> <| p6_user_code_page_count := _ |>) with
    (image_record p pid name path' entry n count).
  apply wp_bind_assoc. wp_step. eapply (image_map_ok p0 p); [exact Haq|done|done|]. intros flags m' p' Hsp Ht Hu Hsrc Hfl Hne Hflag Hcode Hstk Hout.
  set (p3 := p' <| p6_kernel_mappings_ready := true |> <| p6_user_page_tables_ready := true |>).
  assert (Hsp3 : space_ok p3) by (by destruct Hsp). assert (Ht3 : template k count p3 m') by (by destruct Ht). assert (Hu3 : user_entries count p3 m') by (by destruct Hu).
  change (negb (p6_user_page_tables_ready p3)) with false. cbv iota.
  assert (Hlt : (Z.to_nat i < length (process64_table s))%nat) by lia.
  wp_step. apply process_put_ok; [get_set; by rewrite S3|]. wp_step. apply record_created_ok. intros st1 Hst1. wp_step.
  eapply (record_user_ok k count); [exact Hsp3|exact Ht3|exact Hu3| |exact Hfl|done|done|exact Hne|].
  { change (source_ok k (process_paging_context s1) m'). by rewrite S2. }
  intros st2 Hst2 Hlast. pose proof (init_twice _ _ _ Hst1 Hst2) as Hst. unfold same_init in Hst. get_set_in Hst. rewrite S6, Hin in Hst. wp_step. left.
  split; [done|]. split; [exists (Z.to_nat i), p0; done|]. split; [done|]. exists (Z.to_nat i), p3.
  split.
  - constructor; try done.
    + by exists p0.
    + change (<[Z.to_nat i := p3]> (process64_table s1) = <[Z.to_nat i := p3]> (process64_table s)). by rewrite S3.
    + exact (aq_frames _ _ _ _ _ _ Haq).
    + split; [apply (aq_owned _ _ _ _ _ _ Haq)|]. split; [reflexivity|]. split; [reflexivity|]. exact (aq_page _ _ _ _ _ _ Haq).
  - apply (table_ok_insert all held free s _ (Z.to_nat i) p0 p3); try done.
    + exact (aq_frames _ _ _ _ _ _ Haq).
    + exact (so_pages p3 Hsp3).
    + change (length name = 24%nat). by rewrite Hname, En.
    + change (length path' = 64%nat). by rewrite Hpath, Ep.
    + change (<[Z.to_nat i := p3]> (process64_table s1) = <[Z.to_nat i := p3]> (process64_table s)). by rewrite S3.
    + change (taken all held free 12 (pr_pmm s1)). by rewrite S4.
Qed.
End Image.

(** ** What the processor sees of the new process *)

(** User code of [p] sees the image, zeros and its stack; the kernel's half is the
    kernel's, and nothing else is open to user code. *)
Record image_visible (k : kernel_tables) (s s' : process64) (img n count bitmap : Z) (p : x86_64_process) : Prop := {
  iv_code : forall x, 0 <= x < 4096 * count -> exists pa,
    walk64 (pr_mem s') (p6_cr3 p) (0x400000 + x) = Some (pa, (true, Z.testbit bitmap (x / 4096))) /\
    load8 (pr_mem s') pa = image_byte (pr_mem s) img n x;
  iv_stack : forall x, 0 <= x < 4096 -> exists pa,
    walk64 (pr_mem s') (p6_cr3 p) (0x7FFFF000 + x) = Some (pa, (true, true)) /\ load8 (pr_mem s') pa = 0;
  iv_kernel : forall va, (va / 2 ^ 39) mod 512 <> 0 ->
    walk64 (pr_mem s') (p6_cr3 p) va = walk64 (pr_mem s') (pg_source_pml4_table (process_paging_context s)) va;
  iv_only : kernel_private k -> forall va pa w, 0 <= va < 2 ^ 48 -> walk64 (pr_mem s') (p6_cr3 p) va = Some (pa, (true, w)) ->
    0x400000 <= va < 0x400000 + 4096 * count \/ 0x7FFFF000 <= va < 0x80000000
}.

Lemma created_visible all k s s' img n entry count bitmap i p :
  0 < count <= 4 -> source_ok k (process_paging_context s) (pr_mem s) -> source_apart (process_paging_context s) all ->
  Forall frame_ok all -> process_frames p ⊆ all ->
  image_created k s s' img n entry count bitmap i p -> image_visible k s s' img n count bitmap p.
Proof.
  intros Hc Hs Hap Hf Hsub [_ _ _ Hsp _ _ _ _ _ Ht Hu Hfl Hcode Hstk Ho]. constructor.
  - intros x Hx. assert (Hj : 0 <= x / 4096 < count) by (Z.div_mod_to_equations; lia).
    destruct (lookup_lt_is_Some_2 (p6_user_code_pages p) (Z.to_nat (x / 4096))) as [page Hpage]; [rewrite (so_pages p Hsp); lia|].
    pose proof (Z.mod_pos_bound x 4096 ltac:(lia)) as Hoff. exists (page + x mod 4096).
    assert (Ex : x = 4096 * (x / 4096) + x mod 4096) by (apply Z.div_mod; lia). split.
    + replace (0x400000 + x) with (0x400000 + 4096 * (x / 4096) + x mod 4096) by lia.
      rewrite (walk_code count p (pr_mem s') Hsp Hu ltac:(lia) (x / 4096) page (code_flag bitmap (x / 4096)) (x mod 4096)); try done; [|by apply Hfl|].
      * unfold code_flag. by destruct (Z.testbit bitmap (x / 4096)).
      * unfold code_flag. destruct (Z.testbit bitmap (x / 4096)); auto.
    + rewrite (Hcode (x / 4096) page (x mod 4096)) by done. by rewrite <- Ex.
  - intros x Hx. exists (p6_user_stack_page p + x). split; [by eapply walk_stack|by apply Hstk].
  - intros va Hva. eapply (walk_kernel k); [done| |done]. intros j Hj. rewrite <- (sr_k4 _ _ _ Hs j Hj).
    pose proof (sr_frames _ _ _ Hs) as Hsf. rewrite !Forall_cons in Hsf. destruct Hsf as (G1 & _). destruct Hap as (A1 & _).
    eapply same_outside_word; [exact Ho|done|by intros Hin; apply A1, Hsub| |done]. apply Forall_forall. intros q Hq. rewrite Forall_forall in Hf. by apply Hf, Hsub.
  - intros Hk va pa w Hva Hw. eapply (walk_user_only k); try done. lia.
Qed.
