(* ===== verification/Process64Reap.v ===== *)
(** * Exit and reaping of processes of the 64-bit kernel *)
From S2P Require Import Prelude Word64 Mem KString Pmm64 Pmm64Proofs Text64 Process64 Process64Queue Process64Tables.
From S2P Require Import Process64Alloc Process64Create.

Lemma refresh_stats_ok s (Q : unit -> process64 -> Prop) :
  length (process64_table s) = 64%nat -> (forall st, same_init s st -> Q tt (with_stats64 s st)) -> wp refresh_counts Q s.
Proof.
  intros Hl HQ. unfold refresh_counts. wp_step. apply count_processes_ok; [done|]. intros n1. wp_step. apply count_processes_ok; [done|].
  intros n2. do 10 wp_step. stats_step st H. by apply HQ.
Qed.

Lemma stats_same s : with_stats64 s (process64_state s) = s.
Proof. by destruct s. Qed.

(** The process with a number. *)
Definition process_with (s : process64) (pid : Z) (i : nat) (p : x86_64_process) : Prop :=
  process64_table s !! i = Some p /\ p6_state p <> 0 /\ p6_pid p = pid.

Lemma find_pid_ok s pid (Q : option Z -> process64 -> Prop) :
  length (process64_table s) = 64%nat ->
  (forall i p, 0 <= i < 64 -> process_with s pid (Z.to_nat i) p -> Q (Some i) s) ->
  ((forall i p, ~ process_with s pid i p) -> Q None s) -> wp (find_process_by_pid pid) Q s.
Proof.
  intros Hl HS HN. unfold find_process_by_pid, X86_64_PROCESS_UNUSED.
  apply (find_process_slot_ok s (fun p => negb (p6_state p =? 0) && (p6_pid p =? pid))); [done| |].
  - intros i p Hi Hp Ht _. apply andb_true_iff in Ht as [H1 H2]. apply negb_true_iff, Z.eqb_neq in H1. apply Z.eqb_eq in H2. by apply (HS i p).
  - intros Hno. apply HN. intros i p (Hp & H1 & H2). apply Hno in Hp. rewrite (proj2 (Z.eqb_neq _ 0)), (proj2 (Z.eqb_eq _ _)) in Hp by done. done.
Qed.

(** What the table keeps when a slot of a used process changes. *)
Lemma table_ok_update all held held' s s' i p p' :
  table64_ok all held s -> process64_table s !! i = Some p -> p6_state p <> 0 ->
  process64_table s' = <[i := p']> (process64_table s) -> next_pid64 s' = next_pid64 s ->
  sm_initialized (process64_state s') = true -> pmm64_inv all held' (pr_pmm s') ->
  (forall f, f ∈ held -> f ∉ process_frames p -> f ∈ held') -> process_ok held' (next_pid64 s) p' ->
  (p6_state p' = 0 \/ (process_frames p' = process_frames p /\ p6_pid p' = p6_pid p)) ->
  table64_ok all held' s'.
Proof.
  intros [Hl Hp Hpr Hap Hpid Hin Hnx] Hi Hu Et En Hini Hq Hheld Hok Hor.
  assert (Hlt : (i < length (process64_table s))%nat) by (by eapply lookup_lt_Some).
  assert (Hcase : forall j q, process64_table s' !! j = Some q -> (j = i /\ q = p') \/ (j <> i /\ process64_table s !! j = Some q)).
  { intros j q Hq'. rewrite Et in Hq'. destruct (decide (j = i)) as [->|Hne].
    - rewrite list_lookup_insert_eq in Hq' by done. injection Hq' as <-. by left.
    - rewrite list_lookup_insert_ne in Hq' by done. by right. }
  constructor; try done.
  - by rewrite Et, length_insert.
  - intros j q Hj. rewrite En. destruct (Hcase j q Hj) as [[-> ->]|[Hne Hj']]; [done|].
    destruct (Hpr j q Hj') as [K1 K2 K3 K4 K5]. constructor; [done..|]. intros Huq. destruct (K5 Huq) as (? & K6 & ?). split; [done|]. split; [|done].
    intros f Hf. apply Hheld; [by apply K6|]. intros Hf'. by apply (Hap j i q p f).
  - intros j j' q q' f Hj Hj' Hne Huq Huq' Hf. destruct (Hcase j q Hj) as [[-> ->]|[Hji Hj1]]; destruct (Hcase j' q' Hj') as [[-> ->]|[Hji' Hj1']].
    + done.
    + destruct Hor as [|[Ef _]]; [done|]. rewrite Ef in Hf. by apply (Hap i j' p q').
    + destruct Hor as [|[Ef _]]; [done|]. rewrite Ef. by apply (Hap j i q p).
    + by apply (Hap j j' q q').
  - intros j j' q q' Hj Hj' Huq Huq' He. destruct (Hcase j q Hj) as [[-> ->]|[Hji Hj1]]; destruct (Hcase j' q' Hj') as [[-> ->]|[Hji' Hj1']].
    + done.
    + destruct Hor as [|[_ Ef]]; [done|]. rewrite Ef in He. by apply (Hpid i j' p q').
    + destruct Hor as [|[_ Ef]]; [done|]. rewrite Ef in He. by apply (Hpid j i q p).
    + by apply (Hpid j j' q q').
  - by rewrite En.
Qed.

(** What the two operations leave alone. *)
Definition rest_same (s s' : process64) : Prop :=
  pr_mem s' = pr_mem s /\ next_pid64 s' = next_pid64 s /\ process_paging_context s' = process_paging_context s /\
  child_status_queue s' = child_status_queue s /\ child_status_count s' = child_status_count s.

Definition exited (p : x86_64_process) (code : Z) : x86_64_process := p <| p6_state := X86_64_PROCESS_EXITED |> <| p6_exit_code := code |>.

Lemma mark_exited_ok all held pid code s :
  table64_ok all held s ->
  wp (x86_64_process_mark_user_exited pid code) (fun r s' =>
    table64_ok all held s' /\ rest_same s s' /\ pr_pmm s' = pr_pmm s /\
    if r then exists i p, process_with s pid i p /\ p6_mode p = X86_64_PROCESS_MODE_USER /\
      process64_table s' = <[i := exited p code]> (process64_table s)
    else s' = s /\ forall i p, process_with s pid i p -> p6_mode p <> X86_64_PROCESS_MODE_USER) s.
Proof.
  intros Hok. pose proof Hok as [Hl Hp Hpr Hap Hpid Hin Hnx]. unfold x86_64_process_mark_user_exited. wp_step. apply find_pid_ok; [done| |].
  2:{ intros Hno. wp_step. split; [done|]. split; [done|]. split; [done|]. split; [done|]. intros i p H. by apply Hno in H. }
  intros i p Hi (Hp0 & Hu & Epid). wp_step. eapply process_at_ok; [exact Hp0|].
  unfold X86_64_PROCESS_MODE_USER, X86_64_PROCESS_UNUSED, X86_64_PROCESS_EXITED. rewrite (proj2 (Z.eqb_neq _ 0) Hu), orb_false_r.
  destruct (Z.eqb_spec (p6_mode p) 2) as [Em|Em]; cbn [negb].
  2:{ wp_step. split; [done|]. split; [done|]. split; [done|]. split; [done|]. intros j q (Hq & Hu' & Epid').
      assert (j = Z.to_nat i) as -> by (by apply (Hpid _ _ q p); try congruence). congruence. }
  destruct (Hpr _ _ Hp0) as [K1 K2 K3 K4 K5].
  assert (Hput : forall st, same_init s st ->
    wp (process_put i (exited p code) ;;; sm_mod (fun st => st <| sm_last_exited_user_pid := pid |>) ;;; refresh_counts ;;; mret_ true)
      (fun r s' => table64_ok all held s' /\ rest_same s s' /\ pr_pmm s' = pr_pmm s /\
        if r then exists i p, process_with s pid i p /\ p6_mode p = 2 /\ process64_table s' = <[i := exited p code]> (process64_table s)
        else s' = s /\ forall i p, process_with s pid i p -> p6_mode p <> 2) (with_stats64 s st)).
  { intros st Hst. wp_step. apply process_put_ok; [get_set; by eapply lookup_lt_Some|]. wp_step. stats_step st1 H1. wp_step.
    apply refresh_stats_ok; [change (length (<[Z.to_nat i := exited p code]> (process64_table s)) = 64%nat); by rewrite length_insert|]. intros st2 H2. wp_step. split; [|split; [done|split; [done|]]].
    - eapply (table_ok_update all held held s _ (Z.to_nat i) p (exited p code)); try done.
      + etransitivity; [exact H2|]. etransitivity; [exact H1|]. etransitivity; [exact Hst|done].
      + constructor; [done|done|done|done|]. intros _. exact (K5 Hu).
      + by right.
    - exists (Z.to_nat i), p. done. }
  wp_step. destruct (Z.eqb_spec (p6_state p) 3); cbn [negb mwhen].
  - wp_step. pose proof (Hput (process64_state s) eq_refl) as H. rewrite stats_same in H. exact H.
  - stats_step st H. exact (Hput st H).
Qed.

Lemma reap_ok all held pid s :
  table64_ok all held s ->
  wp (x86_64_process_reap_user pid) (fun r s' => rest_same s s' /\
    if r then exists i p, process_with s pid i p /\ p6_mode p = X86_64_PROCESS_MODE_USER /\
      (p6_state p = X86_64_PROCESS_EXITED \/ p6_state p = X86_64_PROCESS_FAILED) /\
      process64_table s' = <[i := inhabitant]> (process64_table s) /\ table64_ok all (held ∖ list_to_set (process_frames p)) s'
    else table64_ok all held s' /\ process64_table s' = process64_table s /\ pr_pmm s' = pr_pmm s /\
      forall i p, process_with s pid i p -> p6_mode p <> X86_64_PROCESS_MODE_USER \/
        (p6_state p <> X86_64_PROCESS_EXITED /\ p6_state p <> X86_64_PROCESS_FAILED)) s.
Proof.
  intros Hok. pose proof Hok as [Hl Hp Hpr Hap Hpid Hin Hnx]. unfold x86_64_process_reap_user. wp_step.
  assert (Hfail : forall st, same_init s st -> table64_ok all held (with_stats64 s st)).
  { intros st Hst. constructor; try done. rewrite <- Hin. exact Hst. }
  apply find_pid_ok; [done| |].
  2:{ intros Hno. wp_step. stats_step st H. wp_step. split; [done|]. split; [by apply Hfail|]. split; [done|]. split; [done|]. intros i p Hw. by apply Hno in Hw. }
  intros i p Hi (Hp0 & Hu & Epid). wp_step. eapply process_at_ok; [exact Hp0|].
  unfold X86_64_PROCESS_MODE_USER, X86_64_PROCESS_EXITED, X86_64_PROCESS_FAILED.
  destruct (negb (p6_mode p =? 2) || (negb (p6_state p =? 3) && negb (p6_state p =? 4))) eqn:Eg.
  - wp_step. stats_step st H. wp_step. split; [done|]. split; [by apply Hfail|]. split; [done|]. split; [done|].
    intros j q (Hq & Hu' & Epid'). assert (j = Z.to_nat i) as -> by (by apply (Hpid _ _ q p); try congruence).
    assert (q = p) as -> by congruence. rewrite orb_true_iff, andb_true_iff, !negb_true_iff, !Z.eqb_neq in Eg. tauto.
  - rewrite orb_false_iff, andb_false_iff, !negb_false_iff, !Z.eqb_eq in Eg. destruct Eg as [Em Es].
    destruct (Hpr _ _ Hp0) as [K1 K2 K3 K4 K5]. destruct (K5 Hu) as (Hnd & Hheld & _).
    unfold release_process_resources. wp_step. wp_step. unfold process_frames in Hnd. apply NoDup_app in Hnd as (Hnd & Hdis & _).
    eapply (release_space_ok all held p s); [done| |done|].
    { constructor; [|by apply NoDup_filter]. intros q Hq. right. apply Hheld. apply elem_of_app. by left. }
    intros p' q1 Hq1 Hrel. unfold release_kernel_stack. wp_step. rewrite (rs_stack _ _ Hrel).
    eapply (release_page_ok all _ (p6_kernel_stack_page p) []); [exact Hq1| |].
    { constructor; [|apply NoDup_filter; constructor; [apply not_elem_of_nil|constructor]]. intros q Hq. apply list_elem_of_singleton in Hq as ->. right.
      apply elem_of_difference. split; [apply Hheld, elem_of_app; right; by left|]. rewrite elem_of_list_to_set. intros Hin'. apply (Hdis _ Hin'). by left. }
    intros q2 Hq2 _. wp_step. wp_step. apply process_put_ok; [change (Z.to_nat i < length (process64_table s))%nat; by eapply lookup_lt_Some|].
    wp_step. stats_step st1 H1. wp_step. apply refresh_stats_ok; [change (length (<[Z.to_nat i := inhabitant]> (process64_table s)) = 64%nat); by rewrite length_insert|].
    intros st2 H2. wp_step. split; [done|]. exists (Z.to_nat i), p. split; [done|]. split; [done|]. split; [tauto|]. split; [done|].
    assert (Eset : held ∖ list_to_set (space_frames p) ∖ {[p6_kernel_stack_page p]} = held ∖ list_to_set (process_frames p)).
    { unfold process_frames. by rewrite list_to_set_app_L, list_to_set_singleton_L, difference_difference_l_L. }
    rewrite <- Eset. eapply (table_ok_update all held _ s _ (Z.to_nat i) p inhabitant); try done.
    + etransitivity; [exact H2|]. etransitivity; [exact H1|done].
    + intros f Hf Hnf. rewrite Eset. apply elem_of_difference. split; [done|]. by rewrite elem_of_list_to_set.
    + by left.
Qed.

(** ** The round-robin choice of user processes of the 64-bit kernel *)

(** A process the user scheduler may choose. *)
Definition user_ready (p : x86_64_process) : bool :=
  (p6_state p =? X86_64_PROCESS_READY) && (p6_mode p =? X86_64_PROCESS_MODE_USER) && negb (p6_user_entry p =? 0).

Record sched64_ok (s : process64) : Prop := {
  so_table : length (process64_table s) = 64%nat;
  so_cursor : 0 <= user_schedule_cursor s < 64;
  so_init : sm_initialized (process64_state s) = true
}.

(** Slot [i] has a ready user process. *)
Definition ready_slot (s : process64) (i : Z) : Prop :=
  exists p, process64_table s !! Z.to_nat i = Some p /\ user_ready p = true.

(** [d] slots behind the cursor. *)
Definition slot_after (s : process64) (d : Z) : Z := (user_schedule_cursor s + d) mod 64.

Lemma slot_after_range s d : 0 <= slot_after s d < 64.
Proof. apply Z.mod_pos_bound. lia. Qed.

Lemma find_user_ok s (Q : option Z -> process64 -> Prop) :
  sched64_ok s ->
  (forall d p st, 0 <= d < 64 -> process64_table s !! Z.to_nat (slot_after s d) = Some p -> user_ready p = true ->
     (forall e, 0 <= e < d -> ~ ready_slot s (slot_after s e)) -> same_init s st ->
     Q (Some (slot_after s d)) ((with_stats64 s st) <| user_schedule_cursor := (slot_after s d + 1) mod 64 |>)) ->
  (forall st, (forall i p, process64_table s !! i = Some p -> user_ready p = false) -> same_init s st -> Q None (with_stats64 s st)) ->
  wp find_next_ready_user_process Q s.
Proof.
  intros [Hl Hc Hi] HS HN. unfold find_next_ready_user_process, X86_64_PROCESS_MAX_PROCESSES. wp_step.
  apply (wp_for_ret_seqZ _ _ (fun d s' => s' = s /\ forall e, 0 <= e < d -> ~ ready_slot s (slot_after s e))).
  - done.
  - split; [done|]. intros; lia.
  - intros d s' Hd (-> & Hbefore). do 2 wp_step. rewrite (u32_small (_ + d)) by (unfold is_u32; lia). fold (slot_after s d).
    pose proof (slot_after_range s d) as Hr. destruct (lookup_lt_is_Some_2 (process64_table s) (Z.to_nat (slot_after s d))) as [p Hp]; [lia|].
    wp_step. eapply process_at_ok; [exact Hp|]. change ((p6_state p =? _) && _ && _) with (user_ready p). destruct (user_ready p) eqn:Er.
    + rewrite (u32_small (_ + 1)) by (unfold is_u32; lia). do 4 wp_step. wp_step. stats_step st Hst. wp_step. wp_step. by apply (HS d p st).
    + wp_step. split; [done|]. intros e He. destruct (decide (e = d)) as [->|]; [|apply Hbefore; lia]. intros (q & Hq & Hq'). congruence.
  - intros s' (-> & Hbefore). do 3 wp_step. stats_step st Hst. wp_step. apply HN; [|done]. intros i p Hp. apply not_true_iff_false. intros Hr.
    pose proof (lookup_lt_Some _ _ _ Hp) as Hlt. apply (Hbefore ((Z.of_nat i - user_schedule_cursor s) mod 64)); [apply Z.mod_pos_bound; lia|].
    exists p. split; [|done]. unfold slot_after. rewrite Zplus_mod_idemp_r. replace (user_schedule_cursor s + (Z.of_nat i - user_schedule_cursor s)) with (Z.of_nat i) by lia.
    rewrite Z.mod_small by lia. by rewrite Nat2Z.id.
Qed.

(** The choice: the first ready process at or behind the cursor, which then moves
    past it. *)
Lemma prepare_ok s (Q : bool * x86_64_user_schedule_state -> process64 -> Prop) :
  sched64_ok s ->
  (forall d p st, 0 <= d < 64 -> process64_table s !! Z.to_nat (slot_after s d) = Some p -> user_ready p = true ->
     (forall e, 0 <= e < d -> ~ ready_slot s (slot_after s e)) -> same_init s st ->
     Q (us_scheduler_ok (schedule_of p), schedule_of p) ((with_stats64 s st) <| user_schedule_cursor := (slot_after s d + 1) mod 64 |>)) ->
  (forall st, (forall i p, process64_table s !! i = Some p -> user_ready p = false) -> same_init s st ->
     Q (false, x86_64_user_schedule_state_zero <| us_initialized := true |>) (with_stats64 s st)) ->
  wp x86_64_process_prepare_next_user Q s.
Proof.
  intros Hok HS HN. unfold x86_64_process_prepare_next_user. do 2 wp_step. rewrite (so_init s Hok). cbn [negb]. wp_step. apply find_user_ok; [done| |].
  - intros d p st Hd Hp Hr Hbefore Hst. wp_step. eapply process_at_ok; [exact Hp|]. wp_step. stats_step st' Hst'. wp_step.
    refine (HS d p st' Hd Hp Hr Hbefore _). etransitivity; [exact Hst'|exact Hst].
  - intros st Hno Hst. wp_step. by apply HN.
Qed.

(** [n] calls, one after the other; the numbers of the chosen processes. *)
Definition prepare_times (n : Z) : PR (list Z) :=
  mfold (seqZ 0 n) (fun pids _ => r <- x86_64_process_prepare_next_user ;; mret_ (pids ++ [us_selected_pid (snd r)])) [].

(** How far slot [j] is from the cursor. *)
Definition slot_distance (s : process64) (j : Z) : Z := (j - user_schedule_cursor s) mod 64.

Lemma distance_after s d j :
  0 <= user_schedule_cursor s < 64 -> 0 <= j < 64 -> 0 <= d < slot_distance s j ->
  (j - (slot_after s d + 1) mod 64) mod 64 = slot_distance s j - d - 1.
Proof. unfold slot_distance, slot_after. intros Hc Hj Hd. Z.div_mod_to_equations. lia. Qed.

Lemma slot_at_distance s j : 0 <= user_schedule_cursor s < 64 -> 0 <= j < 64 -> slot_after s (slot_distance s j) = j.
Proof. unfold slot_distance, slot_after. intros Hc Hj. Z.div_mod_to_equations. lia. Qed.

(** One call chooses [j] or comes closer to it. *)
Lemma prepare_closer s j p :
  sched64_ok s -> 0 <= j < 64 -> process64_table s !! Z.to_nat j = Some p -> user_ready p = true ->
  wp x86_64_process_prepare_next_user (fun r s' => sched64_ok s' /\ process64_table s' = process64_table s /\
    (us_selected_pid (snd r) = p6_pid p \/ slot_distance s' j < slot_distance s j)) s.
Proof.
  intros Hok Hj Hp Hr. pose proof Hok as [Hl Hc Hi]. apply prepare_ok; [done| |].
  - intros d q st Hd Hq Hrq Hbefore Hst. split; [|split; [done|]].
    { constructor; [done| |by rewrite <- Hi]. get_set. apply Z.mod_pos_bound. lia. }
    pose proof (Z.mod_pos_bound (j - user_schedule_cursor s) 64 ltac:(lia)) as Hdj. fold (slot_distance s j) in Hdj.
    destruct (decide (slot_distance s j < d)) as [Hlt|Hge].
    { exfalso. apply (Hbefore (slot_distance s j)); [lia|]. rewrite slot_at_distance by done. by exists p. }
    destruct (decide (d = slot_distance s j)) as [->|Hne].
    + left. rewrite slot_at_distance in Hq by done. assert (q = p) as -> by congruence. done.
    + right. unfold slot_distance at 1. get_set. rewrite distance_after by lia. lia.
  - intros st Hno _. apply Hno in Hp. congruence.
Qed.

Lemma prepare_fair s j p n :
  sched64_ok s -> 0 <= j < 64 -> process64_table s !! Z.to_nat j = Some p -> user_ready p = true -> slot_distance s j < n ->
  wp (prepare_times n) (fun pids s' => p6_pid p ∈ pids /\ process64_table s' = process64_table s) s.
Proof.
  intros Hok Hj Hp Hr Hn. pose proof (Z.mod_pos_bound (j - user_schedule_cursor s) 64 ltac:(lia)) as Hdj. fold (slot_distance s j) in Hdj.
  unfold prepare_times. apply (wp_fold _ _ (fun l pids s' => sched64_ok s' /\ process64_table s' = process64_table s /\
    (p6_pid p ∈ pids \/ slot_distance s' j <= slot_distance s j - Z.of_nat (length l)))).
  - split; [done|]. split; [done|]. right. cbn. lia.
  - intros l x r pids s' _ (Hok' & Et & Hor). wp_step. eapply wp_mono; [apply (prepare_closer s' j p); try done; by rewrite Et|].
    intros res s2 (Hok2 & Et2 & Hor2). wp_step. split; [done|]. split; [congruence|]. rewrite elem_of_app, length_app, Nat2Z.inj_add. cbn [length].
    destruct Hor as [Hin|Hle]; [by left; left|]. destruct Hor2 as [<-|Hlt]; [left; right; by left|]. right. lia.
  - intros pids s' (_ & Et & [Hin|Hle]); [done|]. rewrite length_seqZ in Hle.
    pose proof (Z.mod_pos_bound (j - user_schedule_cursor s') 64 ltac:(lia)) as Hd'. fold (slot_distance s' j) in Hd'. lia.
Qed.
