(* ===== verification/Process64Run.v ===== *)
(** * Runs of the process operations of the 64-bit kernel *)
From S2P Require Import Prelude Word64 Mem KString Pmm64 Pmm64Proofs Text64 Process64 Process64Queue Process64Tables.
From S2P Require Import Process64Alloc Process64Create Process64Reap.

(** ** Kernel processes *)

Lemma create64_ok all held k s name entry arg :
  table64_ok all held s -> kernel64_ready all k s -> next_pid64 s < 4294967295 -> entry <> 0 ->
  let free := free_frames (pr_pmm s) in
  wp (x86_64_process_create name entry arg) (fun r s' =>
    (r = next_pid64 s /\ (12 <= length free)%nat /\
     exists i p0 p, process64_table s !! i = Some p0 /\ p6_state p0 = 0 /\ process64_table s' = <[i := p]> (process64_table s) /\
       process_frames p = take 12 (rev free) /\ p6_state p = X86_64_PROCESS_READY /\ p6_mode p = X86_64_PROCESS_MODE_KERNEL /\
       p6_pid p = next_pid64 s /\ p6_entry p = entry /\ p6_arg p = arg /\ next_pid64 s' = next_pid64 s + 1 /\
       same_outside (process_frames p) (pr_mem s) (pr_mem s') /\ process_paging_context s' = process_paging_context s /\
       child_status_queue s' = child_status_queue s /\ child_status_count s' = child_status_count s /\
       table64_ok all (list_to_set (process_frames p) ∪ held) s') \/
    (r = 0 /\ (~ slot_free s \/ (length free < 12)%nat) /\ table64_ok all held s' /\ same_used s s' /\
     same_outside free (pr_mem s) (pr_mem s'))) s.
Proof.
  intros table ready Hpids Hentry free. pose proof table as [Hl Hp Hpr Hap Hpid Hin Hnx]. unfold x86_64_process_create. do 2 wp_step. rewrite Hin.
  rewrite (proj2 (Z.eqb_neq entry 0) Hentry). cbn [negb orb].
  wp_step. apply (acquire_ok all held k s); [done|done| |].
  2:{ intros s' Hok Hsame Hout Hwhy. wp_step. right. split; [done|]. split; [|done]. destruct Hwhy as [Hwhy|Hwhy]; [left|by right].
      intros (i & p & Hi & E). by apply (Hwhy i p). }
  intros i p0 p q m Hi Hp0 H0 H12 Hq Haq. destruct (Hpr _ _ Hp0) as [_ Kname Kpath _ _]. destruct (aq_name _ _ _ _ _ _ Haq) as [En Ep].
  wp_step. unfold take_next_pid. do 4 wp_step.
  match goal with |- wp _ _ ?t => set (s1 := t) end.
  assert (S1 : pr_mem s1 = m) by reflexivity. assert (S2 : process_paging_context s1 = process_paging_context s) by reflexivity.
  assert (S3 : process64_table s1 = process64_table s) by reflexivity. assert (S4 : pr_pmm s1 = q) by reflexivity.
  assert (S5 : next_pid64 s1 = next_pid64 s + 1) by (change (incr (next_pid64 s) = next_pid64 s + 1); apply incr_small; lia).
  assert (S6 : process64_state s1 = process64_state s) by reflexivity.
  assert (S7 : child_status_queue s1 = child_status_queue s /\ child_status_count s1 = child_status_count s) by (split; reflexivity).
  change (next_pid64 _) with (next_pid64 s) at 1. set (pid := next_pid64 s) in *. clearbody s1.
  do 2 wp_step. apply copy_limited_length; [by rewrite En, Kname|done|]. intros name' Hname.
  wp_step. apply copy_limited_length; [by rewrite Ep, Kpath|done|]. intros path' Hpath. cbv zeta.
  match goal with |- wp (process_put i ?x ;;; _) _ _ => set (p2 := x) end.
  assert (Hlt : (Z.to_nat i < length (process64_table s))%nat) by lia.
  wp_step. apply process_put_ok; [by rewrite S3|]. wp_step. apply record_created_ok. intros st1 Hst1. wp_step. stats_step st2 Hst2. wp_step.
  assert (Hini : sm_initialized st2 = true) by (etransitivity; [exact Hst2|]; etransitivity; [exact Hst1|]; get_set; by rewrite S6).
  assert (Et : <[Z.to_nat i := p2]> (process64_table s1) = <[Z.to_nat i := p2]> (process64_table s)) by (by rewrite S3).
  assert (Efr : process_frames p2 = take 12 (rev free)) by exact (aq_frames _ _ _ _ _ _ Haq).
  left. split; [done|]. split; [done|]. exists (Z.to_nat i), p0, p2. repeat (split; [done|]). split.
  { change (same_outside (process_frames p2) (pr_mem s) (pr_mem s1)). rewrite S1, Efr. exact (aq_outside _ _ _ _ _ _ Haq). }
  split; [done|]. split; [apply S7|]. split; [apply S7|].
  apply (table_ok_insert all held free s _ (Z.to_nat i) p0 p2); try done.
  - exact (so_pages p (aq_space _ _ _ _ _ _ Haq)).
  - change (length name' = 24%nat). by rewrite Hname, En.
  - change (length path' = 64%nat). by rewrite Hpath, Ep.
  - change (taken all held free 12 (pr_pmm s1)). by rewrite S4.
Qed.

(** ** The invariant of runs: every held frame has one owner *)

(** Process [p] of the table owns [f]. *)
Definition owns (s : process64) (i : nat) (f : Z) : Prop :=
  exists p, process64_table s !! i = Some p /\ p6_state p <> 0 /\ f ∈ process_frames p.

(** [base] are the frames held by others, among them the kernel's own tables; a process can
    only get the rest. *)
Definition lendable (all : list Z) (base : gset Z) : list Z := filter (fun q => q ∉ base) all.

Record process64_inv (all : list Z) (base : gset Z) (k : kernel_tables) (s : process64) : Prop := {
  pv_table : exists held, table64_ok all held s /\ (forall f, f ∈ held <-> f ∈ base \/ exists i, owns s i f);
  pv_base : forall i f, owns s i f -> f ∉ base;
  pv_bound : forall q, q ∈ all -> q < 35184372088832;
  pv_source : source_ok k (process_paging_context s) (pr_mem s);
  pv_apart : source_apart (process_paging_context s) (lendable all base);
  pv_code : forall f, f ∈ lendable all base -> f + 7 <> k2 k 2
}.

Lemma free_sub all held p q : pmm64_inv all held p -> q ∈ free_frames p -> q ∈ all.
Proof. intros Hi Hq. rewrite <- (pi_split _ _ _ Hi). apply elem_of_app. by left. Qed.

Lemma free_lendable all base held p q :
  pmm64_inv all held p -> (forall f, f ∈ base -> f ∈ held) -> q ∈ free_frames p -> q ∈ lendable all base.
Proof.
  intros Hi Hb Hq. apply list_elem_of_filter. split; [|by eapply free_sub]. intros Hqb. by apply (free_not_held _ _ _ q Hi); [|apply Hb].
Qed.

Lemma inv_ready all base k s : process64_inv all base k s -> kernel64_ready all k s.
Proof.
  intros [(held & Ht & Hh) _ Hb Hs Ha Hc].
  assert (Hl : forall q, q ∈ free_frames (pr_pmm s) -> q ∈ lendable all base).
  { intros q Hq. eapply free_lendable; [exact (to_pmm _ _ _ Ht)| |exact Hq]. intros f Hf. apply Hh. by left. }
  constructor; [done|done|by eapply source_apart_sub|]. intros f Hf. by apply Hc, Hl.
Qed.

Section Inv.
Context (all : list Z) (base : gset Z) (k : kernel_tables) (s s' : process64).
Hypothesis inv : process64_inv all base k s.
Hypothesis context : process_paging_context s' = process_paging_context s.

Lemma all_frames : Forall frame_ok all.
Proof using inv.
  destruct inv as [(held & Ht & _) _ Hb _ _ _]. apply Forall_forall. intros q Hq. pose proof (pi_frames _ _ _ (to_pmm _ _ _ Ht)) as Hf.
  rewrite Forall_forall in Hf. destruct (Hf q Hq) as (H1 & H2 & _). split; [|done]. split; [done|]. by apply Hb.
Qed.

Lemma lendable_frames : Forall frame_ok (lendable all base).
Proof using inv.
  pose proof all_frames as Hf. rewrite !Forall_forall in *. intros q [_ Hq]%list_elem_of_filter. by apply Hf.
Qed.

(** The parts that only depend on memory outside of the frames. *)
Lemma inv_memory :
  same_outside (lendable all base) (pr_mem s) (pr_mem s') ->
  (exists held, table64_ok all held s' /\ (forall f, f ∈ held <-> f ∈ base \/ exists i, owns s' i f)) ->
  (forall i f, owns s' i f -> f ∉ base) -> process64_inv all base k s'.
Proof using inv context.
  intros Ho Ht Hb. destruct inv as [_ _ H3 H4 H5 H6]. constructor; try done; rewrite ?context; try done.
  eapply source_ok_outside; [exact H4|exact Ho|apply lendable_frames|done].
Qed.

(** The same processes in use. *)
Lemma inv_same held :
  table64_ok all held s -> (forall f, f ∈ held <-> f ∈ base \/ exists i, owns s i f) -> table64_ok all held s' -> same_used s s' ->
  same_outside (lendable all base) (pr_mem s) (pr_mem s') -> process64_inv all base k s'.
Proof using inv context.
  intros Ht Hh Ht' (_ & _ & Hused) Ho.
  assert (Hown : forall i f, owns s' i f <-> owns s i f).
  { intros i f. unfold owns. split; intros (p & Hi & Hu & Hf); exists p; (split; [by apply Hused|done]). }
  apply inv_memory; [done| |].
  - exists held. split; [done|]. intros f. rewrite Hh. split; (intros [?|[i Hi]]; [by left|right; exists i; by apply Hown]).
  - intros i f Hf. apply Hown in Hf. by eapply pv_base.
Qed.

(** A process more. *)
Lemma inv_insert held i p0 p :
  table64_ok all held s -> (forall f, f ∈ held <-> f ∈ base \/ exists i, owns s i f) ->
  process64_table s !! i = Some p0 -> p6_state p0 = 0 -> process64_table s' = <[i := p]> (process64_table s) -> p6_state p <> 0 ->
  (forall f, f ∈ process_frames p -> f ∈ free_frames (pr_pmm s)) -> table64_ok all (list_to_set (process_frames p) ∪ held) s' ->
  same_outside (process_frames p) (pr_mem s) (pr_mem s') -> process64_inv all base k s'.
Proof using inv context.
  intros Ht Hh Hi H0 Et Hu Hfree Ht' Ho.
  assert (Hlt : (i < length (process64_table s))%nat) by (by eapply lookup_lt_Some).
  assert (Hown : forall j f, owns s' j f <-> (j = i /\ f ∈ process_frames p) \/ owns s j f).
  { intros j f. unfold owns. rewrite Et. destruct (decide (j = i)) as [->|Hne].
    - rewrite list_lookup_insert_eq by done. split; [intros (q & [= <-] & _ & Hf); by left|].
      intros [[_ Hf]|(q & Hq & Hq' & _)]; [by exists p|]. congruence.
    - rewrite list_lookup_insert_ne by done. split; [by right|]. by intros [[? _]|?]. }
  apply inv_memory.
  - eapply same_outside_mono; [|exact Ho]. intros f Hf. eapply free_lendable; [exact (to_pmm _ _ _ Ht)| |by apply Hfree]. intros q Hq. apply Hh. by left.
  - exists (list_to_set (process_frames p) ∪ held). split; [done|]. intros f. rewrite elem_of_union, elem_of_list_to_set, Hh. split.
    + intros [Hf|[Hf|[j Hj]]]; [right; exists i; apply Hown; by left|by left|right; exists j; apply Hown; by right].
    + intros [Hf|[j Hj]]; [by right; left|]. apply Hown in Hj as [[_ Hf]|Hj]; [by left|]. right. right. by exists j.
  - intros j f Hj. apply Hown in Hj as [[_ Hf]|Hj]; [|by eapply pv_base]. intros Hb. apply (free_not_held _ _ _ f (to_pmm _ _ _ Ht)); [by apply Hfree|].
    apply Hh. by left.
Qed.

(** A process less. *)
Lemma inv_delete held i p :
  table64_ok all held s -> (forall f, f ∈ held <-> f ∈ base \/ exists i, owns s i f) ->
  process64_table s !! i = Some p -> p6_state p <> 0 -> process64_table s' = <[i := inhabitant]> (process64_table s) ->
  table64_ok all (held ∖ list_to_set (process_frames p)) s' -> pr_mem s' = pr_mem s -> process64_inv all base k s'.
Proof using inv context.
  intros Ht Hh Hi Hu Et Ht' Em.
  assert (Hlt : (i < length (process64_table s))%nat) by (by eapply lookup_lt_Some).
  assert (Hown : forall j f, owns s' j f <-> j <> i /\ owns s j f).
  { intros j f. unfold owns. rewrite Et. destruct (decide (j = i)) as [->|Hne].
    - rewrite list_lookup_insert_eq by done. split; [|tauto]. intros (q & Hq & Hq' & _). injection Hq as <-. done.
    - rewrite list_lookup_insert_ne by done. tauto. }
  apply inv_memory.
  - rewrite Em. apply same_outside_refl.
  - eexists. split; [exact Ht'|]. intros f. rewrite elem_of_difference, elem_of_list_to_set, Hh. split.
    + intros [[Hf|[j Hj]] Hn]; [by left|]. right. exists j. apply Hown. split; [|done]. intros ->. destruct Hj as (q & Hq & _ & Hf).
      apply Hn. congruence.
    + intros [Hf|[j Hj]].
      * split; [by left|]. intros Hf'. apply (pv_base _ _ _ _ inv i f); [by exists p|done].
      * apply Hown in Hj as [Hne Hj]. split; [right; by exists j|]. destruct Hj as (q & Hq & Hq' & Hf). intros Hf'.
        by apply (to_apart _ _ _ Ht i j p q f).
  - intros j f Hj. apply Hown in Hj as [_ Hj]. by eapply pv_base.
Qed.

(** A process whose frames stay. *)
Lemma inv_keep held i p p' :
  table64_ok all held s -> (forall f, f ∈ held <-> f ∈ base \/ exists i, owns s i f) ->
  process64_table s !! i = Some p -> p6_state p <> 0 -> process64_table s' = <[i := p']> (process64_table s) ->
  p6_state p' <> 0 -> process_frames p' = process_frames p -> table64_ok all held s' -> pr_mem s' = pr_mem s -> process64_inv all base k s'.
Proof using inv context.
  intros Ht Hh Hi Hu Et Hu' Efr Ht' Em.
  assert (Hlt : (i < length (process64_table s))%nat) by (by eapply lookup_lt_Some).
  assert (Hown : forall j f, owns s' j f <-> owns s j f).
  { intros j f. unfold owns. rewrite Et. destruct (decide (j = i)) as [->|Hne]; [|by rewrite list_lookup_insert_ne by done].
    rewrite list_lookup_insert_eq by done. split; intros (q & Hq & Hqu & Hf); [exists p|exists p'].
    - injection Hq as <-. by rewrite <- Efr.
    - assert (q = p) as -> by congruence. by rewrite Efr. }
  apply inv_memory.
  - rewrite Em. apply same_outside_refl.
  - exists held. split; [done|]. intros f. rewrite Hh. split; (intros [?|[j Hj]]; [by left|right; exists j; by apply Hown]).
  - intros j f Hf. apply Hown in Hf. by eapply pv_base.
Qed.
End Inv.

(** ** Reaping all *)

Definition reapable (p : x86_64_process) : bool :=
  (p6_mode p =? X86_64_PROCESS_MODE_USER) && ((p6_state p =? X86_64_PROCESS_EXITED) || (p6_state p =? X86_64_PROCESS_FAILED)).

(** The table after reaping. *)
Definition reaped (p : x86_64_process) : x86_64_process := if reapable p then inhabitant else p.

Lemma reapable_spec p : reapable p = true <->
  p6_mode p = X86_64_PROCESS_MODE_USER /\ (p6_state p = X86_64_PROCESS_EXITED \/ p6_state p = X86_64_PROCESS_FAILED).
Proof. unfold reapable. rewrite andb_true_iff, orb_true_iff, !Z.eqb_eq. done. Qed.

Lemma reap_step_inv all base k pid s :
  process64_inv all base k s ->
  wp (x86_64_process_reap_user pid) (fun r s' => process64_inv all base k s' /\ rest_same s s' /\
    if r then exists i p, process_with s pid i p /\ reapable p = true /\ process64_table s' = <[i := inhabitant]> (process64_table s)
    else process64_table s' = process64_table s /\ forall i p, process_with s pid i p -> reapable p = false) s.
Proof.
  intros Hinv. pose proof (pv_table _ _ _ _ Hinv) as (held & Ht & Hh). eapply wp_mono; [by apply (reap_ok all held)|].
  intros r s' [Hrest Hr]. pose proof Hrest as (Em & En & Ec & _). destruct r.
  - destruct Hr as (i & p & (Hp & Hu & Epid) & Hm & Hs & Et & Ht'). split; [by eapply inv_delete|]. split; [done|]. exists i, p.
    split; [done|]. split; [by apply reapable_spec|done].
  - destruct Hr as (Ht' & Et & Ep & Hno). split; [|split; [done|split; [done|]]].
    + eapply (inv_same all base k s s' Hinv Ec held); try done; [|by rewrite Em]. split; [done|]. split; [done|]. intros i p _. by rewrite Et.
    + intros i p Hw. apply not_true_iff_false. rewrite reapable_spec. specialize (Hno i p Hw). tauto.
Qed.

Lemma rest_same_trans s1 s2 s3 : rest_same s1 s2 -> rest_same s2 s3 -> rest_same s1 s3.
Proof. unfold rest_same. intros (-> & -> & -> & -> & ->) (-> & -> & -> & -> & ->). done. Qed.

(** The first [n] slots reaped. *)
Definition reaped_to (n : nat) (t : list x86_64_process) : list x86_64_process := (reaped <$> take n t) ++ drop n t.

Lemma reaped_to_next n t p :
  t !! n = Some p -> reaped_to n t !! n = Some p /\ reaped_to (S n) t = <[n := reaped p]> (reaped_to n t).
Proof.
  intros Hp. assert (Hn : (n < length t)%nat) by (by eapply lookup_lt_Some). unfold reaped_to. rewrite (drop_S _ _ _ Hp).
  assert (Hl : length (reaped <$> take n t) = n) by (rewrite length_fmap, length_take; lia). split.
  - rewrite lookup_app_r by lia. by rewrite Hl, Nat.sub_diag.
  - rewrite (take_S_r _ _ _ Hp), fmap_app, <- app_assoc. cbn [fmap list_fmap app]. rewrite <- Hl at 3. rewrite <- (Nat.add_0_r (length _)).
    by rewrite insert_app_r.
Qed.

Lemma reap_all_ok all base k s :
  process64_inv all base k s ->
  wp x86_64_process_reap_exited_user_processes (fun n s' =>
    process64_inv all base k s' /\ rest_same s s' /\ process64_table s' = reaped <$> process64_table s /\
    n = Z.of_nat (length (List.filter reapable (process64_table s)))) s.
Proof.
  intros Hinv. pose proof (pv_table _ _ _ _ Hinv) as (held0 & Ht0 & _). pose proof (to_length _ _ _ Ht0) as Hl. unfold x86_64_process_reap_exited_user_processes.
  apply (wp_fold _ _ (fun l n s' => process64_inv all base k s' /\ rest_same s s' /\ process64_table s' = reaped_to (length l) (process64_table s) /\
    n = Z.of_nat (length (List.filter reapable (take (length l) (process64_table s)))))).
  - split; [done|]. split; [done|]. split; [done|]. by rewrite take_0.
  - intros l x r n s' E (Hinv' & Hrest & Et & En). apply seqZ_split in E as [-> Hx]. unfold X86_64_PROCESS_MAX_PROCESSES in Hx.
    destruct (lookup_lt_is_Some_2 (process64_table s) (length l)) as [p Hp]; [lia|]. destruct (reaped_to_next _ _ _ Hp) as [Hp' Hnext].
    wp_step. eapply process_at_ok; [rewrite Nat2Z.id, Et; exact Hp'|]. rewrite length_app, Nat.add_1_r, (take_S_r _ _ _ Hp), List.filter_app, length_app, Nat2Z.inj_add.
    cbn [List.filter]. rewrite Hnext. unfold reaped. change ((p6_mode p =? _) && _) with (reapable p).
    destruct (reapable p) eqn:Er.
    2:{ wp_step. split; [done|]. split; [done|]. split; [|cbn; lia]. rewrite Et. symmetry. by apply list_insert_id. }
    wp_step. eapply wp_mono; [by eapply reap_step_inv|]. intros ok s2 (Hinv2 & Hrest2 & Hok). pose proof (proj1 (reapable_spec p) Er) as [_ Hst].
    assert (Hw : process_with s' (p6_pid p) (length l) p).
    { split; [by rewrite Et|]. split; [|done]. unfold X86_64_PROCESS_EXITED, X86_64_PROCESS_FAILED in Hst. lia. }
    destruct ok; [|destruct Hok as [_ Hok]; apply Hok in Hw; congruence]. destruct Hok as (j & q & Hw' & _ & Et2). wp_step.
    assert (j = length l) as ->.
    { destruct (pv_table _ _ _ _ Hinv') as (held & Ht & _). destruct Hw as (? & ? & ?), Hw' as (? & ? & ?). by apply (to_pids _ _ _ Ht j (length l) q p). }
    split; [done|]. split; [by eapply rest_same_trans|]. split; [by rewrite Et2, Et|].
    assert (Hb : Z.of_nat (length (List.filter reapable (take (length l) (process64_table s)))) <= 64).
    { pose proof (List.filter_length_le reapable (take (length l) (process64_table s))) as Hle. rewrite length_take in Hle. lia. }
    rewrite En, u32_small by (unfold is_u32; lia). cbn. lia.
  - intros n s' (Hinv' & Hrest & Et & En). rewrite length_seqZ in Et, En. change (Z.to_nat X86_64_PROCESS_MAX_PROCESSES) with 64%nat in Et, En.
    unfold reaped_to in Et. rewrite take_ge in Et, En by lia. rewrite drop_ge, app_nil_r in Et by lia. done.
Qed.

(** ** Sequences of operations *)

Inductive process_op :=
  | OpCreateUser (path : option (list Z)) (img n entry count bitmap : Z)
  | OpCreate (name : option (list Z)) (entry arg : Z)
  | OpExit (pid code : Z)
  | OpReap (pid : Z)
  | OpReapAll.

Definition run_process_op (o : process_op) : PR unit :=
  match o with
  | OpCreateUser path img n entry count bitmap => x86_64_process_create_user_image path img n entry count bitmap ;;; mret_ tt
  | OpCreate name entry arg => x86_64_process_create name entry arg ;;; mret_ tt
  | OpExit pid code => x86_64_process_mark_user_exited pid code ;;; mret_ tt
  | OpReap pid => x86_64_process_reap_user pid ;;; mret_ tt
  | OpReapAll => x86_64_process_reap_exited_user_processes ;;; mret_ tt
  end.

(** Arguments in the range of their types; an image does not lie in frames the
    allocator hands out. *)
Definition process_op_ok (all : list Z) (o : process_op) : Prop :=
  match o with
  | OpCreateUser _ img n entry count _ => image_apart img n all /\ 0 <= n /\ 0 <= entry /\ 0 <= count
  | _ => True
  end.

Section Step.
Context (all : list Z) (base : gset Z) (k : kernel_tables) (s : process64).
Hypothesis inv : process64_inv all base k s.
Hypothesis pids : next_pid64 s < 4294967295.

Let kept (s' : process64) : Prop := process64_inv all base k s' /\ next_pid64 s <= next_pid64 s' <= next_pid64 s + 1.

Lemma kept_refl : kept s.
Proof using inv. split; [done|lia]. Qed.

Lemma kept_failed held s' :
  table64_ok all held s -> (forall f, f ∈ held <-> f ∈ base \/ exists i, owns s i f) -> table64_ok all held s' -> same_used s s' ->
  same_outside (free_frames (pr_pmm s)) (pr_mem s) (pr_mem s') -> kept s'.
Proof using inv.
  intros Ht Hh Ht' Hsame Ho. pose proof Hsame as (En & Ec & _). split; [|lia]. eapply (inv_same all base k s s' inv Ec held); try done.
  eapply same_outside_mono; [|exact Ho]. intros q Hq. eapply free_lendable; [exact (to_pmm _ _ _ Ht)| |exact Hq]. intros f Hf. apply Hh. by left.
Qed.

Lemma take_free (p : x86_64_process) : process_frames p = take 12 (rev (free_frames (pr_pmm s))) ->
  forall f, f ∈ process_frames p -> f ∈ free_frames (pr_pmm s).
Proof using. intros -> f. apply elem_of_take_rev. Qed.

Lemma create_image_inv path img n entry count bitmap :
  image_args (free_frames (pr_pmm s)) img n entry count ->
  wp (x86_64_process_create_user_image path img n entry count bitmap) (fun r s' => kept s' /\
    let free := free_frames (pr_pmm s) in
    (r = next_pid64 s /\ slot_free s /\ (12 <= length free)%nat /\ exists i p, image_created k s s' img n entry count bitmap i p) \/
    (r = 0 /\ (~ slot_free s \/ (length free < 12)%nat) /\ same_used s s' /\ same_outside free (pr_mem s) (pr_mem s'))) s.
Proof using inv pids.
  intros Hargs. pose proof (pv_table _ _ _ _ inv) as (held & Ht & Hh).
  eapply wp_mono; [by eapply (create_image_ok all held k s); [|eapply inv_ready| |]|].
  intros r s' [(Er & Hsl & H12 & i & p & Hic & Ht')|(Er & Hwhy & Ht' & Hsame & Ho)].
  2:{ split; [by eapply kept_failed|]. by right. }
  split; [|left; split; [done|]; split; [done|]; split; [done|]; by exists i, p].
  destruct Hic as [(p0 & Hp0 & H0) Et Efr _ (_ & Est & _) _ En Ec _ _ _ _ _ _ Ho]. split; [|lia].
  eapply (inv_insert all base k s s' inv Ec held i p0 p); try done; [by rewrite Est|by apply take_free].
Qed.

Lemma create_image_step path img n entry count bitmap :
  process_op_ok all (OpCreateUser path img n entry count bitmap) ->
  wp (x86_64_process_create_user_image path img n entry count bitmap) (fun _ => kept) s.
Proof using inv pids.
  intros (Ha & Hn0 & He0 & Hc0). pose proof (pv_table _ _ _ _ inv) as (held & Ht & Hh).
  destruct (decide (0 < n <= 16384 /\ 0 < count <= 4 /\ 0x400000 <= entry < 0x400000 + 4096 * count)) as [(Hn & Hc & He)|Hno].
  - eapply wp_mono; [apply create_image_inv|by intros r s' [H _]]. constructor; try done. eapply image_apart_sub; [exact Ha|].
    intros q. exact (free_sub _ _ _ q (to_pmm _ _ _ Ht)).
  - unfold x86_64_process_create_user_image. do 2 wp_step. rewrite (to_initialized _ _ _ Ht).
    unfold X86_64_USER_IMAGE_MAX_BYTES, X86_64_USER_IMAGE_MAX_PAGES, X86_64_USER_CODE_BASE, X86_64_USER_PAGE_BYTES.
    match goal with |- wp (if ?b then _ else _) _ _ => replace b with true; [wp_step; apply kept_refl|] end.
    destruct Ha as (Himg & _). rewrite (proj2 (Z.eqb_neq img 0)) by lia. cbn [negb orb]. symmetry.
    destruct (Z.eqb_spec n 0); [done|]. destruct (Z.ltb_spec 16384 n); [done|]. destruct (Z.eqb_spec count 0); [done|].
    destruct (Z.ltb_spec 4 count); [done|]. destruct (Z.ltb_spec entry 0x400000); [done|]. cbn [orb]. apply Z.leb_le.
    rewrite !u64_small; unfold is_u64; lia || (rewrite u64_small; unfold is_u64; lia).
Qed.

Lemma create_step name entry arg : wp (x86_64_process_create name entry arg) (fun _ => kept) s.
Proof using inv pids.
  pose proof (pv_table _ _ _ _ inv) as (held & Ht & Hh). destruct (decide (entry = 0)) as [->|He].
  - unfold x86_64_process_create. do 2 wp_step. rewrite orb_true_r. wp_step. apply kept_refl.
  - eapply wp_mono; [by apply (create64_ok all held k s); [|eapply inv_ready| |]|].
    intros r s' [(_ & _ & i & p0 & p & Hp0 & H0 & Et & Efr & Est & _ & _ & _ & _ & En & Ho & Ec & _ & _ & Ht')|(_ & _ & Ht' & Hsame & Ho)]; [|by eapply kept_failed].
    split; [|lia]. eapply (inv_insert all base k s s' inv Ec held i p0 p); try done; [by rewrite Est|by apply take_free].
Qed.

Lemma process64_step o : process_op_ok all o -> wp (run_process_op o) (fun _ => kept) s.
Proof using inv pids.
  intros Ho. destruct o as [path img n entry count bitmap|name entry arg|pid code|pid|]; cbn [run_process_op]; wp_step.
  - eapply wp_mono; [by apply create_image_step|]. intros r s' Hs'. by wp_step.
  - eapply wp_mono; [by apply create_step|]. intros r s' Hs'. by wp_step.
  - pose proof (pv_table _ _ _ _ inv) as (held & Ht & Hh). eapply wp_mono; [by apply (mark_exited_ok all held)|].
    intros r s' (Ht' & (Em & En & Ec & _) & Ep & Hr). wp_step. split; [|lia]. destruct r; [|by destruct Hr as [-> _]].
    destruct Hr as (i & p & (Hp & Hu & _) & _ & Et). by eapply (inv_keep all base k s s' inv Ec held i p (exited p code)).
  - eapply wp_mono; [by eapply reap_step_inv|]. intros r s' (Hinv & (_ & En & _) & _). wp_step. split; [done|lia].
  - eapply wp_mono; [by eapply reap_all_ok|]. intros r s' (Hinv & (_ & En & _) & _). wp_step. split; [done|lia].
Qed.
End Step.

Lemma process_ops_ok all base k ops s :
  process64_inv all base k s -> next_pid64 s + Z.of_nat (length ops) <= 4294967295 -> Forall (process_op_ok all) ops ->
  wp (mfor ops run_process_op) (fun _ s' => process64_inv all base k s') s.
Proof.
  revert s. induction ops as [|o ops IH]; intros s Hinv Hn Hops; cbn [mfor]; [by apply wp_ret|]. apply Forall_cons in Hops as [Ho Hops].
  cbn [length] in Hn. wp_step. eapply wp_mono; [apply (process64_step all base k s); [done|lia|done]|]. intros [] s' [Hinv' Hn']. apply IH; [done|lia|done].
Qed.
