(* ===== verification/Process64Theorems.v ===== *)
(** * Processes of the 64-bit kernel: theorems *)
From S2P Require Import Prelude Word64 Mem KString Pmm64 Pmm64Proofs Text64 Process64 Process64Queue Process64Tables.
From S2P Require Import Process64Alloc Process64Create Process64Reap Process64Run.

(** ** A concrete kernel: thirteen free frames and its own page tables *)

Definition process64_map : list x86_64_memory_region := [ {| mr_base := 0x200000; mr_length := 0xd000; mr_type := 1 |} ].
Definition process64_frames : list Z := (fun i => 0x200000 + 4096 * i) <$> seqZ 0 13.
Definition process64_pmm : pmm64 :=
  final (x86_64_pmm_init 1 process64_map 0x105432)
    {| page_stack := replicate (Z.to_nat 65536) 0; pmm64_state := Build_x86_64_pmm_state false 0 0 0 0 0 0 |}.

(** The tables are at 0x110000, 0x111000 and 0x112000; an image is at 0x180000, a path
    at 0x400100. *)
Definition process64_mem : mem :=
  store64 0x110000 0x111003 (store64 0x110800 0x111003 (store64 0x110ff8 0x111003
    (store64 0x111000 0x112003 (store64 0x112000 0x83 (store64 0x112010 0x400083 (store8 0x180000 0x90 (store8 0x180001 0xf4
      (foldr (fun '(i, c) => store8 (0x400100 + i) c) ∅ (zip (seqZ 0 10) (str "/bin/hello")))))))))).

Definition process64_kernel (m : mem) : kernel_tables := {| k4 := word m 0x110000; k3 := word m 0x111000; k2 := word m 0x112000 |}.

Definition process64_boot : process64 :=
  {| pr_pmm := process64_pmm; pr_mem := process64_mem; process64_table := []; process64_state := x86_64_process_smoke_state_zero;
     process_paging_context := Build_x86_64_process_paging_context true 0 256 511 0x110000 0x111000 0x112000;
     next_pid64 := 0; next_address_space_id := 0; kernel_schedule_cursor := 0; user_schedule_cursor := 0;
     child_status_queue := []; child_status_count := 0; worker_a_runs := 0; worker_b_runs := 0;
     worker_a_stack_sample := 0; worker_b_stack_sample := 0 |}.
Definition process64_sample : process64 := final x86_64_process_initialize process64_boot.

Lemma process64_pmm_inv : pmm64_inv process64_frames ∅ process64_pmm.
Proof.
  assert (Hw : wp (x86_64_pmm_init 1 process64_map 0x105432) (fun _ s' => pm_initialized (pmm64_state s') = true /\
      tracked (usable_frames 0x105432 (take (Z.to_nat 1) process64_map)) s')
      {| page_stack := replicate (Z.to_nat 65536) 0; pmm64_state := Build_x86_64_pmm_state false 0 0 0 0 0 0 |}).
  { apply pmm_init_tracked; [vm_compute; reflexivity|lia|cbn; lia|]. repeat constructor; cbn; lia. }
  destruct Hw as ([] & s' & E & Hi & Ht). unfold process64_pmm, final. rewrite E.
  replace process64_frames with (take (Z.to_nat 65536) (usable_frames 0x105432 (take (Z.to_nat 1) process64_map))) by (vm_compute; reflexivity).
  apply (tracked_inv 0x105432); [lia|exact Ht|exact Hi|]. apply (bool_decide_unpack _). vm_compute. exact I.
Qed.

(** What starting the component needs. *)
Record boot_ok (all : list Z) (base : gset Z) (k : kernel_tables) (s : process64) : Prop := {
  bo_pmm : pmm64_inv all base (pr_pmm s);
  bo_bound : forall q, q ∈ all -> q < 35184372088832;
  bo_source : source_ok k (process_paging_context s) (pr_mem s);
  bo_apart : source_apart (process_paging_context s) (lendable all base);
  bo_code : forall f, f ∈ lendable all base -> f + 7 <> k2 k 2
}.

Lemma process64_boot_ok : boot_ok process64_frames ∅ (process64_kernel process64_mem) process64_boot.
Proof.
  constructor.
  - exact process64_pmm_inv.
  - intros q Hq. apply list_elem_of_fmap in Hq as (i & -> & Hi). apply elem_of_seqZ in Hi. lia.
  - constructor; try reflexivity. repeat constructor; lia || reflexivity.
  - split; [|split]; apply (bool_decide_unpack _); vm_compute; exact I.
  - intros f Hf. apply list_elem_of_filter in Hf as [_ Hf]. apply list_elem_of_fmap in Hf as (i & -> & Hi). apply elem_of_seqZ in Hi.
    replace (k2 (process64_kernel process64_mem) 2) with 0x400083 by (vm_compute; reflexivity). lia.
Qed.

(** A started component has no processes. *)
Lemma initialize_inv all base k s :
  boot_ok all base k s ->
  wp x86_64_process_initialize (fun _ s' => process64_inv all base k s' /\ next_pid64 s' = 1 /\ children_ok s' /\ children s' = [] /\
    sched64_ok s' /\ pr_mem s' = pr_mem s /\ pr_pmm s' = pr_pmm s /\ process64_table s' = replicate 64 inhabitant) s.
Proof.
  intros [Hp Hb Hs Ha Hc]. unfold x86_64_process_initialize, sm_mod. do 5 wp_step.
  match goal with |- ?P => match P with context [process64_inv _ _ _ ?t] => set (s1 := t) end end.
  assert (E1 : process64_table s1 = replicate 64 inhabitant) by reflexivity. assert (E2 : pr_pmm s1 = pr_pmm s) by reflexivity.
  assert (E3 : pr_mem s1 = pr_mem s) by reflexivity. assert (E4 : process_paging_context s1 = process_paging_context s) by reflexivity.
  assert (E5 : next_pid64 s1 = 1) by reflexivity. assert (E6 : sm_initialized (process64_state s1) = true) by reflexivity.
  assert (E7 : child_status_count s1 = 0) by reflexivity. assert (E8 : child_status_queue s1 = replicate 16 inhabitant) by reflexivity.
  assert (E9 : user_schedule_cursor s1 = 0) by reflexivity. clearbody s1.
  assert (Hslot : forall i p, process64_table s1 !! i = Some p -> p = inhabitant) by (rewrite E1; intros i p Hi; by apply lookup_replicate in Hi as [-> _]).
  assert (Hnone : forall i f, ~ owns s1 i f) by (intros i f (p & Hi & Hu & _); apply Hslot in Hi as ->; done).
  split; [|split; [done|split; [|split; [|split; [|split; [done|split; done]]]]]].
  - constructor; rewrite ?E3, ?E4; try done.
    + exists base. split; [|intros f; split; [by left|intros [?|[i Hi]]; [done|by apply Hnone in Hi]]]. constructor; rewrite ?E1, ?E2, ?E5; try done.
      * intros i p Hi. apply lookup_replicate in Hi as [-> _]. constructor; done.
      * intros i j p q f Hi Hj _ Hu. apply lookup_replicate in Hi as [-> _]. done.
      * intros i j p q Hi Hj Hu. apply lookup_replicate in Hi as [-> _]. done.
    + intros i f Hi. by apply Hnone in Hi.
  - constructor; rewrite ?E7, ?E8; [done|lia].
  - unfold children. by rewrite E7.
  - constructor; rewrite ?E1, ?E9; done || lia.
Qed.

(** ** Creating user processes *)

(** The scheduler accepts what was created. *)
Lemma created_schedulable k s s' img n entry count bitmap i p :
  0 < count <= 4 -> 0x400000 <= entry < 0x400000 + 4096 * count ->
  image_created k s s' img n entry count bitmap i p -> us_scheduler_ok (schedule_of p) = true.
Proof.
  intros Hc He [_ _ _ Hsp (_ & _ & _ & Eent & Ecnt) (R1 & R2 & R3 & R4) _ _ _ _ _ _ _ _ _].
  assert (Hal : forall q, frame_ok q -> negb (q =? 0) && is_aligned_u64 q 4096 = true).
  { intros q Hq. destruct (direct_map_aligned q Hq) as [-> _]. rewrite (proj2 (Z.eqb_neq q 0)); [done|]. unfold frame_ok in Hq. lia. }
  unfold schedule_of. cbv zeta. get_set. unfold X86_64_USER_CODE_BASE, X86_64_USER_PAGE_BYTES, X86_64_USER_STACK_TOP.
  change (0x80000000 [--] X86_64_PROCESS_USER_STACK_ALIGNMENT) with 0x7ffffff0. rewrite Eent, Ecnt, R1, R2, R3, (so_stack p Hsp).
  rewrite (u64_small (count * 4096)), u64_small by (unfold is_u64; lia). rewrite (proj2 (Z.leb_le 0x400000 entry)), (proj2 (Z.ltb_lt entry _)) by lia.
  rewrite !Hal; [reflexivity|..].
  - apply (space_parts p Hsp).
  - apply (space_frame p _ Hsp). unfold space_frames. apply list_elem_of_lookup_2 in R4. rewrite !elem_of_app. tauto.
  - apply (space_frame p _ Hsp). unfold space_frames. rewrite elem_of_app, !elem_of_cons. tauto.
Qed.

(** [x86_64_process_create_user_image] with valid arguments. *)
Lemma create_user_image_ok all base k s path img n entry count bitmap
    (Hinv : process64_inv all base k s) (Hpid : next_pid64 s < 4294967295)
    (Hargs : image_args (free_frames (pr_pmm s)) img n entry count) :
  wp (x86_64_process_create_user_image path img n entry count bitmap) (fun r s' => process64_inv all base k s' /\
    let free := free_frames (pr_pmm s) in
    if decide (slot_free s /\ (12 <= length free)%nat) then
      r = next_pid64 s /\ exists i p, process64_table s' = <[i := p]> (process64_table s) /\
        p6_pid p = r /\ p6_state p = X86_64_PROCESS_READY /\ p6_mode p = X86_64_PROCESS_MODE_USER /\ p6_user_entry p = entry /\
        process_frames p = take 12 (rev free) /\ same_outside (process_frames p) (pr_mem s) (pr_mem s') /\
        us_scheduler_ok (schedule_of p) = true /\ image_visible k s s' img n count bitmap p /\ sm_last_user_cr3 (process64_state s') = p6_cr3 p /\
        (exists p0, process64_table s !! i = Some p0 /\ p6_state p0 = 0) /\ next_pid64 s' = next_pid64 s + 1 /\
        process_paging_context s' = process_paging_context s
    else r = 0 /\ same_used s s' /\ same_outside free (pr_mem s) (pr_mem s')) s.
Proof.
  eapply wp_mono; [by apply (create_image_inv all base k s)|]. intros r s' [[Hinv' _] H]. split; [exact Hinv'|]. cbv zeta in *.
  destruct H as [(-> & Hsl & H12 & i & p & Hic)|(-> & Hwhy & Hsame & Ho)].
  2:{ rewrite decide_False by (destruct Hwhy; [tauto|lia]). done. }
  rewrite decide_True by done. split; [done|]. exists i, p.
  assert (Hvis : image_visible k s s' img n count bitmap p).
  { destruct (pv_table _ _ _ _ Hinv) as (held & Ht & Hh). eapply (created_visible (lendable all base)); [apply (ia_count _ _ _ _ _ Hargs)|apply (pv_source _ _ _ _ Hinv)
      |apply (pv_apart _ _ _ _ Hinv)|by eapply lendable_frames| |exact Hic].
    rewrite (ic_frames _ _ _ _ _ _ _ _ _ _ Hic). intros q Hq. eapply free_lendable; [exact (to_pmm _ _ _ Ht)| |exact (elem_of_take_rev _ _ _ Hq)].
    intros f Hf. apply Hh. by left. }
  pose proof (created_schedulable k s s' img n entry count bitmap i p (ia_count _ _ _ _ _ Hargs) (ia_entry _ _ _ _ _ Hargs) Hic) as Hsched.
  destruct Hic as [Hslot Et Efr _ (E1 & E2 & E3 & E4 & _) _ En Ec _ _ _ _ _ _ Ho Hlast]. done.
Qed.

(** C2: [x86_64_process_create_user_image] with valid arguments makes a process when
    a slot and twelve frames are free, and says so with its number: user code then
    sees the image at 0x400000, zeros up to the end of the last page and a zeroed
    stack page below 0x80000000, with the rights the bitmap gives; it can reach no
    other page; the upper half is the kernel's; memory outside the twelve frames is
    as before and the frames belong to no other process. Else it returns 0 and
    holds no more frames than before. *)
Theorem process64_create_user_image all base k s path img n entry count bitmap
    (Hinv : process64_inv all base k s) (Hpid : next_pid64 s < 4294967295)
    (Hargs : image_args (free_frames (pr_pmm s)) img n entry count) :
  wp (x86_64_process_create_user_image path img n entry count bitmap) (fun r s' => process64_inv all base k s' /\
    let free := free_frames (pr_pmm s) in
    if decide (slot_free s /\ (12 <= length free)%nat) then
      r = next_pid64 s /\ exists i p, process64_table s' = <[i := p]> (process64_table s) /\
        p6_pid p = r /\ p6_state p = X86_64_PROCESS_READY /\ p6_mode p = X86_64_PROCESS_MODE_USER /\ p6_user_entry p = entry /\
        process_frames p = take 12 (rev free) /\ same_outside (process_frames p) (pr_mem s) (pr_mem s') /\
        us_scheduler_ok (schedule_of p) = true /\ image_visible k s s' img n count bitmap p
    else r = 0 /\ same_used s s' /\ same_outside free (pr_mem s) (pr_mem s')) s.
Proof.
  eapply wp_mono; [by apply create_user_image_ok|]. intros r s' [Hinv' H]. split; [exact Hinv'|]. cbv zeta in *. case_decide; [|done].
  destruct H as (-> & i & p & H). split; [done|]. exists i, p. by destruct H as (? & ? & ? & ? & ? & ? & ? & ? & ? & _).
Qed.

Lemma process64_sample_inv :
  process64_inv process64_frames ∅ (process64_kernel process64_mem) process64_sample /\ next_pid64 process64_sample = 1 /\
  children_ok process64_sample /\ children process64_sample = [] /\ sched64_ok process64_sample /\ slot_free process64_sample /\
  (12 <= length (free_frames (pr_pmm process64_sample)))%nat /\
  image_args (free_frames (pr_pmm process64_sample)) 0x180000 2 0x400000 1.
Proof.
  destruct (initialize_inv _ _ _ _ process64_boot_ok) as ([] & s' & E & Hinv & Hn & Hch & Hc & Hs & Hm & Hp & Htab).
  assert (Es : process64_sample = s') by (unfold process64_sample, final; by rewrite E). rewrite Es. clear Es E.
  assert (Hfree : free_frames (pr_pmm s') ≡ₚ process64_frames).
  { rewrite Hp. pose proof (pi_split _ _ _ process64_pmm_inv) as Hsp. rewrite elements_empty, app_nil_r in Hsp. exact Hsp. }
  do 5 (split; [done|]). split; [|split].
  - exists 0%nat, inhabitant. split; [rewrite Htab; reflexivity|reflexivity].
  - rewrite (Permutation_length Hfree). apply Nat.leb_le. reflexivity.
  - constructor; [|lia..]. split; [lia|]. split; [lia|]. intros q Hq. rewrite Hfree in Hq. apply list_elem_of_fmap in Hq as (i & -> & Hi). apply elem_of_seqZ in Hi. lia.
Qed.

Lemma process64_create_user_image_witness :
  fst <$> x86_64_process_create_user_image (Some (str "/bin/a")) 0x180000 2 0x400000 1 0 process64_sample = Some 1.
Proof.
  destruct process64_sample_inv as (Hinv & Hn & _ & _ & _ & Hsl & H12 & Hargs).
  destruct (process64_create_user_image process64_frames ∅ (process64_kernel process64_mem) process64_sample (Some (str "/bin/a"))
    0x180000 2 0x400000 1 0 Hinv) as (r & s' & E & _ & H).
  - rewrite Hn. lia.
  - exact Hargs.
  - rewrite E. cbv zeta in H. rewrite decide_True in H by (split; [exact Hsl|exact H12]). destruct H as [-> _]. rewrite Hn. reflexivity.
Defined.

(** ** Who owns which frame *)

(** C10: from a start of the component on, whatever sequence of creations, exits and
    reaps follows (with failing calls among them): the frames that are not free are
    exactly those held before the start and the twelve of each process in use, and
    no frame has two owners. So no call loses a frame or hands one out twice. *)
Theorem process64_frames_owned_once all base k s ops
    (Hboot : boot_ok all base k s) (Hn : Z.of_nat (length ops) < 4294967295) (Hops : Forall (process_op_ok all) ops) :
  wp (x86_64_process_initialize ;;; mfor ops run_process_op) (fun _ s' =>
    (exists held : gset Z, free_frames (pr_pmm s') ++ elements held ≡ₚ all /\ forall f, f ∈ held <-> f ∈ base \/ exists i, owns s' i f) /\
    (forall i j f, owns s' i f -> owns s' j f -> i = j) /\ (forall i f, owns s' i f -> f ∉ base)) s.
Proof.
  wp_step. eapply wp_mono; [by eapply initialize_inv|]. intros [] s1 (Hinv & En & _). eapply wp_mono; [eapply process_ops_ok; [exact Hinv|lia|exact Hops]|].
  intros [] s' Hinv'. pose proof (pv_table _ _ _ _ Hinv') as (held & Ht & Hh). split; [|split].
  - exists held. split; [apply (pi_split _ _ _ (to_pmm _ _ _ Ht))|exact Hh].
  - intros i j f (p & Hi & Hu & Hf) (q & Hj & Hu' & Hf'). destruct (decide (i = j)) as [|Hne]; [done|].
    exfalso. by apply (to_apart _ _ _ Ht i j p q f).
  - by eapply pv_base.
Qed.

Definition process64_ops : list process_op :=
  [OpCreateUser None 0x180000 2 0x400000 1 0; OpCreateUser None 0x180000 2 0x400000 1 0; OpExit 1 7; OpReapAll; OpReap 1;
   OpCreate None 0x1000 0].

Lemma process64_frames_owned_once_witness :
  wp (x86_64_process_initialize ;;; mfor process64_ops run_process_op) (fun _ s' =>
    (exists held : gset Z, free_frames (pr_pmm s') ++ elements held ≡ₚ process64_frames /\ forall f, f ∈ held <-> f ∈ (∅ : gset Z) \/ exists i, owns s' i f) /\
    (forall i j f, owns s' i f -> owns s' j f -> i = j) /\ (forall i f, owns s' i f -> f ∉ (∅ : gset Z))) process64_boot.
Proof.
  apply (process64_frames_owned_once process64_frames ∅ (process64_kernel process64_mem) process64_boot process64_ops).
  - exact process64_boot_ok.
  - cbn. lia.
  - assert (Hap : image_apart 0x180000 2 process64_frames).
    { split; [lia|]. split; [lia|]. intros q Hq. apply list_elem_of_fmap in Hq as (i & -> & Hi). apply elem_of_seqZ in Hi. lia. }
    repeat (constructor; [first [exact I|split; [exact Hap|lia]]|]). constructor.
Defined.

(** ** Creating, exiting and reaping *)

Lemma process_with_same all held s pid i j p q :
  table64_ok all held s -> process_with s pid i p -> process_with s pid j q -> j = i /\ q = p.
Proof.
  intros Ht (Hi & Hu & E) (Hj & Hu' & E'). assert (j = i) as -> by (apply (to_pids _ _ _ Ht j i q p); congruence). split; [done|congruence].
Qed.

(** An exit and the reaping of a used user process. *)
Lemma exit_reap_ok all held s i p code :
  table64_ok all held s -> process64_table s !! i = Some p -> p6_state p <> 0 -> p6_mode p = X86_64_PROCESS_MODE_USER ->
  wp (e <- x86_64_process_mark_user_exited (p6_pid p) code ;; r <- x86_64_process_reap_user (p6_pid p) ;; mret_ (e, r))
    (fun r s' => r = (true, true) /\ table64_ok all (held ∖ list_to_set (process_frames p)) s' /\
       process64_table s' = <[i := inhabitant]> (process64_table s)) s.
Proof.
  intros Ht Hi Hu Hm. assert (Hw : process_with s (p6_pid p) i p) by done. assert (Hlt : (i < length (process64_table s))%nat) by (by eapply lookup_lt_Some).
  wp_step. eapply wp_mono; [by apply (mark_exited_ok all held)|]. intros e s1 (Ht1 & _ & _ & He).
  destruct e; [|by destruct He as [_ He]; apply He in Hw]. destruct He as (j & q & Hq & _ & Et1). destruct (process_with_same _ _ _ _ _ _ _ _ Ht Hw Hq) as [-> ->].
  assert (Hw1 : process_with s1 (p6_pid p) i (exited p code)) by (split; [by rewrite Et1, list_lookup_insert_eq|done]).
  wp_step. eapply wp_mono; [by apply (reap_ok all held)|]. intros r s2 (_ & Hr). destruct r.
  2:{ destruct Hr as (_ & _ & _ & Hr). apply Hr in Hw1. exfalso. destruct Hw1 as [Hno|[Hno _]]; apply Hno; [exact Hm|reflexivity]. }
  destruct Hr as (j & q & Hq' & _ & _ & Et2 & Ht2). destruct (process_with_same _ _ _ _ _ _ _ _ Ht1 Hw1 Hq') as [-> ->]. wp_step.
  split; [done|]. split; [exact Ht2|]. by rewrite Et2, Et1, list_insert_insert_eq.
Qed.

(** A user process that is created, exits and is reaped leaves nothing behind:
    the free frames are those from before and the processes in use are the same. *)
Theorem process64_create_exit_reap all base k s path img n entry count bitmap code
    (Hinv : process64_inv all base k s) (Hpid : next_pid64 s < 4294967295)
    (Hargs : image_args (free_frames (pr_pmm s)) img n entry count)
    (Hslot : slot_free s) (Hfree : (12 <= length (free_frames (pr_pmm s)))%nat) :
  wp (pid <- x86_64_process_create_user_image path img n entry count bitmap ;;
      e <- x86_64_process_mark_user_exited pid code ;; r <- x86_64_process_reap_user pid ;; mret_ (e, r))
    (fun r s' => r = (true, true) /\ free_frames (pr_pmm s') ≡ₚ free_frames (pr_pmm s) /\
       forall i p, p6_state p <> 0 -> process64_table s' !! i = Some p <-> process64_table s !! i = Some p) s.
Proof.
  pose proof (pv_table _ _ _ _ Hinv) as (held & Ht & _). wp_step.
  eapply wp_mono; [by eapply (create_image_ok all held k s); [|eapply inv_ready| |]|].
  intros r s1 [(-> & _ & _ & i & p & Hic & Ht1)|(_ & Hwhy & _)]; [|exfalso; destruct Hwhy; [done|lia]].
  destruct Hic as [(p0 & Hp0 & H0) Et Efr _ (Epid & Est & Emode & _) _ _ _ _ _ _ _ _ _ _].
  assert (Hlt : (i < length (process64_table s))%nat) by (by eapply lookup_lt_Some).
  rewrite <- Epid. eapply wp_mono; [apply (exit_reap_ok all _ s1 i p code Ht1); [by rewrite Et, list_lookup_insert_eq|by rewrite Est|done]|].
  intros r s2 (-> & Ht2 & Et2). split; [done|]. split.
  - assert (Hheld : (list_to_set (process_frames p) ∪ held) ∖ list_to_set (process_frames p) = held).
    { apply leibniz_equiv. intros f. rewrite elem_of_difference, elem_of_union, elem_of_list_to_set. split; [tauto|]. intros Hf. split; [by right|].
      rewrite Efr. intros Hf'. apply (free_not_held _ _ _ f (to_pmm _ _ _ Ht)); [exact (elem_of_take_rev _ _ _ Hf')|done]. }
    rewrite Hheld in Ht2. apply (Permutation_app_inv_r (elements held)).
    by rewrite (pi_split _ _ _ (to_pmm _ _ _ Ht2)), (pi_split _ _ _ (to_pmm _ _ _ Ht)).
  - intros j q Hq. rewrite Et2, Et, list_insert_insert_eq. destruct (decide (j = i)) as [->|Hne].
    + rewrite list_lookup_insert_eq by done. split; intros E; [injection E as <-|]; [done|congruence].
    + by rewrite list_lookup_insert_ne by done.
Qed.

Lemma process64_create_exit_reap_witness :
  wp (pid <- x86_64_process_create_user_image None 0x180000 2 0x400000 1 0 ;;
      e <- x86_64_process_mark_user_exited pid 7 ;; r <- x86_64_process_reap_user pid ;; mret_ (e, r))
    (fun r s' => r = (true, true) /\ free_frames (pr_pmm s') ≡ₚ free_frames (pr_pmm process64_sample) /\
       forall i p, p6_state p <> 0 -> process64_table s' !! i = Some p <-> process64_table process64_sample !! i = Some p) process64_sample.
Proof.
  destruct process64_sample_inv as (Hinv & Hn & _ & _ & _ & Hsl & H12 & Hargs).
  apply (process64_create_exit_reap process64_frames ∅ (process64_kernel process64_mem) process64_sample None 0x180000 2 0x400000 1 0 7 Hinv).
  - rewrite Hn. lia.
  - exact Hargs.
  - exact Hsl.
  - exact H12.
Defined.

(** [x86_64_process_reap_exited_user_processes] empties exactly the slots of the
    user processes that exited or failed, returns their number, and keeps the
    ownership of frames. *)
Theorem process64_reap_all all base k s (Hinv : process64_inv all base k s) :
  wp x86_64_process_reap_exited_user_processes (fun n s' =>
    process64_inv all base k s' /\ process64_table s' = reaped <$> process64_table s /\
    n = Z.of_nat (length (List.filter reapable (process64_table s)))) s.
Proof. eapply wp_mono; [by eapply reap_all_ok|]. by intros n s' (H1 & _ & H2 & H3). Qed.

Lemma process64_reap_all_witness : fst <$> x86_64_process_reap_exited_user_processes process64_sample = Some 0.
Proof.
  destruct process64_sample_inv as (Hinv & _). destruct (process64_reap_all _ _ _ _ Hinv) as (n & s' & E & _ & _ & Hn).
  rewrite E, Hn. vm_compute. reflexivity.
Defined.

(** ** Exit codes of children *)

(** C27: whatever sequence of recorded exits and waits is made, the queue of sixteen
    slots behaves as a list: an exit is appended, when the list is full the oldest is
    dropped first, and a wait takes the oldest entry of its parent, or none. *)
Theorem process64_child_exits ops s (Hok : children_ok s) :
  wp (run_exit_ops ops) (fun rs s' => (rs, children s') = exits_ops ops (children s) /\ children_ok s' /\ same_but_children s s') s.
Proof. eapply wp_mono; [by apply run_exit_ops_ok|]. by intros rs s' (H1 & H2 & H3). Qed.

Lemma process64_child_exits_witness :
  fst <$> run_exit_ops [Record 1 2 5; Record 3 4 6; Record 1 5 7; Wait 1; Wait 3; Wait 9; Wait 1] process64_sample =
    Some [None; None; None; Some (2, 5); Some (4, 6); None; Some (5, 7)].
Proof.
  destruct process64_sample_inv as (_ & _ & Hch & Hnil & _).
  destruct (process64_child_exits [Record 1 2 5; Record 3 4 6; Record 1 5 7; Wait 1; Wait 3; Wait 9; Wait 1] process64_sample Hch)
    as (rs & s' & E & Hrs & _).
  rewrite E. rewrite Hnil in Hrs. apply (f_equal fst) in Hrs. cbn [fst] in Hrs. rewrite Hrs. vm_compute. reflexivity.
Defined.

(** ** The scheduler *)

(** C35: a ready user process is chosen by one of any 64 calls of
    [x86_64_process_prepare_next_user] in a row, whatever else is ready. *)
Theorem process64_scheduler_fair s j p
    (Hok : sched64_ok s) (Hj : 0 <= j < 64) (Hp : process64_table s !! Z.to_nat j = Some p) (Hr : user_ready p = true) :
  wp (prepare_times 64) (fun pids s' => p6_pid p ∈ pids /\ process64_table s' = process64_table s) s.
Proof. eapply prepare_fair; try done. apply Z.mod_pos_bound. lia. Qed.

Definition process64_user (pid : Z) : x86_64_process :=
  inhabitant <| p6_state := 1 |> <| p6_mode := 2 |> <| p6_user_entry := 0x400000 |> <| p6_pid := pid |>.
Definition with_two_ready (s : process64) : process64 :=
  s <| process64_table := <[5%nat := process64_user 9]> (<[7%nat := process64_user 4]> (replicate 64 inhabitant)) |>.
Definition process64_two_ready : process64 := with_two_ready process64_sample.

Lemma with_two_ready_ok s : sched64_ok s -> sched64_ok (with_two_ready s).
Proof. intros [_ Hc Hi]. constructor; [reflexivity|exact Hc|exact Hi]. Qed.

Lemma process64_scheduler_fair_witness :
  wp (prepare_times 64) (fun pids s' => p6_pid (process64_user 4) ∈ pids /\ process64_table s' = process64_table process64_two_ready)
    process64_two_ready.
Proof.
  destruct process64_sample_inv as (_ & _ & _ & _ & Hs & _). apply (process64_scheduler_fair process64_two_ready 7 (process64_user 4)).
  - exact (with_two_ready_ok process64_sample Hs).
  - lia.
  - reflexivity.
  - reflexivity.
Defined.

(** ** The process list *)

(** [x86_64_process_snapshot] leaves in the buffer the text of the process list
    (a header, a line per process in use and the totals), cut to the buffer, with a
    terminating NUL, and returns the number of characters in it. *)
Theorem process64_snapshot_text s buffer size
    (Hp : table_printable s) (Hs : 0 < size <= Z.of_nat (length buffer)) (Hb : Z.of_nat (length buffer) < 18446744073709551615) :
  wp (x86_64_process_snapshot (Some buffer) size) (fun r s' => s' = s /\
    let text := process_list_text s in
    r = (Z.min (Z.of_nat (length text)) (size - 1), Some (finish_text size text buffer))) s.
Proof. by apply snapshot_ok. Qed.

Definition process64_listed : process64 := with_two_ready process64_boot.

Lemma process64_snapshot_text_witness :
  x86_64_process_snapshot (Some (replicate 40 0)) 40 process64_listed =
    Some ((39, Some (str "PID STATE MODE NAME" ++ [10] ++ str "9 ready user " ++ [10] ++ str "4 re" ++ [97; 0])), process64_listed).
Proof.
  destruct (process64_snapshot_text process64_listed (replicate 40 0) 40) as (r & s' & E & -> & Hr).
  - constructor; [reflexivity| |].
    + unfold process64_listed, with_two_ready. get_set. apply Forall_insert; [apply Forall_insert; [apply Forall_replicate|]|];
        (constructor; [unfold is_u32; cbn; lia|reflexivity|reflexivity]).
    + repeat (constructor; [unfold is_u32; cbn; lia|]). constructor.
  - cbn. lia.
  - cbn. lia.
  - rewrite E. cbv zeta in Hr. rewrite Hr. f_equal.
Defined.
