(* ===== verification/Elf64.v ===== *)
(** * The ELF loader of the 64-bit kernel (arch/x86_64/syscall_dispatch.h, userland.h)

    [x86_64_syscall_load_exec_elf] copies the loadable segments of a program to four
    pages of the kernel; [x86_64_process_create_user_image] copies those to the frames
    of a new process. The fields of the headers are read from the bytes of the file,
    little-endian, at their offsets. *)
From S2P Require Import Prelude Word64 Mem KString Loader Pmm64 Text64 Process64.

Definition X86_64_USER_STACK_BYTES := 0x10000.
Definition X86_64_ELF_MAGIC_0 := 0x7F.
Definition X86_64_ELF_MAGIC_1 := 69.
Definition X86_64_ELF_MAGIC_2 := 76.
Definition X86_64_ELF_MAGIC_3 := 70.
Definition X86_64_ELF_CLASS_64 := 2.
Definition X86_64_ELF_DATA_LITTLE_ENDIAN := 1.
Definition X86_64_ELF_VERSION_CURRENT := 1.
Definition X86_64_ELF_TYPE_EXECUTABLE := 2.
Definition X86_64_ELF_MACHINE_X86_64 := 0x3E.
Definition X86_64_ELF_PROGRAM_TYPE_LOAD := 1.
Definition X86_64_ELF_PF_X := 1.
Definition X86_64_ELF_PF_W := 2.
Definition sizeof_elf_header := 64.
Definition sizeof_elf_program_header := 56.

(** The fields of the headers that are read. *)
Section Fields.
Context {St : Type}.

Definition get64 (d : list Z) (off : Z) : M St Z :=
  lo <- get32 d off ;; hi <- get32 d (off + 4) ;; mret_ (lo + 4294967296 * hi).

Definition elf64_type (d : list Z) : M St Z := get16 d 16.
Definition elf64_machine (d : list Z) : M St Z := get16 d 18.
Definition elf64_version (d : list Z) : M St Z := get32 d 20.
Definition elf64_entry (d : list Z) : M St Z := get64 d 24.
Definition elf64_program_header_offset (d : list Z) : M St Z := get64 d 32.
Definition elf64_header_size (d : list Z) : M St Z := get16 d 52.
Definition elf64_program_header_entry_size (d : list Z) : M St Z := get16 d 54.
Definition elf64_program_header_count (d : list Z) : M St Z := get16 d 56.
End Fields.

Record x86_64_elf_program_header := {
  ep_type : Z;
  ep_flags : Z;
  ep_offset : Z;
  ep_virtual_address : Z;
  ep_file_size : Z;
  ep_memory_size : Z;
  ep_alignment : Z
}.

(** The fields of [struct x86_64_syscall_dispatch_state] that the loader uses. *)
Record exec64 := {
  exec_user_code_page : Z;
  exec_user_image_pages : list Z;
  exec_user_image_page_count : Z;
  exec_user_writable_page_bitmap : Z;
  exec_user_image_bytes : Z;
  exec_entry : Z;
  exec_loaded : bool
}.
#[export] Instance eta_exec64 : Settable exec64 := fun s =>
  Build_exec64 (exec_user_code_page s) (exec_user_image_pages s) (exec_user_image_page_count s) (exec_user_writable_page_bitmap s)
    (exec_user_image_bytes s) (exec_entry s) (exec_loaded s).

Record elf64 := { el_mem : mem; el_exec : exec64 }.
#[export] Instance eta_elf64 : Settable elf64 := fun s => Build_elf64 (el_mem s) (el_exec s).

Abbreviation EL := (M elf64).
Definition ex_mod (f : exec64 -> exec64) : EL unit := mmod (fun s => s <| el_exec ::= f |>).

Definition x86_64_syscall_image_range_fits (offset size image_size : Z) : bool :=
  (offset <=? image_size) && (size <=? image_size [--] offset).

(** The program header at [header->program_header_offset + index * entry_size]. *)
Definition x86_64_syscall_program_header_at {St} (image : list Z) (program_header_offset entry_size index : Z)
    : M St x86_64_elf_program_header :=
  let offset := program_header_offset [++] index [**] entry_size in
  type <- get32 image offset ;; flags <- get32 image (offset + 4) ;; file_offset <- get64 image (offset + 8) ;;
  virtual_address <- get64 image (offset + 16) ;; file_size <- get64 image (offset + 32) ;;
  memory_size <- get64 image (offset + 40) ;; alignment <- get64 image (offset + 48) ;;
  mret_ {| ep_type := type; ep_flags := flags; ep_offset := file_offset; ep_virtual_address := virtual_address;
           ep_file_size := file_size; ep_memory_size := memory_size; ep_alignment := alignment |}.

Definition x86_64_syscall_clear_user_image_pages : EL unit :=
  ex <- mget el_exec ;;
  mfor (seqZ 0 X86_64_USER_IMAGE_MAX_PAGES) (fun page_index =>
    page <- array_at (exec_user_image_pages ex) page_index ;;
    mwhen (negb (page =? 0)) (mfor (seqZ 0 X86_64_USER_PAGE_BYTES) (fun i => mmod (fun s => s <| el_mem ::= store8 (page [++] i) 0 |>)))) ;;;
  ex_mod (fun ex => ex <| exec_user_image_page_count := 0 |> <| exec_user_writable_page_bitmap := 0 |> <| exec_user_image_bytes := 0 |>).

Definition x86_64_syscall_copy_to_user_image_page (image_offset value : Z) : EL bool :=
  let page_index := u32 (image_offset / X86_64_USER_PAGE_BYTES) in
  if X86_64_USER_IMAGE_MAX_PAGES <=? page_index then mret_ false
  else
    ex <- mget el_exec ;;
    page <- array_at (exec_user_image_pages ex) page_index ;;
    if page =? 0 then mret_ false
    else
      mmod (fun s => s <| el_mem ::= store8 (page [++] Z.land image_offset (X86_64_USER_PAGE_BYTES [--] 1)) value |>) ;;;
      mret_ true.

(** [header_ok] *)
Definition elf64_header_ok {St} (image : list Z) (image_size : Z) : M St bool :=
  i0 <- get8 image 0 ;; i1 <- get8 image 1 ;; i2 <- get8 image 2 ;; i3 <- get8 image 3 ;;
  class <- get8 image 4 ;; data <- get8 image 5 ;; ident_version <- get8 image 6 ;;
  type <- elf64_type image ;; machine <- elf64_machine image ;; version <- elf64_version image ;;
  header_size <- elf64_header_size image ;; entry_size <- elf64_program_header_entry_size image ;;
  count <- elf64_program_header_count image ;; phoff <- elf64_program_header_offset image ;;
  let phdr_bytes := entry_size [**] count in
  mret_ ((i0 =? X86_64_ELF_MAGIC_0) && (i1 =? X86_64_ELF_MAGIC_1) && (i2 =? X86_64_ELF_MAGIC_2) && (i3 =? X86_64_ELF_MAGIC_3) &&
    (class =? X86_64_ELF_CLASS_64) && (data =? X86_64_ELF_DATA_LITTLE_ENDIAN) && (ident_version =? X86_64_ELF_VERSION_CURRENT) &&
    (type =? X86_64_ELF_TYPE_EXECUTABLE) && (machine =? X86_64_ELF_MACHINE_X86_64) && (version =? X86_64_ELF_VERSION_CURRENT) &&
    (header_size =? sizeof_elf_header) && (entry_size =? sizeof_elf_program_header) && (0 <? count) && (count <=? 8) &&
    x86_64_syscall_image_range_fits phoff phdr_bytes image_size).

(** The checks on a segment that return 0. *)
Definition elf64_segment_bad (candidate : x86_64_elf_program_header) (image_size : Z) : bool :=
  let segment_end := ep_virtual_address candidate [++] ep_memory_size candidate in
  (segment_end <? ep_virtual_address candidate) || (ep_virtual_address candidate <? X86_64_USER_CODE_BASE) ||
  (X86_64_USER_CODE_BASE [++] X86_64_USER_IMAGE_MAX_BYTES <? segment_end) ||
  negb (ep_alignment candidate =? X86_64_USER_PAGE_BYTES) || (ep_memory_size candidate <? ep_file_size candidate) ||
  negb (x86_64_syscall_image_range_fits (ep_offset candidate) (ep_file_size candidate) image_size).

(** The loop over the pages of a segment; [Some tt] is [return 0]. *)
Definition elf64_mark_pages (flags first_page last_page : Z) : EL (option unit) :=
  mfor_ret (seqZ first_page (last_page + 1 - first_page)) (fun page_index =>
    if X86_64_USER_IMAGE_MAX_PAGES <=? page_index then mret_ (Some tt)
    else
      mwhen (negb (Z.land flags X86_64_ELF_PF_W =? 0))
        (ex_mod (fun ex => ex <| exec_user_writable_page_bitmap ::= fun b => Z.lor b (u32 (Z.shiftl 1 page_index)) |>)) ;;;
      mret_ None).

(** The loop over the bytes of a segment. *)
Definition elf64_copy_segment (image : list Z) (offset segment_offset file_size : Z) : EL (option unit) :=
  mfor_ret (seqZ 0 file_size) (fun byte_index =>
    byte <- array_at image (offset + byte_index) ;;
    ok <- x86_64_syscall_copy_to_user_image_page (segment_offset [++] byte_index) byte ;;
    mret_ (if negb ok then Some tt else None)).

(** One program header; the variables are [load_seen], [entry_segment_seen] and
    [image_bytes], [None] is [return 0]. *)
Definition elf64_load_segment (image : list Z) (image_size entry : Z) (candidate : x86_64_elf_program_header) (l : bool * bool * Z)
    : EL (option (bool * bool * Z)) :=
  let '(load_seen, entry_segment_seen, image_bytes) := l in
  if negb (ep_type candidate =? X86_64_ELF_PROGRAM_TYPE_LOAD) || (ep_memory_size candidate =? 0) then mret_ (Some l)
  else if elf64_segment_bad candidate image_size then mret_ None
  else
    let segment_end := ep_virtual_address candidate [++] ep_memory_size candidate in
    let segment_offset := ep_virtual_address candidate [--] X86_64_USER_CODE_BASE in
    let segment_image_end := segment_offset [++] ep_memory_size candidate in
    let first_page := u32 (segment_offset / X86_64_USER_PAGE_BYTES) in
    let last_page := u32 ((segment_image_end [--] 1) / X86_64_USER_PAGE_BYTES) in
    failed <- elf64_mark_pages (ep_flags candidate) first_page last_page ;;
    match failed with
    | Some _ => mret_ None
    | None =>
        failed <- elf64_copy_segment image (ep_offset candidate) segment_offset (ep_file_size candidate) ;;
        match failed with
        | Some _ => mret_ None
        | None =>
            let entry_here := (ep_virtual_address candidate <=? entry) && (entry <? segment_end) &&
              negb (Z.land (ep_flags candidate) X86_64_ELF_PF_X =? 0) in
            mret_ (Some (true, entry_segment_seen || entry_here,
              if image_bytes <? segment_image_end then segment_image_end else image_bytes))
        end
    end.

(** The loop over the program headers. *)
Definition elf64_load_segments (image : list Z) (image_size entry phoff entry_size count : Z) : EL (option (bool * bool * Z)) :=
  mfold (seqZ 0 count) (fun l i =>
    match l with
    | None => mret_ None
    | Some l =>
        candidate <- x86_64_syscall_program_header_at image phoff entry_size i ;;
        elf64_load_segment image image_size entry candidate l
    end) (Some (false, false, 0)).

(** [image] is never the null pointer: the nodes that are executable are linked
    programs. *)
Definition x86_64_syscall_load_exec_elf (image : list Z) (image_size : Z) : EL bool :=
  ex <- mget el_exec ;;
  page0 <- array_at (exec_user_image_pages ex) 0 ;;
  if (page0 =? 0) || (image_size <? sizeof_elf_header) || (X86_64_USER_STACK_BYTES <? image_size) then mret_ false
  else
    header_ok <- elf64_header_ok image image_size ;;
    if negb header_ok then mret_ false
    else
      x86_64_syscall_clear_user_image_pages ;;;
      entry <- elf64_entry image ;; phoff <- elf64_program_header_offset image ;;
      entry_size <- elf64_program_header_entry_size image ;; count <- elf64_program_header_count image ;;
      r <- elf64_load_segments image image_size entry phoff entry_size count ;;
      match r with
      | None => mret_ false
      | Some (load_seen, entry_segment_seen, image_bytes) =>
          if negb load_seen || negb entry_segment_seen || (image_bytes =? 0) || (X86_64_USER_IMAGE_MAX_BYTES <? image_bytes) then mret_ false
          else
            ex_mod (fun ex => ex <| exec_entry := entry |> <| exec_user_image_bytes := image_bytes |>
              <| exec_user_image_page_count := u32 ((image_bytes [++] X86_64_USER_PAGE_BYTES [--] 1) / X86_64_USER_PAGE_BYTES) |>
              <| exec_loaded := true |>) ;;;
            mret_ true
      end.
