(* ===== verification/Elf64Proofs.v ===== *)
(** * The ELF loader of the 64-bit kernel: a reference and the equivalence *)
From S2P Require Import Prelude Word64 Mem KString Loader ElfProofs Pmm64 Text64 Process64 Elf64.

(** ** What a file means *)

Definition long_at (d : list Z) (k : Z) : Z := word_at d k + 4294967296 * word_at d (k + 4).

Lemma long_at_range d k : is_bytes d -> is_u64 (long_at d k).
Proof.
  intros H. unfold long_at, is_u64. pose proof (word_at_range d k H) as H1. pose proof (word_at_range d (k + 4) H) as H2. unfold is_u32 in *. lia.
Qed.

Lemma wp_get64 {St} d k (Q : Z -> St -> Prop) s :
  0 <= k -> k + 8 <= Z.of_nat (length d) -> Q (long_at d k) s -> wp (get64 d k) Q s.
Proof.
  intros H0 Hk HQ. unfold get64. wp_step. apply wp_get32; [lia|lia|]. wp_step. apply wp_get32; [lia|lia|]. by apply wp_ret.
Qed.

Ltac wp_field64 := apply wp_bind; first [apply wp_get8 | apply wp_get16 | apply wp_get32 | apply wp_get64]; [lia..|]; cbv beta.

(** Program header [i]. *)
Definition elf64_header_at (d : list Z) (i : Z) : x86_64_elf_program_header :=
  let o := long_at d 32 + 56 * i in
  {| ep_type := word_at d o; ep_flags := word_at d (o + 4); ep_offset := long_at d (o + 8); ep_virtual_address := long_at d (o + 16);
     ep_file_size := long_at d (o + 32); ep_memory_size := long_at d (o + 40); ep_alignment := long_at d (o + 48) |}.

Definition elf64_loadable (p : x86_64_elf_program_header) : bool := (ep_type p =? 1) && negb (ep_memory_size p =? 0).

(** The segments to load. *)
Definition elf64_segments_to (d : list Z) (n : Z) : list x86_64_elf_program_header :=
  List.filter elf64_loadable (elf64_header_at d <$> seqZ 0 n).
Definition elf64_segments (d : list Z) : list x86_64_elf_program_header := elf64_segments_to d (half_at d 56).

(** A segment lies in the four pages and its bytes in the file. *)
Definition elf64_segment_ok (d : list Z) (p : x86_64_elf_program_header) : bool :=
  (0x400000 <=? ep_virtual_address p) && (ep_virtual_address p + ep_memory_size p <=? 0x404000) && (ep_alignment p =? 4096) &&
  (ep_file_size p <=? ep_memory_size p) && (ep_offset p + ep_file_size p <=? Z.of_nat (length d)).

Definition elf64_entry_in (entry : Z) (p : x86_64_elf_program_header) : bool :=
  (ep_virtual_address p <=? entry) && (entry <? ep_virtual_address p + ep_memory_size p) && negb (Z.land (ep_flags p) 1 =? 0).

Definition elf64_ident_ok (d : list Z) : bool :=
  (byte_at d 0 =? 0x7F) && (byte_at d 1 =? 69) && (byte_at d 2 =? 76) && (byte_at d 3 =? 70) &&
  (byte_at d 4 =? 2) && (byte_at d 5 =? 1) && (byte_at d 6 =? 1) &&
  (half_at d 16 =? 2) && (half_at d 18 =? 62) && (word_at d 20 =? 1) && (half_at d 52 =? 64) && (half_at d 54 =? 56).

Definition elf64_table_ok (d : list Z) : bool :=
  (0 <? half_at d 56) && (half_at d 56 <=? 8) && (long_at d 32 + 56 * half_at d 56 <=? Z.of_nat (length d)).

(** The files that are accepted. *)
Definition elf64_accepts (d : list Z) : bool :=
  (64 <=? Z.of_nat (length d)) && (Z.of_nat (length d) <=? 65536) && (elf64_ident_ok d && elf64_table_ok d) &&
  forallb (elf64_segment_ok d) (elf64_segments d) && existsb (elf64_entry_in (long_at d 24)) (elf64_segments d).

(** Byte [x] of the program: of the last segment that has it, or 0. *)
Definition elf64_put (d : list Z) (x : Z) (b : Z) (p : x86_64_elf_program_header) : Z :=
  let o := ep_virtual_address p - 0x400000 in
  if (o <=? x) && (x <? o + ep_file_size p) then byte_at d (ep_offset p + (x - o)) else b.
Definition elf64_byte (d : list Z) (l : list x86_64_elf_program_header) (x : Z) : Z := fold_left (elf64_put d x) l 0.

(** The end of the last segment. *)
Definition elf64_extent (l : list x86_64_elf_program_header) : Z :=
  fold_left (fun n p => Z.max n (ep_virtual_address p - 0x400000 + ep_memory_size p)) l 0.

(** Whether a writable segment touches page [i]. *)
Definition elf64_writable (l : list x86_64_elf_program_header) (i : Z) : bool :=
  existsb (fun p => negb (Z.land (ep_flags p) 2 =? 0) && ((ep_virtual_address p - 0x400000) / 4096 <=? i) &&
    (i <=? (ep_virtual_address p - 0x400000 + ep_memory_size p - 1) / 4096)) l.

(** ** The pages of the loader *)

(** Four pages in a row at [b]. *)
Record exec_pages (b : Z) (ex : exec64) : Prop := {
  ep_code : exec_user_code_page ex = b;
  ep_pages : exec_user_image_pages ex = [b; b + 4096; b + 8192; b + 12288];
  ep_base : 0 < b < 35184372088832 /\ b mod 4096 = 0
}.

Definition same_beyond (b : Z) (m m' : mem) : Prop := forall a, ~ (b <= a < b + 16384) -> load8 m' a = load8 m a.

Lemma page_of_offset b x : 0 <= x < 16384 -> exists page,
  [b; b + 4096; b + 8192; b + 12288] !! Z.to_nat (x / 4096) = Some page /\ page = b + 4096 * (x / 4096).
Proof.
  intros Hx. assert (H4 : x / 4096 = 0 \/ x / 4096 = 1 \/ x / 4096 = 2 \/ x / 4096 = 3) by (Z.div_mod_to_equations; lia).
  destruct H4 as [-> | [-> | [-> | ->]]]; eexists; (split; [reflexivity|lia]).
Qed.

Lemma copy_byte_ok b x v s (Q : bool -> elf64 -> Prop) :
  exec_pages b (el_exec s) -> 0 <= x < 16384 -> Q true (s <| el_mem := store8 (b + x) v (el_mem s) |>) ->
  wp (x86_64_syscall_copy_to_user_image_page x v) Q s.
Proof.
  intros [_ Hp [Hb Ha]] Hx HQ. unfold x86_64_syscall_copy_to_user_image_page, X86_64_USER_PAGE_BYTES, X86_64_USER_IMAGE_MAX_PAGES.
  assert (Hd : 0 <= x / 4096 < 4) by (Z.div_mod_to_equations; lia). rewrite u32_small by (unfold is_u32; lia).
  rewrite (proj2 (Z.leb_gt 4 _)) by lia. do 3 wp_step. destruct (page_of_offset b x Hx) as (page & Hpage & Ep).
  eapply wp_array_at; [rewrite Hp; exact Hpage|]. rewrite (proj2 (Z.eqb_neq page 0)) by lia. wp_step. wp_step. wp_step.
  change (4096 [--] 1) with (2 ^ 12 - 1). rewrite land_low_mask by lia. change (2 ^ 12) with 4096.
  replace (page [++] x mod 4096) with (b + x); [exact HQ|]. pose proof (Z.mod_pos_bound x 4096 ltac:(lia)).
  rewrite u64_small by (unfold is_u64; lia). rewrite Ep, (Z.div_mod x 4096) at 1 by lia. lia.
Qed.

(** Only the memory differs. *)
Lemma set_mem_twice (s : elf64) m m' : s <| el_mem := m |> <| el_mem := m' |> = s <| el_mem := m' |>.
Proof. by destruct s. Qed.

Lemma clear_pages_ok b s (Q : unit -> elf64 -> Prop) :
  exec_pages b (el_exec s) ->
  (forall m ex, same_beyond b (el_mem s) m -> (forall x, 0 <= x < 16384 -> load8 m (b + x) = 0) -> exec_pages b ex ->
     ex = (el_exec s) <| exec_user_image_page_count := 0 |> <| exec_user_writable_page_bitmap := 0 |> <| exec_user_image_bytes := 0 |> ->
     Q tt {| el_mem := m; el_exec := ex |}) ->
  wp x86_64_syscall_clear_user_image_pages Q s.
Proof.
  intros Hex HQ. pose proof Hex as [Hc Hp [Hb Ha]]. unfold x86_64_syscall_clear_user_image_pages. do 3 wp_step.
  apply (wp_for_seqZ _ _ (fun i s' => exists m, s' = s <| el_mem := m |> /\ same_beyond b (el_mem s) m /\
    forall x, 0 <= x < 4096 * i -> load8 m (b + x) = 0)).
  - done.
  - exists (el_mem s). split; [by destruct s|]. split; [done|]. intros; lia.
  - intros i s' Hi (m & -> & Hout & Hz). unfold X86_64_USER_IMAGE_MAX_PAGES in Hi.
    assert (Hpage : [b; b + 4096; b + 8192; b + 12288] !! Z.to_nat i = Some (b + 4096 * i)).
    { destruct (page_of_offset b (4096 * i)) as (page & H & E); [lia|]. replace (4096 * i / 4096) with i in * by (Z.div_mod_to_equations; lia). by rewrite H, E. }
    wp_step. eapply wp_array_at; [rewrite Hp; exact Hpage|]. rewrite (proj2 (Z.eqb_neq _ 0)) by lia. cbn [negb mwhen].
    unfold X86_64_USER_PAGE_BYTES. apply (wp_for_seqZ _ _ (fun j s' => exists m, s' = s <| el_mem := m |> /\ same_beyond b (el_mem s) m /\
      forall x, 0 <= x < 4096 * i + j -> load8 m (b + x) = 0)).
    + done.
    + exists m. split; [done|]. split; [done|]. intros x Hx. apply Hz. lia.
    + intros j s' Hj (m1 & -> & Hout1 & Hz1). wp_step. exists (store8 (b + 4096 * i [++] j) 0 m1). split; [by destruct s|].
      rewrite u64_small by (unfold is_u64; lia). split.
      * intros a Hna. rewrite load8_store8_ne by lia. by apply Hout1.
      * intros x Hx. destruct (decide (x = 4096 * i + j)) as [->|Hne].
        -- replace (b + (4096 * i + j)) with (b + 4096 * i + j) by lia. by rewrite load8_store8_eq.
        -- rewrite load8_store8_ne by lia. apply Hz1. lia.
    + intros s' (m1 & -> & Hout1 & Hz1). exists m1. split; [done|]. split; [done|]. intros x Hx. apply Hz1. lia.
  - intros s' (m & -> & Hout & Hz). unfold ex_mod. wp_step. apply (HQ m); [done|intros x Hx; apply Hz; unfold X86_64_USER_IMAGE_MAX_PAGES; lia|by constructor|done].
Qed.

(** ** The headers *)

Lemma range_fits_ok o n size : is_u64 o -> is_u64 n -> is_u64 size -> x86_64_syscall_image_range_fits o n size = (o + n <=? size).
Proof.
  unfold is_u64, x86_64_syscall_image_range_fits. intros Ho Hn Hs. destruct (Z.leb_spec o size).
  - rewrite u64_small by (unfold is_u64; lia). cbn [andb]. apply eq_true_iff_eq. rewrite !Z.leb_le. lia.
  - symmetry. apply Z.leb_gt. lia.
Qed.

Lemma header_ok_ok {St} d (Q : bool -> St -> Prop) s :
  is_bytes d -> 64 <= Z.of_nat (length d) <= 65536 -> Q (elf64_ident_ok d && elf64_table_ok d) s ->
  wp (elf64_header_ok d (Z.of_nat (length d))) Q s.
Proof.
  intros Hd Hl HQ. unfold elf64_header_ok, elf64_type, elf64_machine, elf64_version, elf64_header_size, elf64_program_header_entry_size,
    elf64_program_header_count, elf64_program_header_offset. do 14 wp_field64. wp_step.
  unfold X86_64_ELF_MAGIC_0, X86_64_ELF_MAGIC_1, X86_64_ELF_MAGIC_2, X86_64_ELF_MAGIC_3, X86_64_ELF_CLASS_64, X86_64_ELF_DATA_LITTLE_ENDIAN,
    X86_64_ELF_VERSION_CURRENT, X86_64_ELF_TYPE_EXECUTABLE, X86_64_ELF_MACHINE_X86_64, sizeof_elf_header, sizeof_elf_program_header.
  match goal with |- Q ?b s => replace b with (elf64_ident_ok d && elf64_table_ok d); [exact HQ|] end.
  unfold elf64_ident_ok, elf64_table_ok. destruct (Z.eqb_spec (half_at d 54) 56) as [->|Hne]; [|rewrite !andb_false_r; reflexivity].
  pose proof (half_at_range d 56 Hd). rewrite (u64_small (56 * half_at d 56)) by (unfold is_u64; lia).
  rewrite range_fits_ok; [|by apply long_at_range|unfold is_u64; lia|unfold is_u64; lia]. rewrite !andb_assoc, !andb_true_r. reflexivity.
Qed.

Lemma header_at_ok {St} d i (Q : x86_64_elf_program_header -> St -> Prop) s :
  0 <= i < half_at d 56 -> half_at d 54 = 56 -> is_bytes d -> long_at d 32 + 56 * half_at d 56 <= Z.of_nat (length d) -> Z.of_nat (length d) <= 65536 ->
  Q (elf64_header_at d i) s -> wp (x86_64_syscall_program_header_at d (long_at d 32) (half_at d 54) i) Q s.
Proof.
  intros Hi -> Hd Ht Hl HQ. pose proof (long_at_range d 32 Hd) as Hr. unfold is_u64 in Hr.
  unfold x86_64_syscall_program_header_at. rewrite (u64_small (i * 56)), (u64_small (_ + i * 56)) by (unfold is_u64; lia).
  cbv zeta. replace (long_at d 32 + i * 56) with (long_at d 32 + 56 * i) by lia. do 7 wp_field64. by wp_step.
Qed.

(** Fields in the range of their types. *)
Record header_range (p : x86_64_elf_program_header) : Prop := {
  hr_offset : is_u64 (ep_offset p);
  hr_address : is_u64 (ep_virtual_address p);
  hr_file : is_u64 (ep_file_size p);
  hr_memory : is_u64 (ep_memory_size p)
}.

Lemma header_at_range d i : is_bytes d -> header_range (elf64_header_at d i).
Proof. intros Hd. constructor; by apply long_at_range. Qed.

Lemma segment_bad_ok d p :
  header_range p -> Z.of_nat (length d) <= 65536 -> elf64_segment_bad p (Z.of_nat (length d)) = negb (elf64_segment_ok d p).
Proof.
  intros [H1 H2 H3 H4] Hl. unfold elf64_segment_bad, elf64_segment_ok. rewrite range_fits_ok by (done || (unfold is_u64; lia)).
  unfold is_u64 in *. unfold X86_64_USER_CODE_BASE, X86_64_USER_IMAGE_MAX_BYTES, X86_64_USER_PAGE_BYTES.
  change (0x400000 [++] 16384) with 0x404000. rewrite !negb_andb, !Z.leb_antisym, !negb_involutive.
  f_equal. f_equal. f_equal.
  destruct (decide (ep_virtual_address p + ep_memory_size p < 18446744073709551616)) as [Hs|Hs].
  - rewrite u64_small by (unfold is_u64; lia). rewrite (proj2 (Z.ltb_ge _ (ep_virtual_address p))) by lia. done.
  - assert (Hw : ep_virtual_address p [++] ep_memory_size p = ep_virtual_address p + ep_memory_size p - 18446744073709551616).
    { unfold u64. rewrite <- (Z.mod_small (ep_virtual_address p + ep_memory_size p - 18446744073709551616) 18446744073709551616) by lia.
      rewrite <- (Z_mod_plus_full (ep_virtual_address p + ep_memory_size p - 18446744073709551616) 1). f_equal. lia. }
    rewrite Hw, (proj2 (Z.ltb_lt _ (ep_virtual_address p))) by lia. rewrite (proj2 (Z.ltb_lt 0x404000 (_ + _))) by lia. by rewrite orb_true_r.
Qed.

(** ** Loading the segments *)

Lemma testbit_page_bit b p i : 0 <= p < 4 -> 0 <= i -> Z.testbit (Z.lor b (u32 (Z.shiftl 1 p))) i = Z.testbit b i || (i =? p).
Proof.
  intros Hp Hi. rewrite Z.lor_spec. f_equal. rewrite Z.shiftl_mul_pow2, Z.mul_1_l by lia.
  assert (Hu : u32 (2 ^ p) = 2 ^ p). { apply u32_small. unfold is_u32. pose proof (Z.pow_le_mono_r 2 p 3 ltac:(lia) ltac:(lia)). pose proof (Z.pow_pos_nonneg 2 p). lia. }
  rewrite Hu, Z.pow2_bits_eqb by lia. apply Z.eqb_sym.
Qed.

Lemma mark_pages_cons w f (n : nat) s (Q : option unit -> elf64 -> Prop) :
  0 <= f < 4 ->
  wp (mwhen (negb (Z.land w 2 =? 0)) (ex_mod (fun ex => ex <| exec_user_writable_page_bitmap ::= fun b => Z.lor b (u32 (Z.shiftl 1 f)) |>)))
    (fun _ => wp (elf64_mark_pages w (f + 1) (f + 1 + Z.of_nat n - 1)) Q) s ->
  wp (elf64_mark_pages w f (f + Z.of_nat (S n) - 1)) Q s.
Proof.
  intros Hf H. unfold elf64_mark_pages. rewrite seqZ_cons by lia. cbn [mfor_ret].
  rewrite (proj2 (Z.leb_gt X86_64_USER_IMAGE_MAX_PAGES f)) by (unfold X86_64_USER_IMAGE_MAX_PAGES; lia).
  replace (Z.pred (f + Z.of_nat (S n) - 1 + 1 - f)) with (f + 1 + Z.of_nat n - 1 + 1 - (f + 1)) by lia.
  replace (Z.succ f) with (f + 1) by lia. wp_step. wp_step.
  eapply wp_mono; [exact H|]. intros [] s' H'. apply wp_ret. exact H'.
Qed.

(** The pages from [f] to [f + n - 1] of a writable segment are marked. *)
Lemma mark_pages_ok w f (n : nat) s (Q : option unit -> elf64 -> Prop) :
  0 <= f -> f + Z.of_nat n <= 4 ->
  (forall bits, (forall i, 0 <= i -> Z.testbit bits i = Z.testbit (exec_user_writable_page_bitmap (el_exec s)) i ||
       (negb (Z.land w 2 =? 0) && (f <=? i) && (i <=? f + Z.of_nat n - 1))) ->
     Q None (s <| el_exec ::= fun ex => ex <| exec_user_writable_page_bitmap := bits |> |>)) ->
  wp (elf64_mark_pages w f (f + Z.of_nat n - 1)) Q s.
Proof.
  revert f s. induction n as [|n IH]; intros f s Hf Hn HQ.
  - unfold elf64_mark_pages. rewrite seqZ_nil by lia. apply wp_ret. specialize (HQ (exec_user_writable_page_bitmap (el_exec s))).
    assert (E : s <| el_exec ::= fun ex => ex <| exec_user_writable_page_bitmap := exec_user_writable_page_bitmap (el_exec s) |> |> = s) by (by destruct s as [? []]).
    rewrite E in HQ. apply HQ. intros i Hi. replace (_ && _ && _) with false; [by rewrite orb_false_r|].
    symmetry. destruct (Z.leb_spec f i); [|by rewrite andb_false_r]. rewrite (proj2 (Z.leb_gt i _)) by lia. by rewrite andb_false_r.
  - apply mark_pages_cons; [lia|].
    assert (Hrange : forall i, 0 <= i -> (f <=? i) && (i <=? f + Z.of_nat (S n) - 1) = (i =? f) || (f + 1 <=? i) && (i <=? f + 1 + Z.of_nat n - 1)).
    { intros i Hi. destruct (Z.leb_spec f i), (Z.leb_spec i (f + Z.of_nat (S n) - 1)), (Z.eqb_spec i f), (Z.leb_spec (f + 1) i),
        (Z.leb_spec i (f + 1 + Z.of_nat n - 1)); cbn; try reflexivity; lia. }
    destruct (negb (Z.land w 2 =? 0)); cbn [mwhen].
    + unfold ex_mod. wp_step. apply IH; [lia|lia|]. intros bits Hb.
      match goal with |- Q None ?t => replace t with (s <| el_exec ::= fun ex => ex <| exec_user_writable_page_bitmap := bits |> |>) by (by destruct s as [? []]) end.
      apply HQ. intros i Hi. rewrite (Hb i Hi).
      change (exec_user_writable_page_bitmap (el_exec (s <| el_exec ::= fun ex => ex <| exec_user_writable_page_bitmap ::= fun b => Z.lor b (u32 (Z.shiftl 1 f)) |> |>)))
        with (Z.lor (exec_user_writable_page_bitmap (el_exec s)) (u32 (Z.shiftl 1 f))).
      rewrite testbit_page_bit by lia. rewrite <- !andb_assoc, Hrange by lia. by rewrite !andb_true_l, orb_assoc.
    + wp_step. apply IH; [lia|lia|]. intros bits Hb. apply HQ. intros i Hi. by rewrite (Hb i Hi), <- !andb_assoc, !andb_false_l.
Qed.

Lemma copy_segment_ok b d p s (Q : option unit -> elf64 -> Prop) :
  exec_pages b (el_exec s) -> is_bytes d -> 0 <= ep_virtual_address p - 0x400000 -> 0 <= ep_file_size p ->
  ep_virtual_address p - 0x400000 + ep_file_size p <= 16384 ->
  0 <= ep_offset p -> ep_offset p + ep_file_size p <= Z.of_nat (length d) ->
  (forall m, same_beyond b (el_mem s) m ->
     (forall x, 0 <= x < 16384 -> load8 m (b + x) = elf64_put d x (load8 (el_mem s) (b + x)) p) -> Q None (s <| el_mem := m |>)) ->
  wp (elf64_copy_segment d (ep_offset p) (ep_virtual_address p - 0x400000) (ep_file_size p)) Q s.
Proof.
  set (o := ep_virtual_address p - 0x400000). intros Hex Hd Ho Hf Hof Hoff Hl HQ. unfold elf64_copy_segment.
  apply (wp_for_ret_seqZ _ _ (fun j s' => exists m, s' = s <| el_mem := m |> /\ same_beyond b (el_mem s) m /\
    forall x, 0 <= x < 16384 -> load8 m (b + x) = if (o <=? x) && (x <? o + j) then byte_at d (ep_offset p + (x - o)) else load8 (el_mem s) (b + x))).
  - done.
  - exists (el_mem s). split; [by destruct s|]. split; [done|]. intros x Hx. destruct (Z.leb_spec o x); [|done].
    by rewrite (proj2 (Z.ltb_ge x _)) by lia.
  - intros j s' Hj (m & -> & Hout & Hin). wp_step.
    assert (Hlk : is_Some (d !! Z.to_nat (ep_offset p + j))) by (apply lookup_lt_is_Some; lia). destruct Hlk as [v Hv].
    eapply wp_array_at; [exact Hv|]. wp_step. rewrite u64_small by (unfold is_u64; lia).
    apply (copy_byte_ok b); [exact Hex|lia|]. cbn [negb]. wp_step. exists (store8 (b + (o + j)) v m).
    split; [by rewrite set_mem_twice|]. destruct Hex as [_ _ [Hb _]]. split.
    + intros a Ha. rewrite load8_store8_ne by lia. by apply Hout.
    + intros x Hx. destruct (decide (x = o + j)) as [->|Hne].
      * rewrite load8_store8_eq. rewrite (proj2 (Z.leb_le o _)), (proj2 (Z.ltb_lt (o + j) _)) by lia. cbn [andb].
        unfold byte_at. replace (ep_offset p + (o + j - o)) with (ep_offset p + j) by lia. rewrite Hv. cbn.
        pose proof (byte_at_range d (ep_offset p + j) Hd) as Hbv. unfold byte_at in Hbv. rewrite Hv in Hbv. cbn in Hbv. unfold u8. by rewrite Z.mod_small by lia.
      * rewrite load8_store8_ne, (Hin x Hx) by lia. destruct (Z.leb_spec o x), (Z.ltb_spec x (o + j)), (Z.ltb_spec x (o + (j + 1))); cbn; try reflexivity; lia.
  - intros s' (m & -> & Hout & Hin). apply HQ; [done|]. intros x Hx. rewrite (Hin x Hx). reflexivity.
Qed.

(** What the loader has done after the segments [l]. *)
Record segments_loaded (b : Z) (d : list Z) (m0 : mem) (ex0 : exec64) (l : list x86_64_elf_program_header) (s : elf64) : Prop := {
  sl_out : same_beyond b m0 (el_mem s);
  sl_bytes : forall x, 0 <= x < 16384 -> load8 (el_mem s) (b + x) = elf64_byte d l x;
  sl_writable : forall i, 0 <= i -> Z.testbit (exec_user_writable_page_bitmap (el_exec s)) i = elf64_writable l i;
  sl_exec : exists bits, el_exec s = ex0 <| exec_user_writable_page_bitmap := bits |>
}.

Lemma exec_pages_bits b ex bits : exec_pages b ex -> exec_pages b (ex <| exec_user_writable_page_bitmap := bits |>).
Proof. by intros [H1 H2 H3]. Qed.

Lemma segments_loaded_pages b d m0 ex0 l s : exec_pages b ex0 -> segments_loaded b d m0 ex0 l s -> exec_pages b (el_exec s).
Proof. intros Hex [_ _ _ [bits ->]]. by apply exec_pages_bits. Qed.

(** The variables of the loop after the segments [l]. *)
Definition elf64_vars (entry : Z) (l : list x86_64_elf_program_header) : bool * bool * Z :=
  (negb (bool_decide (l = [])), existsb (elf64_entry_in entry) l, elf64_extent l).

Lemma elf64_extent_snoc l p : elf64_extent (l ++ [p]) = Z.max (elf64_extent l) (ep_virtual_address p - 0x400000 + ep_memory_size p).
Proof. unfold elf64_extent. by rewrite fold_left_app. Qed.

Lemma elf64_vars_snoc entry l p :
  elf64_vars entry (l ++ [p]) = (true, existsb (elf64_entry_in entry) l || elf64_entry_in entry p,
    if elf64_extent l <? ep_virtual_address p - 0x400000 + ep_memory_size p then ep_virtual_address p - 0x400000 + ep_memory_size p else elf64_extent l).
Proof.
  unfold elf64_vars. rewrite elf64_extent_snoc, existsb_app. cbn [existsb]. rewrite orb_false_r, bool_decide_eq_false_2 by (by destruct l).
  cbn [negb]. f_equal. destruct (Z.ltb_spec (elf64_extent l) (ep_virtual_address p - 0x400000 + ep_memory_size p)); lia.
Qed.

Record segment_bounds (d : list Z) (p : x86_64_elf_program_header) : Prop := {
  sb_base : 0x400000 <= ep_virtual_address p;
  sb_end : ep_virtual_address p + ep_memory_size p <= 0x404000;
  sb_file : ep_file_size p <= ep_memory_size p;
  sb_image : ep_offset p + ep_file_size p <= Z.of_nat (length d)
}.

Lemma segment_ok_bounds d p : elf64_segment_ok d p = true -> segment_bounds d p.
Proof. unfold elf64_segment_ok. rewrite !andb_true_iff, !Z.leb_le. intros [[[[]]]]. by constructor. Qed.

Lemma load_segment_ok b d m0 ex0 l p entry s (Q : option (bool * bool * Z) -> elf64 -> Prop) :
  exec_pages b ex0 -> is_bytes d -> Z.of_nat (length d) <= 65536 -> header_range p -> elf64_loadable p = true ->
  segments_loaded b d m0 ex0 l s ->
  (if elf64_segment_ok d p then forall s', segments_loaded b d m0 ex0 (l ++ [p]) s' -> Q (Some (elf64_vars entry (l ++ [p]))) s' else Q None s) ->
  wp (elf64_load_segment d (Z.of_nat (length d)) entry p (elf64_vars entry l)) Q s.
Proof.
  intros Hex Hd Hlen Hr Hlo Hs HQ. unfold elf64_load_segment. cbn [elf64_vars]. unfold elf64_vars at 1.
  unfold elf64_loadable in Hlo. apply andb_true_iff in Hlo as [Ht Hm]. unfold X86_64_ELF_PROGRAM_TYPE_LOAD.
  rewrite Ht. apply negb_true_iff in Hm. rewrite Hm. cbn [negb orb]. rewrite segment_bad_ok by done.
  destruct (elf64_segment_ok d p) eqn:Ho; cbn [negb]; [|by apply wp_ret].
  apply segment_ok_bounds in Ho as [Hb1 Hb2 Hb3 Hb4]. destruct Hr as [R1 R2 R3 R4]. unfold is_u64 in *. apply Z.eqb_neq in Hm.
  unfold X86_64_USER_CODE_BASE, X86_64_USER_PAGE_BYTES. cbv zeta.
  rewrite (u64_small (ep_virtual_address p + ep_memory_size p)), (u64_small (ep_virtual_address p - 0x400000)) by (unfold is_u64; lia).
  rewrite (u64_small (ep_virtual_address p - 0x400000 + ep_memory_size p)) by (unfold is_u64; lia).
  rewrite (u64_small (_ - 1)) by (unfold is_u64; lia).
  set (f := (ep_virtual_address p - 0x400000) / 4096). set (g := (ep_virtual_address p - 0x400000 + ep_memory_size p - 1) / 4096).
  assert (Hfg : 0 <= f <= g /\ g < 4) by (unfold f, g; split; [split|]; Z.div_mod_to_equations; lia).
  rewrite !u32_small by (unfold is_u32; lia). wp_step.
  replace g with (f + Z.of_nat (Z.to_nat (g + 1 - f)) - 1) at 1 by lia. apply mark_pages_ok; [lia|lia|]. intros bits Hbits.
  pose proof (segments_loaded_pages _ _ _ _ _ _ Hex Hs) as Hexs. destruct Hs as [S1 S2 S3 [bits0 S4]].
  wp_step. apply (copy_segment_ok b); [by apply exec_pages_bits|done|lia|lia|lia|lia|lia|]. intros m Hout Hin. wp_step.
  specialize (HQ (Build_elf64 m ((el_exec s) <| exec_user_writable_page_bitmap := bits |>))). rewrite elf64_vars_snoc in HQ. apply HQ. clear HQ.
  constructor.
  - intros a Ha. cbn [el_mem]. rewrite (Hout a Ha). by apply S1.
  - intros x Hx. cbn [el_mem]. rewrite (Hin x Hx). unfold elf64_byte. rewrite fold_left_app. cbn [fold_left]. f_equal. by apply S2.
  - intros i Hi. change (Z.testbit bits i = elf64_writable (l ++ [p]) i). rewrite (Hbits i Hi), (S3 i Hi). unfold elf64_writable. rewrite existsb_app.
    cbn [existsb]. rewrite orb_false_r. do 2 f_equal. f_equal. fold g. lia.
  - exists bits. cbn [el_exec]. rewrite S4. reflexivity.
Qed.

(** ** The loop over the program headers *)

Lemma wp_fold_seqZ {St A} n (body : A -> Z -> M St A) (I : Z -> A -> St -> Prop) a (Q : A -> St -> Prop) s :
  I 0 a s -> 0 <= n -> (forall i a' s', 0 <= i < n -> I i a' s' -> wp (body a' i) (I (i + 1)) s') -> (forall a' s', I n a' s' -> Q a' s') ->
  wp (mfold (seqZ 0 n) body a) Q s.
Proof.
  intros H0 Hn Hstep HQ. apply (wp_fold _ _ (fun l => I (Z.of_nat (length l)))); [done| |].
  - intros l x r a' s' E HI. assert (Hx : seqZ 0 n !! length l = Some x) by (rewrite E; by rewrite list_lookup_middle).
    apply lookup_seqZ in Hx as [-> Hx]. rewrite length_app. cbn [length]. replace (Z.of_nat (length l + 1)) with (Z.of_nat (length l) + 1) by lia.
    apply Hstep; [lia|done].
  - intros a' s'. rewrite length_seqZ, Z2Nat.id by lia. apply HQ.
Qed.

Lemma elf64_segments_to_succ d i :
  0 <= i -> elf64_segments_to d (i + 1) = elf64_segments_to d i ++ (if elf64_loadable (elf64_header_at d i) then [elf64_header_at d i] else []).
Proof.
  intros Hi. unfold elf64_segments_to. rewrite (seqZ_app 0 i 1) by lia. rewrite fmap_app, List.filter_app. f_equal.
Qed.

Definition elf64_loop_inv (b : Z) (d : list Z) (m0 : mem) (ex0 : exec64) (l : list x86_64_elf_program_header)
    (r : option (bool * bool * Z)) (s : elf64) : Prop :=
  if forallb (elf64_segment_ok d) l then r = Some (elf64_vars (long_at d 24) l) /\ segments_loaded b d m0 ex0 l s
  else r = None /\ same_beyond b m0 (el_mem s) /\ exists bits, el_exec s = ex0 <| exec_user_writable_page_bitmap := bits |>.

Lemma load_segments_ok b d m0 ex0 s (Q : option (bool * bool * Z) -> elf64 -> Prop) :
  exec_pages b ex0 -> is_bytes d -> Z.of_nat (length d) <= 65536 -> half_at d 54 = 56 -> long_at d 32 + 56 * half_at d 56 <= Z.of_nat (length d) ->
  segments_loaded b d m0 ex0 [] s -> (forall r s', elf64_loop_inv b d m0 ex0 (elf64_segments d) r s' -> Q r s') ->
  wp (elf64_load_segments d (Z.of_nat (length d)) (long_at d 24) (long_at d 32) (half_at d 54) (half_at d 56)) Q s.
Proof.
  intros Hex Hd Hlen H54 Ht Hs HQ. pose proof (half_at_range d 56 Hd). unfold elf64_load_segments.
  apply (wp_fold_seqZ _ _ (fun i => elf64_loop_inv b d m0 ex0 (elf64_segments_to d i))); [|lia| |exact HQ].
  { split; [reflexivity|exact Hs]. }
  intros i r s' Hi HI. rewrite elf64_segments_to_succ by lia. set (l := elf64_segments_to d i) in *. set (p := elf64_header_at d i).
  unfold elf64_loop_inv in *. rewrite forallb_app. destruct (forallb (elf64_segment_ok d) l) eqn:Hl; cbn [andb].
  - destruct HI as [-> HI]. wp_step. apply header_at_ok; [done|done|done|done|done|]. fold p.
    destruct (elf64_loadable p) eqn:Hlo.
    + apply (load_segment_ok b d m0 ex0 l); [done|done|done|by apply header_at_range|done|done|]. cbn [forallb]. rewrite andb_true_r.
      destruct (elf64_segment_ok d p); [intros s2 H2; by split|]. split; [done|]. split; [apply (sl_out _ _ _ _ _ _ HI)|apply (sl_exec _ _ _ _ _ _ HI)].
    + cbn [forallb]. rewrite app_nil_r. unfold elf64_load_segment, X86_64_ELF_PROGRAM_TYPE_LOAD. unfold elf64_loadable in Hlo.
      unfold elf64_vars at 1. rewrite <- (negb_involutive (ep_memory_size p =? 0)), <- negb_andb, Hlo. cbn [negb]. by apply wp_ret.
  - destruct HI as (-> & H1 & H2). apply wp_ret. done.
Qed.

(** ** The bounds of an accepted file *)

Lemma elf64_extent_app_le l1 l2 : elf64_extent l1 <= elf64_extent (l1 ++ l2).
Proof.
  induction l2 as [|p l2 IH] using rev_ind; [by rewrite app_nil_r|]. rewrite app_assoc, elf64_extent_snoc. lia.
Qed.

Lemma elf64_extent_bounds d l : forallb (elf64_segment_ok d) l = true -> 0 <= elf64_extent l <= 16384.
Proof.
  induction l as [|p l IH] using rev_ind; [done|]. rewrite forallb_app, elf64_extent_snoc. cbn [forallb]. rewrite !andb_true_iff.
  intros (H & Hp & _). apply segment_ok_bounds in Hp as []. specialize (IH H). lia.
Qed.

Lemma elf64_extent_entry d entry l :
  forallb (elf64_segment_ok d) l = true -> existsb (elf64_entry_in entry) l = true -> 0 <= entry - 0x400000 < elf64_extent l.
Proof.
  intros Ha (p & Hp & He)%existsb_exists. apply in_split in Hp as (l1 & l2 & ->).
  replace (l1 ++ p :: l2) with ((l1 ++ [p]) ++ l2) in * by (by rewrite <- app_assoc). pose proof (elf64_extent_app_le (l1 ++ [p]) l2) as H1.
  rewrite elf64_extent_snoc in H1. rewrite !forallb_app, !andb_true_iff in Ha. cbn [forallb] in Ha. rewrite andb_true_r in Ha.
  destruct Ha as [[_ Hok] _]. apply segment_ok_bounds in Hok as []. unfold elf64_entry_in in He. rewrite !andb_true_iff, Z.leb_le, Z.ltb_lt in He. lia.
Qed.

(** ** The whole loader *)

(** The program of [d] is in the pages, and the dispatcher knows its entry, its size and
    its writable pages. *)
Record elf64_image (b : Z) (d : list Z) (s : elf64) : Prop := {
  ei_bytes : forall x, 0 <= x < 16384 -> load8 (el_mem s) (b + x) = elf64_byte d (elf64_segments d) x;
  ei_entry : exec_entry (el_exec s) = long_at d 24;
  ei_extent : exec_user_image_bytes (el_exec s) = elf64_extent (elf64_segments d);
  ei_count : exec_user_image_page_count (el_exec s) = (elf64_extent (elf64_segments d) + 4095) / 4096;
  ei_writable : forall i, 0 <= i -> Z.testbit (exec_user_writable_page_bitmap (el_exec s)) i = elf64_writable (elf64_segments d) i;
  ei_loaded : exec_loaded (el_exec s) = true
}.

(** Failed loads leave the entry and the flag of the last program. *)
Definition elf64_refused (s s' : elf64) : Prop :=
  exec_entry (el_exec s') = exec_entry (el_exec s) /\ exec_loaded (el_exec s') = exec_loaded (el_exec s).

Lemma load_exec_elf_ok b d s :
  exec_pages b (el_exec s) -> is_bytes d ->
  wp (x86_64_syscall_load_exec_elf d (Z.of_nat (length d)))
    (fun r s' => r = elf64_accepts d /\ same_beyond b (el_mem s) (el_mem s') /\ exec_pages b (el_exec s') /\
       if r then elf64_image b d s' else elf64_refused s s') s.
Proof.
  intros Hex Hd. pose proof Hex as [_ Hp [Hb _]]. unfold x86_64_syscall_load_exec_elf. do 3 wp_step.
  eapply wp_array_at; [rewrite Hp; reflexivity|]. rewrite (proj2 (Z.eqb_neq b 0)) by lia. unfold sizeof_elf_header, X86_64_USER_STACK_BYTES. cbn [orb].
  unfold elf64_accepts. destruct (Z.ltb_spec (Z.of_nat (length d)) 64).
  { rewrite (proj2 (Z.leb_gt 64 _)) by lia. by apply wp_ret. }
  rewrite (proj2 (Z.leb_le 64 _)) by lia. cbn [orb andb]. destruct (Z.ltb_spec 65536 (Z.of_nat (length d))).
  { rewrite (proj2 (Z.leb_gt _ 65536)) by lia. by apply wp_ret. }
  rewrite (proj2 (Z.leb_le _ 65536)) by lia. wp_step. apply header_ok_ok; [done|lia|].
  destruct (elf64_ident_ok d && elf64_table_ok d) eqn:Hh; cbn [negb andb]; [|by apply wp_ret].
  apply andb_true_iff in Hh as [Hid Htab]. unfold elf64_ident_ok in Hid. apply andb_true_iff in Hid as [_ H54%Z.eqb_eq].
  unfold elf64_table_ok in Htab. rewrite !andb_true_iff, !Z.leb_le in Htab. destruct Htab as [_ Htab].
  wp_step. apply (clear_pages_ok b); [done|]. intros m ex Hout Hz Hex' Eex.
  unfold elf64_entry, elf64_program_header_offset, elf64_program_header_entry_size, elf64_program_header_count. do 4 wp_field64. wp_step.
  apply (load_segments_ok b d (el_mem s) ex); [done|done|lia|done|done| |].
  { constructor; [done|done| |exists 0; by rewrite Eex]. intros i Hi. rewrite Eex. apply Z.testbit_0_l. }
  intros r s' HI. unfold elf64_loop_inv in HI. destruct (forallb _ _) eqn:Hall; cbn [andb].
  2: { destruct HI as (-> & H1 & bits & H2). apply wp_ret. rewrite H2. split; [done|]. split; [done|].
    split; [by apply exec_pages_bits|]. unfold elf64_refused. by rewrite H2, Eex. }
  destruct HI as [-> HI]. pose proof (segments_loaded_pages _ _ _ _ _ _ Hex' HI) as Hpg. destruct HI as [S1 S2 S3 [bits S4]].
  unfold elf64_vars. destruct (existsb _ _) eqn:Hent; cbn [negb].
  2: { rewrite orb_true_r. cbn [orb]. apply wp_ret. split; [done|]. split; [done|]. split; [done|]. unfold elf64_refused. by rewrite S4, Eex. }
  pose proof (elf64_extent_bounds _ _ Hall). pose proof (elf64_extent_entry _ _ _ Hall Hent).
  rewrite bool_decide_eq_false_2 by (intros E; by rewrite E in Hent). unfold X86_64_USER_IMAGE_MAX_BYTES, X86_64_USER_PAGE_BYTES.
  rewrite (proj2 (Z.eqb_neq _ 0)), (proj2 (Z.ltb_ge 16384 _)) by lia. cbn [negb orb]. unfold ex_mod. wp_step. wp_step. wp_step.
  rewrite (u64_small (_ + 4096)), (u64_small (_ - 1)) by (unfold is_u64; lia).
  replace (elf64_extent (elf64_segments d) + 4096 - 1) with (elf64_extent (elf64_segments d) + 4095) by lia.
  rewrite (u32_small (_ / 4096)) by (unfold is_u32; Z.div_mod_to_equations; lia).
  split; [done|]. split; [done|]. split; [by destruct Hpg|]. by constructor.
Qed.

(** ** Theorem *)

(** C15: [x86_64_syscall_load_exec_elf] accepts exactly the files of the reference: a
    64-bit little-endian x86-64 executable whose headers lie in the file, whose loadable
    segments lie in the file and in the four pages from 0x400000, and whose entry lies in
    an executable segment. It returns; on success the pages hold the program, byte for byte
    (later segments over earlier ones, zeros elsewhere), and the entry, the size, the number
    of pages and the set of writable pages are those of the file; on failure the entry and
    the loaded flag are those of before. No byte outside the pages changes. *)
Theorem elf64_load_exact b d s :
  exec_pages b (el_exec s) -> is_bytes d ->
  wp (x86_64_syscall_load_exec_elf d (Z.of_nat (length d)))
    (fun r s' => r = elf64_accepts d /\ same_beyond b (el_mem s) (el_mem s') /\ exec_pages b (el_exec s') /\
       if r then elf64_image b d s' else elf64_refused s s') s.
Proof. apply load_exec_elf_ok. Qed.

(** A program of two segments: three bytes of code, and a writable byte in the next page. *)
Definition le (n : nat) (v : Z) : list Z := (fun i => v / 2 ^ (8 * i) mod 256) <$> seqZ 0 (Z.of_nat n).
Definition elf64_segment_bytes (flags offset va file mem : Z) : list Z :=
  le 4 1 ++ le 4 flags ++ le 8 offset ++ le 8 va ++ le 8 va ++ le 8 file ++ le 8 mem ++ le 8 4096.
Definition elf64_sample (machine : Z) : list Z :=
  [127; 69; 76; 70; 2; 1; 1] ++ replicate 9 0 ++ le 2 2 ++ le 2 machine ++ le 4 1 ++ le 8 0x400000 ++ le 8 64 ++ le 8 0 ++ le 4 0 ++
  le 2 64 ++ le 2 56 ++ le 2 2 ++ le 6 0 ++
  elf64_segment_bytes 5 176 0x400000 3 3 ++ elf64_segment_bytes 6 179 0x401000 1 32 ++ [0x90; 0xeb; 0xfe; 42].
Definition elf64_start : elf64 :=
  {| el_mem := ∅; el_exec := Build_exec64 0x180000 [0x180000; 0x181000; 0x182000; 0x183000] 0 0 0 0 false |}.

Lemma elf64_start_pages : exec_pages 0x180000 (el_exec elf64_start).
Proof. by constructor. Qed.

Lemma elf64_sample_bytes machine : is_bytes (elf64_sample machine).
Proof.
  assert (Hle : forall n v, is_bytes (le n v)).
  { intros n v. apply Forall_forall. intros x (i & -> & _)%list_elem_of_fmap. apply Z.mod_pos_bound. lia. }
  assert (Hseg : forall a b c d e, is_bytes (elf64_segment_bytes a b c d e)) by (intros; repeat (apply Forall_app_2; [apply Hle|]); apply Hle).
  unfold elf64_sample. repeat (apply Forall_app_2; [first [apply Hle|apply Hseg|repeat constructor; lia]|]). repeat constructor; lia.
Qed.

Lemma elf64_load_exact_witness :
  wp (x86_64_syscall_load_exec_elf (elf64_sample 62) 180) (fun r s' => r = true /\ load8 (el_mem s') 0x181000 = 42 /\
    exec_entry (el_exec s') = 0x400000 /\ exec_user_image_bytes (el_exec s') = 4128 /\ exec_user_image_page_count (el_exec s') = 2) elf64_start /\
  wp (x86_64_syscall_load_exec_elf (elf64_sample 3) 180) (fun r _ => r = false) elf64_start.
Proof.
  split.
  - eapply wp_mono; [exact (elf64_load_exact 0x180000 (elf64_sample 62) elf64_start elf64_start_pages (elf64_sample_bytes 62))|].
    assert (elf64_accepts (elf64_sample 62) = true) as -> by (vm_compute; reflexivity). intros r s' (-> & _ & _ & [H1 H2 H3 H4 _ _]).
    split; [reflexivity|]. split; [etransitivity; [exact (H1 4096 ltac:(lia))|vm_compute; reflexivity]|].
    rewrite H2, H3, H4. split; [|split]; vm_compute; reflexivity.
  - eapply wp_mono; [exact (elf64_load_exact 0x180000 (elf64_sample 3) elf64_start elf64_start_pages (elf64_sample_bytes 3))|].
    assert (elf64_accepts (elf64_sample 3) = false) as -> by (vm_compute; reflexivity). by intros r s' (-> & _).
Defined.
