(* ===== verification/Syscall64.v ===== *)
(** * The system calls of the 64-bit kernel (arch/x86_64/syscall_dispatch.h, user_mode.c)

    The dispatcher runs in the address space of the caller. A pointer that user code
    passes is an address there: each access goes through the caller's page tables
    ([walk64]), and an address that is not mapped stops the kernel. The kernel's own
    objects (the file table, the pages into which a program is loaded, the input
    queues) are linked from 1 MiB on and taken to end below 0x400000, where the
    addresses it accepts begin; so a path that is checked is still there when it is
    read.
    Storing a text first builds it in a list and then stores the bytes that the code
    writes. *)
From S2P Require Import Prelude Word64 Mem KString Loader Pmm64 Vfs64 Input64 Text64 Process64 Elf64.

Definition X86_64_SYSCALL_RET_OK := 0.
Definition X86_64_SYSCALL_RET_EFAULT := 0xFFFFFFFFFFFFFFF2.
Definition X86_64_SYSCALL_RET_EINVAL := 0xFFFFFFFFFFFFFFEA.
Definition X86_64_SYSCALL_RET_ENOENT := 0xFFFFFFFFFFFFFFFE.
Definition X86_64_SYSCALL_RET_ENOSYS := 0xFFFFFFFFFFFFFFDA.
Definition X86_64_SYSCALL_STDIN := 0.
Definition X86_64_SYSCALL_STDOUT := 1.
Definition X86_64_SYSCALL_STDERR := 2.
Definition X86_64_SYSCALL_WRITE_MAX_BYTES := 1024.
Definition X86_64_SYSCALL_ARG_SHELL_MODE := 0.
Definition X86_64_USER_CANONICAL_LIMIT := 0x0000800000000000.
Definition sizeof_input_event := 24.

(** The services. *)
Definition X86_64_SYSCALL_SERVICE_EXIT := 1.
Definition X86_64_SYSCALL_SERVICE_WRITE := 2.
Definition X86_64_SYSCALL_SERVICE_OPEN := 3.
Definition X86_64_SYSCALL_SERVICE_READ := 4.
Definition X86_64_SYSCALL_SERVICE_CLOSE := 5.
Definition X86_64_SYSCALL_SERVICE_STAT := 6.
Definition X86_64_SYSCALL_SERVICE_GET_ARG := 7.
Definition X86_64_SYSCALL_SERVICE_EXEC := 8.
Definition X86_64_SYSCALL_SERVICE_GETPID := 9.
Definition X86_64_SYSCALL_SERVICE_YIELD := 10.
Definition X86_64_SYSCALL_SERVICE_PS := 11.
Definition X86_64_SYSCALL_SERVICE_WAIT := 12.
Definition X86_64_SYSCALL_SERVICE_DESKTOP_STATUS := 13.
Definition X86_64_SYSCALL_SERVICE_WINDOW_PRESENT := 14.
Definition X86_64_SYSCALL_SERVICE_TICKS := 15.
Definition X86_64_SYSCALL_SERVICE_SLEEP_TICKS := 16.
Definition X86_64_SYSCALL_SERVICE_INPUT_STATUS := 17.
Definition X86_64_SYSCALL_SERVICE_INPUT_EVENTS := 18.
Definition X86_64_SYSCALL_SERVICE_SPAWN := 19.
Definition X86_64_SYSCALL_SERVICE_COUNT := 19.

(** The fields of [struct x86_64_syscall_dispatch_state] that the dispatcher uses and
    that are not in [exec64] or [vfs64]. *)
Record x86_64_syscall_dispatch_state := {
  sd_initialized : bool;
  sd_service_count : Z;
  sd_current_pid : Z;
  sd_dispatch_calls : Z;
  sd_file_service_ready : bool;
  sd_file_count : Z;
  sd_open_file_count : Z;
  sd_write_output_enabled : bool;
  sd_blocking_read_enabled : bool;
  sd_blocking_read_spins : Z;
  sd_ps_ok : bool;
  sd_wait_ok : bool;
  sd_desktop_status_ok : bool;
  sd_window_present_ok : bool;
  sd_ticks_ok : bool;
  sd_sleep_ticks_ok : bool;
  sd_input_status_ok : bool;
  sd_input_events_ok : bool;
  sd_input_events_empty_ok : bool;
  sd_input_event_cursor : Z;
  sd_exec_path_found : bool;
  sd_exec_type_ok : bool;
  sd_exec_process_created : bool;
  sd_exec_cr3_switch_requested : bool;
  sd_exec_spawned_pid : Z;
  sd_spawn_fault_ok : bool;
  sd_spawn_path_found : bool;
  sd_spawn_type_ok : bool;
  sd_spawn_loaded : bool;
  sd_spawn_process_created : bool;
  sd_spawn_spawned_pid : Z;
  sd_exit_code : Z;
  sd_yield_count : Z;
  sd_exec_target_cr3 : Z;
  sd_last_syscall : Z;
  sd_last_result : Z
}.
#[export] Instance eta_x86_64_syscall_dispatch_state : Settable x86_64_syscall_dispatch_state := fun s =>
  Build_x86_64_syscall_dispatch_state (sd_initialized s) (sd_service_count s) (sd_current_pid s) (sd_dispatch_calls s) (sd_file_service_ready s)
    (sd_file_count s) (sd_open_file_count s) (sd_write_output_enabled s) (sd_blocking_read_enabled s) (sd_blocking_read_spins s) (sd_ps_ok s)
    (sd_wait_ok s) (sd_desktop_status_ok s) (sd_window_present_ok s) (sd_ticks_ok s) (sd_sleep_ticks_ok s) (sd_input_status_ok s)
    (sd_input_events_ok s) (sd_input_events_empty_ok s) (sd_input_event_cursor s) (sd_exec_path_found s) (sd_exec_type_ok s)
    (sd_exec_process_created s) (sd_exec_cr3_switch_requested s) (sd_exec_spawned_pid s) (sd_spawn_fault_ok s) (sd_spawn_path_found s)
    (sd_spawn_type_ok s) (sd_spawn_loaded s) (sd_spawn_process_created s) (sd_spawn_spawned_pid s) (sd_exit_code s) (sd_yield_count s)
    (sd_exec_target_cr3 s) (sd_last_syscall s) (sd_last_result s).

(** [sy_cr3] is the address of the caller's page tables, [sy_serial] what was given to
    the serial line, [sy_polls] what the line answers to each poll of its receiver:
    a character, or nothing. *)
Record sys64 := {
  sy_process : process64;
  sy_vfs : vfs64;
  sy_input : input64;
  sy_exec : exec64;
  sy_state : x86_64_syscall_dispatch_state;
  sy_cr3 : Z;
  sy_serial : list Z;
  sy_polls : list (option Z)
}.
#[export] Instance eta_sys64 : Settable sys64 := fun s =>
  Build_sys64 (sy_process s) (sy_vfs s) (sy_input s) (sy_exec s) (sy_state s) (sy_cr3 s) (sy_serial s) (sy_polls s).

Abbreviation Y := (M sys64).
Definition sd_mod (f : x86_64_syscall_dispatch_state -> x86_64_syscall_dispatch_state) : Y unit := mmod (fun s => s <| sy_state ::= f |>).

(** The components. *)
Definition on_process {A} (m : PR A) : Y A := mzoom sy_process (fun p s => s <| sy_process := p |>) m.
Definition on_vfs64 {A} (m : V64 A) : Y A := mzoom sy_vfs (fun v s => s <| sy_vfs := v |>) m.
Definition on_input {A} (m : I64 A) : Y A := mzoom sy_input (fun i s => s <| sy_input := i |>) m.
Definition on_elf {A} (m : EL A) : Y A :=
  mzoom (fun s => {| el_mem := pr_mem (sy_process s); el_exec := sy_exec s |})
    (fun e s => s <| sy_process := (sy_process s) <| pr_mem := el_mem e |> |> <| sy_exec := el_exec e |>) m.

(** ** Memory of the caller *)

Definition user_load (address : Z) : Y Z :=
  s <- mget (fun s => s) ;;
  match walk64 (pr_mem (sy_process s)) (sy_cr3 s) address with
  | Some (pa, _) => mret_ (load8 (pr_mem (sy_process s)) pa)
  | None => mhalt
  end.

(** The processor lets the kernel write to every page that is mapped. *)
Definition user_store (address value : Z) : Y unit :=
  s <- mget (fun s => s) ;;
  match walk64 (pr_mem (sy_process s)) (sy_cr3 s) address with
  | Some (pa, _) => on_process (mmod (fun p => p <| pr_mem ::= store8 pa value |>))
  | None => mhalt
  end.

(** [address[0 .. length l) = l] *)
Definition user_store_list (address : Z) (l : list Z) : Y unit :=
  mfor (seqZ 0 (Z.of_nat (length l))) (fun i => v <- array_at l i ;; user_store (address [++] i) v).

Definition user_store32 (address value : Z) : Y unit := user_store_list address ((fun i => u8 (Z.shiftr value (8 * i))) <$> seqZ 0 4).
Definition user_store64 (address value : Z) : Y unit := user_store_list address ((fun i => u8 (Z.shiftr value (8 * i))) <$> seqZ 0 8).

Definition x86_64_syscall_user_range_ok (address size : Z) : bool :=
  if size =? 0 then true
  else if address <? X86_64_USER_CODE_BASE then false
  else
    let e := address [++] size in
    if e <? address then false else if X86_64_USER_CANONICAL_LIMIT <? e then false else true.

Definition x86_64_syscall_user_cstring_valid (user_address max_bytes : Z) : Y bool :=
  r <- mfor_ret (seqZ 0 max_bytes) (fun i =>
    if negb (x86_64_syscall_user_range_ok (user_address [++] i) 1) then mret_ (Some false)
    else c <- user_load (user_address [++] i) ;; mret_ (if c =? 0 then Some true else None)) ;;
  mret_ (default false r).

Definition x86_64_syscall_user_path_ok (user_path : Z) : Y bool :=
  if negb (x86_64_syscall_user_range_ok user_path 1) then mret_ false
  else x86_64_syscall_user_cstring_valid user_path X86_64_VFS_PATH_MAX_BYTES.

(** The characters of a path that was checked, as the functions that take it read them. *)
Definition user_path_at (user_path : Z) : Y (list Z) :=
  r <- mfold (seqZ 0 X86_64_VFS_PATH_MAX_BYTES) (fun '(fin, l) i =>
    if fin : bool then mret_ (fin, l)
    else c <- user_load (user_path [++] i) ;; mret_ (if c =? 0 then (true, l) else (false, l ++ [c]))) (false, []) ;;
  mret_ (snd r).

(** ** Output and input of characters *)

(** [x86_64_serial_write] stops at a NUL. *)
Definition x86_64_syscall_write_serial (buffer size : Z) : Y unit :=
  let limit := if X86_64_SYSCALL_WRITE_MAX_BYTES <? size then X86_64_SYSCALL_WRITE_MAX_BYTES else size in
  mfor (seqZ 0 limit) (fun i =>
    c <- user_load (buffer [++] i) ;; mmod (fun s => s <| sy_serial ::= fun l => l ++ cstr [c] |>)).

(** [serial_received] and the read of the port; the line is idle after its last answer. *)
Definition serial_poll : Y (option Z) :=
  polls <- mget sy_polls ;;
  mmod (fun s => s <| sy_polls := drop 1 polls |>) ;;;
  mret_ (default None (head polls)).

Definition serial_read_step (buffer size bytes : Z) : Y (Z + Z) :=
  if negb (bytes <? size) then mret_ (inr bytes)
  else
    c <- serial_poll ;;
    match c with
    | None => mret_ (inr bytes)
    | Some c => user_store (buffer [++] bytes) (u8 c) ;;; mret_ (inl (bytes [++] 1))
    end.

Definition x86_64_serial_read (buffer size : Z) : Y Z :=
  if (buffer =? 0) || (size =? 0) then mret_ 0 else mloop (serial_read_step buffer size) 0.

Definition x86_64_syscall_read_stdin (buffer size : Z) : Y Z :=
  r <- on_input (x86_64_keyboard_read (if buffer =? 0 then None else Some (replicate (Z.to_nat size) 0)) size) ;;
  let bytes := fst r in
  user_store_list buffer (take (Z.to_nat bytes) (default [] (snd r))) ;;;
  if bytes <? size then
    more <- x86_64_serial_read (buffer [++] bytes) (size [--] bytes) ;; mret_ (bytes [++] more)
  else mret_ bytes.

Section Devices.
(** [typed n] are the scancodes that arrive during spin [n] of a blocking read,
    [arrivals n] the timer interrupts during spin [n] of a sleep. The desktop services
    draw and report; the first result of a snapshot is the returned value, the second
    the bytes it stores. [interactive] is the boot option of the shell. *)
Context (user_image : user_image64 -> list Z) (typed : Z -> list Z) (arrivals : Z -> nat)
  (desktop_services_snapshot : Z -> Y (Z * list Z)) (desktop_services_present_demo_window : Y Z) (interactive : bool).

(** The variable of the loop is [bytes]; the number of spins names what arrives. *)
Definition read_stdin_blocking_step (buffer size : Z) (l : Z * Z) : Y (Z * Z + Z) :=
  let '(bytes, spins) := l in
  if negb (bytes =? 0) then mret_ (inr bytes)
  else
    sd_mod (fun st => st <| sd_blocking_read_spins ::= incr |>) ;;;
    on_input (mfor (typed spins) (fun scancode => x86_64_irq_handler scancode X86_64_IRQ_KEYBOARD_VECTOR)) ;;;
    bytes <- x86_64_syscall_read_stdin buffer size ;;
    mret_ (inl (bytes, spins + 1)).

Definition x86_64_syscall_read_stdin_blocking (buffer size : Z) : Y Z :=
  if size =? 0 then mret_ 0
  else bytes <- x86_64_syscall_read_stdin buffer size ;; mloop (read_stdin_blocking_step buffer size) (bytes, 0).

(** The string is stored with its NUL, cut to the buffer. *)
Definition x86_64_syscall_copy_string_arg (buffer size : Z) (value : list Z) : Y Z :=
  if (buffer =? 0) || (size =? 0) then mret_ 0
  else
    let text := take (Z.to_nat (size - 1)) (cstr value) in
    user_store_list buffer (text ++ [0]) ;;; mret_ (Z.of_nat (length text)).

(** The lines of the report: a label and a number. *)
Definition input_status_lines (keyboard : x86_64_keyboard_state) : list (list Z * Z) :=
  [(str "keyboard-ready ", if ks_keyboard_ok keyboard then 1 else 0); (str "buffered ", ks_buffered_chars keyboard);
   (str "capacity ", ks_buffer_capacity keyboard); (str "scancodes ", ks_scancodes_seen keyboard);
   (str "translated ", ks_translated_chars_seen keyboard); (str "event-capacity ", ks_event_queue_capacity keyboard);
   (str "event-queued ", ks_event_queued keyboard); (str "event-drops ", ks_event_drops keyboard);
   (str "event-oldest ", ks_event_oldest_sequence keyboard); (str "event-latest ", ks_event_latest_sequence keyboard);
   (str "events-read ", ks_events_read keyboard)].

(** The text is built in a buffer of [size] bytes; the bytes up to its end are stored. *)
Definition x86_64_syscall_format_input_status (buffer size : Z) : Y Z :=
  keyboard <- on_input x86_64_keyboard_get_state ;;
  l <- append_string size (str "input status" ++ [10]) (replicate (Z.to_nat size) 0, 0) ;;
  l <- mfold (input_status_lines keyboard) (fun l '(label, value) =>
         l <- append_string size label l ;; l <- append_u32_decimal size value l ;; append_char size 10 l) l ;;
  mwhen (negb (size =? 0))
    (text <- text_end size l ;; user_store_list buffer (take (Z.to_nat (Z.min (snd l + 1) size)) text)) ;;;
  mret_ (snd l).

Definition event_bytes (e : x86_64_input_event) : list Z :=
  mjoin ((fun v => (fun i => u8 (Z.shiftr v (8 * i))) <$> seqZ 0 4) <$> [ie_type e; ie_code e; ie_value e; ie_flags e; ie_tick e; ie_sequence e]).

(** ** The services: the value each returns *)

Definition syscall64_write (arg0 arg1 arg2 : Z) : Y Z :=
  if negb (x86_64_syscall_user_range_ok arg1 arg2) then mret_ X86_64_SYSCALL_RET_EFAULT
  else if (arg0 =? X86_64_SYSCALL_STDOUT) || (arg0 =? X86_64_SYSCALL_STDERR) then
    st <- mget sy_state ;;
    mwhen (sd_write_output_enabled st) (x86_64_syscall_write_serial arg1 arg2) ;;;
    mret_ arg2
  else
    (* the file system reads as many bytes as it writes, at most its capacity *)
    s <- mget (fun s => s) ;;
    let n := Z.min arg2 X86_64_VFS_RAM_FILE_BYTES in
    let bytes := (fun i => match walk64 (pr_mem (sy_process s)) (sy_cr3 s) (arg1 [++] i) with
                           | Some (pa, _) => load8 (pr_mem (sy_process s)) pa | None => 0 end) <$> seqZ 0 n in
    r <- on_vfs64 (x86_64_vfs_write arg0 (if arg1 =? 0 then None else Some bytes) arg2) ;;
    mwhen (r <=? n) (mfor (seqZ 0 r) (fun i => user_load (arg1 [++] i) ;;; mret_ tt)) ;;;
    mret_ r.

Definition refresh_open_file_count : Y unit :=
  n <- on_vfs64 x86_64_vfs_open_count ;; sd_mod (fun st => st <| sd_open_file_count := n |>).

Definition syscall64_open (arg0 arg1 : Z) : Y Z :=
  ok <- x86_64_syscall_user_path_ok arg0 ;;
  if negb ok then mret_ X86_64_SYSCALL_RET_EFAULT
  else
    path <- user_path_at arg0 ;;
    r <- on_vfs64 (x86_64_vfs_open (Some path) arg1) ;;
    refresh_open_file_count ;;; mret_ r.

Definition syscall64_read (arg0 arg1 arg2 : Z) : Y Z :=
  if negb (x86_64_syscall_user_range_ok arg1 arg2) then mret_ X86_64_SYSCALL_RET_EFAULT
  else if arg0 =? X86_64_SYSCALL_STDIN then
    st <- mget sy_state ;;
    if sd_blocking_read_enabled st then x86_64_syscall_read_stdin_blocking arg1 arg2 else x86_64_syscall_read_stdin arg1 arg2
  else
    r <- on_vfs64 (x86_64_vfs_read user_image arg0 (if arg1 =? 0 then None else Some (replicate (Z.to_nat arg2) 0)) arg2) ;;
    (* an error is larger than any size *)
    mwhen (fst r <=? arg2) (user_store_list arg1 (take (Z.to_nat (fst r)) (default [] (snd r)))) ;;;
    mret_ (fst r).

Definition syscall64_close (arg0 : Z) : Y Z := r <- on_vfs64 (x86_64_vfs_close arg0) ;; refresh_open_file_count ;;; mret_ r.

Definition syscall64_stat (arg0 arg1 : Z) : Y Z :=
  ok <- x86_64_syscall_user_path_ok arg0 ;;
  if negb ok || negb (x86_64_syscall_user_range_ok arg1 8) then mret_ X86_64_SYSCALL_RET_EFAULT
  else
    path <- user_path_at arg0 ;;
    r <- on_vfs64 (x86_64_vfs_stat user_image (Some path) true) ;;
    match snd r with Some size => user_store64 arg1 size | None => mret_ tt end ;;;
    mret_ (fst r).

Definition syscall64_get_arg (arg0 arg1 arg2 : Z) : Y Z :=
  if negb (arg0 =? X86_64_SYSCALL_ARG_SHELL_MODE) then mret_ X86_64_SYSCALL_RET_EINVAL
  else if negb (x86_64_syscall_user_range_ok arg1 arg2) then mret_ X86_64_SYSCALL_RET_EFAULT
  else if negb interactive then mret_ X86_64_SYSCALL_RET_OK
  else x86_64_syscall_copy_string_arg arg1 arg2 (str "interactive").

(** The bytes at the address that [x86_64_vfs_resolve] gives for an executable node. *)
Definition image_bytes (data : data64) : list Z := match data with DImage image => user_image image | DText text => text | _ => [] end.

(** The call of [x86_64_process_create_user_image] with what was loaded. *)
Definition create_loaded (path : list Z) : Y Z :=
  ex <- mget sy_exec ;;
  on_process (x86_64_process_create_user_image (Some path) (exec_user_code_page ex) (exec_user_image_bytes ex) (exec_entry ex)
    (exec_user_image_page_count ex) (exec_user_writable_page_bitmap ex)).

Definition syscall64_exec (arg0 : Z) : Y Z :=
  mmod (fun s => s <| sy_exec ::= fun ex => ex <| exec_loaded := false |> <| exec_entry := 0 |> |>) ;;;
  sd_mod (fun st => st <| sd_exec_process_created := false |> <| sd_exec_cr3_switch_requested := false |> <| sd_exec_spawned_pid := 0 |>
    <| sd_exec_target_cr3 := 0 |>) ;;;
  ok <- x86_64_syscall_user_path_ok arg0 ;;
  if negb ok then mret_ X86_64_SYSCALL_RET_EFAULT
  else
    path <- user_path_at arg0 ;;
    r <- on_vfs64 (x86_64_vfs_resolve user_image (Some path) true true true) ;;
    match snd r with
    | None => mret_ (fst r)
    | Some (image, image_size, node_type) =>
        sd_mod (fun st => st <| sd_exec_path_found := true |>) ;;;
        if negb (node_type =? X86_64_VFS_NODE_EXECUTABLE) then mret_ X86_64_SYSCALL_RET_ENOSYS
        else
          sd_mod (fun st => st <| sd_exec_type_ok := true |>) ;;;
          loaded <- on_elf (x86_64_syscall_load_exec_elf (image_bytes image) image_size) ;;
          if negb loaded then mret_ X86_64_SYSCALL_RET_EINVAL
          else
            pid <- create_loaded path ;;
            sd_mod (fun st => st <| sd_exec_spawned_pid := pid |>) ;;;
            if pid =? 0 then mret_ X86_64_SYSCALL_RET_EINVAL
            else
              st <- on_process (mget process64_state) ;;
              sd_mod (fun sd => sd <| sd_exec_target_cr3 := sm_last_user_cr3 st |>
                <| sd_exec_cr3_switch_requested := negb (sm_last_user_cr3 st =? 0) |> <| sd_exec_process_created := true |>) ;;;
              mret_ X86_64_SYSCALL_RET_OK
    end.

Definition syscall64_spawn (arg0 : Z) : Y Z :=
  sd_mod (fun st => st <| sd_spawn_fault_ok := false |> <| sd_spawn_path_found := false |> <| sd_spawn_type_ok := false |>
    <| sd_spawn_loaded := false |> <| sd_spawn_process_created := false |> <| sd_spawn_spawned_pid := 0 |>
    <| sd_exec_target_cr3 := 0 |> <| sd_exec_cr3_switch_requested := false |>) ;;;
  mmod (fun s => s <| sy_exec ::= fun ex => ex <| exec_loaded := false |> <| exec_entry := 0 |> |>) ;;;
  ok <- x86_64_syscall_user_path_ok arg0 ;;
  if negb ok then sd_mod (fun st => st <| sd_spawn_fault_ok := true |>) ;;; mret_ X86_64_SYSCALL_RET_EFAULT
  else
    path <- user_path_at arg0 ;;
    r <- on_vfs64 (x86_64_vfs_resolve user_image (Some path) true true true) ;;
    match snd r with
    | None => mret_ (fst r)
    | Some (image, image_size, node_type) =>
        sd_mod (fun st => st <| sd_spawn_path_found := true |>) ;;;
        if negb (node_type =? X86_64_VFS_NODE_EXECUTABLE) then mret_ X86_64_SYSCALL_RET_ENOSYS
        else
          sd_mod (fun st => st <| sd_spawn_type_ok := true |>) ;;;
          loaded <- on_elf (x86_64_syscall_load_exec_elf (image_bytes image) image_size) ;;
          if negb loaded then mret_ X86_64_SYSCALL_RET_EINVAL
          else
            sd_mod (fun st => st <| sd_spawn_loaded := true |>) ;;;
            pid <- create_loaded path ;;
            sd_mod (fun st => st <| sd_spawn_spawned_pid := pid |>) ;;;
            if pid =? 0 then mret_ X86_64_SYSCALL_RET_EINVAL
            else sd_mod (fun st => st <| sd_spawn_process_created := true |>) ;;; mret_ pid
    end.

(** The returned length counts the characters before the NUL. *)
Definition syscall64_ps (arg0 arg1 : Z) : Y Z :=
  if negb (x86_64_syscall_user_range_ok arg0 arg1) then mret_ X86_64_SYSCALL_RET_EFAULT
  else
    r <- on_process (x86_64_process_snapshot (if arg0 =? 0 then None else Some (replicate (Z.to_nat arg1) 0)) arg1) ;;
    mwhen (negb (arg1 =? 0)) (user_store_list arg0 (take (Z.to_nat (fst r + 1)) (default [] (snd r)))) ;;;
    sd_mod (fun st => st <| sd_ps_ok := negb (fst r =? 0) |>) ;;;
    mret_ (fst r).

Definition syscall64_wait (arg0 arg1 : Z) : Y Z :=
  if negb (x86_64_syscall_user_range_ok arg0 4) || negb (x86_64_syscall_user_range_ok arg1 4) then mret_ X86_64_SYSCALL_RET_EFAULT
  else
    st <- mget sy_state ;;
    r <- on_process (x86_64_process_wait_child (sd_current_pid st) true) ;;
    match r with
    | None => mret_ X86_64_SYSCALL_RET_ENOENT
    | Some (child_pid, exit_code) =>
        user_store32 arg0 child_pid ;;; user_store32 arg1 exit_code ;;;
        sd_mod (fun st => st <| sd_wait_ok := true |>) ;;;
        mret_ X86_64_SYSCALL_RET_OK
    end.

Definition syscall64_desktop_status (arg0 arg1 : Z) : Y Z :=
  if negb (x86_64_syscall_user_range_ok arg0 arg1) then mret_ X86_64_SYSCALL_RET_EFAULT
  else
    r <- desktop_services_snapshot (if arg0 =? 0 then 0 else arg1) ;;
    user_store_list arg0 (snd r) ;;;
    sd_mod (fun st => st <| sd_desktop_status_ok := negb (fst r =? 0) |>) ;;;
    mret_ (fst r).

Definition syscall64_window_present : Y Z :=
  r <- desktop_services_present_demo_window ;; sd_mod (fun st => st <| sd_window_present_ok := r =? 1 |>) ;;; mret_ r.

Definition syscall64_ticks : Y Z :=
  timer <- on_input x86_64_timer_get_state ;; sd_mod (fun st => st <| sd_ticks_ok := ti_timer_ok timer |>) ;;; mret_ (ti_ticks timer).

Definition syscall64_sleep_ticks (arg0 : Z) : Y Z :=
  if 1000 <? arg0 then mret_ X86_64_SYSCALL_RET_EINVAL
  else
    before <- on_input x86_64_timer_get_state ;;
    on_input (x86_64_timer_wait_for_ticks arrivals (u32 arg0)) ;;;
    after <- on_input x86_64_timer_get_state ;;
    let elapsed := ti_ticks after [-] ti_ticks before in
    sd_mod (fun st => st <| sd_sleep_ticks_ok := (ti_ticks before <=? ti_ticks after) && (u32 arg0 <=? elapsed) |>) ;;;
    mret_ elapsed.

Definition syscall64_input_status (arg0 arg1 : Z) : Y Z :=
  if negb (x86_64_syscall_user_range_ok arg0 arg1) then mret_ X86_64_SYSCALL_RET_EFAULT
  else
    r <- x86_64_syscall_format_input_status arg0 arg1 ;;
    sd_mod (fun st => st <| sd_input_status_ok := negb (r =? 0) |>) ;;; mret_ r.

Definition syscall64_input_events (arg0 arg1 : Z) : Y Z :=
  let byte_count := arg1 [**] sizeof_input_event in
  if (X86_64_INPUT_EVENT_QUEUE_CAPACITY <? arg1) || negb (byte_count / sizeof_input_event =? arg1) then mret_ X86_64_SYSCALL_RET_EINVAL
  else if negb (x86_64_syscall_user_range_ok arg0 byte_count) then mret_ X86_64_SYSCALL_RET_EFAULT
  else
    st <- mget sy_state ;;
    r <- on_input (x86_64_input_events_read_from (sd_input_event_cursor st) (if arg0 =? 0 then None else Some (replicate (Z.to_nat arg1) inhabitant)) arg1) ;;
    let '(count, cursor, events) := r in
    user_store_list arg0 (mjoin (event_bytes <$> take (Z.to_nat count) (default [] events))) ;;;
    sd_mod (fun st => st <| sd_input_event_cursor := cursor |> <| sd_input_events_ok := true |> <| sd_input_events_empty_ok := count =? 0 |>) ;;;
    mret_ count.

(** The switch over the number of the service. *)
Definition syscall64_service (number arg0 arg1 arg2 : Z) : Y Z :=
  if number =? X86_64_SYSCALL_SERVICE_EXIT then sd_mod (fun st => st <| sd_exit_code := u32 arg0 |>) ;;; mret_ X86_64_SYSCALL_RET_OK
  else if number =? X86_64_SYSCALL_SERVICE_WRITE then syscall64_write arg0 arg1 arg2
  else if number =? X86_64_SYSCALL_SERVICE_OPEN then syscall64_open arg0 arg1
  else if number =? X86_64_SYSCALL_SERVICE_READ then syscall64_read arg0 arg1 arg2
  else if number =? X86_64_SYSCALL_SERVICE_CLOSE then syscall64_close arg0
  else if number =? X86_64_SYSCALL_SERVICE_STAT then syscall64_stat arg0 arg1
  else if number =? X86_64_SYSCALL_SERVICE_GET_ARG then syscall64_get_arg arg0 arg1 arg2
  else if number =? X86_64_SYSCALL_SERVICE_EXEC then syscall64_exec arg0
  else if number =? X86_64_SYSCALL_SERVICE_SPAWN then syscall64_spawn arg0
  else if number =? X86_64_SYSCALL_SERVICE_GETPID then st <- mget sy_state ;; mret_ (sd_current_pid st)
  else if number =? X86_64_SYSCALL_SERVICE_YIELD then sd_mod (fun st => st <| sd_yield_count ::= incr |>) ;;; mret_ X86_64_SYSCALL_RET_OK
  else if number =? X86_64_SYSCALL_SERVICE_PS then syscall64_ps arg0 arg1
  else if number =? X86_64_SYSCALL_SERVICE_WAIT then syscall64_wait arg0 arg1
  else if number =? X86_64_SYSCALL_SERVICE_DESKTOP_STATUS then syscall64_desktop_status arg0 arg1
  else if number =? X86_64_SYSCALL_SERVICE_WINDOW_PRESENT then syscall64_window_present
  else if number =? X86_64_SYSCALL_SERVICE_TICKS then syscall64_ticks
  else if number =? X86_64_SYSCALL_SERVICE_SLEEP_TICKS then syscall64_sleep_ticks arg0
  else if number =? X86_64_SYSCALL_SERVICE_INPUT_STATUS then syscall64_input_status arg0 arg1
  else if number =? X86_64_SYSCALL_SERVICE_INPUT_EVENTS then syscall64_input_events arg0 arg1
  else mret_ X86_64_SYSCALL_RET_ENOSYS.

Definition x86_64_syscall_dispatch (syscall_number arg0 arg1 arg2 : Z) : Y Z :=
  sd_mod (fun st => st <| sd_dispatch_calls ::= incr |> <| sd_last_syscall := syscall_number |>) ;;;
  r <- syscall64_service syscall_number arg0 arg1 arg2 ;;
  sd_mod (fun st => st <| sd_last_result := r |>) ;;;
  mret_ r.

(** [x86_64_syscall_dispatch_init]; the fields that only a self test sets are left out. *)
Definition x86_64_syscall_dispatch_init (current_pid : Z) : Y unit :=
  on_vfs64 x86_64_vfs_init ;;;
  ready <- on_vfs64 (x86_64_vfs_ready user_image) ;;
  open_count <- on_vfs64 x86_64_vfs_open_count ;;
  latest <- on_input x86_64_input_events_latest_sequence ;;
  sd_mod (fun _ => {| sd_initialized := true; sd_service_count := X86_64_SYSCALL_SERVICE_COUNT; sd_current_pid := current_pid; sd_dispatch_calls := 0;
    sd_file_service_ready := ready; sd_file_count := x86_64_vfs_file_count; sd_open_file_count := open_count; sd_write_output_enabled := false;
    sd_blocking_read_enabled := false; sd_blocking_read_spins := 0; sd_ps_ok := false; sd_wait_ok := false; sd_desktop_status_ok := false;
    sd_window_present_ok := false; sd_ticks_ok := false; sd_sleep_ticks_ok := false; sd_input_status_ok := false; sd_input_events_ok := false;
    sd_input_events_empty_ok := false; sd_input_event_cursor := latest; sd_exec_path_found := false; sd_exec_type_ok := false;
    sd_exec_process_created := false; sd_exec_cr3_switch_requested := false; sd_exec_spawned_pid := 0; sd_spawn_fault_ok := false;
    sd_spawn_path_found := false; sd_spawn_type_ok := false; sd_spawn_loaded := false; sd_spawn_process_created := false; sd_spawn_spawned_pid := 0;
    sd_exit_code := 0; sd_yield_count := 0; sd_exec_target_cr3 := 0; sd_last_syscall := 0; sd_last_result := 0 |}) ;;;
  mmod (fun s => s <| sy_exec := Build_exec64 0 (replicate 4 0) 0 0 0 0 false |>).

(** [initialize_live_dispatcher] (user_mode.c); the array of four pages is at [pages]. *)
Definition initialize_live_dispatcher (pages current_pid : Z) : Y unit :=
  x86_64_syscall_dispatch_init current_pid ;;;
  mmod (fun s => s <| sy_exec ::= fun ex => ex <| exec_user_code_page := pages |>
    <| exec_user_image_pages := (fun i => pages [++] i [**] X86_64_USER_PAGE_BYTES) <$> seqZ 0 X86_64_USER_IMAGE_MAX_PAGES |> |>) ;;;
  sd_mod (fun st => st <| sd_write_output_enabled := true |> <| sd_blocking_read_enabled := true |>).

(** ** The registers of a call *)

Record x86_64_syscall_frame := {
  sf_number : Z; sf_arg0 : Z; sf_arg1 : Z; sf_arg2 : Z; sf_user_rip : Z; sf_user_rflags : Z; sf_result : Z;
  sf_exit_requested : bool; sf_cr3_switch_requested : bool; sf_target_cr3 : Z
}.
#[export] Instance eta_x86_64_syscall_frame : Settable x86_64_syscall_frame := fun s =>
  Build_x86_64_syscall_frame (sf_number s) (sf_arg0 s) (sf_arg1 s) (sf_arg2 s) (sf_user_rip s) (sf_user_rflags s) (sf_result s)
    (sf_exit_requested s) (sf_cr3_switch_requested s) (sf_target_cr3 s).

Definition x86_64_syscall_dispatch_frame (frame : x86_64_syscall_frame) : Y x86_64_syscall_frame :=
  result <- x86_64_syscall_dispatch (sf_number frame) (sf_arg0 frame) (sf_arg1 frame) (sf_arg2 frame) ;;
  s <- mget (fun s => s) ;;
  let frame := frame <| sf_exit_requested := false |> <| sf_cr3_switch_requested := false |> <| sf_target_cr3 := 0 |> <| sf_result := result |> in
  let frame :=
    if (sf_number frame =? X86_64_SYSCALL_SERVICE_EXEC) && (result =? X86_64_SYSCALL_RET_OK) && exec_loaded (sy_exec s)
    then frame <| sf_user_rip := exec_entry (sy_exec s) |> <| sf_cr3_switch_requested := sd_exec_cr3_switch_requested (sy_state s) |>
           <| sf_target_cr3 := sd_exec_target_cr3 (sy_state s) |>
    else frame in
  mret_ (if (sf_number frame =? X86_64_SYSCALL_SERVICE_EXIT) && (result =? X86_64_SYSCALL_RET_OK) then frame <| sf_exit_requested := true |> else frame).
End Devices.

(** ** User mode (user_mode.c) *)

Definition X86_64_USER_HEAP_BASE := 0x800000.

Record x86_64_user_mode_state := {
  um_initialized : bool; um_attempted : bool; um_entered : bool; um_returned_to_kernel : bool; um_syscall_count : Z; um_getpid_ok : bool;
  um_write_ok : bool; um_read_ok : bool; um_get_arg_ok : bool; um_yield_ok : bool; um_desktop_status_ok : bool; um_window_present_ok : bool;
  um_ticks_ok : bool; um_sleep_ticks_ok : bool; um_input_status_ok : bool; um_input_events_ok : bool; um_exec_ok : bool; um_exit_ok : bool;
  um_unexpected_syscall : bool; um_live_dispatcher_initialized : bool; um_live_dispatcher_ok : bool; um_syscall_frame_ok : bool;
  um_user_entry_ready : bool; um_user_stack_ready : bool; um_user_mode_ok : bool; um_current_pid : Z; um_exit_code : Z;
  um_child_return_count : Z; um_child_reap_count : Z; um_last_child_reap_ok : bool; um_last_child_pid : Z; um_last_child_exit_code : Z;
  um_entry_rip : Z; um_entry_rsp : Z; um_last_syscall : Z; um_last_result : Z; um_last_user_rip : Z; um_last_user_rflags : Z
}.
#[export] Instance eta_x86_64_user_mode_state : Settable x86_64_user_mode_state := fun s =>
  Build_x86_64_user_mode_state (um_initialized s) (um_attempted s) (um_entered s) (um_returned_to_kernel s) (um_syscall_count s) (um_getpid_ok s)
    (um_write_ok s) (um_read_ok s) (um_get_arg_ok s) (um_yield_ok s) (um_desktop_status_ok s) (um_window_present_ok s) (um_ticks_ok s)
    (um_sleep_ticks_ok s) (um_input_status_ok s) (um_input_events_ok s) (um_exec_ok s) (um_exit_ok s) (um_unexpected_syscall s)
    (um_live_dispatcher_initialized s) (um_live_dispatcher_ok s) (um_syscall_frame_ok s) (um_user_entry_ready s) (um_user_stack_ready s)
    (um_user_mode_ok s) (um_current_pid s) (um_exit_code s) (um_child_return_count s) (um_child_reap_count s) (um_last_child_reap_ok s)
    (um_last_child_pid s) (um_last_child_exit_code s) (um_entry_rip s) (um_entry_rsp s) (um_last_syscall s) (um_last_result s)
    (um_last_user_rip s) (um_last_user_rflags s).

(** [us_sys] holds [active_dispatcher], [us_active] is what [active_state] points to,
    [us_kernel_cr3] is [x86_64_user_mode_kernel_cr3]. *)
Record user64 := { us_sys : sys64; us_active : option x86_64_user_mode_state; us_kernel_cr3 : Z }.
#[export] Instance eta_user64 : Settable user64 := fun s => Build_user64 (us_sys s) (us_active s) (us_kernel_cr3 s).

Abbreviation U := (M user64).
Definition on_sys {A} (m : Y A) : U A := mzoom us_sys (fun y s => s <| us_sys := y |>) m.
Definition um_mod (f : x86_64_user_mode_state -> x86_64_user_mode_state) : U unit := mmod (fun s => s <| us_active ::= fmap f |>).

(** The switch over the service: what is recorded of its result. *)
Definition record_service (disp : x86_64_syscall_dispatch_state) (frame : x86_64_syscall_frame) (result : Z) (st : x86_64_user_mode_state) : x86_64_user_mode_state :=
  let number := sf_number frame in
  let accepted := negb (result =? X86_64_SYSCALL_RET_EFAULT) && negb (result =? X86_64_SYSCALL_RET_EINVAL) in
  if number =? X86_64_SYSCALL_SERVICE_GETPID then st <| um_getpid_ok := result =? um_current_pid st |>
  else if number =? X86_64_SYSCALL_SERVICE_WRITE then st <| um_write_ok := accepted |>
  else if (number =? X86_64_SYSCALL_SERVICE_OPEN) || (number =? X86_64_SYSCALL_SERVICE_CLOSE) || (number =? X86_64_SYSCALL_SERVICE_STAT) ||
          (number =? X86_64_SYSCALL_SERVICE_PS) || (number =? X86_64_SYSCALL_SERVICE_WAIT) then st
  else if number =? X86_64_SYSCALL_SERVICE_DESKTOP_STATUS then st <| um_desktop_status_ok := accepted |>
  else if number =? X86_64_SYSCALL_SERVICE_WINDOW_PRESENT then st <| um_window_present_ok := result =? 1 |>
  else if number =? X86_64_SYSCALL_SERVICE_TICKS then st <| um_ticks_ok := true |>
  else if number =? X86_64_SYSCALL_SERVICE_SLEEP_TICKS then st <| um_sleep_ticks_ok := negb (result =? X86_64_SYSCALL_RET_EINVAL) |>
  else if number =? X86_64_SYSCALL_SERVICE_INPUT_STATUS then st <| um_input_status_ok := accepted |>
  else if number =? X86_64_SYSCALL_SERVICE_INPUT_EVENTS then st <| um_input_events_ok := accepted |>
  else if number =? X86_64_SYSCALL_SERVICE_READ then st <| um_read_ok := accepted |>
  else if number =? X86_64_SYSCALL_SERVICE_GET_ARG then st <| um_get_arg_ok := accepted |>
  else if number =? X86_64_SYSCALL_SERVICE_EXEC then
    let st := st <| um_exec_ok := (result =? X86_64_SYSCALL_RET_OK) || (result =? X86_64_SYSCALL_RET_ENOSYS) || (result =? X86_64_VFS_RET_ENOENT) |> in
    if (result =? X86_64_SYSCALL_RET_OK) && negb (sd_exec_spawned_pid disp =? 0) then st <| um_current_pid := sd_exec_spawned_pid disp |> else st
  else if number =? X86_64_SYSCALL_SERVICE_SPAWN then
    st <| um_exec_ok := (0 <? result) && accepted && negb (result =? X86_64_SYSCALL_RET_ENOSYS) && negb (result =? X86_64_VFS_RET_ENOENT) |>
  else if number =? X86_64_SYSCALL_SERVICE_YIELD then st <| um_yield_ok := (result =? X86_64_SYSCALL_RET_OK) && (1 <=? sd_yield_count disp) |>
  else if number =? X86_64_SYSCALL_SERVICE_EXIT then
    st <| um_exit_ok := (result =? X86_64_SYSCALL_RET_OK) && sf_exit_requested frame |> <| um_exit_code := sd_exit_code disp |>
  else st <| um_unexpected_syscall := true |>.

Section UserMode.
Context (user_image : user_image64 -> list Z) (typed : Z -> list Z) (arrivals : Z -> nat)
  (desktop_services_snapshot : Z -> Y (Z * list Z)) (desktop_services_present_demo_window : Y Z) (interactive : bool).

Definition x86_64_user_mode_syscall_entry (frame : x86_64_syscall_frame) : U (Z * x86_64_syscall_frame) :=
  active <- mget us_active ;;
  match active with
  | None => mret_ (X86_64_SYSCALL_RET_ENOSYS, frame)
  | Some _ =>
      frame <- on_sys (x86_64_syscall_dispatch_frame user_image typed arrivals desktop_services_snapshot desktop_services_present_demo_window interactive frame) ;;
      disp <- mget (fun s => sy_state (us_sys s)) ;;
      let result := sf_result frame in
      um_mod (fun st => st <| um_syscall_count := sd_dispatch_calls disp |> <| um_last_syscall := sf_number frame |> <| um_last_result := result |>
        <| um_last_user_rip := sf_user_rip frame |> <| um_last_user_rflags := sf_user_rflags frame |>
        <| um_live_dispatcher_initialized := sd_initialized disp |>
        <| um_syscall_frame_ok := (X86_64_USER_CODE_BASE <=? sf_user_rip frame) && (sf_user_rip frame <? X86_64_USER_HEAP_BASE) &&
             negb (Z.land (sf_user_rflags frame) 0x200 =? 0) |>) ;;;
      um_mod (record_service disp frame result) ;;;
      mwhen ((sf_number frame =? X86_64_SYSCALL_SERVICE_EXEC) && (result =? X86_64_SYSCALL_RET_OK) && negb (sd_exec_spawned_pid disp =? 0))
        (on_sys (sd_mod (fun d => d <| sd_current_pid := sd_exec_spawned_pid disp |>))) ;;;
      um_mod (fun st => st <| um_live_dispatcher_ok := sd_initialized disp && (sd_service_count disp =? X86_64_SYSCALL_SERVICE_COUNT) &&
        (10 <=? sd_dispatch_calls disp) && negb (um_unexpected_syscall st) |>) ;;;
      mret_ (result, frame)
  end.

(** The end of the stub of the [syscall] instruction (idt_stubs.asm, user_mode.asm): an
    exit leaves user mode on the tables from before the first exec, an exec that asks for
    it goes on in the tables of the new process. *)
Definition x86_64_user_mode_exit_to_kernel : U unit :=
  cr3 <- mget us_kernel_cr3 ;;
  mwhen (negb (cr3 =? 0)) (mmod (fun u => u <| us_sys ::= fun y => y <| sy_cr3 := cr3 |> |> <| us_kernel_cr3 := 0 |>)).

Definition syscall_stub_return (frame : x86_64_syscall_frame) : U unit :=
  if sf_exit_requested frame then x86_64_user_mode_exit_to_kernel
  else mwhen (sf_cr3_switch_requested frame && negb (sf_target_cr3 frame =? 0))
    (mmod (fun u => u <| us_kernel_cr3 := sy_cr3 (us_sys u) |> <| us_sys ::= fun y => y <| sy_cr3 := sf_target_cr3 frame |> |>)).

(** A system call, from the instruction to the next one of user code or, for an exit, to
    the return of [x86_64_user_mode_enter_init]. *)
Definition user_mode_call (frame : x86_64_syscall_frame) : U (Z * x86_64_syscall_frame) :=
  r <- x86_64_user_mode_syscall_entry frame ;; syscall_stub_return (snd r) ;;; mret_ r.

(** The part of the loop of [x86_64_user_mode_start_init] after user mode is left, up to
    the next entry; when the shell itself has exited the kernel writes a line and halts.
    [pages] is the array of the loader. *)
Definition user_mode_returned (pages current_pid : Z) : U unit :=
  returned_pid <- mget (fun s => sd_current_pid (sy_state (us_sys s))) ;;
  um_mod (fun st => st <| um_returned_to_kernel := true |>) ;;;
  if returned_pid =? current_pid then
    on_sys (mmod (fun s => s <| sy_serial ::= fun l => l ++ str "Liam_OS x86_64 shell exited" ++ [13; 10] |>)) ;;; mhalt
  else
    active <- mget us_active ;;
    match active with
    | None => mhalt
    | Some st =>
        let exit_code := um_exit_code st in
        um_mod (fun st => st <| um_child_return_count ::= incr |> <| um_last_child_pid := returned_pid |> <| um_last_child_exit_code := exit_code |>) ;;;
        marked_exited <- on_sys (on_process (x86_64_process_mark_user_exited returned_pid exit_code)) ;;
        recorded_child <- on_sys (on_process (x86_64_process_record_child_exit current_pid returned_pid exit_code)) ;;
        reaped <- on_sys (on_process (x86_64_process_reap_user returned_pid)) ;;
        um_mod (fun st => st <| um_last_child_reap_ok := marked_exited && recorded_child && reaped |>) ;;;
        mwhen (marked_exited && recorded_child && reaped) (um_mod (fun st => st <| um_child_reap_count ::= incr |>)) ;;;
        um_mod (fun st => st <| um_current_pid := current_pid |>) ;;;
        on_sys (initialize_live_dispatcher user_image pages current_pid)
    end.
End UserMode.
