(* ===== verification/Syscall64Proofs.v ===== *)
(** * The system calls of the 64-bit kernel: proofs and theorems

    Pointers of the caller, and the calls that start programs: from the string in the
    caller's memory over the file, the loader and the new process to what user code
    finds there. Then a program from its exec to its exit: what its own calls leave
    alone ([program_step], [program_running]), and the return to the shell. *)
From S2P Require Import Prelude Word64 Mem KString Loader ElfProofs Pmm64 Pmm64Proofs Vfs64 Vfs64Paths Vfs64Proofs Vfs64Theorems Input64 Input64Theorems Text64.
From S2P Require Import Process64 Process64Queue Process64Tables Process64Alloc Process64Create Process64Reap Process64Run Process64Theorems.
From S2P Require Import Elf64 Elf64Proofs Syscall64.

(** ** Pointers of the caller *)

(** What the check of a range accepts. *)
Lemma user_range_spec address size :
  is_u64 address -> is_u64 size ->
  x86_64_syscall_user_range_ok address size = true <-> size = 0 \/ 0x400000 <= address /\ address + size <= 0x800000000000.
Proof.
  unfold is_u64, x86_64_syscall_user_range_ok, X86_64_USER_CODE_BASE, X86_64_USER_CANONICAL_LIMIT. intros Ha Hs.
  destruct (Z.eqb_spec size 0); [tauto|]. destruct (Z.ltb_spec address 0x400000); [split; [done|lia]|].
  assert (address [++] size = if address + size <? 18446744073709551616 then address + size else address + size - 18446744073709551616) as E.
  { destruct (Z.ltb_spec (address + size) 18446744073709551616); u64_lia. }
  rewrite E. destruct (Z.ltb_spec (address + size) 18446744073709551616).
  - destruct (Z.ltb_spec (address + size) address); [lia|]. destruct (Z.ltb_spec 0x800000000000 (address + size)); split; try done; lia.
  - rewrite (proj2 (Z.ltb_lt _ address)) by lia. split; [done|lia].
Qed.

(** The string at [addr] in the memory of the caller. *)
Record caller_string (y : sys64) (addr : Z) (path : list Z) : Prop := {
  us_length : Z.of_nat (length path) < 64;
  us_range : 0x400000 <= addr /\ addr + 64 <= 0x800000000000;
  us_chars : Forall (fun c => c <> 0) path;
  us_bytes : forall i c, (path ++ [0]) !! i = Some c -> exists pa r,
    walk64 (pr_mem (sy_process y)) (sy_cr3 y) (addr + Z.of_nat i) = Some (pa, r) /\ load8 (pr_mem (sy_process y)) pa = c
}.

Lemma user_load_ok y addr path i c (Q : Z -> sys64 -> Prop) :
  caller_string y addr path -> (path ++ [0]) !! i = Some c -> Q c y -> wp (user_load (addr [++] Z.of_nat i)) Q y.
Proof.
  intros [Hl Hr _ Hb] Hi HQ. pose proof (lookup_lt_Some _ _ _ Hi) as Hlt. rewrite length_app in Hlt. cbn [length] in Hlt.
  unfold user_load. do 2 wp_step. rewrite u64_small by (unfold is_u64; lia). destruct (Hb i c Hi) as (pa & r & -> & <-). by wp_step.
Qed.

Lemma string_char path i : Z.of_nat i <= Z.of_nat (length path) -> exists c, (path ++ [0]) !! i = Some c /\ (c = 0 -> Forall (fun c => c <> 0) path -> i = length path) /\
  (i = length path -> c = 0) /\ (Z.of_nat i < Z.of_nat (length path) -> path !! i = Some c).
Proof.
  intros Hi. destruct (lookup_lt_is_Some_2 (path ++ [0]) i) as [c Hc]; [rewrite length_app; cbn; lia|]. exists c. split; [done|].
  destruct (decide (i < length path)%nat) as [Hlt|Hge].
  - rewrite lookup_app_l in Hc by done. split; [intros -> Hf; rewrite Forall_lookup in Hf; by apply Hf in Hc|]. split; [lia|done].
  - assert (i = length path) as -> by lia. rewrite lookup_app_r, Nat.sub_diag in Hc by done. injection Hc as <-. repeat split; lia || done.
Qed.

Lemma user_path_ok_ok y addr path (Q : bool -> sys64 -> Prop) :
  caller_string y addr path -> Q true y -> wp (x86_64_syscall_user_path_ok addr) Q y.
Proof.
  intros Hs HQ. pose proof Hs as [Hl Hr Hc _]. unfold x86_64_syscall_user_path_ok, x86_64_syscall_user_cstring_valid.
  assert (Hrange : forall i, 0 <= i < 64 -> x86_64_syscall_user_range_ok (addr [++] i) 1 = true).
  { intros i Hi. rewrite u64_small by (unfold is_u64; lia). apply user_range_spec; unfold is_u64; lia. }
  pose proof (Hrange 0 ltac:(lia)) as H0. rewrite Z.add_0_r, u64_small in H0 by (unfold is_u64; lia). rewrite H0. cbn [negb]. change X86_64_VFS_PATH_MAX_BYTES with 64.
  wp_step. apply (wp_for_ret_seqZ 64 _ (fun i s' => s' = y /\ i <= Z.of_nat (length path))); [lia|split; [done|lia]| |].
  - intros i s' Hi [-> Hle]. rewrite (Hrange i Hi). cbn [negb]. wp_step. destruct (string_char path (Z.to_nat i)) as (c & Hcc & Hz & Hend & _); [lia|].
    rewrite <- (Z2Nat.id i) by lia. eapply user_load_ok; [exact Hs|exact Hcc|]. wp_step. destruct (Z.eqb_spec c 0) as [E|E]; [by wp_step|].
    split; [done|]. assert (Z.to_nat i <> length path) by (intros H; by apply E, Hend). lia.
  - intros s' [-> Hle]. lia.
Qed.

Lemma user_path_at_ok y addr path (Q : list Z -> sys64 -> Prop) :
  caller_string y addr path -> Q path y -> wp (user_path_at addr) Q y.
Proof.
  intros Hs HQ. pose proof Hs as [Hl Hr Hc _]. unfold user_path_at. change X86_64_VFS_PATH_MAX_BYTES with 64. wp_step.
  apply (wp_fold_seqZ _ _ (fun i '(fin, l) s' => s' = y /\ if fin : bool then l = path else i <= Z.of_nat (length path) /\ l = take (Z.to_nat i) path)); [|lia| |].
  - split; [done|]. split; [lia|done].
  - intros i [[] l] s' Hi [-> H]; [by wp_step|]. destruct H as [Hle ->]. wp_step. destruct (string_char path (Z.to_nat i)) as (c & Hcc & Hz & Hend & Hin); [lia|].
    rewrite <- (Z2Nat.id i) at 1 by lia. eapply user_load_ok; [exact Hs|exact Hcc|]. wp_step. destruct (Z.eqb_spec c 0) as [E|E]; (split; [done|]).
    + apply take_ge. rewrite (Hz E Hc). done.
    + assert (Z.to_nat i <> length path) by (intros H; by apply E, Hend). split; [lia|]. replace (Z.to_nat (i + 1)) with (S (Z.to_nat i)) by lia.
      symmetry. apply take_S_r. apply Hin. lia.
  - intros [[] l] s' [-> H]; wp_step; [by subst|]. lia.
Qed.

(** ** Loading a program and making a process of it *)

Lemma elf64_byte_beyond d l x : forallb (elf64_segment_ok d) l = true -> elf64_extent l <= x -> elf64_byte d l x = 0.
Proof.
  induction l as [|p l IH] using rev_ind; [done|]. rewrite forallb_app, elf64_extent_snoc, andb_true_iff. cbn [forallb]. rewrite andb_true_r.
  intros [Hl Hp] Hx. unfold elf64_byte. rewrite fold_left_app. cbn [fold_left]. apply segment_ok_bounds in Hp as [].
  unfold elf64_put at 1. rewrite (proj2 (Z.ltb_ge x _)) by lia. rewrite andb_false_r. apply IH; [done|lia].
Qed.

Definition exec_frames (b : Z) : list Z := [b; b + 4096; b + 8192; b + 12288].

Lemma beyond_outside b m m' : same_beyond b m m' -> same_outside (exec_frames b) m m'.
Proof.
  intros H a Ha. apply H. intros Hin. assert (Hq : forall o, b + o ∈ exec_frames b -> ~ (b + o <= a < b + o + 4096)).
  { intros o Ho Hi. apply (Ha _ Ho). unfold in_page64. lia. }
  pose proof (Hq 0) as Q0. pose proof (Hq 4096) as Q1. pose proof (Hq 8192) as Q2. pose proof (Hq 12288) as Q3.
  unfold exec_frames in *. rewrite !elem_of_cons in *. rewrite Z.add_0_r in *. destruct (decide (a < b + 4096)); [apply Q0; auto; lia|].
  destruct (decide (a < b + 8192)); [apply Q1; auto; lia|]. destruct (decide (a < b + 12288)); [apply Q2; auto; lia|]. apply Q3; auto. lia.
Qed.

Section Spawn.
Context (all : list Z) (base : gset Z) (k : kernel_tables) (b : Z).

(** The pages of the loader are not in the frames nor in the tables of the kernel. *)
Record loader_pages (s : process64) : Prop := {
  lp_base : 0 < b <= 35184372072448 /\ b mod 4096 = 0;
  lp_apart : image_apart b 16384 all;
  lp_source : let ctx := process_paging_context s in
    source_apart ctx (exec_frames b)
}.

Lemma inv_loaded s m : process64_inv all base k s -> loader_pages s -> same_beyond b (pr_mem s) m -> process64_inv all base k (s <| pr_mem := m |>).
Proof using.
  intros [(held & [T1 T2 T3 T4 T5 T6 T7] & Hh) H2 H3 H4 H5 H6] [Hb _ Hs] Hm. constructor; try done.
  - exists held. split; [by constructor|exact Hh].
  - eapply source_ok_outside; [exact H4|exact (beyond_outside b _ _ Hm)| |exact Hs]. unfold exec_frames, frame_ok. destruct Hb as [Hb1 Hb2].
    rewrite !Forall_cons. repeat split; try lia; try done; Z.div_mod_to_equations; lia.
Qed.

(** What user code sees of a program of file [d] in a process. *)
Record program_visible (d : list Z) (s' : process64) (p : x86_64_process) : Prop := {
  pg_entry : p6_user_entry p = long_at d 24;
  pg_code : forall x, 0 <= x < 4096 * ((elf64_extent (elf64_segments d) + 4095) / 4096) -> exists pa,
    walk64 (pr_mem s') (p6_cr3 p) (0x400000 + x) = Some (pa, (true, elf64_writable (elf64_segments d) (x / 4096))) /\
    load8 (pr_mem s') pa = elf64_byte d (elf64_segments d) x;
  pg_stack : forall x, 0 <= x < 4096 -> exists pa, walk64 (pr_mem s') (p6_cr3 p) (0x7FFFF000 + x) = Some (pa, (true, true)) /\ load8 (pr_mem s') pa = 0;
  pg_only : kernel_private k -> forall va pa w, 0 <= va < 2 ^ 48 -> walk64 (pr_mem s') (p6_cr3 p) va = Some (pa, (true, w)) ->
    0x400000 <= va < 0x400000 + 4096 * ((elf64_extent (elf64_segments d) + 4095) / 4096) \/ 0x7FFFF000 <= va < 0x80000000
}.

(** Process [p] is new in [s'] and runs the program of [d]. *)
Record program_process (d : list Z) (s s' : process64) (p : x86_64_process) : Prop := {
  pp_table : exists i p0, process64_table s !! i = Some p0 /\ p6_state p0 = 0 /\ process64_table s' = <[i := p]> (process64_table s);
  pp_pid : p6_pid p = next_pid64 s /\ next_pid64 s' = next_pid64 s + 1;
  pp_ready : p6_state p = X86_64_PROCESS_READY /\ p6_mode p = X86_64_PROCESS_MODE_USER;
  pp_frames : process_frames p = take 12 (rev (free_frames (pr_pmm s)));
  pp_cr3 : p6_cr3 p <> 0;
  pp_visible : program_visible d s' p;
  pp_context : process_paging_context s' = process_paging_context s
}.

Lemma schedule_cr3 p : us_scheduler_ok (schedule_of p) = true -> p6_cr3 p <> 0.
Proof using. intros H E. unfold schedule_of in H. rewrite E in H. cbv zeta in H. get_set_in H. cbn [Z.eqb negb andb] in H. rewrite ?andb_false_r in H. done. Qed.

Lemma create_loaded_ok d y path (Q : Z -> sys64 -> Prop) :
  process64_inv all base k (sy_process y) -> next_pid64 (sy_process y) < 4294967295 -> loader_pages (sy_process y) -> exec_pages b (sy_exec y) ->
  elf64_accepts d = true -> elf64_image b d {| el_mem := pr_mem (sy_process y); el_exec := sy_exec y |} ->
  (forall r s', process64_inv all base k s' -> (if decide (slot_free (sy_process y) /\ (12 <= length (free_frames (pr_pmm (sy_process y))))%nat)
      then exists p, program_process d (sy_process y) s' p /\ r = p6_pid p /\ sm_last_user_cr3 (process64_state s') = p6_cr3 p
      else r = 0 /\ same_used (sy_process y) s') ->
     same_outside (free_frames (pr_pmm (sy_process y))) (pr_mem (sy_process y)) (pr_mem s') -> Q r (y <| sy_process := s' |>)) ->
  wp (create_loaded path) Q y.
Proof using.
  intros Hinv Hpid [Hb Hap _] [Hcode _ _] Hacc [I1 I2 I3 I4 I5 _] HQ. cbn [el_mem el_exec] in *.
  unfold elf64_accepts in Hacc. rewrite !andb_true_iff in Hacc. destruct Hacc as [[_ Hsegs] Hent].
  pose proof (elf64_extent_entry d _ _ Hsegs Hent) as He. pose proof (elf64_extent_bounds d _ Hsegs) as Hx.
  set (ext := elf64_extent (elf64_segments d)) in *. set (count := (ext + 4095) / 4096) in *.
  assert (Hcnt : 0 < count <= 4) by (unfold count; Z.div_mod_to_equations; lia). assert (ext <= 4096 * count) by (unfold count; Z.div_mod_to_equations; lia).
  unfold create_loaded. do 2 wp_step. rewrite Hcode, I2, I3, I4. apply wp_zoom.
  eapply wp_mono; [apply (create_user_image_ok all base k (sy_process y)); [exact Hinv|exact Hpid|]|].
  { constructor; [|lia|exact Hcnt|lia]. destruct Hap as (A1 & A2 & A3). split; [lia|]. split; [lia|]. intros q Hq.
    pose proof (pv_table _ _ _ _ Hinv) as (held & Ht & _). pose proof (A3 q (free_sub _ _ _ q (to_pmm _ _ _ Ht) Hq)). lia. }
  intros r s' (Hinv' & Hr). cbv zeta in Hr. apply HQ; [exact Hinv'| |]; case_decide; try (by destruct Hr as (? & ? & ?)).
  2:{ destruct Hr as (_ & i & p & _ & _ & _ & _ & _ & Efr & Ho & _). eapply same_outside_mono; [|exact Ho]. rewrite Efr. intros q Hq. exact (elem_of_take_rev _ _ _ Hq). }
  destruct Hr as (-> & i & p & Et & Epid & Est & Emode & Eent & Efr & _ & Hsched & Hvis & Hlast & (p0 & Hp0 & Hu0) & En & Ec). exists p. split; [|by rewrite Epid].
  constructor; [by exists i, p0|done|done|done|by apply schedule_cr3| |done]. destruct Hvis as [V1 V2 _ V4]. constructor; fold ext count.
  - done.
  - intros x Hxr. destruct (V1 x Hxr) as (pa & Hw & Hl). exists pa. rewrite I5 in Hw by (Z.div_mod_to_equations; lia). split; [done|]. rewrite Hl. unfold image_byte.
    destruct (Z.ltb_spec x ext); [apply I1; lia|]. symmetry. by apply elf64_byte_beyond.
  - exact V2.
  - exact V4.
Qed.
End Spawn.

Section Dispatch.
Context (user_image : user_image64 -> list Z).

Lemma resolve_ok s path :
  vfs64_ok user_image s -> v64_initialized (v_state s) = true ->
  wp (x86_64_vfs_resolve user_image (Some path) true true true) (fun r s' => s' = s /\
    match x86_64_vfs_nodes !! Z.to_nat (path_index path) with
    | Some node => r = (X86_64_VFS_RET_OK, Some (x86_64_vfs_node_data node, Z.of_nat (length (node_bytes user_image s node)), n64_type node))
    | None => r = (X86_64_VFS_RET_ENOENT, None)
    end) s.
Proof using.
  intros Hok Hini. unfold x86_64_vfs_resolve. do 2 wp_step. rewrite Hini. cbn [negb orb]. wp_step. eapply wp_mono; [apply find_node_ok|]. intros idx s0 [-> ->]. cbv beta.
  fold (path_index path). destruct (Z.eqb_spec (path_index path) X86_64_VFS_NO_NODE) as [E|E].
  - wp_step. split; [done|]. rewrite E. rewrite lookup_ge_None_2; [done|]. apply Nat2Z.inj_le. rewrite Z2Nat.id; by vm_compute.
  - destruct (path_index_node path E) as (Hr & node & En). wp_step. eapply wp_array_at; [exact En|]. wp_step.
    eapply node_size_ok; [done|exact En|]. wp_step. by rewrite En.
Qed.

(** The executable nodes are the linked programs. *)
Lemma node_executable j node : x86_64_vfs_nodes !! j = Some node ->
  (n64_type node =? X86_64_VFS_NODE_EXECUTABLE) = match n64_data node with DImage _ => true | _ => false end.
Proof using.
  intros Hj. assert (H : forallb (fun node => eqb (n64_type node =? X86_64_VFS_NODE_EXECUTABLE) (match n64_data node with DImage _ => true | _ => false end)) x86_64_vfs_nodes = true) by (vm_compute; reflexivity).
  rewrite forallb_forall in H. apply eqb_prop, H. apply list_elem_of_In. by eapply list_elem_of_lookup_2.
Qed.

(** The state in which a program is started by a system call. *)
Record spawn_ready (all : list Z) (base : gset Z) (k : kernel_tables) (b : Z) (y : sys64) : Prop := {
  sp_inv : process64_inv all base k (sy_process y);
  sp_pids : next_pid64 (sy_process y) < 4294967295;
  sp_loader : loader_pages all b (sy_process y);
  sp_pages : exec_pages b (sy_exec y);
  sp_vfs : vfs64_ok user_image (sy_vfs y);
  sp_mounted : v64_initialized (v_state (sy_vfs y)) = true;
  sp_images : forall image, is_bytes (user_image image)
}.

Lemma on_elf_load_ok all base k b y d (Q : bool -> sys64 -> Prop) :
  process64_inv all base k (sy_process y) -> loader_pages all b (sy_process y) -> exec_pages b (sy_exec y) -> is_bytes d ->
  (forall m ex, let s := (sy_process y) <| pr_mem := m |> in
     same_beyond b (pr_mem (sy_process y)) m -> process64_inv all base k s -> loader_pages all b s -> exec_pages b ex ->
     (elf64_accepts d = true -> elf64_image b d {| el_mem := m; el_exec := ex |}) -> Q (elf64_accepts d) (y <| sy_process := s |> <| sy_exec := ex |>)) ->
  wp (on_elf (x86_64_syscall_load_exec_elf d (Z.of_nat (length d)))) Q y.
Proof using.
  intros Hinv Hlp Hex Hd HQ. unfold on_elf. apply wp_zoom. eapply wp_mono; [apply (load_exec_elf_ok b d); [exact Hex|exact Hd]|].
  intros r [m ex] (-> & Hm & Hex' & Himg). cbn [el_mem el_exec] in *. apply HQ; [exact Hm|by eapply inv_loaded|by destruct Hlp|exact Hex'|].
  intros Hacc. by rewrite Hacc in Himg.
Qed.
End Dispatch.


Lemma caller_string_same y y' addr path :
  sy_process y' = sy_process y -> sy_cr3 y' = sy_cr3 y -> caller_string y addr path -> caller_string y' addr path.
Proof. intros E1 E2 [H1 H2 H3 H4]. constructor; try done. by rewrite E1, E2. Qed.

(** Bookkeeping changes nothing that the services depend on. *)
Record same_core (y y' : sys64) : Prop := {
  sc_process : sy_process y' = sy_process y;
  sc_vfs : sy_vfs y' = sy_vfs y;
  sc_cr3 : sy_cr3 y' = sy_cr3 y;
  sc_pages : exec_user_code_page (sy_exec y') = exec_user_code_page (sy_exec y) /\ exec_user_image_pages (sy_exec y') = exec_user_image_pages (sy_exec y)
}.

Section Services.
Context (user_image : user_image64 -> list Z) (typed : Z -> list Z) (arrivals : Z -> nat)
  (snapshot : Z -> Y (Z * list Z)) (present : Y Z) (interactive : bool).
Context (all : list Z) (base : gset Z) (k : kernel_tables) (b : Z).

Lemma spawn_ready_same y y' : same_core y y' -> spawn_ready user_image all base k b y -> spawn_ready user_image all base k b y'.
Proof using.
  intros [E1 E2 _ [E3 E4]] [H1 H2 H3 [P1 P2 P3] H5 H6 H7]. constructor; rewrite ?E1, ?E2; try done. constructor; [by rewrite E3|by rewrite E4|done].
Qed.

Lemma sd_mod_ok f (Q : unit -> sys64 -> Prop) y :
  (forall y', sy_process y' = sy_process y -> sy_vfs y' = sy_vfs y -> sy_cr3 y' = sy_cr3 y -> sy_exec y' = sy_exec y -> Q tt y') -> wp (sd_mod f) Q y.
Proof using. intros H. unfold sd_mod. wp_step. by apply H. Qed.

(** ** Starting a program *)

(** What a call that starts the program at [path] does to the processes; [ok p] says
    what it tells its caller when [p] is the new process, [r] is what it returns else. *)
Definition path_started (path : list Z) (s s' : process64) (ok : x86_64_process -> Prop) (r : Z) : Prop :=
  match x86_64_vfs_nodes !! Z.to_nat (path_index path) with
  | None => r = X86_64_VFS_RET_ENOENT /\ s' = s
  | Some node =>
      match n64_data node with
      | DImage image =>
          if decide (elf64_accepts (user_image image) = true /\ slot_free s /\ (12 <= length (free_frames (pr_pmm s)))%nat)
          then exists p, program_process k (user_image image) s s' p /\ ok p
          else r = X86_64_SYSCALL_RET_EINVAL /\ same_used s s'
      | _ => r = X86_64_SYSCALL_RET_ENOSYS /\ s' = s
      end
  end.

(** The program of [d] is in the pages of the loader, since [y0]. *)
Record image_ready (d : list Z) (y0 y : sys64) : Prop := {
  ir_process : exists m, sy_process y = (sy_process y0) <| pr_mem := m |>;
  ir_inv : process64_inv all base k (sy_process y);
  ir_loader : loader_pages all b (sy_process y);
  ir_pages : exec_pages b (sy_exec y);
  ir_accepted : elf64_accepts d = true;
  ir_image : elf64_image b d {| el_mem := pr_mem (sy_process y); el_exec := sy_exec y |};
  ir_vfs : sy_vfs y = sy_vfs y0
}.

Lemma image_ready_same d y0 y y' :
  sy_process y' = sy_process y -> sy_exec y' = sy_exec y -> sy_vfs y' = sy_vfs y -> image_ready d y0 y -> image_ready d y0 y'.
Proof using. intros E1 E2 E3 [H1 H2 H3 H4 H5 H6 H7]. constructor; rewrite ?E1, ?E2, ?E3; done. Qed.

Lemma load_image_ok y d (Q : bool -> sys64 -> Prop) :
  spawn_ready user_image all base k b y -> is_bytes d ->
  (forall y', image_ready d y y' -> Q true y') ->
  (forall y', elf64_accepts d = false -> process64_inv all base k (sy_process y') -> same_used (sy_process y) (sy_process y') -> sy_vfs y' = sy_vfs y -> Q false y') ->
  wp (on_elf (x86_64_syscall_load_exec_elf d (Z.of_nat (length d)))) Q y.
Proof using.
  intros [R1 R2 R3 R4 _ _ _] Hd Hok Href. eapply (on_elf_load_ok all base k b); [exact R1|exact R3|exact R4|exact Hd|].
  intros m ex s Hm Hinv Hlp Hex Himg. destruct (elf64_accepts d) eqn:Hacc.
  - apply Hok. constructor; [by exists m|exact Hinv|exact Hlp|exact Hex|exact Hacc|by apply Himg|done].
  - apply Href; [done|exact Hinv| |done]. split; [done|]. split; done.
Qed.

Lemma create_image_step_ok y0 y d path (Q : Z -> sys64 -> Prop) :
  image_ready d y0 y -> next_pid64 (sy_process y0) < 4294967295 ->
  (forall pid y', process64_inv all base k (sy_process y') -> sy_vfs y' = sy_vfs y0 -> sy_exec y' = sy_exec y ->
     (if decide (slot_free (sy_process y0) /\ (12 <= length (free_frames (pr_pmm (sy_process y0))))%nat)
      then exists p, program_process k d (sy_process y0) (sy_process y') p /\ pid = p6_pid p /\ pid <> 0 /\ sm_last_user_cr3 (process64_state (sy_process y')) = p6_cr3 p
      else pid = 0 /\ same_used (sy_process y0) (sy_process y')) -> Q pid y') ->
  wp (create_loaded path) Q y.
Proof using.
  intros [(m & Ep) Hinv Hlp Hex Hacc Himg Hv] Hpid HQ. eapply (create_loaded_ok all base k b d); [exact Hinv|by rewrite Ep|exact Hlp|exact Hex|exact Hacc|exact Himg|].
  intros pid s' Hinv' Hcr _. apply HQ; [exact Hinv'|exact Hv|done|]. change (sy_process (y <| sy_process := s' |>)) with s'.
  pose proof (pv_table _ _ _ _ Hinv) as (held & Ht & _). pose proof (to_next _ _ _ Ht) as Hnx. rewrite Ep in Hcr, Hnx.
  set (s := (sy_process y0) <| pr_mem := m |>) in *. change (pr_pmm s) with (pr_pmm (sy_process y0)) in Hcr. change (slot_free s) with (slot_free (sy_process y0)) in Hcr.
  case_decide as Hdec.
  - destruct Hcr as (p & [(i & P1) P2 P3 P4 P5 P6 P7] & -> & Hlast). rewrite decide_True by exact Hdec. exists p. split; [by constructor; [exists i|..]|]. split; [done|].
    split; [|exact Hlast]. destruct P2 as [P2 _]. rewrite P2. change (next_pid64 s) with (next_pid64 (sy_process y0)) in *. lia.
  - rewrite decide_False by exact Hdec. exact Hcr.
Qed.

(** The result of a call that starts a program. *)
Lemma path_started_image path s s' ok r j node image :
  Z.to_nat (path_index path) = j -> x86_64_vfs_nodes !! j = Some node -> n64_data node = DImage image ->
  (if decide (elf64_accepts (user_image image) = true /\ slot_free s /\ (12 <= length (free_frames (pr_pmm s)))%nat)
   then exists p, program_process k (user_image image) s s' p /\ ok p else r = X86_64_SYSCALL_RET_EINVAL /\ same_used s s') ->
  path_started path s s' ok r.
Proof using. intros Hj En Ed H. unfold path_started. by rewrite Hj, En, Ed. Qed.

(** From the pointer to the file; [found] is what is done with an executable. *)
Lemma find_image_ok y addr path (mark : x86_64_syscall_dispatch_state -> x86_64_syscall_dispatch_state) (type_ok : x86_64_syscall_dispatch_state -> x86_64_syscall_dispatch_state)
    (faulted : Y Z) (found : list Z -> data64 -> Z -> Y Z) (Q : Z -> sys64 -> Prop) :
  spawn_ready user_image all base k b y -> caller_string y addr path ->
  (forall r y', sy_process y' = sy_process y -> sy_vfs y' = sy_vfs y -> path_started path (sy_process y) (sy_process y) (fun _ => False) r -> r <> 0 -> Q r y') ->
  (forall y' node image, same_core y y' -> x86_64_vfs_nodes !! Z.to_nat (path_index path) = Some node -> n64_data node = DImage image ->
     wp (found path (DImage image) (Z.of_nat (length (user_image image)))) Q y') ->
  wp (ok <- x86_64_syscall_user_path_ok addr ;;
      if negb ok then faulted
      else
        path <- user_path_at addr ;;
        r <- on_vfs64 (x86_64_vfs_resolve user_image (Some path) true true true) ;;
        match snd r with
        | None => mret_ (fst r)
        | Some (image, image_size, node_type) =>
            sd_mod mark ;;;
            if negb (node_type =? X86_64_VFS_NODE_EXECUTABLE) then mret_ X86_64_SYSCALL_RET_ENOSYS
            else sd_mod type_ok ;;; found path image image_size
        end) Q y.
Proof using.
  intros Hr1 Hs1 Hno Hfound. wp_step. eapply user_path_ok_ok; [exact Hs1|]. cbn [negb]. wp_step. eapply user_path_at_ok; [exact Hs1|]. wp_step. apply wp_zoom.
  eapply wp_mono; [apply (resolve_ok user_image); [apply (sp_vfs _ _ _ _ _ _ Hr1)|apply (sp_mounted _ _ _ _ _ _ Hr1)]|]. intros res v [-> Hres].
  assert (Ey : y <| sy_vfs := sy_vfs y |> = y) by (by destruct y). rewrite Ey. clear Ey.
  unfold path_started in Hno. destruct (x86_64_vfs_nodes !! Z.to_nat (path_index path)) as [node|] eqn:En; subst res; cbn [fst snd].
  2:{ wp_step. by apply Hno. }
  wp_step. apply sd_mod_ok. intros y2 B1 B2 B3 B4. rewrite (node_executable _ _ En).
  assert (Hd : x86_64_vfs_node_data node = if bool_decide (n64_data node = DNull) && (n64_type node =? X86_64_VFS_NODE_FILE) then DSession else n64_data node) by reflexivity.
  destruct (n64_data node) as [|text|image|] eqn:Ed; cbn [negb]; [wp_step; by apply Hno..| |wp_step; by apply Hno].
  wp_step. apply sd_mod_ok. intros y3 C1 C2 C3 C4. rewrite Hd. unfold node_bytes. rewrite Ed. cbn [andb bool_decide].
  apply (Hfound y3 node image); [|done|done]. constructor; [by rewrite C1|by rewrite C2|by rewrite C3|by rewrite C4, B4].
Qed.

(** The state after the fields of the last call are reset. *)
Lemma reset_core y y0 f :
  sy_process y0 = sy_process y -> sy_vfs y0 = sy_vfs y -> sy_cr3 y0 = sy_cr3 y -> sy_exec y0 = sy_exec y ->
  (forall ex, exec_user_code_page (f ex) = exec_user_code_page ex /\ exec_user_image_pages (f ex) = exec_user_image_pages ex) ->
  same_core y (y0 <| sy_exec ::= f |>).
Proof using. intros E1 E2 E3 E4 Hf. constructor; [exact E1|exact E2|exact E3|]. rewrite <- E4. exact (Hf (sy_exec y0)). Qed.

Lemma path_started_none path s r ok : path_started path s s (fun _ => False) r -> path_started path s s ok r.
Proof using.
  unfold path_started. case_match; [|done]. case_match; try done. case_decide; [|done]. by intros (p & _ & []).
Qed.

Lemma path_started_imp path s s' (ok ok' : x86_64_process -> Prop) r :
  (forall p, ok p -> ok' p) -> path_started path s s' ok r -> path_started path s s' ok' r.
Proof using.
  intros Himp. unfold path_started. case_match; [|done]. case_match; try done. case_decide; [|done]. intros (p & Hp & Hok). exists p. auto.
Qed.

Lemma path_started_zero path s s' ok : path_started path s s' ok 0 -> exists p, ok p.
Proof using.
  unfold path_started. case_match; [|by intros []]. case_match; try by intros []. case_decide; [|by intros []]. intros (p & _ & Hok). by exists p.
Qed.

Lemma spawn_ok y addr path (Q : Z -> sys64 -> Prop) :
  spawn_ready user_image all base k b y -> caller_string y addr path ->
  (forall r y', process64_inv all base k (sy_process y') -> path_started path (sy_process y) (sy_process y') (fun p => r = p6_pid p) r ->
     sy_vfs y' = sy_vfs y -> Q r y') ->
  wp (syscall64_spawn user_image addr) Q y.
Proof using.
  intros Hready Hpath HQ. unfold syscall64_spawn. wp_step. apply sd_mod_ok. intros y0 A1 A2 A3 A4. wp_step. wp_step.
  match goal with |- wp _ _ ?t => set (y1 := t) end.
  assert (Hc : same_core y y1) by (by apply reset_core). clearbody y1. clear A1 A2 A3 A4.
  pose proof (caller_string_same y y1 addr path (sc_process _ _ Hc) (sc_cr3 _ _ Hc) Hpath) as Hs1. pose proof (spawn_ready_same y y1 Hc Hready) as Hr1.
  destruct Hc as [Ep Ev _ _]. rewrite <- Ep, <- Ev in HQ. pose proof (sp_inv _ _ _ _ _ _ Hr1) as Hinv.
  apply (find_image_ok y1 addr path _ _ _ (fun path image image_size => _) _ Hr1 Hs1).
  - intros r y' E1 E2 Hp _. apply HQ; rewrite ?E1; [exact Hinv|by apply path_started_none|exact E2].
  - intros y2 node image Hc2 En Ed. cbn [image_bytes]. pose proof (spawn_ready_same y1 y2 Hc2 Hr1) as Hr2. destruct Hc2 as [Ep2 Ev2 _ _].
    wp_step. apply load_image_ok; [exact Hr2|apply (sp_images _ _ _ _ _ _ Hr1)| |]; cbn [negb].
    2:{ intros y3 Hacc Hi3 Hu3 Hv3. wp_step. apply HQ; [exact Hi3| |by rewrite Hv3]. eapply path_started_image; [done|exact En|exact Ed|].
        rewrite Hacc, decide_False by (by intros [? _]). by rewrite <- Ep2. }
    intros y3 Hi3. wp_step. apply sd_mod_ok. intros y4 D1 D2 _ D4. pose proof (image_ready_same _ _ _ _ D1 D4 D2 Hi3) as Hi4. wp_step.
    eapply create_image_step_ok; [exact Hi4|apply (sp_pids _ _ _ _ _ _ Hr2)|]. intros pid y5 Hi5 Hv5 _ Hcr. wp_step. apply sd_mod_ok. intros y6 F1 F2 _ _.
    rewrite Ep2 in Hcr. pose proof (ir_accepted _ _ _ Hi3) as Hacc. case_decide as Hdec.
    + destruct Hcr as (p & Hp & -> & Hne & _). rewrite (proj2 (Z.eqb_neq _ 0) Hne). wp_step. apply sd_mod_ok. intros y7 G1 G2 _ _. wp_step.
      apply HQ; rewrite ?G1, ?G2, ?F1, ?F2; [exact Hi5| |by rewrite Hv5]. eapply path_started_image; [done|exact En|exact Ed|]. rewrite decide_True by done. by exists p.
    + destruct Hcr as [-> Hsame]. cbn [Z.eqb]. wp_step. apply HQ; rewrite ?F1, ?F2; [exact Hi5| |by rewrite Hv5].
      eapply path_started_image; [done|exact En|exact Ed|]. rewrite decide_False by (intros [_ H]; by apply Hdec). done.
Qed.

(** What an exec that made process [p] leaves for the return to user mode. *)
Definition exec_target (y' : sys64) (p : x86_64_process) : Prop :=
  exec_loaded (sy_exec y') = true /\ exec_entry (sy_exec y') = p6_user_entry p /\
  sd_exec_target_cr3 (sy_state y') = p6_cr3 p /\ sd_exec_cr3_switch_requested (sy_state y') = true /\
  sd_exec_spawned_pid (sy_state y') = p6_pid p.

Lemma exec_ok y addr path (Q : Z -> sys64 -> Prop) :
  spawn_ready user_image all base k b y -> caller_string y addr path ->
  (forall r y', process64_inv all base k (sy_process y') ->
     path_started path (sy_process y) (sy_process y') (fun p => r = X86_64_SYSCALL_RET_OK /\ exec_target y' p) r ->
     sy_vfs y' = sy_vfs y -> Q r y') ->
  wp (syscall64_exec user_image addr) Q y.
Proof using.
  intros Hready Hpath HQ. unfold syscall64_exec. wp_step. wp_step. wp_step. apply sd_mod_ok. intros y1 A1 A2 A3 A4.
  assert (Hc : same_core y y1) by (constructor; [exact A1|exact A2|exact A3|by rewrite A4]). clear A1 A2 A3 A4.
  pose proof (caller_string_same y y1 addr path (sc_process _ _ Hc) (sc_cr3 _ _ Hc) Hpath) as Hs1. pose proof (spawn_ready_same y y1 Hc Hready) as Hr1.
  destruct Hc as [Ep Ev _ _]. rewrite <- Ep, <- Ev in HQ. pose proof (sp_inv _ _ _ _ _ _ Hr1) as Hinv.
  apply (find_image_ok y1 addr path _ _ _ (fun path image image_size => _) _ Hr1 Hs1).
  - intros r y' E1 E2 Hp _. apply HQ; rewrite ?E1; [exact Hinv|by apply path_started_none|exact E2].
  - intros y2 node image Hc2 En Ed. cbn [image_bytes]. pose proof (spawn_ready_same y1 y2 Hc2 Hr1) as Hr2. destruct Hc2 as [Ep2 Ev2 _ _].
    wp_step. apply load_image_ok; [exact Hr2|apply (sp_images _ _ _ _ _ _ Hr1)| |]; cbn [negb].
    2:{ intros y3 Hacc Hi3 Hu3 Hv3. wp_step. apply HQ; [exact Hi3| |by rewrite Hv3]. eapply path_started_image; [done|exact En|exact Ed|].
        rewrite Hacc, decide_False by (by intros [? _]). by rewrite <- Ep2. }
    intros y3 Hi3. wp_step. eapply create_image_step_ok; [exact Hi3|apply (sp_pids _ _ _ _ _ _ Hr2)|]. intros pid y5 Hi5 Hv5 Hx5 Hcr.
    wp_step. unfold sd_mod at 1. wp_step. match goal with |- wp _ _ ?t => set (y6 := t) end.
    assert (F : sy_process y6 = sy_process y5 /\ sy_vfs y6 = sy_vfs y5 /\ sy_exec y6 = sy_exec y5 /\ sd_exec_spawned_pid (sy_state y6) = pid) by (repeat split; reflexivity).
    clearbody y6. destruct F as (F1 & F2 & F4 & F5). rewrite Ep2 in Hcr. destruct (ir_image _ _ _ Hi3) as [_ I2 _ _ _ I6]. cbn [el_exec] in I2, I6.
    pose proof (ir_accepted _ _ _ Hi3) as Hacc. case_decide as Hdec.
    + destruct Hcr as (p & Hp & -> & Hne & Hlast). rewrite (proj2 (Z.eqb_neq _ 0) Hne). wp_step. unfold on_process. apply wp_zoom. wp_step.
      replace (y6 <| sy_process := sy_process y6 |>) with y6 by (by destruct y6). unfold sd_mod. do 3 wp_step.
      match goal with |- Q _ ?t => set (y7 := t) end.
      assert (G : sy_process y7 = sy_process y6 /\ sy_vfs y7 = sy_vfs y6 /\ sy_exec y7 = sy_exec y6 /\
        sd_exec_target_cr3 (sy_state y7) = sm_last_user_cr3 (process64_state (sy_process y6)) /\
        sd_exec_cr3_switch_requested (sy_state y7) = negb (sm_last_user_cr3 (process64_state (sy_process y6)) =? 0) /\
        sd_exec_spawned_pid (sy_state y7) = sd_exec_spawned_pid (sy_state y6)) by (repeat split; reflexivity).
      clearbody y7. destruct G as (G1 & G2 & G3 & G4 & G5 & G6). rewrite F1, Hlast in G4, G5. rewrite (proj2 (Z.eqb_neq (p6_cr3 p) 0) (pp_cr3 _ _ _ _ _ Hp)) in G5.
      apply HQ; rewrite ?G1, ?G2, ?F1, ?F2; [exact Hi5| |by rewrite Hv5]. eapply path_started_image; [done|exact En|exact Ed|]. rewrite decide_True by done.
      exists p. split; [exact Hp|]. split; [done|]. unfold exec_target. rewrite G3, G4, G5, G6, F5, F4, Hx5, I6, I2. split; [done|]. split; [|done].
      symmetry. apply (pg_entry _ _ _ _ (pp_visible _ _ _ _ _ Hp)).
    + destruct Hcr as [-> Hsame]. cbn [Z.eqb]. wp_step. apply HQ; rewrite ?F1, ?F2; [exact Hi5| |by rewrite Hv5].
      eapply path_started_image; [done|exact En|exact Ed|]. rewrite decide_False by (intros [_ H]; by apply Hdec). done.
Qed.

(** ** Theorems *)

(** C3: the spawn system call with a path in the caller's memory: it returns the number
    of a new, ready user process when the path names a program that the loader
    accepts, a slot and twelve frames are free; user code of that process then finds at
    0x400000 exactly the program of the file, byte for byte, with the rights of its
    segments, a zeroed stack, and can reach nothing else. Otherwise it returns the
    error of the first step that failed (no such file, not a program, not loadable or
    no room) and the processes are as before. The invariant of the processes is kept. *)
Theorem syscall64_spawn_program y addr path arg1 arg2
    (Hready : spawn_ready user_image all base k b y) (Hpath : caller_string y addr path) :
  wp (x86_64_syscall_dispatch user_image typed arrivals snapshot present interactive X86_64_SYSCALL_SERVICE_SPAWN addr arg1 arg2) (fun r y' =>
    process64_inv all base k (sy_process y') /\
    path_started path (sy_process y) (sy_process y') (fun p => r = p6_pid p) r /\ sy_vfs y' = sy_vfs y) y.
Proof using.
  unfold x86_64_syscall_dispatch. wp_step. apply sd_mod_ok. intros y1 E1 E2 E3 E4. wp_step. eapply (spawn_ok y1 addr path).
  - eapply spawn_ready_same; [|exact Hready]. constructor; [done|done|done|by rewrite E4].
  - by eapply caller_string_same.
  - intros r y2 Hi Hp Hv. wp_step. apply sd_mod_ok. intros y3 F1 F2 _ _. wp_step. rewrite F1, F2, Hv, <- E1. by split.
Qed.

(** The exec call with what the caller of the dispatcher uses. *)
Lemma exec_frame_ok y frame path :
  spawn_ready user_image all base k b y -> sf_number frame = X86_64_SYSCALL_SERVICE_EXEC -> caller_string y (sf_arg0 frame) path ->
  wp (x86_64_syscall_dispatch_frame user_image typed arrivals snapshot present interactive frame) (fun f y' =>
    process64_inv all base k (sy_process y') /\ sf_number f = X86_64_SYSCALL_SERVICE_EXEC /\ sf_exit_requested f = false /\ sy_vfs y' = sy_vfs y /\
    path_started path (sy_process y) (sy_process y') (fun p => (sf_result f = X86_64_SYSCALL_RET_OK /\ sf_user_rip f = p6_user_entry p /\
      sf_target_cr3 f = p6_cr3 p /\ sf_cr3_switch_requested f = true) /\ sd_exec_spawned_pid (sy_state y') = p6_pid p) (sf_result f) /\
    (sf_result f <> X86_64_SYSCALL_RET_OK -> sf_user_rip f = sf_user_rip frame /\ sf_cr3_switch_requested f = false)) y.
Proof using.
  intros Hready Hexec Hpath.
  unfold x86_64_syscall_dispatch_frame, x86_64_syscall_dispatch. rewrite Hexec. wp_step. wp_step. apply sd_mod_ok. intros y1 E1 E2 E3 E4. wp_step.
  eapply (exec_ok y1 (sf_arg0 frame) path).
  { eapply spawn_ready_same; [|exact Hready]. constructor; [done|done|done|by rewrite E4]. }
  { by eapply caller_string_same. }
  intros r y2 Hi Hp Hv. unfold sd_mod. do 5 wp_step. get_set. rewrite Hexec. rewrite <- E1.
  change (X86_64_SYSCALL_SERVICE_EXEC =? X86_64_SYSCALL_SERVICE_EXEC) with true. change (X86_64_SYSCALL_SERVICE_EXEC =? X86_64_SYSCALL_SERVICE_EXIT) with false. cbn [andb].
  change X86_64_SYSCALL_RET_OK with 0 in *. destruct (Z.eqb_spec r 0) as [->|Hne]; cbn [andb].
  - destruct (path_started_zero _ _ _ _ Hp) as (p & _ & Hl & _). rewrite Hl. get_set. rewrite Hexec.
    change (X86_64_SYSCALL_SERVICE_EXEC =? X86_64_SYSCALL_SERVICE_EXIT) with false. cbn [andb]. wp_step.
    split; [exact Hi|]. split; [exact Hexec|]. split; [done|]. split; [by rewrite E2 in Hv|]. split; [|done]. eapply path_started_imp; [|exact Hp]. intros q (_ & _ & T2 & T3 & T4 & T5). done.
  - get_set. rewrite Hexec. change (X86_64_SYSCALL_SERVICE_EXEC =? X86_64_SYSCALL_SERVICE_EXIT) with false. cbn [andb]. wp_step.
    split; [exact Hi|]. split; [exact Hexec|]. split; [done|]. split; [by rewrite E2 in Hv|]. split; [|done]. eapply path_started_imp; [|exact Hp]. by intros q [? _].
Qed.

(** C7: the exec system call, up to the registers with which user mode is entered again:
    when the program is started, execution continues at the entry of the file in the
    address space of the new process, in which user code finds exactly the program;
    after an error it continues after the call in the same address space. *)
Theorem syscall64_exec_resumes y frame path
    (Hready : spawn_ready user_image all base k b y) (Hexec : sf_number frame = X86_64_SYSCALL_SERVICE_EXEC)
    (Hpath : caller_string y (sf_arg0 frame) path) :
  wp (x86_64_syscall_dispatch_frame user_image typed arrivals snapshot present interactive frame) (fun f y' =>
    process64_inv all base k (sy_process y') /\ sf_exit_requested f = false /\
    path_started path (sy_process y) (sy_process y') (fun p => sf_result f = X86_64_SYSCALL_RET_OK /\ sf_user_rip f = p6_user_entry p /\
      sf_target_cr3 f = p6_cr3 p /\ sf_cr3_switch_requested f = true) (sf_result f) /\
    (sf_result f <> X86_64_SYSCALL_RET_OK -> sf_user_rip f = sf_user_rip frame /\ sf_cr3_switch_requested f = false)) y.
Proof using.
  eapply wp_mono; [exact (exec_frame_ok y frame path Hready Hexec Hpath)|]. intros f y' (Hi & _ & He & _ & Hp & Hr).
  split; [exact Hi|]. split; [exact He|]. split; [|exact Hr]. eapply path_started_imp; [|exact Hp]. by intros p [H _].
Qed.



















End Services.

(** ** Exit codes are kept by exec *)

Definition exit_queue (s : process64) := (child_status_queue s, child_status_count s).

Lemma create_keeps_queue path img n entry count bitmap : keeps exit_queue (x86_64_process_create_user_image path img n entry count bitmap).
Proof. keeps_solve. Qed.
#[export] Hint Resolve create_keeps_queue : keeps.

Lemma exec_keeps_queue user_image arg0 : keeps (fun y => exit_queue (sy_process y)) (syscall64_exec user_image arg0).
Proof. keeps_solve. Qed.
#[export] Hint Resolve exec_keeps_queue : keeps.



(** ** The return of a child *)













(** What the desktop services, which draw and report, leave alone. *)
Definition system_part (y : sys64) := (sy_process y, sy_vfs y, sd_current_pid (sy_state y), sy_cr3 y).

Section UserMode.
Context (user_image : user_image64 -> list Z) (typed : Z -> list Z) (arrivals : Z -> nat)
  (snapshot : Z -> Y (Z * list Z)) (present : Y Z) (interactive : bool).
Context (all : list Z) (base : gset Z) (k : kernel_tables) (b : Z).

Let entry := x86_64_user_mode_syscall_entry user_image typed arrivals snapshot present interactive.

(** The program at [path] can be started. *)
Record startable (path : list Z) (image : user_image64) (s : process64) : Prop := {
  sa_image : exists node, x86_64_vfs_nodes !! Z.to_nat (path_index path) = Some node /\ n64_data node = DImage image;
  sa_accepted : elf64_accepts (user_image image) = true;
  sa_slot : slot_free s;
  sa_frames : (12 <= length (free_frames (pr_pmm s)))%nat
}.

Lemma startable_started path image s s' ok r :
  startable path image s -> path_started user_image k path s s' ok r -> exists p, program_process k (user_image image) s s' p /\ ok p.
Proof using.
  intros [(node & En & Ed) H1 H2 H3]. unfold path_started. rewrite En, Ed. by rewrite decide_True by done.
Qed.




(** *** While a program runs *)

(** The programs and the desktop services. *)
Context (snapshot_quiet : forall n, keeps system_part (snapshot n)) (present_quiet : keeps system_part present)
  (images_small : forall i, Z.of_nat (length (user_image i)) < 4294967296).







Abbreviation files_ok := (fun y => vfs64_ok user_image (sy_vfs y)).





Abbreviation dispatch := (x86_64_syscall_dispatch user_image typed arrivals snapshot present interactive).
Abbreviation call := (user_mode_call user_image typed arrivals snapshot present interactive).
Abbreviation service := (syscall64_service user_image typed arrivals snapshot present interactive).













End UserMode.

(** ** A concrete call *)

(** A caller whose page tables map 0x400000, and the same program at each path. *)
Definition syscall64_images (_ : user_image64) : list Z := elf64_sample 62.
Definition syscall64_idle : x86_64_syscall_dispatch_state :=
  Build_x86_64_syscall_dispatch_state true 19 1 0 true 0 0 true true 0 false false false false false false false false false 0 false false false
    false 0 false false false false false 0 0 0 0 0 0.
Definition syscall64_sample : sys64 :=
  {| sy_process := process64_sample; sy_vfs := vfs64_sample; sy_input := input64_start; sy_exec := el_exec elf64_start; sy_state := syscall64_idle;
     sy_cr3 := 0x110000; sy_serial := []; sy_polls := [] |}.


Lemma syscall64_sample_ready :
  spawn_ready syscall64_images process64_frames ∅ (process64_kernel process64_mem) 0x180000 syscall64_sample.
Proof.
  destruct process64_sample_inv as (Hinv & Hn & _). constructor; cbn [syscall64_sample sy_process sy_exec sy_vfs].
  - exact Hinv.
  - rewrite Hn. lia.
  - constructor; [split; [lia|reflexivity]| |].
    + split; [lia|]. split; [lia|]. intros p Hp. apply list_elem_of_fmap in Hp as (i & -> & Hi). apply elem_of_seqZ in Hi. lia.
    + replace (process_paging_context process64_sample) with (process_paging_context process64_boot) by reflexivity.
      split; [|split]; apply (bool_decide_unpack _); vm_compute; exact I.
  - exact elf64_start_pages.
  - destruct (vfs64_init_ok syscall64_images (v_state vfs64_blank) (session_storage vfs64_blank) 0) as ([] & s' & E & H & _); [done..|lia|].
    unfold vfs64_sample, final. change vfs64_blank with {| v_state := v_state vfs64_blank;
    session_storage := session_storage vfs64_blank; session_storage_size := 0 |}. by rewrite E.
  - reflexivity.
  - intros image. apply elf64_sample_bytes.
Qed.

Lemma syscall64_sample_path : caller_string syscall64_sample 0x400100 (str "/bin/hello").
Proof.
  constructor; [reflexivity|lia|repeat constructor; done|]. cbn [syscall64_sample sy_process sy_cr3].
  replace (pr_mem process64_sample) with process64_mem by reflexivity. intros i c Hi.
  assert (H : Forall (fun i => exists pa r, walk64 process64_mem 0x110000 (0x400100 + Z.of_nat i) = Some (pa, r) /\
    Some (load8 process64_mem pa) = (str "/bin/hello" ++ [0]) !! i) (seq 0 11)).
  { repeat first [apply Forall_nil_2 | apply Forall_cons_2; [eexists _, _; split; [vm_compute; reflexivity|vm_compute; reflexivity]|]]. }
  rewrite Forall_forall in H. destruct (H i) as (pa & r & Hw & Hl).
  { apply elem_of_seq. apply lookup_lt_Some in Hi. change (length (str "/bin/hello" ++ [0])) with 11%nat in Hi. lia. }
  exists pa, r. split; [exact Hw|]. rewrite Hi in Hl. by injection Hl.
Qed.

Definition no_keys (_ : Z) : list Z := [].
Definition one_tick (_ : Z) : nat := 1.
Definition no_desktop (_ : Z) : Y (Z * list Z) := mret_ (0, []).

(** The sample program can be started. *)
Lemma syscall64_sample_startable : startable syscall64_images (str "/bin/hello") IMG_hello process64_sample.
Proof.
  destruct process64_sample_inv as (_ & _ & _ & _ & _ & Hsl & H12 & _). constructor; [|vm_compute; reflexivity|exact Hsl|exact H12].
  exists (image_node (str "/bin/hello") IMG_hello). split; [vm_compute; reflexivity|reflexivity].
Qed.

Lemma syscall64_spawn_program_witness :
  wp (x86_64_syscall_dispatch syscall64_images no_keys one_tick no_desktop (mret_ 1) false X86_64_SYSCALL_SERVICE_SPAWN 0x400100 0 0)
    (fun r y' => r = 1 /\ exists p pa, p6_pid p = 1 /\ walk64 (pr_mem (sy_process y')) (p6_cr3 p) 0x401000 = Some (pa, (true, true)) /\
       load8 (pr_mem (sy_process y')) pa = 42) syscall64_sample.
Proof.
  eapply wp_mono; [exact (syscall64_spawn_program syscall64_images no_keys one_tick no_desktop (mret_ 1) false process64_frames ∅
    (process64_kernel process64_mem) 0x180000 syscall64_sample 0x400100 (str "/bin/hello") 0 0 syscall64_sample_ready syscall64_sample_path)|].
  intros r y' (_ & Hp & _). apply (startable_started _ _ _ _ _ _ _ _ syscall64_sample_startable) in Hp as (p & [_ [Hpid _] _ _ _ [_ Hcode _ _]] & ->).
  destruct process64_sample_inv as (_ & Hn & _). change (sy_process syscall64_sample) with process64_sample in Hpid. rewrite Hn in Hpid. split; [exact Hpid|].
  destruct (Hcode 4096) as (pa & Hw & Hl); [vm_compute; split; [done|reflexivity]|]. exists p, pa. split; [exact Hpid|]. split.
  - etransitivity; [exact Hw|vm_compute; reflexivity].
  - etransitivity; [exact Hl|vm_compute; reflexivity].
Defined.

Definition syscall64_exec_frame : x86_64_syscall_frame :=
  {| sf_number := X86_64_SYSCALL_SERVICE_EXEC; sf_arg0 := 0x400100; sf_arg1 := 0; sf_arg2 := 0; sf_user_rip := 0x400042; sf_user_rflags := 0x202;
     sf_result := 0; sf_exit_requested := true; sf_cr3_switch_requested := false; sf_target_cr3 := 0 |}.

Lemma syscall64_exec_resumes_witness :
  wp (x86_64_syscall_dispatch_frame syscall64_images no_keys one_tick no_desktop (mret_ 1) false syscall64_exec_frame)
    (fun f y' => sf_result f = 0 /\ sf_user_rip f = 0x400000 /\ sf_cr3_switch_requested f = true /\
       exists pa, walk64 (pr_mem (sy_process y')) (sf_target_cr3 f) (sf_user_rip f) = Some (pa, (true, false)) /\
         load8 (pr_mem (sy_process y')) pa = 0x90) syscall64_sample.
Proof.
  eapply wp_mono; [exact (syscall64_exec_resumes syscall64_images no_keys one_tick no_desktop (mret_ 1) false process64_frames ∅
    (process64_kernel process64_mem) 0x180000 syscall64_sample syscall64_exec_frame (str "/bin/hello") syscall64_sample_ready eq_refl syscall64_sample_path)|].
  intros f y' (_ & _ & Hp & _). apply (startable_started _ _ _ _ _ _ _ _ syscall64_sample_startable) in Hp as (p & [_ _ _ _ _ [Hent Hcode _ _]] & Hr & Hrip & Hcr3 & Hsw).
  rewrite Hent in Hrip. replace (long_at (elf64_sample 62) 24) with 0x400000 in Hrip by (vm_compute; reflexivity).
  do 2 (split; [done|]). split; [exact Hsw|]. rewrite Hcr3, Hrip. destruct (Hcode 0) as (pa & Hw & Hl); [vm_compute; split; [done|reflexivity]|].
  exists pa. split; [etransitivity; [exact Hw|vm_compute; reflexivity]|etransitivity; [exact Hl|vm_compute; reflexivity]].
Defined.







Abbreviation sample_call := (user_mode_call syscall64_images no_keys one_tick no_desktop (mret_ 1) false).




(** The checked range is one of addresses, not of rights: 0x500000 is mapped for the
    kernel only, and GET_ARG writes the word "interactive" there for its caller. *)
Example syscall64_writes_kernel_page :
  let m y := pr_mem (sy_process y) in
  walk64 (m syscall64_sample) (sy_cr3 syscall64_sample) 0x500000 = Some (0x500000, (false, false)) /\
  match x86_64_syscall_dispatch syscall64_images no_keys one_tick no_desktop (mret_ 1) true X86_64_SYSCALL_SERVICE_GET_ARG 0 0x500000 16 syscall64_sample with
  | Some (r, y') => r = 11 /\ ((fun i => load8 (m y') (0x500000 + i)) <$> seqZ 0 12) = str "interactive" ++ [0]
  | None => False
  end.
Proof. vm_compute. repeat split. Qed.
