(* ===== verification/Paging64.v ===== *)
(** * The page tables of the 64-bit kernel (arch/x86_64/memory_layout.c, pmm_plan.c, paging_plan.c,
    paging_builder.c)

    At boot the kernel plans its address space and builds the tables for it in frames of
    the allocator: an identity map and a direct map of large pages, the framebuffer, an
    alias of the kernel image, and the code and stack pages of the first user program,
    whose ELF file is linked into the kernel ([image] below). Memory and the allocator are
    those of [process64]: the tables become the source of the tables of every process.
    The kernel reaches a frame at its physical address. *)
From S2P Require Import Prelude Word64 Mem KString Loader Pmm64 Heap64 Text64 Process64 Elf64.

Definition X86_64_KERNEL_LOAD_BASE := 0x100000.
Definition X86_64_BOOTSTRAP_IDENTITY_MAP_BYTES := 0x40000000.
Definition X86_64_BOOT_STACK_BYTES := 16384.
Definition X86_64_HUGE_PAGE_SIZE := 0x200000.
Definition X86_64_TRANSITION_IDENTITY_PML4_INDEX := 0.
Definition X86_64_PLANNED_REGION_COUNT := 3.
Definition X86_64_PAGING_BUILDER_ENTRIES := 512.
Definition X86_64_FRAMEBUFFER_VIRTUAL_BASE := 0xFFFF900000000000.
Definition X86_64_PAGING_BUILDER_TABLE_PAGES := 13.
Definition X86_64_PAGING_BUILDER_USER_CODE_PAGES := 2.
Definition X86_64_PAGING_BUILDER_USER_PHYSICAL_PAGES := X86_64_PAGING_BUILDER_USER_CODE_PAGES + 1.
Definition X86_64_PAGING_BUILDER_ALLOCATED_PAGES := X86_64_PAGING_BUILDER_TABLE_PAGES + X86_64_PAGING_BUILDER_USER_PHYSICAL_PAGES.
Definition X86_64_PAGE_PRESENT := 1.
Definition X86_64_PAGE_WRITABLE := 2.
Definition X86_64_PAGE_USER := 4.
Definition X86_64_PAGE_HUGE := 0x80.
Definition X86_64_TABLE_FLAGS := Z.lor X86_64_PAGE_PRESENT X86_64_PAGE_WRITABLE.
Definition X86_64_USER_TABLE_FLAGS := Z.lor X86_64_TABLE_FLAGS X86_64_PAGE_USER.
Definition X86_64_HUGE_PAGE_FLAGS := Z.lor X86_64_TABLE_FLAGS X86_64_PAGE_HUGE.
Definition X86_64_USER_CODE_FLAGS := Z.lor X86_64_PAGE_PRESENT X86_64_PAGE_USER.
Definition X86_64_USER_STACK_FLAGS := Z.lor (Z.lor X86_64_PAGE_PRESENT X86_64_PAGE_WRITABLE) X86_64_PAGE_USER.
Definition X86_64_PAGE_MASK := X86_64_PAGE_SIZE - 1.
Definition X86_64_HUGE_PAGE_MASK := X86_64_HUGE_PAGE_SIZE - 1.
Definition X86_64_EMBEDDED_INIT_ELF_MAX_BYTES := 65536.
Definition X86_64_EMBEDDED_INIT_MAX_BYTES := X86_64_PAGING_BUILDER_USER_CODE_PAGES * X86_64_USER_PAGE_BYTES.

(** ** The layout and the plans *)

Record x86_64_memory_layout := {
  ml_kernel_load_base : Z;
  ml_kernel_start : Z;
  ml_kernel_end : Z;
  ml_kernel_size_bytes : Z;
  ml_bootstrap_identity_map_bytes : Z;
  ml_boot_stack_bytes : Z;
  ml_page_size : Z;
  ml_huge_page_size : Z
}.

(** [kernel_start] and [kernel_end] are the addresses of two symbols of the linker. *)
Definition x86_64_memory_layout_init (kernel_start kernel_end : Z) : x86_64_memory_layout := {|
  ml_kernel_load_base := X86_64_KERNEL_LOAD_BASE;
  ml_kernel_start := kernel_start;
  ml_kernel_end := kernel_end;
  ml_kernel_size_bytes := kernel_end [--] kernel_start;
  ml_bootstrap_identity_map_bytes := X86_64_BOOTSTRAP_IDENTITY_MAP_BYTES;
  ml_boot_stack_bytes := X86_64_BOOT_STACK_BYTES;
  ml_page_size := X86_64_PAGE_SIZE;
  ml_huge_page_size := X86_64_HUGE_PAGE_SIZE
|}.

Record x86_64_pmm_plan := {
  pp_usable_region_count : Z;
  pp_first_free_page : Z;
  pp_managed_pages : Z;
  pp_managed_bytes : Z;
  pp_reserved_below : Z
}.

Definition add_managed_range (start e : Z) (plan : x86_64_pmm_plan) : x86_64_pmm_plan :=
  if e <=? start then plan
  else
    let pages := (e [--] start) / X86_64_PAGE_SIZE in
    if pages =? 0 then plan
    else {|
      pp_first_free_page := if (pp_first_free_page plan =? 0) || (start <? pp_first_free_page plan) then start else pp_first_free_page plan;
      pp_usable_region_count := incr (pp_usable_region_count plan);
      pp_managed_pages := pp_managed_pages plan [++] pages;
      pp_managed_bytes := pp_managed_bytes plan [++] pages [**] X86_64_PAGE_SIZE;
      pp_reserved_below := pp_reserved_below plan
    |}.

(** The body of the loop over the regions. *)
Definition plan_region (reserved_below : Z) (plan : x86_64_pmm_plan) (region : x86_64_memory_region) : x86_64_pmm_plan :=
  if negb (mr_type region =? X86_64_MEMORY_REGION_AVAILABLE) then plan
  else
    let region_end := mr_base region [++] mr_length region in
    if (region_end <? mr_base region) || (region_end <=? reserved_below) then plan
    else
      let start := if mr_base region <? reserved_below then reserved_below else mr_base region in
      add_managed_range (align_up64 start X86_64_PAGE_SIZE) (align_down64 region_end X86_64_PAGE_SIZE) plan.

Definition x86_64_pmm_plan_init {S} (memory_region_count : Z) (memory_regions : list x86_64_memory_region) (layout : x86_64_memory_layout)
    : M S x86_64_pmm_plan :=
  let reserved_below := align_up64 (ml_kernel_end layout) X86_64_PAGE_SIZE in
  mfold (seqZ 0 memory_region_count) (fun plan i => region <- array_at memory_regions i ;; mret_ (plan_region reserved_below plan region))
    (Build_x86_64_pmm_plan 0 0 0 0 reserved_below).

Definition is_canonical_address (address : Z) : bool :=
  let high := Z.shiftr address 48 in
  if negb (Z.land (Z.shiftr address 47) 1 =? 0) then high =? 0xFFFF else high =? 0.

Definition last_byte_for_span (base bytes : Z) : Z := if bytes =? 0 then base else base [++] bytes [--] 1.

Record x86_64_paging_plan := {
  pl_identity_window_bytes : Z;
  pl_kernel_virtual_base : Z;
  pl_kernel_virtual_start : Z;
  pl_kernel_virtual_end : Z;
  pl_kernel_virtual_offset : Z;
  pl_direct_map_base : Z;
  pl_direct_map_end : Z;
  pl_direct_map_bytes : Z;
  pl_identity_pml4_index : Z;
  pl_kernel_pml4_index : Z;
  pl_direct_map_pml4_index : Z;
  pl_planned_region_count : Z;
  pl_identity_window_ok : bool;
  pl_kernel_window_canonical : bool;
  pl_direct_map_canonical : bool;
  pl_pml4_slots_distinct : bool;
  pl_plan_ok : bool
}.

Definition x86_64_paging_plan_init (layout : x86_64_memory_layout) (pmm_plan : x86_64_pmm_plan) : x86_64_paging_plan :=
  let identity_window_bytes := ml_bootstrap_identity_map_bytes layout in
  let kernel_virtual_offset := X86_64_KERNEL_VIRTUAL_BASE [--] ml_kernel_load_base layout in
  let kernel_virtual_start := ml_kernel_start layout [++] kernel_virtual_offset in
  let kernel_virtual_end := ml_kernel_end layout [++] kernel_virtual_offset in
  let direct_map_bytes := pp_reserved_below pmm_plan [++] pp_managed_bytes pmm_plan in
  let direct_map_bytes := if direct_map_bytes <? ml_bootstrap_identity_map_bytes layout then ml_bootstrap_identity_map_bytes layout
                          else direct_map_bytes in
  let direct_map_end := last_byte_for_span X86_64_DIRECT_MAP_BASE direct_map_bytes in
  let identity_pml4_index := X86_64_TRANSITION_IDENTITY_PML4_INDEX in
  let kernel_pml4_index := pml4_index_for X86_64_KERNEL_VIRTUAL_BASE in
  let direct_map_pml4_index := pml4_index_for X86_64_DIRECT_MAP_BASE in
  let identity_window_ok := ml_bootstrap_identity_map_bytes layout <=? identity_window_bytes in
  let kernel_window_canonical := is_canonical_address kernel_virtual_start && is_canonical_address kernel_virtual_end in
  let direct_map_canonical := is_canonical_address X86_64_DIRECT_MAP_BASE && is_canonical_address direct_map_end in
  let pml4_slots_distinct := negb (identity_pml4_index =? kernel_pml4_index) && negb (identity_pml4_index =? direct_map_pml4_index) &&
    negb (kernel_pml4_index =? direct_map_pml4_index) in
  {| pl_identity_window_bytes := identity_window_bytes;
     pl_kernel_virtual_base := X86_64_KERNEL_VIRTUAL_BASE;
     pl_kernel_virtual_start := kernel_virtual_start;
     pl_kernel_virtual_end := kernel_virtual_end;
     pl_kernel_virtual_offset := kernel_virtual_offset;
     pl_direct_map_base := X86_64_DIRECT_MAP_BASE;
     pl_direct_map_end := direct_map_end;
     pl_direct_map_bytes := direct_map_bytes;
     pl_identity_pml4_index := identity_pml4_index;
     pl_kernel_pml4_index := kernel_pml4_index;
     pl_direct_map_pml4_index := direct_map_pml4_index;
     pl_planned_region_count := X86_64_PLANNED_REGION_COUNT;
     pl_identity_window_ok := identity_window_ok;
     pl_kernel_window_canonical := kernel_window_canonical;
     pl_direct_map_canonical := direct_map_canonical;
     pl_pml4_slots_distinct := pml4_slots_distinct;
     pl_plan_ok := identity_window_ok && kernel_window_canonical && direct_map_canonical && pml4_slots_distinct &&
       (X86_64_PLANNED_REGION_COUNT =? X86_64_PLANNED_REGION_COUNT) |}.

(** ** The state of the builder *)

Record x86_64_paging_builder_state := {
  pb_pml4_table : Z;
  pb_identity_pdpt_table : Z;
  pb_identity_pd_table : Z;
  pb_direct_pdpt_table : Z;
  pb_direct_pd_table : Z;
  pb_framebuffer_pdpt_table : Z;
  pb_framebuffer_pd_table : Z;
  pb_kernel_pdpt_table : Z;
  pb_kernel_pd_table : Z;
  pb_kernel_pt_table : Z;
  pb_user_code_pt_table : Z;
  pb_user_stack_pd_table : Z;
  pb_user_stack_pt_table : Z;
  pb_user_code_page : Z;
  pb_user_code_pages : list Z;
  pb_user_stack_page : Z;
  pb_user_code_virtual : Z;
  pb_user_stack_virtual : Z;
  pb_framebuffer_physical_base : Z;
  pb_framebuffer_virtual_base : Z;
  pb_framebuffer_virtual_address : Z;
  pb_framebuffer_bytes : Z;
  pb_framebuffer_huge_pages : Z;
  pb_pml4_present_entries : Z;
  pb_identity_huge_pages : Z;
  pb_direct_huge_pages : Z;
  pb_kernel_pages : Z;
  pb_pmm_backed : bool;
  pb_allocated_table_pages : Z;
  pb_allocated_user_pages : Z;
  pb_user_code_page_count : Z;
  pb_pmm_free_pages_before : Z;
  pb_pmm_free_pages_after : Z;
  pb_allocation_ok : bool;
  pb_identity_entry_ok : bool;
  pb_direct_map_entry_ok : bool;
  pb_framebuffer_requested : bool;
  pb_framebuffer_entry_ok : bool;
  pb_framebuffer_mapped : bool;
  pb_kernel_entry_ok : bool;
  pb_user_code_entry_ok : bool;
  pb_user_stack_entry_ok : bool;
  pb_user_pages_user_accessible : bool;
  pb_user_image_embedded : bool;
  pb_user_image_source_ok : bool;
  pb_user_image_bytes : Z;
  pb_user_image_pages : Z;
  pb_user_image_checksum : Z;
  pb_user_image_loaded : bool;
  pb_user_stack_zeroed : bool;
  pb_elf64_header_ok : bool;
  pb_elf64_program_header_ok : bool;
  pb_elf64_entry_ok : bool;
  pb_elf64_segment_ok : bool;
  pb_elf64_load_ok : bool;
  pb_user_mapping_ok : bool;
  pb_tables_aligned : bool;
  pb_builder_ok : bool
}.
#[export] Instance eta_x86_64_paging_builder_state : Settable x86_64_paging_builder_state := fun s =>
  Build_x86_64_paging_builder_state (pb_pml4_table s) (pb_identity_pdpt_table s) (pb_identity_pd_table s) (pb_direct_pdpt_table s) (pb_direct_pd_table s)
    (pb_framebuffer_pdpt_table s) (pb_framebuffer_pd_table s) (pb_kernel_pdpt_table s) (pb_kernel_pd_table s)
    (pb_kernel_pt_table s) (pb_user_code_pt_table s) (pb_user_stack_pd_table s) (pb_user_stack_pt_table s)
    (pb_user_code_page s) (pb_user_code_pages s) (pb_user_stack_page s) (pb_user_code_virtual s) (pb_user_stack_virtual s)
    (pb_framebuffer_physical_base s) (pb_framebuffer_virtual_base s) (pb_framebuffer_virtual_address s)
    (pb_framebuffer_bytes s) (pb_framebuffer_huge_pages s) (pb_pml4_present_entries s) (pb_identity_huge_pages s)
    (pb_direct_huge_pages s) (pb_kernel_pages s) (pb_pmm_backed s) (pb_allocated_table_pages s) (pb_allocated_user_pages s)
    (pb_user_code_page_count s) (pb_pmm_free_pages_before s) (pb_pmm_free_pages_after s) (pb_allocation_ok s)
    (pb_identity_entry_ok s) (pb_direct_map_entry_ok s) (pb_framebuffer_requested s) (pb_framebuffer_entry_ok s)
    (pb_framebuffer_mapped s) (pb_kernel_entry_ok s) (pb_user_code_entry_ok s) (pb_user_stack_entry_ok s)
    (pb_user_pages_user_accessible s) (pb_user_image_embedded s) (pb_user_image_source_ok s) (pb_user_image_bytes s)
    (pb_user_image_pages s) (pb_user_image_checksum s) (pb_user_image_loaded s) (pb_user_stack_zeroed s)
    (pb_elf64_header_ok s) (pb_elf64_program_header_ok s) (pb_elf64_entry_ok s) (pb_elf64_segment_ok s)
    (pb_elf64_load_ok s) (pb_user_mapping_ok s) (pb_tables_aligned s) (pb_builder_ok s).
Definition clear_builder_state : x86_64_paging_builder_state :=
  Build_x86_64_paging_builder_state 0 0 0 0 0 0 0 0 0 0 0 0 0 0 [0; 0] 0 0 0 0 0 0 0 0 0 0 0 0 false 0 0 0 0 0 false false false false false false false false false false false false 0 0 0 false false false false false false false false false false.


Definition is_page_aligned64 (value : Z) : bool := Z.land value X86_64_PAGE_MASK =? 0.
Definition align_page_count (bytes : Z) : Z := u32 ((bytes [++] X86_64_PAGE_MASK) / X86_64_PAGE_SIZE).
Definition huge_page_count_for (bytes : Z) : Z := u32 ((bytes [++] X86_64_HUGE_PAGE_SIZE [--] 1) / X86_64_HUGE_PAGE_SIZE).
Definition align_down_huge (value : Z) : Z := Z.land value (not64 X86_64_HUGE_PAGE_MASK).
Definition entry_has_user (entry : Z) : bool := negb (Z.land entry X86_64_PAGE_USER =? 0).
Definition entry_is_present (entry : Z) : bool := negb (Z.land entry X86_64_PAGE_PRESENT =? 0).

Definition code_page_for_offset (st : x86_64_paging_builder_state) (offset : Z) : PR Z :=
  let page_index := u32 (offset / X86_64_USER_PAGE_BYTES) in
  if X86_64_PAGING_BUILDER_USER_CODE_PAGES <=? page_index then mret_ 0 else array_at (pb_user_code_pages st) page_index.

Definition count_present_entries (table : Z) : PR Z :=
  mfold (seqZ 0 X86_64_PAGING_BUILDER_ENTRIES) (fun count i =>
    entry <- entry_at table i ;; mret_ (if entry_is_present entry then incr count else count)) 0.

Definition framebuffer_mapping_fits (first_pd_index huge_pages : Z) : bool :=
  negb (huge_pages =? 0) && (huge_pages <=? X86_64_PAGING_BUILDER_ENTRIES) && (first_pd_index <? X86_64_PAGING_BUILDER_ENTRIES) &&
  (huge_pages <=? X86_64_PAGING_BUILDER_ENTRIES [-] first_pd_index).

(** [segment] is [count] bytes of the image from [offset]. *)
Definition checksum_bytes {S} (image : list Z) (offset count : Z) : M S Z :=
  mfold (seqZ 0 count) (fun checksum i =>
    byte <- array_at image (offset + i) ;;
    mret_ (Z.lxor (Z.lxor (u32 (Z.shiftl checksum 5)) (Z.shiftr checksum 2)) byte)) 0.

Definition page_prefix_matches (page : Z) (image : list Z) (offset count : Z) : PR bool :=
  r <- mfor_ret (seqZ 0 count) (fun i =>
    m <- mget pr_mem ;; expected <- array_at image (offset + i) ;;
    mret_ (if negb (load8 m (page [++] i) =? expected) then Some tt else None)) ;;
  mret_ (match r with Some _ => false | None => true end).

Definition page_is_zeroed (page : Z) : PR bool :=
  r <- mfor_ret (seqZ 0 X86_64_PAGE_SIZE) (fun i =>
    m <- mget pr_mem ;; mret_ (if negb (load8 m (page [++] i) =? 0) then Some tt else None)) ;;
  mret_ (match r with Some _ => false | None => true end).

Definition embedded_user_image_size (image : list Z) : Z :=
  let image_bytes := Z.of_nat (length image) in if 0xFFFFFFFF <? image_bytes then 0 else u32 image_bytes.

Definition range_fits (offset size image_bytes : Z) : bool := (offset <=? image_bytes) && (size <=? image_bytes [--] offset).

Definition program_header_at {S} (image : list Z) (program_header_offset entry_size index : Z) : M S x86_64_elf_program_header :=
  x86_64_syscall_program_header_at image program_header_offset entry_size index.

Definition tables_are_aligned (st : x86_64_paging_builder_state) : bool :=
  is_page_aligned64 (pb_pml4_table st) && is_page_aligned64 (pb_identity_pdpt_table st) && is_page_aligned64 (pb_identity_pd_table st) &&
  is_page_aligned64 (pb_direct_pdpt_table st) && is_page_aligned64 (pb_direct_pd_table st) &&
  is_page_aligned64 (pb_framebuffer_pdpt_table st) && is_page_aligned64 (pb_framebuffer_pd_table st) &&
  is_page_aligned64 (pb_kernel_pdpt_table st) && is_page_aligned64 (pb_kernel_pd_table st) && is_page_aligned64 (pb_kernel_pt_table st) &&
  is_page_aligned64 (pb_user_code_pt_table st) && is_page_aligned64 (pb_user_stack_pd_table st) && is_page_aligned64 (pb_user_stack_pt_table st) &&
  forallb is_page_aligned64 (pb_user_code_pages st) && is_page_aligned64 (pb_user_stack_page st).

(** ** The frames *)

(** [*page] and [allocated_pages]; [None] is failure. The array has room for the
    sixteen frames that are asked for. *)
Definition allocate_page (allocated_pages : list Z) : PR (option (Z * list Z)) :=
  allocated <- pr_zoom x86_64_pmm_alloc_page ;;
  if allocated =? X86_64_PMM_INVALID_PAGE then mret_ None
  else clear_page64 allocated ;;; mret_ (Some (allocated, allocated_pages ++ [allocated])).

(** [n] calls in a row, until one fails; the result tells whether all succeeded. *)
Definition allocate_page_run (n : Z) (allocated_pages : list Z) : PR (bool * list Z) :=
  mfold (seqZ 0 n) (fun '(ok, allocated_pages) _ =>
    if negb ok then mret_ (ok, allocated_pages)
    else
      r <- allocate_page allocated_pages ;;
      mret_ (match r with None => (false, allocated_pages) | Some (_, allocated_pages) => (true, allocated_pages) end)) (true, allocated_pages).

Definition rollback_allocated_pages (allocated_pages : list Z) : PR unit :=
  mfor allocated_pages (fun page => pr_zoom (x86_64_pmm_free_page page) ;;; mret_ tt).

(** ** The first user program *)

(** The loop that takes the first loadable segment. *)
Definition find_load_header {S} (image : list Z) (program_header_offset entry_size count : Z) : M S (option x86_64_elf_program_header) :=
  mfor_ret (seqZ 0 count) (fun i =>
    candidate <- program_header_at image program_header_offset entry_size i ;;
    mret_ (if ep_type candidate =? X86_64_ELF_PROGRAM_TYPE_LOAD then Some candidate else None)).

(** [page[i & (X86_64_USER_PAGE_BYTES - 1)] = value] *)
Definition put_code_byte (st : x86_64_paging_builder_state) (i value : Z) : PR unit :=
  page <- code_page_for_offset st i ;;
  mmod (fun s => s <| pr_mem ::= store8 (page [++] Z.land i (X86_64_USER_PAGE_BYTES - 1)) value |>).

(** The loop that compares the pages with the file. *)
Definition code_pages_match (st : x86_64_paging_builder_state) (image : list Z) (load_phdr : x86_64_elf_program_header) (image_pages : Z) : PR bool :=
  mfold (seqZ 0 image_pages) (fun pages_loaded page_index =>
    let page_offset := page_index [**] X86_64_USER_PAGE_BYTES in
    let remaining := if page_offset <? ep_file_size load_phdr then ep_file_size load_phdr [--] page_offset else 0 in
    let compare_bytes := if X86_64_USER_PAGE_BYTES <? remaining then u32 X86_64_USER_PAGE_BYTES else u32 remaining in
    if compare_bytes =? 0 then mret_ pages_loaded
    else
      page <- array_at (pb_user_code_pages st) page_index ;;
      ok <- page_prefix_matches page image (ep_offset load_phdr + page_offset) compare_bytes ;;
      mret_ (pages_loaded && ok)) true.

Definition load_init_segment (st : x86_64_paging_builder_state) (image : list Z) (load_phdr : x86_64_elf_program_header)
    : PR x86_64_paging_builder_state :=
  let image_pages := align_page_count (ep_memory_size load_phdr) in
  mfor (seqZ 0 (ep_file_size load_phdr)) (fun i => byte <- array_at image (ep_offset load_phdr + i) ;; put_code_byte st i byte) ;;;
  mfor (seqZ (ep_file_size load_phdr) (ep_memory_size load_phdr - ep_file_size load_phdr)) (fun i => put_code_byte st i 0) ;;;
  let st := st <| pb_user_image_bytes := u32 (ep_file_size load_phdr) |> <| pb_user_image_pages := image_pages |> in
  checksum <- checksum_bytes image (ep_offset load_phdr) (pb_user_image_bytes st) ;;
  pages_loaded <- code_pages_match st image load_phdr image_pages ;;
  mret_ (st <| pb_user_image_checksum := checksum |> <| pb_user_image_loaded := pages_loaded |>).

(** The header check of the system calls' loader, word for word; [image] is an array of
    the kernel, never null. *)
Definition load_embedded_user_image (image : list Z) (st : x86_64_paging_builder_state) : PR x86_64_paging_builder_state :=
  let image_bytes := embedded_user_image_size image in
  let source_ok := (sizeof_elf_header <=? image_bytes) && (image_bytes <=? X86_64_EMBEDDED_INIT_ELF_MAX_BYTES) in
  let st := st <| pb_user_image_embedded := source_ok |> <| pb_user_image_source_ok := source_ok |> in
  header <- (if source_ok then
      header_ok <- elf64_header_ok image image_bytes ;;
      if header_ok : bool then
        phoff <- elf64_program_header_offset image ;; entry_size <- elf64_program_header_entry_size image ;;
        count <- elf64_program_header_count image ;;
        load_phdr <- find_load_header image phoff entry_size count ;; mret_ (true, load_phdr)
      else mret_ (false, None)
    else mret_ (false, None)) ;;
  let st := st <| pb_elf64_header_ok := fst header |> in
  st <- match snd header with
        | None => mret_ st
        | Some load_phdr =>
            entry <- elf64_entry image ;;
            let segment_end := ep_virtual_address load_phdr [++] ep_memory_size load_phdr in
            let st := st <| pb_elf64_program_header_ok := (ep_type load_phdr =? X86_64_ELF_PROGRAM_TYPE_LOAD) &&
                negb (Z.land (ep_flags load_phdr) 1 =? 0) && (ep_alignment load_phdr =? X86_64_USER_PAGE_BYTES) |>
              <| pb_elf64_entry_ok := (entry =? X86_64_USER_CODE_BASE) && (ep_virtual_address load_phdr <=? entry) && (entry <? segment_end) |>
              <| pb_elf64_segment_ok := (ep_virtual_address load_phdr =? X86_64_USER_CODE_BASE) && (ep_file_size load_phdr <=? ep_memory_size load_phdr) &&
                (ep_memory_size load_phdr <=? X86_64_EMBEDDED_INIT_MAX_BYTES) && range_fits (ep_offset load_phdr) (ep_file_size load_phdr) image_bytes |> in
            if pb_elf64_header_ok st && pb_elf64_program_header_ok st && pb_elf64_entry_ok st && pb_elf64_segment_ok st then
              load_init_segment st image load_phdr
            else mret_ st
        end ;;
  zeroed <- page_is_zeroed (pb_user_stack_page st) ;;
  mret_ (st <| pb_user_stack_zeroed := zeroed |>
    <| pb_elf64_load_ok := pb_user_image_source_ok st && pb_elf64_header_ok st && pb_elf64_program_header_ok st && pb_elf64_entry_ok st &&
         pb_elf64_segment_ok st && pb_user_image_loaded st |>).

(** ** The tables *)

(** The fields of the boot summary that the builder reads. *)
Record framebuffer_info := { fi_rgb_format_ok : bool; fi_addr : Z; fi_pitch : Z; fi_height : Z }.

(** [table[base + i] = f i] for each [i] below [n]. *)
Definition fill_entries (table base n : Z) (f : Z -> Z) : PR unit := mfor (seqZ 0 n) (fun i => entry_put table (base [+] i) (f i)).

Definition clamp_entries (n : Z) : Z := if X86_64_PAGING_BUILDER_ENTRIES <? n then X86_64_PAGING_BUILDER_ENTRIES else n.
Definition huge_entry (base i : Z) : Z := Z.lor (base [++] i [**] X86_64_HUGE_PAGE_SIZE) X86_64_HUGE_PAGE_FLAGS.

(** The fields that record the frames; [pages] are the sixteen frames in the order they
    were allocated. *)
Definition record_frames (pages : list Z) (free_pages : Z) (st : x86_64_paging_builder_state) : x86_64_paging_builder_state :=
  let page i := default 0 (pages !! i) in
  st <| pb_pml4_table := page 0%nat |> <| pb_identity_pdpt_table := page 1%nat |> <| pb_identity_pd_table := page 2%nat |>
     <| pb_direct_pdpt_table := page 3%nat |> <| pb_direct_pd_table := page 4%nat |> <| pb_framebuffer_pdpt_table := page 5%nat |>
     <| pb_framebuffer_pd_table := page 6%nat |> <| pb_kernel_pdpt_table := page 7%nat |> <| pb_kernel_pd_table := page 8%nat |>
     <| pb_kernel_pt_table := page 9%nat |> <| pb_user_code_pt_table := page 10%nat |> <| pb_user_stack_pd_table := page 11%nat |>
     <| pb_user_stack_pt_table := page 12%nat |> <| pb_user_code_page := page 13%nat |> <| pb_user_code_pages := [page 13%nat; page 14%nat] |>
     <| pb_user_stack_page := page 15%nat |> <| pb_user_code_virtual := X86_64_USER_CODE_BASE |>
     <| pb_user_stack_virtual := X86_64_USER_STACK_TOP [--] X86_64_PAGE_SIZE |> <| pb_pmm_backed := true |>
     <| pb_allocated_table_pages := X86_64_PAGING_BUILDER_TABLE_PAGES |> <| pb_allocated_user_pages := X86_64_PAGING_BUILDER_USER_PHYSICAL_PAGES |>
     <| pb_user_code_page_count := X86_64_PAGING_BUILDER_USER_CODE_PAGES |> <| pb_pmm_free_pages_after := free_pages |>
     <| pb_allocation_ok := Z.of_nat (length pages) =? X86_64_PAGING_BUILDER_ALLOCATED_PAGES |>.

Definition build_framebuffer (boot_info : option framebuffer_info) (st : x86_64_paging_builder_state) : PR x86_64_paging_builder_state :=
  let st := st <| pb_framebuffer_virtual_base := X86_64_FRAMEBUFFER_VIRTUAL_BASE |> in
  match boot_info with
  | Some info =>
      if fi_rgb_format_ok info then
        let pd_index := pd_index_for X86_64_FRAMEBUFFER_VIRTUAL_BASE in
        let offset := Z.land (fi_addr info) X86_64_HUGE_PAGE_MASK in
        let bytes := (fi_pitch info [**] fi_height info) [++] offset in
        let huge_pages := huge_page_count_for bytes in
        let st := st <| pb_framebuffer_requested := true |> <| pb_framebuffer_physical_base := align_down_huge (fi_addr info) |>
          <| pb_framebuffer_virtual_address := X86_64_FRAMEBUFFER_VIRTUAL_BASE [++] offset |> <| pb_framebuffer_bytes := bytes |>
          <| pb_framebuffer_huge_pages := huge_pages |> in
        mwhen (framebuffer_mapping_fits pd_index huge_pages)
          (entry_put (pb_framebuffer_pdpt_table st) (pdpt_index_for X86_64_FRAMEBUFFER_VIRTUAL_BASE)
             (Z.lor (pb_framebuffer_pd_table st) X86_64_TABLE_FLAGS) ;;;
           fill_entries (pb_framebuffer_pd_table st) pd_index huge_pages (huge_entry (pb_framebuffer_physical_base st))) ;;;
        mret_ st
      else mret_ st
  | None => mret_ st
  end.

(** The assignments that link the tables. *)
Definition link_tables (plan : x86_64_paging_plan) (st : x86_64_paging_builder_state) : PR unit :=
  let stack_virtual := pb_user_stack_virtual st in
  entry_put (pb_identity_pdpt_table st) 0 (Z.lor (pb_identity_pd_table st) X86_64_USER_TABLE_FLAGS) ;;;
  entry_put (pb_direct_pdpt_table st) 0 (Z.lor (pb_direct_pd_table st) X86_64_TABLE_FLAGS) ;;;
  entry_put (pb_kernel_pdpt_table st) (pdpt_index_for (pl_kernel_virtual_start plan)) (Z.lor (pb_kernel_pd_table st) X86_64_TABLE_FLAGS) ;;;
  entry_put (pb_kernel_pd_table st) (pd_index_for (pl_kernel_virtual_start plan)) (Z.lor (pb_kernel_pt_table st) X86_64_TABLE_FLAGS) ;;;
  mfor (seqZ 0 (pb_user_image_pages st)) (fun i =>
    page <- array_at (pb_user_code_pages st) i ;;
    entry_put (pb_user_code_pt_table st) (pt_index_for X86_64_USER_CODE_BASE [+] i) (Z.lor page X86_64_USER_CODE_FLAGS)) ;;;
  entry_put (pb_identity_pd_table st) (pd_index_for X86_64_USER_CODE_BASE) (Z.lor (pb_user_code_pt_table st) X86_64_USER_TABLE_FLAGS) ;;;
  entry_put (pb_user_stack_pt_table st) (pt_index_for stack_virtual) (Z.lor (pb_user_stack_page st) X86_64_USER_STACK_FLAGS) ;;;
  entry_put (pb_user_stack_pd_table st) (pd_index_for stack_virtual) (Z.lor (pb_user_stack_pt_table st) X86_64_USER_TABLE_FLAGS) ;;;
  entry_put (pb_identity_pdpt_table st) (pdpt_index_for stack_virtual) (Z.lor (pb_user_stack_pd_table st) X86_64_USER_TABLE_FLAGS) ;;;
  entry_put (pb_pml4_table st) (pl_identity_pml4_index plan) (Z.lor (pb_identity_pdpt_table st) X86_64_USER_TABLE_FLAGS) ;;;
  entry_put (pb_pml4_table st) (pl_direct_map_pml4_index plan) (Z.lor (pb_direct_pdpt_table st) X86_64_TABLE_FLAGS) ;;;
  entry_put (pb_pml4_table st) (pml4_index_for X86_64_FRAMEBUFFER_VIRTUAL_BASE) (Z.lor (pb_framebuffer_pdpt_table st) X86_64_TABLE_FLAGS) ;;;
  entry_put (pb_pml4_table st) (pl_kernel_pml4_index plan) (Z.lor (pb_kernel_pdpt_table st) X86_64_TABLE_FLAGS).

(** Whether each of the entries has a property. *)
Definition entries_have (p : Z -> bool) (l : list (Z * Z)) : PR bool :=
  mfold l (fun ok '(table, i) => entry <- entry_at table i ;; mret_ (ok && p entry)) true.

(** The assignments of what was read from the tables to the fields of the state. *)
Definition record_checks (present split_identity_huge_pages direct_pages kernel_pages : Z)
    (identity_ok direct_ok fb_ok kernel_ok code_ok code_pages_present code_pages_user stack_ok user_ok : bool)
    (st : x86_64_paging_builder_state) : x86_64_paging_builder_state :=
  let st := st <| pb_pml4_present_entries := present |> <| pb_identity_huge_pages := split_identity_huge_pages |>
    <| pb_direct_huge_pages := direct_pages |> <| pb_kernel_pages := kernel_pages |> <| pb_identity_entry_ok := identity_ok |>
    <| pb_direct_map_entry_ok := direct_ok |> <| pb_framebuffer_entry_ok := pb_framebuffer_requested st && fb_ok |>
    <| pb_framebuffer_mapped := negb (pb_framebuffer_requested st) || (pb_framebuffer_requested st && fb_ok) |>
    <| pb_kernel_entry_ok := kernel_ok |>
    <| pb_user_code_entry_ok := code_ok && negb (pb_user_image_pages st =? 0) && code_pages_present |>
    <| pb_user_stack_entry_ok := stack_ok |> <| pb_user_pages_user_accessible := user_ok && code_pages_user |> in
  let st := st <| pb_user_mapping_ok := pb_user_code_entry_ok st && pb_user_stack_entry_ok st && pb_user_pages_user_accessible st && pb_elf64_load_ok st |>
    <| pb_tables_aligned := tables_are_aligned st |> in
  st <| pb_builder_ok := pb_pmm_backed st && pb_allocation_ok st && pb_identity_entry_ok st && pb_direct_map_entry_ok st &&
    pb_framebuffer_mapped st && pb_kernel_entry_ok st && pb_user_mapping_ok st && pb_tables_aligned st |>.

(** The fields that record what is in the tables. *)
Definition check_tables (plan : x86_64_paging_plan) (identity_pages direct_pages kernel_pages : Z) (kernel_pages_fit : bool)
    (st : x86_64_paging_builder_state) : PR x86_64_paging_builder_state :=
  let fb := X86_64_FRAMEBUFFER_VIRTUAL_BASE in
  let code := X86_64_USER_CODE_BASE in
  let stack := pb_user_stack_virtual st in
  let code_entries := (fun i => (pb_user_code_pt_table st, pt_index_for code [+] i)) <$> seqZ 0 (pb_user_image_pages st) in
  let split_identity_huge_pages :=
    if (pml4_index_for code =? pl_identity_pml4_index plan) && (pdpt_index_for code =? 0) && (pd_index_for code <? identity_pages)
    then identity_pages [-] 1 else identity_pages in
  present <- count_present_entries (pb_pml4_table st) ;;
  identity_ok <- entries_have entry_is_present [(pb_pml4_table st, pl_identity_pml4_index plan); (pb_identity_pdpt_table st, 0); (pb_identity_pd_table st, 0)] ;;
  direct_ok <- entries_have entry_is_present [(pb_pml4_table st, pl_direct_map_pml4_index plan); (pb_direct_pdpt_table st, 0); (pb_direct_pd_table st, 0)] ;;
  fb_ok <- entries_have entry_is_present [(pb_pml4_table st, pml4_index_for fb); (pb_framebuffer_pdpt_table st, pdpt_index_for fb);
             (pb_framebuffer_pd_table st, pd_index_for fb)] ;;
  kernel_ok <- entries_have entry_is_present [(pb_pml4_table st, pl_kernel_pml4_index plan);
             (pb_kernel_pdpt_table st, pdpt_index_for (pl_kernel_virtual_start plan));
             (pb_kernel_pd_table st, pd_index_for (pl_kernel_virtual_start plan)); (pb_kernel_pt_table st, 0)] ;;
  code_pages_present <- entries_have entry_is_present code_entries ;;
  code_pages_user <- entries_have entry_has_user code_entries ;;
  code_ok <- entries_have entry_is_present [(pb_pml4_table st, pml4_index_for code); (pb_identity_pdpt_table st, pdpt_index_for code);
             (pb_identity_pd_table st, pd_index_for code)] ;;
  stack_ok <- entries_have entry_is_present [(pb_pml4_table st, pml4_index_for stack); (pb_identity_pdpt_table st, pdpt_index_for stack);
             (pb_user_stack_pd_table st, pd_index_for stack); (pb_user_stack_pt_table st, pt_index_for stack)] ;;
  user_ok <- entries_have entry_has_user [(pb_pml4_table st, pml4_index_for code); (pb_identity_pdpt_table st, pdpt_index_for code);
             (pb_identity_pd_table st, pd_index_for code); (pb_user_stack_pd_table st, pd_index_for stack);
             (pb_user_stack_pt_table st, pt_index_for stack)] ;;
  mret_ (record_checks present split_identity_huge_pages direct_pages kernel_pages identity_ok direct_ok fb_ok (kernel_ok && kernel_pages_fit) code_ok
    code_pages_present code_pages_user stack_ok user_ok st).

(** What is done with the sixteen frames. *)
Definition build_tables (image : list Z) (layout : x86_64_memory_layout) (plan : x86_64_paging_plan) (boot_info : option framebuffer_info)
    (st : x86_64_paging_builder_state) : PR x86_64_paging_builder_state :=
  st <- load_embedded_user_image image st ;;
  let identity_pages := clamp_entries (huge_page_count_for (pl_identity_window_bytes plan)) in
  fill_entries (pb_identity_pd_table st) 0 identity_pages (huge_entry 0) ;;;
  let direct_pages := clamp_entries (huge_page_count_for (pl_direct_map_bytes plan)) in
  fill_entries (pb_direct_pd_table st) 0 direct_pages (huge_entry 0) ;;;
  st <- build_framebuffer boot_info st ;;
  let kernel_pages := align_page_count (ml_kernel_size_bytes layout) in
  let kernel_pages_fit := kernel_pages <=? X86_64_PAGING_BUILDER_ENTRIES in
  let kernel_pages := clamp_entries kernel_pages in
  fill_entries (pb_kernel_pt_table st) 0 kernel_pages
    (fun i => Z.lor (ml_kernel_start layout [++] i [**] X86_64_PAGE_SIZE) X86_64_TABLE_FLAGS) ;;;
  link_tables plan st ;;;
  check_tables plan identity_pages direct_pages kernel_pages kernel_pages_fit st.

(** The failure of an allocation. *)
Definition builder_fail (allocated_pages : list Z) (st : x86_64_paging_builder_state) : PR x86_64_paging_builder_state :=
  rollback_allocated_pages allocated_pages ;;;
  p <- mget pr_pmm ;;
  mret_ (st <| pb_pmm_free_pages_after := pm_free_pages (pmm64_state p) |>).

Definition x86_64_paging_builder_init (image : list Z) (layout : x86_64_memory_layout) (plan : x86_64_paging_plan)
    (boot_info : option framebuffer_info) : PR x86_64_paging_builder_state :=
  p <- mget pr_pmm ;;
  let st := clear_builder_state <| pb_pmm_free_pages_before := pm_free_pages (pmm64_state p) |> in
  r <- allocate_page_run X86_64_PAGING_BUILDER_TABLE_PAGES [] ;;
  if negb (fst r) then builder_fail (snd r) st
  else
    r <- allocate_page_run X86_64_PAGING_BUILDER_USER_CODE_PAGES (snd r) ;;
    if negb (fst r) then builder_fail (snd r) st
    else
      r <- allocate_page_run 1 (snd r) ;;
      if negb (fst r) then builder_fail (snd r) st
      else
        p <- mget pr_pmm ;;
        build_tables image layout plan boot_info (record_frames (snd r) (pm_free_pages (pmm64_state p)) st).

(** ** Entering user mode (user_mode.c) *)

Definition is_user_entry_ready (paging_builder : x86_64_paging_builder_state) : bool :=
  pb_builder_ok paging_builder && pb_user_mapping_ok paging_builder && pb_user_image_loaded paging_builder && pb_elf64_load_ok paging_builder &&
  (pb_user_code_virtual paging_builder =? X86_64_USER_CODE_BASE).

Definition is_user_stack_ready (paging_builder : x86_64_paging_builder_state) : bool :=
  pb_builder_ok paging_builder && pb_user_stack_entry_ok paging_builder && pb_user_stack_zeroed paging_builder &&
  (pb_user_stack_virtual paging_builder =? X86_64_USER_STACK_TOP [--] X86_64_USER_PAGE_BYTES).

(** The start of [x86_64_user_mode_start_init], up to the first entry into user mode;
    [reserve_shell_pid] is the address of that function. The result tells whether user
    mode is entered. *)
Definition x86_64_user_mode_start (reserve_shell_pid : Z) (paging_builder : x86_64_paging_builder_state) (current_pid : Z) : PR bool :=
  if negb (is_user_entry_ready paging_builder) || negb (is_user_stack_ready paging_builder) then mret_ false
  else
    x86_64_process_set_paging_context (Some (pb_builder_ok paging_builder, pb_pml4_table paging_builder, pb_identity_pdpt_table paging_builder,
      pb_identity_pd_table paging_builder)) ;;;
    x86_64_process_initialize ;;;
    mwhen (current_pid =? 1) (x86_64_process_create (Some (str "shell")) reserve_shell_pid 0 ;;; mret_ tt) ;;;
    mret_ true.

(** ** Starting the kernel (kernel.c) *)

(** The heap and the processes use the same frame allocator. *)
Definition heap_init_on (plan : x86_64_paging_plan) (h : heap64) : PR heap64 := fun s =>
  match x86_64_heap_init (pl_direct_map_base plan) (pl_direct_map_bytes plan) (pl_direct_map_canonical plan) (h <| h64_pmm := pr_pmm s |>) with
  | Some (_, h') => Some (h', s <| pr_pmm := h64_pmm h' |>)
  | None => None
  end.

Record x86_64_paging_activation_state := {
  pa_previous_cr3 : Z;
  pa_requested_cr3 : Z;
  pa_active_cr3 : Z;
  pa_builder_ready : bool;
  pa_cr3_changed : bool;
  pa_active_matches_builder : bool;
  pa_activation_ok : bool
}.

(** [cr3] is the register before the call, [pa_active_cr3] of the result the register
    after it. *)
Definition x86_64_paging_builder_activate (builder : x86_64_paging_builder_state) (cr3 : Z) : x86_64_paging_activation_state :=
  let requested := pb_pml4_table builder in
  let ready := pb_builder_ok builder && is_page_aligned64 requested in
  let active := if ready then requested else cr3 in
  let changed := negb (active =? cr3) in
  let matches := active =? requested in
  {| pa_previous_cr3 := cr3; pa_requested_cr3 := requested; pa_active_cr3 := active; pa_builder_ready := ready;
     pa_cr3_changed := changed; pa_active_matches_builder := matches; pa_activation_ok := ready && changed && matches |}.

(** The calls of [kernel_main_x86_64] (with [x86_64_boot_context_init]) that take frames,
    build tables or load CR3, in their order, up to the first entry into user mode; the
    kernel is linked at 0x100000, and [cr3] is what boot32.asm loaded. *)
Definition kernel64_start (reserve_shell_pid : Z) (image : list Z) (boot_info : option framebuffer_info) (memory_region_count : Z)
    (memory_regions : list x86_64_memory_region) (kernel_end cr3 : Z) (h : heap64) :
    PR (x86_64_paging_builder_state * x86_64_paging_activation_state * heap64 * bool) :=
  let layout := x86_64_memory_layout_init X86_64_KERNEL_LOAD_BASE kernel_end in
  pmm_plan <- x86_64_pmm_plan_init memory_region_count memory_regions layout ;;
  pr_zoom (x86_64_pmm_init memory_region_count memory_regions (ml_kernel_end layout)) ;;;
  let paging_plan := x86_64_paging_plan_init layout pmm_plan in
  paging_builder <- x86_64_paging_builder_init image layout paging_plan boot_info ;;
  let paging_activation := x86_64_paging_builder_activate paging_builder cr3 in
  h <- heap_init_on paging_plan h ;;
  started <- x86_64_user_mode_start reserve_shell_pid paging_builder 1 ;;
  mret_ (paging_builder, paging_activation, h, started).
