(* ===== verification/Paging64Proofs.v ===== *)
(** * The page tables of the 64-bit kernel: proofs *)
From S2P Require Import Prelude Word64 Mem KString Loader ElfProofs Pmm64 Pmm64Proofs Text64 Process64 Process64Tables.
From S2P Require Import Process64Alloc Elf64 Elf64Proofs Paging64.

(** ** Taking sixteen frames, or none *)

Section Frames.
Context (all : list Z) (held : gset Z) (free : list Z) (m0 : mem).
Hypothesis free_ok : Forall frame_ok free.

(** After [k] of the requests succeeded. *)
Record frames_taken (k : nat) (s0 s : process64) : Prop := {
  ft_pmm : taken all held free k (pr_pmm s);
  ft_mem : cleared (take k (rev free)) m0 (pr_mem s);
  ft_rest : s = s0 <| pr_pmm := pr_pmm s |> <| pr_mem := pr_mem s |>
}.

Lemma nth_free_frame k : (k < length free)%nat -> frame_ok (nth_free free k).
Proof using free_ok. intros Hk. rewrite Forall_forall in free_ok. by apply free_ok, nth_free_lt. Qed.

Lemma take_rev_snoc k : (k < length free)%nat -> take (S k) (rev free) = take k (rev free) ++ [nth_free free k].
Proof using.
  intros Hk. unfold nth_free. destruct (lookup_lt_is_Some_2 (rev free) k) as [q Eq]; [rewrite length_rev; lia|].
  rewrite (take_S_r _ _ _ Eq), Eq. done.
Qed.

Lemma allocate_page_ok k s0 s (Q : option (Z * list Z) -> process64 -> Prop) :
  frames_taken k s0 s -> (k <= length free)%nat ->
  (if decide (k < length free)%nat then forall s', frames_taken (S k) s0 s' -> Q (Some (nth_free free k, take (S k) (rev free))) s'
   else forall s', frames_taken k s0 s' -> Q None s') ->
  wp (allocate_page (take k (rev free))) Q s.
Proof using free_ok.
  intros [Hp Hm Hr] Hk HQ. unfold allocate_page. wp_step. eapply alloc_next; [exact Hp|]. intros p' Hp'.
  case_decide as Hlt.
  - pose proof (nth_free_frame k Hlt) as Hf. unfold X86_64_PMM_INVALID_PAGE. rewrite (proj2 (Z.eqb_neq _ 0)) by (unfold frame_ok in Hf; lia).
    wp_step. eapply (clear_step (take k (rev free)) m0); [done|exact Hm|]. intros m' Hm'. wp_step. rewrite <- take_rev_snoc in * by done.
    apply HQ. constructor; [exact Hp'|exact Hm'|]. rewrite Hr. by destruct s0.
  - assert (k = length free) as -> by lia. unfold nth_free. rewrite (lookup_ge_None_2 (rev free)) by (rewrite length_rev; lia).
    change (default 0 None =? X86_64_PMM_INVALID_PAGE) with true. cbv beta iota. wp_step. apply HQ. constructor.
    + change (pr_pmm (s <| pr_pmm := p' |>)) with p'. destruct Hp' as [L I]. constructor.
      * rewrite L. f_equal. lia.
      * rewrite !take_ge in * by (rewrite length_rev; lia). exact I.
    + exact Hm.
    + rewrite Hr. by destruct s0.
Qed.

Lemma allocate_run_ok n k s0 s (Q : bool * list Z -> process64 -> Prop) :
  frames_taken k s0 s -> (k <= length free)%nat ->
  (forall s', (k + n <= length free)%nat -> frames_taken (k + n) s0 s' -> Q (true, take (k + n) (rev free)) s') ->
  (forall s', (length free < k + n)%nat -> frames_taken (length free) s0 s' -> Q (false, rev free) s') ->
  wp (allocate_page_run (Z.of_nat n) (take k (rev free))) Q s.
Proof using free_ok.
  intros Hs Hk Hall Hsome. unfold allocate_page_run.
  apply (wp_fold_seqZ _ _ (fun i '(ok, l) s' => if ok : bool then (k + Z.to_nat i <= length free)%nat /\ l = take (k + Z.to_nat i) (rev free) /\ frames_taken (k + Z.to_nat i) s0 s'
    else (length free < k + Z.to_nat i)%nat /\ l = rev free /\ frames_taken (length free) s0 s')); [|lia| |].
  - by rewrite Nat.add_0_r.
  - intros i [[] l] s' Hi (H1 & -> & H3); cbn [negb]; [|wp_step; split; [lia|done]].
    wp_step. apply (allocate_page_ok _ s0); [done|lia|]. replace (k + Z.to_nat (i + 1))%nat with (S (k + Z.to_nat i)) by lia.
    case_decide; intros s2 H2; wp_step.
    + split; [lia|done].
    + assert (k + Z.to_nat i = length free)%nat as E by lia. rewrite E in *. split; [lia|]. split; [|done].
      rewrite take_ge; [done|rewrite length_rev; lia].
  - intros [[] l] s' H; rewrite Nat2Z.id in H; destruct H as (H1 & -> & H3); auto.
Qed.
End Frames.

Lemma mfor_ext {S X} (l : list X) (f g : X -> M S unit) s : (forall x s, x ∈ l -> f x s = g x s) -> mfor l f s = mfor l g s.
Proof.
  revert s. induction l as [|x l IH]; intros s H; [done|]. cbn [mfor]. unfold mbind_. rewrite H by (by left).
  destruct (g x s) as [[u s']|]; [|done]. apply IH. intros y s2 Hy. apply H. by right.
Qed.

Lemma builder_rollback_ok all held l s (Q : unit -> process64 -> Prop) :
  pmm64_inv all held (pr_pmm s) -> NoDup l -> (forall q, q ∈ l -> 0 < q /\ q ∈ held) ->
  (forall p', pmm64_inv all (held ∖ list_to_set l) p' -> Q tt (s <| pr_pmm := p' |>)) ->
  wp (rollback_allocated_pages l) Q s.
Proof.
  intros Hi Hnd Hl HQ. unfold rollback_allocated_pages.
  assert (E : mfor l (fun page => pr_zoom (x86_64_pmm_free_page page) ;;; mret_ tt) s = mfor l release_page s).
  { apply mfor_ext. intros a s' Ha. unfold release_page. destruct (Hl a Ha) as [Hpos _]. by rewrite (proj2 (Z.eqb_neq a 0)) by lia. }
  destruct (release_pages_ok all held l s Q) as (a & s' & Es & HQ'); [done| |done|].
  - constructor; [intros q Hq; right; by apply Hl|by apply NoDup_filter].
  - exists a, s'. split; [by rewrite E|exact HQ'].
Qed.

(** ** The first user program *)

(** The first loadable segment of a well-formed file. *)
Definition init_header (d : list Z) : option x86_64_elf_program_header :=
  if (64 <=? Z.of_nat (length d)) && (Z.of_nat (length d) <=? 65536) && (elf64_ident_ok d && elf64_table_ok d)
  then List.find (fun p => ep_type p =? 1) (elf64_header_at d <$> seqZ 0 (half_at d 56)) else None.

Definition init_segment_ok (d : list Z) (p : x86_64_elf_program_header) : bool :=
  negb (Z.land (ep_flags p) 1 =? 0) && (ep_alignment p =? 4096) && (long_at d 24 =? 0x400000) && (ep_virtual_address p =? 0x400000) &&
  (0 <? ep_memory_size p) && (ep_file_size p <=? ep_memory_size p) && (ep_memory_size p <=? 8192) &&
  (ep_offset p + ep_file_size p <=? Z.of_nat (length d)).

(** The segment that is loaded, if the file is accepted. *)
Definition init_program (d : list Z) : option x86_64_elf_program_header :=
  match init_header d with Some p => if init_segment_ok d p then Some p else None | None => None end.

(** Byte [x] of the program, and its number of pages. *)
Definition init_byte (d : list Z) (x : Z) : Z :=
  match init_program d with Some p => if x <? ep_file_size p then byte_at d (ep_offset p + x) else 0 | None => 0 end.
Definition init_pages (d : list Z) : Z :=
  match init_program d with Some p => (ep_memory_size p + 4095) / 4096 | None => 0 end.

Lemma find_app_first {A} (f : A -> bool) l x r : List.find f l = None -> f x = true -> List.find f (l ++ x :: r) = Some x.
Proof. induction l as [|y l IH]; cbn; [by intros _ ->|]. destruct (f y); [done|]. exact IH. Qed.

Lemma find_app_none {A} (f : A -> bool) l x : List.find f l = None -> f x = false -> List.find f (l ++ [x]) = None.
Proof. induction l as [|y l IH]; cbn; [by intros _ ->|]. destruct (f y); [done|]. exact IH. Qed.

Lemma find_load_header_ok {St} d (Q : option x86_64_elf_program_header -> St -> Prop) s :
  half_at d 54 = 56 -> is_bytes d -> long_at d 32 + 56 * half_at d 56 <= Z.of_nat (length d) -> Z.of_nat (length d) <= 65536 ->
  Q (List.find (fun p => ep_type p =? 1) (elf64_header_at d <$> seqZ 0 (half_at d 56))) s ->
  wp (find_load_header d (long_at d 32) (half_at d 54) (half_at d 56)) Q s.
Proof.
  intros H54 Hd Ht Hl HQ. pose proof (half_at_range d 56 Hd) as Hr. unfold find_load_header.
  apply (wp_for_ret_seqZ _ _ (fun i s' => s' = s /\ List.find (fun p => ep_type p =? 1) (elf64_header_at d <$> seqZ 0 i) = None)).
  - lia.
  - done.
  - intros i s' Hi [-> Hn]. unfold program_header_at. wp_step. apply header_at_ok; [done..|]. unfold X86_64_ELF_PROGRAM_TYPE_LOAD. wp_step.
    destruct (ep_type (elf64_header_at d i) =? 1) eqn:Et.
    + replace (Some (elf64_header_at d i)) with (List.find (fun p => ep_type p =? 1) (elf64_header_at d <$> seqZ 0 (half_at d 56))); [exact HQ|].
      replace (half_at d 56) with (i + (1 + (half_at d 56 - i - 1))) by lia. rewrite seqZ_app, fmap_app by lia. rewrite Z.add_0_l, (seqZ_app i 1), fmap_app by lia.
      by apply find_app_first.
    + split; [done|]. rewrite (seqZ_app 0 i 1), fmap_app by lia. by apply find_app_none.
  - intros s' [-> Hn]. by rewrite Hn in HQ.
Qed.

(** The address of byte [x] of the program, whose pages are [c0] and [c1]. *)
Definition code_address (c0 c1 x : Z) : Z := (if x <? 4096 then c0 else c1) + x mod 4096.

Section Segment.
Context (c0 c1 : Z).
Hypothesis c0_frame : frame_ok c0.
Hypothesis c1_frame : frame_ok c1.
Hypothesis c01 : c0 <> c1.

Lemma code_address_inj x y : 0 <= x < 8192 -> 0 <= y < 8192 -> code_address c0 c1 x = code_address c0 c1 y -> x = y.
Proof using c0_frame c1_frame c01.
  unfold code_address, frame_ok in *. intros Hx Hy. destruct (Z.ltb_spec x 4096), (Z.ltb_spec y 4096); Z.div_mod_to_equations; lia.
Qed.

Lemma code_address_in x : 0 <= x < 8192 -> exists c, c ∈ [c0; c1] /\ in_page64 c (code_address c0 c1 x).
Proof using c0_frame c1_frame c01.
  intros Hx. unfold code_address. pose proof (Z.mod_pos_bound x 4096 ltac:(lia)). exists (if x <? 4096 then c0 else c1).
  split; [destruct (x <? 4096); set_solver|]. unfold in_page64. lia.
Qed.

Lemma code_page_at_ok st i s (Q : Z -> process64 -> Prop) :
  pb_user_code_pages st = [c0; c1] -> 0 <= i < 8192 -> Q (if i <? 4096 then c0 else c1) s -> wp (code_page_for_offset st i) Q s.
Proof using c0_frame c1_frame c01.
  intros Hp Hi HQ. unfold code_page_for_offset, X86_64_PAGING_BUILDER_USER_CODE_PAGES, X86_64_USER_PAGE_BYTES.
  assert (Hd : i / 4096 = if i <? 4096 then 0 else 1) by (destruct (Z.ltb_spec i 4096); Z.div_mod_to_equations; lia).
  rewrite u32_small by (unfold is_u32; rewrite Hd; destruct (i <? 4096); lia). rewrite Hd, Hp.
  destruct (i <? 4096); cbn [Z.leb Z.compare Pos.compare Pos.compare_cont]; (eapply wp_array_at; [reflexivity|exact HQ]).
Qed.

Lemma put_code_byte_ok st i v s (Q : unit -> process64 -> Prop) :
  pb_user_code_pages st = [c0; c1] -> 0 <= i < 8192 -> Q tt (s <| pr_mem := store8 (code_address c0 c1 i) v (pr_mem s) |>) ->
  wp (put_code_byte st i v) Q s.
Proof using c0_frame c1_frame c01.
  intros Hp Hi HQ. unfold put_code_byte. wp_step. apply code_page_at_ok; [done..|]. wp_step.
  unfold X86_64_USER_PAGE_BYTES. change (4096 - 1) with (2 ^ 12 - 1). rewrite land_low_mask by lia. change (2 ^ 12) with 4096.
  pose proof (Z.mod_pos_bound i 4096 ltac:(lia)). unfold frame_ok in *.
  rewrite u64_small by (unfold is_u64; destruct (i <? 4096); lia). destruct s. exact HQ.
Qed.

(** The bytes below [n] are those of [f], the others 0. *)
Definition code_bytes (f : Z -> Z) (n : Z) (m : mem) : Prop :=
  forall x, 0 <= x < 8192 -> load8 m (code_address c0 c1 x) = if x <? n then f x else 0.

Lemma code_bytes_step f n m v :
  0 <= n < 8192 -> code_bytes f n m -> v = f n -> 0 <= v < 256 -> code_bytes f (n + 1) (store8 (code_address c0 c1 n) v m).
Proof using c0_frame c1_frame c01.
  intros Hn Hb -> Hv x Hx. destruct (decide (x = n)) as [->|Hne].
  - rewrite load8_store8_eq, (proj2 (Z.ltb_lt n _)) by lia. unfold u8. by rewrite Z.mod_small.
  - rewrite load8_store8_ne, (Hb x Hx) by (intros E; by apply code_address_inj in E).
    destruct (Z.ltb_spec x n), (Z.ltb_spec x (n + 1)); done || lia.
Qed.

Lemma store_code_outside m0 m x v : 0 <= x < 8192 -> same_outside [c0; c1] m0 m -> same_outside [c0; c1] m0 (store8 (code_address c0 c1 x) v m).
Proof using c0_frame c1_frame c01.
  intros Hx Hm a Ha. destruct (code_address_in x Hx) as (c & Hc & Hin). rewrite load8_store8_ne; [by apply Hm|]. intros ->. by apply (Ha c).
Qed.

Lemma page_prefix_ok d c k o n s (Q : bool -> process64 -> Prop) :
  c = (if k =? 0 then c0 else c1) -> 0 <= k < 2 -> 0 <= n <= 4096 -> 0 <= o -> o + n <= Z.of_nat (length d) ->
  (forall x, 0 <= x < n -> load8 (pr_mem s) (code_address c0 c1 (4096 * k + x)) = byte_at d (o + x)) -> Q true s ->
  wp (page_prefix_matches c d o n) Q s.
Proof using c0_frame c1_frame c01.
  intros Ec Hk Hn Ho Hl Hb HQ. unfold page_prefix_matches. wp_step.
  apply (wp_for_ret_seqZ _ _ (fun _ s' => s' = s)); [lia|done| |].
  - intros i s' Hi ->. do 3 wp_step. destruct (lookup_lt_is_Some_2 d (Z.to_nat (o + i))) as [v Hv]; [lia|].
    eapply wp_array_at; [exact Hv|]. wp_step. specialize (Hb i Hi). unfold byte_at in Hb. rewrite Hv in Hb. cbn in Hb.
    assert (Ha : c [++] i = code_address c0 c1 (4096 * k + i)).
    { unfold frame_ok in *. subst c. rewrite u64_small by (unfold is_u64; destruct (k =? 0); lia). unfold code_address.
      assert (k = 0 \/ k = 1) as [-> | ->] by lia.
      - rewrite (proj2 (Z.ltb_lt _ 4096)), Z.mod_small by lia. cbn. lia.
      - rewrite (proj2 (Z.ltb_ge _ 4096)) by lia. cbn [Z.eqb Pos.eqb]. Z.div_mod_to_equations. lia. }
    rewrite Ha, Hb, Z.eqb_refl. done.
  - intros s' ->. by wp_step.
Qed.

Lemma checksum_ok {St} d o n (Q : Z -> St -> Prop) s :
  0 <= o -> 0 <= n -> o + n <= Z.of_nat (length d) -> (forall v, Q v s) -> wp (checksum_bytes d o n) Q s.
Proof using.
  intros Ho Hn Hl HQ. unfold checksum_bytes. apply (wp_fold_seqZ _ _ (fun _ _ s' => s' = s)); [done|done| |by intros v s' ->].
  intros i v s' Hi ->. wp_step. destruct (lookup_lt_is_Some_2 d (Z.to_nat (o + i))) as [b Hb]; [lia|].
  eapply wp_array_at; [exact Hb|]. by wp_step.
Qed.

(** The fields of the builder that loading the program leaves alone. *)
Definition builder_frames (st : x86_64_paging_builder_state) : list Z * list Z * (Z * bool * bool * bool) :=
  ([pb_pml4_table st; pb_identity_pdpt_table st; pb_identity_pd_table st; pb_direct_pdpt_table st; pb_direct_pd_table st;
    pb_framebuffer_pdpt_table st; pb_framebuffer_pd_table st; pb_kernel_pdpt_table st; pb_kernel_pd_table st; pb_kernel_pt_table st;
    pb_user_code_pt_table st; pb_user_stack_pd_table st; pb_user_stack_pt_table st; pb_user_stack_page st; pb_user_code_virtual st],
   pb_user_code_pages st, (pb_user_stack_virtual st, pb_pmm_backed st, pb_allocation_ok st, pb_framebuffer_requested st)).

Lemma code_pages_match_ok st d p s (Q : bool -> process64 -> Prop) :
  pb_user_code_pages st = [c0; c1] -> header_range p -> ep_file_size p <= ep_memory_size p -> ep_memory_size p <= 8192 ->
  ep_offset p + ep_file_size p <= Z.of_nat (length d) ->
  (forall x, 0 <= x < ep_file_size p -> load8 (pr_mem s) (code_address c0 c1 x) = byte_at d (ep_offset p + x)) -> Q true s ->
  wp (code_pages_match st d p ((ep_memory_size p + 4095) / 4096)) Q s.
Proof using c0_frame c1_frame c01.
  intros Hp [R1 R2 R3 R4] Hf Hm Hl Hb HQ. unfold is_u64 in *. unfold code_pages_match.
  apply (wp_fold_seqZ _ _ (fun _ b s' => b = true /\ s' = s)); [done|Z.div_mod_to_equations; lia| |by intros b s' [-> ->]].
  intros k b s' Hk [-> ->]. assert (Hk2 : 0 <= k < 2) by (Z.div_mod_to_equations; lia). unfold X86_64_USER_PAGE_BYTES. cbv zeta.
  rewrite (u64_small (k * 4096)) by (unfold is_u64; lia). destruct (Z.ltb_spec (k * 4096) (ep_file_size p)) as [Hlt|Hge]; [|change ((if 4096 <? 0 then u32 4096 else u32 0) =? 0) with true; cbv iota; apply wp_ret; done].
  rewrite (u64_small (ep_file_size p - k * 4096)) by (unfold is_u64; lia).
  set (n := if 4096 <? ep_file_size p - k * 4096 then u32 4096 else u32 (ep_file_size p - k * 4096)).
  assert (Hn : n = Z.min 4096 (ep_file_size p - k * 4096)).
  { unfold n. destruct (Z.ltb_spec 4096 (ep_file_size p - k * 4096)); rewrite u32_small by (unfold is_u32; lia); lia. }
  clearbody n. rewrite (proj2 (Z.eqb_neq n 0)) by lia. wp_step.
  assert (Hpage : [c0; c1] !! Z.to_nat k = Some (if k =? 0 then c0 else c1)) by (clear -Hk2; assert (k = 0 \/ k = 1) as [-> | ->] by lia; reflexivity).
  eapply wp_array_at; [rewrite Hp; exact Hpage|]. wp_step.
  apply (page_prefix_ok d _ k); [done|lia|lia|lia|lia| |by wp_step].
  intros x Hx. rewrite Hb by lia. f_equal. lia.
Qed.

Lemma load_init_segment_ok st d p s (Q : x86_64_paging_builder_state -> process64 -> Prop) :
  pb_user_code_pages st = [c0; c1] -> is_bytes d -> header_range p -> ep_file_size p <= ep_memory_size p -> ep_memory_size p <= 8192 ->
  ep_offset p + ep_file_size p <= Z.of_nat (length d) -> code_bytes (fun _ => 0) 0 (pr_mem s) ->
  (forall st' m, same_outside [c0; c1] (pr_mem s) m -> code_bytes (fun x => byte_at d (ep_offset p + x)) (ep_file_size p) m ->
     (exists sum, st' = st <| pb_user_image_bytes := ep_file_size p |> <| pb_user_image_pages := (ep_memory_size p + 4095) / 4096 |>
       <| pb_user_image_checksum := sum |> <| pb_user_image_loaded := true |>) -> Q st' (s <| pr_mem := m |>)) ->
  wp (load_init_segment st d p) Q s.
Proof using c0_frame c1_frame c01.
  intros Hp Hd HR Hf Hm Hl Hz HQ. pose proof HR as [R1 R2 R3 R4]. unfold is_u64 in *. unfold load_init_segment. cbv zeta.
  set (f := fun x => byte_at d (ep_offset p + x)) in *. wp_step.
  apply (wp_for_seqZ _ _ (fun i s' => exists m, s' = s <| pr_mem := m |> /\ same_outside [c0; c1] (pr_mem s) m /\ code_bytes f i m)).
  { lia. }
  { exists (pr_mem s). split; [by destruct s|]. split; [done|]. intros x Hx. rewrite (Hz x Hx). by rewrite (proj2 (Z.ltb_ge x 0)) by lia. }
  { intros i s' Hi (m & -> & Ho & Hb). wp_step. destruct (lookup_lt_is_Some_2 d (Z.to_nat (ep_offset p + i))) as [v Hv]; [lia|].
    eapply wp_array_at; [exact Hv|]. apply put_code_byte_ok; [done|lia|]. exists (store8 (code_address c0 c1 i) v m).
    split; [by destruct s|]. split; [by apply store_code_outside; [lia|]|]. assert (v = f i) as Ev by (unfold f, byte_at; by rewrite Hv).
    apply code_bytes_step; [lia|done|done|]. rewrite Ev. by apply byte_at_range. }
  intros s1 (m1 & -> & Ho1 & Hb1). wp_step.
  apply (wp_for (seqZ (ep_file_size p) (ep_memory_size p - ep_file_size p)) _ (fun _ s' => exists m, s' = s <| pr_mem := m |> /\
     same_outside [c0; c1] (pr_mem s) m /\ code_bytes f (ep_file_size p) m)).
  { by exists m1. }
  { intros l i r s' E (m & -> & Ho & Hb). assert (Hi : ep_file_size p <= i < ep_memory_size p).
    { assert (i ∈ seqZ (ep_file_size p) (ep_memory_size p - ep_file_size p)) as Hin%elem_of_seqZ by (rewrite E; set_solver). lia. }
    apply put_code_byte_ok; [done|lia|]. exists (store8 (code_address c0 c1 i) 0 m). split; [by destruct s|].
    split; [by apply store_code_outside; [lia|]|]. intros x Hx. destruct (decide (x = i)) as [->|Hne].
    - rewrite load8_store8_eq, (proj2 (Z.ltb_ge i _)) by lia. done.
    - rewrite load8_store8_ne by (intros E'; apply code_address_inj in E'; [done|lia|lia]). by apply Hb. }
  intros s2 (m & -> & Ho & Hb). wp_step. rewrite (u32_small (ep_file_size p)) by (unfold is_u32; lia).
  assert (Hal : align_page_count (ep_memory_size p) = (ep_memory_size p + 4095) / 4096).
  { unfold align_page_count, X86_64_PAGE_MASK, X86_64_PAGE_SIZE. change (4096 - 1) with 4095. rewrite u64_small by (unfold is_u64; lia).
    apply u32_small. unfold is_u32. Z.div_mod_to_equations. lia. }
  rewrite Hal. change (pb_user_image_bytes (st <| pb_user_image_bytes := ep_file_size p |> <| pb_user_image_pages := (ep_memory_size p + 4095) / 4096 |>)) with (ep_file_size p).
  apply checksum_ok; [lia|lia|lia|]. intros sum. wp_step. apply code_pages_match_ok; [exact Hp|done|done|done|done| |].
  - intros x Hx. change (load8 m (code_address c0 c1 x) = f x). rewrite (Hb x) by lia. by rewrite (proj2 (Z.ltb_lt x _)) by lia.
  - wp_step. apply HQ; [done|done|]. by exists sum.
Qed.

Lemma page_zeroed_ok c s (Q : bool -> process64 -> Prop) :
  frame_ok c -> (forall a, in_page64 c a -> load8 (pr_mem s) a = 0) -> Q true s -> wp (page_is_zeroed c) Q s.
Proof using.
  intros Hc Hz HQ. unfold page_is_zeroed. wp_step. apply (wp_for_ret_seqZ _ _ (fun _ s' => s' = s)); [done|done| |].
  - intros i s' Hi ->. do 3 wp_step. unfold X86_64_PAGE_SIZE in Hi. unfold frame_ok in Hc.
    rewrite u64_small by (unfold is_u64; lia). rewrite Hz by (unfold in_page64; lia). done.
  - intros s' ->. by wp_step.
Qed.
End Segment.

(** What loading the program leaves. *)
Record program_loaded (d : list Z) (c0 c1 : Z) (st st' : x86_64_paging_builder_state) (m m' : mem) : Prop := {
  gl_frames : builder_frames st' = builder_frames st;
  gl_ok : pb_elf64_load_ok st' = bool_decide (is_Some (init_program d));
  gl_pages : pb_user_image_pages st' = init_pages d;
  gl_bytes : forall x, 0 <= x < 8192 -> load8 m' (code_address c0 c1 x) = init_byte d x;
  gl_zeroed : pb_user_stack_zeroed st' = true /\ (pb_elf64_load_ok st' = true -> pb_user_image_loaded st' = true);
  gl_outside : same_outside [c0; c1] m m'
}.

Lemma init_header_range d p : is_bytes d -> init_header d = Some p -> header_range p.
Proof.
  intros Hd H. unfold init_header in H. case_match; [|done]. apply List.find_some in H as [H _]. apply list_elem_of_In in H.
  apply list_elem_of_fmap in H as (i & -> & _). by apply header_at_range.
Qed.

(** The four tests of the code are the reference's. *)
Lemma init_segment_tests d p :
  is_bytes d -> header_range p -> Z.of_nat (length d) <= 65536 -> ep_type p =? 1 = true ->
  ((ep_type p =? X86_64_ELF_PROGRAM_TYPE_LOAD) && negb (Z.land (ep_flags p) 1 =? 0) && (ep_alignment p =? X86_64_USER_PAGE_BYTES)) &&
  ((long_at d 24 =? X86_64_USER_CODE_BASE) && (ep_virtual_address p <=? long_at d 24) && (long_at d 24 <? ep_virtual_address p [++] ep_memory_size p)) &&
  ((ep_virtual_address p =? X86_64_USER_CODE_BASE) && (ep_file_size p <=? ep_memory_size p) &&
   (ep_memory_size p <=? X86_64_EMBEDDED_INIT_MAX_BYTES) && range_fits (ep_offset p) (ep_file_size p) (Z.of_nat (length d))) = init_segment_ok d p.
Proof.
  intros Hd [R1 R2 R3 R4] Hl Ht. unfold init_segment_ok, X86_64_ELF_PROGRAM_TYPE_LOAD, X86_64_USER_PAGE_BYTES, X86_64_USER_CODE_BASE, X86_64_EMBEDDED_INIT_MAX_BYTES,
    X86_64_PAGING_BUILDER_USER_CODE_PAGES. rewrite Ht. change (2 * X86_64_USER_PAGE_BYTES) with 8192.
  change (range_fits (ep_offset p) (ep_file_size p) (Z.of_nat (length d))) with (x86_64_syscall_image_range_fits (ep_offset p) (ep_file_size p) (Z.of_nat (length d))).
  rewrite range_fits_ok by (done || (unfold is_u64; lia)). unfold is_u64 in *.
  destruct (Z.eqb_spec (ep_virtual_address p) 0x400000) as [->|]; [|by rewrite !andb_false_r].
  destruct (Z.eqb_spec (long_at d 24) 0x400000) as [->|]; [|by rewrite !andb_false_r].
  destruct (Z.leb_spec (ep_memory_size p) 8192); [|by rewrite !andb_false_r].
  rewrite u64_small by (unfold is_u64; lia). rewrite (proj2 (Z.leb_le 0x400000 0x400000)) by lia.
  replace (0x400000 <? 0x400000 + ep_memory_size p) with (0 <? ep_memory_size p) by (apply eq_true_iff_eq; rewrite !Z.ltb_lt; lia).
  destruct (negb _), (ep_alignment p =? 4096), (0 <? ep_memory_size p), (ep_file_size p <=? ep_memory_size p), (_ + _ <=? _); reflexivity.
Qed.

Section Load.
Context (d : list Z) (c0 c1 : Z) (st : x86_64_paging_builder_state) (s : process64).
Hypothesis bytes : is_bytes d.
Hypothesis small : Z.of_nat (length d) <= 0xFFFFFFFF.
Hypothesis c0_frame : frame_ok c0.
Hypothesis c1_frame : frame_ok c1.
Hypothesis c01 : c0 <> c1.
Hypothesis code : pb_user_code_pages st = [c0; c1].
Hypothesis zeroed : code_bytes c0 c1 (fun _ => 0) 0 (pr_mem s).
Hypothesis stack_frame : frame_ok (pb_user_stack_page st).
Hypothesis stack_apart : pb_user_stack_page st <> c0 /\ pb_user_stack_page st <> c1.
Hypothesis stack_zero : forall a, in_page64 (pb_user_stack_page st) a -> load8 (pr_mem s) a = 0.
Hypothesis fresh : pb_elf64_program_header_ok st = false /\ pb_user_image_loaded st = false /\ pb_user_image_pages st = 0.

(** The last lines: the stack page, and the conjunction of the flags. *)
Lemma load_finish st' m (Q : x86_64_paging_builder_state -> process64 -> Prop) :
  same_outside [c0; c1] (pr_mem s) m -> pb_user_stack_page st' = pb_user_stack_page st ->
  Q (st' <| pb_user_stack_zeroed := true |>
      <| pb_elf64_load_ok := pb_user_image_source_ok st' && pb_elf64_header_ok st' && pb_elf64_program_header_ok st' && pb_elf64_entry_ok st' &&
           pb_elf64_segment_ok st' && pb_user_image_loaded st' |>) (s <| pr_mem := m |>) ->
  wp (zeroed <- page_is_zeroed (pb_user_stack_page st') ;;
      mret_ (st' <| pb_user_stack_zeroed := zeroed |>
      <| pb_elf64_load_ok := pb_user_image_source_ok st' && pb_elf64_header_ok st' && pb_elf64_program_header_ok st' && pb_elf64_entry_ok st' &&
           pb_elf64_segment_ok st' && pb_user_image_loaded st' |>)) Q (s <| pr_mem := m |>).
Proof using c0_frame c1_frame stack_apart stack_frame stack_zero.
  intros Hm E HQ. wp_step. rewrite E. apply page_zeroed_ok; [done| |by apply wp_ret].
  intros a Ha. change (load8 m a = 0). rewrite Hm; [by apply stack_zero|]. intros c Hc. destruct stack_apart.
  rewrite !elem_of_cons, elem_of_nil in Hc. destruct Hc as [->|[->|[]]]; by apply (pages_apart (pb_user_stack_page st)).
Qed.

Lemma load_embedded_ok (Q : x86_64_paging_builder_state -> process64 -> Prop) :
  (forall st' m, program_loaded d c0 c1 st st' (pr_mem s) m -> Q st' (s <| pr_mem := m |>)) ->
  wp (load_embedded_user_image d st) Q s.
Proof using All.
  intros HQ. unfold load_embedded_user_image. destruct fresh as (F1 & F2 & F3). cbv zeta.
  assert (Hsize : embedded_user_image_size d = Z.of_nat (length d)).
  { unfold embedded_user_image_size. rewrite (proj2 (Z.ltb_ge _ _)) by lia. apply u32_small. unfold is_u32. lia. }
  rewrite Hsize. unfold sizeof_elf_header, X86_64_EMBEDDED_INIT_ELF_MAX_BYTES.
  set (src := (64 <=? Z.of_nat (length d)) && (Z.of_nat (length d) <=? 65536)).
  set (st1 := st <| pb_user_image_embedded := src |> <| pb_user_image_source_ok := src |>).
  wp_step. apply (wp_mono _ (fun h s' => s' = s /\ h = (src && (elf64_ident_ok d && elf64_table_ok d), init_header d))).
  { unfold init_header. fold src. destruct src eqn:Hsrc; [|by apply wp_ret]. apply andb_true_iff in Hsrc as [L1%Z.leb_le L2%Z.leb_le].
    wp_step. apply header_ok_ok; [done|lia|]. cbn [andb]. destruct (elf64_ident_ok d && elf64_table_ok d) eqn:Hh; [|by apply wp_ret].
    apply andb_true_iff in Hh as [Hid Htab]. unfold elf64_ident_ok in Hid. apply andb_true_iff in Hid as [_ H54%Z.eqb_eq].
    unfold elf64_table_ok in Htab. rewrite !andb_true_iff, !Z.leb_le in Htab. destruct Htab as [_ Htab].
    unfold elf64_program_header_offset, elf64_program_header_entry_size, elf64_program_header_count. do 3 wp_field64. wp_step.
    apply find_load_header_ok; [done..|]. by apply wp_ret. }
  intros h s' [-> ->]. cbn [fst snd]. set (hok := src && (elf64_ident_ok d && elf64_table_ok d)).
  assert (Hframes : s <| pr_mem := pr_mem s |> = s) by (by destruct s).
  destruct (init_header d) as [p|] eqn:Hp.
  2:{ wp_step. wp_step. rewrite <- Hframes. apply load_finish; [done|done|]. apply HQ. unfold st1.
    constructor; cbn -[builder_frames init_program init_pages init_byte load8 code_address]; try done.
    - change (src && hok && pb_elf64_program_header_ok st && pb_elf64_entry_ok st && pb_elf64_segment_ok st && pb_user_image_loaded st = bool_decide (is_Some (init_program d))).
      rewrite F1, !andb_false_r. unfold init_program. rewrite Hp. by rewrite bool_decide_eq_false_2 by (by intros []).
    - change (pb_user_image_pages st = init_pages d). unfold init_pages, init_program. by rewrite Hp.
    - intros x Hx. unfold init_byte, init_program. rewrite Hp, (zeroed x Hx). by destruct (x <? 0).
    - split; [done|]. by intros [_ H]%andb_true_iff. }
  assert (Hhok : hok = true). { unfold init_header in Hp. fold src in Hp. unfold hok. by destruct (src && _). }
  assert (Hsrc : src = true). { unfold hok in Hhok. by apply andb_true_iff in Hhok as [? _]. }
  pose proof Hsrc as Hsrc'. unfold src in Hsrc'. apply andb_true_iff in Hsrc' as [L1%Z.leb_le L2%Z.leb_le].
  pose proof (init_header_range d p bytes Hp) as Hr.
  assert (Ht : ep_type p =? 1 = true). { unfold init_header in Hp. case_match; [|done]. by apply List.find_some in Hp as [_ Hp]. }
  wp_step. unfold elf64_entry. wp_field64. cbv zeta.
  match goal with |- wp (if ?b then _ else _) _ _ => replace b with (init_segment_ok d p) end.
  2:{ rewrite <- (init_segment_tests d p bytes Hr L2 Ht).
    match goal with |- ?A && ?B && ?C = _ => change (A && B && C = hok && A && B && C) end. by rewrite Hhok. }
  match goal with |- wp (if _ then load_init_segment ?t _ _ else _) _ _ => set (st2 := t) end.
  assert (Htests : pb_elf64_program_header_ok st2 && pb_elf64_entry_ok st2 && pb_elf64_segment_ok st2 = init_segment_ok d p)
    by (exact (init_segment_tests d p bytes Hr L2 Ht)).
  assert (Est2 : builder_frames st2 = builder_frames st /\ pb_user_image_source_ok st2 = src /\ pb_elf64_header_ok st2 = hok /\ pb_user_code_pages st2 = [c0; c1] /\
    pb_user_image_loaded st2 = false /\ pb_user_image_pages st2 = 0) by (repeat split; done).
  clearbody st2. destruct Est2 as (E1 & E2 & E3 & E4 & E5 & E6).
  assert (Hprog : init_program d = if init_segment_ok d p then Some p else None) by (unfold init_program; by rewrite Hp).
  destruct (init_segment_ok d p) eqn:Hok.
  - unfold init_segment_ok in Hok. rewrite !andb_true_iff, !Z.leb_le in Hok. destruct Hok as [[[_ K1] K2] K3].
    apply (load_init_segment_ok c0 c1); [done..|]. intros st3 m Ho Hb [sum E].
    apply load_finish; [done| |].
    + rewrite E. change (pb_user_stack_page st2 = pb_user_stack_page st). injection E1. done.
    + apply HQ. rewrite E. constructor.
      * exact E1.
      * change (pb_user_image_source_ok st2 && pb_elf64_header_ok st2 && pb_elf64_program_header_ok st2 && pb_elf64_entry_ok st2 && pb_elf64_segment_ok st2 && true =
          bool_decide (is_Some (init_program d))). rewrite Hprog, bool_decide_eq_true_2 by done. rewrite E2, E3, Hsrc, Hhok, andb_true_r. exact Htests.
      * unfold init_pages. by rewrite Hprog.
      * intros x Hx. unfold init_byte. rewrite Hprog. by apply Hb.
      * done.
      * done.
  - apply wp_ret. rewrite <- Hframes. apply load_finish; [done|by injection E1|]. apply HQ.
    constructor.
    + exact E1.
    + change (pb_user_image_source_ok st2 && pb_elf64_header_ok st2 && pb_elf64_program_header_ok st2 && pb_elf64_entry_ok st2 && pb_elf64_segment_ok st2 && pb_user_image_loaded st2 =
          bool_decide (is_Some (init_program d))). rewrite E5, andb_false_r, Hprog. by rewrite bool_decide_eq_false_2 by (by intros []).
    + unfold init_pages. by rewrite Hprog.
    + intros x Hx. unfold init_byte. rewrite Hprog, (zeroed x Hx). by destruct (x <? 0).
    + split; [done|]. by intros [_ H]%andb_true_iff.
    + done.
Qed.
End Load.
