(* ===== verification/Paging64Tables.v ===== *)
(** The page tables of the 64-bit kernel: what linking and filling them leaves in memory and
    how the processor translates every address under them. *)
From S2P Require Import Prelude Word64 Mem KString Loader ElfProofs Pmm64 Pmm64Proofs Text64 Process64 Process64Tables.
From S2P Require Import Process64Alloc Elf64 Elf64Proofs Paging64 Paging64Proofs.

(** ** The thirteen tables as a function *)

(** Entry [j] of table [t]; assigning one entry, and a range. *)
Definition table_fun := nat -> Z -> Z.
Definition tput (t : nat) (i v : Z) (T : table_fun) : table_fun := fun t' j => if (t' =? t)%nat && (j =? i) then v else T t' j.
Definition tfill (t : nat) (n : Z) (f : Z -> Z) (T : table_fun) : table_fun := fun t' j => if (t' =? t)%nat && ((0 <=? j) && (j <? n)) then f j else T t' j.

Lemma tfill_step t n f T t' j : 0 <= n -> 0 <= j -> tput t n (f n) (tfill t n f T) t' j = tfill t (n + 1) f T t' j.
Proof.
  intros Hn Hj. unfold tput, tfill. destruct (Nat.eqb_spec t' t); [|done]. cbn [andb]. rewrite (proj2 (Z.leb_le 0 j)) by done. cbn [andb].
  destruct (Z.eqb_spec j n) as [E|], (Z.ltb_spec j n), (Z.ltb_spec j (n + 1)); lia || (by rewrite E) || done.
Qed.

Section Tables.
Context (pages : list Z).
Hypothesis pages_len : length pages = 16%nat.
Hypothesis pages_ok : Forall frame_ok pages.
Hypothesis pages_nodup : NoDup pages.

Definition pg (t : nat) : Z := default 0 (pages !! t).

Lemma pg_lookup t : (t < 16)%nat -> pages !! t = Some (pg t).
Proof using pages_len. intros Ht. unfold pg. destruct (lookup_lt_is_Some_2 pages t) as [x Hx]; [lia|]. by rewrite Hx. Qed.

Lemma pg_frame t : (t < 16)%nat -> frame_ok (pg t).
Proof using pages_len pages_ok. intros Ht. rewrite Forall_lookup in pages_ok. eapply pages_ok, (pg_lookup t Ht). Qed.

Lemma pg_inj t t' : (t < 16)%nat -> (t' < 16)%nat -> pg t = pg t' -> t = t'.
Proof using pages_len pages_nodup.
  intros Ht Ht' E. eapply (NoDup_lookup pages); [done|by apply pg_lookup|rewrite E; by apply pg_lookup].
Qed.

Lemma pg_in t : (t < 13)%nat -> pg t ∈ take 13 pages.
Proof using pages_len.
  intros Ht. apply elem_of_take. exists t. split; [apply pg_lookup; lia|lia].
Qed.

(** The tables hold [T]; nothing outside them has changed since [s0]. *)
Record tables_at (s0 : process64) (T : table_fun) (s : process64) : Prop := {
  tt_word : forall t i, (t < 13)%nat -> 0 <= i < 512 -> word (pr_mem s) (pg t) i = T t i;
  tt_outside : same_outside (take 13 pages) (pr_mem s0) (pr_mem s);
  tt_rest : s = s0 <| pr_mem := pr_mem s |>
}.

Lemma tables_at_ext s0 T T' s : (forall t i, 0 <= i < 512 -> T t i = T' t i) -> tables_at s0 T s -> tables_at s0 T' s.
Proof using. intros E [H1 H2 H3]. constructor; [|done|done]. intros t i Ht Hi. rewrite <- E by done. by apply H1. Qed.

Lemma tput_ok s0 T t i v s (Q : unit -> process64 -> Prop) :
  tables_at s0 T s -> (t < 13)%nat -> 0 <= i < 512 -> 0 <= v < 18446744073709551616 ->
  (forall s', tables_at s0 (tput t i v T) s' -> Q tt s') -> wp (entry_put (pg t) i v) Q s.
Proof using pages_len pages_ok pages_nodup.
  intros [H1 H2 H3] Ht Hi Hv HQ. apply entry_put_ok; [apply pg_frame; lia|done|done|]. intros m' Hw Hb. apply HQ. constructor.
  - intros t' j Ht' Hj. change (word m' (pg t') j = tput t i v T t' j). rewrite Hw by (done || (apply pg_frame; lia)). unfold tput.
    destruct (decide (pg t' = pg t /\ j = i)) as [[E ->]|Hne].
    + apply pg_inj in E as ->; [|lia|lia]. by rewrite Nat.eqb_refl, Z.eqb_refl.
    + rewrite H1 by done. destruct (Nat.eqb_spec t' t) as [->|]; [|done]. destruct (Z.eqb_spec j i) as [->|]; [|done]. by destruct Hne.
  - intros a Ha. change (load8 m' a = load8 (pr_mem s0) a). rewrite Hb; [by apply H2|]. apply Ha, pg_in, Ht.
  - change (s <| pr_mem := m' |> = s0 <| pr_mem := m' |>). rewrite H3. by destruct s0.
Qed.

(** A loop that assigns [f i] to entry [i] for each [i] below [n]. *)
Lemma tfill_loop s0 T t n f (body : Z -> PR unit) s (Q : unit -> process64 -> Prop) :
  tables_at s0 T s -> (t < 13)%nat -> 0 <= n <= 512 ->
  (forall i s' (R : unit -> process64 -> Prop), 0 <= i < n -> wp (entry_put (pg t) i (f i)) R s' -> wp (body i) R s') ->
  (forall i, 0 <= i < n -> 0 <= f i < 18446744073709551616) ->
  (forall s', tables_at s0 (tfill t n f T) s' -> Q tt s') -> wp (mfor (seqZ 0 n) body) Q s.
Proof using pages_len pages_ok pages_nodup.
  intros Hs Ht Hn Hbody Hf HQ. apply (wp_for_seqZ _ _ (fun i s' => tables_at s0 (tfill t i f T) s')); [lia| | |done].
  - eapply tables_at_ext; [|exact Hs]. intros t' j Hj. unfold tfill. rewrite (proj2 (Z.ltb_ge j 0)), !andb_false_r by lia. done.
  - intros i s' Hi H. apply Hbody; [done|]. eapply tput_ok; [exact H|done|lia|by apply Hf|]. intros s2. apply tables_at_ext.
    intros t' j Hj. apply tfill_step; lia.
Qed.

Lemma fill_ok s0 T t n f s (Q : unit -> process64 -> Prop) :
  tables_at s0 T s -> (t < 13)%nat -> 0 <= n <= 512 -> (forall i, 0 <= i < n -> 0 <= f i < 18446744073709551616) ->
  (forall s', tables_at s0 (tfill t n f T) s' -> Q tt s') -> wp (fill_entries (pg t) 0 n f) Q s.
Proof using pages_len pages_ok pages_nodup.
  intros Hs Ht Hn Hf HQ. unfold fill_entries. eapply tfill_loop; [exact Hs|done|done| |exact Hf|exact HQ].
  intros i s' R Hi H. rewrite Z.add_0_l, u32_small by (unfold is_u32; lia). exact H.
Qed.

(** Reading entries. *)
Lemma entries_have_ok s0 T s p (l : list (nat * Z)) (Q : bool -> process64 -> Prop) :
  tables_at s0 T s -> Forall (fun e => (e.1 < 13)%nat /\ 0 <= e.2 < 512) l -> Q (forallb (fun e => p (T e.1 e.2)) l) s ->
  wp (entries_have p ((fun e => (pg e.1, e.2)) <$> l)) Q s.
Proof using pages_len pages_ok.
  intros Hs Hl HQ. unfold entries_have.
  enough (H : forall b, wp (mfold ((fun e => (pg e.1, e.2)) <$> l) (fun ok '(table, i) => entry <- entry_at table i ;; mret_ (ok && p entry)) b)
    (fun r s' => s' = s /\ r = b && forallb (fun e => p (T e.1 e.2)) l) s).
  { eapply wp_mono; [apply (H true)|]. by intros r s' [-> ->]. }
  clear HQ. induction l as [|[t i] l IH]; intros b; cbn [fmap list_fmap mfold].
  - apply wp_ret. by rewrite andb_true_r.
  - apply Forall_cons in Hl as [[Ht Hi] Hl]. cbn in Ht, Hi. wp_step. cbn [fst snd]. wp_step. apply entry_at_ok; [apply pg_frame; lia|done|]. wp_step.
    rewrite (tt_word _ _ _ Hs) by done. eapply wp_mono; [by apply IH|]. intros r s' [-> ->]. split; [done|]. cbn. by rewrite andb_assoc.
Qed.

Lemma count_present_ok s0 T s (Q : Z -> process64 -> Prop) : tables_at s0 T s -> (forall n, Q n s) -> wp (count_present_entries (pg 0)) Q s.
Proof using pages_len pages_ok.
  intros Hs HQ. unfold count_present_entries. apply (wp_fold_seqZ _ _ (fun _ _ s' => s' = s)); [done|done| |by intros n s' ->].
  intros i n s' Hi ->. wp_step. apply entry_at_ok; [apply pg_frame; lia|exact Hi|]. by wp_step.
Qed.
End Tables.

(** A builder that succeeded is ready for user mode. *)
Lemma builder_ready st x y z :
  pb_builder_ok st = x && pb_user_mapping_ok st && pb_tables_aligned st ->
  pb_user_mapping_ok st = y && pb_user_stack_entry_ok st && z && pb_elf64_load_ok st ->
  pb_user_image_loaded st = true -> pb_user_stack_zeroed st = true -> pb_user_code_virtual st = 0x400000 -> pb_user_stack_virtual st = 0x7FFFF000 ->
  pb_builder_ok st = true -> is_user_entry_ready st && is_user_stack_ready st = true.
Proof.
  intros E1 E2 L1 L2 V1 V2 H. pose proof H as H'. rewrite E1 in H'. apply andb_true_iff in H' as [[_ H']%andb_true_iff _]. unfold is_user_entry_ready, is_user_stack_ready.
  rewrite H, H', L1, L2, V1, V2. rewrite E2 in H'. apply andb_true_iff in H' as [[[_ ->]%andb_true_iff _]%andb_true_iff ->]. reflexivity.
Qed.

Lemma record_checks_ready present split direct kernel ident dir fb kern code present' user stack user' st :
  pb_user_image_loaded st = true -> pb_user_stack_zeroed st = true -> pb_user_code_virtual st = 0x400000 -> pb_user_stack_virtual st = 0x7FFFF000 ->
  let st' := record_checks present split direct kernel ident dir fb kern code present' user stack user' st in
  pb_builder_ok st' = true -> is_user_entry_ready st' && is_user_stack_ready st' = true.
Proof.
  intros L1 L2 V1 V2 st'. unfold record_checks in st'. cbv zeta in st'.
  match goal with st' := ?a <| pb_builder_ok := ?x && pb_user_mapping_ok _ && _ |> |- _ => apply (builder_ready st' x
    (code && negb (pb_user_image_pages st =? 0) && present') (user' && user)) end.
  all: unfold st'; destruct st; try (lazy; reflexivity); assumption.
Qed.

(** ** What the tables are to hold *)

Definition fb_requested (boot : option framebuffer_info) : bool := match boot with Some info => fi_rgb_format_ok info | None => false end.
(** The large pages of the framebuffer, if they fit into one page directory. *)
Definition fb_huge_pages (info : framebuffer_info) : Z := (fi_pitch info * fi_height info + fi_addr info mod 0x200000 + 0x1FFFFF) / 0x200000.
Definition fb_pages (boot : option framebuffer_info) : Z :=
  match boot with
  | Some info => if fi_rgb_format_ok info && (0 <? fb_huge_pages info) && (fb_huge_pages info <=? 512) then fb_huge_pages info else 0
  | None => 0
  end.
Definition fb_base (boot : option framebuffer_info) : Z := match boot with Some info => fi_addr info - fi_addr info mod 0x200000 | None => 0 end.

(** A framebuffer below 2^45. *)
Definition fb_ok (boot : option framebuffer_info) : Prop :=
  match boot with
  | Some info => 0 <= fi_addr info /\ 0 <= fi_pitch info /\ 0 <= fi_height info /\ fi_addr info + fi_pitch info * fi_height info < 2 ^ 45
  | None => True
  end.

Definition kernel_image_pages (kernel_end : Z) : Z := (kernel_end - 0x100000 + 4095) / 4096.

Lemma flags_values : X86_64_TABLE_FLAGS = 3 /\ X86_64_USER_TABLE_FLAGS = 7 /\ X86_64_HUGE_PAGE_FLAGS = 0x83 /\ X86_64_USER_CODE_FLAGS = 5 /\ X86_64_USER_STACK_FLAGS = 7.
Proof. repeat split; reflexivity. Qed.

Lemma huge_entry_ok base i : base mod 0x200000 = 0 -> 0 <= base < 2 ^ 46 -> 0 <= i < 512 -> huge_entry base i = base + 0x200000 * i + 0x83.
Proof.
  intros Hb Hr Hi. change (2 ^ 46) with 70368744177664 in Hr. unfold huge_entry, X86_64_HUGE_PAGE_SIZE.
  rewrite (u64_small (i * 0x200000)), (u64_small (base + _)) by (unfold is_u64; lia).
  change X86_64_HUGE_PAGE_FLAGS with 0x83. rewrite lor_frame_flags by (lia || (Z.div_mod_to_equations; lia)). lia.
Qed.

Lemma huge_count_ok b : 0 <= b < 2 ^ 52 -> huge_page_count_for b = (b + 0x1FFFFF) / 0x200000.
Proof.
  intros Hb. change (2 ^ 52) with 4503599627370496 in Hb. unfold huge_page_count_for, X86_64_HUGE_PAGE_SIZE.
  rewrite (u64_small (b + 0x200000)), (u64_small (_ - 1)) by (unfold is_u64; lia). replace (b + 0x200000 - 1) with (b + 0x1FFFFF) by lia.
  apply u32_small. unfold is_u32. Z.div_mod_to_equations. lia.
Qed.

Lemma align_down_huge_ok a : 0 <= a < 2 ^ 45 -> align_down_huge a = a - a mod 0x200000.
Proof.
  intros Ha. change (2 ^ 45) with 35184372088832 in Ha. unfold align_down_huge. change X86_64_HUGE_PAGE_MASK with (2 ^ 21 - 1).
  rewrite (land_high_mask64 a 21) by (unfold is_u64; lia). change (2 ^ 21) with 0x200000. Z.div_mod_to_equations. lia.
Qed.

Lemma fb_entry info i :
  fb_ok (Some info) -> 0 <= i < 512 ->
  huge_entry (fb_base (Some info)) i = fb_base (Some info) + 0x200000 * i + 0x83 /\ 0 <= huge_entry (fb_base (Some info)) i < 18446744073709551616.
Proof.
  intros (Ha & Hp & Hh & Hsum) Hi. change (2 ^ 45) with 35184372088832 in Hsum.
  assert (Hph : 0 <= fi_pitch info * fi_height info) by (apply Z.mul_nonneg_nonneg; lia).
  pose proof (Z.mod_pos_bound (fi_addr info) 0x200000 ltac:(lia)). pose proof (Z.mod_le (fi_addr info) 0x200000 Ha ltac:(lia)).
  assert (Hb : fb_base (Some info) mod 0x200000 = 0) by (unfold fb_base; Z.div_mod_to_equations; lia).
  assert (Hr : 0 <= fb_base (Some info) < 35184372088832) by (unfold fb_base; lia).
  rewrite huge_entry_ok; [split; [done|lia]|done|change (2 ^ 46) with 70368744177664; lia|done].
Qed.

Section Build.
Context (pages : list Z).
Hypothesis pages_len : length pages = 16%nat.
Hypothesis pages_ok : Forall frame_ok pages.
Hypothesis pages_nodup : NoDup pages.
#[local] Abbreviation pg := (pg pages).
#[local] Abbreviation tables_at := (tables_at pages).

(** The builder knows the frames. *)
Record names (st : x86_64_paging_builder_state) : Prop := {
  na_0 : pb_pml4_table st = pg 0; na_1 : pb_identity_pdpt_table st = pg 1; na_2 : pb_identity_pd_table st = pg 2;
  na_3 : pb_direct_pdpt_table st = pg 3; na_4 : pb_direct_pd_table st = pg 4; na_5 : pb_framebuffer_pdpt_table st = pg 5;
  na_6 : pb_framebuffer_pd_table st = pg 6; na_7 : pb_kernel_pdpt_table st = pg 7; na_8 : pb_kernel_pd_table st = pg 8;
  na_9 : pb_kernel_pt_table st = pg 9; na_10 : pb_user_code_pt_table st = pg 10; na_11 : pb_user_stack_pd_table st = pg 11;
  na_12 : pb_user_stack_pt_table st = pg 12; na_code : pb_user_code_pages st = [pg 13; pg 14]; na_15 : pb_user_stack_page st = pg 15;
  na_virtual : pb_user_stack_virtual st = 0x7FFFF000; na_code_virtual : pb_user_code_virtual st = 0x400000; na_pmm : pb_pmm_backed st = true; na_all : pb_allocation_ok st = true
}.

Lemma frames_names st st' : builder_frames st' = builder_frames st -> names st -> names st' /\ pb_framebuffer_requested st' = pb_framebuffer_requested st.
Proof using.
  intros E []. unfold builder_frames in E. injection E as E0 E1 E2 E3 E4 E5 E6 E7 E8 E9 E10 E11 E12 E15 Ew Ec Ev Ep Ea Ef.
  split; [constructor; congruence|done].
Qed.

Lemma entry_range t f : (t < 16)%nat -> 0 <= f < 4096 -> 0 <= pg t + f < 18446744073709551616.
Proof using pages_len pages_ok. intros Ht Hf. pose proof (pg_frame pages pages_len pages_ok t Ht) as H. unfold frame_ok in H. lia. Qed.

Lemma lor_pg t f : (t < 16)%nat -> 0 <= f < 4096 -> Z.lor (pg t) f = pg t + f.
Proof using pages_len pages_ok. intros Ht Hf. apply lor_frame_flags; [|done]. apply (pg_frame pages pages_len pages_ok t Ht). Qed.

(** One assignment of [link_tables]. *)
Lemma link_ok s0 T t i u f s (Q : unit -> process64 -> Prop) :
  tables_at s0 T s -> (t < 13)%nat -> 0 <= i < 512 -> (u < 16)%nat -> 0 <= f < 4096 ->
  (forall s', tables_at s0 (tput t i (pg u + f) T) s' -> Q tt s') -> wp (entry_put (pg t) i (Z.lor (pg u) f)) Q s.
Proof using pages_len pages_ok pages_nodup.
  intros Hs Ht Hi Hu Hf HQ. rewrite lor_pg by done. eapply tput_ok; [done|done|done|exact Hs|done|done|by apply entry_range|exact HQ].
Qed.

Definition fb_tables (boot : option framebuffer_info) (T : table_fun) : table_fun :=
  if 0 <? fb_pages boot then tfill 6 (fb_pages boot) (fun i => fb_base boot + 0x200000 * i + 0x83) (tput 5 0 (pg 6 + 3) T) else T.

Definition loaded_fields (st : x86_64_paging_builder_state) : bool * bool := (pb_user_image_loaded st, pb_user_stack_zeroed st).

Lemma build_framebuffer_ok boot st s0 T s (Q : x86_64_paging_builder_state -> process64 -> Prop) :
  fb_ok boot -> names st -> pb_framebuffer_requested st = false -> tables_at s0 T s ->
  (forall st' s', names st' -> pb_framebuffer_requested st' = fb_requested boot -> pb_user_image_pages st' = pb_user_image_pages st ->
     pb_elf64_load_ok st' = pb_elf64_load_ok st -> loaded_fields st' = loaded_fields st -> tables_at s0 (fb_tables boot T) s' -> Q st' s') ->
  wp (build_framebuffer boot st) Q s.
Proof using pages_len pages_ok pages_nodup.
  intros Hfb Hn Hreq Hs HQ. unfold build_framebuffer, fb_requested, fb_tables, fb_pages in *. cbv zeta.
  destruct boot as [info|]; [|apply wp_ret; apply HQ; [by destruct Hn|done|done|done|done|exact Hs]].
  destruct (fi_rgb_format_ok info) eqn:Hrgb; [|apply wp_ret; apply HQ; [by destruct Hn|done|done|done|done|exact Hs]].
  destruct Hfb as (Ha & Hp & Hh & Hsum). change (2 ^ 45) with 35184372088832 in Hsum.
  assert (Hph : 0 <= fi_pitch info * fi_height info) by (apply Z.mul_nonneg_nonneg; lia).
  assert (Hoff : Z.land (fi_addr info) X86_64_HUGE_PAGE_MASK = fi_addr info mod 0x200000) by (apply (land_low_mask _ 21); lia).
  pose proof (Z.mod_pos_bound (fi_addr info) 0x200000 ltac:(lia)) as Hmod.
  rewrite Hoff. rewrite (u64_small (fi_pitch info * fi_height info)), (u64_small (_ + fi_addr info mod _)) by (unfold is_u64; lia).
  rewrite huge_count_ok by (change (2 ^ 52) with 4503599627370496; lia). fold (fb_huge_pages info).
  assert (Hbase : align_down_huge (fi_addr info) = fb_base (Some info)).
  { unfold fb_base. apply align_down_huge_ok. lia. }
  rewrite Hbase. set (n := fb_huge_pages info) in *.
  change (pd_index_for X86_64_FRAMEBUFFER_VIRTUAL_BASE) with 0. change (pdpt_index_for X86_64_FRAMEBUFFER_VIRTUAL_BASE) with 0.
  assert (Hn0 : 0 <= n) by (unfold n, fb_huge_pages; Z.div_mod_to_equations; lia).
  assert (Hfits : framebuffer_mapping_fits 0 n = (0 <? n) && (n <=? 512)).
  { unfold framebuffer_mapping_fits, X86_64_PAGING_BUILDER_ENTRIES. change (512 [-] 0) with 512. change (0 <? 512) with true. rewrite andb_true_r.
    destruct (Z.eqb_spec n 0), (Z.ltb_spec 0 n), (Z.leb_spec n 512); try reflexivity; lia. }
  rewrite Hfits. cbn [andb].
  match goal with |- wp (_ ;;; mret_ ?t) _ _ => set (st' := t) end.
  assert (E5 : pb_framebuffer_pdpt_table st' = pg 5) by (exact (na_5 _ Hn)). assert (E6 : pb_framebuffer_pd_table st' = pg 6) by (exact (na_6 _ Hn)).
  assert (Ebase : pb_framebuffer_physical_base st' = fb_base (Some info)) by reflexivity.
  assert (Hn' : names st') by (by destruct Hn). assert (Er : pb_framebuffer_requested st' = true) by reflexivity.
  assert (Ei : pb_user_image_pages st' = pb_user_image_pages st /\ pb_elf64_load_ok st' = pb_elf64_load_ok st /\ loaded_fields st' = loaded_fields st) by (repeat split; reflexivity).
  clearbody st'. destruct Ei as (Ei & El & Ez). wp_step.
  cbn [andb] in HQ. destruct ((0 <? n) && (n <=? 512)) eqn:Hb; cbn [mwhen].
  - apply andb_true_iff in Hb as [B1%Z.ltb_lt B2%Z.leb_le]. rewrite (proj2 (Z.ltb_lt 0 n)) in HQ by lia.
    rewrite E5, E6, Ebase. wp_step. eapply link_ok; [exact Hs|lia|lia|lia|change X86_64_TABLE_FLAGS with 3; lia|]. change X86_64_TABLE_FLAGS with 3.
    intros s1 Hs1. eapply fill_ok; [done|done|done|exact Hs1|lia|lia| |].
    + intros i Hi. apply fb_entry; [by repeat split|lia].
    + intros s2 Hs2. wp_step. apply HQ; [done|done|done|done|done|]. eapply tables_at_ext; [|exact Hs2]. intros t i Hi. unfold tfill.
      destruct ((t =? 6)%nat && _) eqn:E; [|reflexivity]. apply fb_entry; [by repeat split|lia].
  - wp_step. wp_step. apply HQ; done.
Qed.

(** All the tables; [n] code pages and [kp] pages of the kernel image. *)
Definition boot_tables (n kp : Z) (boot : option framebuffer_info) : table_fun :=
  tput 0 511 (pg 7 + 3) (tput 0 288 (pg 5 + 3) (tput 0 256 (pg 3 + 3) (tput 0 0 (pg 1 + 7) (tput 1 1 (pg 11 + 7) (tput 11 511 (pg 12 + 7)
    (tput 12 511 (pg 15 + 7) (tput 2 2 (pg 10 + 7) (tfill 10 n (fun i => (if i =? 0 then pg 13 else pg 14) + 5) (tput 8 0 (pg 9 + 3)
      (tput 7 510 (pg 8 + 3) (tput 3 0 (pg 4 + 3) (tput 1 0 (pg 2 + 7) (tfill 9 kp (fun i => 0x100000 + 4096 * i + 3) (fb_tables boot
        (tfill 4 512 (fun i => 0x200000 * i + 0x83) (tfill 2 512 (fun i => 0x200000 * i + 0x83) (fun _ _ => 0))))))))))))))))).

Lemma fb_tables_other boot T t i : t <> 5%nat -> t <> 6%nat -> fb_tables boot T t i = T t i.
Proof using.
  intros H5 H6. unfold fb_tables. destruct (0 <? fb_pages boot); [|done]. unfold tfill, tput.
  by rewrite (proj2 (Nat.eqb_neq t 6)), (proj2 (Nat.eqb_neq t 5)) by done.
Qed.

(** The plan of a kernel at 1 MiB. *)
Record plan_ok (plan : x86_64_paging_plan) : Prop := {
  po_identity : pl_identity_pml4_index plan = 0;
  po_direct : pl_direct_map_pml4_index plan = 256;
  po_kernel : pl_kernel_pml4_index plan = 511;
  po_start : pl_kernel_virtual_start plan = 0xFFFFFFFF80000000;
  po_window : pl_identity_window_bytes plan = 0x40000000;
  po_bytes : 0x40000000 <= pl_direct_map_bytes plan < 2 ^ 52
}.

Ltac link := wp_step; eapply link_ok; [eassumption|lia|lia|lia|lia|]; let s' := fresh "s" in let H := fresh "Hs" in intros s' H.

Lemma link_tables_ok plan st s0 n kp boot s (Q : unit -> process64 -> Prop) :
  plan_ok plan -> names st -> pb_user_image_pages st = n -> 0 <= n <= 2 ->
  tables_at s0 (tfill 9 kp (fun i => 0x100000 + 4096 * i + 3) (fb_tables boot
        (tfill 4 512 (fun i => 0x200000 * i + 0x83) (tfill 2 512 (fun i => 0x200000 * i + 0x83) (fun _ _ => 0))))) s ->
  (forall s', tables_at s0 (boot_tables n kp boot) s' -> Q tt s') -> wp (link_tables plan st) Q s.
Proof using pages_len pages_ok pages_nodup.
  intros [P1 P2 P3 P4 _ _] [N0 N1 N2 N3 N4 N5 N6 N7 N8 N9 N10 N11 N12 Nc N15 Nv _ _] Hn Hr Hs HQ. unfold link_tables. cbv zeta.
  rewrite P1, P2, P3, P4, Hn, N0, N1, N2, N3, N4, N5, N7, N8, N9, N10, N11, N12, Nc, N15, Nv.
  change (pdpt_index_for 0xFFFFFFFF80000000) with 510. change (pd_index_for 0xFFFFFFFF80000000) with 0. change (pd_index_for X86_64_USER_CODE_BASE) with 2.
  change (pt_index_for X86_64_USER_CODE_BASE) with 0. change (pt_index_for 0x7FFFF000) with 511. change (pd_index_for 0x7FFFF000) with 511.
  change (pdpt_index_for 0x7FFFF000) with 1. change (pml4_index_for X86_64_FRAMEBUFFER_VIRTUAL_BASE) with 288.
  change X86_64_TABLE_FLAGS with 3. change X86_64_USER_TABLE_FLAGS with 7. change X86_64_USER_CODE_FLAGS with 5. change X86_64_USER_STACK_FLAGS with 7.
  do 4 link. wp_step. eapply (tfill_loop _ pages_len pages_ok pages_nodup _ _ 10 n (fun i => (if i =? 0 then pg 13 else pg 14) + 5)); [eassumption|lia|lia| | |].
  { intros i s' R Hi H. wp_step. rewrite Z.add_0_l, u32_small by (unfold is_u32; lia).
    assert (i = 0 \/ i = 1) as [-> | ->] by lia; (eapply wp_array_at; [reflexivity|]; by rewrite lor_pg by lia). }
  { intros i Hi. destruct (i =? 0); apply entry_range; lia. }
  intros s5 Hs5. do 7 link. eapply link_ok; [eassumption|lia|lia|lia|lia|]. exact HQ.
Qed.

(** Entries of the tables, and the flags of entries. *)
Lemma present_pg t f : (t < 16)%nat -> 0 <= f < 4096 -> entry_is_present (pg t + f) = negb (Z.land f 1 =? 0).
Proof using pages_len pages_ok. intros Ht Hf. unfold entry_is_present, X86_64_PAGE_PRESENT. rewrite land_frame_flags by (apply (pg_frame _ pages_len pages_ok t Ht) || lia). done. Qed.

Lemma user_pg t f : (t < 16)%nat -> 0 <= f < 4096 -> entry_has_user (pg t + f) = negb (Z.land f 4 =? 0).
Proof using pages_len pages_ok. intros Ht Hf. unfold entry_has_user, X86_64_PAGE_USER. rewrite land_frame_flags by (apply (pg_frame _ pages_len pages_ok t Ht) || lia). done. Qed.

Lemma aligned_pg t : (t < 16)%nat -> is_page_aligned64 (pg t) = true.
Proof using pages_len pages_ok.
  intros Ht. unfold is_page_aligned64. change X86_64_PAGE_MASK with (2 ^ 12 - 1). rewrite land_low_mask by lia. apply Z.eqb_eq.
  apply (pg_frame _ pages_len pages_ok t Ht).
Qed.

Lemma boot_tables_fb n kp boot : entry_is_present (boot_tables n kp boot 5%nat 0) && entry_is_present (boot_tables n kp boot 6%nat 0) = (0 <? fb_pages boot).
Proof using pages_len pages_ok.
  set (T := tfill 4 512 (fun i => 0x200000 * i + 0x83) (tfill 2 512 (fun i => 0x200000 * i + 0x83) (fun _ _ => 0))).
  change (entry_is_present (fb_tables boot T 5%nat 0) && entry_is_present (fb_tables boot T 6%nat 0) = (0 <? fb_pages boot)).
  unfold fb_tables. destruct (0 <? fb_pages boot) eqn:E; [|reflexivity].
  change (tfill 6 (fb_pages boot) (fun i => fb_base boot + 0x200000 * i + 0x83) (tput 5 0 (pg 6 + 3) T) 5%nat 0) with (pg 6 + 3).
  rewrite present_pg by lia. unfold tfill. cbn [Nat.eqb andb]. rewrite E. change (0 <=? 0) with true. cbn [andb].
  rewrite Z.mul_0_r, Z.add_0_r. unfold fb_pages in E. destruct boot as [info|]; [|done]. unfold entry_is_present, X86_64_PAGE_PRESENT, fb_base.
  rewrite land_frame_flags; [reflexivity|Z.div_mod_to_equations; lia|lia|lia].
Qed.

(** Reading the tables back. *)
Section Check.
Context (n kp : Z) (boot : option framebuffer_info) (s0 s : process64).
Hypothesis n_ok : 0 <= n <= 2.
Hypothesis kp_ok : 0 < kp <= 512.
Hypothesis held : tables_at s0 (boot_tables n kp boot) s.

#[local] Abbreviation present_all := (forallb (fun e : nat * Z => entry_is_present (boot_tables n kp boot e.1 e.2))).
#[local] Abbreviation user_all := (forallb (fun e : nat * Z => entry_has_user (boot_tables n kp boot e.1 e.2))).

Lemma low_entries : boot_tables n kp boot 2%nat 0 = 0x83 /\ boot_tables n kp boot 4%nat 0 = 0x83 /\ boot_tables n kp boot 9%nat 0 = 0x100003.
Proof using pages_len kp_ok.
  set (T := tfill 4 512 (fun i => 0x200000 * i + 0x83) (tfill 2 512 (fun i => 0x200000 * i + 0x83) (fun _ _ => 0))).
  split; [|split].
  - change (fb_tables boot T 2%nat 0 = 0x83). rewrite fb_tables_other by lia. reflexivity.
  - change (fb_tables boot T 4%nat 0 = 0x83). rewrite fb_tables_other by lia. reflexivity.
  - change (tfill 9 kp (fun i => 0x100000 + 4096 * i + 3) (fb_tables boot T) 9%nat 0 = 0x100003). unfold tfill. cbn [Nat.eqb andb].
    rewrite (proj2 (Z.ltb_lt 0 kp)) by lia. reflexivity.
Qed.

(** The entries that the code tests. *)
Lemma tested_entries :
  present_all [(0%nat, 0); (1%nat, 0); (2%nat, 0)] = true /\ present_all [(0%nat, 256); (3%nat, 0); (4%nat, 0)] = true /\
  present_all [(0%nat, 288); (5%nat, 0); (6%nat, 0)] = (0 <? fb_pages boot) /\
  present_all [(0%nat, 511); (7%nat, 510); (8%nat, 0); (9%nat, 0)] = true /\ present_all [(0%nat, 0); (1%nat, 0); (2%nat, 2)] = true /\
  present_all [(0%nat, 0); (1%nat, 1); (11%nat, 511); (12%nat, 511)] = true /\
  user_all [(0%nat, 0); (1%nat, 0); (2%nat, 2); (11%nat, 511); (12%nat, 511)] = true.
Proof using pages_len pages_ok kp_ok.
  destruct low_entries as (L2 & L4 & L9). cbn [forallb fst snd]. rewrite L2, L4, L9, <- (boot_tables_fb n kp boot).
  change (boot_tables n kp boot 0%nat 0) with (pg 1 + 7). change (boot_tables n kp boot 0%nat 256) with (pg 3 + 3).
  change (boot_tables n kp boot 0%nat 288) with (pg 5 + 3). change (boot_tables n kp boot 0%nat 511) with (pg 7 + 3).
  change (boot_tables n kp boot 1%nat 0) with (pg 2 + 7). change (boot_tables n kp boot 1%nat 1) with (pg 11 + 7).
  change (boot_tables n kp boot 2%nat 2) with (pg 10 + 7). change (boot_tables n kp boot 3%nat 0) with (pg 4 + 3).
  change (boot_tables n kp boot 7%nat 510) with (pg 8 + 3). change (boot_tables n kp boot 8%nat 0) with (pg 9 + 3).
  change (boot_tables n kp boot 11%nat 511) with (pg 12 + 7). change (boot_tables n kp boot 12%nat 511) with (pg 15 + 7).
  rewrite !present_pg, !user_pg by lia. repeat split; try reflexivity. cbn [negb Z.land Pos.land Z.eqb andb]. by rewrite andb_true_r.
Qed.

Lemma tested_code_entries : let cs := (fun i : Z => (10%nat, i)) <$> seqZ 0 n in present_all cs = true /\ user_all cs = true.
Proof using pages_len pages_ok n_ok.
  intros cs. assert (H : forall i, 0 <= i < n -> boot_tables n kp boot 10%nat i = (if i =? 0 then pg 13 else pg 14) + 5).
  { intros i Hi. unfold boot_tables, tput, tfill at 1. cbn [Nat.eqb andb]. rewrite (proj2 (Z.leb_le 0 i)), (proj2 (Z.ltb_lt i n)) by lia. done. }
  assert (Hb : forall i, 0 <= i < n -> entry_is_present (boot_tables n kp boot 10%nat i) = true /\ entry_has_user (boot_tables n kp boot 10%nat i) = true).
  { intros i Hi. rewrite H by done. destruct (i =? 0); rewrite present_pg, user_pg by lia; done. }
  unfold cs. split; apply forallb_forall; intros [t i] Hin; apply list_elem_of_In in Hin;
    apply list_elem_of_fmap in Hin as (j & [= -> ->] & Hj%elem_of_seqZ); cbn [fst snd]; apply Hb; lia.
Qed.

(** Each of the lists of entries that the code tests. *)
Ltac read l := wp_step; eapply (entries_have_ok _ pages_len pages_ok s0 _ s _ l); [exact held|repeat first [apply Forall_nil_2 | apply Forall_cons_2; [cbn; lia|]]|].

Lemma check_tables_ok plan st identity direct fit (Q : x86_64_paging_builder_state -> process64 -> Prop) :
  plan_ok plan -> names st -> pb_user_image_pages st = n -> (pb_elf64_load_ok st = true -> 0 < n) -> pb_framebuffer_requested st = fb_requested boot ->
  (forall st', names st' -> pb_builder_ok st' = pb_elf64_load_ok st && fit && (negb (fb_requested boot) || (0 <? fb_pages boot)) ->
     (loaded_fields st = (true, true) -> pb_builder_ok st' = true -> is_user_entry_ready st' && is_user_stack_ready st' = true) -> Q st' s) ->
  wp (check_tables plan identity direct kp fit st) Q s.
Proof using pages_len pages_ok n_ok kp_ok held.
  intros [P1 P2 P3 P4 _ _] Hnames Hn Hload Hreq HQ. pose proof Hnames as [N0 N1 N2 N3 N4 N5 N6 N7 N8 N9 N10 N11 N12 Nc N15 Nv Nw Np Na].
  unfold check_tables. cbv zeta. wp_step. rewrite N0. eapply (count_present_ok _ pages_len pages_ok s0); [exact held|]. intros present.
  rewrite P1, P2, P3, P4, Hn, N1, N2, N3, N4, N5, N6, N7, N8, N9, N10, N11, N12, Nv.
  change (pdpt_index_for 0xFFFFFFFF80000000) with 510. change (pd_index_for 0xFFFFFFFF80000000) with 0. change (pml4_index_for X86_64_USER_CODE_BASE) with 0.
  change (pdpt_index_for X86_64_USER_CODE_BASE) with 0. change (pd_index_for X86_64_USER_CODE_BASE) with 2.
  change (pt_index_for X86_64_USER_CODE_BASE) with 0. change (pt_index_for 0x7FFFF000) with 511. change (pd_index_for 0x7FFFF000) with 511.
  change (pdpt_index_for 0x7FFFF000) with 1. change (pml4_index_for 0x7FFFF000) with 0. change (pml4_index_for X86_64_FRAMEBUFFER_VIRTUAL_BASE) with 288.
  change (pdpt_index_for X86_64_FRAMEBUFFER_VIRTUAL_BASE) with 0. change (pd_index_for X86_64_FRAMEBUFFER_VIRTUAL_BASE) with 0.
  read [(0%nat, 0); (1%nat, 0); (2%nat, 0)]. read [(0%nat, 256); (3%nat, 0); (4%nat, 0)]. read [(0%nat, 288); (5%nat, 0); (6%nat, 0)].
  read [(0%nat, 511); (7%nat, 510); (8%nat, 0); (9%nat, 0)].
  set (cs := (fun i : Z => (10%nat, i)) <$> seqZ 0 n).
  assert (Hcs : Forall (fun e => (e.1 < 13)%nat /\ 0 <= e.2 < 512) cs /\
    (fun i : Z => (pg 10, 0 [+] i)) <$> seqZ 0 n = (fun e : nat * Z => (pg e.1, e.2)) <$> cs).
  { unfold cs. assert (n = 0 \/ n = 1 \/ n = 2) as [-> | [-> | ->]] by lia; (split; [repeat first [apply Forall_nil_2 | apply Forall_cons_2; [cbn; lia|]]|reflexivity]). }
  destruct Hcs as [Hcs Ecs]. rewrite Ecs.
  wp_step. eapply (entries_have_ok _ pages_len pages_ok s0 _ s _ cs); [exact held|done|].
  wp_step. eapply (entries_have_ok _ pages_len pages_ok s0 _ s _ cs); [exact held|done|].
  read [(0%nat, 0); (1%nat, 0); (2%nat, 2)]. read [(0%nat, 0); (1%nat, 1); (11%nat, 511); (12%nat, 511)].
  read [(0%nat, 0); (1%nat, 0); (2%nat, 2); (11%nat, 511); (12%nat, 511)]. wp_step.
  apply HQ; [by destruct Hnames| |].
  2:{ intros [= L1 L2] Hb. apply record_checks_ready; [exact L1|exact L2|exact Nw|exact Nv|exact Hb]. }
  clear HQ.
  destruct tested_entries as (-> & -> & -> & -> & -> & -> & ->). destruct tested_code_entries as [C1 C2]. fold cs in C1, C2. rewrite C1, C2.
  assert (Hal : tables_are_aligned st = true).
  { unfold tables_are_aligned. rewrite N0, N1, N2, N3, N4, N5, N6, N7, N8, N9, N10, N11, N12, Nc, N15. cbn [forallb]. by rewrite !aligned_pg by lia. }
  change (pb_pmm_backed st && pb_allocation_ok st && true && true && (negb (pb_framebuffer_requested st) || pb_framebuffer_requested st && (0 <? fb_pages boot)) && (true && fit) &&
    (true && negb (pb_user_image_pages st =? 0) && true && true && (true && true) && pb_elf64_load_ok st) && tables_are_aligned st =
    pb_elf64_load_ok st && fit && (negb (fb_requested boot) || (0 <? fb_pages boot))).
  rewrite Np, Na, Hal, Hreq, Hn. cbn [andb]. rewrite !andb_true_r. destruct (pb_elf64_load_ok st); [|by rewrite !andb_false_r].
  rewrite (proj2 (Z.eqb_neq n 0)) by (pose proof (Hload eq_refl); lia). cbn [negb andb]. destruct (fb_requested boot), (0 <? fb_pages boot), fit; reflexivity.
Qed.

End Check.
End Build.

(** ** Building the tables *)

Definition boot_layout (kernel_end : Z) : x86_64_memory_layout := x86_64_memory_layout_init 0x100000 kernel_end.

Lemma boot_plan_ok kernel_end pp :
  0 <= pp_reserved_below pp -> 0 <= pp_managed_bytes pp -> pp_reserved_below pp + pp_managed_bytes pp < 2 ^ 52 ->
  plan_ok (x86_64_paging_plan_init (boot_layout kernel_end) pp).
Proof.
  intros H1 H2 H3. constructor; try reflexivity. change (2 ^ 52) with 4503599627370496 in *. cbn [x86_64_paging_plan_init pl_direct_map_bytes].
  change (ml_bootstrap_identity_map_bytes (boot_layout kernel_end)) with 0x40000000. rewrite u64_small by (unfold is_u64; lia).
  destruct (Z.ltb_spec (pp_reserved_below pp + pp_managed_bytes pp) 0x40000000); lia.
Qed.

Lemma init_pages_bound d : 0 <= init_pages d <= 2 /\ (is_Some (init_program d) -> 0 < init_pages d).
Proof.
  unfold init_pages. destruct (init_program d) as [p|] eqn:E; [|split; [lia|by intros []]]. unfold init_program in E.
  destruct (init_header d) as [q|] eqn:Eh; [|done]. destruct (init_segment_ok d q) eqn:Ho; [|done]. injection E as ->.
  unfold init_segment_ok in Ho. rewrite !andb_true_iff, !Z.leb_le, Z.ltb_lt in Ho. split; [|intros _]; Z.div_mod_to_equations; lia.
Qed.

Lemma tfill_ext t n f g T U t' i :
  (forall j, 0 <= j < n -> f j = g j) -> T t' i = U t' i -> tfill t n f T t' i = tfill t n g U t' i.
Proof.
  intros Hfg HTU. unfold tfill. destruct ((t' =? t)%nat && ((0 <=? i) && (i <? n))) eqn:E; [|done]. apply Hfg.
  rewrite !andb_true_iff, Z.leb_le, Z.ltb_lt in E. lia.
Qed.

Lemma fb_tables_ext pages boot T U t i : T t i = U t i -> fb_tables pages boot T t i = fb_tables pages boot U t i.
Proof. intros E. unfold fb_tables. destruct (0 <? fb_pages boot); [|done]. apply tfill_ext; [done|]. unfold tput. by destruct (_ && _). Qed.

Section Builder.
Context (pages : list Z).
Hypothesis pages_len : length pages = 16%nat.
Hypothesis pages_ok : Forall frame_ok pages.
Hypothesis pages_nodup : NoDup pages.
#[local] Abbreviation pg := (pg pages).
Context (d : list Z) (kernel_end : Z) (boot : option framebuffer_info) (pp : x86_64_pmm_plan).
Hypothesis bytes : is_bytes d.
Hypothesis small : Z.of_nat (length d) <= 0xFFFFFFFF.
Hypothesis kernel : 0x100000 < kernel_end < 2 ^ 40.
Hypothesis framebuffer : fb_ok boot.
Hypothesis memory : 0 <= pp_reserved_below pp /\ 0 <= pp_managed_bytes pp /\ pp_reserved_below pp + pp_managed_bytes pp < 2 ^ 52.

(** What the builder leaves in its frames. *)
Record boot_paging (st : x86_64_paging_builder_state) (s s' : process64) : Prop := {
  bp_names : names pages st;
  bp_ok : pb_builder_ok st = bool_decide (is_Some (init_program d)) && (kernel_image_pages kernel_end <=? 512) &&
    (negb (fb_requested boot) || (0 <? fb_pages boot));
  bp_ready : pb_builder_ok st = true -> is_user_entry_ready st && is_user_stack_ready st = true;
  bp_tables : forall t i, (t < 13)%nat -> 0 <= i < 512 ->
    word (pr_mem s') (pg t) i = boot_tables pages (init_pages d) (Z.min 512 (kernel_image_pages kernel_end)) boot t i;
  bp_code : forall x, 0 <= x < 8192 -> load8 (pr_mem s') (code_address (pg 13) (pg 14) x) = init_byte d x;
  bp_stack : forall a, in_page64 (pg 15) a -> load8 (pr_mem s') a = 0;
  bp_outside : same_outside pages (pr_mem s) (pr_mem s');
  bp_rest : s' = s <| pr_mem := pr_mem s' |>
}.

Lemma record_frames_names free st : names pages (record_frames pages free st) /\ pb_framebuffer_requested (record_frames pages free st) = pb_framebuffer_requested st.
Proof using pages_len.
  split; [|reflexivity]. constructor; try reflexivity. unfold record_frames. change ((Z.of_nat (length pages) =? 16) = true). by rewrite pages_len.
Qed.

Lemma build_all_ok free st0 m0 s (Q : x86_64_paging_builder_state -> process64 -> Prop) :
  cleared pages m0 (pr_mem s) -> pb_elf64_program_header_ok st0 = false /\ pb_user_image_loaded st0 = false /\ pb_user_image_pages st0 = 0 ->
  pb_framebuffer_requested st0 = false ->
  (forall st s', boot_paging st s s' -> Q st s') ->
  wp (build_tables d (boot_layout kernel_end) (x86_64_paging_plan_init (boot_layout kernel_end) pp) boot (record_frames pages free st0)) Q s.
Proof using All.
  intros Hcl Hfresh Hreq0 HQ. pose proof (boot_plan_ok kernel_end pp) as Hplan. destruct memory as (M1 & M2 & M3). specialize (Hplan M1 M2 M3).
  set (plan := x86_64_paging_plan_init (boot_layout kernel_end) pp) in *.
  destruct (record_frames_names free st0) as [Hn Hrq]. set (st := record_frames pages free st0) in *.
  assert (Hfr : pb_elf64_program_header_ok st = false /\ pb_user_image_loaded st = false /\ pb_user_image_pages st = 0) by exact Hfresh.
  assert (Hin : forall t, (t < 16)%nat -> pg t ∈ pages) by (intros t Ht; eapply list_elem_of_lookup_2, pg_lookup; done).
  assert (Hf : forall t, (t < 16)%nat -> frame_ok (pg t)) by (intros t Ht; by apply pg_frame).
  assert (Hzero : forall t a, (t < 16)%nat -> in_page64 (pg t) a -> load8 (pr_mem s) a = 0) by (intros t a Ht Ha; eapply cleared_byte; [exact Hcl|by apply Hin|done]).
  assert (Hne : pg 13 <> pg 14) by (intros E; apply pg_inj in E; lia || done).
  pose proof (Hf 13%nat ltac:(lia)) as F13. pose proof (Hf 14%nat ltac:(lia)) as F14.
  unfold build_tables. wp_step. clearbody st. pose proof (na_code _ _ Hn) as Nc. pose proof (na_15 _ _ Hn) as N15.
  apply (load_embedded_ok d (pg 13) (pg 14) st s bytes small).
  { exact F13. } { exact F14. } { exact Hne. } { exact Nc. }
  { intros x Hx. replace (if x <? 0 then _ else _) with 0 by (by destruct (x <? 0)). destruct (code_address_in (pg 13) (pg 14) F13 F14 Hne x Hx) as (c & Hc & Hcin).
    rewrite !elem_of_cons, elem_of_nil in Hc. destruct Hc as [->|[->|[]]]; [by apply (Hzero 13%nat _ ltac:(lia)) in Hcin|by apply (Hzero 14%nat _ ltac:(lia)) in Hcin]. }
  { rewrite N15. apply Hf; lia. } { rewrite N15. split; intros E; apply pg_inj in E; lia || done. }
  { rewrite N15. intros a. apply Hzero. lia. } { exact Hfr. }
  intros st1 m1 [G1 G2 G3 G4 G5 G6]. destruct (frames_names pages st st1 G1 Hn) as [Hn1 Hrq1]. rewrite Hrq, Hreq0 in Hrq1.
  set (s1 := s <| pr_mem := m1 |>). destruct (init_pages_bound d) as [Hb1 Hb2].
  assert (Hk : 0 < kernel_image_pages kernel_end) by (unfold kernel_image_pages; Z.div_mod_to_equations; lia).
  assert (Hs1 : tables_at pages s1 (fun _ _ => 0) s1).
  { constructor; [|done|by destruct s]. intros t i Ht Hi. change (word m1 (pg t) i = 0). rewrite (same_outside_word [pg 13; pg 14] (pr_mem s) m1); [|done|apply Hf; lia| |by rewrite !Forall_cons|done].
    - eapply cleared_word; [exact Hcl|apply Hin; lia|done].
    - rewrite !elem_of_cons, elem_of_nil. intros [E|[E|[]]]; apply pg_inj in E; lia || done. }
  rewrite (na_2 _ _ Hn1), (na_4 _ _ Hn1), (po_window _ Hplan). destruct (po_bytes _ Hplan) as [B1 B2].
  change (clamp_entries (huge_page_count_for 0x40000000)) with 512.
  assert (Hdirect : clamp_entries (huge_page_count_for (pl_direct_map_bytes plan)) = 512).
  { rewrite huge_count_ok by lia. unfold clamp_entries, X86_64_PAGING_BUILDER_ENTRIES.
    destruct (Z.ltb_spec 512 ((pl_direct_map_bytes plan + 0x1FFFFF) / 0x200000)); [done|]. Z.div_mod_to_equations. lia. }
  rewrite Hdirect. assert (Hhuge : forall i, 0 <= i < 512 -> huge_entry 0 i = 0x200000 * i + 0x83) by (intros i Hi; rewrite huge_entry_ok; lia || done).
  wp_step. eapply fill_ok; [done|done|done|exact Hs1|lia|lia|intros i Hi; rewrite Hhuge by done; lia|]. intros s2 Hs2.
  wp_step. eapply fill_ok; [done|done|done|exact Hs2|lia|lia|intros i Hi; rewrite Hhuge by done; lia|]. intros s3 Hs3.
  wp_step. eapply (build_framebuffer_ok pages); [done|done|done|done|exact Hn1|exact Hrq1|exact Hs3|]. intros st2 s4 Hn2 Hrq2 Himg Hload Hfields Hs4.
  assert (Hsize : align_page_count (ml_kernel_size_bytes (boot_layout kernel_end)) = kernel_image_pages kernel_end).
  { change (ml_kernel_size_bytes (boot_layout kernel_end)) with (kernel_end [--] 0x100000). change (2 ^ 40) with 1099511627776 in kernel.
    unfold align_page_count, X86_64_PAGE_MASK, X86_64_PAGE_SIZE. change (4096 - 1) with 4095.
    rewrite (u64_small (kernel_end - _)), u64_small by (unfold is_u64; lia). apply u32_small. unfold is_u32. clear -kernel. unfold kernel_image_pages. Z.div_mod_to_equations. lia. }
  rewrite Hsize. assert (Hclamp : clamp_entries (kernel_image_pages kernel_end) = Z.min 512 (kernel_image_pages kernel_end)).
  { unfold clamp_entries, X86_64_PAGING_BUILDER_ENTRIES. destruct (Z.ltb_spec 512 (kernel_image_pages kernel_end)); lia. }
  rewrite Hclamp. set (kp := Z.min 512 (kernel_image_pages kernel_end)) in *. rewrite (na_9 _ _ Hn2).
  assert (Hkentry : forall i, 0 <= i < 512 -> Z.lor (ml_kernel_start (boot_layout kernel_end) [++] i [**] X86_64_PAGE_SIZE) X86_64_TABLE_FLAGS = 0x100000 + 4096 * i + 3).
  { intros i Hi. change (ml_kernel_start (boot_layout kernel_end)) with 0x100000. unfold X86_64_PAGE_SIZE. change X86_64_TABLE_FLAGS with 3.
    rewrite (u64_small (i * 4096)), u64_small by (unfold is_u64; lia). rewrite lor_frame_flags by (lia || (Z.div_mod_to_equations; lia)). lia. }
  wp_step. eapply fill_ok; [done|done|done|exact Hs4|lia|lia|intros i Hi; rewrite Hkentry by lia; lia|]. intros s5 Hs5.
  wp_step. eapply (link_tables_ok pages); [done|done|done|exact Hplan|exact Hn2|rewrite Himg; exact G3|exact Hb1| |].
  { eapply tables_at_ext; [|exact Hs5]. intros t i Hi. apply tfill_ext; [intros j Hj; apply Hkentry; lia|]. apply fb_tables_ext.
    apply tfill_ext; [intros j Hj; by apply Hhuge|]. by apply tfill_ext; [intros j Hj; apply Hhuge|]. }
  intros s6 Hs6. eapply (check_tables_ok pages); [done|done|exact Hb1|lia|exact Hs6|exact Hplan|exact Hn2|rewrite Himg; exact G3| |exact Hrq2|].
  { rewrite Hload, G2. intros H. apply Hb2. by apply bool_decide_eq_true in H. }
  intros st3 Hn3 Hok Hready.
  assert (Hr : pb_builder_ok st3 = true -> is_user_entry_ready st3 && is_user_stack_ready st3 = true).
  { intros H. apply Hready; [|done]. rewrite Hfields. unfold loaded_fields. destruct G5 as [-> G5]. rewrite G5; [done|].
    rewrite <- Hload. rewrite Hok in H. by apply andb_true_iff in H as [[H _]%andb_true_iff _]. }
  rewrite Hload, G2 in Hok. destruct Hs6 as [W1 W2 W3]. apply HQ. change (pr_mem s1) with m1 in W2.
  assert (Hsub : take 13 pages ⊆ pages) by (intros q Hq; apply elem_of_take in Hq as (j & Hq & _); by eapply list_elem_of_lookup_2).
  assert (Htake : forall t q, (13 <= t < 16)%nat -> q ∈ take 13 pages -> q <> pg t).
  { intros t q Ht Hq ->. apply elem_of_take in Hq as (j & Hq & Hj). rewrite pg_lookup in Hq by lia. injection Hq as Hq. apply pg_inj in Hq; lia || done. }
  assert (Hkeep : forall t a, (13 <= t < 16)%nat -> in_page64 (pg t) a -> load8 (pr_mem s6) a = load8 m1 a).
  { intros t a Ht Ha. apply W2. intros q Hq. apply (pages_apart (pg t)); [apply Hf; lia| |intros E; by apply (Htake t q Ht Hq)|done].
    rewrite Forall_forall in pages_ok. by apply pages_ok, Hsub. }
  constructor; [exact Hn3|exact Hok|exact Hr|exact W1| | | |].
  - intros x Hx. rewrite <- (G4 x Hx). destruct (code_address_in (pg 13) (pg 14) F13 F14 Hne x Hx) as (c & Hc & Hcin).
    rewrite !elem_of_cons, elem_of_nil in Hc. destruct Hc as [->|[->|[]]]; [by apply (Hkeep 13%nat); [lia|]|by apply (Hkeep 14%nat); [lia|]].
  - intros a Ha. rewrite (Hkeep 15%nat) by (lia || done). rewrite G6; [apply (Hzero 15%nat); [lia|done]|]. intros q Hq.
    apply (pages_apart (pg 15)); [apply Hf; lia| | |done]; rewrite !elem_of_cons, elem_of_nil in Hq; destruct Hq as [->|[->|[]]]; try done; intros E; apply pg_inj in E; lia || done.
  - eapply same_outside_trans; [eapply same_outside_mono; [|exact G6]|eapply same_outside_mono; [exact Hsub|exact W2]].
    intros q Hq. rewrite !elem_of_cons, elem_of_nil in Hq. destruct Hq as [->|[->|[]]]; apply Hin; lia.
  - rewrite W3. unfold s1. by destruct s.
Qed.
End Builder.

(** ** What the processor sees *)

(** The translation that the tables are meant to be: [o] is the offset in the 512 GiB of a
    slot of the first table. Slot 0 has the identity map of 1 GiB, in which the program
    replaces 2 MiB, and the stack of the program; slot 256 has the direct map, slot 288 the
    framebuffer and slot 511 the kernel image. *)
Definition boot_translation (d : list Z) (kernel_end : Z) (boot : option framebuffer_info) (c0 c1 stack va : Z) : option (Z * (bool * bool)) :=
  let slot := (va / 2 ^ 39) mod 512 in
  let o := va mod 2 ^ 39 in
  if slot =? 0 then
    if (0x400000 <=? o) && (o <? 0x600000) then
      if o - 0x400000 <? 4096 * init_pages d then Some (code_address c0 c1 (o - 0x400000), (true, false)) else None
    else if o <? 0x40000000 then Some (o, (false, false))
    else if (0x7FFFF000 <=? o) && (o <? 0x80000000) then Some (stack + (o - 0x7FFFF000), (true, true)) else None
  else if slot =? 256 then if o <? 0x40000000 then Some (o, (false, false)) else None
  else if slot =? 288 then if o <? 0x200000 * fb_pages boot then Some (fb_base boot + o, (false, false)) else None
  else if slot =? 511 then
    let k := o - 0x7F80000000 in
    if (0 <=? k) && (k <? 4096 * Z.min 512 (kernel_image_pages kernel_end)) then Some (0x100000 + k, (false, false)) else None
  else None.

Lemma frame_of_pg p f : frame_ok p -> 0 <= f < 4096 -> entry_frame (p + f) = p.
Proof. intros Hp Hf. by apply frame_of_entry. Qed.

(** A large page at a multiple of 2 MiB. *)
Lemma huge_frame b : b mod 0x200000 = 0 -> 0 <= b < 2 ^ 46 -> entry_frame (b + 0x83) / 2097152 * 2097152 = b.
Proof.
  intros Hm Hb. unfold entry_frame. change 0xFFFFFFFFFFFFF with (2 ^ 52 - 1). change (2 ^ 46) with 70368744177664 in Hb. rewrite land_low_mask by lia.
  change (2 ^ 52) with 4503599627370496. rewrite (Z.mod_small (b + _)) by lia. Z.div_mod_to_equations. lia.
Qed.

Lemma huge_bit b n : b mod 0x200000 = 0 -> 0 <= n < 12 -> Z.testbit (b + 0x83) n = Z.testbit 0x83 n.
Proof. intros Hm Hn. apply frame_flag_bit; [Z.div_mod_to_equations; lia|lia|done]. Qed.

(** Indices from the offset in a slot. *)
Lemma slot_indices va : let o := va mod 2 ^ 39 in
  0 <= o < 2 ^ 39 /\ (va / 2 ^ 30) mod 512 = o / 2 ^ 30 /\ (va / 2 ^ 21) mod 512 = (o / 2 ^ 21) mod 512 /\
  (va / 2 ^ 12) mod 512 = (o / 2 ^ 12) mod 512 /\ va mod 2 ^ 21 = o mod 2 ^ 21 /\ va mod 2 ^ 12 = o mod 2 ^ 12.
Proof.
  change (2 ^ 39) with 549755813888. change (2 ^ 30) with 1073741824. change (2 ^ 21) with 2097152. change (2 ^ 12) with 4096.
  intros o. unfold o. clear o. split; [apply Z.mod_pos_bound; lia|]. repeat split; Z.div_mod_to_equations; lia.
Qed.

Lemma fb_bounds boot : fb_ok boot -> fb_base boot mod 0x200000 = 0 /\ 0 <= fb_base boot < 2 ^ 45 /\ 0 <= fb_pages boot <= 512.
Proof.
  intros framebuffer. unfold fb_base, fb_pages. destruct boot as [info|]; [|by repeat split]. destruct framebuffer as (Ha & Hp & Hh & Hs).
  assert (Hph : 0 <= fi_pitch info * fi_height info) by (apply Z.mul_nonneg_nonneg; lia). change (2 ^ 45) with 35184372088832 in *.
  split; [Z.div_mod_to_equations; lia|]. split; [Z.div_mod_to_equations; lia|].
  destruct (fi_rgb_format_ok info && (0 <? fb_huge_pages info) && (fb_huge_pages info <=? 512)) eqn:E; [|lia].
  rewrite !andb_true_iff, Z.ltb_lt, Z.leb_le in E. lia.
Qed.

Section Walk64.
Context (pages : list Z) (d : list Z) (kernel_end : Z) (boot : option framebuffer_info) (m : mem).
#[local] Abbreviation pg := (pg pages).
#[local] Abbreviation kp := (Z.min 512 (kernel_image_pages kernel_end)).
#[local] Abbreviation BT := (boot_tables pages (init_pages d) kp boot).

(** The entries of each table. *)
Ltac table := unfold boot_tables, tput, tfill; cbn [Nat.eqb andb]; rewrite ?fb_tables_other by lia; cbn [Nat.eqb andb].

Lemma bt0 i : BT 0%nat i = if i =? 511 then pg 7 + 3 else if i =? 288 then pg 5 + 3 else if i =? 256 then pg 3 + 3 else if i =? 0 then pg 1 + 7 else 0.
Proof using. table. done. Qed.
Lemma bt1 i : BT 1%nat i = if i =? 1 then pg 11 + 7 else if i =? 0 then pg 2 + 7 else 0.
Proof using. table. done. Qed.
Lemma bt2 i : 0 <= i < 512 -> BT 2%nat i = if i =? 2 then pg 10 + 7 else 0x200000 * i + 0x83.
Proof using. intros Hi. table. rewrite (proj2 (Z.leb_le 0 i)), (proj2 (Z.ltb_lt i 512)) by lia. done. Qed.
Lemma bt3 i : BT 3%nat i = if i =? 0 then pg 4 + 3 else 0.
Proof using. table. done. Qed.
Lemma bt4 i : 0 <= i < 512 -> BT 4%nat i = 0x200000 * i + 0x83.
Proof using. intros Hi. table. rewrite (proj2 (Z.leb_le 0 i)), (proj2 (Z.ltb_lt i 512)) by lia. done. Qed.
Lemma bt5 i : BT 5%nat i = if (0 <? fb_pages boot) && (i =? 0) then pg 6 + 3 else 0.
Proof using. table. unfold fb_tables. destruct (0 <? fb_pages boot); [|done]. unfold tfill, tput. cbn [Nat.eqb andb]. done. Qed.
Lemma bt6 i : 0 <= i -> BT 6%nat i = if i <? fb_pages boot then fb_base boot + 0x200000 * i + 0x83 else 0.
Proof using.
  intros Hi. table. unfold fb_tables. destruct (Z.ltb_spec 0 (fb_pages boot)).
  - unfold tfill, tput. cbn [Nat.eqb andb]. rewrite (proj2 (Z.leb_le 0 i)) by lia. cbn [andb]. by destruct (i <? fb_pages boot).
  - cbn [Nat.eqb andb]. by rewrite (proj2 (Z.ltb_ge i _)) by lia.
Qed.
Lemma bt7 i : BT 7%nat i = if i =? 510 then pg 8 + 3 else 0.
Proof using. table. done. Qed.
Lemma bt8 i : BT 8%nat i = if i =? 0 then pg 9 + 3 else 0.
Proof using. table. done. Qed.
Lemma bt9 i : 0 <= i -> BT 9%nat i = if i <? kp then 0x100000 + 4096 * i + 3 else 0.
Proof using. intros Hi. table. rewrite (proj2 (Z.leb_le 0 i)) by lia. cbn [andb]. by destruct (i <? kp). Qed.
Lemma bt10 i : 0 <= i -> BT 10%nat i = if i <? init_pages d then (if i =? 0 then pg 13 else pg 14) + 5 else 0.
Proof using. intros Hi. table. rewrite (proj2 (Z.leb_le 0 i)) by lia. cbn [andb]. by destruct (i <? init_pages d). Qed.
Lemma bt11 i : BT 11%nat i = if i =? 511 then pg 12 + 7 else 0.
Proof using. table. done. Qed.
Lemma bt12 i : BT 12%nat i = if i =? 511 then pg 15 + 7 else 0.
Proof using. table. done. Qed.

Hypothesis pages_len : length pages = 16%nat.
Hypothesis pages_ok : Forall frame_ok pages.
Hypothesis framebuffer : fb_ok boot.
Hypothesis tables : forall t i, (t < 13)%nat -> 0 <= i < 512 -> word m (pg t) i = BT t i.

Lemma pg_ok t : (t < 16)%nat -> frame_ok (pg t).
Proof using pages_len pages_ok. by apply pg_frame. Qed.

Lemma pg_bit t f n : (t < 16)%nat -> 0 <= f < 4096 -> 0 <= n < 12 -> Z.testbit (pg t + f) n = Z.testbit f n.
Proof using pages_len pages_ok. intros Ht Hf Hn. apply frame_flag_bit; [apply (pg_ok t Ht)|done|done]. Qed.

Lemma pg_of t f : (t < 16)%nat -> 0 <= f < 4096 -> entry_frame (pg t + f) = pg t.
Proof using pages_len pages_ok. intros Ht Hf. apply frame_of_pg; [by apply pg_ok|done]. Qed.

Ltac entry_step := rewrite ?tables by lia; rewrite ?bt0, ?bt1, ?bt3, ?bt5, ?bt7, ?bt8, ?bt11, ?bt12; rewrite ?Z.eqb_refl; cbn [Z.eqb Pos.eqb].
Ltac bits :=
  change (Z.testbit 7 0) with true; change (Z.testbit 7 1) with true; change (Z.testbit 7 2) with true; change (Z.testbit 7 7) with false;
  change (Z.testbit 3 0) with true; change (Z.testbit 3 1) with true; change (Z.testbit 3 2) with false; change (Z.testbit 3 7) with false;
  change (Z.testbit 5 0) with true; change (Z.testbit 5 1) with false; change (Z.testbit 5 2) with true; change (Z.testbit 5 7) with false;
  change (Z.testbit 0x83 0) with true; change (Z.testbit 0x83 1) with true; change (Z.testbit 0x83 2) with false; change (Z.testbit 0x83 7) with true;
  rewrite ?Z.bits_0; cbn [negb andb].
Ltac frame_step := rewrite ?pg_of by lia; rewrite ?pg_bit by lia.

Lemma walk_slot0 va : (va / 2 ^ 39) mod 512 = 0 ->
  walk64 m (pg 0) va = boot_translation d kernel_end boot (pg 13) (pg 14) (pg 15) va.
Proof using pages_len pages_ok tables.
  intros Hslot. destruct (slot_indices va) as (Ho & I3 & I2 & I1 & I5 & I0). unfold boot_translation. cbv zeta. rewrite Hslot. cbn [Z.eqb].
  rewrite walk64_eq. cbv zeta. rewrite Hslot, I3, I2, I1, I5, I0. set (o := va mod 2 ^ 39) in *. clearbody o. clear Hslot I3 I2 I1 I5 I0.
  change (2 ^ 39) with 549755813888 in Ho. change (2 ^ 30) with 1073741824. change (2 ^ 21) with 2097152. change (2 ^ 12) with 4096.
  entry_step. frame_step. bits.
  assert (Hi3 : 0 <= o / 1073741824 < 512) by (Z.div_mod_to_equations; lia). rewrite tables, bt1 by lia.
  destruct (Z.eqb_spec (o / 1073741824) 1) as [E1|E1].
  - (* the stack *)
    assert (Hr : 1073741824 <= o < 2147483648) by (Z.div_mod_to_equations; lia). frame_step. bits.
    rewrite (proj2 (Z.ltb_ge o 0x600000)), andb_false_r, (proj2 (Z.ltb_ge o 0x40000000)) by lia.
    pose proof (Z.mod_pos_bound (o / 2097152) 512 ltac:(lia)). rewrite tables, bt11 by lia.
    destruct (Z.eqb_spec ((o / 2097152) mod 512) 511) as [E2|E2].
    + frame_step. bits. pose proof (Z.mod_pos_bound (o / 4096) 512 ltac:(lia)). rewrite tables, bt12 by lia.
      destruct (Z.eqb_spec ((o / 4096) mod 512) 511) as [E3|E3].
      * frame_step. bits. assert (Hst : 0x7FFFF000 <= o < 0x80000000) by (Z.div_mod_to_equations; lia).
        rewrite (proj2 (Z.leb_le 0x7FFFF000 o)), (proj2 (Z.ltb_lt o 0x80000000)) by lia. cbn [andb].
        replace (o mod 4096) with (o - 0x7FFFF000) by (clear -Hst; Z.div_mod_to_equations; lia). done.
      * assert (o < 0x7FFFF000) by (Z.div_mod_to_equations; lia). bits. by rewrite (proj2 (Z.leb_gt 0x7FFFF000 o)) by lia.
    + assert (o < 0x7FFFF000) by (Z.div_mod_to_equations; lia). bits. by rewrite (proj2 (Z.leb_gt 0x7FFFF000 o)) by lia.
  - destruct (Z.eqb_spec (o / 1073741824) 0) as [E0|E0].
    + (* the identity map *)
      assert (Hr : 0 <= o < 1073741824) by (Z.div_mod_to_equations; lia). frame_step. bits.
      assert (Hj : (o / 2097152) mod 512 = o / 2097152 /\ 0 <= o / 2097152 < 512) by (split; Z.div_mod_to_equations; lia). destruct Hj as [-> Hj].
      rewrite tables, bt2 by lia. destruct (Z.eqb_spec (o / 2097152) 2) as [E2|E2].
      * assert (Hc : 0x400000 <= o < 0x600000) by (Z.div_mod_to_equations; lia).
        rewrite (proj2 (Z.leb_le 0x400000 o)), (proj2 (Z.ltb_lt o 0x600000)) by lia. cbn [andb]. frame_step. bits.
        assert (Hk : (o / 4096) mod 512 = (o - 0x400000) / 4096 /\ 0 <= (o - 0x400000) / 4096 < 512) by (split; Z.div_mod_to_equations; lia). destruct Hk as [-> Hk].
        rewrite tables, bt10 by lia. destruct (init_pages_bound d) as [Hn _].
        destruct (Z.ltb_spec ((o - 0x400000) / 4096) (init_pages d)) as [Hlt|Hge].
        -- rewrite (proj2 (Z.ltb_lt (o - 0x400000) _)) by (Z.div_mod_to_equations; lia). unfold code_address.
           assert (Hm : o mod 4096 = (o - 0x400000) mod 4096) by (Z.div_mod_to_equations; lia). rewrite Hm.
           destruct (Z.eqb_spec ((o - 0x400000) / 4096) 0) as [Ez|Ez]; frame_step; bits.
           ++ by rewrite (proj2 (Z.ltb_lt (o - 0x400000) 4096)) by (Z.div_mod_to_equations; lia).
           ++ by rewrite (proj2 (Z.ltb_ge (o - 0x400000) 4096)) by (Z.div_mod_to_equations; lia).
        -- bits. by rewrite (proj2 (Z.ltb_ge (o - 0x400000) _)) by (Z.div_mod_to_equations; lia).
      * assert (Hc : ~ (0x400000 <= o < 0x600000)) by (Z.div_mod_to_equations; lia).
        replace ((0x400000 <=? o) && (o <? 0x600000)) with false by (symmetry; apply andb_false_iff; rewrite Z.leb_gt, Z.ltb_ge; lia).
        rewrite (proj2 (Z.ltb_lt o 0x40000000)) by lia.
        rewrite !huge_bit by (lia || (rewrite Z.mul_comm; apply Z.mod_mul; lia)). bits.
        rewrite huge_frame; [|rewrite Z.mul_comm; apply Z.mod_mul; lia|change (2 ^ 46) with 70368744177664; lia].
        replace (2097152 * (o / 2097152) + o mod 2097152) with o by (apply Z.div_mod; lia). done.
    + assert (Hr : 2147483648 <= o) by (Z.div_mod_to_equations; lia).
      rewrite (proj2 (Z.ltb_ge o 0x600000)), andb_false_r, (proj2 (Z.ltb_ge o 0x40000000)), (proj2 (Z.ltb_ge o 0x80000000)), andb_false_r by lia. bits. by rewrite ?andb_false_r.
Qed.

Ltac huge_mod := rewrite Z.mul_comm; apply Z.mod_mul; lia.

(** The direct map, the framebuffer and the kernel image. *)
Lemma walk_direct va : (va / 2 ^ 39) mod 512 = 256 ->
  walk64 m (pg 0) va = boot_translation d kernel_end boot (pg 13) (pg 14) (pg 15) va.
Proof using pages_len pages_ok tables.
  intros Hslot. destruct (slot_indices va) as (Ho & I3 & I2 & I1 & I5 & I0). unfold boot_translation. cbv zeta. rewrite Hslot. cbn [Z.eqb Pos.eqb].
  rewrite walk64_eq. cbv zeta. rewrite Hslot, I3, I2, I5. set (o := va mod 2 ^ 39) in *. clearbody o. clear Hslot I3 I2 I1 I5 I0.
  change (2 ^ 39) with 549755813888 in Ho. change (2 ^ 30) with 1073741824. change (2 ^ 21) with 2097152. change (2 ^ 12) with 4096.
  entry_step. frame_step. bits. assert (Hi3 : 0 <= o / 1073741824 < 512) by (Z.div_mod_to_equations; lia). rewrite tables, bt3 by lia.
  destruct (Z.eqb_spec (o / 1073741824) 0) as [E0|E0].
  - assert (Hr : 0 <= o < 1073741824) by (Z.div_mod_to_equations; lia). frame_step. bits.
    assert (Hj : (o / 2097152) mod 512 = o / 2097152 /\ 0 <= o / 2097152 < 512) by (split; Z.div_mod_to_equations; lia). destruct Hj as [-> Hj].
    rewrite tables, bt4 by lia. rewrite !huge_bit by (lia || huge_mod). bits.
    rewrite huge_frame; [|huge_mod|change (2 ^ 46) with 70368744177664; lia]. rewrite (proj2 (Z.ltb_lt o 0x40000000)) by lia.
    replace (2097152 * (o / 2097152) + o mod 2097152) with o by (apply Z.div_mod; lia). done.
  - bits. by rewrite (proj2 (Z.ltb_ge o 0x40000000)) by (Z.div_mod_to_equations; lia).
Qed.

Lemma walk_framebuffer va : (va / 2 ^ 39) mod 512 = 288 ->
  walk64 m (pg 0) va = boot_translation d kernel_end boot (pg 13) (pg 14) (pg 15) va.
Proof using pages_len pages_ok tables framebuffer.
  intros Hslot. destruct (slot_indices va) as (Ho & I3 & I2 & I1 & I5 & I0). unfold boot_translation. cbv zeta. rewrite Hslot. cbn [Z.eqb Pos.eqb].
  rewrite walk64_eq. cbv zeta. rewrite Hslot, I3, I2, I5. set (o := va mod 2 ^ 39) in *. clearbody o. clear Hslot I3 I2 I1 I5 I0.
  change (2 ^ 39) with 549755813888 in Ho. change (2 ^ 30) with 1073741824. change (2 ^ 21) with 2097152. change (2 ^ 12) with 4096.
  destruct (fb_bounds boot framebuffer) as (B1 & B2 & B3). change (2 ^ 45) with 35184372088832 in B2.
  entry_step. frame_step. bits. assert (Hi3 : 0 <= o / 1073741824 < 512) by (Z.div_mod_to_equations; lia). rewrite tables, bt5 by lia.
  destruct (Z.ltb_spec 0 (fb_pages boot)) as [Hp|Hp]; cbn [andb]; [|bits; by rewrite (proj2 (Z.ltb_ge o _)) by lia].
  destruct (Z.eqb_spec (o / 1073741824) 0) as [E0|E0]; [|bits; by rewrite (proj2 (Z.ltb_ge o _)) by (Z.div_mod_to_equations; lia)].
  assert (Hr : 0 <= o < 1073741824) by (Z.div_mod_to_equations; lia). frame_step. bits.
  assert (Hj : (o / 2097152) mod 512 = o / 2097152 /\ 0 <= o / 2097152 < 512) by (split; Z.div_mod_to_equations; lia). destruct Hj as [-> Hj].
  rewrite tables, bt6 by lia. destruct (Z.ltb_spec (o / 2097152) (fb_pages boot)) as [Hlt|Hge].
  - assert (Hm : (fb_base boot + 2097152 * (o / 2097152)) mod 2097152 = 0) by (rewrite Zplus_mod, B1, Z.mul_comm, Z.mod_mul by lia; done).
    rewrite !huge_bit by (lia || exact Hm). bits. rewrite huge_frame; [|exact Hm|change (2 ^ 46) with 70368744177664; lia].
    rewrite (proj2 (Z.ltb_lt o _)) by (Z.div_mod_to_equations; lia).
    replace (fb_base boot + 2097152 * (o / 2097152) + o mod 2097152) with (fb_base boot + o); [done|]. rewrite <- Z.add_assoc. f_equal. apply Z.div_mod. lia.
  - bits. by rewrite (proj2 (Z.ltb_ge o _)) by (Z.div_mod_to_equations; lia).
Qed.

Lemma walk_kernel_image va : (va / 2 ^ 39) mod 512 = 511 -> 0x100000 < kernel_end ->
  walk64 m (pg 0) va = boot_translation d kernel_end boot (pg 13) (pg 14) (pg 15) va.
Proof using pages_len pages_ok tables.
  intros Hslot Hk. destruct (slot_indices va) as (Ho & I3 & I2 & I1 & I5 & I0). unfold boot_translation. cbv zeta. rewrite Hslot. cbn [Z.eqb Pos.eqb].
  rewrite walk64_eq. cbv zeta. rewrite Hslot, I3, I2, I1, I0. set (o := va mod 2 ^ 39) in *. clearbody o. clear Hslot I3 I2 I1 I5 I0.
  change (2 ^ 39) with 549755813888 in Ho. change (2 ^ 30) with 1073741824. change (2 ^ 21) with 2097152. change (2 ^ 12) with 4096.
  entry_step. frame_step. bits. assert (Hi3 : 0 <= o / 1073741824 < 512) by (Z.div_mod_to_equations; lia). rewrite tables, bt7 by lia.
  set (n := kp) in *. assert (Hn : 0 <= n <= 512) by (unfold n, kernel_image_pages; Z.div_mod_to_equations; lia). 
  destruct (Z.eqb_spec (o / 1073741824) 510) as [E0|E0].
  - assert (Hr : 0x7F80000000 <= o < 0x7FC0000000) by (Z.div_mod_to_equations; lia). frame_step. bits.
    rewrite (proj2 (Z.leb_le 0 (o - _))) by lia. cbn [andb].
    pose proof (Z.mod_pos_bound (o / 2097152) 512 ltac:(lia)). rewrite tables, bt8 by lia.
    destruct (Z.eqb_spec ((o / 2097152) mod 512) 0) as [E1|E1].
    + frame_step. bits. assert (Hj : (o / 4096) mod 512 = (o - 0x7F80000000) / 4096 /\ 0 <= (o - 0x7F80000000) / 4096 < 512) by (split; Z.div_mod_to_equations; lia).
      destruct Hj as [-> Hj]. rewrite tables, bt9 by lia. fold n. destruct (Z.ltb_spec ((o - 0x7F80000000) / 4096) n) as [Hlt|Hge].
      * rewrite (proj2 (Z.ltb_lt (o - _) _)) by (Z.div_mod_to_equations; lia).
        assert (Hf : frame_ok (0x100000 + 4096 * ((o - 0x7F80000000) / 4096))) by (split; [lia|]; Z.div_mod_to_equations; lia).
        rewrite frame_of_pg by (done || lia). rewrite !(frame_flag_bit _ 3) by (apply Hf || lia). bits. do 2 f_equal.
        assert (Hm : o mod 4096 = (o - 0x7F80000000) mod 4096) by (Z.div_mod_to_equations; lia). rewrite Hm. pose proof (Z.div_mod (o - 0x7F80000000) 4096 ltac:(lia)). lia.
      * bits. by rewrite (proj2 (Z.ltb_ge (o - _) _)) by (Z.div_mod_to_equations; lia).
    + bits. by rewrite (proj2 (Z.ltb_ge (o - _) _)) by (Z.div_mod_to_equations; lia).
  - bits. assert (Hout : o < 0x7F80000000 \/ 0x7FC0000000 <= o) by (Z.div_mod_to_equations; lia).
    destruct (Z.leb_spec 0 (o - 0x7F80000000)); [|done]. cbn [andb]. by rewrite (proj2 (Z.ltb_ge (o - _) _)) by lia.
Qed.

Lemma walk_boot va : 0x100000 < kernel_end -> walk64 m (pg 0) va = boot_translation d kernel_end boot (pg 13) (pg 14) (pg 15) va.
Proof using pages_len pages_ok tables framebuffer.
  intros Hk. destruct (decide ((va / 2 ^ 39) mod 512 = 0)); [by apply walk_slot0|]. destruct (decide ((va / 2 ^ 39) mod 512 = 256)); [by apply walk_direct|].
  destruct (decide ((va / 2 ^ 39) mod 512 = 288)); [by apply walk_framebuffer|]. destruct (decide ((va / 2 ^ 39) mod 512 = 511)); [by apply walk_kernel_image|].
  unfold boot_translation. cbv zeta. rewrite !(proj2 (Z.eqb_neq ((va / 2 ^ 39) mod 512) _)) by done.
  rewrite walk64_eq. cbv zeta. pose proof (Z.mod_pos_bound (va / 2 ^ 39) 512 ltac:(lia)). rewrite tables, bt0 by lia.
  rewrite !(proj2 (Z.eqb_neq ((va / 2 ^ 39) mod 512) _)) by done. by rewrite Z.bits_0.
Qed.
End Walk64.

