(* ===== verification/Paging64Theorems.v ===== *)
(** The page tables of the 64-bit kernel: theorems. *)
From S2P Require Import Prelude Word64 Mem KString Loader ElfProofs Pmm64 Pmm64Proofs Heap64 Heap64Proofs Text64 Process64 Process64Queue Process64Tables.
From S2P Require Import Process64Alloc Process64Create Process64Reap Process64Run Process64Theorems Elf64 Elf64Proofs Paging64 Paging64Proofs Paging64Tables.

(** ** The whole builder *)

(** What the builder is called with. *)
Record boot_input (d : list Z) (kernel_end : Z) (boot : option framebuffer_info) (pp : x86_64_pmm_plan) : Prop := {
  bi_bytes : is_bytes d;
  bi_small : Z.of_nat (length d) <= 0xFFFFFFFF;
  bi_kernel : 0x100000 < kernel_end < 2 ^ 40;
  bi_framebuffer : fb_ok boot;
  bi_memory : 0 <= pp_reserved_below pp /\ 0 <= pp_managed_bytes pp /\ pp_reserved_below pp + pp_managed_bytes pp < 2 ^ 52
}.

Definition build_boot_tables (d : list Z) (kernel_end : Z) (boot : option framebuffer_info) (pp : x86_64_pmm_plan) : PR x86_64_paging_builder_state :=
  x86_64_paging_builder_init d (boot_layout kernel_end) (x86_64_paging_plan_init (boot_layout kernel_end) pp) boot.

Section Init.
Context (all : list Z) (held : gset Z) (d : list Z) (kernel_end : Z) (boot : option framebuffer_info) (pp : x86_64_pmm_plan).
Hypothesis bounded : forall q, q ∈ all -> q < 35184372088832.
Hypothesis input : boot_input d kernel_end boot pp.

Lemma pmm_free_frames p : pmm64_inv all held p -> Forall frame_ok (free_frames p).
Proof using bounded.
  intros Hi. apply Forall_forall. intros q Hq. assert (Hq' : q ∈ all) by (rewrite <- (pi_split _ _ _ Hi), elem_of_app; by left).
  pose proof (pi_frames _ _ _ Hi) as Hf. rewrite Forall_forall in Hf. destruct (Hf q Hq') as (H1 & H2 & _). split; [split; [lia|by apply bounded]|done].
Qed.

Lemma builder_fail_ok s0 s st (Q : x86_64_paging_builder_state -> process64 -> Prop) :
  pmm64_inv all held (pr_pmm s0) ->
  frames_taken all held (free_frames (pr_pmm s0)) (pr_mem s0) (length (free_frames (pr_pmm s0))) s0 s ->
  (forall p' n, pmm64_inv all held p' -> Q (st <| pb_pmm_free_pages_after := n |>) (s <| pr_pmm := p' |>)) ->
  wp (builder_fail (rev (free_frames (pr_pmm s0))) st) Q s.
Proof using bounded.
  intros Hi [Hp Hm Hr] HQ. set (free := free_frames (pr_pmm s0)) in *. unfold builder_fail. wp_step.
  pose proof (pmm_free_frames _ Hi) as Hff. fold free in Hff. rewrite Forall_forall in Hff.
  destruct Hp as [_ Hp]. rewrite take_ge in Hp by (rewrite length_rev; lia).
  pose proof (free_frames_nodup _ _ _ Hi) as Hnd. fold free in Hnd.
  eapply (builder_rollback_ok all); [exact Hp|by apply NoDup_ListNoDup, List.NoDup_rev, NoDup_ListNoDup| |].
  - intros q Hq. assert (q ∈ free) by (by rewrite (Permutation_rev free)). split; [destruct (Hff q); [done|lia]|]. apply elem_of_union. left. by apply elem_of_list_to_set.
  - intros p' Hp'. do 3 wp_step. apply HQ.
    pose proof (frees_returned _ _ _ (length free) Hi) as E. fold free in E. rewrite frees_all, take_ge in E by (rewrite ?length_rev; lia). by rewrite E in Hp'.
Qed.

Lemma frames_start s : pmm64_inv all held (pr_pmm s) -> frames_taken all held (free_frames (pr_pmm s)) (pr_mem s) 0 s s.
Proof using. intros Hi. constructor; [by apply taken_start| |by destruct s]. intros a. rewrite decide_False; [done|]. cbn [take]. by intros He%Exists_nil. Qed.

(** Sixteen frames are taken and the tables are built in them, or none is. *)
Lemma builder_init_ok s (Q : x86_64_paging_builder_state -> process64 -> Prop) :
  pmm64_inv all held (pr_pmm s) ->
  (forall st s', (16 <= length (free_frames (pr_pmm s)))%nat ->
     let pages := take 16 (rev (free_frames (pr_pmm s))) in
     pmm64_inv all (list_to_set pages ∪ held) (pr_pmm s') ->
     free_frames (pr_pmm s') = take (length (free_frames (pr_pmm s)) - 16) (free_frames (pr_pmm s)) -> s' = s <| pr_pmm := pr_pmm s' |> <| pr_mem := pr_mem s' |> ->
     boot_paging pages d kernel_end boot st (s <| pr_pmm := pr_pmm s' |>) s' -> Q st s') ->
  (forall st s', (length (free_frames (pr_pmm s)) < 16)%nat -> pb_builder_ok st = false ->
     pmm64_inv all held (pr_pmm s') -> s' = s <| pr_pmm := pr_pmm s' |> <| pr_mem := pr_mem s' |> ->
     same_outside (free_frames (pr_pmm s)) (pr_mem s) (pr_mem s') -> Q st s') ->
  wp (build_boot_tables d kernel_end boot pp) Q s.
Proof using bounded input.
  intros Hi Hbuilt Hnone. unfold build_boot_tables, x86_64_paging_builder_init. wp_step. wp_step. cbv zeta.
  set (free := free_frames (pr_pmm s)) in *. set (st0 := clear_builder_state <| pb_pmm_free_pages_before := _ |>).
  pose proof (pmm_free_frames _ Hi) as Hff. fold free in Hff.
  assert (Hnd : NoDup (rev free)) by (rewrite <- (Permutation_rev free); exact (free_frames_nodup _ _ _ Hi)).
  assert (Hfail : forall s1, (length free < 16)%nat -> frames_taken all held free (pr_mem s) (length free) s s1 -> wp (builder_fail (rev free) st0) Q s1).
  { intros s1 Hlt H1. eapply builder_fail_ok; [exact Hi|exact H1|]. intros p' n Hp'. destruct H1 as [_ Hm Hr]. apply Hnone; [done|reflexivity|done|rewrite Hr; by destruct s|].
    change (pr_mem (s1 <| pr_pmm := p' |>)) with (pr_mem s1). eapply same_outside_mono; [|by apply cleared_outside in Hm]. intros q Hq. exact (elem_of_take_rev _ _ _ Hq). }
  change X86_64_PAGING_BUILDER_TABLE_PAGES with (Z.of_nat 13). change X86_64_PAGING_BUILDER_USER_CODE_PAGES with (Z.of_nat 2). change 1 with (Z.of_nat 1).
  wp_step. change ([] : list Z) with (take 0 (rev free)).
  apply (allocate_run_ok all held free (pr_mem s) Hff 13 0 s); [apply frames_start, Hi|lia| |intros s1 Hlt H1; cbn [negb fst snd]; apply Hfail; [lia|done]].
  intros s1 L1 H1. cbn [negb fst snd]. wp_step.
  apply (allocate_run_ok all held free (pr_mem s) Hff 2 13 s); [done|lia| |intros s2 Hlt H2; cbn [negb fst snd]; apply Hfail; [lia|done]].
  intros s2 L2 H2. cbn [negb fst snd]. wp_step.
  apply (allocate_run_ok all held free (pr_mem s) Hff 1 15 s); [done|lia| |intros s3 Hlt H3; cbn [negb fst snd]; apply Hfail; [lia|done]].
  intros s3 L3 H3. cbn [negb fst snd]. wp_step. wp_step. change (15 + 1)%nat with 16%nat in *. destruct H3 as [[Hleft Hp] Hm Hr].
  destruct input as [Hb Hs Hk Hf Hmem].
  eapply (build_all_ok (take 16 (rev free))); try done.
  - rewrite length_take, length_rev. lia.
  - apply Forall_take, Forall_rev, Hff.
  - rewrite <- (take_drop 16 (rev free)) in Hnd. by apply NoDup_app in Hnd as [? _].
  - intros st s' Hbp. pose proof (bp_rest _ _ _ _ _ _ _ Hbp) as Er. apply Hbuilt; [lia| | | |].
    + rewrite Er. exact Hp.
    + rewrite Er. exact Hleft.
    + rewrite Er, Hr. by destruct s.
    + assert (Es : s' = s <| pr_pmm := pr_pmm s' |> <| pr_mem := pr_mem s' |>) by (rewrite Er, Hr; by destruct s).
      destruct Hbp as [B1 B2 B3 B4 B5 B6 B7 B8]. constructor; try done. eapply same_outside_trans; [exact (cleared_outside _ _ _ Hm)|exact B7].
Qed.
End Init.

(** ** The plan of physical memory *)

(** The plan of the frames in [l]. *)
Record plan_of (l : list Z) (kernel_end : Z) (plan : x86_64_pmm_plan) : Prop := {
  pn_pages : pp_managed_pages plan = Z.of_nat (length l);
  pn_bytes : pp_managed_bytes plan = 4096 * Z.of_nat (length l);
  pn_below : pp_reserved_below plan = 4096 * ((kernel_end + 4095) / 4096)
}.

Lemma plan_region_ok l kernel_end plan region :
  0 < kernel_end <= 35184372084736 -> region_ok region -> plan_of l kernel_end plan -> 4096 * Z.of_nat (length l) <= 2 ^ 50 ->
  plan_of (l ++ region_frames kernel_end region) kernel_end (plan_region (4096 * ((kernel_end + 4095) / 4096)) plan region).
Proof.
  intros Hk (R1 & R2 & R3) [P1 P2 P3] Hl. change (2 ^ 50) with 1125899906842624 in Hl. unfold plan_region, region_frames, X86_64_PAGE_SIZE.
  change X86_64_MEMORY_REGION_AVAILABLE with 1. set (low := 4096 * ((kernel_end + 4095) / 4096)) in *.
  assert (Hlow : 0 <= low <= 35184372088832) by (unfold low; Z.div_mod_to_equations; lia).
  destruct (mr_type region =? 1); cbn [negb]; [|by rewrite app_nil_r]. rewrite (u64_small (mr_base region + mr_length region)) by (unfold is_u64; lia).
  set (base := mr_base region) in *. set (e := base + mr_length region) in *. destruct (Z.ltb_spec e base); [lia|]. cbn [orb].
  set (first := (base `max` low + 4095) / 4096).
  destruct (Z.leb_spec e low) as [Hle|Hgt].
  { rewrite seqZ_nil; [by rewrite app_nil_r|]. assert (low <= 4096 * first) by (unfold first; Z.div_mod_to_equations; lia). Z.div_mod_to_equations. lia. }
  replace (if base <? low then low else base) with (base `max` low) by (destruct (Z.ltb_spec base low); lia).
  rewrite align_up_page64 by lia. rewrite align_down_page by (unfold is_u64; lia). fold first. unfold add_managed_range, X86_64_PAGE_SIZE.
  assert (Hlast : 0 <= e / 4096 <= 8589934592) by (Z.div_mod_to_equations; lia). assert (Hfirst : 0 <= first) by (unfold first; Z.div_mod_to_equations; lia).
  destruct (Z.leb_spec (4096 * (e / 4096)) (4096 * first)); [rewrite seqZ_nil by lia; by rewrite app_nil_r|].
  replace (4096 * (e / 4096) [--] 4096 * first) with ((e / 4096 - first) * 4096) by u64_lia. rewrite Z.div_mul by lia.
  rewrite (proj2 (Z.eqb_neq (e / 4096 - first) 0)) by lia.
  assert (Hlen : Z.of_nat (length (l ++ ((fun k => 4096 * k) <$> seqZ first (e / 4096 - first)))) = Z.of_nat (length l) + (e / 4096 - first))
    by (rewrite length_app, length_fmap, length_seqZ; lia).
  constructor; rewrite ?Hlen; cbn [pp_managed_pages pp_managed_bytes pp_reserved_below]; rewrite ?P1, ?P2; try done; u64_lia.
Qed.

Lemma region_frames_length kernel_end region : 0 < kernel_end -> region_ok region -> Z.of_nat (length (region_frames kernel_end region)) <= 8589934592.
Proof.
  intros Hk (R1 & R2 & R3). unfold region_frames. cbv zeta. case_match; [|cbn; lia]. rewrite length_fmap, length_seqZ.
  set (first := (_ + 4095) / 4096). assert (0 <= first) by (unfold first; Z.div_mod_to_equations; lia). Z.div_mod_to_equations. lia.
Qed.

Lemma usable_frames_snoc kernel_end l region :
  usable_frames kernel_end (l ++ [region]) = usable_frames kernel_end l ++ region_frames kernel_end region.
Proof. unfold usable_frames. rewrite fmap_app, join_app. cbn. by rewrite app_nil_r. Qed.

Lemma usable_frames_length kernel_end l :
  0 < kernel_end -> Forall region_ok l -> Z.of_nat (length (usable_frames kernel_end l)) <= 8589934592 * Z.of_nat (length l).
Proof.
  intros Hk. induction l as [|region l IH] using rev_ind; intros Hl; [cbn; lia|]. apply Forall_app in Hl as [Hl Hr]. apply Forall_inv in Hr.
  rewrite usable_frames_snoc, !length_app. pose proof (region_frames_length kernel_end region Hk Hr). specialize (IH Hl). cbn [length]. lia.
Qed.

Lemma region_frames_bound kernel_end region q : region_ok region -> q ∈ region_frames kernel_end region -> q < 35184372088832.
Proof.
  intros (R1 & R2 & R3). unfold region_frames. cbv zeta. case_match; [|by intros ?%not_elem_of_nil].
  intros (i & -> & Hi)%list_elem_of_fmap. apply elem_of_seqZ in Hi. Z.div_mod_to_equations. lia.
Qed.

Lemma usable_frames_bound kernel_end l q : Forall region_ok l -> q ∈ usable_frames kernel_end l -> q < 35184372088832.
Proof.
  intros Hl. unfold usable_frames. rewrite list_elem_of_join. intros (f & Hq & (r & -> & Hr)%list_elem_of_fmap).
  rewrite Forall_forall in Hl. exact (region_frames_bound _ _ _ (Hl r Hr) Hq).
Qed.

(** The plan counts the frames that the allocator then manages. *)
Lemma pmm_plan_ok {S} count regions kernel_end (s : S) (Q : x86_64_pmm_plan -> S -> Prop) :
  0 < kernel_end <= 35184372084736 -> 0 <= count <= 32 -> count <= Z.of_nat (length regions) -> Forall region_ok regions ->
  (forall plan, plan_of (usable_frames kernel_end (take (Z.to_nat count) regions)) kernel_end plan -> Q plan s) ->
  wp (x86_64_pmm_plan_init count regions (boot_layout kernel_end)) Q s.
Proof.
  intros Hk Hc Hl Hr HQ. unfold x86_64_pmm_plan_init. change (ml_kernel_end (boot_layout kernel_end)) with kernel_end.
  unfold X86_64_PAGE_SIZE. cbv zeta. rewrite align_up_page64 by lia.
  apply (wp_fold_seqZ _ _ (fun i plan s' => s' = s /\ plan_of (usable_frames kernel_end (take (Z.to_nat i) regions)) kernel_end plan)); [|lia| |].
  - done.
  - intros i plan s' Hi [-> Hp]. wp_step. destruct (lookup_lt_is_Some_2 regions (Z.to_nat i)) as [r Er]; [lia|].
    eapply wp_array_at; [exact Er|]. wp_step. split; [done|]. replace (Z.to_nat (i + 1)) with (Datatypes.S (Z.to_nat i)) by lia.
    rewrite (take_S_r _ _ _ Er), usable_frames_snoc. rewrite Forall_forall in Hr. apply plan_region_ok; [done|by eapply Hr, list_elem_of_lookup_2|done|].
    pose proof (usable_frames_length kernel_end (take (Z.to_nat i) regions) ltac:(lia)) as Hn. rewrite length_take in Hn. change (2 ^ 50) with 1125899906842624.
    assert (Forall region_ok (take (Z.to_nat i) regions)) as Hf by (apply Forall_take, Forall_forall, Hr). specialize (Hn Hf). lia.
  - intros plan s' [-> Hp]. by apply HQ.
Qed.

(** ** Starting the processes on the tables *)

Section Start.
Context (all : list Z) (base : gset Z) (pages : list Z) (d : list Z) (kernel_end : Z) (boot : option framebuffer_info).
Hypothesis bounded : forall q, q ∈ all -> q < 35184372088832.
Hypothesis pages_len : length pages = 16%nat.
Hypothesis pages_ok : Forall frame_ok pages.
Hypothesis pages_base : forall q, q ∈ pages -> q ∈ base.
#[local] Abbreviation BT := (boot_tables pages (init_pages d) (Z.min 512 (kernel_image_pages kernel_end)) boot).

(** The entries of the tables that the processes share. *)
Definition boot_kernel : kernel_tables := {| k4 := BT 0%nat; k3 := BT 1%nat; k2 := BT 2%nat |}.

Lemma boot_kernel_private : kernel_private boot_kernel.
Proof using pages_len pages_ok.
  assert (Hb : forall t f, (t < 16)%nat -> 0 <= f < 4096 -> Z.testbit (pg pages t + f) 2 = Z.testbit f 2) by (intros; apply (pg_bit pages pages_len pages_ok); lia).
  split; [|split]; intros i Hi; cbn [k4 k3 k2 boot_kernel].
  - rewrite bt0. repeat case_match; rewrite ?Hb by lia; try done. lia.
  - rewrite bt1. rewrite (proj2 (Z.eqb_neq i 1)), (proj2 (Z.eqb_neq i 0)) by lia. done.
  - intros Hne. rewrite bt2, (proj2 (Z.eqb_neq i 2)) by lia. rewrite huge_bit by (lia || (rewrite Z.mul_comm; apply Z_mod_mult)). done.
Qed.

(** The builder's tables are what the processes are started on. *)
Lemma boot_source st s ctx :
  names pages st -> (forall t i, (t < 13)%nat -> 0 <= i < 512 -> word (pr_mem s) (pg pages t) i = BT t i) ->
  ctx = Build_x86_64_process_paging_context true 0 256 511 (pb_pml4_table st) (pb_identity_pdpt_table st) (pb_identity_pd_table st) ->
  pmm64_inv all base (pr_pmm s) -> process_paging_context s = ctx -> boot_ok all base boot_kernel s.
Proof using bounded pages_len pages_ok pages_base.
  intros [N0 N1 N2 _ _ _ _ _ _ _ _ _ _ _ _ _ _ _ _] Hw -> Hp Hc.
  assert (Hf : forall t, (t < 16)%nat -> frame_ok (pg pages t)) by (intros t Ht; by apply pg_frame).
  assert (Hin : forall t, (t < 16)%nat -> pg pages t ∉ lendable all base).
  { intros t Ht Hl. apply list_elem_of_filter in Hl as [Hl _]. apply Hl, pages_base. eapply list_elem_of_lookup_2, pg_lookup; done. }
  assert (Hpres : forall t f, (t < 16)%nat -> 0 <= f < 4096 -> entry_present (pg pages t + f) = negb (Z.land f 1 =? 0)).
  { intros t f Ht Hf'. exact (present_pg pages pages_len pages_ok t f Ht Hf'). }
  constructor; rewrite ?Hc; [exact Hp|exact bounded| | |].
  - constructor; cbn [pg_initialized pg_identity_pml4_index pg_direct_map_pml4_index pg_kernel_pml4_index pg_source_pml4_table
      pg_source_identity_pdpt_table pg_source_identity_pd_table k4 k3 k2 boot_kernel]; rewrite ?N0, ?N1, ?N2; try done.
    + rewrite !Forall_cons. repeat split; try (apply Hf; lia). done.
    + intros i Hi. apply Hw; lia.
    + intros i Hi. apply Hw; lia.
    + intros i Hi. apply Hw; lia.
    + rewrite bt0. exact (Hpres 3%nat 3 ltac:(lia) ltac:(lia)).
    + rewrite bt0. exact (Hpres 7%nat 3 ltac:(lia) ltac:(lia)).
    + rewrite bt1. exact (Hpres 2%nat 7 ltac:(lia) ltac:(lia)).
    + rewrite bt2 by lia. done.
  - cbn [pg_source_pml4_table pg_source_identity_pdpt_table pg_source_identity_pd_table]. rewrite N0, N1, N2. repeat split; apply Hin; lia.
  - intros f Hf'. cbn [k2 boot_kernel]. rewrite bt2 by lia. change (2 =? 2) with true. cbv beta iota. intros E. apply (Hin 10%nat ltac:(lia)). by replace (pg pages 10) with f by lia.
Qed.

(** The first user mode entry needs a complete builder; then the process table is empty
    but for the shell's entry, which is made when twelve frames are left. *)
Lemma user_mode_start_ok reserve st s0 s1 s :
  boot_paging pages d kernel_end boot st s0 s1 -> pr_mem s = pr_mem s1 -> pmm64_inv all base (pr_pmm s) -> reserve <> 0 ->
  wp (x86_64_user_mode_start reserve st 1) (fun r s' => r = pb_builder_ok st /\ same_outside (take 12 (rev (free_frames (pr_pmm s)))) (pr_mem s) (pr_mem s') /\
    (r = true -> process64_inv all base boot_kernel s' /\
       ((12 <= length (free_frames (pr_pmm s)))%nat -> next_pid64 s' = 2 /\ exists i p, process64_table s' !! i = Some p /\ p6_pid p = 1 /\
          p6_state p = X86_64_PROCESS_READY /\ p6_mode p = X86_64_PROCESS_MODE_KERNEL /\ p6_entry p = reserve))) s.
Proof using bounded pages_len pages_ok pages_base.
  intros Hbp Hm Hp Hres. unfold x86_64_user_mode_start. destruct (pb_builder_ok st) eqn:Hok.
  2:{ unfold is_user_entry_ready. rewrite Hok. cbn [andb negb orb]. wp_step. by split; [|split; [intros ? _|]]. }
  pose proof (bp_ready _ _ _ _ _ _ _ Hbp Hok) as Hready. apply andb_true_iff in Hready as [-> ->]. cbn [negb orb].
  pose proof (bp_names _ _ _ _ _ _ _ Hbp) as Hn. assert (Hpos : forall t, (t < 16)%nat -> pg pages t =? 0 = false).
  { intros t Ht. apply Z.eqb_neq. pose proof (pg_frame pages pages_len pages_ok t Ht) as [? _]. lia. }
  unfold x86_64_process_set_paging_context. do 3 wp_step. rewrite (na_0 _ _ Hn), (na_1 _ _ Hn), (na_2 _ _ Hn), !Hpos by lia. cbn [negb orb]. wp_step.
  match goal with |- wp _ _ ?t => set (s2 := t) end. assert (Em : pr_mem s2 = pr_mem s) by reflexivity. assert (Ep : pr_pmm s2 = pr_pmm s) by reflexivity.
  assert (Hboot : boot_ok all base boot_kernel s2).
  { eapply (boot_source st); [exact Hn| |reflexivity|by rewrite Ep|]; [|by rewrite (na_0 _ _ Hn), (na_1 _ _ Hn), (na_2 _ _ Hn)].
    rewrite Em, Hm. exact (bp_tables _ _ _ _ _ _ _ Hbp). }
  clearbody s2. wp_step. eapply wp_mono; [by eapply initialize_inv|]. intros [] s3 (Hinv & En & _ & _ & _ & Em3 & Ep3 & Et3).
  pose proof (pv_table _ _ _ _ Hinv) as (held & Ht & Hh). change (1 =? 1) with true. cbn [mwhen]. wp_step. wp_step.
  eapply wp_mono; [apply wp_conj; [by apply (create64_ok all held boot_kernel s3 (Some (str "shell")) reserve 0); [|eapply inv_ready|lia|]|apply (create_step all base boot_kernel s3); [done|lia]]|].
  intros pid s4 [Hnew [Hinv4 _]]. do 2 wp_step. split; [done|]. rewrite <- Ep, <- Em, <- Ep3, <- Em3.
  destruct Hnew as [(-> & _ & i & p0 & p & Hp0 & H0 & Et & Efr & Est & Emode & Epid & Eent & _ & En4 & Ho & _)|(-> & Hwhy & _ & _ & Ho)].
  - split; [by rewrite <- Efr|]. intros _. split; [exact Hinv4|]. intros _. split; [lia|].
    exists i, p. rewrite Et, list_lookup_insert_eq by (by eapply lookup_lt_Some). by rewrite Epid, En.
  - assert (Hslot : exists i p, process64_table s3 !! i = Some p /\ p6_state p = X86_64_PROCESS_UNUSED) by (exists 0%nat, inhabitant; by rewrite Et3).
    destruct Hwhy as [Hno|Hfew]; [by destruct Hno|]. split; [|intros _; split; [exact Hinv4|intros; lia]].
    eapply same_outside_mono; [|exact Ho]. intros q Hq. rewrite take_ge by (rewrite length_rev; lia). by rewrite <- Permutation_rev.
Qed.
End Start.

(** C8: [x86_64_paging_builder_init] takes sixteen frames or none. With fewer than sixteen
    free frames it fails and all are free again. Otherwise the processor translates every
    address under the new tables as [boot_translation] says (the identity map of 1 GiB
    with the program at 0x400000 in it, the stack of the program, the direct map, the
    framebuffer, the kernel image, and nothing else), with the right of user code to read
    and write; the program's pages hold the first loadable segment of the file followed by
    zeros, its stack zeros; memory outside the frames is as before, and the builder
    reports success exactly when the file is a valid program of one segment, the kernel
    fits 2 MiB and the framebuffer, if there is one, fits 1 GiB. *)
Theorem paging64_builder_translation all held d kernel_end boot pp s
    (Hpmm : pmm64_inv all held (pr_pmm s)) (Hbound : forall q, q ∈ all -> q < 35184372088832) (Hin : boot_input d kernel_end boot pp) :
  wp (x86_64_paging_builder_init d (boot_layout kernel_end) (x86_64_paging_plan_init (boot_layout kernel_end) pp) boot) (fun st s' =>
    let free := free_frames (pr_pmm s) in
    if decide (16 <= length free)%nat then
      let pages := take 16 (rev free) in
      let page i := default 0 (pages !! i) in
      pmm64_inv all (list_to_set pages ∪ held) (pr_pmm s') /\ same_outside pages (pr_mem s) (pr_mem s') /\
      pb_builder_ok st = bool_decide (is_Some (init_program d)) && (kernel_image_pages kernel_end <=? 512) && (negb (fb_requested boot) || (0 <? fb_pages boot)) /\
      (forall va, walk64 (pr_mem s') (pb_pml4_table st) va = boot_translation d kernel_end boot (page 13%nat) (page 14%nat) (page 15%nat) va) /\
      (forall x, 0 <= x < 8192 -> load8 (pr_mem s') (code_address (page 13%nat) (page 14%nat) x) = init_byte d x) /\
      (forall x, 0 <= x < 4096 -> load8 (pr_mem s') (page 15%nat + x) = 0)
    else pb_builder_ok st = false /\ pmm64_inv all held (pr_pmm s') /\ same_outside free (pr_mem s) (pr_mem s')) s.
Proof.
  apply (builder_init_ok all held d kernel_end boot pp Hbound Hin s); [exact Hpmm| |].
  - intros st s' H16 pages Hp _ _ [Bn Bok _ Bt Bc Bs Bo _]. cbv zeta. rewrite decide_True by done. split; [exact Hp|]. split; [exact Bo|]. split; [exact Bok|].
    assert (Hlen : length pages = 16%nat) by (unfold pages; rewrite length_take, length_rev; lia).
    assert (Hok : Forall frame_ok pages) by (apply Forall_take, Forall_rev; by apply (pmm_free_frames all held Hbound)).
    split; [|split; [exact Bc|]].
    + intros va. rewrite (na_0 _ _ Bn). destruct Hin as [_ _ Hk Hf _]. apply walk_boot; [done|done|done|exact Bt|lia].
    + intros x Hx. apply (Bs (pg pages 15 + x)). unfold in_page64. lia.
  - intros st s' H16 Hok Hp _ Ho. cbv zeta. by rewrite decide_False by lia.
Qed.

(** *** An example: two hundred frames, a program of three bytes and a screen *)

Definition paging64_map : list x86_64_memory_region := [ {| mr_base := 0x200000; mr_length := 0xc8000; mr_type := 1 |} ].
Definition paging64_frames : list Z := (fun i => 0x200000 + 4096 * i) <$> seqZ 0 200.
Definition paging64_zero : pmm64 := {| page_stack := replicate (Z.to_nat 65536) 0; pmm64_state := Build_x86_64_pmm_state false 0 0 0 0 0 0 |}.
Definition paging64_boot : process64 := process64_boot <| pr_pmm := paging64_zero |>.
Definition paging64_ready : process64 := process64_boot <| pr_pmm := final (x86_64_pmm_init 1 paging64_map 0x145432) paging64_zero |>.
Definition paging64_screen : framebuffer_info := {| fi_rgb_format_ok := true; fi_addr := 0xFD000000; fi_pitch := 4096; fi_height := 768 |}.
Definition paging64_plan : x86_64_pmm_plan := Build_x86_64_pmm_plan 1 0x200000 200 819200 0x146000.

Lemma paging64_map_ok : Forall region_ok paging64_map.
Proof. repeat first [apply Forall_nil_2 | apply Forall_cons_2; [repeat split; cbn; lia|]]. Qed.

Lemma paging64_nodup : NoDup (usable_frames 0x145432 (take (Z.to_nat 1) paging64_map)).
Proof. apply (bool_decide_unpack _). vm_compute. exact I. Qed.

Lemma paging64_ready_pmm : pmm64_inv paging64_frames ∅ (pr_pmm paging64_ready) /\ free_frames (pr_pmm paging64_ready) = paging64_frames.
Proof.
  destruct (pmm_init_tracked 1 paging64_map 0x145432 paging64_zero) as ([] & s' & E & Hi & Ht); [vm_compute; reflexivity|lia|cbn; lia|exact paging64_map_ok|].
  assert (Es : pr_pmm paging64_ready = s') by (unfold paging64_ready, final; by rewrite E). rewrite Es.
  replace paging64_frames with (take (Z.to_nat 65536) (usable_frames 0x145432 (take (Z.to_nat 1) paging64_map))) by (vm_compute; reflexivity).
  split; [apply (tracked_inv 0x145432); [lia|exact Ht|exact Hi|exact paging64_nodup]|exact (tk_frames _ _ Ht)].
Qed.

Lemma paging64_frames_bound q : q ∈ paging64_frames -> q < 35184372088832.
Proof. intros (i & -> & Hi)%list_elem_of_fmap. apply elem_of_seqZ in Hi. lia. Qed.

Lemma paging64_screen_ok : fb_ok (Some paging64_screen).
Proof. cbn. lia. Qed.

Lemma paging64_builder_translation_witness :
  wp (x86_64_paging_builder_init (elf64_sample 62) (boot_layout 0x145432) (x86_64_paging_plan_init (boot_layout 0x145432) paging64_plan) (Some paging64_screen))
    (fun st s' => pb_builder_ok st = true /\ walk64 (pr_mem s') (pb_pml4_table st) 0x400002 = Some (0x2ba002, (true, false)) /\ load8 (pr_mem s') 0x2ba002 = 0xfe /\
       walk64 (pr_mem s') (pb_pml4_table st) 0x401000 = None /\ walk64 (pr_mem s') (pb_pml4_table st) 0x7ffffff0 = Some (0x2b8ff0, (true, true)) /\
       walk64 (pr_mem s') (pb_pml4_table st) 0xFFFF900000000010 = Some (0xFD000010, (false, false))) paging64_ready.
Proof.
  destruct paging64_ready_pmm as [Hp Hf].
  eapply wp_mono; [apply (paging64_builder_translation paging64_frames ∅ (elf64_sample 62) 0x145432 (Some paging64_screen) paging64_plan paging64_ready Hp paging64_frames_bound)|].
  - constructor; [exact (elf64_sample_bytes 62)|vm_compute; discriminate|lia|exact paging64_screen_ok|cbn; lia].
  - intros st s' H. cbv zeta in H. rewrite Hf in H.
    replace (take 16 (rev paging64_frames)) with ((fun i => 0x2c7000 - 4096 * i) <$> seqZ 0 16) in H by (vm_compute; reflexivity).
    rewrite decide_True in H by (apply Nat.leb_le; vm_compute; reflexivity). destruct H as (_ & _ & -> & Hw & Hc & _).
    rewrite !Hw. split; [vm_compute; reflexivity|]. split; [vm_compute; reflexivity|]. split; [exact (Hc 2 ltac:(lia))|].
    repeat split; vm_compute; reflexivity.
Defined.

Lemma heap_init_on_ok all held plan h s (Q : heap64 -> process64 -> Prop) :
  pmm64_inv all held (pr_pmm s) -> (forall q, q ∈ all -> q < 35184372088832) -> pl_direct_map_base plan = direct_map ->
  (forall h' p', let free := free_frames (pr_pmm s) in
     let taken := if decide (96 <= length free)%nat then take 96 (rev free) else [] in
     ((96 <= length free)%nat -> free = free_frames p' ++ rev taken) -> pmm64_inv all (list_to_set taken ∪ held) p' ->
     (hs_initialized (heap64_state h') = true -> heap64_ready taken h') -> Q h' (s <| pr_pmm := p' |>)) ->
  wp (heap_init_on plan h) Q s.
Proof.
  intros Hi Hb Hbase HQ. unfold heap_init_on. rewrite Hbase.
  destruct (heap_init_ok all held (pr_pmm s) (pl_direct_map_bytes plan) (pl_direct_map_canonical plan) (h <| h64_pmm := pr_pmm s |>)) as ([] & h' & E & H); [done|done|done|].
  unfold wp. exists h', (s <| pr_pmm := h64_pmm h' |>). split; [by rewrite E|]. apply HQ; case_decide.
  - intros _. by destruct H as ((_ & H) & _).
  - done.
  - by destruct H as (_ & H & _).
  - rewrite list_to_set_nil, union_empty_l_L. by destruct H.
  - destruct H as (_ & _ & Hin & Hr). intros Ht. apply Hr. by rewrite <- Hin.
  - destruct H as [Hin _]. by rewrite Hin.
Qed.

(** A frame that the kernel reaches at its physical address: in the 1 GiB that boot32.asm
    and the builder map, and not in the 2 MiB that the builder gives to the program. *)
Definition identity_frame (q : Z) : Prop := q + 4096 <= 0x40000000 /\ ~ (0x400000 <= q < 0x600000).

(** The frames that the start can take, of the [frames] of the memory map: 16 for the
    tables, 96 for the heap and 12 for the shell, from the end. *)
Definition boot_frames (frames : list Z) : list Z := take 124 (rev frames).

(** What the kernel is started with: the frames the start takes can be reached, the others
    may be anywhere. *)
Record start_input (d : list Z) (boot : option framebuffer_info) (count : Z) (regions : list x86_64_memory_region) (kernel_end : Z) (s : process64) : Prop := {
  si_bytes : is_bytes d;
  si_small : Z.of_nat (length d) <= 0xFFFFFFFF;
  si_framebuffer : fb_ok boot;
  si_kernel : 0x100000 < kernel_end < 2 ^ 40;
  si_count : 0 <= count <= 32 /\ count <= Z.of_nat (length regions);
  si_regions : Forall region_ok regions;
  si_apart : NoDup (usable_frames kernel_end (take (Z.to_nat count) regions));
  si_stack : Z.of_nat (length (page_stack (pr_pmm s))) = 65536;
  si_reached : Forall identity_frame (boot_frames (take (Z.to_nat 65536) (usable_frames kernel_end (take (Z.to_nat count) regions))))
}.

(** Frames that are not free keep what is in them. *)
Lemma tables_kept (free pages : list Z) T m m' :
  length pages = 16%nat -> Forall frame_ok pages -> Forall frame_ok free -> (forall q, q ∈ free -> q ∉ pages) -> same_outside free m m' ->
  (forall t i, (t < 13)%nat -> 0 <= i < 512 -> word m (pg pages t) i = T t i) ->
  forall t i, (t < 13)%nat -> 0 <= i < 512 -> word m' (pg pages t) i = T t i.
Proof.
  intros Hl Hp Hf Hap Ho Hw t i Ht Hi. rewrite <- Hw by done. eapply same_outside_word; [exact Ho|apply pg_frame; [done|done|lia]| |done|done].
  intros Hq. apply (Hap _ Hq). eapply list_elem_of_lookup_2, pg_lookup; [done|lia].
Qed.

Lemma free_count all p (l1 l2 : list Z) :
  pmm64_inv all (list_to_set l1 ∪ list_to_set l2) p -> (length all <= length (free_frames p) + (length l1 + length l2))%nat.
Proof.
  intros Hi. rewrite <- (pi_split _ _ _ Hi), <- (length_app l1), length_app. apply Nat.add_le_mono_l, submseteq_length, NoDup_submseteq; [apply NoDup_elements|].
  intros q Hq. apply elem_of_elements in Hq. by rewrite elem_of_union, !elem_of_list_to_set, <- elem_of_app in Hq.
Qed.

(** The frames of the tables, and of the heap, which is initialized after them. *)
Definition boot_pages (frames : list Z) : list Z := take 16 (rev frames).
Definition boot_heap (frames : list Z) : list Z := if decide (112 <= length frames)%nat then take 96 (drop 16 (rev frames)) else [].

(** What a start leaves that finds [frames] in the memory map and the memory [m0]. *)
Record kernel64_started (reserve : Z) (d : list Z) (boot : option framebuffer_info) (kernel_end cr3 : Z) (frames : list Z) (m0 : gmap Z Z)
    (st : x86_64_paging_builder_state) (act : x86_64_paging_activation_state) (h : heap64) (started : bool) (s : process64) : Prop := {
  ks_started : started = bool_decide (16 <= length frames)%nat && bool_decide (is_Some (init_program d)) && (kernel_image_pages kernel_end <=? 512) &&
    (negb (fb_requested boot) || (0 <? fb_pages boot));
  ks_writes : same_outside (boot_frames frames) m0 (pr_mem s);
  ks_cr3 : pa_active_cr3 act = (if started then pb_pml4_table st else cr3) /\ pa_activation_ok act = started && negb (pb_pml4_table st =? cr3);
  ks_reached : started = true -> forall q x, q ∈ boot_frames frames -> 0 <= x < 4096 -> walk64 (pr_mem s) (pa_active_cr3 act) (q + x) = Some (q + x, (false, false));
  ks_heap : hs_initialized (heap64_state h) = true -> heap64_ready (boot_heap frames) h;
  ks_inv : started = true ->
    process64_inv frames (list_to_set (boot_heap frames) ∪ list_to_set (boot_pages frames)) (boot_kernel (boot_pages frames) d kernel_end boot) s;
  ks_private : started = true -> kernel_private (boot_kernel (boot_pages frames) d kernel_end boot);
  ks_walk : started = true -> forall va, walk64 (pr_mem s) (pb_pml4_table st) va =
    let page i := default 0 (boot_pages frames !! i) in boot_translation d kernel_end boot (page 13%nat) (page 14%nat) (page 15%nat) va;
  ks_shell : started = true -> (124 <= length frames)%nat -> next_pid64 s = 2 /\ exists i p, process64_table s !! i = Some p /\ p6_pid p = 1 /\
    p6_state p = X86_64_PROCESS_READY /\ p6_mode p = X86_64_PROCESS_MODE_KERNEL /\ p6_entry p = reserve
}.

(** What the heap takes after the builder. *)
Lemma heap_frames (frames left : list Z) :
  left = take (length frames - 16) frames -> (16 <= length frames)%nat ->
  (if decide (96 <= length left)%nat then take 96 (rev left) else []) = boot_heap frames.
Proof. unfold boot_heap. intros -> H. rewrite length_take, skipn_rev. repeat case_decide; done || lia. Qed.

(** The identity map in the builder's translation. *)
Lemma boot_identity d kernel_end boot c0 c1 stack q x :
  identity_frame q -> 0 < q -> q mod 4096 = 0 -> 0 <= x < 4096 -> boot_translation d kernel_end boot c0 c1 stack (q + x) = Some (q + x, (false, false)).
Proof.
  intros [Hb Hh] Hq Hm Hx. unfold boot_translation. change (2 ^ 39) with 549755813888. rewrite Z.div_small, (Z.mod_small (q + x)) by lia. cbn [Z.modulo Z.eqb].
  change (0 mod 512 =? 0) with true. cbv iota zeta. replace ((0x400000 <=? q + x) && (q + x <? 0x600000)) with false; [by rewrite (proj2 (Z.ltb_lt _ _)) by lia|].
  symmetry. apply andb_false_iff. rewrite Z.leb_gt, Z.ltb_ge. destruct (Z.lt_ge_cases q 0x400000); [left|right]; Z.div_mod_to_equations; lia.
Qed.

(** The frames of the tables, those of the heap and the next twelve are [boot_frames]. *)
Lemma boot_frames_parts (frames left free : list Z) :
  left = take (length frames - 16) frames -> (16 <= length frames)%nat -> (forall q, q ∈ free -> q ∈ frames) ->
  ((96 <= length left)%nat -> left = free ++ rev (boot_heap frames)) ->
  forall q, q ∈ boot_pages frames ++ take 12 (rev free) -> q ∈ boot_frames frames.
Proof.
  intros Hl H16 Hsub Happ q. unfold boot_frames. rewrite elem_of_app. intros [Hq|Hq].
  - unfold boot_pages in Hq. apply elem_of_take in Hq as (i & Hi & ?). apply elem_of_take. exists i. split; [done|lia].
  - destruct (decide (112 <= length frames)%nat) as [H|H].
    + assert (Hlen : length (boot_heap frames) = 96%nat) by (unfold boot_heap; rewrite decide_True by done; rewrite length_take, length_drop, length_rev; lia).
      assert (Hleft : (96 <= length left)%nat) by (rewrite Hl, length_take; lia). specialize (Happ Hleft).
      assert (Hr : drop 16 (rev frames) = rev left) by (rewrite Hl, skipn_rev; done).
      rewrite <- (take_drop 16 (rev frames)), Hr, Happ, rev_app_distr, rev_involutive. apply elem_of_take in Hq as (i & Hi & Hb).
      assert (Hp : length (take 16 (rev frames)) = 16%nat) by (rewrite length_take, length_rev; lia).
      apply elem_of_take. exists (112 + i)%nat. split; [|lia]. rewrite lookup_app_r by lia. rewrite lookup_app_r by lia. by replace (112 + i - _ - _)%nat with i by lia.
    + rewrite take_ge by (rewrite length_rev; lia). rewrite <- Permutation_rev. apply Hsub. exact (elem_of_take_rev _ _ _ Hq).
Qed.

Lemma start_with_frames reserve d boot kernel_end cr3 pp frames h s1 :
  boot_input d kernel_end boot pp -> Forall identity_frame (boot_frames frames) -> (forall q, q ∈ frames -> q < 35184372088832) -> pmm64_inv frames ∅ (pr_pmm s1) -> free_frames (pr_pmm s1) = frames ->
  reserve <> 0 ->
  wp (let plan := x86_64_paging_plan_init (boot_layout kernel_end) pp in
      paging_builder <- x86_64_paging_builder_init d (boot_layout kernel_end) plan boot ;;
      let act := x86_64_paging_builder_activate paging_builder cr3 in
      h <- heap_init_on plan h ;;
      started <- x86_64_user_mode_start reserve paging_builder 1 ;;
      mret_ (paging_builder, act, h, started))
    (fun '(st, act, h', started) => kernel64_started reserve d boot kernel_end cr3 frames (pr_mem s1) st act h' started) s1.
Proof.
  intros Hinput Hid Hsub Hpmm Hfree Hres. pose proof (bi_kernel _ _ _ _ Hinput) as Hk. cbv zeta.
  wp_step. apply (builder_init_ok frames ∅ d kernel_end boot pp Hsub Hinput s1 _ Hpmm); rewrite Hfree.
  - intros st s2 H16 pages Hp2 Hleft Hs2 Hbp. wp_step. eapply (heap_init_on_ok frames); [exact Hp2|exact Hsub|reflexivity|]. intros h' p'. cbv zeta.
    rewrite (heap_frames frames _ Hleft H16). fold (boot_pages frames) in pages. set (heap := boot_heap frames).
    rewrite union_empty_r_L. intros Happ Hp' Hheap. wp_step.
    assert (Hlen : length pages = 16%nat) by (unfold pages, boot_pages; rewrite length_take, length_rev; lia).
    assert (Hfr : Forall frame_ok pages) by (apply Forall_take, Forall_rev; rewrite <- Hfree; by apply (pmm_free_frames frames ∅ Hsub)).
    set (s3 := s2 <| pr_pmm := p' |>). eapply wp_mono; [eapply (user_mode_start_ok frames (list_to_set heap ∪ list_to_set pages) pages d kernel_end boot Hsub Hlen Hfr)|].
    + intros q Hq. apply elem_of_union. right. by apply elem_of_list_to_set.
    + exact Hbp.
    + reflexivity.
    + exact Hp'.
    + exact Hres.
    + intros r s4 (-> & Ho4 & Hr4). wp_step. change (pr_pmm s3) with p' in *. change (pr_mem s3) with (pr_mem s2) in *.
      assert (Hin : forall q, q ∈ pages ++ take 12 (rev (free_frames p')) -> q ∈ boot_frames frames).
      { apply (boot_frames_parts frames _ (free_frames p') Hleft H16); [|exact Happ]. intros q Hq. rewrite <- (pi_split _ _ _ Hp'). apply elem_of_app. by left. }
      assert (Hwalk : pb_builder_ok st = true -> forall va, walk64 (pr_mem s4) (pb_pml4_table st) va =
        boot_translation d kernel_end boot (default 0 (pages !! 13%nat)) (default 0 (pages !! 14%nat)) (default 0 (pages !! 15%nat)) va).
      { intros Hok va. rewrite (na_0 _ _ (bp_names _ _ _ _ _ _ _ Hbp)). apply walk_boot; [done|done|exact (bi_framebuffer _ _ _ _ Hinput)| |lia].
        eapply (tables_kept (take 12 (rev (free_frames p')))); [done|done| | |exact Ho4|exact (bp_tables _ _ _ _ _ _ _ Hbp)].
        - apply Forall_take, Forall_rev. by eapply (pmm_free_frames frames).
        - intros q Hq%elem_of_take_rev Hqp. apply (free_not_held _ _ _ q Hp' Hq). apply elem_of_union. right. by apply elem_of_list_to_set. }
      assert (Hal : is_page_aligned64 (pb_pml4_table st) = true) by (rewrite (na_0 _ _ (bp_names _ _ _ _ _ _ _ Hbp)); apply aligned_pg; [done|done|lia]).
      assert (Hcr3 : pa_active_cr3 (x86_64_paging_builder_activate st cr3) = (if pb_builder_ok st then pb_pml4_table st else cr3)) by (cbn; by rewrite Hal, andb_true_r).
      constructor; fold pages heap.
      * rewrite (bool_decide_eq_true_2 (16 <= length frames)%nat) by done. exact (bp_ok _ _ _ _ _ _ _ Hbp).
      * eapply same_outside_trans; (eapply same_outside_mono; [|eassumption || exact (bp_outside _ _ _ _ _ _ _ Hbp)]); intros q Hq; apply Hin, elem_of_app; [by left|by right].
      * split; [exact Hcr3|]. cbn. rewrite Hal, andb_true_r. destruct (pb_builder_ok st); [|done]. by rewrite Z.eqb_refl, andb_true_r.
      * intros Hok q x Hq Hx. rewrite Hcr3, Hok, Hwalk by done. rewrite Forall_forall in Hid. apply boot_identity; [by apply Hid| | |done];
          pose proof (pi_frames _ _ _ Hp') as Hfa; rewrite Forall_forall in Hfa; apply elem_of_take_rev, Hfa in Hq; tauto.
      * exact Hheap.
      * intros Hok. by destruct (Hr4 Hok) as (? & _).
      * intros _. by apply boot_kernel_private.
      * exact Hwalk.
      * intros Hok H124. destruct (Hr4 Hok) as (_ & Hshell). apply Hshell. pose proof (free_count _ _ _ _ Hp') as Hcount.
        assert (length heap <= 96)%nat by (unfold heap, boot_heap; case_decide; [rewrite length_take|cbn]; lia). lia.
  - intros st s2 H16 Hno Hp2 Hs2 Ho. wp_step. eapply (heap_init_on_ok frames); [exact Hp2|exact Hsub|reflexivity|]. intros h' p'. cbv zeta. intros _ _ Hheap. wp_step.
    unfold x86_64_user_mode_start, is_user_entry_ready. rewrite Hno. cbn [andb negb orb]. wp_step. wp_step.
    constructor; [by rewrite bool_decide_eq_false_2 by lia| | | | |done..].
    + eapply same_outside_mono; [|exact Ho]. intros q Hq. unfold boot_frames. rewrite take_ge by (rewrite length_rev; lia). by rewrite <- Permutation_rev.
    + cbn. by rewrite Hno.
    + done.
    + assert (Hn2 : length (free_frames (pr_pmm s2)) = length frames) by (rewrite <- (pi_split _ _ _ Hp2), elements_empty, app_nil_r; done).
      rewrite Hn2 in Hheap. unfold boot_heap. by rewrite !decide_False in * by lia.
Qed.

(** C12: the start of the 64-bit kernel, from the memory map to the first entry into user
    mode (memory plan, frame allocator, page tables, load of CR3, heap, processes), on
    memory maps whose last 124 usable frames lie below 1 GiB and not in 0x400000 to
    0x5FFFFF: it gets there exactly when sixteen frames are usable, the file is a valid
    program, the kernel fits 2 MiB and the framebuffer 1 GiB. It writes to those 124
    frames only, CR3 is then the builder's first table, and under it each of those
    frames is reached at its physical address, as the code accesses them. The invariant
    of the processes holds with the frames of the tables and the heap as the only ones
    taken, user code can reach nothing through the kernel's entries, the tables
    translate as [boot_translation] says, and the shell has process number 1 when 124
    frames were usable. A heap that is initialized has the 96 frames after those of the
    tables. When the start does not get there, CR3 is as it was. *)
Theorem kernel64_start_establishes reserve d boot count regions kernel_end cr3 h s
    (Hin : start_input d boot count regions kernel_end s) (Hres : reserve <> 0) :
  wp (kernel64_start reserve d boot count regions kernel_end cr3 h) (fun '(st, act, h', started) =>
    kernel64_started reserve d boot kernel_end cr3 (take (Z.to_nat 65536) (usable_frames kernel_end (take (Z.to_nat count) regions))) (pr_mem s) st act h' started) s.
Proof.
  destruct Hin as [Hb Hsm Hfb Hk Hc Hr Hnd Hst Hid]. change (2 ^ 40) with 1099511627776 in Hk. unfold kernel64_start. fold (boot_layout kernel_end). cbv zeta.
  set (regs := take (Z.to_nat count) regions) in *. assert (Hregs : Forall region_ok regs) by (by apply Forall_take).
  wp_step. apply pmm_plan_ok; [lia|lia|lia|done|]. fold regs. intros pp [P1 P2 P3]. wp_step. apply wp_pr_zoom.
  change (ml_kernel_end (boot_layout kernel_end)) with kernel_end. eapply wp_mono; [apply (pmm_init_tracked count regions kernel_end (pr_pmm s) Hst); [lia|clear -Hc; lia|done]|]. fold regs.
  intros [] p1 [Hini Htr]. pose proof (tracked_inv kernel_end regs p1 ltac:(lia) Htr Hini Hnd) as Hpmm. pose proof (tk_frames _ _ Htr) as Hfree.
  assert (Hsub : forall q, q ∈ take (Z.to_nat 65536) (usable_frames kernel_end regs) -> q < 35184372088832).
  { intros q Hq. apply elem_of_take in Hq as (j & Hq & _). eapply usable_frames_bound; [exact Hregs|by eapply list_elem_of_lookup_2]. }
  assert (Hinput : boot_input d kernel_end boot pp).
  { pose proof (usable_frames_length kernel_end regs ltac:(lia) Hregs) as Hn. assert (length regs <= 32)%nat by (unfold regs; rewrite length_take; clear -Hc; lia).
    constructor; [done|done|change (2 ^ 40) with 1099511627776; lia|done|]. rewrite P2, P3. change (2 ^ 52) with 4503599627370496. Z.div_mod_to_equations. lia. }
  eapply wp_mono; [by apply (start_with_frames reserve d boot kernel_end cr3 pp _ h (s <| pr_pmm := p1 |>) Hinput Hid)|]. by intros [[[? ?] ?] ?].
Qed.

Definition paging64_heap : heap64 :=
  {| h64_pmm := paging64_zero; heap64_state := heap64_zero; heap_physical_pages := []; heap_virtual_pages := []; heap_next_offset := 0; h64_mem := ∅ |}.

Lemma paging64_reached : Forall identity_frame (boot_frames paging64_frames).
Proof.
  apply Forall_forall. intros q Hq%elem_of_take_rev. apply list_elem_of_fmap in Hq as (i & -> & Hi). apply elem_of_seqZ in Hi. unfold identity_frame. lia.
Qed.

Lemma kernel64_start_establishes_witness :
  wp (kernel64_start 0x101000 (elf64_sample 62) (Some paging64_screen) 1 paging64_map 0x145432 0x109000 paging64_heap) (fun '(st, act, h, started) s' =>
    started = true /\ next_pid64 s' = 2 /\ walk64 (pr_mem s') (pa_active_cr3 act) 0x400002 = Some (0x2ba002, (true, false)) /\
    walk64 (pr_mem s') (pa_active_cr3 act) 0x2c7008 = Some (0x2c7008, (false, false))) paging64_boot.
Proof.
  assert (Hf : take (Z.to_nat 65536) (usable_frames 0x145432 (take (Z.to_nat 1) paging64_map)) = paging64_frames) by (vm_compute; reflexivity).
  eapply wp_mono; [apply (kernel64_start_establishes 0x101000 (elf64_sample 62) (Some paging64_screen) 1 paging64_map 0x145432 0x109000 paging64_heap paging64_boot)|].
  - constructor; [exact (elf64_sample_bytes 62)|vm_compute; discriminate|exact paging64_screen_ok|lia|cbn; lia|exact paging64_map_ok|exact paging64_nodup|vm_compute; reflexivity|].
    rewrite Hf. exact paging64_reached.
  - lia.
  - intros [[[st act] h] started] s'. rewrite Hf. intros [Hs _ [Hc _] Hr _ _ _ Hw Hsh]. replace started with true in * by (rewrite Hs; vm_compute; reflexivity).
    split; [done|]. split; [apply Hsh; [done|apply Nat.leb_le; vm_compute; reflexivity]|]. split; [rewrite Hc, (Hw eq_refl); vm_compute; reflexivity|].
    apply (Hr eq_refl 0x2c7000 8); [|lia]. apply elem_of_take. exists 0%nat. split; [vm_compute; reflexivity|lia].
Defined.
